(* ===== verification/_CoqProject ===== *)
-Q . S2P
Prelude.v
RustStd.v
External.v
Text.v
BTreeMap.v
SharedKernel.v
Repositories.v
Resources.v
NodeArtifacts.v
NodeInventory.v
NodeClaims.v
Workloads.v
ServiceTemplates.v
WorkloadRevisions.v
RevisionLifecycle.v
Deployments.v
Replicas.v
WorkloadControls.v
PlacementGroups.v
WorkloadOperations.v
WorkloadEvents.v
RuntimeBindings.v
ReplicaSets.v
ReplicaMaterialization.v
WorkloadRepository.v
WorkloadReplicaRepository.v
WorkloadProtocol.v
WorkloadCalls.v
WorkloadReplicaCalls.v
ReplicaSetPlans.v
WorkloadHistory.v
WorkloadGuarantees.v
GroupScheduling.v
WorkloadSamples.v
ResourceClaims.v
ResourceClaimLifecycle.v
ResourceRequirements.v
NodePools.v
NodePoolLifecycle.v
ClaimRepository.v
ClaimAllocation.v
ClaimGuarantees.v
NodeGateway.v
NodePluginHost.v
NodeBoxBuild.v
AgentProvider.v
AgentProviderRuns.v
NodeRunBindings.v
AgentProviderEvents.v
NodeCommands.v
NodeObservations.v
NodeSessions.v
LogRetention.v
Fleet.v
FleetRepository.v
FleetControl.v
FleetLifecycle.v
FleetFrame.v
FleetQueue.v
FleetGuarantees.v
FleetPools.v
FleetCertificates.v
FleetDelivery.v
FleetLogs.v
CommandJournal.v
JournalLifecycle.v
JournalGuarantees.v
JournalClaims.v
FleetAgent.v
OutboundBatches.v
LogShipping.v
LogDelivery.v
EventShipping.v
EventDelivery.v
JournalSamples.v
FleetSamples.v
ShippingSamples.v
