(* ===== verification/Prelude.v ===== *)
(** * A3S Cloud: the control plane's workloads and fleet, and the node agent's journal

    A3S Cloud runs services on a fleet of nodes.  A control plane keeps what should run (workloads,
    their revisions, deployments, replicas and placement), reserves hardware for it, and sends
    commands to the nodes; an agent on every node executes the commands, journals what it did and
    reports back.  This library models the state both sides keep and every operation that changes it,
    and proves what the two sides rely on.  Paths below are relative to [src/crates]; [CP] is
    [control-plane/src/modules].

    ** The parts and how they interact

    - A request creates a workload, a revision of it and a deployment of that revision
      ([CP/workloads/domain/entities], [workloads/domain/services]); the workload repository
      ([workloads/infrastructure/persistence/in_memory.rs]) stores them in one step, with the replicas
      of the workload, their members, the bindings between them, an outbox event and the answer under
      the idempotency key of the request.
    - Controllers then move these records: replicas are materialized as deployments, placement groups
      are planned and scheduled, members are placed on nodes, deployments are dispatched, verified
      and activated, replicas are evacuated and retired.  All of them go through calls of the repository.
    - Before a member runs on a node, resource claims reserve the slots of that node
      ([resource_claim.rs], [in_memory_resource_claims.rs]) and are prepared, bound and released by
      commands to the agent ([contracts/src/node/resource_claim.rs]).
    - The node repository ([CP/fleet]) enrolls nodes, authenticates their certificates, negotiates the
      protocol, keeps node pools and inventories, and queues, leases and closes the commands of every
      node.
    - The agent journals a command before it executes it, and its outcome after
      ([node-agent/src/journal.rs]); what it acknowledges is read from the journal.  After a restart
      the journal gives back the acknowledgement cursor, the generations and the active claims.
    - Logs and agent events travel the other way: a shipper keeps one pending batch in a state file and
      moves its cursor when the control plane's receipt matches the batch ([node-agent/src/log_shipper.rs],
      [agent_provider_event_shipper.rs], [outbound_batch.rs]).

    ** Files

    Foundations.
    - [Prelude]: results with the source's error texts, the [method] monad of a [&mut self] method
      (what was written before an error stays written), tactics and hint databases.
    - [RustStd], [Text], [BTreeMap]: what the source uses of the standard library, chrono and uuid:
      strings as UTF-8 bytes, orders and stable sorts, slices, ordered maps, timestamps in nanoseconds.
    - [External]: serde_json, sha2 and uuid as a class of functions with their documented laws, and a
      toy instance that satisfies them.
    - [SharedKernel] ([CP/shared_kernel/domain]); [Repositories]: the shape the in-memory repositories share.

    Workloads ([CP/workloads]).
    - [Workloads] ([workload.rs]), [ServiceTemplates] and [WorkloadRevisions] ([secret_binding.rs],
      [workload_revision.rs], [contracts/src/agent_release.rs]), [Deployments] ([deployment.rs]),
      [Replicas] ([workload_replica.rs]), [WorkloadControls] ([workload_control.rs]), [PlacementGroups]
      ([placement_group.rs] and the scheduling writes), [RuntimeBindings]
      ([runtime_execution_binding.rs], [workload_writer_fence.rs]): the aggregates, one record per struct and
      one definition per function.  [RevisionLifecycle] has the theorems about revisions.
    - [WorkloadOperations] and [WorkloadEvents]: the operations a call requests and the events of its outbox.
    - [ReplicaSets] ([replica_set_reconfiguration.rs]) with [ReplicaSetPlans], its functional
      specification; [ReplicaMaterialization] ([replica_deployment_materialization.rs]), the controller
      over the interface of the repository.
    - [WorkloadRepository] and [WorkloadReplicaRepository] ([in_memory.rs], every call of its eight traits).
    - [WorkloadProtocol]: the abstract specification, a relation of small changes of the stored records, and the
      invariant it keeps.  [WorkloadCalls], [WorkloadReplicaCalls] and [WorkloadHistory] show that every
      call is a sequence of such changes; [WorkloadGuarantees] and [GroupScheduling] have the theorems a
      client reads; [WorkloadSamples] a concrete history.

    Hardware ([contracts/src/resource.rs], [contracts/src/node], [CP/workloads], [CP/fleet]).
    - [Resources], [NodeInventory], [NodeClaims]: resource kinds, slots, inventories and claim messages.
    - [ResourceClaims] with [ResourceClaimLifecycle], [ResourceRequirements]: the claim aggregate and the
      compiler of requirements into slots.
    - [ClaimRepository] ([in_memory_resource_claims.rs]) with [ClaimAllocation] and [ClaimGuarantees]: the
      leases of slots, and that they behave as a table of locks.
    - [NodePools] with [NodePoolLifecycle] ([node_pool.rs]).

    Messages ([contracts/src/node], [contracts/src/agent_provider]).
    - [NodeArtifacts], [NodeGateway], [NodePluginHost], [NodeBoxBuild], [AgentProvider],
      [AgentProviderRuns], [AgentProviderEvents], [NodeRunBindings], [NodeCommands], [NodeObservations], [NodeSessions]: the
      contracts with their validators and digests.

    Fleet ([CP/fleet]).
    - [Fleet], [LogRetention]: entities, receipts and ranges of compacted log positions.
    - [FleetRepository], [FleetControl] ([in_memory.rs], [in_memory_session.rs], [in_memory_control.rs]).
    - [FleetLifecycle], [FleetFrame], [FleetQueue], [FleetGuarantees], [FleetPools], [FleetCertificates],
      [FleetDelivery], [FleetLogs]: histories of calls, the frame of each call, and the theorems.

    Node agent ([node-agent/src]).
    - [CommandJournal], [JournalLifecycle], [JournalGuarantees], [JournalClaims]: the journal file, its
      refinement of an append-only log, and what is recovered from it.
    - [FleetAgent]: the repository, the journal of one node and the network between them.
    - [OutboundBatches]: the trait of a batch, the pending batch and the state file; [LogShipping] with
      [LogDelivery] and [EventShipping] with [EventDelivery]: the two shippers, a whole pass included, and what
      they deliver.
    - [JournalSamples], [FleetSamples], [ShippingSamples]: concrete runs.

    ** What the theorems show

    - Workload repository: every call is a sequence of changes of the abstract protocol; every reachable
      state is consistent (no dangling reference, a member for every replica and a replica for every
      member, one deployment per generation of a replica, gapless revision generations); records are never removed or re-identified; a deployment is created once,
      whatever happens between two deliveries of its request; a refused call writes nothing, with one
      named exception; a member leaves its node only after its Runtime was fenced or before anything was
      dispatched; only the desired generation of a replica makes progress; a reconfiguration and the
      scheduling of a group do exactly what they say.
    - Aggregates: reachable revisions, deployments, replicas, claims and pools satisfy their
      invariants; the deployment lifecycle refines its state machine and terminates; generations
      fence stale bindings; a claim is released only with evidence.
    - Claim repository: an exclusive slot has one holder, shared capacity is never oversubscribed,
      the holders of the unshared slots are a lock table that each call moves by what its arguments and its
      answer say, and an accepted transition is always stored and touches no other lease.
    - Node repository: command sequences are dense, a lease is the next segment of the queue, an
      acknowledgement is final, a revoked node stays out, one certificate authenticates a node
      (a replaced one only repeats its own rotation), the scheduler sees what the pools say, log positions
      are written once, the protocol never goes back.
    - Journal: every crash of every call leaves a valid journal of the same log; an outcome is
      never replaced, generations never regress, a claim is released after its unit stopped.
    - Shippers: through failures and restarts the records of a log are received in strictly increasing
      order, the events of a run exactly once and without a hole, and a matching receipt is committed unless the
      file system or a cursor of the Runtime refuses it, which leaves the file as it was.
    - Both sides: what the repository stores as acknowledged is what the journal of the node holds,
      under a network that loses, repeats and reorders messages.

    ** Conventions, bounds and assumptions

    - A [u32] or [u64] is an [N] whose overflow is written where the code can reach it ([checked_add],
      [saturating_sub], the wrapping [+=] of a release build).  Times are [Z] nanoseconds.
    - Loops are structural recursions over the list the source iterates.  Three have a bound: the binary
      search of a slice ([bs_loop], the length of the slice), the acknowledgement cursor of the journal
      ([contiguous_loop], the number of entries; [contiguous_loop_spec] shows that it is enough) and
      [trim_start_matches_fuel] (the length of the string).
    - A call of an in-memory repository holds its lock from its first read to its last write, so it is
      one atomic step; histories are sequences of such steps in any order, failing or not.
    - [Uuid::new_v4], [Uuid::now_v7] and [Utc::now] are arguments of the calls.  Histories require that
      an identifier the application generates is new ([generated]); nothing else is assumed of a request.
    - Code outside the repository is a parameter: JSON text, SHA-256 and version 5 UUIDs ([External],
      with injectivity of the digests only where a theorem names [ExternalLaws]), ACL text, the A3S Code protocol,
      the plugin host protocol, Runtime specifications, and the manifest of a release.
    - Every theorem with hypotheses is applied at a concrete run, next to it or in a [Samples] file.
    - In the in-memory repository a workload with several members per replica comes from test seeding only
      ([create_deployment] refuses other topologies than a single node), so the theorem on scheduled
      groups is about every state whose keys agree with its records, not about reachable ones.

    ** Not modelled

    - PostgreSQL persistence, migrations, HTTP, MCP and CLI presentation, configuration and process
      wiring: they are I/O around the modelled calls or restate them in SQL.
    - Deployment workflows, reconciliation loops, OCI registry access and the rest of the node agent
      (drivers of containers, networks and files, the polling loop): they act on the outside world between
      modelled calls.  The shipper of A3S Code pages repeats the event shipper over types of another crate.
    - The other modules of the control plane (identity, applications, sources, edge, workflows,
      operations, inference, data and the like), which keep their own state behind the same kind of
      repository and do not take part in placement or command delivery. *)

From Stdlib Require Import ZArith NArith Lia String Ascii.
From stdpp Require Export base tactics option list numbers strings sorting.

#[export] Set Default Goal Selector "!".

(** ** Results and errors *)

(** An argument of a [format!] call. *)
Inductive fmt_arg :=
| FStr (s : string)
| FNum (n : N).

(** The error side of [Result<_, String>]: the literal of the [format!] call (or of the
    [.into()]), and the values it interpolates. *)
Record error := Error { template : string; args : list fmt_arg }.

Inductive result (A : Type) :=
| Ok (a : A)
| Err (e : error).
Arguments Ok {A} a.
Arguments Err {A} e.

#[export] Instance fmt_arg_eq_dec : EqDecision fmt_arg.
Proof. solve_decision. Defined.
#[export] Instance error_eq_dec : EqDecision error.
Proof. solve_decision. Defined.
#[export] Instance result_eq_dec `{EqDecision A} : EqDecision (result A).
Proof. solve_decision. Defined.

Definition err {A} (s : string) : result A := Err (Error s []).
Definition errf {A} (s : string) (l : list fmt_arg) : result A := Err (Error s l).

#[export] Instance result_ret : MRet result := fun A a => Ok a.
#[export] Instance result_bind : MBind result := fun A B f r =>
  match r with Ok a => f a | Err e => Err e end.

(** [if c { return Err(e) }] *)
Definition fail_if (c : bool) (s : string) : result unit :=
  if c then err s else Ok tt.

Definition ok {A} (r : result A) : option A :=
  match r with Ok a => Some a | Err _ => None end.

Definition ok_or {A} (o : option A) (s : string) : result A :=
  match o with Some a => Ok a | None => err s end.

(** [r.map_err(f)] *)
Definition map_err {A} (f : error -> error) (r : result A) : result A :=
  match r with Ok a => Ok a | Err e => Err (f e) end.

Definition is_ok {A} (r : result A) : bool :=
  match r with Ok _ => true | Err _ => false end.

(** [for x in xs { f(x)?; }] *)
Fixpoint for_each {A} (f : A -> result unit) (l : list A) : result unit :=
  match l with
  | [] => Ok tt
  | x :: r => f x ;; for_each f r
  end.

(** ** Mutating methods

    A Rust method [fn f(&mut self, ..) -> Result<A, String>] may have written some fields of
    [*self] before it returns [Err]: the final value of [*self] is part of both outcomes. *)
Definition method (S A : Type) : Type := S -> S * result A.

#[export] Instance method_ret {S} : MRet (method S) := fun A a s => (s, Ok a).
#[export] Instance method_bind {S} : MBind (method S) := fun A B f m s =>
  match m s with
  | (s', Ok a) => f a s'
  | (s', Err e) => (s', Err e)
  end.

Definition get {S} : method S S := fun s => (s, Ok s).
Definition modify {S} (f : S -> S) : method S unit := fun s => (f s, Ok tt).
Definition lift {S A} (r : result A) : method S A := fun s => (s, r).
Definition raise {S A} (msg : string) : method S A := fun s => (s, err msg).
Definition raisef {S A} (msg : string) (l : list fmt_arg) : method S A := fun s => (s, errf msg l).

(** The value of [*self] after the call, and the returned result. *)
Definition run_state {S A} (m : method S A) (s : S) : S := (m s).1.
Definition run_result {S A} (m : method S A) (s : S) : result A := (m s).2.

Lemma run_eq {S A} (m : method S A) s : m s = (run_state m s, run_result m s).
Proof. unfold run_state, run_result. by destruct (m s). Qed.

(** ** Record update: [r <| field := v |>] *)

(** The eta-expansion of a record, written with its projections: one instance per record. *)
Class Eta (R : Type) := eta : R -> R.

Class Setter {R E : Type} (proj : R -> E) := put_field : E -> R -> R.

Ltac derive_setter :=
  lazymatch goal with
  | |- @Setter ?R ?E ?proj =>
    let inst := constr:(_ : Eta R) in
    let body := eval red in inst in
    let body := eval unfold eta in body in
    lazymatch eval pattern proj in body with
    | ?abs _ =>
      let upd := eval cbv beta in (fun (v : E) (r : R) => abs (fun _ : R => v) r) in
      exact upd
    end
  end.

#[export] Hint Extern 0 (Setter _) => derive_setter : typeclass_instances.

(** ** Machine integers

    Unsigned integers are natural numbers; the operations that can leave their width say what
    happens there.  [+=] wraps, the behaviour of the workspace's release profile. *)
Definition u64_max : N := 18446744073709551615.
Definition u32_max : N := 4294967295.
Definition u16_max : N := 65535.

Definition in_u64 (n : N) : Prop := (n <= u64_max)%N.

Definition checked_add (a b : N) : option N :=
  if (a + b <=? u64_max)%N then Some (a + b)%N else None.
Definition saturating_add (a b : N) : N := N.min (a + b) u64_max.
Definition wrapping_add (a b : N) : N := ((a + b) mod (u64_max + 1))%N.

(** ** Options and Booleans *)
Definition is_some {A} (o : option A) : bool :=
  match o with Some _ => true | None => false end.
Definition is_none {A} (o : option A) : bool := negb (is_some o).
Definition is_some_and {A} (f : A -> bool) (o : option A) : bool :=
  match o with Some a => f a | None => false end.
Definition is_none_or {A} (f : A -> bool) (o : option A) : bool :=
  match o with Some a => f a | None => true end.

Definition any {A} (f : A -> bool) (l : list A) : bool := existsb f l.
Definition all {A} (f : A -> bool) (l : list A) : bool := forallb f l.
Definition len {A} (l : list A) : N := N.of_nat (length l).
Definition is_empty {A} (l : list A) : bool :=
  match l with [] => true | _ => false end.

(** [matches!(x, A | B | ..)] on constructors without fields *)
Definition matches {A} `{EqDecision A} (x : A) (l : list A) : bool := bool_decide (x ∈ l).

Declare Scope rust_scope.
Delimit Scope rust_scope with rs.
Notation "a == b" := (bool_decide (a = b)) (at level 35, no associativity) : rust_scope.
Notation "a != b" := (negb (bool_decide (a = b))) (at level 35, no associativity) : rust_scope.
Notation "r <| f := v |>" := (put_field (proj := f) v r)
  (at level 1, f constr at level 0, left associativity, format "r  <| f  :=  v |>") : rust_scope.
Open Scope rust_scope.

(** ** Proof automation *)

(** Boolean tests of the source as propositions. *)
Create Rewrite HintDb bools.
#[export] Hint Rewrite orb_true_iff orb_false_iff andb_true_iff andb_false_iff
  negb_true_iff negb_false_iff : bools.
#[export] Hint Rewrite @bool_decide_eq_true @bool_decide_eq_false : bools.
#[export] Hint Rewrite N.eqb_eq N.eqb_neq N.ltb_lt N.ltb_ge N.leb_le N.leb_gt : bools.
#[export] Hint Rewrite Z.eqb_eq Z.eqb_neq Z.ltb_lt Z.ltb_ge Z.leb_le Z.leb_gt : bools.

Ltac reflect_bools := autorewrite with bools in *.

(** Opens a chain of binds and tests: one goal per path of the source. *)
Ltac open_method :=
  repeat (unfold mret, result_ret, method_ret, mbind, result_bind, method_bind, get, modify,
    lift, raise, raisef, err, errf, fail_if, ok_or in *; simpl in *).

Ltac split_paths :=
  repeat (open_method; first [ progress simplify_eq/= | case_match ]).

(** Symbolic execution of a method: [H : m s = (s', r)] becomes one goal per path, with the
    tests taken on it in the context. *)
Ltac run_method H :=
  repeat first
    [ progress (unfold mret, result_ret, method_ret, mbind, result_bind, method_bind, get, modify,
                  lift, raise, raisef, err, errf, fail_if, ok_or in H;
                cbn beta iota zeta in H; cbn [fst snd] in H)
    | match type of H with
      | context [match ?x with _ => _ end] =>
        lazymatch x with
        | context [match _ with _ => _ end] => fail
        | _ => let E := fresh "E" in destruct x eqn:E
        end
      end ].

(** The same by rewriting, for records so large that unfolding a whole method is expensive: the
    equations of the monad are applied one statement at a time. *)
Section method_equations.
Context {S A B C : Type}.
Implicit Types (s : S) (b : bool).

Lemma bind_get (f : S -> method S B) s : (get ≫= f) s = f s s.
Proof. reflexivity. Qed.
Lemma bind_modify (g : S -> S) (f : unit -> method S B) s : (modify g ≫= f) s = f tt (g s).
Proof. reflexivity. Qed.
Lemma bind_lift (r : result A) (f : A -> method S B) s :
  (lift r ≫= f) s = match r with Ok a => f a s | Err e => (s, Err e) end.
Proof. reflexivity. Qed.
Lemma bind_raise msg (f : A -> method S B) s : ((raise msg : method S A) ≫= f) s = (s, err msg).
Proof. reflexivity. Qed.
Lemma bind_raisef msg l (f : A -> method S B) s : ((raisef msg l : method S A) ≫= f) s = (s, errf msg l).
Proof. reflexivity. Qed.
Lemma bind_ret (a : A) (f : A -> method S B) s : ((mret a : method S A) ≫= f) s = f a s.
Proof. reflexivity. Qed.
Lemma bind_assoc (m : method S A) (g : A -> method S B) (f : B -> method S C) s :
  ((m ≫= g) ≫= f) s = (m ≫= (fun a => g a ≫= f)) s.
Proof. unfold mbind, method_bind. by destruct (m s) as [s' []]. Qed.
Lemma bind_if b (m n : method S A) (f : A -> method S B) s :
  ((if b then m else n) ≫= f) s = if b then (m ≫= f) s else (n ≫= f) s.
Proof. by destruct b. Qed.
Lemma if_app b (m n : method S A) s : (if b then m else n) s = if b then m s else n s.
Proof. by destruct b. Qed.
Lemma modify_app (g : S -> S) s : modify g s = (g s, Ok tt).
Proof. reflexivity. Qed.
Lemma raise_app msg s : (raise msg : method S A) s = (s, err msg).
Proof. reflexivity. Qed.
Lemma raisef_app msg l s : (raisef msg l : method S A) s = (s, errf msg l).
Proof. reflexivity. Qed.
Lemma ret_app (a : A) s : (mret a : method S A) s = (s, Ok a).
Proof. reflexivity. Qed.
Lemma lift_app (r : result A) s : (lift r : method S A) s = (s, r).
Proof. reflexivity. Qed.
End method_equations.

Create Rewrite HintDb methods.
#[export] Hint Rewrite @bind_get @bind_modify @bind_lift @bind_raise @bind_raisef @bind_ret @bind_assoc
  @bind_if @if_app @modify_app @raise_app @raisef_app @ret_app @lift_app : methods.

Ltac exec_method H :=
  repeat first
    [ progress (autorewrite with methods in H; cbn beta zeta in H)
    | match type of H with
      | (if ?b then _ else _) = _ => let E := fresh "E" in destruct b eqn:E
      | match ?r with Ok _ => _ | Err _ => _ end = _ =>
        let E := fresh "E" in let r' := fresh "r" in
        first [ is_var r; destruct r | remember r as r' eqn:E; destruct r'; symmetry in E ]
      end ].

Lemma result_bind_Ok {A B} (r : result A) (f : A -> result B) b :
  (r ≫= f) = Ok b <-> exists a, r = Ok a /\ f a = Ok b.
Proof. destruct r; simpl; naive_solver. Qed.

Lemma fail_if_Ok c s u : fail_if c s = Ok u <-> c = false.
Proof. destruct c, u; unfold fail_if, err; split; congruence. Qed.

Lemma ok_or_Ok {A} (o : option A) msg a : ok_or o msg = Ok a <-> o = Some a.
Proof. destruct o; unfold ok_or, err; split; congruence. Qed.

Lemma ok_or_Err {A} (o : option A) msg e : ok_or o msg = Err e -> o = None.
Proof. destruct o; unfold ok_or; congruence. Qed.

Lemma then_Ok {B} (r : result unit) (f : unit -> result B) b :
  (r ≫= f) = Ok b <-> r = Ok tt /\ f tt = Ok b.
Proof. rewrite result_bind_Ok. split; [intros ([] & ? & ?)|]; naive_solver. Qed.

Lemma map_err_Ok {A} f (r : result A) a : map_err f r = Ok a <-> r = Ok a.
Proof. destruct r; simpl; naive_solver. Qed.

Lemma Ok_inj_iff {A} (a b : A) : Ok a = Ok b <-> a = b.
Proof. naive_solver. Qed.

Lemma unit_Ok (c : bool) (e : error) : (if c then Ok tt else Err e) = Ok tt <-> c = true.
Proof. destruct c; naive_solver. Qed.

Lemma unit_Err (c : bool) (e : error) : (if c then Err e else Ok tt) = Ok tt <-> c = false.
Proof. destruct c; naive_solver. Qed.

(** Successful sequences of checks as conjunctions. *)
Create Rewrite HintDb results.
#[export] Hint Rewrite @then_Ok fail_if_Ok @map_err_Ok @Ok_inj_iff unit_Ok unit_Err : results.

Ltac reflect_results := autorewrite with results in *.

Lemma for_each_Ok {A} (f : A -> result unit) l u :
  for_each f l = Ok u <-> Forall (fun x => f x = Ok tt) l.
Proof.
  destruct u. induction l as [|x l IH]; simpl; [split; auto|].
  rewrite result_bind_Ok, Forall_cons, <- IH. split.
  - intros ([] & ? & ?); auto.
  - intros [? ?]; eauto.
Qed.

Lemma checked_add_Some a b c : checked_add a b = Some c <-> c = (a + b)%N /\ (a + b <= u64_max)%N.
Proof. unfold checked_add. destruct (N.leb_spec (a + b) u64_max); split; intros; naive_solver lia. Qed.

Lemma checked_add_None a b : checked_add a b = None <-> (u64_max < a + b)%N.
Proof. unfold checked_add. destruct (N.leb_spec (a + b) u64_max); split; intros; naive_solver lia. Qed.

Lemma wrapping_add_small a b : (a + b <= u64_max)%N -> wrapping_add a b = (a + b)%N.
Proof. intros H. apply N.mod_small. lia. Qed.

(** ** Enumerations stored by name

    The enums of the source that are persisted have [as_str] and a [parse] that accepts exactly
    those names. *)
Class StrEnum (A : Type) := {
  as_str : A -> string;
  parse : string -> result A;
}.

Class StrEnumLaws (A : Type) `{StrEnum A} := {
  parse_as_str : forall a : A, parse (as_str a) = Ok a;
  parse_sound : forall s (a : A), parse s = Ok a -> s = as_str a;
}.

Lemma as_str_inj `{StrEnumLaws A} (a b : A) : as_str a = as_str b -> a = b.
Proof. intros E. pose proof (parse_as_str a) as Ha. rewrite E, parse_as_str in Ha. congruence. Qed.

(** Decides [parse_sound]: the literals are tried one after the other. *)
Ltac solve_str_enum :=
  split; [ intros []; vm_compute; reflexivity
         | intros s a; unfold parse; cbn; intros Hp;
           lazymatch type of Hp with ?f _ = _ => unfold f in Hp end;
           repeat case_match; simplify_eq/=; reflect_bools; subst; reflexivity ].
