(* ===== verification/RustStd.v ===== *)
(** * The parts of the Rust standard library, chrono and uuid the models use

    Strings as byte sequences ([len], [contains], [trim], [split], [strip_prefix]), the derived
    orders and the stable sort, the binary search of slices, and timestamps at nanosecond
    resolution. *)

From Stdlib Require Import ZArith NArith Lia String Ascii.
From S2P Require Import Prelude.

(** ** Strings

    A [&str] is the sequence of its UTF-8 bytes, so [len] counts bytes and the literals of the
    source are the literals of the model. *)
Definition byte_of (c : ascii) : N := N_of_ascii c.
Definition bytes_of (s : string) : list N := map byte_of (list_ascii_of_string s).
Definition str_of (l : list N) : string := string_of_list_ascii (map ascii_of_N l).
Definition str_len (s : string) : N := N.of_nat (String.length s).
Definition str_is_empty (s : string) : bool :=
  match s with EmptyString => true | _ => false end.

(** [value.chars().count()]: the bytes that do not continue a character. *)
Definition chars_count (s : string) : N :=
  len (List.filter (fun b => negb ((128 <=? b) && (b <? 192)))%N (bytes_of s)).

(** [value.contains(['\0', ..])]: the characters searched for are ASCII. *)
Definition contains_any (cs : list N) (s : string) : bool :=
  any (fun b => bool_decide (b ∈ cs)) (bytes_of s).
Definition NUL : N := 0.
Definition TAB : N := 9.
Definition LF : N := 10.
Definition CR : N := 13.

(** [char::is_whitespace] on the one, two and three byte encodings it accepts. *)
Definition ws1 (a : N) : bool := ((9 <=? a) && (a <=? 13) || (a =? 32))%N.
Definition ws2 (a b : N) : bool := ((a =? 194) && ((b =? 133) || (b =? 160)))%N.
Definition ws3 (a b c : N) : bool :=
  ((a =? 225) && (b =? 154) && (c =? 128)
   || (a =? 226) && (b =? 128)
      && ((128 <=? c) && (c <=? 138) || (c =? 168) || (c =? 169) || (c =? 175))
   || (a =? 226) && (b =? 129) && (c =? 159)
   || (a =? 227) && (b =? 128) && (c =? 128))%N.

Fixpoint trim_start_bytes (l : list N) : list N :=
  match l with
  | [] => []
  | a :: r =>
    if ws1 a then trim_start_bytes r
    else match r with
         | [] => l
         | b :: r' =>
           if ws2 a b then trim_start_bytes r'
           else match r' with
                | [] => l
                | c :: r'' => if ws3 a b c then trim_start_bytes r'' else l
                end
         end
  end.

(** The same on the reversed bytes: the last byte of a character comes first. *)
Fixpoint trim_end_rev (l : list N) : list N :=
  match l with
  | [] => []
  | a :: r =>
    if ws1 a then trim_end_rev r
    else match r with
         | [] => l
         | b :: r' =>
           if ws2 b a then trim_end_rev r'
           else match r' with
                | [] => l
                | c :: r'' => if ws3 c b a then trim_end_rev r'' else l
                end
         end
  end.

Definition trim_bytes (l : list N) : list N := rev (trim_end_rev (rev (trim_start_bytes l))).
Definition trim (s : string) : string := str_of (trim_bytes (bytes_of s)).

Fixpoint strip_prefix (p s : string) : option string :=
  match p, s with
  | EmptyString, _ => Some s
  | String a p', String b s' => if ascii_dec a b then strip_prefix p' s' else None
  | _, EmptyString => None
  end.

Definition is_ascii_digit (b : N) : bool := ((48 <=? b) && (b <=? 57))%N.
Definition is_ascii_lowercase (b : N) : bool := ((97 <=? b) && (b <=? 122))%N.
Definition is_ascii_uppercase (b : N) : bool := ((65 <=? b) && (b <=? 90))%N.
Definition is_ascii_alphanumeric (b : N) : bool :=
  is_ascii_digit b || is_ascii_lowercase b || is_ascii_uppercase b.
Definition is_lower_hex (b : N) : bool := is_ascii_digit b || ((97 <=? b) && (b <=? 102))%N.

(** [value.split(c)]: there is always at least one, possibly empty, segment. *)
Fixpoint split_bytes (sep : N) (l : list N) : list (list N) :=
  match l with
  | [] => [[]]
  | b :: r =>
    if (b =? sep)%N then [] :: split_bytes sep r
    else match split_bytes sep r with
         | [] => [[b]]
         | seg :: segs => (b :: seg) :: segs
         end
  end.

(** The digest syntax every bounded context checks: "sha256:" and 64 lowercase hex digits. *)
Definition is_sha256_digest (value : string) : bool :=
  match strip_prefix "sha256:" value with
  | Some hex => (str_len hex =? 64)%N && all is_lower_hex (bytes_of hex)
  | None => false
  end.

(** [str] order: lexicographic on bytes. *)
Fixpoint bytes_compare (a b : list N) : comparison :=
  match a, b with
  | [], [] => Eq
  | [], _ => Lt
  | _, [] => Gt
  | x :: a', y :: b' =>
    match N.compare x y with Eq => bytes_compare a' b' | c => c end
  end.
Definition str_compare (a b : string) : comparison := bytes_compare (bytes_of a) (bytes_of b).

(** ** Derived orders ([#[derive(PartialOrd, Ord)]]) *)
Class Ord (A : Type) := cmp : A -> A -> comparison.

Class OrdLaws (A : Type) `{Ord A} := {
  cmp_eq : forall a b : A, cmp a b = Eq -> a = b;
  cmp_opp : forall a b : A, cmp b a = CompOpp (cmp a b);
  cmp_trans : forall a b c : A, cmp a b = Lt -> cmp b c = Lt -> cmp a c = Lt;
}.

#[export] Instance N_ord : Ord N := N.compare.
#[export] Instance Z_ord : Ord Z := Z.compare.
#[export] Instance bytes_ord : Ord (list N) := bytes_compare.
#[export] Instance string_ord : Ord string := str_compare.
(** Tuples compare lexicographically. *)
#[export] Instance prod_ord `{Ord A, Ord B} : Ord (A * B) := fun x y =>
  match cmp x.1 y.1 with Eq => cmp x.2 y.2 | c => c end.

Definition ltb `{Ord A} (a b : A) : bool := match cmp a b with Lt => true | _ => false end.
Definition leb `{Ord A} (a b : A) : bool := match cmp a b with Gt => false | _ => true end.

(** [slice.sort_by_key(key)]: a stable sort. *)
Fixpoint insert_by {A K} `{Ord K} (key : A -> K) (x : A) (l : list A) : list A :=
  match l with
  | [] => [x]
  | y :: r => if leb (key x) (key y) then x :: l else y :: insert_by key x r
  end.
Definition sort_by_key {A K} `{Ord K} (key : A -> K) (l : list A) : list A :=
  foldr (insert_by key) [] l.

(** [vec.dedup()]: drops consecutive repetitions. *)
Fixpoint dedup `{EqDecision A} (l : list A) : list A :=
  match l with
  | [] => []
  | x :: r => match dedup r with
              | (y :: _) as r' => if bool_decide (x = y) then r' else x :: r'
              | [] => [x]
              end
  end.

(** [slice.windows(2).any(f)] *)
Fixpoint any_pair {A} (f : A -> A -> bool) (l : list A) : bool :=
  match l with
  | [] => false
  | x :: r => match r with [] => false | y :: _ => f x y || any_pair f r end
  end.

(** [slice.binary_search_by(f)], the loop of the standard library: [size] halves until one
    candidate is left.  [Ok] is the index of a match. *)
Fixpoint bs_loop {A} (f : A -> comparison) (l : list A) (fuel base size : nat) : nat :=
  match fuel with
  | O => base
  | S fuel =>
    if (1 <? size)%nat then
      let half := (size / 2)%nat in
      let mid := (base + half)%nat in
      let base := match f <$> l !! mid with Some Gt => base | _ => mid end in
      bs_loop f l fuel base (size - half)%nat
    else base
  end.
Definition binary_search_by {A} (f : A -> comparison) (l : list A) : option nat :=
  match l with
  | [] => None
  | _ => let base := bs_loop f l (length l) 0 (length l) in
         match f <$> l !! base with Some Eq => Some base | _ => None end
  end.
(** The same with the place of insertion: [Ok] is the index of a match, [Err] where one would go. *)
Definition binary_search_slot {A} (f : A -> comparison) (l : list A) : nat + nat :=
  match l with
  | [] => inr 0%nat
  | _ => let base := bs_loop f l (length l) 0 (length l) in
         match f <$> l !! base with
         | Some Eq => inl base
         | Some Lt => inr (S base)
         | _ => inr base
         end
  end.
Definition binary_search `{Ord A} (x : A) (l : list A) : option nat :=
  binary_search_by (fun y => cmp y x) l.

(** ** Identifiers and time *)

(** A [Uuid] is its 128-bit value; every identifier newtype of the source wraps one. *)
Abbreviation Uuid := N (only parsing).
Definition is_nil (u : Uuid) : bool := (u =? 0)%N.

(** A [DateTime<Utc>] is its distance from the Unix epoch in nanoseconds; leap seconds, which
    chrono represents with a nanosecond field of a second or more, are not modelled. *)
Abbreviation Time := Z (only parsing).
Definition nanosecond (t : Time) : Z := (t mod 1000000000)%Z.
Definition timestamp_millis (t : Time) : Z := (t / 1000000)%Z.
Definition seconds (n : Z) : Z := (n * 1000000000)%Z.
Definition hours (n : Z) : Z := seconds (n * 3600).
Definition days (n : Z) : Z := hours (n * 24).

Lemma any_false {A} (f : A -> bool) l : any f l = false <-> forall x, x ∈ l -> f x = false.
Proof.
  unfold any. rewrite <- not_true_iff_false, existsb_exists. split.
  - intros Hn x Hx. apply not_true_iff_false. intros E. apply Hn. exists x. split; [by apply list_elem_of_In|done].
  - intros Hall (x & Hx & E). rewrite Hall in E; [done|by apply list_elem_of_In].
Qed.

Lemma all_Forall {A} (f : A -> bool) l : all f l = true <-> Forall (fun x => f x = true) l.
Proof. unfold all. rewrite forallb_forall, Forall_forall. by setoid_rewrite list_elem_of_In. Qed.

Lemma strip_prefix_Some p s r : strip_prefix p s = Some r <-> s = (p ++ r)%string.
Proof.
  revert s. induction p as [|c p IH]; intros s; simpl; [naive_solver|].
  destruct s as [|c' s]; [done|]. destruct (ascii_dec c c') as [->|].
  - rewrite IH. split; [by intros ->|by intros [= ->]].
  - split; [done|]. intros [=]; congruence.
Qed.

Lemma bytes_of_app s t : bytes_of (s ++ t)%string = bytes_of s ++ bytes_of t.
Proof. unfold bytes_of. induction s as [|c s IH]; simpl; [done|]. by rewrite IH. Qed.

Lemma contains_any_false cs s : contains_any cs s = false <-> Forall (fun b => b ∉ cs) (bytes_of s).
Proof.
  unfold contains_any. rewrite any_false, Forall_forall. by setoid_rewrite bool_decide_eq_false.
Qed.

Lemma contains_any_incl cs cs' s :
  (forall b, b ∈ cs -> b ∈ cs') -> contains_any cs' s = false -> contains_any cs s = false.
Proof.
  intros Hincl. unfold contains_any, any. rewrite <- !not_true_iff_false, !existsb_exists.
  intros Hn (x & Hx & Hin). apply Hn. exists x. split; [done|]. reflect_bools. by apply Hincl.
Qed.

(** ** Laws of the orders *)
#[export] Instance N_ord_laws : OrdLaws N.
Proof.
  split; unfold cmp, N_ord.
  - intros a b. apply N.compare_eq_iff.
  - intros a b. apply N.compare_antisym.
  - intros a b c. rewrite !N.compare_lt_iff. lia.
Qed.

#[export] Instance Z_ord_laws : OrdLaws Z.
Proof.
  split; unfold cmp, Z_ord.
  - intros a b. apply Z.compare_eq_iff.
  - intros a b. apply Z.compare_antisym.
  - intros a b c. rewrite !Z.compare_lt_iff. lia.
Qed.

#[export] Instance bytes_ord_laws : OrdLaws (list N).
Proof.
  split; unfold cmp, bytes_ord.
  - induction a as [|x a IH]; intros [|y b]; simpl; try done.
    destruct (N.compare_spec x y); try done. intros ?%IH. congruence.
  - induction a as [|x a IH]; intros [|y b]; simpl; try done.
    rewrite (N.compare_antisym x y). destruct (N.compare_spec x y); simpl; auto.
  - induction a as [|x a IH]; intros [|y b] [|z c]; simpl; try done.
    destruct (N.compare_spec x y), (N.compare_spec y z), (N.compare_spec x z);
      subst; try done; try lia; eauto.
Qed.

Lemma str_of_bytes_of s : str_of (bytes_of s) = s.
Proof.
  unfold str_of, bytes_of, byte_of. rewrite map_map.
  rewrite <- (string_of_list_ascii_of_string s) at 2. f_equal.
  induction (list_ascii_of_string s) as [|c l IH]; simpl; [done|].
  by rewrite ascii_N_embedding, IH.
Qed.

Lemma str_len_bytes s : str_len s = len (bytes_of s).
Proof.
  unfold str_len, len, bytes_of. rewrite length_map. f_equal.
  induction s; simpl; auto.
Qed.

Lemma bytes_of_inj s s' : bytes_of s = bytes_of s' -> s = s'.
Proof. intros E. by rewrite <- (str_of_bytes_of s), E, str_of_bytes_of. Qed.

Lemma bytes_of_str_of l : Forall (fun b => b < 256)%N l -> bytes_of (str_of l) = l.
Proof.
  unfold str_of, bytes_of. rewrite list_ascii_of_string_of_list_ascii.
  induction 1 as [|b l Hb _ IH]; simpl; [done|]. unfold byte_of at 1.
  by rewrite N_ascii_embedding, IH.
Qed.

(** *** [trim] is idempotent *)

(** The list starts with an encoded white space, read forwards or backwards. *)
Definition lead (l : list N) : bool :=
  match l with
  | [] => false
  | a :: r => ws1 a || match r with
                       | [] => false
                       | b :: r' => ws2 a b || match r' with [] => false | c :: _ => ws3 a b c end
                       end
  end.
Definition lead_rev (l : list N) : bool :=
  match l with
  | [] => false
  | a :: r => ws1 a || match r with
                       | [] => false
                       | b :: r' => ws2 b a || match r' with [] => false | c :: _ => ws3 c b a end
                       end
  end.

Lemma trim_start_fixed l : lead l = false -> trim_start_bytes l = l.
Proof.
  destruct l as [|a [|b [|c l]]]; simpl; try done.
  - by destruct (ws1 a).
  - by destruct (ws1 a), (ws2 a b).
  - by destruct (ws1 a), (ws2 a b), (ws3 a b c).
Qed.

Lemma trim_end_fixed l : lead_rev l = false -> trim_end_rev l = l.
Proof.
  destruct l as [|a [|b [|c l]]]; simpl; try done.
  - by destruct (ws1 a).
  - by destruct (ws1 a), (ws2 b a).
  - by destruct (ws1 a), (ws2 b a), (ws3 c b a).
Qed.

Lemma trim_start_lead l : lead (trim_start_bytes l) = false.
Proof.
  remember (length l) as n eqn:Hn. revert l Hn. induction n as [n IH] using lt_wf_ind. intros l ->.
  destruct l as [|a r]; [done|]. cbn [trim_start_bytes].
  destruct (ws1 a) eqn:E1; [by apply (IH (length r)); simpl; [lia|]|].
  destruct r as [|b r']; [simpl; by rewrite E1|].
  destruct (ws2 a b) eqn:E2; [by apply (IH (length r')); simpl; [lia|]|].
  destruct r' as [|c r'']; [simpl; by rewrite E1, E2|].
  destruct (ws3 a b c) eqn:E3; [by apply (IH (length r'')); simpl; [lia|]|].
  simpl. by rewrite E1, E2, E3.
Qed.

Lemma trim_end_lead l : lead_rev (trim_end_rev l) = false.
Proof.
  remember (length l) as n eqn:Hn. revert l Hn. induction n as [n IH] using lt_wf_ind. intros l ->.
  destruct l as [|a r]; [done|]. cbn [trim_end_rev].
  destruct (ws1 a) eqn:E1; [by apply (IH (length r)); simpl; [lia|]|].
  destruct r as [|b r']; [simpl; by rewrite E1|].
  destruct (ws2 b a) eqn:E2; [by apply (IH (length r')); simpl; [lia|]|].
  destruct r' as [|c r'']; [simpl; by rewrite E1, E2|].
  destruct (ws3 c b a) eqn:E3; [by apply (IH (length r'')); simpl; [lia|]|].
  simpl. by rewrite E1, E2, E3.
Qed.

Lemma trim_end_suffix l : exists p, l = p ++ trim_end_rev l.
Proof.
  remember (length l) as n eqn:Hn. revert l Hn. induction n as [n IH] using lt_wf_ind. intros l ->.
  destruct l as [|a r]; [by exists []|]. cbn [trim_end_rev].
  destruct (ws1 a). { destruct (IH (length r)) with r as [p E]; [simpl; lia|done|]. exists (a :: p). simpl. by f_equal. }
  destruct r as [|b r']; [by exists []|].
  destruct (ws2 b a). { destruct (IH (length r')) with r' as [p E]; [simpl; lia|done|]. exists (a :: b :: p). simpl. by do 2 f_equal. }
  destruct r' as [|c r'']; [by exists []|].
  destruct (ws3 c b a); [|by exists []].
  destruct (IH (length r'')) with r'' as [p E]; [simpl; lia|done|]. exists (a :: b :: c :: p). simpl. by do 3 f_equal.
Qed.

(** What is left after the end is cut still starts with the same characters. *)
Lemma lead_prefix l r : lead (l ++ r) = false -> lead l = false.
Proof.
  destruct l as [|a [|b [|c l]]]; simpl; try done.
  - by destruct (ws1 a).
  - destruct (ws1 a), (ws2 a b); done.
Qed.

Lemma trim_bytes_idemp l : trim_bytes (trim_bytes l) = trim_bytes l.
Proof.
  unfold trim_bytes. set (m := trim_start_bytes l).
  destruct (trim_end_suffix (rev m)) as [p E]. set (e := trim_end_rev (rev m)) in *.
  assert (m = rev e ++ rev p) as Em by (by rewrite <- rev_app_distr, <- E, rev_involutive).
  rewrite (trim_start_fixed (rev e)), rev_involutive.
  - f_equal. apply trim_end_fixed, trim_end_lead.
  - apply (lead_prefix _ (rev p)). rewrite <- Em. apply trim_start_lead.
Qed.

Lemma bytes_of_small s : Forall (fun b => b < 256)%N (bytes_of s).
Proof.
  unfold bytes_of. apply Forall_fmap, Forall_forall. intros c _. unfold compose, byte_of. apply N_ascii_bounded.
Qed.

Lemma trim_start_suffix l : exists p, l = p ++ trim_start_bytes l.
Proof.
  remember (length l) as n eqn:Hn. revert l Hn. induction n as [n IH] using lt_wf_ind. intros l ->.
  destruct l as [|a r]; [by exists []|]. cbn [trim_start_bytes].
  destruct (ws1 a). { destruct (IH (length r)) with r as [p E]; [simpl; lia|done|]. exists (a :: p). simpl. by f_equal. }
  destruct r as [|b r']; [by exists []|].
  destruct (ws2 a b). { destruct (IH (length r')) with r' as [p E]; [simpl; lia|done|]. exists (a :: b :: p). simpl. by do 2 f_equal. }
  destruct r' as [|c r'']; [by exists []|].
  destruct (ws3 a b c); [|by exists []].
  destruct (IH (length r'')) with r'' as [p E]; [simpl; lia|done|]. exists (a :: b :: c :: p). simpl. by do 3 f_equal.
Qed.

Lemma bytes_of_trim s : bytes_of (trim s) = trim_bytes (bytes_of s).
Proof.
  unfold trim. apply bytes_of_str_of. unfold trim_bytes. pose proof (bytes_of_small s) as Hb.
  destruct (trim_start_suffix (bytes_of s)) as [p Ep]. set (m := trim_start_bytes (bytes_of s)) in *.
  rewrite Ep, Forall_app in Hb. destruct Hb as [_ Hm].
  destruct (trim_end_suffix (rev m)) as [q Eq]. rewrite <- (rev_involutive m), Eq, rev_app_distr in Hm.
  rewrite Forall_app in Hm. tauto.
Qed.

Lemma trim_idemp s : trim (trim s) = trim s.
Proof. unfold trim at 1. by rewrite bytes_of_trim, trim_bytes_idemp. Qed.

#[export] Instance string_ord_laws : OrdLaws string.
Proof.
  split; unfold cmp, string_ord, str_compare.
  - intros a b H. apply bytes_of_inj. by apply (cmp_eq (A := list N)).
  - intros a b. apply (cmp_opp (A := list N)).
  - intros a b c. apply (cmp_trans (A := list N)).
Qed.

Section ord_lemmas.
Context `{OrdLaws A}.
Implicit Types a b c : A.

Lemma cmp_refl a : cmp a a = Eq.
Proof. pose proof (cmp_opp a a) as E. by destruct (cmp a a). Qed.

Lemma cmp_eq_iff a b : cmp a b = Eq <-> a = b.
Proof. split; [apply cmp_eq|intros ->; apply cmp_refl]. Qed.

Lemma cmp_gt_lt a b : cmp a b = Gt <-> cmp b a = Lt.
Proof. rewrite (cmp_opp a b). destruct (cmp a b); simpl; split; congruence. Qed.

Lemma leb_refl a : leb a a = true.
Proof. unfold leb. by rewrite cmp_refl. Qed.

Lemma ltb_irrefl a : ltb a a = false.
Proof. unfold ltb. by rewrite cmp_refl. Qed.

Lemma leb_total a b : leb a b = false -> leb b a = true.
Proof. unfold leb. rewrite (cmp_opp a b). by destruct (cmp a b). Qed.

Lemma leb_antisym a b : leb a b = true -> leb b a = true -> a = b.
Proof.
  unfold leb. rewrite (cmp_opp a b). intros. apply cmp_eq. by destruct (cmp a b).
Qed.

Lemma ltb_trans a b c : ltb a b = true -> ltb b c = true -> ltb a c = true.
Proof.
  unfold ltb. destruct (cmp a b) eqn:?, (cmp b c) eqn:?; try done.
  by erewrite cmp_trans.
Qed.

Lemma leb_trans a b c : leb a b = true -> leb b c = true -> leb a c = true.
Proof.
  unfold leb. destruct (cmp a b) eqn:E1; try done; destruct (cmp b c) eqn:E2; try done.
  - apply cmp_eq in E1, E2. subst. by rewrite cmp_refl.
  - apply cmp_eq in E1. subst. by rewrite E2.
  - apply cmp_eq in E2. subst. by rewrite E1.
  - by erewrite cmp_trans.
Qed.

Lemma ltb_leb a b : ltb a b = true -> leb a b = true.
Proof. unfold ltb, leb. by destruct (cmp a b). Qed.

Lemma leb_ltb a b : leb a b = negb (ltb b a).
Proof. unfold leb, ltb. rewrite (cmp_opp a b). by destruct (cmp a b). Qed.

Lemma ltb_neq a b : ltb a b = true -> a <> b.
Proof. intros H1 ->. by rewrite ltb_irrefl in H1. Qed.
End ord_lemmas.

#[export] Instance prod_ord_laws `{OrdLaws A, OrdLaws B} : OrdLaws (A * B).
Proof.
  split; change (@cmp (A * B) prod_ord) with
    (fun x y : A * B => match cmp x.1 y.1 with Eq => cmp x.2 y.2 | c => c end).
  - intros [a b] [a' b']; simpl. destruct (cmp a a') eqn:E; try done.
    intros E'. apply cmp_eq in E, E'. by subst.
  - intros [a b] [a' b']; simpl. rewrite (cmp_opp a a').
    destruct (cmp a a') eqn:E; simpl; try done. apply cmp_opp.
  - intros [a b] [a' b'] [a'' b'']; simpl.
    destruct (cmp a a') eqn:E1; try done; destruct (cmp a' a'') eqn:E2; try done.
    + apply cmp_eq in E1, E2. subst. rewrite cmp_refl. apply cmp_trans.
    + apply cmp_eq in E1. subst. by rewrite E2.
    + apply cmp_eq in E2. subst. by rewrite E1.
    + by rewrite (cmp_trans _ _ _ E1 E2).
Qed.

(** ** The sort is a sorted permutation, and unique when the keys are distinct *)
Section sort_lemmas.
Context {A K : Type} `{OrdLaws K} (key : A -> K).

Definition key_le (x y : A) : Prop := leb (key x) (key y) = true.
Definition key_lt (x y : A) : Prop := ltb (key x) (key y) = true.

#[export] Instance key_le_trans : Transitive key_le.
Proof. intros x y z. apply leb_trans. Qed.
#[export] Instance key_lt_trans : Transitive key_lt.
Proof. intros x y z. apply ltb_trans. Qed.

Lemma insert_by_perm x l : insert_by key x l ≡ₚ x :: l.
Proof.
  induction l as [|y l IH]; simpl; [done|]. destruct (leb _ _); [done|].
  rewrite IH. apply Permutation_swap.
Qed.

Lemma sort_by_key_perm l : sort_by_key key l ≡ₚ l.
Proof. induction l as [|x l IH]; simpl; [done|]. by rewrite insert_by_perm, IH. Qed.

Lemma insert_by_sorted x l : StronglySorted key_le l -> StronglySorted key_le (insert_by key x l).
Proof.
  induction 1 as [|y l Hs IH Hy]; simpl; [by repeat constructor|].
  destruct (leb (key x) (key y)) eqn:E.
  - constructor; [by constructor|]. constructor; [done|].
    eapply Forall_impl; [done|]. intros z. by apply leb_trans.
  - constructor; [done|]. rewrite insert_by_perm. constructor; [by apply leb_total|done].
Qed.

Lemma sort_by_key_sorted l : StronglySorted key_le (sort_by_key key l).
Proof. induction l; simpl; [constructor|]. by apply insert_by_sorted. Qed.

Lemma sort_by_key_id l : StronglySorted key_le l -> sort_by_key key l = l.
Proof.
  induction 1 as [|x l Hs IH Hx]; simpl; [done|]. rewrite IH.
  destruct l as [|y l]; simpl; [done|]. inversion_clear Hx as [|? ? Hxy]. by rewrite Hxy.
Qed.

Lemma sort_by_key_unique l l' :
  NoDup (key <$> l) -> l ≡ₚ l' -> sort_by_key key l = sort_by_key key l'.
Proof.
  intros Hnd Hp. apply (StronglySorted_unique_strong key_le); [|apply sort_by_key_sorted..|].
  - intros x y Hx Hy H1 H2. rewrite sort_by_key_perm in Hx. rewrite sort_by_key_perm, <- Hp in Hy.
    apply list_elem_of_lookup in Hx as [i Hi], Hy as [j Hj].
    assert (i = j) as ->; [|congruence].
    eapply (NoDup_lookup (key <$> l)); [done|by rewrite list_lookup_fmap, Hi|].
    rewrite list_lookup_fmap, Hj. simpl. f_equal. by apply leb_antisym.
  - by rewrite !sort_by_key_perm.
Qed.

Lemma key_lt_le l : StronglySorted key_lt l -> StronglySorted key_le l.
Proof.
  induction 1; constructor; [done|]. eapply Forall_impl; [done|]. intros y. apply ltb_leb.
Qed.

Lemma strictly_sorted_of_NoDup l :
  NoDup (key <$> l) -> StronglySorted key_le l -> StronglySorted key_lt l.
Proof.
  intros Hnd Hs. revert Hnd. induction Hs as [|x l _ IH Hx]; intros Hnd; [constructor|].
  inversion_clear Hnd as [|? ? Hnin Hnd']. constructor; [auto|].
  rewrite Forall_forall in Hx |- *. intros y Hy. specialize (Hx y Hy). unfold key_le, key_lt in *.
  unfold leb, ltb in *. destruct (cmp (key x) (key y)) eqn:E; try done.
  apply cmp_eq in E. destruct Hnin. rewrite E. by apply list_elem_of_fmap_2.
Qed.

Lemma key_lt_NoDup l : StronglySorted key_lt l -> NoDup (key <$> l).
Proof.
  induction 1 as [|x l _ IH Hx]; simpl; constructor; [|done].
  rewrite list_elem_of_fmap. intros (y & E & Hy). rewrite Forall_forall in Hx.
  specialize (Hx y Hy). unfold key_lt in Hx. by rewrite E, ltb_irrefl in Hx.
Qed.

(** ** The binary search finds exactly the members of a strictly sorted slice *)
Definition search_mono {B} (f : B -> comparison) (l : list B) : Prop :=
  forall i j x y, (i < j)%nat -> l !! i = Some x -> l !! j = Some y -> f y <> Gt -> f x = Lt.

Lemma bs_loop_spec {B} (f : B -> comparison) l fuel base size i x :
  search_mono f l -> (size <= S fuel)%nat -> (base + size <= length l)%nat ->
  l !! i = Some x -> f x = Eq -> (base <= i < base + size)%nat ->
  bs_loop f l fuel base size = i.
Proof.
  intros Hm. revert base size. induction fuel as [|fuel IH]; intros base size Hf Hb Hi Hx Hin;
    cbn [bs_loop]; [lia|].
  destruct (Nat.ltb_spec 1 size) as [H1|H1]; [|lia].
  assert (1 <= size / 2 /\ size / 2 + size / 2 <= size)%nat as [Hh1 Hh2]
    by (pose proof (Nat.div_mod_eq size 2); pose proof (Nat.mod_upper_bound size 2); lia).
  generalize dependent (size / 2)%nat. intros h Hh1 Hh2.
  destruct (lookup_lt_is_Some_2 l (base + h)) as [m Hmid]; [lia|].
  rewrite Hmid; simpl. destruct (decide (i < base + h)%nat) as [Hlt|Hge].
  - destruct (f m) eqn:Em; [| |apply IH; try done; lia];
      rewrite (Hm i _ x m) in Hx by (done || congruence); done.
  - destruct (f m) eqn:Em; [apply IH; try done; lia..|].
    destruct (decide (i = base + h)%nat) as [->|]; [congruence|].
    rewrite (Hm (base + h)%nat i m x) in Em by (done || lia || congruence). done.
Qed.

Lemma binary_search_by_Some {B} (f : B -> comparison) l i :
  binary_search_by f l = Some i -> exists x, l !! i = Some x /\ f x = Eq.
Proof.
  unfold binary_search_by. destruct l as [|y l]; [done|].
  destruct (_ !! bs_loop _ _ _ _ _) as [x|] eqn:E; simpl; [|done].
  destruct (f x) eqn:Ef; intros; simplify_eq; eauto.
Qed.

Lemma binary_search_by_found {B} (f : B -> comparison) l i x :
  search_mono f l -> l !! i = Some x -> f x = Eq -> binary_search_by f l = Some i.
Proof.
  intros Hm Hi Hx. unfold binary_search_by. destruct l as [|y l]; [done|].
  pose proof (lookup_lt_Some _ _ _ Hi).
  by rewrite (bs_loop_spec f (y :: l) _ 0 _ i x), Hi by (done || simpl in *; lia); simpl; rewrite Hx.
Qed.

(** Where the loop stops everything before is smaller and everything after is greater. *)
Lemma bs_loop_bounds {B} (f : B -> comparison) l fuel base size :
  search_mono f l -> (size <= S fuel)%nat -> (1 <= size)%nat -> (base + size <= length l)%nat ->
  (forall i x, (i < base)%nat -> l !! i = Some x -> f x = Lt) ->
  (forall i x, (base + size <= i)%nat -> l !! i = Some x -> f x = Gt) ->
  (bs_loop f l fuel base size < length l)%nat
  /\ (forall i x, (i < bs_loop f l fuel base size)%nat -> l !! i = Some x -> f x = Lt)
  /\ (forall i x, (bs_loop f l fuel base size < i)%nat -> l !! i = Some x -> f x = Gt).
Proof.
  intros Hm. revert base size. induction fuel as [|fuel IH]; intros base size Hf H1 Hb Hlo Hhi; cbn [bs_loop].
  { split_and!; [lia|done|]. intros i x Hi. apply Hhi. lia. }
  destruct (Nat.ltb_spec 1 size) as [Hs|Hs]; [|split_and!; [lia|done|]; intros i x Hi; apply Hhi; lia].
  assert (1 <= size / 2 /\ size / 2 + size / 2 <= size)%nat as [Hh1 Hh2]
    by (pose proof (Nat.div_mod_eq size 2); pose proof (Nat.mod_upper_bound size 2); lia).
  generalize dependent (size / 2)%nat. intros h Hh1 Hh2.
  destruct (lookup_lt_is_Some_2 l (base + h)) as [m Hmid]; [lia|]. rewrite Hmid; simpl.
  destruct (decide (f m = Gt)) as [Eg|Ng].
  - rewrite Eg. apply IH; [lia..|done|]. intros i x Hi Hx.
    destruct (decide (i = base + h)%nat) as [->|]; [congruence|].
    destruct (decide (f x = Gt)) as [|Nx]; [done|]. rewrite (Hm (base + h)%nat i m x) in Eg; done || lia.
  - replace (match f m with Gt => base | _ => (base + h)%nat end) with (base + h)%nat by by destruct (f m).
    apply IH; [lia..| |].
    + intros i x Hi Hx. by apply (Hm i (base + h)%nat x m).
    + intros i x Hi. apply Hhi. lia.
Qed.

Lemma binary_search_slot_inl {B} (f : B -> comparison) l i :
  binary_search_slot f l = inl i -> exists x, l !! i = Some x /\ f x = Eq.
Proof.
  unfold binary_search_slot. destruct l as [|y l]; [done|].
  destruct (_ !! bs_loop _ _ _ _ _) as [x|] eqn:E; simpl; [|done].
  destruct (f x) eqn:Ef; intros; simplify_eq; eauto.
Qed.

Lemma binary_search_slot_inr {B} (f : B -> comparison) l i :
  search_mono f l -> binary_search_slot f l = inr i ->
  Forall (fun x => f x = Lt) (take i l) /\ Forall (fun x => f x = Gt) (drop i l).
Proof.
  intros Hm. unfold binary_search_slot. destruct l as [|y l]; [intros [= <-]; split; constructor|].
  destruct (bs_loop_bounds f (y :: l) (length (y :: l)) 0 (length (y :: l)) Hm) as (Hb & Hlo & Hhi);
    [simpl; lia..| | |].
  { intros ??; lia. }
  { intros j x Hj Hx. apply lookup_lt_Some in Hx. lia. }
  generalize dependent (bs_loop f (y :: l) (length (y :: l)) 0 (length (y :: l))). intros b Hb Hlo Hhi.
  destruct (lookup_lt_is_Some_2 (y :: l) b Hb) as [m Em]. rewrite Em; simpl.
  assert (forall i, (forall j x, (j < i)%nat -> (y :: l) !! j = Some x -> f x = Lt) ->
                    (forall j x, (i <= j)%nat -> (y :: l) !! j = Some x -> f x = Gt) ->
    Forall (fun x => f x = Lt) (take i (y :: l)) /\ Forall (fun x => f x = Gt) (drop i (y :: l))) as Hsplit.
  { clear. intros i Hlo Hhi. split; apply Forall_lookup; intros j x.
    - rewrite lookup_take_Some. intros [Hx Hj]. by eapply Hlo.
    - rewrite lookup_drop. apply Hhi. lia. }
  destruct (f m) eqn:Ef; intros [= <-]; apply Hsplit; intros j x Hj Hx.
  - destruct (decide (j = b)) as [->|]; [congruence|]. apply (Hlo j); [lia|done].
  - apply (Hhi j); [lia|done].
  - by apply (Hlo j).
  - destruct (decide (j = b)) as [->|]; [congruence|]. apply (Hhi j); [lia|done].
Qed.

Lemma sorted_search_mono l k : StronglySorted key_lt l -> search_mono (fun y => cmp (key y) k) l.
Proof.
  intros Hs i j x y Hij Hi Hj Hy.
  assert (ltb (key x) (key y) = true) as Hxy.
  { revert i j Hij Hi Hj. induction Hs as [|z l Hs IH Hz]; intros [|i] [|j] Hij Hi Hj; try done;
      try lia; simplify_eq/=.
    - rewrite Forall_forall in Hz. apply Hz. by eapply list_elem_of_lookup_2.
    - apply (IH i j); [lia|done..]. }
  unfold ltb in Hxy. destruct (cmp (key x) (key y)) eqn:E; try done.
  destruct (cmp (key y) k) eqn:E'; try done.
  - apply cmp_eq in E'. by subst.
  - by erewrite cmp_trans.
Qed.

Lemma binary_search_by_key_iff l k :
  StronglySorted key_lt l ->
  is_some (binary_search_by (fun y => cmp (key y) k) l) = true <-> k ∈ key <$> l.
Proof.
  intros Hs. rewrite list_elem_of_fmap. split.
  - destruct (binary_search_by _ _) as [i|] eqn:E; [|done]. intros _.
    apply binary_search_by_Some in E as (x & Hx & Ex). apply cmp_eq in Ex.
    exists x. split; [done|]. by eapply list_elem_of_lookup_2.
  - intros (x & -> & [i Hi]%list_elem_of_lookup).
    erewrite binary_search_by_found; [done|by apply sorted_search_mono|done|apply cmp_refl].
Qed.
End sort_lemmas.
