(* ===== verification/External.v ===== *)
(** * Third-party code the models call

    serde_json, sha2 and uuid are not part of the repository.  What the source takes from them is
    the class [External]; what it relies on is [ExternalLaws], stated from their documentation.
    Theorems that need a law take the instance as a hypothesis; [toy_external] shows that the laws
    can hold together. *)

From Stdlib Require Import ZArith NArith Lia String Ascii.
From S2P Require Import Prelude RustStd.

(** The values the [Serialize] derives of the source produce. *)
Inductive json :=
| JNull
| JBool (b : bool)
| JNum (n : N)
| JStr (s : string)
| JArr (l : list json)
| JObj (l : list (string * json)).

Lemma json_nested_ind (P : json -> Prop) :
  P JNull -> (forall b, P (JBool b)) -> (forall n, P (JNum n)) -> (forall s, P (JStr s)) ->
  (forall l, Forall P l -> P (JArr l)) -> (forall l, Forall (fun kj => P kj.2) l -> P (JObj l)) ->
  forall j, P j.
Proof.
  intros H0 H1 H2 H3 H4 H5. fix IH 1. intros [| | | |l|l].
  - exact H0.
  - apply H1.
  - apply H2.
  - apply H3.
  - apply H4. induction l as [|j l IHl]; constructor; [apply IH|exact IHl].
  - apply H5. induction l as [|[k j] l IHl]; constructor; [apply IH|exact IHl].
Qed.

Class External := {
  (** [serde_json::to_vec] *)
  json_to_vec : json -> result (list N);
  (** [format!("{:x}", Sha256::digest(bytes))] *)
  sha256_hex : list N -> string;
  (** [Uuid::new_v5(namespace, name)] *)
  uuid_v5 : Uuid -> string -> Uuid;
  (** [Uuid]'s [Display], also its [Serialize] *)
  uuid_display : Uuid -> string;
  (** [DateTime<Utc>]'s [Serialize] *)
  time_display : Time -> string;
  (** [u32]/[u64]'s [Display] *)
  num_display : N -> string;
  (** [str::to_lowercase], which follows the Unicode case tables *)
  to_lowercase : string -> string;
}.

Definition lower_hex_64 (s : string) : bool :=
  (str_len s =? 64)%N && all is_lower_hex (bytes_of s).

(** Printable ASCII: no control character, no space. *)
Definition graphic (b : N) : bool := ((33 <=? b) && (b <=? 126))%N.

Class ExternalLaws `{External} := {
  (** A value without failing [Serialize] and with string keys always encodes. *)
  json_to_vec_total : forall j, exists bytes, json_to_vec j = Ok bytes;
  (** The JSON text determines the value: object members keep their order. *)
  json_to_vec_inj : forall j j' bytes,
    json_to_vec j = Ok bytes -> json_to_vec j' = Ok bytes -> j = j';
  (** SHA-256 has 32 bytes, printed with two lowercase digits each. *)
  sha256_hex_form : forall bytes, lower_hex_64 (sha256_hex bytes) = true;
  (** A version 5 UUID carries its version and variant bits, so it is not the nil UUID. *)
  uuid_v5_not_nil : forall ns name, is_nil (uuid_v5 ns name) = false;
  (** The hyphenated form: 36 printable characters. *)
  uuid_display_form : forall u,
    str_len (uuid_display u) = 36%N /\ all graphic (bytes_of (uuid_display u)) = true;
  uuid_display_inj : forall u v,
    (u < 2 ^ 128)%N -> (v < 2 ^ 128)%N -> uuid_display u = uuid_display v -> u = v;
  (** Decimal digits. *)
  num_display_form : forall n, all is_ascii_digit (bytes_of (num_display n)) = true;
  num_display_inj : forall n m,
    (n <= u64_max)%N -> (m <= u64_max)%N -> num_display n = num_display m -> n = m;
}.

(** [format!("sha256:{:x}", Sha256::digest(bytes))] *)
Definition sha256_digest `{External} (bytes : list N) : string :=
  ("sha256:" ++ sha256_hex bytes)%string.

(** The document is encoded, then digested; the label is the one of the [map_err] of the source. *)
Definition digest_json `{External} (j : json) (label : string) : result string :=
  match json_to_vec j with
  | Ok bytes => Ok (sha256_digest bytes)
  | Err e => errf label [FStr (template e)]
  end.

Lemma is_sha256_digest_app hex : is_sha256_digest ("sha256:" ++ hex) = lower_hex_64 hex.
Proof. reflexivity. Qed.

Section digest_lemmas.
Context `{ExternalLaws}.

Lemma sha256_digest_form bytes : is_sha256_digest (sha256_digest bytes) = true.
Proof. unfold sha256_digest. rewrite is_sha256_digest_app. apply sha256_hex_form. Qed.

Lemma digest_json_total j label : exists d, digest_json j label = Ok d /\ is_sha256_digest d = true.
Proof.
  unfold digest_json. destruct (json_to_vec_total j) as [b ->]. eauto using sha256_digest_form.
Qed.

Lemma digest_json_form j label d : digest_json j label = Ok d -> is_sha256_digest d = true.
Proof. destruct (digest_json_total j label) as (d' & -> & ?). congruence. Qed.
End digest_lemmas.

(** ** A concrete instance, for evaluation *)
Module Toy.

(** A prefix code for [json]: every value starts with its tag, and lists with their length. *)
Fixpoint encode (j : json) : list N :=
  match j with
  | JNull => [0]
  | JBool b => [1; if b then 1 else 0]
  | JNum n => [2; n]
  | JStr s => 3 :: len (bytes_of s) :: bytes_of s
  | JArr l => 4 :: len l :: concat (map encode l)
  | JObj l => 5 :: len l :: concat (map (fun kj =>
      (len (bytes_of kj.1) :: bytes_of kj.1) ++ encode kj.2) l)
  end%N.

Definition digit (n : N) : N := if (n <? 10)%N then (48 + n)%N else (87 + n)%N.
Fixpoint digits (base : N) (k : nat) (n : N) : list N :=
  match k with
  | O => []
  | S k => digit (n mod base) :: digits base k (n / base)
  end.

Definition checksum (l : list N) : N := foldr (fun b a => (b + 31 * a) mod 2 ^ 64)%N 7%N l.

#[export] Instance toy_external : External := {|
  json_to_vec j := Ok (encode j);
  sha256_hex bytes := str_of (digits 16 64 (checksum bytes));
  uuid_v5 ns name := (1 + 2 * (ns + checksum (bytes_of name)))%N;
  uuid_display u := str_of (digits 16 36 u);
  time_display t := str_of (digits 16 20 (Z.to_N t));
  num_display n := str_of (digits 10 20 n);
  to_lowercase s := str_of (map (fun b => if is_ascii_uppercase b then b + 32 else b)%N (bytes_of s));
|}.

(** *** The laws hold of it *)
Lemma digit_inj a b : (a < 16)%N -> (b < 16)%N -> digit a = digit b -> a = b.
Proof.
  unfold digit. intros ? ?. destruct (N.ltb_spec a 10), (N.ltb_spec b 10); lia.
Qed.

Lemma digits_inj base k n m :
  (2 <= base <= 16)%N -> (n < base ^ N.of_nat k)%N -> (m < base ^ N.of_nat k)%N ->
  digits base k n = digits base k m -> n = m.
Proof.
  intros Hb. revert n m. induction k as [|k IH]; intros n m Hn Hm; cbn [digits].
  - simpl in Hn, Hm. lia.
  - rewrite Nat2N.inj_succ, N.pow_succ_r' in Hn, Hm. intros E. simplify_eq.
    assert (n mod base = m mod base)%N.
    { apply digit_inj; [|  |done]; eapply N.lt_le_trans; try apply N.mod_lt; lia. }
    assert (n / base = m / base)%N by (apply IH; [| |done]; apply N.Div0.div_lt_upper_bound; lia).
    rewrite (N.div_mod n base), (N.div_mod m base) by lia. congruence.
Qed.

Lemma digits_form (P : N -> bool) base k n :
  (forall d, (d < base)%N -> P (digit d) = true) -> (base <> 0)%N -> all P (digits base k n) = true.
Proof.
  intros HP Hb. revert n. induction k as [|k IH]; intros n; simpl; [done|].
  rewrite IH, HP; [done|]. by apply N.mod_lt.
Qed.

Lemma digits_small base k n : (base <= 16)%N -> (base <> 0)%N -> Forall (fun d => d < 256)%N (digits base k n).
Proof.
  intros Hb H0. revert n. induction k as [|k IH]; intros n; simpl; constructor; [|done].
  assert (n mod base < base)%N by (by apply N.mod_lt). unfold digit.
  destruct (N.ltb_spec (n mod base) 10); lia.
Qed.

Lemma length_digits base k n : length (digits base k n) = k.
Proof. revert n. induction k as [|k IH]; intros n; simpl; [done|]. by rewrite IH. Qed.

Definition prefix_code {A} (f : A -> list N) (a : A) : Prop :=
  forall b r r', f a ++ r = f b ++ r' -> a = b /\ r = r'.

Lemma concat_prefix_code {A} (f : A -> list N) l l' r r' :
  Forall (prefix_code f) l -> length l = length l' ->
  concat (map f l) ++ r = concat (map f l') ++ r' -> l = l' /\ r = r'.
Proof.
  intros Hl. revert l'. induction Hl as [|a l Ha _ IH]; intros [|b l'] Hlen E; simplify_eq/=; [done|].
  rewrite <- !app_assoc in E. apply Ha in E as [-> E]. apply IH in E as [-> ->]; auto.
Qed.

Lemma str_prefix_code s : prefix_code (fun s => len (bytes_of s) :: bytes_of s) s.
Proof.
  intros s' r r' E. injection E as El E. unfold len in El.
  apply app_inj_1 in E as [E ->]; [|lia]. by apply bytes_of_inj in E.
Qed.

Lemma encode_prefix_code j : prefix_code encode j.
Proof.
  induction j as [|b|n|s|l IH|l IH] using json_nested_ind;
    intros [|b'|n'|s'|l'|l'] r r' E; simpl in E; try discriminate E; injection E as E.
  - done.
  - destruct b, b'; naive_solver.
  - by subst.
  - destruct (str_prefix_code s s' r r') as [-> ->]; simpl; [by f_equal|done].
  - apply concat_prefix_code in H as [-> ->]; [done..|unfold len in *; lia].
  - apply (concat_prefix_code (fun kj => (len (bytes_of kj.1) :: bytes_of kj.1) ++ encode kj.2)) in H
      as [-> ->]; [done| |unfold len in *; lia].
    eapply Forall_impl; [done|]. intros [k j] Hj [k' j'] q q' E'. simpl in *.
    rewrite <- !app_assoc in E'.
    destruct (str_prefix_code k k' (encode j ++ q) (encode j' ++ q')) as [-> E'']; [done|].
    apply Hj in E'' as [-> ->]. done.
Qed.

Lemma bytes_of_digits base k n :
  (2 <= base <= 16)%N -> bytes_of (str_of (digits base k n)) = digits base k n.
Proof. intros. apply bytes_of_str_of, digits_small; lia. Qed.

Lemma str_len_digits base k n :
  (2 <= base <= 16)%N -> str_len (str_of (digits base k n)) = N.of_nat k.
Proof. intros. rewrite str_len_bytes, bytes_of_digits by done. unfold len. by rewrite length_digits. Qed.

Lemma str_digits_inj base k n m :
  (2 <= base <= 16)%N -> (n < base ^ N.of_nat k)%N -> (m < base ^ N.of_nat k)%N ->
  str_of (digits base k n) = str_of (digits base k m) -> n = m.
Proof.
  intros Hb Hn Hm E%(f_equal bytes_of). rewrite !bytes_of_digits in E by done.
  by eapply digits_inj.
Qed.

Lemma digit_lower_hex d : (d < 16)%N -> is_lower_hex (digit d) = true.
Proof.
  intros Hd. unfold digit, is_lower_hex, is_ascii_digit.
  destruct (N.ltb_spec d 10); reflect_bools; lia.
Qed.

Lemma digit_graphic d : (d < 16)%N -> graphic (digit d) = true.
Proof. intros Hd. unfold digit, graphic. destruct (N.ltb_spec d 10); reflect_bools; lia. Qed.

Lemma digit_decimal d : (d < 10)%N -> is_ascii_digit (digit d) = true.
Proof. intros Hd. unfold digit, is_ascii_digit. destruct (N.ltb_spec d 10); reflect_bools; lia. Qed.

#[export] Instance toy_external_laws : ExternalLaws.
Proof.
  split; unfold json_to_vec, sha256_hex, uuid_v5, uuid_display, num_display, toy_external.
  - eauto.
  - intros j j' b E E'. destruct (encode_prefix_code j j' [] []); [|done].
    rewrite !app_nil_r. congruence.
  - intros b. unfold lower_hex_64. rewrite str_len_digits, bytes_of_digits by lia.
    apply digits_form; [apply digit_lower_hex|done].
  - intros ns name. unfold is_nil. reflect_bools. lia.
  - intros u. rewrite str_len_digits, bytes_of_digits by lia.
    split; [done|]. apply digits_form; [apply digit_graphic|done].
  - intros u v Hu Hv. apply str_digits_inj; [lia| |]; (eapply N.lt_le_trans; [done|]);
      vm_compute; discriminate.
  - intros n. rewrite bytes_of_digits by lia. apply digits_form; [apply digit_decimal|done].
  - intros n m Hn Hm. apply str_digits_inj; [lia| |]; (eapply N.le_lt_trans; [done|]);
      vm_compute; reflexivity.
Qed.
End Toy.
