(* ===== verification/Text.v ===== *)
(** * More of the Rust standard library: slices of strings

    Searching and splitting strings, the textual form of IPv4 addresses, and the JSON members of
    optional fields.  Strings are their UTF-8 bytes, so every search for an ASCII pattern is a
    search on bytes. *)

From Stdlib Require Import ZArith NArith Lia String Ascii.
From S2P Require Import Prelude RustStd External.

Definition QUOTE : N := 34.
Definition STAR : N := 42.
Definition PLUS : N := 43.
Definition HYPHEN : N := 45.
Definition DOT : N := 46.
Definition SLASH : N := 47.
Definition COLON : N := 58.
Definition BACKSLASH : N := 92.
Definition UNDERSCORE : N := 95.

(** [value.starts_with(prefix)] and [value.ends_with(suffix)] *)
Fixpoint bytes_prefix (p l : list N) : bool :=
  match p, l with
  | [], _ => true
  | x :: p', y :: l' => (x =? y)%N && bytes_prefix p' l'
  | _, [] => false
  end.

Definition starts_with (prefix value : string) : bool := bytes_prefix (bytes_of prefix) (bytes_of value).
Definition ends_with (suffix value : string) : bool :=
  bytes_prefix (rev (bytes_of suffix)) (rev (bytes_of value)).

(** [value.contains(pattern)] *)
Fixpoint bytes_contains (p l : list N) : bool :=
  bytes_prefix p l || match l with [] => false | _ :: l' => bytes_contains p l' end.

Definition str_contains (pattern value : string) : bool := bytes_contains (bytes_of pattern) (bytes_of value).

(** [value.split(|c| ..)] on ASCII separators *)
Fixpoint split_on (is_sep : N -> bool) (l : list N) : list (list N) :=
  match l with
  | [] => [[]]
  | b :: r =>
    if is_sep b then [] :: split_on is_sep r
    else match split_on is_sep r with
         | [] => [[b]]
         | seg :: segs => (b :: seg) :: segs
         end
  end.

(** [segment.first() == Some(b)], [segment.last() == Some(b)] *)
Definition first_is (b : N) (l : list N) : bool := match l with x :: _ => (x =? b)%N | [] => false end.
Definition last_is (b : N) (l : list N) : bool := first_is b (rev l).

(** A label of lowercase letters, digits and inner hyphens. *)
Definition is_dns_byte (b : N) : bool := is_ascii_lowercase b || is_ascii_digit b || (b =? HYPHEN)%N.

(** [s.parse::<Ipv4Addr>().is_ok()]: four decimal octets without superfluous zeros. *)
Definition octet (l : list N) : bool :=
  match l with
  | [] => false
  | [d] => is_ascii_digit d
  | d :: _ =>
    all is_ascii_digit l && negb (d =? 48)%N && (len l <=? 3)%N
    && (fold_left (fun a b => 10 * a + (b - 48)) l 0 <=? 255)%N
  end.

Definition is_ipv4 (l : list N) : bool :=
  let segments := split_bytes DOT l in
  (len segments =? 4)%N && all octet segments.

(** [if schema != SCHEMA { return Err(format!(.., schema)) }] *)
Definition check_schema (actual expected : string) (message : string) : result unit :=
  if actual != expected then errf message [FStr actual] else Ok tt.

(** [#[serde(skip_serializing_if = "Option::is_none")]] *)
Definition optional_member {A} (name : string) (f : A -> json) (o : option A) : list (string * json) :=
  match o with Some a => [(name, f a)] | None => [] end.

(** [Option<A>] serialized in place *)
Definition json_option {A} (f : A -> json) (o : option A) : json :=
  match o with Some a => f a | None => JNull end.

(** [let mut seen = BTreeSet::new(); .. !seen.insert(x)]: a fold over [l] that refuses duplicates. *)
Fixpoint distinct `{EqDecision K} (seen : list K) (l : list K) : bool :=
  match l with
  | [] => true
  | x :: r => bool_decide (x ∉ seen) && distinct (x :: seen) r
  end.

Lemma distinct_spec `{EqDecision K} (seen l : list K) :
  distinct seen l = true <-> NoDup l /\ forall x, x ∈ l -> x ∉ seen.
Proof.
  revert seen. induction l as [|x l IH]; intros seen; simpl.
  - split; [|done]. intros _. split; [constructor|]. intros x Hx. by apply not_elem_of_nil in Hx.
  - rewrite andb_true_iff, bool_decide_eq_true, IH, NoDup_cons. split.
    + intros (Hx & Hnd & Hall). split_and!; [|done|].
      * intros Hin. apply (Hall x Hin). by left.
      * intros y [->|Hy]%elem_of_cons; [done|]. intros Hs. apply (Hall y Hy). by right.
    + intros ((Hx & Hnd) & Hall). split_and!; [apply Hall; by left|done|].
      intros y Hy [->|Hs]%elem_of_cons; [done|]. apply (Hall y); [by right|done].
Qed.

Lemma check_schema_Ok actual expected message : check_schema actual expected message = Ok tt <-> actual = expected.
Proof. unfold check_schema, errf. case_bool_decide; naive_solver. Qed.

#[export] Hint Rewrite check_schema_Ok : results.

(** [value.split_once(c)], [value.rsplit_once(c)] and [value.rfind(c)] on the bytes of a string *)
Fixpoint split_once (sep : N) (l : list N) : option (list N * list N) :=
  match l with
  | [] => None
  | b :: r =>
    if (b =? sep)%N then Some ([], r)
    else match split_once sep r with Some (before, after) => Some (b :: before, after) | None => None end
  end.
Definition rsplit_once (sep : N) (l : list N) : option (list N * list N) :=
  match split_once sep (rev l) with Some (after, before) => Some (rev before, rev after) | None => None end.
Definition rfind (sep : N) (l : list N) : option nat :=
  match rsplit_once sep l with Some (before, _) => Some (length before) | None => None end.

(** [value.chars().any(|c| c.is_control() || c.is_whitespace())]: the characters are found by the
    lead byte of their encoding. *)
Definition control1 (a : N) : bool := ((a <? 32) || (a =? 127))%N.
Definition control2 (a b : N) : bool := ((a =? 194) && (128 <=? b) && (b <=? 159))%N.
Fixpoint has_control_or_whitespace (l : list N) : bool :=
  match l with
  | [] => false
  | a :: r =>
    ws1 a || control1 a
    || match r with
       | [] => false
       | b :: r' => ws2 a b || control2 a b || match r' with [] => false | c :: _ => ws3 a b c end
       end
    || has_control_or_whitespace r
  end.

(** [serde_json::to_value]: without the feature [preserve_order] the members of an object are kept
    in the order of their names. *)
Fixpoint to_value (j : json) : json :=
  match j with
  | JArr l => JArr (map to_value l)
  | JObj l => JObj (sort_by_key fst (map (fun kj => (kj.1, to_value kj.2)) l))
  | _ => j
  end.

Lemma split_once_Some sep l before after :
  split_once sep l = Some (before, after) <-> l = before ++ sep :: after /\ sep ∉ before.
Proof.
  revert before. induction l as [|b l IH]; intros before; simpl.
  { split; [done|]. intros [E _]. by destruct before. }
  destruct (N.eqb_spec b sep) as [->|Hne].
  - split; [intros [= <- <-]; split; [done|apply not_elem_of_nil]|].
    intros [E Hn]. destruct before as [|x before]; simplify_eq/=; [done|]. destruct Hn. by left.
  - split.
    + destruct (split_once sep l) as [[before' after']|]; [|done]. intros [= <- <-].
      destruct (proj1 (IH before') eq_refl) as [-> Hn]. split; [reflexivity|]. intros [->|?]%elem_of_cons; done.
    + intros [E Hn]. destruct before as [|x before]; simplify_eq/=.
      rewrite not_elem_of_cons in Hn. destruct Hn as [_ Hn]. by rewrite (proj2 (IH before) (conj eq_refl Hn)).
Qed.

Lemma rsplit_once_Some sep l before after :
  rsplit_once sep l = Some (before, after) <-> l = before ++ sep :: after /\ sep ∉ after.
Proof.
  unfold rsplit_once. split.
  - destruct (split_once sep (rev l)) as [[a b]|] eqn:E; [|done]. intros [= <- <-].
    apply split_once_Some in E as [E Hn]. apply (f_equal (@rev N)) in E.
    rewrite rev_involutive, rev_app_distr in E. simpl in E. rewrite <- app_assoc in E. split; [done|].
    rewrite list_elem_of_In, <- in_rev, <- list_elem_of_In. done.
  - intros [-> Hn]. rewrite rev_app_distr. simpl. rewrite <- app_assoc. simpl.
    rewrite (proj2 (split_once_Some sep (rev after ++ sep :: rev before) (rev after) (rev before))).
    + by rewrite !rev_involutive.
    + split; [done|]. by rewrite list_elem_of_In, <- in_rev, <- list_elem_of_In.
Qed.
