(* ===== verification/BTreeMap.v ===== *)
(** * Ordered maps

    A [BTreeMap] is a [gmap] read in the order of its keys ([entries_of], [values]); a [BTreeSet]
    of integers is the list of its elements ([set_first], [set_last]).  The lemmas say how the
    ordered views follow the updates of the map. *)

From Stdlib Require Import ZArith NArith Lia.
From stdpp Require Import gmap.
From S2P Require Import Prelude RustStd.

(** The entries of a [BTreeMap], in the order of their keys. *)
Definition entries_of {K V} `{Countable K} `{Ord K} (m : gmap K V) : list (K * V) :=
  sort_by_key fst (map_to_list m).
Definition values {K V} `{Countable K} `{Ord K} (m : gmap K V) : list V := (entries_of m).*2.

(** [BTreeSet::first] and [BTreeSet::last] *)
Definition set_first (l : list N) : option N :=
  match l with [] => None | x :: r => Some (foldr N.min x r) end.
Definition set_last (l : list N) : option N :=
  match l with [] => None | x :: r => Some (foldr N.max x r) end.

Section btree.
Context {K : Type} `{Countable K} `{Ord K} `{!OrdLaws K}.

Lemma entries_of_perm {V} (m : gmap K V) : entries_of m ≡ₚ map_to_list m.
Proof. apply sort_by_key_perm. Qed.

Lemma entries_of_keys {V} (m : gmap K V) : NoDup (entries_of m).*1.
Proof. rewrite entries_of_perm. apply NoDup_fst_map_to_list. Qed.

Lemma elem_of_entries {V} (m : gmap K V) k v : (k, v) ∈ entries_of m <-> m !! k = Some v.
Proof. rewrite entries_of_perm. apply elem_of_map_to_list. Qed.

Lemma elem_of_values {V} (m : gmap K V) v : v ∈ values m <-> exists k, m !! k = Some v.
Proof.
  unfold values. rewrite list_elem_of_fmap. split.
  - intros ([k w] & -> & Hin). exists k. by apply elem_of_entries.
  - intros [k Hk]. exists (k, v). by rewrite elem_of_entries.
Qed.

Lemma length_values {V} (m : gmap K V) : length (values m) = size m.
Proof. unfold values. by rewrite length_fmap, entries_of_perm, length_map_to_list. Qed.

Lemma values_perm {V} (m : gmap K V) : values m ≡ₚ (map_to_list m).*2.
Proof. unfold values. by rewrite entries_of_perm. Qed.

Lemma values_insert {V} (m : gmap K V) k v : m !! k = None -> values (<[k := v]> m) ≡ₚ v :: values m.
Proof. intros Hk. rewrite !values_perm, map_to_list_insert by done. done. Qed.

(** Replacing a value keeps the place of its key. *)
Lemma entries_of_update {V} (m : gmap K V) k v w :
  m !! k = Some v ->
  entries_of (<[k := w]> m) = (fun kv => if decide (kv.1 = k) then (k, w) else kv) <$> entries_of m.
Proof.
  intros Hk. set (f := fun kv : K * V => if decide (kv.1 = k) then (k, w) else kv).
  assert (Hf : forall l, (f <$> l).*1 = l.*1).
  { intros l. rewrite <- list_fmap_compose. apply list_fmap_ext. intros i [k' v'] _. unfold f; simpl.
    by destruct (decide (k' = k)) as [->|]. }
  assert (Hsorted : StronglySorted (key_le fst) (f <$> entries_of m)).
  { pose proof (sort_by_key_sorted fst (map_to_list m)) as Hs. fold (entries_of m) in Hs.
    revert Hs. generalize (entries_of m). induction 1 as [|x l Hl IH Hx]; simpl; constructor; [done|].
    apply Forall_fmap. eapply Forall_impl; [exact Hx|]. intros y. unfold key_le, f; simpl.
    destruct (decide (x.1 = k)) as [E|], (decide (y.1 = k)) as [E'|]; simpl; rewrite ?E, ?E' in *; done. }
  rewrite <- (sort_by_key_id _ _ Hsorted). unfold entries_of at 1. apply sort_by_key_unique.
  { apply NoDup_fst_map_to_list. }
  apply NoDup_Permutation.
  - apply NoDup_map_to_list.
  - eapply NoDup_fmap_1. rewrite Hf. apply entries_of_keys.
  - intros [k' x]. rewrite elem_of_map_to_list, list_elem_of_fmap. rewrite lookup_insert_Some. split.
    + intros [[-> ->]|[Hne Hx]].
      * exists (k', v). rewrite elem_of_entries. unfold f; simpl. by rewrite decide_True.
      * exists (k', x). rewrite elem_of_entries. unfold f; simpl. by rewrite decide_False.
    + intros ([k'' y] & E & Hin%elem_of_entries). unfold f in E; simpl in E.
      destruct (decide (k'' = k)); simplify_eq; auto.
Qed.

(** So a relation between the old value and the new one holds of the two sequences. *)
Lemma values_update {V} (R : V -> V -> Prop) `{!Reflexive R} (m : gmap K V) k v w :
  m !! k = Some v -> R v w -> Forall2 R (values m) (values (<[k := w]> m)).
Proof.
  intros Hk HR. unfold values. rewrite (entries_of_update m k v w Hk).
  assert (Hin : forall kv, kv ∈ entries_of m -> kv.1 = k -> kv.2 = v).
  { intros [k' v'] Hin%elem_of_entries E. simpl in *. congruence. }
  revert Hin. generalize (entries_of m). intros l. induction l as [|[k' v'] l IH]; intros Hin; simpl; constructor.
  - destruct (decide (k' = k)) as [->|]; simpl; [|reflexivity].
    assert (v' = v) as -> by (apply (Hin (k, v')); [left|done]). done.
  - apply IH. intros kv Hkv. apply Hin. by right.
Qed.

End btree.

Lemma fmap_Forall2 {A B C} (R : A -> B -> Prop) (f : A -> C) (g : B -> C) l l' :
  (forall x y, R x y -> f x = g y) -> Forall2 R l l' -> f <$> l = g <$> l'.
Proof. intros HR. induction 1 as [|x y l l' Hxy _ IH]; [done|]. by rewrite !fmap_cons, IH, (HR x y Hxy). Qed.

(** The sort is the same for two sequences that agree on their keys. *)
Lemma sort_by_key_Forall2 {A B K} `{Ord K} (f : A -> K) (g : B -> K) (R : A -> B -> Prop) l l' :
  (forall a b, R a b -> f a = g b) -> Forall2 R l l' -> Forall2 R (sort_by_key f l) (sort_by_key g l').
Proof.
  intros Hfg. induction 1 as [|a b l l' Hab Hl IH]; simpl; [constructor|].
  revert IH. generalize (sort_by_key f l), (sort_by_key g l'). intros s s' Hs.
  induction Hs as [|x y s s' Hxy Hs IH]; simpl; [by repeat constructor|].
  rewrite (Hfg _ _ Hab), (Hfg _ _ Hxy). destruct (leb _ _); repeat (constructor; try done).
Qed.

(** ** Sets of sequence numbers *)
Lemma set_first_le l x n : set_first l = Some n -> x ∈ l -> (n <= x)%N.
Proof.
  destruct l as [|y l]; [done|]. simpl. intros [= <-]. revert x.
  assert (Hmin : forall x, x ∈ l \/ x = y -> (foldr N.min y l <= x)%N).
  { induction l as [|z l IH]; simpl; intros x.
    - intros [Hx| ->]; [by apply not_elem_of_nil in Hx|lia].
    - intros [[->|Hx]%elem_of_cons| ->]; [lia|specialize (IH x (or_introl Hx)); lia|specialize (IH y (or_intror eq_refl)); lia]. }
  intros x [->|Hx]%elem_of_cons; apply Hmin; auto.
Qed.

Lemma set_last_ge l x n : set_last l = Some n -> x ∈ l -> (x <= n)%N.
Proof.
  destruct l as [|y l]; [done|]. simpl. intros [= <-]. revert x.
  assert (Hmax : forall x, x ∈ l \/ x = y -> (x <= foldr N.max y l)%N).
  { induction l as [|z l IH]; simpl; intros x.
    - intros [Hx| ->]; [by apply not_elem_of_nil in Hx|lia].
    - intros [[->|Hx]%elem_of_cons| ->]; [lia|specialize (IH x (or_introl Hx)); lia|specialize (IH y (or_intror eq_refl)); lia]. }
  intros x [->|Hx]%elem_of_cons; apply Hmax; auto.
Qed.

(** The numbers from 1 to [n]. *)
Definition numbers (n : nat) : list N := N.of_nat <$> seq 1 n.

Lemma lookup_numbers n i : (i < n)%nat -> numbers n !! i = Some (N.of_nat (S i)).
Proof. intros Hi. unfold numbers. rewrite list_lookup_fmap, lookup_seq_lt by done. done. Qed.

Lemma elem_of_numbers n x : x ∈ numbers n <-> (1 <= x <= N.of_nat n)%N.
Proof.
  unfold numbers. rewrite list_elem_of_fmap. split.
  - intros (y & -> & Hy%elem_of_seq). simpl in *. lia.
  - intros Hx. exists (N.to_nat x). rewrite elem_of_seq. split; lia.
Qed.

Lemma NoDup_numbers n : NoDup (numbers n).
Proof. apply NoDup_fmap; [intros ???; lia|apply NoDup_seq]. Qed.

(** Distinct numbers between 1 and their count are all of them. *)
Lemma dense_numbers l :
  NoDup l -> (forall x, x ∈ l -> 1 <= x <= len l)%N -> l ≡ₚ numbers (length l).
Proof.
  intros Hnd Hin. apply NoDup_Permutation_bis; [by apply NoDup_ListNoDup| |].
  - unfold numbers. by rewrite length_fmap, length_seq.
  - intros x Hx. apply list_elem_of_In, elem_of_numbers. apply list_elem_of_In, Hin in Hx. unfold len in Hx. lia.
Qed.

Lemma numbers_sorted n : StronglySorted (key_lt (@id N)) (numbers n).
Proof.
  unfold numbers. generalize 1%nat. induction n as [|n IH]; intros s; simpl; constructor; [apply IH|].
  apply Forall_fmap, Forall_forall. intros y Hy%elem_of_seq. unfold key_lt, ltb, cmp, N_ord; simpl.
  destruct (N.compare_spec (N.of_nat s) (N.of_nat y)); lia || done.
Qed.

(** Elements whose numbers are distinct and are those from 1 to [n], in order. *)
Lemma sorted_numbers {A} (f : A -> N) l n :
  NoDup (f <$> l) -> (forall x, x ∈ f <$> l <-> 1 <= x <= N.of_nat n)%N -> f <$> sort_by_key f l = numbers n.
Proof.
  intros Hnd Hin.
  assert (Hs : StronglySorted (key_le (@id N)) (f <$> sort_by_key f l)).
  { pose proof (sort_by_key_sorted f l) as Hs. revert Hs. generalize (sort_by_key f l).
    induction 1 as [|x s _ IH Hx]; simpl; constructor; [done|]. by apply Forall_fmap. }
  rewrite <- (sort_by_key_id _ _ Hs), <- (sort_by_key_id _ _ (key_lt_le _ _ (numbers_sorted n))).
  apply sort_by_key_unique; rewrite ?list_fmap_id, sort_by_key_perm; [done|].
  apply NoDup_Permutation; [done|apply NoDup_numbers|]. intros x. by rewrite Hin, elem_of_numbers.
Qed.

Lemma NoDup_fmap_values {K V} `{Countable K} `{Ord K} `{!OrdLaws K} (f : V -> N) (m : gmap K V) (p : V -> bool) :
  (forall k k' v v', m !! k = Some v -> m !! k' = Some v' -> p v = true -> p v' = true -> f v = f v' -> k = k') ->
  NoDup (f <$> List.filter p (values m)).
Proof.
  intros Hinj. unfold values.
  assert (Hl : forall k v, (k, v) ∈ entries_of m -> m !! k = Some v) by (intros; by apply elem_of_entries).
  pose proof (entries_of_keys m) as Hk. revert Hl Hk. generalize (entries_of m). intros l.
  induction l as [|[k v] l IH]; intros Hl; simpl; [constructor|]. intros [Hnin Hnd]%NoDup_cons.
  assert (IH' : NoDup (f <$> List.filter p l.*2)) by (apply IH; [|done]; intros; apply Hl; by right).
  destruct (p v) eqn:Hp; simpl; [|done]. constructor; [|done].
  rewrite list_elem_of_fmap. intros (w & E & Hw). apply list_elem_of_In, filter_In in Hw as [Hw Hpw].
  apply list_elem_of_In, list_elem_of_fmap in Hw as ([k' w'] & -> & Hw). simpl in *.
  destruct Hnin. apply list_elem_of_fmap. exists (k', w'). split; [|done]. simpl.
  eapply Hinj; [apply Hl; left|apply Hl; right; exact Hw|done..].
Qed.

(** ** Filters *)
Lemma elem_of_filter {A} (p : A -> bool) l x : x ∈ List.filter p l <-> x ∈ l /\ p x = true.
Proof. by rewrite !list_elem_of_In, filter_In. Qed.

Lemma NoDup_fmap_filter {A B} (f : A -> B) (p : A -> bool) l : NoDup (f <$> l) -> NoDup (f <$> List.filter p l).
Proof.
  induction l as [|x l IH]; simpl; [done|]. intros [Hx Hl]%NoDup_cons. destruct (p x); simpl; [|by apply IH].
  constructor; [|by apply IH]. contradict Hx. apply list_elem_of_fmap in Hx as (y & -> & Hy).
  apply list_elem_of_fmap_2. apply list_elem_of_In, filter_In in Hy as [Hy _]. by apply list_elem_of_In.
Qed.

Lemma filter_sorted {A} (R : A -> A -> Prop) (p : A -> bool) l : StronglySorted R l -> StronglySorted R (List.filter p l).
Proof.
  induction 1 as [|x l _ IH Hx]; simpl; [constructor|]. case_match; [|done]. constructor; [done|].
  rewrite Forall_forall in *. intros y [Hy _]%elem_of_filter. by apply Hx.
Qed.

Lemma fmap_sorted {A B} (R : A -> A -> Prop) (R' : B -> B -> Prop) (f : A -> B) l :
  (forall x y, R x y -> R' (f x) (f y)) -> StronglySorted R l -> StronglySorted R' (f <$> l).
Proof.
  intros Hf. induction 1 as [|x l _ IH Hx]; simpl; constructor; [done|]. apply Forall_fmap.
  eapply Forall_impl; [exact Hx|]. intros y. apply Hf.
Qed.

(** The longest prefix whose elements satisfy [p]. *)
Fixpoint take_while {A} (p : A -> bool) (l : list A) : list A :=
  match l with
  | [] => []
  | x :: l => if p x then x :: take_while p l else []
  end.

Lemma elem_of_take_while {A} (p : A -> bool) l x : x ∈ take_while p l -> x ∈ l /\ p x = true.
Proof.
  induction l as [|y l IH]; simpl; [by intros ?%not_elem_of_nil|]. destruct (p y) eqn:E; [|by intros ?%not_elem_of_nil].
  intros [->|Hx]%elem_of_cons; [by split; [left|]|]. split; [right|]; by apply IH.
Qed.

Lemma Forall2_impl_in {A B} (P Q : A -> B -> Prop) l l' :
  (forall x y, x ∈ l -> P x y -> Q x y) -> Forall2 P l l' -> Forall2 Q l l'.
Proof.
  intros HPQ. induction 1 as [|x y l l' Hxy _ IH]; constructor; [apply HPQ; [left|done]|].
  apply IH. intros a b Ha. apply HPQ. by right.
Qed.
