(* ===== verification/SharedKernel.v ===== *)
(** * The shared kernel

    [shared_kernel/domain]: canonical timestamps, canonical digests, secret version references and
    idempotency requests.  Every identifier newtype of [identifiers.rs] is a [Uuid]. *)

From Stdlib Require Import ZArith NArith Lia String.
From S2P Require Import Prelude RustStd External.

Abbreviation OrganizationId := Uuid (only parsing).
Abbreviation ProjectId := Uuid (only parsing).
Abbreviation EnvironmentId := Uuid (only parsing).
Abbreviation WorkloadId := Uuid (only parsing).
Abbreviation WorkloadRevisionId := Uuid (only parsing).
Abbreviation WorkloadReplicaId := Uuid (only parsing).
Abbreviation WorkloadReplicaMemberId := Uuid (only parsing).
Abbreviation WorkloadPlacementGroupId := Uuid (only parsing).
Abbreviation DeploymentId := Uuid (only parsing).
Abbreviation OperationId := Uuid (only parsing).
Abbreviation NodeId := Uuid (only parsing).
Abbreviation NodePoolId := Uuid (only parsing).
Abbreviation NodeCommandId := Uuid (only parsing).
Abbreviation ResourceClaimId := Uuid (only parsing).

(** ** Timestamps at PostgreSQL precision *)
Definition canonical_timestamp (value : Time) : Time :=
  (value - nanosecond value mod 1000)%Z.

Lemma canonical_timestamp_mod t : canonical_timestamp t = (t - t mod 1000)%Z.
Proof.
  unfold canonical_timestamp, nanosecond. f_equal.
  apply Z.mod_mod_divide. by exists 1000000%Z.
Qed.

Lemma canonical_timestamp_le t : (canonical_timestamp t <= t)%Z.
Proof. rewrite canonical_timestamp_mod. pose proof (Z.mod_pos_bound t 1000). lia. Qed.

Lemma canonical_timestamp_gt t : (t - 1000 < canonical_timestamp t)%Z.
Proof. rewrite canonical_timestamp_mod. pose proof (Z.mod_pos_bound t 1000). lia. Qed.

Lemma canonical_timestamp_idemp t : canonical_timestamp (canonical_timestamp t) = canonical_timestamp t.
Proof.
  rewrite !canonical_timestamp_mod. rewrite Zminus_mod, Z.mod_mod, Z.sub_diag by done.
  rewrite Z.mod_0_l by done. lia.
Qed.

Lemma canonical_timestamp_mono t u : (t <= u)%Z -> (canonical_timestamp t <= canonical_timestamp u)%Z.
Proof.
  intros H. rewrite !canonical_timestamp_mod, !Z.mod_eq by done.
  assert (t / 1000 <= u / 1000)%Z by (by apply Z.div_le_mono). lia.
Qed.

(** A canonical time is not before an already canonical one it follows. *)
Lemma canonical_timestamp_after t u :
  canonical_timestamp u = u -> (u <= t)%Z -> (u <= canonical_timestamp t)%Z.
Proof. intros E H. rewrite <- E. by apply canonical_timestamp_mono. Qed.

(** Closes [canonical_timestamp t <= canonical_timestamp u]. *)
Ltac time_order :=
  simpl; rewrite ?canonical_timestamp_idemp; apply canonical_timestamp_mono; lia.

Create HintDb time.
#[export] Hint Resolve canonical_timestamp_mono canonical_timestamp_after : time.

(** ** Digests *)
Module Sha256Digest.

(** The newtype's string. *)
Record t := Digest { as_str : string }.

#[global] Instance t_eq_dec : EqDecision t.
Proof. solve_decision. Defined.

Definition from_bytes `{External} (value : list N) : t := Digest (sha256_digest value).

Definition parse (value : string) : result t :=
  match strip_prefix "sha256:" value with
  | None => err "digest must use canonical sha256 syntax"
  | Some hexadecimal =>
    if negb (str_len hexadecimal =? 64)%N || negb (all is_lower_hex (bytes_of hexadecimal))
    then err "digest must use canonical sha256 syntax"
    else Ok (Digest value)
  end.

Lemma parse_Ok value d : parse value = Ok d <-> is_sha256_digest value = true /\ d = Digest value.
Proof.
  unfold parse, is_sha256_digest. destruct (strip_prefix _ _) as [hex|]; [|naive_solver].
  destruct (_ =? _)%N, (all _ _); simpl; naive_solver.
Qed.

Lemma from_bytes_parse `{ExternalLaws} value : parse (from_bytes value).(as_str) = Ok (from_bytes value).
Proof. apply parse_Ok. split; [|done]. apply sha256_digest_form. Qed.

End Sha256Digest.

(** ** Secret version references *)
Module SecretVersionReference.

Definition MAX_SAFE_SERIALIZED_INTEGER : N := 9007199254740991.

Record t := Reference { secret_id : Uuid; version : N }.

#[global] Instance t_eq_dec : EqDecision t.
Proof. solve_decision. Defined.

Definition validate (self : t) : result unit :=
  fail_if (is_nil self.(secret_id)
           || (self.(version) =? 0)%N
           || (MAX_SAFE_SERIALIZED_INTEGER <? self.(version))%N)
    "Secret version reference is invalid".

Definition new (secret_id : Uuid) (version : N) : result t :=
  let reference := Reference secret_id version in
  validate reference ;; Ok reference.

End SecretVersionReference.

(** ** Idempotency requests *)
Module IdempotencyRequest.

Record t := Request { scope : string; key : string; request_digest : string }.

#[global] Instance t_eq_dec : EqDecision t.
Proof. solve_decision. Defined.

Definition validate (self : t) : result unit :=
  fail_if (str_is_empty self.(scope)
           || (255 <? str_len self.(scope))%N
           || contains_any [NUL; CR; LF] self.(scope))
    "idempotency scope is invalid" ;;
  fail_if (str_is_empty self.(key)
           || (255 <? str_len self.(key))%N
           || contains_any [NUL; CR; LF] self.(key))
    "idempotency key is invalid" ;;
  match Sha256Digest.parse self.(request_digest) with
  | Ok _ => Ok tt
  | Err _ => err "idempotency request digest is invalid"
  end.

Definition new `{External} (scope key : string) (canonical_request : list N) : result t :=
  let request := Request scope key (sha256_digest canonical_request) in
  validate request ;; Ok request.

Definition storage_key (self : t) : string * string := (self.(scope), self.(key)).

End IdempotencyRequest.

(** What a repository returns for a write that may repeat an earlier one. *)
Module IdempotentWrite.
Record t (A : Type) := Mk { value : A; replayed : bool }.
Arguments Mk {A} _ _.
Arguments value {A} _.
Arguments replayed {A} _.
End IdempotentWrite.

(** ** Repository errors: the [Display] of the variants *)
Module RepositoryError.
Definition NotFound : error := Error "resource was not found" [].
Definition Conflict (e : error) : error := Error "resource already exists: {0}" (FStr e.(template) :: e.(args)).
Definition Forbidden (e : error) : error :=
  Error "repository authorization rejected the request: {0}" (FStr e.(template) :: e.(args)).
Definition IdempotencyConflict : error := Error "idempotency key was reused with different input" [].
Definition Storage (e : error) : error := Error "repository failed: {0}" (FStr e.(template) :: e.(args)).
End RepositoryError.

(** ** Resource names *)
Module ResourceName.

Record t := Mk { display : string; key : string }.

#[global] Instance t_eq_dec : EqDecision t.
Proof. solve_decision. Defined.

Definition parse `{External} (value : string) : result t :=
  let display := trim value in
  if str_is_empty display
     || (63 <? chars_count display)%N
     || contains_any [NUL; CR; LF] display
  then err "resource name must contain 1 to 63 visible characters"
  else Ok (Mk display (to_lowercase display)).

End ResourceName.
