(* ===== verification/Repositories.v ===== *)
(** * Repositories behind a lock

    What the in-memory repositories share.  A repository is one state behind a lock that every call
    holds from its first read to its last write, so a call is a [method] on that state: what it wrote
    before it returned an error stays written.  The tactic [exec_call] runs such a call symbolically,
    one goal per path. *)

From Stdlib Require Import ZArith NArith Lia String.
From S2P Require Import Prelude RustStd External Text SharedKernel.
Import RepositoryError.

(** [if .. { return Err(e) }] in a method, and [o.ok_or(e)] *)
Definition throw {S A} (e : error) : method S A := fun s => (s, Err e).
Definition some_or {A} (o : option A) (e : error) : result A := match o with Some a => Ok a | None => Err e end.
Definition conflict_error (message : string) : error := Conflict (Error message []).
Definition storage_error (message : string) : error := Storage (Error message []).

Lemma throw_app {S A} e (s : S) : (throw e : method S A) s = (s, Err e).
Proof. reflexivity. Qed.
Lemma bind_throw {S A B} e (f : A -> method S B) s : ((throw e : method S A) ≫= f) s = (s, Err e).
Proof. reflexivity. Qed.
#[export] Hint Rewrite @throw_app @bind_throw : methods.

Lemma some_or_Ok {A} (o : option A) e a : some_or o e = Ok a <-> o = Some a.
Proof. destruct o; simpl; naive_solver. Qed.
#[export] Hint Rewrite @some_or_Ok : results.

(** The state after a call is computed path by path: [exec_method] on the equation of the call,
    and a case analysis on what is left ([match] on options and payloads). *)
Ltac exec_call H :=
  repeat first
    [ progress exec_method H
    | match type of H with
      | (match ?x with _ => _ end) _ = _ => let E := fresh "E" in destruct x eqn:E
      | ((match ?x with _ => _ end) ≫= _) _ = _ => let E := fresh "E" in destruct x eqn:E
      | context [let '(_, _) := ?p in _] => destruct p
      end ].
