(* ===== verification/Resources.v ===== *)
(** * Hard resources

    [contracts/src/resource.rs]: the kinds of node resources, allocations of them, and the slot
    sets a claim requests, binds and later proves; and the validators of [contracts/src/node/mod.rs]
    every node message uses. *)

From Stdlib Require Import ZArith NArith Lia String.
From S2P Require Import Prelude RustStd External.

(** ** Validators of node messages *)
Definition validate_single_line (label value : string) (max : N) : result unit :=
  if str_is_empty (trim value)
     || (max <? str_len value)%N
     || contains_any [NUL] value
     || contains_any [CR; LF] value
  then errf "{label} must be a bounded nonempty single-line value" [FStr label]
  else Ok tt.

Definition is_ascii_hexdigit (b : N) : bool :=
  is_lower_hex b || ((65 <=? b) && (b <=? 70))%N.

Definition validate_sha256 (label value : string) : result unit :=
  match strip_prefix "sha256:" value with
  | None => errf "{label} must use sha256" [FStr label]
  | Some hex =>
    if negb (str_len hex =? 64)%N || negb (all is_ascii_hexdigit (bytes_of hex))
    then errf "{label} must contain exactly 64 hexadecimal characters" [FStr label]
    else Ok tt
  end.

Definition validate_lower_sha256 (label value : string) : result unit :=
  let valid :=
    is_some_and (fun hex => (str_len hex =? 64)%N && all is_lower_hex (bytes_of hex))
      (strip_prefix "sha256:" value) in
  if valid then Ok tt else errf "{label} must be a lowercase SHA-256 digest" [FStr label].

Definition validate_uuid (label : string) (value : Uuid) : result unit :=
  if is_nil value then errf "{label} must not be nil" [FStr label] else Ok tt.

Definition MAX_STABLE_RESOURCE_ID_LENGTH : N := 255.
Definition MAX_RESOURCE_SLOTS : N := 256.

Definition validate_stable_resource_id (value : string) : result unit :=
  fail_if (str_is_empty value
           || (MAX_STABLE_RESOURCE_ID_LENGTH <? str_len value)%N
           || contains_any [NUL; CR; LF; TAB] value
           || (trim value != value))
    "stable hard resource ID is invalid".

Module ResourceKind.

Inductive t :=
| Cpu
| Memory
| EphemeralStorage
| HostPort
| Accelerator
| Volume.

#[global] Instance t_eq_dec : EqDecision t.
Proof. solve_decision. Defined.

(** The derived order is the order of declaration. *)
Definition discriminant (self : t) : N :=
  match self with
  | Cpu => 0 | Memory => 1 | EphemeralStorage => 2 | HostPort => 3 | Accelerator => 4 | Volume => 5
  end.

#[global] Instance t_ord : Ord t := fun a b => N.compare (discriminant a) (discriminant b).

Definition as_str (self : t) : string :=
  match self with
  | Cpu => "cpu"
  | Memory => "memory"
  | EphemeralStorage => "ephemeral_storage"
  | HostPort => "host_port"
  | Accelerator => "accelerator"
  | Volume => "volume"
  end.

Definition parse (value : string) : result t :=
  if value == "cpu" then Ok Cpu
  else if value == "memory" then Ok Memory
  else if value == "ephemeral_storage" then Ok EphemeralStorage
  else if value == "host_port" then Ok HostPort
  else if value == "accelerator" then Ok Accelerator
  else if value == "volume" then Ok Volume
  else errf "unsupported hard resource kind {value:?}" [FStr value].

Definition is_shared_capacity (self : t) : bool := matches self [Cpu; Memory; EphemeralStorage].

#[global] Instance t_ord_laws : OrdLaws t.
Proof.
  split; unfold cmp, t_ord.
  - intros [] []; done.
  - intros [] []; done.
  - intros [] [] []; done.
Qed.

#[global] Instance str_enum : StrEnum t := {| Prelude.as_str := as_str; Prelude.parse := parse |}.
#[global] Instance str_enum_laws : StrEnumLaws t.
Proof. solve_str_enum. Qed.

Lemma name_inj (a b : t) : as_str a = as_str b -> a = b.
Proof. exact (as_str_inj a b). Qed.

End ResourceKind.

Module ResourceUnit.

Inductive t :=
| MilliCpu
| Byte
| Port
| Count.

#[global] Instance t_eq_dec : EqDecision t.
Proof. solve_decision. Defined.

(** The derived [Serialize], [rename_all = "snake_case"]. *)
Definition to_json (self : t) : json :=
  JStr match self with
       | MilliCpu => "milli_cpu" | Byte => "byte" | Port => "port" | Count => "count"
       end.

Lemma unit_json_inj a b : to_json a = to_json b -> a = b.
Proof. by destruct a, b. Qed.

End ResourceUnit.

Module ResourceAllocation.
Import ResourceKind ResourceUnit.

Inductive t :=
| Scalar (amount : N) (unit : ResourceUnit.t)
| Range (start end_inclusive : N) (unit : ResourceUnit.t).

#[global] Instance t_eq_dec : EqDecision t.
Proof. solve_decision. Defined.

Definition mismatch : result unit := err "hard resource allocation does not match its resource kind".

Definition validate_for (self : t) (kind : ResourceKind.t) : result unit :=
  match kind, self with
  | Cpu, Scalar amount MilliCpu
  | (Memory | EphemeralStorage), Scalar amount Byte
  | (Accelerator | Volume), Scalar amount Count =>
    if (0 <? amount)%N then Ok tt else mismatch
  | HostPort, Range start end_inclusive Port =>
    if (0 <? start)%N && (start <=? end_inclusive)%N && (end_inclusive <=? u16_max)%N
    then Ok tt else mismatch
  | _, _ => mismatch
  end.

Definition contains (self requested : t) : bool :=
  match self, requested with
  | Scalar capacity capacity_unit, Scalar requested requested_unit =>
    (capacity_unit == requested_unit) && (requested <=? capacity)%N
  | Range capacity_start capacity_end capacity_unit, Range requested_start requested_end requested_unit =>
    (capacity_unit == requested_unit)
    && (capacity_start <=? requested_start)%N
    && (requested_end <=? capacity_end)%N
  | _, _ => false
  end.

Definition scalar_amount (self : t) : option N :=
  match self with
  | Scalar amount _ => Some amount
  | Range _ _ _ => None
  end.

(** [#[serde(tag = "shape")]] *)
Definition to_json (self : t) : json :=
  match self with
  | Scalar amount unit =>
    JObj [("shape", JStr "scalar"); ("amount", JNum amount); ("unit", ResourceUnit.to_json unit)]
  | Range start end_inclusive unit =>
    JObj [("shape", JStr "range"); ("start", JNum start); ("end_inclusive", JNum end_inclusive);
          ("unit", ResourceUnit.to_json unit)]
  end%string.

Lemma allocation_json_inj a b : to_json a = to_json b -> a = b.
Proof.
  destruct a, b; simpl; intros; simplify_eq; try done;
    f_equal; apply ResourceUnit.unit_json_inj; unfold ResourceUnit.to_json; congruence.
Qed.

(** The units an allocation stands for: the first [amount] of a quantity, the ports of a range. *)
Definition offers (self : t) (n : N) : Prop :=
  match self with
  | Scalar amount _ => (n < amount)%N
  | Range start end_inclusive _ => (start <= n <= end_inclusive)%N
  end.

Lemma contains_offers_aux kind capacity requested :
  validate_for capacity kind = Ok tt -> validate_for requested kind = Ok tt ->
  contains capacity requested = true <-> (forall n, offers requested n -> offers capacity n).
Proof.
  destruct kind, capacity as [ca []|cs ce []], requested as [ra []|rs re []];
    unfold validate_for, mismatch, err; try discriminate;
    intros Hc Hr; repeat case_match; try discriminate; simpl in *; reflect_bools; destruct_and?.
  all: split; [intros; destruct_and?; lia|intros Hsub; split_and?; try done].
  all: first [ destruct (Hsub rs); lia | destruct (Hsub re); lia
             | destruct (N.le_gt_cases ra ca); [done|]; specialize (Hsub ca); lia ].
Qed.

End ResourceAllocation.

(** ** Slots *)

(** The loop of the three slot validators and of the inventory: each slot is valid and its key
    [(kind, stable_resource_id)] is above the previous one. *)
Fixpoint validate_sorted {A} (validate : A -> result unit) (key : A -> ResourceKind.t * string)
    (message : string) (previous : option (ResourceKind.t * string)) (slots : list A) : result unit :=
  match slots with
  | [] => Ok tt
  | slot :: rest =>
    validate slot ;;
    let k := key slot in
    fail_if (is_some_and (fun candidate => leb k candidate) previous) message ;;
    validate_sorted validate key message (Some k) rest
  end.

Definition slot_set {A} (validate : A -> result unit) (key : A -> ResourceKind.t * string)
    (max : N) (slots : list A) : Prop :=
  (1 <= len slots <= max)%N /\ Forall (fun s => validate s = Ok tt) slots
  /\ StronglySorted (key_lt key) slots.

Section slot_sets.
Context {A : Type} (validate : A -> result unit) (key : A -> ResourceKind.t * string).

Lemma validate_sorted_Ok message previous slots :
  validate_sorted validate key message previous slots = Ok tt <->
  Forall (fun s => validate s = Ok tt) slots /\ StronglySorted (key_lt key) slots
  /\ (forall p, previous = Some p -> Forall (fun s => ltb p (key s) = true) slots).
Proof.
  revert previous. induction slots as [|s slots IH]; intros previous; simpl.
  { split; [by repeat split; try constructor|done]. }
  rewrite result_bind_Ok. split.
  - intros ([] & Hs & H). rewrite result_bind_Ok in H. destruct H as (u & Hu & H).
    apply fail_if_Ok in Hu. apply IH in H as (Hv & Hss & Hp). specialize (Hp _ eq_refl).
    split_and!; [by constructor|by constructor|]. intros p ->. simpl in Hu.
    rewrite leb_ltb in Hu. apply negb_false_iff in Hu. constructor; [done|].
    eapply Forall_impl; [done|]. intros x. by apply ltb_trans.
  - intros (Hv & Hss & Hp). inversion_clear Hv as [|? ? Hv1 Hv2]. inversion_clear Hss as [|? ? Hs1 Hs2].
    exists tt. split; [done|]. rewrite result_bind_Ok. exists tt. split.
    + apply fail_if_Ok. destruct previous as [p|]; simpl; [|done].
      specialize (Hp _ eq_refl). inversion_clear Hp. rewrite leb_ltb. by apply negb_false_iff.
    + apply IH. split_and!; [done|done|]. intros p [= <-]. done.
Qed.

Lemma slot_set_spec c (message empty : string) max slots :
  c = is_empty slots || (max <? len slots)%N ->
  (fail_if c empty ;; validate_sorted validate key message None slots) = Ok tt <->
  slot_set validate key max slots.
Proof.
  intros ->. rewrite result_bind_Ok. unfold slot_set, is_empty, len. split.
  - intros (u & Hc & (Hv & Hs & _)%validate_sorted_Ok). apply fail_if_Ok in Hc.
    destruct slots; simpl in *; reflect_bools; [naive_solver|]. split_and!; try done; lia.
  - intros (Hl & Hv & Hs). exists tt. split; [|by apply validate_sorted_Ok].
    apply fail_if_Ok. destruct slots; simpl in *; [lia|]. reflect_bools. lia.
Qed.
End slot_sets.

Module ResourceSlotRequest.

Record t := Mk {
  kind : ResourceKind.t;
  stable_resource_id : string;
  allocation : ResourceAllocation.t;
}.

#[global] Instance t_eq_dec : EqDecision t.
Proof. solve_decision. Defined.

Definition validate (self : t) : result unit :=
  validate_stable_resource_id self.(stable_resource_id) ;;
  ResourceAllocation.validate_for self.(allocation) self.(kind).

Definition new (kind : ResourceKind.t) (stable_resource_id : string)
    (allocation : ResourceAllocation.t) : result t :=
  let request := Mk kind stable_resource_id allocation in
  validate request ;; Ok request.

Definition key (self : t) : ResourceKind.t * string := (self.(kind), self.(stable_resource_id)).

Definition to_json (self : t) : json :=
  JObj [("kind", JStr (ResourceKind.as_str self.(kind)));
        ("stableResourceId", JStr self.(stable_resource_id));
        ("allocation", ResourceAllocation.to_json self.(allocation))]%string.

Lemma slot_request_json_inj a b : to_json a = to_json b -> a = b.
Proof.
  destruct a as [k i al], b as [k' i' al']. unfold to_json; simpl. intros E.
  injection E as Ek -> Ea. apply ResourceKind.name_inj in Ek as ->.
  by apply ResourceAllocation.allocation_json_inj in Ea as ->.
Qed.

End ResourceSlotRequest.

Module ResourceSlotEvidence.

Record t := Mk {
  kind : ResourceKind.t;
  stable_resource_id : string;
  slot_generation : N;
  fence_token : Uuid;
}.

#[global] Instance t_eq_dec : EqDecision t.
Proof. solve_decision. Defined.

Definition validate (self : t) : result unit :=
  validate_stable_resource_id self.(stable_resource_id) ;;
  fail_if ((self.(slot_generation) =? 0)%N || is_nil self.(fence_token))
    "hard resource slot evidence is invalid".

Definition key (self : t) : ResourceKind.t * string := (self.(kind), self.(stable_resource_id)).

Definition to_json `{External} (self : t) : json :=
  JObj [("kind", JStr (ResourceKind.as_str self.(kind)));
        ("stableResourceId", JStr self.(stable_resource_id));
        ("slotGeneration", JNum self.(slot_generation));
        ("fenceToken", JStr (uuid_display self.(fence_token)))]%string.

End ResourceSlotEvidence.

Module ResourceSlotBinding.

Record t := Mk {
  kind : ResourceKind.t;
  stable_resource_id : string;
  allocation : ResourceAllocation.t;
  slot_generation : N;
  fence_token : Uuid;
}.

#[global] Instance t_eq_dec : EqDecision t.
Proof. solve_decision. Defined.

Definition validate (self : t) : result unit :=
  validate_stable_resource_id self.(stable_resource_id) ;;
  ResourceAllocation.validate_for self.(allocation) self.(kind) ;;
  fail_if ((self.(slot_generation) =? 0)%N || is_nil self.(fence_token))
    "hard resource slot fencing identity is invalid".

Definition evidence (self : t) : ResourceSlotEvidence.t :=
  ResourceSlotEvidence.Mk self.(kind) self.(stable_resource_id) self.(slot_generation)
    self.(fence_token).

Definition key (self : t) : ResourceKind.t * string := (self.(kind), self.(stable_resource_id)).

Definition to_json `{External} (self : t) : json :=
  JObj [("kind", JStr (ResourceKind.as_str self.(kind)));
        ("stableResourceId", JStr self.(stable_resource_id));
        ("allocation", ResourceAllocation.to_json self.(allocation));
        ("slotGeneration", JNum self.(slot_generation));
        ("fenceToken", JStr (uuid_display self.(fence_token)))]%string.

Lemma slot_binding_json_inj `{ExternalLaws} a b :
  (a.(fence_token) < 2 ^ 128)%N -> (b.(fence_token) < 2 ^ 128)%N -> to_json a = to_json b -> a = b.
Proof.
  destruct a as [k i al g f], b as [k' i' al' g' f']. unfold to_json; simpl. intros Hf Hf' E.
  injection E as Ek -> Ea -> Ef. apply ResourceKind.name_inj in Ek as ->.
  apply ResourceAllocation.allocation_json_inj in Ea as ->. apply uuid_display_inj in Ef; [|done..]. by subst.
Qed.

Lemma evidence_valid self : validate self = Ok tt -> ResourceSlotEvidence.validate (evidence self) = Ok tt.
Proof.
  unfold validate, ResourceSlotEvidence.validate. intros H. reflect_results. simpl. tauto.
Qed.

End ResourceSlotBinding.

Definition validate_slot_requests (slots : list ResourceSlotRequest.t) : result unit :=
  fail_if (is_empty slots || (MAX_RESOURCE_SLOTS <? len slots)%N)
    "hard resource claim must contain a bounded non-empty slot set" ;;
  validate_sorted ResourceSlotRequest.validate ResourceSlotRequest.key
    "hard resource slot requests must be uniquely and canonically sorted" None slots.

Definition validate_slot_bindings (slots : list ResourceSlotBinding.t) : result unit :=
  fail_if (is_empty slots || (MAX_RESOURCE_SLOTS <? len slots)%N)
    "hard resource claim must contain a bounded non-empty slot set" ;;
  validate_sorted ResourceSlotBinding.validate ResourceSlotBinding.key
    "hard resource slot bindings must be uniquely and canonically sorted" None slots.

Definition validate_slot_evidence (slots : list ResourceSlotEvidence.t) : result unit :=
  fail_if (is_empty slots || (MAX_RESOURCE_SLOTS <? len slots)%N)
    "hard resource evidence must contain a bounded non-empty slot set" ;;
  validate_sorted ResourceSlotEvidence.validate ResourceSlotEvidence.key
    "hard resource slot evidence must be uniquely and canonically sorted" None slots.

Lemma validate_slot_requests_Ok slots :
  validate_slot_requests slots = Ok tt <->
  slot_set ResourceSlotRequest.validate ResourceSlotRequest.key MAX_RESOURCE_SLOTS slots.
Proof. by apply slot_set_spec. Qed.

Lemma validate_slot_bindings_Ok slots :
  validate_slot_bindings slots = Ok tt <->
  slot_set ResourceSlotBinding.validate ResourceSlotBinding.key MAX_RESOURCE_SLOTS slots.
Proof. by apply slot_set_spec. Qed.

Lemma validate_slot_evidence_Ok slots :
  validate_slot_evidence slots = Ok tt <->
  slot_set ResourceSlotEvidence.validate ResourceSlotEvidence.key MAX_RESOURCE_SLOTS slots.
Proof. by apply slot_set_spec. Qed.

(** The evidence of a bound slot set is a valid evidence set. *)
Lemma slot_evidence_valid slots :
  validate_slot_bindings slots = Ok tt ->
  validate_slot_evidence (map ResourceSlotBinding.evidence slots) = Ok tt.
Proof.
  rewrite validate_slot_bindings_Ok, validate_slot_evidence_Ok. unfold slot_set, len.
  rewrite length_map. intros (? & Hv & Hs). split_and!; [lia|lia| |].
  - apply Forall_fmap. eapply Forall_impl; [done|]. intros s. apply ResourceSlotBinding.evidence_valid.
  - clear -Hs. induction Hs as [|s slots _ IH Hs]; simpl; constructor; [done|].
    apply Forall_fmap. done.
Qed.

(** A digest this code base computes passes the node messages' check. *)
Lemma validate_sha256_lower label value :
  is_sha256_digest value = true -> validate_sha256 label value = Ok tt.
Proof.
  unfold is_sha256_digest, validate_sha256. destruct (strip_prefix _ _) as [hex|]; [|done].
  intros [Hl Ha]%andb_prop. rewrite Hl. simpl.
  assert (all is_ascii_hexdigit (bytes_of hex) = true) as ->; [|done].
  unfold all in *. rewrite !forallb_forall in *. intros b Hb. unfold is_ascii_hexdigit.
  by rewrite (Ha b Hb).
Qed.

(** Capacity and requests of the same kind: the containment test accepts a request exactly
    when every unit it asks for (each milli-CPU, byte, device or port) is one the capacity has. *)
Theorem allocation_contains_spec kind capacity requested :
  ResourceAllocation.validate_for capacity kind = Ok tt ->
  ResourceAllocation.validate_for requested kind = Ok tt ->
  ResourceAllocation.contains capacity requested = true <->
  (forall n, ResourceAllocation.offers requested n -> ResourceAllocation.offers capacity n).
Proof. apply ResourceAllocation.contains_offers_aux. Qed.

Lemma allocation_contains_spec_witness :
  ResourceAllocation.contains (ResourceAllocation.Range 20000 20100 ResourceUnit.Port)
    (ResourceAllocation.Range 20010 20020 ResourceUnit.Port) = true.
Proof.
  apply (allocation_contains_spec ResourceKind.HostPort); [reflexivity|reflexivity|].
  simpl. lia.
Defined.

(** The slot validators accept exactly the canonical slot sets: one to 256 valid slots in
    strictly increasing order of kind and identifier, hence without duplicates. *)
Theorem slot_validators_spec requests bindings evidence :
  (validate_slot_requests requests = Ok tt <->
   slot_set ResourceSlotRequest.validate ResourceSlotRequest.key MAX_RESOURCE_SLOTS requests)
  /\ (validate_slot_bindings bindings = Ok tt <->
   slot_set ResourceSlotBinding.validate ResourceSlotBinding.key MAX_RESOURCE_SLOTS bindings)
  /\ (validate_slot_evidence evidence = Ok tt <->
   slot_set ResourceSlotEvidence.validate ResourceSlotEvidence.key MAX_RESOURCE_SLOTS evidence).
Proof.
  auto using validate_slot_requests_Ok, validate_slot_bindings_Ok, validate_slot_evidence_Ok.
Qed.
