(* ===== verification/NodeArtifacts.v ===== *)
(** * Content-addressed artifacts on a node

    [contracts/src/node/artifact.rs]: the URI of an artifact is a function of its digest; transfers
    are requested and acknowledged under the identity of one command. *)

From Stdlib Require Import ZArith NArith Lia String Ascii.
From S2P Require Import Prelude RustStd External Text Resources.

Definition NODE_DIRECTORY_ARTIFACT_MEDIA_TYPE : string := "application/vnd.a3s.directory.v1+tar".
Definition SKILL_BUNDLE_MEDIA_TYPE : string := "application/vnd.a3s.skill.bundle.v1+tar".
Definition DURABLE_CELL_BUNDLE_MEDIA_TYPE : string := "application/vnd.a3s.durable-cell.bundle.v1+tar".
Definition PLUGIN_TRUST_ROOT_MEDIA_TYPE : string := "application/vnd.a3s.plugin.trust-root.v1+json".
Definition PLUGIN_POLICY_ACL_MEDIA_TYPE : string := "application/vnd.a3s.plugin.policy.v1+acl".
Definition ARTIFACT_URI_PREFIX : string := "a3s-cloud-artifact://sha256/".

(** ** References of the [a3s_runtime] contract

    The source builds them field by field; their own validation and encoding are the contract's. *)
Module ArtifactRef.
Record t := Mk { uri : string; digest : string; media_type : string }.
#[global] Instance t_eq_dec : EqDecision t.
Proof. solve_decision. Defined.
End ArtifactRef.

Module RuntimeOutputArtifact.
Record t := Mk { name : string; artifact : ArtifactRef.t; size_bytes : N }.
#[global] Instance t_eq_dec : EqDecision t.
Proof. solve_decision. Defined.
End RuntimeOutputArtifact.

Class ArtifactContract := {
  artifact_validate : ArtifactRef.t -> result unit;
  artifact_to_json : ArtifactRef.t -> json;
  output_artifact_to_json : RuntimeOutputArtifact.t -> json;
}.

Definition artifact_uri (digest : string) : result string :=
  validate_lower_sha256 "artifact digest" digest ;;
  hex ← ok_or (strip_prefix "sha256:" digest) "artifact digest must use sha256";
  Ok (ARTIFACT_URI_PREFIX ++ hex)%string.

Definition validate_supported_media_type (value : string) : result unit :=
  validate_single_line "artifact media type" value 255 ;;
  fail_if (negb (matches value
             [NODE_DIRECTORY_ARTIFACT_MEDIA_TYPE; SKILL_BUNDLE_MEDIA_TYPE; DURABLE_CELL_BUNDLE_MEDIA_TYPE;
              PLUGIN_TRUST_ROOT_MEDIA_TYPE; PLUGIN_POLICY_ACL_MEDIA_TYPE]))
    "node artifact transport does not support this media type".

Definition validate_directory_media_type (value : string) : result unit :=
  validate_single_line "artifact media type" value 255 ;;
  fail_if (value != NODE_DIRECTORY_ARTIFACT_MEDIA_TYPE)
    "Runtime Task output requires the supported directory archive media type".

Section artifacts.
Context `{ArtifactContract}.

Definition validate_cloud_artifact (artifact : ArtifactRef.t) : result unit :=
  artifact_validate artifact ;;
  validate_lower_sha256 "artifact digest" artifact.(ArtifactRef.digest) ;;
  uri ← artifact_uri artifact.(ArtifactRef.digest);
  fail_if (artifact.(ArtifactRef.uri) != uri) "artifact URI does not match its content digest" ;;
  validate_supported_media_type artifact.(ArtifactRef.media_type).

Definition validate_mount_artifact (uri digest media_type : string) : result unit :=
  validate_cloud_artifact (ArtifactRef.Mk uri digest media_type).

End artifacts.

Module NodeArtifactDownloadRequest.

Record t := Mk {
  schema : string;
  node_id : Uuid;
  command_id : Uuid;
  spec_digest : string;
  mount_name : string;
  artifact_uri : string;
  artifact_digest : string;
  artifact_media_type : string;
}.

Definition SCHEMA : string := "a3s.cloud.node-artifact-download-request.v1".

Definition artifact `{ArtifactContract} (self : t) : result ArtifactRef.t :=
  let artifact := ArtifactRef.Mk self.(artifact_uri) self.(artifact_digest) self.(artifact_media_type) in
  artifact_validate artifact ;; Ok artifact.

Definition validate `{ArtifactContract} (self : t) : result unit :=
  check_schema self.(schema) SCHEMA "unsupported node artifact download request schema {:?}" ;;
  validate_uuid "node_id" self.(node_id) ;;
  validate_uuid "command_id" self.(command_id) ;;
  validate_lower_sha256 "Runtime specification digest" self.(spec_digest) ;;
  validate_single_line "artifact mount name" self.(mount_name) 255 ;;
  artifact ← artifact self;
  artifact_validate artifact ;;
  validate_mount_artifact self.(artifact_uri) self.(artifact_digest) self.(artifact_media_type).

Definition new `{ArtifactContract} (node_id command_id : Uuid) (spec_digest mount_name : string)
    (artifact : ArtifactRef.t) : result t :=
  let request := Mk SCHEMA node_id command_id spec_digest mount_name artifact.(ArtifactRef.uri)
                    artifact.(ArtifactRef.digest) artifact.(ArtifactRef.media_type) in
  validate request ;; Ok request.

End NodeArtifactDownloadRequest.

Module NodeArtifactUploadRequest.

Record t := Mk {
  schema : string;
  node_id : Uuid;
  command_id : Uuid;
  spec_digest : string;
  output_name : string;
  digest : string;
  media_type : string;
  size_bytes : N;
}.

Definition SCHEMA : string := "a3s.cloud.node-artifact-upload-request.v1".

Definition validate (self : t) : result unit :=
  check_schema self.(schema) SCHEMA "unsupported node artifact upload request schema {:?}" ;;
  validate_uuid "node_id" self.(node_id) ;;
  validate_uuid "command_id" self.(command_id) ;;
  validate_lower_sha256 "Runtime specification digest" self.(spec_digest) ;;
  validate_single_line "artifact output name" self.(output_name) 255 ;;
  validate_lower_sha256 "artifact digest" self.(digest) ;;
  validate_directory_media_type self.(media_type) ;;
  fail_if (self.(size_bytes) =? 0)%N "artifact upload size must be positive".

Definition new (node_id command_id : Uuid) (spec_digest output_name digest media_type : string)
    (size_bytes : N) : result t :=
  let request := Mk SCHEMA node_id command_id spec_digest output_name digest media_type size_bytes in
  validate request ;; Ok request.

End NodeArtifactUploadRequest.

Module NodeArtifactUploadReceipt.

Record t := Mk {
  schema : string;
  node_id : Uuid;
  command_id : Uuid;
  spec_digest : string;
  artifact : RuntimeOutputArtifact.t;
  replayed : bool;
}.

Definition SCHEMA : string := "a3s.cloud.node-artifact-upload-receipt.v1".

Definition validate_against `{ArtifactContract} (self : t) (request : NodeArtifactUploadRequest.t) : result unit :=
  let output := self.(artifact) in
  let artifact := output.(RuntimeOutputArtifact.artifact) in
  NodeArtifactUploadRequest.validate request ;;
  check_schema self.(schema) SCHEMA "unsupported node artifact upload receipt schema {:?}" ;;
  fail_if ((self.(node_id) != request.(NodeArtifactUploadRequest.node_id))
           || (self.(command_id) != request.(NodeArtifactUploadRequest.command_id))
           || (self.(spec_digest) != request.(NodeArtifactUploadRequest.spec_digest))
           || (output.(RuntimeOutputArtifact.name) != request.(NodeArtifactUploadRequest.output_name))
           || (artifact.(ArtifactRef.digest) != request.(NodeArtifactUploadRequest.digest))
           || (artifact.(ArtifactRef.media_type) != request.(NodeArtifactUploadRequest.media_type))
           || (output.(RuntimeOutputArtifact.size_bytes) != request.(NodeArtifactUploadRequest.size_bytes)))
    "artifact upload receipt changed the transfer identity" ;;
  validate_cloud_artifact artifact.

End NodeArtifactUploadReceipt.

(** ** The URI identifies the content *)
Lemma validate_lower_sha256_Ok label value :
  validate_lower_sha256 label value = Ok tt <-> is_sha256_digest value = true.
Proof.
  unfold validate_lower_sha256, is_sha256_digest, is_some_and, errf.
  destruct (strip_prefix _ _); [|naive_solver]. case_match; naive_solver.
Qed.

#[export] Hint Rewrite validate_lower_sha256_Ok : results.

Lemma artifact_uri_Ok digest uri :
  artifact_uri digest = Ok uri ->
  is_sha256_digest digest = true /\ exists hex, digest = ("sha256:" ++ hex)%string /\ uri = (ARTIFACT_URI_PREFIX ++ hex)%string.
Proof.
  unfold artifact_uri. rewrite then_Ok, result_bind_Ok, validate_lower_sha256_Ok.
  intros (Hd & hex & Hh%ok_or_Ok & [= <-]). split; [done|]. exists hex. split; [by apply strip_prefix_Some|done].
Qed.

Lemma artifact_uri_inj d d' uri : artifact_uri d = Ok uri -> artifact_uri d' = Ok uri -> d = d'.
Proof.
  intros (_ & h & -> & ->)%artifact_uri_Ok (_ & h' & -> & E)%artifact_uri_Ok.
  apply (inj (String.append _)) in E. by subst.
Qed.
