(* ===== verification/NodeInventory.v ===== *)
(** * Node inventories

    [contracts/src/node/inventory.rs]: the resource slots a node agent reports, in canonical order
    and identified by a digest of their content. *)

From Stdlib Require Import ZArith NArith Lia String.
From S2P Require Import Prelude RustStd External Resources.

Module NodeResourceSlot.

Record t := Mk {
  kind : ResourceKind.t;
  stable_resource_id : string;
  allocation : ResourceAllocation.t;
}.

#[global] Instance t_eq_dec : EqDecision t.
Proof. solve_decision. Defined.

Definition validate (self : t) : result unit :=
  validate_stable_resource_id self.(stable_resource_id) ;;
  ResourceAllocation.validate_for self.(allocation) self.(kind).

Definition new (kind : ResourceKind.t) (stable_resource_id : string)
    (allocation : ResourceAllocation.t) : result t :=
  let slot := Mk kind stable_resource_id allocation in
  validate slot ;; Ok slot.

Definition key (self : t) : ResourceKind.t * string := (self.(kind), self.(stable_resource_id)).

Definition to_json (self : t) : json :=
  JObj [("kind", JStr (ResourceKind.as_str self.(kind)));
        ("stable_resource_id", JStr self.(stable_resource_id));
        ("allocation", ResourceAllocation.to_json self.(allocation))]%string.

Lemma node_slot_json_inj a b : to_json a = to_json b -> a = b.
Proof.
  destruct a as [k i al], b as [k' i' al']. unfold to_json; simpl. intros E.
  injection E as Ek -> Ea. apply ResourceKind.name_inj in Ek as ->.
  by apply ResourceAllocation.allocation_json_inj in Ea as ->.
Qed.

End NodeResourceSlot.

Definition MAX_INVENTORY_SLOTS : N := 256.

Definition validate_inventory_slots (slots : list NodeResourceSlot.t) : result unit :=
  fail_if (is_empty slots || (MAX_INVENTORY_SLOTS <? len slots)%N)
    "node resource inventory must contain 1 to 256 slots" ;;
  validate_sorted NodeResourceSlot.validate NodeResourceSlot.key
    "node resource inventory slots must be uniquely and canonically sorted" None slots.

Lemma validate_inventory_slots_Ok slots :
  validate_inventory_slots slots = Ok tt <->
  slot_set NodeResourceSlot.validate NodeResourceSlot.key MAX_INVENTORY_SLOTS slots.
Proof. by apply slot_set_spec. Qed.

Module NodeInventoryReference.

Record t := Mk { generation : N; digest : string }.

#[global] Instance t_eq_dec : EqDecision t.
Proof. solve_decision. Defined.

Definition validate (self : t) : result unit :=
  fail_if (self.(generation) =? 0)%N "node inventory generation must be positive" ;;
  validate_sha256 "node inventory digest" self.(digest).

End NodeInventoryReference.

Module NodeResourceInventory.

Record t := Mk {
  schema : string;
  node_id : Uuid;
  agent_instance_id : Uuid;
  generation : N;
  observed_at : Time;
  slots : list NodeResourceSlot.t;
  digest : string;
}.

#[global] Instance t_eq_dec : EqDecision t.
Proof. solve_decision. Defined.

#[global] Instance t_eta : Eta t := fun r =>
  Mk r.(schema) r.(node_id) r.(agent_instance_id) r.(generation) r.(observed_at) r.(slots) r.(digest).

Definition SCHEMA : string := "a3s.cloud.node-resource-inventory.v1".
Definition CONTENT_SCHEMA : string := "a3s.cloud.node-resource-inventory-content.v1".

Definition content (slots : list NodeResourceSlot.t) : json :=
  JObj [("schema", JStr CONTENT_SCHEMA); ("slots", JArr (map NodeResourceSlot.to_json slots))]%string.

Definition calculate_digest `{External} (slots : list NodeResourceSlot.t) : result string :=
  digest_json (content slots) "could not encode node inventory content: {error}".

Definition validate `{External} (self : t) : result unit :=
  (if self.(schema) != SCHEMA
   then errf "unsupported node resource inventory schema {:?}" [FStr self.(schema)] else Ok tt) ;;
  validate_uuid "node_id" self.(node_id) ;;
  validate_uuid "agent_instance_id" self.(agent_instance_id) ;;
  fail_if ((self.(generation) =? 0)%N || (timestamp_millis self.(observed_at) <=? 0)%Z)
    "node resource inventory generation or observation time is invalid" ;;
  validate_inventory_slots self.(slots) ;;
  validate_sha256 "node inventory digest" self.(digest) ;;
  expected ← calculate_digest self.(slots);
  fail_if (self.(digest) != expected) "node inventory digest does not match its canonical slots".

Definition new `{External} (node_id agent_instance_id : Uuid) (generation : N) (observed_at : Time)
    (slots : list NodeResourceSlot.t) : result t :=
  let slots := sort_by_key NodeResourceSlot.key slots in
  digest ← calculate_digest slots;
  let inventory := Mk SCHEMA node_id agent_instance_id generation observed_at slots digest in
  validate inventory ;; Ok inventory.

Definition reference (self : t) : NodeInventoryReference.t :=
  NodeInventoryReference.Mk self.(generation) self.(digest).

End NodeResourceInventory.

Module NodeResourceInventoryReceipt.

Record t := Mk {
  schema : string;
  node_id : Uuid;
  generation : N;
  digest : string;
  replayed : bool;
}.

Definition SCHEMA : string := "a3s.cloud.node-resource-inventory-receipt.v1".

Definition validate (self : t) : result unit :=
  (if self.(schema) != SCHEMA
   then errf "unsupported node resource inventory receipt schema {:?}" [FStr self.(schema)]
   else Ok tt) ;;
  validate_uuid "node_id" self.(node_id) ;;
  NodeInventoryReference.validate (NodeInventoryReference.Mk self.(generation) self.(digest)).

End NodeResourceInventoryReceipt.

Section inventory_lemmas.
Context `{ExternalLaws}.
Import NodeResourceInventory.

Lemma calculate_digest_total l :
  exists d, calculate_digest l = Ok d /\ is_sha256_digest d = true.
Proof. apply digest_json_total. Qed.

Lemma content_inj l l' : content l = content l' -> l = l'.
Proof.
  unfold content. intros E. injection E as E. by apply list_fmap_eq_inj in E; [|intros ? ?; apply NodeResourceSlot.node_slot_json_inj].
Qed.

(** The inventories a node may report. *)
Record acceptable (node agent : Uuid) (generation : N) (observed_at : Time)
    (slots : list NodeResourceSlot.t) : Prop := {
  acc_node : is_nil node = false;
  acc_agent : is_nil agent = false;
  acc_generation : generation <> 0%N;
  acc_time : (0 < timestamp_millis observed_at)%Z;
  acc_count : (1 <= len slots <= MAX_INVENTORY_SLOTS)%N;
  acc_valid : Forall (fun s => NodeResourceSlot.validate s = Ok tt) slots;
  acc_distinct : NoDup (NodeResourceSlot.key <$> slots);
}.

Lemma inventory_validate_Ok self :
  validate self = Ok tt <->
  self.(schema) = SCHEMA /\ is_nil self.(node_id) = false /\ is_nil self.(agent_instance_id) = false
  /\ self.(generation) <> 0%N /\ (0 < timestamp_millis self.(observed_at))%Z
  /\ slot_set NodeResourceSlot.validate NodeResourceSlot.key MAX_INVENTORY_SLOTS self.(slots)
  /\ calculate_digest self.(slots) = Ok self.(digest).
Proof.
  unfold validate, validate_uuid, errf. destruct (calculate_digest_total self.(slots)) as (d & -> & Hd).
  rewrite !then_Ok, validate_inventory_slots_Ok. simpl. reflect_results. reflect_bools.
  split.
  - intros (? & ? & ? & ? & ? & ? & ->). intuition lia.
  - intros (? & ? & ? & ? & ? & ? & [= <-]). split_and!; (done || lia || by apply validate_sha256_lower).
Qed.

Lemma inventory_new_Ok node agent g t l inv :
  new node agent g t l = Ok inv ->
  exists d, inv = Mk SCHEMA node agent g t (sort_by_key NodeResourceSlot.key l) d
            /\ validate inv = Ok tt.
Proof.
  unfold new. rewrite result_bind_Ok. intros (d & _ & Hn). rewrite then_Ok in Hn.
  destruct Hn as [Hv [= <-]]. eauto.
Qed.
End inventory_lemmas.

(** Building an inventory succeeds for every acceptable report and only for those, and the
    result does not depend on the order in which the agent listed its slots: two reports with the
    same slots give the same inventory, digest included. *)
Theorem inventory_new_canonical `{ExternalLaws} node agent g t l :
  (is_ok (NodeResourceInventory.new node agent g t l) = true <-> acceptable node agent g t l)
  /\ (forall l', NoDup (NodeResourceSlot.key <$> l) -> l ≡ₚ l' ->
        NodeResourceInventory.new node agent g t l = NodeResourceInventory.new node agent g t l').
Proof.
  split.
  - split.
    + destruct (NodeResourceInventory.new _ _ _ _ _) as [inv|] eqn:E; [|done]. intros _.
      apply inventory_new_Ok in E as (d & -> & (_ & ? & ? & ? & ? & (Hc & Hv & Hs) & _)%inventory_validate_Ok).
      simpl in *. split; try done.
      * revert Hc. unfold len. by rewrite sort_by_key_perm.
      * by rewrite sort_by_key_perm in Hv.
      * apply key_lt_NoDup in Hs. by rewrite sort_by_key_perm in Hs.
    + intros []. unfold NodeResourceInventory.new.
      destruct (calculate_digest_total (sort_by_key NodeResourceSlot.key l)) as (d & Ed & Hd).
      rewrite Ed. cbn [mbind result_bind].
      enough (NodeResourceInventory.validate
                (NodeResourceInventory.Mk NodeResourceInventory.SCHEMA node agent g t
                   (sort_by_key NodeResourceSlot.key l) d) = Ok tt) as -> by done.
      apply inventory_validate_Ok. simpl. split_and!; try done. split_and!.
      * unfold len. rewrite sort_by_key_perm. unfold len in *. lia.
      * unfold len. rewrite sort_by_key_perm. unfold len in *. lia.
      * by rewrite sort_by_key_perm.
      * apply strictly_sorted_of_NoDup; [by rewrite sort_by_key_perm|apply sort_by_key_sorted].
  - intros l' Hnd Hp. unfold NodeResourceInventory.new.
    by rewrite (sort_by_key_unique NodeResourceSlot.key l l').
Qed.

Lemma inventory_new_canonical_witness :
  let cpu := NodeResourceSlot.Mk ResourceKind.Cpu "cpu0" (ResourceAllocation.Scalar 4000 ResourceUnit.MilliCpu) in
  let mem := NodeResourceSlot.Mk ResourceKind.Memory "ram" (ResourceAllocation.Scalar 1024 ResourceUnit.Byte) in
  let new := @NodeResourceInventory.new Toy.toy_external 1 2 3 5000000000 in
  is_ok (new [mem; cpu]) = true /\ new [mem; cpu] = new [cpu; mem].
Proof.
  intros cpu mem new. split; [vm_compute; reflexivity|].
  apply (inventory_new_canonical (H0 := Toy.toy_external_laws) 1 2 3 5000000000 [mem; cpu]);
    [|constructor].
  apply (bool_decide_unpack _). vm_compute. done.
Defined.
