(* ===== verification/NodeClaims.v ===== *)
(** * Resource claim messages between the control plane and a node agent

    [contracts/src/node/resource_claim.rs]: the binding of a claim to the slots of one node, the
    prepare and release requests, and the evidence the agent returns for them. *)

From Stdlib Require Import ZArith NArith Lia String.
From stdpp Require Import gmap.
From S2P Require Import Prelude RustStd External Resources NodeInventory.

Definition RUNTIME_RESOURCE_CLAIM_ID_KEY : string := "a3s.cloud.resource-claim.id".
Definition RUNTIME_RESOURCE_BINDING_DIGEST_KEY : string := "a3s.cloud.resource-claim.binding-digest".

(** The a3s_runtime contract types, which are not part of the repository: the fields and the
    [validate] methods the source uses.  The claims of an observation's evidence are a
    [BTreeMap<String, String>]; [put_claims] stores them, in a new evidence record when there was
    none. *)
Class RuntimeContract := {
  RuntimeUnitSpec : Type;
  spec_validate : RuntimeUnitSpec -> result unit;
  spec_unit_id : RuntimeUnitSpec -> string;
  spec_generation : RuntimeUnitSpec -> N;
  spec_cpu_millis : RuntimeUnitSpec -> N;
  spec_memory_bytes : RuntimeUnitSpec -> N;
  spec_ephemeral_storage_bytes : RuntimeUnitSpec -> option N;
  RuntimeObservation : Type;
  observation_validate : RuntimeObservation -> result unit;
  observation_unit_id : RuntimeObservation -> string;
  observation_generation : RuntimeObservation -> N;
  observation_provider_resource_id : RuntimeObservation -> option string;
  observation_claims : RuntimeObservation -> option (gmap string string);
  put_claims : gmap string string -> RuntimeObservation -> RuntimeObservation;
}.

(** Storing evidence changes nothing but the evidence. *)
Class RuntimeContractLaws `{RuntimeContract} := {
  put_claims_claims : forall m o, observation_claims (put_claims m o) = Some m;
  put_claims_unit : forall m o, observation_unit_id (put_claims m o) = observation_unit_id o;
  put_claims_generation : forall m o, observation_generation (put_claims m o) = observation_generation o;
}.

Definition canonical_digest `{External} (value : json) (validation : result unit) : result string :=
  validation ;;
  digest_json value "could not encode resource claim evidence: {error}".

Definition insert_exact_claim (claims : gmap string string) (key value : string) :
    result (gmap string string) :=
  if is_some_and (fun existing => existing != value) (claims !! key)
  then errf "Runtime evidence reserved claim {key:?} conflicts" [FStr key]
  else Ok (<[key := value]> claims).

Definition optional_scalar (slots : list ResourceSlotBinding.t) (kind : ResourceKind.t)
    (unit : ResourceUnit.t) : result (option N) :=
  match List.filter (fun slot => slot.(ResourceSlotBinding.kind) == kind) slots with
  | [] => Ok None
  | [slot] =>
    match slot.(ResourceSlotBinding.allocation) with
    | ResourceAllocation.Scalar amount actual =>
      if actual == unit then Ok (Some amount)
      else errf "resource claim {} allocation has the wrong scalar unit" [FStr (ResourceKind.as_str kind)]
    | _ => errf "resource claim {} allocation has the wrong scalar unit" [FStr (ResourceKind.as_str kind)]
    end
  | _ => errf "resource claim binding contains multiple {} slots" [FStr (ResourceKind.as_str kind)]
  end.

Definition required_scalar (slots : list ResourceSlotBinding.t) (kind : ResourceKind.t)
    (unit : ResourceUnit.t) : result N :=
  amount ← optional_scalar slots kind unit;
  match amount with
  | Some amount => Ok amount
  | None => errf "resource claim binding omitted required {}" [FStr (ResourceKind.as_str kind)]
  end.

Module NodeResourceClaimBinding.

Record t := Mk {
  schema : string;
  claim_id : Uuid;
  node_id : Uuid;
  agent_instance_id : Uuid;
  inventory_generation : N;
  inventory_digest : string;
  runtime_unit_id : string;
  runtime_generation : N;
  topology_digest : string;
  slots : list ResourceSlotBinding.t;
}.

#[global] Instance t_eq_dec : EqDecision t.
Proof. solve_decision. Defined.

Definition SCHEMA : string := "a3s.cloud.node-resource-claim-binding.v1".

Definition to_json `{External} (self : t) : json :=
  JObj [("schema", JStr self.(schema));
        ("claim_id", JStr (uuid_display self.(claim_id)));
        ("node_id", JStr (uuid_display self.(node_id)));
        ("agent_instance_id", JStr (uuid_display self.(agent_instance_id)));
        ("inventory_generation", JNum self.(inventory_generation));
        ("inventory_digest", JStr self.(inventory_digest));
        ("runtime_unit_id", JStr self.(runtime_unit_id));
        ("runtime_generation", JNum self.(runtime_generation));
        ("topology_digest", JStr self.(topology_digest));
        ("slots", JArr (map ResourceSlotBinding.to_json self.(slots)))]%string.

Definition validate (self : t) : result unit :=
  (if self.(schema) != SCHEMA
   then errf "unsupported node resource claim binding schema {:?}" [FStr self.(schema)] else Ok tt) ;;
  validate_uuid "claim_id" self.(claim_id) ;;
  validate_uuid "node_id" self.(node_id) ;;
  validate_uuid "agent_instance_id" self.(agent_instance_id) ;;
  fail_if ((self.(inventory_generation) =? 0)%N || (self.(runtime_generation) =? 0)%N)
    "resource claim inventory and Runtime generations must be positive" ;;
  validate_sha256 "resource inventory digest" self.(inventory_digest) ;;
  validate_sha256 "resource topology digest" self.(topology_digest) ;;
  validate_single_line "Runtime unit ID" self.(runtime_unit_id) 512 ;;
  validate_slot_bindings self.(slots).

Definition digest `{External} (self : t) : result string :=
  canonical_digest (to_json self) (validate self).

(** The slot of the inventory a bound slot names. *)
Definition capacity_of (inventory : NodeResourceInventory.t) (requested : ResourceSlotBinding.t) :
    option NodeResourceSlot.t :=
  List.find (fun slot =>
      (slot.(NodeResourceSlot.kind) == requested.(ResourceSlotBinding.kind))
      && (slot.(NodeResourceSlot.stable_resource_id) == requested.(ResourceSlotBinding.stable_resource_id)))
    inventory.(NodeResourceInventory.slots).

Definition validate_inventory `{External} (self : t) (inventory : NodeResourceInventory.t) : result unit :=
  validate self ;;
  NodeResourceInventory.validate inventory ;;
  fail_if ((inventory.(NodeResourceInventory.node_id) != self.(node_id))
           || (inventory.(NodeResourceInventory.agent_instance_id) != self.(agent_instance_id))
           || (inventory.(NodeResourceInventory.generation) != self.(inventory_generation))
           || (inventory.(NodeResourceInventory.digest) != self.(inventory_digest)))
    "resource claim binding does not reference the current Agent inventory" ;;
  for_each (fun requested =>
    match capacity_of inventory requested with
    | None => errf "resource claim slot {} is absent from the current Agent inventory"
                [FStr requested.(ResourceSlotBinding.stable_resource_id)]
    | Some capacity =>
      if negb (ResourceAllocation.contains capacity.(NodeResourceSlot.allocation)
                 requested.(ResourceSlotBinding.allocation))
      then errf "resource claim slot {} exceeds the current Agent inventory"
             [FStr requested.(ResourceSlotBinding.stable_resource_id)]
      else Ok tt
    end) self.(slots).

Section runtime.
Context `{External} `{RuntimeContract}.

Definition validate_runtime_spec (self : t) (spec : RuntimeUnitSpec) : result unit :=
  validate self ;;
  spec_validate spec ;;
  fail_if ((self.(runtime_unit_id) != spec_unit_id spec)
           || (self.(runtime_generation) != spec_generation spec))
    "resource claim binding does not match the Runtime unit identity" ;;
  cpu ← required_scalar self.(slots) ResourceKind.Cpu ResourceUnit.MilliCpu;
  memory ← required_scalar self.(slots) ResourceKind.Memory ResourceUnit.Byte;
  ephemeral ← optional_scalar self.(slots) ResourceKind.EphemeralStorage ResourceUnit.Byte;
  fail_if ((cpu != spec_cpu_millis spec)
           || (memory != spec_memory_bytes spec)
           || (ephemeral != spec_ephemeral_storage_bytes spec))
    "resource claim scalar allocations do not match the Runtime resource limits" ;;
  fail_if (any (fun slot =>
             negb (matches slot.(ResourceSlotBinding.kind)
                     [ResourceKind.Cpu; ResourceKind.Memory; ResourceKind.EphemeralStorage]))
             self.(slots))
    "the current Runtime binding protocol cannot enforce an exclusive resource slot".

(** [&mut RuntimeObservation]: the evidence may have been stored before an error is returned. *)
Definition bind_runtime_observation (self : t) : method RuntimeObservation unit :=
  lift (validate self) ;;
  observation ← get;
  lift (observation_validate observation) ;;
  if (observation_unit_id observation != self.(runtime_unit_id))
     || (observation_generation observation != self.(runtime_generation))
     || is_none (observation_provider_resource_id observation)
  then raise "Runtime observation does not prove the prepared resource binding identity"
  else
    binding_digest ← lift (digest self);
    let claims := match observation_claims observation with Some claims => claims | None => ∅ end in
    modify (put_claims claims) ;;
    claims ← lift (insert_exact_claim claims RUNTIME_RESOURCE_CLAIM_ID_KEY
                     (uuid_display self.(claim_id)));
    modify (put_claims claims) ;;
    claims ← lift (insert_exact_claim claims RUNTIME_RESOURCE_BINDING_DIGEST_KEY binding_digest);
    modify (put_claims claims) ;;
    observation ← get;
    lift (observation_validate observation).

Definition validate_runtime_observation (self : t) (observation : RuntimeObservation) : result unit :=
  validate self ;;
  observation_validate observation ;;
  claims ← ok_or (observation_claims observation)
             "Runtime observation omitted resource allocation-binding evidence";
  if (observation_unit_id observation != self.(runtime_unit_id))
     || (observation_generation observation != self.(runtime_generation))
     || (claims !! RUNTIME_RESOURCE_CLAIM_ID_KEY != Some (uuid_display self.(claim_id)))
  then err "Runtime observation resource allocation-binding evidence is inconsistent"
  else
    expected ← digest self;
    fail_if (claims !! RUNTIME_RESOURCE_BINDING_DIGEST_KEY != Some expected)
      "Runtime observation resource allocation-binding evidence is inconsistent".

End runtime.

End NodeResourceClaimBinding.

Module NodeResourceClaimPrepare.

Record t := Mk {
  schema : string;
  claim_generation : N;
  claim_digest : string;
  binding : NodeResourceClaimBinding.t;
}.

#[global] Instance t_eq_dec : EqDecision t.
Proof. solve_decision. Defined.

Definition SCHEMA : string := "a3s.cloud.node-resource-claim-prepare.v1".

Definition to_json `{External} (self : t) : json :=
  JObj [("schema", JStr self.(schema));
        ("claim_generation", JNum self.(claim_generation));
        ("claim_digest", JStr self.(claim_digest));
        ("binding", NodeResourceClaimBinding.to_json self.(binding))]%string.

Definition validate (self : t) : result unit :=
  (if self.(schema) != SCHEMA
   then errf "unsupported node resource claim prepare schema {:?}" [FStr self.(schema)] else Ok tt) ;;
  fail_if (self.(claim_generation) =? 0)%N "resource claim generation must be positive" ;;
  validate_sha256 "resource claim digest" self.(claim_digest) ;;
  NodeResourceClaimBinding.validate self.(binding).

End NodeResourceClaimPrepare.

Module NodeResourceClaimPrepared.

Record t := Mk {
  schema : string;
  claim_id : Uuid;
  claim_generation : N;
  claim_digest : string;
  binding_digest : string;
  slots : list ResourceSlotEvidence.t;
  prepared_at : Time;
}.

#[global] Instance t_eq_dec : EqDecision t.
Proof. solve_decision. Defined.

#[global] Instance t_eta : Eta t := fun r =>
  Mk r.(schema) r.(claim_id) r.(claim_generation) r.(claim_digest) r.(binding_digest) r.(slots) r.(prepared_at).

Definition SCHEMA : string := "a3s.cloud.node-resource-claim-prepared.v1".

Definition validate (self : t) : result unit :=
  (if self.(schema) != SCHEMA
   then errf "unsupported node resource claim prepared schema {:?}" [FStr self.(schema)] else Ok tt) ;;
  validate_uuid "claim_id" self.(claim_id) ;;
  fail_if ((self.(claim_generation) =? 0)%N || (timestamp_millis self.(prepared_at) <=? 0)%Z)
    "prepared resource claim generation or time is invalid" ;;
  validate_sha256 "resource claim digest" self.(claim_digest) ;;
  validate_sha256 "resource binding digest" self.(binding_digest) ;;
  validate_slot_evidence self.(slots).

Definition validate_for `{External} (self : t) (request : NodeResourceClaimPrepare.t) : result unit :=
  let binding := request.(NodeResourceClaimPrepare.binding) in
  validate self ;;
  NodeResourceClaimPrepare.validate request ;;
  let expected_slots :=
    map ResourceSlotBinding.evidence binding.(NodeResourceClaimBinding.slots) in
  let mismatch := "prepared resource claim evidence does not match its exact request"%string in
  fail_if ((self.(claim_id) != binding.(NodeResourceClaimBinding.claim_id))
           || (self.(claim_generation) != request.(NodeResourceClaimPrepare.claim_generation))
           || (self.(claim_digest) != request.(NodeResourceClaimPrepare.claim_digest))) mismatch ;;
  expected ← NodeResourceClaimBinding.digest binding;
  fail_if ((self.(binding_digest) != expected) || (self.(slots) != expected_slots)) mismatch.

Definition new `{External} (request : NodeResourceClaimPrepare.t) (prepared_at : Time) : result t :=
  let binding := request.(NodeResourceClaimPrepare.binding) in
  NodeResourceClaimPrepare.validate request ;;
  binding_digest ← NodeResourceClaimBinding.digest binding;
  let prepared :=
    {| schema := SCHEMA;
       claim_id := binding.(NodeResourceClaimBinding.claim_id);
       claim_generation := request.(NodeResourceClaimPrepare.claim_generation);
       claim_digest := request.(NodeResourceClaimPrepare.claim_digest);
       binding_digest := binding_digest;
       slots := map ResourceSlotBinding.evidence binding.(NodeResourceClaimBinding.slots);
       prepared_at := prepared_at |} in
  validate_for prepared request ;;
  Ok prepared.

End NodeResourceClaimPrepared.

Module NodeResourceClaimRelease.

Record t := Mk {
  schema : string;
  claim_generation : N;
  claim_digest : string;
  binding : NodeResourceClaimBinding.t;
}.

#[global] Instance t_eq_dec : EqDecision t.
Proof. solve_decision. Defined.

Definition SCHEMA : string := "a3s.cloud.node-resource-claim-release.v1".

Definition to_json `{External} (self : t) : json :=
  JObj [("schema", JStr self.(schema));
        ("claim_generation", JNum self.(claim_generation));
        ("claim_digest", JStr self.(claim_digest));
        ("binding", NodeResourceClaimBinding.to_json self.(binding))]%string.

Definition validate (self : t) : result unit :=
  (if self.(schema) != SCHEMA
   then errf "unsupported node resource claim release schema {:?}" [FStr self.(schema)] else Ok tt) ;;
  fail_if (self.(claim_generation) =? 0)%N "resource claim release generation must be positive" ;;
  validate_sha256 "resource claim digest" self.(claim_digest) ;;
  NodeResourceClaimBinding.validate self.(binding).

End NodeResourceClaimRelease.

Module NodeResourceClaimReleased.

Record t := Mk {
  schema : string;
  claim_id : Uuid;
  claim_generation : N;
  claim_digest : string;
  binding_digest : string;
  slots : list ResourceSlotEvidence.t;
  released_at : Time;
}.

#[global] Instance t_eq_dec : EqDecision t.
Proof. solve_decision. Defined.

#[global] Instance t_eta : Eta t := fun r =>
  Mk r.(schema) r.(claim_id) r.(claim_generation) r.(claim_digest) r.(binding_digest) r.(slots) r.(released_at).

Definition SCHEMA : string := "a3s.cloud.node-resource-claim-released.v1".

Definition validate (self : t) : result unit :=
  (if self.(schema) != SCHEMA
   then errf "unsupported node resource claim released schema {:?}" [FStr self.(schema)] else Ok tt) ;;
  validate_uuid "claim_id" self.(claim_id) ;;
  fail_if ((self.(claim_generation) =? 0)%N || (timestamp_millis self.(released_at) <=? 0)%Z)
    "released resource claim generation or time is invalid" ;;
  validate_sha256 "resource claim digest" self.(claim_digest) ;;
  validate_sha256 "resource binding digest" self.(binding_digest) ;;
  validate_slot_evidence self.(slots).

Definition validate_for `{External} (self : t) (request : NodeResourceClaimRelease.t) : result unit :=
  let binding := request.(NodeResourceClaimRelease.binding) in
  validate self ;;
  NodeResourceClaimRelease.validate request ;;
  let expected_slots :=
    map ResourceSlotBinding.evidence binding.(NodeResourceClaimBinding.slots) in
  let mismatch := "released resource claim evidence does not match its exact request"%string in
  fail_if ((self.(claim_id) != binding.(NodeResourceClaimBinding.claim_id))
           || (self.(claim_generation) != request.(NodeResourceClaimRelease.claim_generation))
           || (self.(claim_digest) != request.(NodeResourceClaimRelease.claim_digest))) mismatch ;;
  expected ← NodeResourceClaimBinding.digest binding;
  fail_if ((self.(binding_digest) != expected) || (self.(slots) != expected_slots)) mismatch.

Definition new `{External} (request : NodeResourceClaimRelease.t) (released_at : Time) : result t :=
  let binding := request.(NodeResourceClaimRelease.binding) in
  NodeResourceClaimRelease.validate request ;;
  binding_digest ← NodeResourceClaimBinding.digest binding;
  let released :=
    {| schema := SCHEMA;
       claim_id := binding.(NodeResourceClaimBinding.claim_id);
       claim_generation := request.(NodeResourceClaimRelease.claim_generation);
       claim_digest := request.(NodeResourceClaimRelease.claim_digest);
       binding_digest := binding_digest;
       slots := map ResourceSlotBinding.evidence binding.(NodeResourceClaimBinding.slots);
       released_at := released_at |} in
  validate_for released request ;;
  Ok released.

Definition to_json `{External} (self : t) : json :=
  JObj [("schema", JStr self.(schema));
        ("claim_id", JStr (uuid_display self.(claim_id)));
        ("claim_generation", JNum self.(claim_generation));
        ("claim_digest", JStr self.(claim_digest));
        ("binding_digest", JStr self.(binding_digest));
        ("slots", JArr (map ResourceSlotEvidence.to_json self.(slots)));
        ("released_at", JStr (time_display self.(released_at)))]%string.

Definition evidence_digest `{External} (self : t) : result string :=
  canonical_digest (to_json self) (validate self).

End NodeResourceClaimReleased.

(** ** Lemmas *)
Section claim_lemmas.
Context `{ExternalLaws}.

Lemma canonical_digest_Ok j v d :
  canonical_digest j v = Ok d -> v = Ok tt /\ exists bytes, json_to_vec j = Ok bytes /\ d = sha256_digest bytes.
Proof.
  unfold canonical_digest. rewrite then_Ok. unfold digest_json.
  destruct (json_to_vec j) as [bytes|] eqn:E; [|naive_solver]. intros [-> [= <-]]. eauto.
Qed.

Lemma canonical_digest_total j v :
  v = Ok tt -> exists d, canonical_digest j v = Ok d /\ is_sha256_digest d = true.
Proof. intros ->. unfold canonical_digest. cbn [mbind result_bind]. apply digest_json_total. Qed.

(** Two documents with the same digest are equal, or exhibit a SHA-256 collision. *)
Definition sha256_collision : Prop :=
  exists x y, x <> y /\ sha256_hex x = sha256_hex y.

Lemma digest_append_inj x y : sha256_digest x = sha256_digest y -> sha256_hex x = sha256_hex y.
Proof. unfold sha256_digest. simpl. intros E. by simplify_eq. Qed.

Lemma canonical_digest_collision j j' v v' d :
  canonical_digest j v = Ok d -> canonical_digest j' v' = Ok d -> j = j' \/ sha256_collision.
Proof.
  intros (_ & b & Hb & ->)%canonical_digest_Ok (_ & b' & Hb' & E%digest_append_inj)%canonical_digest_Ok.
  destruct (decide (b = b')) as [->|Hne]; [left; by eapply json_to_vec_inj|right].
  by exists b, b'.
Qed.

Lemma binding_digest_valid b d :
  NodeResourceClaimBinding.digest b = Ok d -> NodeResourceClaimBinding.validate b = Ok tt.
Proof. intros E. by apply canonical_digest_Ok in E as [? _]. Qed.

Lemma binding_digest_total b :
  NodeResourceClaimBinding.validate b = Ok tt ->
  exists d, NodeResourceClaimBinding.digest b = Ok d /\ is_sha256_digest d = true.
Proof. apply canonical_digest_total. Qed.

Lemma binding_validate_slots b :
  NodeResourceClaimBinding.validate b = Ok tt ->
  is_nil b.(NodeResourceClaimBinding.claim_id) = false
  /\ validate_slot_bindings b.(NodeResourceClaimBinding.slots) = Ok tt.
Proof. unfold NodeResourceClaimBinding.validate, validate_uuid, errf. intros Hb. reflect_results. tauto. Qed.

(** The only evidence a request accepts at a given time. *)
Definition prepared_of (request : NodeResourceClaimPrepare.t) (d : string) (at' : Time) :
    NodeResourceClaimPrepared.t :=
  let binding := request.(NodeResourceClaimPrepare.binding) in
  NodeResourceClaimPrepared.Mk NodeResourceClaimPrepared.SCHEMA
    binding.(NodeResourceClaimBinding.claim_id) request.(NodeResourceClaimPrepare.claim_generation)
    request.(NodeResourceClaimPrepare.claim_digest) d
    (map ResourceSlotBinding.evidence binding.(NodeResourceClaimBinding.slots)) at'.

Lemma prepared_for_Ok p request :
  NodeResourceClaimPrepared.validate_for p request = Ok tt <->
  NodeResourceClaimPrepare.validate request = Ok tt
  /\ (0 < timestamp_millis p.(NodeResourceClaimPrepared.prepared_at))%Z
  /\ exists d,
    NodeResourceClaimBinding.digest request.(NodeResourceClaimPrepare.binding) = Ok d
    /\ p = prepared_of request d p.(NodeResourceClaimPrepared.prepared_at).
Proof.
  unfold NodeResourceClaimPrepared.validate_for, NodeResourceClaimPrepared.validate, validate_uuid, errf.
  rewrite !then_Ok. split.
  - intros (Hp & Hr & Hm & Hd). rewrite result_bind_Ok in Hd. destruct Hd as (d & Hd & Hd').
    reflect_results. reflect_bools. destruct_and?. split_and!; [done|lia|]. exists d.
    split; [done|]. destruct p; unfold prepared_of. simpl in *. by subst.
  - intros (Hr & Ht & d & Hd & Ep). rewrite Hd. destruct p; unfold prepared_of in Ep; simpl in *. injection Ep as -> -> -> -> -> ->.
    pose proof (binding_digest_valid _ _ Hd) as Hb. apply binding_validate_slots in Hb as [Hid Hs].
    pose proof (digest_json_form _ _ _ (proj2 (proj1 (then_Ok _ _ _) Hd))) as Hform.
    apply slot_evidence_valid in Hs. revert Hr. unfold NodeResourceClaimPrepare.validate. intros Hr.
    reflect_results. reflect_bools. destruct_and?.
    split_and!; (done || lia || by apply validate_sha256_lower).
Qed.

Lemma prepared_new_Ok request t p :
  NodeResourceClaimPrepared.new request t = Ok p <->
  NodeResourceClaimPrepared.validate_for p request = Ok tt
  /\ p.(NodeResourceClaimPrepared.prepared_at) = t.
Proof.
  unfold NodeResourceClaimPrepared.new. rewrite then_Ok, result_bind_Ok. split.
  - intros (Hr & d & Hd & Hn). rewrite then_Ok in Hn. destruct Hn as [Hn [= <-]]. done.
  - intros [Hp <-]. pose proof Hp as Hp2. apply prepared_for_Ok in Hp2 as (Hr & _ & d & Hd & Ep).
    split; [done|]. exists d. split; [done|]. rewrite then_Ok. unfold prepared_of in Ep. by rewrite <- Ep.
Qed.

Definition released_of (request : NodeResourceClaimRelease.t) (d : string) (at' : Time) :
    NodeResourceClaimReleased.t :=
  let binding := request.(NodeResourceClaimRelease.binding) in
  NodeResourceClaimReleased.Mk NodeResourceClaimReleased.SCHEMA
    binding.(NodeResourceClaimBinding.claim_id) request.(NodeResourceClaimRelease.claim_generation)
    request.(NodeResourceClaimRelease.claim_digest) d
    (map ResourceSlotBinding.evidence binding.(NodeResourceClaimBinding.slots)) at'.

Lemma released_for_Ok p request :
  NodeResourceClaimReleased.validate_for p request = Ok tt <->
  NodeResourceClaimRelease.validate request = Ok tt
  /\ (0 < timestamp_millis p.(NodeResourceClaimReleased.released_at))%Z
  /\ exists d,
    NodeResourceClaimBinding.digest request.(NodeResourceClaimRelease.binding) = Ok d
    /\ p = released_of request d p.(NodeResourceClaimReleased.released_at).
Proof.
  unfold NodeResourceClaimReleased.validate_for, NodeResourceClaimReleased.validate, validate_uuid, errf.
  rewrite !then_Ok. split.
  - intros (Hp & Hr & Hm & Hd). rewrite result_bind_Ok in Hd. destruct Hd as (d & Hd & Hd').
    reflect_results. reflect_bools. destruct_and?. split_and!; [done|lia|]. exists d.
    split; [done|]. destruct p; unfold released_of. simpl in *. by subst.
  - intros (Hr & Ht & d & Hd & Ep). rewrite Hd. destruct p; unfold released_of in Ep; simpl in *. injection Ep as -> -> -> -> -> ->.
    pose proof (binding_digest_valid _ _ Hd) as Hb. apply binding_validate_slots in Hb as [Hid Hs].
    pose proof (digest_json_form _ _ _ (proj2 (proj1 (then_Ok _ _ _) Hd))) as Hform.
    apply slot_evidence_valid in Hs. revert Hr. unfold NodeResourceClaimRelease.validate. intros Hr.
    reflect_results. reflect_bools. destruct_and?.
    split_and!; (done || lia || by apply validate_sha256_lower).
Qed.

Lemma released_new_Ok request t p :
  NodeResourceClaimReleased.new request t = Ok p <->
  NodeResourceClaimReleased.validate_for p request = Ok tt
  /\ p.(NodeResourceClaimReleased.released_at) = t.
Proof.
  unfold NodeResourceClaimReleased.new. rewrite then_Ok, result_bind_Ok. split.
  - intros (Hr & d & Hd & Hn). rewrite then_Ok in Hn. destruct Hn as [Hn [= <-]]. done.
  - intros [Hp <-]. pose proof Hp as Hp2. apply released_for_Ok in Hp2 as (Hr & _ & d & Hd & Ep).
    split; [done|]. exists d. split; [done|]. rewrite then_Ok. unfold released_of in Ep. by rewrite <- Ep.
Qed.

(** Identifiers of the message are 128-bit values. *)
Definition uuids_in_range (b : NodeResourceClaimBinding.t) : Prop :=
  (b.(NodeResourceClaimBinding.claim_id) < 2 ^ 128)%N
  /\ (b.(NodeResourceClaimBinding.node_id) < 2 ^ 128)%N
  /\ (b.(NodeResourceClaimBinding.agent_instance_id) < 2 ^ 128)%N
  /\ Forall (fun s => s.(ResourceSlotBinding.fence_token) < 2 ^ 128)%N b.(NodeResourceClaimBinding.slots).

Lemma bindings_to_json_inj l l' :
  Forall (fun s => s.(ResourceSlotBinding.fence_token) < 2 ^ 128)%N l ->
  Forall (fun s => s.(ResourceSlotBinding.fence_token) < 2 ^ 128)%N l' ->
  map ResourceSlotBinding.to_json l = map ResourceSlotBinding.to_json l' -> l = l'.
Proof.
  intros Hl. revert l'. induction Hl as [|s l Hs _ IH]; intros [|s' l'] Hl'; simpl; try done.
  inversion_clear Hl'. intros E. injection E as Es El.
  f_equal; [|by apply IH]. apply ResourceSlotBinding.slot_binding_json_inj; try done.
  unfold ResourceSlotBinding.to_json. congruence.
Qed.

Lemma binding_to_json_inj b b' :
  uuids_in_range b -> uuids_in_range b' ->
  NodeResourceClaimBinding.to_json b = NodeResourceClaimBinding.to_json b' -> b = b'.
Proof.
  destruct b, b'. unfold uuids_in_range, NodeResourceClaimBinding.to_json; simpl.
  intros (?&?&?&?) (?&?&?&?) E. injection E as -> Ec En Ea -> -> -> -> -> Es.
  apply uuid_display_inj in Ec, En, Ea; try done. apply bindings_to_json_inj in Es; [|done..]. by subst.
Qed.

(** Every slot of a binding accepted against an inventory is backed by it. *)
Lemma validate_inventory_Ok b inv s :
  NodeResourceClaimBinding.validate_inventory b inv = Ok tt -> s ∈ b.(NodeResourceClaimBinding.slots) ->
  exists c, c ∈ inv.(NodeResourceInventory.slots)
    /\ c.(NodeResourceSlot.kind) = s.(ResourceSlotBinding.kind)
    /\ c.(NodeResourceSlot.stable_resource_id) = s.(ResourceSlotBinding.stable_resource_id)
    /\ ResourceAllocation.contains c.(NodeResourceSlot.allocation) s.(ResourceSlotBinding.allocation) = true.
Proof.
  unfold NodeResourceClaimBinding.validate_inventory. rewrite !then_Ok, for_each_Ok, Forall_forall.
  intros (_ & _ & _ & Hall) Hs. specialize (Hall s Hs). simpl in Hall.
  unfold NodeResourceClaimBinding.capacity_of in Hall.
  destruct (List.find _ _) as [c|] eqn:Ef; [|discriminate].
  apply List.find_some in Ef as [Hin Hk]. reflect_bools. destruct_and?. exists c.
  split; [by apply list_elem_of_In|]. split_and!; try done.
  destruct (ResourceAllocation.contains _ _); [done|discriminate].
Qed.

Lemma optional_scalar_Some slots kind unit n :
  optional_scalar slots kind unit = Ok (Some n) ->
  exists s, s ∈ slots /\ s.(ResourceSlotBinding.kind) = kind
    /\ s.(ResourceSlotBinding.allocation) = ResourceAllocation.Scalar n unit.
Proof.
  unfold optional_scalar. destruct (List.filter _ _) as [|s [|]] eqn:E; try discriminate.
  intros Hs. assert (In s (List.filter (fun slot => slot.(ResourceSlotBinding.kind) == kind) slots)) as Hin
    by (rewrite E; by left).
  apply List.filter_In in Hin as [Hin Hk]. reflect_bools. exists s.
  split; [by apply list_elem_of_In|]. split; [done|].
  destruct (ResourceSlotBinding.allocation s) as [amount u|]; [|discriminate].
  unfold errf in Hs. case_bool_decide; naive_solver.
Qed.
End claim_lemmas.

(** ** A concrete claim, for evaluation *)
Module Sample.
Import Toy.

Definition cpu : ResourceSlotBinding.t :=
  ResourceSlotBinding.Mk ResourceKind.Cpu "cpu0" (ResourceAllocation.Scalar 500 ResourceUnit.MilliCpu) 1 11.
Definition memory : ResourceSlotBinding.t :=
  ResourceSlotBinding.Mk ResourceKind.Memory "ram" (ResourceAllocation.Scalar 4096 ResourceUnit.Byte) 1 12.

Definition digest_a : string :=
  "sha256:aaaaaaaaaaaaaaaaaaaaaaaaaaaaaaaaaaaaaaaaaaaaaaaaaaaaaaaaaaaaaaaa".

Definition inventory : NodeResourceInventory.t :=
  match NodeResourceInventory.new 2 3 4 5000000000
          [NodeResourceSlot.Mk ResourceKind.Memory "ram" (ResourceAllocation.Scalar 8192 ResourceUnit.Byte);
           NodeResourceSlot.Mk ResourceKind.Cpu "cpu0" (ResourceAllocation.Scalar 4000 ResourceUnit.MilliCpu)]
  with
  | Ok inventory => inventory
  | Err _ => NodeResourceInventory.Mk EmptyString 0 0 0 0 [] EmptyString
  end.

Definition binding : NodeResourceClaimBinding.t :=
  NodeResourceClaimBinding.Mk NodeResourceClaimBinding.SCHEMA 1 2 3 4
    inventory.(NodeResourceInventory.digest) "unit" 1 digest_a [cpu; memory].

Definition prepare : NodeResourceClaimPrepare.t :=
  NodeResourceClaimPrepare.Mk NodeResourceClaimPrepare.SCHEMA 1 digest_a binding.
Definition release : NodeResourceClaimRelease.t :=
  NodeResourceClaimRelease.Mk NodeResourceClaimRelease.SCHEMA 3 digest_a binding.

(** A runtime contract with exactly the fields the source uses. *)
Record observation := Observation {
  unit_id : string;
  generation : N;
  provider : option string;
  claims : option (gmap string string);
}.

#[export] Instance contract : RuntimeContract := {|
  RuntimeUnitSpec := string * N * N * N * option N;
  spec_validate := fun _ => Ok tt;
  spec_unit_id := fun s => s.1.1.1.1;
  spec_generation := fun s => s.1.1.1.2;
  spec_cpu_millis := fun s => s.1.1.2;
  spec_memory_bytes := fun s => s.1.2;
  spec_ephemeral_storage_bytes := fun s => s.2;
  RuntimeObservation := observation;
  observation_validate := fun _ => Ok tt;
  observation_unit_id := unit_id;
  observation_generation := generation;
  observation_provider_resource_id := provider;
  observation_claims := claims;
  put_claims := fun m o => Observation o.(unit_id) o.(generation) o.(provider) (Some m);
|}.

#[export] Instance contract_laws : RuntimeContractLaws.
Proof. by split. Qed.

End Sample.

(** ** Properties *)

(** Evidence is exact.  A valid prepare request always yields evidence for a time after the
    epoch, and the evidence accepted for a request at that time is that value and no other: no
    agent can acknowledge a different claim, generation, digest, binding or fencing token. *)
Theorem prepared_evidence_exact `{ExternalLaws} request t :
  NodeResourceClaimPrepare.validate request = Ok tt -> (0 < timestamp_millis t)%Z ->
  exists p, NodeResourceClaimPrepared.new request t = Ok p
    /\ (forall q, NodeResourceClaimPrepared.validate_for q request = Ok tt ->
          q.(NodeResourceClaimPrepared.prepared_at) = t -> q = p).
Proof.
  intros Hr Ht.
  assert (NodeResourceClaimBinding.validate request.(NodeResourceClaimPrepare.binding) = Ok tt) as Hb.
  { unfold NodeResourceClaimPrepare.validate in Hr. reflect_results. tauto. }
  destruct (binding_digest_total _ Hb) as (d & Hd & _).
  exists (prepared_of request d t). split.
  - apply prepared_new_Ok. split; [|reflexivity]. apply prepared_for_Ok. simpl.
    split_and!; [done|exact Ht|]. exists d. by split.
  - intros q (_ & _ & d' & Hd' & Eq)%prepared_for_Ok <-. rewrite Hd in Hd'. injection Hd' as <-. exact Eq.
Qed.

Lemma prepared_evidence_exact_witness :
  exists p, @NodeResourceClaimPrepared.new Toy.toy_external Sample.prepare 6000000000 = Ok p.
Proof.
  destruct (prepared_evidence_exact (H0 := Toy.toy_external_laws) Sample.prepare 6000000000) as (p & Hp & _);
    [vm_compute; reflexivity|vm_compute; reflexivity|]. exists p. exact Hp.
Defined.

(** Release evidence is exact in the same way: the release of a claim can only be proved with
    the claim's own digest, generation, binding digest and the fencing token of every slot. *)
Theorem released_evidence_exact `{ExternalLaws} request t :
  NodeResourceClaimRelease.validate request = Ok tt -> (0 < timestamp_millis t)%Z ->
  exists p, NodeResourceClaimReleased.new request t = Ok p
    /\ (forall q, NodeResourceClaimReleased.validate_for q request = Ok tt ->
          q.(NodeResourceClaimReleased.released_at) = t -> q = p).
Proof.
  intros Hr Ht.
  assert (NodeResourceClaimBinding.validate request.(NodeResourceClaimRelease.binding) = Ok tt) as Hb.
  { unfold NodeResourceClaimRelease.validate in Hr. reflect_results. tauto. }
  destruct (binding_digest_total _ Hb) as (d & Hd & _).
  exists (released_of request d t). split.
  - apply released_new_Ok. split; [|reflexivity]. apply released_for_Ok. simpl.
    split_and!; [done|exact Ht|]. exists d. by split.
  - intros q (_ & _ & d' & Hd' & Eq)%released_for_Ok <-. rewrite Hd in Hd'. injection Hd' as <-. exact Eq.
Qed.

Lemma released_evidence_exact_witness :
  exists p, @NodeResourceClaimReleased.new Toy.toy_external Sample.release 6000000000 = Ok p.
Proof.
  destruct (released_evidence_exact (H0 := Toy.toy_external_laws) Sample.release 6000000000) as (p & Hp & _);
    [vm_compute; reflexivity|vm_compute; reflexivity|]. exists p. exact Hp.
Defined.

(** The binding digest identifies the binding: two bindings with the same digest are the same
    in every field and slot, unless SHA-256 itself collides on their encodings. *)
Theorem binding_digest_tamper_evident `{ExternalLaws} b b' d :
  uuids_in_range b -> uuids_in_range b' ->
  NodeResourceClaimBinding.digest b = Ok d -> NodeResourceClaimBinding.digest b' = Ok d ->
  b = b' \/ sha256_collision.
Proof.
  intros Hb Hb' Hd Hd'. destruct (canonical_digest_collision _ _ _ _ _ Hd Hd') as [E|]; [left|by right].
  by apply binding_to_json_inj.
Qed.

Lemma binding_digest_tamper_evident_witness :
  exists d, @NodeResourceClaimBinding.digest Toy.toy_external Sample.binding = Ok d
    /\ (Sample.binding = Sample.binding \/ @sha256_collision Toy.toy_external).
Proof.
  destruct (@NodeResourceClaimBinding.digest Toy.toy_external Sample.binding) as [d|] eqn:E;
    [|vm_compute in E; discriminate E].
  exists d. split; [reflexivity|].
  apply (binding_digest_tamper_evident (H0 := Toy.toy_external_laws) Sample.binding Sample.binding d);
    [| |exact E|exact E]; repeat split; repeat constructor; vm_compute; reflexivity.
Defined.

(** Admission on the node is sound end to end: when a binding is accepted against the agent's
    inventory and a Runtime unit is accepted against the binding, the unit's CPU and memory limits
    are within the capacity of slots of that inventory. *)
Theorem runtime_unit_within_inventory `{External} `{RuntimeContract} b inv spec :
  NodeResourceClaimBinding.validate_inventory b inv = Ok tt ->
  NodeResourceClaimBinding.validate_runtime_spec b spec = Ok tt ->
  (exists c n, c ∈ inv.(NodeResourceInventory.slots) /\ c.(NodeResourceSlot.kind) = ResourceKind.Cpu
     /\ c.(NodeResourceSlot.allocation) = ResourceAllocation.Scalar n ResourceUnit.MilliCpu
     /\ (spec_cpu_millis spec <= n)%N)
  /\ (exists c n, c ∈ inv.(NodeResourceInventory.slots) /\ c.(NodeResourceSlot.kind) = ResourceKind.Memory
     /\ c.(NodeResourceSlot.allocation) = ResourceAllocation.Scalar n ResourceUnit.Byte
     /\ (spec_memory_bytes spec <= n)%N).
Proof.
  intros Hi Hs. unfold NodeResourceClaimBinding.validate_runtime_spec, required_scalar in Hs.
  rewrite !then_Ok in Hs. destruct Hs as (_ & _ & _ & Hs).
  destruct (optional_scalar _ ResourceKind.Cpu _) as [[cpu|]|] eqn:Ec; try discriminate Hs.
  destruct (optional_scalar _ ResourceKind.Memory _) as [[mem|]|] eqn:Em; try discriminate Hs.
  simpl in Hs. destruct (optional_scalar _ ResourceKind.EphemeralStorage _) as [eph|]; [|discriminate Hs].
  simpl in Hs. rewrite then_Ok, fail_if_Ok in Hs. reflect_bools. destruct Hs as [[[-> ->] _] _].
  split.
  - apply optional_scalar_Some in Ec as (s & Hin & Hk & Ha).
    destruct (validate_inventory_Ok _ _ _ Hi Hin) as (c & Hc & Hck & _ & Hcont).
    rewrite Ha in Hcont. destruct (NodeResourceSlot.allocation c) as [n u|] eqn:Eca; [|done].
    simpl in Hcont. reflect_bools. destruct Hcont as [-> Hle]. exists c, n. by rewrite Hck.
  - apply optional_scalar_Some in Em as (s & Hin & Hk & Ha).
    destruct (validate_inventory_Ok _ _ _ Hi Hin) as (c & Hc & Hck & _ & Hcont).
    rewrite Ha in Hcont. destruct (NodeResourceSlot.allocation c) as [n u|] eqn:Eca; [|done].
    simpl in Hcont. reflect_bools. destruct Hcont as [-> Hle]. exists c, n. by rewrite Hck.
Qed.

Lemma runtime_unit_within_inventory_witness :
  exists c n, c ∈ Sample.inventory.(NodeResourceInventory.slots)
    /\ c.(NodeResourceSlot.allocation) = ResourceAllocation.Scalar n ResourceUnit.MilliCpu /\ (500 <= n)%N.
Proof.
  destruct (runtime_unit_within_inventory (H := Toy.toy_external) (H0 := Sample.contract) Sample.binding Sample.inventory
    ("unit", 1%N, 500%N, 4096%N, None)%string) as [(c & n & ? & _ & ? & ?) _];
    [vm_compute; reflexivity|vm_compute; reflexivity|].
  exists c, n. auto.
Defined.

(** An observation the agent has bound to a claim is accepted as evidence for that claim. *)
Theorem bound_observation_validates `{ExternalLaws} `{RuntimeContractLaws} b o o' :
  NodeResourceClaimBinding.bind_runtime_observation b o = (o', Ok tt) ->
  NodeResourceClaimBinding.validate_runtime_observation b o' = Ok tt.
Proof.
  intros Hb. unfold NodeResourceClaimBinding.bind_runtime_observation, insert_exact_claim, errf in Hb.
  run_method Hb; simplify_eq/=; repeat match goal with u : () |- _ => destruct u end.
  all: unfold NodeResourceClaimBinding.validate_runtime_observation.
  all: rewrite !then_Ok, put_claims_claims, !put_claims_unit, !put_claims_generation.
  all: reflect_bools; destruct_and?; split_and!; try done; cbn [ok_or mbind result_bind].
  all: rewrite lookup_insert_ne, lookup_insert_eq by done.
  all: rewrite !bool_decide_eq_true_2 by done; cbn [negb orb].
  all: match goal with E : NodeResourceClaimBinding.digest ?x = Ok _ |- _ => rewrite E end.
  all: cbn [mbind result_bind]; by rewrite lookup_insert_eq, bool_decide_eq_true_2.
Qed.

Lemma bound_observation_validates_witness :
  let o := Sample.Observation "unit" 1 (Some "box")%string None in
  let bind := @NodeResourceClaimBinding.bind_runtime_observation Toy.toy_external Sample.contract Sample.binding in
  @NodeResourceClaimBinding.validate_runtime_observation Toy.toy_external Sample.contract Sample.binding
    (run_state bind o) = Ok tt.
Proof.
  intros o bind.
  apply (bound_observation_validates (H0 := Toy.toy_external_laws) (H2 := Sample.contract_laws) Sample.binding o).
  vm_compute. reflexivity.
Defined.
