(* ===== verification/Workloads.v ===== *)
(** * Workloads

    [workloads/domain/entities/workload.rs]: the workload aggregate, its desired state and its
    active revision. *)

From Stdlib Require Import ZArith NArith Lia String.
From S2P Require Import Prelude RustStd External SharedKernel.

Module WorkloadDesiredState.

Inductive t :=
| Running
| Stopped.

#[global] Instance t_eq_dec : EqDecision t.
Proof. solve_decision. Defined.

Definition as_str (self : t) : string :=
  match self with
  | Running => "running"
  | Stopped => "stopped"
  end.

Definition parse (value : string) : result t :=
  if value == "running" then Ok Running
  else if value == "stopped" then Ok Stopped
  else errf "unsupported workload desired state {value:?}" [FStr value].

#[global] Instance str_enum : StrEnum t := {| Prelude.as_str := as_str; Prelude.parse := parse |}.
#[global] Instance str_enum_laws : StrEnumLaws t.
Proof. solve_str_enum. Qed.

End WorkloadDesiredState.

Module Workload.
Import WorkloadDesiredState.

Record t := Mk {
  id : WorkloadId;
  organization_id : OrganizationId;
  project_id : ProjectId;
  environment_id : EnvironmentId;
  name : ResourceName.t;
  desired_state : WorkloadDesiredState.t;
  active_revision_id : option WorkloadRevisionId;
  aggregate_version : N;
  created_at : Time;
  updated_at : Time;
}.

#[global] Instance t_eta : Eta t := fun r =>
  Mk r.(id) r.(organization_id) r.(project_id) r.(environment_id) r.(name) r.(desired_state)
     r.(active_revision_id) r.(aggregate_version) r.(created_at) r.(updated_at).

#[global] Instance t_eq_dec : EqDecision t.
Proof. solve_decision. Defined.

Definition create (id : WorkloadId) (organization_id : OrganizationId) (project_id : ProjectId)
    (environment_id : EnvironmentId) (name : ResourceName.t) (created_at : Time) : t :=
  let created_at := canonical_timestamp created_at in
  {| id := id;
     organization_id := organization_id;
     project_id := project_id;
     environment_id := environment_id;
     name := name;
     desired_state := Running;
     active_revision_id := None;
     aggregate_version := 1;
     created_at := created_at;
     updated_at := created_at |}.

(** [self.aggregate_version += 1] *)
Definition bump_version (self : t) : t :=
  self <| aggregate_version := wrapping_add self.(aggregate_version) 1 |>.

Definition activate (revision_id : WorkloadRevisionId) (activated_at : Time) : method t unit :=
  let activated_at := canonical_timestamp activated_at in
  self ← get;
  if self.(desired_state) != Running then raise "stopped workload cannot activate a revision"
  else if (activated_at <? self.(updated_at))%Z then raise "workload activation time regressed"
  else
    (if self.(active_revision_id) != Some revision_id then
       modify (fun self => self <| active_revision_id := Some revision_id |>) ;;
       modify bump_version
     else mret tt) ;;
    modify (fun self => self <| updated_at := activated_at |>).

Definition request_stop (requested_at : Time) : method t unit :=
  let requested_at := canonical_timestamp requested_at in
  self ← get;
  if (requested_at <? self.(updated_at))%Z then raise "workload stop request time regressed"
  else if self.(desired_state) == Stopped then mret tt
  else
    modify (fun self => self <| desired_state := Stopped |>) ;;
    modify bump_version ;;
    modify (fun self => self <| updated_at := requested_at |>).

Definition complete_stop (stopped_at : Time) : method t unit :=
  let stopped_at := canonical_timestamp stopped_at in
  self ← get;
  if self.(desired_state) != Stopped then raise "running workload cannot complete a stop"
  else if (stopped_at <? self.(updated_at))%Z then raise "workload stop completion time regressed"
  else if is_none self.(active_revision_id) then mret tt
  else
    modify (fun self => self <| active_revision_id := None |>) ;;
    modify bump_version ;;
    modify (fun self => self <| updated_at := stopped_at |>).

End Workload.

(** ** Every mutation of a workload *)
Module WorkloadLifecycle.
Import WorkloadDesiredState Workload.

Inductive op :=
| Activate (revision_id : WorkloadRevisionId) (at' : Time)
| RequestStop (at' : Time)
| CompleteStop (at' : Time).

Definition step (o : op) : method Workload.t unit :=
  match o with
  | Activate revision at' => activate revision at'
  | RequestStop at' => request_stop at'
  | CompleteStop at' => complete_stop at'
  end.

Definition run_all (ops : list op) (w : Workload.t) : Workload.t :=
  fold_left (fun w o => run_state (step o) w) ops w.

Lemma step_stopped o w w' r :
  w.(desired_state) = Stopped -> step o w = (w', r) ->
  w'.(desired_state) = Stopped
  /\ (w'.(active_revision_id) = w.(active_revision_id) \/ w'.(active_revision_id) = None).
Proof.
  intros Hw Hs. destruct o; cbn [step] in Hs; unfold activate, request_stop, complete_stop in Hs;
    run_method Hs; simplify_eq/=; reflect_bools; try congruence; auto.
Qed.

(** A stop is final: once it is requested no call restarts the workload or gives it a revision,
    and after the stop is completed the workload has no active revision, whatever is called. *)
Theorem workload_stop_is_final w ops :
  w.(desired_state) = Stopped ->
  (run_all ops w).(desired_state) = Stopped
  /\ ((run_all ops w).(active_revision_id) = w.(active_revision_id)
      \/ (run_all ops w).(active_revision_id) = None)
  /\ (w.(active_revision_id) = None -> (run_all ops w).(active_revision_id) = None).
Proof.
  revert w. induction ops as [|o ops IH]; intros w Hw; simpl; [auto|].
  destruct (step_stopped o w _ _ Hw (run_eq _ _)) as [Hw' Ha].
  destruct (IH _ Hw') as (H1 & H2 & H3). split_and!; [done|naive_solver congruence|].
  intros En. apply H3. destruct Ha; congruence.
Qed.

Lemma workload_stop_is_final_witness :
  let w := run_all [Activate 7 2000; RequestStop 3000; CompleteStop 4000]%Z
             (create 1 2 3 4 (ResourceName.Mk "Web" "web") 1000) in
  (run_all [Activate 8 5000; CompleteStop 6000]%Z w).(active_revision_id) = None.
Proof.
  intros w. apply (workload_stop_is_final w [Activate 8 5000; CompleteStop 6000]%Z);
    vm_compute; reflexivity.
Defined.

End WorkloadLifecycle.
