(* ===== verification/ServiceTemplates.v ===== *)
(** * Service templates

    [workloads/domain/entities/secret_binding.rs] and the first part of [workload_revision.rs]: OCI
    references and artifacts, the process, resources, ports and health check of a service, the
    validation of a whole template, its digests, and the resolution of a requested template into one
    that binds an exact artifact. *)

From Stdlib Require Import ZArith NArith Lia String Ascii.
From stdpp Require Import gmap strings.
From S2P Require Import Prelude RustStd BTreeMap External Text SharedKernel Resources.

Abbreviation SecretId := Uuid (only parsing).

(** ** Text checks of [secret_binding.rs] and [workload_revision.rs] *)
Definition AT : N := 64.

Definition valid_name (value : string) : bool :=
  negb (str_is_empty value)
  && (str_len value <=? 63)%N
  && all (fun byte => is_ascii_alphanumeric byte || matches byte [HYPHEN; UNDERSCORE; DOT]) (bytes_of value).

Definition valid_environment_key (value : string) : bool :=
  negb (str_is_empty value)
  && (str_len value <=? 255)%N
  && all (fun ib : nat * N =>
            (ib.2 =? UNDERSCORE)%N || is_ascii_uppercase ib.2 || (0 <? ib.1)%nat && is_ascii_digit ib.2)
       (imap pair (bytes_of value)).

Definition valid_absolute_path (value : string) : bool :=
  starts_with "/" value
  && (str_len value <=? 4096)%N
  && negb (contains_any [NUL; CR; LF] value)
  && negb (str_contains "//" value)
  && all (fun segment => negb (is_empty segment) && (segment != [DOT]) && (segment != [DOT; DOT]))
       (drop 1 (split_bytes SLASH (bytes_of value))).

(** The module's own [validate_sha256]: no label, lowercase only. *)
Definition validate_revision_sha256 (value : string) : result unit :=
  match strip_prefix "sha256:" value with
  | None => err "digest must use sha256"
  | Some hex =>
    fail_if (negb (str_len hex =? 64)%N || negb (all is_lower_hex (bytes_of hex)))
      "digest must contain 64 lowercase hexadecimal characters"
  end.

Definition validate_string_list (label : string) (values : list string) (maximum_items maximum_length : N) :
    result unit :=
  if (maximum_items <? len values)%N
     || any (fun value => (maximum_length <? str_len value)%N || contains_any [NUL] value) values
  then errf "{label} list is invalid" [FStr label]
  else Ok tt.

Definition valid_single_line (value : string) (maximum_length : N) : bool :=
  negb (str_is_empty (trim value)) && (str_len value <=? maximum_length)%N
  && negb (contains_any [NUL; CR; LF] value).

Definition valid_identifier (value : string) (maximum_length : N) : bool :=
  negb (str_is_empty value)
  && (str_len value <=? maximum_length)%N
  && all (fun byte => is_ascii_lowercase byte || is_ascii_digit byte || matches byte [HYPHEN; UNDERSCORE; DOT])
       (bytes_of value).

(** ** Secret bindings *)
Module SecretBindingTarget.
Inductive t :=
| Environment (variable : string)
| File (path : string) (mode : N)
| RegistryCredential.

#[global] Instance t_eq_dec : EqDecision t.
Proof. solve_decision. Defined.

(** Internally tagged with [kind]. *)
Definition to_json (self : t) : json :=
  match self with
  | Environment variable => JObj [("kind", JStr "environment"); ("variable", JStr variable)]
  | File path mode => JObj [("kind", JStr "file"); ("path", JStr path); ("mode", JNum mode)]
  | RegistryCredential => JObj [("kind", JStr "registry_credential")]
  end%string.
End SecretBindingTarget.

Module SecretBinding.
Import SecretBindingTarget.

Record t := Mk {
  name : string;
  secret_id : SecretId;
  version : N;
  target : SecretBindingTarget.t;
}.

#[global] Instance t_eta : Eta t := fun r => Mk r.(name) r.(secret_id) r.(version) r.(target).
#[global] Instance t_eq_dec : EqDecision t.
Proof. solve_decision. Defined.

Definition validate (self : t) : result unit :=
  fail_if (negb (valid_name self.(name)) || is_nil self.(secret_id) || (self.(version) =? 0)%N)
    "Secret binding identity is invalid" ;;
  match self.(target) with
  | Environment variable =>
    fail_if (negb (valid_environment_key variable)) "Secret environment target is invalid"
  | File path mode =>
    fail_if (negb (valid_absolute_path path) || (mode =? 0)%N || (511 <? mode)%N)
      "Secret file target is invalid"
  | RegistryCredential => Ok tt
  end.

Definition target_key (self : t) : string :=
  match self.(target) with
  | Environment variable => "environment:" ++ variable
  | File path _ => "file:" ++ path
  | RegistryCredential => "registry_credential"
  end%string.

Definition to_json `{External} (self : t) : json :=
  JObj [("name", JStr self.(name)); ("secret_id", JStr (uuid_display self.(secret_id)));
        ("version", JNum self.(version)); ("target", SecretBindingTarget.to_json self.(target))]%string.
End SecretBinding.

(** ** OCI references *)
Module ParsedOciReference.
Record t := Mk {
  repository : string;
  digest : option string;
  reference : string;
}.
End ParsedOciReference.

Definition repository_segment (segment : list N) : bool :=
  negb (is_empty segment)
  && (segment != [DOT])
  && (segment != [DOT; DOT])
  && all (fun byte => is_ascii_alphanumeric byte || matches byte [DOT; UNDERSCORE; HYPHEN; COLON]) segment.

Definition validate_oci_repository (repository : string) : result unit :=
  match split_once SLASH (bytes_of repository) with
  | None => err "OCI repository must include an explicit registry"
  | Some (registry, path) =>
    fail_if (is_empty registry
             || is_empty path
             || first_is DOT registry
             || last_is DOT registry
             || first_is SLASH path
             || last_is SLASH path
             || str_contains "//" repository
             || any (fun segment => negb (repository_segment segment)) (split_bytes SLASH (bytes_of repository)))
      "OCI repository is invalid"
  end.

Definition valid_tag (tag : list N) : bool :=
  negb (is_empty tag)
  && (len tag <=? 128)%N
  && all (fun byte => is_ascii_alphanumeric byte || matches byte [UNDERSCORE; DOT; HYPHEN]) tag.

(** The bytes of [uri] a reference may not contain: NUL, CR, LF, TAB and " ?#\". *)
Definition FORBIDDEN_REFERENCE_BYTES : list N := [NUL; CR; LF; TAB; 32; 63; 35; BACKSLASH]%N.

Definition parse_oci_reference (uri : string) : result ParsedOciReference.t :=
  fail_if ((4096 <? str_len uri)%N
           || contains_any FORBIDDEN_REFERENCE_BYTES uri
           || negb (starts_with "oci://" uri))
    "OCI reference is invalid" ;;
  value ← ok_or (strip_prefix "oci://" uri) "OCI reference must use oci://";
  match rsplit_once AT (bytes_of value) with
  | Some (repository, digest) =>
    validate_oci_repository (str_of repository) ;;
    validate_revision_sha256 (str_of digest) ;;
    Ok (ParsedOciReference.Mk (str_of repository) (Some (str_of digest)) (str_of digest))
  | None =>
    last_slash ← ok_or (rfind SLASH (bytes_of value))
                   "OCI tag reference must include an explicit registry and repository";
    tag_separator ← ok_or (match rfind COLON (bytes_of value) with
                           | Some index => if (last_slash <? index)%nat then Some index else None
                           | None => None
                           end)
                      "OCI tag reference must include an explicit tag";
    let repository := str_of (take tag_separator (bytes_of value)) in
    let tag := drop (S tag_separator) (bytes_of value) in
    validate_oci_repository repository ;;
    fail_if (negb (valid_tag tag)) "OCI tag is invalid" ;;
    Ok (ParsedOciReference.Mk repository None (str_of tag))
  end.

Module OciArtifact.
Record t := Mk {
  uri : string;
  digest : string;
  media_type : string;
}.

#[global] Instance t_eq_dec : EqDecision t.
Proof. solve_decision. Defined.

Definition validate (self : t) : result unit :=
  parsed ← parse_oci_reference self.(uri);
  match parsed.(ParsedOciReference.digest) with
  | None => err "OCI artifact URI must use oci:// and bind a digest"
  | Some bound_digest =>
    fail_if (bound_digest != self.(digest)) "OCI artifact URI and digest do not match" ;;
    validate_revision_sha256 self.(digest) ;;
    fail_if (str_is_empty (trim self.(media_type))
             || (255 <? str_len self.(media_type))%N
             || contains_any [NUL; CR; LF] self.(media_type))
      "OCI artifact media type is invalid"
  end.

Definition to_json (self : t) : json :=
  JObj [("uri", JStr self.(uri)); ("digest", JStr self.(digest)); ("media_type", JStr self.(media_type))]%string.
End OciArtifact.

Definition oci_artifact_repository (artifact : OciArtifact.t) : result string :=
  OciArtifact.validate artifact ;;
  parsed ← parse_oci_reference artifact.(OciArtifact.uri);
  Ok parsed.(ParsedOciReference.repository).

Module OciArtifactReference.
Record t := Mk {
  uri : string;
  expected_digest : option string;
}.

#[global] Instance t_eq_dec : EqDecision t.
Proof. solve_decision. Defined.

Definition validate (self : t) : result unit :=
  parsed ← parse_oci_reference self.(uri);
  match self.(expected_digest) with
  | None => Ok tt
  | Some expected_digest =>
    validate_revision_sha256 expected_digest ;;
    fail_if (is_some_and (fun digest => digest != expected_digest) parsed.(ParsedOciReference.digest))
      "OCI reference and expected digest do not match"
  end.

Definition repository (self : t) : result string :=
  validate self ;;
  parsed ← parse_oci_reference self.(uri);
  Ok parsed.(ParsedOciReference.repository).

Definition bound_digest (self : t) : result (option string) :=
  validate self ;;
  parsed ← parse_oci_reference self.(uri);
  Ok parsed.(ParsedOciReference.digest).

Definition registry_and_repository (self : t) : result (string * string) :=
  repository ← repository self;
  ok_or (prod_map str_of str_of <$> split_once SLASH (bytes_of repository))
    "OCI repository must include an explicit registry".

Definition manifest_reference (self : t) : result string :=
  validate self ;;
  parsed ← parse_oci_reference self.(uri);
  Ok parsed.(ParsedOciReference.reference).

Definition from_artifact (artifact : OciArtifact.t) : t :=
  Mk artifact.(OciArtifact.uri) (Some artifact.(OciArtifact.digest)).

Definition to_json (self : t) : json :=
  JObj [("uri", JStr self.(uri)); ("expected_digest", json_option JStr self.(expected_digest))]%string.
End OciArtifactReference.

(** ** The parts of a service *)
Module ServiceProcess.
Record t := Mk {
  command : list string;
  args : list string;
  working_directory : option string;
  environment : gmap string string;
}.

#[global] Instance t_eq_dec : EqDecision t.
Proof. solve_decision. Defined.

Definition to_json (self : t) : json :=
  JObj [("command", JArr (map JStr self.(command))); ("args", JArr (map JStr self.(args)));
        ("working_directory", json_option JStr self.(working_directory));
        ("environment", JObj (map (fun kv => (kv.1, JStr kv.2)) (entries_of self.(environment))))]%string.
End ServiceProcess.

Module ServiceResources.
Record t := Mk {
  cpu_millis : N;
  memory_bytes : N;
  pids : N;
  ephemeral_storage_bytes : option N;
}.

#[global] Instance t_eq_dec : EqDecision t.
Proof. solve_decision. Defined.

Definition to_json (self : t) : json :=
  JObj [("cpu_millis", JNum self.(cpu_millis)); ("memory_bytes", JNum self.(memory_bytes));
        ("pids", JNum self.(pids));
        ("ephemeral_storage_bytes", json_option JNum self.(ephemeral_storage_bytes))]%string.
End ServiceResources.

Module ServicePort.
Record t := Mk {
  name : string;
  container_port : N;
}.

#[global] Instance t_eq_dec : EqDecision t.
Proof. solve_decision. Defined.

Definition to_json (self : t) : json :=
  JObj [("name", JStr self.(name)); ("container_port", JNum self.(container_port))]%string.
End ServicePort.

Module HttpHealthCheck.
Record t := Mk {
  port_name : string;
  path : string;
  interval_ms : N;
  timeout_ms : N;
  healthy_threshold : N;
  unhealthy_threshold : N;
  stabilization_window_ms : N;
}.

#[global] Instance t_eq_dec : EqDecision t.
Proof. solve_decision. Defined.

Definition to_json (self : t) : json :=
  JObj [("port_name", JStr self.(port_name)); ("path", JStr self.(path));
        ("interval_ms", JNum self.(interval_ms)); ("timeout_ms", JNum self.(timeout_ms));
        ("healthy_threshold", JNum self.(healthy_threshold));
        ("unhealthy_threshold", JNum self.(unhealthy_threshold));
        ("stabilization_window_ms", JNum self.(stabilization_window_ms))]%string.
End HttpHealthCheck.

(** ** Templates *)
Module ServiceTemplate.

(** [ServiceTemplate<A>]: with an [OciArtifact] it is resolved, with an [OciArtifactReference] it is
    a [RequestedServiceTemplate]. *)
Record t {A : Type} := Mk {
  artifact : A;
  process : ServiceProcess.t;
  secrets : list SecretBinding.t;
  resources : ServiceResources.t;
  ports : list ServicePort.t;
  health : option HttpHealthCheck.t;
}.
#[global] Arguments t : clear implicits.

#[global] Instance t_eta {A} : Eta (t A) := fun r =>
  Mk _ r.(artifact) r.(process) r.(secrets) r.(resources) r.(ports) r.(health).
#[global] Instance t_eq_dec `{EqDecision A} : EqDecision (t A).
Proof. solve_decision. Defined.

(** The loop over the secrets, with the names and targets it has inserted. *)
Fixpoint validate_secrets (environment : gmap string string) (secret_names secret_targets : list string)
    (secrets : list SecretBinding.t) : result unit :=
  match secrets with
  | [] => Ok tt
  | secret :: rest =>
    SecretBinding.validate secret ;;
    fail_if (bool_decide (secret.(SecretBinding.name) ∈ secret_names)
             || bool_decide (SecretBinding.target_key secret ∈ secret_targets))
      "service Secret binding names and targets must be unique" ;;
    fail_if (match secret.(SecretBinding.target) with
             | SecretBindingTarget.Environment variable => is_some (environment !! variable)
             | _ => false
             end)
      "service environment and Secret targets must not overlap" ;;
    validate_secrets environment (secret.(SecretBinding.name) :: secret_names)
      (SecretBinding.target_key secret :: secret_targets) rest
  end.

Definition invalid_health (ports : list ServicePort.t) (health : HttpHealthCheck.t) : bool :=
  negb (any (fun port => port.(ServicePort.name) == health.(HttpHealthCheck.port_name)) ports)
  || negb (starts_with "/" health.(HttpHealthCheck.path))
  || (2048 <? str_len health.(HttpHealthCheck.path))%N
  || contains_any [NUL; CR; LF] health.(HttpHealthCheck.path)
  || (health.(HttpHealthCheck.interval_ms) =? 0)%N
  || (health.(HttpHealthCheck.timeout_ms) =? 0)%N
  || (health.(HttpHealthCheck.interval_ms) <? health.(HttpHealthCheck.timeout_ms))%N
  || (health.(HttpHealthCheck.healthy_threshold) =? 0)%N
  || (health.(HttpHealthCheck.unhealthy_threshold) =? 0)%N
  || (health.(HttpHealthCheck.stabilization_window_ms) =? 0)%N.

Definition validate_template_body {A} (template : t A) : result unit :=
  let process := template.(process) in
  let environment := process.(ServiceProcess.environment) in
  let resources := template.(resources) in
  let ports := template.(ports) in
  validate_string_list "process command" process.(ServiceProcess.command) 64 4096 ;;
  validate_string_list "process argument" process.(ServiceProcess.args) 256 4096 ;;
  fail_if (is_some_and (fun value => negb (valid_single_line value 4096)) process.(ServiceProcess.working_directory)
           || (256 <? N.of_nat (size environment))%N
           || any (fun kv => negb (valid_environment_key kv.1) || (65536 <? str_len kv.2)%N
                             || contains_any [NUL] kv.2) (entries_of environment))
    "service process configuration is invalid" ;;
  fail_if (128 <? len template.(secrets))%N "service Secret binding count exceeds 128" ;;
  validate_secrets environment [] [] template.(secrets) ;;
  fail_if ((resources.(ServiceResources.cpu_millis) =? 0)%N
           || (resources.(ServiceResources.memory_bytes) =? 0)%N
           || (resources.(ServiceResources.pids) =? 0)%N
           || (resources.(ServiceResources.ephemeral_storage_bytes) == Some 0%N))
    "service resource limits are invalid" ;;
  fail_if ((64 <? len ports)%N
           || any (fun port => negb (valid_identifier port.(ServicePort.name) 63)
                               || (port.(ServicePort.container_port) =? 0)%N) ports)
    "service ports are invalid" ;;
  fail_if (any_pair (fun a b => a == b) (sort_by_key id (map ServicePort.name ports)))
    "service port names must be unique" ;;
  match template.(health) with
  | Some health => fail_if (invalid_health ports health) "service HTTP health check is invalid"
  | None => Ok tt
  end.

(** [#[serde(skip_serializing_if = "Vec::is_empty")]] *)
Definition vec_member {A} (name : string) (f : A -> json) (l : list A) : list (string * json) :=
  if is_empty l then [] else [(name, JArr (map f l))].

Section templates.
Context `{External}.

Definition to_json {A} (artifact_json : A -> json) (self : t A) : json :=
  JObj ([("artifact"%string, artifact_json self.(artifact));
         ("process"%string, ServiceProcess.to_json self.(process))]
        ++ vec_member "secrets" SecretBinding.to_json self.(secrets)
        ++ [("resources"%string, ServiceResources.to_json self.(resources))]
        ++ vec_member "ports" ServicePort.to_json self.(ports)
        ++ optional_member "health" HttpHealthCheck.to_json self.(health)).

Definition validate (self : t OciArtifact.t) : result unit :=
  OciArtifact.validate self.(artifact) ;; validate_template_body self.

Definition digest (self : t OciArtifact.t) : result string :=
  validate self ;;
  digest_json (to_json OciArtifact.to_json self) "could not encode service template: {error}".

Definition validate_request (self : t OciArtifactReference.t) : result unit :=
  OciArtifactReference.validate self.(artifact) ;; validate_template_body self.

(** [canonical_digest_json]: by way of [serde_json::to_value]. *)
Definition request_digest (self : t OciArtifactReference.t) : result string :=
  validate_request self ;;
  digest_json (to_value (to_json OciArtifactReference.to_json self))
    "could not encode requested service template: {error}".

Definition with_artifact {A B} (self : t A) (artifact : B) : t B :=
  Mk _ artifact self.(process) self.(secrets) self.(resources) self.(ports) self.(health).

Definition resolve (self : t OciArtifactReference.t) (artifact : OciArtifact.t) : result (t OciArtifact.t) :=
  validate_request self ;;
  OciArtifact.validate artifact ;;
  requested ← OciArtifactReference.repository self.(ServiceTemplate.artifact);
  actual ← oci_artifact_repository artifact;
  fail_if (requested != actual) "resolved OCI artifact changed the requested repository" ;;
  fail_if (is_some_and (fun expected => expected != artifact.(OciArtifact.digest))
             self.(ServiceTemplate.artifact).(OciArtifactReference.expected_digest))
    "resolved OCI artifact changed the expected digest" ;;
  let resolved := with_artifact self artifact in
  validate resolved ;;
  Ok resolved.

End templates.
End ServiceTemplate.

Abbreviation RequestedServiceTemplate := (ServiceTemplate.t OciArtifactReference.t) (only parsing).
Abbreviation ResolvedServiceTemplate := (ServiceTemplate.t OciArtifact.t) (only parsing).

(** ** What the checks say *)
Lemma validate_revision_sha256_Ok value u : validate_revision_sha256 value = Ok u <-> is_sha256_digest value = true.
Proof.
  unfold validate_revision_sha256, is_sha256_digest, err. destruct u, (strip_prefix _ _) as [hex|]; [|done].
  rewrite fail_if_Ok. destruct (_ =? _)%N, (all _ _); done.
Qed.
#[export] Hint Rewrite validate_revision_sha256_Ok : results.

(** The bytes of a segment list cover the whole text. *)
Lemma split_bytes_Forall (P : N -> Prop) sep l :
  Forall (Forall P) (split_bytes sep l) -> Forall (fun b => b = sep \/ P b) l.
Proof.
  induction l as [|b l IH]; simpl; [done|]. destruct (N.eqb_spec b sep) as [->|Hne].
  - intros [_ Hl]%Forall_cons. constructor; [by left|by apply IH].
  - destruct (split_bytes sep l) as [|seg segs].
    + intros [Hs _]%Forall_cons. constructor; [right; by inversion Hs|apply IH; constructor].
    + intros [Hs Hl]%Forall_cons. inversion_clear Hs. constructor; [by right|apply IH; by constructor].
Qed.

Definition repository_byte (b : N) : bool :=
  is_ascii_alphanumeric b || matches b [DOT; UNDERSCORE; HYPHEN; COLON; SLASH].

Lemma repository_bytes repository :
  validate_oci_repository repository = Ok tt ->
  Forall (fun b => repository_byte b = true) (bytes_of repository) /\ SLASH ∈ bytes_of repository.
Proof.
  unfold validate_oci_repository, err. destruct (split_once _ _) as [[registry path]|] eqn:E; [|done].
  apply split_once_Some in E as [E _]. rewrite fail_if_Ok, !orb_false_iff, any_false. intros [_ Hseg]. split.
  - eapply Forall_impl; [eapply (split_bytes_Forall (fun b => repository_byte b = true) SLASH)|].
    + apply Forall_forall. intros seg Hin%Hseg. apply negb_false_iff in Hin. unfold repository_segment in Hin.
      rewrite !andb_true_iff, all_Forall in Hin. destruct Hin as [_ Hin]. eapply Forall_impl; [exact Hin|].
      intros b Hb. unfold repository_byte, matches in *. rewrite orb_true_iff, bool_decide_eq_true in *.
      destruct Hb as [|Hb]; [by left|right; set_solver].
    + intros b [->|]; done.
  - rewrite E. set_solver.
Qed.

Lemma not_byte (f : N -> bool) (b : N) l : f b = false -> Forall (fun x => f x = true) l -> b ∉ l.
Proof. intros Hb Hl Hin. rewrite Forall_forall in Hl. specialize (Hl b Hin). congruence. Qed.

Definition digest_byte (b : N) : bool := is_ascii_alphanumeric b || (b =? COLON)%N.

Lemma digest_bytes d : is_sha256_digest d = true -> Forall (fun b => digest_byte b = true) (bytes_of d).
Proof.
  unfold is_sha256_digest. destruct (strip_prefix _ _) as [hex|] eqn:E; [|done].
  apply strip_prefix_Some in E as ->. rewrite andb_true_iff, all_Forall. intros [_ Hh].
  rewrite bytes_of_app. apply Forall_app. split; [by repeat constructor|].
  eapply Forall_impl; [exact Hh|]. intros b. unfold digest_byte, is_lower_hex, is_ascii_alphanumeric, is_ascii_lowercase.
  rewrite !orb_true_iff, !andb_true_iff, !N.leb_le. intros [|[? ?]]; [by left; left; left|].
  left. left. right. lia.
Qed.

(** ** The text of a reference *)
Definition reference_text (p : ParsedOciReference.t) : string :=
  "oci://" ++ p.(ParsedOciReference.repository)
  ++ match p.(ParsedOciReference.digest) with Some _ => "@" | None => ":" end
  ++ p.(ParsedOciReference.reference).

Definition reference_accepted (p : ParsedOciReference.t) : Prop :=
  validate_oci_repository p.(ParsedOciReference.repository) = Ok tt
  /\ match p.(ParsedOciReference.digest) with
     | Some d => p.(ParsedOciReference.reference) = d /\ is_sha256_digest d = true
     | None => valid_tag (bytes_of p.(ParsedOciReference.reference)) = true
     end.

Definition tag_byte (b : N) : bool := is_ascii_alphanumeric b || matches b [UNDERSCORE; DOT; HYPHEN].

Lemma tag_bytes tag : valid_tag tag = true -> Forall (fun b => tag_byte b = true) tag.
Proof. unfold valid_tag. rewrite !andb_true_iff, all_Forall. by intros [_ ?]. Qed.

(** A byte that none of the parts may contain is not in the text. *)
Lemma reference_text_bytes p (b : N) :
  reference_accepted p -> repository_byte b = false -> digest_byte b = false -> tag_byte b = false ->
  b ∉ bytes_of "oci://@:" -> b ∉ bytes_of (reference_text p).
Proof.
  intros [Hr Hd] H1 H2 H3 Hp. destruct (repository_bytes _ Hr) as [Hrb _].
  pose proof (not_byte _ _ _ H1 Hrb) as Hn. unfold reference_text. rewrite !bytes_of_app, !not_elem_of_app.
  assert (forall s, bytes_of s ⊆ bytes_of "oci://@:" -> b ∉ bytes_of s) as Hs by set_solver.
  split_and!; [apply Hs; by vm_compute; set_solver|done| |].
  - destruct (ParsedOciReference.digest p); apply Hs; vm_compute; set_solver.
  - destruct (ParsedOciReference.digest p).
    + destruct Hd as [-> Hd]. exact (not_byte _ _ _ H2 (digest_bytes _ Hd)).
    + exact (not_byte _ _ _ H3 (tag_bytes _ Hd)).
Qed.

Lemma reference_text_clean p : reference_accepted p -> contains_any FORBIDDEN_REFERENCE_BYTES (reference_text p) = false.
Proof.
  intros Hp. apply contains_any_false, Forall_forall. intros b Hb Hin. revert Hb.
  assert (Forall (fun b => repository_byte b = false /\ digest_byte b = false /\ tag_byte b = false
                           /\ b ∉ bytes_of "oci://@:") FORBIDDEN_REFERENCE_BYTES) as Hf.
  { repeat constructor; vm_compute; intros ?; repeat (match goal with H : _ ∈ _ :: _ |- _ => inversion_clear H end); set_solver. }
  rewrite Forall_forall in Hf. destruct (Hf b Hin) as (?&?&?&?). by apply reference_text_bytes.
Qed.

Lemma str_of_app l k : str_of (l ++ k) = (str_of l ++ str_of k)%string.
Proof. unfold str_of. rewrite map_app. induction (map ascii_of_N l) as [|c l' IH]; simpl; [done|]. by rewrite IH. Qed.

(** A list of bytes of a text, printed and read again. *)
Lemma bytes_of_part s l k : bytes_of s = l ++ k -> bytes_of (str_of l) = l /\ bytes_of (str_of k) = k.
Proof.
  intros E. pose proof (bytes_of_small s) as Hs. rewrite E, Forall_app in Hs.
  split; apply bytes_of_str_of; naive_solver.
Qed.

Lemma rsplit_once_None sep l : rsplit_once sep l = None <-> sep ∉ l.
Proof.
  split.
  - intros E Hin. apply list_elem_of_split_r in Hin as (a & b & -> & Hb).
    by rewrite (proj2 (rsplit_once_Some sep (a ++ sep :: b) a b)) in E.
  - intros Hn. destruct (rsplit_once sep l) as [[a b]|] eqn:E; [|done].
    apply rsplit_once_Some in E as [-> _]. set_solver.
Qed.

Lemma rfind_app sep a b : sep ∉ b -> rfind sep (a ++ sep :: b) = Some (length a).
Proof. intros Hb. unfold rfind. by rewrite (proj2 (rsplit_once_Some sep _ a b)). Qed.

Lemma rfind_Some sep l i : rfind sep l = Some i -> exists a b, l = a ++ sep :: b /\ sep ∉ b /\ i = length a.
Proof.
  unfold rfind. destruct (rsplit_once sep l) as [[a b]|] eqn:E; [|done]. intros [= <-].
  apply rsplit_once_Some in E as [-> Hb]. eauto.
Qed.

Lemma parse_oci_reference_Ok uri p :
  parse_oci_reference uri = Ok p -> uri = reference_text p /\ reference_accepted p /\ (str_len uri <= 4096)%N.
Proof.
  unfold parse_oci_reference. rewrite then_Ok, fail_if_Ok, !orb_false_iff. intros [[[Hl _] _] Hp].
  apply N.ltb_ge in Hl. rewrite result_bind_Ok in Hp. destruct Hp as (value & Hv & Hp).
  apply ok_or_Ok, strip_prefix_Some in Hv as ->.
  destruct (rsplit_once _ _) as [[r d]|] eqn:E.
  - apply rsplit_once_Some in E as [E _]. rewrite !then_Ok, validate_revision_sha256_Ok in Hp. destruct Hp as (Hr & Hd & [= <-]).
    split_and!; [|done..]. unfold reference_text; cbn. rewrite <- (str_of_bytes_of value), E.
    by rewrite str_of_app.
  - rewrite result_bind_Ok in Hp. destruct Hp as (slash & Hs%ok_or_Ok & Hp).
    rewrite result_bind_Ok in Hp. destruct Hp as (colon & Hc%ok_or_Ok & Hp).
    destruct (rfind COLON _) as [i|] eqn:Ec; [|done]. destruct (slash <? i)%nat; [|done]. injection Hc as ->.
    apply rfind_Some in Ec as (a & b & Eb & Hb & ->). rewrite !then_Ok, fail_if_Ok, negb_false_iff in Hp.
    rewrite Eb, take_app_length, drop_app_ge, Nat.sub_succ_l, Nat.sub_diag in Hp by lia.
    destruct Hp as (Hr & Ht & [= <-]). cbn [drop] in *. rewrite drop_0 in *. split_and!; [|split; [done|]|done].
    + unfold reference_text; cbn. by rewrite <- (str_of_bytes_of value), Eb, str_of_app.
    + cbn [ParsedOciReference.digest ParsedOciReference.reference]. destruct (bytes_of_part value (a ++ [COLON]) b) as [_ ->]; [by rewrite Eb, <- app_assoc|done].
Qed.

Lemma parse_oci_reference_text p :
  reference_accepted p -> (str_len (reference_text p) <= 4096)%N -> parse_oci_reference (reference_text p) = Ok p.
Proof.
  intros Hp Hl. pose proof (reference_text_clean p Hp) as Hc. unfold parse_oci_reference. rewrite Hc.
  rewrite (proj2 (N.ltb_ge _ _) Hl). destruct p as [r d t]. destruct Hp as [Hr Hd].
  cbn [ParsedOciReference.repository ParsedOciReference.digest ParsedOciReference.reference] in *.
  destruct (repository_bytes r Hr) as [Hrb Hsl]. unfold reference_text.
  cbn [ParsedOciReference.repository ParsedOciReference.digest ParsedOciReference.reference].
  set (value := (r ++ (match d with Some _ => "@" | None => ":" end) ++ t)%string).
  assert (starts_with "oci://" ("oci://" ++ value) = true) as -> by done. cbn [orb negb fail_if].
  rewrite (proj2 (strip_prefix_Some "oci://" _ value) eq_refl). cbn [ok_or mbind result_bind].
  assert (bytes_of value = bytes_of r ++ (if d then AT else COLON) :: bytes_of t) as Eb
    by (unfold value; rewrite !bytes_of_app; by destruct d).
  destruct d as [d|].
  - destruct Hd as [-> Hd]. rewrite (proj2 (rsplit_once_Some AT _ (bytes_of r) (bytes_of d))).
    + rewrite !str_of_bytes_of, Hr, (proj2 (validate_revision_sha256_Ok d tt) Hd). done.
    + split; [done|]. by apply (not_byte digest_byte); [|apply (digest_bytes _ Hd)].
  - pose proof (tag_bytes _ Hd) as Ht. pose proof (list_elem_of_split_r _ _ Hsl) as (a & b & Er & Hb).
    rewrite (proj2 (rsplit_once_None AT _)).
    2: { rewrite Eb, not_elem_of_app, not_elem_of_cons. split_and!; [by apply (not_byte repository_byte); [|apply Hrb]|done|].
         by apply (not_byte tag_byte); [|apply Ht]. }
    assert (rfind SLASH (bytes_of value) = Some (length a)) as ->.
    { rewrite Eb, Er, <- app_assoc. apply rfind_app. rewrite not_elem_of_app, not_elem_of_cons.
      split_and!; [done|done|]. by apply (not_byte tag_byte); [|apply Ht]. }
    rewrite Eb, rfind_app by (by apply (not_byte tag_byte); [|apply Ht]).
    cbn [ok_or mbind result_bind]. rewrite Er at 1. rewrite length_app. cbn [length].
    rewrite (proj2 (Nat.ltb_lt _ _)) by lia. cbn [ok_or mbind result_bind].
    rewrite take_app_length, drop_app_ge, Nat.sub_succ_l, Nat.sub_diag by lia. cbn [drop]. rewrite drop_0.
    by rewrite !str_of_bytes_of, Hr, Hd.
Qed.

(** ** Accepted templates *)
Section accepted.
Context `{External}.
Implicit Types (environment : gmap string string) (secrets : list SecretBinding.t).

Definition binds_variable (variable : string) (secret : SecretBinding.t) : Prop :=
  secret.(SecretBinding.target) = SecretBindingTarget.Environment variable.

Lemma validate_secrets_Ok environment names targets secrets :
  ServiceTemplate.validate_secrets environment names targets secrets = Ok tt <->
  Forall (fun s => SecretBinding.validate s = Ok tt) secrets
  /\ NoDup (map SecretBinding.name secrets) /\ NoDup (map SecretBinding.target_key secrets)
  /\ (forall s, s ∈ secrets -> s.(SecretBinding.name) ∉ names /\ SecretBinding.target_key s ∉ targets)
  /\ (forall s variable, s ∈ secrets -> binds_variable variable s -> environment !! variable = None).
Proof.
  revert names targets. induction secrets as [|s l IH]; intros names targets; cbn [ServiceTemplate.validate_secrets map].
  { split; [|done]. intros _. split_and!; try constructor; set_solver. }
  rewrite !then_Ok, !fail_if_Ok, IH, orb_false_iff, !bool_decide_eq_false, Forall_cons, !NoDup_cons.
  assert (forall A (f : SecretBinding.t -> A), f s ∉ map f l <-> forall x, x ∈ l -> f x <> f s) as Hmap.
  { intros A f. rewrite list_elem_of_In, in_map_iff. setoid_rewrite list_elem_of_In. naive_solver. }
  rewrite !Hmap. setoid_rewrite not_elem_of_cons. setoid_rewrite elem_of_cons.
  unfold binds_variable at 2. assert (forall variable, is_some (environment !! variable) = false
    <-> environment !! variable = None) as Hsome by (intros v; by destruct (environment !! v)).
  split.
  - intros (Hv & [Hn Ht] & He & Hf & Hnd & Htd & Hall & Henv). split_and!; try done.
    + intros x Hx. apply Hall in Hx. naive_solver.
    + intros x Hx. apply Hall in Hx. naive_solver.
    + intros x [->|Hx]; [done|]. apply Hall in Hx. naive_solver.
    + intros x variable [->|Hx] E; [|by eapply Henv]. rewrite E in He. by apply Hsome.
  - intros ((Hv & Hf) & (Hn & Hnd) & (Ht & Htd) & Hall & Henv). split_and!; try done; [by apply Hall; left..| | |].
    + destruct (SecretBinding.target s) eqn:E; [|done..]. apply Hsome. eapply Henv; [by left|done].
    + intros x Hx. specialize (Hall x (or_intror Hx)). specialize (Hn x Hx). specialize (Ht x Hx). naive_solver.
    + eauto.
Qed.

Lemma body_with_artifact {A B} (t : ServiceTemplate.t A) (b : B) :
  ServiceTemplate.validate_template_body (ServiceTemplate.with_artifact t b) = ServiceTemplate.validate_template_body t.
Proof. reflexivity. Qed.

Lemma from_artifact_validates a :
  OciArtifact.validate a = Ok tt -> OciArtifactReference.validate (OciArtifactReference.from_artifact a) = Ok tt.
Proof.
  unfold OciArtifact.validate, OciArtifactReference.validate, err; cbn [OciArtifactReference.uri
    OciArtifactReference.expected_digest OciArtifactReference.from_artifact]. rewrite !result_bind_Ok.
  intros (p & -> & Hp). exists p. split; [done|]. destruct (ParsedOciReference.digest p) as [d|]; [|done].
  rewrite !then_Ok, !fail_if_Ok in Hp. destruct Hp as (Hd & Hs & _). rewrite then_Ok, fail_if_Ok. by split.
Qed.

(** The parts of [OciArtifact.validate] the resolution relies on. *)
Lemma artifact_validate_Ok a :
  OciArtifact.validate a = Ok tt ->
  exists repository, a.(OciArtifact.uri) = ("oci://" ++ repository ++ "@" ++ a.(OciArtifact.digest))%string
    /\ is_sha256_digest a.(OciArtifact.digest) = true
    /\ oci_artifact_repository a = Ok repository.
Proof.
  intros Ha. pose proof Ha as Hv. unfold OciArtifact.validate, err in Hv. rewrite result_bind_Ok in Hv.
  destruct Hv as (p & Hp & Hv). destruct (ParsedOciReference.digest p) as [d|] eqn:Ed; [|done].
  rewrite !then_Ok, !fail_if_Ok, negb_false_iff, bool_decide_eq_true, validate_revision_sha256_Ok in Hv.
  destruct Hv as (-> & Hd & _). exists (ParsedOciReference.repository p).
  split_and!; [|done|by unfold oci_artifact_repository; rewrite Ha, Hp].
  apply parse_oci_reference_Ok in Hp as (-> & [_ Hw] & _). rewrite Ed in Hw. destruct Hw as [Hw _].
  unfold reference_text. by rewrite Ed, Hw.
Qed.

Lemma resolve_Ok request artifact template :
  ServiceTemplate.resolve request artifact = Ok template ->
  template = ServiceTemplate.with_artifact request artifact
  /\ ServiceTemplate.validate template = Ok tt
  /\ ServiceTemplate.validate_request request = Ok tt
  /\ (exists repository,
        OciArtifactReference.repository request.(ServiceTemplate.artifact) = Ok repository
        /\ artifact.(OciArtifact.uri) = ("oci://" ++ repository ++ "@" ++ artifact.(OciArtifact.digest))%string)
  /\ (forall expected, request.(ServiceTemplate.artifact).(OciArtifactReference.expected_digest) = Some expected ->
        expected = artifact.(OciArtifact.digest)).
Proof.
  unfold ServiceTemplate.resolve. rewrite !then_Ok, result_bind_Ok. intros (Hq & Ha & r & Hr & E).
  rewrite result_bind_Ok in E. destruct E as (r' & Hr' & E).
  rewrite !then_Ok, !fail_if_Ok, negb_false_iff, bool_decide_eq_true in E. destruct E as (-> & He & Hv & [= <-]).
  destruct (artifact_validate_Ok _ Ha) as (r & Eu & _ & Er). rewrite Hr' in Er. injection Er as ->.
  split_and!; eauto. intros e Ee. rewrite Ee in He. cbn in He. by apply negb_false_iff, bool_decide_eq_true in He.
Qed.
End accepted.

(** ** Segments of a text *)
Lemma split_bytes_ne sep l : split_bytes sep l <> [].
Proof. destruct l as [|b l]; simpl; [done|]. by destruct (_ =? _)%N, (split_bytes sep l). Qed.

Lemma split_bytes_app sep a b : split_bytes sep (a ++ sep :: b) = split_bytes sep a ++ split_bytes sep b.
Proof.
  induction a as [|x a IH]; simpl; [by rewrite N.eqb_refl|]. destruct (x =? sep)%N; [by rewrite IH|].
  rewrite IH. pose proof (split_bytes_ne sep a). by destruct (split_bytes sep a).
Qed.

Lemma split_bytes_whole sep l : sep ∉ l -> split_bytes sep l = [l].
Proof.
  induction l as [|b l IH]; simpl; [done|]. rewrite not_elem_of_cons. intros [Hb Hl].
  rewrite (proj2 (N.eqb_neq b sep)) by congruence. by rewrite IH.
Qed.

(** Segments, each but the first after a separator. *)
Definition joined (sep : N) (segs : list (list N)) : list N := concat (map (cons sep) segs).

Lemma split_bytes_joined sep seg segs :
  Forall (fun s => sep ∉ s) (seg :: segs) -> split_bytes sep (seg ++ joined sep segs) = seg :: segs.
Proof.
  revert seg. induction segs as [|s segs IH]; intros seg [Hs Hr]%Forall_cons; unfold joined; simpl.
  - rewrite app_nil_r. by apply split_bytes_whole.
  - rewrite split_bytes_app, split_bytes_whole by done. f_equal. by apply IH.
Qed.

Lemma split_bytes_join sep l :
  exists seg segs, l = seg ++ joined sep segs /\ Forall (fun s => sep ∉ s) (seg :: segs).
Proof.
  induction l as [|b l (seg & segs & -> & Hn)]; [exists [], []; split; [done|]; repeat constructor; set_solver|].
  destruct (decide (b = sep)) as [->|Hb].
  - exists [], (seg :: segs). split; [done|]. constructor; [set_solver|done].
  - exists (b :: seg), segs. split; [done|]. apply Forall_cons in Hn as [H1 H2]. constructor; [set_solver|done].
Qed.

Lemma bytes_prefix_app p l : bytes_prefix p l = true -> exists r, l = p ++ r.
Proof.
  revert l. induction p as [|x p IH]; intros [|y l]; simpl; [by exists []|by eexists|done|].
  rewrite andb_true_iff, N.eqb_eq. intros [-> [r ->]%IH]. by exists r.
Qed.

Lemma bytes_contains_split p l : bytes_contains p l = true -> exists a b, l = a ++ p ++ b.
Proof.
  induction l as [|x l IH]; simpl; rewrite orb_true_iff.
  - intros [[r ->]%bytes_prefix_app|]; [by exists [], r|done].
  - intros [[r ->]%bytes_prefix_app|(a & b & ->)%IH]; [by exists [], r|by exists (x :: a), b].
Qed.

Lemma first_is_cons b l : first_is b l = true -> exists r, l = b :: r.
Proof. destruct l as [|x l]; simpl; [done|]. rewrite N.eqb_eq. intros ->. by eexists. Qed.

Lemma last_is_snoc b l : last_is b l = true -> exists r, l = r ++ [b].
Proof.
  unfold last_is. intros [r E]%first_is_cons. exists (rev r). apply (f_equal (@rev N)) in E.
  by rewrite rev_involutive in E.
Qed.

(** ** The syntax, spelled out *)
Definition letter_or_digit (b : N) : Prop := (48 <= b <= 57 \/ 65 <= b <= 90 \/ 97 <= b <= 122)%N.

Definition oci_tag (tag : list N) : Prop :=
  tag <> [] /\ (length tag <= 128)%nat /\ Forall (fun b => letter_or_digit b \/ b ∈ bytes_of "_.-") tag.

Definition oci_segment (segment : list N) : Prop :=
  segment <> [] /\ segment <> bytes_of "." /\ segment <> bytes_of ".."
  /\ Forall (fun b => letter_or_digit b \/ b ∈ bytes_of "._-:") segment.

(** A registry without a dot at its ends, and one or more segments after it. *)
Definition oci_repository (repository : list N) : Prop :=
  exists registry segments,
    repository = registry ++ joined 47 segments /\ segments <> []
    /\ Forall oci_segment (registry :: segments)
    /\ head registry <> Some 46%N /\ last registry <> Some 46%N.

Definition oci_digest (digest : list N) : Prop :=
  exists hex, digest = bytes_of "sha256:" ++ hex /\ length hex = 64%nat
              /\ Forall (fun b => (48 <= b <= 57 \/ 97 <= b <= 102)%N) hex.

Lemma letter_or_digit_iff b : letter_or_digit b <-> is_ascii_alphanumeric b = true.
Proof.
  unfold letter_or_digit, is_ascii_alphanumeric, is_ascii_digit, is_ascii_lowercase, is_ascii_uppercase.
  rewrite !orb_true_iff, !andb_true_iff, !N.leb_le. lia.
Qed.

Lemma in_class l b : letter_or_digit b \/ b ∈ l <-> is_ascii_alphanumeric b || matches b l = true.
Proof. unfold matches. by rewrite orb_true_iff, bool_decide_eq_true, letter_or_digit_iff. Qed.

Lemma is_empty_false {A} (l : list A) : negb (is_empty l) = true <-> l <> [].
Proof. by destruct l. Qed.

Lemma valid_tag_iff tag : valid_tag tag = true <-> oci_tag tag.
Proof.
  unfold valid_tag, oci_tag, len. rewrite !andb_true_iff, all_Forall, is_empty_false, N.leb_le.
  setoid_rewrite in_class. intuition lia.
Qed.

Lemma repository_segment_iff segment : repository_segment segment = true <-> oci_segment segment.
Proof.
  unfold repository_segment, oci_segment. rewrite !andb_true_iff, all_Forall, is_empty_false, !negb_true_iff, !bool_decide_eq_false.
  setoid_rewrite in_class. intuition.
Qed.

Lemma oci_segment_slash segment : oci_segment segment -> SLASH ∉ segment.
Proof.
  intros (_ & _ & _ & Hs) Hin. rewrite Forall_forall in Hs. apply Hs in Hin as [Hl|Hl].
  - unfold letter_or_digit, SLASH in Hl. lia.
  - vm_compute in Hl. set_solver.
Qed.

(** Where a separator has another one, or an end of the text, beside it, there is an empty segment. *)
Lemma split_bytes_empty sep l a b :
  l = a ++ sep :: b -> b = [] \/ head b = Some sep -> [] ∈ split_bytes sep l.
Proof.
  intros -> Hb. rewrite split_bytes_app. apply elem_of_app. right.
  destruct Hb as [->|Hb]; [constructor|]. destruct b as [|x b]; [done|]. injection Hb as ->. simpl.
  rewrite N.eqb_refl. constructor.
Qed.

Lemma validate_oci_repository_complete repository :
  oci_repository (bytes_of repository) -> validate_oci_repository repository = Ok tt.
Proof.
  intros (registry & [|seg segs] & E & Hne & Hseg & Hf & Hl); [done|].
  pose proof (Forall_impl _ _ _ Hseg oci_segment_slash) as Hsl.
  pose proof (split_bytes_joined SLASH registry (seg :: segs) Hsl) as Hsplit. fold SLASH in E. rewrite <- E in Hsplit.
  assert ([] ∉ split_bytes SLASH (bytes_of repository)) as Hno.
  { rewrite Hsplit. intros Hin. rewrite Forall_forall in Hseg. by destruct (Hseg _ Hin). }
  apply Forall_cons in Hsl as [Hreg _]. unfold joined in E. cbn [map concat app] in E.
  unfold validate_oci_repository. rewrite (proj2 (split_once_Some SLASH _ registry (seg ++ joined SLASH segs)))
    by (split; [exact E|done]).
  rewrite fail_if_Ok, !orb_false_iff. split_and!.
  - apply Forall_cons in Hseg as [(Hr & _) _]. by destruct registry.
  - apply not_true_iff_false. intros He. apply Hno, (split_bytes_empty _ _ _ _ E). left. by destruct (seg ++ _).
  - apply not_true_iff_false. intros [r ->]%first_is_cons. by apply Hf.
  - apply not_true_iff_false. intros [r ->]%last_is_snoc. apply Hl. apply last_snoc.
  - apply not_true_iff_false. intros [r Hr]%first_is_cons. apply Hno, (split_bytes_empty _ _ _ _ E).
    right. unfold joined in Hr. by rewrite Hr.
  - apply not_true_iff_false. intros [r Hr]%last_is_snoc. unfold joined in Hr. rewrite Hr in E.
    apply Hno, (split_bytes_empty _ _ (registry ++ SLASH :: r) []); [|by left]. by rewrite E, <- app_assoc.
  - apply not_true_iff_false. intros (a & b & Hc)%bytes_contains_split.
    apply Hno, (split_bytes_empty _ _ a (SLASH :: b)); [exact Hc|by right].
  - apply any_false. rewrite Hsplit. intros s Hs. rewrite Forall_forall in Hseg.
    by apply negb_false_iff, repository_segment_iff, Hseg.
Qed.

Lemma validate_oci_repository_sound repository :
  validate_oci_repository repository = Ok tt -> oci_repository (bytes_of repository).
Proof.
  unfold validate_oci_repository, err. destruct (split_once _ _) as [[registry path]|] eqn:E; [|done].
  apply split_once_Some in E as [E Hn]. destruct (split_bytes_join SLASH path) as (seg & segs & -> & Hs).
  assert (bytes_of repository = registry ++ joined SLASH (seg :: segs)) as E' by exact E.
  rewrite fail_if_Ok, !orb_false_iff, any_false. intros (((((((_ & _) & Hf) & Hl) & _) & _) & _) & Hseg).
  rewrite E', split_bytes_joined in Hseg by (by constructor).
  exists registry, (seg :: segs). split_and!; [exact E'|done| | |].
  - apply Forall_forall. intros s Hin%Hseg. by apply repository_segment_iff, negb_false_iff.
  - intros H. destruct registry as [|b r]; [done|]. injection H as ->. done.
  - intros [r ->]%last_Some. unfold last_is in Hl. rewrite rev_app_distr in Hl. done.
Qed.

Lemma is_sha256_digest_iff digest : is_sha256_digest digest = true <-> oci_digest (bytes_of digest).
Proof.
  unfold is_sha256_digest, oci_digest. split.
  - destruct (strip_prefix _ _) as [hex|] eqn:E; [|done]. apply strip_prefix_Some in E as ->.
    rewrite andb_true_iff, all_Forall, N.eqb_eq. intros [Hl Hh]. exists (bytes_of hex). rewrite bytes_of_app.
    rewrite str_len_bytes in Hl. unfold len in Hl. split_and!; [done|lia|]. eapply Forall_impl; [exact Hh|]. intros b.
    unfold is_lower_hex, is_ascii_digit. rewrite orb_true_iff, !andb_true_iff, !N.leb_le. lia.
  - intros (hex & E & Hl & Hh). destruct (bytes_of_part _ _ _ E) as [_ Eh].
    assert (digest = ("sha256:" ++ str_of hex)%string) as ->.
    { rewrite <- (str_of_bytes_of digest), E, str_of_app. done. }
    rewrite (proj2 (strip_prefix_Some "sha256:" _ (str_of hex)) eq_refl), andb_true_iff, all_Forall, N.eqb_eq.
    rewrite Eh. split.
    + rewrite str_len_bytes, Eh. unfold len. lia.
    + eapply Forall_impl; [exact Hh|]. intros b. unfold is_lower_hex, is_ascii_digit.
      rewrite orb_true_iff, !andb_true_iff, !N.leb_le. lia.
Qed.

Definition reference_wf (p : ParsedOciReference.t) : Prop :=
  oci_repository (bytes_of p.(ParsedOciReference.repository))
  /\ match p.(ParsedOciReference.digest) with
     | Some d => p.(ParsedOciReference.reference) = d /\ oci_digest (bytes_of d)
     | None => oci_tag (bytes_of p.(ParsedOciReference.reference))
     end.

Lemma reference_accepted_iff p : reference_accepted p <-> reference_wf p.
Proof.
  unfold reference_accepted, reference_wf.
  split; intros [Hr Hd]; (split; [first [by apply validate_oci_repository_sound|by apply validate_oci_repository_complete]|]);
    (destruct (ParsedOciReference.digest p); [destruct Hd as [? Hd]; split; [done|by apply is_sha256_digest_iff]|by apply valid_tag_iff]).
Qed.

(** C39: The parser of OCI references accepts exactly the canonical texts: it returns a reference
    when and only when the text is "oci://", a repository, "@" and a SHA-256 digest or ":" and a tag, of
    at most 4096 bytes, and what it returns are these parts.  A repository is a registry, which neither
    begins nor ends with a dot, and one or more further segments after slashes; a segment is not empty,
    not "." or "..", and has letters, digits and "._-:"; a tag has 1 to 128 letters, digits and "_.-"; a
    digest is "sha256:" and 64 lowercase hexadecimal digits. *)
Theorem oci_reference_exact uri p :
  parse_oci_reference uri = Ok p <-> uri = reference_text p /\ reference_wf p /\ (str_len uri <= 4096)%N.
Proof.
  rewrite <- reference_accepted_iff. split; [apply parse_oci_reference_Ok|].
  intros (-> & Hp & Hl). by apply parse_oci_reference_text.
Qed.
