(* ===== verification/WorkloadRevisions.v ===== *)
(** * Workload revisions

    The rest of [workloads/domain/entities/workload_revision.rs] and
    [contracts/src/agent_release.rs]: the admissions a revision may be bound to (external builds,
    Agent, MCP and Skill releases), the bindings themselves, and the revision: its request, its
    resolved template, and the revisions derived from it by rollback, Secret rotation and Skill
    changes. *)

From Stdlib Require Import ZArith NArith Lia String.
From stdpp Require Import gmap strings.
From S2P Require Import Prelude RustStd BTreeMap External Text SharedKernel Resources NodeArtifacts Workloads ServiceTemplates.

Abbreviation AssetId := Uuid (only parsing).
Abbreviation AssetReleaseId := Uuid (only parsing).
Abbreviation BuildRunId := Uuid (only parsing).
Abbreviation SourceRevisionId := Uuid (only parsing).

Definition AGENT_RUNTIME_WORKING_DIRECTORY : string := "/workspace".
Definition AGENT_RUNTIME_PORT_NAME : string := "agent".
Definition AGENT_HEALTH_INTERVAL_MS : N := 1000.
Definition AGENT_HEALTH_TIMEOUT_MS : N := 500.
Definition AGENT_HEALTHY_THRESHOLD : N := 1.
Definition AGENT_UNHEALTHY_THRESHOLD : N := 3.
Definition AGENT_HEALTH_STABILIZATION_WINDOW_MS : N := 1000.
Definition MCP_SERVICE_PROFILE_MAX_ACL_BYTES : N := 65536.
Definition MCP_SERVICE_PROFILE_BLOCK : string := "mcp_service_profile".
Definition AGENT_RELEASE_MANIFEST_ARCHIVE_PATH : string := "asset.acl".

(** ** Third-party code: the Agent release manifest, the tar encoder and the ACL parser *)
Module ReleaseProvenance.
Record t := Mk {
  kind : string;
  digest : string;
  uri : string;
}.
End ReleaseProvenance.

Inductive AgentReleaseSecretTarget :=
| EnvironmentTarget
| FileTarget.

Module SecretRequirement.
Record t := Mk {
  name : string;
  target : AgentReleaseSecretTarget;
  destination : string;
}.
End SecretRequirement.

(** A block of an ACL document: the value of an attribute is kept as its [as_str]. *)
Module AclBlock.
Record t := Mk {
  name : string;
  has_labels : bool;
  has_blocks : bool;
  attributes : gmap string (option string);
}.
End AclBlock.

Class ReleaseContract := {
  AgentReleaseManifest : Type;
  manifest_parse : string -> result AgentReleaseManifest;
  (** [verify_compatibility(&agent_harness_compatibility_v1())] *)
  manifest_verify_compatibility : AgentReleaseManifest -> result unit;
  manifest_canonical_acl : AgentReleaseManifest -> string;
  manifest_identity : AgentReleaseManifest -> string;
  manifest_entrypoint_command : AgentReleaseManifest -> string;
  manifest_entrypoint_args : AgentReleaseManifest -> list string;
  manifest_artifact_digest : AgentReleaseManifest -> string;
  manifest_artifact_media_type : AgentReleaseManifest -> string;
  manifest_health_transport : AgentReleaseManifest -> string;
  manifest_health_port : AgentReleaseManifest -> N;
  manifest_health_readiness_path : AgentReleaseManifest -> string;
  manifest_provenance : AgentReleaseManifest -> list ReleaseProvenance.t;
  manifest_external_persistent_data : AgentReleaseManifest -> bool;
  manifest_required_secrets : AgentReleaseManifest -> list SecretRequirement.t;
  (** [tar::Builder] with one read-only file of root at the epoch: its path and bytes *)
  tar_archive : string -> list N -> result (list N);
  AclDocument : Type;
  parse_acl : string -> result AclDocument;
  acl_canonical_digest : AclDocument -> result string;
  acl_blocks : AclDocument -> list AclBlock.t;
}.

(** ** [agent_release.rs] *)
Fixpoint trim_start_matches_fuel (fuel : nat) (pattern value : string) : string :=
  match fuel, strip_prefix pattern value with
  | S fuel, Some rest => trim_start_matches_fuel fuel pattern rest
  | _, _ => value
  end.
(** [value.trim_start_matches(pattern)]: every leading copy of a non-empty pattern. *)
Definition trim_start_matches (pattern value : string) : string :=
  trim_start_matches_fuel (String.length value) pattern value.

Definition agent_release_source_uri (source_digest : string) : result string :=
  validate_lower_sha256 "Agent release source digest" source_digest ;;
  Ok ("urn:a3s:cloud:source-content:" ++ trim_start_matches "sha256:" source_digest)%string.

Definition agent_release_builder_uri `{External} (build_run_id : Uuid) : result string :=
  fail_if (is_nil build_run_id) "Agent release build identity cannot be nil" ;;
  Ok ("urn:a3s:cloud:build-evidence:" ++ uuid_display build_run_id)%string.

Definition agent_release_manifest_archive `{ReleaseContract} (canonical_acl : list N) : result (list N) :=
  fail_if (is_empty canonical_acl) "Agent release manifest archive cannot be empty" ;;
  tar_archive AGENT_RELEASE_MANIFEST_ARCHIVE_PATH canonical_acl.

(** ** Admissions and bindings *)
Module ExternalBuildReference.
Record t := Mk {
  organization_id : OrganizationId;
  project_id : ProjectId;
  environment_id : EnvironmentId;
  source_revision_id : SourceRevisionId;
  build_run_id : BuildRunId;
}.

#[global] Instance t_eq_dec : EqDecision t.
Proof. solve_decision. Defined.

Definition validate (self : t) : result unit :=
  fail_if (is_nil self.(organization_id) || is_nil self.(project_id) || is_nil self.(environment_id)
           || is_nil self.(source_revision_id) || is_nil self.(build_run_id))
    "external build reference identity is invalid".
End ExternalBuildReference.

Module SourceBuildAdmission.
Record t := Mk {
  external_build : ExternalBuildReference.t;
  artifact : OciArtifact.t;
}.

Definition validate (self : t) : result unit :=
  ExternalBuildReference.validate self.(external_build) ;;
  OciArtifact.validate self.(artifact).

Definition new (external_build : ExternalBuildReference.t) (artifact : OciArtifact.t) : result t :=
  let admission := Mk external_build artifact in
  validate admission ;; Ok admission.
End SourceBuildAdmission.

Definition agent_release_process `{ReleaseContract} (manifest : AgentReleaseManifest) : ServiceProcess.t :=
  {| ServiceProcess.command := [manifest_entrypoint_command manifest];
     ServiceProcess.args := manifest_entrypoint_args manifest;
     ServiceProcess.working_directory := Some AGENT_RUNTIME_WORKING_DIRECTORY;
     ServiceProcess.environment := ∅ |}.

Definition agent_release_port `{ReleaseContract} (manifest : AgentReleaseManifest) : ServicePort.t :=
  ServicePort.Mk AGENT_RUNTIME_PORT_NAME (manifest_health_port manifest).

Definition agent_release_readiness `{ReleaseContract} (manifest : AgentReleaseManifest) : HttpHealthCheck.t :=
  {| HttpHealthCheck.port_name := AGENT_RUNTIME_PORT_NAME;
     HttpHealthCheck.path := manifest_health_readiness_path manifest;
     HttpHealthCheck.interval_ms := AGENT_HEALTH_INTERVAL_MS;
     HttpHealthCheck.timeout_ms := AGENT_HEALTH_TIMEOUT_MS;
     HttpHealthCheck.healthy_threshold := AGENT_HEALTHY_THRESHOLD;
     HttpHealthCheck.unhealthy_threshold := AGENT_UNHEALTHY_THRESHOLD;
     HttpHealthCheck.stabilization_window_ms := AGENT_HEALTH_STABILIZATION_WINDOW_MS |}.

Definition is_registry_credential (binding : SecretBinding.t) : bool :=
  binding.(SecretBinding.target) == SecretBindingTarget.RegistryCredential.

(** [0o400] *)
Definition SECRET_FILE_MODE : N := 256.

Definition secret_matches (requirement : SecretRequirement.t) (binding : SecretBinding.t) : bool :=
  match requirement.(SecretRequirement.target), binding.(SecretBinding.target) with
  | EnvironmentTarget, SecretBindingTarget.Environment variable =>
    variable == requirement.(SecretRequirement.destination)
  | FileTarget, SecretBindingTarget.File path mode =>
    (path == requirement.(SecretRequirement.destination)) && (mode =? SECRET_FILE_MODE)%N
  | _, _ => false
  end.

Definition validate_agent_release_secrets (required : list SecretRequirement.t) (bindings : list SecretBinding.t) :
    result unit :=
  let message := "Agent Secret bindings do not match its release manifest"%string in
  for_each SecretBinding.validate bindings ;;
  let declared := List.filter (fun binding => negb (is_registry_credential binding)) bindings in
  fail_if (negb (len declared =? len required)%N
           || (1 <? len (List.filter is_registry_credential bindings))%N) message ;;
  for_each (fun requirement =>
    binding ← ok_or (find (fun binding => binding.(SecretBinding.name) == requirement.(SecretRequirement.name)) declared)
                message;
    fail_if (negb (secret_matches requirement binding)) message) required.

Module AgentReleaseRuntimeContract.
Record t := Mk {
  manifest_identity : Sha256Digest.t;
  canonical_acl : string;
  archive_uri : string;
  archive_digest : Sha256Digest.t;
  archive_size_bytes : N;
}.

#[global] Instance t_eq_dec : EqDecision t.
Proof. solve_decision. Defined.

Section contract.
Context `{External} `{ReleaseContract}.

Definition manifest (self : t) : result AgentReleaseManifest :=
  manifest ← map_err (fun e => Error "Agent runtime release manifest is invalid: {error}" [FStr e.(template)])
               (manifest_parse self.(canonical_acl));
  map_err (fun e => Error "Agent runtime release manifest is incompatible: {error}" [FStr e.(template)])
    (manifest_verify_compatibility manifest) ;;
  fail_if ((manifest_canonical_acl manifest != self.(canonical_acl))
           || (WorkloadRevisions.manifest_identity manifest != Sha256Digest.as_str self.(manifest_identity)))
    "Agent runtime release manifest changed its canonical identity" ;;
  Ok manifest.

Definition validate_archive (self : t) : result unit :=
  archive ← agent_release_manifest_archive (bytes_of self.(canonical_acl));
  let expected_digest := Sha256Digest.from_bytes archive in
  let message := "Agent runtime release manifest archive changed its exact bytes"%string in
  if self.(archive_digest) != expected_digest then err message
  else
    uri ← artifact_uri (Sha256Digest.as_str expected_digest);
    fail_if ((self.(archive_uri) != uri) || negb (self.(archive_size_bytes) =? len archive)%N) message.

Definition new (manifest_identity canonical_acl archive_uri archive_digest : string) (archive_size_bytes : N) :
    result t :=
  manifest_identity ← Sha256Digest.parse manifest_identity;
  archive_digest ← Sha256Digest.parse archive_digest;
  let contract := Mk manifest_identity canonical_acl archive_uri archive_digest archive_size_bytes in
  _ ← manifest contract;
  validate_archive contract ;;
  Ok contract.

Definition source_mismatch (reference : ReleaseProvenance.t) : bool :=
  match agent_release_source_uri reference.(ReleaseProvenance.digest) with
  | Ok uri => uri != reference.(ReleaseProvenance.uri)
  | Err _ => true
  end.

Definition validate_provenance_for (self : t) (build_run_id : BuildRunId) : result unit :=
  manifest ← manifest self;
  builder_uri ← agent_release_builder_uri build_run_id;
  let provenance := manifest_provenance manifest in
  let source := find (fun r => r.(ReleaseProvenance.kind) == "source") provenance in
  let builder := find (fun r => r.(ReleaseProvenance.kind) == "builder") provenance in
  fail_if (negb (len provenance =? 2)%N
           || is_none_or source_mismatch source
           || is_none_or (fun r => r.(ReleaseProvenance.uri) != builder_uri) builder)
    "Agent runtime release manifest changed its provenance binding".

Definition validate_for (self : t) (artifact : OciArtifact.t) : result unit :=
  OciArtifact.validate artifact ;;
  manifest ← manifest self;
  validate_archive self ;;
  fail_if ((manifest_artifact_digest manifest != artifact.(OciArtifact.digest))
           || (manifest_artifact_media_type manifest != artifact.(OciArtifact.media_type)))
    "Agent runtime release manifest changed its OCI artifact".

Definition manifest_for_template (self : t) (template : ResolvedServiceTemplate) : result AgentReleaseManifest :=
  validate_for self template.(ServiceTemplate.artifact) ;;
  manifest ← manifest self;
  fail_if ((manifest_health_transport manifest != "http")
           || (template.(ServiceTemplate.process) != agent_release_process manifest)
           || (template.(ServiceTemplate.ports) != [agent_release_port manifest])
           || (template.(ServiceTemplate.health) != Some (agent_release_readiness manifest)))
    "Agent Service template changed its release-manifest runtime intent" ;;
  Ok manifest.
End contract.
End AgentReleaseRuntimeContract.

Module AgentReleaseAdmission.
Record t := Mk {
  organization_id : OrganizationId;
  asset_id : AssetId;
  asset_release_id : AssetReleaseId;
  build_run_id : BuildRunId;
  published_at : Time;
  artifact : OciArtifact.t;
  runtime_contract : AgentReleaseRuntimeContract.t;
}.

Section admission.
Context `{External} `{ReleaseContract}.

Definition validate (self : t) : result unit :=
  fail_if (is_nil self.(organization_id) || is_nil self.(asset_id) || is_nil self.(asset_release_id)
           || is_nil self.(build_run_id) || (self.(published_at) != canonical_timestamp self.(published_at)))
    "Agent release admission identity is invalid" ;;
  AgentReleaseRuntimeContract.validate_for self.(runtime_contract) self.(artifact) ;;
  AgentReleaseRuntimeContract.validate_provenance_for self.(runtime_contract) self.(build_run_id).

Definition new (organization_id : OrganizationId) (asset_id : AssetId) (asset_release_id : AssetReleaseId)
    (build_run_id : BuildRunId) (published_at : Time) (artifact : OciArtifact.t)
    (runtime_contract : AgentReleaseRuntimeContract.t) : result t :=
  let admission := Mk organization_id asset_id asset_release_id build_run_id (canonical_timestamp published_at)
                      artifact runtime_contract in
  validate admission ;; Ok admission.

Definition resolve_template (self : t) (secrets : list SecretBinding.t) (resources : ServiceResources.t) :
    result ResolvedServiceTemplate :=
  validate self ;;
  manifest ← AgentReleaseRuntimeContract.manifest self.(runtime_contract);
  fail_if (manifest_external_persistent_data manifest)
    "Agent release requests external persistent data without a versioned mount target" ;;
  ephemeral_storage_bytes ← ok_or resources.(ServiceResources.ephemeral_storage_bytes)
                              "Agent release requires a positive ephemeral storage limit";
  fail_if (ephemeral_storage_bytes =? 0)%N "Agent release requires a positive ephemeral storage limit" ;;
  validate_agent_release_secrets (manifest_required_secrets manifest) secrets ;;
  let template :=
    {| ServiceTemplate.artifact := self.(artifact);
       ServiceTemplate.process := agent_release_process manifest;
       ServiceTemplate.secrets := secrets;
       ServiceTemplate.resources := resources;
       ServiceTemplate.ports := [agent_release_port manifest];
       ServiceTemplate.health := Some (agent_release_readiness manifest) |} in
  _ ← AgentReleaseRuntimeContract.manifest_for_template self.(runtime_contract) template;
  Ok template.
End admission.
End AgentReleaseAdmission.

Module SkillReleaseAdmission.
Record t := Mk {
  organization_id : OrganizationId;
  asset_id : AssetId;
  asset_release_id : AssetReleaseId;
  published_at : Time;
  artifact_digest : Sha256Digest.t;
  artifact_size_bytes : N;
}.

Definition validate (self : t) : result unit :=
  fail_if (is_nil self.(organization_id) || is_nil self.(asset_id) || is_nil self.(asset_release_id)
           || (self.(published_at) != canonical_timestamp self.(published_at))
           || (self.(artifact_size_bytes) =? 0)%N)
    "Skill release admission identity is invalid" ;;
  parsed ← Sha256Digest.parse (Sha256Digest.as_str self.(artifact_digest));
  fail_if (parsed != self.(artifact_digest)) "Skill release admission digest is invalid" ;;
  _ ← artifact_uri (Sha256Digest.as_str self.(artifact_digest));
  Ok tt.

Definition new (organization_id : OrganizationId) (asset_id : AssetId) (asset_release_id : AssetReleaseId)
    (published_at : Time) (artifact_digest : Sha256Digest.t) (artifact_size_bytes : N) : result t :=
  let admission := Mk organization_id asset_id asset_release_id (canonical_timestamp published_at)
                      artifact_digest artifact_size_bytes in
  validate admission ;; Ok admission.
End SkillReleaseAdmission.

Definition exact_mcp_profile_block `{ReleaseContract} (document : AclDocument) : result AclBlock.t :=
  match acl_blocks document with
  | [block] =>
    fail_if ((block.(AclBlock.name) != MCP_SERVICE_PROFILE_BLOCK)
             || block.(AclBlock.has_labels) || block.(AclBlock.has_blocks))
      "MCP Service profile block shape is invalid" ;;
    Ok block
  | _ => err "MCP Service profile must contain exactly one top-level block"
  end.

Definition required_mcp_profile_string (block : AclBlock.t) (name : string) : result string :=
  match block.(AclBlock.attributes) !! name with
  | None => errf "MCP Service profile field {name:?} is required" [FStr name]
  | Some None => errf "MCP Service profile field {name:?} must be a string" [FStr name]
  | Some (Some value) => Ok value
  end.

Module McpProfileAdmission.
Record t := Mk {
  digest : Sha256Digest.t;
  runtime_port : string;
  health_path : string;
}.

Definition validate (self : t) : result unit :=
  fail_if (negb (valid_identifier self.(runtime_port) 63)) "MCP profile admission Runtime port is invalid" ;;
  fail_if (str_is_empty self.(health_path)
           || negb (starts_with "/" self.(health_path))
           || str_contains "//" self.(health_path)
           || has_control_or_whitespace (bytes_of self.(health_path)))
    "MCP profile admission health path is invalid".

Definition new (digest : Sha256Digest.t) (runtime_port health_path : string) : result t :=
  let admission := Mk digest runtime_port health_path in
  validate admission ;; Ok admission.

Definition restore_from_stored_acl `{ReleaseContract} (acl stored_digest : string) : result t :=
  fail_if (str_is_empty acl || (MCP_SERVICE_PROFILE_MAX_ACL_BYTES <? str_len acl)%N)
    "MCP Service profile ACL size is invalid" ;;
  document ← map_err (fun e => Error "MCP Service profile ACL is invalid: {error}" [FStr e.(template)]) (parse_acl acl);
  canonical ← map_err (fun e => Error "MCP Service profile is not canonicalizable: {error}" [FStr e.(template)])
                (acl_canonical_digest document);
  digest ← Sha256Digest.parse canonical;
  fail_if (Sha256Digest.as_str digest != stored_digest) "stored MCP Service profile ACL and digest do not match" ;;
  block ← exact_mcp_profile_block document;
  runtime_port ← required_mcp_profile_string block "runtime_port";
  health_path ← required_mcp_profile_string block "health_path";
  new digest runtime_port health_path.
End McpProfileAdmission.

Module McpReleaseAdmission.
Record t := Mk {
  organization_id : OrganizationId;
  asset_id : AssetId;
  asset_release_id : AssetReleaseId;
  published_at : Time;
  profile_bound_at : Time;
  artifact : OciArtifact.t;
  profile : McpProfileAdmission.t;
}.

Definition validate (self : t) : result unit :=
  fail_if (is_nil self.(organization_id) || is_nil self.(asset_id) || is_nil self.(asset_release_id)
           || (self.(published_at) != canonical_timestamp self.(published_at))
           || (self.(profile_bound_at) != canonical_timestamp self.(profile_bound_at)))
    "MCP release admission identity is invalid" ;;
  OciArtifact.validate self.(artifact) ;;
  McpProfileAdmission.validate self.(profile).

Definition new (organization_id : OrganizationId) (asset_id : AssetId) (asset_release_id : AssetReleaseId)
    (published_at profile_bound_at : Time) (artifact : OciArtifact.t) (profile : McpProfileAdmission.t) : result t :=
  let admission := Mk organization_id asset_id asset_release_id (canonical_timestamp published_at)
                      (canonical_timestamp profile_bound_at) artifact profile in
  validate admission ;; Ok admission.
End McpReleaseAdmission.

Module AgentWorkloadRevisionBinding.
Record t := Mk {
  organization_id : OrganizationId;
  asset_id : AssetId;
  asset_release_id : AssetReleaseId;
  build_run_id : BuildRunId;
  runtime_contract : option AgentReleaseRuntimeContract.t;
}.

#[global] Instance t_eq_dec : EqDecision t.
Proof. solve_decision. Defined.

Section binding.
Context `{External} `{ReleaseContract}.

Definition validate_identity (self : t) : result unit :=
  fail_if (is_nil self.(organization_id) || is_nil self.(asset_id) || is_nil self.(asset_release_id)
           || is_nil self.(build_run_id))
    "Agent Workload release binding identity is invalid" ;;
  match self.(runtime_contract) with
  | None => Ok tt
  | Some contract =>
    _ ← AgentReleaseRuntimeContract.manifest contract;
    AgentReleaseRuntimeContract.validate_archive contract ;;
    AgentReleaseRuntimeContract.validate_provenance_for contract self.(build_run_id)
  end.

Definition restore_with_contract (organization_id : OrganizationId) (asset_id : AssetId)
    (asset_release_id : AssetReleaseId) (build_run_id : BuildRunId)
    (runtime_contract : option AgentReleaseRuntimeContract.t) : result t :=
  let binding := Mk organization_id asset_id asset_release_id build_run_id runtime_contract in
  validate_identity binding ;; Ok binding.

Definition runtime_manifest_for (self : t) (template : ResolvedServiceTemplate) : result AgentReleaseManifest :=
  validate_identity self ;;
  contract ← ok_or self.(runtime_contract) "Agent Workload binding predates the exact release manifest contract";
  AgentReleaseRuntimeContract.manifest_for_template contract template.
End binding.
End AgentWorkloadRevisionBinding.

Module SkillWorkloadRevisionBinding.
Record t := Mk {
  organization_id : OrganizationId;
  asset_id : AssetId;
  asset_release_id : AssetReleaseId;
  artifact_digest : Sha256Digest.t;
  artifact_size_bytes : N;
}.

#[global] Instance t_eq_dec : EqDecision t.
Proof. solve_decision. Defined.

Definition artifact_uri (self : t) : result string :=
  NodeArtifacts.artifact_uri (Sha256Digest.as_str self.(artifact_digest)).

Definition artifact_media_type (self : t) : string := SKILL_BUNDLE_MEDIA_TYPE.

Definition mount_name `{External} (self : t) : string := ("skill-" ++ uuid_display self.(asset_id))%string.

Definition mount_target `{External} (self : t) : string := ("/a3s/skills/" ++ uuid_display self.(asset_id))%string.

(** The digest is parsed while the condition is evaluated: its error leaves first. *)
Definition validate_identity (self : t) : result unit :=
  let message := "Skill Workload release binding identity is invalid"%string in
  if is_nil self.(organization_id) || is_nil self.(asset_id) || is_nil self.(asset_release_id) then err message
  else
    parsed ← Sha256Digest.parse (Sha256Digest.as_str self.(artifact_digest));
    fail_if ((parsed != self.(artifact_digest)) || (self.(artifact_size_bytes) =? 0)%N) message ;;
    _ ← artifact_uri self;
    Ok tt.

Definition restore (organization_id : OrganizationId) (asset_id : AssetId) (asset_release_id : AssetReleaseId)
    (artifact_digest : Sha256Digest.t) (artifact_size_bytes : N) : result t :=
  let binding := Mk organization_id asset_id asset_release_id artifact_digest artifact_size_bytes in
  validate_identity binding ;; Ok binding.

Definition from_admission (workload : Workload.t) (admission : SkillReleaseAdmission.t) : result t :=
  SkillReleaseAdmission.validate admission ;;
  fail_if (workload.(Workload.organization_id) != admission.(SkillReleaseAdmission.organization_id))
    "Skill Workload input does not match its tenant or published release" ;;
  restore workload.(Workload.organization_id) admission.(SkillReleaseAdmission.asset_id)
    admission.(SkillReleaseAdmission.asset_release_id) admission.(SkillReleaseAdmission.artifact_digest)
    admission.(SkillReleaseAdmission.artifact_size_bytes).
End SkillWorkloadRevisionBinding.

Module McpWorkloadRevisionBinding.
Record t := Mk {
  organization_id : OrganizationId;
  asset_id : AssetId;
  asset_release_id : AssetReleaseId;
  profile_digest : Sha256Digest.t;
  runtime_port : string;
  health_path : string;
}.

#[global] Instance t_eq_dec : EqDecision t.
Proof. solve_decision. Defined.

Definition profile_admission (self : t) : result McpProfileAdmission.t :=
  McpProfileAdmission.new self.(profile_digest) self.(runtime_port) self.(health_path).

Definition validate_identity (self : t) : result unit :=
  let message := "MCP Workload release binding identity is invalid"%string in
  if is_nil self.(organization_id) || is_nil self.(asset_id) || is_nil self.(asset_release_id) then err message
  else
    parsed ← Sha256Digest.parse (Sha256Digest.as_str self.(profile_digest));
    fail_if (parsed != self.(profile_digest)) message ;;
    profile ← profile_admission self;
    McpProfileAdmission.validate profile.

Definition restore (organization_id : OrganizationId) (asset_id : AssetId) (asset_release_id : AssetReleaseId)
    (profile_digest : Sha256Digest.t) (runtime_port health_path : string) : result t :=
  let binding := Mk organization_id asset_id asset_release_id profile_digest runtime_port health_path in
  validate_identity binding ;; Ok binding.
End McpWorkloadRevisionBinding.

Definition validate_mcp_template `{External} (template : ResolvedServiceTemplate) (profile : McpProfileAdmission.t) :
    result unit :=
  ServiceTemplate.validate template ;;
  McpProfileAdmission.validate profile ;;
  fail_if (negb (any (fun port => port.(ServicePort.name) == profile.(McpProfileAdmission.runtime_port))
                   template.(ServiceTemplate.ports)))
    "MCP Workload does not declare the profile Runtime port" ;;
  health ← ok_or template.(ServiceTemplate.health) "MCP Workload requires the profile HTTP health check";
  fail_if ((health.(HttpHealthCheck.port_name) != profile.(McpProfileAdmission.runtime_port))
           || (health.(HttpHealthCheck.path) != profile.(McpProfileAdmission.health_path)))
    "MCP Workload health check does not match its immutable Service profile".

(** ** The revision *)
Module WorkloadRevision.

Record t := Mk {
  id : WorkloadRevisionId;
  workload_id : WorkloadId;
  generation : N;
  request : RequestedServiceTemplate;
  request_digest : string;
  template : option ResolvedServiceTemplate;
  template_digest : option string;
  created_at : Time;
  resolved_at : option Time;
  external_build : option ExternalBuildReference.t;
  agent_binding : option AgentWorkloadRevisionBinding.t;
  mcp_binding : option McpWorkloadRevisionBinding.t;
  skill_bindings : list SkillWorkloadRevisionBinding.t;
}.

#[global] Instance t_eta : Eta t := fun r =>
  Mk r.(id) r.(workload_id) r.(generation) r.(request) r.(request_digest) r.(template) r.(template_digest)
     r.(created_at) r.(resolved_at) r.(external_build) r.(agent_binding) r.(mcp_binding) r.(skill_bindings).

#[global] Instance t_eq_dec : EqDecision t.
Proof. solve_decision. Defined.

Definition resolved_template (self : t) : result ResolvedServiceTemplate :=
  ok_or self.(template) "workload revision has not resolved its OCI artifact".

Definition runtime_unit_id `{External} (self : t) : string :=
  ("workload:" ++ uuid_display self.(workload_id) ++ ":revision:" ++ uuid_display self.(id))%string.

(** [binary_search_by_key(&asset_id, SkillWorkloadRevisionBinding::asset_id)] *)
Definition skill_slot (asset_id : AssetId) (bindings : list SkillWorkloadRevisionBinding.t) : nat + nat :=
  binary_search_slot (fun b => N.compare b.(SkillWorkloadRevisionBinding.asset_id) asset_id) bindings.

(** [Vec::insert] *)
Definition vec_insert {A} (index : nat) (x : A) (l : list A) : list A := take index l ++ x :: drop index l.

Definition skill_binding (self : t) (asset_id : AssetId) : option SkillWorkloadRevisionBinding.t :=
  match skill_slot asset_id self.(skill_bindings) with
  | inl index => self.(skill_bindings) !! index
  | inr _ => None
  end.

Section revision.
Context `{External} `{ReleaseContract}.

Definition create (id : WorkloadRevisionId) (workload_id : WorkloadId) (generation : N)
    (template : ResolvedServiceTemplate) (created_at : Time) : result t :=
  fail_if (generation =? 0)%N "workload revision generation must be positive" ;;
  template_digest ← ServiceTemplate.digest template;
  let request := ServiceTemplate.with_artifact template
                   (OciArtifactReference.from_artifact template.(ServiceTemplate.artifact)) in
  request_digest ← ServiceTemplate.request_digest request;
  let created_at := canonical_timestamp created_at in
  Ok {| id := id;
        workload_id := workload_id;
        generation := generation;
        request := request;
        request_digest := request_digest;
        template := Some template;
        template_digest := Some template_digest;
        created_at := created_at;
        resolved_at := Some created_at;
        external_build := None;
        agent_binding := None;
        mcp_binding := None;
        skill_bindings := [] |}.

Definition create_from_external_build (id : WorkloadRevisionId) (workload_id : WorkloadId) (generation : N)
    (template : ResolvedServiceTemplate) (external_build : ExternalBuildReference.t) (created_at : Time) : result t :=
  ExternalBuildReference.validate external_build ;;
  revision ← create id workload_id generation template created_at;
  Ok (revision <| WorkloadRevision.external_build := Some external_build |>).

(** [WorkloadRevision::request]; the name of its result's field is the same. *)
Definition request_revision (id : WorkloadRevisionId) (workload_id : WorkloadId) (generation : N)
    (request : RequestedServiceTemplate) (created_at : Time) : result t :=
  fail_if (generation =? 0)%N "workload revision generation must be positive" ;;
  request_digest ← ServiceTemplate.request_digest request;
  let created_at := canonical_timestamp created_at in
  Ok {| id := id;
        workload_id := workload_id;
        generation := generation;
        request := request;
        request_digest := request_digest;
        template := None;
        template_digest := None;
        created_at := created_at;
        resolved_at := None;
        external_build := None;
        agent_binding := None;
        mcp_binding := None;
        skill_bindings := [] |}.

Definition restore_external_build (external_build : ExternalBuildReference.t) : method t unit :=
  lift (ExternalBuildReference.validate external_build) ;;
  self ← get;
  _ ← lift (resolved_template self);
  match self.(WorkloadRevision.external_build) with
  | Some existing =>
    if existing == external_build then mret tt else raise "external build reference is immutable"
  | None => modify (fun self => self <| WorkloadRevision.external_build := Some external_build |>)
  end.

Definition resolve (artifact : OciArtifact.t) (resolved_at : Time) : method t unit :=
  let resolved_at := canonical_timestamp resolved_at in
  self ← get;
  if (resolved_at <? self.(created_at))%Z then raise "workload revision resolution time regressed"
  else
    template ← lift (ServiceTemplate.resolve self.(request) artifact);
    template_digest ← lift (ServiceTemplate.digest template);
    match self.(WorkloadRevision.template) with
    | Some existing =>
      if (existing == template) && (self.(WorkloadRevision.template_digest) == Some template_digest) then mret tt
      else raise "resolved workload revision is immutable"
    | None =>
      modify (fun self => self <| WorkloadRevision.template := Some template |>) ;;
      modify (fun self => self <| WorkloadRevision.template_digest := Some template_digest |>) ;;
      modify (fun self => self <| WorkloadRevision.resolved_at := Some resolved_at |>)
    end.

Definition bind_agent_release (workload : Workload.t) (admission : AgentReleaseAdmission.t) : method t bool :=
  lift (AgentReleaseAdmission.validate admission) ;;
  self ← get;
  if (self.(workload_id) != workload.(Workload.id))
     || (workload.(Workload.organization_id) != admission.(AgentReleaseAdmission.organization_id))
     || (self.(created_at) <? admission.(AgentReleaseAdmission.published_at))%Z
     || is_some self.(external_build)
     || is_some self.(mcp_binding)
  then raise "Agent Workload revision does not match its tenant or published release"
  else
    template ← lift (resolved_template self);
    if template.(ServiceTemplate.artifact) != admission.(AgentReleaseAdmission.artifact)
    then raise "Agent Workload artifact does not match its exact AssetRelease"
    else
      _ ← lift (AgentReleaseRuntimeContract.manifest_for_template
                  admission.(AgentReleaseAdmission.runtime_contract) template);
      binding ← lift (AgentWorkloadRevisionBinding.restore_with_contract workload.(Workload.organization_id)
                        admission.(AgentReleaseAdmission.asset_id) admission.(AgentReleaseAdmission.asset_release_id)
                        admission.(AgentReleaseAdmission.build_run_id)
                        (Some admission.(AgentReleaseAdmission.runtime_contract)));
      match self.(agent_binding) with
      | Some existing =>
        if existing == binding then mret false else raise "Agent Workload release binding is immutable"
      | None => modify (fun self => self <| agent_binding := Some binding |>) ;; mret true
      end.

Definition validate_agent_binding_for_workload (self : t) (workload : Workload.t) : result unit :=
  match self.(agent_binding) with
  | None => Ok tt
  | Some binding =>
    AgentWorkloadRevisionBinding.validate_identity binding ;;
    fail_if ((self.(workload_id) != workload.(Workload.id))
             || (binding.(AgentWorkloadRevisionBinding.organization_id) != workload.(Workload.organization_id))
             || is_none self.(template)
             || is_none self.(resolved_at)
             || is_some self.(external_build)
             || is_some self.(mcp_binding))
      "Agent Workload release binding does not match its Workload revision" ;;
    template ← resolved_template self;
    _ ← AgentWorkloadRevisionBinding.runtime_manifest_for binding template;
    Ok tt
  end.

Definition restore_agent_binding (binding : AgentWorkloadRevisionBinding.t) : method t unit :=
  lift (AgentWorkloadRevisionBinding.validate_identity binding) ;;
  self ← get;
  template ← lift (resolved_template self);
  lift (ServiceTemplate.validate template) ;;
  if is_some self.(agent_binding) || is_some self.(external_build) || is_some self.(mcp_binding)
  then raise "Agent Workload release binding was restored more than once"
  else
    template ← lift (resolved_template self);
    _ ← lift (AgentWorkloadRevisionBinding.runtime_manifest_for binding template);
    modify (fun self => self <| agent_binding := Some binding |>).

Definition bind_mcp_release (workload : Workload.t) (admission : McpReleaseAdmission.t) : method t bool :=
  lift (McpReleaseAdmission.validate admission) ;;
  self ← get;
  if (self.(workload_id) != workload.(Workload.id))
     || (workload.(Workload.organization_id) != admission.(McpReleaseAdmission.organization_id))
     || (self.(created_at) <? admission.(McpReleaseAdmission.published_at))%Z
     || (self.(created_at) <? admission.(McpReleaseAdmission.profile_bound_at))%Z
     || is_some self.(agent_binding)
     || is_some self.(external_build)
  then raise "MCP Workload revision does not match its tenant, published release, or profile"
  else
    template ← lift (resolved_template self);
    let artifact := template.(ServiceTemplate.artifact) in
    if (artifact.(OciArtifact.digest) != admission.(McpReleaseAdmission.artifact).(OciArtifact.digest))
       || (artifact.(OciArtifact.media_type) != admission.(McpReleaseAdmission.artifact).(OciArtifact.media_type))
    then raise "MCP Workload artifact does not match its exact AssetRelease"
    else
      let profile := admission.(McpReleaseAdmission.profile) in
      lift (validate_mcp_template template profile) ;;
      binding ← lift (McpWorkloadRevisionBinding.restore workload.(Workload.organization_id)
                        admission.(McpReleaseAdmission.asset_id) admission.(McpReleaseAdmission.asset_release_id)
                        profile.(McpProfileAdmission.digest) profile.(McpProfileAdmission.runtime_port)
                        profile.(McpProfileAdmission.health_path));
      match self.(mcp_binding) with
      | Some existing =>
        if existing == binding then mret false else raise "MCP Workload release binding is immutable"
      | None => modify (fun self => self <| mcp_binding := Some binding |>) ;; mret true
      end.

Definition validate_mcp_binding_for_workload (self : t) (workload : Workload.t) : result unit :=
  match self.(mcp_binding) with
  | None => Ok tt
  | Some binding =>
    McpWorkloadRevisionBinding.validate_identity binding ;;
    fail_if ((self.(workload_id) != workload.(Workload.id))
             || (binding.(McpWorkloadRevisionBinding.organization_id) != workload.(Workload.organization_id))
             || is_none self.(template)
             || is_none self.(resolved_at))
      "MCP Workload release binding does not match its Workload revision"
  end.

Definition restore_mcp_binding (binding : McpWorkloadRevisionBinding.t) : method t unit :=
  lift (McpWorkloadRevisionBinding.validate_identity binding) ;;
  profile ← lift (McpWorkloadRevisionBinding.profile_admission binding);
  self ← get;
  template ← lift (resolved_template self);
  lift (validate_mcp_template template profile) ;;
  if is_some self.(mcp_binding) || is_some self.(agent_binding) || is_some self.(external_build)
  then raise "MCP Workload release binding was restored more than once"
  else modify (fun self => self <| mcp_binding := Some binding |>).

(** The loop of [validate_skill_bindings_for_workload], with the asset before. *)
Fixpoint validate_skill_order (organization_id : OrganizationId) (previous : option AssetId)
    (bindings : list SkillWorkloadRevisionBinding.t) : result unit :=
  match bindings with
  | [] => Ok tt
  | binding :: rest =>
    SkillWorkloadRevisionBinding.validate_identity binding ;;
    fail_if ((binding.(SkillWorkloadRevisionBinding.organization_id) != organization_id)
             || is_some_and (fun asset_id => binding.(SkillWorkloadRevisionBinding.asset_id) <=? asset_id)%N previous)
      "Skill Workload release bindings are not unique and ordered" ;;
    validate_skill_order organization_id (Some binding.(SkillWorkloadRevisionBinding.asset_id)) rest
  end.

Definition validate_skill_bindings_for_workload (self : t) (workload : Workload.t) : result unit :=
  if is_empty self.(skill_bindings) then Ok tt
  else
    fail_if ((self.(workload_id) != workload.(Workload.id))
             || is_none self.(agent_binding)
             || is_some self.(external_build)
             || is_some self.(mcp_binding)
             || (128 <? len self.(skill_bindings))%N)
      "Skill bindings require one resolved Agent Workload revision" ;;
    validate_skill_order workload.(Workload.organization_id) None self.(skill_bindings) ;;
    template ← resolved_template self;
    ServiceTemplate.validate template.

Definition restore_skill_binding (binding : SkillWorkloadRevisionBinding.t) : method t unit :=
  lift (SkillWorkloadRevisionBinding.validate_identity binding) ;;
  self ← get;
  if is_none_or (fun agent => agent.(AgentWorkloadRevisionBinding.organization_id)
                              != binding.(SkillWorkloadRevisionBinding.organization_id)) self.(agent_binding)
     || is_some self.(external_build)
     || is_some self.(mcp_binding)
     || (128 <=? len self.(skill_bindings))%N
  then raise "Skill bindings require one resolved Agent Workload revision"
  else
    match skill_slot binding.(SkillWorkloadRevisionBinding.asset_id) self.(skill_bindings) with
    | inl _ => raise "Skill Workload release binding was restored more than once"
    | inr index => modify (fun self => self <| skill_bindings := vec_insert index binding self.(skill_bindings) |>)
    end.

Definition copy_as (self : t) (id : WorkloadRevisionId) (generation : N) (created_at : Time) : result t :=
  fail_if ((id == self.(WorkloadRevision.id))
           || (generation <=? self.(WorkloadRevision.generation))%N
           || (created_at <? self.(WorkloadRevision.created_at))%Z
           || is_none self.(agent_binding)
           || is_some self.(external_build)
           || is_some self.(mcp_binding))
    "Skill binding revision identity or ordering is invalid" ;;
  template ← resolved_template self;
  revision ← create id self.(workload_id) generation template created_at;
  Ok (revision <| agent_binding := self.(agent_binding) |> <| skill_bindings := self.(skill_bindings) |>).

Definition with_skill_release_as (self : t) (id : WorkloadRevisionId) (generation : N) (created_at : Time)
    (workload : Workload.t) (admission : SkillReleaseAdmission.t) : result t :=
  validate_skill_bindings_for_workload self workload ;;
  SkillReleaseAdmission.validate admission ;;
  fail_if ((self.(workload_id) != workload.(Workload.id))
           || (workload.(Workload.organization_id) != admission.(SkillReleaseAdmission.organization_id))
           || (created_at <? admission.(SkillReleaseAdmission.published_at))%Z)
    "Skill Workload input does not match its tenant or published release" ;;
  binding ← SkillWorkloadRevisionBinding.from_admission workload admission;
  fail_if (skill_binding self admission.(SkillReleaseAdmission.asset_id) == Some binding)
    "Skill release is already bound to the active Workload revision" ;;
  revision ← copy_as self id generation created_at;
  let revision :=
    revision <| skill_bindings :=
      match skill_slot admission.(SkillReleaseAdmission.asset_id) revision.(skill_bindings) with
      | inl index => <[index := binding]> revision.(skill_bindings)
      | inr index => vec_insert index binding revision.(skill_bindings)
      end |> in
  validate_skill_bindings_for_workload revision workload ;;
  Ok revision.

Definition without_skill_release_as (self : t) (id : WorkloadRevisionId) (generation : N) (created_at : Time)
    (asset_id : AssetId) : result t :=
  match skill_slot asset_id self.(skill_bindings) with
  | inr _ => err "Skill Asset is not bound to the active Workload revision"
  | inl index =>
    revision ← copy_as self id generation created_at;
    Ok (revision <| skill_bindings := delete index revision.(skill_bindings) |>)
  end.

(** The bindings a rollback and a Secret rotation carry over. *)
Definition carry_bindings (self revision : t) : t :=
  revision <| external_build := self.(external_build) |> <| agent_binding := self.(agent_binding) |>
           <| mcp_binding := self.(mcp_binding) |> <| skill_bindings := self.(skill_bindings) |>.

Definition rollback_as (self : t) (id : WorkloadRevisionId) (generation : N) (created_at : Time) : result t :=
  fail_if ((id == self.(WorkloadRevision.id))
           || (generation <=? self.(WorkloadRevision.generation))%N
           || (created_at <? self.(WorkloadRevision.created_at))%Z)
    "rollback revision identity or ordering is invalid" ;;
  template ← resolved_template self;
  revision ← create id self.(workload_id) generation template created_at;
  Ok (carry_bindings self revision).

(** The loop over [template.secrets.iter_mut()], with [advanced]. *)
Fixpoint rotate_secrets (secret_id : SecretId) (version : N) (secrets : list SecretBinding.t) :
    result (list SecretBinding.t * bool) :=
  match secrets with
  | [] => Ok ([], false)
  | binding :: rest =>
    if binding.(SecretBinding.secret_id) == secret_id then
      if (version <? binding.(SecretBinding.version))%N
      then err "Secret rotation cannot regress a workload binding"
      else
        let older := (binding.(SecretBinding.version) <? version)%N in
        '(rotated, advanced) ← rotate_secrets secret_id version rest;
        Ok ((if older then binding <| SecretBinding.version := version |> else binding) :: rotated, older || advanced)
    else
      '(rotated, advanced) ← rotate_secrets secret_id version rest;
      Ok (binding :: rotated, advanced)
  end.

Definition restart_for_secret_rotation (self : t) (id : WorkloadRevisionId) (generation : N) (secret_id : SecretId)
    (version : N) (created_at : Time) : result t :=
  fail_if ((id == self.(WorkloadRevision.id))
           || (generation <=? self.(WorkloadRevision.generation))%N
           || (version =? 0)%N
           || (created_at <? self.(WorkloadRevision.created_at))%Z)
    "Secret rotation revision identity or ordering is invalid" ;;
  template ← resolved_template self;
  '(secrets, advanced) ← rotate_secrets secret_id version template.(ServiceTemplate.secrets);
  fail_if (negb advanced) "workload revision has no older binding for this Secret" ;;
  revision ← create id self.(workload_id) generation (template <| ServiceTemplate.secrets := secrets |>) created_at;
  Ok (carry_bindings self revision).

End revision.
End WorkloadRevision.

(** ** A sample *)
Module RevisionSamples.
Import Toy.

Definition hex64 (c : string) : string := String.concat "" (repeat c 64).
Definition digest_of (c : string) : string := ("sha256:" ++ hex64 c)%string.

Definition artifact : OciArtifact.t :=
  OciArtifact.Mk ("oci://registry.test/team/web@" ++ digest_of "a")%string (digest_of "a")
    "application/vnd.oci.image.manifest.v1+json".

Definition secret (version : N) : SecretBinding.t :=
  SecretBinding.Mk "database" 31 version (SecretBindingTarget.Environment "DATABASE_URL").

Definition template : ResolvedServiceTemplate :=
  {| ServiceTemplate.artifact := artifact;
     ServiceTemplate.process := ServiceProcess.Mk ["/bin/web"%string] [] None {["MODE"%string := "live"%string]};
     ServiceTemplate.secrets := [secret 3];
     ServiceTemplate.resources := ServiceResources.Mk 500 4096 32 None;
     ServiceTemplate.ports := [ServicePort.Mk "http" 8080];
     ServiceTemplate.health := Some (HttpHealthCheck.Mk "http" "/ready" 1000 500 1 3 1000) |}.

Definition requested : RequestedServiceTemplate :=
  ServiceTemplate.with_artifact template (OciArtifactReference.Mk "oci://registry.test/team/web:v1" None).

(** A revision that is not yet resolved. *)
Definition unresolved (id : WorkloadRevisionId) (workload_id : WorkloadId) (generation : N) (created_at : Time) :
    WorkloadRevision.t :=
  {| WorkloadRevision.id := id;
     WorkloadRevision.workload_id := workload_id;
     WorkloadRevision.generation := generation;
     WorkloadRevision.request := requested;
     WorkloadRevision.request_digest :=
       match ServiceTemplate.request_digest requested with Ok d => d | Err _ => "" end;
     WorkloadRevision.template := None;
     WorkloadRevision.template_digest := None;
     WorkloadRevision.created_at := created_at;
     WorkloadRevision.resolved_at := None;
     WorkloadRevision.external_build := None;
     WorkloadRevision.agent_binding := None;
     WorkloadRevision.mcp_binding := None;
     WorkloadRevision.skill_bindings := [] |}.

Lemma unresolved_created :
  WorkloadRevision.request_revision 5 1 1 requested 1000 = Ok (unresolved 5 1 1 1000).
Proof. vm_compute. reflexivity. Qed.
End RevisionSamples.
