(* ===== verification/RevisionLifecycle.v ===== *)
(** * The life of a workload revision

    Every way [workload_revision.rs] makes or changes a revision, as one set of calls.  A reachable
    revision is consistent: its digests are those of its contents, a resolved template realizes the
    request, Agent and MCP bindings exclude each other, Skill bindings are in order.  What was
    resolved or bound never changes; derived revisions differ from their origin exactly as asked. *)

From Stdlib Require Import ZArith NArith Lia String.
From stdpp Require Import gmap strings.
From S2P Require Import Prelude RustStd BTreeMap External Text SharedKernel Repositories Resources NodeArtifacts Workloads ServiceTemplates WorkloadRevisions.

Module RevisionLifecycle.
Import WorkloadRevision.

(** The template binds the request to one artifact of the requested repository. *)
Definition realizes (request : RequestedServiceTemplate) (template : ResolvedServiceTemplate) : Prop :=
  template = ServiceTemplate.with_artifact request template.(ServiceTemplate.artifact)
  /\ (exists repository,
        OciArtifactReference.repository request.(ServiceTemplate.artifact) = Ok repository
        /\ oci_artifact_repository template.(ServiceTemplate.artifact) = Ok repository)
  /\ (forall expected, request.(ServiceTemplate.artifact).(OciArtifactReference.expected_digest) = Some expected ->
        expected = template.(ServiceTemplate.artifact).(OciArtifact.digest)).

Definition skills_sorted (l : list SkillWorkloadRevisionBinding.t) : Prop :=
  StronglySorted (key_lt SkillWorkloadRevisionBinding.asset_id) l.

Section lifecycle.
Context `{External} `{ReleaseContract}.

Definition resolution_ok (r : t) : Prop :=
  match r.(template) with
  | None => r.(template_digest) = None /\ r.(resolved_at) = None /\ r.(external_build) = None
            /\ r.(agent_binding) = None /\ r.(mcp_binding) = None
  | Some template =>
    realizes r.(request) template
    /\ (exists d, r.(template_digest) = Some d /\ ServiceTemplate.digest template = Ok d)
    /\ (exists at', r.(resolved_at) = Some at' /\ (r.(created_at) <= at')%Z)
  end.

Record revision_ok (r : t) : Prop := {
  ok_generation : (0 < r.(generation))%N;
  ok_request : ServiceTemplate.request_digest r.(request) = Ok r.(request_digest);
  ok_resolution : resolution_ok r;
  ok_exclusive : r.(agent_binding) = None \/ r.(mcp_binding) = None;
  ok_skills_agent : r.(skill_bindings) <> [] -> is_some r.(agent_binding) = true;
  ok_skills_sorted : skills_sorted r.(skill_bindings);
  ok_skills_bounded : (len r.(skill_bindings) <= 128)%N;
}.

(** The calls that change a revision in place. *)
Inductive op :=
| RestoreExternalBuild (external_build : ExternalBuildReference.t)
| Resolve (artifact : OciArtifact.t) (at' : Time)
| BindAgent (workload : Workload.t) (admission : AgentReleaseAdmission.t)
| RestoreAgent (binding : AgentWorkloadRevisionBinding.t)
| BindMcp (workload : Workload.t) (admission : McpReleaseAdmission.t)
| RestoreMcp (binding : McpWorkloadRevisionBinding.t)
| RestoreSkill (binding : SkillWorkloadRevisionBinding.t).

Definition unit_of {S A} (m : method S A) : method S unit := m ≫= fun _ => mret tt.

Definition step (o : op) : method t unit :=
  match o with
  | RestoreExternalBuild b => restore_external_build b
  | Resolve artifact at' => resolve artifact at'
  | BindAgent workload admission => unit_of (bind_agent_release workload admission)
  | RestoreAgent binding => restore_agent_binding binding
  | BindMcp workload admission => unit_of (bind_mcp_release workload admission)
  | RestoreMcp binding => restore_mcp_binding binding
  | RestoreSkill binding => restore_skill_binding binding
  end.

(** The calls that make a revision, from nothing or from another one. *)
Inductive reachable : t -> Prop :=
| reach_create id workload_id generation template created_at r :
    create id workload_id generation template created_at = Ok r -> reachable r
| reach_create_external id workload_id generation template external_build created_at r :
    create_from_external_build id workload_id generation template external_build created_at = Ok r -> reachable r
| reach_request id workload_id generation request created_at r :
    request_revision id workload_id generation request created_at = Ok r -> reachable r
| reach_step o r : reachable r -> reachable (run_state (step o) r)
| reach_rollback r id generation created_at r' :
    reachable r -> rollback_as r id generation created_at = Ok r' -> reachable r'
| reach_rotation r id generation secret_id version created_at r' :
    reachable r -> restart_for_secret_rotation r id generation secret_id version created_at = Ok r' -> reachable r'
| reach_skill r id generation created_at workload admission r' :
    reachable r -> with_skill_release_as r id generation created_at workload admission = Ok r' -> reachable r'
| reach_unskill r id generation created_at asset_id r' :
    reachable r -> without_skill_release_as r id generation created_at asset_id = Ok r' -> reachable r'.

(** ** Revisions made from nothing *)
Lemma template_digest_valid template d : ServiceTemplate.digest template = Ok d -> ServiceTemplate.validate template = Ok tt.
Proof. unfold ServiceTemplate.digest. rewrite then_Ok. by intros [? _]. Qed.

Lemma realizes_self template :
  ServiceTemplate.validate template = Ok tt ->
  realizes (ServiceTemplate.with_artifact template (OciArtifactReference.from_artifact template.(ServiceTemplate.artifact)))
           template.
Proof.
  unfold ServiceTemplate.validate. rewrite then_Ok. intros [Ha _]. split_and!.
  - by destruct template.
  - destruct (artifact_validate_Ok _ Ha) as (r & _ & _ & Er). exists r. split; [|done].
    unfold OciArtifactReference.repository, oci_artifact_repository in *. rewrite then_Ok in Er.
    destruct Er as [_ Er]. cbn [ServiceTemplate.artifact ServiceTemplate.with_artifact].
    by rewrite (from_artifact_validates _ Ha).
  - cbn. congruence.
Qed.

Lemma create_Ok id workload_id generation template created_at r :
  create id workload_id generation template created_at = Ok r ->
  revision_ok r /\ r.(WorkloadRevision.template) = Some template
  /\ r.(WorkloadRevision.id) = id /\ r.(WorkloadRevision.workload_id) = workload_id
  /\ r.(WorkloadRevision.generation) = generation
  /\ r.(WorkloadRevision.created_at) = canonical_timestamp created_at
  /\ r.(external_build) = None /\ r.(agent_binding) = None /\ r.(mcp_binding) = None /\ r.(skill_bindings) = [].
Proof.
  unfold create. rewrite then_Ok, fail_if_Ok, result_bind_Ok. intros (Hg & d & Hd & E).
  rewrite result_bind_Ok in E. destruct E as (q & Hq & [= <-]). apply N.eqb_neq in Hg.
  split_and!; try done. split; cbn; try done; try lia; [|by left|constructor].
  split_and!; [by apply realizes_self, (template_digest_valid _ d)|by exists d|].
  eexists; split; [done|lia].
Qed.

Lemma create_total `{!ExternalLaws} id workload_id generation template created_at :
  (0 < generation)%N -> ServiceTemplate.validate template = Ok tt ->
  is_ok (create id workload_id generation template created_at) = true.
Proof.
  intros Hg Hv. unfold create, ServiceTemplate.digest, ServiceTemplate.request_digest, ServiceTemplate.validate_request.
  rewrite body_with_artifact, Hv. destruct (N.eqb_spec generation 0); [lia|].
  unfold ServiceTemplate.validate in Hv. rewrite then_Ok in Hv. destruct Hv as [Ha Hb].
  cbn [ServiceTemplate.artifact ServiceTemplate.with_artifact]. rewrite (from_artifact_validates _ Ha), Hb.
  repeat (cbn [mbind result_bind fail_if];
    match goal with |- context [digest_json ?j ?l] => destruct (digest_json_total j l) as (? & -> & _) end).
  done.
Qed.

(** ** Calls that change a revision *)
Definition extends (r r' : t) : Prop :=
  r'.(id) = r.(id) /\ r'.(workload_id) = r.(workload_id) /\ r'.(generation) = r.(generation)
  /\ r'.(request) = r.(request) /\ r'.(request_digest) = r.(request_digest) /\ r'.(created_at) = r.(created_at)
  /\ (is_some r.(template) = true -> r'.(template) = r.(template) /\ r'.(template_digest) = r.(template_digest)
                                     /\ r'.(resolved_at) = r.(resolved_at))
  /\ (is_some r.(external_build) = true -> r'.(external_build) = r.(external_build))
  /\ (is_some r.(agent_binding) = true -> r'.(agent_binding) = r.(agent_binding))
  /\ (is_some r.(mcp_binding) = true -> r'.(mcp_binding) = r.(mcp_binding))
  /\ r.(skill_bindings) ⊆ r'.(skill_bindings).

Lemma extends_refl r : extends r r.
Proof. by repeat split. Qed.

Lemma vec_insert_subset {A} i (x : A) l : l ⊆ vec_insert i x l.
Proof. intros y Hy. unfold vec_insert. rewrite <- (take_drop i l) in Hy. set_solver. Qed.

(** One goal per path of a call that reaches its end. *)
#[local] Ltac run_op E :=
  cbn [step] in E; unfold unit_of in E;
  unfold restore_external_build, resolve, bind_agent_release, restore_agent_binding, bind_mcp_release,
      restore_mcp_binding, restore_skill_binding in E;
  exec_call E; apply pair_equal_spec in E as [<- _].

Lemma step_extends o r : extends r (run_state (step o) r).
Proof.
  destruct (step o r) as [r' res] eqn:E. unfold run_state; rewrite E; cbn [fst].
  destruct o; run_op E; try apply extends_refl; destruct r; cbn in *; unfold resolved_template in *; cbn in *;
    subst; repeat split; cbn; try done; try (intros; congruence).
  - rewrite !orb_false_iff in *. destruct agent_binding0; naive_solver.
  - rewrite !orb_false_iff in *. destruct mcp_binding0; naive_solver.
  - apply vec_insert_subset.
Qed.

Lemma skill_slot_insert asset_id binding l i :
  skills_sorted l -> SkillWorkloadRevisionBinding.asset_id binding = asset_id -> skill_slot asset_id l = inr i ->
  skills_sorted (vec_insert i binding l).
Proof.
  intros Hs Hb E. apply binary_search_slot_inr in E as [Hlo Hhi]; [|by apply sorted_search_mono].
  unfold skills_sorted, vec_insert in *. rewrite <- (take_drop i l) in Hs.
  apply StronglySorted_app in Hs as (Hcross & Hs1 & Hs2).
  assert (forall x, x ∈ take i l -> key_lt SkillWorkloadRevisionBinding.asset_id x binding) as Hx.
  { intros x Hx. rewrite Forall_forall in Hlo. specialize (Hlo x Hx). unfold key_lt, ltb, cmp, N_ord. by rewrite Hb, Hlo. }
  assert (Forall (key_lt SkillWorkloadRevisionBinding.asset_id binding) (drop i l)) as Hy.
  { eapply Forall_impl; [exact Hhi|]. intros y Hy. unfold key_lt, ltb, cmp, N_ord.
    by rewrite Hb, N.compare_antisym, Hy. }
  apply StronglySorted_app. split_and!; [|done|by constructor].
  intros x y Hxi [->|Hyi]%elem_of_cons; [by apply Hx|by apply Hcross].
Qed.

Lemma len_vec_insert {A} i (x : A) l : len (vec_insert i x l) = (len l + 1)%N.
Proof.
  unfold vec_insert, len. rewrite length_app; cbn [length]. rewrite <- (take_drop i l) at 3.
  rewrite length_app. lia.
Qed.

Lemma resolved_template_Some r template : resolved_template r = Ok template <-> r.(WorkloadRevision.template) = Some template.
Proof. unfold resolved_template. apply ok_or_Ok. Qed.

Lemma revision_step_ok o r : revision_ok r -> revision_ok (run_state (step o) r).
Proof.
  intros Hr. destruct (step o r) as [r' res] eqn:E. unfold run_state; rewrite E; cbn [fst].
  destruct o; run_op E; try done; destruct Hr as [Hg Hq Hres Hx Hsa Hss Hsb]; unfold resolution_ok in *;
    repeat match goal with H : resolved_template _ = Ok _ |- _ => apply resolved_template_Some in H; rewrite H in * end;
    rewrite ?orb_false_iff in *; destruct r; cbn in *; subst; split; cbn; try done; auto.
  - split_and!; [|by eexists|eexists; split; [done|lia]].
    apply resolve_Ok in E1 as (-> & Hv & _ & (repository & Hrep & Eu) & He). split_and!; [done| |done].
    exists repository. split; [done|]. unfold ServiceTemplate.validate in Hv. rewrite then_Ok in Hv.
    destruct (artifact_validate_Ok _ (proj1 Hv)) as (repository' & Eu' & _ & ->). cbn in Eu'. rewrite Eu in Eu'.
    f_equal. apply (f_equal bytes_of) in Eu'. rewrite !bytes_of_app in Eu'. apply app_inv_head, app_inv_tail in Eu'.
    symmetry. by apply bytes_of_inj.
  - right. destruct mcp_binding0; naive_solver.
  - right. destruct mcp_binding0; naive_solver.
  - left. destruct agent_binding0; naive_solver.
  - left. destruct agent_binding0; naive_solver.
  - destruct agent_binding0; naive_solver.
  - by eapply skill_slot_insert.
  - rewrite len_vec_insert. destruct E1 as [_ ?%N.leb_gt]. lia.
Qed.

(** ** Revisions made from another one *)
Lemma carry_ok r r' template :
  revision_ok r -> revision_ok r' -> r'.(WorkloadRevision.template) = Some template -> revision_ok (carry_bindings r r').
Proof.
  intros [Hg Hq Hres Hx Hsa Hss Hsb] [Hg' Hq' Hres' _ _ _ _] Et. destruct r'; unfold resolution_ok in *; cbn in *.
  subst. by split.
Qed.

Lemma validate_skill_order_sorted organization previous l :
  validate_skill_order organization previous l = Ok tt ->
  skills_sorted l /\ (forall p, previous = Some p -> Forall (fun b => p < b.(SkillWorkloadRevisionBinding.asset_id))%N l).
Proof.
  revert previous. induction l as [|b l IH]; intros previous; cbn [validate_skill_order].
  { split; [constructor|]. intros; constructor. }
  rewrite !then_Ok, fail_if_Ok, orb_false_iff. intros (_ & [_ Hp] & [Hs Hf]%IH). specialize (Hf _ eq_refl). split.
  - constructor; [done|]. eapply Forall_impl; [exact Hf|]. intros y Hy. unfold key_lt, ltb, cmp, N_ord.
    by rewrite (proj2 (N.compare_lt_iff _ _) Hy).
  - intros p ->. cbn in Hp. apply N.leb_gt in Hp. constructor; [done|]. eapply Forall_impl; [exact Hf|]. cbn. lia.
Qed.

Lemma sorted_without {A} (R : A -> A -> Prop) l i : StronglySorted R l -> StronglySorted R (delete i l).
Proof.
  intros Hs. revert i. induction Hs as [|x l Hs IH Hx]; intros [|i]; simpl; [constructor..|done|].
  constructor; [by apply IH|]. by apply Forall_delete.
Qed.

Lemma copy_as_Ok r id generation created_at r' :
  revision_ok r -> copy_as r id generation created_at = Ok r' ->
  revision_ok r' /\ r'.(skill_bindings) = r.(skill_bindings) /\ r'.(agent_binding) = r.(agent_binding)
  /\ is_some r.(agent_binding) = true /\ r'.(mcp_binding) = None /\ r'.(external_build) = None
  /\ is_some r.(template) = true /\ r'.(template) = r.(template).
Proof.
  intros Hr. unfold copy_as. rewrite then_Ok, fail_if_Ok, !orb_false_iff, result_bind_Ok.
  intros ((((_ & Ha) & _) & _) & template & Ht%resolved_template_Some & E). rewrite result_bind_Ok in E.
  destruct E as (n & (Hn & Et & _ & _ & _ & _ & Ee & _ & Em & _)%create_Ok & [= <-]).
  destruct Hn as [Hg Hq Hres _ _ _ _], Hr as [_ _ _ _ Hsa Hss Hsb]. destruct n; cbn in *; subst. rewrite Ht.
  split_and!; try done; [|by destruct (agent_binding r)]. split; cbn; try done. by right.
Qed.

Lemma with_skills_ok r l :
  revision_ok r -> is_some r.(agent_binding) = true -> skills_sorted l -> (len l <= 128)%N ->
  revision_ok (r <| skill_bindings := l |>).
Proof. intros [Hg Hq Hres Hx _ _ _] Ha Hs Hl. by split. Qed.

Lemma skill_bindings_validated r workload :
  validate_skill_bindings_for_workload r workload = Ok tt ->
  skills_sorted r.(skill_bindings) /\ (len r.(skill_bindings) <= 128)%N.
Proof.
  unfold validate_skill_bindings_for_workload. destruct (skill_bindings r) as [|b l]; cbn [is_empty].
  { split; [constructor|done]. }
  rewrite !then_Ok, fail_if_Ok, !orb_false_iff. intros ((_ & Hl%N.ltb_ge) & [Hs _]%validate_skill_order_sorted & _).
  done.
Qed.

Lemma revision_reachable_ok r : reachable r -> revision_ok r.
Proof.
  induction 1 as [????? r E|?????? r E|????? r E|o r _ IH|r ???? _ IH E|r ?????? _ IH E|r ?????? _ IH E|r ????? _ IH E].
  - by apply create_Ok in E as [? _].
  - unfold create_from_external_build in E. rewrite then_Ok, result_bind_Ok in E.
    destruct E as (_ & n & (Hn & Et & _)%create_Ok & [= <-]). destruct Hn. destruct n; unfold resolution_ok in *; cbn in *.
    subst. by split.
  - unfold request_revision in E. rewrite then_Ok, fail_if_Ok, result_bind_Ok in E.
    destruct E as (Hg%N.eqb_neq & d & Hd & [= <-]). split; cbn; try done; try lia; [by left|constructor].
  - by apply revision_step_ok.
  - unfold rollback_as in E. rewrite then_Ok, result_bind_Ok in E. destruct E as (_ & template & _ & E).
    rewrite result_bind_Ok in E. destruct E as (n & (Hn & Et & _)%create_Ok & [= <-]). by eapply carry_ok.
  - unfold restart_for_secret_rotation in E. rewrite then_Ok, result_bind_Ok in E. destruct E as (_ & template & _ & E).
    rewrite result_bind_Ok in E. destruct E as ([secrets advanced] & _ & E). rewrite then_Ok, result_bind_Ok in E.
    destruct E as (_ & n & (Hn & Et & _)%create_Ok & [= <-]). by eapply carry_ok.
  - unfold with_skill_release_as in E. rewrite !then_Ok, result_bind_Ok in E. destruct E as (_ & _ & _ & b & _ & E).
    rewrite then_Ok, result_bind_Ok in E. destruct E as (_ & n & (Hn & _ & Ea & Hs & _)%copy_as_Ok & E); [|done].
    rewrite then_Ok in E. destruct E as [[Hso Hlen]%skill_bindings_validated [= <-]].
    apply with_skills_ok; [done|by rewrite Ea|done..].
  - unfold without_skill_release_as, err in E. destruct (skill_slot _ _) as [i|i]; [|done]. rewrite result_bind_Ok in E.
    destruct E as (n & (Hn & _ & Ea & Hs & _)%copy_as_Ok & [= <-]); [|done].
    apply with_skills_ok; [done|by rewrite Ea|apply sorted_without, Hn|].
    destruct Hn as [_ _ _ _ _ _ Hb]. unfold len in *. pose proof (sublist_length _ _ (sublist_delete (skill_bindings n) i)). lia.
Qed.

(** ** What each derivation changes *)
Definition rotated (secret_id : SecretId) (version : N) (b : SecretBinding.t) : SecretBinding.t :=
  if b.(SecretBinding.secret_id) == secret_id then b <| SecretBinding.version := version |> else b.
Definition uses_secret (secret_id : SecretId) (b : SecretBinding.t) : bool := b.(SecretBinding.secret_id) == secret_id.

Lemma rotate_secrets_Ok secret_id version l l' advanced :
  rotate_secrets secret_id version l = Ok (l', advanced) <->
  Forall (fun b => uses_secret secret_id b = true -> b.(SecretBinding.version) <= version)%N l
  /\ l' = map (rotated secret_id version) l
  /\ advanced = any (fun b => uses_secret secret_id b && (b.(SecretBinding.version) <? version)%N) l.
Proof.
  revert l' advanced. induction l as [|b l IH]; intros l' advanced; cbn [rotate_secrets map any existsb].
  { split; [intros [= <- <-]; auto|intros (_ & -> & ->); done]. }
  rewrite Forall_cons. unfold uses_secret, rotated in *.
  destruct (bool_decide (SecretBinding.secret_id b = secret_id)); cbn [andb orb].
  - unfold err. destruct (N.ltb_spec version (SecretBinding.version b)) as [Hlt|Hge].
    { split; [done|]. intros ([Hb _] & _). specialize (Hb eq_refl). lia. }
    rewrite result_bind_Ok. split.
    + intros ([k adv] & (Hf & -> & ->)%IH & [= <- <-]). split_and!; [done|done| |done]. f_equal.
      destruct (N.ltb_spec (SecretBinding.version b) version); [done|]. assert (SecretBinding.version b = version) as <- by lia.
      by destruct b.
    + intros ([_ Hf] & -> & ->). eexists (_, _). split; [apply IH; by split_and!|]. cbn. do 3 f_equal.
      destruct (N.ltb_spec (SecretBinding.version b) version); [done|]. assert (SecretBinding.version b = version) as <- by lia.
      by destruct b.
  - rewrite result_bind_Ok. split.
    + intros ([k adv] & (Hf & -> & ->)%IH & [= <- <-]). done.
    + intros ([_ Hf] & -> & ->). eexists (_, _). split; [apply IH; by split_and!|]. done.
Qed.

Lemma skill_binding_iff r asset_id b :
  skills_sorted r.(skill_bindings) ->
  skill_binding r asset_id = Some b <-> b ∈ r.(skill_bindings) /\ b.(SkillWorkloadRevisionBinding.asset_id) = asset_id.
Proof.
  intros Hs. unfold skill_binding, skill_slot. set (f := fun b => _).
  pose proof (sorted_search_mono SkillWorkloadRevisionBinding.asset_id _ asset_id Hs) as Hm. split.
  - destruct (binary_search_slot f _) as [i|] eqn:E; [|done]. intros Hb.
    apply binary_search_slot_inl in E as (x & Hx & E). rewrite Hb in Hx. injection Hx as <-.
    split; [by eapply list_elem_of_lookup_2|by apply N.compare_eq].
  - intros [Hin Ha]. destruct (binary_search_slot f _) as [i|i] eqn:E.
    + apply binary_search_slot_inl in E as (x & Hx & E). rewrite Hx. f_equal. apply N.compare_eq in E.
      pose proof (key_lt_NoDup _ _ Hs) as Hnd. apply list_elem_of_lookup in Hin as [j Hj].
      apply (f_equal (fmap SkillWorkloadRevisionBinding.asset_id)) in Hj as Hj', Hx as Hx'. rewrite <- list_lookup_fmap in *.
      cbn in Hj', Hx'. rewrite <- E in Ha. assert (i = j) as -> by (eapply NoDup_lookup; [exact Hnd|exact Hx'|rewrite <- Ha; exact Hj']). congruence.
    + exfalso. apply binary_search_slot_inr in E as [Hlo Hhi]; [|done]. rewrite <- (take_drop i (skill_bindings r)) in Hin.
      rewrite Forall_forall in Hlo, Hhi. unfold f in *. apply elem_of_app in Hin as [Hin|Hin].
      * specialize (Hlo b Hin). rewrite Ha, N.compare_refl in Hlo. done.
      * specialize (Hhi b Hin). rewrite Ha, N.compare_refl in Hhi. done.
Qed.

Lemma rotated_validates secret_id version b :
  version <> 0%N -> SecretBinding.validate b = Ok tt -> SecretBinding.validate (rotated secret_id version b) = Ok tt.
Proof.
  intros Hv. unfold rotated. case_bool_decide; [|done]. unfold SecretBinding.validate; cbn [SecretBinding.name
    SecretBinding.secret_id SecretBinding.version SecretBinding.target]. destruct b as [n s v t]; cbn.
  rewrite !then_Ok, !fail_if_Ok, !orb_false_iff. intros (((? & ?) & _) & ?). split_and!; try done. by apply N.eqb_neq.
Qed.

Lemma rotated_field {A} (f : SecretBinding.t -> A) secret_id version b :
  (forall w, f (b <| SecretBinding.version := w |>) = f b) -> f (rotated secret_id version b) = f b.
Proof. intros Hb. unfold rotated. destruct (_ == _); [apply Hb|done]. Qed.

Lemma map_rotated {A} (f : SecretBinding.t -> A) secret_id version l :
  (forall b, f (rotated secret_id version b) = f b) -> map f (map (rotated secret_id version) l) = map f l.
Proof. intros Hf. rewrite map_map. apply map_ext, Hf. Qed.

Lemma rotated_template_validates secret_id version template :
  version <> 0%N -> ServiceTemplate.validate template = Ok tt ->
  ServiceTemplate.validate (template <| ServiceTemplate.secrets :=
    map (rotated secret_id version) template.(ServiceTemplate.secrets) |>) = Ok tt.
Proof.
  intros Hv. unfold ServiceTemplate.validate, ServiceTemplate.validate_template_body.
  destruct template as [artifact process secrets resources ports health]; cbn -[ServiceTemplate.validate_secrets].
  rewrite !then_Ok, !fail_if_Ok, !validate_secrets_Ok.
  intros (? & ? & ? & ? & Hl & (Hf & Hn & Ht & _ & He) & ? & ? & ? & ?).
  split_and!; try done.
  - unfold len in *. by rewrite length_map.
  - apply Forall_map. eapply Forall_impl; [exact Hf|]. intros b. by apply rotated_validates.
  - by rewrite map_rotated by (intros b; by apply rotated_field).
  - by rewrite map_rotated by (intros b; by apply rotated_field).
  - set_solver.
  - intros b variable Hb Hx. apply list_elem_of_In, in_map_iff in Hb as (b' & <- & Hb').
    apply (He b'); [by apply list_elem_of_In|]. unfold binds_variable in *.
    by rewrite (rotated_field SecretBinding.target) in Hx.
Qed.

Definition rotation_allowed (r : t) (new_id : WorkloadRevisionId) (next : N) (secret_id : SecretId) (version : N) (at' : Time) :
    Prop :=
  new_id <> r.(id) /\ (r.(generation) < next)%N /\ version <> 0%N /\ (r.(created_at) <= at')%Z
  /\ exists template, r.(WorkloadRevision.template) = Some template
     /\ (forall b, b ∈ template.(ServiceTemplate.secrets) -> uses_secret secret_id b = true ->
           b.(SecretBinding.version) <= version)%N
     /\ (exists b, b ∈ template.(ServiceTemplate.secrets) /\ uses_secret secret_id b = true
           /\ b.(SecretBinding.version) < version)%N.

Definition same_bindings (r r' : t) : Prop :=
  r'.(external_build) = r.(external_build) /\ r'.(agent_binding) = r.(agent_binding)
  /\ r'.(mcp_binding) = r.(mcp_binding) /\ r'.(skill_bindings) = r.(skill_bindings).

Lemma any_true {A} (f : A -> bool) l : any f l = true <-> exists x, x ∈ l /\ f x = true.
Proof. unfold any. rewrite existsb_exists. by setoid_rewrite list_elem_of_In. Qed.

Lemma restart_Ok r new_id next secret_id version at' r' :
  restart_for_secret_rotation r new_id next secret_id version at' = Ok r' ->
  rotation_allowed r new_id next secret_id version at'
  /\ (exists template, r.(WorkloadRevision.template) = Some template
      /\ r'.(WorkloadRevision.template) = Some (template <| ServiceTemplate.secrets :=
           map (rotated secret_id version) template.(ServiceTemplate.secrets) |>))
  /\ r'.(id) = new_id /\ r'.(generation) = next /\ r'.(workload_id) = r.(workload_id) /\ same_bindings r r'.
Proof.
  unfold restart_for_secret_rotation. rewrite then_Ok, fail_if_Ok, !orb_false_iff, result_bind_Ok.
  intros ((((Hid%bool_decide_eq_false & Hg%N.leb_gt) & Hv%N.eqb_neq) & Hat%Z.ltb_ge) & t & Ht%resolved_template_Some & E).
  rewrite result_bind_Ok in E. destruct E as ([l adv] & (Hf & -> & ->)%rotate_secrets_Ok & E).
  rewrite then_Ok, fail_if_Ok, negb_false_iff, any_true, result_bind_Ok in E.
  destruct E as ((b & Hb & Ho) & n & (_ & Et & Ei & Ew & Eg & _)%create_Ok & [= <-]).
  rewrite Forall_forall in Hf. rewrite andb_true_iff, N.ltb_lt in Ho. split_and!; try done.
  - split_and!; try done. exists t. split_and!; eauto.
  - exists t. split; [done|]. by destruct n.
Qed.

Lemma restart_total `{!ExternalLaws} r new_id next secret_id version at' :
  revision_ok r -> rotation_allowed r new_id next secret_id version at' ->
  is_ok (restart_for_secret_rotation r new_id next secret_id version at') = true.
Proof.
  intros Hr (Hid & Hg & Hv & Hat & t & Ht & Hle & b & Hb & Hu & Hlt). unfold restart_for_secret_rotation.
  rewrite bool_decide_eq_false_2 by done. rewrite (proj2 (N.leb_gt _ _) Hg), (proj2 (N.eqb_neq _ _) Hv), (proj2 (Z.ltb_ge _ _) Hat).
  rewrite (proj2 (resolved_template_Some r t) Ht). cbn [orb fail_if mbind result_bind].
  rewrite (proj2 (rotate_secrets_Ok secret_id version (ServiceTemplate.secrets t)
    (map (rotated secret_id version) (ServiceTemplate.secrets t)) true)).
  2: { split_and!; [by apply Forall_forall|done|]. symmetry. apply any_true. exists b.
       by rewrite Hu, (proj2 (N.ltb_lt _ _) Hlt). }
  cbn [mbind result_bind negb fail_if].
  pose proof (ok_resolution r Hr) as Hres. unfold resolution_ok in Hres. rewrite Ht in Hres.
  destruct Hres as (_ & (d & _ & Hd%template_digest_valid) & _).
  pose proof (create_total new_id (workload_id r) next
    (t <| ServiceTemplate.secrets := map (rotated secret_id version) (ServiceTemplate.secrets t) |>) at') as Hc.
  destruct (create _ _ _ _ _); [done|]. apply Hc; [lia|by apply rotated_template_validates].
Qed.

Lemma elem_of_replaced asset_id (b x : SkillWorkloadRevisionBinding.t) l :
  skills_sorted l -> b.(SkillWorkloadRevisionBinding.asset_id) = asset_id ->
  x ∈ match skill_slot asset_id l with inl i => <[i := b]> l | inr i => vec_insert i b l end <->
  x = b \/ x ∈ l /\ x.(SkillWorkloadRevisionBinding.asset_id) <> asset_id.
Proof.
  intros Hs Hb. unfold skill_slot. set (f := fun _ => _). destruct (binary_search_slot f l) as [i|i] eqn:E.
  - apply binary_search_slot_inl in E as (y & Hy & Ey%N.compare_eq). pose proof (lookup_lt_Some _ _ _ Hy) as Hi.
    pose proof (key_lt_NoDup _ _ Hs) as Hnd. rewrite list_elem_of_lookup. split.
    + intros [j [(<- & -> & _)|[Hne Hj]]%list_lookup_insert_Some]; [by left|]. right.
      split; [by eapply list_elem_of_lookup_2|]. intros Ex. apply Hne. eapply NoDup_lookup; [exact Hnd|..];
        rewrite list_lookup_fmap; [rewrite Hy|rewrite Hj]; cbn; [done|]. congruence.
    + intros [->|[[j Hj]%list_elem_of_lookup Hx]]; [exists i; by rewrite list_lookup_insert_eq|].
      exists j. rewrite list_lookup_insert_ne; [done|]. intros ->. congruence.
  - apply binary_search_slot_inr in E as [Hlo Hhi]; [|by apply sorted_search_mono]. unfold vec_insert.
    rewrite <- (take_drop i l) at 3. rewrite !elem_of_app, elem_of_cons. rewrite Forall_forall in Hlo, Hhi.
    assert (forall y, y ∈ take i l \/ y ∈ drop i l -> SkillWorkloadRevisionBinding.asset_id y <> asset_id) as Hne; [|naive_solver].
    intros y [Hy|Hy]; [specialize (Hlo y Hy)|specialize (Hhi y Hy)]; unfold f in *; intros Ey;
      rewrite Ey, N.compare_refl in *; done.
Qed.

Lemma with_skill_Ok r new_id next at' workload admission r' :
  revision_ok r -> with_skill_release_as r new_id next at' workload admission = Ok r' ->
  exists binding,
    SkillWorkloadRevisionBinding.from_admission workload admission = Ok binding
    /\ skills_sorted r'.(skill_bindings)
    /\ (forall x, x ∈ r'.(skill_bindings) <->
          x = binding \/ x ∈ r.(skill_bindings)
            /\ x.(SkillWorkloadRevisionBinding.asset_id) <> admission.(SkillReleaseAdmission.asset_id)).
Proof.
  intros Hr E. unfold with_skill_release_as in E. rewrite !then_Ok, result_bind_Ok in E.
  destruct E as (_ & _ & _ & b & Hb & E). exists b. split; [done|].
  rewrite then_Ok, result_bind_Ok in E. destruct E as (_ & n & (Hn & Es & _)%copy_as_Ok & E); [|done].
  rewrite then_Ok in E. destruct E as [[Hso _]%skill_bindings_validated [= <-]]. split; [done|]. intros x.
  unfold SkillWorkloadRevisionBinding.from_admission, SkillWorkloadRevisionBinding.restore in Hb.
  rewrite !then_Ok in Hb. destruct Hb as (_ & _ & _ & [= <-]). rewrite <- Es. destruct n; cbn in *.
  apply elem_of_replaced; [by destruct Hn|done].
Qed.

(** The binding of an asset, before and after. *)
Lemma skill_binding_ext r r' asset_id :
  skills_sorted r.(skill_bindings) -> skills_sorted r'.(skill_bindings) ->
  (forall x, x.(SkillWorkloadRevisionBinding.asset_id) = asset_id -> x ∈ r'.(skill_bindings) <-> x ∈ r.(skill_bindings)) ->
  skill_binding r' asset_id = skill_binding r asset_id.
Proof.
  intros Hs Hs' Hx. apply option_eq. intros b. rewrite !skill_binding_iff by done. split; intros [Hin Ea]; (split; [|done]);
    by apply (Hx b Ea).
Qed.

Lemma extends_trans r1 r2 r3 : extends r1 r2 -> extends r2 r3 -> extends r1 r3.
Proof.
  intros (?&?&?&?&?&?&Ht&He&Ha&Hm&Hs) (?&?&?&?&?&?&Ht'&He'&Ha'&Hm'&Hs').
  split_and!; [congruence..| | | | |by etrans]; intros Hx.
  - destruct (Ht Hx) as (E1 & E2 & E3). rewrite <- E1 in Hx. destruct (Ht' Hx) as (-> & -> & ->). done.
  - pose proof (He Hx) as E. rewrite <- E in Hx. by rewrite (He' Hx).
  - pose proof (Ha Hx) as E. rewrite <- E in Hx. by rewrite (Ha' Hx).
  - pose proof (Hm Hx) as E. rewrite <- E in Hx. by rewrite (Hm' Hx).
Qed.

Definition run_all (os : list op) (r : t) : t := fold_left (fun r o => run_state (step o) r) os r.

(** C40: Every revision the code can make is consistent: its request digest is the digest of its
    request; a resolved revision has the digest of its template, which is valid, repeats the request
    and binds an artifact of the requested repository with the expected digest; no revision has both
    an Agent and an MCP binding; Skill bindings need an Agent binding, are strictly ordered by asset
    and are at most 128. *)
Theorem revision_consistent r : reachable r -> revision_ok r.
Proof. apply revision_reachable_ok. Qed.

(** Whatever calls follow, in any order and failing or not, a revision keeps its identity, its
    request and its digest; once resolved it keeps its template, digest and time of resolution; once
    bound to a build, an Agent or an MCP release it keeps the binding; no Skill binding is dropped. *)
Theorem revision_write_once r os : extends r (run_all os r).
Proof.
  revert r. induction os as [|o os IH]; intros r; [apply extends_refl|].
  eapply extends_trans; [apply step_extends|apply IH].
Qed.

(** C38: A restart for a rotated Secret succeeds exactly when the new identity and time do not
    regress and the template has an older binding of the Secret and none that is newer; the new
    revision then has the same template with every binding of that Secret, and no other, at the new
    version, and the same build, Agent, MCP and Skill bindings. *)
Theorem secret_rotation_exact `{!ExternalLaws} r new_id next secret_id version at' :
  reachable r ->
  (is_ok (restart_for_secret_rotation r new_id next secret_id version at') = true
   <-> rotation_allowed r new_id next secret_id version at')
  /\ forall r', restart_for_secret_rotation r new_id next secret_id version at' = Ok r' ->
     (exists template, r.(WorkloadRevision.template) = Some template
      /\ r'.(WorkloadRevision.template) = Some (template <| ServiceTemplate.secrets :=
           map (rotated secret_id version) template.(ServiceTemplate.secrets) |>))
     /\ r'.(id) = new_id /\ r'.(generation) = next /\ r'.(workload_id) = r.(workload_id) /\ same_bindings r r'.
Proof.
  intros Hr%revision_reachable_ok. split; [split|].
  - destruct (restart_for_secret_rotation _ _ _ _ _ _) as [r'|] eqn:E; [|done]. intros _. by apply restart_Ok in E as [? _].
  - by apply restart_total.
  - intros r' E. by apply restart_Ok in E as [_ ?].
Qed.

(** Binding a Skill release makes a revision in which the release's asset has exactly the new
    binding and every other asset has the one it had. *)
Theorem skill_release_exact r new_id next at' workload admission r' :
  reachable r -> with_skill_release_as r new_id next at' workload admission = Ok r' ->
  is_ok (SkillWorkloadRevisionBinding.from_admission workload admission) = true
  /\ (forall binding, SkillWorkloadRevisionBinding.from_admission workload admission = Ok binding ->
        skill_binding r' admission.(SkillReleaseAdmission.asset_id) = Some binding)
  /\ (forall asset_id, asset_id <> admission.(SkillReleaseAdmission.asset_id) ->
        skill_binding r' asset_id = skill_binding r asset_id).
Proof.
  intros Hr%revision_reachable_ok E. apply with_skill_Ok in E as (b & Eb & Hs & Hx); [|done].
  assert (b.(SkillWorkloadRevisionBinding.asset_id) = admission.(SkillReleaseAdmission.asset_id)) as Ha.
  { unfold SkillWorkloadRevisionBinding.from_admission, SkillWorkloadRevisionBinding.restore in Eb.
    rewrite !then_Ok in Eb. by destruct Eb as (_ & _ & _ & [= <-]). }
  rewrite Eb. split_and!; [done| |].
  - intros _ [= <-]. apply skill_binding_iff; [done|]. split; [apply Hx; by left|done].
  - intros a Hne. apply skill_binding_ext; [by destruct Hr|done|]. intros x Ea. rewrite Hx. naive_solver.
Qed.
End lifecycle.
End RevisionLifecycle.

(** ** Evaluations *)
Module RevisionHistory.
Import Toy WorkloadRevision RevisionLifecycle RevisionSamples.

(** A manifest that is its own text. *)
#[local] Instance toy_release : ReleaseContract := {|
  AgentReleaseManifest := string;
  manifest_parse acl := Ok acl;
  manifest_verify_compatibility _ := Ok tt;
  manifest_canonical_acl acl := acl;
  manifest_identity acl := sha256_digest (bytes_of acl);
  manifest_entrypoint_command _ := "/bin/agent"%string;
  manifest_entrypoint_args _ := ["serve"%string];
  manifest_artifact_digest _ := OciArtifact.digest artifact;
  manifest_artifact_media_type _ := OciArtifact.media_type artifact;
  manifest_health_transport _ := "http"%string;
  manifest_health_port _ := 9000%N;
  manifest_health_readiness_path _ := "/ready"%string;
  manifest_provenance _ :=
    [ReleaseProvenance.Mk "source" (digest_of "b") ("urn:a3s:cloud:source-content:" ++ hex64 "b")%string;
     ReleaseProvenance.Mk "builder" (digest_of "c") ("urn:a3s:cloud:build-evidence:" ++ uuid_display 41)%string];
  manifest_external_persistent_data _ := false;
  manifest_required_secrets _ := [SecretRequirement.Mk "database" EnvironmentTarget "DATABASE_URL"];
  tar_archive path bytes := Ok (bytes_of path ++ bytes);
  AclDocument := string;
  parse_acl acl := Ok acl;
  acl_canonical_digest acl := Ok (sha256_digest (bytes_of acl));
  acl_blocks _ := [];
|}.

Definition workload : Workload.t := Workload.create 1 2 3 4 (ResourceName.Mk "Web" "web") 1000.

Definition or_else {A} (r : result A) (d : A) : A := match r with Ok a => a | Err _ => d end.

Definition acl : string := "agent".
Definition archive : list N := bytes_of "asset.acl" ++ bytes_of acl.
Definition runtime_contract : AgentReleaseRuntimeContract.t :=
  AgentReleaseRuntimeContract.Mk (Sha256Digest.Digest (sha256_digest (bytes_of acl))) acl
    (or_else (artifact_uri (sha256_digest archive)) "") (Sha256Digest.Digest (sha256_digest archive)) (len archive).

Definition agent_admission : AgentReleaseAdmission.t :=
  AgentReleaseAdmission.Mk 2 51 52 41 1000 artifact runtime_contract.

Definition agent_template : ResolvedServiceTemplate :=
  or_else (AgentReleaseAdmission.resolve_template agent_admission [secret 3] (ServiceResources.Mk 500 4096 32 (Some 1024%N)))
    template.

Definition skill_admission (asset_id : AssetId) : SkillReleaseAdmission.t :=
  SkillReleaseAdmission.Mk 2 asset_id 72 1000 (Sha256Digest.Digest (digest_of "d")) 17.

Definition plain : t := or_else (create 5 1 1 template 1000) (unresolved 0 0 0 0).
Definition agent : t := run_state (step (BindAgent workload agent_admission)) (or_else (create 6 1 2 agent_template 2000) plain).
Definition skilled : t := or_else (with_skill_release_as agent 7 3 3000 workload (skill_admission 71)) agent.
Definition skilled_twice : t := or_else (with_skill_release_as skilled 8 4 4000 workload (skill_admission 61)) skilled.

Lemma or_else_Ok {A} (r : result A) d : is_ok r = true -> r = Ok (or_else r d).
Proof. by destruct r. Qed.

Lemma plain_created : create 5 1 1 template 1000 = Ok plain.
Proof. apply or_else_Ok. vm_compute. reflexivity. Qed.
Lemma agent_created : reachable agent.
Proof.
  apply reach_step. eapply reach_create, or_else_Ok. vm_compute. reflexivity.
Qed.
Lemma skilled_created : reachable skilled.
Proof. eapply reach_skill; [apply agent_created|]. apply or_else_Ok. vm_compute. reflexivity. Qed.
Lemma skilled_twice_Ok : with_skill_release_as skilled 8 4 4000 workload (skill_admission 61) = Ok skilled_twice.
Proof. apply or_else_Ok. vm_compute. reflexivity. Qed.

Lemma revision_consistent_witness :
  len skilled_twice.(skill_bindings) = 2%N /\ revision_ok skilled_twice.
Proof.
  split; [vm_compute; reflexivity|]. apply revision_consistent.
  eapply reach_skill; [apply skilled_created|apply skilled_twice_Ok].
Defined.

Lemma secret_rotation_exact_witness :
  is_ok (restart_for_secret_rotation plain 9 2 31 4 5000) = true
  /\ is_ok (restart_for_secret_rotation plain 9 2 31 3 5000) = false.
Proof.
  split; [|vm_compute; reflexivity].
  apply (proj2 (proj1 (secret_rotation_exact plain 9 2 31 4 5000 (reach_create _ _ _ _ _ _ plain_created)))).
  split_and!; try (vm_compute; congruence).
  exists template. split_and!; [vm_compute; reflexivity| |].
  - intros b [->|Hb]%elem_of_cons _; [vm_compute; congruence|by apply not_elem_of_nil in Hb].
  - exists (secret 3). split_and!; [by left|vm_compute; reflexivity|vm_compute; reflexivity].
Defined.

Lemma skill_release_exact_witness :
  skill_binding skilled_twice 71 = skill_binding skilled 71
  /\ SkillWorkloadRevisionBinding.asset_id <$> skill_binding skilled 71 = Some 71%N.
Proof.
  split; [|vm_compute; reflexivity].
  apply (proj2 (proj2 (skill_release_exact skilled 8 4 4000 workload (skill_admission 61) skilled_twice
                         skilled_created skilled_twice_Ok))). vm_compute. congruence.
Defined.
End RevisionHistory.
