(* ===== verification/Deployments.v ===== *)
(** * Deployments

    [workloads/domain/entities/deployment.rs]: the durable lifecycle of one deployment of a
    workload revision, from the queue to activation, failure or cancellation.  Each [&mut self]
    method is a [method]; [Step] is the union of them, and the theorems are about every
    sequence of steps from [create]. *)

From Stdlib Require Import ZArith NArith Lia String.
From S2P Require Import Prelude RustStd SharedKernel.

Module DeploymentStatus.

Inductive t :=
| Queued
| Resolving
| Scheduled
| Applying
| Verifying
| Retiring
| Cancelling
| CleanupPending
| Active
| Failed
| Orphaned
| Cancelled.

#[global] Instance t_eq_dec : EqDecision t.
Proof. solve_decision. Defined.

Definition as_str (self : t) : string :=
  match self with
  | Queued => "queued"
  | Resolving => "resolving"
  | Scheduled => "scheduled"
  | Applying => "applying"
  | Verifying => "verifying"
  | Retiring => "retiring"
  | Cancelling => "cancelling"
  | CleanupPending => "cleanup_pending"
  | Active => "active"
  | Failed => "failed"
  | Orphaned => "orphaned"
  | Cancelled => "cancelled"
  end.

Definition parse (value : string) : result t :=
  if value == "queued" then Ok Queued
  else if value == "resolving" then Ok Resolving
  else if value == "scheduled" then Ok Scheduled
  else if value == "applying" then Ok Applying
  else if value == "verifying" then Ok Verifying
  else if value == "retiring" then Ok Retiring
  else if value == "cancelling" then Ok Cancelling
  else if value == "cleanup_pending" then Ok CleanupPending
  else if value == "active" then Ok Active
  else if value == "failed" then Ok Failed
  else if value == "orphaned" then Ok Orphaned
  else if value == "cancelled" then Ok Cancelled
  else errf "unsupported deployment status {value:?}" [FStr value].

#[global] Instance str_enum : StrEnum t := {| Prelude.as_str := as_str; Prelude.parse := parse |}.

Definition is_terminal (self : t) : bool :=
  matches self [Active; Failed; Orphaned; Cancelled].

End DeploymentStatus.

Module Deployment.
Import DeploymentStatus.

Record t := Mk {
  id : DeploymentId;
  organization_id : OrganizationId;
  workload_id : WorkloadId;
  revision_id : WorkloadRevisionId;
  operation_id : OperationId;
  node_id : option NodeId;
  command_id : option NodeCommandId;
  cleanup_command_id : option NodeCommandId;
  retirement_command_id : option NodeCommandId;
  status : DeploymentStatus.t;
  failure : option string;
  aggregate_version : N;
  requested_at : Time;
  updated_at : Time;
  activated_at : option Time;
  cancellation_requested_at : option Time;
  cancelled_at : option Time;
}.

#[global] Instance t_eta : Eta t := fun r =>
  Mk r.(id) r.(organization_id) r.(workload_id) r.(revision_id) r.(operation_id) r.(node_id)
     r.(command_id) r.(cleanup_command_id) r.(retirement_command_id) r.(status) r.(failure)
     r.(aggregate_version) r.(requested_at) r.(updated_at) r.(activated_at)
     r.(cancellation_requested_at) r.(cancelled_at).

#[global] Instance t_eq_dec : EqDecision t.
Proof. solve_decision. Defined.

Definition create (id : DeploymentId) (organization_id : OrganizationId) (workload_id : WorkloadId)
    (revision_id : WorkloadRevisionId) (operation_id : OperationId) (requested_at : Time) : t :=
  let requested_at := canonical_timestamp requested_at in
  {| id := id;
     organization_id := organization_id;
     workload_id := workload_id;
     revision_id := revision_id;
     operation_id := operation_id;
     node_id := None;
     command_id := None;
     cleanup_command_id := None;
     retirement_command_id := None;
     status := Queued;
     failure := None;
     aggregate_version := 1;
     requested_at := requested_at;
     updated_at := requested_at;
     activated_at := None;
     cancellation_requested_at := None;
     cancelled_at := None |}.

(** [self.aggregate_version += 1] *)
Definition bump_version (self : t) : t :=
  self <| aggregate_version := wrapping_add self.(aggregate_version) 1 |>.

Definition canonical_time (at' : Time) : method t Time :=
  self ← get;
  let at' := canonical_timestamp at' in
  if (at' <? self.(updated_at))%Z then raise "deployment update time regressed" else mret at'.

Definition transition (expected next : DeploymentStatus.t) (at' : Time) : method t unit :=
  at' ← canonical_time at';
  self ← get;
  if self.(status) == next then mret tt
  else if self.(status) != expected then
    raisef "deployment cannot transition from {} to {}"
      [FStr (DeploymentStatus.as_str self.(status)); FStr (DeploymentStatus.as_str next)]
  else
    modify (fun self => self <| status := next |>) ;;
    modify bump_version ;;
    modify (fun self => self <| updated_at := at' |>).

Definition resolve (at' : Time) : method t unit := transition Queued Resolving at'.

Definition schedule (node : NodeId) (at' : Time) : method t unit :=
  self ← get;
  if self.(status) == Scheduled then
    if self.(node_id) == Some node then canonical_time at' ;; mret tt
    else raise "scheduled deployment cannot change node"
  else
    transition Resolving Scheduled at' ;;
    modify (fun self => self <| node_id := Some node |>).

Definition dispatch (command : NodeCommandId) (at' : Time) : method t unit :=
  self ← get;
  if self.(status) == Applying then
    if self.(command_id) == Some command then canonical_time at' ;; mret tt
    else raise "dispatched deployment cannot change command"
  else if is_none self.(node_id) then raise "deployment cannot dispatch before scheduling"
  else
    transition Scheduled Applying at' ;;
    modify (fun self => self <| command_id := Some command |>).

Definition verify (at' : Time) : method t unit := transition Applying Verifying at'.

Definition activate (retirement_required : bool) (at' : Time) : method t unit :=
  at' ← canonical_time at';
  self ← get;
  if matches self.(status) [Retiring; Active] then
    let state_matches :=
      match self.(status) with
      | Retiring => retirement_required
      | Active => retirement_required == is_some self.(retirement_command_id)
      | _ => false
      end in
    if state_matches then mret tt
    else raise "deployment activation changed its retirement requirement"
  else
    transition Verifying (if retirement_required then Retiring else Active) at' ;;
    modify (fun self => self <| activated_at := Some at' |>).

Definition dispatch_retirement (command : NodeCommandId) (at' : Time) : method t unit :=
  at' ← canonical_time at';
  self ← get;
  if self.(status) != Retiring then raise "deployment retirement requires an activated update"
  else
    (if self.(retirement_command_id) != Some command then
       modify (fun self => self <| retirement_command_id := Some command |>) ;;
       modify bump_version
     else mret tt) ;;
    modify (fun self => self <| updated_at := at' |>).

Definition complete_retirement (at' : Time) : method t unit :=
  self ← get;
  if self.(status) == Active then canonical_time at' ;; mret tt
  else if is_none self.(retirement_command_id) then
    raise "deployment cannot complete retirement before Runtime cleanup"
  else transition Retiring Active at'.

Definition fail (reason : string) (at' : Time) : method t unit :=
  self ← get;
  if matches self.(status) [Active; Cancelled] then raise "terminal deployment cannot fail"
  else if str_is_empty (trim reason)
          || (16 * 1024 <? str_len reason)%N
          || contains_any [NUL; CR; LF] reason
  then raise "deployment failure is invalid"
  else
    at' ← canonical_time at';
    if matches self.(status) [Failed; Orphaned] then
      if self.(failure) == Some reason then mret tt
      else raise "failed deployment cannot change its failure reason"
    else
      let next :=
        if is_some self.(activated_at)
           || is_some self.(retirement_command_id)
           || is_some self.(cleanup_command_id)
           || is_some self.(command_id) && matches self.(status) [Cancelling; CleanupPending]
        then Orphaned else Failed in
      modify (fun self => self <| status := next |>) ;;
      modify (fun self => self <| failure := Some reason |>) ;;
      modify bump_version ;;
      modify (fun self => self <| updated_at := at' |>).

Definition request_cancellation (at' : Time) : method t unit :=
  at' ← canonical_time at';
  self ← get;
  if matches self.(status) [Cancelling; CleanupPending] then mret tt
  else if is_terminal self.(status) then raise "terminal deployment cannot request cancellation"
  else if self.(status) == Verifying then
    raise "health-verified deployment cannot request cancellation"
  else if is_some self.(activated_at) then
    raise "activated deployment cannot request cancellation"
  else
    modify (fun self => self <| status := Cancelling |>) ;;
    modify (fun self => self <| cancellation_requested_at := Some at' |>) ;;
    modify bump_version ;;
    modify (fun self => self <| updated_at := at' |>).

Definition cancel (at' : Time) : method t unit :=
  at' ← canonical_time at';
  self ← get;
  if self.(status) == Cancelled then mret tt
  else
    (if negb (matches self.(status) [Cancelling; CleanupPending])
     then request_cancellation at' else mret tt) ;;
    modify (fun self => self <| status := Cancelled |>) ;;
    modify (fun self => self <| cancelled_at := Some at' |>) ;;
    modify bump_version ;;
    modify (fun self => self <| updated_at := at' |>).

Definition begin_cleanup (command : NodeCommandId) (at' : Time) : method t unit :=
  at' ← canonical_time at';
  self ← get;
  if self.(status) == CleanupPending then
    if self.(cleanup_command_id) == Some command then mret tt
    else raise "cleanup command cannot change without an explicit retry"
  else if self.(status) != Cancelling then
    raise "deployment cleanup requires a cancellation request"
  else if is_none self.(node_id) || is_none self.(command_id) then
    raise "deployment cleanup requires a dispatched Runtime child"
  else
    modify (fun self => self <| status := CleanupPending |>) ;;
    modify (fun self => self <| cleanup_command_id := Some command |>) ;;
    modify bump_version ;;
    modify (fun self => self <| updated_at := at' |>).

Definition retry_cleanup (command : NodeCommandId) (at' : Time) : method t unit :=
  at' ← canonical_time at';
  self ← get;
  if self.(status) != CleanupPending || is_none self.(cleanup_command_id) then
    raise "deployment has no pending cleanup to retry"
  else
    (if self.(cleanup_command_id) != Some command then
       modify (fun self => self <| cleanup_command_id := Some command |>) ;;
       modify bump_version
     else mret tt) ;;
    modify (fun self => self <| updated_at := at' |>).

End Deployment.

(** ** Every mutation of a deployment *)
Module DeploymentLifecycle.
Import DeploymentStatus Deployment.

Inductive op :=
| Resolve (at' : Time)
| Schedule (node : NodeId) (at' : Time)
| Dispatch (command : NodeCommandId) (at' : Time)
| Verify (at' : Time)
| Activate (retirement_required : bool) (at' : Time)
| DispatchRetirement (command : NodeCommandId) (at' : Time)
| CompleteRetirement (at' : Time)
| Fail (reason : string) (at' : Time)
| Cancel (at' : Time)
| RequestCancellation (at' : Time)
| BeginCleanup (command : NodeCommandId) (at' : Time)
| RetryCleanup (command : NodeCommandId) (at' : Time).

Definition step (o : op) : method Deployment.t unit :=
  match o with
  | Resolve at' => resolve at'
  | Schedule node at' => schedule node at'
  | Dispatch command at' => dispatch command at'
  | Verify at' => verify at'
  | Activate required at' => activate required at'
  | DispatchRetirement command at' => dispatch_retirement command at'
  | CompleteRetirement at' => complete_retirement at'
  | Fail reason at' => fail reason at'
  | Cancel at' => cancel at'
  | RequestCancellation at' => request_cancellation at'
  | BeginCleanup command at' => begin_cleanup command at'
  | RetryCleanup command at' => retry_cleanup command at'
  end.

(** The deployments the control plane can hold: created, then changed by any calls in any order,
    the rejected ones included. *)
Inductive reachable : Deployment.t -> Prop :=
| reach_create i org w r o at' : reachable (create i org w r o at')
| reach_step d o : reachable d -> reachable (run_state (step o) d).

(** What each status promises about the evidence recorded so far. *)
Definition evidence (d : Deployment.t) : bool :=
  let some {A} (o : option A) := is_some o in
  let none {A} (o : option A) := is_none o in
  let placed := some d.(node_id) && some d.(command_id) in
  let settled := none d.(failure) && none d.(cancelled_at) in
  match d.(status) with
  | Queued | Resolving =>
    none d.(node_id) && none d.(command_id) && none d.(cleanup_command_id)
    && none d.(retirement_command_id) && none d.(activated_at)
    && none d.(cancellation_requested_at) && settled
  | Scheduled =>
    some d.(node_id) && none d.(command_id) && none d.(cleanup_command_id)
    && none d.(retirement_command_id) && none d.(activated_at)
    && none d.(cancellation_requested_at) && settled
  | Applying | Verifying =>
    placed && none d.(cleanup_command_id) && none d.(retirement_command_id)
    && none d.(activated_at) && none d.(cancellation_requested_at) && settled
  | Retiring | Active =>
    placed && some d.(activated_at) && none d.(cleanup_command_id)
    && none d.(cancellation_requested_at) && settled
  | Cancelling =>
    (none d.(command_id) || some d.(node_id)) && some d.(cancellation_requested_at)
    && none d.(cleanup_command_id) && none d.(retirement_command_id)
    && none d.(activated_at) && settled
  | CleanupPending =>
    placed && some d.(cleanup_command_id) && some d.(cancellation_requested_at)
    && none d.(retirement_command_id) && none d.(activated_at) && settled
  | Failed =>
    some d.(failure) && none d.(activated_at) && none d.(cleanup_command_id)
    && none d.(retirement_command_id) && none d.(cancelled_at)
    && (none d.(command_id) || none d.(cancellation_requested_at))
  | Orphaned =>
    some d.(failure) && placed && none d.(cancelled_at)
    && (some d.(activated_at) || some d.(cancellation_requested_at))
  | Cancelled =>
    some d.(cancelled_at) && some d.(cancellation_requested_at) && none d.(activated_at)
    && none d.(retirement_command_id) && none d.(failure)
    && (none d.(command_id) || some d.(node_id))
  end.

Definition consistent (d : Deployment.t) : bool :=
  evidence d && (d.(requested_at) <=? d.(updated_at))%Z.

(** ** The abstract lifecycle *)
Inductive phase_step : DeploymentStatus.t -> DeploymentStatus.t -> Prop :=
| ps_resolve : phase_step Queued Resolving
| ps_schedule : phase_step Resolving Scheduled
| ps_apply : phase_step Scheduled Applying
| ps_verify : phase_step Applying Verifying
| ps_retire : phase_step Verifying Retiring
| ps_activate : phase_step Verifying Active
| ps_retired : phase_step Retiring Active
| ps_cancelling s : matches s [Queued; Resolving; Scheduled; Applying] = true -> phase_step s Cancelling
| ps_cancelled s :
    matches s [Queued; Resolving; Scheduled; Applying; Cancelling; CleanupPending] = true ->
    phase_step s Cancelled
| ps_cleanup : phase_step Cancelling CleanupPending
| ps_failed s :
    matches s [Queued; Resolving; Scheduled; Applying; Verifying; Cancelling] = true -> phase_step s Failed
| ps_orphaned s : matches s [Retiring; Cancelling; CleanupPending] = true -> phase_step s Orphaned.

Ltac run_call H :=
  unfold resolve, schedule, dispatch, verify, activate, dispatch_retirement, complete_retirement,
    fail, cancel, request_cancellation, begin_cleanup, retry_cleanup, transition, canonical_time in H;
  run_method H.

Ltac run_step H o := destruct o; cbn [step] in H; run_call H.

(** Splits on the status, then closes the cases by the evidence they promise. *)
Ltac solve_evidence d :=
  simplify_eq/=; try done;
  unfold consistent, evidence, matches, is_terminal, is_none in *; simpl in *;
  destruct d as [? ? ? ? ? ? ? ? ? st]; simpl in *;
  destruct st; simpl in *; try discriminate; reflect_bools; destruct_and?;
  solve [split_and?; (congruence || lia) | intuition (congruence || lia)].

Lemma step_consistent o d d' r :
  consistent d = true -> step o d = (d', r) -> consistent d' = true.
Proof. intros Hc Hs. revert Hc. run_step Hs o. all: solve_evidence d. Qed.

Lemma reachable_consistent_aux d : reachable d -> consistent d = true.
Proof.
  induction 1 as [|d o _ IH].
  - unfold consistent. simpl. by rewrite Z.leb_refl.
  - eapply step_consistent; [done|apply run_eq].
Qed.

Lemma step_phase o d d' r :
  consistent d = true -> step o d = (d', r) ->
  d'.(status) = d.(status) \/ phase_step d.(status) d'.(status).
Proof.
  intros Hc Hs. revert Hc. run_step Hs o.
  all: simplify_eq/=; try (by left); intros Hc; right.
  all: unfold consistent, evidence, matches, is_terminal, is_none in *; simpl in *.
  all: destruct d as [? ? ? ? ? ? ? ? ? st]; simpl in *.
  all: destruct st; simpl in *; try discriminate; try (by constructor).
  all: reflect_bools; intuition congruence.
Qed.

Lemma step_error_unchanged o d d' e : step o d = (d', Err e) -> d' = d.
Proof. intros Hs. run_step Hs o. all: by simplify_eq/=. Qed.

Lemma wrapping_add_moves n : in_u64 n -> wrapping_add n 1 <> n /\ wrapping_add (wrapping_add n 1) 1 <> n.
Proof.
  unfold in_u64, wrapping_add. intros Hn. change (u64_max + 1)%N with (2 ^ 64)%N in *.
  unfold u64_max in Hn.
  destruct (decide (n = 2 ^ 64 - 1)%N) as [->|]; [by vm_compute|].
  destruct (decide (n = 2 ^ 64 - 2)%N) as [->|]; [by vm_compute|].
  rewrite !(N.mod_small (n + 1)), (N.mod_small (n + 1 + 1)) by lia. lia.
Qed.

Lemma updated_at_id d : d = d <| updated_at := d.(updated_at) |>.
Proof. by destruct d. Qed.

(** A step that keeps the version keeps everything but the time of the last update. *)
Lemma step_same_version o d d' r :
  in_u64 d.(aggregate_version) -> step o d = (d', r) ->
  d'.(aggregate_version) = d.(aggregate_version) ->
  d' = d <| updated_at := d'.(updated_at) |>.
Proof.
  intros [Hv1 Hv2]%wrapping_add_moves Hs. run_step Hs o.
  all: simplify_eq/=; intros Ev; first [done | congruence | apply updated_at_id | by destruct (status d)].
Qed.

Lemma step_time o d d' r : step o d = (d', r) -> (d.(updated_at) <= d'.(updated_at))%Z.
Proof. intros Hs. run_step Hs o. all: simplify_eq/=; reflect_bools; lia. Qed.

(** Running an accepted call again is accepted and changes nothing. *)
Lemma step_again o d d' :
  consistent d = true -> step o d = (d', Ok tt) -> step o d' = (d', Ok tt).
Proof.
  intros Hc Hs. revert Hc. run_step Hs o. all: simplify_eq/=; intros Hc.
  all: match goal with |- ?call = _ => destruct call as [d2 r2] eqn:H2 end; run_call H2.
  all: simplify_eq/=; try done;
    rewrite ?canonical_timestamp_idemp, ?Z.ltb_irrefl in *; try done; try congruence.
  all: solve_evidence d.
Qed.

(** Evidence is written once: a recorded value stays. *)
Definition kept {A} (before after : option A) : Prop := forall v, before = Some v -> after = Some v.

#[global] Instance kept_preorder {A} : PreOrder (@kept A).
Proof. split; [by intros ??|]. intros x y z H1 H2 v ?. by apply H2, H1. Qed.

Definition evidence_kept (d d' : Deployment.t) : Prop :=
  kept d.(node_id) d'.(node_id) /\ kept d.(command_id) d'.(command_id)
  /\ kept d.(activated_at) d'.(activated_at) /\ kept d.(failure) d'.(failure)
  /\ kept d.(cancellation_requested_at) d'.(cancellation_requested_at)
  /\ kept d.(cancelled_at) d'.(cancelled_at).

#[global] Instance evidence_kept_preorder : PreOrder evidence_kept.
Proof.
  split; [intros d; by repeat split|].
  intros x y z (?&?&?&?&?&?) (?&?&?&?&?&?). repeat split; by etrans.
Qed.

Lemma step_evidence_kept o d d' r :
  consistent d = true -> step o d = (d', r) -> evidence_kept d d'.
Proof.
  intros Hc Hs. revert Hc. run_step Hs o. all: simplify_eq/=; try done; intros Hc.
  all: repeat split; intros v Hv; simpl; try done; exfalso.
  all: assert (forall A (x : option A) v, x = Some v -> is_some x = true) as Hsome by (by intros ??? ->).
  all: apply Hsome in Hv; solve_evidence d.
Qed.

(** ** Sequences of calls *)
Definition run_all (ops : list op) (d : Deployment.t) : Deployment.t :=
  fold_left (fun d o => run_state (step o) d) ops d.

Lemma run_all_reachable ops d : reachable d -> reachable (run_all ops d).
Proof. revert d. induction ops as [|o ops IH]; intros d Hd; simpl; [done|]. by apply IH, reach_step. Qed.

(** How far a deployment is on its way; it never goes back. *)
Definition rank (s : DeploymentStatus.t) : nat :=
  match s with
  | Queued => 0
  | Resolving => 1
  | Scheduled => 2
  | Applying => 3
  | Verifying | Cancelling => 4
  | Retiring | CleanupPending => 5
  | Active | Failed | Orphaned | Cancelled => 6
  end.

Lemma phase_step_rank s s' : phase_step s s' -> (rank s < rank s')%nat.
Proof. destruct 1; try (simpl; lia); destruct s; simpl; (lia || discriminate). Qed.

Fixpoint status_changes (ops : list op) (d : Deployment.t) : nat :=
  match ops with
  | [] => 0
  | o :: ops =>
    let d' := run_state (step o) d in
    (if d'.(status) == d.(status) then 0 else 1) + status_changes ops d'
  end.

Lemma status_changes_rank ops d :
  consistent d = true ->
  (rank d.(status) + status_changes ops d <= rank (run_all ops d).(status))%nat.
Proof.
  revert d. induction ops as [|o ops IH]; intros d Hd; simpl; [lia|].
  pose proof (step_consistent o d _ _ Hd (run_eq _ _)) as Hd'.
  specialize (IH _ Hd').
  destruct (step_phase o d _ _ Hd (run_eq _ _)) as [E|Hp%phase_step_rank].
  - rewrite bool_decide_eq_true_2 by done. rewrite E in IH. lia.
  - destruct (bool_decide _); lia.
Qed.

Lemma rank_bound s : (rank s <= 6)%nat.
Proof. destruct s; simpl; lia. Qed.

Lemma no_change_same_status ops d :
  status_changes ops d = 0%nat -> (run_all ops d).(status) = d.(status).
Proof.
  revert d. induction ops as [|o ops IH]; intros d Hz; simpl in *; [done|].
  case_bool_decide as Hs; [|lia]. rewrite IH; [done|lia].
Qed.

(** ** The accepted calls, forwards *)
Definition moved (d : Deployment.t) (next : DeploymentStatus.t) (at' : Time) : Deployment.t :=
  (bump_version (d <| status := next |>)) <| updated_at := canonical_timestamp at' |>.

Lemma canonical_time_ok d t :
  (d.(updated_at) <= canonical_timestamp t)%Z -> canonical_time t d = (d, Ok (canonical_timestamp t)).
Proof.
  intros H. unfold canonical_time, mbind, method_bind, get. by rewrite (proj2 (Z.ltb_ge _ _) H).
Qed.

Lemma transition_ok d expected next t :
  d.(status) = expected -> expected <> next -> (d.(updated_at) <= canonical_timestamp t)%Z ->
  transition expected next t d = (moved d next t, Ok tt).
Proof.
  intros Hs Hn Ht. unfold transition, mbind at 1, method_bind at 1. rewrite canonical_time_ok by done.
  unfold mbind, method_bind, get. rewrite Hs, bool_decide_eq_false_2 by done.
  by rewrite bool_decide_eq_true_2.
Qed.

Lemma schedule_ok d node t :
  d.(status) = Resolving -> (d.(updated_at) <= canonical_timestamp t)%Z ->
  schedule node t d = ((moved d Scheduled t) <| node_id := Some node |>, Ok tt).
Proof.
  intros Hs Ht. unfold schedule, mbind, method_bind, get. rewrite Hs.
  rewrite bool_decide_eq_false_2, transition_ok by done. done.
Qed.

Lemma dispatch_ok d command t :
  d.(status) = Scheduled -> is_some d.(node_id) = true -> (d.(updated_at) <= canonical_timestamp t)%Z ->
  dispatch command t d = ((moved d Applying t) <| command_id := Some command |>, Ok tt).
Proof.
  intros Hs Hn Ht. unfold dispatch, mbind, method_bind, get, is_none.
  rewrite Hs, Hn. rewrite bool_decide_eq_false_2 by done. simpl. by rewrite transition_ok.
Qed.

Lemma activate_ok d required t :
  d.(status) = Verifying -> (d.(updated_at) <= canonical_timestamp t)%Z ->
  activate required t d =
    ((moved d (if required then Retiring else Active) (canonical_timestamp t))
       <| activated_at := Some (canonical_timestamp t) |>, Ok tt).
Proof.
  intros Hs Ht. unfold activate, mbind at 1, method_bind at 1. rewrite canonical_time_ok by done.
  unfold mbind, method_bind, get. rewrite Hs. simpl. rewrite transition_ok.
  - done.
  - done.
  - by destruct required.
  - by rewrite canonical_timestamp_idemp.
Qed.

(** ** Properties *)

(** C33: In every deployment the control plane can hold, the recorded evidence agrees with the
    status: an active deployment was placed, dispatched and activated; a cancelled one was never
    activated; a pending cleanup has its node, its Runtime child and its cleanup command; a
    failure carries its reason; and the last update is not before the request. *)
Theorem deployment_evidence_consistent d : reachable d -> consistent d = true.
Proof. apply reachable_consistent_aux. Qed.

Lemma deployment_evidence_consistent_witness :
  let d := run_all [Resolve 2000; Schedule 7 3000; Dispatch 8 4000; RequestCancellation 5000;
                    BeginCleanup 9 6000]%Z (create 1 2 3 4 5 1000) in
  d.(status) = CleanupPending /\ consistent d = true.
Proof.
  split; [vm_compute; reflexivity|].
  apply deployment_evidence_consistent, run_all_reachable, reach_create.
Defined.

(** C34: The detailed aggregate refines the abstract lifecycle: a call either leaves the status
    alone or takes one edge of [phase_step], and a rejected call leaves the whole deployment
    unchanged. *)
Theorem deployment_refines_lifecycle d o d' r :
  reachable d -> step o d = (d', r) ->
  (d'.(status) = d.(status) \/ phase_step d.(status) d'.(status))
  /\ (is_ok r = false -> d' = d).
Proof.
  intros Hd%reachable_consistent_aux Hs. split; [by eapply step_phase|].
  destruct r as [|e]; [done|]. intros _. by eapply step_error_unchanged.
Qed.

Lemma deployment_refines_lifecycle_witness :
  let d := run_all [Resolve 2000; Schedule 7 3000]%Z (create 1 2 3 4 5 1000) in
  phase_step d.(status) (run_state (step (Dispatch 8 4000)) d).(status).
Proof.
  intros d.
  destruct (deployment_refines_lifecycle d (Dispatch 8 4000) _ _
    (run_all_reachable _ _ (reach_create _ _ _ _ _ _)) (run_eq _ _)) as [[H|H] _]; [|exact H].
  vm_compute in H. discriminate H.
Defined.

(** C37: Active, failed, orphaned and cancelled deployments keep their status whatever is called
    on them, and no deployment changes its status more than six times, so the lifecycle of every
    deployment ends. *)
Theorem deployment_lifecycle_terminates d ops :
  reachable d ->
  (status_changes ops d <= 6 - rank d.(status))%nat
  /\ (is_terminal d.(status) = true -> (run_all ops d).(status) = d.(status)).
Proof.
  intros Hd%reachable_consistent_aux.
  pose proof (status_changes_rank ops d Hd) as Hr. pose proof (rank_bound (run_all ops d).(status)).
  split; [lia|]. intros Ht. apply no_change_same_status.
  destruct d as [? ? ? ? ? ? ? ? ? st]; destruct st; try discriminate; simpl in *; lia.
Qed.

Lemma deployment_lifecycle_terminates_witness :
  let d := run_all [Resolve 2000; Fail "no capacity" 3000]%Z (create 1 2 3 4 5 1000) in
  (run_all [Resolve 4000; Cancel 5000; Activate false 6000]%Z d).(status) = Failed.
Proof.
  intros d.
  destruct (deployment_lifecycle_terminates d [Resolve 4000; Cancel 5000; Activate false 6000]%Z
    (run_all_reachable _ _ (reach_create _ _ _ _ _ _))) as [_ H].
  rewrite H; vm_compute; reflexivity.
Defined.

(** Every call is safe to deliver twice: once accepted, the same call is accepted again and
    changes nothing, so at-least-once delivery of lifecycle events does not corrupt a deployment. *)
Theorem deployment_calls_idempotent d o d' :
  reachable d -> step o d = (d', Ok tt) -> step o d' = (d', Ok tt).
Proof. intros Hd%reachable_consistent_aux. by apply step_again. Qed.

Lemma deployment_calls_idempotent_witness :
  let d := create 1 2 3 4 5 1000 in
  let d' := run_state (step (Cancel 2500)) d in
  step (Cancel 2500) d' = (d', Ok tt).
Proof. apply deployment_calls_idempotent with (create 1 2 3 4 5 1000); [constructor|reflexivity]. Defined.

(** The node, the Runtime command, the activation time, the failure and the cancellation of a
    deployment are written once: no sequence of calls ever changes or erases them. *)
Theorem deployment_evidence_write_once d ops : reachable d -> evidence_kept d (run_all ops d).
Proof.
  intros Hd%reachable_consistent_aux. revert d Hd.
  induction ops as [|o ops IH]; intros d Hd; simpl; [done|].
  pose proof (step_consistent o d _ _ Hd (run_eq _ _)) as Hd'.
  etrans; [by eapply step_evidence_kept, run_eq|by apply IH].
Qed.

Lemma deployment_evidence_write_once_witness :
  let d := run_all [Resolve 2000; Schedule 7 3000]%Z (create 1 2 3 4 5 1000) in
  (run_all [Schedule 8 4000; Dispatch 9 5000; Cancel 6000]%Z d).(node_id) = Some 7%N.
Proof.
  intros d.
  destruct (deployment_evidence_write_once d [Schedule 8 4000; Dispatch 9 5000; Cancel 6000]%Z
    (run_all_reachable _ _ (reach_create _ _ _ _ _ _))) as [H _].
  apply H. vm_compute. reflexivity.
Defined.

(** The aggregate version is an optimistic lock: a call that leaves it unchanged has changed
    nothing but the time of the last update, which never moves back. *)
Theorem deployment_version_guards_content d o d' r :
  in_u64 d.(aggregate_version) -> step o d = (d', r) ->
  (d.(updated_at) <= d'.(updated_at))%Z
  /\ (d'.(aggregate_version) = d.(aggregate_version) -> d' = d <| updated_at := d'.(updated_at) |>).
Proof. intros Hv Hs. split; [by eapply step_time|by eapply step_same_version]. Qed.

Lemma deployment_version_guards_content_witness :
  let d := create 1 2 3 4 5 1000 in
  let d' := run_state (step (Resolve 2000)) d in
  (d.(updated_at) <= d'.(updated_at))%Z /\ d'.(aggregate_version) <> d.(aggregate_version).
Proof.
  intros d d'. split; [|vm_compute; discriminate].
  apply (deployment_version_guards_content d (Resolve 2000) _ (Ok tt)); [by vm_compute|reflexivity].
Defined.

(** A deployment whose steps are called in order at times that do not go back becomes
    active on the chosen node, with one version per step. *)
Theorem deployment_happy_path i org w r o node command t0 t1 t2 t3 t4 t5 :
  (t0 <= t1 <= t2)%Z -> (t2 <= t3 <= t4)%Z -> (t4 <= t5)%Z ->
  let d := run_all [Resolve t1; Schedule node t2; Dispatch command t3; Verify t4; Activate false t5]
             (create i org w r o t0) in
  d.(status) = Active /\ d.(node_id) = Some node /\ d.(command_id) = Some command
  /\ d.(activated_at) = Some (canonical_timestamp t5) /\ d.(aggregate_version) = 6%N.
Proof.
  intros H1 H2 H3 d. subst d. unfold run_all, run_state.
  cbn [fold_left step]. unfold resolve, verify.
  rewrite (transition_ok _ Queued) by (done || time_order). cbn [fst].
  rewrite schedule_ok by (done || time_order). cbn [fst].
  rewrite dispatch_ok by (done || time_order). cbn [fst].
  rewrite (transition_ok _ Applying) by (done || time_order). cbn [fst].
  rewrite activate_ok by (done || time_order). by repeat split.
Qed.

Lemma deployment_happy_path_witness :
  (run_all [Resolve 2000; Schedule 7 3000; Dispatch 8 4000; Verify 5000; Activate false 6000]%Z
     (create 1 2 3 4 5 1000)).(status) = Active.
Proof. apply (deployment_happy_path 1 2 3 4 5 7 8 1000 2000 3000 4000 5000 6000); lia. Defined.

End DeploymentLifecycle.
