(* ===== verification/Replicas.v ===== *)
(** * Workload replicas, their members and deployment bindings

    [workloads/domain/entities/workload_replica.rs]: the stable replicas of a workload, the member
    that is placed on a node, and the binding of a deployment to both.  Identifiers are derived
    with version 5 UUIDs; generations fence stale placements. *)

From Stdlib Require Import ZArith NArith Lia String.
From S2P Require Import Prelude RustStd External SharedKernel Workloads WorkloadRevisions Deployments.

Definition MAX_WORKLOAD_REPLICAS : N := 100.
Definition MAX_WORKLOAD_PLACEMENT_GROUP_MEMBERS : N := 256.
Definition CANONICAL_REPLICA_ORDINAL : N := 0.
Definition REPLICA_ID_DOMAIN : string := "a3s.cloud.workload-replica.v1".
Definition REPLICA_MEMBER_ID_DOMAIN : string := "a3s.cloud.workload-replica-member.v1".
Definition PLACEMENT_GROUP_CLAIM_ID_DOMAIN : string := "a3s.cloud.placement-group-resource-claim.v1".

Module WorkloadReplicaLifecycle.

Inductive t :=
| Desired
| Retiring
| Retired.

#[global] Instance t_eq_dec : EqDecision t.
Proof. solve_decision. Defined.

Definition as_str (self : t) : string :=
  match self with
  | Desired => "desired"
  | Retiring => "retiring"
  | Retired => "retired"
  end.

Definition parse (value : string) : result t :=
  if value == "desired" then Ok Desired
  else if value == "retiring" then Ok Retiring
  else if value == "retired" then Ok Retired
  else errf "unsupported Workload replica lifecycle {value:?}" [FStr value].

#[global] Instance str_enum : StrEnum t := {| Prelude.as_str := as_str; Prelude.parse := parse |}.
#[global] Instance str_enum_laws : StrEnumLaws t.
Proof. solve_str_enum. Qed.

End WorkloadReplicaLifecycle.

Module WorkloadReplicaMember.

Record t := Mk {
  id : WorkloadReplicaMemberId;
  organization_id : OrganizationId;
  project_id : ProjectId;
  environment_id : EnvironmentId;
  workload_id : WorkloadId;
  replica_id : WorkloadReplicaId;
  ordinal : N;
  node_id : option NodeId;
  placement_generation : N;
  aggregate_version : N;
  created_at : Time;
  updated_at : Time;
}.

#[global] Instance t_eta : Eta t := fun r =>
  Mk r.(id) r.(organization_id) r.(project_id) r.(environment_id) r.(workload_id) r.(replica_id)
     r.(ordinal) r.(node_id) r.(placement_generation) r.(aggregate_version) r.(created_at)
     r.(updated_at).

#[global] Instance t_eq_dec : EqDecision t.
Proof. solve_decision. Defined.

Section member.
Context `{External}.

Definition deterministic_id (replica_id : WorkloadReplicaId) (ordinal : N) :
    result WorkloadReplicaMemberId :=
  if (MAX_WORKLOAD_PLACEMENT_GROUP_MEMBERS <=? ordinal)%N then
    err "Workload placement-group member ordinal must be smaller than {MAX_WORKLOAD_PLACEMENT_GROUP_MEMBERS}"
  else if ordinal == CANONICAL_REPLICA_ORDINAL then Ok replica_id
  else Ok (uuid_v5 replica_id (REPLICA_MEMBER_ID_DOMAIN ++ ":" ++ num_display ordinal)%string).

Definition validate (self : t) : result unit :=
  fail_if (is_nil self.(id)
           || is_nil self.(organization_id)
           || is_nil self.(project_id)
           || is_nil self.(environment_id)
           || is_nil self.(workload_id)
           || is_nil self.(replica_id)
           || (ok (deterministic_id self.(replica_id) self.(ordinal)) != Some self.(id))
           || is_some self.(node_id) && (self.(placement_generation) =? 0)%N
           || (self.(aggregate_version) =? 0)%N
           || (self.(updated_at) <? self.(created_at))%Z)
    "Workload replica member is invalid".

(** The two [checked_add(1)] updates. *)
Definition bump_placement : method t unit :=
  self ← get;
  generation ← lift (ok_or (checked_add self.(placement_generation) 1)
                       "Workload placement generation overflowed");
  modify (fun self => self <| placement_generation := generation |>).

Definition bump_version : method t unit :=
  self ← get;
  version ← lift (ok_or (checked_add self.(aggregate_version) 1)
                    "Workload replica member version overflowed");
  modify (fun self => self <| aggregate_version := version |>).

Definition place (node : NodeId) (at' : Time) : method t unit :=
  let at' := canonical_timestamp at' in
  self ← get;
  if is_nil node || (at' <? self.(updated_at))%Z then
    raise "Workload replica member placement is invalid"
  else match self.(node_id) with
  | Some existing =>
    if existing == node then modify (fun self => self <| updated_at := at' |>)
    else raise "Workload replica member cannot move without explicit release or fencing"
  | None =>
    modify (fun self => self <| node_id := Some node |>) ;;
    bump_placement ;;
    bump_version ;;
    modify (fun self => self <| updated_at := at' |>)
  end.

Definition release_after_fencing (node : NodeId) (at' : Time) : method t unit :=
  let at' := canonical_timestamp at' in
  self ← get;
  if (at' <? self.(updated_at))%Z || is_nil node then
    raise "Workload replica member release is invalid"
  else match self.(node_id) with
  | None => modify (fun self => self <| updated_at := at' |>)
  | Some existing =>
    if existing != node then raise "Workload replica member release changed its fenced node"
    else
      modify (fun self => self <| node_id := None |>) ;;
      bump_version ;;
      modify (fun self => self <| updated_at := at' |>)
  end.

End member.
End WorkloadReplicaMember.

Module WorkloadReplica.
Import WorkloadReplicaLifecycle.

Record t := Mk {
  id : WorkloadReplicaId;
  organization_id : OrganizationId;
  project_id : ProjectId;
  environment_id : EnvironmentId;
  workload_id : WorkloadId;
  ordinal : N;
  revision_id : WorkloadRevisionId;
  revision_generation : N;
  generation : N;
  lifecycle : WorkloadReplicaLifecycle.t;
  evacuation_node_id : option NodeId;
  retirement_command_id : option NodeCommandId;
  runtime_fenced_at : option Time;
  aggregate_version : N;
  created_at : Time;
  updated_at : Time;
}.

#[global] Instance t_eta : Eta t := fun r =>
  Mk r.(id) r.(organization_id) r.(project_id) r.(environment_id) r.(workload_id) r.(ordinal)
     r.(revision_id) r.(revision_generation) r.(generation) r.(lifecycle) r.(evacuation_node_id)
     r.(retirement_command_id) r.(runtime_fenced_at) r.(aggregate_version) r.(created_at)
     r.(updated_at).

#[global] Instance t_eq_dec : EqDecision t.
Proof. solve_decision. Defined.

Section replica.
Context `{External}.

Definition deterministic_id (workload_id : WorkloadId) (ordinal : N) : result WorkloadReplicaId :=
  if (MAX_WORKLOAD_REPLICAS <=? ordinal)%N then
    err "Workload replica ordinal must be smaller than {MAX_WORKLOAD_REPLICAS}"
  else if ordinal == CANONICAL_REPLICA_ORDINAL then Ok workload_id
  else Ok (uuid_v5 workload_id (REPLICA_ID_DOMAIN ++ ":" ++ num_display ordinal)%string).

(** The evidence each lifecycle state allows. *)
Definition retirement_state_valid (self : t) : bool :=
  match self.(lifecycle) with
  | Desired =>
    is_none self.(evacuation_node_id)
    && is_none self.(retirement_command_id)
    && is_none self.(runtime_fenced_at)
  | Retiring => is_none self.(runtime_fenced_at) || is_some self.(retirement_command_id)
  | Retired =>
    is_none self.(evacuation_node_id)
    && (is_some self.(retirement_command_id) == is_some self.(runtime_fenced_at))
  end.

Definition validate (self : t) : result unit :=
  fail_if (is_nil self.(id)
           || is_nil self.(organization_id)
           || is_nil self.(project_id)
           || is_nil self.(environment_id)
           || is_nil self.(workload_id)
           || is_nil self.(revision_id)
           || (ok (deterministic_id self.(workload_id) self.(ordinal)) != Some self.(id))
           || (self.(revision_generation) =? 0)%N
           || (self.(generation) =? 0)%N
           || (self.(aggregate_version) =? 0)%N
           || (self.(updated_at) <? self.(created_at))%Z
           || is_some_and is_nil self.(evacuation_node_id)
           || is_some_and (fun fenced_at =>
                (fenced_at <? self.(created_at))%Z || (self.(updated_at) <? fenced_at)%Z)
                self.(runtime_fenced_at))
    "Workload replica is invalid" ;;
  fail_if (negb (retirement_state_valid self)) "Workload replica retirement evidence is invalid".

Definition for_ordinal (workload : Workload.t) (revision : WorkloadRevision.t) (ordinal : N) : result t :=
  fail_if ((revision.(WorkloadRevision.workload_id) != workload.(Workload.id))
           || (revision.(WorkloadRevision.generation) =? 0)%N)
    "Workload replica revision is inconsistent" ;;
  id ← deterministic_id workload.(Workload.id) ordinal;
  let replica :=
    {| id := id;
       organization_id := workload.(Workload.organization_id);
       project_id := workload.(Workload.project_id);
       environment_id := workload.(Workload.environment_id);
       workload_id := workload.(Workload.id);
       ordinal := ordinal;
       revision_id := revision.(WorkloadRevision.id);
       revision_generation := revision.(WorkloadRevision.generation);
       generation := revision.(WorkloadRevision.generation);
       lifecycle := Desired;
       evacuation_node_id := None;
       retirement_command_id := None;
       runtime_fenced_at := None;
       aggregate_version := 1;
       created_at := workload.(Workload.created_at);
       updated_at := Z.max revision.(WorkloadRevision.created_at) workload.(Workload.created_at) |} in
  validate replica ;;
  Ok replica.

Definition canonical (workload : Workload.t) (revision : WorkloadRevision.t) : result t :=
  for_ordinal workload revision CANONICAL_REPLICA_ORDINAL.

Definition runtime_unit_id (self : t) (revision : WorkloadRevision.t) : result string :=
  fail_if ((revision.(WorkloadRevision.workload_id) != self.(workload_id))
           || (revision.(WorkloadRevision.id) != self.(revision_id))
           || (revision.(WorkloadRevision.generation) != self.(revision_generation)))
    "Workload replica Runtime identity has the wrong revision" ;;
  if self.(ordinal) == CANONICAL_REPLICA_ORDINAL then Ok (WorkloadRevision.runtime_unit_id revision)
  else Ok ("workload:" ++ uuid_display self.(workload_id)
           ++ ":replica:" ++ uuid_display self.(id)
           ++ ":revision:" ++ uuid_display revision.(WorkloadRevision.id))%string.

Definition runtime_unit_id_for_member (self : t) (revision : WorkloadRevision.t)
    (member : WorkloadReplicaMember.t) : result string :=
  WorkloadReplicaMember.validate member ;;
  fail_if ((member.(WorkloadReplicaMember.organization_id) != self.(organization_id))
           || (member.(WorkloadReplicaMember.project_id) != self.(project_id))
           || (member.(WorkloadReplicaMember.environment_id) != self.(environment_id))
           || (member.(WorkloadReplicaMember.replica_id) != self.(id))
           || (member.(WorkloadReplicaMember.workload_id) != self.(workload_id))
           || (ok (WorkloadReplicaMember.deterministic_id self.(id) member.(WorkloadReplicaMember.ordinal))
                 != Some member.(WorkloadReplicaMember.id)))
    "Workload Runtime member identity is inconsistent" ;;
  base ← runtime_unit_id self revision;
  if member.(WorkloadReplicaMember.ordinal) == CANONICAL_REPLICA_ORDINAL then Ok base
  else Ok (base ++ ":member:" ++ uuid_display member.(WorkloadReplicaMember.id))%string.

(** The [checked_add(1)] updates. *)
Definition bump_generation : method t unit :=
  self ← get;
  next ← lift (ok_or (checked_add self.(generation) 1) "Workload replica generation overflowed");
  modify (fun self => self <| generation := next |>).

Definition bump_version : method t unit :=
  self ← get;
  version ← lift (ok_or (checked_add self.(aggregate_version) 1) "Workload replica version overflowed");
  modify (fun self => self <| aggregate_version := version |>).

(** The last two statements of every accepted transition. *)
Definition commit_at (at' : Time) : method t unit :=
  bump_version ;;
  modify (fun self => self <| updated_at := at' |>).

Definition advance (revision : WorkloadRevision.t) (at' : Time) : method t unit :=
  let at' := canonical_timestamp at' in
  self ← get;
  if (revision.(WorkloadRevision.workload_id) != self.(workload_id))
     || (revision.(WorkloadRevision.generation) <=? self.(revision_generation))%N
     || (self.(lifecycle) != Desired)
     || (at' <? self.(updated_at))%Z
  then raise "Workload replica generation advance is invalid"
  else
    modify (fun self => self <| revision_id := revision.(WorkloadRevision.id) |>) ;;
    modify (fun self => self <| revision_generation := revision.(WorkloadRevision.generation) |>) ;;
    bump_generation ;;
    commit_at at'.

Definition request_retirement (at' : Time) : method t unit :=
  let at' := canonical_timestamp at' in
  self ← get;
  if (at' <? self.(updated_at))%Z then raise "Workload replica retirement time regressed"
  else if self.(lifecycle) != Desired then modify (fun self => self <| updated_at := at' |>)
  else
    modify (fun self => self <| lifecycle := Retiring |> <| evacuation_node_id := None |>
                          <| retirement_command_id := None |> <| runtime_fenced_at := None |>) ;;
    commit_at at'.

Definition request_evacuation (member : WorkloadReplicaMember.t) (node : NodeId) (at' : Time) :
    method t unit :=
  let at' := canonical_timestamp at' in
  self ← get;
  if is_nil node
     || (member.(WorkloadReplicaMember.replica_id) != self.(id))
     || (member.(WorkloadReplicaMember.workload_id) != self.(workload_id))
     || (member.(WorkloadReplicaMember.node_id) != Some node)
     || (at' <? Z.max self.(updated_at) member.(WorkloadReplicaMember.updated_at))%Z
  then raise "Workload replica evacuation request is invalid"
  else if (self.(lifecycle) == Retiring) && (self.(evacuation_node_id) == Some node) then mret tt
  else if self.(lifecycle) != Desired then
    raise "Workload replica is not eligible for evacuation"
  else
    modify (fun self => self <| lifecycle := Retiring |> <| evacuation_node_id := Some node |>
                          <| retirement_command_id := None |> <| runtime_fenced_at := None |>) ;;
    commit_at at'.

Definition dispatch_retirement (command_id : NodeCommandId) (at' : Time) : method t unit :=
  let at' := canonical_timestamp at' in
  self ← get;
  if is_nil command_id
     || (self.(lifecycle) != Retiring)
     || is_some self.(runtime_fenced_at)
     || (at' <? self.(updated_at))%Z
  then raise "Workload replica retirement dispatch is invalid"
  else if self.(retirement_command_id) == Some command_id then mret tt
  else
    modify (fun self => self <| retirement_command_id := Some command_id |>) ;;
    commit_at at'.

Definition record_runtime_fenced (command_id : NodeCommandId) (fenced_at : Time) : method t unit :=
  let fenced_at := canonical_timestamp fenced_at in
  self ← get;
  if (self.(lifecycle) != Retiring)
     || (self.(retirement_command_id) != Some command_id)
     || (fenced_at <? self.(updated_at))%Z
  then raise "Workload replica Runtime fencing evidence is invalid"
  else if is_some self.(runtime_fenced_at) then
    if self.(runtime_fenced_at) == Some fenced_at then mret tt
    else raise "Workload replica Runtime fencing evidence cannot change"
  else
    modify (fun self => self <| runtime_fenced_at := Some fenced_at |>) ;;
    commit_at fenced_at.

Definition complete_retirement (member : WorkloadReplicaMember.t) (at' : Time) : method t unit :=
  let at' := canonical_timestamp at' in
  self ← get;
  if (member.(WorkloadReplicaMember.replica_id) != self.(id))
     || (member.(WorkloadReplicaMember.workload_id) != self.(workload_id))
     || is_some member.(WorkloadReplicaMember.node_id)
     || (self.(lifecycle) != Retiring)
     || is_some self.(evacuation_node_id)
     || (is_some self.(retirement_command_id) != is_some self.(runtime_fenced_at))
     || (at' <? Z.max self.(updated_at) member.(WorkloadReplicaMember.updated_at))%Z
  then raise "Workload replica cannot retire before its member is released"
  else
    modify (fun self => self <| lifecycle := Retired |>) ;;
    commit_at at'.

Definition complete_evacuation (member : WorkloadReplicaMember.t) (at' : Time) : method t unit :=
  let at' := canonical_timestamp at' in
  self ← get;
  if (member.(WorkloadReplicaMember.replica_id) != self.(id))
     || (member.(WorkloadReplicaMember.workload_id) != self.(workload_id))
     || is_some member.(WorkloadReplicaMember.node_id)
     || (self.(lifecycle) != Retiring)
     || is_none self.(evacuation_node_id)
     || is_none self.(retirement_command_id)
     || is_none self.(runtime_fenced_at)
     || (at' <? Z.max self.(updated_at) member.(WorkloadReplicaMember.updated_at))%Z
  then raise "Workload replica cannot complete evacuation before fencing"
  else
    bump_generation ;;
    modify (fun self => self <| lifecycle := Desired |> <| evacuation_node_id := None |>
                          <| retirement_command_id := None |> <| runtime_fenced_at := None |>) ;;
    commit_at at'.

Definition reactivate (revision : WorkloadRevision.t) (at' : Time) : method t unit :=
  let at' := canonical_timestamp at' in
  self ← get;
  if (self.(lifecycle) != Retired)
     || (revision.(WorkloadRevision.workload_id) != self.(workload_id))
     || (revision.(WorkloadRevision.generation) <? self.(revision_generation))%N
     || (at' <? self.(updated_at))%Z
  then raise "Workload replica reactivation is invalid"
  else
    modify (fun self => self <| revision_id := revision.(WorkloadRevision.id) |>) ;;
    modify (fun self => self <| revision_generation := revision.(WorkloadRevision.generation) |>) ;;
    bump_generation ;;
    modify (fun self => self <| lifecycle := Desired |> <| evacuation_node_id := None |>
                          <| retirement_command_id := None |> <| runtime_fenced_at := None |>) ;;
    commit_at at'.

End replica.
End WorkloadReplica.

(** Constructors of a member need its replica. *)
Module WorkloadReplicaMemberCreation.
Import WorkloadReplicaMember.
Section creation.
Context `{External}.

Definition for_ordinal (workload : Workload.t) (replica : WorkloadReplica.t) (ordinal : N) : result t :=
  WorkloadReplica.validate replica ;;
  fail_if ((replica.(WorkloadReplica.organization_id) != workload.(Workload.organization_id))
           || (replica.(WorkloadReplica.project_id) != workload.(Workload.project_id))
           || (replica.(WorkloadReplica.environment_id) != workload.(Workload.environment_id))
           || (replica.(WorkloadReplica.workload_id) != workload.(Workload.id)))
    "Workload replica member has the wrong replica" ;;
  id ← deterministic_id replica.(WorkloadReplica.id) ordinal;
  let member :=
    {| id := id;
       organization_id := workload.(Workload.organization_id);
       project_id := workload.(Workload.project_id);
       environment_id := workload.(Workload.environment_id);
       workload_id := workload.(Workload.id);
       replica_id := replica.(WorkloadReplica.id);
       ordinal := ordinal;
       node_id := None;
       placement_generation := 0;
       aggregate_version := 1;
       created_at := workload.(Workload.created_at);
       updated_at := workload.(Workload.created_at) |} in
  validate member ;;
  Ok member.

Definition for_replica (workload : Workload.t) (replica : WorkloadReplica.t) : result t :=
  for_ordinal workload replica CANONICAL_REPLICA_ORDINAL.

End creation.
End WorkloadReplicaMemberCreation.

Module DeploymentReplicaBinding.

Record t := Mk {
  deployment_id : DeploymentId;
  organization_id : OrganizationId;
  project_id : ProjectId;
  environment_id : EnvironmentId;
  workload_id : WorkloadId;
  revision_id : WorkloadRevisionId;
  replica_id : WorkloadReplicaId;
  replica_generation : N;
  member_id : WorkloadReplicaMemberId;
  node_id : option NodeId;
  placement_generation : N;
  runtime_unit_id : string;
  runtime_generation : N;
  created_at : Time;
  updated_at : Time;
}.

#[global] Instance t_eta : Eta t := fun r =>
  Mk r.(deployment_id) r.(organization_id) r.(project_id) r.(environment_id) r.(workload_id)
     r.(revision_id) r.(replica_id) r.(replica_generation) r.(member_id) r.(node_id)
     r.(placement_generation) r.(runtime_unit_id) r.(runtime_generation) r.(created_at)
     r.(updated_at).

#[global] Instance t_eq_dec : EqDecision t.
Proof. solve_decision. Defined.

Section binding.
Context `{External}.

Definition create_with_runtime_unit_id (deployment : Deployment.t) (replica : WorkloadReplica.t)
    (member : WorkloadReplicaMember.t) (runtime_unit_id : string) : t :=
  {| deployment_id := deployment.(Deployment.id);
     organization_id := replica.(WorkloadReplica.organization_id);
     project_id := replica.(WorkloadReplica.project_id);
     environment_id := replica.(WorkloadReplica.environment_id);
     workload_id := deployment.(Deployment.workload_id);
     revision_id := deployment.(Deployment.revision_id);
     replica_id := replica.(WorkloadReplica.id);
     replica_generation := replica.(WorkloadReplica.generation);
     member_id := member.(WorkloadReplicaMember.id);
     node_id := deployment.(Deployment.node_id);
     placement_generation := member.(WorkloadReplicaMember.placement_generation);
     runtime_unit_id := runtime_unit_id;
     runtime_generation := replica.(WorkloadReplica.generation);
     created_at := deployment.(Deployment.requested_at);
     updated_at := deployment.(Deployment.updated_at) |}.

Definition validate_lineage (self : t) (deployment : Deployment.t) (revision : WorkloadRevision.t)
    (replica : WorkloadReplica.t) (member : WorkloadReplicaMember.t) : result unit :=
  WorkloadReplica.validate replica ;;
  WorkloadReplicaMember.validate member ;;
  fail_if ((self.(deployment_id) != deployment.(Deployment.id))
           || (self.(organization_id) != deployment.(Deployment.organization_id))
           || (self.(organization_id) != replica.(WorkloadReplica.organization_id))
           || (self.(organization_id) != member.(WorkloadReplicaMember.organization_id))
           || (self.(project_id) != replica.(WorkloadReplica.project_id))
           || (self.(project_id) != member.(WorkloadReplicaMember.project_id))
           || (self.(environment_id) != replica.(WorkloadReplica.environment_id))
           || (self.(environment_id) != member.(WorkloadReplicaMember.environment_id))
           || (self.(workload_id) != deployment.(Deployment.workload_id))
           || (self.(revision_id) != deployment.(Deployment.revision_id))
           || (self.(revision_id) != revision.(WorkloadRevision.id))
           || (revision.(WorkloadRevision.workload_id) != self.(workload_id))
           || (revision.(WorkloadRevision.generation) =? 0)%N
           || (self.(replica_id) != replica.(WorkloadReplica.id))
           || (replica.(WorkloadReplica.workload_id) != self.(workload_id))
           || (self.(member_id) != member.(WorkloadReplicaMember.id))
           || (member.(WorkloadReplicaMember.replica_id) != self.(replica_id))
           || (member.(WorkloadReplicaMember.workload_id) != self.(workload_id))
           || (self.(replica_generation) =? 0)%N
           || (self.(runtime_generation) != self.(replica_generation))
           || is_some self.(node_id) && (self.(placement_generation) =? 0)%N
           || str_is_empty (trim self.(runtime_unit_id))
           || (512 <? str_len self.(runtime_unit_id))%N
           || contains_any [NUL; CR; LF] self.(runtime_unit_id)
           || (self.(updated_at) <? self.(created_at))%Z)
    "deployment replica binding lineage is invalid".

Definition validate_common (self : t) (deployment : Deployment.t) (revision : WorkloadRevision.t)
    (replica : WorkloadReplica.t) (member : WorkloadReplicaMember.t) : result unit :=
  validate_lineage self deployment revision replica member ;;
  fail_if ((replica.(WorkloadReplica.revision_id) != self.(revision_id))
           || (replica.(WorkloadReplica.revision_generation) != revision.(WorkloadRevision.generation))
           || (replica.(WorkloadReplica.lifecycle) != WorkloadReplicaLifecycle.Desired)
           || (self.(replica_generation) != replica.(WorkloadReplica.generation))
           || (self.(placement_generation) != member.(WorkloadReplicaMember.placement_generation))
           || (self.(runtime_generation) != replica.(WorkloadReplica.generation)))
    "deployment replica binding is invalid".

Definition validate_against (self : t) (deployment : Deployment.t) (revision : WorkloadRevision.t)
    (replica : WorkloadReplica.t) (member : WorkloadReplicaMember.t) : result unit :=
  validate_common self deployment revision replica member ;;
  fail_if ((self.(node_id) != deployment.(Deployment.node_id))
           || is_some self.(node_id) && (self.(node_id) != member.(WorkloadReplicaMember.node_id)))
    "deployment replica binding is invalid" ;;
  expected ← WorkloadReplica.runtime_unit_id replica revision;
  fail_if (self.(runtime_unit_id) != expected) "deployment replica binding is invalid".

Definition create (deployment : Deployment.t) (revision : WorkloadRevision.t)
    (replica : WorkloadReplica.t) (member : WorkloadReplicaMember.t) : result t :=
  runtime_unit_id ← WorkloadReplica.runtime_unit_id replica revision;
  let binding := create_with_runtime_unit_id deployment replica member runtime_unit_id in
  validate_against binding deployment revision replica member ;;
  Ok binding.

Definition assign (deployment : Deployment.t) (member : WorkloadReplicaMember.t) : method t unit :=
  self ← get;
  if (deployment.(Deployment.id) != self.(deployment_id))
     || (deployment.(Deployment.node_id) != member.(WorkloadReplicaMember.node_id))
     || (deployment.(Deployment.updated_at) <? self.(updated_at))%Z
     || (member.(WorkloadReplicaMember.replica_id) != self.(replica_id))
  then raise "deployment replica placement binding is inconsistent"
  else
    modify (fun self => self <| node_id := deployment.(Deployment.node_id) |>) ;;
    modify (fun self => self <| placement_generation := member.(WorkloadReplicaMember.placement_generation) |>) ;;
    modify (fun self => self <| updated_at := deployment.(Deployment.updated_at) |>).

Definition propose_assignment (self : t) (node : NodeId) (at' : Time) : result t :=
  let at' := canonical_timestamp at' in
  fail_if (is_some self.(node_id) || is_nil node || (at' <? self.(updated_at))%Z)
    "deployment replica binding cannot propose an initial assignment" ;;
  let candidate := self <| node_id := Some node |> in
  let candidate :=
    if (candidate.(placement_generation) =? 0)%N then candidate <| placement_generation := 1%N |>
    else candidate in
  Ok (candidate <| updated_at := at' |>).

Definition placement_group_resource_claim_id (self : t) : ResourceClaimId :=
  uuid_v5 self.(deployment_id)
    (PLACEMENT_GROUP_CLAIM_ID_DOMAIN ++ ":" ++ uuid_display self.(member_id))%string.

Definition is_current_runtime_assignment (self : t) (deployment : Deployment.t)
    (revision : WorkloadRevision.t) (replica : WorkloadReplica.t)
    (member : WorkloadReplicaMember.t) : result bool :=
  validate_lineage self deployment revision replica member ;;
  if (replica.(WorkloadReplica.revision_id) != self.(revision_id))
     || (replica.(WorkloadReplica.revision_generation) != revision.(WorkloadRevision.generation))
     || (replica.(WorkloadReplica.lifecycle) != WorkloadReplicaLifecycle.Desired)
     || (self.(replica_generation) != replica.(WorkloadReplica.generation))
     || (self.(placement_generation) != member.(WorkloadReplicaMember.placement_generation))
     || (self.(node_id) != member.(WorkloadReplicaMember.node_id))
  then Ok false
  else match self.(node_id) with
  | None => Ok false
  | Some node =>
    expected ← WorkloadReplica.runtime_unit_id_for_member replica revision member;
    if (self.(runtime_unit_id) != expected)
       || (member.(WorkloadReplicaMember.ordinal) == CANONICAL_REPLICA_ORDINAL)
          && (deployment.(Deployment.node_id) != Some node)
    then err "deployment replica live assignment is inconsistent"
    else Ok true
  end.

End binding.

(** The check of the reservation transaction
    ([persistence/postgres/resource_claims.rs]): the reservation carries the stored binding, or the
    stored binding with the node it is about to be placed on. *)
Definition member_matches (member : WorkloadReplicaMember.t) (reservation_node : NodeId)
    (reservation_binding : t) : bool :=
  match member.(WorkloadReplicaMember.node_id) with
  | Some node =>
    (node == reservation_node)
    && (member.(WorkloadReplicaMember.placement_generation) == reservation_binding.(placement_generation))
  | None =>
    checked_add member.(WorkloadReplicaMember.placement_generation) 1
    == Some reservation_binding.(placement_generation)
  end.

Definition binding_matches (persisted_binding : t) (member : WorkloadReplicaMember.t)
    (reservation_node : NodeId) (reservation_binding : t) : bool :=
  (persisted_binding == reservation_binding)
  || member_matches member reservation_node reservation_binding
     && match propose_assignment persisted_binding reservation_node reservation_binding.(updated_at) with
        | Ok candidate => candidate == reservation_binding
        | Err _ => false
        end.

End DeploymentReplicaBinding.

(** ** Every mutation of a replica and of a member *)
Module ReplicaLifecycle.
Import WorkloadReplicaLifecycle WorkloadReplica.

Inductive op :=
| Advance (revision : WorkloadRevision.t) (at' : Time)
| RequestRetirement (at' : Time)
| RequestEvacuation (member : WorkloadReplicaMember.t) (node : NodeId) (at' : Time)
| DispatchRetirement (command_id : NodeCommandId) (at' : Time)
| RecordRuntimeFenced (command_id : NodeCommandId) (fenced_at : Time)
| CompleteRetirement (member : WorkloadReplicaMember.t) (at' : Time)
| CompleteEvacuation (member : WorkloadReplicaMember.t) (at' : Time)
| Reactivate (revision : WorkloadRevision.t) (at' : Time).

Definition step (o : op) : method WorkloadReplica.t unit :=
  match o with
  | Advance revision at' => advance revision at'
  | RequestRetirement at' => request_retirement at'
  | RequestEvacuation member node at' => request_evacuation member node at'
  | DispatchRetirement command at' => dispatch_retirement command at'
  | RecordRuntimeFenced command at' => record_runtime_fenced command at'
  | CompleteRetirement member at' => complete_retirement member at'
  | CompleteEvacuation member at' => complete_evacuation member at'
  | Reactivate revision at' => reactivate revision at'
  end.

(** The revision an operation brings in has an identity. *)
Definition revision_ok (o : op) : Prop :=
  match o with
  | Advance revision _ | Reactivate revision _ => is_nil revision.(WorkloadRevision.id) = false
  | _ => True
  end.

Ltac run_step H o :=
  destruct o; cbn [step] in H;
  unfold advance, request_retirement, request_evacuation, dispatch_retirement, record_runtime_fenced,
    complete_retirement, complete_evacuation, reactivate, commit_at, bump_generation, bump_version in H;
  run_method H.

(** What a replica stands for: an incarnation of one revision, current or being withdrawn. *)
Definition epoch (r : WorkloadReplica.t) : N :=
  (2 * r.(generation) + (if r.(lifecycle) == Desired then 0 else 1))%N.

Lemma step_epoch o r r' :
  step o r = (r', Ok tt) ->
  (epoch r <= epoch r')%N
  /\ (epoch r' = epoch r -> r'.(lifecycle) = Desired ->
      r'.(revision_id) = r.(revision_id) /\ r'.(revision_generation) = r.(revision_generation)).
Proof.
  intros Hs. run_step Hs o; simplify_eq/=.
  all: repeat match goal with H : checked_add _ _ = Some _ |- _ => apply checked_add_Some in H end.
  all: reflect_bools; destruct_and?; unfold epoch; simpl.
  all: repeat match goal with H : lifecycle _ = _ |- _ => rewrite H in * end; simpl.
  all: repeat case_bool_decide; try congruence; split; intros; try done; lia.
Qed.

(** The invariant [validate] checks, as a proposition. *)
Definition valid `{External} (r : WorkloadReplica.t) : Prop := validate r = Ok tt.

(** The part of it no operation touches. *)
Definition identity `{External} (r : WorkloadReplica.t) : Prop :=
  is_nil r.(id) = false /\ is_nil r.(organization_id) = false /\ is_nil r.(project_id) = false
  /\ is_nil r.(environment_id) = false /\ is_nil r.(workload_id) = false
  /\ ok (deterministic_id r.(workload_id) r.(ordinal)) = Some r.(id).

Lemma valid_iff `{External} r :
  valid r <->
  identity r /\ is_nil r.(revision_id) = false /\ r.(revision_generation) <> 0%N
  /\ r.(generation) <> 0%N /\ r.(aggregate_version) <> 0%N /\ (r.(created_at) <= r.(updated_at))%Z
  /\ is_some_and is_nil r.(evacuation_node_id) = false
  /\ (forall f, r.(runtime_fenced_at) = Some f -> (r.(created_at) <= f <= r.(updated_at))%Z)
  /\ retirement_state_valid r = true.
Proof.
  unfold valid, validate, identity. rewrite then_Ok, !fail_if_Ok, negb_false_iff.
  destruct (runtime_fenced_at r) as [f|]; cbn [is_some_and]; reflect_bools.
  - intuition (try congruence; try lia); simplify_eq; try lia.
    all: match goal with H : forall f, _ -> _ |- _ => specialize (H _ eq_refl); lia end.
  - intuition congruence.
Qed.

Lemma step_valid `{External} o r r' :
  valid r -> revision_ok o -> step o r = (r', Ok tt) -> valid r'.
Proof.
  rewrite !valid_iff. unfold retirement_state_valid, is_none, revision_ok.
  intros (Hid & Hr & Hrg & Hg & Hv & Ht & He & Hf & Hret) Ho Hs.
  destruct r as [? ? ? ? ? ? ? ? ? lc ev cmd fenced ? ? ?]. cbn in *.
  run_step Hs o; simplify_eq/=.
  all: repeat match goal with H : checked_add _ _ = Some _ |- _ => apply checked_add_Some in H end.
  all: reflect_bools; destruct_and?; simplify_eq/=.
  all: split_and!; try done; try lia.
  all: intros f Ef; first [injection Ef as <-; lia | specialize (Hf f Ef); lia].
Qed.

(** The state that is written back: an aggregate whose call was rejected is dropped. *)
Definition commit (o : op) (r : WorkloadReplica.t) : WorkloadReplica.t :=
  match step o r with (r', Ok _) => r' | (_, Err _) => r end.

Definition commit_all (ops : list op) (r : WorkloadReplica.t) : WorkloadReplica.t :=
  fold_left (fun r o => commit o r) ops r.

Lemma commit_epoch o r :
  (epoch r <= epoch (commit o r))%N
  /\ (epoch (commit o r) = epoch r -> (commit o r).(lifecycle) = Desired ->
      (commit o r).(revision_id) = r.(revision_id)
      /\ (commit o r).(revision_generation) = r.(revision_generation)).
Proof.
  unfold commit. destruct (step o r) as [r' [[]|e]] eqn:E; [by apply step_epoch in E|].
  split; [lia|done].
Qed.

Lemma commit_all_epoch ops r : (epoch r <= epoch (commit_all ops r))%N.
Proof.
  revert r. induction ops as [|o ops IH]; intros r; simpl; [lia|].
  destruct (commit_epoch o r) as [? _]. specialize (IH (commit o r)). lia.
Qed.

Lemma same_epoch r r' :
  r.(lifecycle) = Desired -> r'.(lifecycle) = Desired -> r'.(generation) = r.(generation) ->
  epoch r' = epoch r.
Proof. unfold epoch. by intros -> -> ->. Qed.

Lemma epoch_desired r r' :
  r.(lifecycle) = Desired -> epoch r' = epoch r ->
  r'.(lifecycle) = Desired /\ r'.(generation) = r.(generation).
Proof. unfold epoch. intros ->. simpl. case_bool_decide; [|lia]. split; [done|lia]. Qed.

Definition overflows (r : WorkloadReplica.t) : Prop :=
  (u64_max <= r.(generation))%N \/ (u64_max <= r.(aggregate_version))%N.

Lemma replica_step_atomic o r r' e : step o r = (r', Err e) -> r' = r \/ overflows r.
Proof.
  intros Hs. unfold overflows. run_step Hs o; simplify_eq/=; auto.
  all: repeat match goal with H : checked_add _ _ = None |- _ => apply checked_add_None in H end.
  all: right; lia.
Qed.

(** The replica invariant is kept by every accepted call, whatever the order: identity derived
    from the workload and ordinal, positive generations, evidence that matches the lifecycle, and
    fencing evidence dated within the replica's life. *)
Theorem replica_invariant_preserved `{External} ops r :
  validate r = Ok tt -> Forall revision_ok ops -> validate (commit_all ops r) = Ok tt.
Proof.
  intros Hr Hops. revert r Hr. induction Hops as [|o ops Ho _ IH]; intros r Hr; simpl; [done|].
  apply IH. unfold commit. destruct (step o r) as [r' [[]|e]] eqn:E; [|done]. by eapply step_valid.
Qed.

(** C35: Generations fence incarnations of a replica: when it is desired now and was desired with
    the same generation before, then it was desired with that generation and revision all along,
    with no retirement or evacuation in between. *)
Theorem replica_generation_fences r before after :
  let r1 := commit_all before r in
  let r2 := commit_all after r1 in
  r.(lifecycle) = Desired -> r2.(lifecycle) = Desired -> r2.(generation) = r.(generation) ->
  r1.(lifecycle) = Desired /\ r1.(generation) = r.(generation)
  /\ r1.(revision_id) = r.(revision_id).
Proof.
  intros r1 r2 Hr Hr2 Hg.
  assert (epoch r1 = epoch r) as He1.
  { pose proof (commit_all_epoch before r) as H1. pose proof (commit_all_epoch after r1) as H2.
    fold r1 in H1. fold r2 in H2. rewrite (same_epoch r r2) in H2 by done. lia. }
  destruct (epoch_desired r r1 Hr He1) as [Hd Hg1]. split_and!; [done|done|].
  clear r2 Hr2 Hg after Hg1 Hd. subst r1. revert r Hr He1.
  induction before as [|o ops IH]; intros r Hr He; simpl in *; [done|].
  destruct (commit_epoch o r) as [Hle Hrev]. pose proof (commit_all_epoch ops (commit o r)) as Hle2.
  assert (epoch (commit o r) = epoch r) as He' by lia.
  destruct (epoch_desired _ _ Hr He') as [Hd _].
  destruct (Hrev He' Hd) as [Hid _]. rewrite <- Hid. apply IH; [done|congruence].
Qed.

(** A rejected call leaves the replica exactly as it was, unless a 64-bit counter is exhausted. *)
Theorem replica_errors_atomic o r r' e :
  step o r = (r', Err e) -> (r.(generation) < u64_max)%N -> (r.(aggregate_version) < u64_max)%N -> r' = r.
Proof.
  intros Hs Hg Hv. destruct (replica_step_atomic _ _ _ _ Hs) as [|[?|?]]; [done|lia|lia].
Qed.


(** Fencing evidence only appears by recording it for the dispatched command. *)
Lemma step_fenced o r r' f :
  step o r = (r', Ok tt) -> r.(runtime_fenced_at) = None -> r'.(runtime_fenced_at) = Some f ->
  exists c t, o = RecordRuntimeFenced c t /\ r.(retirement_command_id) = Some c.
Proof.
  intros Hs Hn Hf. run_step Hs o; simplify_eq/=; try congruence.
  reflect_bools. destruct_and?. eauto.
Qed.

Lemma fenced_history ops r f :
  r.(runtime_fenced_at) = None -> (commit_all ops r).(runtime_fenced_at) = Some f ->
  exists ops1 c t ops2, ops = ops1 ++ RecordRuntimeFenced c t :: ops2
    /\ (commit_all ops1 r).(retirement_command_id) = Some c
    /\ exists r', step (RecordRuntimeFenced c t) (commit_all ops1 r) = (r', Ok tt).
Proof.
  intros Hr. revert f. induction ops as [|o ops IH] using rev_ind; intros f; [simpl; congruence|].
  unfold commit_all. rewrite fold_left_app. fold (commit_all ops r). cbn [fold_left].
  intros Hf. destruct (runtime_fenced_at (commit_all ops r)) as [f'|] eqn:Ef.
  - destruct (IH f' eq_refl) as (ops1 & c & t & ops2 & -> & ? & ?).
    exists ops1, c, t, (ops2 ++ [o]). by rewrite <- app_assoc.
  - unfold commit in Hf. destruct (step o _) as [r' [[]|]] eqn:E; [|congruence].
    destruct (step_fenced _ _ _ _ E Ef Hf) as (c & t & -> & Hc). exists ops, c, t, []. eauto.
Qed.

(** No evacuation completes without a fence: when a replica that carries no fencing evidence
    accepts the completion of an evacuation after some calls, one of these calls recorded the
    Runtime fence for the retirement command that was dispatched at that point. *)
Theorem evacuation_requires_fence r ops member t r' :
  r.(runtime_fenced_at) = None ->
  step (CompleteEvacuation member t) (commit_all ops r) = (r', Ok tt) ->
  r'.(generation) = ((commit_all ops r).(generation) + 1)%N
  /\ member.(WorkloadReplicaMember.node_id) = None
  /\ exists ops1 c tf ops2, ops = ops1 ++ RecordRuntimeFenced c tf :: ops2
    /\ (commit_all ops1 r).(retirement_command_id) = Some c
    /\ exists r1, step (RecordRuntimeFenced c tf) (commit_all ops1 r) = (r1, Ok tt).
Proof.
  intros Hr Hs. cbn [step] in Hs. unfold complete_evacuation, commit_at, bump_generation, bump_version in Hs.
  run_method Hs; simplify_eq/=.
  repeat match goal with H : checked_add _ _ = Some _ |- _ => apply checked_add_Some in H end.
  reflect_bools. unfold is_none in *. reflect_bools. destruct_and?. subst. split_and!; [done| |].
  - destruct (WorkloadReplicaMember.node_id member); done.
  - destruct (runtime_fenced_at (commit_all ops r)) as [f|] eqn:Ef; [|done].
    by eapply fenced_history.
Qed.

End ReplicaLifecycle.

Module MemberLifecycle.
Import WorkloadReplicaMember.

Inductive op :=
| Place (node : NodeId) (at' : Time)
| ReleaseAfterFencing (node : NodeId) (at' : Time).

Definition step (o : op) : method WorkloadReplicaMember.t unit :=
  match o with
  | Place node at' => place node at'
  | ReleaseAfterFencing node at' => release_after_fencing node at'
  end.

Definition commit (o : op) (m : WorkloadReplicaMember.t) : WorkloadReplicaMember.t :=
  match step o m with (m', Ok _) => m' | (_, Err _) => m end.

Definition commit_all (ops : list op) (m : WorkloadReplicaMember.t) : WorkloadReplicaMember.t :=
  fold_left (fun m o => commit o m) ops m.

(** Placements are numbered: [2 g] while placed with generation [g], [2 g + 1] after its release. *)
Definition placement_epoch (m : WorkloadReplicaMember.t) : N :=
  (2 * m.(placement_generation) + (if is_some m.(node_id) then 0 else 1))%N.

Lemma step_placement o m m' :
  step o m = (m', Ok tt) ->
  (placement_epoch m <= placement_epoch m')%N
  /\ (placement_epoch m' = placement_epoch m -> m'.(node_id) = m.(node_id)).
Proof.
  intros Hs. unfold placement_epoch. destruct o; cbn [step] in Hs;
    unfold place, release_after_fencing, bump_placement, bump_version in Hs;
    run_method Hs; simplify_eq/=;
    repeat match goal with H : checked_add _ _ = Some _ |- _ => apply checked_add_Some in H end;
    destruct_and?; repeat match goal with H : node_id _ = _ |- _ => rewrite H in * end;
    simpl; split; intros; try done; lia.
Qed.

Lemma commit_placement o m :
  (placement_epoch m <= placement_epoch (commit o m))%N
  /\ (placement_epoch (commit o m) = placement_epoch m -> (commit o m).(node_id) = m.(node_id)).
Proof.
  unfold commit. destruct (step o m) as [m' [[]|e]] eqn:E; [by apply step_placement in E|].
  split; [lia|done].
Qed.

Lemma commit_all_placement ops m :
  (placement_epoch m <= placement_epoch (commit_all ops m))%N
  /\ (placement_epoch (commit_all ops m) = placement_epoch m -> (commit_all ops m).(node_id) = m.(node_id)).
Proof.
  revert m. induction ops as [|o ops IH]; intros m; simpl; [split; [lia|done]|].
  destruct (commit_placement o m) as [H1 H2], (IH (commit o m)) as [H3 H4].
  split; [lia|]. intros E. rewrite H4, H2; [done|lia|lia].
Qed.

Lemma step_member_valid `{External} o m m' :
  validate m = Ok tt -> step o m = (m', Ok tt) -> validate m' = Ok tt.
Proof.
  unfold validate. rewrite !fail_if_Ok. intros Hv Hs.
  destruct o; cbn [step] in Hs;
    unfold place, release_after_fencing, bump_placement, bump_version in Hs;
    run_method Hs; simplify_eq/=;
    repeat match goal with H : checked_add _ _ = Some _ |- _ => apply checked_add_Some in H end;
    reflect_bools; destruct_and?; split_and!;
    solve [done | lia | intuition (congruence || lia) | left; by rewrite E0].
Qed.

(** The member invariant is kept by every accepted placement and release. *)
Theorem member_invariant_preserved `{External} ops m :
  validate m = Ok tt -> validate (commit_all ops m) = Ok tt.
Proof.
  revert m. induction ops as [|o ops IH]; intros m Hm; simpl; [done|]. apply IH.
  unfold commit. destruct (step o m) as [m' [[]|e]] eqn:E; [|done]. by eapply step_member_valid.
Qed.

End MemberLifecycle.

Section binding_properties.
Context `{External}.
Import DeploymentReplicaBinding.

Lemma current_assignment_iff b d v r m :
  is_current_runtime_assignment b d v r m = Ok true ->
  exists node, m.(WorkloadReplicaMember.node_id) = Some node /\ b.(node_id) = Some node
    /\ b.(placement_generation) = m.(WorkloadReplicaMember.placement_generation)
    /\ r.(WorkloadReplica.lifecycle) = WorkloadReplicaLifecycle.Desired
    /\ b.(replica_generation) = r.(WorkloadReplica.generation)
    /\ r.(WorkloadReplica.revision_id) = b.(revision_id).
Proof.
  unfold is_current_runtime_assignment. rewrite then_Ok. intros [_ Hc].
  destruct (_ || _) eqn:E in Hc; [discriminate|]. reflect_bools. destruct_and?.
  destruct (node_id b) as [node|] eqn:En; [|discriminate]. exists node. split_and!; congruence.
Qed.

(** A binding grants authority to one placement only: if a deployment binding is the current
    assignment of a member before and after any sequence of placements and releases, the member was
    on the binding's node at every moment in between.  A binding that lost its node, even one whose
    member came back to the same node, is never current again. *)
Theorem current_binding_fences_placement b d v r m before after d' v' r' :
  let m1 := MemberLifecycle.commit_all before m in
  let m2 := MemberLifecycle.commit_all after m1 in
  is_current_runtime_assignment b d v r m = Ok true ->
  is_current_runtime_assignment b d' v' r' m2 = Ok true ->
  m1.(WorkloadReplicaMember.node_id) = b.(node_id).
Proof.
  intros m1 m2 (n & Hm & Hb & Hg & _)%current_assignment_iff (n2 & Hm2 & Hb2 & Hg2 & _)%current_assignment_iff.
  assert (MemberLifecycle.placement_epoch m2 = MemberLifecycle.placement_epoch m) as E.
  { unfold MemberLifecycle.placement_epoch. by rewrite Hm, Hm2, <- Hg, <- Hg2. }
  destruct (MemberLifecycle.commit_all_placement before m) as [H1 H1'].
  destruct (MemberLifecycle.commit_all_placement after m1) as [H2 _]. fold m1 in H1, H1'. fold m2 in H2.
  rewrite H1' by lia. congruence.
Qed.

Lemma propose_assignment_Ok b node t c :
  propose_assignment b node t = Ok c ->
  b.(node_id) = None /\ c.(node_id) = Some node
  /\ c.(placement_generation) = (if (b.(placement_generation) =? 0)%N then 1 else b.(placement_generation))%N
  /\ propose_assignment b node c.(updated_at) = Ok c.
Proof.
  unfold propose_assignment. rewrite !then_Ok, !fail_if_Ok. intros [Hg [= <-]]. reflect_bools.
  cbn [placement_generation]. simpl. destruct Hg as [[Hn Hnil] Ht].
  split; [by destruct (node_id b)|].
  destruct (placement_generation b =? 0)%N eqn:E; simpl; rewrite canonical_timestamp_idemp, ?E;
    split_and!; try done; lia.
Qed.

(** A proposed assignment names the placement generation the reservation transaction expects
    only for the first placement of a member.  For a member that was placed before and then
    released, every proposal made from its deployment's binding is refused as a conflict. *)
Theorem proposal_accepted_only_first d v r m b node t c :
  create d v r m = Ok b -> m.(WorkloadReplicaMember.node_id) = None ->
  propose_assignment b node t = Ok c ->
  binding_matches b m node c = (m.(WorkloadReplicaMember.placement_generation) =? 0)%N.
Proof.
  unfold create. rewrite result_bind_Ok. intros (u & _ & Hc) Hm (Hb & Hn & Hg & Hagain)%propose_assignment_Ok.
  rewrite then_Ok in Hc. destruct Hc as [_ [= <-]].
  unfold binding_matches, member_matches. rewrite Hm, Hagain, Hg. cbn [placement_generation create_with_runtime_unit_id].
  rewrite bool_decide_eq_false_2 by (intros <-; congruence).
  rewrite (bool_decide_eq_true_2 (c = c)) by done. rewrite andb_true_r. cbn [orb].
  destruct (N.eqb_spec (WorkloadReplicaMember.placement_generation m) 0) as [->|Hne]; [done|].
  apply bool_decide_eq_false_2. intros Hs. apply checked_add_Some in Hs. lia.
Qed.
End binding_properties.

(** ** Evaluations *)
Module ReplicaSamples.
Import Toy.

Definition workload : Workload.t := Workload.create 1 2 3 4 (ResourceName.Mk "Web" "web") 1000.
Definition revision : WorkloadRevision.t := RevisionSamples.unresolved 5 1 1 1000.

Definition or_default {A} (r : result A) (d : A) : A := match r with Ok a => a | Err _ => d end.

Definition replica : WorkloadReplica.t :=
  or_default (WorkloadReplica.canonical workload revision)
    (WorkloadReplica.Mk 0 0 0 0 0 0 0 0 0 WorkloadReplicaLifecycle.Retired None None None 0 0 0).

Definition member : WorkloadReplicaMember.t :=
  or_default (WorkloadReplicaMemberCreation.for_replica workload replica)
    (WorkloadReplicaMember.Mk 0 0 0 0 0 0 0 None 0 0 0 0).

Definition placed : WorkloadReplicaMember.t := MemberLifecycle.commit (MemberLifecycle.Place 7 2000) member.

(** A deployment scheduled on node 7. *)
Definition deployment : Deployment.t :=
  DeploymentLifecycle.run_all
    [DeploymentLifecycle.Resolve 2000; DeploymentLifecycle.Schedule 7 3000]%Z
    (Deployment.create 10 2 1 5 11 1000).

Definition binding : DeploymentReplicaBinding.t :=
  or_default (DeploymentReplicaBinding.create deployment revision replica placed)
    (DeploymentReplicaBinding.Mk 0 0 0 0 0 0 0 0 0 None 0 EmptyString 0 0 0).

Definition released : WorkloadReplicaMember.t :=
  MemberLifecycle.commit (MemberLifecycle.ReleaseAfterFencing 7 4000) placed.
Definition next_deployment : Deployment.t := Deployment.create 12 2 1 5 13 5000.
Definition next_binding : DeploymentReplicaBinding.t :=
  or_default (DeploymentReplicaBinding.create next_deployment revision replica released)
    (DeploymentReplicaBinding.Mk 0 0 0 0 0 0 0 0 0 None 0 EmptyString 0 0 0).

Definition evacuation : list ReplicaLifecycle.op :=
  [ReplicaLifecycle.RequestEvacuation placed 7 3000; ReplicaLifecycle.DispatchRetirement 9 4000;
   ReplicaLifecycle.RecordRuntimeFenced 9 5000]%Z.

Lemma replica_invariant_preserved_witness :
  WorkloadReplica.validate (ReplicaLifecycle.commit_all evacuation replica) = Ok tt.
Proof.
  apply ReplicaLifecycle.replica_invariant_preserved; [vm_compute; reflexivity|].
  repeat constructor.
Defined.

Lemma replica_generation_fences_witness :
  let r1 := ReplicaLifecycle.commit_all [ReplicaLifecycle.RequestRetirement 500]%Z replica in
  r1.(WorkloadReplica.lifecycle) = WorkloadReplicaLifecycle.Desired.
Proof.
  apply (ReplicaLifecycle.replica_generation_fences replica [ReplicaLifecycle.RequestRetirement 500]%Z []);
    vm_compute; reflexivity.
Defined.

Lemma replica_errors_atomic_witness :
  let r := ReplicaLifecycle.commit_all evacuation replica in
  run_state (ReplicaLifecycle.step (ReplicaLifecycle.DispatchRetirement 10 6000)) r = r.
Proof.
  intros r.
  destruct (run_result (ReplicaLifecycle.step (ReplicaLifecycle.DispatchRetirement 10 6000)) r) as [|e] eqn:E;
    [vm_compute in E; discriminate E|].
  apply (ReplicaLifecycle.replica_errors_atomic (ReplicaLifecycle.DispatchRetirement 10 6000) r _ e);
    [rewrite <- E; apply run_eq|vm_compute; reflexivity|vm_compute; reflexivity].
Defined.

Lemma evacuation_requires_fence_witness :
  let r' := run_state (ReplicaLifecycle.step (ReplicaLifecycle.CompleteEvacuation released 6000))
              (ReplicaLifecycle.commit_all evacuation replica) in
  r'.(WorkloadReplica.generation) = 2%N.
Proof.
  intros r'. destruct (ReplicaLifecycle.evacuation_requires_fence replica evacuation released 6000 r')
    as [H _]; [vm_compute; reflexivity|vm_compute; reflexivity|].
  rewrite H. vm_compute. reflexivity.
Defined.

Lemma member_invariant_preserved_witness :
  WorkloadReplicaMember.validate
    (MemberLifecycle.commit_all [MemberLifecycle.Place 7 2000; MemberLifecycle.ReleaseAfterFencing 7 4000]%Z member)
  = Ok tt.
Proof. apply MemberLifecycle.member_invariant_preserved. vm_compute. reflexivity. Defined.

Lemma current_binding_fences_placement_witness :
  let m1 := MemberLifecycle.commit_all [MemberLifecycle.Place 8 4000]%Z placed in
  m1.(WorkloadReplicaMember.node_id) = binding.(DeploymentReplicaBinding.node_id).
Proof.
  apply (current_binding_fences_placement binding deployment revision replica placed
           [MemberLifecycle.Place 8 4000]%Z [MemberLifecycle.Place 7 5000]%Z deployment revision replica);
    vm_compute; reflexivity.
Defined.

Lemma proposal_accepted_only_first_witness :
  exists c, DeploymentReplicaBinding.propose_assignment next_binding 8 6000 = Ok c
    /\ DeploymentReplicaBinding.binding_matches next_binding released 8 c = false.
Proof.
  destruct (DeploymentReplicaBinding.propose_assignment next_binding 8 6000) as [c|] eqn:E;
    [|vm_compute in E; discriminate E].
  exists c. split; [reflexivity|].
  rewrite (proposal_accepted_only_first next_deployment revision replica released next_binding 8 6000 c);
    [vm_compute; reflexivity|vm_compute; reflexivity|vm_compute; reflexivity|exact E].
Defined.

End ReplicaSamples.
