(* ===== verification/WorkloadControls.v ===== *)
(** * The control record of a workload

    [workloads/domain/entities/workload_control.rs]: who owns a workload, how many replicas it shall
    have and where they may run.  The effective placement policy carries its own digest; every change
    of it takes the next generation. *)

From Stdlib Require Import ZArith NArith Lia String.
From S2P Require Import Prelude RustStd External Text SharedKernel Workloads Replicas.

Definition EFFECTIVE_PLACEMENT_POLICY_SCHEMA : string := "a3s.cloud.effective-placement-policy.v3".
Definition MAX_OWNER_KIND_LENGTH : N := 64.

Module ManagedOwnerKind.
(** The newtype's string. *)
Record t := Kind { as_str : string }.

#[global] Instance t_eq_dec : EqDecision t.
Proof. solve_decision. Defined.

(** A byte of a segment, with its index. *)
Definition segment_byte (index : nat) (byte : N) : bool :=
  is_ascii_lowercase byte
  || (0 <? index)%nat && is_ascii_digit byte
  || (0 <? index)%nat && (byte =? HYPHEN)%N.

Definition parse (value : string) : result t :=
  let segments := split_bytes DOT (bytes_of value) in
  if (MAX_OWNER_KIND_LENGTH <? str_len value)%N
     || (len segments <? 2)%N
     || any (fun segment =>
          is_empty segment
          || (32 <? len segment)%N
          || any (fun ib => negb (segment_byte ib.1 ib.2)) (imap pair segment)) segments
  then err "managed owner kind must be a bounded dot-separated lowercase key"
  else Ok (Kind value).
End ManagedOwnerKind.

Module ManagedOwnerReference.
Record t := Mk {
  kind : ManagedOwnerKind.t;
  owner_id : Uuid;
  owner_generation : N;
  owner_spec_digest : string;
}.

#[global] Instance t_eq_dec : EqDecision t.
Proof. solve_decision. Defined.

Definition validate (self : t) : result unit :=
  fail_if (is_nil self.(owner_id)
           || (self.(owner_generation) =? 0)%N
           || negb (is_sha256_digest self.(owner_spec_digest)))
    "managed owner reference is invalid" ;;
  _ ← ManagedOwnerKind.parse (ManagedOwnerKind.as_str self.(kind));
  Ok tt.

Definition new (kind : ManagedOwnerKind.t) (owner_id : Uuid) (owner_generation : N) (owner_spec_digest : string) :
    result t :=
  let reference := Mk kind owner_id owner_generation owner_spec_digest in
  validate reference ;; Ok reference.
End ManagedOwnerReference.

Module PlacementTopology.
Inductive t :=
| SingleNode
| MultiNode.

#[global] Instance t_eq_dec : EqDecision t.
Proof. solve_decision. Defined.

Definition to_json (self : t) : json :=
  JStr match self with SingleNode => "single_node" | MultiNode => "multi_node" end.
End PlacementTopology.

Module ReplicaAntiAffinity.
Inductive t :=
| Required.

#[global] Instance t_eq_dec : EqDecision t.
Proof. solve_decision. Defined.

Definition to_json (self : t) : json := JStr match self with Required => "required" end.
End ReplicaAntiAffinity.

Module EffectivePlacementPolicy.
Import PlacementTopology.

Record t := Mk {
  schema : string;
  generation : N;
  desired_replicas : N;
  members_per_replica : N;
  topology : PlacementTopology.t;
  replica_anti_affinity : ReplicaAntiAffinity.t;
  node_pool_id : option NodePoolId;
  digest : string;
}.

#[global] Instance t_eta : Eta t := fun r =>
  Mk r.(schema) r.(generation) r.(desired_replicas) r.(members_per_replica) r.(topology)
     r.(replica_anti_affinity) r.(node_pool_id) r.(digest).

#[global] Instance t_eq_dec : EqDecision t.
Proof. solve_decision. Defined.

Section policy.
Context `{External}.

(** The [DigestDocument]: every field but the digest. *)
Definition digest_document (self : t) : json :=
  JObj [("schema", JStr self.(schema));
        ("generation", JNum self.(generation));
        ("desiredReplicas", JNum self.(desired_replicas));
        ("membersPerReplica", JNum self.(members_per_replica));
        ("topology", PlacementTopology.to_json self.(topology));
        ("replicaAntiAffinity", ReplicaAntiAffinity.to_json self.(replica_anti_affinity));
        ("nodePoolId", json_option (fun id => JStr (uuid_display id)) self.(node_pool_id))]%string.

Definition calculate_digest (self : t) : result string :=
  digest_json (digest_document self) "could not digest effective placement policy: {error}".

Definition members_mismatch (self : t) : bool :=
  match self.(topology) with
  | SingleNode => negb (self.(members_per_replica) =? 1)%N
  | MultiNode => (self.(members_per_replica) <? 2)%N
  end.

Definition unsupported (self : t) : bool :=
  (self.(schema) != EFFECTIVE_PLACEMENT_POLICY_SCHEMA)
  || (self.(generation) =? 0)%N
  || (MAX_WORKLOAD_REPLICAS <? self.(desired_replicas))%N
  || (self.(members_per_replica) =? 0)%N
  || (MAX_WORKLOAD_PLACEMENT_GROUP_MEMBERS <? self.(members_per_replica))%N
  || members_mismatch self
  || is_some_and is_nil self.(node_pool_id)
  || negb (is_sha256_digest self.(digest)).

Definition validate (self : t) : result unit :=
  let message := "effective placement policy is unsupported, corrupt, or not canonical"%string in
  if unsupported self then err message
  else
    expected ← calculate_digest self;
    fail_if (expected != self.(digest)) message.

(** The digest is computed, then the whole policy is validated. *)
Definition seal (policy : t) : result t :=
  d ← calculate_digest policy;
  let policy := policy <| digest := d |> in
  validate policy ;; Ok policy.

Definition replica_set_in_pool (generation desired_replicas : N) (node_pool_id : option NodePoolId) : result t :=
  seal {| schema := EFFECTIVE_PLACEMENT_POLICY_SCHEMA;
          generation := generation;
          desired_replicas := desired_replicas;
          members_per_replica := 1;
          topology := SingleNode;
          replica_anti_affinity := ReplicaAntiAffinity.Required;
          node_pool_id := node_pool_id;
          digest := EmptyString |}.

Definition replica_set (generation desired_replicas : N) : result t :=
  replica_set_in_pool generation desired_replicas None.

Definition placement_group_in_pool (generation desired_replicas members_per_replica : N)
    (node_pool_id : option NodePoolId) : result t :=
  seal {| schema := EFFECTIVE_PLACEMENT_POLICY_SCHEMA;
          generation := generation;
          desired_replicas := desired_replicas;
          members_per_replica := members_per_replica;
          topology := MultiNode;
          replica_anti_affinity := ReplicaAntiAffinity.Required;
          node_pool_id := node_pool_id;
          digest := EmptyString |}.

Definition placement_group (generation desired_replicas members_per_replica : N) : result t :=
  placement_group_in_pool generation desired_replicas members_per_replica None.

(** [document()] serializes a valid policy. *)
Definition document (self : t) : result json :=
  validate self ;;
  Ok (JObj [("schema", JStr self.(schema));
            ("generation", JNum self.(generation));
            ("desiredReplicas", JNum self.(desired_replicas));
            ("membersPerReplica", JNum self.(members_per_replica));
            ("topology", PlacementTopology.to_json self.(topology));
            ("replicaAntiAffinity", ReplicaAntiAffinity.to_json self.(replica_anti_affinity));
            ("nodePoolId", json_option (fun id => JStr (uuid_display id)) self.(node_pool_id));
            ("digest", JStr self.(digest))]%string).

End policy.
End EffectivePlacementPolicy.

Module WorkloadControlSpec.
Record t := Mk {
  managed_owner : option ManagedOwnerReference.t;
  placement_policy : EffectivePlacementPolicy.t;
}.

#[global] Instance t_eta : Eta t := fun r => Mk r.(managed_owner) r.(placement_policy).

#[global] Instance t_eq_dec : EqDecision t.
Proof. solve_decision. Defined.

Section spec.
Context `{External}.

Definition validate (self : t) : result unit :=
  (match self.(managed_owner) with
   | Some owner => ManagedOwnerReference.validate owner
   | None => Ok tt
   end) ;;
  EffectivePlacementPolicy.validate self.(placement_policy).

Definition unmanaged_replica_set_in_pool (generation desired_replicas : N) (node_pool_id : option NodePoolId) :
    result t :=
  policy ← EffectivePlacementPolicy.replica_set_in_pool generation desired_replicas node_pool_id;
  Ok (Mk None policy).

Definition unmanaged_replica_set (generation desired_replicas : N) : result t :=
  unmanaged_replica_set_in_pool generation desired_replicas None.

Definition unmanaged_single_replica_in_pool (node_pool_id : NodePoolId) : result t :=
  unmanaged_replica_set_in_pool 1 1 (Some node_pool_id).

Definition unmanaged_placement_group (generation desired_replicas members_per_replica : N) : result t :=
  policy ← EffectivePlacementPolicy.placement_group generation desired_replicas members_per_replica;
  let spec := Mk None policy in
  validate spec ;; Ok spec.

Definition managed_replica_set_in_pool (owner : ManagedOwnerReference.t) (generation desired_replicas : N)
    (node_pool_id : option NodePoolId) : result t :=
  ManagedOwnerReference.validate owner ;;
  policy ← EffectivePlacementPolicy.replica_set_in_pool generation desired_replicas node_pool_id;
  Ok (Mk (Some owner) policy).

Definition managed_replica_set (owner : ManagedOwnerReference.t) (generation desired_replicas : N) : result t :=
  managed_replica_set_in_pool owner generation desired_replicas None.

Definition managed_single_replica (owner : ManagedOwnerReference.t) : result t := managed_replica_set owner 1 1.

Definition managed_placement_group (owner : ManagedOwnerReference.t)
    (generation desired_replicas members_per_replica : N) (node_pool_id : option NodePoolId) : result t :=
  ManagedOwnerReference.validate owner ;;
  policy ← EffectivePlacementPolicy.placement_group_in_pool generation desired_replicas members_per_replica
    node_pool_id;
  let spec := Mk (Some owner) policy in
  validate spec ;; Ok spec.

End spec.
End WorkloadControlSpec.

Module WorkloadControl.
Record t := Mk {
  organization_id : OrganizationId;
  project_id : ProjectId;
  environment_id : EnvironmentId;
  workload_id : WorkloadId;
  spec : WorkloadControlSpec.t;
  aggregate_version : N;
  created_at : Time;
  updated_at : Time;
}.

#[global] Instance t_eta : Eta t := fun r =>
  Mk r.(organization_id) r.(project_id) r.(environment_id) r.(workload_id) r.(spec) r.(aggregate_version)
     r.(created_at) r.(updated_at).

#[global] Instance t_eq_dec : EqDecision t.
Proof. solve_decision. Defined.

(** [self.spec.placement_policy] *)
Definition policy (self : t) : EffectivePlacementPolicy.t := self.(spec).(WorkloadControlSpec.placement_policy).

Section control.
Context `{External}.

Definition validate_against (self : t) (workload : Workload.t) : result unit :=
  WorkloadControlSpec.validate self.(spec) ;;
  fail_if ((self.(organization_id) != workload.(Workload.organization_id))
           || (self.(project_id) != workload.(Workload.project_id))
           || (self.(environment_id) != workload.(Workload.environment_id))
           || (self.(workload_id) != workload.(Workload.id))
           || (self.(aggregate_version) =? 0)%N
           || (self.(created_at) != workload.(Workload.created_at))
           || (self.(updated_at) <? self.(created_at))%Z)
    "workload control does not match its Workload aggregate".

Definition create (workload : Workload.t) (spec : WorkloadControlSpec.t) : result t :=
  WorkloadControlSpec.validate spec ;;
  let control :=
    {| organization_id := workload.(Workload.organization_id);
       project_id := workload.(Workload.project_id);
       environment_id := workload.(Workload.environment_id);
       workload_id := workload.(Workload.id);
       spec := spec;
       aggregate_version := 1;
       created_at := workload.(Workload.created_at);
       updated_at := workload.(Workload.created_at) |} in
  validate_against control workload ;;
  Ok control.

Definition require_authority (self : t) (requested : WorkloadControlSpec.t) : result unit :=
  WorkloadControlSpec.validate requested ;;
  fail_if (self.(spec) != requested)
    "managed Workload mutation requires its exact immutable owner reference and effective placement policy".

(** The conditions on the next owner and the next policy. *)
Definition handoff_refused (current_owner requested_owner : ManagedOwnerReference.t)
    (current_policy requested_policy : EffectivePlacementPolicy.t) : bool :=
  (current_owner.(ManagedOwnerReference.kind) != requested_owner.(ManagedOwnerReference.kind))
  || (current_owner.(ManagedOwnerReference.owner_id) != requested_owner.(ManagedOwnerReference.owner_id))
  || (requested_owner.(ManagedOwnerReference.owner_generation)
        <=? current_owner.(ManagedOwnerReference.owner_generation))%N
  || (current_owner.(ManagedOwnerReference.owner_spec_digest)
        == requested_owner.(ManagedOwnerReference.owner_spec_digest))
  || (checked_add current_policy.(EffectivePlacementPolicy.generation) 1
        != Some requested_policy.(EffectivePlacementPolicy.generation))
  || (current_policy.(EffectivePlacementPolicy.desired_replicas)
        != requested_policy.(EffectivePlacementPolicy.desired_replicas))
  || (current_policy.(EffectivePlacementPolicy.members_per_replica)
        != requested_policy.(EffectivePlacementPolicy.members_per_replica))
  || (current_policy.(EffectivePlacementPolicy.topology) != requested_policy.(EffectivePlacementPolicy.topology))
  || (current_policy.(EffectivePlacementPolicy.replica_anti_affinity)
        != requested_policy.(EffectivePlacementPolicy.replica_anti_affinity))
  || (current_policy.(EffectivePlacementPolicy.node_pool_id)
        != requested_policy.(EffectivePlacementPolicy.node_pool_id)).

Definition authorize_deployment (requested : WorkloadControlSpec.t) (at' : Time) : method t bool :=
  lift (WorkloadControlSpec.validate requested) ;;
  self ← get;
  if self.(spec) == requested then mret false
  else
    match self.(spec).(WorkloadControlSpec.managed_owner), requested.(WorkloadControlSpec.managed_owner) with
    | Some current_owner, Some requested_owner =>
      if handoff_refused current_owner requested_owner (policy self) requested.(WorkloadControlSpec.placement_policy)
      then raise "managed Workload deployment requires a newer exact owner and the next placement generation"
      else
        let at' := canonical_timestamp at' in
        if (at' <? self.(updated_at))%Z then raise "managed Workload authority handoff time regressed"
        else
          modify (fun self => self <| spec := requested |>) ;;
          version ← lift (ok_or (checked_add self.(aggregate_version) 1) "workload control version overflowed");
          modify (fun self => self <| aggregate_version := version |>) ;;
          modify (fun self => self <| updated_at := at' |>) ;;
          mret true
    | _, _ => raise "managed Workload deployment cannot change direct ownership authority"
    end.

Definition require_direct_mutation (self : t) : result unit :=
  fail_if (is_some self.(spec).(WorkloadControlSpec.managed_owner)) "managed Workload rejects direct mutation".

(** The policy of the next generation has the topology of the current one. *)
Definition next_policy (current : EffectivePlacementPolicy.t) (generation desired_replicas : N) :
    result EffectivePlacementPolicy.t :=
  match current.(EffectivePlacementPolicy.topology) with
  | PlacementTopology.SingleNode =>
    EffectivePlacementPolicy.replica_set_in_pool generation desired_replicas
      current.(EffectivePlacementPolicy.node_pool_id)
  | PlacementTopology.MultiNode =>
    EffectivePlacementPolicy.placement_group_in_pool generation desired_replicas
      current.(EffectivePlacementPolicy.members_per_replica) current.(EffectivePlacementPolicy.node_pool_id)
  end.

Definition reconfigure_replica_set (expected_policy_generation desired_replicas : N)
    (requested_owner : option ManagedOwnerReference.t) (at' : Time) : method t unit :=
  self ← get;
  lift (WorkloadControlSpec.validate self.(spec)) ;;
  let at' := canonical_timestamp at' in
  if self.(spec).(WorkloadControlSpec.managed_owner) != requested_owner
  then raise "workload replica reconfiguration has the wrong owner authority"
  else if (policy self).(EffectivePlacementPolicy.generation) != expected_policy_generation
  then raisef "workload placement policy changed from expected generation {expected_policy_generation} to {}"
         [FNum expected_policy_generation; FNum (policy self).(EffectivePlacementPolicy.generation)]
  else if (policy self).(EffectivePlacementPolicy.desired_replicas) == desired_replicas
  then raise "workload replica reconfiguration does not change desired replicas"
  else if (at' <? self.(updated_at))%Z then raise "workload replica reconfiguration time regressed"
  else
    next_policy_generation ← lift (ok_or (checked_add expected_policy_generation 1)
      "workload placement policy generation overflowed");
    next_aggregate_version ← lift (ok_or (checked_add self.(aggregate_version) 1)
      "workload control version overflowed");
    placement_policy ← lift (next_policy (policy self) next_policy_generation desired_replicas);
    modify (fun self => self <| spec :=
      self.(spec) <| WorkloadControlSpec.placement_policy := placement_policy |> |>) ;;
    modify (fun self => self <| aggregate_version := next_aggregate_version |>) ;;
    modify (fun self => self <| updated_at := at' |>).

Definition restore (organization_id : OrganizationId) (project_id : ProjectId) (environment_id : EnvironmentId)
    (workload_id : WorkloadId) (spec : WorkloadControlSpec.t) (aggregate_version : N) (created_at updated_at : Time) :
    result t :=
  WorkloadControlSpec.validate spec ;;
  let created_at := canonical_timestamp created_at in
  let updated_at := canonical_timestamp updated_at in
  fail_if ((aggregate_version =? 0)%N || (updated_at <? created_at)%Z)
    "stored workload control version or timestamps are invalid" ;;
  Ok (Mk organization_id project_id environment_id workload_id spec aggregate_version created_at updated_at).

End control.
End WorkloadControl.
