(* ===== verification/PlacementGroups.v ===== *)
(** * Placement groups

    [workloads/domain/entities/placement_group.rs], the operations of [DeploymentReplicaBinding] on
    members of a placement group ([workload_replica.rs]) and the writes of
    [placement_group_scheduling_repository.rs]: the immutable plan of a multi-node replica, its digest,
    and the binding of a deployment to it. *)

From Stdlib Require Import ZArith NArith Lia String.
From S2P Require Import Prelude RustStd External Text SharedKernel Workloads ServiceTemplates WorkloadRevisions Deployments.
From S2P Require Import Replicas WorkloadControls.

Definition PLACEMENT_GROUP_ID_DOMAIN : string := "a3s.cloud.workload-placement-group.v1".
Definition PLACEMENT_GROUP_PLAN_SCHEMA : string := "a3s.cloud.workload-placement-group-plan.v1".

Module WorkloadPlacementGroupState.
Inductive t :=
| Planned.

#[global] Instance t_eq_dec : EqDecision t.
Proof. solve_decision. Defined.

Definition as_str (self : t) : string := match self with Planned => "planned" end.

Definition parse (value : string) : result t :=
  if value == "planned" then Ok Planned
  else errf "unsupported Workload placement-group state {value:?}" [FStr value].
End WorkloadPlacementGroupState.

Module WorkloadPlacementGroupMemberRole.
Inductive t :=
| Leader
| Worker.

#[global] Instance t_eq_dec : EqDecision t.
Proof. solve_decision. Defined.

Definition as_str (self : t) : string :=
  match self with
  | Leader => "leader"
  | Worker => "worker"
  end.

Definition parse (value : string) : result t :=
  if value == "leader" then Ok Leader
  else if value == "worker" then Ok Worker
  else errf "unsupported Workload placement-group member role {value:?}" [FStr value].

#[global] Instance str_enum : StrEnum t := {| Prelude.as_str := as_str; Prelude.parse := parse |}.
#[global] Instance str_enum_laws : StrEnumLaws t.
Proof. solve_str_enum. Qed.

(** The role of an ordinal, as [validate] and [plan] compute it. *)
Definition of_ordinal (ordinal : N) : t := if (ordinal =? 0)%N then Leader else Worker.
End WorkloadPlacementGroupMemberRole.

Module WorkloadPlacementGroupMemberPlan.
Record t := Mk {
  member_id : WorkloadReplicaMemberId;
  ordinal : N;
  role : WorkloadPlacementGroupMemberRole.t;
  runtime_unit_id : string;
  template : ResolvedServiceTemplate;
  template_digest : string;
}.

#[global] Instance t_eq_dec : EqDecision t.
Proof. solve_decision. Defined.

Section plan.
Context `{External}.

Definition validate (self : t) (replica_id : WorkloadReplicaId) : result unit :=
  let message := "Workload placement-group member plan is invalid"%string in
  ServiceTemplate.validate self.(template) ;;
  if (ok (WorkloadReplicaMember.deterministic_id replica_id self.(ordinal)) != Some self.(member_id))
     || (self.(role) != WorkloadPlacementGroupMemberRole.of_ordinal self.(ordinal))
     || str_is_empty (trim self.(runtime_unit_id))
     || (512 <? str_len self.(runtime_unit_id))%N
     || contains_any [NUL; CR; LF] self.(runtime_unit_id)
  then err message
  else
    digest ← ServiceTemplate.digest self.(template);
    fail_if (digest != self.(template_digest)) message.
End plan.
End WorkloadPlacementGroupMemberPlan.

(** ** Bindings of group members *)
Module GroupMemberBinding.
Import DeploymentReplicaBinding.

Section binding.
Context `{External}.

(** The chain of conditions of the source: those before the [?] are not followed by its error. *)
Definition validate_against_placement_group_member (self : t) (deployment : Deployment.t)
    (revision : WorkloadRevision.t) (replica : WorkloadReplica.t) (member : WorkloadReplicaMember.t)
    (plan : WorkloadPlacementGroupMemberPlan.t) : result unit :=
  let message := "deployment placement-group member binding is invalid"%string in
  validate_common self deployment revision replica member ;;
  let current_placement := self.(node_id) == member.(WorkloadReplicaMember.node_id) in
  let historical_release :=
    matches deployment.(Deployment.status)
      [DeploymentStatus.Failed; DeploymentStatus.Orphaned; DeploymentStatus.Cancelled]
    && is_some self.(node_id) && is_none member.(WorkloadReplicaMember.node_id) in
  if (plan.(WorkloadPlacementGroupMemberPlan.member_id) != member.(WorkloadReplicaMember.id))
     || (plan.(WorkloadPlacementGroupMemberPlan.ordinal) != member.(WorkloadReplicaMember.ordinal))
     || (plan.(WorkloadPlacementGroupMemberPlan.runtime_unit_id) != self.(runtime_unit_id))
  then err message
  else
    digest ← ServiceTemplate.digest plan.(WorkloadPlacementGroupMemberPlan.template);
    if digest != plan.(WorkloadPlacementGroupMemberPlan.template_digest) then err message
    else
      expected ← WorkloadReplica.runtime_unit_id_for_member replica revision member;
      fail_if ((expected != self.(runtime_unit_id))
               || negb current_placement && negb historical_release
               || (plan.(WorkloadPlacementGroupMemberPlan.ordinal) =? 0)%N
                  && (self.(node_id) != deployment.(Deployment.node_id))
               || is_none deployment.(Deployment.node_id) && is_some self.(node_id)
               || is_some deployment.(Deployment.node_id)
                  && negb (DeploymentStatus.is_terminal deployment.(Deployment.status))
                  && is_none self.(node_id))
        message.

Definition create_for_placement_group_member (deployment : Deployment.t) (revision : WorkloadRevision.t)
    (replica : WorkloadReplica.t) (member : WorkloadReplicaMember.t) (plan : WorkloadPlacementGroupMemberPlan.t) :
    result t :=
  let binding := create_with_runtime_unit_id deployment replica member
                   plan.(WorkloadPlacementGroupMemberPlan.runtime_unit_id) in
  validate_against_placement_group_member binding deployment revision replica member plan ;;
  Ok binding.

Definition assign_placement_group_member (deployment : Deployment.t) (member : WorkloadReplicaMember.t)
    (plan : WorkloadPlacementGroupMemberPlan.t) : method t unit :=
  self ← get;
  node ← lift (ok_or member.(WorkloadReplicaMember.node_id) "placement-group member assignment omitted its node");
  if (deployment.(Deployment.id) != self.(deployment_id))
     || (deployment.(Deployment.status) != DeploymentStatus.Scheduled)
     || is_none deployment.(Deployment.node_id)
     || (deployment.(Deployment.updated_at) <? self.(updated_at))%Z
     || (member.(WorkloadReplicaMember.replica_id) != self.(replica_id))
     || (plan.(WorkloadPlacementGroupMemberPlan.member_id) != member.(WorkloadReplicaMember.id))
     || (plan.(WorkloadPlacementGroupMemberPlan.member_id) != self.(member_id))
     || (plan.(WorkloadPlacementGroupMemberPlan.runtime_unit_id) != self.(runtime_unit_id))
     || (plan.(WorkloadPlacementGroupMemberPlan.ordinal) =? 0)%N && (deployment.(Deployment.node_id) != Some node)
     || is_some_and (fun existing => existing != node) self.(node_id)
  then raise "deployment placement-group member assignment is inconsistent"
  else
    modify (fun self => self <| node_id := Some node |>) ;;
    modify (fun self => self <| placement_generation := member.(WorkloadReplicaMember.placement_generation) |>) ;;
    modify (fun self => self <| updated_at := deployment.(Deployment.updated_at) |>).
End binding.
End GroupMemberBinding.

(** ** The plan *)
Module WorkloadPlacementGroup.

Record t := Mk {
  id : WorkloadPlacementGroupId;
  organization_id : OrganizationId;
  project_id : ProjectId;
  environment_id : EnvironmentId;
  workload_id : WorkloadId;
  revision_id : WorkloadRevisionId;
  revision_generation : N;
  replica_id : WorkloadReplicaId;
  replica_generation : N;
  policy_generation : N;
  placement_policy_digest : string;
  plan_schema : string;
  plan_digest : string;
  state : WorkloadPlacementGroupState.t;
  members : list WorkloadPlacementGroupMemberPlan.t;
  aggregate_version : N;
  created_at : Time;
  updated_at : Time;
}.

#[global] Instance t_eta : Eta t := fun r =>
  Mk r.(id) r.(organization_id) r.(project_id) r.(environment_id) r.(workload_id) r.(revision_id)
     r.(revision_generation) r.(replica_id) r.(replica_generation) r.(policy_generation)
     r.(placement_policy_digest) r.(plan_schema) r.(plan_digest) r.(state) r.(members)
     r.(aggregate_version) r.(created_at) r.(updated_at).

#[global] Instance t_eq_dec : EqDecision t.
Proof. solve_decision. Defined.

Section group.
Context `{External}.

Definition deterministic_id (replica_id : WorkloadReplicaId) (replica_generation : N) : WorkloadPlacementGroupId :=
  uuid_v5 replica_id (PLACEMENT_GROUP_ID_DOMAIN ++ ":" ++ num_display replica_generation)%string.

Definition digest_member (member : WorkloadPlacementGroupMemberPlan.t) : json :=
  JObj [("memberId", JStr (uuid_display member.(WorkloadPlacementGroupMemberPlan.member_id)));
        ("ordinal", JNum member.(WorkloadPlacementGroupMemberPlan.ordinal));
        ("role", JStr (WorkloadPlacementGroupMemberRole.as_str member.(WorkloadPlacementGroupMemberPlan.role)));
        ("runtimeUnitId", JStr member.(WorkloadPlacementGroupMemberPlan.runtime_unit_id));
        ("templateDigest", JStr member.(WorkloadPlacementGroupMemberPlan.template_digest))]%string.

Definition digest_document (self : t) : json :=
  JObj [("schema", JStr self.(plan_schema));
        ("groupId", JStr (uuid_display self.(id)));
        ("organizationId", JStr (uuid_display self.(organization_id)));
        ("projectId", JStr (uuid_display self.(project_id)));
        ("environmentId", JStr (uuid_display self.(environment_id)));
        ("workloadId", JStr (uuid_display self.(workload_id)));
        ("revisionId", JStr (uuid_display self.(revision_id)));
        ("revisionGeneration", JNum self.(revision_generation));
        ("replicaId", JStr (uuid_display self.(replica_id)));
        ("replicaGeneration", JNum self.(replica_generation));
        ("policyGeneration", JNum self.(policy_generation));
        ("placementPolicyDigest", JStr self.(placement_policy_digest));
        ("members", JArr (map digest_member self.(members)))]%string.

Definition calculate_plan_digest (self : t) : result string :=
  digest_json (digest_document self) "could not encode Workload placement-group plan: {error}".

(** The ordinals are small: there are at most 256 members. *)
Definition validate (self : t) : result unit :=
  fail_if (is_nil self.(id) || is_nil self.(organization_id) || is_nil self.(project_id)
           || is_nil self.(environment_id) || is_nil self.(workload_id) || is_nil self.(revision_id)
           || (self.(revision_generation) =? 0)%N
           || is_nil self.(replica_id)
           || (self.(replica_generation) =? 0)%N
           || (self.(policy_generation) =? 0)%N
           || (self.(id) != deterministic_id self.(replica_id) self.(replica_generation))
           || negb (is_sha256_digest self.(placement_policy_digest))
           || (self.(plan_schema) != PLACEMENT_GROUP_PLAN_SCHEMA)
           || (self.(state) != WorkloadPlacementGroupState.Planned)
           || (len self.(members) <? 2)%N
           || (MAX_WORKLOAD_PLACEMENT_GROUP_MEMBERS <? len self.(members))%N
           || (self.(aggregate_version) =? 0)%N
           || (self.(updated_at) <? self.(created_at))%Z)
    "Workload placement-group identity or state is invalid" ;;
  for_each (fun im : nat * WorkloadPlacementGroupMemberPlan.t =>
    fail_if (negb (im.2.(WorkloadPlacementGroupMemberPlan.ordinal) =? N.of_nat im.1)%N)
      "Workload placement-group members are not canonical" ;;
    WorkloadPlacementGroupMemberPlan.validate im.2 self.(replica_id)) (imap pair self.(members)) ;;
  if negb (is_sha256_digest self.(plan_digest)) then err "Workload placement-group plan digest is invalid"
  else
    digest ← calculate_plan_digest self;
    fail_if (digest != self.(plan_digest)) "Workload placement-group plan digest is invalid".

Definition validate_context (self : t) (workload : Workload.t) (policy : EffectivePlacementPolicy.t)
    (revision : WorkloadRevision.t) (replica : WorkloadReplica.t) : result unit :=
  validate self ;;
  EffectivePlacementPolicy.validate policy ;;
  WorkloadReplica.validate replica ;;
  leader_template ← WorkloadRevision.resolved_template revision;
  fail_if ((workload.(Workload.desired_state) != WorkloadDesiredState.Running)
           || (workload.(Workload.organization_id) != self.(organization_id))
           || (workload.(Workload.project_id) != self.(project_id))
           || (workload.(Workload.environment_id) != self.(environment_id))
           || (workload.(Workload.id) != self.(workload_id))
           || (revision.(WorkloadRevision.workload_id) != workload.(Workload.id))
           || (revision.(WorkloadRevision.id) != self.(revision_id))
           || (revision.(WorkloadRevision.generation) != self.(revision_generation))
           || ((WorkloadPlacementGroupMemberPlan.template <$> head self.(members)) != Some leader_template)
           || (replica.(WorkloadReplica.organization_id) != workload.(Workload.organization_id))
           || (replica.(WorkloadReplica.project_id) != workload.(Workload.project_id))
           || (replica.(WorkloadReplica.environment_id) != workload.(Workload.environment_id))
           || (replica.(WorkloadReplica.workload_id) != workload.(Workload.id))
           || (replica.(WorkloadReplica.id) != self.(replica_id))
           || (replica.(WorkloadReplica.revision_id) != revision.(WorkloadRevision.id))
           || (replica.(WorkloadReplica.revision_generation) != revision.(WorkloadRevision.generation))
           || (replica.(WorkloadReplica.generation) != self.(replica_generation))
           || (replica.(WorkloadReplica.lifecycle) != WorkloadReplicaLifecycle.Desired)
           || (policy.(EffectivePlacementPolicy.desired_replicas) <=? replica.(WorkloadReplica.ordinal))%N
           || (policy.(EffectivePlacementPolicy.generation) != self.(policy_generation))
           || (policy.(EffectivePlacementPolicy.digest) != self.(placement_policy_digest))
           || (policy.(EffectivePlacementPolicy.topology) != PlacementTopology.MultiNode)
           || negb (policy.(EffectivePlacementPolicy.members_per_replica) =? len self.(members))%N
           || (self.(created_at) <? Z.max (Z.max workload.(Workload.updated_at) revision.(WorkloadRevision.created_at))
                                      replica.(WorkloadReplica.updated_at))%Z)
    "Workload placement-group planning context is inconsistent".

Definition validate_replica_member_identity (self : t) (member : WorkloadReplicaMember.t) : result unit :=
  WorkloadReplicaMember.validate member ;;
  let planned := self.(members) !! N.to_nat member.(WorkloadReplicaMember.ordinal) in
  fail_if (is_none_or (fun planned =>
             (planned.(WorkloadPlacementGroupMemberPlan.ordinal) != member.(WorkloadReplicaMember.ordinal))
             || (planned.(WorkloadPlacementGroupMemberPlan.member_id) != member.(WorkloadReplicaMember.id))) planned
           || (member.(WorkloadReplicaMember.organization_id) != self.(organization_id))
           || (member.(WorkloadReplicaMember.project_id) != self.(project_id))
           || (member.(WorkloadReplicaMember.environment_id) != self.(environment_id))
           || (member.(WorkloadReplicaMember.workload_id) != self.(workload_id))
           || (member.(WorkloadReplicaMember.replica_id) != self.(replica_id)))
    "Workload placement-group replica member identity is inconsistent".

Definition validate_available_replica_member (self : t) (member : WorkloadReplicaMember.t) : result unit :=
  validate_replica_member_identity self member ;;
  fail_if (is_some member.(WorkloadReplicaMember.node_id)
           || (self.(created_at) <? member.(WorkloadReplicaMember.updated_at))%Z)
    "Workload placement-group replica member is not available".

Definition same_plan (self candidate : t) : bool :=
  (self.(id) == candidate.(id))
  && (self.(organization_id) == candidate.(organization_id))
  && (self.(project_id) == candidate.(project_id))
  && (self.(environment_id) == candidate.(environment_id))
  && (self.(workload_id) == candidate.(workload_id))
  && (self.(revision_id) == candidate.(revision_id))
  && (self.(revision_generation) == candidate.(revision_generation))
  && (self.(replica_id) == candidate.(replica_id))
  && (self.(replica_generation) == candidate.(replica_generation))
  && (self.(policy_generation) == candidate.(policy_generation))
  && (self.(placement_policy_digest) == candidate.(placement_policy_digest))
  && (self.(plan_schema) == candidate.(plan_schema))
  && (self.(plan_digest) == candidate.(plan_digest))
  && (self.(members) == candidate.(members)).
End group.
End WorkloadPlacementGroup.

Module WorkloadPlacementGroupWrite.
Record t := Mk {
  group : WorkloadPlacementGroup.t;
  replica_members : list WorkloadReplicaMember.t;
}.

Section write.
Context `{External}.

Definition validate (self : t) : result unit :=
  WorkloadPlacementGroup.validate self.(group) ;;
  fail_if (negb (len self.(replica_members) =? len self.(group).(WorkloadPlacementGroup.members))%N)
    "Workload placement-group write has the wrong member count" ;;
  for_each (fun sp : WorkloadReplicaMember.t * WorkloadPlacementGroupMemberPlan.t =>
    let stored := sp.1 in
    let planned := sp.2 in
    WorkloadPlacementGroup.validate_replica_member_identity self.(group) stored ;;
    fail_if ((stored.(WorkloadReplicaMember.id) != planned.(WorkloadPlacementGroupMemberPlan.member_id))
             || (stored.(WorkloadReplicaMember.ordinal) != planned.(WorkloadPlacementGroupMemberPlan.ordinal))
             || is_some stored.(WorkloadReplicaMember.node_id)
             || negb (stored.(WorkloadReplicaMember.placement_generation) =? 0)%N
             || negb (stored.(WorkloadReplicaMember.aggregate_version) =? 1)%N
             || (stored.(WorkloadReplicaMember.updated_at) != stored.(WorkloadReplicaMember.created_at)))
      "Workload placement-group write member is inconsistent")
    (zip self.(replica_members) self.(group).(WorkloadPlacementGroup.members)).

(** The loop of [WorkloadPlacementGroup::plan] over the templates, from an ordinal on. *)
Fixpoint plan_members (workload : Workload.t) (revision : WorkloadRevision.t) (replica : WorkloadReplica.t)
    (ordinal : N) (templates : list ResolvedServiceTemplate) :
    result (list WorkloadPlacementGroupMemberPlan.t * list WorkloadReplicaMember.t) :=
  match templates with
  | [] => Ok ([], [])
  | template :: rest =>
    member ← WorkloadReplicaMemberCreation.for_ordinal workload replica ordinal;
    runtime_unit_id ← WorkloadReplica.runtime_unit_id_for_member replica revision member;
    template_digest ← ServiceTemplate.digest template;
    let planned :=
      {| WorkloadPlacementGroupMemberPlan.member_id := member.(WorkloadReplicaMember.id);
         WorkloadPlacementGroupMemberPlan.ordinal := ordinal;
         WorkloadPlacementGroupMemberPlan.role := WorkloadPlacementGroupMemberRole.of_ordinal ordinal;
         WorkloadPlacementGroupMemberPlan.runtime_unit_id := runtime_unit_id;
         WorkloadPlacementGroupMemberPlan.template := template;
         WorkloadPlacementGroupMemberPlan.template_digest := template_digest |} in
    '(members, replica_members) ← plan_members workload revision replica (ordinal + 1) rest;
    Ok (planned :: members, member :: replica_members)
  end.

(** [WorkloadPlacementGroup::plan] *)
Definition plan (workload : Workload.t) (policy : EffectivePlacementPolicy.t) (revision : WorkloadRevision.t)
    (replica : WorkloadReplica.t) (templates : list ResolvedServiceTemplate) (created_at : Time) : result t :=
  EffectivePlacementPolicy.validate policy ;;
  WorkloadReplica.validate replica ;;
  let created_at := canonical_timestamp created_at in
  fail_if (negb (len templates =? policy.(EffectivePlacementPolicy.members_per_replica))%N)
    "Workload placement-group planning context is inconsistent" ;;
  leader_template ← WorkloadRevision.resolved_template revision;
  fail_if (head templates != Some leader_template)
    "Workload placement-group leader must use the exact revision template" ;;
  '(members, replica_members) ← plan_members workload revision replica 0 templates;
  let group :=
    {| WorkloadPlacementGroup.id :=
         WorkloadPlacementGroup.deterministic_id replica.(WorkloadReplica.id) replica.(WorkloadReplica.generation);
       WorkloadPlacementGroup.organization_id := workload.(Workload.organization_id);
       WorkloadPlacementGroup.project_id := workload.(Workload.project_id);
       WorkloadPlacementGroup.environment_id := workload.(Workload.environment_id);
       WorkloadPlacementGroup.workload_id := workload.(Workload.id);
       WorkloadPlacementGroup.revision_id := revision.(WorkloadRevision.id);
       WorkloadPlacementGroup.revision_generation := revision.(WorkloadRevision.generation);
       WorkloadPlacementGroup.replica_id := replica.(WorkloadReplica.id);
       WorkloadPlacementGroup.replica_generation := replica.(WorkloadReplica.generation);
       WorkloadPlacementGroup.policy_generation := policy.(EffectivePlacementPolicy.generation);
       WorkloadPlacementGroup.placement_policy_digest := policy.(EffectivePlacementPolicy.digest);
       WorkloadPlacementGroup.plan_schema := PLACEMENT_GROUP_PLAN_SCHEMA;
       WorkloadPlacementGroup.plan_digest := "";
       WorkloadPlacementGroup.state := WorkloadPlacementGroupState.Planned;
       WorkloadPlacementGroup.members := members;
       WorkloadPlacementGroup.aggregate_version := 1;
       WorkloadPlacementGroup.created_at := created_at;
       WorkloadPlacementGroup.updated_at := created_at |} in
  plan_digest ← WorkloadPlacementGroup.calculate_plan_digest group;
  let group := group <| WorkloadPlacementGroup.plan_digest := plan_digest |> in
  WorkloadPlacementGroup.validate_context group workload policy revision replica ;;
  let write := Mk group replica_members in
  validate write ;;
  Ok write.
End write.
End WorkloadPlacementGroupWrite.

(** ** The binding of a deployment to the plan *)
Module DeploymentPlacementGroupBinding.

Record t := Mk {
  deployment_id : DeploymentId;
  organization_id : OrganizationId;
  project_id : ProjectId;
  environment_id : EnvironmentId;
  workload_id : WorkloadId;
  revision_id : WorkloadRevisionId;
  revision_generation : N;
  replica_id : WorkloadReplicaId;
  replica_generation : N;
  group_id : WorkloadPlacementGroupId;
  group_plan_digest : string;
  member_count : N;
  created_at : Time;
  updated_at : Time;
}.

#[global] Instance t_eq_dec : EqDecision t.
Proof. solve_decision. Defined.

Definition validate (self : t) : result unit :=
  fail_if (is_nil self.(deployment_id) || is_nil self.(organization_id) || is_nil self.(project_id)
           || is_nil self.(environment_id) || is_nil self.(workload_id) || is_nil self.(revision_id)
           || (self.(revision_generation) =? 0)%N
           || is_nil self.(replica_id)
           || (self.(replica_generation) =? 0)%N
           || is_nil self.(group_id)
           || negb (is_sha256_digest self.(group_plan_digest))
           || negb ((2 <=? self.(member_count)) && (self.(member_count) <=? MAX_WORKLOAD_PLACEMENT_GROUP_MEMBERS))%N
           || (self.(updated_at) <? self.(created_at))%Z)
    "placement-group Deployment binding identity is invalid".

Section binding.
Context `{External}.

Definition validate_against (self : t) (deployment : Deployment.t) (group : WorkloadPlacementGroup.t) : result unit :=
  WorkloadPlacementGroup.validate group ;;
  fail_if ((self.(deployment_id) != deployment.(Deployment.id))
           || (self.(organization_id) != deployment.(Deployment.organization_id))
           || (self.(workload_id) != deployment.(Deployment.workload_id))
           || (self.(revision_id) != deployment.(Deployment.revision_id))
           || (self.(project_id) != group.(WorkloadPlacementGroup.project_id))
           || (self.(environment_id) != group.(WorkloadPlacementGroup.environment_id))
           || (self.(organization_id) != group.(WorkloadPlacementGroup.organization_id))
           || (self.(workload_id) != group.(WorkloadPlacementGroup.workload_id))
           || (self.(revision_id) != group.(WorkloadPlacementGroup.revision_id))
           || (self.(revision_generation) != group.(WorkloadPlacementGroup.revision_generation))
           || (self.(replica_id) != group.(WorkloadPlacementGroup.replica_id))
           || (self.(replica_generation) != group.(WorkloadPlacementGroup.replica_generation))
           || (self.(group_id) != group.(WorkloadPlacementGroup.id))
           || (self.(group_plan_digest) != group.(WorkloadPlacementGroup.plan_digest))
           || negb (self.(member_count) =? len group.(WorkloadPlacementGroup.members))%N
           || (self.(created_at) != deployment.(Deployment.requested_at))
           || (self.(updated_at) != self.(created_at))
           || (self.(created_at) <? group.(WorkloadPlacementGroup.updated_at))%Z)
    "placement-group Deployment binding is invalid" ;;
  validate self.

Definition create (deployment : Deployment.t) (revision : WorkloadRevision.t) (replica : WorkloadReplica.t)
    (group : WorkloadPlacementGroup.t) (members : list WorkloadReplicaMember.t)
    (member_bindings : list DeploymentReplicaBinding.t) : result t :=
  fail_if ((deployment.(Deployment.status) != DeploymentStatus.Queued)
           || is_some deployment.(Deployment.node_id)
           || is_some deployment.(Deployment.command_id)
           || is_some deployment.(Deployment.cleanup_command_id)
           || is_some deployment.(Deployment.retirement_command_id))
    "placement-group Deployment is already mutable" ;;
  fail_if (u32_max <? len member_bindings)%N "placement-group Deployment member count overflowed" ;;
  let binding :=
    {| deployment_id := deployment.(Deployment.id);
       organization_id := deployment.(Deployment.organization_id);
       project_id := group.(WorkloadPlacementGroup.project_id);
       environment_id := group.(WorkloadPlacementGroup.environment_id);
       workload_id := deployment.(Deployment.workload_id);
       revision_id := deployment.(Deployment.revision_id);
       revision_generation := revision.(WorkloadRevision.generation);
       replica_id := replica.(WorkloadReplica.id);
       replica_generation := replica.(WorkloadReplica.generation);
       group_id := group.(WorkloadPlacementGroup.id);
       group_plan_digest := group.(WorkloadPlacementGroup.plan_digest);
       member_count := len member_bindings;
       created_at := deployment.(Deployment.requested_at);
       updated_at := deployment.(Deployment.requested_at) |} in
  validate_against binding deployment group ;;
  let planned := group.(WorkloadPlacementGroup.members) in
  fail_if (negb (len members =? len planned)%N || negb (len member_bindings =? len planned)%N)
    "placement-group Deployment has the wrong member count" ;;
  for_each (fun x : WorkloadPlacementGroupMemberPlan.t * WorkloadReplicaMember.t * DeploymentReplicaBinding.t =>
    let '(plan, member, member_binding) := x in
    fail_if ((plan.(WorkloadPlacementGroupMemberPlan.member_id) != member.(WorkloadReplicaMember.id))
             || (member_binding.(DeploymentReplicaBinding.member_id) != member.(WorkloadReplicaMember.id)))
      "placement-group Deployment members are not canonical" ;;
    GroupMemberBinding.validate_against_placement_group_member member_binding deployment revision replica member plan)
    (zip (zip planned members) member_bindings) ;;
  Ok binding.
End binding.
End DeploymentPlacementGroupBinding.

(** ** Scheduling and cancellation of a group *)
Module PlacementGroupMemberPlacement.
Record t := Mk {
  ordinal : N;
  member_id : WorkloadReplicaMemberId;
  node_id : NodeId;
}.

#[global] Instance t_eq_dec : EqDecision t.
Proof. solve_decision. Defined.
End PlacementGroupMemberPlacement.

(** [validate_identity] of both writes *)
Definition validate_write_identity (organization_id : OrganizationId) (deployment_id : DeploymentId)
    (expected_deployment_version : N) (group_id : WorkloadPlacementGroupId) (group_plan_digest : string) : result unit :=
  fail_if (is_nil organization_id || is_nil deployment_id || (expected_deployment_version =? 0)%N
           || is_nil group_id || negb (is_sha256_digest group_plan_digest))
    "placement-group scheduling identity is invalid".

Module PlacementGroupSchedulingWrite.
Record t := Mk {
  organization_id : OrganizationId;
  deployment_id : DeploymentId;
  expected_deployment_version : N;
  group_id : WorkloadPlacementGroupId;
  group_plan_digest : string;
  placements : list PlacementGroupMemberPlacement.t;
  scheduled_at : Time;
}.

(** The loop over the placements, with the ordinal it expects and what it has inserted. *)
Fixpoint validate_placements (expected_ordinal : N) (member_ids node_ids : list Uuid)
    (placements : list PlacementGroupMemberPlacement.t) : result unit :=
  match placements with
  | [] => Ok tt
  | placement :: rest =>
    let member_id := placement.(PlacementGroupMemberPlacement.member_id) in
    let node_id := placement.(PlacementGroupMemberPlacement.node_id) in
    fail_if (negb (placement.(PlacementGroupMemberPlacement.ordinal) =? expected_ordinal)%N
             || is_nil member_id
             || is_nil node_id
             || bool_decide (member_id ∈ member_ids)
             || bool_decide (node_id ∈ node_ids))
      "placement-group member placements are not canonical" ;;
    validate_placements (expected_ordinal + 1) (member_id :: member_ids) (node_id :: node_ids) rest
  end.

Definition validate (self : t) : result unit :=
  validate_write_identity self.(organization_id) self.(deployment_id) self.(expected_deployment_version)
    self.(group_id) self.(group_plan_digest) ;;
  fail_if ((len self.(placements) <? 2)%N
           || (MAX_WORKLOAD_PLACEMENT_GROUP_MEMBERS <? len self.(placements))%N
           || (timestamp_millis self.(scheduled_at) <=? 0)%Z)
    "placement-group scheduling write is invalid" ;;
  validate_placements 0 [] [] self.(placements).
End PlacementGroupSchedulingWrite.

Module PlacementGroupCancellationWrite.
Record t := Mk {
  organization_id : OrganizationId;
  deployment_id : DeploymentId;
  expected_deployment_version : N;
  group_id : WorkloadPlacementGroupId;
  group_plan_digest : string;
  cancelled_at : Time;
}.

Definition validate (self : t) : result unit :=
  validate_write_identity self.(organization_id) self.(deployment_id) self.(expected_deployment_version)
    self.(group_id) self.(group_plan_digest) ;;
  fail_if (timestamp_millis self.(cancelled_at) <=? 0)%Z "placement-group cancellation time is invalid".
End PlacementGroupCancellationWrite.

Module PlacementGroupPlacement.
Record t := Mk {
  deployment : Deployment.t;
  member_bindings : list DeploymentReplicaBinding.t;
}.
End PlacementGroupPlacement.

Module PlacementGroupMaterialization.
Record t := Mk {
  group : WorkloadPlacementGroup.t;
  replica_members : list WorkloadReplicaMember.t;
  replayed : bool;
}.
End PlacementGroupMaterialization.
