(* ===== verification/WorkloadOperations.v ===== *)
(** * Operations and events of workloads

    The values a workload call leaves for others: operation intents
    ([workloads/domain/workload_operation_intent.rs]) and the [OperationRequest] they are composed into
    ([workload_operation_composer.rs], [operations/domain]), the canonical JSON of the shared kernel,
    and the domain events of [workloads/domain/events] in their [DomainEventEnvelope]
    ([contracts/src/event.rs], [cloud_scope_ref.rs]).  [Uuid::now_v7] gives an event its identity: it
    is an argument of the functions that make one. *)

From Stdlib Require Import ZArith NArith Lia String.
From S2P Require Import Prelude RustStd External Text SharedKernel Workloads ServiceTemplates WorkloadRevisions Deployments.
From S2P Require Import Replicas WorkloadControls PlacementGroups.

(** ** JSON values *)
#[export] Instance json_eq_dec : EqDecision json.
Proof.
  refine (fix go (a b : json) {struct a} : Decision (a = b) :=
    match a, b with
    | JNull, JNull => left eq_refl
    | JBool x, JBool y => cast_if (decide (x = y))
    | JNum x, JNum y => cast_if (decide (x = y))
    | JStr x, JStr y => cast_if (decide (x = y))
    | JArr x, JArr y =>
      cast_if ((fix gos (x y : list json) {struct x} : Decision (x = y) :=
        match x, y with
        | [], [] => left eq_refl
        | a :: x', b :: y' => cast_if_and (go a b) (gos x' y')
        | _, _ => right _
        end) x y)
    | JObj x, JObj y =>
      cast_if ((fix gos (x y : list (string * json)) {struct x} : Decision (x = y) :=
        match x, y with
        | [], [] => left eq_refl
        | (k, a) :: x', (k', b) :: y' => cast_if_and3 (decide (k = k')) (go a b) (gos x' y')
        | _, _ => right _
        end) x y)
    | _, _ => right _
    end); clear go; abstract congruence.
Defined.

(** [sort_json] of [canonical_json.rs]: the members of an object are collected into a
    [BTreeMap] after their values are sorted, and inserted into the new object in its order. *)
Fixpoint sort_canonical_json (value : json) : json :=
  match value with
  | JArr values => JArr (map sort_canonical_json values)
  | JObj values => JObj (sort_by_key fst (map (fun kv => (kv.1, sort_canonical_json kv.2)) values))
  | value => value
  end.

Definition canonical_json_bounded `{External} (value : json) (max_bytes : N) (label : string) : result (list N) :=
  if (max_bytes =? 0)%N then errf "{label} canonical JSON byte bound is invalid" [FStr label]
  else
    encoded ← map_err (fun e => Error "could not encode {label} as canonical JSON: {error}" [FStr label; FStr e.(template)])
                (json_to_vec (sort_canonical_json (to_value value)));
    if (max_bytes <? len encoded)%N then errf "{label} exceeds its {max_bytes}-byte bound" [FStr label; FNum max_bytes]
    else Ok encoded.

Definition json_uuid `{External} (u : Uuid) : json := JStr (uuid_display u).
Definition json_time `{External} (t : Time) : json := JStr (time_display t).

(** ** Operation requests *)
Module OperationSubject.
Record t := Mk {
  kind : string;
  id : Uuid;
}.

#[global] Instance t_eq_dec : EqDecision t.
Proof. solve_decision. Defined.

Definition new (kind : string) (id : Uuid) : result t :=
  let valid_start := match bytes_of kind with first :: _ => is_ascii_lowercase first | [] => false end in
  let valid_rest :=
    all (fun b => is_ascii_lowercase b || is_ascii_digit b || (b =? UNDERSCORE)%N) (drop 1 (bytes_of kind)) in
  fail_if ((63 <? str_len kind)%N || negb valid_start || negb valid_rest)
    "operation subject kind must be 1 to 63 lowercase letters, digits, or underscores and start with a letter" ;;
  Ok (Mk kind id).
End OperationSubject.

(** [value.chars().any(char::is_control)] *)
Fixpoint has_control (l : list N) : bool :=
  match l with
  | [] => false
  | a :: r => control1 a || match r with [] => false | b :: _ => control2 a b end || has_control r
  end.

Module WorkflowIdentity.
Record t := Mk {
  name : string;
  version : string;
}.

#[global] Instance t_eq_dec : EqDecision t.
Proof. solve_decision. Defined.

Definition bounded_text (value : string) (max_length : N) : bool :=
  negb (str_is_empty (trim value)) && (chars_count value <=? max_length)%N && negb (has_control (bytes_of value)).

Definition new (name version : string) : result t :=
  fail_if (negb (bounded_text name 255)) "workflow name must contain 1 to 255 characters without controls" ;;
  fail_if (negb (bounded_text version 63)) "workflow version must contain 1 to 63 characters without controls" ;;
  Ok (Mk name version).
End WorkflowIdentity.

Module OperationRequest.
Record t := Mk {
  id : OperationId;
  organization_id : OrganizationId;
  subject : OperationSubject.t;
  workflow : WorkflowIdentity.t;
  input : json;
  requested_at : Time;
}.

#[global] Instance t_eq_dec : EqDecision t.
Proof. solve_decision. Defined.

Definition new (id : OperationId) (organization_id : OrganizationId) (subject : OperationSubject.t)
    (workflow : WorkflowIdentity.t) (input : json) (requested_at : Time) : t :=
  let requested_at := canonical_timestamp requested_at in
  Mk id organization_id subject workflow input requested_at.

Definition has_same_definition (self other : t) : bool :=
  (self.(id) == other.(id))
  && (self.(organization_id) == other.(organization_id))
  && (self.(subject) == other.(subject))
  && (self.(workflow) == other.(workflow))
  && (self.(input) == other.(input)).
End OperationRequest.

Module WorkloadDeploymentOperationIntent.
Record t := Mk {
  operation_id : OperationId;
  organization_id : OrganizationId;
  deployment_id : DeploymentId;
  revision_id : WorkloadRevisionId;
  workload_id : WorkloadId;
  requested_at : Time;
}.
End WorkloadDeploymentOperationIntent.

Module WorkloadStopOperationIntent.
Record t := Mk {
  operation_id : OperationId;
  organization_id : OrganizationId;
  workload_id : WorkloadId;
  requested_at : Time;
}.
End WorkloadStopOperationIntent.

Module WorkloadWriterFenceContinuationIntent.
Record t := Mk {
  operation_id : OperationId;
  organization_id : OrganizationId;
  subject_kind : string;
  subject_id : Uuid;
  workflow_name : string;
  workflow_version : string;
  input : json;
  requested_at : Time;
}.
End WorkloadWriterFenceContinuationIntent.

(** ** [workload_operation_composer.rs] *)
Definition DEPLOYMENT_WORKFLOW_NAME : string := "cloud.deployment".
Definition DEPLOYMENT_WORKFLOW_VERSION : string := "4".
Definition PLACEMENT_GROUP_DEPLOYMENT_WORKFLOW_NAME : string := "cloud.placement-group-deployment".
Definition PLACEMENT_GROUP_DEPLOYMENT_WORKFLOW_VERSION : string := "2".
Definition STOP_WORKFLOW_NAME : string := "cloud.workload.stop".
Definition STOP_WORKFLOW_VERSION : string := "1".

Section composer.
Context `{External}.

Definition compose_deployment_operation (intent : WorkloadDeploymentOperationIntent.t) : result OperationRequest.t :=
  let '(WorkloadDeploymentOperationIntent.Mk operation organization deployment revision workload requested) := intent in
  subject ← OperationSubject.new "deployment" deployment;
  workflow ← WorkflowIdentity.new DEPLOYMENT_WORKFLOW_NAME DEPLOYMENT_WORKFLOW_VERSION;
  Ok (OperationRequest.new operation organization subject workflow
        (JObj [("deploymentId", json_uuid deployment); ("organizationId", json_uuid organization);
               ("revisionId", json_uuid revision); ("workloadId", json_uuid workload)]%string)
        requested).

Definition compose_placement_group_deployment_operation (intent : WorkloadDeploymentOperationIntent.t)
    (binding : DeploymentPlacementGroupBinding.t) : result OperationRequest.t :=
  let '(WorkloadDeploymentOperationIntent.Mk operation organization deployment revision workload requested) := intent in
  DeploymentPlacementGroupBinding.validate binding ;;
  subject ← OperationSubject.new "deployment" deployment;
  workflow ← WorkflowIdentity.new PLACEMENT_GROUP_DEPLOYMENT_WORKFLOW_NAME PLACEMENT_GROUP_DEPLOYMENT_WORKFLOW_VERSION;
  Ok (OperationRequest.new operation organization subject workflow
        (JObj [("deploymentId", json_uuid deployment);
               ("groupId", json_uuid binding.(DeploymentPlacementGroupBinding.group_id));
               ("groupPlanDigest", JStr binding.(DeploymentPlacementGroupBinding.group_plan_digest));
               ("memberCount", JNum binding.(DeploymentPlacementGroupBinding.member_count));
               ("organizationId", json_uuid organization);
               ("replicaGeneration", JNum binding.(DeploymentPlacementGroupBinding.replica_generation));
               ("replicaId", json_uuid binding.(DeploymentPlacementGroupBinding.replica_id));
               ("revisionId", json_uuid revision); ("workloadId", json_uuid workload)]%string)
        requested).

Definition compose_replica_deployment_operation (intent : WorkloadDeploymentOperationIntent.t)
    (placement_group_binding : option DeploymentPlacementGroupBinding.t) : result OperationRequest.t :=
  match placement_group_binding with
  | Some binding => compose_placement_group_deployment_operation intent binding
  | None => compose_deployment_operation intent
  end.

Definition compose_stop_operation (intent : WorkloadStopOperationIntent.t) : result OperationRequest.t :=
  let '(WorkloadStopOperationIntent.Mk operation organization workload requested) := intent in
  subject ← OperationSubject.new "workload" workload;
  workflow ← WorkflowIdentity.new STOP_WORKFLOW_NAME STOP_WORKFLOW_VERSION;
  Ok (OperationRequest.new operation organization subject workflow
        (JObj [("operationId", json_uuid operation); ("organizationId", json_uuid organization);
               ("requestedAt", json_time requested); ("workloadId", json_uuid workload)]%string)
        requested).

Definition compose_writer_fence_operation (intent : WorkloadWriterFenceContinuationIntent.t) : result OperationRequest.t :=
  let '(WorkloadWriterFenceContinuationIntent.Mk operation organization subject_kind subject_id name version input
          requested) := intent in
  subject ← OperationSubject.new subject_kind subject_id;
  workflow ← WorkflowIdentity.new name version;
  Ok (OperationRequest.new operation organization subject workflow input requested).
End composer.
