(* ===== verification/WorkloadEvents.v ===== *)
(** * Domain events of workloads

    [contracts/src/event.rs], [cloud_scope_ref.rs] and [workloads/domain/events]: what the workload
    repository appends to its outbox.  Each constructor checks the transition it reports and refuses an
    inconsistent one.  [Uuid::now_v7] gives an event its identity: it is the argument [event_id]. *)

From Stdlib Require Import ZArith NArith Lia String.
From S2P Require Import Prelude RustStd External Text SharedKernel Workloads ServiceTemplates WorkloadRevisions Deployments.
From S2P Require Import Replicas WorkloadControls PlacementGroups WorkloadOperations.

Module CloudScopeRef.
Inductive t :=
| Installation (installation_id : Uuid)
| Organization (organization_id : Uuid)
| Project (organization_id project_id : Uuid)
| Environment (organization_id project_id environment_id : Uuid).

#[global] Instance t_eq_dec : EqDecision t.
Proof. solve_decision. Defined.

Definition installation_id (self : t) : option Uuid :=
  match self with Installation i => Some i | _ => None end.
Definition organization_id (self : t) : option Uuid :=
  match self with
  | Installation _ => None
  | Organization o | Project o _ | Environment o _ _ => Some o
  end.
Definition project_id (self : t) : option Uuid :=
  match self with Project _ p | Environment _ p _ => Some p | _ => None end.
Definition environment_id (self : t) : option Uuid :=
  match self with Environment _ _ e => Some e | _ => None end.

Definition validate (self : t) : result unit :=
  fail_if (is_some_and is_nil (installation_id self) || is_some_and is_nil (organization_id self)
           || is_some_and is_nil (project_id self) || is_some_and is_nil (environment_id self))
    "Cloud scope reference contains a nil identity".
End CloudScopeRef.

Module DomainEventEnvelope.
Record t := Mk {
  event_id : Uuid;
  event_key : string;
  schema_version : N;
  scope : CloudScopeRef.t;
  aggregate_id : Uuid;
  aggregate_version : N;
  occurred_at : Time;
  correlation_id : Uuid;
  causation_id : option Uuid;
  payload : json;
}.

#[global] Instance t_eq_dec : EqDecision t.
Proof. solve_decision. Defined.

Definition MAX_PORTABLE_VERSION : N := 9007199254740991.
Definition MAX_EVENT_KEY_BYTES : N := 255.

Definition organization_id (self : t) : option Uuid := CloudScopeRef.organization_id self.(scope).

Definition valid_event_key (value : string) : bool :=
  let segments := split_bytes DOT (bytes_of value) in
  negb (str_is_empty value)
  && (str_len value <=? MAX_EVENT_KEY_BYTES)%N
  && (3 <=? len segments)%N
  && all (fun segment => negb (is_empty segment)
                         && all (fun byte => is_ascii_lowercase byte || (byte =? HYPHEN)%N) segment) segments.

Definition is_object (j : json) : bool := match j with JObj _ => true | _ => false end.

Definition validate (self : t) : result unit :=
  CloudScopeRef.validate self.(scope) ;;
  fail_if (is_nil self.(event_id)
           || negb (valid_event_key self.(event_key))
           || (self.(schema_version) =? 0)%N
           || is_nil self.(aggregate_id)
           || (self.(aggregate_version) =? 0)%N
           || (MAX_PORTABLE_VERSION <? self.(aggregate_version))%N
           || is_nil self.(correlation_id)
           || is_some_and is_nil self.(causation_id)
           || negb (is_object self.(payload)))
    "domain event envelope is invalid".
End DomainEventEnvelope.

Section events.
Context `{External}.

Definition json_opt_uuid (o : option Uuid) : json := json_option json_uuid o.

Definition organization_event (event_id : Uuid) (event_key : string) (schema_version : N) (organization_id aggregate_id : Uuid)
    (aggregate_version : N) (occurred_at : Time) (correlation_id : Uuid) (causation_id : option Uuid)
    (payload : json) : DomainEventEnvelope.t :=
  {| DomainEventEnvelope.event_id := event_id;
     DomainEventEnvelope.event_key := event_key;
     DomainEventEnvelope.schema_version := schema_version;
     DomainEventEnvelope.scope := CloudScopeRef.Organization organization_id;
     DomainEventEnvelope.aggregate_id := aggregate_id;
     DomainEventEnvelope.aggregate_version := aggregate_version;
     DomainEventEnvelope.occurred_at := occurred_at;
     DomainEventEnvelope.correlation_id := correlation_id;
     DomainEventEnvelope.causation_id := causation_id;
     DomainEventEnvelope.payload := to_value payload |}.

(** [DeploymentRequested::envelope_with_cause] *)
Definition deployment_requested (event_id : Uuid) (deployment : Deployment.t) (revision : WorkloadRevision.t)
    (correlation_id : Uuid) (causation_id : option Uuid) : DomainEventEnvelope.t :=
  organization_event event_id "workload.deployment.requested" 2 deployment.(Deployment.organization_id)
    deployment.(Deployment.id) deployment.(Deployment.aggregate_version) deployment.(Deployment.requested_at)
    correlation_id causation_id
    (JObj [("organization_id", json_uuid deployment.(Deployment.organization_id));
           ("workload_id", json_uuid deployment.(Deployment.workload_id));
           ("revision_id", json_uuid deployment.(Deployment.revision_id));
           ("deployment_id", json_uuid deployment.(Deployment.id));
           ("operation_id", json_uuid deployment.(Deployment.operation_id));
           ("generation", JNum revision.(WorkloadRevision.generation));
           ("artifact_source_uri",
              JStr revision.(WorkloadRevision.request).(ServiceTemplate.artifact).(OciArtifactReference.uri));
           ("expected_artifact_digest",
              json_option JStr
                revision.(WorkloadRevision.request).(ServiceTemplate.artifact).(OciArtifactReference.expected_digest));
           ("request_digest", JStr revision.(WorkloadRevision.request_digest));
           ("artifact_digest",
              json_option (fun t => JStr t.(ServiceTemplate.artifact).(OciArtifact.digest)) revision.(WorkloadRevision.template));
           ("template_digest", json_option JStr revision.(WorkloadRevision.template_digest))]%string).

(** [WorkloadReplicaSetReconfigured::envelope] *)
Definition replica_set_reconfigured (event_id : Uuid) (previous current : WorkloadControl.t) (correlation_id : Uuid) :
    result DomainEventEnvelope.t :=
  let previous_policy := WorkloadControl.policy previous in
  let current_policy := WorkloadControl.policy current in
  let previous_generation := previous_policy.(EffectivePlacementPolicy.generation) in
  let current_generation := current_policy.(EffectivePlacementPolicy.generation) in
  fail_if ((previous.(WorkloadControl.organization_id) != current.(WorkloadControl.organization_id))
           || (previous.(WorkloadControl.project_id) != current.(WorkloadControl.project_id))
           || (previous.(WorkloadControl.environment_id) != current.(WorkloadControl.environment_id))
           || (previous.(WorkloadControl.workload_id) != current.(WorkloadControl.workload_id))
           || (checked_add previous.(WorkloadControl.aggregate_version) 1 != Some current.(WorkloadControl.aggregate_version))
           || (checked_add previous_generation 1 != Some current_generation)
           || (previous_policy.(EffectivePlacementPolicy.desired_replicas)
               == current_policy.(EffectivePlacementPolicy.desired_replicas))
           || is_nil correlation_id)
    "Workload replica-set event has an invalid transition" ;;
  Ok (organization_event event_id "workload.replica-set.reconfigured" 1 current.(WorkloadControl.organization_id)
        current.(WorkloadControl.workload_id) current.(WorkloadControl.aggregate_version)
        current.(WorkloadControl.updated_at) correlation_id None
        (JObj [("organizationId", json_uuid current.(WorkloadControl.organization_id));
               ("workloadId", json_uuid current.(WorkloadControl.workload_id));
               ("previousPolicyGeneration", JNum previous_generation);
               ("policyGeneration", JNum current_generation);
               ("previousDesiredReplicas", JNum previous_policy.(EffectivePlacementPolicy.desired_replicas));
               ("desiredReplicas", JNum current_policy.(EffectivePlacementPolicy.desired_replicas))]%string)).

(** [WorkloadReplicaEvacuationRequested::envelope] *)
Definition replica_evacuation_requested (event_id : Uuid) (previous current : WorkloadReplica.t)
    (member : WorkloadReplicaMember.t) (correlation_id : Uuid) : result DomainEventEnvelope.t :=
  source_node_id ← ok_or current.(WorkloadReplica.evacuation_node_id)
                     "Workload replica evacuation omitted its source node";
  fail_if ((previous.(WorkloadReplica.id) != current.(WorkloadReplica.id))
           || (previous.(WorkloadReplica.organization_id) != current.(WorkloadReplica.organization_id))
           || (previous.(WorkloadReplica.workload_id) != current.(WorkloadReplica.workload_id))
           || (previous.(WorkloadReplica.generation) != current.(WorkloadReplica.generation))
           || (previous.(WorkloadReplica.ordinal) != current.(WorkloadReplica.ordinal))
           || (previous.(WorkloadReplica.lifecycle) != WorkloadReplicaLifecycle.Desired)
           || is_some previous.(WorkloadReplica.evacuation_node_id)
           || is_some previous.(WorkloadReplica.retirement_command_id)
           || is_some previous.(WorkloadReplica.runtime_fenced_at)
           || (current.(WorkloadReplica.lifecycle) != WorkloadReplicaLifecycle.Retiring)
           || is_some current.(WorkloadReplica.retirement_command_id)
           || is_some current.(WorkloadReplica.runtime_fenced_at)
           || (checked_add previous.(WorkloadReplica.aggregate_version) 1 != Some current.(WorkloadReplica.aggregate_version))
           || (member.(WorkloadReplicaMember.organization_id) != current.(WorkloadReplica.organization_id))
           || (member.(WorkloadReplicaMember.workload_id) != current.(WorkloadReplica.workload_id))
           || (member.(WorkloadReplicaMember.replica_id) != current.(WorkloadReplica.id))
           || (member.(WorkloadReplicaMember.node_id) != Some source_node_id)
           || (member.(WorkloadReplicaMember.placement_generation) =? 0)%N
           || (current.(WorkloadReplica.updated_at) <? Z.max previous.(WorkloadReplica.updated_at)
                                                          member.(WorkloadReplicaMember.updated_at))%Z
           || is_nil correlation_id)
    "Workload replica evacuation request event has an invalid transition" ;;
  Ok (organization_event event_id "workload.replica.evacuation.requested" 1 current.(WorkloadReplica.organization_id)
        current.(WorkloadReplica.id) current.(WorkloadReplica.aggregate_version) current.(WorkloadReplica.updated_at)
        correlation_id None
        (JObj [("organizationId", json_uuid current.(WorkloadReplica.organization_id));
               ("workloadId", json_uuid current.(WorkloadReplica.workload_id));
               ("replicaId", json_uuid current.(WorkloadReplica.id));
               ("replicaGeneration", JNum current.(WorkloadReplica.generation));
               ("ordinal", JNum current.(WorkloadReplica.ordinal));
               ("sourceNodeId", json_uuid source_node_id);
               ("placementGeneration", JNum member.(WorkloadReplicaMember.placement_generation));
               ("requestedAt", json_time current.(WorkloadReplica.updated_at))]%string)).

(** [WorkloadReplicaEvacuated::envelope] *)
Definition replica_evacuated (event_id : Uuid) (previous current : WorkloadReplica.t)
    (previous_member current_member : WorkloadReplicaMember.t) (correlation_id : Uuid) : result DomainEventEnvelope.t :=
  source_node_id ← ok_or previous.(WorkloadReplica.evacuation_node_id)
                     "Workload replica evacuation omitted its source node";
  runtime_fence_command_id ← ok_or previous.(WorkloadReplica.retirement_command_id)
                               "Workload replica evacuation omitted its Runtime fence";
  runtime_fenced_at ← ok_or previous.(WorkloadReplica.runtime_fenced_at)
                        "Workload replica evacuation omitted its Runtime fencing time";
  fail_if ((previous.(WorkloadReplica.id) != current.(WorkloadReplica.id))
           || (previous.(WorkloadReplica.organization_id) != current.(WorkloadReplica.organization_id))
           || (previous.(WorkloadReplica.workload_id) != current.(WorkloadReplica.workload_id))
           || (previous.(WorkloadReplica.ordinal) != current.(WorkloadReplica.ordinal))
           || (previous.(WorkloadReplica.revision_id) != current.(WorkloadReplica.revision_id))
           || (previous.(WorkloadReplica.revision_generation) != current.(WorkloadReplica.revision_generation))
           || (previous.(WorkloadReplica.lifecycle) != WorkloadReplicaLifecycle.Retiring)
           || (current.(WorkloadReplica.lifecycle) != WorkloadReplicaLifecycle.Desired)
           || (checked_add previous.(WorkloadReplica.generation) 1 != Some current.(WorkloadReplica.generation))
           || (checked_add previous.(WorkloadReplica.aggregate_version) 1 != Some current.(WorkloadReplica.aggregate_version))
           || is_some current.(WorkloadReplica.evacuation_node_id)
           || is_some current.(WorkloadReplica.retirement_command_id)
           || is_some current.(WorkloadReplica.runtime_fenced_at)
           || (previous_member.(WorkloadReplicaMember.id) != current_member.(WorkloadReplicaMember.id))
           || (previous_member.(WorkloadReplicaMember.replica_id) != previous.(WorkloadReplica.id))
           || (current_member.(WorkloadReplicaMember.replica_id) != current.(WorkloadReplica.id))
           || (previous_member.(WorkloadReplicaMember.node_id) != Some source_node_id)
           || is_some current_member.(WorkloadReplicaMember.node_id)
           || (previous_member.(WorkloadReplicaMember.placement_generation)
               != current_member.(WorkloadReplicaMember.placement_generation))
           || (checked_add previous_member.(WorkloadReplicaMember.aggregate_version) 1
               != Some current_member.(WorkloadReplicaMember.aggregate_version))
           || (current.(WorkloadReplica.updated_at) <? Z.max previous.(WorkloadReplica.updated_at)
                                                          current_member.(WorkloadReplicaMember.updated_at))%Z
           || is_nil correlation_id)
    "Workload replica evacuated event has an invalid transition" ;;
  Ok (organization_event event_id "workload.replica.evacuated" 1 current.(WorkloadReplica.organization_id)
        current.(WorkloadReplica.id) current.(WorkloadReplica.aggregate_version) current.(WorkloadReplica.updated_at)
        correlation_id (Some runtime_fence_command_id)
        (JObj [("organizationId", json_uuid current.(WorkloadReplica.organization_id));
               ("workloadId", json_uuid current.(WorkloadReplica.workload_id));
               ("replicaId", json_uuid current.(WorkloadReplica.id));
               ("previousReplicaGeneration", JNum previous.(WorkloadReplica.generation));
               ("replicaGeneration", JNum current.(WorkloadReplica.generation));
               ("ordinal", JNum current.(WorkloadReplica.ordinal));
               ("sourceNodeId", json_uuid source_node_id);
               ("placementGeneration", JNum previous_member.(WorkloadReplicaMember.placement_generation));
               ("runtimeFenceCommandId", json_uuid runtime_fence_command_id);
               ("runtimeFencedAt", json_time runtime_fenced_at);
               ("evacuatedAt", json_time current.(WorkloadReplica.updated_at))]%string)).

(** [WorkloadReplicaRetired::envelope] *)
Definition replica_retired (event_id : Uuid) (previous current : WorkloadReplica.t)
    (previous_member current_member : WorkloadReplicaMember.t) (correlation_id : Uuid) : result DomainEventEnvelope.t :=
  expected_member_version ←
    ok_or (checked_add previous_member.(WorkloadReplicaMember.aggregate_version)
             (if is_some previous_member.(WorkloadReplicaMember.node_id) then 1 else 0)%N)
      "Workload replica member version overflowed";
  fail_if ((previous.(WorkloadReplica.id) != current.(WorkloadReplica.id))
           || (previous.(WorkloadReplica.organization_id) != current.(WorkloadReplica.organization_id))
           || (previous.(WorkloadReplica.workload_id) != current.(WorkloadReplica.workload_id))
           || (previous.(WorkloadReplica.generation) != current.(WorkloadReplica.generation))
           || (previous.(WorkloadReplica.ordinal) != current.(WorkloadReplica.ordinal))
           || (previous.(WorkloadReplica.lifecycle) != WorkloadReplicaLifecycle.Retiring)
           || is_some previous.(WorkloadReplica.evacuation_node_id)
           || (current.(WorkloadReplica.lifecycle) != WorkloadReplicaLifecycle.Retired)
           || is_some current.(WorkloadReplica.evacuation_node_id)
           || (checked_add previous.(WorkloadReplica.aggregate_version) 1 != Some current.(WorkloadReplica.aggregate_version))
           || (previous.(WorkloadReplica.retirement_command_id) != current.(WorkloadReplica.retirement_command_id))
           || (previous.(WorkloadReplica.runtime_fenced_at) != current.(WorkloadReplica.runtime_fenced_at))
           || (is_some previous.(WorkloadReplica.retirement_command_id) != is_some previous.(WorkloadReplica.runtime_fenced_at))
           || is_some previous_member.(WorkloadReplicaMember.node_id) && is_none previous.(WorkloadReplica.runtime_fenced_at)
           || (previous_member.(WorkloadReplicaMember.id) != current_member.(WorkloadReplicaMember.id))
           || (previous_member.(WorkloadReplicaMember.replica_id) != previous.(WorkloadReplica.id))
           || (current_member.(WorkloadReplicaMember.replica_id) != current.(WorkloadReplica.id))
           || (previous_member.(WorkloadReplicaMember.placement_generation)
               != current_member.(WorkloadReplicaMember.placement_generation))
           || is_some current_member.(WorkloadReplicaMember.node_id)
           || (current_member.(WorkloadReplicaMember.aggregate_version) != expected_member_version)
           || (current.(WorkloadReplica.updated_at) <? Z.max previous.(WorkloadReplica.updated_at)
                                                          current_member.(WorkloadReplicaMember.updated_at))%Z
           || is_nil correlation_id)
    "Workload replica retirement event has an invalid transition" ;;
  Ok (organization_event event_id "workload.replica.retired" 1 current.(WorkloadReplica.organization_id)
        current.(WorkloadReplica.id) current.(WorkloadReplica.aggregate_version) current.(WorkloadReplica.updated_at)
        correlation_id previous.(WorkloadReplica.retirement_command_id)
        (JObj [("organizationId", json_uuid current.(WorkloadReplica.organization_id));
               ("workloadId", json_uuid current.(WorkloadReplica.workload_id));
               ("replicaId", json_uuid current.(WorkloadReplica.id));
               ("replicaGeneration", JNum current.(WorkloadReplica.generation));
               ("ordinal", JNum current.(WorkloadReplica.ordinal));
               ("nodeId", json_opt_uuid previous_member.(WorkloadReplicaMember.node_id));
               ("placementGeneration", JNum previous_member.(WorkloadReplicaMember.placement_generation));
               ("runtimeFenceCommandId", json_opt_uuid current.(WorkloadReplica.retirement_command_id));
               ("runtimeFencedAt", json_option json_time current.(WorkloadReplica.runtime_fenced_at));
               ("retiredAt", json_time current.(WorkloadReplica.updated_at))]%string)).

(** ** [workload_deployment_health_changed.rs] *)
Inductive WorkloadDeploymentFailurePhase :=
| QueuedPhase
| ResolvingPhase
| ScheduledPhase
| ApplyingPhase
| VerifyingPhase.

Definition phase_from_status (status : DeploymentStatus.t) : option WorkloadDeploymentFailurePhase :=
  match status with
  | DeploymentStatus.Queued => Some QueuedPhase
  | DeploymentStatus.Resolving => Some ResolvingPhase
  | DeploymentStatus.Scheduled => Some ScheduledPhase
  | DeploymentStatus.Applying => Some ApplyingPhase
  | DeploymentStatus.Verifying => Some VerifyingPhase
  | DeploymentStatus.Retiring | DeploymentStatus.Cancelling | DeploymentStatus.CleanupPending
  | DeploymentStatus.Active | DeploymentStatus.Failed | DeploymentStatus.Orphaned
  | DeploymentStatus.Cancelled => None
  end.

Definition phase_str (phase : WorkloadDeploymentFailurePhase) : string :=
  match phase with
  | QueuedPhase => "queued"
  | ResolvingPhase => "resolving"
  | ScheduledPhase => "scheduled"
  | ApplyingPhase => "applying"
  | VerifyingPhase => "verifying"
  end.

Inductive WorkloadDeploymentAvailabilityImpact :=
| Unavailable
| PreviousRevisionRetained.

Definition impact_str (impact : WorkloadDeploymentAvailabilityImpact) : string :=
  match impact with
  | Unavailable => "unavailable"
  | PreviousRevisionRetained => "previous_revision_retained"
  end.

Inductive WorkloadDeploymentHealthStatus :=
| FailedHealth
| HealthyHealth.

Definition health_str (status : WorkloadDeploymentHealthStatus) : string :=
  match status with FailedHealth => "failed" | HealthyHealth => "healthy" end.

Definition validate_transition_context (previous deployment : Deployment.t) (workload : Workload.t)
    (revision : WorkloadRevision.t) : result unit :=
  fail_if (is_nil workload.(Workload.id)
           || is_nil workload.(Workload.organization_id)
           || is_nil workload.(Workload.project_id)
           || is_nil workload.(Workload.environment_id)
           || is_nil deployment.(Deployment.id)
           || is_nil deployment.(Deployment.operation_id)
           || is_nil revision.(WorkloadRevision.id)
           || (revision.(WorkloadRevision.generation) =? 0)%N
           || (deployment.(Deployment.organization_id) != workload.(Workload.organization_id))
           || (deployment.(Deployment.workload_id) != workload.(Workload.id))
           || (deployment.(Deployment.revision_id) != revision.(WorkloadRevision.id))
           || (revision.(WorkloadRevision.workload_id) != workload.(Workload.id))
           || (previous.(Deployment.id) != deployment.(Deployment.id))
           || (previous.(Deployment.organization_id) != deployment.(Deployment.organization_id))
           || (previous.(Deployment.workload_id) != deployment.(Deployment.workload_id))
           || (previous.(Deployment.revision_id) != deployment.(Deployment.revision_id))
           || (previous.(Deployment.operation_id) != deployment.(Deployment.operation_id))
           || (previous.(Deployment.node_id) != deployment.(Deployment.node_id))
           || (previous.(Deployment.command_id) != deployment.(Deployment.command_id))
           || (previous.(Deployment.cleanup_command_id) != deployment.(Deployment.cleanup_command_id))
           || (previous.(Deployment.retirement_command_id) != deployment.(Deployment.retirement_command_id))
           || (previous.(Deployment.requested_at) != deployment.(Deployment.requested_at))
           || is_some_and is_nil deployment.(Deployment.node_id))
    "Workload deployment health fact identity is inconsistent".

Definition validate_workload_transition (previous workload : Workload.t) : result unit :=
  fail_if ((previous.(Workload.id) != workload.(Workload.id))
           || (previous.(Workload.organization_id) != workload.(Workload.organization_id))
           || (previous.(Workload.project_id) != workload.(Workload.project_id))
           || (previous.(Workload.environment_id) != workload.(Workload.environment_id))
           || (previous.(Workload.name) != workload.(Workload.name))
           || (previous.(Workload.desired_state) != workload.(Workload.desired_state))
           || (previous.(Workload.created_at) != workload.(Workload.created_at)))
    "Workload deployment health fact owner transition is inconsistent".

Definition health_envelope (event_id : Uuid) (event_key : string) (deployment : Deployment.t) (workload : Workload.t)
    (revision : WorkloadRevision.t) (status : WorkloadDeploymentHealthStatus)
    (failure_phase : option WorkloadDeploymentFailurePhase)
    (availability_impact : option WorkloadDeploymentAvailabilityImpact) : DomainEventEnvelope.t :=
  organization_event event_id event_key 1 workload.(Workload.organization_id) workload.(Workload.id)
    revision.(WorkloadRevision.generation) deployment.(Deployment.updated_at) deployment.(Deployment.operation_id)
    deployment.(Deployment.command_id)
    (JObj [("organizationId", json_uuid workload.(Workload.organization_id));
           ("projectId", json_uuid workload.(Workload.project_id));
           ("environmentId", json_uuid workload.(Workload.environment_id));
           ("workloadId", json_uuid workload.(Workload.id));
           ("workloadName", JStr workload.(Workload.name).(ResourceName.display));
           ("deploymentId", json_uuid deployment.(Deployment.id));
           ("revisionId", json_uuid revision.(WorkloadRevision.id));
           ("revisionGeneration", JNum revision.(WorkloadRevision.generation));
           ("operationId", json_uuid deployment.(Deployment.operation_id));
           ("nodeId", json_opt_uuid deployment.(Deployment.node_id));
           ("status", JStr (health_str status));
           ("failurePhase", json_option (fun p => JStr (phase_str p)) failure_phase);
           ("availabilityImpact", json_option (fun i => JStr (impact_str i)) availability_impact)]%string).

(** What a method returned and left, when it is called on a copy. *)
Definition on_copy {S} (m : method S unit) (s : S) : result S :=
  match m s with (s', Ok _) => Ok s' | (_, Err e) => Err e end.

(** [WorkloadDeploymentHealthChanged::failure_envelope] *)
Definition failure_envelope (event_id : Uuid) (previous deployment : Deployment.t) (workload : Workload.t)
    (revision : WorkloadRevision.t) : result (option DomainEventEnvelope.t) :=
  validate_transition_context previous deployment workload revision ;;
  reason ← ok_or deployment.(Deployment.failure) "Workload deployment failure fact omitted the private failure reason";
  expected ← on_copy (Deployment.fail reason deployment.(Deployment.updated_at)) previous;
  fail_if (expected != deployment) "Workload deployment failure fact has an invalid transition" ;;
  match phase_from_status previous.(Deployment.status) with
  | None => Ok None
  | Some failure_phase =>
    if (workload.(Workload.desired_state) != WorkloadDesiredState.Running)
       || (workload.(Workload.active_revision_id) == Some deployment.(Deployment.revision_id))
    then Ok None
    else
      let availability_impact :=
        match workload.(Workload.active_revision_id) with
        | Some _ => PreviousRevisionRetained
        | None => Unavailable
        end in
      Ok (Some (health_envelope event_id "workload.deployment.failed" deployment workload revision FailedHealth
                  (Some failure_phase) (Some availability_impact)))
  end.

(** [WorkloadDeploymentHealthChanged::healthy_envelope] *)
Definition healthy_envelope (event_id : Uuid) (previous_deployment deployment : Deployment.t)
    (previous_workload workload : Workload.t) (revision : WorkloadRevision.t) : result (option DomainEventEnvelope.t) :=
  validate_transition_context previous_deployment deployment workload revision ;;
  validate_workload_transition previous_workload workload ;;
  activated_at ← ok_or deployment.(Deployment.activated_at) "healthy Workload deployment omitted its activation time";
  let retirement_required := deployment.(Deployment.status) == DeploymentStatus.Retiring in
  expected_deployment ← on_copy (Deployment.activate retirement_required activated_at) previous_deployment;
  expected_workload ← on_copy (Workload.activate deployment.(Deployment.revision_id) activated_at) previous_workload;
  fail_if ((expected_deployment != deployment) || (expected_workload != workload))
    "Workload deployment healthy fact has an invalid transition" ;;
  if previous_workload.(Workload.active_revision_id) == Some deployment.(Deployment.revision_id) then Ok None
  else Ok (Some (health_envelope event_id "workload.deployment.healthy" deployment workload revision HealthyHealth
                   None None)).
End events.
