(* ===== verification/RuntimeBindings.v ===== *)
(** * Runtime execution bindings and writer fences

    [workloads/domain/entities/runtime_execution_binding.rs]: the admission of one deployment to a
    runtime class and isolation, with its digest; and [workload_writer_fence.rs] with the commit of
    [repositories/workload_repository.rs]: the proof that one runtime generation can no longer write. *)

From Stdlib Require Import ZArith NArith Lia String.
From S2P Require Import Prelude RustStd External Text SharedKernel Workloads ServiceTemplates WorkloadRevisions Deployments.
From S2P Require Import Replicas WorkloadControls PlacementGroups WorkloadOperations.

Definition DEPLOYMENT_RUNTIME_EXECUTION_BINDING_SCHEMA : string :=
  "a3s.cloud.deployment-runtime-execution-binding.v1".

(** [RuntimeUnitClass] and [RuntimeIsolationLevel] are enumerations of the runtime's own crate: a value
    is its serialized name. *)
Definition RuntimeUnitClass : Type := string.
Definition RuntimeIsolationLevel : Type := string.
Definition SERVICE_CLASS : RuntimeUnitClass := "service"%string.

Module WorkloadRuntimeExecutionBinding.
Record t := Mk {
  runtime_class : RuntimeUnitClass;
  isolation : RuntimeIsolationLevel;
  semantics_profile_digest : Sha256Digest.t;
  identity_attachment_digest : Sha256Digest.t;
}.

#[global] Instance t_eq_dec : EqDecision t.
Proof. solve_decision. Defined.

Definition validate (self : t) : result unit :=
  let message := "Workload Runtime execution digest is not canonical"%string in
  semantics ← Sha256Digest.parse (Sha256Digest.as_str self.(semantics_profile_digest));
  if semantics != self.(semantics_profile_digest) then err message
  else
    identity ← Sha256Digest.parse (Sha256Digest.as_str self.(identity_attachment_digest));
    fail_if (identity != self.(identity_attachment_digest)) message.

Definition new (runtime_class : RuntimeUnitClass) (isolation : RuntimeIsolationLevel)
    (semantics_profile_digest identity_attachment_digest : Sha256Digest.t) : result t :=
  let value := Mk runtime_class isolation semantics_profile_digest identity_attachment_digest in
  validate value ;; Ok value.

Definition to_json (self : t) : json :=
  JObj [("runtimeClass", JStr self.(runtime_class)); ("isolation", JStr self.(isolation));
        ("semanticsProfileDigest", JStr (Sha256Digest.as_str self.(semantics_profile_digest)));
        ("identityAttachmentDigest", JStr (Sha256Digest.as_str self.(identity_attachment_digest)))]%string.
End WorkloadRuntimeExecutionBinding.

Module DeploymentRuntimeExecutionBinding.
Record t := Mk {
  schema : string;
  deployment_id : DeploymentId;
  organization_id : OrganizationId;
  project_id : ProjectId;
  environment_id : EnvironmentId;
  workload_id : WorkloadId;
  workload_revision_id : WorkloadRevisionId;
  node_pool_id : option NodePoolId;
  execution : option WorkloadRuntimeExecutionBinding.t;
  authorized_at : option Time;
  admitted_at : Time;
  binding_digest : Sha256Digest.t;
}.

#[global] Instance t_eta : Eta t := fun r =>
  Mk r.(schema) r.(deployment_id) r.(organization_id) r.(project_id) r.(environment_id) r.(workload_id)
     r.(workload_revision_id) r.(node_pool_id) r.(execution) r.(authorized_at) r.(admitted_at) r.(binding_digest).

#[global] Instance t_eq_dec : EqDecision t.
Proof. solve_decision. Defined.

Section binding.
Context `{External}.

Definition canonical_binding (self : t) : json :=
  JObj [("schema", JStr self.(schema));
        ("deploymentId", json_uuid self.(deployment_id));
        ("organizationId", json_uuid self.(organization_id));
        ("projectId", json_uuid self.(project_id));
        ("environmentId", json_uuid self.(environment_id));
        ("workloadId", json_uuid self.(workload_id));
        ("workloadRevisionId", json_uuid self.(workload_revision_id));
        ("nodePoolId", json_option json_uuid self.(node_pool_id));
        ("execution", json_option WorkloadRuntimeExecutionBinding.to_json self.(execution));
        ("authorizedAt", json_option json_time self.(authorized_at));
        ("admittedAt", json_time self.(admitted_at))]%string.

Definition calculate_binding_digest (self : t) : result Sha256Digest.t :=
  bytes ← map_err (fun e => Error "could not encode Deployment Runtime binding: {error}" [FStr e.(template)])
            (json_to_vec (canonical_binding self));
  Ok (Sha256Digest.from_bytes bytes).

Definition execution_shape_is_valid (self : t) : bool :=
  match self.(execution), self.(authorized_at), self.(node_pool_id) with
  | None, None, _ => true
  | Some _, Some _, Some _ => true
  | _, _, _ => false
  end.

Definition validate (self : t) : result unit :=
  let message := "Deployment Runtime execution binding is invalid"%string in
  match self.(execution) with
  | Some execution => WorkloadRuntimeExecutionBinding.validate execution
  | None => Ok tt
  end ;;
  if (self.(schema) != DEPLOYMENT_RUNTIME_EXECUTION_BINDING_SCHEMA)
     || is_nil self.(deployment_id) || is_nil self.(organization_id) || is_nil self.(project_id)
     || is_nil self.(environment_id) || is_nil self.(workload_id) || is_nil self.(workload_revision_id)
     || is_some_and is_nil self.(node_pool_id)
     || is_some_and (fun value => value != canonical_timestamp value) self.(authorized_at)
     || is_some_and (fun value => self.(admitted_at) <? value)%Z self.(authorized_at)
     || (self.(admitted_at) != canonical_timestamp self.(admitted_at))
     || negb (execution_shape_is_valid self)
  then err message
  else
    parsed ← Sha256Digest.parse (Sha256Digest.as_str self.(binding_digest));
    if parsed != self.(binding_digest) then err message
    else
      digest ← calculate_binding_digest self;
      fail_if (digest != self.(binding_digest)) message.

Definition validate_lineage (self : t) (deployment : Deployment.t) (workload : Workload.t)
    (revision : WorkloadRevision.t) : result unit :=
  validate self ;;
  fail_if ((self.(deployment_id) != deployment.(Deployment.id))
           || (self.(organization_id) != deployment.(Deployment.organization_id))
           || (self.(organization_id) != workload.(Workload.organization_id))
           || (self.(project_id) != workload.(Workload.project_id))
           || (self.(environment_id) != workload.(Workload.environment_id))
           || (self.(workload_id) != deployment.(Deployment.workload_id))
           || (self.(workload_id) != workload.(Workload.id))
           || (self.(workload_revision_id) != deployment.(Deployment.revision_id))
           || (self.(workload_revision_id) != revision.(WorkloadRevision.id))
           || (revision.(WorkloadRevision.workload_id) != workload.(Workload.id))
           || is_some_and (fun e => e.(WorkloadRuntimeExecutionBinding.runtime_class) != SERVICE_CLASS) self.(execution))
    "Deployment Runtime execution binding changed owner lineage".

Definition require_placement_lineage (self : t) (deployment : Deployment.t) (control : WorkloadControl.t) : result unit :=
  fail_if ((self.(deployment_id) != deployment.(Deployment.id))
           || (self.(organization_id) != deployment.(Deployment.organization_id))
           || (self.(workload_id) != deployment.(Deployment.workload_id))
           || (self.(workload_revision_id) != deployment.(Deployment.revision_id))
           || (self.(organization_id) != control.(WorkloadControl.organization_id))
           || (self.(project_id) != control.(WorkloadControl.project_id))
           || (self.(environment_id) != control.(WorkloadControl.environment_id))
           || (self.(workload_id) != control.(WorkloadControl.workload_id))
           || (self.(node_pool_id) != (WorkloadControl.policy control).(EffectivePlacementPolicy.node_pool_id)))
    "Deployment Runtime execution binding changed placement lineage".

Definition validate_admission (self : t) (deployment : Deployment.t) (workload : Workload.t)
    (revision : WorkloadRevision.t) (control : WorkloadControl.t) : result unit :=
  validate_lineage self deployment workload revision ;;
  WorkloadControl.validate_against control workload ;;
  require_placement_lineage self deployment control ;;
  fail_if ((deployment.(Deployment.status) != DeploymentStatus.Resolving)
           || (self.(admitted_at) <? deployment.(Deployment.updated_at))%Z
           || is_some deployment.(Deployment.node_id)
           || is_some deployment.(Deployment.command_id)
           || is_some deployment.(Deployment.cleanup_command_id)
           || is_some deployment.(Deployment.retirement_command_id)
           || is_some deployment.(Deployment.activated_at)
           || is_some deployment.(Deployment.cancellation_requested_at)
           || is_some deployment.(Deployment.cancelled_at))
    "Deployment Runtime execution binding requires an unresolved Deployment".

Definition validate_placement_lineage (self : t) (deployment : Deployment.t) (control : WorkloadControl.t) : result unit :=
  validate self ;;
  WorkloadControlSpec.validate control.(WorkloadControl.spec) ;;
  require_placement_lineage self deployment control.

(** The common end of [bind] and [admit_unbound]: digest, then the whole admission. *)
Definition seal_admission (value : t) (deployment : Deployment.t) (workload : Workload.t) (revision : WorkloadRevision.t)
    (control : WorkloadControl.t) : result t :=
  digest ← calculate_binding_digest value;
  let value := value <| binding_digest := digest |> in
  validate_admission value deployment workload revision control ;;
  Ok value.

Definition bind (deployment : Deployment.t) (workload : Workload.t) (revision : WorkloadRevision.t)
    (control : WorkloadControl.t) (node_pool_id : NodePoolId) (execution : WorkloadRuntimeExecutionBinding.t)
    (authorized_at admitted_at : Time) : result t :=
  seal_admission (Mk DEPLOYMENT_RUNTIME_EXECUTION_BINDING_SCHEMA deployment.(Deployment.id) workload.(Workload.organization_id)
            workload.(Workload.project_id) workload.(Workload.environment_id) workload.(Workload.id)
            revision.(WorkloadRevision.id) (Some node_pool_id) (Some execution)
            (Some (canonical_timestamp authorized_at)) (canonical_timestamp admitted_at) (Sha256Digest.from_bytes []))
    deployment workload revision control.

Definition admit_unbound (deployment : Deployment.t) (workload : Workload.t) (revision : WorkloadRevision.t)
    (control : WorkloadControl.t) (admitted_at : Time) : result t :=
  seal_admission (Mk DEPLOYMENT_RUNTIME_EXECUTION_BINDING_SCHEMA deployment.(Deployment.id) workload.(Workload.organization_id)
            workload.(Workload.project_id) workload.(Workload.environment_id) workload.(Workload.id)
            revision.(WorkloadRevision.id) (WorkloadControl.policy control).(EffectivePlacementPolicy.node_pool_id) None
            None (canonical_timestamp admitted_at) (Sha256Digest.from_bytes []))
    deployment workload revision control.

Definition restore (schema : string) (deployment_id : DeploymentId) (organization_id : OrganizationId)
    (project_id : ProjectId) (environment_id : EnvironmentId) (workload_id : WorkloadId)
    (workload_revision_id : WorkloadRevisionId) (node_pool_id : option NodePoolId)
    (execution : option WorkloadRuntimeExecutionBinding.t) (authorized_at : option Time) (admitted_at : Time)
    (binding_digest : Sha256Digest.t) : result t :=
  let value := Mk schema deployment_id organization_id project_id environment_id workload_id workload_revision_id
                  node_pool_id execution (canonical_timestamp <$> authorized_at) (canonical_timestamp admitted_at)
                  binding_digest in
  validate value ;; Ok value.
End binding.
End DeploymentRuntimeExecutionBinding.

(** ** Writer fences *)
Definition WORKLOAD_WRITER_FENCE_RECEIPT_SCHEMA : string := "cloud.workload.writer-fence-receipt.v1".
Definition MAX_RUNTIME_UNIT_ID_BYTES : N := 512.
Definition MAX_RECEIPT_BYTES : N := 16384.

Definition valid_runtime_unit_id (value : string) : bool :=
  negb (str_is_empty value) && (str_len value <=? MAX_RUNTIME_UNIT_ID_BYTES)%N && negb (contains_any [NUL; CR; LF] value).

Module WorkloadWriterFenceReceiptSpec.
Record t := Mk {
  organization_id : OrganizationId;
  project_id : ProjectId;
  environment_id : EnvironmentId;
  workload_id : WorkloadId;
  workload_revision_id : WorkloadRevisionId;
  workload_revision_generation : N;
  replica_id : WorkloadReplicaId;
  replica_ordinal : N;
  writer_epoch : N;
  member_id : WorkloadReplicaMemberId;
  placement_generation : N;
  managed_owner : ManagedOwnerReference.t;
  node_id : NodeId;
  runtime_unit_id : string;
  command_id : NodeCommandId;
  command_payload_digest : Sha256Digest.t;
  acknowledgement_digest : Sha256Digest.t;
  continuation_operation_id : OperationId;
  fenced_at : Time;
}.

#[global] Instance t_eta : Eta t := fun r =>
  Mk r.(organization_id) r.(project_id) r.(environment_id) r.(workload_id) r.(workload_revision_id)
     r.(workload_revision_generation) r.(replica_id) r.(replica_ordinal) r.(writer_epoch) r.(member_id)
     r.(placement_generation) r.(managed_owner) r.(node_id) r.(runtime_unit_id) r.(command_id)
     r.(command_payload_digest) r.(acknowledgement_digest) r.(continuation_operation_id) r.(fenced_at).

#[global] Instance t_eq_dec : EqDecision t.
Proof. solve_decision. Defined.

Definition MAX_SAFE : N := SecretVersionReference.MAX_SAFE_SERIALIZED_INTEGER.

Definition validate (self : t) : result unit :=
  let message := "Workload writer-fence receipt spec is invalid"%string in
  ManagedOwnerReference.validate self.(managed_owner) ;;
  if is_nil self.(organization_id) || is_nil self.(project_id) || is_nil self.(environment_id)
     || is_nil self.(workload_id) || is_nil self.(workload_revision_id)
     || (self.(workload_revision_generation) =? 0)%N
     || (MAX_SAFE <? self.(workload_revision_generation))%N
     || is_nil self.(replica_id)
     || (MAX_WORKLOAD_REPLICAS <=? self.(replica_ordinal))%N
     || (self.(writer_epoch) =? 0)%N
     || (MAX_SAFE <? self.(writer_epoch))%N
     || is_nil self.(member_id)
     || (self.(placement_generation) =? 0)%N
     || (MAX_SAFE <? self.(placement_generation))%N
     || is_nil self.(node_id)
     || negb (valid_runtime_unit_id self.(runtime_unit_id))
     || is_nil self.(command_id)
  then err message
  else
    payload ← Sha256Digest.parse (Sha256Digest.as_str self.(command_payload_digest));
    if payload != self.(command_payload_digest) then err message
    else
      acknowledgement ← Sha256Digest.parse (Sha256Digest.as_str self.(acknowledgement_digest));
      fail_if ((acknowledgement != self.(acknowledgement_digest))
               || is_nil self.(continuation_operation_id)
               || (self.(fenced_at) != canonical_timestamp self.(fenced_at)))
        message.

Definition owner_json `{External} (o : ManagedOwnerReference.t) : json :=
  JObj [("kind", JStr (ManagedOwnerKind.as_str o.(ManagedOwnerReference.kind)));
        ("ownerId", json_uuid o.(ManagedOwnerReference.owner_id));
        ("ownerGeneration", JNum o.(ManagedOwnerReference.owner_generation));
        ("ownerSpecDigest", JStr o.(ManagedOwnerReference.owner_spec_digest))]%string.

Definition to_json `{External} (self : t) : json :=
  JObj [("organizationId", json_uuid self.(organization_id));
        ("projectId", json_uuid self.(project_id));
        ("environmentId", json_uuid self.(environment_id));
        ("workloadId", json_uuid self.(workload_id));
        ("workloadRevisionId", json_uuid self.(workload_revision_id));
        ("workloadRevisionGeneration", JNum self.(workload_revision_generation));
        ("replicaId", json_uuid self.(replica_id));
        ("replicaOrdinal", JNum self.(replica_ordinal));
        ("writerEpoch", JNum self.(writer_epoch));
        ("memberId", json_uuid self.(member_id));
        ("placementGeneration", JNum self.(placement_generation));
        ("managedOwner", owner_json self.(managed_owner));
        ("nodeId", json_uuid self.(node_id));
        ("runtimeUnitId", JStr self.(runtime_unit_id));
        ("commandId", json_uuid self.(command_id));
        ("commandPayloadDigest", JStr (Sha256Digest.as_str self.(command_payload_digest)));
        ("acknowledgementDigest", JStr (Sha256Digest.as_str self.(acknowledgement_digest)));
        ("continuationOperationId", json_uuid self.(continuation_operation_id));
        ("fencedAt", json_time self.(fenced_at))]%string.
End WorkloadWriterFenceReceiptSpec.

Module WorkloadWriterFenceReceipt.
Record t := Mk {
  spec : WorkloadWriterFenceReceiptSpec.t;
  digest : Sha256Digest.t;
}.

#[global] Instance t_eq_dec : EqDecision t.
Proof. solve_decision. Defined.

Section receipt.
Context `{External}.

Definition receipt_digest (spec : WorkloadWriterFenceReceiptSpec.t) : result Sha256Digest.t :=
  bytes ← canonical_json_bounded
            (JObj [("schema", JStr WORKLOAD_WRITER_FENCE_RECEIPT_SCHEMA);
                   ("spec", WorkloadWriterFenceReceiptSpec.to_json spec)]%string)
            MAX_RECEIPT_BYTES "Workload writer-fence receipt";
  Ok (Sha256Digest.from_bytes bytes).

Definition issue (spec : WorkloadWriterFenceReceiptSpec.t) : result t :=
  let spec := spec <| WorkloadWriterFenceReceiptSpec.fenced_at :=
                canonical_timestamp spec.(WorkloadWriterFenceReceiptSpec.fenced_at) |> in
  WorkloadWriterFenceReceiptSpec.validate spec ;;
  digest ← receipt_digest spec;
  Ok (Mk spec digest).

Definition restore (spec : WorkloadWriterFenceReceiptSpec.t) (stored_digest : string) : result t :=
  receipt ← issue spec;
  fail_if (Sha256Digest.as_str receipt.(digest) != stored_digest)
    "stored Workload writer-fence receipt digest does not match" ;;
  Ok receipt.

Definition validate (self : t) : result unit :=
  WorkloadWriterFenceReceiptSpec.validate self.(spec) ;;
  digest ← receipt_digest self.(spec);
  fail_if (digest != self.(WorkloadWriterFenceReceipt.digest)) "Workload writer-fence receipt drifted".
End receipt.
End WorkloadWriterFenceReceipt.

Module ReplicaRuntimeFence.
Record t := Mk {
  organization_id : OrganizationId;
  workload_id : WorkloadId;
  replica_id : WorkloadReplicaId;
  replica_generation : N;
  expected_replica_version : N;
  command_id : NodeCommandId;
  fenced_at : Time;
}.
End ReplicaRuntimeFence.

Module WorkloadWriterFenceCommit.
Record t := Mk {
  receipt : WorkloadWriterFenceReceipt.t;
  operation : WorkloadWriterFenceContinuationIntent.t;
}.

Section commit.
Context `{External}.
Import WorkloadWriterFenceReceiptSpec.

Definition validate (self : WorkloadWriterFenceCommit.t) : result unit :=
  WorkloadWriterFenceReceipt.validate self.(receipt) ;;
  let spec := self.(receipt).(WorkloadWriterFenceReceipt.spec) in
  fail_if ((self.(operation).(WorkloadWriterFenceContinuationIntent.operation_id) != spec.(continuation_operation_id))
           || (self.(operation).(WorkloadWriterFenceContinuationIntent.organization_id) != spec.(organization_id))
           || (self.(operation).(WorkloadWriterFenceContinuationIntent.requested_at) != spec.(fenced_at)))
    "Workload writer-fence continuation Operation changed its exact handoff".

(** The receipt against the control record, the replica, its member, the binding and the fence. *)
Definition control_differs (r : WorkloadWriterFenceReceiptSpec.t) (control : WorkloadControl.t) : bool :=
  let policy := WorkloadControl.policy control in
  negb (policy.(EffectivePlacementPolicy.desired_replicas) =? 0)%N
  || (policy.(EffectivePlacementPolicy.topology) != PlacementTopology.SingleNode)
  || negb (policy.(EffectivePlacementPolicy.members_per_replica) =? 1)%N
  || (control.(WorkloadControl.spec).(WorkloadControlSpec.managed_owner) != Some r.(managed_owner))
  || (control.(WorkloadControl.organization_id) != r.(organization_id))
  || (control.(WorkloadControl.project_id) != r.(project_id))
  || (control.(WorkloadControl.environment_id) != r.(environment_id))
  || (control.(WorkloadControl.workload_id) != r.(workload_id)).

Definition replica_differs (r : WorkloadWriterFenceReceiptSpec.t) (replica : WorkloadReplica.t) : bool :=
  is_some replica.(WorkloadReplica.evacuation_node_id)
  || (replica.(WorkloadReplica.organization_id) != r.(organization_id))
  || (replica.(WorkloadReplica.project_id) != r.(project_id))
  || (replica.(WorkloadReplica.environment_id) != r.(environment_id))
  || (replica.(WorkloadReplica.workload_id) != r.(workload_id))
  || (replica.(WorkloadReplica.revision_id) != r.(workload_revision_id))
  || (replica.(WorkloadReplica.revision_generation) != r.(workload_revision_generation))
  || (replica.(WorkloadReplica.id) != r.(replica_id))
  || (replica.(WorkloadReplica.ordinal) != r.(replica_ordinal))
  || negb (replica.(WorkloadReplica.ordinal) =? 0)%N
  || (replica.(WorkloadReplica.generation) != r.(writer_epoch)).

Definition member_differs (r : WorkloadWriterFenceReceiptSpec.t) (member : WorkloadReplicaMember.t) : bool :=
  (member.(WorkloadReplicaMember.id) != r.(member_id))
  || (member.(WorkloadReplicaMember.organization_id) != r.(organization_id))
  || (member.(WorkloadReplicaMember.project_id) != r.(project_id))
  || (member.(WorkloadReplicaMember.environment_id) != r.(environment_id))
  || (member.(WorkloadReplicaMember.workload_id) != r.(workload_id))
  || (member.(WorkloadReplicaMember.replica_id) != r.(replica_id))
  || negb (member.(WorkloadReplicaMember.ordinal) =? 0)%N
  || (member.(WorkloadReplicaMember.node_id) != Some r.(node_id))
  || (member.(WorkloadReplicaMember.placement_generation) != r.(placement_generation)).

Definition binding_differs (r : WorkloadWriterFenceReceiptSpec.t) (binding : DeploymentReplicaBinding.t) : bool :=
  (binding.(DeploymentReplicaBinding.organization_id) != r.(organization_id))
  || (binding.(DeploymentReplicaBinding.project_id) != r.(project_id))
  || (binding.(DeploymentReplicaBinding.environment_id) != r.(environment_id))
  || (binding.(DeploymentReplicaBinding.workload_id) != r.(workload_id))
  || (binding.(DeploymentReplicaBinding.revision_id) != r.(workload_revision_id))
  || (binding.(DeploymentReplicaBinding.replica_id) != r.(replica_id))
  || (binding.(DeploymentReplicaBinding.replica_generation) != r.(writer_epoch))
  || (binding.(DeploymentReplicaBinding.member_id) != r.(member_id))
  || (binding.(DeploymentReplicaBinding.node_id) != Some r.(node_id))
  || (binding.(DeploymentReplicaBinding.placement_generation) != r.(placement_generation))
  || (binding.(DeploymentReplicaBinding.runtime_unit_id) != r.(runtime_unit_id))
  || (binding.(DeploymentReplicaBinding.runtime_generation) != r.(writer_epoch)).

Definition fence_differs (r : WorkloadWriterFenceReceiptSpec.t) (fence : ReplicaRuntimeFence.t) : bool :=
  (fence.(ReplicaRuntimeFence.organization_id) != r.(organization_id))
  || (fence.(ReplicaRuntimeFence.workload_id) != r.(workload_id))
  || (fence.(ReplicaRuntimeFence.replica_id) != r.(replica_id))
  || (fence.(ReplicaRuntimeFence.replica_generation) != r.(writer_epoch))
  || (fence.(ReplicaRuntimeFence.command_id) != r.(command_id))
  || (canonical_timestamp fence.(ReplicaRuntimeFence.fenced_at) != r.(fenced_at)).

Definition validate_replica_retirement (self : WorkloadWriterFenceCommit.t) (fence : ReplicaRuntimeFence.t) (control : WorkloadControl.t)
    (replica : WorkloadReplica.t) (member : WorkloadReplicaMember.t) (binding : DeploymentReplicaBinding.t) : result unit :=
  validate self ;;
  let r := self.(receipt).(WorkloadWriterFenceReceipt.spec) in
  fail_if (control_differs r control || replica_differs r replica || member_differs r member
           || binding_differs r binding || fence_differs r fence)
    "Workload writer-fence commit changed its exact Runtime authority".
End commit.
End WorkloadWriterFenceCommit.
