(* ===== verification/ReplicaSets.v ===== *)
(** * Replica sets

    [workloads/domain/services/replica_set_reconfiguration.rs]: the plan of a change of the number of
    desired replicas.  Its errors are those of the repository, as [replica_set_repository_error] maps
    them: [Conflict] stays a conflict, [Invariant] is a storage error. *)

From Stdlib Require Import ZArith NArith Lia String.
From S2P Require Import Prelude RustStd External Text SharedKernel Repositories Workloads WorkloadRevisions Deployments.
From S2P Require Import Replicas WorkloadControls WorkloadOperations WorkloadEvents.
Import RepositoryError.

Module ReplicaSetReconfiguration.
Record t := Mk {
  control : WorkloadControl.t;
  replicas : list WorkloadReplica.t;
  members_to_create : list WorkloadReplicaMember.t;
}.
End ReplicaSetReconfiguration.

(** [replicas.sort_by_key(|replica| (replica.ordinal, replica.id))] *)
Definition replica_key (replica : WorkloadReplica.t) : N * Uuid :=
  (replica.(WorkloadReplica.ordinal), replica.(WorkloadReplica.id)).
Definition sort_replicas (replicas : list WorkloadReplica.t) : list WorkloadReplica.t := sort_by_key replica_key replicas.

Definition has_ordinal (ordinal : N) (replica : WorkloadReplica.t) : bool :=
  (replica.(WorkloadReplica.ordinal) =? ordinal)%N.

(** The ordinals [low..high]. *)
Definition ordinals (low high : N) : list N :=
  map (fun i => low + N.of_nat i)%N (seq 0 (N.to_nat (high - low))).

Definition validate_desired_prefix (replicas : list WorkloadReplica.t) (desired_replicas : N) : result unit :=
  for_each (fun ordinal =>
    if is_none_or (fun replica => replica.(WorkloadReplica.lifecycle) != WorkloadReplicaLifecycle.Desired)
         (find (has_ordinal ordinal) replicas)
    then Err (Storage (Error "Workload desired replica ordinal {ordinal} is missing" [FNum ordinal]))
    else Ok tt) (ordinals 0 desired_replicas) ;;
  if any (fun replica => (desired_replicas <=? replica.(WorkloadReplica.ordinal))%N
                         && (replica.(WorkloadReplica.lifecycle) == WorkloadReplicaLifecycle.Desired)) replicas
  then Err (storage_error "Workload desired replicas are not an ordinal prefix")
  else Ok tt.

Section reconfiguration.
Context `{External}.

(** The loop of [validate_current_set] over the sorted replicas, with what it has inserted. *)
Fixpoint validate_identities (workload : Workload.t) (ids ordinals : list N) (replicas : list WorkloadReplica.t) :
    result unit :=
  match replicas with
  | [] => Ok tt
  | replica :: rest =>
    map_err Storage (WorkloadReplica.validate replica) ;;
    if (replica.(WorkloadReplica.organization_id) != workload.(Workload.organization_id))
       || (replica.(WorkloadReplica.project_id) != workload.(Workload.project_id))
       || (replica.(WorkloadReplica.environment_id) != workload.(Workload.environment_id))
       || (replica.(WorkloadReplica.workload_id) != workload.(Workload.id))
       || bool_decide (replica.(WorkloadReplica.id) ∈ ids)
       || bool_decide (replica.(WorkloadReplica.ordinal) ∈ ordinals)
    then Err (storage_error "Workload replica set has inconsistent or duplicate identities")
    else validate_identities workload (replica.(WorkloadReplica.id) :: ids)
           (replica.(WorkloadReplica.ordinal) :: ordinals) rest
  end.

(** The replicas are given sorted. *)
Definition validate_current_set (workload : Workload.t) (control : WorkloadControl.t) (revision : WorkloadRevision.t)
    (replicas : list WorkloadReplica.t) : result unit :=
  map_err Storage (WorkloadControl.validate_against control workload) ;;
  if is_empty replicas then Err (storage_error "Workload replica set is empty")
  else
    validate_identities workload [] [] replicas ;;
    canonical ← some_or (find (has_ordinal 0) replicas) (storage_error "Workload replica set is missing ordinal zero");
    if (revision.(WorkloadRevision.workload_id) != workload.(Workload.id))
       || (canonical.(WorkloadReplica.revision_id) != revision.(WorkloadRevision.id))
       || (canonical.(WorkloadReplica.revision_generation) != revision.(WorkloadRevision.generation))
    then Err (storage_error "Workload replica set has no canonical current revision")
    else validate_desired_prefix replicas (WorkloadControl.policy control).(EffectivePlacementPolicy.desired_replicas).

(** A call on the first replica with an ordinal ([replica_for_ordinal_mut]), in place. *)
Fixpoint on_ordinal (ordinal : N) (m : method WorkloadReplica.t unit) (replicas : list WorkloadReplica.t) :
    result (list WorkloadReplica.t) :=
  match replicas with
  | [] => Err (Storage (Error "desired Workload replica ordinal {ordinal} is missing" [FNum ordinal]))
  | replica :: rest =>
    if has_ordinal ordinal replica then
      match m replica with
      | (replica', Ok _) => Ok (replica' :: rest)
      | (_, Err e) => Err (Conflict e)
      end
    else
      rest' ← on_ordinal ordinal m rest;
      Ok (replica :: rest')
  end.

(** [desired_replicas < previous_desired]: the replicas beyond are asked to retire. *)
Fixpoint scale_down (requested_at : Time) (ordinals : list N) (replicas : list WorkloadReplica.t) :
    result (list WorkloadReplica.t) :=
  match ordinals with
  | [] => Ok replicas
  | ordinal :: rest =>
    replicas ← on_ordinal ordinal (WorkloadReplica.request_retirement requested_at) replicas;
    scale_down requested_at rest replicas
  end.

(** The other case: retired replicas are reactivated, missing ones are made. *)
Fixpoint scale_up (workload : Workload.t) (revision : WorkloadRevision.t) (requested_at : Time) (ordinals : list N)
    (replicas : list WorkloadReplica.t) (members_to_create : list WorkloadReplicaMember.t) :
    result (list WorkloadReplica.t * list WorkloadReplicaMember.t) :=
  match ordinals with
  | [] => Ok (replicas, members_to_create)
  | ordinal :: rest =>
    match find (has_ordinal ordinal) replicas with
    | Some replica =>
      match replica.(WorkloadReplica.lifecycle) with
      | WorkloadReplicaLifecycle.Retired =>
        replicas ← on_ordinal ordinal (WorkloadReplica.reactivate revision requested_at) replicas;
        scale_up workload revision requested_at rest replicas members_to_create
      | WorkloadReplicaLifecycle.Retiring =>
        Err (Conflict (Error "Workload replica ordinal {} is still retiring" [FNum replica.(WorkloadReplica.ordinal)]))
      | WorkloadReplicaLifecycle.Desired =>
        Err (Storage (Error "Workload replica ordinal {ordinal} is already desired outside the current policy"
                        [FNum ordinal]))
      end
    | None =>
      replica ← map_err Storage (WorkloadReplica.for_ordinal workload revision ordinal);
      member ← map_err Storage (WorkloadReplicaMemberCreation.for_replica workload replica);
      scale_up workload revision requested_at rest (replicas ++ [replica]) (members_to_create ++ [member])
    end
  end.

Definition plan_replica_set_reconfiguration (workload : Workload.t) (control : WorkloadControl.t)
    (revision : WorkloadRevision.t) (replicas : list WorkloadReplica.t) (expected_control_version : N)
    (expected_policy_generation desired_replicas : N) (requested_owner : option ManagedOwnerReference.t)
    (requested_at : Time) : result ReplicaSetReconfiguration.t :=
  let replicas := sort_replicas replicas in
  validate_current_set workload control revision replicas ;;
  if control.(WorkloadControl.aggregate_version) != expected_control_version
  then Err (Conflict (Error "workload control changed from expected version {expected_control_version} to {}"
                        [FNum expected_control_version; FNum control.(WorkloadControl.aggregate_version)]))
  else
    let previous_desired := (WorkloadControl.policy control).(EffectivePlacementPolicy.desired_replicas) in
    control ← map_err Conflict
                (on_copy (WorkloadControl.reconfigure_replica_set expected_policy_generation desired_replicas
                            requested_owner requested_at) control);
    '(replicas, members_to_create) ←
      (if (desired_replicas <? previous_desired)%N then
         replicas ← scale_down requested_at (ordinals desired_replicas previous_desired) replicas;
         Ok (replicas, [])
       else
         scale_up workload revision requested_at (ordinals previous_desired desired_replicas) replicas []);
    let replicas := sort_replicas replicas in
    let members_to_create :=
      sort_by_key (fun member => (member.(WorkloadReplicaMember.replica_id),
                                  (member.(WorkloadReplicaMember.ordinal), member.(WorkloadReplicaMember.id))))
        members_to_create in
    validate_desired_prefix replicas desired_replicas ;;
    Ok (ReplicaSetReconfiguration.Mk control replicas members_to_create).
End reconfiguration.
