(* ===== verification/ReplicaMaterialization.v ===== *)
(** * Materialization of replica deployments

    [workloads/infrastructure/replica_deployment_materialization.rs]: the deployment of one generation
    of a replica has an identity computed from that generation, so that two controllers that
    materialize it make the same one.  [run_once] is one cycle of the controller over any repository
    with the two calls of [IWorkloadReplicaDeploymentRepository].  [Uuid::now_v7] gives the event its
    identity: it is the argument [event_id]. *)

From Stdlib Require Import ZArith NArith Lia String.
From S2P Require Import Prelude RustStd External Text SharedKernel Repositories Workloads ServiceTemplates WorkloadRevisions.
From S2P Require Import Deployments Replicas WorkloadControls PlacementGroups WorkloadOperations WorkloadEvents.

Definition DEPLOYMENT_ID_DOMAIN : string := "a3s.cloud.replica-deployment.v1".
Definition OPERATION_ID_DOMAIN : string := "a3s.cloud.replica-deployment-operation.v1".
Definition CORRELATION_ID_DOMAIN : string := "a3s.cloud.replica-deployment-materialization.v1".

Module ReplicaDeploymentCandidate.
Record t := Mk {
  organization_id : OrganizationId;
  workload_id : WorkloadId;
  replica_id : WorkloadReplicaId;
  replica_ordinal : N;
  revision_id : WorkloadRevisionId;
  revision_generation : N;
  replica_generation : N;
}.
#[global] Instance t_eq_dec : EqDecision t.
Proof. solve_decision. Defined.
End ReplicaDeploymentCandidate.

Module ReplicaDeploymentMaterialization.
Record t := Mk {
  candidate : ReplicaDeploymentCandidate.t;
  deployment : Deployment.t;
  operation : WorkloadDeploymentOperationIntent.t;
  member_bindings : list DeploymentReplicaBinding.t;
  placement_group_binding : option DeploymentPlacementGroupBinding.t;
  created : bool;
}.
End ReplicaDeploymentMaterialization.

Module ReplicaDeploymentWrite.
Record t := Mk {
  deployment : Deployment.t;
  operation : WorkloadDeploymentOperationIntent.t;
  binding : DeploymentReplicaBinding.t;
  member_bindings : list DeploymentReplicaBinding.t;
  placement_group_binding : option DeploymentPlacementGroupBinding.t;
  event : DomainEventEnvelope.t;
}.
End ReplicaDeploymentWrite.

Module PlacementGroupDeploymentContext.
Record t := Mk {
  workload : Workload.t;
  policy : EffectivePlacementPolicy.t;
  revision : WorkloadRevision.t;
  replica : WorkloadReplica.t;
  group : WorkloadPlacementGroup.t;
  members : list WorkloadReplicaMember.t;
}.
End PlacementGroupDeploymentContext.

Section materialization.
Context `{External}.
Import ReplicaDeploymentCandidate.

Definition replica_deployment_id (candidate : ReplicaDeploymentCandidate.t) : DeploymentId :=
  uuid_v5 candidate.(replica_id) (DEPLOYMENT_ID_DOMAIN ++ ":" ++ num_display candidate.(replica_generation))%string.

Definition replica_operation_id (candidate : ReplicaDeploymentCandidate.t) : OperationId :=
  uuid_v5 (replica_deployment_id candidate) OPERATION_ID_DOMAIN.

Definition replica_materialization_correlation_id (candidate : ReplicaDeploymentCandidate.t) : Uuid :=
  uuid_v5 (replica_deployment_id candidate) CORRELATION_ID_DOMAIN.

Definition replica_operation_intent (deployment : Deployment.t) : WorkloadDeploymentOperationIntent.t :=
  {| WorkloadDeploymentOperationIntent.operation_id := deployment.(Deployment.operation_id);
     WorkloadDeploymentOperationIntent.organization_id := deployment.(Deployment.organization_id);
     WorkloadDeploymentOperationIntent.deployment_id := deployment.(Deployment.id);
     WorkloadDeploymentOperationIntent.revision_id := deployment.(Deployment.revision_id);
     WorkloadDeploymentOperationIntent.workload_id := deployment.(Deployment.workload_id);
     WorkloadDeploymentOperationIntent.requested_at := deployment.(Deployment.requested_at) |}.

Definition validate_materialization_context (candidate : ReplicaDeploymentCandidate.t) (workload : Workload.t)
    (revision : WorkloadRevision.t) (replica : WorkloadReplica.t) (member : WorkloadReplicaMember.t) : result unit :=
  WorkloadReplica.validate replica ;;
  WorkloadReplicaMember.validate member ;;
  fail_if ((candidate.(organization_id) != workload.(Workload.organization_id))
           || (candidate.(workload_id) != workload.(Workload.id))
           || (candidate.(replica_id) != replica.(WorkloadReplica.id))
           || (candidate.(replica_ordinal) != replica.(WorkloadReplica.ordinal))
           || (candidate.(revision_id) != revision.(WorkloadRevision.id))
           || (candidate.(revision_generation) != revision.(WorkloadRevision.generation))
           || (candidate.(replica_generation) != replica.(WorkloadReplica.generation))
           || (workload.(Workload.desired_state) != WorkloadDesiredState.Running)
           || (revision.(WorkloadRevision.workload_id) != workload.(Workload.id))
           || (replica.(WorkloadReplica.organization_id) != workload.(Workload.organization_id))
           || (replica.(WorkloadReplica.project_id) != workload.(Workload.project_id))
           || (replica.(WorkloadReplica.environment_id) != workload.(Workload.environment_id))
           || (replica.(WorkloadReplica.workload_id) != workload.(Workload.id))
           || (replica.(WorkloadReplica.revision_id) != revision.(WorkloadRevision.id))
           || (replica.(WorkloadReplica.revision_generation) != revision.(WorkloadRevision.generation))
           || (replica.(WorkloadReplica.lifecycle) != WorkloadReplicaLifecycle.Desired)
           || (member.(WorkloadReplicaMember.organization_id) != workload.(Workload.organization_id))
           || (member.(WorkloadReplicaMember.project_id) != workload.(Workload.project_id))
           || (member.(WorkloadReplicaMember.environment_id) != workload.(Workload.environment_id))
           || (member.(WorkloadReplicaMember.workload_id) != workload.(Workload.id))
           || (member.(WorkloadReplicaMember.replica_id) != replica.(WorkloadReplica.id))
           || is_some member.(WorkloadReplicaMember.node_id))
    "replica deployment materialization context is inconsistent".

Definition build_replica_deployment_write (event_id : Uuid) (candidate : ReplicaDeploymentCandidate.t)
    (workload : Workload.t) (revision : WorkloadRevision.t) (replica : WorkloadReplica.t)
    (member : WorkloadReplicaMember.t) (requested_at : Time) : result ReplicaDeploymentWrite.t :=
  validate_materialization_context candidate workload revision replica member ;;
  let requested_at :=
    canonical_timestamp
      (Z.max (Z.max (Z.max (Z.max requested_at workload.(Workload.updated_at)) revision.(WorkloadRevision.created_at))
         replica.(WorkloadReplica.updated_at)) member.(WorkloadReplicaMember.updated_at)) in
  let deployment :=
    Deployment.create (replica_deployment_id candidate) workload.(Workload.organization_id) workload.(Workload.id)
      revision.(WorkloadRevision.id) (replica_operation_id candidate) requested_at in
  let operation := replica_operation_intent deployment in
  binding ← DeploymentReplicaBinding.create deployment revision replica member;
  let event :=
    deployment_requested event_id deployment revision (replica_materialization_correlation_id candidate) None in
  Ok {| ReplicaDeploymentWrite.deployment := deployment;
        ReplicaDeploymentWrite.operation := operation;
        ReplicaDeploymentWrite.binding := binding;
        ReplicaDeploymentWrite.member_bindings := [binding];
        ReplicaDeploymentWrite.placement_group_binding := None;
        ReplicaDeploymentWrite.event := event |}.

Definition build_group_deployment_write (event_id : Uuid) (candidate : ReplicaDeploymentCandidate.t)
    (context : PlacementGroupDeploymentContext.t) (requested_at : Time) : result ReplicaDeploymentWrite.t :=
  let '(PlacementGroupDeploymentContext.Mk workload policy revision replica group members) := context in
  WorkloadPlacementGroup.validate_context group workload policy revision replica ;;
  fail_if (negb (len members =? len group.(WorkloadPlacementGroup.members))%N)
    "placement-group Deployment member set is incomplete" ;;
  for_each (fun mp : WorkloadReplicaMember.t * WorkloadPlacementGroupMemberPlan.t =>
    validate_materialization_context candidate workload revision replica mp.1 ;;
    WorkloadPlacementGroup.validate_replica_member_identity group mp.1 ;;
    fail_if ((mp.1.(WorkloadReplicaMember.id) != mp.2.(WorkloadPlacementGroupMemberPlan.member_id))
             || (mp.1.(WorkloadReplicaMember.ordinal) != mp.2.(WorkloadPlacementGroupMemberPlan.ordinal)))
      "placement-group Deployment member plan is inconsistent") (zip members group.(WorkloadPlacementGroup.members)) ;;
  let requested_at :=
    fold_left (fun latest member => Z.max latest member.(WorkloadReplicaMember.updated_at)) members
      (Z.max (Z.max (Z.max (Z.max requested_at workload.(Workload.updated_at)) revision.(WorkloadRevision.created_at))
         replica.(WorkloadReplica.updated_at)) group.(WorkloadPlacementGroup.updated_at)) in
  let deployment :=
    Deployment.create (replica_deployment_id candidate) workload.(Workload.organization_id) workload.(Workload.id)
      revision.(WorkloadRevision.id) (replica_operation_id candidate) requested_at in
  member_bindings ← mapM (fun mp : WorkloadReplicaMember.t * WorkloadPlacementGroupMemberPlan.t =>
    GroupMemberBinding.create_for_placement_group_member deployment revision replica mp.1 mp.2)
    (zip members group.(WorkloadPlacementGroup.members));
  binding ← ok_or (head member_bindings) "placement-group Deployment omitted its leader binding";
  placement_group_binding ←
    DeploymentPlacementGroupBinding.create deployment revision replica group members member_bindings;
  let operation := replica_operation_intent deployment in
  let event :=
    deployment_requested event_id deployment revision (replica_materialization_correlation_id candidate) None in
  Ok {| ReplicaDeploymentWrite.deployment := deployment;
        ReplicaDeploymentWrite.operation := operation;
        ReplicaDeploymentWrite.binding := binding;
        ReplicaDeploymentWrite.member_bindings := member_bindings;
        ReplicaDeploymentWrite.placement_group_binding := Some placement_group_binding;
        ReplicaDeploymentWrite.event := event |}.

Definition materialization_from_existing (candidate : ReplicaDeploymentCandidate.t) (deployment : Deployment.t)
    (member_bindings : list DeploymentReplicaBinding.t)
    (placement_group_binding : option DeploymentPlacementGroupBinding.t) :
    result ReplicaDeploymentMaterialization.t :=
  fail_if ((deployment.(Deployment.id) != replica_deployment_id candidate)
           || (deployment.(Deployment.operation_id) != replica_operation_id candidate)
           || (deployment.(Deployment.organization_id) != candidate.(organization_id))
           || (deployment.(Deployment.workload_id) != candidate.(workload_id))
           || (deployment.(Deployment.revision_id) != candidate.(revision_id)))
    "stored replica deployment does not match its deterministic identity" ;;
  match placement_group_binding with
  | Some binding => DeploymentPlacementGroupBinding.validate binding
  | None => Ok tt
  end ;;
  Ok {| ReplicaDeploymentMaterialization.candidate := candidate;
        ReplicaDeploymentMaterialization.deployment := deployment;
        ReplicaDeploymentMaterialization.operation := replica_operation_intent deployment;
        ReplicaDeploymentMaterialization.member_bindings := member_bindings;
        ReplicaDeploymentMaterialization.placement_group_binding := placement_group_binding;
        ReplicaDeploymentMaterialization.created := false |}.

Definition created_materialization (candidate : ReplicaDeploymentCandidate.t) (write : ReplicaDeploymentWrite.t) :
    ReplicaDeploymentMaterialization.t :=
  {| ReplicaDeploymentMaterialization.candidate := candidate;
     ReplicaDeploymentMaterialization.deployment := write.(ReplicaDeploymentWrite.deployment);
     ReplicaDeploymentMaterialization.operation := write.(ReplicaDeploymentWrite.operation);
     ReplicaDeploymentMaterialization.member_bindings := write.(ReplicaDeploymentWrite.member_bindings);
     ReplicaDeploymentMaterialization.placement_group_binding := write.(ReplicaDeploymentWrite.placement_group_binding);
     ReplicaDeploymentMaterialization.created := true |}.

(** The loop over the stored member bindings, with what it has inserted; its result is the set of
    nodes. *)
Fixpoint check_member_bindings (deployment : Deployment.t) (group_binding : DeploymentPlacementGroupBinding.t)
    (member_ids : list Uuid) (runtime_unit_ids : list string) (node_ids : list Uuid)
    (bindings : list DeploymentReplicaBinding.t) : result (list Uuid) :=
  match bindings with
  | [] => Ok node_ids
  | binding :: rest =>
    let member_id := binding.(DeploymentReplicaBinding.member_id) in
    let runtime_unit_id := binding.(DeploymentReplicaBinding.runtime_unit_id) in
    let node_id := binding.(DeploymentReplicaBinding.node_id) in
    fail_if ((binding.(DeploymentReplicaBinding.deployment_id) != deployment.(Deployment.id))
             || (binding.(DeploymentReplicaBinding.organization_id)
                   != group_binding.(DeploymentPlacementGroupBinding.organization_id))
             || (binding.(DeploymentReplicaBinding.project_id)
                   != group_binding.(DeploymentPlacementGroupBinding.project_id))
             || (binding.(DeploymentReplicaBinding.environment_id)
                   != group_binding.(DeploymentPlacementGroupBinding.environment_id))
             || (binding.(DeploymentReplicaBinding.workload_id)
                   != group_binding.(DeploymentPlacementGroupBinding.workload_id))
             || (binding.(DeploymentReplicaBinding.revision_id)
                   != group_binding.(DeploymentPlacementGroupBinding.revision_id))
             || (binding.(DeploymentReplicaBinding.replica_id)
                   != group_binding.(DeploymentPlacementGroupBinding.replica_id))
             || (binding.(DeploymentReplicaBinding.replica_generation)
                   != group_binding.(DeploymentPlacementGroupBinding.replica_generation))
             || (binding.(DeploymentReplicaBinding.runtime_generation)
                   != group_binding.(DeploymentPlacementGroupBinding.replica_generation))
             || bool_decide (member_id ∈ member_ids)
             || bool_decide (runtime_unit_id ∈ runtime_unit_ids)
             || is_some_and (fun node => bool_decide (node ∈ node_ids)) node_id)
      "stored placement-group Deployment member bindings are inconsistent" ;;
    check_member_bindings deployment group_binding (member_id :: member_ids) (runtime_unit_id :: runtime_unit_ids)
      (option_list node_id ++ node_ids) rest
  end.

Definition validate_existing_materialization (deployment : Deployment.t) (canonical_binding : DeploymentReplicaBinding.t)
    (member_bindings : list DeploymentReplicaBinding.t)
    (placement_group_binding : option DeploymentPlacementGroupBinding.t) (topology : PlacementTopology.t) : result unit :=
  first ← ok_or (head member_bindings) "stored Deployment omitted its replica member binding";
  if first != canonical_binding then err "stored Deployment leader binding is inconsistent"
  else match topology, placement_group_binding with
  | PlacementTopology.SingleNode, None =>
    fail_if (negb (len member_bindings =? 1)%N) "stored Deployment execution shape is inconsistent"
  | PlacementTopology.MultiNode, Some group_binding =>
    DeploymentPlacementGroupBinding.validate group_binding ;;
    fail_if ((group_binding.(DeploymentPlacementGroupBinding.deployment_id) != deployment.(Deployment.id))
             || (group_binding.(DeploymentPlacementGroupBinding.organization_id) != deployment.(Deployment.organization_id))
             || (group_binding.(DeploymentPlacementGroupBinding.workload_id) != deployment.(Deployment.workload_id))
             || (group_binding.(DeploymentPlacementGroupBinding.revision_id) != deployment.(Deployment.revision_id))
             || (group_binding.(DeploymentPlacementGroupBinding.replica_id)
                   != canonical_binding.(DeploymentReplicaBinding.replica_id))
             || (group_binding.(DeploymentPlacementGroupBinding.replica_generation)
                   != canonical_binding.(DeploymentReplicaBinding.replica_generation))
             || negb (group_binding.(DeploymentPlacementGroupBinding.member_count) =? len member_bindings)%N)
      "stored placement-group Deployment identity is inconsistent" ;;
    node_ids ← check_member_bindings deployment group_binding [] [] [] member_bindings;
    let leader_node_id := binding ← head member_bindings; binding.(DeploymentReplicaBinding.node_id) in
    let assigned_members :=
      len (List.filter (fun binding => is_some binding.(DeploymentReplicaBinding.node_id)) member_bindings) in
    fail_if ((deployment.(Deployment.node_id) != leader_node_id)
             || negb (assigned_members =? 0)%N && negb (assigned_members =? len member_bindings)%N
             || (assigned_members =? 0)%N && is_some deployment.(Deployment.node_id)
             || (assigned_members =? len member_bindings)%N && negb (len node_ids =? len member_bindings)%N)
      "stored placement-group Deployment scheduling shape is inconsistent"
  | _, _ => err "stored Deployment execution shape is inconsistent"
  end.

Definition validate_existing_group_materialization_context (deployment : Deployment.t)
    (context : PlacementGroupDeploymentContext.t) (member_bindings : list DeploymentReplicaBinding.t)
    (group_binding : DeploymentPlacementGroupBinding.t) : result unit :=
  let '(PlacementGroupDeploymentContext.Mk workload policy revision replica group members) := context in
  WorkloadPlacementGroup.validate_context group workload policy revision replica ;;
  DeploymentPlacementGroupBinding.validate_against group_binding deployment group ;;
  fail_if (negb (len members =? len group.(WorkloadPlacementGroup.members))%N
           || negb (len member_bindings =? len group.(WorkloadPlacementGroup.members))%N)
    "stored placement-group Deployment member set is incomplete" ;;
  for_each (fun x : WorkloadPlacementGroupMemberPlan.t * WorkloadReplicaMember.t * DeploymentReplicaBinding.t =>
    let '(plan, member, binding) := x in
    WorkloadPlacementGroup.validate_replica_member_identity group member ;;
    fail_if ((plan.(WorkloadPlacementGroupMemberPlan.member_id) != member.(WorkloadReplicaMember.id))
             || (plan.(WorkloadPlacementGroupMemberPlan.ordinal) != member.(WorkloadReplicaMember.ordinal))
             || (binding.(DeploymentReplicaBinding.member_id) != member.(WorkloadReplicaMember.id)))
      "stored placement-group Deployment member order is inconsistent" ;;
    GroupMemberBinding.validate_against_placement_group_member binding deployment revision replica member plan)
    (zip (zip group.(WorkloadPlacementGroup.members) members) member_bindings).
End materialization.

(** ** The controller *)
Module ReplicaDeploymentMaterializationReport.
Record t := Mk {
  candidates : N;
  created : N;
  replayed : N;
  skipped : N;
  failures : list (ReplicaDeploymentCandidate.t * error);
}.
#[global] Instance t_eta : Eta t := fun r =>
  Mk r.(candidates) r.(created) r.(replayed) r.(skipped) r.(failures).
End ReplicaDeploymentMaterializationReport.

(** [IWorkloadReplicaDeploymentRepository], on a repository whose state is [S]. *)
Class IWorkloadReplicaDeploymentRepository (S : Type) := {
  pending_replica_deployments : N -> S -> result (list ReplicaDeploymentCandidate.t);
  materialize_replica_deployment :
    ReplicaDeploymentCandidate.t -> Time -> method S (option ReplicaDeploymentMaterialization.t);
}.

Module ReplicaDeploymentMaterializer.
Import ReplicaDeploymentMaterializationReport.

Record t := Mk {
  reconcile_interval : Z;
  batch_size : N;
}.

Definition new (reconcile_interval : Z) (batch_size : N) : result t :=
  fail_if ((reconcile_interval =? 0)%Z || (batch_size =? 0)%N || (10000 <? batch_size)%N)
    "replica deployment materialization policy is invalid" ;;
  Ok (Mk reconcile_interval batch_size).

Section run.
Context {S : Type} `{IWorkloadReplicaDeploymentRepository S}.

(** One candidate: a failure is recorded, what the call wrote stays. *)
Definition materialize_one (now : Time) (candidate : ReplicaDeploymentCandidate.t)
    (sr : S * ReplicaDeploymentMaterializationReport.t) : S * ReplicaDeploymentMaterializationReport.t :=
  let '(state, report) := sr in
  match materialize_replica_deployment candidate now state with
  | (state, Ok (Some materialization)) =>
    if materialization.(ReplicaDeploymentMaterialization.created)
    then (state, report <| created := (report.(created) + 1)%N |>)
    else (state, report <| replayed := (report.(replayed) + 1)%N |>)
  | (state, Ok None) => (state, report <| skipped := (report.(skipped) + 1)%N |>)
  | (state, Err e) => (state, report <| failures := report.(failures) ++ [(candidate, e)] |>)
  end.

Definition run_once (self : t) (now : Time) : method S ReplicaDeploymentMaterializationReport.t :=
  state ← get;
  candidates ← lift (pending_replica_deployments self.(batch_size) state);
  let report := ReplicaDeploymentMaterializationReport.Mk (len candidates) 0 0 0 [] in
  let '(state, report) := fold_left (fun sr candidate => materialize_one now candidate sr) candidates (state, report) in
  modify (fun _ => state) ;;
  mret report.
End run.
End ReplicaDeploymentMaterializer.
