(* ===== verification/WorkloadRepository.v ===== *)
(** * The workload repository: workloads, revisions and deployments

    [workloads/infrastructure/persistence/in_memory.rs], the state and the calls of
    [IWorkloadRepository], with the requests and answers of
    [workloads/domain/repositories/workload_repository.rs].  Every call holds the lock of the state
    from its first read to its last write.  [event_id] is the [Uuid::now_v7] of the event a call makes. *)

From Stdlib Require Import ZArith NArith Lia String.
From stdpp Require Import gmap.
From S2P Require Import Prelude RustStd BTreeMap External Text SharedKernel Repositories Workloads ServiceTemplates.
From S2P Require Import WorkloadRevisions Deployments Replicas WorkloadControls PlacementGroups WorkloadOperations.
From S2P Require Import WorkloadEvents RuntimeBindings ReplicaSets.
Import RepositoryError.

(** [std::cmp::Reverse] *)
Record Reverse (A : Type) := Rev { reversed : A }.
Arguments Rev {A} _.
Arguments reversed {A} _.
#[export] Instance reverse_ord `{Ord A} : Ord (Reverse A) := fun a b => cmp b.(reversed) a.(reversed).

(** ** Requests and answers *)
Module CreateDeploymentBundle.
Record t := Mk {
  workload : Workload.t;
  control : WorkloadControlSpec.t;
  revision : WorkloadRevision.t;
  deployment : Deployment.t;
  operation : WorkloadDeploymentOperationIntent.t;
  idempotency : IdempotencyRequest.t;
  event : DomainEventEnvelope.t;
}.
End CreateDeploymentBundle.

Module RequestDeploymentCancellationBundle.
Record t := Mk {
  deployment : Deployment.t;
  expected_version : N;
  idempotency : IdempotencyRequest.t;
  event : DomainEventEnvelope.t;
}.
End RequestDeploymentCancellationBundle.

Module RequestWorkloadStopBundle.
Record t := Mk {
  workload : Workload.t;
  expected_version : N;
  operation : WorkloadStopOperationIntent.t;
  idempotency : IdempotencyRequest.t;
  event : DomainEventEnvelope.t;
}.
End RequestWorkloadStopBundle.

Module DeploymentBundle.
Record t := Mk {
  workload : Workload.t;
  revision : WorkloadRevision.t;
  deployment : Deployment.t;
  operation : WorkloadDeploymentOperationIntent.t;
  replayed : bool;
}.
#[global] Instance t_eta : Eta t := fun r =>
  Mk r.(workload) r.(revision) r.(deployment) r.(operation) r.(replayed).
End DeploymentBundle.

Module WorkloadStopBundle.
Record t := Mk {
  workload : Workload.t;
  operation : WorkloadStopOperationIntent.t;
  replayed : bool;
}.
#[global] Instance t_eta : Eta t := fun r => Mk r.(workload) r.(operation) r.(replayed).
End WorkloadStopBundle.

Module ReconfigureReplicaSetWrite.
Record t := Mk {
  organization_id : OrganizationId;
  workload_id : WorkloadId;
  expected_control_version : N;
  expected_policy_generation : N;
  desired_replicas : N;
  managed_owner : option ManagedOwnerReference.t;
  idempotency : IdempotencyRequest.t;
  correlation_id : Uuid;
  requested_at : Time;
}.
End ReconfigureReplicaSetWrite.

Module ReplicaSetWriteResult.
Record t := Mk {
  control : WorkloadControl.t;
  replicas : list WorkloadReplica.t;
  replayed : bool;
}.
#[global] Instance t_eta : Eta t := fun r => Mk r.(control) r.(replicas) r.(replayed).
End ReplicaSetWriteResult.

(** ** The state *)
Module WorkloadState.
Record t := Mk {
  workloads : gmap WorkloadId Workload.t;
  names : gmap (OrganizationId * EnvironmentId * string) WorkloadId;
  revisions : gmap WorkloadRevisionId WorkloadRevision.t;
  deployments : gmap DeploymentId Deployment.t;
  controls : gmap WorkloadId WorkloadControl.t;
  replicas : gmap WorkloadReplicaId WorkloadReplica.t;
  replica_members : gmap WorkloadReplicaMemberId WorkloadReplicaMember.t;
  placement_groups : gmap WorkloadPlacementGroupId WorkloadPlacementGroup.t;
  deployment_replica_bindings : gmap DeploymentId DeploymentReplicaBinding.t;
  deployment_replica_member_bindings : gmap (DeploymentId * WorkloadReplicaMemberId) DeploymentReplicaBinding.t;
  deployment_placement_group_bindings : gmap DeploymentId DeploymentPlacementGroupBinding.t;
  deployment_runtime_execution_bindings : gmap DeploymentId DeploymentRuntimeExecutionBinding.t;
  idempotency : gmap (string * string) (string * DeploymentBundle.t);
  cancellation_idempotency : gmap (string * string) (string * Deployment.t);
  stop_idempotency : gmap (string * string) (string * WorkloadStopBundle.t);
  replica_set_idempotency : gmap (string * string) (string * ReplicaSetWriteResult.t);
  writer_fences : gmap (WorkloadId * N) WorkloadWriterFenceReceipt.t;
  writer_fence_operations : gmap OperationId OperationRequest.t;
  outbox : list DomainEventEnvelope.t;
}.

#[global] Instance t_eta : Eta t := fun r =>
  Mk r.(workloads) r.(names) r.(revisions) r.(deployments) r.(controls) r.(replicas) r.(replica_members)
     r.(placement_groups) r.(deployment_replica_bindings) r.(deployment_replica_member_bindings)
     r.(deployment_placement_group_bindings) r.(deployment_runtime_execution_bindings) r.(idempotency)
     r.(cancellation_idempotency) r.(stop_idempotency) r.(replica_set_idempotency) r.(writer_fences)
     r.(writer_fence_operations) r.(outbox).

Definition empty : t := Mk ∅ ∅ ∅ ∅ ∅ ∅ ∅ ∅ ∅ ∅ ∅ ∅ ∅ ∅ ∅ ∅ ∅ ∅ [].
End WorkloadState.

(** What a request changes besides the revision and the deployment. *)
Module DeploymentPlan.
Record t := Mk {
  workload : Workload.t;
  control : WorkloadControl.t;
  replicas : list WorkloadReplica.t;
  members : list WorkloadReplicaMember.t;
  control_changed : bool;
}.
End DeploymentPlan.

Module InMemoryWorkloadRepository.
Import WorkloadState.

Section repository.
Context `{External} `{ReleaseContract}.

(** ** Single writes *)
Definition put_workload (id : WorkloadId) (x : Workload.t) : method WorkloadState.t unit :=
  modify (fun s => s <| workloads := <[id := x]> s.(workloads) |>).
Definition put_deployment (id : DeploymentId) (x : Deployment.t) : method WorkloadState.t unit :=
  modify (fun s => s <| deployments := <[id := x]> s.(deployments) |>).
Definition put_control (id : WorkloadId) (x : WorkloadControl.t) : method WorkloadState.t unit :=
  modify (fun s => s <| controls := <[id := x]> s.(controls) |>).
Definition put_replica (x : WorkloadReplica.t) : method WorkloadState.t unit :=
  modify (fun s => s <| replicas := <[x.(WorkloadReplica.id) := x]> s.(replicas) |>).
Definition put_member (x : WorkloadReplicaMember.t) : method WorkloadState.t unit :=
  modify (fun s => s <| replica_members := <[x.(WorkloadReplicaMember.id) := x]> s.(replica_members) |>).
Definition put_binding (id : DeploymentId) (x : DeploymentReplicaBinding.t) : method WorkloadState.t unit :=
  modify (fun s => s <| deployment_replica_bindings := <[id := x]> s.(deployment_replica_bindings) |>).
Definition put_member_binding (id : DeploymentId) (x : DeploymentReplicaBinding.t) : method WorkloadState.t unit :=
  modify (fun s => s <| deployment_replica_member_bindings :=
    <[(id, x.(DeploymentReplicaBinding.member_id)) := x]> s.(deployment_replica_member_bindings) |>).
Definition push_event (x : DomainEventEnvelope.t) : method WorkloadState.t unit :=
  modify (fun s => s <| outbox := s.(outbox) ++ [x] |>).

(** [for x in xs { f(x) }] *)
Definition each {A} (f : A -> method WorkloadState.t unit) (l : list A) : method WorkloadState.t unit :=
  fold_right (fun x rest => f x ;; rest) (mret tt) l.

(** A method called on a copy: what it left and what it returned. *)
Definition on_clone {S A} (m : method S A) (s : S) : result (S * A) :=
  match m s with (s', Ok a) => Ok (s', a) | (_, Err e) => Err e end.

Definition transition_error (e : error) : error :=
  Conflict (Error "deployment transition was rejected: {error}" (FStr e.(template) :: e.(args))).

Definition version_conflict (expected actual : N) : error :=
  Conflict (Error "deployment changed from expected version {expected} to {actual}" [FNum expected; FNum actual]).

Definition missing_control : error := storage_error "Workload is missing its durable control record".

Definition state_workload (state : WorkloadState.t) (organization_id : OrganizationId) (workload_id : WorkloadId) :
    result Workload.t :=
  match state.(workloads) !! workload_id with
  | Some workload => if workload.(Workload.organization_id) == organization_id then Ok workload else Err NotFound
  | None => Err NotFound
  end.

(** ** Creation of a deployment *)
Definition validate_bundle (request : CreateDeploymentBundle.t) : result unit :=
  let '(CreateDeploymentBundle.Mk workload control revision deployment operation _ _) := request in
  map_err Conflict (WorkloadControlSpec.validate control) ;;
  map_err Conflict (WorkloadRevision.validate_agent_binding_for_workload revision workload) ;;
  map_err Conflict (WorkloadRevision.validate_mcp_binding_for_workload revision workload) ;;
  map_err Conflict (WorkloadRevision.validate_skill_bindings_for_workload revision workload) ;;
  if (control.(WorkloadControlSpec.placement_policy).(EffectivePlacementPolicy.topology) != PlacementTopology.SingleNode)
     || (revision.(WorkloadRevision.workload_id) != workload.(Workload.id))
     || (deployment.(Deployment.organization_id) != workload.(Workload.organization_id))
     || (deployment.(Deployment.workload_id) != workload.(Workload.id))
     || (deployment.(Deployment.revision_id) != revision.(WorkloadRevision.id))
     || (deployment.(Deployment.operation_id) != operation.(WorkloadDeploymentOperationIntent.operation_id))
     || (operation.(WorkloadDeploymentOperationIntent.organization_id) != workload.(Workload.organization_id))
     || (operation.(WorkloadDeploymentOperationIntent.deployment_id) != deployment.(Deployment.id))
     || (operation.(WorkloadDeploymentOperationIntent.revision_id) != revision.(WorkloadRevision.id))
     || (operation.(WorkloadDeploymentOperationIntent.workload_id) != workload.(Workload.id))
     || is_some_and (fun external =>
          is_none revision.(WorkloadRevision.template)
          || (external.(ExternalBuildReference.organization_id) != workload.(Workload.organization_id))
          || (external.(ExternalBuildReference.project_id) != workload.(Workload.project_id))
          || (external.(ExternalBuildReference.environment_id) != workload.(Workload.environment_id)))
          revision.(WorkloadRevision.external_build)
  then Err (conflict_error "deployment creation bundle has inconsistent identities")
  else Ok tt.

(** The next revision of a stored workload: its canonical replica advances. *)
Definition advance_workload (state : WorkloadState.t) (request : CreateDeploymentBundle.t) (existing : Workload.t) :
    result DeploymentPlan.t :=
  let revision := request.(CreateDeploymentBundle.revision) in
  if existing != request.(CreateDeploymentBundle.workload)
  then Err (conflict_error "workload changed before a new revision was requested")
  else if any (fun deployment => (deployment.(Deployment.workload_id) == existing.(Workload.id))
                                 && negb (DeploymentStatus.is_terminal deployment.(Deployment.status)))
            (values state.(deployments))
  then Err (conflict_error "workload already has a nonterminal deployment")
  else
    control ← some_or (state.(controls) !! existing.(Workload.id)) missing_control;
    '(control, control_changed) ←
      map_err Conflict (on_clone (WorkloadControl.authorize_deployment request.(CreateDeploymentBundle.control)
                                    revision.(WorkloadRevision.created_at)) control);
    replica_id ← map_err Storage (WorkloadReplica.deterministic_id existing.(Workload.id) 0);
    replica ← some_or (state.(replicas) !! replica_id) (storage_error "Workload is missing its canonical replica");
    replica ← map_err Conflict (on_copy (WorkloadReplica.advance revision revision.(WorkloadRevision.created_at)) replica);
    member ← some_or (state.(replica_members) !! replica.(WorkloadReplica.id))
               (storage_error "Workload is missing its canonical replica member");
    Ok (DeploymentPlan.Mk existing control [replica] [member] control_changed).

(** The replicas of a new workload and their members, from an ordinal on. *)
Fixpoint new_replicas (workload : Workload.t) (revision : WorkloadRevision.t) (ordinals : list N) :
    result (list WorkloadReplica.t * list WorkloadReplicaMember.t) :=
  match ordinals with
  | [] => Ok ([], [])
  | ordinal :: rest =>
    replica ← map_err Conflict (WorkloadReplica.for_ordinal workload revision ordinal);
    member ← map_err Conflict (WorkloadReplicaMemberCreation.for_replica workload replica);
    '(replicas, members) ← new_replicas workload revision rest;
    Ok (replica :: replicas, member :: members)
  end.

Definition name_key (workload : Workload.t) : OrganizationId * EnvironmentId * string :=
  (workload.(Workload.organization_id), workload.(Workload.environment_id), workload.(Workload.name).(ResourceName.key)).

Definition new_workload (state : WorkloadState.t) (request : CreateDeploymentBundle.t) : result DeploymentPlan.t :=
  let workload := request.(CreateDeploymentBundle.workload) in
  let spec := request.(CreateDeploymentBundle.control) in
  if is_some (state.(names) !! name_key workload) then Err (conflict_error "workload name is already in use")
  else
    control ← map_err Conflict (WorkloadControl.create workload spec);
    '(replicas, members) ← new_replicas workload request.(CreateDeploymentBundle.revision)
       (ordinals 0 spec.(WorkloadControlSpec.placement_policy).(EffectivePlacementPolicy.desired_replicas));
    Ok (DeploymentPlan.Mk workload control replicas members false).

(** The generation after the greatest one of the workload's revisions. *)
Definition next_generation (state : WorkloadState.t) (workload_id : WorkloadId) : result N :=
  some_or (checked_add
             (foldr N.max 0%N (map WorkloadRevision.generation
                (List.filter (fun revision => revision.(WorkloadRevision.workload_id) == workload_id)
                   (values state.(revisions))))) 1)
    (storage_error "workload generation overflowed").

(** What a new deployment writes, in the order of the source. *)
Definition store_deployment (request : CreateDeploymentBundle.t) (plan : DeploymentPlan.t)
    (binding : DeploymentReplicaBinding.t) (is_new_workload : bool) : method WorkloadState.t unit :=
  let '(CreateDeploymentBundle.Mk workload _ revision deployment _ _ event) := request in
  (if is_new_workload then
     modify (fun s => s <| names := <[name_key workload := workload.(Workload.id)]> s.(names) |>) ;;
     put_workload workload.(Workload.id) workload ;;
     put_control workload.(Workload.id) plan.(DeploymentPlan.control) ;;
     each put_member plan.(DeploymentPlan.members)
   else if plan.(DeploymentPlan.control_changed)
   then put_control workload.(Workload.id) plan.(DeploymentPlan.control)
   else mret tt) ;;
  each put_replica plan.(DeploymentPlan.replicas) ;;
  modify (fun s => s <| revisions := <[revision.(WorkloadRevision.id) := revision]> s.(revisions) |>) ;;
  put_deployment deployment.(Deployment.id) deployment ;;
  put_binding deployment.(Deployment.id) binding ;;
  put_member_binding deployment.(Deployment.id) binding ;;
  push_event event.

Definition create_deployment (request : CreateDeploymentBundle.t) : method WorkloadState.t DeploymentBundle.t :=
  state ← get;
  let '(CreateDeploymentBundle.Mk workload spec revision deployment operation idem event) := request in
  let key := IdempotencyRequest.storage_key idem in
  match state.(idempotency) !! key with
  | Some (digest, response) =>
    if digest != idem.(IdempotencyRequest.request_digest) then throw IdempotencyConflict
    else mret (response <| DeploymentBundle.replayed := true |>)
  | None =>
    lift (validate_bundle request) ;;
    lift (map_err Conflict (compose_deployment_operation operation)) ;;
    if (spec.(WorkloadControlSpec.placement_policy).(EffectivePlacementPolicy.desired_replicas) =? 0)%N
    then throw (conflict_error "a deployment cannot be created for a scale-to-zero Workload")
    else
      let is_new_workload := is_none (state.(workloads) !! workload.(Workload.id)) in
      plan ← lift match state.(workloads) !! workload.(Workload.id) with
                  | Some existing => advance_workload state request existing
                  | None => new_workload state request
                  end;
      generation ← lift (next_generation state plan.(DeploymentPlan.workload).(Workload.id));
      if revision.(WorkloadRevision.generation) != generation
      then throw (Conflict (Error "workload revision generation must be {next_generation}" [FNum generation]))
      else if is_some (state.(revisions) !! revision.(WorkloadRevision.id))
              || is_some (state.(deployments) !! deployment.(Deployment.id))
              || is_some (state.(deployment_replica_bindings) !! deployment.(Deployment.id))
      then throw (conflict_error "workload revision or deployment identity is already in use")
      else
        replica ← lift (some_or (head plan.(DeploymentPlan.replicas)) (storage_error "Workload replica set is empty"));
        member ← lift (some_or (head plan.(DeploymentPlan.members))
                         (storage_error "Workload replica member set is empty"));
        binding ← lift (map_err Conflict (DeploymentReplicaBinding.create deployment revision replica member));
        store_deployment request plan binding is_new_workload ;;
        let response :=
          {| DeploymentBundle.workload := plan.(DeploymentPlan.workload);
             DeploymentBundle.revision := revision;
             DeploymentBundle.deployment := deployment;
             DeploymentBundle.operation := operation;
             DeploymentBundle.replayed := false |} in
        modify (fun s => s <| WorkloadState.idempotency :=
          <[key := (idem.(IdempotencyRequest.request_digest), response)]> s.(WorkloadState.idempotency) |>) ;;
        mret response
  end.

(** [replay_deployment], [replay_deployment_cancellation] *)
Definition replay {A} (m : gmap (string * string) (string * A)) (idem : IdempotencyRequest.t) : result (option A) :=
  match m !! IdempotencyRequest.storage_key idem with
  | None => Ok None
  | Some (digest, response) =>
    if digest != idem.(IdempotencyRequest.request_digest) then Err IdempotencyConflict else Ok (Some response)
  end.
Definition replay_deployment (idem : IdempotencyRequest.t) (state : WorkloadState.t) : result (option DeploymentBundle.t) :=
  replay state.(idempotency) idem.
Definition replay_deployment_cancellation (idem : IdempotencyRequest.t) (state : WorkloadState.t) :
    result (option Deployment.t) :=
  replay state.(cancellation_idempotency) idem.

(** ** Cancellation and stop *)
Definition validate_cancellation_bundle (request : RequestDeploymentCancellationBundle.t) (current : Deployment.t) :
    result unit :=
  let '(RequestDeploymentCancellationBundle.Mk deployment expected_version _ event) := request in
  at' ← some_or deployment.(Deployment.cancellation_requested_at)
          (conflict_error "cancellation request omitted its time");
  expected ← map_err Conflict (on_copy (Deployment.request_cancellation at') current);
  if (current.(Deployment.aggregate_version) != expected_version)
     || (expected != deployment)
     || (DomainEventEnvelope.organization_id event != Some deployment.(Deployment.organization_id))
     || (event.(DomainEventEnvelope.aggregate_id) != deployment.(Deployment.id))
     || (event.(DomainEventEnvelope.aggregate_version) != deployment.(Deployment.aggregate_version))
  then Err (conflict_error "deployment cancellation bundle is inconsistent with stored state")
  else Ok tt.

Definition request_deployment_cancellation (request : RequestDeploymentCancellationBundle.t) :
    method WorkloadState.t (IdempotentWrite.t Deployment.t) :=
  state ← get;
  let '(RequestDeploymentCancellationBundle.Mk requested _ idem event) := request in
  let key := IdempotencyRequest.storage_key idem in
  match state.(cancellation_idempotency) !! key with
  | Some (digest, deployment) =>
    if digest != idem.(IdempotencyRequest.request_digest) then throw IdempotencyConflict
    else mret (IdempotentWrite.Mk deployment true)
  | None =>
    current ← lift (some_or (state.(deployments) !! requested.(Deployment.id)) NotFound);
    control ← lift (some_or (state.(controls) !! current.(Deployment.workload_id)) missing_control);
    lift (map_err Conflict (WorkloadControl.require_direct_mutation control)) ;;
    lift (validate_cancellation_bundle request current) ;;
    put_deployment requested.(Deployment.id) requested ;;
    push_event event ;;
    modify (fun s => s <| cancellation_idempotency :=
      <[key := (idem.(IdempotencyRequest.request_digest), requested)]> s.(cancellation_idempotency) |>) ;;
    mret (IdempotentWrite.Mk requested false)
  end.

Definition request_workload_stop (request : RequestWorkloadStopBundle.t) :
    method WorkloadState.t WorkloadStopBundle.t :=
  state ← get;
  let '(RequestWorkloadStopBundle.Mk workload expected_version operation idem event) := request in
  let key := IdempotencyRequest.storage_key idem in
  match state.(stop_idempotency) !! key with
  | Some (digest, response) =>
    if digest != idem.(IdempotencyRequest.request_digest) then throw IdempotencyConflict
    else mret (response <| WorkloadStopBundle.replayed := true |>)
  | None =>
    current ← lift (state_workload state workload.(Workload.organization_id) workload.(Workload.id));
    control ← lift (some_or (state.(controls) !! current.(Workload.id)) missing_control);
    lift (map_err Conflict (WorkloadControl.require_direct_mutation control)) ;;
    if current.(Workload.aggregate_version) != expected_version
    then throw (Conflict (Error "workload changed from expected version {} to {}"
                            [FNum expected_version; FNum current.(Workload.aggregate_version)]))
    else
      expected ← lift (map_err Conflict (on_copy (Workload.request_stop workload.(Workload.updated_at)) current));
      if (expected != workload)
         || (operation.(WorkloadStopOperationIntent.organization_id) != workload.(Workload.organization_id))
         || (operation.(WorkloadStopOperationIntent.workload_id) != workload.(Workload.id))
         || (operation.(WorkloadStopOperationIntent.requested_at) <? workload.(Workload.updated_at))%Z
         || (DomainEventEnvelope.organization_id event != Some workload.(Workload.organization_id))
         || (event.(DomainEventEnvelope.aggregate_id) != workload.(Workload.id))
         || (event.(DomainEventEnvelope.aggregate_version) != workload.(Workload.aggregate_version))
      then throw (conflict_error "workload stop bundle is inconsistent with stored state")
      else
        lift (map_err Conflict (compose_stop_operation operation)) ;;
        put_workload workload.(Workload.id) workload ;;
        push_event event ;;
        let response := WorkloadStopBundle.Mk workload operation false in
        modify (fun s => s <| stop_idempotency :=
          <[key := (idem.(IdempotencyRequest.request_digest), response)]> s.(stop_idempotency) |>) ;;
        mret response
  end.

Definition complete_workload_stop (organization_id : OrganizationId) (workload_id : WorkloadId) (expected_version : N)
    (stopped_at : Time) : method WorkloadState.t Workload.t :=
  state ← get;
  current ← lift (state_workload state organization_id workload_id);
  if current.(Workload.aggregate_version) != expected_version then
    if (current.(Workload.desired_state) == WorkloadDesiredState.Stopped)
       && is_none current.(Workload.active_revision_id)
    then mret current
    else throw (Conflict (Error "workload changed from expected version {expected_version} to {}"
                            [FNum expected_version; FNum current.(Workload.aggregate_version)]))
  else
    workload ← lift (map_err Conflict (on_copy (Workload.complete_stop stopped_at) current));
    put_workload workload_id workload ;;
    mret workload.

(** ** The replica set *)
Definition owned_by (organization_id : OrganizationId) (workload_id : WorkloadId) (replica : WorkloadReplica.t) : bool :=
  (replica.(WorkloadReplica.organization_id) == organization_id)
  && (replica.(WorkloadReplica.workload_id) == workload_id).

Definition list_workload_replicas (organization_id : OrganizationId) (workload_id : WorkloadId) (state : WorkloadState.t) :
    list WorkloadReplica.t :=
  sort_replicas (List.filter (owned_by organization_id workload_id) (values state.(replicas))).

Definition stored_control (state : WorkloadState.t) (organization_id : OrganizationId) (workload_id : WorkloadId) :
    option WorkloadControl.t :=
  control ← state.(controls) !! workload_id;
  if control.(WorkloadControl.organization_id) == organization_id then Some control else None.

Definition reconfigure_replica_set (event_id : Uuid) (write : ReconfigureReplicaSetWrite.t) :
    method WorkloadState.t ReplicaSetWriteResult.t :=
  state ← get;
  let '(ReconfigureReplicaSetWrite.Mk organization_id workload_id expected_control_version expected_policy_generation
          desired_replicas managed_owner idem correlation_id requested_at) := write in
  let idempotency_key := IdempotencyRequest.storage_key idem in
  match state.(replica_set_idempotency) !! idempotency_key with
  | Some (digest, response) =>
    if digest != idem.(IdempotencyRequest.request_digest) then throw IdempotencyConflict
    else mret (response <| ReplicaSetWriteResult.replayed := true |>)
  | None =>
    workload ← lift (state_workload state organization_id workload_id);
    current_control ← lift (some_or (stored_control state organization_id workload_id) missing_control);
    let current_replicas := list_workload_replicas organization_id workload_id state in
    canonical ← lift (some_or (List.find (has_ordinal 0) current_replicas)
                        (storage_error "Workload is missing its canonical replica"));
    revision ← lift (some_or (state.(revisions) !! canonical.(WorkloadReplica.revision_id))
                       (storage_error "Workload canonical replica references a missing revision"));
    reconfiguration ← lift (plan_replica_set_reconfiguration workload current_control revision current_replicas
                              expected_control_version expected_policy_generation desired_replicas managed_owner
                              requested_at);
    let '(ReplicaSetReconfiguration.Mk control replicas members_to_create) := reconfiguration in
    lift (for_each (fun member =>
            if is_some (state.(replica_members) !! member.(WorkloadReplicaMember.id))
            then Err (storage_error "new Workload replica member identity already exists")
            else Ok tt) members_to_create) ;;
    event ← lift (map_err Storage (replica_set_reconfigured event_id current_control control correlation_id));
    each put_member members_to_create ;;
    each put_replica replicas ;;
    put_control control.(WorkloadControl.workload_id) control ;;
    push_event event ;;
    let response := ReplicaSetWriteResult.Mk control replicas false in
    modify (fun s => s <| replica_set_idempotency :=
      <[idempotency_key := (idem.(IdempotencyRequest.request_digest), response)]> s.(replica_set_idempotency) |>) ;;
    mret response
  end.

(** ** Queries *)
Definition find_workload_control (organization_id : OrganizationId) (workload_id : WorkloadId) (state : WorkloadState.t) :
    result WorkloadControl.t :=
  some_or (stored_control state organization_id workload_id) NotFound.

Definition find_workload_replica (organization_id : OrganizationId) (workload_id : WorkloadId)
    (replica_id : WorkloadReplicaId) (state : WorkloadState.t) : result WorkloadReplica.t :=
  some_or (replica ← state.(replicas) !! replica_id;
           if owned_by organization_id workload_id replica then Some replica else None) NotFound.

Definition find_workload_replica_member (organization_id : OrganizationId) (replica_id : WorkloadReplicaId)
    (member_id : WorkloadReplicaMemberId) (state : WorkloadState.t) : result WorkloadReplicaMember.t :=
  some_or (member ← state.(replica_members) !! member_id;
           if (member.(WorkloadReplicaMember.organization_id) == organization_id)
              && (member.(WorkloadReplicaMember.replica_id) == replica_id)
           then Some member else None) NotFound.

Definition list_workload_replica_members (organization_id : OrganizationId) (replica_id : WorkloadReplicaId)
    (state : WorkloadState.t) : list WorkloadReplicaMember.t :=
  sort_by_key (fun member => (member.(WorkloadReplicaMember.ordinal), member.(WorkloadReplicaMember.id)))
    (List.filter (fun member =>
       (member.(WorkloadReplicaMember.organization_id) == organization_id)
       && (member.(WorkloadReplicaMember.replica_id) == replica_id)) (values state.(replica_members))).

Definition find_deployment_replica_binding (organization_id : OrganizationId) (deployment_id : DeploymentId)
    (state : WorkloadState.t) : result DeploymentReplicaBinding.t :=
  some_or (binding ← state.(deployment_replica_bindings) !! deployment_id;
           if binding.(DeploymentReplicaBinding.organization_id) == organization_id then Some binding else None) NotFound.

(** The order of the members of a deployment: by the stored member, bindings of unknown members last. *)
Definition member_order (state : WorkloadState.t) (binding : DeploymentReplicaBinding.t) : N * Uuid :=
  match state.(replica_members) !! binding.(DeploymentReplicaBinding.member_id) with
  | None => (u32_max, binding.(DeploymentReplicaBinding.member_id))
  | Some member => (member.(WorkloadReplicaMember.ordinal), member.(WorkloadReplicaMember.id))
  end.

Definition list_deployment_replica_member_bindings (organization_id : OrganizationId) (deployment_id : DeploymentId)
    (state : WorkloadState.t) : list DeploymentReplicaBinding.t :=
  sort_by_key (member_order state)
    (List.filter (fun binding =>
       (binding.(DeploymentReplicaBinding.organization_id) == organization_id)
       && (binding.(DeploymentReplicaBinding.deployment_id) == deployment_id))
       (values state.(deployment_replica_member_bindings))).

Definition find_deployment_placement_group_binding (organization_id : OrganizationId) (deployment_id : DeploymentId)
    (state : WorkloadState.t) : result DeploymentPlacementGroupBinding.t :=
  some_or (binding ← state.(deployment_placement_group_bindings) !! deployment_id;
           if binding.(DeploymentPlacementGroupBinding.organization_id) == organization_id
           then Some binding else None) NotFound.

Definition find_deployment_runtime_execution_binding (organization_id : OrganizationId) (deployment_id : DeploymentId)
    (state : WorkloadState.t) : result (option DeploymentRuntimeExecutionBinding.t) :=
  let binding :=
    binding ← state.(deployment_runtime_execution_bindings) !! deployment_id;
    if binding.(DeploymentRuntimeExecutionBinding.organization_id) == organization_id then Some binding else None in
  match binding with
  | Some binding => map_err Storage (DeploymentRuntimeExecutionBinding.validate binding)
  | None => Ok tt
  end ;;
  Ok binding.

Definition list_workloads (organization_id : OrganizationId) (project_id : ProjectId) (environment_id : EnvironmentId)
    (state : WorkloadState.t) : list Workload.t :=
  sort_by_key (fun workload => (workload.(Workload.name).(ResourceName.key), workload.(Workload.id)))
    (List.filter (fun workload =>
       (workload.(Workload.organization_id) == organization_id)
       && (workload.(Workload.project_id) == project_id)
       && (workload.(Workload.environment_id) == environment_id)) (values state.(workloads))).

Definition find_revision (organization_id : OrganizationId) (revision_id : WorkloadRevisionId) (state : WorkloadState.t) :
    result WorkloadRevision.t :=
  revision ← some_or (state.(revisions) !! revision_id) NotFound;
  state_workload state organization_id revision.(WorkloadRevision.workload_id) ;;
  Ok revision.

Definition list_revisions (organization_id : OrganizationId) (workload_id : WorkloadId) (state : WorkloadState.t) :
    result (list WorkloadRevision.t) :=
  state_workload state organization_id workload_id ;;
  Ok (sort_by_key (fun revision => Rev (revision.(WorkloadRevision.generation), revision.(WorkloadRevision.id)))
        (List.filter (fun revision => revision.(WorkloadRevision.workload_id) == workload_id)
           (values state.(revisions)))).

Definition find_deployment (organization_id : OrganizationId) (deployment_id : DeploymentId) (state : WorkloadState.t) :
    result Deployment.t :=
  some_or (deployment ← state.(deployments) !! deployment_id;
           if deployment.(Deployment.organization_id) == organization_id then Some deployment else None) NotFound.

Definition list_deployments (organization_id : OrganizationId) (workload_id : WorkloadId) (state : WorkloadState.t) :
    result (list Deployment.t) :=
  state_workload state organization_id workload_id ;;
  Ok (sort_by_key (fun deployment => Rev (deployment.(Deployment.requested_at), deployment.(Deployment.id)))
        (List.filter (fun deployment =>
           (deployment.(Deployment.organization_id) == organization_id)
           && (deployment.(Deployment.workload_id) == workload_id)) (values state.(deployments)))).

(** ** Runtime binding and resolution *)
Definition bind_deployment_runtime_execution (binding : DeploymentRuntimeExecutionBinding.t) :
    method WorkloadState.t (IdempotentWrite.t DeploymentRuntimeExecutionBinding.t) :=
  lift (map_err Conflict (DeploymentRuntimeExecutionBinding.validate binding)) ;;
  state ← get;
  let deployment_id := binding.(DeploymentRuntimeExecutionBinding.deployment_id) in
  match state.(deployment_runtime_execution_bindings) !! deployment_id with
  | Some existing =>
    if existing == binding then mret (IdempotentWrite.Mk existing true) else throw IdempotencyConflict
  | None =>
    deployment ← lift (some_or (state.(deployments) !! deployment_id) NotFound);
    workload ← lift (some_or (state.(workloads) !! deployment.(Deployment.workload_id))
                       (storage_error "Deployment Runtime binding references a missing Workload"));
    revision ← lift (some_or (state.(revisions) !! deployment.(Deployment.revision_id))
                       (storage_error "Deployment Runtime binding references a missing revision"));
    control ← lift (some_or (state.(controls) !! deployment.(Deployment.workload_id))
                      (storage_error "Deployment Runtime binding references a missing control record"));
    lift (map_err Conflict (DeploymentRuntimeExecutionBinding.validate_admission binding deployment workload revision control)) ;;
    modify (fun s => s <| deployment_runtime_execution_bindings :=
      <[deployment_id := binding]> s.(deployment_runtime_execution_bindings) |>) ;;
    mret (IdempotentWrite.Mk binding false)
  end.

(** The revision is changed in place. *)
Definition resolve_revision (organization_id : OrganizationId) (revision_id : WorkloadRevisionId)
    (artifact : OciArtifact.t) (resolved_at : Time) : method WorkloadState.t WorkloadRevision.t :=
  state ← get;
  revision ← lift (some_or (state.(revisions) !! revision_id) NotFound);
  lift (state_workload state organization_id revision.(WorkloadRevision.workload_id)) ;;
  let '(revision, resolved) := WorkloadRevision.resolve artifact resolved_at revision in
  modify (fun s => s <| revisions := <[revision_id := revision]> s.(revisions) |>) ;;
  lift (map_err (fun e => Conflict (Error "workload revision resolution was rejected: {error}"
                                      (FStr e.(template) :: e.(args)))) resolved) ;;
  mret revision.

(** ** Transitions of a deployment *)

(** The deployment is changed in place. *)
Definition mutate (deployment_id : DeploymentId) (expected_version : N) (transition : method Deployment.t unit) :
    method WorkloadState.t Deployment.t :=
  state ← get;
  deployment ← lift (some_or (state.(deployments) !! deployment_id) NotFound);
  if deployment.(Deployment.aggregate_version) != expected_version
  then throw (version_conflict expected_version deployment.(Deployment.aggregate_version))
  else
    let '(deployment, moved) := transition deployment in
    put_deployment deployment_id deployment ;;
    lift (map_err transition_error moved) ;;
    mret deployment.

Definition require_runtime_execution_placement (state : WorkloadState.t) (deployment : Deployment.t)
    (control : WorkloadControl.t) : result unit :=
  match state.(deployment_runtime_execution_bindings) !! deployment.(Deployment.id) with
  | None => Ok tt
  | Some runtime_binding =>
    map_err Conflict (DeploymentRuntimeExecutionBinding.validate_placement_lineage runtime_binding deployment control)
  end.

(** The generation of the replica the deployment runs is the desired one. *)
Definition is_current_desired (workload : Workload.t) (control : WorkloadControl.t) (binding : DeploymentReplicaBinding.t)
    (replica : WorkloadReplica.t) (member : WorkloadReplicaMember.t) (deployment : Deployment.t) : bool :=
  negb ((workload.(Workload.desired_state) != WorkloadDesiredState.Running)
        || (binding.(DeploymentReplicaBinding.organization_id) != deployment.(Deployment.organization_id))
        || (binding.(DeploymentReplicaBinding.workload_id) != deployment.(Deployment.workload_id))
        || (binding.(DeploymentReplicaBinding.revision_id) != deployment.(Deployment.revision_id))
        || (binding.(DeploymentReplicaBinding.replica_generation) != replica.(WorkloadReplica.generation))
        || (binding.(DeploymentReplicaBinding.replica_id) != replica.(WorkloadReplica.id))
        || (replica.(WorkloadReplica.lifecycle) != WorkloadReplicaLifecycle.Desired)
        || ((WorkloadControl.policy control).(EffectivePlacementPolicy.desired_replicas)
              <=? replica.(WorkloadReplica.ordinal))%N
        || (replica.(WorkloadReplica.revision_id) != deployment.(Deployment.revision_id))
        || (member.(WorkloadReplicaMember.replica_id) != replica.(WorkloadReplica.id))
        || (binding.(DeploymentReplicaBinding.member_id) != member.(WorkloadReplicaMember.id))
        || (binding.(DeploymentReplicaBinding.node_id) != deployment.(Deployment.node_id))
        || is_some binding.(DeploymentReplicaBinding.node_id)
           && (binding.(DeploymentReplicaBinding.node_id) != member.(WorkloadReplicaMember.node_id))).

Definition require_current_desired_replica (state : WorkloadState.t) (deployment : Deployment.t) : result unit :=
  workload ← some_or (workload ← state.(workloads) !! deployment.(Deployment.workload_id);
                      if workload.(Workload.organization_id) == deployment.(Deployment.organization_id)
                      then Some workload else None)
               (storage_error "deployment references a missing Workload");
  control ← some_or (state.(controls) !! deployment.(Deployment.workload_id))
              (storage_error "deployment Workload is missing its control record");
  (if deployment.(Deployment.status) == DeploymentStatus.Resolving
   then require_runtime_execution_placement state deployment control else Ok tt) ;;
  binding ← some_or (state.(deployment_replica_bindings) !! deployment.(Deployment.id))
              (storage_error "deployment is missing its replica binding");
  replica ← some_or (state.(replicas) !! binding.(DeploymentReplicaBinding.replica_id))
              (storage_error "deployment binding references a missing replica");
  member ← some_or (state.(replica_members) !! binding.(DeploymentReplicaBinding.member_id))
             (storage_error "deployment binding references a missing member");
  if negb (is_current_desired workload control binding replica member deployment)
  then Err (conflict_error "deployment replica generation is no longer desired")
  else Ok tt.

Definition mutate_desired (deployment_id : DeploymentId) (expected_version : N) (transition : method Deployment.t unit) :
    method WorkloadState.t Deployment.t :=
  state ← get;
  deployment ← lift (some_or (state.(deployments) !! deployment_id) NotFound);
  if deployment.(Deployment.aggregate_version) != expected_version
  then throw (version_conflict expected_version deployment.(Deployment.aggregate_version))
  else
    lift (require_current_desired_replica state deployment) ;;
    deployment ← lift (map_err transition_error (on_copy transition deployment));
    put_deployment deployment_id deployment ;;
    mret deployment.

Definition mark_resolving deployment_id expected_version (at' : Time) :=
  mutate_desired deployment_id expected_version (Deployment.resolve at').
Definition mark_dispatched deployment_id expected_version (command_id : NodeCommandId) (at' : Time) :=
  mutate_desired deployment_id expected_version (Deployment.dispatch command_id at').
Definition mark_verifying deployment_id expected_version (at' : Time) :=
  mutate_desired deployment_id expected_version (Deployment.verify at').
Definition dispatch_retirement deployment_id expected_version (command_id : NodeCommandId) (at' : Time) :=
  mutate deployment_id expected_version (Deployment.dispatch_retirement command_id at').
Definition complete_retirement deployment_id expected_version (at' : Time) :=
  mutate deployment_id expected_version (Deployment.complete_retirement at').
Definition mark_cancellation_requested deployment_id expected_version (at' : Time) :=
  mutate deployment_id expected_version (Deployment.request_cancellation at').
Definition begin_cleanup deployment_id expected_version (command_id : NodeCommandId) (at' : Time) :=
  mutate deployment_id expected_version (Deployment.begin_cleanup command_id at').
Definition retry_cleanup deployment_id expected_version (command_id : NodeCommandId) (at' : Time) :=
  mutate deployment_id expected_version (Deployment.retry_cleanup command_id at').
Definition cancel deployment_id expected_version (at' : Time) :=
  mutate deployment_id expected_version (Deployment.cancel at').

Definition assign_node (deployment_id : DeploymentId) (expected_version : N) (node_id : NodeId) (at' : Time) :
    method WorkloadState.t Deployment.t :=
  state ← get;
  deployment ← lift (some_or (state.(deployments) !! deployment_id) NotFound);
  if deployment.(Deployment.aggregate_version) != expected_version
  then throw (version_conflict expected_version deployment.(Deployment.aggregate_version))
  else
    lift (require_current_desired_replica state deployment) ;;
    deployment ← lift (map_err transition_error (on_copy (Deployment.schedule node_id at') deployment));
    binding ← lift (some_or (state.(deployment_replica_bindings) !! deployment_id)
                      (storage_error "deployment is missing its canonical replica binding"));
    member ← lift (some_or (state.(replica_members) !! binding.(DeploymentReplicaBinding.member_id))
                     (storage_error "deployment replica binding references a missing member"));
    member ← lift (map_err transition_error (on_copy (WorkloadReplicaMember.place node_id at') member));
    binding ← lift (map_err transition_error (on_copy (DeploymentReplicaBinding.assign deployment member) binding));
    put_member member ;;
    put_binding deployment_id binding ;;
    put_member_binding deployment_id binding ;;
    put_deployment deployment_id deployment ;;
    mret deployment.

(** The answer to a retry with an older version: nothing is written. *)
Definition replay_activation (state : WorkloadState.t) (deployment : Deployment.t) (expected_version : N)
    (retirement_required : bool) (at' : Time) : result (Workload.t * Deployment.t) :=
  let conflict := version_conflict expected_version deployment.(Deployment.aggregate_version) in
  if matches deployment.(Deployment.status) [DeploymentStatus.Retiring; DeploymentStatus.Active] then
    map_err transition_error (on_copy (Deployment.activate retirement_required at') deployment) ;;
    workload ← some_or (state.(workloads) !! deployment.(Deployment.workload_id)) NotFound;
    if workload.(Workload.active_revision_id) == Some deployment.(Deployment.revision_id)
    then Ok (workload, deployment) else Err conflict
  else Err conflict.

Definition activate (event_id : Uuid) (deployment_id : DeploymentId) (expected_version : N) (retirement_required : bool)
    (at' : Time) : method WorkloadState.t (Workload.t * Deployment.t) :=
  state ← get;
  deployment ← lift (some_or (state.(deployments) !! deployment_id) NotFound);
  if deployment.(Deployment.aggregate_version) != expected_version
  then lift (replay_activation state deployment expected_version retirement_required at')
  else
    let workload_id := deployment.(Deployment.workload_id) in
    let revision_id := deployment.(Deployment.revision_id) in
    let previous_deployment := deployment in
    lift (require_current_desired_replica state deployment) ;;
    workload ← lift (some_or (state.(workloads) !! workload_id) NotFound);
    let previous_workload := workload in
    let at' := if workload.(Workload.active_revision_id) == Some revision_id
               then Z.max at' workload.(Workload.updated_at) else at' in
    deployment ← lift (map_err transition_error (on_copy (Deployment.activate retirement_required at') deployment));
    workload ← lift (map_err transition_error (on_copy (Workload.activate revision_id at') workload));
    revision ← lift (some_or (state.(revisions) !! revision_id)
                       (storage_error "activated Workload revision disappeared"));
    health_event ← lift (map_err Storage
                           (healthy_envelope event_id previous_deployment deployment previous_workload workload revision));
    put_deployment deployment_id deployment ;;
    put_workload workload_id workload ;;
    match health_event with Some event => push_event event | None => mret tt end ;;
    mret (workload, deployment).

Definition fail (event_id : Uuid) (deployment_id : DeploymentId) (expected_version : N) (reason : string) (at' : Time) :
    method WorkloadState.t Deployment.t :=
  state ← get;
  deployment ← lift (some_or (state.(deployments) !! deployment_id) NotFound);
  if matches deployment.(Deployment.status) [DeploymentStatus.Failed; DeploymentStatus.Orphaned]
     && (deployment.(Deployment.failure) == Some reason)
  then mret deployment
  else if deployment.(Deployment.aggregate_version) != expected_version
  then throw (version_conflict expected_version deployment.(Deployment.aggregate_version))
  else
    let previous := deployment in
    deployment ← lift (map_err transition_error (on_copy (Deployment.fail reason at') deployment));
    workload ← lift (some_or (state.(workloads) !! deployment.(Deployment.workload_id))
                       (storage_error "Workload health-fact owner disappeared"));
    revision ← lift (some_or (state.(revisions) !! deployment.(Deployment.revision_id))
                       (storage_error "Workload health-fact revision disappeared"));
    health_event ← lift (map_err Storage (failure_envelope event_id previous deployment workload revision));
    put_deployment deployment_id deployment ;;
    match health_event with Some event => push_event event | None => mret tt end ;;
    mret deployment.

End repository.
End InMemoryWorkloadRepository.
