(* ===== verification/WorkloadReplicaRepository.v ===== *)
(** * The workload repository: placement groups, replicas and their retirement

    [workloads/infrastructure/persistence/in_memory.rs], the calls of the controllers: the plans and
    the scheduling of placement groups, the materialization of replica deployments, the evacuation and
    the retirement of replicas with their writer fences, and the targets of the Runtime. *)

From Stdlib Require Import ZArith NArith Lia String.
From stdpp Require Import gmap.
From S2P Require Import Prelude RustStd BTreeMap External Text SharedKernel Repositories Workloads ServiceTemplates.
From S2P Require Import WorkloadRevisions Deployments Replicas WorkloadControls PlacementGroups WorkloadOperations.
From S2P Require Import WorkloadEvents RuntimeBindings ReplicaSets ReplicaMaterialization WorkloadRepository.
Import RepositoryError.

(** ** Requests and answers *)
Module ReplicaEvacuationCandidate.
Record t := Mk {
  organization_id : OrganizationId;
  workload_id : WorkloadId;
  replica_id : WorkloadReplicaId;
  replica_generation : N;
  expected_replica_version : N;
  member_id : WorkloadReplicaMemberId;
  expected_member_version : N;
  source_node_id : NodeId;
  placement_generation : N;
}.
End ReplicaEvacuationCandidate.

Module ReplicaEvacuationRequest.
Record t := Mk {
  candidate : ReplicaEvacuationCandidate.t;
  requested_at : Time;
  correlation_id : Uuid;
}.
End ReplicaEvacuationRequest.

Module ActiveRuntimeTarget.
Record t := Mk {
  workload : Workload.t;
  revision : WorkloadRevision.t;
  replica : WorkloadReplica.t;
  member : WorkloadReplicaMember.t;
  deployment : Deployment.t;
  replica_binding : DeploymentReplicaBinding.t;
  runtime_execution_binding : option DeploymentRuntimeExecutionBinding.t;
}.
End ActiveRuntimeTarget.

Module RetiringReplicaTarget.
Record t := Mk {
  revision : WorkloadRevision.t;
  replica : WorkloadReplica.t;
  member : WorkloadReplicaMember.t;
  deployment : option Deployment.t;
  replica_binding : option DeploymentReplicaBinding.t;
}.
End RetiringReplicaTarget.

Module ReplicaRetirementDispatch.
Record t := Mk {
  organization_id : OrganizationId;
  workload_id : WorkloadId;
  replica_id : WorkloadReplicaId;
  replica_generation : N;
  expected_replica_version : N;
  command_id : NodeCommandId;
  dispatched_at : Time;
}.
End ReplicaRetirementDispatch.

Module ReplicaRetirementCompletion.
Record t := Mk {
  organization_id : OrganizationId;
  workload_id : WorkloadId;
  replica_id : WorkloadReplicaId;
  replica_generation : N;
  expected_replica_version : N;
  member_id : WorkloadReplicaMemberId;
  expected_member_version : N;
  fenced_node_id : option NodeId;
  completed_at : Time;
  correlation_id : Uuid;
}.
End ReplicaRetirementCompletion.

Module WorkloadReplicaRepository.
Import WorkloadState InMemoryWorkloadRepository.

Section repository.
Context `{External} `{ReleaseContract}.

(** ** Plans of placement groups *)
Definition current_placement_group_members (state : WorkloadState.t) (group : WorkloadPlacementGroup.t) :
    result (list WorkloadReplicaMember.t) :=
  mapM (fun planned : WorkloadPlacementGroupMemberPlan.t =>
    member ← some_or (member ← state.(replica_members) !! planned.(WorkloadPlacementGroupMemberPlan.member_id);
                      if member.(WorkloadReplicaMember.ordinal) == planned.(WorkloadPlacementGroupMemberPlan.ordinal)
                      then Some member else None)
               (storage_error "Workload placement-group plan references a missing member");
    map_err Storage (WorkloadPlacementGroup.validate_replica_member_identity group member) ;;
    Ok member) group.(WorkloadPlacementGroup.members).

(** The members of a new plan, each with whether it is missing. *)
Definition materialize_members (state : WorkloadState.t) (write : WorkloadPlacementGroupWrite.t) :
    result (list (WorkloadReplicaMember.t * bool)) :=
  mapM (fun member : WorkloadReplicaMember.t =>
    match state.(replica_members) !! member.(WorkloadReplicaMember.id) with
    | Some existing =>
      map_err Conflict (WorkloadPlacementGroup.validate_available_replica_member
                          write.(WorkloadPlacementGroupWrite.group) existing) ;;
      Ok (existing, false)
    | None => Ok (member, true)
    end) write.(WorkloadPlacementGroupWrite.replica_members).

Definition materialize_placement_group (write : WorkloadPlacementGroupWrite.t) :
    method WorkloadState.t PlacementGroupMaterialization.t :=
  lift (map_err Conflict (WorkloadPlacementGroupWrite.validate write)) ;;
  state ← get;
  let group := write.(WorkloadPlacementGroupWrite.group) in
  match state.(placement_groups) !! group.(WorkloadPlacementGroup.id) with
  | Some existing =>
    if negb (WorkloadPlacementGroup.same_plan existing group) then throw IdempotencyConflict
    else
      replica_members ← lift (current_placement_group_members state existing);
      mret (PlacementGroupMaterialization.Mk existing replica_members true)
  | None =>
    if any (fun candidate =>
         (candidate.(WorkloadPlacementGroup.organization_id) == group.(WorkloadPlacementGroup.organization_id))
         && (candidate.(WorkloadPlacementGroup.replica_id) == group.(WorkloadPlacementGroup.replica_id))
         && (candidate.(WorkloadPlacementGroup.replica_generation) == group.(WorkloadPlacementGroup.replica_generation)))
         (values state.(placement_groups))
    then throw IdempotencyConflict
    else
      workload ← lift (some_or (state.(workloads) !! group.(WorkloadPlacementGroup.workload_id)) NotFound);
      control ← lift (some_or (state.(controls) !! group.(WorkloadPlacementGroup.workload_id)) missing_control);
      revision ← lift (some_or (state.(revisions) !! group.(WorkloadPlacementGroup.revision_id))
                         (storage_error "placement-group revision is missing"));
      replica ← lift (some_or (state.(replicas) !! group.(WorkloadPlacementGroup.replica_id))
                        (storage_error "placement-group replica is missing"));
      lift (map_err Storage (WorkloadControl.validate_against control workload)) ;;
      lift (map_err (fun _ => conflict_error "Workload placement-group plan is stale or inconsistent")
              (WorkloadPlacementGroup.validate_context group workload (WorkloadControl.policy control) revision replica)) ;;
      members ← lift (materialize_members state write);
      each put_member (map fst (List.filter snd members)) ;;
      modify (fun s => s <| placement_groups :=
        <[group.(WorkloadPlacementGroup.id) := group]> s.(placement_groups) |>) ;;
      mret (PlacementGroupMaterialization.Mk group (map fst members) false)
  end.

Definition find_placement_group (organization_id : OrganizationId) (group_id : WorkloadPlacementGroupId)
    (state : WorkloadState.t) : result WorkloadPlacementGroup.t :=
  some_or (group ← state.(placement_groups) !! group_id;
           if group.(WorkloadPlacementGroup.organization_id) == organization_id then Some group else None) NotFound.

Definition group_of_generation (organization_id : OrganizationId) (replica_id : WorkloadReplicaId)
    (replica_generation : N) (group : WorkloadPlacementGroup.t) : bool :=
  (group.(WorkloadPlacementGroup.organization_id) == organization_id)
  && (group.(WorkloadPlacementGroup.replica_id) == replica_id)
  && (group.(WorkloadPlacementGroup.replica_generation) == replica_generation).

Definition find_placement_group_for_replica_generation (organization_id : OrganizationId)
    (replica_id : WorkloadReplicaId) (replica_generation : N) (state : WorkloadState.t) : result WorkloadPlacementGroup.t :=
  some_or (List.find (group_of_generation organization_id replica_id replica_generation)
             (values state.(placement_groups))) NotFound.

(** ** Scheduling of placement groups *)
Definition group_deployment (state : WorkloadState.t) (organization_id : OrganizationId) (deployment_id : DeploymentId) :
    result Deployment.t :=
  some_or (deployment ← state.(deployments) !! deployment_id;
           if deployment.(Deployment.organization_id) == organization_id then Some deployment else None) NotFound.

Definition group_bindings (state : WorkloadState.t) (deployment_id : DeploymentId) (group : WorkloadPlacementGroup.t) :
    result (list DeploymentReplicaBinding.t) :=
  mapM (fun plan : WorkloadPlacementGroupMemberPlan.t =>
    some_or (state.(deployment_replica_member_bindings) !!
               (deployment_id, plan.(WorkloadPlacementGroupMemberPlan.member_id)))
      (storage_error "placement-group Deployment member binding is missing")) group.(WorkloadPlacementGroup.members).

Definition group_members (state : WorkloadState.t) (group : WorkloadPlacementGroup.t) :
    result (list WorkloadReplicaMember.t) :=
  mapM (fun plan : WorkloadPlacementGroupMemberPlan.t =>
    some_or (state.(replica_members) !! plan.(WorkloadPlacementGroupMemberPlan.member_id))
      (storage_error "placement-group member is missing")) group.(WorkloadPlacementGroup.members).

(** A stored binding, the placement it is compared with and the stored member. *)
Definition placement_differs
    (x : DeploymentReplicaBinding.t * PlacementGroupMemberPlacement.t * WorkloadReplicaMember.t) : bool :=
  let '(binding, placement, member) := x in
  let node := Some placement.(PlacementGroupMemberPlacement.node_id) in
  (binding.(DeploymentReplicaBinding.member_id) != placement.(PlacementGroupMemberPlacement.member_id))
  || (binding.(DeploymentReplicaBinding.node_id) != node)
  || (member.(WorkloadReplicaMember.id) != placement.(PlacementGroupMemberPlacement.member_id))
  || (member.(WorkloadReplicaMember.ordinal) != placement.(PlacementGroupMemberPlacement.ordinal))
  || (member.(WorkloadReplicaMember.node_id) != node)
  || (member.(WorkloadReplicaMember.placement_generation) != binding.(DeploymentReplicaBinding.placement_generation)).

(** The loop that places the members and assigns their bindings. *)
Fixpoint place_group (deployment : Deployment.t) (scheduled_at : Time)
    (l : list (WorkloadPlacementGroupMemberPlan.t * PlacementGroupMemberPlacement.t
               * WorkloadReplicaMember.t * DeploymentReplicaBinding.t)) :
    result (list (WorkloadReplicaMember.t * DeploymentReplicaBinding.t)) :=
  match l with
  | [] => Ok []
  | (plan, placement, member, binding) :: rest =>
    if (plan.(WorkloadPlacementGroupMemberPlan.ordinal) != placement.(PlacementGroupMemberPlacement.ordinal))
       || (plan.(WorkloadPlacementGroupMemberPlan.member_id) != placement.(PlacementGroupMemberPlacement.member_id))
    then Err (conflict_error "placement-group scheduling member changed the immutable plan")
    else
      member ← map_err Conflict (on_copy (WorkloadReplicaMember.place placement.(PlacementGroupMemberPlacement.node_id)
                                            scheduled_at) member);
      binding ← map_err Conflict (on_copy (GroupMemberBinding.assign_placement_group_member deployment member plan) binding);
      placed ← place_group deployment scheduled_at rest;
      Ok ((member, binding) :: placed)
  end.

Definition schedule_placement_group (write : PlacementGroupSchedulingWrite.t) :
    method WorkloadState.t (IdempotentWrite.t PlacementGroupPlacement.t) :=
  let '(PlacementGroupSchedulingWrite.Mk organization_id deployment_id expected_version group_id plan_digest placements
          scheduled_at) := write in
  let changed := conflict_error "placement-group scheduling write changed the immutable plan" in
  lift (map_err Conflict (PlacementGroupSchedulingWrite.validate write)) ;;
  state ← get;
  deployment ← lift (group_deployment state organization_id deployment_id);
  group_binding ← lift (some_or (state.(deployment_placement_group_bindings) !! deployment.(Deployment.id))
                          (storage_error "placement-group Deployment is missing its group binding"));
  if (group_binding.(DeploymentPlacementGroupBinding.group_id) != group_id)
     || (group_binding.(DeploymentPlacementGroupBinding.group_plan_digest) != plan_digest)
     || negb (group_binding.(DeploymentPlacementGroupBinding.member_count) =? len placements)%N
  then throw changed
  else
    group ← lift (some_or (state.(placement_groups) !! group_id) (storage_error "placement-group plan is missing"));
    if (group.(WorkloadPlacementGroup.id) != group_id)
       || (group.(WorkloadPlacementGroup.plan_digest) != plan_digest)
       || negb (len group.(WorkloadPlacementGroup.members) =? len placements)%N
    then throw changed
    else
      bindings ← lift (group_bindings state deployment.(Deployment.id) group);
      stored_members ← lift (group_members state group);
      if deployment.(Deployment.status) == DeploymentStatus.Scheduled then
        if (deployment.(Deployment.node_id) != (PlacementGroupMemberPlacement.node_id <$> head placements))
           || negb (len bindings =? len placements)%N
           || any placement_differs (zip (zip bindings placements) stored_members)
        then throw IdempotencyConflict
        else mret (IdempotentWrite.Mk (PlacementGroupPlacement.Mk deployment bindings) true)
      else if deployment.(Deployment.status) != DeploymentStatus.Resolving
      then throw (Conflict (Error "placement-group Deployment cannot schedule from {}"
                              [FStr (DeploymentStatus.as_str deployment.(Deployment.status))]))
      else if deployment.(Deployment.aggregate_version) != expected_version
      then throw (version_conflict expected_version deployment.(Deployment.aggregate_version))
      else
        lift (require_current_desired_replica state deployment) ;;
        workload ← lift (some_or (state.(workloads) !! deployment.(Deployment.workload_id))
                           (storage_error "placement-group Workload is missing"));
        control ← lift (some_or (state.(controls) !! deployment.(Deployment.workload_id))
                          (storage_error "placement-group Workload control is missing"));
        revision ← lift (some_or (state.(revisions) !! deployment.(Deployment.revision_id))
                           (storage_error "placement-group Workload revision is missing"));
        replica ← lift (some_or (state.(replicas) !! group.(WorkloadPlacementGroup.replica_id))
                          (storage_error "placement-group replica is missing"));
        lift (map_err Conflict
                (validate_existing_group_materialization_context deployment
                   (PlacementGroupDeploymentContext.Mk workload (WorkloadControl.policy control) revision replica group
                      stored_members) bindings group_binding)) ;;
        leader_node_id ← lift (some_or (PlacementGroupMemberPlacement.node_id <$> head placements)
                                 (conflict_error "placement-group leader is missing"));
        deployment ← lift (map_err Conflict (on_copy (Deployment.schedule leader_node_id scheduled_at) deployment));
        placed ← lift (place_group deployment scheduled_at
                         (zip (zip (zip group.(WorkloadPlacementGroup.members) placements) stored_members) bindings));
        each (fun mb : WorkloadReplicaMember.t * DeploymentReplicaBinding.t =>
                put_member mb.1 ;; put_member_binding deployment.(Deployment.id) mb.2) placed ;;
        leader_binding ← lift (some_or (head (map snd placed))
                                 (storage_error "placement-group leader binding is missing"));
        put_binding deployment.(Deployment.id) leader_binding ;;
        put_deployment deployment.(Deployment.id) deployment ;;
        mret (IdempotentWrite.Mk (PlacementGroupPlacement.Mk deployment (map snd placed)) false).

(** The loop that releases the members of a cancelled group. *)
Fixpoint release_group (cancelled_at : Time)
    (l : list (WorkloadPlacementGroupMemberPlan.t * DeploymentReplicaBinding.t * WorkloadReplicaMember.t)) :
    result (list WorkloadReplicaMember.t) :=
  match l with
  | [] => Ok []
  | (plan, binding, member) :: rest =>
    if (plan.(WorkloadPlacementGroupMemberPlan.member_id) != binding.(DeploymentReplicaBinding.member_id))
       || (plan.(WorkloadPlacementGroupMemberPlan.member_id) != member.(WorkloadReplicaMember.id))
    then Err (storage_error "placement-group cancellation member is inconsistent")
    else
      member ← match binding.(DeploymentReplicaBinding.node_id) with
               | Some node_id =>
                 map_err Conflict (on_copy (WorkloadReplicaMember.release_after_fencing node_id cancelled_at) member)
               | None =>
                 if is_none member.(WorkloadReplicaMember.node_id) then Ok member
                 else Err (conflict_error "unassigned placement-group binding has a placed member")
               end;
      members ← release_group cancelled_at rest;
      Ok (member :: members)
  end.

Definition cancel_placement_group (write : PlacementGroupCancellationWrite.t) :
    method WorkloadState.t (IdempotentWrite.t PlacementGroupPlacement.t) :=
  let '(PlacementGroupCancellationWrite.Mk organization_id deployment_id expected_version group_id plan_digest
          cancelled_at) := write in
  let changed := conflict_error "placement-group cancellation changed the immutable plan" in
  lift (map_err Conflict (PlacementGroupCancellationWrite.validate write)) ;;
  state ← get;
  deployment ← lift (group_deployment state organization_id deployment_id);
  group_binding ← lift (some_or
    (binding ← state.(deployment_placement_group_bindings) !! deployment.(Deployment.id);
     if (binding.(DeploymentPlacementGroupBinding.group_id) == group_id)
        && (binding.(DeploymentPlacementGroupBinding.group_plan_digest) == plan_digest)
     then Some binding else None) changed);
  group ← lift (some_or (state.(placement_groups) !! group_binding.(DeploymentPlacementGroupBinding.group_id))
                  (storage_error "placement-group plan is missing"));
  if (group.(WorkloadPlacementGroup.id) != group_id)
     || (group.(WorkloadPlacementGroup.plan_digest) != plan_digest)
     || negb (group_binding.(DeploymentPlacementGroupBinding.member_count)
                =? len group.(WorkloadPlacementGroup.members))%N
  then throw changed
  else
    bindings ← lift (group_bindings state deployment.(Deployment.id) group);
    stored_members ← lift (group_members state group);
    if deployment.(Deployment.status) == DeploymentStatus.Cancelled then
      if any (fun bm : DeploymentReplicaBinding.t * WorkloadReplicaMember.t =>
           (bm.1.(DeploymentReplicaBinding.member_id) != bm.2.(WorkloadReplicaMember.id))
           || is_some bm.2.(WorkloadReplicaMember.node_id)
           || (bm.1.(DeploymentReplicaBinding.placement_generation) != bm.2.(WorkloadReplicaMember.placement_generation)))
           (zip bindings stored_members)
      then throw (storage_error "cancelled placement-group member state is inconsistent")
      else mret (IdempotentWrite.Mk (PlacementGroupPlacement.Mk deployment bindings) true)
    else if (deployment.(Deployment.status) != DeploymentStatus.Cancelling)
            || is_some deployment.(Deployment.command_id)
            || is_some deployment.(Deployment.cleanup_command_id)
            || (deployment.(Deployment.aggregate_version) != expected_version)
    then throw (conflict_error "placement-group cancellation is not safe before Agent preparation")
    else
      members ← lift (release_group cancelled_at
                        (zip (zip group.(WorkloadPlacementGroup.members) bindings) stored_members));
      deployment ← lift (map_err Conflict (on_copy (Deployment.cancel cancelled_at) deployment));
      each put_member members ;;
      put_deployment deployment.(Deployment.id) deployment ;;
      mret (IdempotentWrite.Mk (PlacementGroupPlacement.Mk deployment bindings) false).

(** ** Materialization of replica deployments *)
Definition binds_generation (replica : WorkloadReplica.t) (binding : DeploymentReplicaBinding.t) : bool :=
  (binding.(DeploymentReplicaBinding.replica_id) == replica.(WorkloadReplica.id))
  && (binding.(DeploymentReplicaBinding.replica_generation) == replica.(WorkloadReplica.generation)).

Definition execution_shape_ready (state : WorkloadState.t) (control : WorkloadControl.t) (replica : WorkloadReplica.t) :
    bool :=
  let policy := WorkloadControl.policy control in
  match policy.(EffectivePlacementPolicy.topology) with
  | PlacementTopology.SingleNode => (policy.(EffectivePlacementPolicy.members_per_replica) =? 1)%N
  | PlacementTopology.MultiNode =>
    any (fun group =>
      (group.(WorkloadPlacementGroup.organization_id) == replica.(WorkloadReplica.organization_id))
      && (group.(WorkloadPlacementGroup.workload_id) == replica.(WorkloadReplica.workload_id))
      && (group.(WorkloadPlacementGroup.replica_id) == replica.(WorkloadReplica.id))
      && (group.(WorkloadPlacementGroup.revision_id) == replica.(WorkloadReplica.revision_id))
      && (group.(WorkloadPlacementGroup.revision_generation) == replica.(WorkloadReplica.revision_generation))
      && (group.(WorkloadPlacementGroup.replica_generation) == replica.(WorkloadReplica.generation))
      && (group.(WorkloadPlacementGroup.policy_generation) == policy.(EffectivePlacementPolicy.generation))
      && (group.(WorkloadPlacementGroup.placement_policy_digest) == policy.(EffectivePlacementPolicy.digest))
      && (len group.(WorkloadPlacementGroup.members) =? policy.(EffectivePlacementPolicy.members_per_replica))%N)
      (values state.(placement_groups))
  end.

(** The replica is not to be deployed now. *)
Definition not_deployable (workload : Workload.t) (control : WorkloadControl.t) (replica : WorkloadReplica.t) : bool :=
  (replica.(WorkloadReplica.lifecycle) != WorkloadReplicaLifecycle.Desired)
  || (workload.(Workload.desired_state) != WorkloadDesiredState.Running)
  || is_some_and (fun active => active != replica.(WorkloadReplica.revision_id)) workload.(Workload.active_revision_id)
  || ((WorkloadControl.policy control).(EffectivePlacementPolicy.desired_replicas) <=? replica.(WorkloadReplica.ordinal))%N.

Definition candidate_of (replica : WorkloadReplica.t) : ReplicaDeploymentCandidate.t :=
  {| ReplicaDeploymentCandidate.organization_id := replica.(WorkloadReplica.organization_id);
     ReplicaDeploymentCandidate.workload_id := replica.(WorkloadReplica.workload_id);
     ReplicaDeploymentCandidate.replica_id := replica.(WorkloadReplica.id);
     ReplicaDeploymentCandidate.replica_ordinal := replica.(WorkloadReplica.ordinal);
     ReplicaDeploymentCandidate.revision_id := replica.(WorkloadReplica.revision_id);
     ReplicaDeploymentCandidate.revision_generation := replica.(WorkloadReplica.revision_generation);
     ReplicaDeploymentCandidate.replica_generation := replica.(WorkloadReplica.generation) |}.

Definition pending_candidate (state : WorkloadState.t) (replica : WorkloadReplica.t) :
    option (Time * ReplicaDeploymentCandidate.t) :=
  workload ← state.(workloads) !! replica.(WorkloadReplica.workload_id);
  control ← state.(controls) !! replica.(WorkloadReplica.workload_id);
  let already_bound := any (binds_generation replica) (values state.(deployment_replica_bindings)) in
  if not_deployable workload control replica || negb (execution_shape_ready state control replica) || already_bound
  then None
  else Some (replica.(WorkloadReplica.updated_at), candidate_of replica).

Definition pending_replica_deployments (limit : N) (state : WorkloadState.t) : result (list ReplicaDeploymentCandidate.t) :=
  if (limit =? 0)%N || (10000 <? limit)%N
  then Err (conflict_error "replica deployment candidate limit must be between 1 and 10000")
  else
    let candidates :=
      sort_by_key (fun uc : Time * ReplicaDeploymentCandidate.t =>
        (uc.1, uc.2.(ReplicaDeploymentCandidate.workload_id), uc.2.(ReplicaDeploymentCandidate.replica_ordinal),
         uc.2.(ReplicaDeploymentCandidate.replica_id))) (omap (pending_candidate state) (values state.(replicas))) in
    Ok (map snd (take (N.to_nat limit) candidates)).

(** The deployment that is already bound to the generation of the replica. *)
Definition replay_materialization (state : WorkloadState.t) (candidate : ReplicaDeploymentCandidate.t)
    (workload : Workload.t) (control : WorkloadControl.t) (revision : WorkloadRevision.t) (replica : WorkloadReplica.t)
    (placement_group : option WorkloadPlacementGroup.t) (binding : DeploymentReplicaBinding.t) :
    result ReplicaDeploymentMaterialization.t :=
  deployment ← some_or (state.(deployments) !! binding.(DeploymentReplicaBinding.deployment_id))
                 (storage_error "replica generation binding references a missing deployment");
  let member_bindings :=
    sort_by_key (member_order state)
      (List.filter (fun b => b.(DeploymentReplicaBinding.deployment_id) == deployment.(Deployment.id))
         (values state.(deployment_replica_member_bindings))) in
  let placement_group_binding := state.(deployment_placement_group_bindings) !! deployment.(Deployment.id) in
  map_err Storage (validate_existing_materialization deployment binding member_bindings placement_group_binding
                     (WorkloadControl.policy control).(EffectivePlacementPolicy.topology)) ;;
  match placement_group, placement_group_binding with
  | Some group, Some group_binding =>
    members ← current_placement_group_members state group;
    map_err Storage (validate_existing_group_materialization_context deployment
                       (PlacementGroupDeploymentContext.Mk workload (WorkloadControl.policy control) revision replica
                          group members) member_bindings group_binding)
  | _, _ => Ok tt
  end ;;
  map_err Storage (materialization_from_existing candidate deployment member_bindings placement_group_binding).

(** The write of a new deployment of the replica. *)
Definition new_materialization (state : WorkloadState.t) (event_id : Uuid) (candidate : ReplicaDeploymentCandidate.t)
    (workload : Workload.t) (control : WorkloadControl.t) (revision : WorkloadRevision.t) (replica : WorkloadReplica.t)
    (placement_group : option WorkloadPlacementGroup.t) (requested_at : Time) : result ReplicaDeploymentWrite.t :=
  match (WorkloadControl.policy control).(EffectivePlacementPolicy.topology) with
  | PlacementTopology.SingleNode =>
    member ← some_or (state.(replica_members) !! replica.(WorkloadReplica.id))
               (storage_error "replica deployment member is missing");
    map_err Conflict (build_replica_deployment_write event_id candidate workload revision replica member requested_at)
  | PlacementTopology.MultiNode =>
    group ← some_or placement_group (storage_error "placement-group Deployment plan disappeared");
    members ← mapM (fun planned : WorkloadPlacementGroupMemberPlan.t =>
      some_or (member ← state.(replica_members) !! planned.(WorkloadPlacementGroupMemberPlan.member_id);
               if member.(WorkloadReplicaMember.ordinal) == planned.(WorkloadPlacementGroupMemberPlan.ordinal)
               then Some member else None)
        (storage_error "placement-group Deployment member is missing or inconsistent"))
      group.(WorkloadPlacementGroup.members);
    map_err Conflict
      (build_group_deployment_write event_id candidate
         (PlacementGroupDeploymentContext.Mk workload (WorkloadControl.policy control) revision replica group members)
         requested_at)
  end.

(** The plan of the group of a multi-node replica: [None] when there is no current one. *)
Definition current_group (state : WorkloadState.t) (candidate : ReplicaDeploymentCandidate.t) (workload : Workload.t)
    (control : WorkloadControl.t) (revision : WorkloadRevision.t) (replica : WorkloadReplica.t) :
    option (option WorkloadPlacementGroup.t) :=
  match (WorkloadControl.policy control).(EffectivePlacementPolicy.topology) with
  | PlacementTopology.SingleNode => Some None
  | PlacementTopology.MultiNode =>
    group ← List.find (group_of_generation candidate.(ReplicaDeploymentCandidate.organization_id)
                         replica.(WorkloadReplica.id) replica.(WorkloadReplica.generation))
              (values state.(placement_groups));
    if is_ok (WorkloadPlacementGroup.validate_context group workload (WorkloadControl.policy control) revision replica)
    then Some (Some group) else None
  end.

Definition materialize_replica_deployment (event_id : Uuid) (candidate : ReplicaDeploymentCandidate.t)
    (requested_at : Time) : method WorkloadState.t (option ReplicaDeploymentMaterialization.t) :=
  state ← get;
  let '(ReplicaDeploymentCandidate.Mk organization_id workload_id replica_id replica_ordinal revision_id
          revision_generation replica_generation) := candidate in
  workload ← lift (state_workload state organization_id workload_id);
  control ← lift (some_or (state.(controls) !! workload_id) missing_control);
  lift (map_err Storage (WorkloadControl.validate_against control workload)) ;;
  replica ← lift (some_or (state.(replicas) !! replica_id) (storage_error "replica deployment candidate is missing"));
  if (replica.(WorkloadReplica.workload_id) != workload_id)
     || (replica.(WorkloadReplica.ordinal) != replica_ordinal)
     || (replica.(WorkloadReplica.revision_id) != revision_id)
     || (replica.(WorkloadReplica.revision_generation) != revision_generation)
     || (replica.(WorkloadReplica.generation) != replica_generation)
     || not_deployable workload control replica
  then mret None
  else
    revision ← lift (some_or (state.(revisions) !! revision_id)
                       (storage_error "replica deployment revision is missing"));
    match current_group state candidate workload control revision replica with
    | None => mret None
    | Some placement_group =>
      match List.find (binds_generation replica) (values state.(deployment_replica_bindings)) with
      | Some binding =>
        existing ← lift (replay_materialization state candidate workload control revision replica placement_group binding);
        mret (Some existing)
      | None =>
        write ← lift (new_materialization state event_id candidate workload control revision replica placement_group
                        requested_at);
        let id := write.(ReplicaDeploymentWrite.deployment).(Deployment.id) in
        if is_some (state.(deployments) !! id)
           || is_some (state.(deployment_replica_bindings) !! id)
           || is_some (state.(deployment_placement_group_bindings) !! id)
        then throw (storage_error "deterministic replica deployment identity is already bound inconsistently")
        else
          put_deployment id write.(ReplicaDeploymentWrite.deployment) ;;
          put_binding id write.(ReplicaDeploymentWrite.binding) ;;
          each (put_member_binding id) write.(ReplicaDeploymentWrite.member_bindings) ;;
          match write.(ReplicaDeploymentWrite.placement_group_binding) with
          | Some binding =>
            modify (fun s => s <| deployment_placement_group_bindings :=
              <[id := binding]> s.(deployment_placement_group_bindings) |>)
          | None => mret tt
          end ;;
          push_event write.(ReplicaDeploymentWrite.event) ;;
          mret (Some (created_materialization candidate write))
      end
    end.

(** ** Evacuation *)
Definition has_replica_placements (organization_id : OrganizationId) (node_id : NodeId) (state : WorkloadState.t) :
    result bool :=
  if is_nil node_id then Err (conflict_error "replica placement node is invalid")
  else Ok (any (fun member => (member.(WorkloadReplicaMember.organization_id) == organization_id)
                              && (member.(WorkloadReplicaMember.node_id) == Some node_id))
             (values state.(replica_members))).

Definition evacuable (state : WorkloadState.t) (organization_id : OrganizationId) (replica : WorkloadReplica.t) : bool :=
  (replica.(WorkloadReplica.organization_id) == organization_id)
  && (replica.(WorkloadReplica.lifecycle) == WorkloadReplicaLifecycle.Desired)
  && is_some_and (fun workload => workload.(Workload.desired_state) == WorkloadDesiredState.Running)
       (state.(workloads) !! replica.(WorkloadReplica.workload_id))
  && is_some_and (fun control =>
       (replica.(WorkloadReplica.ordinal) <? (WorkloadControl.policy control).(EffectivePlacementPolicy.desired_replicas))%N)
       (state.(controls) !! replica.(WorkloadReplica.workload_id)).

Definition evacuation_candidate (state : WorkloadState.t) (organization_id : OrganizationId) (source_node_id : NodeId)
    (replica : WorkloadReplica.t) : option (Time * ReplicaEvacuationCandidate.t) :=
  member ← state.(replica_members) !! replica.(WorkloadReplica.id);
  if member.(WorkloadReplicaMember.node_id) != Some source_node_id then None
  else
    binding ← List.find (fun binding =>
        (binding.(DeploymentReplicaBinding.organization_id) == organization_id)
        && binds_generation replica binding
        && (binding.(DeploymentReplicaBinding.member_id) == member.(WorkloadReplicaMember.id))
        && (binding.(DeploymentReplicaBinding.node_id) == Some source_node_id)
        && (binding.(DeploymentReplicaBinding.placement_generation) == member.(WorkloadReplicaMember.placement_generation)))
      (values state.(deployment_replica_bindings));
    Some (replica.(WorkloadReplica.updated_at),
          {| ReplicaEvacuationCandidate.organization_id := organization_id;
             ReplicaEvacuationCandidate.workload_id := replica.(WorkloadReplica.workload_id);
             ReplicaEvacuationCandidate.replica_id := replica.(WorkloadReplica.id);
             ReplicaEvacuationCandidate.replica_generation := replica.(WorkloadReplica.generation);
             ReplicaEvacuationCandidate.expected_replica_version := replica.(WorkloadReplica.aggregate_version);
             ReplicaEvacuationCandidate.member_id := member.(WorkloadReplicaMember.id);
             ReplicaEvacuationCandidate.expected_member_version := member.(WorkloadReplicaMember.aggregate_version);
             ReplicaEvacuationCandidate.source_node_id := source_node_id;
             ReplicaEvacuationCandidate.placement_generation := binding.(DeploymentReplicaBinding.placement_generation) |}).

Definition pending_replica_evacuations (organization_id : OrganizationId) (source_node_id : NodeId) (limit : N)
    (state : WorkloadState.t) : result (list ReplicaEvacuationCandidate.t) :=
  if is_nil source_node_id || (limit =? 0)%N || (10000 <? limit)%N
  then Err (conflict_error "replica evacuation query is invalid")
  else
    let candidates :=
      sort_by_key (fun uc : Time * ReplicaEvacuationCandidate.t =>
        (uc.1, uc.2.(ReplicaEvacuationCandidate.workload_id), uc.2.(ReplicaEvacuationCandidate.replica_id)))
        (omap (evacuation_candidate state organization_id source_node_id)
           (List.filter (evacuable state organization_id) (values state.(replicas)))) in
    Ok (map snd (take (N.to_nat limit) candidates)).

Definition stored_replica (state : WorkloadState.t) (organization_id : OrganizationId) (workload_id : WorkloadId)
    (replica_id : WorkloadReplicaId) : result WorkloadReplica.t :=
  some_or (replica ← state.(replicas) !! replica_id;
           if owned_by organization_id workload_id replica then Some replica else None) NotFound.

Definition stored_member (state : WorkloadState.t) (replica_id : WorkloadReplicaId) (member_id : WorkloadReplicaMemberId)
    (e : error) : result WorkloadReplicaMember.t :=
  some_or (member ← state.(replica_members) !! member_id;
           if member.(WorkloadReplicaMember.replica_id) == replica_id then Some member else None) e.

Definition request_replica_evacuation (event_id : Uuid) (request : ReplicaEvacuationRequest.t) :
    method WorkloadState.t (IdempotentWrite.t WorkloadReplica.t) :=
  state ← get;
  let '(ReplicaEvacuationRequest.Mk candidate requested_at correlation_id) := request in
  let '(ReplicaEvacuationCandidate.Mk organization_id workload_id replica_id replica_generation expected_replica_version
          member_id expected_member_version source_node_id placement_generation) := candidate in
  workload ← lift (state_workload state organization_id workload_id);
  control ← lift (some_or (state.(controls) !! workload_id) (storage_error "evacuated Workload has no control record"));
  replica ← lift (stored_replica state organization_id workload_id replica_id);
  member ← lift (stored_member state replica_id member_id (storage_error "evacuated replica member is missing"));
  if (replica.(WorkloadReplica.generation) == replica_generation)
     && (replica.(WorkloadReplica.lifecycle) == WorkloadReplicaLifecycle.Retiring)
     && (replica.(WorkloadReplica.evacuation_node_id) == Some source_node_id)
  then mret (IdempotentWrite.Mk replica true)
  else if (workload.(Workload.desired_state) != WorkloadDesiredState.Running)
     || (replica.(WorkloadReplica.generation) != replica_generation)
     || (replica.(WorkloadReplica.aggregate_version) != expected_replica_version)
     || (replica.(WorkloadReplica.lifecycle) != WorkloadReplicaLifecycle.Desired)
     || ((WorkloadControl.policy control).(EffectivePlacementPolicy.desired_replicas) <=? replica.(WorkloadReplica.ordinal))%N
     || (member.(WorkloadReplicaMember.aggregate_version) != expected_member_version)
     || (member.(WorkloadReplicaMember.node_id) != Some source_node_id)
     || (member.(WorkloadReplicaMember.placement_generation) != placement_generation)
     || negb (any (fun binding =>
          (binding.(DeploymentReplicaBinding.organization_id) == organization_id)
          && (binding.(DeploymentReplicaBinding.workload_id) == workload_id)
          && (binding.(DeploymentReplicaBinding.replica_id) == replica_id)
          && (binding.(DeploymentReplicaBinding.replica_generation) == replica_generation)
          && (binding.(DeploymentReplicaBinding.member_id) == member_id)
          && (binding.(DeploymentReplicaBinding.node_id) == Some source_node_id)
          && (binding.(DeploymentReplicaBinding.placement_generation) == placement_generation))
          (values state.(deployment_replica_bindings)))
  then throw (conflict_error "Workload replica evacuation candidate changed")
  else
    let previous := replica in
    replica ← lift (map_err Conflict (on_copy (WorkloadReplica.request_evacuation member source_node_id requested_at) replica));
    event ← lift (map_err Storage (replica_evacuation_requested event_id previous replica member correlation_id));
    put_replica replica ;;
    push_event event ;;
    mret (IdempotentWrite.Mk replica false).

(** ** Retirement *)
Definition retiring_target (state : WorkloadState.t) (replica : WorkloadReplica.t) : result RetiringReplicaTarget.t :=
  revision ← some_or (revision ← state.(revisions) !! replica.(WorkloadReplica.revision_id);
                      if revision.(WorkloadRevision.workload_id) == replica.(WorkloadReplica.workload_id)
                      then Some revision else None)
               (storage_error "retiring replica references a missing revision");
  member ← stored_member state replica.(WorkloadReplica.id) replica.(WorkloadReplica.id)
             (storage_error "retiring replica references a missing canonical member");
  let replica_binding := List.find (binds_generation replica) (values state.(deployment_replica_bindings)) in
  deployment ← match replica_binding with
               | None => Ok None
               | Some binding =>
                 deployment ← some_or (state.(deployments) !! binding.(DeploymentReplicaBinding.deployment_id))
                                (storage_error "retiring replica binding references a missing deployment");
                 Ok (Some deployment)
               end;
  if is_some member.(WorkloadReplicaMember.node_id) && is_none replica_binding
  then Err (storage_error "placed retiring replica has no deployment binding")
  else Ok (RetiringReplicaTarget.Mk revision replica member deployment replica_binding).

Definition pending_replica_retirements (limit : N) (state : WorkloadState.t) : result (list RetiringReplicaTarget.t) :=
  if (limit =? 0)%N || (10000 <? limit)%N
  then Err (conflict_error "replica retirement target limit must be between 1 and 10000")
  else
    let replicas :=
      sort_by_key (fun replica => (replica.(WorkloadReplica.updated_at), replica.(WorkloadReplica.workload_id),
                                   replica.(WorkloadReplica.ordinal), replica.(WorkloadReplica.id)))
        (List.filter (fun replica => replica.(WorkloadReplica.lifecycle) == WorkloadReplicaLifecycle.Retiring)
           (values state.(replicas))) in
    mapM (retiring_target state) (take (N.to_nat limit) replicas).

Definition require_replica_version (replica : WorkloadReplica.t) (expected_version : N) : result unit :=
  if replica.(WorkloadReplica.aggregate_version) == expected_version then Ok tt
  else Err (Conflict (Error "Workload replica changed from expected version {expected_version} to {}"
                        [FNum expected_version; FNum replica.(WorkloadReplica.aggregate_version)])).

Definition dispatch_replica_retirement (dispatch : ReplicaRetirementDispatch.t) :
    method WorkloadState.t WorkloadReplica.t :=
  state ← get;
  let '(ReplicaRetirementDispatch.Mk organization_id workload_id replica_id replica_generation expected_version command_id
          dispatched_at) := dispatch in
  replica ← lift (stored_replica state organization_id workload_id replica_id);
  if replica.(WorkloadReplica.generation) != replica_generation
  then throw (conflict_error "replica retirement dispatch changed generation")
  else if (replica.(WorkloadReplica.lifecycle) == WorkloadReplicaLifecycle.Retiring)
          && (replica.(WorkloadReplica.retirement_command_id) == Some command_id)
  then mret replica
  else
    lift (require_replica_version replica expected_version) ;;
    replica ← lift (map_err Conflict (on_copy (WorkloadReplica.dispatch_retirement command_id dispatched_at) replica));
    put_replica replica ;;
    mret replica.

(** The checks of a writer fence; the result is the receipt that is already stored. *)
Definition check_writer_fence (state : WorkloadState.t) (fence : ReplicaRuntimeFence.t) (replica : WorkloadReplica.t)
    (replayed : bool) (commit : WorkloadWriterFenceCommit.t) : result (option WorkloadWriterFenceReceipt.t) :=
  let workload_id := fence.(ReplicaRuntimeFence.workload_id) in
  let spec := commit.(WorkloadWriterFenceCommit.receipt).(WorkloadWriterFenceReceipt.spec) in
  let operation := commit.(WorkloadWriterFenceCommit.operation) in
  control ← some_or (state.(controls) !! workload_id) (storage_error "writer-fenced Workload control is missing");
  member ← some_or (state.(replica_members) !! spec.(WorkloadWriterFenceReceiptSpec.member_id))
             (storage_error "writer-fenced Workload replica member is missing");
  binding ← some_or
    (List.find (fun binding =>
       (binding.(DeploymentReplicaBinding.workload_id) == workload_id)
       && (binding.(DeploymentReplicaBinding.replica_id) == fence.(ReplicaRuntimeFence.replica_id))
       && (binding.(DeploymentReplicaBinding.replica_generation) == fence.(ReplicaRuntimeFence.replica_generation))
       && (binding.(DeploymentReplicaBinding.member_id) == spec.(WorkloadWriterFenceReceiptSpec.member_id)))
       (values state.(deployment_replica_member_bindings)))
    (storage_error "writer-fenced Workload replica binding is missing");
  map_err Conflict (WorkloadWriterFenceCommit.validate_replica_retirement commit fence control replica member binding) ;;
  let existing := state.(writer_fences) !! (workload_id, fence.(ReplicaRuntimeFence.replica_generation)) in
  if is_some_and (fun existing => existing != commit.(WorkloadWriterFenceCommit.receipt)) existing
  then Err (conflict_error "Workload writer-fence receipt replay changed its exact evidence")
  else if is_some existing && negb replayed
  then Err (storage_error "Workload writer-fence receipt exists before its Runtime fence")
  else
    match state.(writer_fence_operations) !! operation.(WorkloadWriterFenceContinuationIntent.operation_id) with
    | None => Ok existing
    | Some stored =>
      composed ← map_err Conflict (compose_writer_fence_operation operation);
      if negb (OperationRequest.has_same_definition stored composed)
         || (stored.(OperationRequest.requested_at) != composed.(OperationRequest.requested_at))
      then Err (conflict_error "Workload writer-fence Operation replay changed its definition")
      else Ok existing
    end.

Definition record_replica_runtime_fenced (fence : ReplicaRuntimeFence.t) (writer_fence : option WorkloadWriterFenceCommit.t) :
    method WorkloadState.t WorkloadReplica.t :=
  state ← get;
  let '(ReplicaRuntimeFence.Mk organization_id workload_id replica_id replica_generation expected_version command_id
          fenced_at) := fence in
  replica ← lift (stored_replica state organization_id workload_id replica_id);
  if replica.(WorkloadReplica.generation) != replica_generation
  then throw (conflict_error "replica Runtime fence changed generation")
  else
    let replayed :=
      (replica.(WorkloadReplica.lifecycle) == WorkloadReplicaLifecycle.Retiring)
      && (replica.(WorkloadReplica.retirement_command_id) == Some command_id)
      && (replica.(WorkloadReplica.runtime_fenced_at) == Some (canonical_timestamp fenced_at)) in
    existing_writer_fence ← lift match writer_fence with
                                 | Some commit => check_writer_fence state fence replica replayed commit
                                 | None => Ok None
                                 end;
    replica ← (if replayed then mret replica
               else
                 lift (require_replica_version replica expected_version) ;;
                 replica ← lift (map_err Conflict (on_copy (WorkloadReplica.record_runtime_fenced command_id fenced_at)
                                                     replica));
                 put_replica replica ;;
                 mret replica);
    match existing_writer_fence, writer_fence with
    | None, Some commit =>
      composed ← lift (map_err Conflict (compose_writer_fence_operation commit.(WorkloadWriterFenceCommit.operation)));
      modify (fun s => s <| writer_fence_operations :=
        <[composed.(OperationRequest.id) := composed]> s.(writer_fence_operations) |>) ;;
      modify (fun s => s <| writer_fences :=
        <[(workload_id, replica_generation) := commit.(WorkloadWriterFenceCommit.receipt)]> s.(writer_fences) |>)
    | _, _ => mret tt
    end ;;
    mret replica.

(** A deployment of the generation has been dispatched to a node. *)
Definition dispatched_runtime (state : WorkloadState.t) (completion : ReplicaRetirementCompletion.t) : result bool :=
  match List.find (fun binding =>
      (binding.(DeploymentReplicaBinding.organization_id) == completion.(ReplicaRetirementCompletion.organization_id))
      && (binding.(DeploymentReplicaBinding.workload_id) == completion.(ReplicaRetirementCompletion.workload_id))
      && (binding.(DeploymentReplicaBinding.replica_id) == completion.(ReplicaRetirementCompletion.replica_id))
      && (binding.(DeploymentReplicaBinding.replica_generation)
            == completion.(ReplicaRetirementCompletion.replica_generation)))
      (values state.(deployment_replica_bindings)) with
  | None => Ok false
  | Some binding =>
    deployment ← some_or (state.(deployments) !! binding.(DeploymentReplicaBinding.deployment_id))
                   (storage_error "retiring replica binding references a missing deployment");
    Ok (is_some deployment.(Deployment.command_id))
  end.

Definition complete_replica_retirement (event_id : Uuid) (completion : ReplicaRetirementCompletion.t) :
    method WorkloadState.t (IdempotentWrite.t WorkloadReplica.t) :=
  state ← get;
  let '(ReplicaRetirementCompletion.Mk organization_id workload_id replica_id replica_generation expected_replica_version
          member_id expected_member_version fenced_node_id completed_at correlation_id) := completion in
  replica ← lift (stored_replica state organization_id workload_id replica_id);
  member ← lift (stored_member state replica_id member_id (storage_error "retiring replica member is missing"));
  if (checked_add replica_generation 1 == Some replica.(WorkloadReplica.generation))
     && (replica.(WorkloadReplica.lifecycle) == WorkloadReplicaLifecycle.Desired)
     && is_none replica.(WorkloadReplica.evacuation_node_id)
  then mret (IdempotentWrite.Mk replica true)
  else if replica.(WorkloadReplica.generation) != replica_generation
  then throw (conflict_error "replica retirement completion changed generation")
  else if (replica.(WorkloadReplica.lifecycle) == WorkloadReplicaLifecycle.Retired)
          && is_none member.(WorkloadReplicaMember.node_id)
  then mret (IdempotentWrite.Mk replica true)
  else
    lift (require_replica_version replica expected_replica_version) ;;
    if member.(WorkloadReplicaMember.aggregate_version) != expected_member_version
    then throw (Conflict (Error "Workload replica member changed from expected version {} to {}"
                            [FNum expected_member_version; FNum member.(WorkloadReplicaMember.aggregate_version)]))
    else
      control ← lift (some_or (state.(controls) !! replica.(WorkloadReplica.workload_id))
                        (storage_error "retiring replica Workload has no control record"));
      let evacuation := is_some replica.(WorkloadReplica.evacuation_node_id) in
      let remains_desired :=
        (replica.(WorkloadReplica.ordinal) <? (WorkloadControl.policy control).(EffectivePlacementPolicy.desired_replicas))%N in
      if (replica.(WorkloadReplica.lifecycle) != WorkloadReplicaLifecycle.Retiring)
         || (evacuation != remains_desired)
         || (member.(WorkloadReplicaMember.node_id) != fenced_node_id)
         || is_some_and (fun source => Some source != fenced_node_id) replica.(WorkloadReplica.evacuation_node_id)
      then throw (conflict_error "Workload replica is no longer eligible for generation retirement completion")
      else
        dispatched ← lift (dispatched_runtime state completion);
        if (dispatched || is_some fenced_node_id) && is_none replica.(WorkloadReplica.runtime_fenced_at)
        then throw (conflict_error "Workload replica Runtime is not durably fenced")
        else
          let previous_replica := replica in
          let previous_member := member in
          member ← lift match fenced_node_id with
                        | Some node_id =>
                          map_err Conflict (on_copy (WorkloadReplicaMember.release_after_fencing node_id completed_at) member)
                        | None => Ok member
                        end;
          '(replica, event) ← lift
            (if evacuation then
               replica ← map_err Conflict (on_copy (WorkloadReplica.complete_evacuation member completed_at) replica);
               event ← map_err Storage (replica_evacuated event_id previous_replica replica previous_member member
                                          correlation_id);
               Ok (replica, event)
             else
               replica ← map_err Conflict (on_copy (WorkloadReplica.complete_retirement member completed_at) replica);
               event ← map_err Storage (replica_retired event_id previous_replica replica previous_member member
                                          correlation_id);
               Ok (replica, event));
          put_member member ;;
          put_replica replica ;;
          push_event event ;;
          mret (IdempotentWrite.Mk replica false).

(** ** Writer fences and targets of the Runtime *)
Definition latest_writer_fence (organization_id : OrganizationId) (workload_id : WorkloadId) (state : WorkloadState.t) :
    option WorkloadWriterFenceReceipt.t :=
  List.find (fun receipt => receipt.(WorkloadWriterFenceReceipt.spec).(WorkloadWriterFenceReceiptSpec.organization_id)
                            == organization_id)
    (rev (map snd (List.filter (fun kv => kv.1.1 == workload_id) (entries_of state.(writer_fences))))).

Definition is_active_target (state : WorkloadState.t) (deployment : Deployment.t) : bool :=
  is_some_and (fun workload =>
    (workload.(Workload.desired_state) == WorkloadDesiredState.Running)
    && (workload.(Workload.active_revision_id) == Some deployment.(Deployment.revision_id))
    && matches deployment.(Deployment.status) [DeploymentStatus.Retiring; DeploymentStatus.Active])
    (state.(workloads) !! deployment.(Deployment.workload_id)).

Definition target_order (state : WorkloadState.t) (deployment : Deployment.t) : Time * Uuid * Uuid :=
  match state.(workloads) !! deployment.(Deployment.workload_id) with
  | Some workload => (workload.(Workload.updated_at), workload.(Workload.id), deployment.(Deployment.id))
  | None => (deployment.(Deployment.updated_at), deployment.(Deployment.workload_id), deployment.(Deployment.id))
  end.

(** One deployment: [None] when its replica has moved on. *)
Definition active_target (state : WorkloadState.t) (deployment : Deployment.t) : result (option ActiveRuntimeTarget.t) :=
  workload ← some_or (state.(workloads) !! deployment.(Deployment.workload_id))
               (storage_error "active Runtime target references a missing Workload");
  revision ← some_or (state.(revisions) !! deployment.(Deployment.revision_id))
               (storage_error "active Runtime target references a missing revision");
  replica_binding ← some_or (state.(deployment_replica_bindings) !! deployment.(Deployment.id))
                      (storage_error "active Runtime target is missing its replica binding");
  replica ← some_or (state.(replicas) !! replica_binding.(DeploymentReplicaBinding.replica_id))
              (storage_error "active Runtime target references a missing replica");
  if (replica.(WorkloadReplica.lifecycle) != WorkloadReplicaLifecycle.Desired)
     || (replica.(WorkloadReplica.revision_id) != replica_binding.(DeploymentReplicaBinding.revision_id))
     || (replica.(WorkloadReplica.generation) != replica_binding.(DeploymentReplicaBinding.replica_generation))
  then Ok None
  else
    member ← some_or (state.(replica_members) !! replica_binding.(DeploymentReplicaBinding.member_id))
               (storage_error "active Runtime target references a missing replica member");
    Ok (Some (ActiveRuntimeTarget.Mk workload revision replica member deployment replica_binding
                (state.(deployment_runtime_execution_bindings) !! deployment.(Deployment.id)))).

(** The loop stops at [limit] targets: what comes after is not looked at. *)
Fixpoint collect_targets (state : WorkloadState.t) (limit : nat) (deployments : list Deployment.t) :
    result (list ActiveRuntimeTarget.t) :=
  match limit, deployments with
  | O, _ | _, [] => Ok []
  | S remaining, deployment :: rest =>
    target ← active_target state deployment;
    match target with
    | None => collect_targets state limit rest
    | Some target =>
      targets ← collect_targets state remaining rest;
      Ok (target :: targets)
    end
  end.

Definition list_active_runtime_targets (limit : N) (state : WorkloadState.t) : result (list ActiveRuntimeTarget.t) :=
  if (limit =? 0)%N || (10000 <? limit)%N
  then Err (conflict_error "active Runtime target limit must be between 1 and 10000")
  else collect_targets state (N.to_nat limit)
         (sort_by_key (target_order state) (List.filter (is_active_target state) (values state.(deployments)))).

(** The repository the controller of [ReplicaMaterialization] runs on. *)
#[global] Instance replica_deployment_repository (now_v7 : ReplicaDeploymentCandidate.t -> Uuid) :
    IWorkloadReplicaDeploymentRepository WorkloadState.t := {|
  ReplicaMaterialization.pending_replica_deployments := pending_replica_deployments;
  ReplicaMaterialization.materialize_replica_deployment := fun candidate now =>
    materialize_replica_deployment (now_v7 candidate) candidate now |}.

End repository.
End WorkloadReplicaRepository.
