(* ===== verification/WorkloadProtocol.v ===== *)
(** * The changes of a workload repository

    What the calls of the workload repository may do to the records they share, as a relation between
    states, and the invariant of the repository.  A record that exists changes without changing what
    it stands for; a new one refers to records that exist.  [WorkloadCalls] shows that every call is a
    sequence of such changes. *)

From Stdlib Require Import ZArith NArith Lia String.
From stdpp Require Import gmap relations.
From S2P Require Import Prelude RustStd BTreeMap External Text SharedKernel Repositories Workloads ServiceTemplates.
From S2P Require Import WorkloadRevisions Deployments Replicas WorkloadControls PlacementGroups WorkloadOperations.
From S2P Require Import WorkloadEvents RuntimeBindings ReplicaSets ReplicaMaterialization WorkloadRepository.

(** ** A record with a property *)
Definition has `{Countable K} {V} (m : gmap K V) (k : K) (P : V -> Prop) : Prop := exists v, m !! k = Some v /\ P v.

Section has.
Context `{Countable K} {V : Type}.
Implicit Types (m : gmap K V) (P Q : V -> Prop).

Lemma has_update m i x x' k P : m !! i = Some x -> (P x -> P x') -> has m k P -> has (<[i := x']> m) k P.
Proof.
  intros Hi HP (v & Hk & Hv). unfold has. destruct (decide (i = k)) as [<-|].
  - rewrite lookup_insert_eq. exists x'. split; [done|]. apply HP. congruence.
  - rewrite lookup_insert_ne by done. eauto.
Qed.

Lemma has_new m i y k P : m !! i = None -> has m k P -> has (<[i := y]> m) k P.
Proof.
  intros Hi (v & Hk & Hv). exists v. split; [|done]. rewrite lookup_insert_ne; [done|congruence].
Qed.

Lemma has_insert m i y P : P y -> has (<[i := y]> m) i P.
Proof. exists y. by rewrite lookup_insert_eq. Qed.

Lemma has_impl m k P Q : (forall v, P v -> Q v) -> has m k P -> has m k Q.
Proof. intros HPQ (v & Hk & Hv). exists v. auto. Qed.
End has.

(** ** What stays *)
Definition same_workload (w w' : Workload.t) : Prop :=
  w'.(Workload.id) = w.(Workload.id) /\ w'.(Workload.organization_id) = w.(Workload.organization_id)
  /\ w'.(Workload.environment_id) = w.(Workload.environment_id) /\ w'.(Workload.name) = w.(Workload.name).
Definition same_control (c c' : WorkloadControl.t) : Prop :=
  c'.(WorkloadControl.workload_id) = c.(WorkloadControl.workload_id)
  /\ c'.(WorkloadControl.organization_id) = c.(WorkloadControl.organization_id).
Definition same_revision (v v' : WorkloadRevision.t) : Prop :=
  v'.(WorkloadRevision.id) = v.(WorkloadRevision.id)
  /\ v'.(WorkloadRevision.workload_id) = v.(WorkloadRevision.workload_id)
  /\ v'.(WorkloadRevision.generation) = v.(WorkloadRevision.generation).
Definition same_replica (r r' : WorkloadReplica.t) : Prop :=
  r'.(WorkloadReplica.id) = r.(WorkloadReplica.id)
  /\ r'.(WorkloadReplica.organization_id) = r.(WorkloadReplica.organization_id)
  /\ r'.(WorkloadReplica.workload_id) = r.(WorkloadReplica.workload_id)
  /\ (r.(WorkloadReplica.generation) <= r'.(WorkloadReplica.generation))%N.
Definition same_member (m m' : WorkloadReplicaMember.t) : Prop :=
  m'.(WorkloadReplicaMember.id) = m.(WorkloadReplicaMember.id)
  /\ m'.(WorkloadReplicaMember.replica_id) = m.(WorkloadReplicaMember.replica_id)
  /\ m'.(WorkloadReplicaMember.workload_id) = m.(WorkloadReplicaMember.workload_id).
Definition same_deployment (d d' : Deployment.t) : Prop :=
  d'.(Deployment.id) = d.(Deployment.id)
  /\ d'.(Deployment.organization_id) = d.(Deployment.organization_id)
  /\ d'.(Deployment.workload_id) = d.(Deployment.workload_id)
  /\ d'.(Deployment.revision_id) = d.(Deployment.revision_id).
(** The generation a binding runs. *)
Definition same_binding (b b' : DeploymentReplicaBinding.t) : Prop :=
  b'.(DeploymentReplicaBinding.deployment_id) = b.(DeploymentReplicaBinding.deployment_id)
  /\ b'.(DeploymentReplicaBinding.organization_id) = b.(DeploymentReplicaBinding.organization_id)
  /\ b'.(DeploymentReplicaBinding.workload_id) = b.(DeploymentReplicaBinding.workload_id)
  /\ b'.(DeploymentReplicaBinding.revision_id) = b.(DeploymentReplicaBinding.revision_id)
  /\ b'.(DeploymentReplicaBinding.replica_id) = b.(DeploymentReplicaBinding.replica_id)
  /\ b'.(DeploymentReplicaBinding.replica_generation) = b.(DeploymentReplicaBinding.replica_generation).

(** A binding and the deployment it belongs to. *)
Definition lineage (d : Deployment.t) (b : DeploymentReplicaBinding.t) : Prop :=
  b.(DeploymentReplicaBinding.deployment_id) = d.(Deployment.id)
  /\ b.(DeploymentReplicaBinding.organization_id) = d.(Deployment.organization_id)
  /\ b.(DeploymentReplicaBinding.workload_id) = d.(Deployment.workload_id)
  /\ b.(DeploymentReplicaBinding.revision_id) = d.(Deployment.revision_id).

Module WorkloadProtocol.
Import WorkloadState InMemoryWorkloadRepository.
Implicit Types (s : WorkloadState.t) (w : Workload.t) (c : WorkloadControl.t) (v : WorkloadRevision.t)
  (r : WorkloadReplica.t) (m : WorkloadReplicaMember.t) (d : Deployment.t) (b : DeploymentReplicaBinding.t).

(** The revision a replica runs, and the records a deployment refers to. *)
Definition runs s r : Prop :=
  has s.(revisions) r.(WorkloadReplica.revision_id) (fun v =>
    v.(WorkloadRevision.workload_id) = r.(WorkloadReplica.workload_id)
    /\ v.(WorkloadRevision.generation) = r.(WorkloadReplica.revision_generation)).
Definition owned s (organization_id : OrganizationId) (workload_id : WorkloadId) : Prop :=
  has s.(workloads) workload_id (fun w => w.(Workload.organization_id) = organization_id).
Definition member_of s (replica_id : WorkloadReplicaId) (member_id : WorkloadReplicaMemberId) : Prop :=
  has s.(replica_members) member_id (fun m => m.(WorkloadReplicaMember.replica_id) = replica_id).
(** The replica a member belongs to. *)
Definition belongs s m : Prop :=
  has s.(replicas) m.(WorkloadReplicaMember.replica_id) (fun r =>
    r.(WorkloadReplica.workload_id) = m.(WorkloadReplicaMember.workload_id)).
(** The member every replica has, under the replica's own identifier. *)
Definition canonical_member r m : Prop :=
  m.(WorkloadReplicaMember.id) = r.(WorkloadReplica.id) /\ m.(WorkloadReplicaMember.replica_id) = r.(WorkloadReplica.id)
  /\ m.(WorkloadReplicaMember.workload_id) = r.(WorkloadReplica.workload_id).

(** The records of the protocol are the same; logs of answers and events may differ. *)
Definition same_records s s' : Prop :=
  s'.(workloads) = s.(workloads) /\ s'.(names) = s.(names) /\ s'.(revisions) = s.(revisions)
  /\ s'.(deployments) = s.(deployments) /\ s'.(controls) = s.(controls) /\ s'.(replicas) = s.(replicas)
  /\ s'.(replica_members) = s.(replica_members)
  /\ s'.(deployment_replica_bindings) = s.(deployment_replica_bindings)
  /\ s'.(deployment_replica_member_bindings) = s.(deployment_replica_member_bindings).

Inductive change (s : WorkloadState.t) : WorkloadState.t -> Prop :=
| ch_records s' : same_records s s' -> change s s'
| ch_workload i w w' :
    s.(workloads) !! i = Some w -> same_workload w w' ->
    change s (s <| workloads := <[i := w']> s.(workloads) |>)
| ch_control i c c' :
    s.(controls) !! i = Some c -> same_control c c' ->
    change s (s <| controls := <[i := c']> s.(controls) |>)
| ch_revision i v v' :
    s.(revisions) !! i = Some v -> same_revision v v' ->
    change s (s <| revisions := <[i := v']> s.(revisions) |>)
| ch_new_revision v :
    s.(revisions) !! v.(WorkloadRevision.id) = None ->
    is_Some (s.(workloads) !! v.(WorkloadRevision.workload_id)) ->
    next_generation s v.(WorkloadRevision.workload_id) = Ok v.(WorkloadRevision.generation) ->
    change s (s <| revisions := <[v.(WorkloadRevision.id) := v]> s.(revisions) |>)
| ch_replica i r r' :
    s.(replicas) !! i = Some r -> same_replica r r' ->
    (r'.(WorkloadReplica.revision_id) = r.(WorkloadReplica.revision_id)
     /\ r'.(WorkloadReplica.revision_generation) = r.(WorkloadReplica.revision_generation)) \/ runs s r' ->
    change s (s <| replicas := <[i := r']> s.(replicas) |>)
(** a new replica with its canonical member *)
| ch_new_replica r m :
    s.(replicas) !! r.(WorkloadReplica.id) = None -> s.(replica_members) !! r.(WorkloadReplica.id) = None ->
    canonical_member r m ->
    owned s r.(WorkloadReplica.organization_id) r.(WorkloadReplica.workload_id) -> runs s r ->
    change s (s <| replica_members := <[r.(WorkloadReplica.id) := m]> s.(replica_members) |>
                <| replicas := <[r.(WorkloadReplica.id) := r]> s.(replicas) |>)
| ch_member i m m' :
    s.(replica_members) !! i = Some m -> same_member m m' ->
    change s (s <| replica_members := <[i := m']> s.(replica_members) |>)
| ch_new_member m :
    s.(replica_members) !! m.(WorkloadReplicaMember.id) = None -> belongs s m ->
    change s (s <| replica_members := <[m.(WorkloadReplicaMember.id) := m]> s.(replica_members) |>)
| ch_deployment i d o :
    s.(deployments) !! i = Some d ->
    change s (s <| deployments := <[i := run_state (DeploymentLifecycle.step o) d]> s.(deployments) |>)
| ch_binding i b b' :
    s.(deployment_replica_bindings) !! i = Some b -> same_binding b b' ->
    member_of s b'.(DeploymentReplicaBinding.replica_id) b'.(DeploymentReplicaBinding.member_id) ->
    change s (s <| deployment_replica_bindings := <[i := b']> s.(deployment_replica_bindings) |>)
| ch_member_binding i b b' :
    s.(deployment_replica_bindings) !! i = Some b -> same_binding b b' ->
    member_of s b'.(DeploymentReplicaBinding.replica_id) b'.(DeploymentReplicaBinding.member_id) ->
    change s (s <| deployment_replica_member_bindings :=
      <[(i, b'.(DeploymentReplicaBinding.member_id)) := b']> s.(deployment_replica_member_bindings) |>)
(** a new deployment of a generation that has none *)
| ch_new_deployment d b r :
    s.(deployments) !! d.(Deployment.id) = None ->
    s.(deployment_replica_bindings) !! d.(Deployment.id) = None ->
    DeploymentLifecycle.reachable d -> lineage d b ->
    owned s d.(Deployment.organization_id) d.(Deployment.workload_id) ->
    has s.(revisions) d.(Deployment.revision_id)
      (fun v => v.(WorkloadRevision.workload_id) = d.(Deployment.workload_id)) ->
    s.(replicas) !! b.(DeploymentReplicaBinding.replica_id) = Some r ->
    r.(WorkloadReplica.workload_id) = d.(Deployment.workload_id) ->
    b.(DeploymentReplicaBinding.replica_generation) = r.(WorkloadReplica.generation) ->
    (forall i b', s.(deployment_replica_bindings) !! i = Some b' ->
       b'.(DeploymentReplicaBinding.replica_id) = b.(DeploymentReplicaBinding.replica_id) ->
       b'.(DeploymentReplicaBinding.replica_generation) <> b.(DeploymentReplicaBinding.replica_generation)) ->
    member_of s b.(DeploymentReplicaBinding.replica_id) b.(DeploymentReplicaBinding.member_id) ->
    change s (s <| deployments := <[d.(Deployment.id) := d]> s.(deployments) |>
                <| deployment_replica_bindings := <[d.(Deployment.id) := b]> s.(deployment_replica_bindings) |>)
(** a new workload with its canonical replica, the member of that replica and its first revision *)
| ch_new_workload w c r m v :
    s.(workloads) !! w.(Workload.id) = None -> s.(names) !! name_key w = None ->
    s.(revisions) !! v.(WorkloadRevision.id) = None -> s.(replicas) !! w.(Workload.id) = None ->
    s.(replica_members) !! w.(Workload.id) = None ->
    c.(WorkloadControl.workload_id) = w.(Workload.id) ->
    c.(WorkloadControl.organization_id) = w.(Workload.organization_id) ->
    v.(WorkloadRevision.workload_id) = w.(Workload.id) -> v.(WorkloadRevision.generation) = 1%N ->
    r.(WorkloadReplica.id) = w.(Workload.id) -> r.(WorkloadReplica.workload_id) = w.(Workload.id) ->
    r.(WorkloadReplica.organization_id) = w.(Workload.organization_id) ->
    r.(WorkloadReplica.revision_id) = v.(WorkloadRevision.id) ->
    r.(WorkloadReplica.revision_generation) = v.(WorkloadRevision.generation) ->
    canonical_member r m ->
    change s (s <| names := <[name_key w := w.(Workload.id)]> s.(names) |>
                <| workloads := <[w.(Workload.id) := w]> s.(workloads) |>
                <| controls := <[w.(Workload.id) := c]> s.(controls) |>
                <| replica_members := <[w.(Workload.id) := m]> s.(replica_members) |>
                <| replicas := <[w.(Workload.id) := r]> s.(replicas) |>
                <| revisions := <[v.(WorkloadRevision.id) := v]> s.(revisions) |>).

(** ** The invariant *)
Record consistent s : Prop := {
  ok_workload : forall i w, s.(workloads) !! i = Some w ->
    w.(Workload.id) = i /\ s.(names) !! name_key w = Some i
    /\ has s.(controls) i (fun c => c.(WorkloadControl.organization_id) = w.(Workload.organization_id))
    /\ has s.(replicas) i (fun r => r.(WorkloadReplica.workload_id) = i);
  ok_name : forall k i, s.(names) !! k = Some i -> has s.(workloads) i (fun w => name_key w = k);
  ok_control : forall i c, s.(controls) !! i = Some c ->
    c.(WorkloadControl.workload_id) = i /\ owned s c.(WorkloadControl.organization_id) i;
  ok_revision : forall i v, s.(revisions) !! i = Some v ->
    v.(WorkloadRevision.id) = i /\ is_Some (s.(workloads) !! v.(WorkloadRevision.workload_id));
  ok_replica : forall i r, s.(replicas) !! i = Some r ->
    r.(WorkloadReplica.id) = i /\ runs s r
    /\ owned s r.(WorkloadReplica.organization_id) r.(WorkloadReplica.workload_id) /\ member_of s i i;
  ok_member : forall i m, s.(replica_members) !! i = Some m -> m.(WorkloadReplicaMember.id) = i /\ belongs s m;
  ok_deployment : forall i d, s.(deployments) !! i = Some d ->
    d.(Deployment.id) = i /\ DeploymentLifecycle.reachable d
    /\ owned s d.(Deployment.organization_id) d.(Deployment.workload_id)
    /\ has s.(revisions) d.(Deployment.revision_id)
         (fun v => v.(WorkloadRevision.workload_id) = d.(Deployment.workload_id))
    /\ is_Some (s.(deployment_replica_bindings) !! i);
  ok_binding : forall i b, s.(deployment_replica_bindings) !! i = Some b ->
    has s.(deployments) i (fun d => lineage d b)
    /\ has s.(replicas) b.(DeploymentReplicaBinding.replica_id) (fun r =>
         r.(WorkloadReplica.workload_id) = b.(DeploymentReplicaBinding.workload_id)
         /\ (b.(DeploymentReplicaBinding.replica_generation) <= r.(WorkloadReplica.generation))%N)
    /\ member_of s b.(DeploymentReplicaBinding.replica_id) b.(DeploymentReplicaBinding.member_id);
  ok_member_binding : forall i k b, s.(deployment_replica_member_bindings) !! (i, k) = Some b ->
    b.(DeploymentReplicaBinding.member_id) = k
    /\ has s.(deployment_replica_bindings) i (fun b' => same_binding b' b)
    /\ member_of s b.(DeploymentReplicaBinding.replica_id) k;
  ok_once : forall i j b b', s.(deployment_replica_bindings) !! i = Some b ->
    s.(deployment_replica_bindings) !! j = Some b' ->
    b.(DeploymentReplicaBinding.replica_id) = b'.(DeploymentReplicaBinding.replica_id) ->
    b.(DeploymentReplicaBinding.replica_generation) = b'.(DeploymentReplicaBinding.replica_generation) -> i = j;
  ok_generation_inj : forall i j v v', s.(revisions) !! i = Some v -> s.(revisions) !! j = Some v' ->
    v.(WorkloadRevision.workload_id) = v'.(WorkloadRevision.workload_id) ->
    v.(WorkloadRevision.generation) = v'.(WorkloadRevision.generation) -> i = j;
  ok_generations : forall workload_id, exists n, forall g,
    (exists i, has s.(revisions) i (fun v => v.(WorkloadRevision.workload_id) = workload_id
                                             /\ v.(WorkloadRevision.generation) = g)) <-> (1 <= g <= n)%N;
}.

Lemma consistent_empty : consistent WorkloadState.empty.
Proof.
  split; cbn; try (intros *; rewrite lookup_empty; done).
  intros w. exists 0%N. intros g. split; [|lia]. intros (i & v & Hv & _). by rewrite lookup_empty in Hv.
Qed.

(** ** Every change keeps it *)
Lemma same_workload_key w w' : same_workload w w' -> name_key w' = name_key w.
Proof. unfold same_workload, name_key. intros (? & ? & ? & ?). congruence. Qed.

(** Lookups in a map that was updated. *)
Ltac split_insert :=
  repeat match goal with
  | H : <[_ := _]> _ !! _ = Some _ |- _ => apply lookup_insert_Some in H as [[? ?]|[? H]]; subst
  end.

(** A record that was there is still there, with what it stands for. *)
Ltac same := unfold same_workload, same_control, same_revision, same_replica, same_member, same_binding, lineage in *;
  cbn in *; intuition (congruence || lia).
Ltac still :=
  match goal with
  | H : has ?m ?k _ |- has ?m ?k _ => eapply has_impl; [|exact H]
  | H : has ?m ?k _ |- has (<[_ := _]> ?m) ?k _ =>
    first [ eapply has_update; [eassumption| |exact H] | eapply has_new; [eassumption|exact H] ]
  | H : is_Some (?m !! ?k) |- is_Some (<[_ := _]> ?m !! ?k) => rewrite lookup_insert_is_Some'; by right
  end.
Ltac close := first [done | still; solve [same] | solve [same]].
Ltac open_consistent :=
  match goal with H : consistent _ |- _ => destruct H as [C1 C2 C3 C4 C5 C6 C7 C8 C9 C10 C11 C12] end;
  split; cbn; unfold owned, runs, member_of, belongs, canonical_member in *; cbn; try done.
(** The clause [C] on a record found in the old state. *)
Ltac clause C := let j := fresh "j" in let x := fresh "x" in let Hj := fresh "Hj" in
  intros j x Hj; apply C in Hj; destruct_and?; split_and?; close.

Lemma change_workload s i w w' :
  consistent s -> s.(workloads) !! i = Some w -> same_workload w w' ->
  consistent (s <| workloads := <[i := w']> s.(workloads) |>).
Proof.
  intros Hs Hi Hw. pose proof (same_workload_key _ _ Hw) as Hk. open_consistent.
  - intros j x Hj. split_insert; [|by apply C1]. apply C1 in Hi. rewrite Hk. destruct_and?. split_and!; close.
  - clause C2.
  - clause C3.
  - clause C4.
  - clause C5.
  - clause C7.
Qed.

Lemma change_control s i c c' :
  consistent s -> s.(controls) !! i = Some c -> same_control c c' ->
  consistent (s <| controls := <[i := c']> s.(controls) |>).
Proof.
  intros Hs Hi Hw. open_consistent.
  - clause C1.
  - intros j x Hj. split_insert; [|by apply C3]. apply C3 in Hi. destruct_and?. split_and!; close.
Qed.

Lemma change_revision s i v v' :
  consistent s -> s.(revisions) !! i = Some v -> same_revision v v' ->
  consistent (s <| revisions := <[i := v']> s.(revisions) |>).
Proof.
  intros Hs Hi Hv. open_consistent.
  - intros j x Hj. split_insert; [|by apply C4]. destruct (C4 _ _ Hi) as [? ?]. destruct Hv as (-> & -> & _). by split.
  - clause C5.
  - clause C7.
  - intros j k x y Hj Hk. split_insert; try done; [intros; by eapply C11; try eassumption; same..|by apply C11].
  - intros w. destruct (C12 w) as [n Hn]. exists n. intros g. rewrite <- Hn. split.
    + intros (j & x & Hj & Hx). split_insert; [exists j, v; split; [done|same]|exists j, x; by split].
    + intros (j & Hj). exists j. still. same.
Qed.

Lemma change_replica s i r r' :
  consistent s -> s.(replicas) !! i = Some r -> same_replica r r' ->
  (r'.(WorkloadReplica.revision_id) = r.(WorkloadReplica.revision_id)
   /\ r'.(WorkloadReplica.revision_generation) = r.(WorkloadReplica.revision_generation)) \/ runs s r' ->
  consistent (s <| replicas := <[i := r']> s.(replicas) |>).
Proof.
  intros Hs Hi Hr Hv. open_consistent.
  - clause C1.
  - intros j x Hj. split_insert; [|by apply C5]. apply C5 in Hi. destruct_and?.
    destruct Hr as (Eid & Eo & Ew & _). split_and!; [congruence| |by rewrite Eo, Ew|done].
    destruct Hv as [[E1 E2]|Hv]; [by rewrite E1, E2, Ew|exact Hv].
  - clause C6.
  - clause C8.
Qed.

Lemma change_new_replica s r m :
  consistent s -> s.(replicas) !! r.(WorkloadReplica.id) = None -> s.(replica_members) !! r.(WorkloadReplica.id) = None ->
  canonical_member r m ->
  owned s r.(WorkloadReplica.organization_id) r.(WorkloadReplica.workload_id) -> runs s r ->
  consistent (s <| replica_members := <[r.(WorkloadReplica.id) := m]> s.(replica_members) |>
                <| replicas := <[r.(WorkloadReplica.id) := r]> s.(replicas) |>).
Proof.
  intros Hs Hn Hnm Hm Ho Hv. open_consistent; destruct Hm as (Em & Emr & Emw).
  - clause C1.
  - intros j x Hj. split_insert; [split_and!; try done; by apply has_insert|]. apply C5 in Hj. destruct_and?. split_and!; close.
  - intros j x Hj. split_insert; [split; [done|rewrite Emr; by apply has_insert]|]. apply C6 in Hj. destruct_and?. split_and!; close.
  - clause C8.
  - intros j k x Hj. apply C9 in Hj. destruct_and?. split_and!; close.
Qed.

Lemma change_member s i m m' :
  consistent s -> s.(replica_members) !! i = Some m -> same_member m m' ->
  consistent (s <| replica_members := <[i := m']> s.(replica_members) |>).
Proof.
  intros Hs Hi Hm. open_consistent.
  - clause C5.
  - intros j x Hj. split_insert; [|by apply C6]. destruct (C6 _ _ Hi) as [? ?]. destruct Hm as (E1 & E2 & E3).
    split; [congruence|by rewrite E2, E3].
  - clause C8.
  - intros j k x Hj. apply C9 in Hj. destruct_and?. split_and!; close.
Qed.

Lemma change_new_member s m :
  consistent s -> s.(replica_members) !! m.(WorkloadReplicaMember.id) = None -> belongs s m ->
  consistent (s <| replica_members := <[m.(WorkloadReplicaMember.id) := m]> s.(replica_members) |>).
Proof.
  intros Hs Hi Hof. open_consistent.
  - clause C5.
  - intros j x Hj. split_insert; [done|by apply C6].
  - clause C8.
  - intros j k x Hj. apply C9 in Hj. destruct_and?. split_and!; close.
Qed.

(** A transition of a deployment keeps its identity. *)
Lemma step_same_deployment o d : same_deployment d (run_state (DeploymentLifecycle.step o) d).
Proof.
  unfold run_state. destruct (DeploymentLifecycle.step o d) as [d' x] eqn:E. DeploymentLifecycle.run_step E o.
  all: by simplify_eq/=.
Qed.

Lemma change_deployment s i d o :
  consistent s -> s.(deployments) !! i = Some d ->
  consistent (s <| deployments := <[i := run_state (DeploymentLifecycle.step o) d]> s.(deployments) |>).
Proof.
  intros Hs Hi. destruct (step_same_deployment o d) as (Ei & Eo & Ew & Er). open_consistent.
  - intros j x Hj. split_insert; [|by apply C7]. destruct (C7 _ _ Hi) as (? & ? & ? & ? & ?).
    rewrite Ei, Eo, Ew, Er. split_and!; try done. by constructor.
  - clause C8.
Qed.

Lemma change_binding s i b b' :
  consistent s -> s.(deployment_replica_bindings) !! i = Some b -> same_binding b b' ->
  member_of s b'.(DeploymentReplicaBinding.replica_id) b'.(DeploymentReplicaBinding.member_id) ->
  consistent (s <| deployment_replica_bindings := <[i := b']> s.(deployment_replica_bindings) |>).
Proof.
  intros Hs Hi Hb Hm. open_consistent.
  - clause C7.
  - intros j x Hj. split_insert; [|by apply C8]. destruct (C8 _ _ Hi) as (? & ? & _).
    destruct Hb as (E1 & E2 & E3 & E4 & E5 & E6). rewrite E5 in *. split_and!; try done; close.
  - intros j k x Hj. apply C9 in Hj. destruct_and?. split_and!; close.
  - intros j k x y Hj Hk. split_insert; try done; [intros; by eapply C10; try eassumption; same..|by apply C10].
Qed.

Lemma change_member_binding s i b b' :
  consistent s -> s.(deployment_replica_bindings) !! i = Some b -> same_binding b b' ->
  member_of s b'.(DeploymentReplicaBinding.replica_id) b'.(DeploymentReplicaBinding.member_id) ->
  consistent (s <| deployment_replica_member_bindings :=
    <[(i, b'.(DeploymentReplicaBinding.member_id)) := b']> s.(deployment_replica_member_bindings) |>).
Proof.
  intros Hs Hi Hb Hm. open_consistent. intros j k x Hj. apply lookup_insert_Some in Hj as [[E <-]|[_ Hj]]; [|by apply C9].
  injection E as <- <-. split_and!; [done|by exists b|done].
Qed.

Lemma change_new_deployment s d b r :
  consistent s ->
  s.(deployments) !! d.(Deployment.id) = None -> s.(deployment_replica_bindings) !! d.(Deployment.id) = None ->
  DeploymentLifecycle.reachable d -> lineage d b ->
  owned s d.(Deployment.organization_id) d.(Deployment.workload_id) ->
  has s.(revisions) d.(Deployment.revision_id)
    (fun v => v.(WorkloadRevision.workload_id) = d.(Deployment.workload_id)) ->
  s.(replicas) !! b.(DeploymentReplicaBinding.replica_id) = Some r ->
  r.(WorkloadReplica.workload_id) = d.(Deployment.workload_id) ->
  b.(DeploymentReplicaBinding.replica_generation) = r.(WorkloadReplica.generation) ->
  (forall i b', s.(deployment_replica_bindings) !! i = Some b' ->
     b'.(DeploymentReplicaBinding.replica_id) = b.(DeploymentReplicaBinding.replica_id) ->
     b'.(DeploymentReplicaBinding.replica_generation) <> b.(DeploymentReplicaBinding.replica_generation)) ->
  member_of s b.(DeploymentReplicaBinding.replica_id) b.(DeploymentReplicaBinding.member_id) ->
  consistent (s <| deployments := <[d.(Deployment.id) := d]> s.(deployments) |>
                <| deployment_replica_bindings := <[d.(Deployment.id) := b]> s.(deployment_replica_bindings) |>).
Proof.
  intros Hs Hd Hb Hreach Hl Ho Hv Hr Hw Hg Hfresh Hm. open_consistent.
  - intros j x Hj. split_insert; [split_and!; try done; by rewrite lookup_insert_eq|]. apply C7 in Hj.
    destruct_and?. split_and!; close.
  - intros j x Hj. split_insert.
    + split_and!; [by apply has_insert| |done]. exists r. split; [done|]. split; [same|lia].
    + apply C8 in Hj. destruct_and?. split_and!; close.
  - intros j k x Hj. apply C9 in Hj. destruct_and?. split_and!; close.
  - intros j k x y Hj Hk. split_insert; try done.
    + intros. by destruct (Hfresh _ _ Hj).
    + intros. by destruct (Hfresh _ _ Hk).
    + by apply C10.
Qed.

(** ** The generation of the next revision *)
Lemma foldr_max_le (l : list N) n : (forall g, g ∈ l -> (g <= n)%N) -> (foldr N.max 0 l <= n)%N.
Proof.
  induction l as [|x l IH]; intros Hl; simpl; [lia|].
  apply N.max_lub; [apply Hl; by left|]. apply IH. intros g Hg. apply Hl. by right.
Qed.
Lemma foldr_max_ge (l : list N) g : g ∈ l -> (g <= foldr N.max 0 l)%N.
Proof. induction 1; simpl; lia. Qed.

(** The generations of a workload are 1 to [n]: the next one is [n + 1]. *)
Lemma next_generation_Ok s workload_id n g :
  (forall g, (exists i, has s.(revisions) i (fun v => v.(WorkloadRevision.workload_id) = workload_id
                                                     /\ v.(WorkloadRevision.generation) = g)) <-> (1 <= g <= n)%N) ->
  next_generation s workload_id = Ok g -> g = (n + 1)%N.
Proof.
  intros Hn. unfold next_generation. rewrite some_or_Ok, checked_add_Some. intros [-> _]. f_equal.
  set (l := map _ _). assert (Hl : forall g, g ∈ l <-> (1 <= g <= n)%N).
  { intros g. rewrite <- Hn. unfold l. rewrite list_elem_of_In, in_map_iff. split.
    - intros (v & <- & [Hv Hw]%filter_In). apply list_elem_of_In, elem_of_values in Hv as [i Hi].
      apply bool_decide_eq_true in Hw. by exists i, v.
    - intros (i & v & Hi & Hw & Hg). exists v. split; [done|]. apply filter_In. split; [|by apply bool_decide_eq_true].
      apply list_elem_of_In, elem_of_values. eauto. }
  apply N.le_antisymm; [apply foldr_max_le; intros g Hg%Hl; lia|].
  destruct (decide (n = 0%N)) as [->|]; [lia|]. apply foldr_max_ge, Hl. lia.
Qed.

Lemma change_new_revision s v :
  consistent s -> s.(revisions) !! v.(WorkloadRevision.id) = None ->
  is_Some (s.(workloads) !! v.(WorkloadRevision.workload_id)) ->
  next_generation s v.(WorkloadRevision.workload_id) = Ok v.(WorkloadRevision.generation) ->
  consistent (s <| revisions := <[v.(WorkloadRevision.id) := v]> s.(revisions) |>).
Proof.
  intros Hs Hi Hw Hg. pose proof (ok_generations _ Hs) as Hgen. destruct (Hgen v.(WorkloadRevision.workload_id)) as [n Hn].
  apply (next_generation_Ok _ _ n) in Hg; [|done].
  assert (Hnew : forall j x, s.(revisions) !! j = Some x ->
    x.(WorkloadRevision.workload_id) = v.(WorkloadRevision.workload_id) ->
    x.(WorkloadRevision.generation) <> v.(WorkloadRevision.generation)).
  { intros j x Hj Hx E. assert (1 <= v.(WorkloadRevision.generation) <= n)%N; [|lia]. apply Hn. by exists j, x. }
  open_consistent.
  - intros j x Hj. split_insert; [done|by apply C4].
  - clause C5.
  - clause C7.
  - intros j k x y Hj Hk. split_insert; try done; [|intros; exfalso..|by apply C11].
    + intros E1 E2. by destruct (Hnew _ _ Hj).
    + by destruct (Hnew _ _ Hk).
  - intros w. destruct (decide (w = v.(WorkloadRevision.workload_id))) as [->|Hne].
    + exists (n + 1)%N. intros g. split.
      * intros (j & x & Hj & Ew & <-). split_insert; [lia|]. enough (1 <= WorkloadRevision.generation x <= n)%N by lia.
        apply Hn. by exists j, x.
      * intros Hx. destruct (decide (g = n + 1)%N) as [->|].
        { exists v.(WorkloadRevision.id). apply has_insert. by split. }
        destruct (proj2 (Hn g)) as [j Hj]; [lia|]. exists j. by apply has_new.
    + destruct (Hgen w) as [n' Hn']. exists n'. intros g. rewrite <- Hn'. split.
      * intros (j & x & Hj & Hx & Hx'). split_insert; [done|]. by exists j, x.
      * intros [j Hj]. exists j. by apply has_new.
Qed.

Lemma change_new_workload s w c r m v :
  consistent s ->
  s.(workloads) !! w.(Workload.id) = None -> s.(names) !! name_key w = None ->
  s.(revisions) !! v.(WorkloadRevision.id) = None -> s.(replicas) !! w.(Workload.id) = None ->
  s.(replica_members) !! w.(Workload.id) = None ->
  c.(WorkloadControl.workload_id) = w.(Workload.id) ->
  c.(WorkloadControl.organization_id) = w.(Workload.organization_id) ->
  v.(WorkloadRevision.workload_id) = w.(Workload.id) -> v.(WorkloadRevision.generation) = 1%N ->
  r.(WorkloadReplica.id) = w.(Workload.id) -> r.(WorkloadReplica.workload_id) = w.(Workload.id) ->
  r.(WorkloadReplica.organization_id) = w.(Workload.organization_id) ->
  r.(WorkloadReplica.revision_id) = v.(WorkloadRevision.id) ->
  r.(WorkloadReplica.revision_generation) = v.(WorkloadRevision.generation) ->
  canonical_member r m ->
  consistent (s <| names := <[name_key w := w.(Workload.id)]> s.(names) |>
                <| workloads := <[w.(Workload.id) := w]> s.(workloads) |>
                <| controls := <[w.(Workload.id) := c]> s.(controls) |>
                <| replica_members := <[w.(Workload.id) := m]> s.(replica_members) |>
                <| replicas := <[w.(Workload.id) := r]> s.(replicas) |>
                <| revisions := <[v.(WorkloadRevision.id) := v]> s.(revisions) |>).
Proof.
  intros Hs Hw Hn Hv Hr Hrm Ec Eco Ev Eg Er Erw Ero Err Erg (Em & Emr & Emw).
  assert (Hold : forall j x, s.(revisions) !! j = Some x -> x.(WorkloadRevision.workload_id) <> w.(Workload.id)).
  { intros j x [_ [y Hy]]%(ok_revision _ Hs) E. congruence. }
  assert (Hc : s.(controls) !! w.(Workload.id) = None).
  { destruct (s.(controls) !! _) as [x|] eqn:E; [|done]. apply (ok_control _ Hs) in E as (_ & y & Hy & _). congruence. }
  open_consistent.
  - intros j x Hj. apply lookup_insert_Some in Hj as [[<- <-]|[Hne Hj]].
    + rewrite lookup_insert_eq. split_and!; [done|done|by apply has_insert..].
    + destruct (C1 _ _ Hj) as (? & Hnj & ? & ?). split_and!; try close.
      rewrite lookup_insert_ne; [done|congruence].
  - intros k j Hj. split_insert; [by apply has_insert|]. apply C2 in Hj. close.
  - intros j x Hj. split_insert; [split; [done|by apply has_insert]|]. apply C3 in Hj. destruct_and?. split_and!; close.
  - intros j x Hj. split_insert; [rewrite Ev, lookup_insert_eq; by split|]. apply C4 in Hj. destruct_and?. split_and!; close.
  - intros j x Hj. split_insert.
    + rewrite Err, Erw, Ero, Erg. split_and!; [done|by apply has_insert..|]. apply has_insert. congruence.
    + apply C5 in Hj. destruct_and?. split_and!; close.
  - intros j x Hj. split_insert; [split; [congruence|]; rewrite Emr, Er; apply has_insert; congruence|].
    apply C6 in Hj. destruct_and?. split_and!; close.
  - clause C7.
  - clause C8.
  - intros j k x Hj. apply C9 in Hj. destruct_and?. split_and!; close.
  - intros j k x y Hj Hk. split_insert; try done; [|intros; exfalso..|by apply C11].
    + intros E1. rewrite Ev in E1. by destruct (Hold _ _ Hj).
    + eapply Hold; [exact Hk|congruence].
  - intros u. destruct (decide (u = w.(Workload.id))) as [->|Hne].
    + exists 1%N. intros g. split.
      * intros (j & x & Hj & Hx & <-). split_insert; [lia|]. by destruct (Hold _ _ Hj).
      * intros Hg. exists v.(WorkloadRevision.id). apply has_insert. split; [done|lia].
    + destruct (C12 u) as [n Hn']. exists n. intros g. rewrite <- Hn'. split.
      * intros (j & x & Hj & Hx & Hx'). split_insert; [congruence|]. by exists j, x.
      * intros [j Hj]. exists j. by apply has_new.
Qed.

Lemma change_records s s' : consistent s -> same_records s s' -> consistent s'.
Proof.
  intros Hs (E1 & E2 & E3 & E4 & E5 & E6 & E7 & E8 & E9). destruct s, s'; cbn in *; subst. by destruct Hs.
Qed.

Lemma change_consistent s s' : consistent s -> change s s' -> consistent s'.
Proof.
  intros Hs [].
  - by eapply change_records.
  - by eapply change_workload.
  - by eapply change_control.
  - by eapply change_revision.
  - by apply change_new_revision.
  - by eapply change_replica.
  - by apply change_new_replica.
  - by eapply change_member.
  - by apply change_new_member.
  - by apply change_deployment.
  - by eapply change_binding.
  - by eapply change_member_binding.
  - by eapply change_new_deployment.
  - by apply change_new_workload.
Qed.

Lemma changes_consistent s s' : consistent s -> rtc change s s' -> consistent s'.
Proof. intros Hs. induction 1 as [|x y z Hxy _ IH]; [done|]. by apply IH, (change_consistent x). Qed.
End WorkloadProtocol.
