(* ===== verification/WorkloadCalls.v ===== *)
(** * Calls on workloads, revisions and deployments are changes of the protocol

    Each call of [WorkloadRepository], except the creation of a deployment and the reconfiguration of
    the replica set, is a sequence of changes of [WorkloadProtocol]; with what the methods of the
    aggregates and the loops of writes keep. *)

From Stdlib Require Import ZArith NArith Lia String.
From stdpp Require Import gmap relations.
From S2P Require Import Prelude RustStd BTreeMap External Text SharedKernel Repositories Workloads ServiceTemplates.
From S2P Require Import WorkloadRevisions Deployments Replicas WorkloadControls PlacementGroups WorkloadOperations.
From S2P Require Import WorkloadEvents RuntimeBindings ReplicaSets ReplicaMaterialization WorkloadRepository.
From S2P Require Import WorkloadReplicaRepository WorkloadProtocol.
Import WorkloadState InMemoryWorkloadRepository WorkloadReplicaRepository WorkloadProtocol.

(** ** What the methods of the aggregates keep *)
Lemma on_copy_Ok {S} (f : method S unit) (x y : S) : on_copy f x = Ok y <-> f x = (y, Ok tt).
Proof. unfold on_copy. destruct (f x) as [y' [[]|]]; naive_solver. Qed.

Lemma on_copy_run {S} (f : method S unit) (x y : S) : on_copy f x = Ok y -> y = run_state f x.
Proof. rewrite on_copy_Ok. unfold run_state. by intros ->. Qed.

Lemma on_clone_Ok {S A} (f : method S A) (x : S) y : on_clone f x = Ok y <-> f x = (y.1, Ok y.2).
Proof. unfold on_clone. destruct y, (f x) as [y' []]; naive_solver. Qed.

Lemma workload_kept o w w' x : WorkloadLifecycle.step o w = (w', x) -> same_workload w w'.
Proof.
  intros E. destruct o; cbn in E; unfold Workload.activate, Workload.request_stop, Workload.complete_stop in E;
    run_method E; by simplify_eq/=.
Qed.

Lemma replica_kept o r r' : ReplicaLifecycle.step o r = (r', Ok tt) -> same_replica r r'.
Proof.
  intros E. ReplicaLifecycle.run_step E o; simplify_eq/=;
    repeat match goal with H : checked_add _ _ = Some _ |- _ => apply checked_add_Some in H as [-> ?] end;
    unfold same_replica; cbn; split_and!; try done; lia.
Qed.

(** Only [advance] and [reactivate] change the revision of a replica. *)
Definition brings_revision (o : ReplicaLifecycle.op) : option WorkloadRevision.t :=
  match o with
  | ReplicaLifecycle.Advance v _ | ReplicaLifecycle.Reactivate v _ => Some v
  | _ => None
  end.

Lemma replica_revision o r r' :
  ReplicaLifecycle.step o r = (r', Ok tt) ->
  match brings_revision o with
  | None => r'.(WorkloadReplica.revision_id) = r.(WorkloadReplica.revision_id)
            /\ r'.(WorkloadReplica.revision_generation) = r.(WorkloadReplica.revision_generation)
  | Some v => v.(WorkloadRevision.workload_id) = r.(WorkloadReplica.workload_id)
              /\ r'.(WorkloadReplica.revision_id) = v.(WorkloadRevision.id)
              /\ r'.(WorkloadReplica.revision_generation) = v.(WorkloadRevision.generation)
              /\ (r.(WorkloadReplica.generation) < r'.(WorkloadReplica.generation))%N
  end.
Proof.
  intros E. ReplicaLifecycle.run_step E o; simplify_eq/=;
    repeat match goal with H : checked_add _ _ = Some _ |- _ => apply checked_add_Some in H as [-> ?] end;
    reflect_bools; destruct_and?; split_and!; try done; lia.
Qed.

Lemma member_kept o m m' : MemberLifecycle.step o m = (m', Ok tt) -> same_member m m'.
Proof.
  intros E. destruct o; cbn in E; unfold WorkloadReplicaMember.place, WorkloadReplicaMember.release_after_fencing,
    WorkloadReplicaMember.bump_placement, WorkloadReplicaMember.bump_version in E; run_method E; by simplify_eq/=.
Qed.

Lemma assign_kept d m b b' :
  DeploymentReplicaBinding.assign d m b = (b', Ok tt) ->
  same_binding b b' /\ b'.(DeploymentReplicaBinding.member_id) = b.(DeploymentReplicaBinding.member_id).
Proof. intros E. unfold DeploymentReplicaBinding.assign in E. run_method E; by simplify_eq/=. Qed.

Lemma assign_group_kept d m p b b' :
  GroupMemberBinding.assign_placement_group_member d m p b = (b', Ok tt) ->
  same_binding b b' /\ b'.(DeploymentReplicaBinding.member_id) = b.(DeploymentReplicaBinding.member_id).
Proof. intros E. unfold GroupMemberBinding.assign_placement_group_member in E. run_method E; by simplify_eq/=. Qed.

Lemma authorize_kept `{External} spec t c c' x :
  WorkloadControl.authorize_deployment spec t c = (c', x) -> same_control c c'.
Proof. intros E. unfold WorkloadControl.authorize_deployment in E. run_method E; by simplify_eq/=. Qed.

Lemma reconfigure_kept `{External} g n o t c c' x :
  WorkloadControl.reconfigure_replica_set g n o t c = (c', x) -> same_control c c'.
Proof. intros E. unfold WorkloadControl.reconfigure_replica_set in E. run_method E; by simplify_eq/=. Qed.

Lemma resolve_kept `{External} artifact t v v' x : WorkloadRevision.resolve artifact t v = (v', x) -> same_revision v v'.
Proof. intros E. unfold WorkloadRevision.resolve in E. run_method E; by simplify_eq/=. Qed.

(** ** Loops of writes *)
Definition put_all {A} (key : A -> N) (l : list A) (m : gmap N A) : gmap N A :=
  fold_left (fun m x => <[key x := x]> m) l m.

Section loops.
Implicit Types (s : WorkloadState.t).

Lemma each_put_replica l s :
  each put_replica l s = (s <| replicas := put_all WorkloadReplica.id l s.(replicas) |>, Ok tt).
Proof.
  revert s. induction l as [|x l IH]; intros s; [by destruct s|].
  exact (IH (s <| replicas := <[x.(WorkloadReplica.id) := x]> s.(replicas) |>)).
Qed.

Lemma each_put_member l s :
  each put_member l s = (s <| replica_members := put_all WorkloadReplicaMember.id l s.(replica_members) |>, Ok tt).
Proof.
  revert s. induction l as [|x l IH]; intros s; [by destruct s|].
  exact (IH (s <| replica_members := <[x.(WorkloadReplicaMember.id) := x]> s.(replica_members) |>)).
Qed.

Definition put_member_bindings (i : DeploymentId) (l : list DeploymentReplicaBinding.t)
    (m : gmap (DeploymentId * WorkloadReplicaMemberId) DeploymentReplicaBinding.t) :=
  fold_left (fun m b => <[(i, b.(DeploymentReplicaBinding.member_id)) := b]> m) l m.

Lemma each_put_member_binding i l s :
  each (put_member_binding i) l s =
  (s <| deployment_replica_member_bindings := put_member_bindings i l s.(deployment_replica_member_bindings) |>, Ok tt).
Proof.
  revert s. induction l as [|x l IH]; intros s; [by destruct s|].
  exact (IH (s <| deployment_replica_member_bindings :=
    <[(i, x.(DeploymentReplicaBinding.member_id)) := x]> s.(deployment_replica_member_bindings) |>)).
Qed.

Lemma each_put_placed i l s :
  each (fun mb : WorkloadReplicaMember.t * DeploymentReplicaBinding.t =>
          put_member mb.1 ;; put_member_binding i mb.2) l s =
  (s <| replica_members := put_all WorkloadReplicaMember.id l.*1 s.(replica_members) |>
     <| deployment_replica_member_bindings := put_member_bindings i l.*2 s.(deployment_replica_member_bindings) |>, Ok tt).
Proof.
  revert s. induction l as [|x l IH]; intros s; [by destruct s|].
  exact (IH (s <| replica_members := <[x.1.(WorkloadReplicaMember.id) := x.1]> s.(replica_members) |>
               <| deployment_replica_member_bindings :=
                 <[(i, x.2.(DeploymentReplicaBinding.member_id)) := x.2]> s.(deployment_replica_member_bindings) |>)).
Qed.

(** Only the keys that are not written keep what was there. *)
Lemma put_all_ext {A} (key : A -> N) l (m m' : gmap N A) :
  (forall k, k ∉ map key l -> m !! k = m' !! k) -> put_all key l m = put_all key l m'.
Proof.
  revert m m'. induction l as [|x l IH]; intros m m' Hm; cbn.
  { apply map_eq. intros k. apply Hm, not_elem_of_nil. }
  apply IH. intros k Hk. destruct (decide (key x = k)) as [<-|Hne]; [by rewrite !lookup_insert_eq|].
  rewrite !lookup_insert_ne by done. apply Hm. cbn. rewrite not_elem_of_cons. auto.
Qed.

Lemma put_all_other {A} (key : A -> N) l (m : gmap N A) k : k ∉ map key l -> put_all key l m !! k = m !! k.
Proof.
  revert m. induction l as [|x l IH]; intros m; cbn; [done|]. rewrite not_elem_of_cons. intros [Hx Hk].
  etrans; [by apply IH|]. by rewrite lookup_insert_ne.
Qed.

(** A loop that writes the keys of an earlier one again hides it. *)
Lemma put_all_absorb {A} (key : A -> N) l l' (m : gmap N A) :
  (forall x, x ∈ l' -> key x ∈ map key l) -> put_all key l (put_all key l' m) = put_all key l m.
Proof.
  intros Hl. apply put_all_ext. intros k Hk. apply put_all_other. intros Hin.
  apply (list_elem_of_fmap_1 key) in Hin as (x & -> & Hx). by apply Hk, Hl.
Qed.

(** Replicas that are stored move on; records written twice agree. *)
Lemma changes_put_replicas s l :
  (forall r, r ∈ l -> runs s r /\ has s.(replicas) r.(WorkloadReplica.id) (fun r0 => same_replica r0 r)) ->
  (forall r r', r ∈ l -> r' ∈ l -> r.(WorkloadReplica.id) = r'.(WorkloadReplica.id) -> same_replica r r') ->
  rtc change s (s <| replicas := put_all WorkloadReplica.id l s.(replicas) |>).
Proof.
  revert s. induction l as [|x l IH]; intros s Hl Hp; [apply rtc_once, ch_records; by repeat split|].
  trans (s <| replicas := <[x.(WorkloadReplica.id) := x]> s.(replicas) |>).
  - apply rtc_once. destruct (Hl x) as [Hr (r0 & Hr0 & Hsame)]; [by left|].
    eapply ch_replica; [exact Hr0|exact Hsame|by right].
  - refine (IH (s <| replicas := <[x.(WorkloadReplica.id) := x]> s.(replicas) |>) _ _).
    + intros r Hr. destruct (Hl r) as [Hruns Hcase]; [by right|]. split; [exact Hruns|]. cbn.
      destruct (decide (x.(WorkloadReplica.id) = r.(WorkloadReplica.id))) as [E|].
      * rewrite E. apply has_insert. apply Hp; [by left|by right|done].
      * destruct Hcase as (r0 & Hr0 & Hsame). exists r0. by rewrite lookup_insert_ne.
    + intros r r' Hr Hr'. apply Hp; by right.
Qed.

(** Whether the replica and its member are both new or both stored. *)
Definition placeable s (r : WorkloadReplica.t) (m : WorkloadReplicaMember.t) : Prop :=
  s.(replicas) !! r.(WorkloadReplica.id) = None /\ s.(replica_members) !! r.(WorkloadReplica.id) = None
  \/ has s.(replicas) r.(WorkloadReplica.id) (fun r0 => same_replica r0 r)
     /\ has s.(replica_members) r.(WorkloadReplica.id) (fun m0 => same_member m0 m).

(** New replicas come with their canonical members. *)
Lemma changes_new_replicas s rs ms :
  Forall2 (fun r m => canonical_member r m /\ runs s r
             /\ owned s r.(WorkloadReplica.organization_id) r.(WorkloadReplica.workload_id) /\ placeable s r m) rs ms ->
  (forall r r', r ∈ rs -> r' ∈ rs -> r.(WorkloadReplica.id) = r'.(WorkloadReplica.id) -> same_replica r r') ->
  rtc change s (s <| replica_members := put_all WorkloadReplicaMember.id ms s.(replica_members) |>
                  <| replicas := put_all WorkloadReplica.id rs s.(replicas) |>).
Proof.
  revert s ms. induction rs as [|r rs IH]; intros s ms Hl Hp.
  { apply Forall2_nil_inv_l in Hl as ->. apply rtc_once, ch_records. by repeat split. }
  apply Forall2_cons_inv_l in Hl as (m & ms' & (Hm & Hr & Ho & Hcase) & Hl & ->).
  pose proof Hm as (Em & Emr & Emw).
  trans (s <| replica_members := <[m.(WorkloadReplicaMember.id) := m]> s.(replica_members) |>
           <| replicas := <[r.(WorkloadReplica.id) := r]> s.(replicas) |>).
  - rewrite Em. destruct Hcase as [[Hn Hnm]|[(r0 & Hr0 & Hsame) (m0 & Hm0 & Hsm)]].
    { by apply rtc_once, ch_new_replica. }
    eapply rtc_l; [eapply ch_member; [exact Hm0|exact Hsm]|].
    eapply rtc_l; [eapply ch_replica; [cbn; exact Hr0|exact Hsame|right; exact Hr]|].
    apply rtc_once, ch_records. by repeat split.
  - refine (IH (s <| replica_members := <[m.(WorkloadReplicaMember.id) := m]> s.(replica_members) |>
           <| replicas := <[r.(WorkloadReplica.id) := r]> s.(replicas) |>) _ _ _); [|intros x y Hx Hy; apply Hp; by right].
    apply Forall2_same_length_lookup. split; [by eapply Forall2_length|]. intros j r' m' Hj Hj'.
    destruct (Forall2_lookup_lr _ _ _ _ _ _ Hl Hj Hj') as (Hm' & Hr' & Ho' & Hcase').
    split_and!; [exact Hm'|exact Hr'|exact Ho'|]. unfold placeable. cbn. rewrite Em.
    destruct (decide (r.(WorkloadReplica.id) = r'.(WorkloadReplica.id))) as [E|].
    + right. assert (same_replica r r') as Hsame by (apply Hp; [by left|right; by eapply list_elem_of_lookup_2|done]).
      rewrite E. split; apply has_insert; [done|]. pose proof Hm' as (? & ? & ?). destruct Hsame as (_ & _ & ? & _).
      unfold same_member. split_and!; congruence.
    + unfold has. by rewrite !lookup_insert_ne.
Qed.

Lemma changes_new_members s l :
  (forall m, m ∈ l -> s.(replica_members) !! m.(WorkloadReplicaMember.id) = None /\ belongs s m) ->
  (forall m m', m ∈ l -> m' ∈ l -> m.(WorkloadReplicaMember.id) = m'.(WorkloadReplicaMember.id) -> same_member m m') ->
  rtc change s (s <| replica_members := put_all WorkloadReplicaMember.id l s.(replica_members) |>).
Proof.
  intros Hl Hp.
  cut (forall s, (forall m, m ∈ l -> s.(replica_members) !! m.(WorkloadReplicaMember.id) = None /\ belongs s m
                   \/ has s.(replica_members) m.(WorkloadReplicaMember.id) (fun m0 => same_member m0 m)) ->
         rtc change s (s <| replica_members := put_all WorkloadReplicaMember.id l s.(replica_members) |>)); [by auto|].
  clear s Hl. induction l as [|x l IH]; intros s Hl; [apply rtc_once, ch_records; by repeat split|].
  trans (s <| replica_members := <[x.(WorkloadReplicaMember.id) := x]> s.(replica_members) |>).
  - apply rtc_once. destruct (Hl x) as [[Hn Hof]|(m0 & Hm0 & Hsame)]; [by left|by apply ch_new_member|by eapply ch_member].
  - refine (IH _ (s <| replica_members := <[x.(WorkloadReplicaMember.id) := x]> s.(replica_members) |>) _).
    { intros m m' Hm Hm'. apply Hp; by right. }
    intros m Hm. cbn. destruct (decide (x.(WorkloadReplicaMember.id) = m.(WorkloadReplicaMember.id))) as [E|].
    + right. rewrite E. apply has_insert. apply Hp; [by left|by right|done].
    + rewrite lookup_insert_ne by done. destruct (Hl m) as [Hn|(m0 & Hm0 & Hsame)]; [by right|by left|right].
      exists m0. by rewrite lookup_insert_ne.
Qed.

Lemma same_member_trans m m1 m2 : same_member m m1 -> same_member m m2 -> same_member m1 m2.
Proof. unfold same_member. intuition congruence. Qed.

Lemma changes_members s l :
  (forall m, m ∈ l -> has s.(replica_members) m.(WorkloadReplicaMember.id) (fun m0 => same_member m0 m)) ->
  rtc change s (s <| replica_members := put_all WorkloadReplicaMember.id l s.(replica_members) |>).
Proof.
  revert s. induction l as [|x l IH]; intros s Hl; [apply rtc_once, ch_records; by repeat split|].
  destruct (Hl x) as (m0 & Hm0 & Hsame); [by left|].
  eapply rtc_l; [by eapply ch_member|].
  refine (IH (s <| replica_members := <[x.(WorkloadReplicaMember.id) := x]> s.(replica_members) |>) _).
  intros m Hm. destruct (Hl m) as (m1 & Hm1 & ?); [by right|]. cbn.
  destruct (decide (x.(WorkloadReplicaMember.id) = m.(WorkloadReplicaMember.id))) as [E|].
  - rewrite E. apply has_insert. apply (same_member_trans m0); [done|]. congruence.
  - exists m1. by rewrite lookup_insert_ne.
Qed.

Lemma changes_member_bindings s i l :
  (forall b, b ∈ l -> has s.(deployment_replica_bindings) i (fun b0 => same_binding b0 b)
     /\ member_of s b.(DeploymentReplicaBinding.replica_id) b.(DeploymentReplicaBinding.member_id)) ->
  rtc change s (s <| deployment_replica_member_bindings :=
    put_member_bindings i l s.(deployment_replica_member_bindings) |>).
Proof.
  revert s. induction l as [|x l IH]; intros s Hl; [apply rtc_once, ch_records; by repeat split|].
  destruct (Hl x) as [(b0 & Hb0 & Hsame) Hof]; [by left|].
  eapply rtc_l; [by eapply (ch_member_binding s i b0 x)|].
  refine (IH (s <| deployment_replica_member_bindings :=
     <[(i, x.(DeploymentReplicaBinding.member_id)) := x]> s.(deployment_replica_member_bindings) |>) _).
  intros b Hb. apply Hl. by right.
Qed.
End loops.

(** ** Statements of the calls *)
Lemma bind_Ok {S A B} (m : method S A) (f : A -> method S B) s s' a : m s = (s', Ok a) -> (m ≫= f) s = f a s'.
Proof. unfold mbind, method_bind. by intros ->. Qed.

Section statements.
Context {A : Type}.
Implicit Types (s : WorkloadState.t) (f : unit -> method WorkloadState.t A).

Lemma bind_put_workload i x f s : (put_workload i x ≫= f) s = f tt (s <| workloads := <[i := x]> s.(workloads) |>).
Proof. reflexivity. Qed.
Lemma bind_put_deployment i x f s :
  (put_deployment i x ≫= f) s = f tt (s <| deployments := <[i := x]> s.(deployments) |>).
Proof. reflexivity. Qed.
Lemma bind_put_control i x f s : (put_control i x ≫= f) s = f tt (s <| controls := <[i := x]> s.(controls) |>).
Proof. reflexivity. Qed.
Lemma bind_put_replica x f s :
  (put_replica x ≫= f) s = f tt (s <| replicas := <[x.(WorkloadReplica.id) := x]> s.(replicas) |>).
Proof. reflexivity. Qed.
Lemma bind_put_member x f s :
  (put_member x ≫= f) s = f tt (s <| replica_members := <[x.(WorkloadReplicaMember.id) := x]> s.(replica_members) |>).
Proof. reflexivity. Qed.
Lemma bind_put_binding i x f s :
  (put_binding i x ≫= f) s =
  f tt (s <| deployment_replica_bindings := <[i := x]> s.(deployment_replica_bindings) |>).
Proof. reflexivity. Qed.
Lemma bind_put_member_binding i x f s :
  (put_member_binding i x ≫= f) s =
  f tt (s <| deployment_replica_member_bindings :=
    <[(i, x.(DeploymentReplicaBinding.member_id)) := x]> s.(deployment_replica_member_bindings) |>).
Proof. reflexivity. Qed.
Lemma bind_push_event x f s : (push_event x ≫= f) s = f tt (s <| outbox := s.(outbox) ++ [x] |>).
Proof. reflexivity. Qed.
Lemma bind_each_put_replica l f s :
  (each put_replica l ≫= f) s = f tt (s <| replicas := put_all WorkloadReplica.id l s.(replicas) |>).
Proof. apply bind_Ok, each_put_replica. Qed.
Lemma bind_each_put_member l f s :
  (each put_member l ≫= f) s =
  f tt (s <| replica_members := put_all WorkloadReplicaMember.id l s.(replica_members) |>).
Proof. apply bind_Ok, each_put_member. Qed.
Lemma bind_each_put_member_binding i l f s :
  (each (put_member_binding i) l ≫= f) s =
  f tt (s <| deployment_replica_member_bindings := put_member_bindings i l s.(deployment_replica_member_bindings) |>).
Proof. apply bind_Ok, each_put_member_binding. Qed.
Lemma bind_each_put_placed i l f s :
  (each (fun mb : WorkloadReplicaMember.t * DeploymentReplicaBinding.t =>
           put_member mb.1 ;; put_member_binding i mb.2) l ≫= f) s =
  f tt (s <| replica_members := put_all WorkloadReplicaMember.id l.*1 s.(replica_members) |>
          <| deployment_replica_member_bindings :=
            put_member_bindings i l.*2 s.(deployment_replica_member_bindings) |>).
Proof. apply bind_Ok, each_put_placed. Qed.
End statements.

#[export] Hint Rewrite @bind_put_workload @bind_put_deployment @bind_put_control @bind_put_replica @bind_put_member
  @bind_put_binding @bind_put_member_binding @bind_push_event @bind_each_put_replica @bind_each_put_member
  @bind_each_put_member_binding @bind_each_put_placed : methods.

(** The paths of a call that write nothing are done. *)
Ltac paths E :=
  exec_call E; apply pair_equal_spec in E as [<- _]; try apply rtc_refl;
  repeat match goal with
  | H : some_or _ _ = Ok _ |- _ => apply some_or_Ok in H
  | H : map_err _ _ = Ok _ |- _ => apply map_err_Ok in H
  end.
(** The last change: answers and events. *)
Ltac finish := apply rtc_once, ch_records; by repeat split.

(** ** Calls that change one record *)
Section single.
Context `{External} `{ReleaseContract}.
Implicit Types (s : WorkloadState.t).

Lemma mutate_changes i v o s s' x : mutate i v (DeploymentLifecycle.step o) s = (s', x) -> rtc change s s'.
Proof.
  intros E. unfold mutate in E. autorewrite with methods in E.
  destruct (some_or _ _) as [d|] eqn:Hd; [|by injection E as <- _]. apply some_or_Ok in Hd.
  destruct (DeploymentLifecycle.step o d) as [d' y] eqn:Ed. paths E.
  all: assert (d' = run_state (DeploymentLifecycle.step o) d) as -> by (unfold run_state; by rewrite Ed).
  all: apply rtc_once, ch_deployment; done.
Qed.

Lemma mutate_desired_changes i v o s s' x :
  mutate_desired i v (DeploymentLifecycle.step o) s = (s', x) -> rtc change s s'.
Proof.
  intros E. unfold mutate_desired in E. paths E.
  match goal with H : on_copy _ _ = Ok _ |- _ => apply on_copy_run in H as -> end. apply rtc_once, ch_deployment; done.
Qed.

Lemma request_deployment_cancellation_changes request s s' x :
  request_deployment_cancellation request s = (s', x) -> consistent s -> rtc change s s'.
Proof.
  intros E Hs. unfold request_deployment_cancellation in E. destruct request as [d v idem event]. paths E.
  match goal with H : validate_cancellation_bundle _ ?c = Ok _, Hcur : _ !! _ = Some ?c |- _ =>
    rename H into Hv, Hcur into Hc, c into cur end.
  unfold validate_cancellation_bundle in Hv. rewrite result_bind_Ok in Hv. destruct Hv as (t & _ & Hv).
  rewrite result_bind_Ok in Hv. destruct Hv as (d' & Hd' & Hv). apply map_err_Ok, on_copy_run in Hd'.
  destruct (_ || _) eqn:Eb in Hv; [done|]. reflect_bools. destruct_and?. subst.
  eapply rtc_l; [apply (ch_deployment s _ cur (DeploymentLifecycle.RequestCancellation t) Hc)|]. finish.
Qed.

Lemma state_workload_Ok s organization_id i w :
  state_workload s organization_id i = Ok w <->
  s.(workloads) !! i = Some w /\ w.(Workload.organization_id) = organization_id.
Proof.
  unfold state_workload. destruct (s.(workloads) !! i) as [w'|]; [|naive_solver]. case_bool_decide; naive_solver.
Qed.

Lemma workload_moved o w w' : on_copy (WorkloadLifecycle.step o) w = Ok w' -> same_workload w w'.
Proof. intros Hw%on_copy_Ok. by eapply workload_kept. Qed.

Lemma request_workload_stop_changes request s s' x :
  request_workload_stop request s = (s', x) -> rtc change s s'.
Proof.
  intros E. unfold request_workload_stop in E. destruct request as [w v o idem event]. paths E.
  match goal with H : state_workload _ _ _ = Ok ?c |- _ => apply state_workload_Ok in H as [Hc _] end.
  match goal with H : on_copy _ _ = Ok _ |- _ => apply (workload_moved (WorkloadLifecycle.RequestStop _)) in H end.
  reflect_bools. destruct_and?. subst. eapply rtc_l; [by eapply ch_workload|]. finish.
Qed.

Lemma complete_workload_stop_changes organization_id i v t s s' x :
  complete_workload_stop organization_id i v t s = (s', x) -> rtc change s s'.
Proof.
  intros E. unfold complete_workload_stop in E. paths E.
  match goal with H : state_workload _ _ _ = Ok ?c |- _ => apply state_workload_Ok in H as [Hc _] end.
  match goal with H : on_copy _ _ = Ok _ |- _ => apply (workload_moved (WorkloadLifecycle.CompleteStop _)) in H end.
  apply rtc_once. by eapply ch_workload.
Qed.

Lemma bind_deployment_runtime_execution_changes b s s' x :
  bind_deployment_runtime_execution b s = (s', x) -> rtc change s s'.
Proof. intros E. unfold bind_deployment_runtime_execution in E. paths E. finish. Qed.

Lemma resolve_revision_changes organization_id i artifact t s s' x :
  resolve_revision organization_id i artifact t s = (s', x) -> rtc change s s'.
Proof.
  intros E. unfold resolve_revision in E. autorewrite with methods in E.
  destruct (some_or _ _) as [v|] eqn:Hv; [|by injection E as <- _]. apply some_or_Ok in Hv.
  autorewrite with methods in E. destruct (state_workload _ _ _); [|by injection E as <- _].
  destruct (WorkloadRevision.resolve artifact t v) as [v' y] eqn:Ev. apply resolve_kept in Ev. paths E.
  all: apply rtc_once; by eapply ch_revision.
Qed.

Lemma fail_changes event_id i v reason t s s' x : fail event_id i v reason t s = (s', x) -> rtc change s s'.
Proof.
  intros E. unfold fail in E. paths E.
  all: match goal with H : on_copy _ _ = Ok _ |- _ => apply on_copy_run in H as -> end.
  all: eapply rtc_l; [eapply (ch_deployment s _ _ (DeploymentLifecycle.Fail reason t)); eassumption|]; finish.
Qed.

Lemma activate_changes event_id i v required t s s' x :
  activate event_id i v required t s = (s', x) -> rtc change s s'.
Proof.
  intros E. unfold activate in E. paths E.
  all: repeat match goal with
       | H : on_copy (Deployment.activate _ _) _ = Ok _ |- _ => apply on_copy_run in H as ->
       | H : on_copy (Workload.activate _ _) _ = Ok _ |- _ => apply (workload_moved (WorkloadLifecycle.Activate _ _)) in H
       end.
  all: eapply rtc_l; [eapply (ch_deployment s _ _ (DeploymentLifecycle.Activate required _)); eassumption|].
  all: eapply rtc_l; [by eapply ch_workload|]; finish.
Qed.

Lemma member_moved o m m' : on_copy (MemberLifecycle.step o) m = Ok m' -> same_member m m'.
Proof. intros Hm%on_copy_Ok. by eapply member_kept. Qed.

Lemma assign_node_changes i v node t s s' x :
  assign_node i v node t s = (s', x) -> consistent s -> rtc change s s'.
Proof.
  intros E Hs. unfold assign_node in E. paths E.
  repeat match goal with
  | H : on_copy (Deployment.schedule _ _) _ = Ok _ |- _ => apply on_copy_run in H as ->
  | H : on_copy (WorkloadReplicaMember.place _ _) _ = Ok _ |- _ => apply (member_moved (MemberLifecycle.Place _ _)) in H
  | H : on_copy (DeploymentReplicaBinding.assign _ _) _ = Ok _ |- _ => apply on_copy_Ok, assign_kept in H as [? Hmember]
  end.
  match goal with
  | Hb : deployment_replica_bindings s !! i = Some ?b, Hm : replica_members s !! _ = Some ?m, Hsame : same_member ?m ?m' |- _ =>
    assert (m'.(WorkloadReplicaMember.id) = b.(DeploymentReplicaBinding.member_id)) as Hid
      by (apply (ok_member _ Hs) in Hm as [Hm _]; unfold same_member in Hsame; intuition congruence);
    destruct (ok_binding _ Hs _ _ Hb) as (_ & _ & Hof)
  end.
  rewrite Hid. eapply rtc_l; [eapply (ch_deployment s _ _ (DeploymentLifecycle.Schedule node t)); eassumption|].
  eapply rtc_l; [eapply ch_member; [|eassumption]; cbn; eassumption|].
  match goal with
  | Hb : deployment_replica_bindings s !! i = Some ?b, Hsame : same_member _ ?m', Hm : DeploymentReplicaBinding.member_id ?b' = _ |- _ =>
    assert (has (<[b.(DeploymentReplicaBinding.member_id) := m']> s.(replica_members)) b'.(DeploymentReplicaBinding.member_id)
      (fun m => m.(WorkloadReplicaMember.replica_id) = b'.(DeploymentReplicaBinding.replica_id))) as Hof'
  end.
  { rewrite Hmember. eapply has_update; [eassumption| |].
    - unfold same_member, same_binding in *. intuition congruence.
    - eapply has_impl; [|exact Hof]. unfold same_binding in *. intuition congruence. }
  eapply rtc_l; [eapply ch_binding; [cbn; eassumption|eassumption|exact Hof']|].
  eapply rtc_l; [eapply ch_member_binding; [cbn; apply lookup_insert_eq|by repeat split|exact Hof']|]. finish.
Qed.
End single.
