(* ===== verification/WorkloadReplicaCalls.v ===== *)
(** * Calls on replicas and placement groups are changes of the protocol

    Each call of [WorkloadReplicaRepository] is a sequence of changes of [WorkloadProtocol]. *)

From Stdlib Require Import ZArith NArith Lia String.
From stdpp Require Import gmap relations.
From S2P Require Import Prelude RustStd BTreeMap External Text SharedKernel Repositories Workloads ServiceTemplates.
From S2P Require Import WorkloadRevisions Deployments Replicas WorkloadControls PlacementGroups WorkloadOperations.
From S2P Require Import WorkloadEvents RuntimeBindings ReplicaSets ReplicaMaterialization WorkloadRepository.
From S2P Require Import WorkloadReplicaRepository WorkloadProtocol WorkloadCalls.
Import WorkloadState InMemoryWorkloadRepository WorkloadReplicaRepository WorkloadProtocol.

Section replicas.
Context `{External} `{ReleaseContract}.
Implicit Types (s : WorkloadState.t).

(** ** Single replicas and members *)
Lemma put_replica_change o i r r' s :
  consistent s -> s.(replicas) !! i = Some r -> on_copy (ReplicaLifecycle.step o) r = Ok r' -> brings_revision o = None ->
  change s (s <| replicas := <[r'.(WorkloadReplica.id) := r']> s.(replicas) |>).
Proof.
  intros Hs Hi Hr%on_copy_Ok Ho. pose proof (replica_kept _ _ _ Hr) as Hk. pose proof (replica_revision _ _ _ Hr) as Hv.
  rewrite Ho in Hv. destruct (ok_replica _ Hs _ _ Hi) as [Hid _].
  eapply ch_replica; [|exact Hk|by left]. destruct Hk as [-> _]. by rewrite Hid.
Qed.

Lemma put_member_change o i m m' s :
  consistent s -> s.(replica_members) !! i = Some m -> on_copy (MemberLifecycle.step o) m = Ok m' ->
  change s (s <| replica_members := <[m'.(WorkloadReplicaMember.id) := m']> s.(replica_members) |>).
Proof.
  intros Hs Hi Hm%member_moved. pose proof (proj1 (ok_member _ Hs _ _ Hi)) as Hid.
  eapply ch_member; [|exact Hm]. destruct Hm as [-> _]. by rewrite Hid.
Qed.

Lemma stored_replica_Ok s o w i r :
  stored_replica s o w i = Ok r <-> s.(replicas) !! i = Some r /\ owned_by o w r = true.
Proof.
  unfold stored_replica. rewrite some_or_Ok. destruct (s.(replicas) !! i) as [r'|]; simpl; [|naive_solver].
  destruct (owned_by o w r') eqn:E; split; intros; destruct_and?; simplify_eq; split_and?; congruence.
Qed.

Lemma stored_member_Ok s i k e m :
  stored_member s i k e = Ok m <-> s.(replica_members) !! k = Some m /\ m.(WorkloadReplicaMember.replica_id) = i.
Proof.
  unfold stored_member. rewrite some_or_Ok. destruct (s.(replica_members) !! k) as [m'|]; simpl; [|naive_solver].
  case_bool_decide; naive_solver.
Qed.

Ltac stored :=
  repeat match goal with
  | H : stored_replica _ _ _ _ = Ok _ |- _ => apply stored_replica_Ok in H as [H ?]
  | H : stored_member _ _ _ _ = Ok _ |- _ => apply stored_member_Ok in H as [H ?]
  end.

Lemma request_replica_evacuation_changes event_id request s s' x :
  request_replica_evacuation event_id request s = (s', x) -> consistent s -> rtc change s s'.
Proof.
  intros E Hs. unfold request_replica_evacuation in E. destruct request as [[] t corr]. paths E. stored.
  eapply rtc_l; [eapply (put_replica_change (ReplicaLifecycle.RequestEvacuation _ _ _)); eauto|]. finish.
Qed.

Lemma dispatch_replica_retirement_changes dispatch s s' x :
  dispatch_replica_retirement dispatch s = (s', x) -> consistent s -> rtc change s s'.
Proof.
  intros E Hs. unfold dispatch_replica_retirement in E. destruct dispatch. paths E. stored.
  eapply rtc_l; [eapply (put_replica_change (ReplicaLifecycle.DispatchRetirement _ _)); eauto|]. finish.
Qed.

Lemma record_replica_runtime_fenced_changes fence writer s s' x :
  record_replica_runtime_fenced fence writer s = (s', x) -> consistent s -> rtc change s s'.
Proof.
  intros E Hs. unfold record_replica_runtime_fenced in E. destruct fence. paths E. all: stored; try finish.
  all: eapply rtc_l; [eapply (put_replica_change (ReplicaLifecycle.RecordRuntimeFenced _ _)); eauto|]; finish.
Qed.

(** What a completed retirement writes: a member that was placed leaves its node only with the Runtime
    of the generation fenced. *)
Lemma complete_replica_retirement_effect event_id completion s s' x :
  complete_replica_retirement event_id completion s = (s', x) ->
  s' = s \/ exists r m r' m' event o,
    is_ok x = true /\ s.(replicas) !! completion.(ReplicaRetirementCompletion.replica_id) = Some r
    /\ s.(replica_members) !! completion.(ReplicaRetirementCompletion.member_id) = Some m
    /\ m.(WorkloadReplicaMember.replica_id) = completion.(ReplicaRetirementCompletion.replica_id)
    /\ r.(WorkloadReplica.lifecycle) = WorkloadReplicaLifecycle.Retiring
    /\ (is_some m.(WorkloadReplicaMember.node_id) = true -> is_some r.(WorkloadReplica.runtime_fenced_at) = true)
    /\ (m' = m \/ exists node t, on_copy (WorkloadReplicaMember.release_after_fencing node t) m = Ok m')
    /\ on_copy (ReplicaLifecycle.step o) r = Ok r' /\ brings_revision o = None
    /\ s' = s <| replica_members := <[m'.(WorkloadReplicaMember.id) := m']> s.(replica_members) |>
               <| replicas := <[r'.(WorkloadReplica.id) := r']> s.(replicas) |>
               <| outbox := s.(outbox) ++ [event] |>.
Proof.
  intros E. unfold complete_replica_retirement in E. destruct completion as [? ? i ? ? k ? node t corr].
  exec_call E; apply pair_equal_spec in E as [<- Ex]; try (by left). right.
  repeat match goal with H : some_or _ _ = Ok _ |- _ => apply some_or_Ok in H end. stored. subst.
  match goal with H : match node with Some _ => _ | None => _ end = Ok _ |- _ => rename H into Hm end.
  match goal with H : (if is_some _ then _ else _) = Ok _ |- _ => rename H into Ho end.
  match goal with H : _ && is_none (WorkloadReplica.runtime_fenced_at _) = false |- _ => rename H into Hf end.
  match goal with H : _ || is_some_and _ _ = false |- _ => rename H into Hc end. reflect_bools.
  destruct Hc as [[[Hret _] Hnode] _]. reflect_bools.
  assert (Hfenced : is_some (WorkloadReplicaMember.node_id a0) = true -> is_some (WorkloadReplica.runtime_fenced_at a) = true).
  { rewrite Hnode. intros En. destruct Hf as [[? ?]|Hf]; [congruence|]. unfold is_none in Hf. by apply negb_false_iff in Hf. }
  assert (Hmoved : a4 = a0 \/ exists n t', on_copy (WorkloadReplicaMember.release_after_fencing n t') a0 = Ok a4).
  { destruct node as [n|]; [right|left; congruence]. apply map_err_Ok in Hm. eauto. }
  destruct (is_some (WorkloadReplica.evacuation_node_id a)).
  all: rewrite result_bind_Ok in Ho; destruct Ho as (r' & Hr & Ho); apply map_err_Ok in Hr.
  all: rewrite result_bind_Ok in Ho; destruct Ho as (ev & _ & Ho); simplify_eq/=.
  - exists a, a0, t0, a4, t1, (ReplicaLifecycle.CompleteEvacuation a4 t). split_and!; try done.
  - exists a, a0, t0, a4, t1, (ReplicaLifecycle.CompleteRetirement a4 t). split_and!; try done.
Qed.

Lemma complete_replica_retirement_changes event_id completion s s' x :
  complete_replica_retirement event_id completion s = (s', x) -> consistent s -> rtc change s s'.
Proof.
  intros [->|(r & m & r' & m' & ev & o & _ & Hr & Hm & _ & _ & _ & Hm' & Hr' & Ho & ->)]%complete_replica_retirement_effect Hs;
    [done|].
  assert (same_member m m') as Hsame.
  { destruct Hm' as [->|(node & t & Hm')]; [done|]. by apply (member_moved (MemberLifecycle.ReleaseAfterFencing node t)). }
  pose proof (proj1 (ok_member _ Hs _ _ Hm)) as Hid.
  eapply rtc_l; [eapply (put_replica_change o); eauto|].
  eapply rtc_l; [eapply (ch_member _ m'.(WorkloadReplicaMember.id)); [|exact Hsame]|finish].
  destruct Hsame as [-> _]. cbn. by rewrite Hid.
Qed.

(** ** Placement groups *)
Lemma place_group_Ok d t l placed :
  place_group d t l = Ok placed ->
  Forall2 (fun x y =>
    on_copy (WorkloadReplicaMember.place x.1.1.2.(PlacementGroupMemberPlacement.node_id) t) x.1.2 = Ok y.1
    /\ on_copy (GroupMemberBinding.assign_placement_group_member d y.1 x.1.1.1) x.2 = Ok y.2) l placed.
Proof.
  revert placed. induction l as [|[[[plan placement] m] b] l IH]; intros placed; cbn [place_group]; [by intros [= <-]|].
  destruct (_ || _); [done|]. rewrite result_bind_Ok. intros (m' & Hm%map_err_Ok & E).
  rewrite result_bind_Ok in E. destruct E as (b' & Hb%map_err_Ok & E).
  rewrite result_bind_Ok in E. destruct E as (rest & Hrest%IH & [= <-]). by constructor.
Qed.

Lemma release_group_Ok t l members :
  release_group t l = Ok members ->
  Forall2 (fun x m' => same_member x.2 m') l members.
Proof.
  revert members. induction l as [|[[plan b] m] l IH]; intros members; cbn [release_group]; [by intros [= <-]|].
  destruct (_ || _); [done|]. rewrite result_bind_Ok. intros (m' & Hm & E).
  rewrite result_bind_Ok in E. destruct E as (rest & Hrest%IH & [= <-]). constructor; [|done]. cbn.
  destruct (DeploymentReplicaBinding.node_id b) as [n|].
  - apply map_err_Ok in Hm. by apply (member_moved (MemberLifecycle.ReleaseAfterFencing n t)).
  - destruct (is_none _); by simplify_eq.
Qed.

Lemma mapM_result_Ok {A B} (f : A -> result B) l k : mapM f l = Ok k <-> Forall2 (fun x y => f x = Ok y) l k.
Proof.
  split.
  - revert k. induction l as [|x l IH]; intros k; [by intros [= <-]|]. cbn [mapM]. rewrite result_bind_Ok.
    intros (y & Hy & E). rewrite result_bind_Ok in E. destruct E as (k' & Hk%IH & [= <-]). by constructor.
  - induction 1 as [|x y l k Hxy _ IH]; [done|]. cbn [mapM]. by rewrite Hxy, IH.
Qed.

Lemma group_members_Ok s group members :
  group_members s group = Ok members ->
  Forall2 (fun p m => s.(replica_members) !! p.(WorkloadPlacementGroupMemberPlan.member_id) = Some m)
    group.(WorkloadPlacementGroup.members) members.
Proof. intros E%mapM_result_Ok. eapply Forall2_impl; [exact E|]. intros p m. cbn. by rewrite some_or_Ok. Qed.

Lemma group_bindings_Ok s i group bindings :
  group_bindings s i group = Ok bindings ->
  Forall2 (fun p b => s.(deployment_replica_member_bindings) !! (i, p.(WorkloadPlacementGroupMemberPlan.member_id)) = Some b)
    group.(WorkloadPlacementGroup.members) bindings.
Proof. intros E%mapM_result_Ok. eapply Forall2_impl; [exact E|]. intros p m. cbn. by rewrite some_or_Ok. Qed.

Lemma Forall2_elem_r {A B} (P : A -> B -> Prop) l k y : Forall2 P l k -> y ∈ k -> exists x, x ∈ l /\ P x y.
Proof.
  intros HP [j Hj]%list_elem_of_lookup. destruct (Forall2_lookup_r _ _ _ _ _ HP Hj) as (x & Hx & ?).
  exists x. split; [|done]. by eapply list_elem_of_lookup_2.
Qed.

(** A member taken from the map and changed. *)
Lemma stored_member_has s i m m' :
  consistent s -> s.(replica_members) !! i = Some m -> same_member m m' ->
  has s.(replica_members) m'.(WorkloadReplicaMember.id) (fun m0 => same_member m0 m').
Proof. intros Hs Hi Hm. exists m. split; [|done]. destruct Hm as [-> _]. by rewrite (proj1 (ok_member _ Hs _ _ Hi)). Qed.

Lemma same_binding_trans b1 b2 b3 : same_binding b1 b2 -> same_binding b2 b3 -> same_binding b1 b3.
Proof. unfold same_binding. intuition congruence. Qed.

Lemma group_deployment_Ok s o i d : group_deployment s o i = Ok d -> s.(deployments) !! i = Some d.
Proof.
  unfold group_deployment. rewrite some_or_Ok. destruct (s.(deployments) !! i) as [d'|]; simpl; [|done].
  case_bool_decide; naive_solver.
Qed.

Lemma cancel_placement_group_changes write s s' x :
  cancel_placement_group write s = (s', x) -> consistent s -> rtc change s s'.
Proof.
  intros E Hs. unfold cancel_placement_group in E. destruct write as [? ? ? ? ? t]. paths E.
  match goal with H : group_deployment _ _ _ = Ok _ |- _ => apply group_deployment_Ok in H; rename H into Hd end.
  match goal with H : release_group _ _ = Ok _ |- _ => apply release_group_Ok in H; rename H into Hrel end.
  match goal with H : group_members _ _ = Ok _ |- _ => apply group_members_Ok in H; rename H into Hmem end.
  match goal with H : on_copy _ _ = Ok _ |- _ => apply on_copy_run in H as -> end.
  pose proof (proj1 (ok_deployment _ Hs _ _ Hd)) as Hid.
  rewrite (proj1 (step_same_deployment (DeploymentLifecycle.Cancel t) _)), Hid.
  eapply rtc_l; [eapply (ch_deployment s _ _ (DeploymentLifecycle.Cancel t)); exact Hd|].
  etrans; [apply changes_members|finish].
  intros m' Hm'. destruct (Forall2_elem_r _ _ _ _ Hrel Hm') as ([[p b] m] & Hz%elem_of_zip_r & Hsame).
  destruct (Forall2_elem_r _ _ _ _ Hmem Hz) as (p' & _ & Hp'). exact (stored_member_has s _ _ _ Hs Hp' Hsame).
Qed.

(** A group that was scheduled: its deployment, its members and their bindings move together. *)
Lemma group_context_member b d v r m p :
  GroupMemberBinding.validate_against_placement_group_member b d v r m p = Ok tt ->
  m.(WorkloadReplicaMember.replica_id) = b.(DeploymentReplicaBinding.replica_id)
  /\ b.(DeploymentReplicaBinding.member_id) = m.(WorkloadReplicaMember.id).
Proof.
  unfold GroupMemberBinding.validate_against_placement_group_member, DeploymentReplicaBinding.validate_common,
    DeploymentReplicaBinding.validate_lineage. rewrite !then_Ok, !fail_if_Ok. intros (((_ & _ & Hl) & _) & _).
  reflect_bools. destruct_and?. by split.
Qed.

(** The members and bindings [place_group] started from are the stored ones. *)
Lemma placed_stored s i d t group placements members bindings placed :
  consistent s ->
  Forall2 (fun p m => s.(replica_members) !! p.(WorkloadPlacementGroupMemberPlan.member_id) = Some m)
    group.(WorkloadPlacementGroup.members) members ->
  Forall2 (fun p b => s.(deployment_replica_member_bindings) !! (i, p.(WorkloadPlacementGroupMemberPlan.member_id)) = Some b)
    group.(WorkloadPlacementGroup.members) bindings ->
  place_group d t (zip (zip (zip group.(WorkloadPlacementGroup.members) placements) members) bindings) = Ok placed ->
  (forall m', m' ∈ placed.*1 -> has s.(replica_members) m'.(WorkloadReplicaMember.id) (fun m0 => same_member m0 m'))
  /\ (forall b', b' ∈ placed.*2 -> has s.(deployment_replica_bindings) i (fun b0 => same_binding b0 b')
        /\ member_of s b'.(DeploymentReplicaBinding.replica_id) b'.(DeploymentReplicaBinding.member_id)).
Proof.
  intros Hs Hmem Hbind Hplaced%place_group_Ok. split.
  - intros m' Hm'. apply list_elem_of_fmap in Hm' as (y & -> & Hy).
    destruct (Forall2_elem_r _ _ _ _ Hplaced Hy) as ([[[p pl] m] b] & Hz%elem_of_zip_l%elem_of_zip_r & Hm & _).
    cbn [fst snd] in Hm. apply (member_moved (MemberLifecycle.Place _ _)) in Hm.
    destruct (Forall2_elem_r _ _ _ _ Hmem Hz) as (p' & _ & Hp'). by eapply stored_member_has.
  - intros b' Hb'. apply list_elem_of_fmap in Hb' as (y & -> & Hy).
    destruct (Forall2_elem_r _ _ _ _ Hplaced Hy) as ([[[p pl] m] b] & Hz%elem_of_zip_r & _ & Hb).
    apply on_copy_Ok, assign_group_kept in Hb as [Hb Hbm]. cbn [fst snd] in Hb, Hbm.
    destruct (Forall2_elem_r _ _ _ _ Hbind Hz) as (p' & _ & Hp'). apply (ok_member_binding _ Hs) in Hp' as (Ek & Hc & Hof).
    split.
    + eapply has_impl; [|exact Hc]. intros c Hcb. by apply (same_binding_trans _ b).
    + rewrite Hbm, Ek. by destruct Hb as (_ & _ & _ & _ & -> & _).
Qed.

(** The leader's member belongs to the replica of its binding. *)
Lemma placed_leader s i d d0 t workload policy v r group placements members bindings placed group_binding leader :
  consistent s ->
  Forall2 (fun p m => s.(replica_members) !! p.(WorkloadPlacementGroupMemberPlan.member_id) = Some m)
    group.(WorkloadPlacementGroup.members) members ->
  Forall2 (fun p b => s.(deployment_replica_member_bindings) !! (i, p.(WorkloadPlacementGroupMemberPlan.member_id)) = Some b)
    group.(WorkloadPlacementGroup.members) bindings ->
  validate_existing_group_materialization_context d0
    (PlacementGroupDeploymentContext.Mk workload policy v r group members) bindings group_binding = Ok tt ->
  place_group d t (zip (zip (zip group.(WorkloadPlacementGroup.members) placements) members) bindings) = Ok placed ->
  head (map snd placed) = Some leader ->
  member_of s leader.(DeploymentReplicaBinding.replica_id) leader.(DeploymentReplicaBinding.member_id).
Proof.
  intros Hs Hmem Hbind Hctx Hplaced%place_group_Ok Hl.
  destruct placed as [|[m' b'] placed]; [done|]. injection Hl as <-.
  destruct (group.(WorkloadPlacementGroup.members)) as [|p plans] eqn:Ep; [inv Hplaced|].
  inv Hmem. inv Hbind. destruct placements as [|pl placements]; [inv Hplaced|]. cbn in Hplaced.
  apply Forall2_cons in Hplaced as [[Hm Hb] _]. apply on_copy_Ok, assign_group_kept in Hb as [Hb Hbm].
  cbn [fst snd] in *. unfold validate_existing_group_materialization_context in Hctx.
  rewrite !then_Ok, for_each_Ok, Ep in Hctx. destruct Hctx as (_ & _ & _ & Hctx). cbn [zip zip_with] in Hctx.
  apply Forall_cons in Hctx as [Hctx _]. rewrite !then_Ok in Hctx. destruct Hctx as (_ & _ & Hctx).
  apply group_context_member in Hctx as [E1 E2].
  match goal with Hx : replica_members s !! _ = Some ?m |- _ => exists m; pose proof (proj1 (ok_member _ Hs _ _ Hx)) as Hid end.
  destruct Hb as (_ & _ & _ & _ & -> & _). rewrite Hbm, E2, Hid. by split.
Qed.

Lemma schedule_placement_group_changes write s s' x :
  schedule_placement_group write s = (s', x) -> consistent s -> rtc change s s'.
Proof.
  intros E Hs. unfold schedule_placement_group in E. destruct write as [? ? ? ? ? placements t]. paths E.
  all: match goal with H : group_deployment _ _ _ = Ok _ |- _ => apply group_deployment_Ok in H; rename H into Hd end.
  all: match goal with H : place_group _ _ _ = Ok _ |- _ => rename H into Hplaced end.
  all: match goal with H : group_members _ _ = Ok _ |- _ => apply group_members_Ok in H; rename H into Hmem end.
  all: match goal with H : group_bindings _ _ _ = Ok _ |- _ => apply group_bindings_Ok in H; rename H into Hbind end.
  all: pose proof (proj1 (ok_deployment _ Hs _ _ Hd)) as Hid; rewrite Hid in Hbind.
  all: destruct (placed_stored _ _ _ _ _ _ _ _ _ Hs Hmem Hbind Hplaced) as [Hmembers Hbindings].
  all: match goal with H : on_copy (Deployment.schedule ?n ?t) ?d = Ok ?d' |- _ =>
         apply on_copy_run in H; pose proof (proj1 (step_same_deployment (DeploymentLifecycle.Schedule n t) d)) as Hid';
         cbn [DeploymentLifecycle.step] in Hid'; rewrite <- H, Hid in Hid' end; rewrite Hid'.
  - match goal with H : validate_existing_group_materialization_context _ _ _ _ = Ok ?u, Hl : head _ = Some _ |- _ =>
      destruct u; pose proof (placed_leader _ _ _ _ _ _ _ _ _ _ _ _ _ _ _ _ Hs Hmem Hbind H Hplaced Hl) as Hof;
      rename Hl into Hleader end.
    subst. match goal with |- context [run_state (Deployment.schedule ?n ?t)] =>
      eapply rtc_l; [eapply (ch_deployment s _ _ (DeploymentLifecycle.Schedule n t)); exact Hd|] end.
    etrans; [apply changes_member_bindings; exact Hbindings|].
    destruct (Hbindings a14) as [(c & Hc & Hsame) _].
    { destruct a13 as [|y placed]; [done|]. injection Hleader as <-. by left. }
    eapply rtc_l; [eapply ch_binding; [exact Hc|exact Hsame|exact Hof]|].
    etrans; [apply changes_members; exact Hmembers|]. finish.
  - etrans; [apply changes_member_bindings; exact Hbindings|].
    etrans; [apply changes_members; exact Hmembers|]. finish.
Qed.

Lemma write_members_Ok write m :
  WorkloadPlacementGroupWrite.validate write = Ok tt -> m ∈ write.(WorkloadPlacementGroupWrite.replica_members) ->
  m.(WorkloadReplicaMember.workload_id) = write.(WorkloadPlacementGroupWrite.group).(WorkloadPlacementGroup.workload_id)
  /\ m.(WorkloadReplicaMember.replica_id) = write.(WorkloadPlacementGroupWrite.group).(WorkloadPlacementGroup.replica_id).
Proof.
  unfold WorkloadPlacementGroupWrite.validate. rewrite !then_Ok, fail_if_Ok, for_each_Ok. intros (_ & Hlen & Hall) Hm.
  apply negb_false_iff, N.eqb_eq in Hlen. unfold len in Hlen.
  apply list_elem_of_lookup in Hm as [j Hj].
  destruct (lookup_lt_is_Some_2 write.(WorkloadPlacementGroupWrite.group).(WorkloadPlacementGroup.members) j) as [p Hp].
  { apply lookup_lt_Some in Hj. lia. }
  assert (zip write.(WorkloadPlacementGroupWrite.replica_members)
            write.(WorkloadPlacementGroupWrite.group).(WorkloadPlacementGroup.members) !! j = Some (m, p)) as Hz.
  { apply lookup_zip_with_Some. eauto. }
  rewrite Forall_lookup in Hall. apply Hall in Hz. cbn [fst snd] in Hz. rewrite then_Ok in Hz. destruct Hz as [Hz _].
  unfold WorkloadPlacementGroup.validate_replica_member_identity in Hz. rewrite then_Ok, fail_if_Ok in Hz.
  destruct Hz as [_ Hz]. reflect_bools. by destruct_and?.
Qed.

(** The members a group writes are missing ones. *)
Lemma materialize_members_new s write members m :
  materialize_members s write = Ok members -> m ∈ map fst (List.filter snd members) ->
  s.(replica_members) !! m.(WorkloadReplicaMember.id) = None /\ m ∈ write.(WorkloadPlacementGroupWrite.replica_members).
Proof.
  intros Hm%mapM_result_Ok Hin. apply list_elem_of_In, in_map_iff in Hin as ([m' new] & <- & Hin).
  apply filter_In in Hin as [Hin Hnew]. cbn in Hnew. subst new. apply list_elem_of_In in Hin.
  destruct (Forall2_elem_r _ _ _ _ Hm Hin) as (m0 & Hm0 & Hf).
  destruct (s.(replica_members) !! _) as [e|] eqn:El; [|by simplify_eq/=].
  rewrite then_Ok in Hf. destruct Hf as [_ Hf]. by simplify_eq/=.
Qed.

Lemma group_context_replica group w policy v r :
  WorkloadPlacementGroup.validate_context group w policy v r = Ok tt ->
  r.(WorkloadReplica.workload_id) = group.(WorkloadPlacementGroup.workload_id).
Proof.
  unfold WorkloadPlacementGroup.validate_context. rewrite !then_Ok. intros (_ & _ & _ & E).
  rewrite result_bind_Ok in E. destruct E as (t & _ & E). apply fail_if_Ok in E. reflect_bools. destruct_and?. congruence.
Qed.

Lemma materialize_placement_group_changes write s s' x :
  materialize_placement_group write s = (s', x) -> consistent s -> rtc change s s'.
Proof.
  intros E Hs. unfold materialize_placement_group in E. paths E.
  match goal with H : WorkloadPlacementGroupWrite.validate write = Ok ?u |- _ => destruct u; rename H into Hv end.
  match goal with H : materialize_members _ _ = Ok ?l |- _ => pose proof (fun m => materialize_members_new _ _ _ m H) as Hnew end.
  etrans; [apply changes_new_members|finish].
  - intros m [Hn Hi]%Hnew. split; [done|]. apply (write_members_Ok _ _ Hv) in Hi as [Hw Hr].
    match goal with H : replicas s !! _ = Some ?r, Hc : WorkloadPlacementGroup.validate_context _ _ _ _ ?r = Ok ?u |- _ =>
      destruct u; apply group_context_replica in Hc; exists r; rewrite Hr, Hw; by split end.
  - intros m m' [_ Hi]%Hnew [_ Hi']%Hnew Hid. apply (write_members_Ok _ _ Hv) in Hi as [? ?], Hi' as [? ?].
    unfold same_member. split_and!; congruence.
Qed.

(** ** Materialization *)

(** What a new deployment of a replica is made of. *)
Definition materializes s (w : Workload.t) (v : WorkloadRevision.t) (r : WorkloadReplica.t) (write : ReplicaDeploymentWrite.t) : Prop :=
  let d := write.(ReplicaDeploymentWrite.deployment) in
  (exists i o t, d = Deployment.create i w.(Workload.organization_id) w.(Workload.id) v.(WorkloadRevision.id) o t)
  /\ write.(ReplicaDeploymentWrite.binding) ∈ write.(ReplicaDeploymentWrite.member_bindings)
  /\ forall b, b ∈ write.(ReplicaDeploymentWrite.member_bindings) ->
       exists m uid, b = DeploymentReplicaBinding.create_with_runtime_unit_id d r m uid
         /\ s.(replica_members) !! m.(WorkloadReplicaMember.id) = Some m
         /\ m.(WorkloadReplicaMember.replica_id) = r.(WorkloadReplica.id).

Lemma materialization_context_Ok candidate w v r m :
  validate_materialization_context candidate w v r m = Ok tt ->
  v.(WorkloadRevision.workload_id) = w.(Workload.id) /\ r.(WorkloadReplica.workload_id) = w.(Workload.id)
  /\ m.(WorkloadReplicaMember.replica_id) = r.(WorkloadReplica.id).
Proof.
  unfold validate_materialization_context. rewrite !then_Ok, fail_if_Ok. intros (_ & _ & Hb). reflect_bools.
  destruct_and?. by split_and!.
Qed.

Lemma build_replica_materializes s event_id candidate w v r m t write :
  consistent s -> s.(replica_members) !! r.(WorkloadReplica.id) = Some m ->
  build_replica_deployment_write event_id candidate w v r m t = Ok write -> materializes s w v r write.
Proof.
  intros Hs Hm. unfold build_replica_deployment_write. rewrite then_Ok. intros [Hctx E].
  apply materialization_context_Ok in Hctx as (_ & _ & Hof). rewrite result_bind_Ok in E. destruct E as (b & Hb & [= <-]).
  unfold materializes; cbn. split; [by eexists _, _, _|]. split; [by left|].
  intros b' Hb'. apply list_elem_of_singleton in Hb' as ->.
  unfold DeploymentReplicaBinding.create in Hb. rewrite result_bind_Ok in Hb. destruct Hb as (uid & _ & Hb).
  rewrite then_Ok in Hb. destruct Hb as [_ [= <-]]. exists m, uid. split_and!; try done.
  by rewrite (proj1 (ok_member _ Hs _ _ Hm)).
Qed.

Lemma build_group_materializes s event_id candidate w policy v r group members t write :
  consistent s -> (forall m, m ∈ members -> exists i, s.(replica_members) !! i = Some m) ->
  build_group_deployment_write event_id candidate (PlacementGroupDeploymentContext.Mk w policy v r group members) t = Ok write ->
  materializes s w v r write.
Proof.
  intros Hs Hm. unfold build_group_deployment_write. rewrite !then_Ok, for_each_Ok. intros (_ & Hlen & Hctx & E).
  rewrite result_bind_Ok in E. destruct E as (bindings & Hb%mapM_result_Ok & E).
  rewrite result_bind_Ok in E. destruct E as (b & Hhead%ok_or_Ok & E).
  rewrite result_bind_Ok in E. destruct E as (gb & _ & [= <-]).
  unfold materializes; cbn. split; [by eexists _, _, _|]. split.
  { destruct bindings; [done|]. injection Hhead as <-. by left. }
  intros b' Hb'. destruct (Forall2_elem_r _ _ _ _ Hb Hb') as ([m p] & Hz & Hc). cbn [fst snd] in Hc.
  unfold GroupMemberBinding.create_for_placement_group_member in Hc. rewrite then_Ok in Hc. destruct Hc as [_ [= <-]].
  rewrite Forall_forall in Hctx. specialize (Hctx _ Hz). cbn [fst snd] in Hctx. rewrite then_Ok in Hctx.
  destruct Hctx as [Hctx _]. apply materialization_context_Ok in Hctx as (_ & _ & Hof).
  apply elem_of_zip_l in Hz. destruct (Hm _ Hz) as [i Hi]. eexists m, _. split_and!; [done| |done].
  by rewrite (proj1 (ok_member _ Hs _ _ Hi)).
Qed.

Lemma new_materialization_Ok s event_id candidate w control v r group t write :
  consistent s ->
  new_materialization s event_id candidate w control v r group t = Ok write -> materializes s w v r write.
Proof.
  intros Hs. unfold new_materialization. destruct (EffectivePlacementPolicy.topology _).
  - rewrite result_bind_Ok. intros (m & Hm%some_or_Ok & Hb%map_err_Ok). by eapply build_replica_materializes.
  - rewrite result_bind_Ok. intros (g & _ & E). rewrite result_bind_Ok in E. destruct E as (members & Hm%mapM_result_Ok & E).
    apply map_err_Ok in E. eapply build_group_materializes; [done| |exact E].
    intros m Hin. destruct (Forall2_elem_r _ _ _ _ Hm Hin) as (p & _ & Hp%some_or_Ok).
    exists p.(WorkloadPlacementGroupMemberPlan.member_id). destruct (s.(replica_members) !! _) as [m'|]; [|done]. simpl in Hp.
    case_bool_decide; by simplify_eq.
Qed.

Lemma not_bound s r i b :
  List.find (binds_generation r) (values s.(deployment_replica_bindings)) = None ->
  s.(deployment_replica_bindings) !! i = Some b ->
  b.(DeploymentReplicaBinding.replica_id) = r.(WorkloadReplica.id) ->
  b.(DeploymentReplicaBinding.replica_generation) <> r.(WorkloadReplica.generation).
Proof.
  intros Hf Hi Hr Hg. assert (binds_generation r b = false) as Hb.
  { eapply find_none; [exact Hf|]. apply list_elem_of_In, elem_of_values. eauto. }
  unfold binds_generation in Hb. rewrite Hr, Hg, !bool_decide_eq_true_2 in Hb by done. done.
Qed.

Lemma is_some_false {A} (o : option A) : is_some o = false -> o = None.
Proof. by destruct o. Qed.

(** The deployment of a generation that had none. *)
Lemma materialized_change s w v r write i :
  consistent s -> s.(workloads) !! i = Some w -> s.(revisions) !! r.(WorkloadReplica.revision_id) = Some v ->
  has s.(replicas) r.(WorkloadReplica.id) (eq r) -> r.(WorkloadReplica.workload_id) = i ->
  materializes s w v r write ->
  List.find (binds_generation r) (values s.(deployment_replica_bindings)) = None ->
  let d := write.(ReplicaDeploymentWrite.deployment) in
  s.(deployments) !! d.(Deployment.id) = None -> s.(deployment_replica_bindings) !! d.(Deployment.id) = None ->
  rtc change s (s <| deployments := <[d.(Deployment.id) := d]> s.(deployments) |>
                  <| deployment_replica_bindings :=
                    <[d.(Deployment.id) := write.(ReplicaDeploymentWrite.binding)]> s.(deployment_replica_bindings) |>
                  <| deployment_replica_member_bindings :=
                    put_member_bindings d.(Deployment.id) write.(ReplicaDeploymentWrite.member_bindings)
                      s.(deployment_replica_member_bindings) |>).
Proof.
  intros Hs Hw Hv (r' & Hr & <-) Hi ((i' & o & t & Hd) & Hin & Hall) Hfind d Hn Hnb. fold d in Hd, Hall.
  destruct (ok_replica _ Hs _ _ Hr) as (_ & (v' & Hv' & Hvw & Hvg) & (w' & Hw' & Hwo) & _).
  assert (v' = v) as -> by congruence. assert (w' = w) as -> by congruence.
  pose proof (proj1 (ok_workload _ Hs _ _ Hw)) as Hwid.
  pose proof (proj1 (ok_revision _ Hs _ _ Hv)) as Hvid.
  assert (Hsame : forall b, b ∈ write.(ReplicaDeploymentWrite.member_bindings) -> same_binding write.(ReplicaDeploymentWrite.binding) b).
  { intros b (m & u & -> & _)%Hall. destruct (Hall _ Hin) as (m' & u' & -> & _). by repeat split. }
  destruct (Hall _ Hin) as (m & uid & Hb & Hm & Hof).
  eapply rtc_l; [eapply (ch_new_deployment s d write.(ReplicaDeploymentWrite.binding) r)|].
  - done.
  - done.
  - rewrite Hd. constructor.
  - rewrite Hb. unfold lineage; cbn. rewrite Hd; cbn. split_and!; congruence.
  - rewrite Hd; cbn. rewrite Hwid. exists w. by split.
  - rewrite Hd; cbn. rewrite Hvid, Hwid. exists v. split; congruence.
  - by rewrite Hb.
  - rewrite Hd; cbn. congruence.
  - by rewrite Hb.
  - rewrite Hb. cbn. intros j b' Hj. by eapply not_bound.
  - rewrite Hb. cbn. by exists m.
  - etrans; [apply (changes_member_bindings _ d.(Deployment.id) write.(ReplicaDeploymentWrite.member_bindings))|].
    + intros b Hin'. cbn. split; [apply has_insert; by apply Hsame|].
      destruct (Hall _ Hin') as (m' & u & -> & Hm' & Hof'). cbn. by exists m'.
    + finish.
Qed.

Lemma materialize_replica_deployment_changes event_id candidate t s s' x :
  materialize_replica_deployment event_id candidate t s = (s', x) -> consistent s -> rtc change s s'.
Proof.
  intros E Hs. unfold materialize_replica_deployment in E. destruct candidate. paths E.
  all: match goal with H : state_workload _ _ _ = Ok _ |- _ => apply state_workload_Ok in H as [Hw _] end.
  all: match goal with H : new_materialization _ _ _ _ _ _ _ _ _ = Ok _ |- _ => apply (new_materialization_Ok _ _ _ _ _ _ _ _ _ _ Hs) in H end.
  all: match goal with H : _ || not_deployable _ _ _ = false |- _ =>
         rewrite !orb_false_iff, !negb_false_iff, !bool_decide_eq_true in H; destruct H as (((((Ew & _) & Er) & _) & _) & _) end.
  all: match goal with H : is_some _ || is_some _ || is_some _ = false |- _ =>
         rewrite !orb_false_iff in H; destruct H as [[Hd Hb] _] end.
  all: match goal with H : replicas _ !! _ = Some _ |- _ => pose proof (proj1 (ok_replica _ Hs _ _ H)) as Hid; rewrite <- Hid in H end.
  all: etrans; [eapply materialized_change; try eassumption|finish].
  all: first [by rewrite Er | by apply is_some_false | by eexists].
Qed.
End replicas.
