(* ===== verification/ReplicaSetPlans.v ===== *)
(** * What a reconfiguration of a replica set plans

    The functional specification of [plan_replica_set_reconfiguration]: which replicas of the current
    set it leaves alone, which it retires or reactivates, and which it makes; and that the
    repository's call is a sequence of changes of [WorkloadProtocol]. *)

From Stdlib Require Import ZArith NArith Lia String.
From stdpp Require Import gmap relations.
From S2P Require Import Prelude RustStd BTreeMap External Text SharedKernel Repositories Workloads ServiceTemplates.
From S2P Require Import WorkloadRevisions Deployments Replicas WorkloadControls PlacementGroups WorkloadOperations.
From S2P Require Import WorkloadEvents RuntimeBindings ReplicaSets ReplicaMaterialization WorkloadRepository.
From S2P Require Import WorkloadReplicaRepository WorkloadProtocol WorkloadCalls WorkloadReplicaCalls.
Import WorkloadState InMemoryWorkloadRepository WorkloadProtocol.

(** ** Ordinals *)
Lemma elem_of_ordinals low high o : o ∈ ordinals low high <-> (low <= o < high)%N.
Proof.
  unfold ordinals. rewrite list_elem_of_In, in_map_iff. split.
  - intros (i & <- & Hi%in_seq). lia.
  - intros Ho. exists (N.to_nat (o - low)). split; [lia|]. apply in_seq. lia.
Qed.

Lemma NoDup_ordinals low high : NoDup (ordinals low high).
Proof. unfold ordinals. apply (NoDup_fmap_2_strong (fun i => low + N.of_nat i)%N); [intros; lia|apply NoDup_seq]. Qed.

Lemma has_ordinal_true o r : has_ordinal o r = true <-> r.(WorkloadReplica.ordinal) = o.
Proof. apply N.eqb_eq. Qed.

(** The first replica with an ordinal is the one that has it. *)
Lemma find_ordinal rs o r :
  NoDup (map WorkloadReplica.ordinal rs) ->
  find (has_ordinal o) rs = Some r <-> r ∈ rs /\ r.(WorkloadReplica.ordinal) = o.
Proof.
  intros Hnd. split.
  - intros [Hin Hr]%find_some. apply list_elem_of_In in Hin. by apply has_ordinal_true in Hr.
  - intros [Hin <-]. induction rs as [|x rs IH]; [by apply elem_of_nil in Hin|].
    cbn in *. apply NoDup_cons in Hnd as [Hx Hnd]. unfold has_ordinal at 1.
    apply elem_of_cons in Hin as [->|Hin]; [by rewrite N.eqb_refl|].
    destruct (N.eqb_spec (WorkloadReplica.ordinal x) (WorkloadReplica.ordinal r)) as [E|]; [|by apply IH].
    destruct Hx. rewrite E. by apply (list_elem_of_fmap_2 WorkloadReplica.ordinal).
Qed.

Lemma same_ordinal rs r r' :
  NoDup (map WorkloadReplica.ordinal rs) -> r ∈ rs -> r' ∈ rs ->
  r.(WorkloadReplica.ordinal) = r'.(WorkloadReplica.ordinal) -> r = r'.
Proof.
  intros Hnd Hr Hr' E. pose proof (proj2 (find_ordinal rs _ r Hnd) (conj Hr E)) as F.
  rewrite (proj2 (find_ordinal rs _ r' Hnd) (conj Hr' eq_refl)) in F. congruence.
Qed.

(** A desired prefix: the desired replicas have exactly the ordinals below the bound. *)
Definition desired_prefix (rs : list WorkloadReplica.t) (n : N) : Prop :=
  forall o, (exists r, r ∈ rs /\ r.(WorkloadReplica.ordinal) = o
                       /\ r.(WorkloadReplica.lifecycle) = WorkloadReplicaLifecycle.Desired) <-> (o < n)%N.

Lemma validate_desired_prefix_Ok rs n :
  NoDup (map WorkloadReplica.ordinal rs) -> validate_desired_prefix rs n = Ok tt -> desired_prefix rs n.
Proof.
  intros Hnd. unfold validate_desired_prefix. rewrite result_bind_Ok. intros (u & Hall & Hany).
  rewrite for_each_Ok, Forall_forall in Hall. destruct (any _ rs) eqn:E; [done|]. unfold any in E. intros o. split.
  - intros (r & Hr & <- & Hl). destruct (N.ltb_spec (WorkloadReplica.ordinal r) n) as [|Hle]; [done|].
    apply not_true_iff_false in E. destruct E. apply existsb_exists. exists r. rewrite <- list_elem_of_In.
    split; [done|]. apply andb_true_iff. split; [by apply N.leb_le|]. by apply bool_decide_eq_true.
  - intros Ho. specialize (Hall o). destruct (find (has_ordinal o) rs) as [r|] eqn:Ef; cbn in Hall.
    + apply find_ordinal in Ef as [Hr Hro]; [|done]. exists r. split_and!; try done.
      rewrite elem_of_ordinals in Hall. destruct (_ != _) eqn:En in Hall; [by specialize (Hall ltac:(lia))|].
      by apply negb_false_iff, bool_decide_eq_true in En.
    + rewrite elem_of_ordinals in Hall. by specialize (Hall ltac:(lia)).
Qed.

Section plans.
Context `{External}.
Implicit Types (r : WorkloadReplica.t) (rs : list WorkloadReplica.t) (v : WorkloadRevision.t).

(** A replica after a reconfiguration that asks some ordinals to move, to the revision [v] at most. *)
Definition reshaped v (os : list N) r r' : Prop :=
  same_replica r r' /\ r'.(WorkloadReplica.ordinal) = r.(WorkloadReplica.ordinal)
  /\ (r'.(WorkloadReplica.revision_id) = r.(WorkloadReplica.revision_id)
      /\ r'.(WorkloadReplica.revision_generation) = r.(WorkloadReplica.revision_generation)
      \/ r'.(WorkloadReplica.revision_id) = v.(WorkloadRevision.id)
         /\ r'.(WorkloadReplica.revision_generation) = v.(WorkloadRevision.generation))
  /\ (r.(WorkloadReplica.ordinal) ∉ os -> r' = r).

#[local] Instance reshaped_refl v os : Reflexive (reshaped v os).
Proof. intros r. unfold reshaped, same_replica. split_and!; auto; lia. Qed.

#[local] Instance reshaped_trans v os : Transitive (reshaped v os).
Proof.
  intros r1 r2 r3 ((A1 & A2 & A3 & A4) & A5 & A6 & A7) ((B1 & B2 & B3 & B4) & B5 & B6 & B7).
  unfold reshaped, same_replica. split_and!; try congruence; [lia| |].
  - destruct A6 as [[? ?]|[? ?]], B6 as [[? ?]|[? ?]]; [left|right|right|right]; split; congruence.
  - intros Hr. rewrite B7; [by apply A7|]. by rewrite A5.
Qed.

Lemma reshaped_more v os os' r r' : os ⊆ os' -> reshaped v os r r' -> reshaped v os' r r'.
Proof. intros Hos (? & ? & ? & ?). split_and!; try done. set_solver. Qed.

Lemma step_reshaped v os o r r' :
  ReplicaLifecycle.step o r = (r', Ok tt) -> r.(WorkloadReplica.ordinal) ∈ os ->
  match brings_revision o with Some v' => v' = v | None => True end -> reshaped v os r r'.
Proof.
  intros E Hr Hv. pose proof (replica_kept _ _ _ E) as Hk. pose proof (replica_revision _ _ _ E) as Hrev.
  split_and!; [done| | |done].
  - clear -E. ReplicaLifecycle.run_step E o; by simplify_eq/=.
  - destruct (brings_revision o) as [v'|]; [right|by left]. subst. naive_solver.
Qed.

Lemma on_ordinal_reshaped v os o m k rs rs' :
  (forall r r', m r = (r', Ok tt) -> ReplicaLifecycle.step k r = (r', Ok tt)) ->
  match brings_revision k with Some v' => v' = v | None => True end -> o ∈ os ->
  on_ordinal o m rs = Ok rs' -> Forall2 (reshaped v os) rs rs'.
Proof.
  intros Hm Hk Ho. revert rs'. induction rs as [|r rs IH]; intros rs'; cbn; [done|].
  destruct (has_ordinal o r) eqn:E.
  - apply has_ordinal_true in E. destruct (m r) as [r' [[]|]] eqn:Em; [|done]. intros [= <-].
    constructor; [|reflexivity].
    eapply step_reshaped; [by apply Hm| |done]. by rewrite E.
  - rewrite result_bind_Ok. intros (rest & Hrest & [= <-]). constructor; [apply reshaped_refl|by apply IH].
Qed.

Lemma scale_down_Ok v t os rs rs' : scale_down t os rs = Ok rs' -> Forall2 (reshaped v os) rs rs'.
Proof.
  revert rs. induction os as [|o os IH]; intros rs; cbn; [by intros [= <-]|]. rewrite result_bind_Ok. intros (rs1 & E1 & E2).
  trans rs1.
  - eapply (on_ordinal_reshaped v _ o _ (ReplicaLifecycle.RequestRetirement t)); [done|done|by left|done].
  - eapply Forall2_impl; [by apply IH|]. intros r r'. apply reshaped_more. set_solver.
Qed.

(** A replica made for an ordinal, with its canonical member. *)
Definition made workload v r (m : WorkloadReplicaMember.t) : Prop :=
  WorkloadReplica.for_ordinal workload v r.(WorkloadReplica.ordinal) = Ok r
  /\ WorkloadReplicaMemberCreation.for_replica workload r = Ok m.

Lemma for_ordinal_Ok workload v o r :
  WorkloadReplica.for_ordinal workload v o = Ok r ->
  WorkloadReplica.deterministic_id workload.(Workload.id) o = Ok r.(WorkloadReplica.id)
  /\ r.(WorkloadReplica.ordinal) = o /\ r.(WorkloadReplica.workload_id) = workload.(Workload.id)
  /\ r.(WorkloadReplica.organization_id) = workload.(Workload.organization_id)
  /\ r.(WorkloadReplica.revision_id) = v.(WorkloadRevision.id)
  /\ r.(WorkloadReplica.revision_generation) = v.(WorkloadRevision.generation)
  /\ r.(WorkloadReplica.generation) = v.(WorkloadRevision.generation)
  /\ v.(WorkloadRevision.workload_id) = workload.(Workload.id).
Proof.
  unfold WorkloadReplica.for_ordinal. rewrite result_bind_Ok. intros (u & Hu & E). rewrite result_bind_Ok in E.
  destruct E as (i & Hi & E). rewrite result_bind_Ok in E. destruct E as (u' & _ & [= <-]). cbn.
  apply fail_if_Ok in Hu. reflect_bools. destruct_and?. by split_and!.
Qed.

Lemma for_replica_Ok workload r m :
  WorkloadReplicaMemberCreation.for_replica workload r = Ok m ->
  m.(WorkloadReplicaMember.id) = r.(WorkloadReplica.id) /\ m.(WorkloadReplicaMember.replica_id) = r.(WorkloadReplica.id)
  /\ m.(WorkloadReplicaMember.workload_id) = workload.(Workload.id).
Proof.
  unfold WorkloadReplicaMemberCreation.for_replica, WorkloadReplicaMemberCreation.for_ordinal.
  rewrite result_bind_Ok. intros (u & _ & E). rewrite result_bind_Ok in E. destruct E as (u' & _ & E).
  rewrite result_bind_Ok in E. destruct E as (i & [= <-] & E). rewrite result_bind_Ok in E.
  by destruct E as (u'' & _ & [= <-]).
Qed.

Lemma reshaped_ordinals v os rs rs' :
  Forall2 (reshaped v os) rs rs' -> map WorkloadReplica.ordinal rs' = map WorkloadReplica.ordinal rs.
Proof. induction 1 as [|r r' rs rs' Hr _ IH]; [done|]. cbn. rewrite IH. f_equal. by destruct Hr as (_ & ? & _). Qed.

Lemma Forall2_snoc_l {A B} (P : A -> B -> Prop) l x k :
  Forall2 P (l ++ [x]) k -> exists k' y, k = k' ++ [y] /\ Forall2 P l k' /\ P x y.
Proof.
  intros (k' & k2 & Hl & Hx & ->)%Forall2_app_inv_l. apply Forall2_cons_inv_l in Hx as (y & k3 & Hy & Hn & ->).
  apply Forall2_nil_inv_l in Hn as ->. eauto.
Qed.

Lemma scale_up_Ok workload v t os rs ms rs' ms' :
  NoDup os -> scale_up workload v t os rs ms = Ok (rs', ms') ->
  exists old news newms,
    rs' = old ++ news /\ ms' = ms ++ newms /\ Forall2 (reshaped v os) rs old /\ Forall2 (made workload v) news newms
    /\ (forall r, r ∈ news -> r.(WorkloadReplica.ordinal) ∈ os)
    /\ (NoDup (map WorkloadReplica.ordinal rs) -> NoDup (map WorkloadReplica.ordinal rs')).
Proof.
  revert rs ms. induction os as [|o os IH]; intros rs ms Hnd; cbn.
  { intros [= <- <-]. exists rs, [], []. rewrite !app_nil_r. split_and!; try done. set_solver. }
  apply NoDup_cons in Hnd as [Ho Hnd]. destruct (find (has_ordinal o) rs) as [r|] eqn:Ef.
  - destruct (WorkloadReplica.lifecycle r); try done. rewrite result_bind_Ok. intros (rs1 & E1 & E2).
    apply (on_ordinal_reshaped v (o :: os) o _ (ReplicaLifecycle.Reactivate v t)) in E1; [|done|done|by left].
    destruct (IH _ _ Hnd E2) as (old & news & newms & -> & -> & Hold & Hnews & Hos & Hnd').
    exists old, news, newms. split_and!; try done.
    + trans rs1; [done|]. eapply Forall2_impl; [exact Hold|]. intros ??. apply reshaped_more. set_solver.
    + set_solver.
    + intros Hrs. apply Hnd'. by rewrite (reshaped_ordinals _ _ _ _ E1).
  - rewrite result_bind_Ok. intros (r & Hr%map_err_Ok & E). rewrite result_bind_Ok in E.
    destruct E as (m & Hm%map_err_Ok & E). pose proof (for_ordinal_Ok _ _ _ _ Hr) as (_ & Hor & _).
    destruct (IH _ _ Hnd E) as (old & news & newms & -> & -> & Hold & Hnews & Hos & Hnd').
    apply Forall2_snoc_l in Hold as (old' & r' & -> & Hold & Hr'). destruct Hr' as (_ & _ & _ & Hr').
    rewrite Hr' by (by rewrite Hor). exists old', (r :: news), (m :: newms). rewrite <- !app_assoc. split_and!; try done.
    + eapply Forall2_impl; [exact Hold|]. intros ??. apply reshaped_more. set_solver.
    + constructor; [|done]. split; [by rewrite Hor|done].
    + intros x [->|Hx]%elem_of_cons; [rewrite Hor; by left|right; by apply Hos].
    + intros Hrs. rewrite Hr', <- app_assoc in Hnd' by (by rewrite Hor). apply Hnd'. rewrite map_app. cbn. rewrite Hor.
      apply NoDup_app. split_and!; [done| |by apply NoDup_singleton].
      intros x Hx ->%list_elem_of_singleton. apply (list_elem_of_fmap_1 WorkloadReplica.ordinal) in Hx as (y & Hy & Hin).
      apply find_none with (x := y) in Ef; [|by apply list_elem_of_In]. unfold has_ordinal in Ef. apply N.eqb_neq in Ef. congruence.
Qed.

Lemma validate_identities_Ok workload ids os rs :
  validate_identities workload ids os rs = Ok tt ->
  NoDup (map WorkloadReplica.ordinal rs) /\ (forall r, r ∈ rs -> r.(WorkloadReplica.ordinal) ∉ os)
  /\ (forall r, r ∈ rs -> r.(WorkloadReplica.workload_id) = workload.(Workload.id)).
Proof.
  revert ids os. induction rs as [|r rs IH]; intros ids os; cbn -[WorkloadReplica.validate].
  { intros _. split_and!; [apply NoDup_nil_2|set_solver..]. }
  rewrite then_Ok. intros [_ E]. destruct (_ || _) eqn:Eb in E; [done|]. reflect_bools. destruct_and?.
  apply IH in E as (Hnd & Hos & Hw). split_and!.
  - apply NoDup_cons. split; [|done]. intros (x & Hx & Hin)%(list_elem_of_fmap_1 WorkloadReplica.ordinal).
    apply (Hos x Hin). rewrite <- Hx. by left.
  - intros x [->|Hx]%elem_of_cons; [done|]. specialize (Hos x Hx). set_solver.
  - intros x [->|Hx]%elem_of_cons; [congruence|by apply Hw].
Qed.

Lemma validate_current_set_Ok workload control v rs :
  validate_current_set workload control v rs = Ok tt ->
  NoDup (map WorkloadReplica.ordinal rs) /\ v.(WorkloadRevision.workload_id) = workload.(Workload.id)
  /\ (forall r, r ∈ rs -> r.(WorkloadReplica.workload_id) = workload.(Workload.id)).
Proof.
  unfold validate_current_set. rewrite then_Ok. intros [_ E]. destruct (is_empty rs); [done|]. rewrite then_Ok in E.
  destruct E as [(Hnd & _ & Hw)%validate_identities_Ok E]. rewrite result_bind_Ok in E. destruct E as (c & _ & E).
  destruct (_ || _) eqn:Eb in E; [done|]. reflect_bools. destruct_and?. by split_and!.
Qed.

Lemma plan_Ok workload control v rs version policy_generation n owner t p :
  plan_replica_set_reconfiguration workload control v rs version policy_generation n owner t = Ok p ->
  let previous := (WorkloadControl.policy control).(EffectivePlacementPolicy.desired_replicas) in
  let os := ordinals (N.min previous n) (N.max previous n) in
  NoDup (map WorkloadReplica.ordinal rs) /\ v.(WorkloadRevision.workload_id) = workload.(Workload.id)
  /\ on_copy (WorkloadControl.reconfigure_replica_set policy_generation n owner t) control
      = Ok p.(ReplicaSetReconfiguration.control)
  /\ (forall r, r ∈ rs -> r.(WorkloadReplica.workload_id) = workload.(Workload.id))
  /\ exists old news newms,
       p.(ReplicaSetReconfiguration.replicas) ≡ₚ old ++ news
       /\ p.(ReplicaSetReconfiguration.members_to_create) ≡ₚ newms
       /\ Forall2 (reshaped v os) (sort_replicas rs) old /\ Forall2 (made workload v) news newms
       /\ (forall r, r ∈ news -> (previous <= r.(WorkloadReplica.ordinal) < n)%N)
       /\ NoDup (map WorkloadReplica.ordinal (old ++ news))
       /\ desired_prefix p.(ReplicaSetReconfiguration.replicas) n.
Proof.
  unfold plan_replica_set_reconfiguration. rewrite then_Ok. intros [(Hnd & Hv & Hw)%validate_current_set_Ok E].
  destruct (_ != _) in E; [done|]. rewrite result_bind_Ok in E. destruct E as (c & Hc%map_err_Ok & E).
  rewrite result_bind_Ok in E. destruct E as ([rs' ms'] & E1 & E2). rewrite then_Ok in E2. destruct E2 as [Hp [= <-]].
  cbn -[ordinals N.min N.max]. set (previous := EffectivePlacementPolicy.desired_replicas _) in *.
  assert (exists old news newms, rs' = old ++ news /\ ms' = newms
    /\ Forall2 (reshaped v (ordinals (N.min previous n) (N.max previous n))) (sort_replicas rs) old
    /\ Forall2 (made workload v) news newms /\ (forall r, r ∈ news -> (previous <= r.(WorkloadReplica.ordinal) < n)%N)
    /\ NoDup (map WorkloadReplica.ordinal (old ++ news))) as (old & news & newms & -> & -> & Hold & Hmade & Hos & Hnd').
  { destruct (N.ltb_spec n previous).
    - rewrite result_bind_Ok in E1. destruct E1 as (rs1 & Hd & [= <- <-]). apply (scale_down_Ok v) in Hd.
      rewrite N.min_r, N.max_l by lia. exists rs1, [], []. rewrite app_nil_r. split_and!; try done; [set_solver|].
      by rewrite (reshaped_ordinals _ _ _ _ Hd).
    - apply scale_up_Ok in E1 as (old & news & newms & -> & -> & Hold & Hnews & Hos & Hnd'); [|apply NoDup_ordinals].
      rewrite N.min_l, N.max_r by lia. exists old, news, newms. split_and!; try done; [|by apply Hnd'].
      intros r Hr%Hos. by apply elem_of_ordinals in Hr. }
  unfold sort_replicas at 1 in Hnd. rewrite sort_by_key_perm in Hnd. split_and!; try done.
  { intros r Hr. apply Hw. unfold sort_replicas. by rewrite sort_by_key_perm. }
  exists old, news, newms. split_and!; try done; [apply sort_by_key_perm..|].
  apply validate_desired_prefix_Ok in Hp; [done|]. unfold sort_replicas. by rewrite sort_by_key_perm.
Qed.
End plans.

Lemma filter_none {A} (P : A -> Prop) `{forall x, Decision (P x)} (l : list A) :
  (forall x, x ∈ l -> ~ P x) -> filter P l = [].
Proof.
  induction l as [|x l IH]; intros HP; [done|]. rewrite filter_cons_False by (apply HP; by left).
  apply IH. intros y Hy. apply HP. by right.
Qed.

Lemma filter_all {A} (P : A -> Prop) `{forall x, Decision (P x)} (l : list A) :
  (forall x, x ∈ l -> P x) -> filter P l = l.
Proof.
  induction l as [|x l IH]; intros HP; [done|]. rewrite filter_cons_True by (apply HP; by left).
  f_equal. apply IH. intros y Hy. apply HP. by right.
Qed.

(** C7: A reconfiguration to [n] replicas leaves exactly the ordinals below [n] desired, one replica
    each.  Every current replica stays, with its identity and ordinal and no earlier generation, and
    unchanged when its ordinal is outside the range between the two counts.  The replicas of ordinals
    that had none are the ones made for these ordinals, all between the two counts, and the members to
    create are exactly their canonical members, one for each: a replica that was there gets none. *)
Theorem reconfiguration_exact `{External} workload control v rs version policy_generation n owner t p :
  plan_replica_set_reconfiguration workload control v rs version policy_generation n owner t = Ok p ->
  let previous := (WorkloadControl.policy control).(EffectivePlacementPolicy.desired_replicas) in
  let planned := p.(ReplicaSetReconfiguration.replicas) in
  NoDup (map WorkloadReplica.ordinal planned) /\ desired_prefix planned n
  /\ (forall r, r ∈ rs -> exists r', r' ∈ planned /\ same_replica r r'
        /\ r'.(WorkloadReplica.ordinal) = r.(WorkloadReplica.ordinal)
        /\ ((r.(WorkloadReplica.ordinal) < N.min previous n)%N \/ (N.max previous n <= r.(WorkloadReplica.ordinal))%N ->
            r' = r))
  /\ exists news newms,
       filter (fun r' => r'.(WorkloadReplica.ordinal) ∉ map WorkloadReplica.ordinal rs) planned ≡ₚ news
       /\ p.(ReplicaSetReconfiguration.members_to_create) ≡ₚ newms
       /\ Forall2 (fun r' m => (previous <= r'.(WorkloadReplica.ordinal) < n)%N
                     /\ WorkloadReplica.for_ordinal workload v r'.(WorkloadReplica.ordinal) = Ok r'
                     /\ WorkloadReplicaMemberCreation.for_replica workload r' = Ok m) news newms.
Proof.
  intros (Hnd & _ & _ & _ & old & news & newms & Hrs & Hms & Hold & Hnews & Hos & Hnd' & Hp)%plan_Ok. cbn zeta.
  assert (map WorkloadReplica.ordinal old ≡ₚ map WorkloadReplica.ordinal rs) as Eold.
  { rewrite (reshaped_ordinals _ _ _ _ Hold). unfold sort_replicas. by rewrite sort_by_key_perm. }
  split_and!; [by rewrite Hrs|done|..].
  - intros r Hr. assert (r ∈ sort_replicas rs) as [i Hi]%list_elem_of_lookup
      by (unfold sort_replicas; by rewrite sort_by_key_perm).
    destruct (Forall2_lookup_l _ _ _ _ _ Hold Hi) as (r' & Hr' & Hk & Ho & _ & Hsame).
    exists r'. split_and!; try done.
    + rewrite Hrs. apply elem_of_app. left. by eapply list_elem_of_lookup_2.
    + intros Hout. apply Hsame. rewrite elem_of_ordinals. lia.
  - exists news, newms. split_and!; [|done|].
    + rewrite map_app, NoDup_app in Hnd'. destruct Hnd' as (_ & Hdis & _).
      rewrite Hrs, filter_app, (filter_none _ old), (filter_all _ news); [done|..].
      * intros r Hr. rewrite <- Eold. intros Hin. apply (Hdis _ Hin). by apply (list_elem_of_fmap_2 WorkloadReplica.ordinal).
      * intros r Hr Hout. apply Hout. rewrite <- Eold. by apply (list_elem_of_fmap_2 WorkloadReplica.ordinal).
    + apply Forall2_same_length_lookup. split; [by eapply Forall2_length|]. intros j r m Hj Hj'.
      destruct (Forall2_lookup_lr _ _ _ _ _ _ Hnews Hj Hj') as [Hfor Hm]. split_and!; try done;
        apply Hos; by eapply list_elem_of_lookup_2.
Qed.

(** ** The repository's call *)
Section calls.
Context `{External} `{ReleaseContract}.
Implicit Types (s : WorkloadState.t).

Lemma elem_of_list_workload_replicas o w s r :
  r ∈ list_workload_replicas o w s <-> owned_by o w r = true /\ exists i, s.(replicas) !! i = Some r.
Proof.
  unfold list_workload_replicas, sort_replicas. rewrite sort_by_key_perm, list_elem_of_In, filter_In, <- list_elem_of_In.
  rewrite elem_of_values. tauto.
Qed.

Lemma put_all_has {A} (key : A -> N) l m k (P : A -> Prop) :
  (forall x, x ∈ l -> key x = k -> P x) -> (exists x, x ∈ l /\ key x = k) \/ has m k P -> has (put_all key l m) k P.
Proof.
  revert m. induction l as [|x l IH]; intros m HP Hx; cbn.
  { destruct Hx as [(x & Hx & _)|]; [by apply elem_of_nil in Hx|done]. }
  apply IH; [intros y Hy; apply HP; by right|]. destruct (decide (key x = k)) as [<-|Hne].
  - right. apply has_insert, HP; [by left|done].
  - destruct Hx as [(y & [->|Hy]%elem_of_cons & Hk)|(y & Hy & Hk)]; [done|left; eauto|right; exists y].
    by rewrite lookup_insert_ne.
Qed.

(** Members are put, then replicas: the new ones in pairs, the others move on. *)
Lemma changes_replica_set s planned members news newms :
  Forall2 (fun r m => canonical_member r m /\ runs s r
             /\ owned s r.(WorkloadReplica.organization_id) r.(WorkloadReplica.workload_id)
             /\ s.(replicas) !! r.(WorkloadReplica.id) = None /\ s.(replica_members) !! r.(WorkloadReplica.id) = None)
    news newms ->
  members ≡ₚ newms -> news ⊆ planned ->
  (forall r, r ∈ planned -> r ∈ news
     \/ runs s r /\ has s.(replicas) r.(WorkloadReplica.id) (fun r0 => same_replica r0 r)) ->
  (forall r r', r ∈ planned -> r' ∈ planned -> r.(WorkloadReplica.id) = r'.(WorkloadReplica.id) -> same_replica r r') ->
  rtc change s (s <| replica_members := put_all WorkloadReplicaMember.id members s.(replica_members) |>
                  <| replicas := put_all WorkloadReplica.id planned s.(replicas) |>).
Proof.
  intros Hnews Hms Hin Hold Hsame.
  assert (Hmade : forall m, m ∈ newms -> exists r, r ∈ news /\ canonical_member r m).
  { intros m Hm. destruct (Forall2_elem_r _ _ _ _ Hnews Hm) as (r & Hr & Hc & _). by exists r. }
  assert (Hnew : forall r, r ∈ news -> s.(replicas) !! r.(WorkloadReplica.id) = None /\ runs s r).
  { intros r [k Hk]%list_elem_of_lookup. destruct (Forall2_lookup_l _ _ _ _ _ Hnews Hk) as (m & _ & _ & ? & _ & ? & _). done. }
  etrans; [eapply (changes_new_replicas s news newms)|].
  { eapply Forall2_impl; [exact Hnews|]. intros r m (? & ? & ? & ? & ?). split_and!; try done. by left. }
  { intros r r' Hr Hr'. apply Hsame; by apply Hin. }
  etrans; [apply (changes_members _ members)|]; cbn.
  { intros m. rewrite Hms. intros Hm. apply put_all_has; [|left; by exists m]. intros m' Hm' E.
    destruct (Hmade m Hm) as (r & Hr & ? & ? & ?), (Hmade m' Hm') as (r' & Hr' & ? & ? & ?).
    destruct (Hsame r' r) as (_ & _ & ? & _); [by apply Hin..|congruence|].
    unfold same_member. split_and!; congruence. }
  etrans; [apply (changes_put_replicas _ planned); [|exact Hsame]|]; cbn.
  - intros r Hr. destruct (Hold r Hr) as [Hrn|[Hruns (r0 & Hr0 & Hsr)]].
    + split; [by apply Hnew|]. apply put_all_has; [|left; by exists r]. intros r' Hr' E. apply Hsame; [by apply Hin|done..].
    + split; [exact Hruns|]. exists r0. split; [|done]. rewrite put_all_other; [done|].
      intros (x & Ex & Hx)%(list_elem_of_fmap_1 WorkloadReplica.id). rewrite Ex, (proj1 (Hnew x Hx)) in Hr0. done.
  - rewrite !put_all_absorb; [finish| |].
    + intros m Hm. apply (list_elem_of_fmap_2 WorkloadReplicaMember.id). by rewrite Hms.
    + intros r Hr. apply (list_elem_of_fmap_2 WorkloadReplica.id). by apply Hin.
Qed.

(** The replicas a plan writes, over the members it makes. *)
Lemma plan_changes s o w v old news newms members planned workload os :
  consistent s -> s.(workloads) !! w = Some workload -> workload.(Workload.organization_id) = o ->
  s.(revisions) !! v.(WorkloadRevision.id) = Some v -> v.(WorkloadRevision.workload_id) = w ->
  Forall2 (reshaped v os) (sort_replicas (list_workload_replicas o w s)) old -> Forall2 (made workload v) news newms ->
  members ≡ₚ newms -> planned ≡ₚ old ++ news -> NoDup (map WorkloadReplica.ordinal (old ++ news)) ->
  Forall (fun m => s.(replica_members) !! m.(WorkloadReplicaMember.id) = None) members ->
  rtc change s (s <| replica_members := put_all WorkloadReplicaMember.id members s.(replica_members) |>
                  <| replicas := put_all WorkloadReplica.id planned s.(replicas) |>).
Proof.
  intros Hs Hw Ho Hv Hvw Hold Hnews Hms Hrs Hnd Hfresh. destruct (ok_workload _ Hs _ _ Hw) as [Hwid _].
  assert (Hm : forall m, m ∈ members -> exists r, r ∈ news /\ made workload v r m).
  { intros m. rewrite Hms. apply Forall2_elem_r, Hnews. }
  assert (Hstored : forall r, r ∈ old -> exists r0, s.(replicas) !! r.(WorkloadReplica.id) = Some r0
    /\ reshaped v os r0 r /\ r.(WorkloadReplica.workload_id) = w).
  { intros r Hr. destruct (Forall2_elem_r _ _ _ _ Hold Hr) as (r0 & Hr0 & Hre). exists r0.
    unfold sort_replicas in Hr0. rewrite sort_by_key_perm in Hr0.
    apply elem_of_list_workload_replicas in Hr0 as [Hown [i Hi]]. destruct (ok_replica _ Hs _ _ Hi) as [Hid _].
    pose proof Hre as ((-> & _ & -> & _) & _). rewrite Hid. unfold owned_by in Hown. reflect_bools. by destruct_and?. }
  assert (Hmade : forall r, r ∈ news -> exists m, m ∈ members /\ made workload v r m).
  { intros r [i Hi]%list_elem_of_lookup. destruct (Forall2_lookup_l _ _ _ _ _ Hnews Hi) as (m & Hmi & Hm').
    exists m. rewrite Hms. split; [by eapply list_elem_of_lookup_2|done]. }
  assert (Hnew : forall r, r ∈ news -> s.(replicas) !! r.(WorkloadReplica.id) = None).
  { intros r (m & Hin & Hmade')%Hmade. rewrite Forall_forall in Hfresh. specialize (Hfresh m Hin).
    destruct Hmade' as [_ (Hmid & _)%for_replica_Ok]. destruct (s.(replicas) !! _) as [r0|] eqn:Er; [|done].
    destruct (ok_replica _ Hs _ _ Er) as (_ & _ & _ & y & Hy & _). congruence. }
  apply (changes_replica_set s planned members news newms); [|done|intros r Hr; rewrite Hrs; apply elem_of_app; by right|..].
  - apply Forall2_same_length_lookup. split; [by eapply Forall2_length|]. intros j r m Hj Hj'.
    pose proof (Forall2_lookup_lr _ _ _ _ _ _ Hnews Hj Hj') as [F%for_ordinal_Ok G%for_replica_Ok].
    apply list_elem_of_lookup_2 in Hj, Hj'. rewrite Forall_forall in Hfresh. rewrite <- Hms in Hj'. specialize (Hfresh m Hj').
    specialize (Hnew r Hj). unfold canonical_member. destruct_and?. split_and!; try congruence.
    + exists v. split; [congruence|]. split; congruence.
    + exists workload. split; congruence.
  - intros r. rewrite Hrs. intros [Hr|Hr]%elem_of_app; [right|by left].
    destruct (Hstored r Hr) as (r0 & Hr0 & Hre & Hrw). destruct (ok_replica _ Hs _ _ Hr0) as (_ & Hrun & _).
    split; [|exists r0; split; [done|apply Hre]]. destruct Hre as ((_ & _ & E & _) & _ & [[E1 E2]|[E1 E2]] & _);
      unfold runs in *; cbn; rewrite E1, E2; [by rewrite E|]. exists v. split; [done|]. by rewrite Hrw.
  - intros r r'. rewrite Hrs. intros [Hr|Hr]%elem_of_app [Hr'|Hr']%elem_of_app E.
    + assert (r = r') as ->; [|by repeat split; try lia].
      destruct (Hstored r Hr) as (r0 & Hr0 & (_ & Eo & _) & _), (Hstored r' Hr') as (r1 & Hr1 & (_ & Eo' & _) & _).
      rewrite E in Hr0. assert (r0 = r1) as -> by congruence.
      eapply same_ordinal; [exact Hnd|apply elem_of_app; by left..|congruence].
    + destruct (Hstored r Hr) as (r0 & Hr0 & _). rewrite E, (Hnew r' Hr') in Hr0. done.
    + destruct (Hstored r' Hr') as (r0 & Hr0 & _). rewrite <- E, (Hnew r Hr) in Hr0. done.
    + destruct (Hmade r Hr) as (m & _ & F1%for_ordinal_Ok & _), (Hmade r' Hr') as (m' & _ & F2%for_ordinal_Ok & _).
      unfold same_replica. destruct_and?. split_and!; [congruence..|].
      match goal with H1 : _ = _, H2 : _ = _ |- (?a <= ?b)%N => assert (a = b) by congruence; lia end.
Qed.

Lemma reconfigure_replica_set_changes event_id write s s' x :
  reconfigure_replica_set event_id write s = (s', x) -> consistent s -> rtc change s s'.
Proof.
  intros E Hs. unfold reconfigure_replica_set in E. destruct write as [o w ? ? ? ? ? ? ?]. paths E.
  match goal with H : plan_replica_set_reconfiguration _ _ ?v _ _ _ _ _ _ = Ok _ |- _ => rename v into revision; 
    apply plan_Ok in H as (_ & Hvw & Hc & _ & old & news & newms & Hrs & Hms & Hold & Hnews & _ & Hnd & _) end.
  match goal with H : state_workload _ _ _ = Ok _ |- _ => apply state_workload_Ok in H as [Hw Ho] end.
  match goal with H : for_each _ _ = Ok _ |- _ => rename H into Hfresh end.
  match goal with H : stored_control _ _ _ = Some _ |- _ => rename H into Hcontrol end.
  match goal with H : revisions s !! _ = Some revision |- _ => rename H into Hv end.
  destruct (ok_revision _ Hs _ _ Hv) as [Hvid _]. rewrite <- Hvid in Hv. destruct (ok_workload _ Hs _ _ Hw) as [Hwid _].
  cbn in Hrs, Hms, Hold, Hc. etrans; [eapply (plan_changes s o w revision); try eassumption; [congruence|]|].
  { rewrite for_each_Ok in Hfresh. eapply Forall_impl; [exact Hfresh|]. cbn. intros m Hm.
    destruct (replica_members s !! _); [done|done]. }
  unfold stored_control in Hcontrol. apply bind_Some in Hcontrol as (c & Hc0 & Hc1). case_bool_decide; simplify_eq.
  apply on_copy_Ok, reconfigure_kept in Hc. destruct (ok_control _ Hs _ _ Hc0) as [Hcid _].
  pose proof Hc as [Hcid' _]. rewrite Hcid in Hcid'. rewrite Hcid'.
  eapply rtc_l; [eapply ch_control; [exact Hc0|exact Hc]|]. finish.
Qed.
End calls.
