(* ===== verification/WorkloadHistory.v ===== *)
(** * The history of a workload repository

    The creation of a deployment as changes of [WorkloadProtocol]; histories of calls; and what holds in
    every state they reach. *)

From Stdlib Require Import ZArith NArith Lia String.
From stdpp Require Import gmap relations.
From S2P Require Import Prelude RustStd BTreeMap External Text SharedKernel Repositories Workloads ServiceTemplates.
From S2P Require Import WorkloadRevisions Deployments Replicas WorkloadControls PlacementGroups WorkloadOperations.
From S2P Require Import WorkloadEvents RuntimeBindings ReplicaSets ReplicaMaterialization WorkloadRepository.
From S2P Require Import WorkloadReplicaRepository WorkloadProtocol WorkloadCalls WorkloadReplicaCalls ReplicaSetPlans.
Import WorkloadState InMemoryWorkloadRepository WorkloadReplicaRepository WorkloadProtocol.

(** ** Creation of a deployment *)
Section creation.
Context `{External} `{ReleaseContract}.
Implicit Types (s : WorkloadState.t) (v : WorkloadRevision.t) (r : WorkloadReplica.t) (d : Deployment.t)
  (b : DeploymentReplicaBinding.t).

(** What the callers of [create_deployment] generate: a deployment from its lifecycle, and for a new
    workload an identifier whose derived replica identifiers are unused. *)
Definition fresh_identities s (workload : Workload.t) : Prop :=
  s.(workloads) !! workload.(Workload.id) = None ->
  forall o i, WorkloadReplica.deterministic_id workload.(Workload.id) o = Ok i ->
    s.(replicas) !! i = None /\ s.(replica_members) !! i = None.

Lemma new_replicas_Ok workload v os rs ms :
  new_replicas workload v os = Ok (rs, ms) -> Forall2 (made workload v) rs ms /\ map WorkloadReplica.ordinal rs = os.
Proof.
  revert rs ms. induction os as [|o os IH]; intros rs ms; cbn -[WorkloadReplica.for_ordinal]; [by intros [= <- <-]|].
  rewrite result_bind_Ok. intros (r & Hr%map_err_Ok & E). rewrite result_bind_Ok in E.
  destruct E as (m & Hm%map_err_Ok & E). rewrite result_bind_Ok in E. destruct E as ([rs' ms'] & E & [= <- <-]).
  apply IH in E as [Hmade <-]. pose proof (for_ordinal_Ok _ _ _ _ Hr) as (_ & Ho & _). cbn. rewrite Ho. split; [|done].
  constructor; [|done]. split; [by rewrite Ho|done].
Qed.

Lemma binding_create_Ok d v r m b :
  DeploymentReplicaBinding.create d v r m = Ok b ->
  lineage d b /\ b.(DeploymentReplicaBinding.replica_id) = r.(WorkloadReplica.id)
  /\ b.(DeploymentReplicaBinding.replica_generation) = r.(WorkloadReplica.generation)
  /\ b.(DeploymentReplicaBinding.member_id) = m.(WorkloadReplicaMember.id)
  /\ m.(WorkloadReplicaMember.replica_id) = r.(WorkloadReplica.id)
  /\ r.(WorkloadReplica.workload_id) = d.(Deployment.workload_id).
Proof.
  unfold DeploymentReplicaBinding.create. rewrite result_bind_Ok. intros (uid & _ & E).
  cbn zeta in E. rewrite then_Ok in E. destruct E as [E [= <-]].
  unfold DeploymentReplicaBinding.validate_against, DeploymentReplicaBinding.validate_common,
    DeploymentReplicaBinding.validate_lineage in E.
  rewrite !then_Ok in E. destruct E as (((_ & (_ & E)) & _) & _). rewrite fail_if_Ok in E.
  rewrite !orb_false_iff, !negb_false_iff, !bool_decide_eq_true in E. destruct_and?.
  unfold lineage. by split_and!.
Qed.

Lemma control_create_Ok workload spec c :
  WorkloadControl.create workload spec = Ok c ->
  c.(WorkloadControl.workload_id) = workload.(Workload.id)
  /\ c.(WorkloadControl.organization_id) = workload.(Workload.organization_id).
Proof.
  unfold WorkloadControl.create. rewrite then_Ok. cbn zeta. rewrite then_Ok. by intros (_ & _ & [= <-]).
Qed.

(** A deployment of the current generation of a replica, with its binding. *)
Lemma deployed_changes s d v r m b :
  DeploymentReplicaBinding.create d v r m = Ok b -> DeploymentLifecycle.reachable d ->
  s.(deployments) !! d.(Deployment.id) = None -> s.(deployment_replica_bindings) !! d.(Deployment.id) = None ->
  owned s d.(Deployment.organization_id) d.(Deployment.workload_id) ->
  has s.(revisions) d.(Deployment.revision_id)
    (fun v => v.(WorkloadRevision.workload_id) = d.(Deployment.workload_id)) ->
  has s.(replicas) r.(WorkloadReplica.id) (fun r' =>
    r'.(WorkloadReplica.workload_id) = r.(WorkloadReplica.workload_id)
    /\ r'.(WorkloadReplica.generation) = r.(WorkloadReplica.generation)) ->
  (forall i b', s.(deployment_replica_bindings) !! i = Some b' ->
     b'.(DeploymentReplicaBinding.replica_id) = r.(WorkloadReplica.id) ->
     b'.(DeploymentReplicaBinding.replica_generation) <> r.(WorkloadReplica.generation)) ->
  member_of s m.(WorkloadReplicaMember.replica_id) m.(WorkloadReplicaMember.id) ->
  rtc change s (s <| deployments := <[d.(Deployment.id) := d]> s.(deployments) |>
                  <| deployment_replica_bindings := <[d.(Deployment.id) := b]> s.(deployment_replica_bindings) |>
                  <| deployment_replica_member_bindings :=
                    <[(d.(Deployment.id), b.(DeploymentReplicaBinding.member_id)) := b]>
                      s.(deployment_replica_member_bindings) |>).
Proof.
  intros (Hl & Hbr & Hbg & Hbm & Hmr & Hrw)%binding_create_Ok Hreach Hd Hb Ho Hv (r' & Hr & Hrw' & Hrg') Hfresh Hm.
  eapply rtc_l; [eapply (ch_new_deployment s d b r'); try done|].
  - by rewrite Hbr.
  - congruence.
  - congruence.
  - by rewrite Hbr, Hbg.
  - by rewrite Hbr, Hbm, <- Hmr.
  - eapply rtc_l; [eapply ch_member_binding; [cbn; apply lookup_insert_eq|by repeat split|]|finish].
    by rewrite Hbr, Hbm, <- Hmr.
Qed.

(** The next revision of a stored workload. *)
Lemma advance_changes s request workload plan d v b r m :
  consistent s -> s.(workloads) !! workload.(Workload.id) = Some workload ->
  advance_workload s request workload = Ok plan -> request.(CreateDeploymentBundle.revision) = v ->
  request.(CreateDeploymentBundle.workload) = workload ->
  head plan.(DeploymentPlan.replicas) = Some r -> head plan.(DeploymentPlan.members) = Some m ->
  v.(WorkloadRevision.workload_id) = workload.(Workload.id) ->
  d.(Deployment.organization_id) = workload.(Workload.organization_id) ->
  d.(Deployment.workload_id) = workload.(Workload.id) -> d.(Deployment.revision_id) = v.(WorkloadRevision.id) ->
  next_generation s workload.(Workload.id) = Ok v.(WorkloadRevision.generation) ->
  s.(revisions) !! v.(WorkloadRevision.id) = None ->
  s.(deployments) !! d.(Deployment.id) = None -> s.(deployment_replica_bindings) !! d.(Deployment.id) = None ->
  DeploymentLifecycle.reachable d -> DeploymentReplicaBinding.create d v r m = Ok b ->
  forall controls', controls' = s.(controls) \/ controls' = <[workload.(Workload.id) := plan.(DeploymentPlan.control)]> s.(controls) ->
  rtc change s
    (s <| controls := controls' |>
       <| replicas := put_all WorkloadReplica.id plan.(DeploymentPlan.replicas) s.(replicas) |>
       <| revisions := <[v.(WorkloadRevision.id) := v]> s.(revisions) |>
       <| deployments := <[d.(Deployment.id) := d]> s.(deployments) |>
       <| deployment_replica_bindings := <[d.(Deployment.id) := b]> s.(deployment_replica_bindings) |>
       <| deployment_replica_member_bindings :=
         <[(d.(Deployment.id), b.(DeploymentReplicaBinding.member_id)) := b]> s.(deployment_replica_member_bindings) |>).
Proof.
  intros Hs Hw Hplan Hreqv Hreqw Hr Hm Hvw Hdo Hdw Hdv Hgen Hv Hd Hb Hreach Hbind controls' Hc.
  unfold advance_workload in Hplan. rewrite Hreqv in Hplan. destruct (_ != _) in Hplan; [done|].
  destruct (any _ _) in Hplan; [done|]. rewrite result_bind_Ok in Hplan. destruct Hplan as (c & Hc0%some_or_Ok & E).
  rewrite result_bind_Ok in E. destruct E as ([c' changed] & Hc'%map_err_Ok & E).
  rewrite result_bind_Ok in E. destruct E as (i & [= <-] & E). rewrite result_bind_Ok in E.
  destruct E as (r0 & Hr0%some_or_Ok & E). rewrite result_bind_Ok in E. destruct E as (r' & Hr'%map_err_Ok & E).
  rewrite result_bind_Ok in E. destruct E as (m' & Hm'%some_or_Ok & [= <-]). cbn in Hr, Hm, Hc.
  injection Hr as ->. injection Hm as ->. apply on_copy_Ok in Hr'.
  set (k := ReplicaLifecycle.Advance v v.(WorkloadRevision.created_at)) in *.
  pose proof (replica_kept k _ _ Hr') as Hk. pose proof (replica_revision k _ _ Hr') as (_ & Hrv & Hrg & Hlt). cbn in Hrv.
  destruct (ok_replica _ Hs _ _ Hr0) as (Hid & _ & Hown & Hmem).
  assert (r.(WorkloadReplica.id) = workload.(Workload.id)) as Erid by (destruct Hk as [-> _]; exact Hid).
  trans (s <| controls := controls' |>).
  { destruct Hc as [->| ->]; [finish|]. apply rtc_once. eapply ch_control; [exact Hc0|].
    apply on_clone_Ok in Hc'. by eapply authorize_kept. }
  eapply rtc_l; [apply (ch_new_revision _ v); cbn; [done|rewrite Hvw; by eexists|by rewrite Hvw]|].
  assert (r.(WorkloadReplica.workload_id) = d.(Deployment.workload_id)) as Erw by (by apply binding_create_Ok in Hbind as (_ & _ & _ & _ & _ & ?)).
  eapply rtc_l; [eapply (ch_replica _ r.(WorkloadReplica.id) r0 r); cbn; [by rewrite Erid|done|]|].
  { right. exists v. cbn. rewrite Hrv, Hrg, lookup_insert_eq. split; [done|]. split; [congruence|done]. }
  etrans; [eapply deployed_changes; [exact Hbind|done|done|done|..]; cbn|finish].
  - rewrite Hdo, Hdw. exists workload. by split.
  - rewrite Hdv. apply has_insert. congruence.
  - by apply has_insert.
  - intros j b' Hj Hrep E. destruct (ok_binding _ Hs _ _ Hj) as (_ & (r1 & Hr1 & _ & Hle) & _).
    rewrite Hrep, Erid in Hr1. assert (r1 = r0) as -> by congruence. lia.
  - apply binding_create_Ok in Hbind as (_ & _ & _ & _ & Emr & _). rewrite Erid in Hm'.
    pose proof (proj1 (ok_member _ Hs _ _ Hm')) as Em. exists m. cbn. by rewrite Em.
Qed.

(** The first revision of a new workload. *)
Lemma new_workload_changes s request workload plan d v b r m :
  consistent s -> s.(workloads) !! workload.(Workload.id) = None -> fresh_identities s workload ->
  new_workload s request = Ok plan -> request.(CreateDeploymentBundle.revision) = v ->
  request.(CreateDeploymentBundle.workload) = workload ->
  request.(CreateDeploymentBundle.control).(WorkloadControlSpec.placement_policy)
    .(EffectivePlacementPolicy.desired_replicas) <> 0%N ->
  head plan.(DeploymentPlan.replicas) = Some r -> head plan.(DeploymentPlan.members) = Some m ->
  v.(WorkloadRevision.workload_id) = workload.(Workload.id) ->
  d.(Deployment.organization_id) = workload.(Workload.organization_id) ->
  d.(Deployment.workload_id) = workload.(Workload.id) -> d.(Deployment.revision_id) = v.(WorkloadRevision.id) ->
  next_generation s workload.(Workload.id) = Ok v.(WorkloadRevision.generation) ->
  s.(revisions) !! v.(WorkloadRevision.id) = None ->
  s.(deployments) !! d.(Deployment.id) = None -> s.(deployment_replica_bindings) !! d.(Deployment.id) = None ->
  DeploymentLifecycle.reachable d -> DeploymentReplicaBinding.create d v r m = Ok b ->
  rtc change s
    (s <| names := <[name_key workload := workload.(Workload.id)]> s.(names) |>
       <| workloads := <[workload.(Workload.id) := workload]> s.(workloads) |>
       <| controls := <[workload.(Workload.id) := plan.(DeploymentPlan.control)]> s.(controls) |>
       <| replica_members := put_all WorkloadReplicaMember.id plan.(DeploymentPlan.members) s.(replica_members) |>
       <| replicas := put_all WorkloadReplica.id plan.(DeploymentPlan.replicas) s.(replicas) |>
       <| revisions := <[v.(WorkloadRevision.id) := v]> s.(revisions) |>
       <| deployments := <[d.(Deployment.id) := d]> s.(deployments) |>
       <| deployment_replica_bindings := <[d.(Deployment.id) := b]> s.(deployment_replica_bindings) |>
       <| deployment_replica_member_bindings :=
         <[(d.(Deployment.id), b.(DeploymentReplicaBinding.member_id)) := b]> s.(deployment_replica_member_bindings) |>).
Proof.
  intros Hs Hw Hfresh Hplan Hreqv Hreqw Hn Hr Hm Hvw Hdo Hdw Hdv Hgen Hv Hd Hb Hreach Hbind.
  unfold new_workload in Hplan. rewrite Hreqv, Hreqw in Hplan.
  destruct (names s !! name_key workload) eqn:Hname; [done|]. cbn in Hplan.
  rewrite result_bind_Ok in Hplan. destruct Hplan as (c & [Hcw Hco]%map_err_Ok%control_create_Ok & E).
  rewrite result_bind_Ok in E. destruct E as ([rs ms] & [Hmade Hos]%new_replicas_Ok & [= <-]). cbn in *.
  destruct rs as [|r0 rs]; [done|]. injection Hr as ->. destruct ms as [|m0 ms]; [done|]. injection Hm as ->.
  specialize (Hfresh Hw). pose proof (Forall2_cons_1 _ _ _ _ _ Hmade) as [[Hmr Hmm] Hrest].
  assert (r.(WorkloadReplica.ordinal) = 0%N) as Er0.
  { unfold ordinals in Hos. rewrite N.sub_0_r in Hos. destruct (N.to_nat _) eqn:En in Hos; [lia|]. by injection Hos as -> _. }
  pose proof (for_ordinal_Ok _ _ _ _ Hmr) as (Hdet & _ & Hrw & Hro & Hrv & Hrg & Hrgen & _).
  rewrite Er0 in Hdet. injection Hdet as Erid. symmetry in Erid. pose proof (for_replica_Ok _ _ _ Hmm) as (Emid & Emr & _).
  assert (Hall : forall r1, r1 ∈ r :: rs -> exists m1, m1 ∈ m :: ms /\ made workload v r1 m1).
  { intros r1 [i Hi]%list_elem_of_lookup. destruct (Forall2_lookup_l _ _ _ _ _ Hmade Hi) as (m1 & Hm1 & ?).
    exists m1. split; [by eapply list_elem_of_lookup_2|done]. }
  assert (Hnew : forall r1 m1, made workload v r1 m1 -> s.(replicas) !! r1.(WorkloadReplica.id) = None
            /\ s.(replica_members) !! r1.(WorkloadReplica.id) = None).
  { intros r1 m1 [(Hi & _)%for_ordinal_Ok _]. by apply (Hfresh (WorkloadReplica.ordinal r1)). }
  assert (Hsame : forall r1 m1 r2 m2, made workload v r1 m1 -> made workload v r2 m2 ->
            r1.(WorkloadReplica.id) = r2.(WorkloadReplica.id) -> same_replica r1 r2 /\ same_member m1 m2).
  { intros r1 m1 r2 m2 [F1%for_ordinal_Ok G1%for_replica_Ok] [F2%for_ordinal_Ok G2%for_replica_Ok] E.
    unfold same_replica, same_member. destruct_and?. split_and!; try congruence. apply N.eq_le_incl. congruence. }
  assert (Hmem : forall r1, r1 ∈ r :: rs ->
            has (put_all WorkloadReplicaMember.id (m :: ms) s.(replica_members)) r1.(WorkloadReplica.id)
              (fun m1 => m1.(WorkloadReplicaMember.replica_id) = r1.(WorkloadReplica.id))).
  { intros r1 (m1 & Hin & Hm1)%Hall. apply put_all_has.
    - intros m2 (r2 & _ & [_ F2%for_replica_Ok])%(Forall2_elem_r _ _ _ _ Hmade) E. destruct_and?. congruence.
    - left. exists m1. split; [done|]. by destruct Hm1 as [_ (-> & _)%for_replica_Ok]. }
  assert (v.(WorkloadRevision.generation) = 1%N) as Hg1.
  { destruct (ok_generations _ Hs workload.(Workload.id)) as [n Hg]. rewrite (next_generation_Ok _ _ n _ Hg Hgen).
    destruct (decide (n = 0%N)) as [->|]; [done|]. destruct (proj2 (Hg 1%N)) as (i & v' & Hv' & Ew & _); [lia|].
    apply (ok_revision _ Hs) in Hv' as [_ [w' Hw']]. congruence. }
  assert (Hcan : forall r1 m1, made workload v r1 m1 -> canonical_member r1 m1).
  { intros r1 m1 [F1%for_ordinal_Ok G1%for_replica_Ok]. unfold canonical_member. destruct_and?. split_and!; congruence. }
  eapply rtc_l; [apply (ch_new_workload _ workload c r m v); cbn; try done|].
  { by rewrite <- Erid; eapply Hnew. }
  { by rewrite <- Erid; eapply Hnew. }
  { by apply Hcan. }
  etrans; [eapply (changes_new_replicas _ rs ms); cbn|].
  { apply Forall2_same_length_lookup. split; [by eapply Forall2_length|]. intros j r1 m1 Hj Hj'.
    pose proof (Forall2_lookup_lr _ _ _ _ _ _ Hrest Hj Hj') as Hm1. pose proof Hm1 as [F1%for_ordinal_Ok _].
    destruct (Hnew _ _ Hm1) as [Hn1 Hn2]. destruct_and?. split_and!; [by apply Hcan|..].
    - exists v. cbn. split; [|split; congruence]. rewrite lookup_insert_Some. left. split; congruence.
    - exists workload. cbn. split; [|congruence]. rewrite lookup_insert_Some. left. split; congruence.
    - unfold placeable. cbn. destruct (decide (workload.(Workload.id) = r1.(WorkloadReplica.id))) as [E|]; [right|left].
      + rewrite E. split; apply has_insert; (eapply Hsame; [split; [exact Hmr|exact Hmm]|exact Hm1|congruence]).
      + by rewrite !lookup_insert_ne. }
  { intros r1 r2 Hr1 Hr2 E. destruct (Hall r1) as (m1 & _ & Hm1); [by right|].
    destruct (Hall r2) as (m2 & _ & Hm2); [by right|]. by eapply Hsame. }
  etrans; [eapply deployed_changes; [exact Hbind|done|done|done|..]; cbn|].
  - rewrite Hdo, Hdw. by apply has_insert.
  - rewrite Hdv. apply has_insert. congruence.
  - apply put_all_has; [|right; rewrite Erid; by apply has_insert].
    intros r1 Hr1 _. destruct (Hall r1) as (m1 & _ & [F1%for_ordinal_Ok _]); [by right|]. destruct_and?. split; congruence.
  - intros j b' Hj Hrep E. destruct (ok_binding _ Hs _ _ Hj) as (_ & (r1 & Hr1 & _) & _). rewrite Hrep in Hr1.
    destruct (Hnew r m) as [Hn1 _]; [done|]. congruence.
  - destruct (Hmem r) as (m1 & Hm1 & E1); [by left|]. rewrite <- Emid in Hm1. exists m1. cbn in Hm1 |- *.
    rewrite <- Erid, <- Emid. split; [exact Hm1|congruence].
  - apply rtc_once, ch_records. by repeat split; cbn; rewrite ?Emid, ?Erid.
Qed.

(** The state after the writes of a new deployment. *)
Definition deployment_stored (request : CreateDeploymentBundle.t) (plan : DeploymentPlan.t)
    (binding : DeploymentReplicaBinding.t) (is_new_workload : bool) s : WorkloadState.t :=
  let workload := request.(CreateDeploymentBundle.workload) in
  let v := request.(CreateDeploymentBundle.revision) in
  let d := request.(CreateDeploymentBundle.deployment) in
  s <| names := if is_new_workload then <[name_key workload := workload.(Workload.id)]> s.(names) else s.(names) |>
    <| workloads := if is_new_workload then <[workload.(Workload.id) := workload]> s.(workloads) else s.(workloads) |>
    <| controls := if is_new_workload || plan.(DeploymentPlan.control_changed)
                   then <[workload.(Workload.id) := plan.(DeploymentPlan.control)]> s.(controls) else s.(controls) |>
    <| replica_members := if is_new_workload
                          then put_all WorkloadReplicaMember.id plan.(DeploymentPlan.members) s.(replica_members)
                          else s.(replica_members) |>
    <| replicas := put_all WorkloadReplica.id plan.(DeploymentPlan.replicas) s.(replicas) |>
    <| revisions := <[v.(WorkloadRevision.id) := v]> s.(revisions) |>
    <| deployments := <[d.(Deployment.id) := d]> s.(deployments) |>
    <| deployment_replica_bindings := <[d.(Deployment.id) := binding]> s.(deployment_replica_bindings) |>
    <| deployment_replica_member_bindings :=
      <[(d.(Deployment.id), binding.(DeploymentReplicaBinding.member_id)) := binding]>
        s.(deployment_replica_member_bindings) |>
    <| outbox := s.(outbox) ++ [request.(CreateDeploymentBundle.event)] |>.

Lemma bind_store_deployment {A} request plan binding is_new (f : unit -> method WorkloadState.t A) s :
  (store_deployment request plan binding is_new ≫= f) s = f tt (deployment_stored request plan binding is_new s).
Proof.
  apply bind_Ok. unfold store_deployment. destruct request as [workload spec v d operation idem event]. cbn [CreateDeploymentBundle.workload].
  match goal with |- ((if is_new then ?a else ?b) ≫= _) s = _ =>
    assert ((if is_new then a else b) s =
      (s <| names := if is_new then <[name_key workload := workload.(Workload.id)]> s.(names) else s.(names) |>
         <| workloads := if is_new then <[workload.(Workload.id) := workload]> s.(workloads) else s.(workloads) |>
         <| controls := if is_new || plan.(DeploymentPlan.control_changed)
                        then <[workload.(Workload.id) := plan.(DeploymentPlan.control)]> s.(controls) else s.(controls) |>
         <| replica_members := if is_new
                               then put_all WorkloadReplicaMember.id plan.(DeploymentPlan.members) s.(replica_members)
                               else s.(replica_members) |>, Ok tt)) as E end.
  { destruct is_new; [|destruct (DeploymentPlan.control_changed plan); by destruct s].
    exact (each_put_member plan.(DeploymentPlan.members)
             (s <| names := <[name_key workload := workload.(Workload.id)]> s.(names) |>
                <| workloads := <[workload.(Workload.id) := workload]> s.(workloads) |>
                <| controls := <[workload.(Workload.id) := plan.(DeploymentPlan.control)]> s.(controls) |>)). }
  rewrite (bind_Ok _ _ _ _ _ E). clear E. destruct s. unfold deployment_stored. cbn.
  rewrite (bind_Ok _ _ _ _ _ (each_put_replica _ _)). cbn. reflexivity.
Qed.
#[local] Hint Rewrite @bind_store_deployment : methods.

(** Assumptions on the identifiers and the deployment of a request. *)
Definition generated_deployment s (request : CreateDeploymentBundle.t) : Prop :=
  fresh_identities s request.(CreateDeploymentBundle.workload)
  /\ DeploymentLifecycle.reachable request.(CreateDeploymentBundle.deployment).

Lemma advance_workload_same s request w plan :
  advance_workload s request w = Ok plan ->
  w = request.(CreateDeploymentBundle.workload) /\ plan.(DeploymentPlan.workload) = w.
Proof.
  unfold advance_workload. destruct (_ != _) eqn:E; [done|]. apply negb_false_iff, bool_decide_eq_true in E.
  destruct (any _ _); [done|]. rewrite result_bind_Ok. intros (c & _ & F). rewrite result_bind_Ok in F.
  destruct F as ([c' b] & _ & F). do 3 (rewrite result_bind_Ok in F; destruct F as (? & _ & F)).
  rewrite result_bind_Ok in F. by destruct F as (? & _ & [= <-]).
Qed.

Lemma new_workload_same s request plan :
  new_workload s request = Ok plan -> plan.(DeploymentPlan.workload) = request.(CreateDeploymentBundle.workload).
Proof.
  unfold new_workload. destruct (is_some _); [done|]. rewrite result_bind_Ok. intros (c & _ & F).
  rewrite result_bind_Ok in F. by destruct F as ([rs ms] & _ & [= <-]).
Qed.

(** A creation answers from the log, fails, or writes a plan for identifiers that are unused. *)
Lemma create_deployment_effect request s s' x :
  create_deployment request s = (s', x) ->
  (s' = s /\ forall response, x = Ok response ->
     exists answer, s.(idempotency) !! IdempotencyRequest.storage_key request.(CreateDeploymentBundle.idempotency)
                    = Some (request.(CreateDeploymentBundle.idempotency).(IdempotencyRequest.request_digest), answer)
                    /\ response = answer <| DeploymentBundle.replayed := true |>)
  \/ exists plan r m b response,
       let workload := request.(CreateDeploymentBundle.workload) in
       let v := request.(CreateDeploymentBundle.revision) in
       let d := request.(CreateDeploymentBundle.deployment) in
       let key := IdempotencyRequest.storage_key request.(CreateDeploymentBundle.idempotency) in
       let is_new := is_none (s.(workloads) !! workload.(Workload.id)) in
       s.(idempotency) !! key = None /\ validate_bundle request = Ok tt
       /\ request.(CreateDeploymentBundle.control).(WorkloadControlSpec.placement_policy)
            .(EffectivePlacementPolicy.desired_replicas) <> 0%N
       /\ match s.(workloads) !! workload.(Workload.id) with
          | Some w => advance_workload s request w
          | None => new_workload s request
          end = Ok plan
       /\ next_generation s plan.(DeploymentPlan.workload).(Workload.id) = Ok v.(WorkloadRevision.generation)
       /\ s.(revisions) !! v.(WorkloadRevision.id) = None
       /\ s.(deployments) !! d.(Deployment.id) = None
       /\ s.(deployment_replica_bindings) !! d.(Deployment.id) = None
       /\ head plan.(DeploymentPlan.replicas) = Some r /\ head plan.(DeploymentPlan.members) = Some m
       /\ DeploymentReplicaBinding.create d v r m = Ok b
       /\ x = Ok response
       /\ s' = (deployment_stored request plan b is_new s)
               <| WorkloadState.idempotency :=
                 <[key := (request.(CreateDeploymentBundle.idempotency).(IdempotencyRequest.request_digest), response)]>
                   s.(idempotency) |>.
Proof.
  intros E. unfold create_deployment in E.
  destruct request as [workload spec v d operation idem event] eqn:Ereq. exec_call E.
  all: apply pair_equal_spec in E as [<- <-]; try (left; split; [done|by intros response ?]).
  { left. split; [done|]. intros response [= <-]. reflect_bools. subst. eauto. }
  repeat match goal with
  | H : some_or _ _ = Ok _ |- _ => apply some_or_Ok in H
  | H : map_err _ _ = Ok _ |- _ => apply map_err_Ok in H
  | H : (_ =? 0)%N = false |- _ => apply N.eqb_neq in H
  | H : _ != _ = false |- _ => apply negb_false_iff, bool_decide_eq_true in H
  | H : _ || _ = false |- _ => rewrite !orb_false_iff in H
  | u : unit |- _ => destruct u
  end.
  match goal with H : _ = Ok ?g, Hg : WorkloadRevision.generation v = ?g |- _ => rewrite <- Hg in H end.
  match goal with H : (_ /\ _) /\ _ |- _ => destruct H as [[?%is_some_false ?%is_some_false] ?%is_some_false] end.
  right. do 5 eexists. cbn. split_and!; first [eassumption | reflexivity].
Qed.

Lemma validate_bundle_Ok request :
  validate_bundle request = Ok tt ->
  let workload := request.(CreateDeploymentBundle.workload) in
  let v := request.(CreateDeploymentBundle.revision) in
  let d := request.(CreateDeploymentBundle.deployment) in
  v.(WorkloadRevision.workload_id) = workload.(Workload.id)
  /\ d.(Deployment.organization_id) = workload.(Workload.organization_id)
  /\ d.(Deployment.workload_id) = workload.(Workload.id) /\ d.(Deployment.revision_id) = v.(WorkloadRevision.id).
Proof.
  unfold validate_bundle. destruct request. rewrite !then_Ok. intros (_ & _ & _ & _ & Hv).
  destruct (_ || _) eqn:Eb in Hv; [done|]. rewrite !orb_false_iff, !negb_false_iff, !bool_decide_eq_true in Eb.
  destruct_and?. by split_and!.
Qed.

Lemma create_deployment_changes request s s' x :
  create_deployment request s = (s', x) -> consistent s -> generated_deployment s request -> rtc change s s'.
Proof.
  intros [[-> _]|(plan & r & m & b & response & _ & Hv & Hn & Hplan & Hgen & Hvn & Hdn & Hbn & Hr & Hm & Hbind & _ & ->)]%create_deployment_effect
    Hs [Hfresh Hreach]; [done|]. apply validate_bundle_Ok in Hv as (Hvw & Hdo & Hdw & Hdv).
  destruct (s.(workloads) !! _) as [w|] eqn:Hw; cbn [is_none].
  - apply advance_workload_same in Hplan as Hsame. destruct Hsame as [Ew Ep]. subst w. rewrite Ep in Hgen.
    pose proof (advance_changes s request _ plan _ _ b r m Hs Hw Hplan eq_refl eq_refl Hr Hm Hvw Hdo Hdw Hdv Hgen Hvn Hdn
      Hbn Hreach Hbind) as Hchanges.
    destruct (DeploymentPlan.control_changed plan) eqn:Ec;
      [etrans; [apply Hchanges; by right|]|etrans; [apply Hchanges; by left|]]; unfold deployment_stored; rewrite Ec; finish.
  - rewrite (new_workload_same _ _ _ Hplan) in Hgen.
    etrans; [exact (new_workload_changes s request _ plan _ _ b r m Hs Hw Hfresh Hplan eq_refl eq_refl Hn Hr Hm Hvw Hdo Hdw
      Hdv Hgen Hvn Hdn Hbn Hreach Hbind)|]. clear. destruct s, request. cbn. finish.
Qed.
End creation.

(** ** Histories *)
Module WorkloadHistory.

(** The calls of the repository that write, with the identifiers they are given. *)
Inductive call :=
| CreateDeployment (request : CreateDeploymentBundle.t)
| RequestDeploymentCancellation (request : RequestDeploymentCancellationBundle.t)
| RequestWorkloadStop (request : RequestWorkloadStopBundle.t)
| CompleteWorkloadStop (organization_id : OrganizationId) (workload_id : WorkloadId) (expected_version : N) (at' : Time)
| ReconfigureReplicaSet (event_id : Uuid) (write : ReconfigureReplicaSetWrite.t)
| BindRuntimeExecution (binding : DeploymentRuntimeExecutionBinding.t)
| ResolveRevision (organization_id : OrganizationId) (revision_id : WorkloadRevisionId) (artifact : OciArtifact.t)
    (at' : Time)
| MarkResolving (deployment_id : DeploymentId) (expected_version : N) (at' : Time)
| MarkDispatched (deployment_id : DeploymentId) (expected_version : N) (command_id : NodeCommandId) (at' : Time)
| MarkVerifying (deployment_id : DeploymentId) (expected_version : N) (at' : Time)
| AssignNode (deployment_id : DeploymentId) (expected_version : N) (node_id : NodeId) (at' : Time)
| Activate (event_id : Uuid) (deployment_id : DeploymentId) (expected_version : N) (retirement_required : bool) (at' : Time)
| Fail (event_id : Uuid) (deployment_id : DeploymentId) (expected_version : N) (reason : string) (at' : Time)
| DispatchRetirement (deployment_id : DeploymentId) (expected_version : N) (command_id : NodeCommandId) (at' : Time)
| CompleteRetirement (deployment_id : DeploymentId) (expected_version : N) (at' : Time)
| MarkCancellationRequested (deployment_id : DeploymentId) (expected_version : N) (at' : Time)
| BeginCleanup (deployment_id : DeploymentId) (expected_version : N) (command_id : NodeCommandId) (at' : Time)
| RetryCleanup (deployment_id : DeploymentId) (expected_version : N) (command_id : NodeCommandId) (at' : Time)
| Cancel (deployment_id : DeploymentId) (expected_version : N) (at' : Time)
| MaterializePlacementGroup (write : WorkloadPlacementGroupWrite.t)
| SchedulePlacementGroup (write : PlacementGroupSchedulingWrite.t)
| CancelPlacementGroup (write : PlacementGroupCancellationWrite.t)
| MaterializeReplicaDeployment (event_id : Uuid) (candidate : ReplicaDeploymentCandidate.t) (at' : Time)
| RequestReplicaEvacuation (event_id : Uuid) (request : ReplicaEvacuationRequest.t)
| DispatchReplicaRetirement (dispatch : ReplicaRetirementDispatch.t)
| RecordReplicaRuntimeFenced (fence : ReplicaRuntimeFence.t) (writer_fence : option WorkloadWriterFenceCommit.t)
| CompleteReplicaRetirement (event_id : Uuid) (completion : ReplicaRetirementCompletion.t).

Section history.
Context `{External} `{ReleaseContract}.
Implicit Types (s : WorkloadState.t).

Definition ignore {A} (m : method WorkloadState.t A) : method WorkloadState.t unit := fun s =>
  let '(s', x) := m s in (s', match x with Ok _ => Ok tt | Err e => Err e end).

Definition perform (c : call) : method WorkloadState.t unit :=
  match c with
  | CreateDeployment request => ignore (create_deployment request)
  | RequestDeploymentCancellation request => ignore (request_deployment_cancellation request)
  | RequestWorkloadStop request => ignore (request_workload_stop request)
  | CompleteWorkloadStop o w v t => ignore (complete_workload_stop o w v t)
  | ReconfigureReplicaSet e write => ignore (reconfigure_replica_set e write)
  | BindRuntimeExecution binding => ignore (bind_deployment_runtime_execution binding)
  | ResolveRevision o i artifact t => ignore (resolve_revision o i artifact t)
  | MarkResolving i v t => ignore (mark_resolving i v t)
  | MarkDispatched i v command t => ignore (mark_dispatched i v command t)
  | MarkVerifying i v t => ignore (mark_verifying i v t)
  | AssignNode i v node t => ignore (assign_node i v node t)
  | Activate e i v required t => ignore (activate e i v required t)
  | Fail e i v reason t => ignore (fail e i v reason t)
  | DispatchRetirement i v command t => ignore (dispatch_retirement i v command t)
  | CompleteRetirement i v t => ignore (complete_retirement i v t)
  | MarkCancellationRequested i v t => ignore (mark_cancellation_requested i v t)
  | BeginCleanup i v command t => ignore (begin_cleanup i v command t)
  | RetryCleanup i v command t => ignore (retry_cleanup i v command t)
  | Cancel i v t => ignore (cancel i v t)
  | MaterializePlacementGroup write => ignore (materialize_placement_group write)
  | SchedulePlacementGroup write => ignore (schedule_placement_group write)
  | CancelPlacementGroup write => ignore (cancel_placement_group write)
  | MaterializeReplicaDeployment e candidate t => ignore (materialize_replica_deployment e candidate t)
  | RequestReplicaEvacuation e request => ignore (request_replica_evacuation e request)
  | DispatchReplicaRetirement dispatch => ignore (dispatch_replica_retirement dispatch)
  | RecordReplicaRuntimeFenced fence writer => ignore (record_replica_runtime_fenced fence writer)
  | CompleteReplicaRetirement e completion => ignore (complete_replica_retirement e completion)
  end.

(** The only assumption on the callers: what they generate for a new deployment is fresh. *)
Definition generated s (c : call) : Prop :=
  match c with CreateDeployment request => generated_deployment s request | _ => True end.

Inductive reachable : WorkloadState.t -> Prop :=
| reach_empty : reachable WorkloadState.empty
| reach_call s c : reachable s -> generated s c -> reachable (run_state (perform c) s).

(** The states a history goes through after a state. *)
Inductive later s : WorkloadState.t -> Prop :=
| later_refl : later s s
| later_call s' c : later s s' -> generated s' c -> later s (run_state (perform c) s').

Lemma ignore_eq {A} (m : method WorkloadState.t A) s : exists x, m s = (run_state (ignore m) s, x).
Proof. unfold run_state, ignore. destruct (m s) as [s' x]. by exists x. Qed.

(** Every call is a sequence of changes of the protocol. *)
Lemma perform_changes c s : consistent s -> generated s c -> rtc change s (run_state (perform c) s).
Proof.
  intros Hs Hg. destruct c; cbn [perform];
    match goal with |- context [ignore ?m] => destruct (ignore_eq m s) as [x E] end.
  - by eapply create_deployment_changes.
  - by eapply request_deployment_cancellation_changes.
  - by eapply request_workload_stop_changes.
  - by eapply complete_workload_stop_changes.
  - by eapply reconfigure_replica_set_changes.
  - by eapply bind_deployment_runtime_execution_changes.
  - by eapply resolve_revision_changes.
  - by eapply (mutate_desired_changes _ _ (DeploymentLifecycle.Resolve _)).
  - by eapply (mutate_desired_changes _ _ (DeploymentLifecycle.Dispatch _ _)).
  - by eapply (mutate_desired_changes _ _ (DeploymentLifecycle.Verify _)).
  - by eapply assign_node_changes.
  - by eapply activate_changes.
  - by eapply fail_changes.
  - by eapply (mutate_changes _ _ (DeploymentLifecycle.DispatchRetirement _ _)).
  - by eapply (mutate_changes _ _ (DeploymentLifecycle.CompleteRetirement _)).
  - by eapply (mutate_changes _ _ (DeploymentLifecycle.RequestCancellation _)).
  - by eapply (mutate_changes _ _ (DeploymentLifecycle.BeginCleanup _ _)).
  - by eapply (mutate_changes _ _ (DeploymentLifecycle.RetryCleanup _ _)).
  - by eapply (mutate_changes _ _ (DeploymentLifecycle.Cancel _)).
  - by eapply materialize_placement_group_changes.
  - by eapply schedule_placement_group_changes.
  - by eapply cancel_placement_group_changes.
  - by eapply materialize_replica_deployment_changes.
  - by eapply request_replica_evacuation_changes.
  - by eapply dispatch_replica_retirement_changes.
  - by eapply record_replica_runtime_fenced_changes.
  - by eapply complete_replica_retirement_changes.
Qed.

Lemma reachable_consistent s : reachable s -> consistent s.
Proof.
  induction 1 as [|s c _ IH Hg]; [apply consistent_empty|]. eapply changes_consistent; [exact IH|by apply perform_changes].
Qed.
End history.
End WorkloadHistory.
