(* ===== verification/WorkloadGuarantees.v ===== *)
(** * Guarantees of the workload repository

    What holds in every state that calls of the repository reach, and across histories: records are
    never lost, answers are exactly once, members leave their node only when it is safe, and only the
    desired generation of a replica makes progress. *)

From Stdlib Require Import ZArith NArith Lia String.
From stdpp Require Import gmap relations.
From S2P Require Import Prelude RustStd BTreeMap External Text SharedKernel Repositories Workloads ServiceTemplates.
From S2P Require Import WorkloadRevisions Deployments Replicas WorkloadControls PlacementGroups WorkloadOperations.
From S2P Require Import WorkloadEvents RuntimeBindings ReplicaSets ReplicaMaterialization WorkloadRepository.
From S2P Require Import WorkloadReplicaRepository WorkloadProtocol WorkloadCalls WorkloadReplicaCalls ReplicaSetPlans.
From S2P Require Import WorkloadHistory.
Import WorkloadState InMemoryWorkloadRepository WorkloadReplicaRepository WorkloadProtocol WorkloadHistory.

(** A call by its paths: the state each of them leaves. *)
Ltac run_paths E := exec_call E; apply pair_equal_spec in E as [<- _].

Section frames.
Context `{External} `{ReleaseContract}.
Implicit Types (s : WorkloadState.t).

(** ** Calls that change a record in place *)
Lemma mutate_error i v o s s' e : mutate i v (DeploymentLifecycle.step o) s = (s', Err e) -> s' = s.
Proof.
  intros E. unfold mutate in E. autorewrite with methods in E.
  destruct (some_or _ _) as [d|] eqn:Hd; [|by injection E as <- _]. apply some_or_Ok in Hd.
  destruct (DeploymentLifecycle.step o d) as [d' [[]|e']] eqn:Ed; exec_call E; apply pair_equal_spec in E as [<- ?]; try done.
  apply DeploymentLifecycle.step_error_unchanged in Ed as ->. rewrite insert_id by done. by destruct s.
Qed.

Lemma resolve_revision_error o i artifact t s s' e : resolve_revision o i artifact t s = (s', Err e) -> s' = s.
Proof.
  intros E. unfold resolve_revision in E. autorewrite with methods in E.
  destruct (some_or _ _) as [v|] eqn:Hv; [|by injection E as <- _]. apply some_or_Ok in Hv.
  autorewrite with methods in E. destruct (state_workload _ _ _); [|by injection E as <- _].
  destruct (WorkloadRevision.resolve artifact t v) as [v' [[]|e']] eqn:Ev; exec_call E; apply pair_equal_spec in E as [<- ?]; try done.
  assert (v' = v) as -> by (unfold WorkloadRevision.resolve in Ev; run_method Ev; by simplify_eq/=).
  rewrite insert_id by done. by destruct s.
Qed.

(** ** Members *)
(** A fresh member is not a stored one. *)
Lemma put_all_placed l m k (P : WorkloadReplicaMember.t -> Prop) :
  has m k P -> (forall x, x ∈ l -> m !! x.(WorkloadReplicaMember.id) = None) -> has (put_all WorkloadReplicaMember.id l m) k P.
Proof.
  intros Hk Hl. apply put_all_has; [|by right]. intros x Hx <-. destruct Hk as (y & Hy & _). by rewrite (Hl x Hx) in Hy.
Qed.
(** A placed member that is placed again stays on its node. *)
Lemma place_stays node t m m' n :
  on_copy (WorkloadReplicaMember.place node t) m = Ok m' -> m.(WorkloadReplicaMember.node_id) = Some n ->
  m'.(WorkloadReplicaMember.node_id) = Some n.
Proof.
  intros E%on_copy_Ok Hn. unfold WorkloadReplicaMember.place, WorkloadReplicaMember.bump_placement,
    WorkloadReplicaMember.bump_version in E. run_method E; by simplify_eq/=.
Qed.

Lemma placed_group_stays s d t group placements bindings members placed k n :
  consistent s -> group_members s group = Ok members ->
  place_group d t (zip (zip (zip group.(WorkloadPlacementGroup.members) placements) members) bindings) = Ok placed ->
  has s.(replica_members) k (fun m => m.(WorkloadReplicaMember.node_id) = Some n) ->
  has (put_all WorkloadReplicaMember.id placed.*1 s.(replica_members)) k (fun m => m.(WorkloadReplicaMember.node_id) = Some n).
Proof.
  intros Hs Hmem%group_members_Ok Hplaced%place_group_Ok Hk. apply put_all_has; [|by right].
  intros m' Hm' <-. apply list_elem_of_fmap in Hm' as (y & -> & Hy).
  destruct (Forall2_elem_r _ _ _ _ Hplaced Hy) as ([[[p pl] m] b] & Hz%elem_of_zip_l%elem_of_zip_r & Hm & _).
  cbn [fst snd] in Hm. destruct (Forall2_elem_r _ _ _ _ Hmem Hz) as (p' & _ & Hp').
  pose proof (proj1 (member_moved (MemberLifecycle.Place _ _) _ _ Hm)) as Hid. rewrite (proj1 (ok_member _ Hs _ _ Hp')) in Hid.
  destruct Hk as (m0 & Hm0 & Hn). rewrite Hid, Hp' in Hm0. injection Hm0 as <-. by eapply place_stays.
Qed.

(** ** Where a placed member goes *)
Definition released s (c : call) (m : WorkloadReplicaMember.t) : Prop :=
  match c with
  | CompleteReplicaRetirement _ completion =>
    has s.(replicas) m.(WorkloadReplicaMember.replica_id) (fun r =>
      r.(WorkloadReplica.lifecycle) = WorkloadReplicaLifecycle.Retiring
      /\ is_some r.(WorkloadReplica.runtime_fenced_at) = true)
  | CancelPlacementGroup write =>
    has s.(deployments) write.(PlacementGroupCancellationWrite.deployment_id) (fun d =>
      d.(Deployment.status) = DeploymentStatus.Cancelling /\ d.(Deployment.command_id) = None
      /\ d.(Deployment.cleanup_command_id) = None)
  | _ => False
  end.

(** A group that was placed has a leader. *)
Lemma placed_leader_exists s i d t group placements members bindings placed node :
  group_members s group = Ok members -> group_bindings s i group = Ok bindings ->
  (len group.(WorkloadPlacementGroup.members) =? len placements)%N = true ->
  PlacementGroupMemberPlacement.node_id <$> head placements = Some node ->
  place_group d t (zip (zip (zip group.(WorkloadPlacementGroup.members) placements) members) bindings) = Ok placed ->
  is_Some (head (map snd placed)).
Proof.
  intros Hm%group_members_Ok%Forall2_length Hb%group_bindings_Ok%Forall2_length Hl Hn Hp%place_group_Ok%Forall2_length.
  apply N.eqb_eq in Hl. unfold len in Hl. rewrite !length_zip_with in Hp.
  destruct placements; [done|]. cbn in Hl, Hp. destruct placed; [cbn in Hp; lia|by eexists].
Qed.

(** What every call keeps: the answers it has given, the members on their nodes, and, when it fails, the
    state.  The exceptions are named. *)
Definition partial_write (c : call) : bool :=
  match c with RecordReplicaRuntimeFenced _ (Some _) => true | _ => false end.

Record kept s (c : call) s' (failed : bool) : Prop := {
  kept_answers : forall k x, s.(idempotency) !! k = Some x -> s'.(idempotency) !! k = Some x;
  kept_placed : forall k m n, s.(replica_members) !! k = Some m -> m.(WorkloadReplicaMember.node_id) = Some n ->
    has s'.(replica_members) k (fun m' => m'.(WorkloadReplicaMember.node_id) = Some n) \/ released s c m;
  kept_failed : failed = true -> partial_write c = false -> s' = s;
}.

Lemma kept_unchanged s c failed : kept s c s failed.
Proof. split; [done| |done]. intros k m n Hk Hn. left. by exists m. Qed.

Lemma kept_quiet s c s' :
  s'.(idempotency) = s.(idempotency) -> s'.(replica_members) = s.(replica_members) -> kept s c s' false.
Proof. intros Ei Em. split; [by rewrite Ei| |done]. intros k m n Hk Hn. left. rewrite Em. by exists m. Qed.

Lemma kept_members s c s' failed :
  (failed = true -> partial_write c = false -> s' = s) -> s'.(idempotency) = s.(idempotency) ->
  (forall k n, has s.(replica_members) k (fun m => m.(WorkloadReplicaMember.node_id) = Some n) ->
     has s'.(replica_members) k (fun m => m.(WorkloadReplicaMember.node_id) = Some n)) ->
  kept s c s' failed.
Proof. intros Hf Ei Hm. split; [by rewrite Ei| |done]. intros k m n Hk Hn. left. apply Hm. by exists m. Qed.

(** The paths of a call that leave the state, or the answers and the members. *)
Ltac quiet E := exec_call E; apply pair_equal_spec in E as [<- <-]; first [apply kept_unchanged | apply kept_quiet; reflexivity | idtac].

Lemma mutate_kept c i v o s s' x :
  mutate i v (DeploymentLifecycle.step o) s = (s', x) -> kept s c s' (negb (is_ok x)).
Proof.
  intros E. destruct x as [d|e]; [|apply mutate_error in E as ->; apply kept_unchanged]. unfold mutate in E.
  exec_call E; apply pair_equal_spec in E as [<- ?]; try done. apply kept_quiet; reflexivity.
Qed.

Lemma mutate_desired_kept c i v transition s s' x :
  mutate_desired i v transition s = (s', x) -> kept s c s' (negb (is_ok x)).
Proof. intros E. unfold mutate_desired in E. quiet E. Qed.

Lemma create_deployment_kept c request s s' x :
  create_deployment request s = (s', x) -> generated_deployment s request -> kept s c s' (negb (is_ok x)).
Proof.
  intros E [Hfresh _].
  apply create_deployment_effect in E as [[-> _]|(plan & r & m0 & b & response & Hnone & _ & _ & Hplan & _ & _ & _ & _ & _ & _ & _ & -> & ->)];
    [apply kept_unchanged|]. split; [| |done]; cbn.
  - intros k y Hk. rewrite lookup_insert_ne; [done|congruence].
  - intros k m n Hk Hn. left. unfold fresh_identities in Hfresh.
    destruct (s.(workloads) !! _) as [w|] eqn:Hw; cbn; [by exists m|]. apply put_all_placed; [by exists m|].
    unfold new_workload in Hplan. destruct (is_some _) in Hplan; [done|]. rewrite result_bind_Ok in Hplan.
    destruct Hplan as (c' & _ & E). rewrite result_bind_Ok in E.
    destruct E as ([rs ms] & [Hmade _]%new_replicas_Ok & [= <-]). cbn. intros y Hy.
    destruct (Forall2_elem_r _ _ _ _ Hmade Hy) as (r0 & _ & (Hid & _)%for_ordinal_Ok & (-> & _)%for_replica_Ok).
    by apply (Hfresh eq_refl) in Hid as [_ ?].
Qed.

Lemma reconfigure_replica_set_kept c event_id write s s' x :
  reconfigure_replica_set event_id write s = (s', x) -> kept s c s' (negb (is_ok x)).
Proof.
  intros E. unfold reconfigure_replica_set in E. destruct write. quiet E. apply kept_members; [done|done|].
  cbn. intros k n Hk. apply put_all_placed; [done|]. intros y Hy.
  match goal with Hf : for_each _ _ = Ok _ |- _ => rewrite for_each_Ok, Forall_forall in Hf; specialize (Hf y Hy); cbn in Hf;
    destruct (is_some _) eqn:Ei in Hf; [done|by apply is_some_false] end.
Qed.

Lemma assign_node_kept c i v node t s s' x :
  assign_node i v node t s = (s', x) -> consistent s -> kept s c s' (negb (is_ok x)).
Proof.
  intros E Hs. unfold assign_node in E. quiet E. apply kept_members; [done|done|]. cbn. intros k n Hk.
  match goal with Hm : some_or (replica_members s !! ?i) _ = Ok ?m0,
    Hp : map_err _ (on_copy (WorkloadReplicaMember.place _ _) ?m0) = Ok ?m1 |- _ =>
    apply some_or_Ok in Hm; apply map_err_Ok in Hp;
    pose proof (proj1 (member_moved (MemberLifecycle.Place _ _) _ _ Hp)) as Hid;
    rewrite (proj1 (ok_member _ Hs _ _ Hm)) in Hid; rewrite Hid; eapply has_update; [exact Hm|by eapply place_stays|done] end.
Qed.

Lemma materialize_placement_group_kept c write s s' x :
  materialize_placement_group write s = (s', x) -> kept s c s' (negb (is_ok x)).
Proof.
  intros E. unfold materialize_placement_group in E. quiet E. apply kept_members; [done|done|].
  cbn. intros k n Hk. apply put_all_placed; [done|]. intros y Hy. by eapply materialize_members_new.
Qed.

Lemma schedule_placement_group_kept write s s' x :
  schedule_placement_group write s = (s', x) -> consistent s -> kept s (SchedulePlacementGroup write) s' (negb (is_ok x)).
Proof.
  intros E Hs. unfold schedule_placement_group in E. destruct write. quiet E; apply kept_members; try done.
  all: try (cbn; intros k n Hk; by eapply placed_group_stays).
  intros _ _. exfalso.
  repeat match goal with Hx : _ || _ = false |- _ => rewrite !orb_false_iff, ?negb_false_iff in Hx; destruct_and? end.
  match goal with Hp : place_group _ _ _ = Ok _, Hn : some_or (_ <$> head _) _ = Ok _, Hh : some_or (head _) _ = Err _ |- _ =>
    apply some_or_Ok in Hn; destruct (placed_leader_exists _ _ _ _ _ _ _ _ _ _ ltac:(eassumption) ltac:(eassumption)
      ltac:(eassumption) Hn Hp) as [leader Hl]; by rewrite Hl in Hh end.
Qed.

Lemma cancel_placement_group_kept write s s' x :
  cancel_placement_group write s = (s', x) -> kept s (CancelPlacementGroup write) s' (negb (is_ok x)).
Proof.
  intros E. unfold cancel_placement_group in E. destruct write. quiet E. split; [done| |done].
  intros k m n _ _. right. 
  match goal with Hd : group_deployment _ _ _ = Ok ?d, Hc : _ || (Deployment.aggregate_version _ != _) = false |- _ =>
    apply group_deployment_Ok in Hd; rewrite !orb_false_iff, !negb_false_iff, !bool_decide_eq_true in Hc;
    destruct Hc as [[[? ?%is_some_false] ?%is_some_false] _]; by exists d end.
Qed.

Lemma record_replica_runtime_fenced_kept fence writer s s' x :
  record_replica_runtime_fenced fence writer s = (s', x) ->
  kept s (RecordReplicaRuntimeFenced fence writer) s' (negb (is_ok x)).
Proof.
  intros E. unfold record_replica_runtime_fenced in E. destruct fence, writer; quiet E.
  all: apply kept_members; cbn; done.
Qed.

Lemma complete_replica_retirement_kept event_id completion s s' x :
  complete_replica_retirement event_id completion s = (s', x) -> consistent s ->
  kept s (CompleteReplicaRetirement event_id completion) s' (negb (is_ok x)).
Proof.
  intros E Hs. apply complete_replica_retirement_effect in E
    as [->|(r & m0 & r' & m' & ev & o & -> & Hr & Hm0 & Hmr & Hret & Hf & Hm' & _ & _ & ->)]; [apply kept_unchanged|].
  split; [done| |done]. cbn. intros k m n Hk Hn. pose proof (proj1 (ok_member _ Hs _ _ Hm0)) as Hid.
  assert (m'.(WorkloadReplicaMember.id) = m0.(WorkloadReplicaMember.id)) as Eid.
  { destruct Hm' as [->|(node & t & Hm')]; [done|].
    by apply (member_moved (MemberLifecycle.ReleaseAfterFencing node t)) in Hm' as [? _]. }
  rewrite Eid, Hid. destruct (decide (k = completion.(ReplicaRetirementCompletion.member_id))) as [->|Hne].
  - right. assert (m0 = m) as -> by congruence. exists r. rewrite Hmr. split; [done|]. split; [done|]. apply Hf. by rewrite Hn.
  - left. exists m. by rewrite lookup_insert_ne.
Qed.

(** The result of a call whose answer is ignored. *)
Lemma ignored {A} (m : method WorkloadState.t A) s :
  exists x, m s = (run_state (ignore m) s, x) /\ is_ok x = is_ok (run_result (ignore m) s).
Proof. unfold run_state, run_result, ignore. destruct (m s) as [s' [a|e]]; by eexists. Qed.

Lemma workload_call_kept c s :
  consistent s -> generated s c -> kept s c (run_state (perform c) s) (negb (is_ok (run_result (perform c) s))).
Proof.
  intros Hs Hg. destruct c; cbn [perform];
    match goal with |- context [ignore ?m] => destruct (ignored m s) as (x & E & <-); revert E;
      generalize (run_state (ignore m) s); intros s' E end.
  - by eapply create_deployment_kept.
  - unfold request_deployment_cancellation in E. destruct request. quiet E.
  - unfold request_workload_stop in E. destruct request. quiet E.
  - unfold complete_workload_stop in E. quiet E.
  - by eapply reconfigure_replica_set_kept.
  - unfold bind_deployment_runtime_execution in E. quiet E.
  - destruct x as [v|e]; [|apply resolve_revision_error in E as ->; apply kept_unchanged]. unfold resolve_revision in E.
    exec_call E; apply pair_equal_spec in E as [<- ?]; try done. apply kept_quiet; reflexivity.
  - by eapply mutate_desired_kept.
  - by eapply mutate_desired_kept.
  - by eapply mutate_desired_kept.
  - by eapply assign_node_kept.
  - unfold activate in E. quiet E.
  - unfold fail in E. quiet E.
  - by eapply (mutate_kept _ _ _ (DeploymentLifecycle.DispatchRetirement _ _)).
  - by eapply (mutate_kept _ _ _ (DeploymentLifecycle.CompleteRetirement _)).
  - by eapply (mutate_kept _ _ _ (DeploymentLifecycle.RequestCancellation _)).
  - by eapply (mutate_kept _ _ _ (DeploymentLifecycle.BeginCleanup _ _)).
  - by eapply (mutate_kept _ _ _ (DeploymentLifecycle.RetryCleanup _ _)).
  - by eapply (mutate_kept _ _ _ (DeploymentLifecycle.Cancel _)).
  - by eapply materialize_placement_group_kept.
  - by eapply schedule_placement_group_kept.
  - by eapply cancel_placement_group_kept.
  - unfold materialize_replica_deployment in E. destruct candidate. quiet E.
  - unfold request_replica_evacuation in E. destruct request as [[] ? ?]. quiet E.
  - unfold dispatch_replica_retirement in E. destruct dispatch. quiet E.
  - by eapply record_replica_runtime_fenced_kept.
  - by eapply complete_replica_retirement_kept.
Qed.
End frames.

(** ** Records that stay *)
Record permanent (s s' : WorkloadState.t) : Prop := {
  same_workloads : forall i w, s.(workloads) !! i = Some w -> has s'.(workloads) i (same_workload w);
  same_revisions : forall i v, s.(revisions) !! i = Some v -> has s'.(revisions) i (same_revision v);
  same_replicas : forall i r, s.(replicas) !! i = Some r -> has s'.(replicas) i (same_replica r);
  same_members : forall i m, s.(replica_members) !! i = Some m -> has s'.(replica_members) i (same_member m);
  same_deployments : forall i d, s.(deployments) !! i = Some d -> has s'.(deployments) i (same_deployment d);
  same_bindings : forall i b, s.(deployment_replica_bindings) !! i = Some b ->
    has s'.(deployment_replica_bindings) i (same_binding b);
}.

#[export] Instance permanent_refl : Reflexive permanent.
Proof. intros s. split; intros i x Hx; exists x; split; try done; repeat split; lia. Qed.

Lemma has_trans {K} `{Countable K} {V} (m m' : gmap K V) (R : V -> V -> Prop) i x :
  Transitive R -> has m i (R x) -> (forall y, m !! i = Some y -> has m' i (R y)) -> has m' i (R x).
Proof. intros HR (y & Hy & Hxy) Hm. eapply has_impl; [|by apply Hm]. intros z Hz. by trans y. Qed.

#[export] Instance permanent_trans : Transitive permanent.
Proof.
  intros s1 s2 s3 [A1 A2 A3 A4 A5 A6] [B1 B2 B3 B4 B5 B6].
  split; intros i x Hx; eapply has_trans; eauto.
  - intros a b c. unfold same_workload. intuition congruence.
  - intros a b c. unfold same_revision. intuition congruence.
  - intros a b c (? & ? & ? & ?) (? & ? & ? & ?). repeat split; try congruence. lia.
  - intros a b c. unfold same_member. intuition congruence.
  - intros a b c. unfold same_deployment. intuition congruence.
  - intros a b c. unfold same_binding. intuition congruence.
Qed.

(** An update that keeps what a record stands for, and a new record. *)
Lemma has_updated {K} `{Countable K} {V} (m : gmap K V) (R : V -> V -> Prop) i x x' :
  Reflexive R -> m !! i = Some x -> R x x' -> forall j y, m !! j = Some y -> has (<[i := x']> m) j (R y).
Proof.
  intros HR Hi HRx j y Hj. destruct (decide (i = j)) as [<-|].
  - rewrite Hi in Hj. injection Hj as <-. by apply has_insert.
  - exists y. by rewrite lookup_insert_ne.
Qed.
Lemma has_added {K} `{Countable K} {V} (m : gmap K V) (R : V -> V -> Prop) i x' :
  Reflexive R -> m !! i = None -> forall j y, m !! j = Some y -> has (<[i := x']> m) j (R y).
Proof. intros HR Hi j y Hj. exists y. rewrite lookup_insert_ne; [done|congruence]. Qed.

#[export] Instance same_workload_refl : Reflexive same_workload. Proof. by repeat split. Qed.
#[export] Instance same_revision_refl : Reflexive same_revision. Proof. by repeat split. Qed.
#[export] Instance same_replica_refl : Reflexive same_replica. Proof. repeat split. lia. Qed.
#[export] Instance same_member_refl : Reflexive same_member. Proof. by repeat split. Qed.
#[export] Instance same_deployment_refl : Reflexive same_deployment. Proof. by repeat split. Qed.
#[export] Instance same_binding_refl : Reflexive same_binding. Proof. by repeat split. Qed.

Lemma has_same {K} `{Countable K} {V} (m : gmap K V) (R : V -> V -> Prop) :
  Reflexive R -> forall i x, m !! i = Some x -> has m i (R x).
Proof. intros HR i x Hx. by exists x. Qed.

Lemma change_permanent s s' : change s s' -> permanent s s'.
Proof.
  intros []; split; cbn; try (by apply has_same; apply _); try (by eapply has_updated; [apply _|..]);
    try (by apply has_added; [apply _|]).
  all: try match goal with Hr : same_records _ _ |- _ => destruct Hr as (E1 & E2 & E3 & E4 & E5 & E6 & E7 & E8 & E9);
         rewrite ?E1, ?E3, ?E4, ?E6, ?E7, ?E8; by apply has_same; apply _ end.
  eapply has_updated; [apply _|eassumption|apply step_same_deployment].
Qed.

Lemma changes_permanent s s' : rtc change s s' -> permanent s s'.
Proof. induction 1 as [|s1 s2 s3 H1 _ IH]; [done|]. trans s2; [by apply change_permanent|done]. Qed.

Section guarantees.
Context `{External} `{ReleaseContract}.
Implicit Types (s : WorkloadState.t).

Lemma later_reachable s s' : reachable s -> later s s' -> reachable s'.
Proof. intros Hs. induction 1 as [|s' c _ IH Hg]; [done|by constructor]. Qed.

Lemma later_permanent s s' : reachable s -> later s s' -> permanent s s'.
Proof.
  intros Hs. induction 1 as [|s' c Hl IH Hg]; [done|]. trans s'; [done|].
  apply changes_permanent, perform_changes; [|done]. eapply reachable_consistent, later_reachable; eauto.
Qed.

Lemma later_answers s s' k x :
  reachable s -> later s s' -> s.(idempotency) !! k = Some x -> s'.(idempotency) !! k = Some x.
Proof.
  intros Hs Hl Hk. induction Hl as [|s' c Hl IH Hg]; [done|]. eapply kept_answers; [|exact IH].
  apply workload_call_kept; [|done]. eapply reachable_consistent, later_reachable; eauto.
Qed.

(** The log of created deployments. *)
Lemma create_deployment_logged request s s' response :
  create_deployment request s = (s', Ok response) ->
  exists answer,
    s'.(idempotency) !! IdempotencyRequest.storage_key request.(CreateDeploymentBundle.idempotency)
    = Some (request.(CreateDeploymentBundle.idempotency).(IdempotencyRequest.request_digest), answer)
    /\ response <| DeploymentBundle.replayed := true |> = answer <| DeploymentBundle.replayed := true |>.
Proof.
  intros [[-> Hr]|(plan & r & m & b & answer & Hf)]%create_deployment_effect.
  - destruct (Hr _ eq_refl) as (answer & Ha & ->). by exists answer.
  - destruct Hf as (_ & _ & _ & _ & _ & _ & _ & _ & _ & _ & _ & [= ->] & ->). exists answer. cbn. by rewrite lookup_insert_eq.
Qed.

Lemma create_deployment_replays request s answer :
  s.(idempotency) !! IdempotencyRequest.storage_key request.(CreateDeploymentBundle.idempotency)
  = Some (request.(CreateDeploymentBundle.idempotency).(IdempotencyRequest.request_digest), answer) ->
  create_deployment request s = (s, Ok (answer <| DeploymentBundle.replayed := true |>)).
Proof.
  intros Ha. unfold create_deployment. destruct request as [? ? ? ? ? idem ?]. cbn in Ha. autorewrite with methods. rewrite Ha.
  by rewrite bool_decide_eq_true_2.
Qed.

Lemma create_deployment_refuses request s digest answer :
  request.(CreateDeploymentBundle.idempotency).(IdempotencyRequest.request_digest) <> digest ->
  s.(idempotency) !! IdempotencyRequest.storage_key request.(CreateDeploymentBundle.idempotency) = Some (digest, answer) ->
  create_deployment request s = (s, Err RepositoryError.IdempotencyConflict).
Proof.
  intros Hd Ha. unfold create_deployment. destruct request as [? ? ? ? ? idem ?]. cbn in Ha, Hd. autorewrite with methods. rewrite Ha.
  by rewrite bool_decide_eq_false_2.
Qed.

(** C2: Every state that calls of the repository reach is consistent: names and workloads correspond one to
    one; every control record, revision, replica and deployment refers to records that exist and agree
    with it; every replica has its canonical member and every member belongs to a stored replica of its
    workload; every deployment has a binding, to a replica of its workload and a member of that replica, and
    every binding of a member follows the binding of its deployment and names a stored member of its
    replica; every stored deployment is in a state its own lifecycle can reach, a
    generation of a replica has at most one deployment, and the generations of a workload's revisions
    are 1 to n without gaps or repetitions. *)
Theorem workload_repository_consistent s : reachable s -> consistent s.
Proof. apply reachable_consistent. Qed.

(** C1: Every call in a reachable state, whatever it answers, is a sequence of changes of the abstract
    protocol: it moves existing records without changing what they stand for, and adds records whose
    references exist and whose identifiers are unused.  A new workload comes with its first revision, its
    canonical replica and that replica's member, a new replica with its canonical member; a new member
    belongs to a stored replica of its workload, a new deployment is bound to a generation of a stored replica
    that has none, and the binding of a member names a stored member of the deployment's replica. *)
Theorem workload_calls_refine_protocol s c :
  reachable s -> generated s c -> rtc change s (run_state (perform c) s).
Proof. intros Hs%reachable_consistent. by apply perform_changes. Qed.

(** C6: No later call removes a workload, revision, replica, member, deployment or binding, or changes what
    it stands for: its identifiers, the name of a workload, the generation of a revision, and the replica
    and generation a deployment is bound to stay, and the generation of a replica never decreases. *)
Theorem workload_records_permanent s s' : reachable s -> later s s' -> permanent s s'.
Proof. apply later_permanent. Qed.

(** C5: A deployment is created exactly once: after any later calls the same request is answered with the
    bundle of the first call, marked as a replay, and nothing is written; the same key with another digest
    is refused. *)
Theorem deployment_created_once s s1 s2 request response :
  reachable s -> generated_deployment s request -> create_deployment request s = (s1, Ok response) -> later s1 s2 ->
  create_deployment request s2 = (s2, Ok (response <| DeploymentBundle.replayed := true |>))
  /\ forall other,
       IdempotencyRequest.storage_key other.(CreateDeploymentBundle.idempotency)
       = IdempotencyRequest.storage_key request.(CreateDeploymentBundle.idempotency) ->
       other.(CreateDeploymentBundle.idempotency).(IdempotencyRequest.request_digest)
       <> request.(CreateDeploymentBundle.idempotency).(IdempotencyRequest.request_digest) ->
       create_deployment other s2 = (s2, Err RepositoryError.IdempotencyConflict).
Proof.
  intros Hs Hg E Hl. destruct (create_deployment_logged _ _ _ _ E) as (answer & Ha & ->).
  assert (reachable s1) as Hs1.
  { assert (s1 = run_state (perform (CreateDeployment request)) s) as ->; [|by constructor].
    unfold run_state, perform, ignore. by rewrite E. }
  apply (later_answers _ _ _ _ Hs1 Hl) in Ha. split; [by apply create_deployment_replays|].
  intros other Hk Hd. eapply create_deployment_refuses; [exact Hd|by rewrite Hk].
Qed.

(** C4: A member on a node stays on it in every call but two: the completion of a retirement, which needs a
    retiring replica whose Runtime was fenced, and the cancellation of a placement group, which needs a
    cancelling deployment that was never dispatched. *)
Theorem member_leaves_node_when_safe s c k m n :
  reachable s -> generated s c -> s.(replica_members) !! k = Some m -> m.(WorkloadReplicaMember.node_id) = Some n ->
  has (run_state (perform c) s).(replica_members) k (fun m' => m'.(WorkloadReplicaMember.node_id) = Some n)
  \/ released s c m.
Proof. intros Hs%reachable_consistent Hg. by apply kept_placed with (failed := negb (is_ok (run_result (perform c) s))), workload_call_kept. Qed.

(** C9: A call that is refused writes nothing, except the record of a Runtime fence with a writer fence, whose
    replica is stored before the continuation is composed. *)
Theorem refused_workload_calls_write_nothing s c e :
  reachable s -> generated s c -> partial_write c = false -> run_result (perform c) s = Err e -> run_state (perform c) s = s.
Proof.
  intros Hs%reachable_consistent Hg Hp He. apply (kept_failed _ _ _ _ (workload_call_kept c s Hs Hg)); [by rewrite He|done].
Qed.

(** The deployment a call moves towards the active state. *)
Definition progresses (c : call) : option DeploymentId :=
  match c with
  | MarkResolving i _ _ | MarkDispatched i _ _ _ | MarkVerifying i _ _ | AssignNode i _ _ _ | Activate _ i _ _ _ => Some i
  | SchedulePlacementGroup write => Some write.(PlacementGroupSchedulingWrite.deployment_id)
  | _ => None
  end.

(** The generation a deployment is bound to is the one its replica should run. *)
Definition desired_generation s (i : DeploymentId) : Prop :=
  has s.(deployment_replica_bindings) i (fun b =>
    has s.(workloads) b.(DeploymentReplicaBinding.workload_id) (fun w =>
      w.(Workload.desired_state) = WorkloadDesiredState.Running)
    /\ has s.(replicas) b.(DeploymentReplicaBinding.replica_id) (fun r =>
         r.(WorkloadReplica.lifecycle) = WorkloadReplicaLifecycle.Desired
         /\ r.(WorkloadReplica.generation) = b.(DeploymentReplicaBinding.replica_generation)
         /\ r.(WorkloadReplica.revision_id) = b.(DeploymentReplicaBinding.revision_id)
         /\ has s.(controls) b.(DeploymentReplicaBinding.workload_id) (fun c =>
              (r.(WorkloadReplica.ordinal) < (WorkloadControl.policy c).(EffectivePlacementPolicy.desired_replicas))%N))).

Lemma current_desired_generation s i d :
  s.(deployments) !! i = Some d -> consistent s -> require_current_desired_replica s d = Ok tt -> desired_generation s i.
Proof.
  intros Hd Hs E. unfold require_current_desired_replica in E. pose proof (proj1 (ok_deployment _ Hs _ _ Hd)) as Hid.
  rewrite result_bind_Ok in E. destruct E as (w & Hw%some_or_Ok & E). rewrite result_bind_Ok in E.
  destruct E as (c & Hc%some_or_Ok & E). rewrite then_Ok in E. destruct E as [_ E]. rewrite result_bind_Ok in E.
  destruct E as (b & Hb%some_or_Ok & E). rewrite result_bind_Ok in E. destruct E as (r & Hr%some_or_Ok & E).
  rewrite result_bind_Ok in E. destruct E as (m & _ & E). destruct (is_current_desired _ _ _ _ _ _) eqn:Ec in E; [|done].
  unfold is_current_desired in Ec. rewrite negb_true_iff, !orb_false_iff, !negb_false_iff, !bool_decide_eq_true, N.leb_gt in Ec.
  destruct_and?. apply bind_Some in Hw as (w' & Hw & Ew).
  destruct (_ == _) in Ew; [injection Ew as ->|done].
  rewrite Hid in Hb. exists b. split; [done|].
  match goal with Hx : DeploymentReplicaBinding.workload_id b = _ |- _ => rewrite Hx end.
  split; [by exists w|]. exists r. split_and!; try done; try congruence. by exists c.
Qed.

(** C3: A call moves a deployment forward (resolve, schedule, dispatch, verify, activate) only while the
    workload should run, the replica is desired and below the desired count, and the deployment is bound to
    the replica's current generation and revision. *)
Theorem only_desired_generation_progresses s c i :
  reachable s -> progresses c = Some i -> run_state (perform c) s <> s -> desired_generation s i.
Proof.
  intros Hs%reachable_consistent Hc Hmoved.
  cut (exists d, s.(deployments) !! i = Some d /\ require_current_desired_replica s d = Ok tt).
  { intros (d & Hd & E). by eapply current_desired_generation. }
  destruct c; try discriminate; injection Hc as <-; revert Hmoved; cbn [perform];
    match goal with |- context [ignore ?m] => destruct (ignored m s) as (x & E & _); revert E;
      generalize (run_state (ignore m) s); intros s' E Hmoved end.
  1,2,3: unfold mark_resolving, mark_dispatched, mark_verifying, mutate_desired in E.
  4: unfold assign_node in E.
  5: unfold activate in E.
  6: unfold schedule_placement_group in E; destruct write; cbn in *.
  all: exec_call E; apply pair_equal_spec in E as [<- _]; try done.
  all: match goal with Hd : some_or (deployments _ !! _) _ = Ok ?d |- _ => apply some_or_Ok in Hd; exists d
                     | Hd : group_deployment _ _ _ = Ok ?d |- _ => apply group_deployment_Ok in Hd; exists d end.
  all: match goal with Hr : require_current_desired_replica _ _ = Ok ?u |- _ => by destruct u end.
Qed.
End guarantees.
