(* ===== verification/GroupScheduling.v ===== *)
(** * Scheduling of placement groups

    The functional specification of [schedule_placement_group]: all members of a group
    are placed together, each on a node of its own, or not at all. *)

From Stdlib Require Import ZArith NArith Lia String.
From stdpp Require Import gmap relations.
From S2P Require Import Prelude RustStd BTreeMap External Text SharedKernel Repositories Workloads ServiceTemplates.
From S2P Require Import WorkloadRevisions RevisionLifecycle Deployments Replicas WorkloadControls PlacementGroups.
From S2P Require Import WorkloadOperations WorkloadEvents RuntimeBindings ReplicaSets ReplicaMaterialization.
From S2P Require Import WorkloadRepository WorkloadReplicaRepository WorkloadProtocol WorkloadCalls.
From S2P Require Import WorkloadReplicaCalls ReplicaSetPlans WorkloadHistory WorkloadGuarantees.
Import WorkloadState InMemoryWorkloadRepository WorkloadReplicaRepository WorkloadProtocol WorkloadHistory.
Import PlacementGroupMemberPlacement.

Section scheduling.
Context `{External} `{ReleaseContract}.
Implicit Types (s : WorkloadState.t).

Lemma validate_placements_Ok o ms ns l :
  PlacementGroupSchedulingWrite.validate_placements o ms ns l = Ok tt ->
  NoDup (map member_id l) /\ NoDup (map node_id l)
  /\ (forall p, p ∈ l -> p.(member_id) ∉ ms /\ p.(node_id) ∉ ns).
Proof.
  revert o ms ns. induction l as [|p l IH]; intros o ms ns; cbn -[fail_if].
  { intros _. split_and!; [apply NoDup_nil_2..|]. intros p Hp. by apply elem_of_nil in Hp. }
  rewrite then_Ok, fail_if_Ok. intros [Hp (Hm & Hn & Hl)%IH].
  rewrite !orb_false_iff, !bool_decide_eq_false in Hp. destruct Hp as [[_ Hpm] Hpn]. split_and!.
  - apply NoDup_cons. split; [|done]. intros (q & Eq & Hq)%(list_elem_of_fmap_1 member_id).
    apply (Hl q) in Hq as [Hq _]. apply Hq. rewrite <- Eq. by left.
  - apply NoDup_cons. split; [|done]. intros (q & Eq & Hq)%(list_elem_of_fmap_1 node_id).
    apply (Hl q) in Hq as [_ Hq]. apply Hq. rewrite <- Eq. by left.
  - intros q [->|Hq]%elem_of_cons; [done|]. apply Hl in Hq as [? ?]. split; set_solver.
Qed.

(** A group in its places. *)
Definition group_placed s (i : DeploymentId) (placements : list PlacementGroupMemberPlacement.t) : Prop :=
  has s.(deployments) i (fun d => d.(Deployment.status) = DeploymentStatus.Scheduled
                                  /\ d.(Deployment.node_id) = node_id <$> head placements)
  /\ forall p, p ∈ placements ->
       has s.(replica_members) p.(member_id) (fun m => m.(WorkloadReplicaMember.node_id) = Some p.(node_id))
       /\ has s.(deployment_replica_member_bindings) (i, p.(member_id))
            (fun b => b.(DeploymentReplicaBinding.node_id) = Some p.(node_id)).

(** The placements name the members of the group the deployment is bound to, all of them and in order. *)
Definition places_group s (i : DeploymentId) (g : WorkloadPlacementGroupId)
    (placements : list PlacementGroupMemberPlacement.t) : Prop :=
  has s.(deployment_placement_group_bindings) i (fun b => b.(DeploymentPlacementGroupBinding.group_id) = g)
  /\ has s.(placement_groups) g (fun group =>
       map WorkloadPlacementGroupMemberPlan.member_id group.(WorkloadPlacementGroup.members) = map member_id placements).

(** Where one member goes. *)
Definition lands (p : PlacementGroupMemberPlacement.t) (y : WorkloadReplicaMember.t * DeploymentReplicaBinding.t) : Prop :=
  y.1.(WorkloadReplicaMember.id) = p.(member_id) /\ y.1.(WorkloadReplicaMember.node_id) = Some p.(node_id)
  /\ y.2.(DeploymentReplicaBinding.member_id) = p.(member_id)
  /\ y.2.(DeploymentReplicaBinding.node_id) = Some p.(node_id).

Lemma place_group_lands d t l placed :
  place_group d t l = Ok placed -> Forall2 (fun x y => lands x.1.1.2 y) l placed.
Proof.
  revert placed. induction l as [|[[[plan pl] m] b] l IH]; intros placed; cbn [place_group]; [by intros [= <-]|].
  destruct (_ || _) eqn:Ep; [done|]. rewrite result_bind_Ok. intros (m' & Hm'%map_err_Ok%on_copy_Ok & E).
  rewrite result_bind_Ok in E. destruct E as (b' & Hb'%map_err_Ok%on_copy_Ok & E). rewrite result_bind_Ok in E.
  destruct E as (rest & Hrest%IH & [= <-]). constructor; [|done]. unfold lands. cbn.
  rewrite orb_false_iff, !negb_false_iff, !bool_decide_eq_true in Ep. destruct Ep as [_ Ep].
  assert (m'.(WorkloadReplicaMember.node_id) = Some pl.(node_id)) as Hn.
  { unfold WorkloadReplicaMember.place, WorkloadReplicaMember.bump_placement, WorkloadReplicaMember.bump_version in Hm'.
    run_method Hm'; reflect_bools; by simplify_eq/=. }
  unfold GroupMemberBinding.assign_placement_group_member in Hb'. rewrite Hn in Hb'. run_method Hb'; [done|].
  match goal with Hc : _ || _ = false |- _ =>
    rewrite !orb_false_iff, !negb_false_iff, !bool_decide_eq_true in Hc end.
  simplify_eq/=. destruct_and?. split_and!; congruence.
Qed.

Lemma put_member_bindings_has i l m k (P : DeploymentReplicaBinding.t -> Prop) :
  (forall x, x ∈ l -> x.(DeploymentReplicaBinding.member_id) = k -> P x) ->
  (exists x, x ∈ l /\ x.(DeploymentReplicaBinding.member_id) = k) \/ has m (i, k) P ->
  has (put_member_bindings i l m) (i, k) P.
Proof.
  revert m. induction l as [|x l IH]; intros m HP Hx; cbn.
  { destruct Hx as [(x & Hx & _)|]; [by apply elem_of_nil in Hx|done]. }
  apply IH; [intros y Hy; apply HP; by right|].
  destruct (decide (x.(DeploymentReplicaBinding.member_id) = k)) as [<-|Hne].
  - right. apply has_insert, HP; [by left|done].
  - destruct Hx as [(y & [->|Hy]%elem_of_cons & Hk)|(y & Hy & Hk)]; [done|left; eauto|right; exists y].
    rewrite lookup_insert_ne; [done|congruence].
Qed.

(** The members and the bindings a placed group writes. *)
Lemma lands_written s i placements placed :
  NoDup (map member_id placements) -> Forall2 lands placements placed ->
  forall p, p ∈ placements ->
    has (put_all WorkloadReplicaMember.id placed.*1 s.(replica_members)) p.(member_id)
      (fun m => m.(WorkloadReplicaMember.node_id) = Some p.(node_id))
    /\ has (put_member_bindings i placed.*2 s.(deployment_replica_member_bindings)) (i, p.(member_id))
         (fun b => b.(DeploymentReplicaBinding.node_id) = Some p.(node_id)).
Proof.
  intros Hnd Hl p Hp.
  assert (Hq : forall y q, y ∈ placed -> lands q y -> q ∈ placements -> q.(member_id) = p.(member_id) -> q = p).
  { intros y q _ _ Hq E. apply list_elem_of_lookup in Hq as [j Hj], Hp as [k Hk].
    assert (j = k) as ->; [|congruence]. eapply (NoDup_lookup (map member_id placements)); [done|..].
    - rewrite list_lookup_fmap, Hj. reflexivity.
    - rewrite list_lookup_fmap, Hk. cbn. by rewrite E. }
  apply list_elem_of_lookup in Hp as Hi. destruct Hi as [k Hk].
  destruct (Forall2_lookup_l _ _ _ _ _ Hl Hk) as (y & Hy%list_elem_of_lookup_2 & Hland).
  split; [apply put_all_has|apply put_member_bindings_has].
  - intros m (z & -> & Hz)%list_elem_of_fmap E. destruct (Forall2_elem_r _ _ _ _ Hl Hz) as (q & Hin & Hq').
    rewrite (Hq z q) in Hq'; [apply Hq'|done..|]. destruct Hq' as [<- _]. done.
  - left. exists y.1. split; [by apply list_elem_of_fmap_2|apply Hland].
  - intros b (z & -> & Hz)%list_elem_of_fmap E. destruct (Forall2_elem_r _ _ _ _ Hl Hz) as (q & Hin & Hq').
    rewrite (Hq z q) in Hq'; [apply Hq'|done..|]. destruct Hq' as (_ & _ & <- & _). done.
  - left. exists y.2. split; [by apply list_elem_of_fmap_2|apply Hland].
Qed.

(** The records are stored under their identifiers. *)
Definition keyed s : Prop :=
  (forall i m, s.(replica_members) !! i = Some m -> m.(WorkloadReplicaMember.id) = i)
  /\ (forall i d, s.(deployments) !! i = Some d -> d.(Deployment.id) = i).

Lemma zipped_placements {A B C} (plans : list A) placements (members : list B) (bindings : list C) placed :
  length plans = length placements -> length members = length plans -> length bindings = length plans ->
  Forall2 (fun x y => lands x.1.1.2 y) (zip (zip (zip plans placements) members) bindings) placed ->
  Forall2 lands placements placed.
Proof.
  intros E1 E2 E3 HF. apply Forall2_same_length_lookup. split.
  - apply Forall2_length in HF. rewrite !length_zip_with in HF. lia.
  - intros j p y Hp Hy. destruct (Forall2_lookup_r _ _ _ _ _ HF Hy) as ([[[a q] b] c] & Hx & Hl).
    apply lookup_zip_with_Some in Hx as (? & ? & [= <- <-] & Hx & _).
    apply lookup_zip_with_Some in Hx as (? & ? & [= <- <-] & Hx & _).
    apply lookup_zip_with_Some in Hx as (? & ? & [= <- <-] & _ & Hq). cbn in Hl. congruence.
Qed.

(** The members of the plans are the ones the placements name. *)
Lemma zipped_members {B C} (plans : list WorkloadPlacementGroupMemberPlan.t) placements (l : list B) (k : list C)
    (P : WorkloadPlacementGroupMemberPlan.t * PlacementGroupMemberPlacement.t * B * C -> Prop) :
  length plans = length placements -> length l = length plans -> length k = length plans ->
  Forall P (zip (zip (zip plans placements) l) k) ->
  (forall plan p x y, P (plan, p, x, y) -> plan.(WorkloadPlacementGroupMemberPlan.member_id) = p.(member_id)) ->
  map WorkloadPlacementGroupMemberPlan.member_id plans = map member_id placements.
Proof.
  revert placements l k. induction plans as [|plan plans IH]; intros [|p placements] [|x l] [|y k]; try done; cbn.
  intros [= E1] [= E2] [= E3] [Hp Hl]%Forall_cons HP. rewrite (HP _ _ _ _ Hp). f_equal. by eapply IH.
Qed.

Lemma place_group_members d t l placed :
  place_group d t l = Ok placed ->
  Forall (fun x => x.1.1.1.(WorkloadPlacementGroupMemberPlan.member_id) = x.1.1.2.(member_id)) l.
Proof.
  revert placed. induction l as [|[[[plan pl] m] b] l IH]; intros placed; cbn [place_group]; [done|].
  destruct (_ || _) eqn:Ep; [done|]. rewrite result_bind_Ok. intros (m' & _ & E).
  rewrite result_bind_Ok in E. destruct E as (b' & _ & E). rewrite result_bind_Ok in E. destruct E as (rest & Hrest%IH & _).
  constructor; [|done]. rewrite orb_false_iff, !negb_false_iff, !bool_decide_eq_true in Ep. apply Ep.
Qed.

(** A replay compares every member of the group. *)
Lemma replayed_members s i group placements bindings members :
  group_members s group = Ok members -> group_bindings s i group = Ok bindings ->
  length group.(WorkloadPlacementGroup.members) = length placements ->
  (forall k m, s.(replica_members) !! k = Some m -> m.(WorkloadReplicaMember.id) = k) ->
  any placement_differs (zip (zip bindings placements) members) = false ->
  map WorkloadPlacementGroupMemberPlan.member_id group.(WorkloadPlacementGroup.members) = map member_id placements.
Proof.
  intros Hm%group_members_Ok Hb%group_bindings_Ok Hlen Hkey Hany.
  revert placements bindings members Hm Hb Hlen Hany.
  induction group.(WorkloadPlacementGroup.members) as [|plan plans IH]; intros [|p placements] bindings members Hm Hb; try done.
  apply Forall2_cons_inv_l in Hm as (m & ms & Hm & Hms & ->), Hb as (b & bs & _ & Hbs & ->). cbn.
  intros [= Hlen] [Hd Hany]%orb_false_iff. rewrite !orb_false_iff, !negb_false_iff, !bool_decide_eq_true in Hd. destruct_and?.
  f_equal; [|by eapply IH]. rewrite <- (Hkey _ _ Hm). congruence.
Qed.

(** A replay finds the members and the bindings where the placements say. *)
Lemma not_placement_differs s i group placements bindings members :
  group_members s group = Ok members -> group_bindings s i group = Ok bindings ->
  length group.(WorkloadPlacementGroup.members) = length placements ->
  (forall k m, s.(replica_members) !! k = Some m -> m.(WorkloadReplicaMember.id) = k) ->
  any placement_differs (zip (zip bindings placements) members) = false ->
  forall p, p ∈ placements ->
    has s.(replica_members) p.(member_id) (fun m => m.(WorkloadReplicaMember.node_id) = Some p.(node_id))
    /\ has s.(deployment_replica_member_bindings) (i, p.(member_id))
         (fun b => b.(DeploymentReplicaBinding.node_id) = Some p.(node_id)).
Proof.
  intros Hm%group_members_Ok Hb%group_bindings_Ok Hlen Hkey Hany p [j Hj]%list_elem_of_lookup.
  destruct (lookup_lt_is_Some_2 group.(WorkloadPlacementGroup.members) j) as [plan Hplan].
  { rewrite Hlen. by eapply lookup_lt_Some. }
  destruct (Forall2_lookup_l _ _ _ _ _ Hm Hplan) as (m & Hmj & Hms).
  destruct (Forall2_lookup_l _ _ _ _ _ Hb Hplan) as (b & Hbj & Hbs).
  assert (placement_differs (b, p, m) = false) as Hd.
  { apply not_true_iff_false. intros Ht. apply not_true_iff_false in Hany. apply Hany. unfold any. apply existsb_exists.
    exists (b, p, m). split; [|done]. apply list_elem_of_In. eapply (list_elem_of_lookup_2 _ j).
    apply lookup_zip_with_Some. exists (b, p), m. split_and!; [done| |done]. apply lookup_zip_with_Some. eauto. }
  unfold placement_differs in Hd. rewrite !orb_false_iff, !negb_false_iff, !bool_decide_eq_true in Hd. destruct_and?.
  pose proof (Hkey _ _ Hms) as Hid. replace (member_id p) with (WorkloadPlacementGroupMemberPlan.member_id plan) by congruence.
  split; [exists m|exists b]; split; congruence.
Qed.

Lemma schedule_Ok node t d d' :
  Deployment.schedule node t d = (d', Ok tt) ->
  d'.(Deployment.status) = DeploymentStatus.Scheduled /\ d'.(Deployment.node_id) = Some node
  /\ d'.(Deployment.id) = d.(Deployment.id).
Proof.
  intros E. unfold Deployment.schedule in E. DeploymentLifecycle.run_call E; reflect_bools; by simplify_eq/=.
Qed.

(** C8: A placement group is scheduled as a whole: when the call succeeds, for the first time or again, the
    placements name exactly the members of the group the deployment is bound to, each of these members and its
    binding are on the node their placement names, the deployment is scheduled on the leader's node, and no
    two members share a node. *)
Theorem group_scheduled_together s write s' answer :
  keyed s -> schedule_placement_group write s = (s', Ok answer) ->
  places_group s' write.(PlacementGroupSchedulingWrite.deployment_id) write.(PlacementGroupSchedulingWrite.group_id)
    write.(PlacementGroupSchedulingWrite.placements)
  /\ group_placed s' write.(PlacementGroupSchedulingWrite.deployment_id) write.(PlacementGroupSchedulingWrite.placements)
  /\ NoDup (map node_id write.(PlacementGroupSchedulingWrite.placements))
  /\ (2 <= len write.(PlacementGroupSchedulingWrite.placements) <= MAX_WORKLOAD_PLACEMENT_GROUP_MEMBERS)%N.
Proof.
  intros [Hmk Hdk] E. unfold schedule_placement_group in E. destruct write as [o i v g digest placements t]. cbn.
  exec_call E; apply pair_equal_spec in E as [<- Ea]; try discriminate Ea.
  all: match goal with Hv : map_err _ (PlacementGroupSchedulingWrite.validate _) = Ok ?u |- _ => destruct u;
         apply map_err_Ok in Hv; unfold PlacementGroupSchedulingWrite.validate in Hv; cbn in Hv;
         rewrite !then_Ok, fail_if_Ok, !orb_false_iff, !N.ltb_ge in Hv;
         destruct Hv as (_ & [[Hmin Hmax] _] & (Hnm & Hnn & _)%validate_placements_Ok) end.
  all: match goal with Hd : group_deployment _ _ _ = Ok ?d |- _ => rename d into deployment;
         apply group_deployment_Ok in Hd; rename Hd into Hdep; pose proof (Hdk _ _ Hdep) as Hid end.
  all: match goal with Hl : _ || negb (len (WorkloadPlacementGroup.members _) =? _)%N = false |- _ =>
         rewrite !orb_false_iff, !negb_false_iff, N.eqb_eq in Hl; destruct Hl as [_ Hlen]; unfold len in Hlen;
         apply Nat2N.inj in Hlen end.
  all: match goal with Hb : group_bindings _ _ _ = Ok _ |- _ => rename Hb into Hbind; rewrite Hid in Hbind end;
       match goal with Hm : group_members _ _ = Ok _ |- _ => rename Hm into Hmem end.
  all: match goal with Hg : some_or (placement_groups _ !! _) _ = Ok _ |- _ => apply some_or_Ok in Hg; rename Hg into Hgroup end;
       match goal with Hg : some_or (deployment_placement_group_bindings _ !! _) _ = Ok _ |- _ =>
         apply some_or_Ok in Hg; rewrite Hid in Hg; rename Hg into Hgb end;
       match goal with Hc : negb (DeploymentPlacementGroupBinding.group_id _ == _) || _ || _ = false |- _ =>
         rewrite !orb_false_iff, !negb_false_iff, bool_decide_eq_true in Hc; destruct Hc as [[Hgid _] _] end.
  - match goal with Hp : _ || any placement_differs _ = false |- _ => rewrite !orb_false_iff in Hp; destruct Hp as [[Hnode _] Hany] end.
    reflect_bools. split_and!; [|split; [by exists deployment|by eapply not_placement_differs]|done..].
    split; [eexists; split; [exact Hgb|exact Hgid]|]. eexists. split; [exact Hgroup|by eapply replayed_members].
  - match goal with Hsch : map_err _ (on_copy (Deployment.schedule _ _) _) = Ok ?d, Hn : some_or (_ <$> head placements) _ = Ok _ |- _ =>
      apply map_err_Ok, on_copy_Ok in Hsch; apply some_or_Ok in Hn; destruct (schedule_Ok _ _ _ _ Hsch) as (Hst & Hno & Hdid);
      unfold group_placed; rewrite Hn end.
    match goal with Hp : place_group _ _ _ = Ok _ |- _ => rename Hp into Hplace end. rewrite Hdid, Hid.
    apply group_members_Ok, Forall2_length in Hmem. apply group_bindings_Ok, Forall2_length in Hbind.
    split; [|split; [split; cbn; [apply has_insert; by split|]|done]].
    + split; [eexists; split; [exact Hgb|exact Hgid]|]. eexists. split; [exact Hgroup|].
      by eapply zipped_members; [exact Hlen|exact (eq_sym Hmem)|exact (eq_sym Hbind)|by eapply place_group_members|].
    + apply lands_written; [done|]. eapply zipped_placements; [exact Hlen|exact (eq_sym Hmem)|exact (eq_sym Hbind)|by eapply place_group_lands].
Qed.
End scheduling.
