(* ===== verification/WorkloadSamples.v ===== *)
(** * Evaluations of the workload repository

    A workload that is created, scheduled, evacuated from its node and scaled up, with a toy
    instance of the external functions. *)

From Stdlib Require Import ZArith NArith Lia String.
From stdpp Require Import gmap relations.
From S2P Require Import Prelude RustStd BTreeMap External Text SharedKernel Repositories Workloads ServiceTemplates.
From S2P Require Import WorkloadRevisions RevisionLifecycle Deployments Replicas WorkloadControls PlacementGroups.
From S2P Require Import WorkloadOperations WorkloadEvents RuntimeBindings ReplicaSets ReplicaMaterialization.
From S2P Require Import WorkloadRepository WorkloadReplicaRepository WorkloadProtocol WorkloadCalls.
From S2P Require Import WorkloadReplicaCalls ReplicaSetPlans WorkloadHistory WorkloadGuarantees GroupScheduling.

Module WorkloadRun.
Import Toy WorkloadState InMemoryWorkloadRepository WorkloadReplicaRepository WorkloadProtocol WorkloadHistory.
#[local] Existing Instance RevisionHistory.toy_release.

Definition workload : Workload.t := Workload.create 1 2 3 4 (ResourceName.Mk "Web" "web") 1000.
Definition revision : WorkloadRevision.t := RevisionSamples.unresolved 5 1 1 1000.
Definition deployment : Deployment.t := Deployment.create 10 2 1 5 11 1000.
Definition spec : WorkloadControlSpec.t :=
  RevisionHistory.or_else (WorkloadControlSpec.unmanaged_replica_set 1 1)
    (WorkloadControlSpec.Mk None (EffectivePlacementPolicy.Mk "" 0 0 0 PlacementTopology.SingleNode
       ReplicaAntiAffinity.Required None "")).
Definition event : DomainEventEnvelope.t :=
  DomainEventEnvelope.Mk 100 "workload.deployment.requested" 1 (CloudScopeRef.Environment 2 3 4) 10 1 1000 101 None JNull.
Definition request : CreateDeploymentBundle.t :=
  CreateDeploymentBundle.Mk workload spec revision deployment (WorkloadDeploymentOperationIntent.Mk 11 2 10 5 1 1000)
    (IdempotencyRequest.Request "deploy" "first" (RevisionSamples.digest_of "e")) event.

Definition create : call := CreateDeployment request.
Definition schedule : list call := [MarkResolving 10 1 2000; AssignNode 10 2 7 3000]%Z.
Definition evacuate : list call :=
  [MarkDispatched 10 3 91 4000;
   RequestReplicaEvacuation 102 (ReplicaEvacuationRequest.Mk (ReplicaEvacuationCandidate.Mk 2 1 1 1 1 1 2 7 1) 5000 103);
   DispatchReplicaRetirement (ReplicaRetirementDispatch.Mk 2 1 1 1 2 92 6000);
   RecordReplicaRuntimeFenced (ReplicaRuntimeFence.Mk 2 1 1 1 3 92 7000) None]%Z.
Definition complete : call :=
  CompleteReplicaRetirement 104 (ReplicaRetirementCompletion.Mk 2 1 1 1 4 1 2 (Some 7%N) 8000 105).
Definition scale : call :=
  ReconfigureReplicaSet 106 (ReconfigureReplicaSetWrite.Mk 2 1 1 1 3 None
    (IdempotencyRequest.Request "scale" "second" (RevisionSamples.digest_of "f")) 107 9000).

Definition run (s : WorkloadState.t) (cs : list call) : WorkloadState.t :=
  fold_left (fun s c => run_state (perform c) s) cs s.
Fixpoint accepted (s : WorkloadState.t) (cs : list call) : bool :=
  match cs with
  | [] => true
  | c :: cs => is_ok (run_result (perform c) s) && accepted (run_state (perform c) s) cs
  end.

Definition created : WorkloadState.t := run_state (perform create) WorkloadState.empty.
Definition scheduled : WorkloadState.t := run created schedule.
Definition fenced : WorkloadState.t := run scheduled evacuate.
Definition final : WorkloadState.t := run fenced [complete; scale].

Lemma run_accepted : accepted WorkloadState.empty ([create] ++ schedule ++ evacuate ++ [complete; scale]) = true.
Proof. vm_compute. reflexivity. Qed.

Definition creates (c : call) : bool := match c with CreateDeployment _ => true | _ => false end.
Lemma generated_others s c : creates c = false -> generated s c.
Proof. by destruct c. Qed.

Lemma run_later s cs : forallb (fun c => negb (creates c)) cs = true -> later s (run s cs).
Proof.
  unfold run. cut (forall s', later s s' -> forallb (fun c => negb (creates c)) cs = true ->
    later s (fold_left (fun s c => run_state (perform c) s) cs s')).
  { intros Hc. apply Hc. constructor. }
  induction cs as [|c cs IH]; intros s' Hl; [done|]. cbn. intros [Hc Hcs]%andb_true_iff. apply IH; [|done].
  constructor; [done|]. apply generated_others. by apply negb_true_iff.
Qed.

Lemma request_generated : generated_deployment WorkloadState.empty request.
Proof. split; [by intros _ o i _|constructor]. Qed.
Lemma created_reachable : reachable created.
Proof. constructor; [constructor|apply request_generated]. Qed.
Lemma run_reachable s cs : reachable s -> forallb (fun c => negb (creates c)) cs = true -> reachable (run s cs).
Proof. intros Hs Hcs. by apply (later_reachable s), run_later. Qed.
Lemma scheduled_reachable : reachable scheduled.
Proof. apply run_reachable; [apply created_reachable|reflexivity]. Qed.
Lemma fenced_reachable : reachable fenced.
Proof. apply run_reachable; [apply scheduled_reachable|reflexivity]. Qed.
Lemma final_later : later created final.
Proof.
  replace final with (run created (schedule ++ evacuate ++ [complete; scale])); [by apply run_later|].
  unfold final, fenced, scheduled, run. by rewrite !fold_left_app.
Qed.
Lemma last_reachable : reachable final.
Proof. eapply later_reachable; [apply created_reachable|apply final_later]. Qed.

Lemma workload_repository_consistent_witness : consistent final /\ size final.(replicas) = 3.
Proof. split; [apply workload_repository_consistent, last_reachable|vm_compute; reflexivity]. Defined.

Lemma workload_calls_refine_protocol_witness : rtc change fenced (run_state (perform complete) fenced).
Proof. apply workload_calls_refine_protocol; [apply fenced_reachable|exact I]. Defined.

Lemma workload_records_permanent_witness : permanent created final.
Proof. apply workload_records_permanent; [apply created_reachable|apply final_later]. Defined.

Lemma deployment_created_once_witness :
  exists response, create_deployment request final = (final, Ok (response <| DeploymentBundle.replayed := true |>)).
Proof.
  assert (is_ok (run_result (create_deployment request) WorkloadState.empty) = true) as Hr by (vm_compute; reflexivity).
  unfold run_result in Hr.
  destruct (create_deployment request WorkloadState.empty) as [s1 [response|e]] eqn:E; [|discriminate Hr].
  assert (s1 = created) as ->.
  { unfold created, run_state, create, perform, ignore. by rewrite E. }
  exists response.
  apply (deployment_created_once WorkloadState.empty created final request response reach_empty request_generated E final_later).
Defined.

Lemma member_leaves_node_when_safe_witness :
  exists m, fenced.(replica_members) !! 1%N = Some m /\ released fenced complete m.
Proof.
  destruct (fenced.(replica_members) !! 1%N) as [m|] eqn:E; [|vm_compute in E; discriminate E]. exists m. split; [done|].
  assert (Hn : WorkloadReplicaMember.node_id m = Some 7%N) by (vm_compute in E; injection E as <-; reflexivity).
  destruct (member_leaves_node_when_safe fenced complete 1 m 7 fenced_reachable I E Hn) as [(m' & Hm' & Hn')|Hr]; [|done].
  exfalso. vm_compute in Hm'. injection Hm' as <-. discriminate Hn'.
Defined.

Lemma refused_workload_calls_write_nothing_witness :
  run_state (perform (MarkVerifying 10 9 9000)) scheduled = scheduled.
Proof.
  assert (is_ok (run_result (perform (MarkVerifying 10 9 9000)) scheduled) = false) as Hr by (vm_compute; reflexivity).
  destruct (run_result (perform (MarkVerifying 10 9 9000)) scheduled) as [u|e] eqn:E; [discriminate Hr|].
  apply (refused_workload_calls_write_nothing scheduled (MarkVerifying 10 9 9000) e scheduled_reachable I eq_refl E).
Defined.

Lemma only_desired_generation_progresses_witness : desired_generation scheduled 10.
Proof.
  apply (only_desired_generation_progresses scheduled (MarkDispatched 10 3 91 4000) 10 scheduled_reachable eq_refl).
  intros E. apply (f_equal (fun s => Deployment.status <$> s.(deployments) !! 10%N)) in E. vm_compute in E. discriminate E.
Defined.

Definition plan : result ReplicaSetReconfiguration.t :=
  match fenced.(controls) !! 1%N with
  | Some control =>
    let s := run fenced [complete] in
    plan_replica_set_reconfiguration workload control revision (list_workload_replicas 2 1 s) 1 1 3 None 9000
  | None => err ""
  end.

Lemma reconfiguration_exact_witness :
  exists p, plan = Ok p /\ desired_prefix p.(ReplicaSetReconfiguration.replicas) 3.
Proof.
  assert (is_ok plan = true) as Hr by (vm_compute; reflexivity).
  destruct plan as [p|e] eqn:E; [|discriminate Hr]. exists p. split; [done|].
  unfold plan in E. destruct (fenced.(controls) !! 1%N) as [control|]; [|discriminate E].
  apply (reconfiguration_exact _ _ _ _ _ _ _ _ _ _ E).
Defined.
End WorkloadRun.

(** ** A placement group of two members *)
Module GroupRun.
Import Toy WorkloadState InMemoryWorkloadRepository WorkloadReplicaRepository WorkloadHistory RevisionHistory RevisionSamples.
#[local] Existing Instance RevisionHistory.toy_release.

Definition revision : WorkloadRevision.t := RevisionHistory.plain.
Definition workload : Workload.t := WorkloadRun.workload.
Definition spec : WorkloadControlSpec.t := or_else (WorkloadControlSpec.unmanaged_placement_group 1 1 2) WorkloadRun.spec.
Definition control : WorkloadControl.t :=
  or_else (WorkloadControl.create workload spec) (WorkloadControl.Mk 0 0 0 0 spec 0 0 0).
Definition replica : WorkloadReplica.t :=
  or_else (WorkloadReplica.canonical workload revision)
    (WorkloadReplica.Mk 0 0 0 0 0 0 0 0 0 WorkloadReplicaLifecycle.Retired None None None 0 0 0).
Definition member : WorkloadReplicaMember.t :=
  or_else (WorkloadReplicaMemberCreation.for_replica workload replica) (WorkloadReplicaMember.Mk 0 0 0 0 0 0 0 None 0 0 0 0).

(** The foundation the source's tests start from. *)
Definition seeded : WorkloadState.t :=
  WorkloadState.empty <| names := {[ name_key workload := 1%N ]} |> <| controls := {[ 1%N := control ]} |>
    <| revisions := {[ 5%N := revision ]} |> <| replica_members := {[ 1%N := member ]} |>
    <| replicas := {[ 1%N := replica ]} |> <| workloads := {[ 1%N := workload ]} |>.

Definition planned : WorkloadPlacementGroupWrite.t :=
  or_else (WorkloadPlacementGroupWrite.plan workload spec.(WorkloadControlSpec.placement_policy) revision replica
             [template; template] 2000)
    (WorkloadPlacementGroupWrite.Mk
       (WorkloadPlacementGroup.Mk 0 0 0 0 0 0 0 0 0 0 "" "" "" WorkloadPlacementGroupState.Planned [] 0 0 0) []).
Definition materialized : WorkloadState.t :=
  WorkloadRun.run seeded [MaterializePlacementGroup planned; MaterializeReplicaDeployment 200 (candidate_of replica) 3000].
Definition first_id (l : list Deployment.t) : DeploymentId := match l with d :: _ => d.(Deployment.id) | [] => 0%N end.
Definition deployment_id : DeploymentId := first_id (values materialized.(deployments)).
Definition resolving : WorkloadState.t := WorkloadRun.run materialized [MarkResolving deployment_id 1 4000]%Z.

Definition place_members (l : list WorkloadReplicaMember.t) : list PlacementGroupMemberPlacement.t :=
  match l with
  | [leader; worker] =>
    [PlacementGroupMemberPlacement.Mk 0 leader.(WorkloadReplicaMember.id) 7;
     PlacementGroupMemberPlacement.Mk 1 worker.(WorkloadReplicaMember.id) 8]
  | _ => []
  end.
Definition placements : list PlacementGroupMemberPlacement.t :=
  place_members planned.(WorkloadPlacementGroupWrite.replica_members).
Definition scheduling : PlacementGroupSchedulingWrite.t :=
  let group := planned.(WorkloadPlacementGroupWrite.group) in
  PlacementGroupSchedulingWrite.Mk 2 deployment_id 2 group.(WorkloadPlacementGroup.id)
    group.(WorkloadPlacementGroup.plan_digest) placements 5000000.

Lemma resolving_keyed : keyed resolving.
Proof.
  split.
  - apply (bool_decide_unpack (map_Forall (fun i m => WorkloadReplicaMember.id m = i) resolving.(replica_members))).
    vm_compute. exact I.
  - apply (bool_decide_unpack (map_Forall (fun i d => Deployment.id d = i) resolving.(deployments))). vm_compute. exact I.
Qed.

Lemma group_scheduled_together_witness :
  group_placed (run_state (schedule_placement_group scheduling) resolving) deployment_id placements /\ len placements = 2%N
  /\ places_group (run_state (schedule_placement_group scheduling) resolving) deployment_id
       scheduling.(PlacementGroupSchedulingWrite.group_id) placements.
Proof.
  assert (is_ok (run_result (schedule_placement_group scheduling) resolving) = true) as Hr by (vm_compute; reflexivity).
  destruct (run_result (schedule_placement_group scheduling) resolving) as [answer|e] eqn:E; [|discriminate Hr].
  destruct (group_scheduled_together resolving scheduling (run_state (schedule_placement_group scheduling) resolving) answer
    resolving_keyed) as (Hg & Hp & _).
  - rewrite run_eq, E. reflexivity.
  - split; [exact Hp|]. split; [vm_compute; reflexivity|exact Hg].
Defined.
End GroupRun.
