(* ===== verification/ResourceClaims.v ===== *)
(** * Resource claims of the control plane

    [workloads/domain/entities/resource_claim.rs]: the durable claim of a replica member on the
    slots of a node, its reservation (alone or with others, atomically), its lifecycle on the agent
    and the evidence that releases it. *)

From Stdlib Require Import ZArith NArith Lia String.
From S2P Require Import Prelude RustStd External SharedKernel Resources NodeInventory NodeClaims.
From S2P Require Import Workloads Deployments Replicas.

Definition MAX_ATOMIC_RESOURCE_CLAIM_RESERVATIONS : N := 256.

Definition validate_runtime_identity (unit_id : string) (generation : N) : result unit :=
  fail_if (str_is_empty (trim unit_id)
           || (512 <? str_len unit_id)%N
           || contains_any [NUL; CR; LF] unit_id
           || (generation =? 0)%N)
    "resource claim Runtime identity is invalid".

(** The module's own [validate_sha256], lowercase only. *)
Definition validate_claim_sha256 (value label : string) : result unit :=
  if negb (is_some_and (fun hex => (str_len hex =? 64)%N && all is_lower_hex (bytes_of hex))
             (strip_prefix "sha256:" value))
  then errf "{label} is invalid" [FStr label]
  else Ok tt.

Lemma validate_claim_sha256_Ok value label :
  validate_claim_sha256 value label = Ok tt <-> is_sha256_digest value = true.
Proof.
  unfold validate_claim_sha256, is_sha256_digest, is_some_and, errf.
  destruct (strip_prefix _ _); [destruct (_ && _)|]; naive_solver.
Qed.

Definition validate_failure (value : string) : result unit :=
  fail_if (str_is_empty (trim value)
           || (16 * 1024 <? str_len value)%N
           || contains_any [NUL; CR; LF] value)
    "resource claim failure is invalid".

Definition slot_requests_match_bindings (requests : list ResourceSlotRequest.t)
    (bindings : list ResourceSlotBinding.t) : bool :=
  (len requests =? len bindings)%N
  && all (fun rb =>
       (rb.1.(ResourceSlotRequest.kind) == rb.2.(ResourceSlotBinding.kind))
       && (rb.1.(ResourceSlotRequest.stable_resource_id) == rb.2.(ResourceSlotBinding.stable_resource_id))
       && (rb.1.(ResourceSlotRequest.allocation) == rb.2.(ResourceSlotBinding.allocation)))
     (zip requests bindings).

Definition digest `{External} (value : json) : result string :=
  digest_json value "could not encode resource claim digest input: {error}".

Module ResourceClaimState.

Inductive t :=
| ReservedInDb
| PreparingOnAgent
| PreparedOnAgent
| BoundToRuntimeUnit
| Releasing
| Released
| Orphaned.

#[global] Instance t_eq_dec : EqDecision t.
Proof. solve_decision. Defined.

Definition as_str (self : t) : string :=
  match self with
  | ReservedInDb => "reserved_in_db"
  | PreparingOnAgent => "preparing_on_agent"
  | PreparedOnAgent => "prepared_on_agent"
  | BoundToRuntimeUnit => "bound_to_runtime_unit"
  | Releasing => "releasing"
  | Released => "released"
  | Orphaned => "orphaned"
  end.

Definition parse (value : string) : result t :=
  if value == "reserved_in_db" then Ok ReservedInDb
  else if value == "preparing_on_agent" then Ok PreparingOnAgent
  else if value == "prepared_on_agent" then Ok PreparedOnAgent
  else if value == "bound_to_runtime_unit" then Ok BoundToRuntimeUnit
  else if value == "releasing" then Ok Releasing
  else if value == "released" then Ok Released
  else if value == "orphaned" then Ok Orphaned
  else errf "unsupported hard resource claim state {value:?}" [FStr value].

#[global] Instance str_enum : StrEnum t := {| Prelude.as_str := as_str; Prelude.parse := parse |}.
#[global] Instance str_enum_laws : StrEnumLaws t.
Proof. solve_str_enum. Qed.

End ResourceClaimState.

Module ResourceClaimBindingEvidence.

Record t := Mk {
  runtime_unit_id : string;
  runtime_generation : N;
  binding_digest : string;
  slots : list ResourceSlotEvidence.t;
  observed_at : Time;
}.

#[global] Instance t_eta : Eta t := fun r =>
  Mk r.(runtime_unit_id) r.(runtime_generation) r.(binding_digest) r.(slots) r.(observed_at).

#[global] Instance t_eq_dec : EqDecision t.
Proof. solve_decision. Defined.

Definition canonicalize (self : t) : t :=
  self <| observed_at := canonical_timestamp self.(observed_at) |>.

Definition validate (self : t) : result unit :=
  validate_runtime_identity self.(runtime_unit_id) self.(runtime_generation) ;;
  validate_claim_sha256 self.(binding_digest) "Runtime resource binding digest" ;;
  validate_slot_evidence self.(slots).

End ResourceClaimBindingEvidence.

Module ResourceClaimReleaseEvidence.

Inductive t :=
| DatabaseReservationCancelled (reservation_digest : string) (slots : list ResourceSlotEvidence.t)
    (observed_at : Time)
| AgentReleased (command_id : NodeCommandId) (slots : list ResourceSlotEvidence.t)
    (evidence_digest : string) (observed_at : Time)
| ProviderNotFound (slots : list ResourceSlotEvidence.t) (evidence_digest : string) (observed_at : Time)
| ComputeFenced (instance_generation : N) (slots : list ResourceSlotEvidence.t)
    (evidence_digest : string) (observed_at : Time).

#[global] Instance t_eq_dec : EqDecision t.
Proof. solve_decision. Defined.

Definition canonicalize (self : t) : t :=
  match self with
  | DatabaseReservationCancelled d s o => DatabaseReservationCancelled d s (canonical_timestamp o)
  | AgentReleased c s d o => AgentReleased c s d (canonical_timestamp o)
  | ProviderNotFound s d o => ProviderNotFound s d (canonical_timestamp o)
  | ComputeFenced g s d o => ComputeFenced g s d (canonical_timestamp o)
  end.

Definition slots (self : t) : list ResourceSlotEvidence.t :=
  match self with
  | DatabaseReservationCancelled _ slots _
  | AgentReleased _ slots _ _
  | ProviderNotFound slots _ _
  | ComputeFenced _ slots _ _ => slots
  end.

Definition observed_at (self : t) : Time :=
  match self with
  | DatabaseReservationCancelled _ _ observed_at
  | AgentReleased _ _ _ observed_at
  | ProviderNotFound _ _ observed_at
  | ComputeFenced _ _ _ observed_at => observed_at
  end.

(** The common checks of the last three variants. *)
Definition validate_issued (slots : list ResourceSlotEvidence.t) (evidence_digest : string)
    (observed_at : Time) : result unit :=
  validate_slot_evidence slots ;;
  validate_claim_sha256 evidence_digest "resource release evidence digest" ;;
  fail_if (timestamp_millis observed_at <=? 0)%Z "resource release evidence time is invalid".

Definition validate (self : t) : result unit :=
  match self with
  | DatabaseReservationCancelled reservation_digest slots observed_at =>
    validate_claim_sha256 reservation_digest "cancelled database reservation digest" ;;
    validate_slot_evidence slots ;;
    fail_if (timestamp_millis observed_at <=? 0)%Z "resource release evidence time is invalid"
  | AgentReleased command_id slots evidence_digest observed_at =>
    fail_if (is_nil command_id) "resource release command identity is invalid" ;;
    validate_issued slots evidence_digest observed_at
  | ProviderNotFound slots evidence_digest observed_at =>
    validate_issued slots evidence_digest observed_at
  | ComputeFenced instance_generation slots evidence_digest observed_at =>
    fail_if (instance_generation =? 0)%N "compute fencing generation must be positive" ;;
    validate_issued slots evidence_digest observed_at
  end.

Definition is_database_cancellation (self : t) : bool :=
  match self with DatabaseReservationCancelled _ _ _ => true | _ => false end.

End ResourceClaimReleaseEvidence.

Module ResourceClaimReservation.

Record t := Mk {
  id : ResourceClaimId;
  binding : DeploymentReplicaBinding.t;
  node_id : NodeId;
  inventory : NodeResourceInventory.t;
  topology_digest : string;
  slots : list ResourceSlotRequest.t;
  reserved_at : Time;
}.

#[global] Instance t_eq_dec : EqDecision t.
Proof. solve_decision. Defined.

(** The inventory slot a request names. *)
Definition inventory_slot (inventory : NodeResourceInventory.t) (request : ResourceSlotRequest.t) :
    option NodeResourceSlot.t :=
  List.find (fun slot =>
      (slot.(NodeResourceSlot.kind) == request.(ResourceSlotRequest.kind))
      && (slot.(NodeResourceSlot.stable_resource_id) == request.(ResourceSlotRequest.stable_resource_id)))
    inventory.(NodeResourceInventory.slots).

Definition validate_request (inventory : NodeResourceInventory.t) (request : ResourceSlotRequest.t) :
    result unit :=
  match inventory_slot inventory request with
  | None => errf "resource request {} is absent from the bound node inventory"
              [FStr request.(ResourceSlotRequest.stable_resource_id)]
  | Some slot =>
    if negb (ResourceAllocation.contains slot.(NodeResourceSlot.allocation)
               request.(ResourceSlotRequest.allocation))
    then errf "resource request {} exceeds the bound node inventory allocation"
           [FStr request.(ResourceSlotRequest.stable_resource_id)]
    else Ok tt
  end.

Definition validate `{External} (self : t) : result unit :=
  let b := self.(binding) in
  NodeResourceInventory.validate self.(inventory) ;;
  fail_if (is_nil self.(id)
           || is_nil b.(DeploymentReplicaBinding.organization_id)
           || is_nil b.(DeploymentReplicaBinding.project_id)
           || is_nil b.(DeploymentReplicaBinding.environment_id)
           || is_nil b.(DeploymentReplicaBinding.workload_id)
           || is_nil b.(DeploymentReplicaBinding.deployment_id)
           || is_nil b.(DeploymentReplicaBinding.revision_id)
           || is_nil b.(DeploymentReplicaBinding.replica_id)
           || (b.(DeploymentReplicaBinding.replica_generation) =? 0)%N
           || is_nil b.(DeploymentReplicaBinding.member_id)
           || (b.(DeploymentReplicaBinding.node_id) != Some self.(node_id))
           || (b.(DeploymentReplicaBinding.placement_generation) =? 0)%N
           || (b.(DeploymentReplicaBinding.runtime_generation)
                 != b.(DeploymentReplicaBinding.replica_generation))
           || (self.(inventory).(NodeResourceInventory.node_id) != self.(node_id))
           || (canonical_timestamp self.(reserved_at)
                 <? canonical_timestamp b.(DeploymentReplicaBinding.updated_at))%Z)
    "resource claim reservation identity or generation is invalid" ;;
  validate_claim_sha256 self.(topology_digest) "resource topology digest" ;;
  validate_runtime_identity b.(DeploymentReplicaBinding.runtime_unit_id)
    b.(DeploymentReplicaBinding.runtime_generation) ;;
  validate_slot_requests self.(slots) ;;
  for_each (validate_request self.(inventory)) self.(slots).

End ResourceClaimReservation.

Module ResourceClaim.
Import ResourceClaimState.

Record t := Mk {
  id : ResourceClaimId;
  organization_id : OrganizationId;
  project_id : ProjectId;
  environment_id : EnvironmentId;
  workload_id : WorkloadId;
  deployment_id : DeploymentId;
  replica_id : WorkloadReplicaId;
  replica_generation : N;
  member_id : WorkloadReplicaMemberId;
  placement_generation : N;
  node_id : NodeId;
  inventory_generation : N;
  inventory_digest : string;
  runtime_unit_id : string;
  runtime_generation : N;
  topology_digest : string;
  slots : list ResourceSlotBinding.t;
  reservation_digest : string;
  claim_generation : N;
  claim_digest : string;
  state : ResourceClaimState.t;
  prepare_command_id : option NodeCommandId;
  prepared_binding_digest : option string;
  release_command_id : option NodeCommandId;
  release_evidence : option ResourceClaimReleaseEvidence.t;
  failure : option string;
  aggregate_version : N;
  created_at : Time;
  updated_at : Time;
  prepared_at : option Time;
  bound_at : option Time;
  release_requested_at : option Time;
  released_at : option Time;
  orphaned_at : option Time;
}.

#[global] Instance t_eta : Eta t := fun r =>
  Mk r.(id) r.(organization_id) r.(project_id) r.(environment_id) r.(workload_id) r.(deployment_id)
     r.(replica_id) r.(replica_generation) r.(member_id) r.(placement_generation) r.(node_id)
     r.(inventory_generation) r.(inventory_digest) r.(runtime_unit_id) r.(runtime_generation)
     r.(topology_digest) r.(slots) r.(reservation_digest) r.(claim_generation) r.(claim_digest)
     r.(state) r.(prepare_command_id) r.(prepared_binding_digest) r.(release_command_id)
     r.(release_evidence) r.(failure) r.(aggregate_version) r.(created_at) r.(updated_at)
     r.(prepared_at) r.(bound_at) r.(release_requested_at) r.(released_at) r.(orphaned_at).

Section claim.
Context `{External}.

Definition slot_evidence (self : t) : list ResourceSlotEvidence.t :=
  map ResourceSlotBinding.evidence self.(slots).

Definition slot_evidence_matches (self : t) (evidence : list ResourceSlotEvidence.t) : bool :=
  evidence == slot_evidence self.

Definition binding_evidence_matches (self : t) (evidence : ResourceClaimBindingEvidence.t) : bool :=
  (evidence.(ResourceClaimBindingEvidence.runtime_unit_id) == self.(runtime_unit_id))
  && (evidence.(ResourceClaimBindingEvidence.runtime_generation) == self.(runtime_generation))
  && (self.(prepared_binding_digest) == Some evidence.(ResourceClaimBindingEvidence.binding_digest))
  && (evidence.(ResourceClaimBindingEvidence.slots) == slot_evidence self).

Definition reservation_document (self : t) : json :=
  JObj [("claimId", JStr (uuid_display self.(id)));
        ("organizationId", JStr (uuid_display self.(organization_id)));
        ("projectId", JStr (uuid_display self.(project_id)));
        ("environmentId", JStr (uuid_display self.(environment_id)));
        ("workloadId", JStr (uuid_display self.(workload_id)));
        ("deploymentId", JStr (uuid_display self.(deployment_id)));
        ("replicaId", JStr (uuid_display self.(replica_id)));
        ("replicaGeneration", JNum self.(replica_generation));
        ("memberId", JStr (uuid_display self.(member_id)));
        ("placementGeneration", JNum self.(placement_generation));
        ("nodeId", JStr (uuid_display self.(node_id)));
        ("inventoryGeneration", JNum self.(inventory_generation));
        ("inventoryDigest", JStr self.(inventory_digest));
        ("runtimeUnitId", JStr self.(runtime_unit_id));
        ("runtimeGeneration", JNum self.(runtime_generation));
        ("topologyDigest", JStr self.(topology_digest));
        ("slots", JArr (map (fun slot =>
           JObj [("kind", JStr (ResourceKind.as_str slot.(ResourceSlotBinding.kind)));
                 ("stableResourceId", JStr slot.(ResourceSlotBinding.stable_resource_id));
                 ("allocation", ResourceAllocation.to_json slot.(ResourceSlotBinding.allocation))])
           self.(slots)))]%string.

Definition calculate_reservation_digest (self : t) : result string :=
  digest (reservation_document self).

Definition calculate_claim_digest (self : t) : result string :=
  digest (JObj [("reservationDigest", JStr self.(reservation_digest));
                ("claimGeneration", JNum self.(claim_generation));
                ("slots", JArr (map ResourceSlotBinding.to_json self.(slots)))]%string).

(** The durable evidence each state requires and excludes. *)
Definition state_valid (self : t) : bool :=
  match self.(state) with
  | ReservedInDb =>
    is_none self.(prepare_command_id)
    && is_none self.(prepared_binding_digest)
    && is_none self.(prepared_at)
    && is_none self.(bound_at)
    && is_none self.(release_command_id)
    && is_none self.(release_requested_at)
    && is_none self.(release_evidence)
    && is_none self.(released_at)
    && is_none self.(failure)
    && is_none self.(orphaned_at)
  | PreparingOnAgent =>
    is_some self.(prepare_command_id)
    && is_none self.(prepared_binding_digest)
    && is_none self.(prepared_at)
    && is_none self.(bound_at)
    && is_none self.(release_command_id)
    && is_none self.(release_evidence)
    && is_none self.(failure)
  | PreparedOnAgent =>
    is_some self.(prepare_command_id)
    && is_some self.(prepared_binding_digest)
    && is_some self.(prepared_at)
    && is_none self.(bound_at)
    && is_none self.(release_command_id)
    && is_none self.(release_evidence)
    && is_none self.(failure)
  | BoundToRuntimeUnit =>
    is_some self.(prepare_command_id)
    && is_some self.(prepared_binding_digest)
    && is_some self.(prepared_at)
    && is_some self.(bound_at)
    && is_none self.(release_command_id)
    && is_none self.(release_evidence)
    && is_none self.(failure)
  | Releasing =>
    is_some self.(release_command_id)
    && is_some self.(release_requested_at)
    && is_none self.(release_evidence)
    && is_none self.(released_at)
  | Released =>
    is_some self.(release_evidence)
    && is_some self.(released_at)
    && is_none self.(failure)
  | Orphaned =>
    is_some self.(failure)
    && is_some self.(orphaned_at)
    && is_none self.(release_evidence)
    && is_none self.(released_at)
  end.

(** [if let Some(value) = &self.field { check(value)?; }] *)
Definition if_some {A} (o : option A) (check : A -> result unit) : result unit :=
  match o with Some a => check a | None => Ok tt end.

Definition validate (self : t) : result unit :=
  fail_if (is_nil self.(id)
           || is_nil self.(organization_id)
           || is_nil self.(project_id)
           || is_nil self.(environment_id)
           || is_nil self.(workload_id)
           || is_nil self.(deployment_id)
           || is_nil self.(replica_id)
           || (self.(replica_generation) =? 0)%N
           || is_nil self.(member_id)
           || (self.(placement_generation) =? 0)%N
           || is_nil self.(node_id)
           || (self.(inventory_generation) =? 0)%N
           || (self.(runtime_generation) != self.(replica_generation))
           || (self.(claim_generation) =? 0)%N
           || (self.(aggregate_version) =? 0)%N
           || (self.(updated_at) <? self.(created_at))%Z)
    "resource claim identity, generation, or timestamps are invalid" ;;
  validate_claim_sha256 self.(inventory_digest) "resource inventory digest" ;;
  validate_claim_sha256 self.(topology_digest) "resource topology digest" ;;
  validate_claim_sha256 self.(reservation_digest) "resource reservation digest" ;;
  validate_claim_sha256 self.(claim_digest) "resource claim digest" ;;
  validate_runtime_identity self.(runtime_unit_id) self.(runtime_generation) ;;
  validate_slot_bindings self.(slots) ;;
  reservation ← calculate_reservation_digest self;
  (if reservation != self.(reservation_digest)
   then err "resource claim digest does not match its exact binding"
   else
     claim ← calculate_claim_digest self;
     fail_if (claim != self.(claim_digest)) "resource claim digest does not match its exact binding") ;;
  if_some self.(prepared_binding_digest)
    (fun digest => validate_claim_sha256 digest "prepared resource binding digest") ;;
  if_some self.(failure) validate_failure ;;
  if_some self.(release_evidence) (fun evidence =>
    ResourceClaimReleaseEvidence.validate evidence ;;
    fail_if (negb (slot_evidence_matches self (ResourceClaimReleaseEvidence.slots evidence)))
      "stored resource release evidence has the wrong slots") ;;
  fail_if (negb (state_valid self)) "resource claim state does not match its durable evidence".

Definition canonical_time (at' : Time) : method t Time :=
  self ← get;
  let at' := canonical_timestamp at' in
  if (at' <? self.(updated_at))%Z then raise "resource claim update time regressed" else mret at'.

Definition bump (at' : Time) : method t unit :=
  self ← get;
  version ← lift (ok_or (checked_add self.(aggregate_version) 1) "resource claim version overflowed");
  modify (fun self => self <| aggregate_version := version |>) ;;
  modify (fun self => self <| updated_at := at' |>).

Definition reserve (reservation : ResourceClaimReservation.t) (slots : list ResourceSlotBinding.t) :
    result t :=
  ResourceClaimReservation.validate reservation ;;
  fail_if (negb (slot_requests_match_bindings reservation.(ResourceClaimReservation.slots) slots))
    "reserved resource slots do not match the canonical request" ;;
  validate_slot_bindings slots ;;
  let binding := reservation.(ResourceClaimReservation.binding) in
  let inventory := reservation.(ResourceClaimReservation.inventory) in
  let reserved_at := canonical_timestamp reservation.(ResourceClaimReservation.reserved_at) in
  let claim :=
    {| id := reservation.(ResourceClaimReservation.id);
       organization_id := binding.(DeploymentReplicaBinding.organization_id);
       project_id := binding.(DeploymentReplicaBinding.project_id);
       environment_id := binding.(DeploymentReplicaBinding.environment_id);
       workload_id := binding.(DeploymentReplicaBinding.workload_id);
       deployment_id := binding.(DeploymentReplicaBinding.deployment_id);
       replica_id := binding.(DeploymentReplicaBinding.replica_id);
       replica_generation := binding.(DeploymentReplicaBinding.replica_generation);
       member_id := binding.(DeploymentReplicaBinding.member_id);
       placement_generation := binding.(DeploymentReplicaBinding.placement_generation);
       node_id := reservation.(ResourceClaimReservation.node_id);
       inventory_generation := inventory.(NodeResourceInventory.generation);
       inventory_digest := inventory.(NodeResourceInventory.digest);
       runtime_unit_id := binding.(DeploymentReplicaBinding.runtime_unit_id);
       runtime_generation := binding.(DeploymentReplicaBinding.runtime_generation);
       topology_digest := reservation.(ResourceClaimReservation.topology_digest);
       slots := slots;
       reservation_digest := EmptyString;
       claim_generation := 1;
       claim_digest := EmptyString;
       state := ReservedInDb;
       prepare_command_id := None;
       prepared_binding_digest := None;
       release_command_id := None;
       release_evidence := None;
       failure := None;
       aggregate_version := 1;
       created_at := reserved_at;
       updated_at := reserved_at;
       prepared_at := None;
       bound_at := None;
       release_requested_at := None;
       released_at := None;
       orphaned_at := None |} in
  rd ← calculate_reservation_digest claim;
  let claim := claim <| reservation_digest := rd |> in
  cd ← calculate_claim_digest claim;
  let claim := claim <| claim_digest := cd |> in
  validate claim ;;
  Ok claim.

Definition begin_preparation (command_id : NodeCommandId) (at' : Time) : method t unit :=
  at' ← canonical_time at';
  self ← get;
  if self.(state) == PreparingOnAgent then
    if self.(prepare_command_id) == Some command_id then mret tt
    else raise "resource claim preparation command cannot change"
  else if (self.(state) != ReservedInDb) || is_nil command_id then
    raise "resource claim cannot begin agent preparation"
  else
    modify (fun self => self <| state := PreparingOnAgent |>) ;;
    modify (fun self => self <| prepare_command_id := Some command_id |>) ;;
    bump at'.

Definition record_prepared (command_id : NodeCommandId) (binding_digest : string) (at' : Time) :
    method t unit :=
  at' ← canonical_time at';
  lift (validate_claim_sha256 binding_digest "prepared resource binding digest") ;;
  self ← get;
  if self.(state) == PreparedOnAgent then
    if (self.(prepare_command_id) == Some command_id)
       && (self.(prepared_binding_digest) == Some binding_digest)
    then mret tt
    else raise "prepared resource claim evidence cannot change"
  else if (self.(state) != PreparingOnAgent) || (self.(prepare_command_id) != Some command_id) then
    raise "resource claim preparation acknowledgement is stale"
  else
    modify (fun self => self <| state := PreparedOnAgent |>) ;;
    modify (fun self => self <| prepared_binding_digest := Some binding_digest |>) ;;
    modify (fun self => self <| prepared_at := Some at' |>) ;;
    bump at'.

Definition bind (evidence : ResourceClaimBindingEvidence.t) (at' : Time) : method t unit :=
  at' ← canonical_time at';
  let evidence := ResourceClaimBindingEvidence.canonicalize evidence in
  lift (ResourceClaimBindingEvidence.validate evidence) ;;
  self ← get;
  if self.(state) == BoundToRuntimeUnit then
    if binding_evidence_matches self evidence then mret tt
    else raise "bound resource claim evidence cannot change"
  else if (self.(state) != PreparedOnAgent)
          || negb (binding_evidence_matches self evidence)
          || (at' <? evidence.(ResourceClaimBindingEvidence.observed_at))%Z then
    raise "Runtime resource binding evidence does not match the prepared claim"
  else
    modify (fun self => self <| state := BoundToRuntimeUnit |>) ;;
    modify (fun self => self <| bound_at :=
      Some (canonical_timestamp evidence.(ResourceClaimBindingEvidence.observed_at)) |>) ;;
    bump at'.

Definition begin_release (command_id : NodeCommandId) (at' : Time) : method t unit :=
  at' ← canonical_time at';
  self ← get;
  if self.(state) == Releasing then
    if self.(release_command_id) == Some command_id then mret tt
    else raise "resource claim release command cannot change"
  else if negb (matches self.(state) [PreparedOnAgent; BoundToRuntimeUnit; Orphaned])
          || is_nil command_id then
    raise "resource claim cannot begin release"
  else
    next ← lift (ok_or (checked_add self.(claim_generation) 1) "resource claim generation overflowed");
    modify (fun self => self <| claim_generation := next |>) ;;
    d ← lift (calculate_claim_digest (self <| claim_generation := next |>));
    modify (fun self => self <| claim_digest := d |>) ;;
    modify (fun self => self <| state := Releasing |>) ;;
    modify (fun self => self <| release_command_id := Some command_id |>) ;;
    modify (fun self => self <| release_requested_at := Some at' |>) ;;
    bump at'.

(** The identity check of an agent's acknowledgement. *)
Definition agent_release_is_stale (self : t) (evidence : ResourceClaimReleaseEvidence.t) : bool :=
  match evidence with
  | ResourceClaimReleaseEvidence.AgentReleased command_id _ _ _ =>
    (self.(state) != Releasing) || (self.(release_command_id) != Some command_id)
  | _ => false
  end.

Definition database_cancellation_matches (self : t) (evidence : ResourceClaimReleaseEvidence.t) : bool :=
  match evidence with
  | ResourceClaimReleaseEvidence.DatabaseReservationCancelled d _ _ =>
    (self.(state) == ReservedInDb) && (d == self.(reservation_digest))
  | _ => false
  end.

Definition record_released (evidence : ResourceClaimReleaseEvidence.t) (at' : Time) : method t unit :=
  at' ← canonical_time at';
  let evidence := ResourceClaimReleaseEvidence.canonicalize evidence in
  lift (ResourceClaimReleaseEvidence.validate evidence) ;;
  self ← get;
  if self.(state) == Released then
    if self.(release_evidence) == Some evidence then mret tt
    else raise "released resource claim evidence cannot change"
  else
    let issued_release_matches :=
      matches self.(state) [Releasing; Orphaned]
      && negb (ResourceClaimReleaseEvidence.is_database_cancellation evidence) in
    if negb (database_cancellation_matches self evidence) && negb issued_release_matches
       || (at' <? ResourceClaimReleaseEvidence.observed_at evidence)%Z
       || negb (slot_evidence_matches self (ResourceClaimReleaseEvidence.slots evidence)) then
      raise "resource claim release evidence is stale or incomplete"
    else if agent_release_is_stale self evidence then
      raise "agent release acknowledgement has the wrong command identity"
    else
      modify (fun self => self <| state := Released |>) ;;
      modify (fun self => self <| released_at :=
        Some (canonical_timestamp (ResourceClaimReleaseEvidence.observed_at evidence)) |>) ;;
      modify (fun self => self <| release_evidence := Some evidence |>) ;;
      modify (fun self => self <| failure := None |>) ;;
      bump at'.

Definition cancel_database_reservation (at' : Time) : method t unit :=
  self ← get;
  record_released
    (ResourceClaimReleaseEvidence.DatabaseReservationCancelled self.(reservation_digest)
       (slot_evidence self) (canonical_timestamp at')) at'.

Definition orphan (reason : string) (at' : Time) : method t unit :=
  at' ← canonical_time at';
  lift (validate_failure reason) ;;
  self ← get;
  if self.(state) == Orphaned then
    if self.(failure) == Some reason then mret tt
    else raise "orphaned resource claim failure cannot change"
  else if self.(state) == Released then raise "released resource claim cannot become orphaned"
  else
    modify (fun self => self <| state := Orphaned |>) ;;
    modify (fun self => self <| failure := Some reason |>) ;;
    modify (fun self => self <| orphaned_at := Some at' |>) ;;
    bump at'.

Definition node_binding (self : t) (agent_instance_id : Uuid) : result NodeResourceClaimBinding.t :=
  validate self ;;
  let binding :=
    {| NodeResourceClaimBinding.schema := NodeResourceClaimBinding.SCHEMA;
       NodeResourceClaimBinding.claim_id := self.(id);
       NodeResourceClaimBinding.node_id := self.(node_id);
       NodeResourceClaimBinding.agent_instance_id := agent_instance_id;
       NodeResourceClaimBinding.inventory_generation := self.(inventory_generation);
       NodeResourceClaimBinding.inventory_digest := self.(inventory_digest);
       NodeResourceClaimBinding.runtime_unit_id := self.(runtime_unit_id);
       NodeResourceClaimBinding.runtime_generation := self.(runtime_generation);
       NodeResourceClaimBinding.topology_digest := self.(topology_digest);
       NodeResourceClaimBinding.slots := self.(slots) |} in
  NodeResourceClaimBinding.validate binding ;;
  Ok binding.

End claim.
End ResourceClaim.

(** [ResourceClaimReservation::matches] *)
Definition reservation_matches (self : ResourceClaimReservation.t) (claim : ResourceClaim.t) : bool :=
  let b := self.(ResourceClaimReservation.binding) in
  let inventory := self.(ResourceClaimReservation.inventory) in
  (self.(ResourceClaimReservation.id) == claim.(ResourceClaim.id))
  && (b.(DeploymentReplicaBinding.organization_id) == claim.(ResourceClaim.organization_id))
  && (b.(DeploymentReplicaBinding.project_id) == claim.(ResourceClaim.project_id))
  && (b.(DeploymentReplicaBinding.environment_id) == claim.(ResourceClaim.environment_id))
  && (b.(DeploymentReplicaBinding.workload_id) == claim.(ResourceClaim.workload_id))
  && (b.(DeploymentReplicaBinding.deployment_id) == claim.(ResourceClaim.deployment_id))
  && (b.(DeploymentReplicaBinding.replica_id) == claim.(ResourceClaim.replica_id))
  && (b.(DeploymentReplicaBinding.replica_generation) == claim.(ResourceClaim.replica_generation))
  && (b.(DeploymentReplicaBinding.member_id) == claim.(ResourceClaim.member_id))
  && (b.(DeploymentReplicaBinding.placement_generation) == claim.(ResourceClaim.placement_generation))
  && (self.(ResourceClaimReservation.node_id) == claim.(ResourceClaim.node_id))
  && (inventory.(NodeResourceInventory.generation) == claim.(ResourceClaim.inventory_generation))
  && (inventory.(NodeResourceInventory.digest) == claim.(ResourceClaim.inventory_digest))
  && (b.(DeploymentReplicaBinding.runtime_unit_id) == claim.(ResourceClaim.runtime_unit_id))
  && (b.(DeploymentReplicaBinding.runtime_generation) == claim.(ResourceClaim.runtime_generation))
  && (self.(ResourceClaimReservation.topology_digest) == claim.(ResourceClaim.topology_digest))
  && slot_requests_match_bindings self.(ResourceClaimReservation.slots) claim.(ResourceClaim.slots).

Module AtomicResourceClaimReservation.
Import ResourceClaimReservation.

Record t := Mk { reservations : list ResourceClaimReservation.t }.

(** [(replica_id, replica_generation, member_id)] *)
Definition member_generation (r : ResourceClaimReservation.t) : Uuid * N * Uuid :=
  (r.(binding).(DeploymentReplicaBinding.replica_id),
   r.(binding).(DeploymentReplicaBinding.replica_generation),
   r.(binding).(DeploymentReplicaBinding.member_id)).

(** The order in which node, slot and inventory locks are taken. *)
Definition lock_key (r : ResourceClaimReservation.t) : Uuid * Uuid * Uuid * Uuid * Uuid :=
  (r.(node_id), r.(binding).(DeploymentReplicaBinding.workload_id),
   r.(binding).(DeploymentReplicaBinding.replica_id),
   r.(binding).(DeploymentReplicaBinding.member_id), r.(id)).

(** The loop over the two sets of identities already seen. *)
Fixpoint check_distinct (claim_ids : list Uuid) (member_generations : list (Uuid * N * Uuid))
    (reservations : list ResourceClaimReservation.t) : result unit :=
  match reservations with
  | [] => Ok tt
  | r :: rest =>
    fail_if (bool_decide (r.(id) ∈ claim_ids))
      "an atomic resource claim reservation repeats a Claim ID" ;;
    fail_if (bool_decide (member_generation r ∈ member_generations))
      "an atomic resource claim reservation repeats one replica member generation" ;;
    check_distinct (r.(id) :: claim_ids) (member_generation r :: member_generations) rest
  end.

Definition new `{External} (reservations : list ResourceClaimReservation.t) : result t :=
  fail_if (is_empty reservations || (MAX_ATOMIC_RESOURCE_CLAIM_RESERVATIONS <? len reservations)%N)
    "an atomic resource claim reservation must contain between 1 and {MAX_ATOMIC_RESOURCE_CLAIM_RESERVATIONS} members" ;;
  for_each ResourceClaimReservation.validate reservations ;;
  fail_if (any (fun r =>
             Some r.(binding).(DeploymentReplicaBinding.organization_id)
             != ((fun r => r.(binding).(DeploymentReplicaBinding.organization_id)) <$> head reservations))
             reservations)
    "an atomic resource claim reservation cannot cross organizations" ;;
  check_distinct [] [] reservations ;;
  Ok (Mk (sort_by_key lock_key reservations)).

Definition single `{External} (reservation : ResourceClaimReservation.t) : result t := new [reservation].

Lemma check_distinct_Ok ids gens l :
  check_distinct ids gens l = Ok tt <->
  NoDup (ResourceClaimReservation.id <$> l) /\ NoDup (member_generation <$> l)
  /\ (forall r, r ∈ l -> r.(id) ∉ ids /\ member_generation r ∉ gens).
Proof.
  revert ids gens. induction l as [|r l IH]; intros ids gens; simpl.
  { split; [|done]. intros _. split_and!; try constructor; by apply not_elem_of_nil in H. }
  rewrite !then_Ok, !fail_if_Ok, !bool_decide_eq_false, IH, !NoDup_cons. split.
  - intros (Hi & Hg & Hnd1 & Hnd2 & Hall). split_and!; try done.
    + intros (x & E & Hx)%list_elem_of_fmap. destruct (Hall x Hx) as [Hn _]. apply Hn. rewrite E. by left.
    + intros (x & E & Hx)%list_elem_of_fmap. destruct (Hall x Hx) as [_ Hn]. apply Hn. rewrite E. by left.
    + intros x [->|Hx]%elem_of_cons; [done|]. destruct (Hall x Hx) as [H1 H2].
      split; intros Hin; [apply H1|apply H2]; by right.
  - intros ([Hi Hnd1] & [Hg Hnd2] & Hall). destruct (Hall r) as [H1 H2]; [by left|].
    split_and!; try done. intros x Hx. destruct (Hall x) as [H3 H4]; [by right|].
    split; intros [E|?]%elem_of_cons; try done.
    + apply Hi. rewrite <- E. by apply list_elem_of_fmap_2.
    + apply Hg. rewrite <- E. by apply list_elem_of_fmap_2.
Qed.

(** The sets that can be reserved together. *)
Definition reservable `{External} (l : list ResourceClaimReservation.t) : Prop :=
  (1 <= len l <= MAX_ATOMIC_RESOURCE_CLAIM_RESERVATIONS)%N
  /\ Forall (fun r => ResourceClaimReservation.validate r = Ok tt) l
  /\ (forall r r', r ∈ l -> r' ∈ l -> r.(binding).(DeploymentReplicaBinding.organization_id)
                                     = r'.(binding).(DeploymentReplicaBinding.organization_id))
  /\ NoDup (ResourceClaimReservation.id <$> l) /\ NoDup (member_generation <$> l).

Lemma new_reservable `{External} l a :
  new l = Ok a <-> reservable l /\ a = Mk (sort_by_key lock_key l).
Proof.
  unfold new, reservable. rewrite !then_Ok, !fail_if_Ok, for_each_Ok, check_distinct_Ok.
  assert ((is_empty l || (MAX_ATOMIC_RESOURCE_CLAIM_RESERVATIONS <? len l)%N = false) <->
          (1 <= len l <= MAX_ATOMIC_RESOURCE_CLAIM_RESERVATIONS)%N) as ->.
  { unfold len. destruct l; simpl; reflect_bools; split; intros; try done; try lia. }
  assert (any (fun r => Some r.(binding).(DeploymentReplicaBinding.organization_id)
             != ((fun r => r.(binding).(DeploymentReplicaBinding.organization_id)) <$> head l)) l = false <->
          (forall r r', r ∈ l -> r' ∈ l -> r.(binding).(DeploymentReplicaBinding.organization_id)
                                     = r'.(binding).(DeploymentReplicaBinding.organization_id))) as ->.
  { destruct l as [|r0 l]; [split; [intros _ ? ? []%not_elem_of_nil|done]|].
    rewrite <- not_true_iff_false. unfold any. rewrite existsb_exists. cbn [head fmap option_fmap option_map].
    split.
    - intros Hn. assert (forall r, r ∈ r0 :: l -> r.(binding).(DeploymentReplicaBinding.organization_id)
        = r0.(binding).(DeploymentReplicaBinding.organization_id)) as Hall.
      { intros r Hr. apply dec_stable. intros Hne. apply Hn. exists r.
        split; [by apply list_elem_of_In|]. reflect_bools. congruence. }
      intros r r' Hr Hr'. by rewrite (Hall r), (Hall r').
    - intros Hall (r & Hr & Hne). reflect_bools. apply Hne. f_equal. apply Hall; [by apply list_elem_of_In|by left]. }
  split.
  - intros (? & ? & ? & (? & ? & _) & [= <-]). done.
  - intros ((? & ? & ? & ? & ?) & ->). do 4 (split; [done||split_and!|]); try done.
    all: intros; split; apply not_elem_of_nil.
Qed.

Lemma reservable_perm `{External} l l' : l ≡ₚ l' -> reservable l -> reservable l'.
Proof.
  intros Hp (Hn & Hv & Ho & Hi & Hm). unfold reservable, len in *.
  rewrite <- (Permutation_length Hp). split; [exact Hn|]. split; [by rewrite <- Hp|].
  split; [|split].
  - intros r r' Hr Hr'. rewrite <- Hp in Hr, Hr'. by apply Ho.
  - by rewrite <- (fmap_Permutation ResourceClaimReservation.id _ _ Hp).
  - by rewrite <- (fmap_Permutation member_generation _ _ Hp).
Qed.

Lemma lock_key_distinct l : NoDup (ResourceClaimReservation.id <$> l) -> NoDup (lock_key <$> l).
Proof.
  intros Hnd. apply (NoDup_fmap_1 (fun k => k.2)). rewrite <- list_fmap_compose. done.
Qed.

End AtomicResourceClaimReservation.
