(* ===== verification/ResourceClaimLifecycle.v ===== *)
(** * The lifecycle of a resource claim

    Theorems about every sequence of calls on a claim of [ResourceClaims]: the invariant that
    [validate] checks and what it needs to be inductive, the abstract lifecycle, the evidence a
    release needs, replays, and the agreement with the messages sent to node agents. *)

From Stdlib Require Import ZArith NArith Lia String.
From S2P Require Import Prelude RustStd External SharedKernel Resources NodeInventory NodeClaims.
From S2P Require Import Workloads Deployments Replicas ResourceClaims.

Module ClaimLifecycle.
Import ResourceClaimState ResourceClaim.

Inductive op :=
| BeginPreparation (command_id : NodeCommandId) (at' : Time)
| RecordPrepared (command_id : NodeCommandId) (binding_digest : string) (at' : Time)
| Bind (evidence : ResourceClaimBindingEvidence.t) (at' : Time)
| BeginRelease (command_id : NodeCommandId) (at' : Time)
| RecordReleased (evidence : ResourceClaimReleaseEvidence.t) (at' : Time)
| CancelDatabaseReservation (at' : Time)
| Orphan (failure : string) (at' : Time).

Section lifecycle.
Context `{External}.

Definition step (o : op) : method ResourceClaim.t unit :=
  match o with
  | BeginPreparation c at' => begin_preparation c at'
  | RecordPrepared c d at' => record_prepared c d at'
  | Bind e at' => bind e at'
  | BeginRelease c at' => begin_release c at'
  | RecordReleased e at' => record_released e at'
  | CancelDatabaseReservation at' => cancel_database_reservation at'
  | Orphan f at' => orphan f at'
  end.

(** The state that is written back: a claim whose call was rejected is dropped. *)
Definition commit (o : op) (c : ResourceClaim.t) : ResourceClaim.t :=
  match step o c with (c', Ok _) => c' | (_, Err _) => c end.

Definition commit_all (ops : list op) (c : ResourceClaim.t) : ResourceClaim.t :=
  fold_left (fun c o => commit o c) ops c.

(** The claims the control plane can hold. *)
Inductive reachable : ResourceClaim.t -> Prop :=
| reach_reserve r slots c : reserve r slots = Ok c -> reachable c
| reach_commit c o : reachable c -> reachable (commit o c).

(** What no operation touches. *)
Definition fixed (c : ResourceClaim.t) : Prop :=
  is_nil c.(id) || is_nil c.(organization_id) || is_nil c.(project_id) || is_nil c.(environment_id)
  || is_nil c.(workload_id) || is_nil c.(deployment_id) || is_nil c.(replica_id)
  || (c.(replica_generation) =? 0)%N || is_nil c.(member_id) || (c.(placement_generation) =? 0)%N
  || is_nil c.(node_id) || (c.(inventory_generation) =? 0)%N
  || (c.(runtime_generation) != c.(replica_generation)) = false
  /\ is_sha256_digest c.(inventory_digest) = true /\ is_sha256_digest c.(topology_digest) = true
  /\ is_sha256_digest c.(reservation_digest) = true
  /\ validate_runtime_identity c.(runtime_unit_id) c.(runtime_generation) = Ok tt
  /\ validate_slot_bindings c.(slots) = Ok tt
  /\ calculate_reservation_digest c = Ok c.(reservation_digest).

Definition evidence_ok (c : ResourceClaim.t) : Prop :=
  (forall d, c.(prepared_binding_digest) = Some d -> is_sha256_digest d = true)
  /\ (forall f, c.(failure) = Some f -> validate_failure f = Ok tt)
  /\ (forall e, c.(release_evidence) = Some e ->
        ResourceClaimReleaseEvidence.validate e = Ok tt
        /\ ResourceClaimReleaseEvidence.slots e = slot_evidence c).

Lemma if_some_Ok {A} (o : option A) check :
  if_some o check = Ok tt <-> forall a, o = Some a -> check a = Ok tt.
Proof. destruct o; simpl; naive_solver. Qed.

Lemma validate_iff c :
  validate c = Ok tt <->
  fixed c /\ c.(claim_generation) <> 0%N /\ c.(aggregate_version) <> 0%N
  /\ (c.(created_at) <= c.(updated_at))%Z
  /\ is_sha256_digest c.(claim_digest) = true /\ calculate_claim_digest c = Ok c.(claim_digest)
  /\ evidence_ok c /\ state_valid c = true.
Proof.
  unfold validate, fixed, evidence_ok. rewrite !then_Ok, fail_if_Ok, !validate_claim_sha256_Ok.
  rewrite !orb_false_iff, !N.eqb_neq, Z.ltb_ge.
  assert (forall r : result unit, (reservation ← calculate_reservation_digest c;
    (if reservation != reservation_digest c
     then err "resource claim digest does not match its exact binding"
     else claim ← calculate_claim_digest c;
          fail_if (claim != claim_digest c) "resource claim digest does not match its exact binding") ;; r)
    = Ok tt <-> calculate_reservation_digest c = Ok (reservation_digest c)
      /\ calculate_claim_digest c = Ok (claim_digest c) /\ r = Ok tt) as ->.
  { intros r. destruct (calculate_reservation_digest c) as [rd|]; simpl; [|naive_solver].
    destruct (calculate_claim_digest c) as [cd|]; simpl.
    - unfold fail_if, err. do 2 case_bool_decide; subst; simpl; naive_solver.
    - unfold err. case_bool_decide; simpl; naive_solver. }
  rewrite !then_Ok, !if_some_Ok, fail_if_Ok, !negb_false_iff.
  assert ((forall a, release_evidence c = Some a ->
     (ResourceClaimReleaseEvidence.validate a ;;
      fail_if (negb (slot_evidence_matches c (ResourceClaimReleaseEvidence.slots a)))
        "stored resource release evidence has the wrong slots") = Ok tt) <->
    (forall e, c.(release_evidence) = Some e ->
        ResourceClaimReleaseEvidence.validate e = Ok tt
        /\ ResourceClaimReleaseEvidence.slots e = slot_evidence c)) as ->.
  { unfold slot_evidence_matches. split; intros Hall e He; specialize (Hall e He);
      rewrite then_Ok, fail_if_Ok in *; reflect_bools; done. }
  assert ((forall a, prepared_binding_digest c = Some a ->
      validate_claim_sha256 a "prepared resource binding digest" = Ok tt) <->
    (forall d, c.(prepared_binding_digest) = Some d -> is_sha256_digest d = true)) as ->.
  { by setoid_rewrite validate_claim_sha256_Ok. }
  tauto.
Qed.

(** What [validate] leaves open and the operations maintain: the time of the release is recorded
    with its evidence, a claim sent to an agent is not released as a mere reservation, and an agent's
    release answers the command that was issued. *)
Definition release_sound (c : ResourceClaim.t) : Prop :=
  (c.(state) <> Released -> c.(released_at) = None /\ c.(release_evidence) = None)
  /\ (forall e, c.(release_evidence) = Some e ->
       match e with
       | ResourceClaimReleaseEvidence.DatabaseReservationCancelled d _ _ =>
         d = c.(reservation_digest) /\ c.(prepare_command_id) = None
       | ResourceClaimReleaseEvidence.AgentReleased command _ _ _ => c.(release_command_id) = Some command
       | _ => True
       end).

Definition inv (c : ResourceClaim.t) : Prop := validate c = Ok tt /\ release_sound c.

(** The accepted transitions, each with the conditions under which it is taken and everything it
    writes. *)
Local Notation bumped at' c :=
  (c <| aggregate_version := (c.(aggregate_version) + 1)%N |> <| updated_at := at' |>).

Inductive effect (c : ResourceClaim.t) : ResourceClaim.t -> Prop :=
| eff_preparing command at' :
    c.(state) = ReservedInDb -> is_nil command = false ->
    effect c (bumped at' (c <| state := PreparingOnAgent |> <| prepare_command_id := Some command |>))
| eff_prepared command d at' :
    c.(state) = PreparingOnAgent -> c.(prepare_command_id) = Some command -> is_sha256_digest d = true ->
    effect c (bumped at' (c <| state := PreparedOnAgent |> <| prepared_binding_digest := Some d |>
                            <| prepared_at := Some at' |>))
| eff_bound e at' :
    c.(state) = PreparedOnAgent -> binding_evidence_matches c e = true ->
    effect c (bumped at' (c <| state := BoundToRuntimeUnit |>
                            <| bound_at := Some (canonical_timestamp e.(ResourceClaimBindingEvidence.observed_at)) |>))
| eff_releasing command d at' :
    matches c.(state) [PreparedOnAgent; BoundToRuntimeUnit; Orphaned] = true -> is_nil command = false ->
    (c.(claim_generation) + 1 <= u64_max)%N ->
    calculate_claim_digest (c <| claim_generation := (c.(claim_generation) + 1)%N |>) = Ok d ->
    effect c (bumped at' (c <| claim_generation := (c.(claim_generation) + 1)%N |> <| claim_digest := d |>
                            <| state := Releasing |> <| release_command_id := Some command |>
                            <| release_requested_at := Some at' |>))
| eff_released e at' :
    c.(state) <> Released -> ResourceClaimReleaseEvidence.validate e = Ok tt ->
    database_cancellation_matches c e = true
    \/ matches c.(state) [Releasing; Orphaned] = true
       /\ ResourceClaimReleaseEvidence.is_database_cancellation e = false ->
    slot_evidence_matches c (ResourceClaimReleaseEvidence.slots e) = true -> agent_release_is_stale c e = false ->
    effect c (bumped at' (c <| state := Released |>
                            <| released_at := Some (canonical_timestamp (ResourceClaimReleaseEvidence.observed_at e)) |>
                            <| release_evidence := Some e |> <| failure := None |>))
| eff_orphaned f at' :
    c.(state) <> Orphaned -> c.(state) <> Released -> validate_failure f = Ok tt ->
    effect c (bumped at' (c <| state := Orphaned |> <| failure := Some f |> <| orphaned_at := Some at' |>)).

Definition timely (c c' : ResourceClaim.t) : Prop :=
  (c.(updated_at) <= c'.(updated_at))%Z /\ (c'.(aggregate_version) <= u64_max)%N.

(** Closes the rejected and the replayed paths, and names the result of the others. *)
Ltac accepted Hs :=
  try discriminate Hs;
  repeat match goal with u : unit |- _ => destruct u end;
  match type of Hs with
  | (?x, _) = (?y, _) => apply (f_equal fst) in Hs; cbn [fst] in Hs; subst y
  end;
  first [ left; reflexivity | right ];
  repeat match goal with H : ok_or _ _ = Ok _ |- _ => apply ok_or_Ok, checked_add_Some in H as [-> H] end;
  reflect_bools; destruct_and?;
  (split; [|split; [assumption|assumption]]).

Lemma step_effect o c c' :
  step o c = (c', Ok tt) -> c' = c \/ effect c c' /\ timely c c'.
Proof.
  intros Hs. destruct o; cbn [step] in Hs;
    unfold cancel_database_reservation, begin_preparation, record_prepared, ResourceClaim.bind,
      begin_release, record_released, orphan, canonical_time, bump in Hs; exec_method Hs.
  all: accepted Hs.
  - by eapply eff_preparing.
  - eapply eff_prepared; try done. by eapply validate_claim_sha256_Ok.
  - by eapply (eff_bound c (ResourceClaimBindingEvidence.canonicalize evidence)).
  - by eapply eff_releasing.
  - by eapply (eff_released c (ResourceClaimReleaseEvidence.canonicalize evidence)).
  - by eapply (eff_released c (ResourceClaimReleaseEvidence.canonicalize
      (ResourceClaimReleaseEvidence.DatabaseReservationCancelled _ _ _))).
  - by eapply eff_orphaned.
Qed.

(** A counter at its limit. *)
Definition exhausted (c : ResourceClaim.t) : Prop :=
  (u64_max <= c.(claim_generation))%N \/ (u64_max <= c.(aggregate_version))%N.

Lemma is_none_true {A} (o : option A) : is_none o = true <-> o = None.
Proof. destruct o; unfold is_none; simpl; naive_solver. Qed.

Lemma effect_fixed c c' : effect c c' -> fixed c -> fixed c'.
Proof. destruct 1; exact (fun Hf => Hf). Qed.

Lemma effect_slot_evidence c c' : effect c c' -> slot_evidence c' = slot_evidence c.
Proof. by destruct 1. Qed.

Lemma matches_spec `{EqDecision A} (x : A) l : matches x l = true <-> x ∈ l.
Proof. unfold matches. apply bool_decide_eq_true. Qed.

Lemma effect_evidence c c' :
  effect c c' -> evidence_ok c -> release_sound c -> state_valid c = true ->
  evidence_ok c' /\ release_sound c' /\ state_valid c' = true.
Proof.
  intros He (Hd & Hf & Hr) (Hn & Hs) Hv. unfold evidence_ok, release_sound, state_valid in *.
  assert (state c <> Released) as Hnr by (destruct He; intros E; rewrite E in *; discriminate || done).
  destruct (Hn Hnr) as [Hra Hre]. rewrite Hra, Hre in *. clear Hn Hr Hs.
  destruct He as [command at' Hst Hc|command d at' Hst Hcmd Hsha|e at' Hst Hm
    |command d at' Hst Hc Hg Hdig|e at' Hst He Hk Hslots Hstale|f at' Ho Hrel Hfail]; cbn;
    rewrite ?Hra, ?Hre; split_and!; try done; try (by intros ? [= <-]).
  1-3: rewrite Hst in Hv; cbn in Hv; reflect_bools; destruct_and?; split_and!; done.
  - intros e' [= <-]. split; [done|]. unfold slot_evidence_matches in Hslots. by reflect_bools.
  - intros e' [= <-]. unfold database_cancellation_matches, agent_release_is_stale in *.
    destruct e; cbn in *; reflect_bools; destruct_and?; try done.
    destruct Hk as [[Hres ->]|[_ Hk]]; [|done]. split; [done|].
    rewrite Hres in Hv. cbn in Hv. reflect_bools. destruct_and?. by apply is_none_true.
Qed.

Lemma canonicalize_idemp e :
  ResourceClaimReleaseEvidence.canonicalize (ResourceClaimReleaseEvidence.canonicalize e)
  = ResourceClaimReleaseEvidence.canonicalize e.
Proof. destruct e; cbn; by rewrite canonical_timestamp_idemp. Qed.

(** What each call does on a claim that already is where the call would take it. *)
Definition replays (o : op) (c : ResourceClaim.t) : Prop :=
  match o with
  | BeginPreparation cmd t =>
    (c.(updated_at) <= canonical_timestamp t)%Z /\ c.(state) = PreparingOnAgent
    /\ c.(prepare_command_id) = Some cmd
  | RecordPrepared cmd d t =>
    (c.(updated_at) <= canonical_timestamp t)%Z /\ c.(state) = PreparedOnAgent
    /\ c.(prepare_command_id) = Some cmd /\ c.(prepared_binding_digest) = Some d
    /\ is_sha256_digest d = true
  | Bind e t =>
    (c.(updated_at) <= canonical_timestamp t)%Z /\ c.(state) = BoundToRuntimeUnit
    /\ ResourceClaimBindingEvidence.validate (ResourceClaimBindingEvidence.canonicalize e) = Ok tt
    /\ binding_evidence_matches c (ResourceClaimBindingEvidence.canonicalize e) = true
  | BeginRelease cmd t =>
    (c.(updated_at) <= canonical_timestamp t)%Z /\ c.(state) = Releasing
    /\ c.(release_command_id) = Some cmd
  | RecordReleased e t =>
    (c.(updated_at) <= canonical_timestamp t)%Z /\ c.(state) = Released
    /\ ResourceClaimReleaseEvidence.validate (ResourceClaimReleaseEvidence.canonicalize e) = Ok tt
    /\ c.(release_evidence) = Some (ResourceClaimReleaseEvidence.canonicalize e)
  | CancelDatabaseReservation t =>
    let e := ResourceClaimReleaseEvidence.canonicalize
               (ResourceClaimReleaseEvidence.DatabaseReservationCancelled c.(reservation_digest)
                  (slot_evidence c) (canonical_timestamp t)) in
    (c.(updated_at) <= canonical_timestamp t)%Z /\ c.(state) = Released
    /\ ResourceClaimReleaseEvidence.validate e = Ok tt /\ c.(release_evidence) = Some e
  | Orphan f t =>
    (c.(updated_at) <= canonical_timestamp t)%Z /\ c.(state) = Orphaned
    /\ validate_failure f = Ok tt /\ c.(failure) = Some f
  end.

Lemma replay_accepted o c : replays o c -> step o c = (c, Ok tt).
Proof.
  destruct o; cbn [step replays]; cbv zeta;
    unfold cancel_database_reservation, begin_preparation, record_prepared, ResourceClaim.bind,
      begin_release, record_released, orphan, canonical_time, bump;
    intros (Ht%Z.ltb_ge & Hst & Hr); autorewrite with methods; cbn beta zeta; rewrite Ht;
    autorewrite with methods; cbn beta zeta.
  - rewrite Hst, Hr. by rewrite !bool_decide_eq_true_2.
  - destruct Hr as (Hc & Hd & Hsha). rewrite (proj2 (validate_claim_sha256_Ok _ _) Hsha).
    autorewrite with methods; cbn beta zeta. rewrite Hst, Hc, Hd. by rewrite !bool_decide_eq_true_2.
  - destruct Hr as [-> Hm]. autorewrite with methods; cbn beta zeta. by rewrite Hst, Hm, bool_decide_eq_true_2.
  - rewrite Hst, Hr. by rewrite !bool_decide_eq_true_2.
  - destruct Hr as [-> He]. autorewrite with methods; cbn beta zeta. rewrite Hst, He. by rewrite !bool_decide_eq_true_2.
  - destruct Hr as [-> He]. autorewrite with methods; cbn beta zeta. rewrite Hst, He. by rewrite !bool_decide_eq_true_2.
  - destruct Hr as [-> Hf]. autorewrite with methods; cbn beta zeta. rewrite Hst, Hf. by rewrite !bool_decide_eq_true_2.
Qed.

(** A call that was accepted has become a replay of itself. *)
Lemma step_replays o c c' : step o c = (c', Ok tt) -> replays o c'.
Proof.
  intros Hs. destruct o; cbn [step replays] in *; cbv zeta;
    unfold cancel_database_reservation, begin_preparation, record_prepared, ResourceClaim.bind,
      begin_release, record_released, orphan, canonical_time, bump in Hs; exec_method Hs.
  all: try discriminate Hs.
  all: repeat match goal with u : unit |- _ => destruct u end.
  all: apply (f_equal fst) in Hs; cbn [fst] in Hs; subst c'.
  all: repeat match goal with H : validate_claim_sha256 _ _ = Ok _ |- _ => apply validate_claim_sha256_Ok in H end.
  all: reflect_bools; destruct_and?; split_and!; try assumption; try (apply Z.le_refl); try reflexivity.
Qed.

Section invariant.
Context `{!ExternalLaws}.

Lemma claim_digest_form c d : calculate_claim_digest c = Ok d -> is_sha256_digest d = true.
Proof. apply digest_json_form. Qed.

Lemma effect_claim_digest c c' :
  effect c c' -> c.(claim_generation) <> 0%N ->
  is_sha256_digest c.(claim_digest) = true -> calculate_claim_digest c = Ok c.(claim_digest) ->
  c'.(claim_generation) <> 0%N
  /\ is_sha256_digest c'.(claim_digest) = true /\ calculate_claim_digest c' = Ok c'.(claim_digest).
Proof.
  destruct 1 as [| | |command d at' Hst Hc Hg Hdig| |]; intros Hgen Hsha Hcd; try (split_and!; assumption).
  split_and!; [cbn; lia|by eapply claim_digest_form|exact Hdig].
Qed.

Lemma effect_version c c' :
  effect c c' -> c'.(aggregate_version) = (c.(aggregate_version) + 1)%N /\ c'.(created_at) = c.(created_at).
Proof. by destruct 1. Qed.

Lemma step_inv o c c' : inv c -> step o c = (c', Ok tt) -> inv c'.
Proof.
  unfold inv. rewrite !validate_iff.
  intros ((Hfix & Hg & Hv & Ht & Hsha & Hdig & Hev & Hst) & Hrel) Hs.
  apply step_effect in Hs as [->|[He [Ht' _]]]; [by split|].
  destruct (effect_version _ _ He) as [Ev Ec].
  destruct (effect_evidence _ _ He Hev Hrel Hst) as (? & ? & ?).
  destruct (effect_claim_digest _ _ He Hg Hsha Hdig) as (? & ? & ?).
  split_and!; try done; [by eapply effect_fixed|lia|lia].
Qed.

Lemma commit_inv o c : inv c -> inv (commit o c).
Proof.
  intros Hc. unfold commit. destruct (step o c) as [c' [[]|]] eqn:E; [|done]. by eapply step_inv.
Qed.

Lemma reserve_Ok r slots c :
  reserve r slots = Ok c -> validate c = Ok tt /\ c.(state) = ReservedInDb.
Proof.
  unfold reserve. rewrite !then_Ok. intros (_ & _ & _ & Hc).
  rewrite result_bind_Ok in Hc. destruct Hc as (rd & _ & Hc).
  rewrite result_bind_Ok in Hc. destruct Hc as (cd & _ & Hc).
  rewrite then_Ok in Hc. destruct Hc as [Hv [= <-]]. done.
Qed.

Lemma reserved_sound c : validate c = Ok tt -> c.(state) = ReservedInDb -> release_sound c.
Proof.
  intros (_ & _ & _ & _ & _ & _ & _ & Hst)%validate_iff E. unfold state_valid in Hst. rewrite E in Hst.
  reflect_bools. destruct_and?. repeat match goal with H : is_none _ = true |- _ => apply is_none_true in H end.
  split; [done|]. intros e He. congruence.
Qed.

Lemma reachable_inv c : reachable c -> inv c.
Proof.
  induction 1 as [r slots c Hc|c o _ IH]; [|by apply commit_inv].
  apply reserve_Ok in Hc as [? ?]. split; [done|by apply reserved_sound].
Qed.

Lemma calculate_claim_digest_total c : exists d, calculate_claim_digest c = Ok d.
Proof. destruct (digest_json_total (JObj [("reservationDigest", JStr c.(reservation_digest));
                ("claimGeneration", JNum c.(claim_generation));
                ("slots", JArr (map ResourceSlotBinding.to_json c.(slots)))]%string)
                "could not encode resource claim digest input: {error}") as (d & ? & _). by exists d.
Qed.

Lemma claim_step_atomic o c c' e : step o c = (c', Err e) -> c' = c \/ exhausted c.
Proof.
  intros Hs. destruct o; cbn [step] in Hs;
    unfold cancel_database_reservation, begin_preparation, record_prepared, ResourceClaim.bind,
      begin_release, record_released, orphan, canonical_time, bump in Hs; exec_method Hs.
  all: try discriminate Hs.
  all: apply (f_equal fst) in Hs; cbn [fst] in Hs; subst c'; try (left; reflexivity).
  all: try (right; right; match goal with H : ok_or (checked_add (aggregate_version _) _) _ = Err _ |- _ =>
              apply ok_or_Err, checked_add_None in H; change (u64_max < c.(aggregate_version) + 1)%N in H; lia end).
  exfalso. match goal with H : calculate_claim_digest ?x = Err _ |- _ =>
    destruct (calculate_claim_digest_total x) as [? ?]; congruence end.
Qed.

(** Node agents accept the binding of every claim the control plane holds. *)
Lemma node_binding_total c agent :
  validate c = Ok tt -> is_nil agent = false ->
  exists b, node_binding c agent = Ok b /\ NodeResourceClaimBinding.validate b = Ok tt
    /\ b.(NodeResourceClaimBinding.slots) = c.(slots).
Proof.
  intros Hc Ha. unfold node_binding. rewrite Hc. cbn [mbind result_bind].
  apply validate_iff in Hc as ((Hids & Hi & Ht & Hres & Hrun & Hsl & _) & _).
  match goal with |- context [NodeResourceClaimBinding.validate ?x] => set (b := x) end.
  assert (NodeResourceClaimBinding.validate b = Ok tt) as Hb; [|rewrite Hb; cbn; eauto].
  unfold NodeResourceClaimBinding.validate, b, validate_single_line, validate_uuid, errf; cbn.
  unfold validate_runtime_identity in Hrun. reflect_results. reflect_bools. destruct_and?.
  split_and!; try done; try (by apply validate_sha256_lower).
  all: eapply contains_any_incl; [|done]; intros x; rewrite !elem_of_cons, elem_of_nil; tauto.
Qed.

(** ** The abstract lifecycle *)
Inductive phase_step : ResourceClaimState.t -> ResourceClaimState.t -> Prop :=
| ps_prepare : phase_step ReservedInDb PreparingOnAgent
| ps_prepared : phase_step PreparingOnAgent PreparedOnAgent
| ps_bind : phase_step PreparedOnAgent BoundToRuntimeUnit
| ps_release s : s ∈ [PreparedOnAgent; BoundToRuntimeUnit; Orphaned] -> phase_step s Releasing
| ps_released s : s ∈ [ReservedInDb; Releasing; Orphaned] -> phase_step s Released
| ps_orphan s : s ∉ [Orphaned; Released] -> phase_step s Orphaned.

Lemma effect_phase c c' : effect c c' -> phase_step c.(state) c'.(state).
Proof.
  destruct 1 as [command at' Hst Hc|command d at' Hst Hcmd Hsha|e at' Hst Hm
    |command d at' Hst Hc Hg Hdig|e at' Hst He Hk Hslots Hstale|f at' Ho Hrel Hfail]; cbn;
    try (rewrite Hst; constructor).
  - constructor. by apply matches_spec.
  - constructor. destruct Hk as [Hk|[Hk _]].
    + unfold database_cancellation_matches in Hk. destruct e; try discriminate Hk.
      reflect_bools. destruct Hk as [-> _]. by left.
    + apply matches_spec in Hk. by right.
  - constructor. intros [?|[?|[]%not_elem_of_nil]%elem_of_cons]%elem_of_cons; done.
Qed.

(** What identifies a claim and what it holds. *)
Definition same_claim (c c' : ResourceClaim.t) : Prop :=
  reservation_document c' = reservation_document c /\ c'.(slots) = c.(slots)
  /\ c'.(reservation_digest) = c.(reservation_digest) /\ c'.(created_at) = c.(created_at).

#[local] Instance same_claim_preorder : PreOrder same_claim.
Proof. split; [by repeat split|]. intros ? ? ? (?&?&?&?) (?&?&?&?). repeat split; congruence. Qed.

Lemma effect_same_claim c c' : effect c c' -> same_claim c c'.
Proof. by destruct 1. Qed.

Lemma commit_progress o c :
  same_claim c (commit o c) /\ (c.(claim_generation) <= (commit o c).(claim_generation))%N
  /\ (c.(updated_at) <= (commit o c).(updated_at))%Z
  /\ (c.(state) = Released -> commit o c = c)
  /\ ((commit o c).(state) = c.(state) \/ phase_step c.(state) (commit o c).(state)).
Proof.
  unfold commit. destruct (step o c) as [c' [[]|]] eqn:E; [|by repeat split; auto; lia].
  apply step_effect in E as [->|[He [Ht _]]]; [by repeat split; auto; lia|].
  split; [by apply effect_same_claim|]. split; [|split; [done|]].
  - destruct He; cbn; lia.
  - split; [|right; by apply effect_phase]. intros Hr. exfalso.
    apply effect_phase in He. rewrite Hr in He.
    inversion He as [| | |? Hin|? Hin|? Hin]; subst; revert Hin; rewrite !elem_of_cons, elem_of_nil; naive_solver.
Qed.

(** C31: Every claim the control plane can hold satisfies the invariant that [validate] checks
    (identity, digests, evidence for its state) and, in addition, a claim that is not released has
    no release evidence, a claim that was sent to an agent is never released as a cancelled
    reservation, and an agent's release answers the release command that was issued. *)
Theorem claim_invariant c : reachable c -> validate c = Ok tt /\ release_sound c.
Proof. apply reachable_inv. Qed.

(** C32: Capacity is only given back with proof: a released claim carries evidence for every one of
    its slots, with the slots' generations and fencing tokens, and once an agent was asked to
    prepare the claim this evidence comes from the node or from fencing it, not from the database. *)
Theorem claim_release_proved c :
  reachable c -> c.(state) = Released ->
  exists e, c.(release_evidence) = Some e
    /\ ResourceClaimReleaseEvidence.slots e = map ResourceSlotBinding.evidence c.(slots)
    /\ (is_some c.(prepare_command_id) = true ->
        ResourceClaimReleaseEvidence.is_database_cancellation e = false).
Proof.
  intros [Hv [_ Hs]]%reachable_inv Hr. apply validate_iff in Hv as (_&_&_&_&_&_&(_&_&He)&Hst).
  unfold state_valid in Hst. rewrite Hr in Hst. destruct (release_evidence c) as [e|] eqn:Ee; [|done].
  exists e. split; [done|]. split; [by apply He|]. intros Hp. specialize (Hs e eq_refl).
  destruct e; try done. destruct Hs as [_ Hn]. by rewrite Hn in Hp.
Qed.

(** The claim refines its abstract lifecycle along any sequence of calls: it keeps its identity,
    its slots and its reservation, its generation and its clock never go back, and a released claim
    never changes again. *)
Theorem claim_refines_lifecycle ops c :
  (forall ops1 o ops2, ops = ops1 ++ o :: ops2 ->
     let before := commit_all ops1 c in
     let after := commit o before in
     after.(state) = before.(state) \/ phase_step before.(state) after.(state))
  /\ same_claim c (commit_all ops c)
  /\ (c.(claim_generation) <= (commit_all ops c).(claim_generation))%N
  /\ (c.(updated_at) <= (commit_all ops c).(updated_at))%Z
  /\ (c.(state) = Released -> commit_all ops c = c).
Proof.
  split; [intros; apply commit_progress|].
  revert c. induction ops as [|o ops IH]; intros c; simpl; [by repeat split; auto; lia|].
  destruct (commit_progress o c) as (Hs & Hg & Ht & Hr & _), (IH (commit o c)) as (Hs' & Hg' & Ht' & Hr').
  split; [by etrans|]. split; [lia|]. split; [lia|]. intros E. rewrite (Hr E). apply IH in E. done.
Qed.

(** Every call on a claim can be delivered twice: once it is accepted, the same call is
    accepted again and changes nothing. *)
Theorem claim_calls_idempotent o c c' : step o c = (c', Ok tt) -> step o c' = (c', Ok tt).
Proof. intros Hs. by apply replay_accepted, (step_replays o c). Qed.

(** A rejected call leaves the claim exactly as it was, unless a 64-bit counter is exhausted. *)
Theorem claim_errors_atomic o c c' e :
  step o c = (c', Err e) -> (c.(claim_generation) < u64_max)%N -> (c.(aggregate_version) < u64_max)%N -> c' = c.
Proof. intros Hs Hg Hv. destruct (claim_step_atomic _ _ _ _ Hs) as [|[?|?]]; [done|lia|lia]. Qed.

(** The control plane and the node protocol agree: for every claim the control plane holds the
    binding it sends to the agent is built without error and passes the agent's validation. *)
Theorem claim_binding_accepted c agent :
  reachable c -> is_nil agent = false ->
  exists b, node_binding c agent = Ok b /\ NodeResourceClaimBinding.validate b = Ok tt
    /\ b.(NodeResourceClaimBinding.slots) = c.(slots).
Proof. intros [Hv _]%reachable_inv. by apply node_binding_total. Qed.

(** Reserving succeeds exactly for a valid reservation and valid slot bindings that match it,
    and the claim it returns is new, matches the reservation and holds those bindings. *)
Theorem reserve_spec r slots :
  (is_ok (reserve r slots) = true <->
   ResourceClaimReservation.validate r = Ok tt
   /\ slot_requests_match_bindings r.(ResourceClaimReservation.slots) slots = true
   /\ validate_slot_bindings slots = Ok tt)
  /\ (forall c, reserve r slots = Ok c ->
        reservation_matches r c = true /\ c.(ResourceClaim.slots) = slots
        /\ c.(state) = ReservedInDb /\ c.(claim_generation) = 1%N).
Proof.
  split; [split|].
  - unfold reserve. destruct (ResourceClaimReservation.validate r) as [[]|]; [|done]. cbn [mbind result_bind].
    destruct (slot_requests_match_bindings _ _); [|done]. cbn [fail_if negb mbind result_bind].
    by destruct (validate_slot_bindings slots) as [[]|].
  - intros (Hv & Hm & Hb). unfold reserve. rewrite Hv, Hm, Hb. cbn [fail_if negb mbind result_bind].
    match goal with |- context [calculate_reservation_digest ?x] => set (c0 := x) end.
    destruct (digest_json_total (reservation_document c0) "could not encode resource claim digest input: {error}")
      as (rd & Erd & Hrd).
    change (calculate_reservation_digest c0 = Ok rd) in Erd. rewrite Erd. cbn [mbind result_bind].
    destruct (calculate_claim_digest_total (c0 <| reservation_digest := rd |>)) as (cd & Ecd).
    rewrite Ecd. cbn [mbind result_bind].
    enough (validate (c0 <| reservation_digest := rd |> <| claim_digest := cd |>) = Ok tt) as -> by done.
    apply validate_iff. split; [|split_and!; try done; try (cbn; lia); by eapply claim_digest_form].
    unfold ResourceClaimReservation.validate in Hv. rewrite !then_Ok, fail_if_Ok, validate_claim_sha256_Ok in Hv.
    destruct Hv as (Hinv & Hids & Htop & Hrun & _ & _).
    apply inventory_validate_Ok in Hinv as (_ & Hn & _ & Hgen & _ & _ & Hdig).
    apply digest_json_form in Hdig. reflect_bools. destruct_and?.
    unfold fixed. split_and!; try done. cbn. reflect_bools. split_and!; congruence.
  - intros c Hc. unfold reserve in Hc. rewrite !then_Ok, fail_if_Ok, negb_false_iff in Hc.
    destruct Hc as (_ & Hm & _ & Hc). rewrite result_bind_Ok in Hc. destruct Hc as (rd & _ & Hc).
    rewrite result_bind_Ok in Hc. destruct Hc as (cd & _ & Hc). rewrite then_Ok in Hc.
    destruct Hc as [_ [= <-]]. split_and!; try done. unfold reservation_matches. cbn.
    rewrite Hm. by rewrite !bool_decide_eq_true_2.
Qed.

End invariant.
End lifecycle.
End ClaimLifecycle.

(** Reserving several claims takes locks in one global order: a set of reservations is accepted
    whatever order it is given in or not at all, the accepted list holds each of them once, strictly
    increasing in (node, workload, replica, member, claim), and does not depend on the input order. *)
Theorem atomic_reservation_canonical `{External} l a :
  AtomicResourceClaimReservation.new l = Ok a ->
  a.(AtomicResourceClaimReservation.reservations) ≡ₚ l
  /\ StronglySorted (key_lt AtomicResourceClaimReservation.lock_key)
       a.(AtomicResourceClaimReservation.reservations)
  /\ (forall l', l ≡ₚ l' -> AtomicResourceClaimReservation.new l' = Ok a).
Proof.
  intros [Hl ->]%AtomicResourceClaimReservation.new_reservable.
  pose proof (AtomicResourceClaimReservation.lock_key_distinct l ltac:(apply Hl)) as Hk.
  split; [apply sort_by_key_perm|]. split.
  - apply strictly_sorted_of_NoDup; [|apply sort_by_key_sorted]. cbn. by rewrite sort_by_key_perm.
  - intros l' Hp. apply AtomicResourceClaimReservation.new_reservable.
    split; [|by rewrite (sort_by_key_unique _ l l' Hk Hp)].
    by apply (AtomicResourceClaimReservation.reservable_perm l).
Qed.

(** ** Evaluations *)
Module ClaimSamples.
Import Toy ResourceClaimState ResourceClaim ClaimLifecycle.

Definition inventory : NodeResourceInventory.t :=
  ReplicaSamples.or_default
    (NodeResourceInventory.new 7 3 4 5000000000 Sample.inventory.(NodeResourceInventory.slots))
    Sample.inventory.

Definition reservation (claim : ResourceClaimId) (member : WorkloadReplicaMemberId) : ResourceClaimReservation.t :=
  {| ResourceClaimReservation.id := claim;
     ResourceClaimReservation.binding := ReplicaSamples.binding <| DeploymentReplicaBinding.member_id := member |>;
     ResourceClaimReservation.node_id := 7;
     ResourceClaimReservation.inventory := inventory;
     ResourceClaimReservation.topology_digest := Sample.digest_a;
     ResourceClaimReservation.slots :=
       [ResourceSlotRequest.Mk ResourceKind.Cpu "cpu0" (ResourceAllocation.Scalar 500 ResourceUnit.MilliCpu);
        ResourceSlotRequest.Mk ResourceKind.Memory "ram" (ResourceAllocation.Scalar 4096 ResourceUnit.Byte)];
     ResourceClaimReservation.reserved_at := 10000000000 |}.

Definition slots : list ResourceSlotBinding.t := [Sample.cpu; Sample.memory].

Definition calls : list op :=
  [BeginPreparation 30 11000000000; RecordPrepared 30 Sample.digest_a 12000000000;
   BeginRelease 31 13000000000;
   RecordReleased (ResourceClaimReleaseEvidence.AgentReleased 31 (map ResourceSlotBinding.evidence slots)
     Sample.digest_a 14000000000) 15000000000]%Z.

Lemma commit_all_reachable ops c : reachable c -> reachable (commit_all ops c).
Proof. revert c. induction ops as [|o ops IH]; intros c Hc; simpl; [done|]. by apply IH, reach_commit. Qed.

Definition claim : ResourceClaim.t :=
  match reserve (reservation 20 1) slots with
  | Ok c => c
  | Err _ => Mk 0 0 0 0 0 0 0 0 0 0 0 0 EmptyString EmptyString 0 EmptyString [] EmptyString 0 EmptyString
               Released None None None None None 0 0 0 None None None None None
  end.

Lemma claim_reserved : reserve (reservation 20 1) slots = Ok claim.
Proof. vm_compute. reflexivity. Qed.

Lemma claim_reachable ops : reachable (commit_all ops claim).
Proof. apply commit_all_reachable, (reach_reserve _ _ _ claim_reserved). Qed.

Lemma claim_invariant_witness : validate (commit_all calls claim) = Ok tt.
Proof. apply (claim_invariant (H0 := toy_external_laws)), claim_reachable. Defined.

Lemma claim_release_proved_witness :
  exists e, (commit_all calls claim).(release_evidence) = Some e
    /\ ResourceClaimReleaseEvidence.is_database_cancellation e = false.
Proof.
  destruct (claim_release_proved (H0 := toy_external_laws) (commit_all calls claim)) as (e & He & _ & Hn);
    [apply claim_reachable|vm_compute; reflexivity|].
  exists e. split; [exact He|]. apply Hn. vm_compute. reflexivity.
Defined.

Lemma claim_calls_idempotent_witness :
  let c' := run_state (step (BeginPreparation 30 11000000000)) claim in
  step (BeginPreparation 30 11000000000) c' = (c', Ok tt).
Proof. apply claim_calls_idempotent with claim. vm_compute. reflexivity. Defined.

Lemma claim_errors_atomic_witness :
  run_state (step (BeginRelease 31 11000000000)) claim = claim.
Proof.
  destruct (run_result (step (BeginRelease 31 11000000000)) claim) as [|e] eqn:E; [vm_compute in E; discriminate E|].
  apply (claim_errors_atomic (H0 := toy_external_laws) (BeginRelease 31 11000000000) claim _ e);
    [rewrite <- E; apply run_eq|vm_compute; reflexivity|vm_compute; reflexivity].
Defined.

Lemma claim_binding_accepted_witness :
  exists b, node_binding claim 3 = Ok b /\ NodeResourceClaimBinding.validate b = Ok tt.
Proof.
  destruct (claim_binding_accepted (H0 := toy_external_laws) claim 3) as (b & Hb & Hv & _);
    [exact (reach_reserve _ _ _ claim_reserved)|reflexivity|]. exists b. split; [exact Hb|exact Hv].
Defined.

Lemma reserve_spec_witness :
  is_ok (reserve (reservation 20 1) slots) = true
  /\ reservation_matches (reservation 20 1) claim = true /\ claim.(ResourceClaim.slots) = slots.
Proof.
  destruct (reserve_spec (H0 := toy_external_laws) (reservation 20 1) slots) as [Hok Hc]. split.
  - apply Hok. repeat split; vm_compute; reflexivity.
  - destruct (Hc claim claim_reserved) as (Hm & Hs & _). split; [exact Hm|exact Hs].
Defined.

Lemma atomic_reservation_canonical_witness :
  exists a, AtomicResourceClaimReservation.new [reservation 21 2; reservation 20 1] = Ok a
    /\ AtomicResourceClaimReservation.new [reservation 20 1; reservation 21 2] = Ok a.
Proof.
  destruct (AtomicResourceClaimReservation.new [reservation 21 2; reservation 20 1]) as [a|] eqn:E;
    [|vm_compute in E; discriminate E].
  exists a. split; [reflexivity|].
  apply (atomic_reservation_canonical [reservation 21 2; reservation 20 1] a E). constructor.
Defined.

End ClaimSamples.
