(* ===== verification/ResourceRequirements.v ===== *)
(** * Resource requirements

    [workloads/domain/entities/resource_requirements.rs]: the compilation of a service's resource
    requirements into slot requests against one node's inventory. *)

From Stdlib Require Import ZArith NArith Lia String.
From S2P Require Import Prelude RustStd External SharedKernel Resources NodeInventory NodeClaims.
From S2P Require Import ServiceTemplates Workloads Deployments Replicas ResourceClaims.

(** The loop of [select_scalar_slot] over the slots of the kind: the first one that contains the
    request, or whether a compatible one was seen. *)
Fixpoint select_from (kind : ResourceKind.t) (requested : N) (unit : ResourceUnit.t)
    (saw_compatible_slot : bool) (slots : list NodeResourceSlot.t) : result ResourceSlotRequest.t :=
  match slots with
  | [] =>
    if saw_compatible_slot then
      errf "node inventory has insufficient {label} capacity for the service requirement"
        [FStr (ResourceKind.as_str kind)]
    else
      errf "node inventory does not prove compatible {label} capacity" [FStr (ResourceKind.as_str kind)]
  | slot :: rest =>
    match slot.(NodeResourceSlot.allocation) with
    | ResourceAllocation.Scalar _ candidate_unit =>
      if candidate_unit == unit then
        if ResourceAllocation.contains slot.(NodeResourceSlot.allocation)
             (ResourceAllocation.Scalar requested unit)
        then ResourceSlotRequest.new kind slot.(NodeResourceSlot.stable_resource_id)
               (ResourceAllocation.Scalar requested unit)
        else select_from kind requested unit true rest
      else select_from kind requested unit saw_compatible_slot rest
    | ResourceAllocation.Range _ _ _ => select_from kind requested unit saw_compatible_slot rest
    end
  end.

Definition select_scalar_slot (inventory : NodeResourceInventory.t) (kind : ResourceKind.t)
    (requested : N) (unit : ResourceUnit.t) : result ResourceSlotRequest.t :=
  select_from kind requested unit false
    (List.filter (fun slot => slot.(NodeResourceSlot.kind) == kind)
       inventory.(NodeResourceInventory.slots)).

Definition calculate_topology `{External} (slots : list ResourceSlotRequest.t) : result string :=
  digest_json (JObj [("schema", JStr "a3s.cloud.resource-topology.v1");
                     ("slots", JArr (map ResourceSlotRequest.to_json slots))]%string)
    "could not encode resource topology: {error}".

Module CompiledResourceRequirements.

Record t := Mk {
  slots : list ResourceSlotRequest.t;
  topology_digest : string;
}.

Definition compile `{External} (resources : ServiceResources.t) (inventory : NodeResourceInventory.t) :
    result t :=
  NodeResourceInventory.validate inventory ;;
  fail_if ((resources.(ServiceResources.cpu_millis) =? 0)%N
           || (resources.(ServiceResources.memory_bytes) =? 0)%N
           || (resources.(ServiceResources.pids) =? 0)%N
           || (resources.(ServiceResources.ephemeral_storage_bytes) == Some 0%N))
    "service resource requirements are invalid" ;;
  cpu ← select_scalar_slot inventory ResourceKind.Cpu resources.(ServiceResources.cpu_millis)
          ResourceUnit.MilliCpu;
  memory ← select_scalar_slot inventory ResourceKind.Memory resources.(ServiceResources.memory_bytes)
             ResourceUnit.Byte;
  slots ← match resources.(ServiceResources.ephemeral_storage_bytes) with
          | Some bytes =>
            storage ← select_scalar_slot inventory ResourceKind.EphemeralStorage bytes ResourceUnit.Byte;
            Ok [cpu; memory; storage]
          | None => Ok [cpu; memory]
          end;
  let slots := sort_by_key ResourceSlotRequest.key slots in
  digest ← calculate_topology slots;
  Ok (Mk slots digest).

End CompiledResourceRequirements.

Lemma select_from_Ok kind requested unit saw slots r :
  select_from kind requested unit saw slots = Ok r ->
  ResourceSlotRequest.validate r = Ok tt
  /\ exists slot n, slot ∈ slots /\ slot.(NodeResourceSlot.allocation) = ResourceAllocation.Scalar n unit
     /\ (requested <= n)%N
     /\ r = ResourceSlotRequest.Mk kind slot.(NodeResourceSlot.stable_resource_id)
              (ResourceAllocation.Scalar requested unit).
Proof.
  revert saw. induction slots as [|slot slots IH]; intros saw; simpl.
  { destruct saw; discriminate. }
  assert (forall saw, select_from kind requested unit saw slots = Ok r ->
    ResourceSlotRequest.validate r = Ok tt /\ exists slot0 n, slot0 ∈ slot :: slots
     /\ slot0.(NodeResourceSlot.allocation) = ResourceAllocation.Scalar n unit /\ (requested <= n)%N
     /\ r = ResourceSlotRequest.Mk kind slot0.(NodeResourceSlot.stable_resource_id)
              (ResourceAllocation.Scalar requested unit)) as IH'.
  { intros s Hs. destruct (IH s Hs) as (? & slot0 & n & ? & ?). split; [done|]. exists slot0, n.
    split; [by right|done]. }
  destruct (NodeResourceSlot.allocation slot) as [n u|] eqn:E; [|by apply IH'].
  case_bool_decide as Hu; [|by apply IH']. subst u. simpl.
  destruct (requested <=? n)%N eqn:Hle; rewrite ?bool_decide_eq_true_2 by done; simpl; [|by apply IH'].
  unfold ResourceSlotRequest.new. rewrite then_Ok. intros [Hv [= <-]]. split; [done|].
  exists slot, n. split; [by left|]. split; [done|]. split; [by apply N.leb_le|done].
Qed.

(** A request selected from an inventory passes the reservation's check against it: the slot it
    names is the only one of the inventory with that key. *)
Lemma select_scalar_slot_reservable `{ExternalLaws} inv kind requested unit r :
  NodeResourceInventory.validate inv = Ok tt ->
  select_scalar_slot inv kind requested unit = Ok r ->
  ResourceSlotRequest.validate r = Ok tt /\ r.(ResourceSlotRequest.kind) = kind
  /\ ResourceClaimReservation.validate_request inv r = Ok tt.
Proof.
  intros (_ & _ & _ & _ & _ & (_ & _ & Hs) & _)%inventory_validate_Ok
    (Hv & slot & n & Hin & Ha & Hle & ->)%select_from_Ok.
  split; [done|]. split; [done|].
  apply list_elem_of_In, List.filter_In in Hin as [Hin Hk]. reflect_bools.
  unfold ResourceClaimReservation.validate_request, ResourceClaimReservation.inventory_slot. cbn.
  destruct (List.find _ _) as [c|] eqn:Ef.
  - apply List.find_some in Ef as [Hc Hck]. reflect_bools. destruct Hck as [Hck Hci].
    assert (c = slot) as ->.
    { apply key_lt_NoDup in Hs. apply list_elem_of_In, list_elem_of_lookup in Hin as [i Hi], Hc as [j Hj].
      assert (i = j) as ->; [|congruence].
      eapply (NoDup_lookup _ i j (NodeResourceSlot.key slot) Hs); rewrite list_lookup_fmap, ?Hi, ?Hj; [done|].
      cbn. unfold NodeResourceSlot.key. congruence. }
    rewrite Ha. cbn. rewrite bool_decide_eq_true_2 by done. by rewrite (proj2 (N.leb_le _ _) Hle).
  - eapply List.find_none in Ef; [|by apply list_elem_of_In, list_elem_of_In]. cbn in Ef.
    by rewrite Hk, !bool_decide_eq_true_2 in Ef.
Qed.

Section compile_properties.
Context `{ExternalLaws}.
Import CompiledResourceRequirements.

Lemma compile_slots resources inv c :
  compile resources inv = Ok c ->
  NodeResourceInventory.validate inv = Ok tt
  /\ exists l, c.(slots) = sort_by_key ResourceSlotRequest.key l
     /\ l <> [] /\ (len l <= 3)%N /\ NoDup (ResourceSlotRequest.kind <$> l)
     /\ Forall (fun r => ResourceSlotRequest.validate r = Ok tt
                         /\ ResourceClaimReservation.validate_request inv r = Ok tt) l
     /\ calculate_topology c.(slots) = Ok c.(topology_digest).
Proof.
  unfold compile. rewrite !then_Ok. intros (Hi & _ & Hc). split; [done|].
  rewrite result_bind_Ok in Hc. destruct Hc as (cpu & Hcpu & Hc).
  rewrite result_bind_Ok in Hc. destruct Hc as (mem & Hmem & Hc).
  rewrite result_bind_Ok in Hc. destruct Hc as (l & Hl & Hc).
  rewrite result_bind_Ok in Hc. destruct Hc as (d & Hd & [= <-]).
  apply select_scalar_slot_reservable in Hcpu as (Hv1 & Hk1 & Hr1), Hmem as (Hv2 & Hk2 & Hr2); [|done..].
  exists l. split; [done|].
  destruct (ServiceResources.ephemeral_storage_bytes resources) as [bytes|].
  - rewrite result_bind_Ok in Hl. destruct Hl as (sto & Hsto & [= <-]).
    apply select_scalar_slot_reservable in Hsto as (Hv3 & Hk3 & Hr3); [|done].
    split; [done|]. split; [done|]. split; [|by repeat constructor].
    simpl. rewrite Hk1, Hk2, Hk3. apply (bool_decide_unpack _). by vm_compute.
  - injection Hl as <-. split; [done|]. split; [done|]. split; [|by repeat constructor].
    simpl. rewrite Hk1, Hk2. apply (bool_decide_unpack _). by vm_compute.
Qed.

Lemma select_from_complete kind requested unit saw slots slot :
  Forall (fun s => NodeResourceSlot.validate s = Ok tt) slots -> slot ∈ slots ->
  ResourceAllocation.validate_for (ResourceAllocation.Scalar requested unit) kind = Ok tt ->
  ResourceAllocation.contains slot.(NodeResourceSlot.allocation)
    (ResourceAllocation.Scalar requested unit) = true ->
  exists r, select_from kind requested unit saw slots = Ok r.
Proof.
  intros Hall Hin Hv Hc. revert saw. induction Hall as [|s slots Hs _ IH]; intros saw; [by apply elem_of_nil in Hin|].
  cbn [select_from].
  destruct (ResourceAllocation.contains (NodeResourceSlot.allocation s) (ResourceAllocation.Scalar requested unit))
    eqn:Ec.
  - destruct (NodeResourceSlot.allocation s) as [n u|]; [|discriminate Ec].
    assert (u = unit) as -> by (cbn in Ec; reflect_bools; tauto).
    rewrite bool_decide_eq_true_2 by done. unfold ResourceSlotRequest.new, ResourceSlotRequest.validate. cbn.
    unfold NodeResourceSlot.validate in Hs. rewrite then_Ok in Hs. destruct Hs as [-> _]. cbn.
    rewrite Hv. cbn. eauto.
  - apply elem_of_cons in Hin as [->|Hin]; [congruence|].
    destruct (NodeResourceSlot.allocation s); [case_bool_decide|]; by apply IH.
Qed.

Lemma select_scalar_slot_complete inv kind requested unit slot :
  NodeResourceInventory.validate inv = Ok tt -> slot ∈ inv.(NodeResourceInventory.slots) ->
  slot.(NodeResourceSlot.kind) = kind ->
  ResourceAllocation.validate_for (ResourceAllocation.Scalar requested unit) kind = Ok tt ->
  ResourceAllocation.contains slot.(NodeResourceSlot.allocation)
    (ResourceAllocation.Scalar requested unit) = true ->
  exists r, select_scalar_slot inv kind requested unit = Ok r.
Proof.
  intros (_ & _ & _ & _ & _ & (_ & Hall & _) & _)%inventory_validate_Ok Hin Hk Hv Hc.
  unfold select_scalar_slot. apply select_from_complete with slot; try done.
  - rewrite Forall_forall in Hall |- *. intros s Hs. apply Hall.
    by apply list_elem_of_In, List.filter_In, proj1, list_elem_of_In in Hs.
  - apply list_elem_of_In, List.filter_In. split; [by apply list_elem_of_In|].
    by rewrite Hk, bool_decide_eq_true_2.
Qed.

(** Scheduling composes: whatever the compiler of resource requirements selects on a node's
    inventory passes every check a reservation makes of its slots, and its topology digest is
    canonical, so a compiled requirement is never refused at reservation for its slots. *)
Theorem compiled_requirements_reservable resources inv c :
  compile resources inv = Ok c ->
  validate_slot_requests c.(slots) = Ok tt
  /\ for_each (ResourceClaimReservation.validate_request inv) c.(slots) = Ok tt
  /\ validate_claim_sha256 c.(topology_digest) "resource topology digest" = Ok tt.
Proof.
  intros (Hi & l & -> & Hne & Hlen & Hnd & Hall & Ht)%compile_slots.
  rewrite Forall_and in Hall. destruct Hall as [Hv Hr].
  assert (length (sort_by_key ResourceSlotRequest.key l) = length l) as El by (by rewrite sort_by_key_perm).
  split_and!.
  - apply validate_slot_requests_Ok. unfold slot_set, MAX_RESOURCE_SLOTS, len in *. rewrite El.
    split; [destruct l; [done|]; simpl in *; lia|]. split; [by rewrite sort_by_key_perm|].
    apply strictly_sorted_of_NoDup; [|apply sort_by_key_sorted]. rewrite sort_by_key_perm.
    apply (NoDup_fmap_1 fst). by rewrite <- list_fmap_compose.
  - apply for_each_Ok. by rewrite sort_by_key_perm.
  - apply digest_json_form in Ht. by apply validate_claim_sha256_Ok.
Qed.

(** The compiler is complete: a valid inventory with one CPU and one memory slot of at least the
    requested size is always accepted for a service that asks for no ephemeral storage. *)
Theorem compile_complete inv cpu mem pids c m :
  NodeResourceInventory.validate inv = Ok tt ->
  (cpu <> 0 /\ mem <> 0 /\ pids <> 0)%N ->
  c ∈ inv.(NodeResourceInventory.slots) -> m ∈ inv.(NodeResourceInventory.slots) ->
  c.(NodeResourceSlot.kind) = ResourceKind.Cpu -> m.(NodeResourceSlot.kind) = ResourceKind.Memory ->
  ResourceAllocation.contains c.(NodeResourceSlot.allocation)
    (ResourceAllocation.Scalar cpu ResourceUnit.MilliCpu) = true ->
  ResourceAllocation.contains m.(NodeResourceSlot.allocation)
    (ResourceAllocation.Scalar mem ResourceUnit.Byte) = true ->
  is_ok (compile (ServiceResources.Mk cpu mem pids None) inv) = true.
Proof.
  intros Hi (Hc0 & Hm0 & Hp0) Hc Hm Hck Hmk Hcc Hmc.
  destruct (select_scalar_slot_complete inv ResourceKind.Cpu cpu ResourceUnit.MilliCpu c) as [rc Erc]; try done.
  { cbn. by rewrite (proj2 (N.ltb_lt _ _)) by lia. }
  destruct (select_scalar_slot_complete inv ResourceKind.Memory mem ResourceUnit.Byte m) as [rm Erm]; try done.
  { cbn. by rewrite (proj2 (N.ltb_lt _ _)) by lia. }
  unfold compile. rewrite Hi. cbn [ServiceResources.cpu_millis ServiceResources.memory_bytes ServiceResources.pids
    ServiceResources.ephemeral_storage_bytes mbind result_bind].
  rewrite !(proj2 (N.eqb_neq _ _)) by done. cbn [fail_if orb bool_decide decide mbind result_bind].
  rewrite Erc, Erm. cbn [mbind result_bind].
  match goal with |- context [calculate_topology ?x] =>
    destruct (digest_json_total (JObj [("schema", JStr "a3s.cloud.resource-topology.v1");
      ("slots", JArr (map ResourceSlotRequest.to_json x))]%string) "could not encode resource topology: {error}")
      as (d & Ed & _) end.
  unfold calculate_topology. by rewrite Ed.
Qed.
End compile_properties.

Definition requirements_sample : ServiceResources.t := ServiceResources.Mk 500 4096 32 None.

Lemma compiled_requirements_reservable_witness :
  exists c, @CompiledResourceRequirements.compile Toy.toy_external requirements_sample Sample.inventory = Ok c
    /\ validate_slot_requests c.(CompiledResourceRequirements.slots) = Ok tt.
Proof.
  destruct (@CompiledResourceRequirements.compile Toy.toy_external requirements_sample Sample.inventory)
    as [c|] eqn:E; [|vm_compute in E; discriminate E].
  exists c. split; [reflexivity|].
  apply (compiled_requirements_reservable (H0 := Toy.toy_external_laws) requirements_sample Sample.inventory c).
  exact E.
Defined.

Lemma compile_complete_witness :
  is_ok (@CompiledResourceRequirements.compile Toy.toy_external requirements_sample Sample.inventory) = true.
Proof.
  apply (compile_complete (H0 := Toy.toy_external_laws) Sample.inventory 500 4096 32
    (NodeResourceSlot.Mk ResourceKind.Cpu "cpu0" (ResourceAllocation.Scalar 4000 ResourceUnit.MilliCpu))
    (NodeResourceSlot.Mk ResourceKind.Memory "ram" (ResourceAllocation.Scalar 8192 ResourceUnit.Byte)));
    try (vm_compute; reflexivity); [lia| |].
  all: apply list_elem_of_In; vm_compute; auto.
Defined.
