(* ===== verification/NodePools.v ===== *)
(** * Node pools

    [fleet/domain/entities/node_pool.rs]: the canonical membership of a pool, two-phase member
    removal, and maintenance windows. *)

From Stdlib Require Import ZArith NArith Lia String.
From S2P Require Import Prelude RustStd External SharedKernel.

Definition MAX_NODE_POOL_MEMBERS : N := 10000.
Definition MAX_MAINTENANCE_TARGETS : N := 10000.
Definition MAX_MAINTENANCE_REASON_CHARS : N := 1024.
Definition MAX_MAINTENANCE_DURATION : Z := days 30.
Definition MAX_MAINTENANCE_HORIZON : Z := days 365.

(** [sort_unstable] on identifiers: equal elements cannot be told apart. *)
Definition sort_ids (l : list NodeId) : list NodeId := sort_by_key (fun x : N => x) l.

Definition validate_canonical_node_ids (node_ids : list NodeId) (maximum : N) (kind : string) : result unit :=
  if is_empty node_ids
     || (maximum <? len node_ids)%N
     || any is_nil node_ids
     || any_pair (fun x y => (y <=? x)%N) node_ids
  then errf "node pool {kind} IDs must be a non-empty canonical set of at most {maximum} nodes"
         [FStr kind; FNum maximum]
  else Ok tt.

Definition canonical_node_ids (node_ids : list NodeId) (maximum : N) (kind : string) : result (list NodeId) :=
  let node_ids := dedup (sort_ids node_ids) in
  validate_canonical_node_ids node_ids maximum kind ;;
  Ok node_ids.

Definition bounded_reason (reason : string) : result string :=
  let reason := trim reason in
  if str_is_empty reason
     || (MAX_MAINTENANCE_REASON_CHARS <? chars_count reason)%N
     || contains_any [NUL; CR; LF] reason
  then err "maintenance reason must contain 1 to {MAX_MAINTENANCE_REASON_CHARS} visible characters"
  else Ok reason.

Module NodePoolMaintenanceStatus.

Inductive t :=
| Scheduled
| Active
| Completed
| Cancelled.

#[global] Instance t_eq_dec : EqDecision t.
Proof. solve_decision. Defined.

Definition as_str (self : t) : string :=
  match self with
  | Scheduled => "scheduled"
  | Active => "active"
  | Completed => "completed"
  | Cancelled => "cancelled"
  end.

End NodePoolMaintenanceStatus.

Module NodePoolMaintenanceWindow.
Import NodePoolMaintenanceStatus.

Record t := Mk {
  generation : N;
  target_node_ids : list NodeId;
  starts_at : Time;
  ends_at : Time;
  reason : string;
  cancelled_at : option Time;
}.

#[global] Instance t_eta : Eta t := fun r =>
  Mk r.(generation) r.(target_node_ids) r.(starts_at) r.(ends_at) r.(reason) r.(cancelled_at).

#[global] Instance t_eq_dec : EqDecision t.
Proof. solve_decision. Defined.

Definition status_at (self : t) (now : Time) : NodePoolMaintenanceStatus.t :=
  if is_some self.(cancelled_at) then Cancelled
  else if (now <? self.(starts_at))%Z then Scheduled
  else if (now <? self.(ends_at))%Z then Active
  else Completed.

Definition is_active_for (self : t) (node_id : NodeId) (now : Time) : bool :=
  (status_at self now == Active) && is_some (binary_search node_id self.(target_node_ids)).

Definition to_json `{External} (self : t) : json :=
  JObj [("generation", JNum self.(generation));
        ("target_node_ids", JArr (map (fun n => JStr (uuid_display n)) self.(target_node_ids)));
        ("starts_at", JStr (time_display self.(starts_at)));
        ("ends_at", JStr (time_display self.(ends_at)));
        ("reason", JStr self.(reason));
        ("cancelled_at", match self.(cancelled_at) with Some t => JStr (time_display t) | None => JNull end)]%string.

End NodePoolMaintenanceWindow.

Module NodePoolMemberRemoval.

Record t := Mk {
  node_id : NodeId;
  generation : N;
  requested_at : Time;
}.

#[global] Instance t_eq_dec : EqDecision t.
Proof. solve_decision. Defined.

Definition to_json `{External} (self : t) : json :=
  JObj [("node_id", JStr (uuid_display self.(node_id)));
        ("generation", JNum self.(generation));
        ("requested_at", JStr (time_display self.(requested_at)))]%string.

End NodePoolMemberRemoval.

Module NodePool.
Import NodePoolMaintenanceStatus.

Record t := Mk {
  id : NodePoolId;
  organization_id : OrganizationId;
  name : ResourceName.t;
  member_node_ids : list NodeId;
  member_removal_generation : N;
  member_removals : list NodePoolMemberRemoval.t;
  maintenance : option NodePoolMaintenanceWindow.t;
  spec_digest : string;
  aggregate_version : N;
  created_at : Time;
  updated_at : Time;
}.

#[global] Instance t_eta : Eta t := fun r =>
  Mk r.(id) r.(organization_id) r.(name) r.(member_node_ids) r.(member_removal_generation)
     r.(member_removals) r.(maintenance) r.(spec_digest) r.(aggregate_version) r.(created_at)
     r.(updated_at).

#[global] Instance t_eq_dec : EqDecision t.
Proof. solve_decision. Defined.

(** [self.member_node_ids.binary_search(&node_id).is_ok()] *)
Definition is_member (self : t) (node_id : NodeId) : bool :=
  is_some (binary_search node_id self.(member_node_ids)).

Definition member_removal (self : t) (node_id : NodeId) : option NodePoolMemberRemoval.t :=
  match binary_search_by (fun r => cmp r.(NodePoolMemberRemoval.node_id) node_id) self.(member_removals) with
  | Some index => self.(member_removals) !! index
  | None => None
  end.

Definition node_is_in_active_maintenance (self : t) (node_id : NodeId) (now : Time) : bool :=
  is_some_and (fun window => NodePoolMaintenanceWindow.is_active_for window node_id now)
    self.(maintenance).

Section pool.
Context `{External}.

Definition maintenance_json (self : t) : json :=
  match self.(maintenance) with
  | Some window => NodePoolMaintenanceWindow.to_json window
  | None => JNull
  end.

Definition ids_json (l : list NodeId) : json := JArr (map (fun n => JStr (uuid_display n)) l).

(** [NodePoolSpecV1] and [NodePoolSpecV2] *)
Definition spec_json (self : t) : json :=
  if (self.(member_removal_generation) =? 0)%N && is_empty self.(member_removals) then
    JObj [("name", JStr self.(name).(ResourceName.display));
          ("memberNodeIds", ids_json self.(member_node_ids));
          ("maintenance", maintenance_json self)]%string
  else
    JObj [("name", JStr self.(name).(ResourceName.display));
          ("memberNodeIds", ids_json self.(member_node_ids));
          ("memberRemovalGeneration", JNum self.(member_removal_generation));
          ("memberRemovals", JArr (map NodePoolMemberRemoval.to_json self.(member_removals)));
          ("maintenance", maintenance_json self)]%string.

Definition computed_spec_digest (self : t) : result string :=
  digest_json (spec_json self) "could not encode node pool specification: {error}".

(** What [validate] rejects of one pending removal. *)
Definition removal_invalid (self : t) (removal : NodePoolMemberRemoval.t) : bool :=
  is_nil removal.(NodePoolMemberRemoval.node_id)
  || (removal.(NodePoolMemberRemoval.generation) =? 0)%N
  || (self.(member_removal_generation) <? removal.(NodePoolMemberRemoval.generation))%N
  || (removal.(NodePoolMemberRemoval.requested_at)
        != canonical_timestamp removal.(NodePoolMemberRemoval.requested_at))
  || (removal.(NodePoolMemberRemoval.requested_at) <? self.(created_at))%Z
  || (self.(updated_at) <? removal.(NodePoolMemberRemoval.requested_at))%Z
  || negb (is_member self removal.(NodePoolMemberRemoval.node_id)).

Definition validate_window (self : t) (window : NodePoolMaintenanceWindow.t) : result unit :=
  fail_if ((window.(NodePoolMaintenanceWindow.generation) =? 0)%N
           || (window.(NodePoolMaintenanceWindow.starts_at)
                 != canonical_timestamp window.(NodePoolMaintenanceWindow.starts_at))
           || (window.(NodePoolMaintenanceWindow.ends_at)
                 != canonical_timestamp window.(NodePoolMaintenanceWindow.ends_at))
           || (window.(NodePoolMaintenanceWindow.ends_at) <=? window.(NodePoolMaintenanceWindow.starts_at))%Z
           || (MAX_MAINTENANCE_DURATION
                 <? window.(NodePoolMaintenanceWindow.ends_at) - window.(NodePoolMaintenanceWindow.starts_at))%Z
           || is_some_and (fun at' =>
                (at' != canonical_timestamp at') || (window.(NodePoolMaintenanceWindow.ends_at) <=? at')%Z)
                window.(NodePoolMaintenanceWindow.cancelled_at))
    "node pool maintenance identity or timestamps are invalid" ;;
  (if is_empty window.(NodePoolMaintenanceWindow.target_node_ids) then
     fail_if (negb (matches (NodePoolMaintenanceWindow.status_at window self.(updated_at))
                      [Completed; Cancelled]))
       "active maintenance must retain at least one target"
   else
     validate_canonical_node_ids window.(NodePoolMaintenanceWindow.target_node_ids)
       MAX_MAINTENANCE_TARGETS "maintenance target") ;;
  fail_if (any (fun node_id => negb (is_member self node_id))
             window.(NodePoolMaintenanceWindow.target_node_ids))
    "maintenance targets must be members of the node pool" ;;
  fail_if (any (fun node_id => is_some (member_removal self node_id))
             window.(NodePoolMaintenanceWindow.target_node_ids))
    "maintenance targets cannot have pending member removal" ;;
  reason ← bounded_reason window.(NodePoolMaintenanceWindow.reason);
  fail_if (reason != window.(NodePoolMaintenanceWindow.reason)) "maintenance reason is not canonical".

Definition validate (self : t) : result unit :=
  let invalid := "node pool identity, name, version, or timestamps are invalid"%string in
  fail_if (is_nil self.(id)
           || is_nil self.(organization_id)
           || (self.(aggregate_version) =? 0)%N
           || (self.(created_at) != canonical_timestamp self.(created_at))
           || (self.(updated_at) != canonical_timestamp self.(updated_at))
           || (self.(updated_at) <? self.(created_at))%Z) invalid ;;
  parsed ← ResourceName.parse self.(name).(ResourceName.display);
  fail_if (parsed != self.(name)) invalid ;;
  validate_canonical_node_ids self.(member_node_ids) MAX_NODE_POOL_MEMBERS "member" ;;
  fail_if ((self.(member_removal_generation) =? 0)%N && negb (is_empty self.(member_removals)))
    "node pool member removal generation is missing" ;;
  fail_if ((len self.(member_node_ids) <=? len self.(member_removals))%N
           || any_pair (fun x y => (y.(NodePoolMemberRemoval.node_id) <=? x.(NodePoolMemberRemoval.node_id))%N)
                self.(member_removals)
           || any (removal_invalid self) self.(member_removals))
    "node pool member removal state is invalid" ;;
  match self.(maintenance) with
  | Some window => validate_window self window
  | None => Ok tt
  end ;;
  expected ← computed_spec_digest self;
  fail_if (self.(spec_digest) != expected) "node pool specification digest does not match its content".

Definition advance (changed_at : Time) : method t unit :=
  let changed_at := canonical_timestamp changed_at in
  self ← get;
  if (changed_at <? self.(updated_at))%Z then raise "node pool change timestamp moved backwards"
  else
    version ← lift (ok_or (checked_add self.(aggregate_version) 1) "node pool aggregate version is exhausted");
    modify (fun self => self <| aggregate_version := version |>) ;;
    modify (fun self => self <| updated_at := changed_at |>).

Definition refresh_spec_digest : method t unit :=
  self ← get;
  digest ← lift (computed_spec_digest self);
  modify (fun self => self <| spec_digest := digest |>).

(** The end of every change: the new digest, then the whole invariant. *)
Definition refresh_and_validate : method t unit :=
  refresh_spec_digest ;;
  self ← get;
  lift (validate self).

Definition create (id : NodePoolId) (organization_id : OrganizationId) (name : ResourceName.t)
    (member_node_ids : list NodeId) (created_at : Time) : result t :=
  let created_at := canonical_timestamp created_at in
  members ← canonical_node_ids member_node_ids MAX_NODE_POOL_MEMBERS "member";
  let pool :=
    {| id := id;
       organization_id := organization_id;
       name := name;
       member_node_ids := members;
       member_removal_generation := 0;
       member_removals := [];
       maintenance := None;
       spec_digest := EmptyString;
       aggregate_version := 1;
       created_at := created_at;
       updated_at := created_at |} in
  digest ← computed_spec_digest pool;
  let pool := pool <| spec_digest := digest |> in
  validate pool ;;
  Ok pool.

Definition add_members (member_ids : list NodeId) (changed_at : Time) : method t unit :=
  additions ← lift (canonical_node_ids member_ids MAX_NODE_POOL_MEMBERS "member");
  self ← get;
  if any (fun node_id => is_some (member_removal self node_id)) additions then
    raise "node pool member removal is already pending"
  else
    let projected := dedup (sort_ids (self.(member_node_ids) ++ additions)) in
    if (MAX_NODE_POOL_MEMBERS <? len projected)%N then
      raise "node pool cannot contain more than {MAX_NODE_POOL_MEMBERS} members"
    else if projected == self.(member_node_ids) then mret tt
    else
      advance changed_at ;;
      modify (fun self => self <| member_node_ids := projected |>) ;;
      refresh_and_validate.

Definition request_member_removal (member_ids : list NodeId) (requested_at : Time) : method t N :=
  removed ← lift (canonical_node_ids member_ids MAX_NODE_POOL_MEMBERS "removed member");
  self ← get;
  if any (fun node_id => negb (is_member self node_id)) removed then
    raise "removed nodes must be current members of the node pool"
  else if any (fun node_id => is_some (member_removal self node_id)) removed then
    raise "node pool member removal is already pending"
  else if (len self.(member_node_ids) <=? len self.(member_removals) + len removed)%N then
    raise "node pool must retain at least one active member"
  else
    let requested_at := canonical_timestamp requested_at in
    if is_some_and (fun window =>
         any (fun node_id => is_some (binary_search node_id window.(NodePoolMaintenanceWindow.target_node_ids)))
           removed
         && matches (NodePoolMaintenanceWindow.status_at window requested_at) [Scheduled; Active])
         self.(maintenance)
    then raise "scheduled or active maintenance targets cannot be removed from a node pool"
    else
      let window :=
        (fun window => window <| NodePoolMaintenanceWindow.target_node_ids :=
           List.filter (fun node_id => negb (is_some (binary_search node_id removed)))
             window.(NodePoolMaintenanceWindow.target_node_ids) |>) <$> self.(maintenance) in
      generation ← lift (ok_or (checked_add self.(member_removal_generation) 1)
                           "node pool member removal generation is exhausted");
      advance requested_at ;;
      modify (fun self => self <| member_removal_generation := generation |>) ;;
      modify (fun self => self <| member_removals :=
        sort_by_key NodePoolMemberRemoval.node_id
          (self.(member_removals)
           ++ map (fun node_id => NodePoolMemberRemoval.Mk node_id generation requested_at) removed) |>) ;;
      modify (fun self => self <| maintenance := window |>) ;;
      refresh_and_validate ;;
      mret generation.

Definition complete_member_removal (node_id : NodeId) (generation : N) (completed_at : Time) : method t unit :=
  self ← get;
  removal ← lift (ok_or (list_find (fun removal =>
                    removal.(NodePoolMemberRemoval.node_id) = node_id
                    /\ removal.(NodePoolMemberRemoval.generation) = generation) self.(member_removals))
                    "node pool member removal identity changed");
  member_index ← lift (ok_or (binary_search node_id self.(member_node_ids))
                         "removed node is no longer a member of the node pool");
  if (len self.(member_node_ids) =? 1)%N then raise "node pool must retain at least one member"
  else
    advance completed_at ;;
    modify (fun self => self <| member_removals := delete removal.1 self.(member_removals) |>) ;;
    modify (fun self => self <| member_node_ids := delete member_index self.(member_node_ids) |>) ;;
    refresh_and_validate.

Definition schedule_maintenance (target_ids : list NodeId) (starts_at ends_at : Time) (reason : string)
    (requested_at : Time) : method t unit :=
  let requested_at := canonical_timestamp requested_at in
  let starts_at := canonical_timestamp starts_at in
  let ends_at := canonical_timestamp ends_at in
  if (starts_at <? requested_at)%Z then raise "maintenance window cannot start before it is requested"
  else if (requested_at + MAX_MAINTENANCE_HORIZON <? starts_at)%Z then
    raise "maintenance window starts beyond the supported horizon"
  else if (ends_at <=? starts_at)%Z || (MAX_MAINTENANCE_DURATION <? ends_at - starts_at)%Z then
    raise "maintenance window duration must be positive and no longer than 30 days"
  else
    targets ← lift (canonical_node_ids target_ids MAX_MAINTENANCE_TARGETS "maintenance target");
    self ← get;
    if any (fun node_id => negb (is_member self node_id)) targets then
      raise "maintenance targets must be members of the node pool"
    else if any (fun node_id => is_some (member_removal self node_id)) targets then
      raise "maintenance targets cannot have pending member removal"
    else
      reason ← lift (bounded_reason reason);
      generation ← lift match self.(maintenance) with
                        | Some window =>
                          ok_or (checked_add window.(NodePoolMaintenanceWindow.generation) 1)
                            "maintenance generation is exhausted"
                        | None => Ok 1%N
                        end;
      advance requested_at ;;
      modify (fun self => self <| maintenance := Some
        {| NodePoolMaintenanceWindow.generation := generation;
           NodePoolMaintenanceWindow.target_node_ids := targets;
           NodePoolMaintenanceWindow.starts_at := starts_at;
           NodePoolMaintenanceWindow.ends_at := ends_at;
           NodePoolMaintenanceWindow.reason := reason;
           NodePoolMaintenanceWindow.cancelled_at := None |} |>) ;;
      refresh_and_validate.

Definition cancel_maintenance (generation : N) (cancelled_at : Time) : method t unit :=
  self ← get;
  window ← lift (ok_or self.(maintenance) "node pool has no maintenance window");
  if (generation =? 0)%N || (window.(NodePoolMaintenanceWindow.generation) != generation) then
    raise "maintenance generation changed"
  else if is_some window.(NodePoolMaintenanceWindow.cancelled_at) then mret tt
  else
    let cancelled_at := canonical_timestamp cancelled_at in
    if (window.(NodePoolMaintenanceWindow.ends_at) <=? cancelled_at)%Z then
      raise "completed maintenance window cannot be cancelled"
    else
      advance cancelled_at ;;
      modify (fun self => self <| maintenance :=
        (fun w => w <| NodePoolMaintenanceWindow.cancelled_at := Some cancelled_at |>) <$> self.(maintenance) |>) ;;
      refresh_and_validate.

End pool.

(** The loop of [validate_successor] over the previous members: whether a removal was requested. *)
Fixpoint check_members (self previous : t) (requested_removal : bool) (members : list NodeId) : result bool :=
  match members with
  | [] => Ok requested_removal
  | node_id :: rest =>
    let previous_removal := member_removal previous node_id in
    let retained := is_member self node_id in
    let next_removal := if retained then member_removal self node_id else None in
    match previous_removal, retained, next_removal with
    | None, false, _ => err "node pool member removal was not requested before completion"
    | Some _, false, _ => check_members self previous requested_removal rest
    | Some previous_removal, true, Some next_removal =>
      if previous_removal == next_removal then check_members self previous requested_removal rest
      else err "node pool pending member removal changed"
    | None, true, Some removal =>
      if removal.(NodePoolMemberRemoval.generation) != self.(member_removal_generation)
      then err "node pool member removal generation changed"
      else check_members self previous true rest
    | None, true, None => check_members self previous requested_removal rest
    | Some _, true, None => err "node pool pending member removal changed"
    end
  end.

Definition validate_successor (self previous : t) (expected_version : N) : result unit :=
  fail_if ((previous.(aggregate_version) != expected_version)
           || (self.(aggregate_version) != saturating_add expected_version 1)
           || (self.(organization_id) != previous.(organization_id))
           || (self.(id) != previous.(id))
           || (self.(name) != previous.(name))
           || (self.(created_at) != previous.(created_at))
           || (self.(updated_at) <? previous.(updated_at))%Z)
    "node pool aggregate identity or version changed" ;;
  requested_removal ← check_members self previous false previous.(member_node_ids);
  fail_if (any (fun node_id => is_some (member_removal self node_id))
             (List.filter (fun node_id => negb (is_member previous node_id)) self.(member_node_ids)))
    "new node pool members cannot begin in removal" ;;
  expected_removal_generation ←
    (if (requested_removal : bool)
     then ok_or (checked_add previous.(member_removal_generation) 1)
            "node pool member removal generation is exhausted"
     else Ok previous.(member_removal_generation));
  fail_if (self.(member_removal_generation) != expected_removal_generation)
    "node pool member removal generation is not monotonic".

End NodePool.
