(* ===== verification/NodePoolLifecycle.v ===== *)
(** * Properties of node pools

    The invariant [validate] checks, as a proposition; that every operation of [NodePools] keeps it
    and is accepted by the successor check of the repository; and that its final validation never
    rejects a change, so that an error leaves the pool as it was. *)

From Stdlib Require Import ZArith NArith Lia String.
From S2P Require Import Prelude RustStd External SharedKernel NodePools.

(** ** Canonical sets of identifiers *)
Section canonical_sets.

Definition sorted_ids (l : list N) : Prop := StronglySorted (key_lt (fun x : N => x)) l.

Lemma key_lt_id x y : key_lt (fun x : N => x) x y <-> (x < y)%N.
Proof. unfold key_lt, ltb, cmp, N_ord. destruct (N.compare_spec x y); split; intros; try done; lia. Qed.

Lemma any_pair_sorted {A} (f : A -> A -> bool) l :
  any_pair f l = false <-> Sorted (fun x y => f x y = false) l.
Proof.
  induction l as [|x l IH]; simpl; [split; auto|]. destruct l as [|y l].
  - split; auto.
  - rewrite orb_false_iff, IH. split.
    + intros [? ?]. constructor; [done|]. by constructor.
    + intros Hs. inversion_clear Hs as [|? ? Hs' Hh]. inversion_clear Hh. done.
Qed.

Lemma any_pair_keys {A} (key : A -> N) l :
  any_pair (fun x y => (key y <=? key x)%N) l = false <-> StronglySorted (key_lt key) l.
Proof.
  rewrite any_pair_sorted. assert (forall x y, (key y <=? key x)%N = false <-> key_lt key x y) as Hiff.
  { intros x y. rewrite N.leb_gt. unfold key_lt. symmetry. apply (key_lt_id (key x) (key y)). }
  split.
  - intros Hs. apply Sorted_StronglySorted; [intros ? ? ?; apply ltb_trans|].
    induction Hs as [|x l _ IH Hh]; constructor; [done|]. destruct Hh; constructor. by apply Hiff.
  - intros Hs%StronglySorted_Sorted. induction Hs as [|x l _ IH Hh]; constructor; [done|].
    destruct Hh; constructor. by apply Hiff.
Qed.

Lemma binary_search_iff (x : N) l : sorted_ids l -> is_some (binary_search x l) = true <-> x ∈ l.
Proof.
  intros Hs. unfold binary_search. rewrite (binary_search_by_key_iff (fun x : N => x) l x Hs).
  by rewrite list_fmap_id.
Qed.

(** A non-empty set of at most [maximum] identifiers, none of them nil, in increasing order. *)
Definition canonical_set (maximum : N) (l : list N) : Prop :=
  l <> [] /\ (len l <= maximum)%N /\ Forall (fun x => is_nil x = false) l /\ sorted_ids l.

Lemma validate_canonical_node_ids_Ok l maximum kind :
  validate_canonical_node_ids l maximum kind = Ok tt <-> canonical_set maximum l.
Proof.
  unfold validate_canonical_node_ids, canonical_set, errf, sorted_ids. rewrite unit_Err, !orb_false_iff.
  rewrite (any_pair_keys (fun x => x)), N.ltb_ge.
  assert (any is_nil l = false <-> Forall (fun x => is_nil x = false) l) as ->.
  { unfold any. rewrite Forall_forall, <- not_true_iff_false, existsb_exists. split.
    - intros Hn x Hx. apply not_true_iff_false. intros E. apply Hn. exists x. split; [by apply list_elem_of_In|done].
    - intros Hall (x & Hx & E). rewrite Hall in E; [done|by apply list_elem_of_In]. }
  destruct l; simpl; naive_solver.
Qed.

Lemma elem_of_dedup (x : N) l : x ∈ dedup l <-> x ∈ l.
Proof.
  induction l as [|y l IH]; simpl; [done|]. destruct (dedup l) as [|z r] eqn:E.
  - rewrite !elem_of_cons, <- IH. done.
  - case_bool_decide as Hy; rewrite elem_of_cons in IH; rewrite !elem_of_cons; subst; tauto.
Qed.

Lemma dedup_sorted l : StronglySorted (key_le (fun x : N => x)) l -> sorted_ids (dedup l).
Proof.
  intros Hs. induction Hs as [|x l Hs IH Hx]; simpl; [constructor|].
  destruct (dedup l) as [|y r] eqn:E; [by repeat constructor|].
  case_bool_decide as Hy; [done|]. constructor; [done|].
  assert (key_lt (fun x : N => x) x y) as Hxy.
  { assert (y ∈ l) as Hin by (apply elem_of_dedup; rewrite E; by left).
    rewrite Forall_forall in Hx. specialize (Hx y Hin). unfold key_le, key_lt, leb, ltb in *.
    destruct (cmp x y) eqn:Ec; try done. by apply cmp_eq in Ec. }
  constructor; [done|]. inversion_clear IH as [|? ? _ Hr]. eapply Forall_impl; [exact Hr|].
  intros z. by apply ltb_trans.
Qed.

Lemma canonical_ids_spec l :
  sorted_ids (dedup (sort_ids l)) /\ forall x, x ∈ dedup (sort_ids l) <-> x ∈ l.
Proof.
  split; [apply dedup_sorted, sort_by_key_sorted|]. intros x. rewrite elem_of_dedup.
  unfold sort_ids. by rewrite sort_by_key_perm.
Qed.

Lemma canonical_node_ids_Ok l maximum kind r :
  canonical_node_ids l maximum kind = Ok r ->
  canonical_set maximum r /\ forall x, x ∈ r <-> x ∈ l.
Proof.
  unfold canonical_node_ids. rewrite then_Ok, validate_canonical_node_ids_Ok. intros [Hc [= <-]].
  split; [done|]. apply canonical_ids_spec.
Qed.

Lemma sorted_ids_NoDup l : sorted_ids l -> NoDup l.
Proof. intros Hs%key_lt_NoDup. by rewrite list_fmap_id in Hs. Qed.

Lemma sorted_ids_filter (f : N -> bool) l : sorted_ids l -> sorted_ids (List.filter f l).
Proof.
  unfold sorted_ids. induction 1 as [|x l _ IH Hx]; simpl; [constructor|].
  destruct (f x); [|done]. constructor; [done|]. rewrite Forall_forall in Hx |- *.
  intros y Hy%list_elem_of_In%List.filter_In. apply Hx, list_elem_of_In. tauto.
Qed.

Lemma sorted_delete {A} (R : A -> A -> Prop) i l : StronglySorted R l -> StronglySorted R (delete i l).
Proof.
  intros Hs. revert i. induction Hs as [|x l Hs IH Hx]; intros [|i]; simpl; [constructor..|done|].
  constructor; [done|]. rewrite Forall_forall in Hx |- *. intros y Hy. apply Hx.
  apply list_elem_of_lookup in Hy as [j Hj]. rewrite list_lookup_delete in Hj.
  case_decide; by eapply list_elem_of_lookup_2.
Qed.

(** A subset of a strictly sorted list is not longer. *)
Lemma subset_length (l l' : list N) : NoDup l -> (forall x, x ∈ l -> x ∈ l') -> (len l <= len l')%N.
Proof.
  intros Hnd Hsub. unfold len. assert (length l <= length l')%nat; [|lia].
  apply submseteq_length, NoDup_submseteq; done.
Qed.
End canonical_sets.

(** ** The invariant *)
Module PoolLifecycle.
Import NodePoolMaintenanceStatus NodePool.

Section pool.
Context `{External}.

Definition removal_wf (p : NodePool.t) (r : NodePoolMemberRemoval.t) : Prop :=
  is_nil r.(NodePoolMemberRemoval.node_id) = false
  /\ (1 <= r.(NodePoolMemberRemoval.generation) <= p.(member_removal_generation))%N
  /\ canonical_timestamp r.(NodePoolMemberRemoval.requested_at) = r.(NodePoolMemberRemoval.requested_at)
  /\ (p.(created_at) <= r.(NodePoolMemberRemoval.requested_at) <= p.(updated_at))%Z
  /\ r.(NodePoolMemberRemoval.node_id) ∈ p.(member_node_ids).

(** The times, generation and reason of a window. *)
Definition window_times_wf (w : NodePoolMaintenanceWindow.t) : Prop :=
  w.(NodePoolMaintenanceWindow.generation) <> 0%N
  /\ canonical_timestamp w.(NodePoolMaintenanceWindow.starts_at) = w.(NodePoolMaintenanceWindow.starts_at)
  /\ canonical_timestamp w.(NodePoolMaintenanceWindow.ends_at) = w.(NodePoolMaintenanceWindow.ends_at)
  /\ (w.(NodePoolMaintenanceWindow.starts_at) < w.(NodePoolMaintenanceWindow.ends_at))%Z
  /\ (w.(NodePoolMaintenanceWindow.ends_at) - w.(NodePoolMaintenanceWindow.starts_at) <= MAX_MAINTENANCE_DURATION)%Z
  /\ (forall c, w.(NodePoolMaintenanceWindow.cancelled_at) = Some c ->
        canonical_timestamp c = c /\ (c < w.(NodePoolMaintenanceWindow.ends_at))%Z)
  /\ bounded_reason w.(NodePoolMaintenanceWindow.reason) = Ok w.(NodePoolMaintenanceWindow.reason).

Definition over (w : NodePoolMaintenanceWindow.t) (now : Time) : Prop :=
  matches (NodePoolMaintenanceWindow.status_at w now) [Completed; Cancelled] = true.

(** Its targets: members that are not leaving; none at all only once it is over. *)
Definition window_targets_wf (p : NodePool.t) (w : NodePoolMaintenanceWindow.t) : Prop :=
  let targets := w.(NodePoolMaintenanceWindow.target_node_ids) in
  (targets = [] -> over w p.(updated_at))
  /\ (targets <> [] -> canonical_set MAX_MAINTENANCE_TARGETS targets)
  /\ (forall n, n ∈ targets ->
        n ∈ p.(member_node_ids) /\ n ∉ NodePoolMemberRemoval.node_id <$> p.(member_removals)).

Record wf (p : NodePool.t) : Prop := {
  wf_ids : is_nil p.(id) = false /\ is_nil p.(organization_id) = false;
  wf_version : p.(aggregate_version) <> 0%N;
  wf_created : canonical_timestamp p.(created_at) = p.(created_at);
  wf_updated : canonical_timestamp p.(updated_at) = p.(updated_at);
  wf_order : (p.(created_at) <= p.(updated_at))%Z;
  wf_name : ResourceName.parse p.(name).(ResourceName.display) = Ok p.(name);
  wf_members : canonical_set MAX_NODE_POOL_MEMBERS p.(member_node_ids);
  wf_generation : p.(member_removals) = [] \/ p.(member_removal_generation) <> 0%N;
  wf_count : (len p.(member_removals) < len p.(member_node_ids))%N;
  wf_removals_sorted : StronglySorted (key_lt NodePoolMemberRemoval.node_id) p.(member_removals);
  wf_removals : Forall (removal_wf p) p.(member_removals);
  wf_window : forall w, p.(maintenance) = Some w -> window_times_wf w /\ window_targets_wf p w;
  wf_digest : computed_spec_digest p = Ok p.(spec_digest);
}.

(** ** The searches on a sorted pool *)
Lemma is_member_iff p n : sorted_ids p.(member_node_ids) -> is_member p n = true <-> n ∈ p.(member_node_ids).
Proof. intros Hs. unfold is_member. by apply binary_search_iff. Qed.

Lemma member_removal_Some p n r :
  StronglySorted (key_lt NodePoolMemberRemoval.node_id) p.(member_removals) ->
  member_removal p n = Some r <-> r ∈ p.(member_removals) /\ r.(NodePoolMemberRemoval.node_id) = n.
Proof.
  intros Hs. unfold member_removal. split.
  - destruct (binary_search_by _ _) as [i|] eqn:E; [|done].
    apply binary_search_by_Some in E as (x & Hx & Ex). apply cmp_eq in Ex. intros Hr.
    simplify_eq. split; [by eapply list_elem_of_lookup_2|done].
  - intros [[i Hi]%list_elem_of_lookup <-].
    erewrite binary_search_by_found; [exact Hi|by apply sorted_search_mono|exact Hi|apply cmp_refl].
Qed.

Lemma member_removal_is_some p n :
  StronglySorted (key_lt NodePoolMemberRemoval.node_id) p.(member_removals) ->
  is_some (member_removal p n) = true <-> n ∈ NodePoolMemberRemoval.node_id <$> p.(member_removals).
Proof.
  intros Hs. rewrite list_elem_of_fmap. split.
  - destruct (member_removal p n) as [r|] eqn:E; [|done]. intros _.
    apply member_removal_Some in E as [? ?]; [|done]. eauto.
  - intros (r & -> & Hr). by rewrite (proj2 (member_removal_Some p _ r Hs)).
Qed.

Lemma removal_invalid_false p r :
  sorted_ids p.(member_node_ids) -> removal_invalid p r = false <-> removal_wf p r.
Proof.
  intros Hs. unfold removal_invalid, removal_wf. rewrite <- is_member_iff by done.
  reflect_bools. intuition (congruence || lia).
Qed.

Lemma validate_window_Ok p w :
  sorted_ids p.(member_node_ids) ->
  StronglySorted (key_lt NodePoolMemberRemoval.node_id) p.(member_removals) ->
  validate_window p w = Ok tt <-> window_times_wf w /\ window_targets_wf p w.
Proof.
  intros Hm Hr. unfold validate_window, window_times_wf, window_targets_wf, over.
  rewrite !then_Ok, !fail_if_Ok, !any_false, result_bind_Ok.
  assert ((exists a, bounded_reason (NodePoolMaintenanceWindow.reason w) = Ok a
     /\ fail_if (a != NodePoolMaintenanceWindow.reason w) "maintenance reason is not canonical" = Ok tt) <->
    bounded_reason (NodePoolMaintenanceWindow.reason w) = Ok (NodePoolMaintenanceWindow.reason w)) as ->.
  { split; [intros (a & -> & Ha%fail_if_Ok); reflect_bools; congruence|]. intros ->. eexists. split; [done|].
    apply fail_if_Ok. reflect_bools. done. }
  assert ((forall x, x ∈ NodePoolMaintenanceWindow.target_node_ids w -> negb (is_member p x) = false) /\
          (forall x, x ∈ NodePoolMaintenanceWindow.target_node_ids w -> is_some (member_removal p x) = false) <->
          (forall n, n ∈ NodePoolMaintenanceWindow.target_node_ids w ->
             n ∈ p.(member_node_ids) /\ n ∉ NodePoolMemberRemoval.node_id <$> p.(member_removals))) as Ht.
  { split.
    - intros [H1 H2] n Hn. split; [by apply is_member_iff, negb_false_iff, H1|].
      intros Hin%member_removal_is_some; [|done]. rewrite H2 in Hin; done.
    - intros Hall. split; intros n Hn; destruct (Hall n Hn) as [H1 H2].
      + by apply negb_false_iff, is_member_iff.
      + apply not_true_iff_false. intros Hs%member_removal_is_some; done. }
  assert ((if is_empty (NodePoolMaintenanceWindow.target_node_ids w)
     then fail_if (negb (matches (NodePoolMaintenanceWindow.status_at w (updated_at p)) [Completed; Cancelled]))
            "active maintenance must retain at least one target"
     else validate_canonical_node_ids (NodePoolMaintenanceWindow.target_node_ids w) MAX_MAINTENANCE_TARGETS
            "maintenance target") = Ok tt <->
     (NodePoolMaintenanceWindow.target_node_ids w = [] ->
        matches (NodePoolMaintenanceWindow.status_at w (updated_at p)) [Completed; Cancelled] = true)
     /\ (NodePoolMaintenanceWindow.target_node_ids w <> [] ->
        canonical_set MAX_MAINTENANCE_TARGETS (NodePoolMaintenanceWindow.target_node_ids w))) as ->.
  { destruct (NodePoolMaintenanceWindow.target_node_ids w) as [|x l] eqn:E; simpl.
    - rewrite fail_if_Ok, negb_false_iff. naive_solver.
    - rewrite validate_canonical_node_ids_Ok. naive_solver. }
  assert (is_some_and (fun at' => (at' != canonical_timestamp at')
      || (NodePoolMaintenanceWindow.ends_at w <=? at')%Z) (NodePoolMaintenanceWindow.cancelled_at w) = false <->
    (forall c, w.(NodePoolMaintenanceWindow.cancelled_at) = Some c ->
        canonical_timestamp c = c /\ (c < w.(NodePoolMaintenanceWindow.ends_at))%Z)) as Hc.
  { destruct (NodePoolMaintenanceWindow.cancelled_at w) as [c|]; simpl; [|naive_solver].
    reflect_bools. split; [intros [? ?] c' [= <-]; split; [congruence|lia]|].
    intros Hall. destruct (Hall c eq_refl). split; [congruence|lia]. }
  rewrite !orb_false_iff, Hc, <- Ht. reflect_bools. intuition (congruence || lia).
Qed.

Lemma validate_Ok_wf p : validate p = Ok tt <-> wf p.
Proof.
  unfold validate. rewrite !then_Ok, fail_if_Ok. split.
  - intros (Hids & Hrest). rewrite result_bind_Ok in Hrest. destruct Hrest as (nm & Hnm & Hrest).
    rewrite !then_Ok, !fail_if_Ok, validate_canonical_node_ids_Ok in Hrest.
    destruct Hrest as (Hn & Hm & Hg & Hr & Hw & Hd). rewrite result_bind_Ok in Hd. destruct Hd as (d & Hd & Hd').
    rewrite fail_if_Ok in Hd'. rewrite !orb_false_iff, any_false, any_pair_keys in Hr.
    destruct Hr as ((Hcount & Hsorted) & Hrem). pose proof Hm as (_ & _ & _ & Hms).
    rewrite !orb_false_iff in Hids. reflect_bools. destruct_and?. subst.
    split; try done; try congruence.
    + destruct (member_removals p); [by left|right]. simpl in *. intros ?. intuition congruence.
    + apply Forall_forall. intros r Hin. apply removal_invalid_false; [done|]. by apply Hrem.
    + intros w Ew. rewrite Ew in Hw. by apply validate_window_Ok.
  - intros [Hids Hv Hc Hu Ho Hn Hm Hg Hcnt Hs Hr Hw Hd]. destruct Hids as [-> ->].
    split.
    { cbn [orb]. reflect_bools. intuition (congruence || lia). }
    rewrite Hn. cbn [mbind result_bind]. rewrite !then_Ok, !fail_if_Ok, validate_canonical_node_ids_Ok.
    split; [by reflect_bools|]. split; [done|]. split.
    { destruct Hg as [->|Hg]; [apply andb_false_r|]. by rewrite (proj2 (N.eqb_neq _ _) Hg). }
    split.
    { rewrite !orb_false_iff, any_false, any_pair_keys. split; [split; [by apply N.leb_gt|done]|].
      intros r Hin. apply removal_invalid_false; [apply Hm|]. by eapply Forall_forall in Hr. }
    split.
    { destruct (maintenance p) as [w|] eqn:Ew; [|done]. apply validate_window_Ok; [apply Hm|done|by apply Hw]. }
    rewrite Hd. cbn [mbind result_bind]. apply fail_if_Ok. by reflect_bools.
Qed.

(** ** The operations *)
Inductive op :=
| AddMembers (ids : list NodeId) (at' : Time)
| RequestMemberRemoval (ids : list NodeId) (at' : Time)
| CompleteMemberRemoval (node_id : NodeId) (generation : N) (at' : Time)
| ScheduleMaintenance (targets : list NodeId) (starts_at ends_at : Time) (reason : string) (at' : Time)
| CancelMaintenance (generation : N) (at' : Time).

Definition step (o : op) : method NodePool.t unit :=
  match o with
  | AddMembers ids at' => add_members ids at'
  | RequestMemberRemoval ids at' => request_member_removal ids at' ;; mret tt
  | CompleteMemberRemoval node generation at' => complete_member_removal node generation at'
  | ScheduleMaintenance targets starts_at ends_at reason at' =>
    schedule_maintenance targets starts_at ends_at reason at'
  | CancelMaintenance generation at' => cancel_maintenance generation at'
  end.

(** Well-formed up to the digest. *)
Definition content_wf (p : NodePool.t) : Prop :=
  forall d, computed_spec_digest p = Ok d -> wf (p <| spec_digest := d |>).

(** The pool after [advance]. *)
Definition advanced (p : NodePool.t) (at' : Time) : NodePool.t :=
  p <| aggregate_version := (p.(aggregate_version) + 1)%N |> <| updated_at := canonical_timestamp at' |>.

Lemma advance_spec at' p p' r :
  advance at' p = (p', r) ->
  (is_ok r = false /\ p' = p)
  \/ (r = Ok tt /\ p' = advanced p at' /\ (p.(updated_at) <= canonical_timestamp at')%Z
      /\ (p.(aggregate_version) + 1 <= u64_max)%N).
Proof.
  unfold advance. intros Hs. exec_method Hs; injection Hs as <- <-; auto.
  right. match goal with H : ok_or _ _ = Ok _ |- _ => apply ok_or_Ok, checked_add_Some in H as [-> ?] end.
  reflect_bools. auto.
Qed.

Lemma over_later w t t' : over w t -> (t <= t')%Z -> over w t'.
Proof.
  unfold over, NodePoolMaintenanceWindow.status_at. destruct (is_some _); [done|].
  destruct (Z.ltb_spec t (NodePoolMaintenanceWindow.starts_at w)), (Z.ltb_spec t (NodePoolMaintenanceWindow.ends_at w)),
    (Z.ltb_spec t' (NodePoolMaintenanceWindow.starts_at w)), (Z.ltb_spec t' (NodePoolMaintenanceWindow.ends_at w));
    try done; lia.
Qed.

Section laws.
Context `{!ExternalLaws}.

Lemma refresh_and_validate_ok p :
  content_wf p -> exists d, refresh_and_validate p = (p <| spec_digest := d |>, Ok tt)
                            /\ wf (p <| spec_digest := d |>).
Proof.
  intros Hp. destruct (digest_json_total (spec_json p) "could not encode node pool specification: {error}")
    as (d & Hd & _). change (computed_spec_digest p = Ok d) in Hd. specialize (Hp d Hd).
  exists d. split; [|done]. unfold refresh_and_validate, refresh_spec_digest.
  autorewrite with methods. cbn beta. rewrite Hd. autorewrite with methods. cbn beta.
  by rewrite (proj2 (validate_Ok_wf _) Hp).
Qed.

Lemma bind_known {S A B} (m : method S A) (f : A -> method S B) s s' a :
  m s = (s', Ok a) -> (m ≫= f) s = f a s'.
Proof. unfold mbind, method_bind. by intros ->. Qed.

Lemma bind_error {S A B} (m : method S A) (f : A -> method S B) s s' e :
  m s = (s', Err e) -> (m ≫= f) s = (s', Err e).
Proof. unfold mbind, method_bind. by intros ->. Qed.

(** The end of every operation: advance the clock, change the content, check it. *)
Lemma finish_spec {A} at' (k : method NodePool.t A) (a : A) (change : NodePool.t -> NodePool.t) p p' r :
  (forall q, k q = (refresh_and_validate ;; mret a) (change q)) ->
  ((p.(updated_at) <= canonical_timestamp at')%Z -> content_wf (change (advanced p at'))) ->
  (advance at' ;; k) p = (p', r) ->
  (is_ok r = false /\ p' = p)
  \/ (r = Ok a /\ (p.(updated_at) <= canonical_timestamp at')%Z /\ (p.(aggregate_version) + 1 <= u64_max)%N
      /\ exists d, p' = (change (advanced p at')) <| spec_digest := d |> /\ wf p').
Proof.
  intros Hk Hc Hs. destruct (advance at' p) as [q rq] eqn:Ea.
  destruct (advance_spec _ _ _ _ Ea) as [[Hr ->]|(-> & -> & Ht & Hv)].
  - destruct rq as [|e]; [done|]. rewrite (bind_error _ _ _ _ _ Ea) in Hs. injection Hs as <- <-. auto.
  - rewrite (bind_known _ _ _ _ _ Ea), Hk in Hs.
    destruct (refresh_and_validate_ok (change (advanced p at'))) as (d & Hd & Hw); [by apply Hc|].
    rewrite (bind_known _ _ _ _ _ Hd) in Hs. injection Hs as <- <-. right.
    split; [done|]. split; [done|]. split; [done|]. exists d. split; [reflexivity|exact Hw].
Qed.

Lemma add_members_wf p at' additions :
  wf p -> (p.(updated_at) <= canonical_timestamp at')%Z ->
  canonical_set MAX_NODE_POOL_MEMBERS additions ->
  let projected := dedup (sort_ids (p.(member_node_ids) ++ additions)) in
  (len projected <= MAX_NODE_POOL_MEMBERS)%N ->
  content_wf ((advanced p at') <| member_node_ids := projected |>).
Proof.
  intros [Hids Hv Hc Hu Ho Hn Hm Hg Hcnt Hs Hr Hw Hd] Ht Hadd projected Hlen d Hdig.
  destruct (canonical_ids_spec (p.(member_node_ids) ++ additions)) as [Hsorted Hin].
  fold projected in Hsorted, Hin.
  assert (forall n, n ∈ p.(member_node_ids) -> n ∈ projected) as Hsub.
  { intros n Hn'. apply Hin, elem_of_app. by left. }
  destruct Hm as (Hm1 & Hm2 & Hm3 & Hm4).
  split; cbn; try done.
  - lia.
  - apply canonical_timestamp_idemp.
  - lia.
  - split_and!; [|done| |done].
    + intros E. destruct (member_node_ids p) as [|n l]; [done|]. specialize (Hsub n). rewrite E in Hsub.
      by apply elem_of_nil in Hsub; [|left].
    + apply Forall_forall. intros x [Hx|Hx]%Hin%elem_of_app.
      * by eapply Forall_forall in Hm3.
      * destruct Hadd as (_ & _ & Hadd & _). by eapply Forall_forall in Hadd.
  - eapply N.lt_le_trans; [exact Hcnt|]. apply subset_length; [by apply sorted_ids_NoDup|done].
  - eapply Forall_impl; [exact Hr|]. intros r (? & ? & ? & ? & ?). unfold removal_wf; cbn.
    split_and!; try done; try lia; [tauto..|]. by apply Hsub.
  - intros w Ew. destruct (Hw w Ew) as [Htm (He & Hcs & Hall)]. split; [done|]. split_and!; cbn.
    + intros E. eapply over_later; [by apply He|done].
    + done.
    + intros n Hn'. destruct (Hall n Hn'). auto.
Qed.

(** The window after its targets among [removed] are dropped. *)
Definition without_targets (removed : list NodeId) (w : NodePoolMaintenanceWindow.t) : NodePoolMaintenanceWindow.t :=
  w <| NodePoolMaintenanceWindow.target_node_ids :=
    List.filter (fun node_id => negb (is_some (binary_search node_id removed)))
      w.(NodePoolMaintenanceWindow.target_node_ids) |>.

Lemma without_targets_elem removed w n :
  sorted_ids removed ->
  n ∈ (without_targets removed w).(NodePoolMaintenanceWindow.target_node_ids)
  <-> n ∈ w.(NodePoolMaintenanceWindow.target_node_ids) /\ n ∉ removed.
Proof.
  intros Hs. cbn. rewrite list_elem_of_In, List.filter_In, <- list_elem_of_In, negb_true_iff.
  rewrite <- (binary_search_iff n removed Hs). by rewrite not_true_iff_false.
Qed.

Lemma active_or_over w t :
  matches (NodePoolMaintenanceWindow.status_at w t) [Scheduled; Active] = false -> over w t.
Proof. unfold over. by destruct (NodePoolMaintenanceWindow.status_at w t). Qed.

Definition removals_requested (removed : list NodeId) (g : N) (at' : Time) (p : NodePool.t) :
    list NodePoolMemberRemoval.t :=
  sort_by_key NodePoolMemberRemoval.node_id
    (p.(member_removals) ++ map (fun node_id => NodePoolMemberRemoval.Mk node_id g at') removed).

Lemma removals_requested_elem removed g t p r :
  r ∈ removals_requested removed g t p <->
  r ∈ p.(member_removals) \/ exists n, n ∈ removed /\ r = NodePoolMemberRemoval.Mk n g t.
Proof.
  unfold removals_requested. rewrite sort_by_key_perm, elem_of_app, list_elem_of_fmap.
  split; (intros [?|(n & ? & ?)]; [by left|right]; eauto).
Qed.

Lemma removals_requested_ids removed g t p n :
  n ∈ NodePoolMemberRemoval.node_id <$> removals_requested removed g t p <->
  n ∈ NodePoolMemberRemoval.node_id <$> p.(member_removals) \/ n ∈ removed.
Proof.
  rewrite !list_elem_of_fmap. setoid_rewrite removals_requested_elem. split.
  - intros (r & -> & [Hr|(m & Hm & ->)]); eauto.
  - intros [(r & -> & Hr)|Hn]; [eauto|]. exists (NodePoolMemberRemoval.Mk n g t). eauto.
Qed.

Lemma removals_requested_sorted removed g t p :
  StronglySorted (key_lt NodePoolMemberRemoval.node_id) p.(member_removals) -> sorted_ids removed ->
  (forall n, n ∈ removed -> n ∉ NodePoolMemberRemoval.node_id <$> p.(member_removals)) ->
  StronglySorted (key_lt NodePoolMemberRemoval.node_id) (removals_requested removed g t p).
Proof.
  intros Hs Hr Hn. apply strictly_sorted_of_NoDup; [|apply sort_by_key_sorted].
  unfold removals_requested. rewrite sort_by_key_perm, fmap_app, NoDup_app.
  split; [by apply key_lt_NoDup|]. split.
  - intros n Hin Hin2. rewrite <- list_fmap_compose in Hin2. cbn in Hin2. rewrite list_fmap_id in Hin2.
    by apply (Hn n).
  - rewrite <- list_fmap_compose. cbn. rewrite list_fmap_id. by apply sorted_ids_NoDup.
Qed.

Lemma request_removal_wf p at' removed :
  wf p -> (p.(updated_at) <= canonical_timestamp at')%Z ->
  canonical_set MAX_NODE_POOL_MEMBERS removed ->
  (forall n, n ∈ removed ->
     n ∈ p.(member_node_ids) /\ n ∉ NodePoolMemberRemoval.node_id <$> p.(member_removals)) ->
  (len p.(member_removals) + len removed < len p.(member_node_ids))%N ->
  (forall w, p.(maintenance) = Some w ->
     any (fun n => is_some (binary_search n w.(NodePoolMaintenanceWindow.target_node_ids))) removed
     && matches (NodePoolMaintenanceWindow.status_at w (canonical_timestamp at')) [Scheduled; Active] = false) ->
  let g := (p.(member_removal_generation) + 1)%N in
  content_wf ((advanced p at') <| member_removal_generation := g |>
    <| member_removals := removals_requested removed g (canonical_timestamp at') p |>
    <| maintenance := without_targets removed <$> p.(maintenance) |>).
Proof.
  intros [Hids Hv Hc Hu Ho Hn Hm Hg Hcnt Hs Hr Hw Hd] Ht (_ & _ & Hnil & Hsr) Hrem Hlen Hact g d Hdig.
  split; cbn; try done.
  - lia.
  - apply canonical_timestamp_idemp.
  - lia.
  - right. lia.
  - unfold removals_requested, len in *. rewrite sort_by_key_perm, length_app, length_map. lia.
  - apply removals_requested_sorted; [done|done|]. intros n Hin. by apply Hrem.
  - apply Forall_forall. intros r [Hin|(n & Hin & ->)]%removals_requested_elem; unfold removal_wf; cbn.
    + eapply Forall_forall in Hr as (? & ? & ? & ? & ?); [|exact Hin]. split_and!; try done; lia.
    + split_and!; try lia; [|apply canonical_timestamp_idemp|by apply Hrem].
      by eapply Forall_forall in Hnil.
  - intros w' Ew. destruct (maintenance p) as [w|] eqn:Em; [|done]. injection Ew as <-.
    destruct (Hw w eq_refl) as [Htm (He & Hcs & Hall)]. split; [exact Htm|]. split_and!.
    + intros Empty. change (over w (canonical_timestamp at')).
      destruct (NodePoolMaintenanceWindow.target_node_ids w) as [|n l] eqn:Et.
      { eapply over_later; [by apply He|done]. }
      specialize (Hact w eq_refl). apply andb_false_iff in Hact as [Hno|Hno]; [|by apply active_or_over].
      exfalso. rewrite any_false in Hno.
      assert (n ∈ removed) as Hnr.
      { apply dec_stable. intros Hnr. assert (n ∈ (without_targets removed w).(NodePoolMaintenanceWindow.target_node_ids)) as Hin.
        { apply without_targets_elem; [done|]. rewrite Et. split; [by left|done]. }
        rewrite Empty in Hin. by apply elem_of_nil in Hin. }
      specialize (Hno n Hnr). rewrite ?Et in *. destruct Hcs as (_ & _ & _ & Hts); [done|].
      rewrite (proj2 (binary_search_iff n _ Hts)) in Hno; [done|]. by left.
    + intros Hne. destruct Hcs as (Hc1 & Hc2 & Hc3 & Hc4).
      { intros E. apply Hne. cbn. by rewrite E. }
      split_and!; [done| | |by apply sorted_ids_filter].
      * etrans; [|exact Hc2]. apply subset_length; [by apply sorted_ids_NoDup, sorted_ids_filter|].
        intros n Hin. by apply (without_targets_elem removed w) in Hin as [? _].
      * apply Forall_forall. intros n Hin. apply (without_targets_elem removed w) in Hin as [Hin _]; [|done].
        by eapply Forall_forall in Hc3.
    + intros n Hin. apply without_targets_elem in Hin as [Hin Hnr]; [|done]. destruct (Hall n Hin) as [? Hnot].
      split; [done|]. intros [?|?]%removals_requested_ids; done.
Qed.

Lemma complete_removal_wf p at' i j r :
  wf p -> (p.(updated_at) <= canonical_timestamp at')%Z ->
  p.(member_removals) !! i = Some r ->
  p.(member_node_ids) !! j = Some r.(NodePoolMemberRemoval.node_id) ->
  len p.(member_node_ids) <> 1%N ->
  content_wf ((advanced p at') <| member_removals := delete i p.(member_removals) |>
                <| member_node_ids := delete j p.(member_node_ids) |>).
Proof.
  intros [Hids Hv Hc Hu Ho Hn (Hm1 & Hm2 & Hm3 & Hm4) Hg Hcnt Hs Hr Hw Hd] Ht Hi Hj Hone d Hdig.
  pose proof (delete_Permutation _ _ _ Hi) as Pi. pose proof (delete_Permutation _ _ _ Hj) as Pj.
  pose proof (sorted_ids_NoDup _ Hm4) as Hnd. rewrite Pj, NoDup_cons in Hnd. destruct Hnd as [Hnj _].
  pose proof (key_lt_NoDup _ _ Hs) as Hndr. rewrite Pi, fmap_cons, NoDup_cons in Hndr. destruct Hndr as [Hni _].
  assert (length p.(member_node_ids) = S (length (delete j p.(member_node_ids)))) as Lj by (by rewrite Pj at 1).
  assert (length p.(member_removals) = S (length (delete i p.(member_removals)))) as Li by (by rewrite Pi at 1).
  assert (forall n, n ∈ p.(member_node_ids) -> n <> r.(NodePoolMemberRemoval.node_id) ->
            n ∈ delete j p.(member_node_ids)) as Hkeep.
  { intros n Hin Hne. rewrite Pj in Hin. by apply elem_of_cons in Hin as [?|?]. }
  unfold len in *. split; cbn; try done.
  - lia.
  - apply canonical_timestamp_idemp.
  - lia.
  - split_and!; [destruct (delete j _); simpl in *; [lia|done]|unfold len; lia| |by apply sorted_delete].
    rewrite Pj in Hm3. by inversion_clear Hm3.
  - destruct Hg as [E|Hg]; [|by right]. rewrite E in Hi. done.
  - unfold len. lia.
  - by apply sorted_delete.
  - apply Forall_forall. intros x Hx. assert (x ∈ p.(member_removals)) as Hx' by (rewrite Pi; by right).
    eapply Forall_forall in Hr as (? & ? & ? & ? & ?); [|exact Hx'].
    unfold removal_wf; cbn. split_and!; try done; try lia. apply Hkeep; [done|].
    intros E. apply Hni. rewrite <- E. by apply list_elem_of_fmap_2.
  - intros w Ew. destruct (Hw w Ew) as [Htm (He & Hcs & Hall)]. split; [done|]. split_and!; cbn.
    + intros E. eapply over_later; [by apply He|done].
    + done.
    + intros n Hin. destruct (Hall n Hin) as [Hmem Hnot]. rewrite Pi, fmap_cons, elem_of_cons in Hnot.
      split; [apply Hkeep; tauto|tauto].
Qed.

Lemma bounded_reason_idemp s r : bounded_reason s = Ok r -> bounded_reason r = Ok r.
Proof.
  unfold bounded_reason. destruct (_ || _) eqn:E; [discriminate|]. intros [= <-]. by rewrite trim_idemp, E.
Qed.

Lemma cancel_wf p at' w :
  wf p -> (p.(updated_at) <= canonical_timestamp at')%Z -> p.(maintenance) = Some w ->
  (canonical_timestamp at' < w.(NodePoolMaintenanceWindow.ends_at))%Z ->
  content_wf ((advanced p at') <| maintenance :=
    (fun w => w <| NodePoolMaintenanceWindow.cancelled_at := Some (canonical_timestamp at') |>) <$> p.(maintenance) |>).
Proof.
  intros [Hids Hv Hc Hu Ho Hn Hm Hg Hcnt Hs Hr Hw Hd] Ht Em Hend d Hdig.
  split; cbn; try done.
  - lia.
  - apply canonical_timestamp_idemp.
  - lia.
  - eapply Forall_impl; [exact Hr|]. intros r (? & ? & ? & ? & ?). unfold removal_wf; cbn. split_and!; try done; lia.
  - intros w' Ew. rewrite Em in Ew. injection Ew as <-.
    destruct (Hw w Em) as [(? & ? & ? & ? & ? & ? & ?) (He & Hcs & Hall)]. split.
    + unfold window_times_wf; cbn. split_and!; try done. intros c [= <-].
      split; [apply canonical_timestamp_idemp|done].
    + split_and!; done.
Qed.

Lemma schedule_wf p at' targets starts ends why g :
  wf p -> (p.(updated_at) <= canonical_timestamp at')%Z ->
  canonical_set MAX_MAINTENANCE_TARGETS targets ->
  (forall n, n ∈ targets ->
     n ∈ p.(member_node_ids) /\ n ∉ NodePoolMemberRemoval.node_id <$> p.(member_removals)) ->
  (canonical_timestamp starts < canonical_timestamp ends)%Z ->
  (canonical_timestamp ends - canonical_timestamp starts <= MAX_MAINTENANCE_DURATION)%Z ->
  bounded_reason why = Ok why -> g <> 0%N ->
  content_wf ((advanced p at') <| maintenance := Some
    (NodePoolMaintenanceWindow.Mk g targets (canonical_timestamp starts) (canonical_timestamp ends) why None) |>).
Proof.
  intros [Hids Hv Hc Hu Ho Hn Hm Hg Hcnt Hs Hr Hw Hd] Ht Htar Hall Hse Hdur Hwhy Hgen d Hdig.
  split; cbn; try done.
  - lia.
  - apply canonical_timestamp_idemp.
  - lia.
  - eapply Forall_impl; [exact Hr|]. intros r (? & ? & ? & ? & ?). unfold removal_wf; cbn. split_and!; try done; lia.
  - intros w' [= <-]. split.
    + repeat split; cbn; try done; try apply canonical_timestamp_idemp.
    + split_and!; cbn; try done. intros ->. by destruct Htar.
Qed.

(** ** The successor check *)

(** A removal of [n] starts between [p] and [p']. *)
Definition starts_removal (p p' : NodePool.t) (n : NodeId) : bool :=
  is_member p' n && is_none (member_removal p n) && is_some (member_removal p' n).

(** What a change may do to the members of [p]. *)
Record lawful (p p' : NodePool.t) : Prop := {
  law_leave : forall n, n ∈ p.(member_node_ids) -> is_member p' n = false -> is_some (member_removal p n) = true;
  law_keep : forall n r, n ∈ p.(member_node_ids) -> is_member p' n = true ->
    member_removal p n = Some r -> member_removal p' n = Some r;
  law_generation : forall n r, n ∈ p.(member_node_ids) -> member_removal p n = None ->
    member_removal p' n = Some r -> r.(NodePoolMemberRemoval.generation) = p'.(member_removal_generation);
  law_join : forall n, n ∈ p'.(member_node_ids) -> is_member p n = false -> member_removal p' n = None;
  law_count : p'.(member_removal_generation) =
    (p.(member_removal_generation) + if any (starts_removal p p') p.(member_node_ids) then 1 else 0)%N;
  law_bound : (p'.(member_removal_generation) <= u64_max)%N;
}.

Lemma check_members_lawful p p' b l :
  lawful p p' -> (forall n, n ∈ l -> n ∈ p.(member_node_ids)) ->
  check_members p' p b l = Ok (b || any (starts_removal p p') l).
Proof.
  intros Hlaw. revert b. induction l as [|n l IH]; intros b Hl; [by rewrite orb_false_r|].
  assert (n ∈ p.(member_node_ids)) as Hn by (apply Hl; by left).
  assert (forall b, check_members p' p b l = Ok (b || any (starts_removal p p') l)) as IH'.
  { intros b'. apply IH. intros m Hm. apply Hl. by right. }
  cbn [check_members any existsb]. fold (any (starts_removal p p') l). unfold starts_removal at 1, is_none.
  destruct (member_removal p n) as [r|] eqn:Er, (is_member p' n) eqn:Em; cbn [is_some negb andb].
  - rewrite (law_keep _ _ Hlaw n r Hn Em Er), bool_decide_eq_true_2 by done. by rewrite IH'.
  - by rewrite IH'.
  - destruct (member_removal p' n) as [r'|] eqn:Er'; cbn [is_some].
    + rewrite (law_generation _ _ Hlaw n r' Hn Er Er'), bool_decide_eq_true_2 by done. cbn [negb].
      rewrite IH'. by rewrite orb_true_r.
    + by rewrite IH'.
  - pose proof (law_leave _ _ Hlaw n Hn Em) as E. by rewrite Er in E.
Qed.

(** The identity and clock of a successor. *)
Definition succeeds (p p' : NodePool.t) : Prop :=
  p'.(aggregate_version) = (p.(aggregate_version) + 1)%N /\ (p.(aggregate_version) + 1 <= u64_max)%N
  /\ p'.(id) = p.(id) /\ p'.(organization_id) = p.(organization_id) /\ p'.(name) = p.(name)
  /\ p'.(created_at) = p.(created_at) /\ (p.(updated_at) <= p'.(updated_at))%Z.

Lemma validate_successor_lawful p p' :
  succeeds p p' -> lawful p p' -> validate_successor p' p p.(aggregate_version) = Ok tt.
Proof.
  intros (Hv & Hmax & Hi & Ho & Hn & Hc & Hu) Hlaw. unfold validate_successor.
  rewrite then_Ok, fail_if_Ok. split.
  { rewrite Hv, Hi, Ho, Hn, Hc. unfold saturating_add. rewrite N.min_l by done.
    rewrite !bool_decide_eq_true_2 by done. cbn. by apply Z.ltb_ge. }
  rewrite check_members_lawful by done. cbn [mbind result_bind orb].
  rewrite then_Ok, fail_if_Ok. split.
  { apply any_false. intros n Hin%list_elem_of_In%List.filter_In. destruct Hin as [Hin%list_elem_of_In Hm].
    apply negb_true_iff in Hm. by rewrite (law_join _ _ Hlaw n Hin Hm). }
  pose proof (law_count _ _ Hlaw) as Hcount. pose proof (law_bound _ _ Hlaw) as Hb.
  destruct (any (starts_removal p p') (member_node_ids p)).
  - assert (checked_add p.(member_removal_generation) 1 = Some (p.(member_removal_generation) + 1)%N) as ->
      by (apply checked_add_Some; lia). cbn [ok_or mbind result_bind].
    apply fail_if_Ok. reflect_bools. done.
  - cbn [mbind result_bind]. apply fail_if_Ok. reflect_bools. lia.
Qed.

(** *** Each operation is lawful *)

(** A change that leaves the removals alone and does not drop members. *)
Lemma lawful_same_removals p p' :
  wf p -> wf p' -> (p.(member_removal_generation) <= u64_max)%N ->
  p'.(member_removals) = p.(member_removals) ->
  p'.(member_removal_generation) = p.(member_removal_generation) ->
  (forall n, n ∈ p.(member_node_ids) -> n ∈ p'.(member_node_ids)) -> lawful p p'.
Proof.
  intros Hp Hp' Hmax Er Eg Hsub.
  assert (forall n, member_removal p' n = member_removal p n) as Es by (intros n; unfold member_removal; by rewrite Er).
  assert (any (starts_removal p p') (member_node_ids p) = false) as Hany.
  { apply any_false. intros n _. unfold starts_removal, is_none. rewrite Es.
    destruct (is_some (member_removal p n)); by rewrite ?andb_false_r. }
  split.
  - intros n Hn Hm. apply Hsub in Hn. apply (is_member_iff p') in Hn; [congruence|apply Hp'].
  - intros n r _ _. by rewrite Es.
  - intros n r _. rewrite Es. congruence.
  - intros n _ Hm. rewrite Es. destruct (member_removal p n) as [r|] eqn:E; [|done].
    apply member_removal_Some in E as [Hin <-]; [|apply Hp].
    pose proof (wf_removals _ Hp) as Hall. eapply Forall_forall in Hall as (_ & _ & _ & _ & Hin'); [|exact Hin].
    apply (is_member_iff p) in Hin'; [congruence|apply Hp].
  - rewrite Hany. lia.
  - lia.
Qed.

Lemma lawful_request p p' at' removed :
  wf p -> wf p' -> removed <> [] -> sorted_ids removed ->
  (forall n, n ∈ removed ->
     n ∈ p.(member_node_ids) /\ n ∉ NodePoolMemberRemoval.node_id <$> p.(member_removals)) ->
  p'.(member_node_ids) = p.(member_node_ids) ->
  p'.(member_removal_generation) = (p.(member_removal_generation) + 1)%N ->
  (p.(member_removal_generation) + 1 <= u64_max)%N ->
  p'.(member_removals) = removals_requested removed (p.(member_removal_generation) + 1) at' p -> lawful p p'.
Proof.
  intros Hp Hp' Hne Hs Hrem Em Eg Hmax Er.
  assert (forall n r, member_removal p' n = Some r <->
     (r ∈ p.(member_removals) \/ exists m, m ∈ removed
        /\ r = NodePoolMemberRemoval.Mk m (p.(member_removal_generation) + 1) at')
     /\ r.(NodePoolMemberRemoval.node_id) = n) as Hmr.
  { intros n r. rewrite (member_removal_Some p' n r (wf_removals_sorted _ Hp')), Er. by rewrite removals_requested_elem. }
  assert (forall n, is_member p' n = is_member p n) as Emem by (intros n; unfold is_member; by rewrite Em).
  pose proof (wf_removals_sorted _ Hp) as Hsort.
  split.
  - intros n Hn Hm. apply (is_member_iff p) in Hn; [congruence|apply Hp].
  - intros n r _ _ [Hin <-]%(member_removal_Some p n r Hsort). apply Hmr. auto.
  - intros n r _ Hnone [[Hin|(m & Hin & ->)] <-]%Hmr; [|by rewrite Eg].
    exfalso. rewrite (proj2 (member_removal_Some p _ r Hsort)) in Hnone; done.
  - intros n Hn Hm. rewrite Em in Hn. apply (is_member_iff p) in Hn; [congruence|apply Hp].
  - rewrite Eg. assert (any (starts_removal p p') (member_node_ids p) = true) as ->; [|done].
    apply not_false_iff_true. rewrite any_false. intros Hall. destruct removed as [|n l]; [done|].
    destruct (Hrem n) as [Hmem Hnot]; [by left|]. specialize (Hall n Hmem). unfold starts_removal, is_none in Hall.
    rewrite Emem, (proj2 (is_member_iff p n (proj2 (proj2 (proj2 (wf_members _ Hp))))) Hmem) in Hall.
    rewrite (proj2 (Hmr n (NodePoolMemberRemoval.Mk n (p.(member_removal_generation) + 1) at'))) in Hall
      by (split; [right; exists n; split; [by left|done]|done]).
    destruct (member_removal p n) as [r|] eqn:E; [|done]. apply Hnot.
    apply member_removal_is_some; [done|]. by rewrite E.
  - lia.
Qed.

Lemma lawful_complete p p' i j r :
  wf p -> wf p' -> (p.(member_removal_generation) <= u64_max)%N ->
  p.(member_removals) !! i = Some r ->
  p.(member_node_ids) !! j = Some r.(NodePoolMemberRemoval.node_id) ->
  p'.(member_removals) = delete i p.(member_removals) ->
  p'.(member_node_ids) = delete j p.(member_node_ids) ->
  p'.(member_removal_generation) = p.(member_removal_generation) -> lawful p p'.
Proof.
  intros Hp Hp' Hmax Hi Hj Er Em Eg.
  pose proof (delete_Permutation _ _ _ Hi) as Pi. pose proof (delete_Permutation _ _ _ Hj) as Pj.
  pose proof (wf_removals_sorted _ Hp) as Hsort. pose proof (wf_removals_sorted _ Hp') as Hsort'.
  assert (forall n, is_member p n = true <-> n ∈ p.(member_node_ids)) as Hmp by (intros n; apply is_member_iff, Hp).
  assert (forall n, is_member p' n = true <-> n ∈ p'.(member_node_ids)) as Hmp' by (intros n; apply is_member_iff, Hp').
  assert (forall n x, member_removal p' n = Some x -> member_removal p n = Some x) as Hback.
  { intros n x [Hin <-]%(member_removal_Some p' n x Hsort'). apply member_removal_Some; [done|].
    split; [|done]. rewrite Pi. right. by rewrite Er in Hin. }
  assert (any (starts_removal p p') (member_node_ids p) = false) as Hany.
  { apply any_false. intros n _. unfold starts_removal, is_none.
    destruct (member_removal p' n) as [x|] eqn:E; [|by rewrite andb_false_r].
    rewrite (Hback n x E). by rewrite andb_false_r. }
  split.
  - intros n Hn Hm. assert (n = r.(NodePoolMemberRemoval.node_id)) as ->.
    { rewrite Pj in Hn. apply elem_of_cons in Hn as [?|Hn]; [done|]. exfalso.
      rewrite <- Em in Hn. apply Hmp' in Hn. congruence. }
    by rewrite (proj2 (member_removal_Some p _ r Hsort) (conj (list_elem_of_lookup_2 _ _ _ Hi) eq_refl)).
  - intros n x Hn Hm [Hin <-]%(member_removal_Some p n x Hsort). apply member_removal_Some; [done|].
    split; [|done]. rewrite Er. rewrite Pi in Hin. apply elem_of_cons in Hin as [->|?]; [|done]. exfalso.
    apply Hmp' in Hm. rewrite Em in Hm.
    pose proof (sorted_ids_NoDup _ (proj2 (proj2 (proj2 (wf_members _ Hp))))) as Hnd.
    rewrite Pj, NoDup_cons in Hnd. tauto.
  - intros n x _ Hnone Hsome%Hback. congruence.
  - intros n Hn Hm. exfalso. apply not_true_iff_false in Hm. apply Hm, Hmp. rewrite Pj. right. by rewrite Em in Hn.
  - rewrite Hany. lia.
  - lia.
Qed.

(** *** Every call *)
Definition outcome {A} (p p' : NodePool.t) (r : result A) : Prop :=
  (is_ok r = false /\ p' = p)
  \/ (is_ok r = true /\ (p' = p \/ (wf p' /\ succeeds p p' /\ lawful p p'))).

Lemma targets_checked p targets :
  wf p -> any (fun n => negb (is_member p n)) targets = false ->
  any (fun n => is_some (member_removal p n)) targets = false ->
  forall n, n ∈ targets ->
    n ∈ p.(member_node_ids) /\ n ∉ NodePoolMemberRemoval.node_id <$> p.(member_removals).
Proof.
  intros Hp H1 H2 n Hn. rewrite any_false in H1, H2. specialize (H1 n Hn). specialize (H2 n Hn).
  apply negb_false_iff in H1. split; [by apply is_member_iff in H1; [|apply Hp]|].
  intros Hin%member_removal_is_some; [congruence|apply Hp].
Qed.

Lemma bind_unit (m : method NodePool.t unit) q : m q = (m ;; mret tt) q.
Proof. unfold mbind, method_bind. by destruct (m q) as [? [[]|]]. Qed.

Lemma bind_modify_then {A} (f : NodePool.t -> NodePool.t) (k : method NodePool.t A) q :
  (modify f ;; k) q = k (f q).
Proof. reflexivity. Qed.

(** [finish_spec] for a change that keeps the identity of the pool. *)
Lemma finish_outcome {A} at' (k : method NodePool.t A) (a : A) (change : NodePool.t -> NodePool.t) p p' r :
  (forall q, k q = (refresh_and_validate ;; mret a) (change q)) ->
  ((p.(updated_at) <= canonical_timestamp at')%Z -> content_wf (change (advanced p at'))) ->
  (let q := change (advanced p at') in
   q.(aggregate_version) = (p.(aggregate_version) + 1)%N /\ q.(id) = p.(id)
   /\ q.(organization_id) = p.(organization_id) /\ q.(name) = p.(name)
   /\ q.(created_at) = p.(created_at) /\ q.(updated_at) = canonical_timestamp at') ->
  (forall d, let p' := (change (advanced p at')) <| spec_digest := d |> in wf p' -> lawful p p') ->
  (advance at' ;; k) p = (p', r) -> outcome p p' r.
Proof.
  intros Hk Hc (Ev & Ei & Eo & En & Ec & Eu) Hlaw Hs.
  apply (finish_spec _ _ _ _ _ _ _ Hk Hc) in Hs as [?|(-> & Ht & Hv & d & -> & Hw)]; [by left|].
  right. split; [done|]. right. split; [done|]. split; [|by apply Hlaw].
  unfold succeeds. cbn. rewrite Ev, Ei, Eo, En, Ec, Eu. done.
Qed.

Ltac rejected Hs := injection Hs as <- <-; left; done.

Lemma add_members_outcome p ids at' p' r :
  wf p -> in_u64 p.(member_removal_generation) -> add_members ids at' p = (p', r) -> outcome p p' r.
Proof.
  intros Hp Hmax Hs. unfold add_members in Hs. rewrite bind_lift in Hs.
  destruct (canonical_node_ids ids _ _) as [additions|e] eqn:Ea; [|rejected Hs].
  apply canonical_node_ids_Ok in Ea as [Hadd _]. rewrite bind_get, if_app in Hs. cbv zeta in Hs.
  destruct (any _ additions); [rejected Hs|]. rewrite if_app in Hs.
  destruct (_ <? _)%N eqn:Elen; [rejected Hs|]. apply N.ltb_ge in Elen. rewrite if_app in Hs.
  destruct (bool_decide _); [injection Hs as <- <-; right; auto|].
  apply (finish_outcome at' _ tt (fun q => q <| member_node_ids :=
    dedup (sort_ids (p.(member_node_ids) ++ additions)) |>)) in Hs; [done|..].
  - intros q. rewrite bind_modify_then. apply bind_unit.
  - intros Ht. by apply (add_members_wf p at' additions).
  - done.
  - intros d q Hw. apply lawful_same_removals; try done.
    intros n Hn. cbn. apply canonical_ids_spec, elem_of_app. by left.
Qed.

(** The pool after [request_member_removal] of the canonical set [removed]. *)
Definition removal_requested (p : NodePool.t) (removed : list NodeId) (at' : Time) : NodePool.t :=
  let g := (p.(member_removal_generation) + 1)%N in
  (advanced p at') <| member_removal_generation := g |>
    <| member_removals := removals_requested removed g (canonical_timestamp at') p |>
    <| maintenance := without_targets removed <$> p.(maintenance) |>.

Lemma request_removal_cases p ids at' p' r :
  wf p -> request_member_removal ids at' p = (p', r) ->
  (is_ok r = false /\ p' = p)
  \/ exists removed d,
     r = Ok (p.(member_removal_generation) + 1)%N /\ p' = (removal_requested p removed at') <| spec_digest := d |>
     /\ wf p' /\ (p.(aggregate_version) + 1 <= u64_max)%N /\ (p.(updated_at) <= canonical_timestamp at')%Z
     /\ (p.(member_removal_generation) + 1 <= u64_max)%N /\ removed <> [] /\ sorted_ids removed
     /\ (forall n, n ∈ removed <-> n ∈ ids)
     /\ forall n, n ∈ removed ->
          n ∈ p.(member_node_ids) /\ n ∉ NodePoolMemberRemoval.node_id <$> p.(member_removals).
Proof.
  intros Hp Hs. unfold request_member_removal in Hs. rewrite bind_lift in Hs.
  destruct (canonical_node_ids ids _ _) as [removed|e] eqn:Ea; [|rejected Hs].
  apply canonical_node_ids_Ok in Ea as [Hcan Hids]. rewrite bind_get, if_app in Hs. cbv zeta in Hs.
  destruct (any _ removed) eqn:E1; [rejected Hs|]. rewrite if_app in Hs.
  destruct (any (fun node_id => is_some _) removed) eqn:E2; [rejected Hs|]. rewrite if_app in Hs.
  destruct (_ <=? _)%N eqn:E3; [rejected Hs|]. apply N.leb_gt in E3. rewrite if_app in Hs.
  destruct (is_some_and _ _) eqn:E4; [rejected Hs|]. rewrite bind_lift in Hs.
  destruct (ok_or _ _) as [g|e] eqn:Eg; [|rejected Hs]. apply ok_or_Ok, checked_add_Some in Eg as [-> Hmax].
  pose proof (targets_checked p removed Hp E1 E2) as Hrem.
  apply (finish_spec _ _ (p.(member_removal_generation) + 1)%N
    (fun q => q <| member_removal_generation := (p.(member_removal_generation) + 1)%N |>
                <| member_removals := removals_requested removed (p.(member_removal_generation) + 1)
                                        (canonical_timestamp at') q |>
                <| maintenance := without_targets removed <$> p.(maintenance) |>)) in Hs.
  - destruct Hs as [?|(-> & Ht & Hv & d & -> & Hw)]; [by left|]. right. exists removed, d.
    rewrite canonical_timestamp_idemp in Ht. unfold advanced in Hw |- *. rewrite canonical_timestamp_idemp in Hw |- *.
    destruct Hcan as (? & _ & _ & ?). by split_and!.
  - intros q. by rewrite !bind_modify_then.
  - intros Ht. rewrite canonical_timestamp_idemp in Ht.
    unfold advanced. rewrite canonical_timestamp_idemp.
    apply (request_removal_wf p at' removed); try done. intros w Ew. by rewrite Ew in E4.
Qed.

Lemma request_removal_outcome p ids at' p' r :
  wf p -> request_member_removal ids at' p = (p', r) -> outcome p p' r.
Proof.
  intros Hp [?|(removed & d & -> & -> & Hw & Hv & Ht & Hg & Hne & Hs & _ & Hrem)]%request_removal_cases;
    [by left| |done].
  right. split; [done|]. right. split; [done|]. split; [done|].
  by apply (lawful_request p _ (canonical_timestamp at') removed).
Qed.

Lemma complete_removal_outcome p n g at' p' r :
  wf p -> in_u64 p.(member_removal_generation) -> complete_member_removal n g at' p = (p', r) -> outcome p p' r.
Proof.
  intros Hp Hmax Hs. unfold complete_member_removal in Hs. rewrite bind_get, bind_lift in Hs.
  destruct (ok_or (list_find _ _) _) as [[i x]|e] eqn:Ei; [|rejected Hs].
  apply ok_or_Ok, list_find_Some in Ei as (Hi & [<- <-] & _). rewrite bind_lift in Hs.
  destruct (ok_or _ _) as [j|e] eqn:Ej; [|rejected Hs].
  apply ok_or_Ok, binary_search_by_Some in Ej as (m & Hj & Em%cmp_eq). subst m. rewrite if_app in Hs.
  destruct (_ =? _)%N eqn:E1; [rejected Hs|]. apply N.eqb_neq in E1.
  apply (finish_outcome _ _ tt (fun q => q <| member_removals := delete i q.(member_removals) |>
    <| member_node_ids := delete j q.(member_node_ids) |>)) in Hs; [done|..].
  - intros q. rewrite !bind_modify_then. apply bind_unit.
  - intros Ht. by apply (complete_removal_wf p at' i j x).
  - done.
  - intros d q Hw. by apply (lawful_complete p q i j x).
Qed.

Lemma schedule_outcome p targets starts ends why at' p' r :
  wf p -> in_u64 p.(member_removal_generation) ->
  schedule_maintenance targets starts ends why at' p = (p', r) -> outcome p p' r.
Proof.
  intros Hp Hmax Hs. unfold schedule_maintenance in Hs. cbv zeta in Hs. rewrite if_app in Hs.
  destruct (_ <? _)%Z eqn:E1; [rejected Hs|]. rewrite if_app in Hs.
  destruct (_ + _ <? _)%Z eqn:E2; [rejected Hs|]. rewrite if_app in Hs.
  destruct (_ || _) eqn:E3; [rejected Hs|]. apply orb_false_iff in E3 as [E3%Z.leb_gt E4%Z.ltb_ge].
  rewrite bind_lift in Hs. destruct (canonical_node_ids targets _ _) as [ids|e] eqn:Ea; [|rejected Hs].
  apply canonical_node_ids_Ok in Ea as [Hcan _]. rewrite bind_get, if_app in Hs.
  destruct (any _ ids) eqn:E5; [rejected Hs|]. rewrite if_app in Hs.
  destruct (any (fun node_id => is_some _) ids) eqn:E6; [rejected Hs|]. rewrite bind_lift in Hs.
  destruct (bounded_reason why) as [text|e] eqn:Et; [|rejected Hs]. apply bounded_reason_idemp in Et.
  rewrite bind_lift in Hs. destruct (match maintenance p with Some _ => _ | None => _ end) as [g|e] eqn:Eg; [|rejected Hs].
  assert (g <> 0%N) as Hg.
  { destruct (maintenance p); [apply ok_or_Ok, checked_add_Some in Eg as [-> _]; lia|by injection Eg as <-]. }
  apply (finish_outcome _ _ tt (fun q => q <| maintenance := Some
    (NodePoolMaintenanceWindow.Mk g ids (canonical_timestamp starts) (canonical_timestamp ends) text None) |>))
    in Hs; [done|..].
  - intros q. rewrite bind_modify_then. apply bind_unit.
  - intros Ht. apply schedule_wf; try done. by apply targets_checked.
  - done.
  - intros d q Hw. by apply lawful_same_removals.
Qed.

Lemma cancel_outcome p g at' p' r :
  wf p -> in_u64 p.(member_removal_generation) -> cancel_maintenance g at' p = (p', r) -> outcome p p' r.
Proof.
  intros Hp Hmax Hs. unfold cancel_maintenance in Hs. rewrite bind_get, bind_lift in Hs.
  destruct (ok_or _ _) as [w|e] eqn:Ew; [|rejected Hs]. apply ok_or_Ok in Ew. rewrite if_app in Hs.
  destruct (_ || _); [rejected Hs|]. rewrite if_app in Hs.
  destruct (is_some _); [injection Hs as <- <-; right; auto|]. cbv zeta in Hs. rewrite if_app in Hs.
  destruct (_ <=? _)%Z eqn:E1; [rejected Hs|]. apply Z.leb_gt in E1.
  apply (finish_outcome _ _ tt (fun q => q <| maintenance := (fun w => w <|
    NodePoolMaintenanceWindow.cancelled_at := Some (canonical_timestamp at') |>) <$> q.(maintenance) |>))
    in Hs; [done|..].
  - intros q. rewrite bind_modify_then. apply bind_unit.
  - intros Ht. rewrite canonical_timestamp_idemp in Ht. unfold advanced. rewrite canonical_timestamp_idemp.
    by apply (cancel_wf p at' w).
  - done.
  - intros d q Hw. by apply lawful_same_removals.
Qed.

Lemma step_outcome o p p' r :
  wf p -> in_u64 p.(member_removal_generation) -> step o p = (p', r) -> outcome p p' r.
Proof.
  intros Hp Hmax. destruct o; cbn [step].
  - by apply add_members_outcome.
  - intros Hs. destruct (request_member_removal ids at' p) as [q rq] eqn:E.
    pose proof (request_removal_outcome _ _ _ _ _ Hp E) as Ho. unfold mbind, method_bind in Hs.
    rewrite E in Hs. destruct rq; injection Hs as <- <-; exact Ho.
  - by apply complete_removal_outcome.
  - by apply schedule_outcome.
  - by apply cancel_outcome.
Qed.

(** ** Pools of the system *)
Inductive reachable : NodePool.t -> Prop :=
| reach_create id org name ids at' p : create id org name ids at' = Ok p -> reachable p
| reach_change p o : reachable p -> reachable (step o p).1.

Lemma create_wf id org name ids at' p : create id org name ids at' = Ok p -> wf p /\ p.(member_removal_generation) = 0%N.
Proof.
  unfold create. rewrite result_bind_Ok. intros (members & _ & Hs).
  rewrite result_bind_Ok in Hs. destruct Hs as (d & _ & Hs). rewrite then_Ok in Hs.
  destruct Hs as [Hv%validate_Ok_wf [= <-]]. done.
Qed.

Lemma reachable_wf p : reachable p -> wf p /\ in_u64 p.(member_removal_generation).
Proof.
  induction 1 as [id org name ids at' p Hc|p o Hr [Hw Hu]].
  - apply create_wf in Hc as [Hw ->]. split; [done|]. unfold in_u64. lia.
  - destruct (step o p) as [p' r] eqn:E. cbn. apply step_outcome in E as [[_ ->]|[_ [->|(? & _ & ?)]]]; try done.
    split; [done|]. by eapply law_bound.
Qed.

Lemma wf_active_member p : wf p -> exists n, n ∈ p.(member_node_ids) /\ member_removal p n = None.
Proof.
  intros Hp. pose proof (wf_removals_sorted _ Hp) as Hs.
  destruct (decide (Exists (fun n => member_removal p n = None) p.(member_node_ids))) as [He|Hn].
  { apply Exists_exists in He. done. }
  exfalso. rewrite <- Forall_Exists_neg, Forall_forall in Hn.
  pose proof (wf_count _ Hp) as Hc. apply N.lt_nge in Hc. apply Hc.
  transitivity (len (NodePoolMemberRemoval.node_id <$> p.(member_removals))).
  - apply subset_length; [apply sorted_ids_NoDup, Hp|]. intros n Hin. apply member_removal_is_some; [done|].
    specialize (Hn n Hin). by destruct (member_removal p n).
  - unfold len. rewrite length_fmap. done.
Qed.

(** every node pool the system can hold, from [NodePool::create] through any sequence of
    accepted or rejected changes, satisfies [validate], and keeps at least one member whose removal
    is not pending. *)
Theorem node_pool_reachable_valid p :
  reachable p ->
  validate p = Ok tt /\ exists n, is_member p n = true /\ member_removal p n = None.
Proof.
  intros [Hw _]%reachable_wf. split; [by apply validate_Ok_wf|].
  destruct (wf_active_member p Hw) as (n & Hn & Hr). exists n. split; [|done]. apply is_member_iff; [apply Hw|done].
Qed.

(** C36: a change of a node pool that fails leaves the pool as it was, although the source validates
    only after it has changed the fields; one that succeeds is either a no-op or advances the version
    by one and passes the repository's [validate_successor] check against the pool it started from. *)
Theorem node_pool_change_accepted p o p' r :
  reachable p -> step o p = (p', r) ->
  (is_ok r = false /\ p' = p)
  \/ (is_ok r = true /\ (p' = p \/ validate_successor p' p p.(aggregate_version) = Ok tt)).
Proof.
  intros [Hw Hu]%reachable_wf Hs. apply step_outcome in Hs as [?|[? [?|(_ & ? & ?)]]]; auto.
  right. split; [done|]. right. by apply validate_successor_lawful.
Qed.

(** a node that is in active maintenance is a member of the pool that is not leaving it. *)
Theorem node_pool_maintenance_excludes_removal p n now :
  reachable p -> node_is_in_active_maintenance p n now = true ->
  is_member p n = true /\ member_removal p n = None.
Proof.
  intros [Hp _]%reachable_wf Ha. unfold node_is_in_active_maintenance in Ha.
  destruct (maintenance p) as [w|] eqn:Ew; [|done]. cbn in Ha. apply andb_true_iff in Ha as [_ Hin].
  destruct (wf_window _ Hp w Ew) as [_ (_ & Hcs & Hall)].
  destruct (decide (w.(NodePoolMaintenanceWindow.target_node_ids) = [])) as [E|E]; [by rewrite E in Hin|].
  destruct (Hcs E) as (_ & _ & _ & Hs). apply (binary_search_iff n _ Hs) in Hin.
  destruct (Hall n Hin) as [Hm Hnot]. split; [apply is_member_iff; [apply Hp|done]|].
  apply eq_None_not_Some. intros [x Hx]. apply Hnot, member_removal_is_some; [apply Hp|]. by rewrite Hx.
Qed.

(** A pending removal can always be completed. *)
Lemma complete_pending p n x t :
  wf p -> member_removal p n = Some x ->
  (p.(updated_at) <= canonical_timestamp t)%Z -> (p.(aggregate_version) + 1 <= u64_max)%N ->
  exists p', complete_member_removal n x.(NodePoolMemberRemoval.generation) t p = (p', Ok tt) /\ wf p'
    /\ (forall m, m ∈ p'.(member_node_ids) <-> m ∈ p.(member_node_ids) /\ m <> n)
    /\ (forall y, y ∈ p'.(member_removals) <-> y ∈ p.(member_removals) /\ y.(NodePoolMemberRemoval.node_id) <> n).
Proof.
  intros Hp [Hx <-]%member_removal_Some Ht Hv; [|apply Hp].
  pose proof (wf_removals_sorted _ Hp) as Hsr. pose proof (wf_members _ Hp) as (_ & _ & _ & Hsm).
  pose proof (key_lt_NoDup _ _ Hsr) as Hndr. pose proof (sorted_ids_NoDup _ Hsm) as Hndm.
  pose proof (wf_removals _ Hp) as Hall. eapply Forall_forall in Hall as (_ & _ & _ & _ & Hmem); [|exact Hx].
  unfold complete_member_removal. rewrite bind_get, bind_lift.
  destruct (list_find _ _) as [[i y]|] eqn:Ei.
  2: { apply list_find_None in Ei. eapply Forall_forall in Ei; [|exact Hx]. by destruct Ei. }
  apply list_find_Some in Ei as (Hi & [En Eg] & _).
  assert (y = x) as ->.
  { apply list_elem_of_lookup in Hx as [k Hk]. assert (i = k) as ->; [|congruence].
    eapply (NoDup_lookup (NodePoolMemberRemoval.node_id <$> p.(member_removals))); [done|..];
      rewrite list_lookup_fmap; [by rewrite Hi|rewrite Hk; cbn; by rewrite En]. }
  cbn [ok_or]. rewrite bind_lift. destruct (binary_search _ _) as [j|] eqn:Ej.
  2: { apply (binary_search_iff _ _ Hsm) in Hmem. by rewrite Ej in Hmem. }
  apply binary_search_by_Some in Ej as (m & Hj & Em%cmp_eq). subst m. cbn [ok_or]. rewrite if_app.
  assert (len p.(member_node_ids) <> 1%N) as Hone.
  { pose proof (wf_count _ Hp) as Hc. apply lookup_lt_Some in Hi. unfold len in *. lia. }
  rewrite (proj2 (N.eqb_neq _ _) Hone).
  destruct (advance t p) as [q rq] eqn:Ea.
  assert (rq = Ok tt /\ q = advanced p t) as [-> ->].
  { unfold advance in Ea. rewrite bind_get, if_app, (proj2 (Z.ltb_ge _ _) Ht), bind_lift in Ea.
    rewrite (proj2 (checked_add_Some _ _ _) (conj eq_refl Hv)) in Ea. by injection Ea as <- <-. }
  rewrite (bind_known _ _ _ _ _ Ea), !bind_modify_then.
  destruct (refresh_and_validate_ok _ (complete_removal_wf p t i j x Hp Ht Hi Hj Hone)) as (d & Hd & Hw).
  eexists. split; [exact Hd|]. split; [exact Hw|]. cbn.
  pose proof (delete_Permutation _ _ _ Hi) as Pi. pose proof (delete_Permutation _ _ _ Hj) as Pj.
  rewrite Pj, NoDup_cons in Hndm. rewrite Pi, fmap_cons, NoDup_cons in Hndr. split.
  - intros m. setoid_rewrite Pj at 2. rewrite elem_of_cons. split; [|tauto].
    intros Hm. split; [by right|]. intros ->. tauto.
  - intros y. setoid_rewrite Pi at 2. rewrite elem_of_cons. split.
    + intros Hy. split; [by right|]. intros E. destruct Hndr as [Hno _]. apply Hno. rewrite <- E.
      by apply list_elem_of_fmap_2.
    + intros [[->|?] Hne]; [done|done].
Qed.

(** member removal is a two-phase protocol that can always be finished: when a removal request
    succeeds, the nodes stay members, each with a pending removal of the returned generation, and
    completing the removal of any of them with that generation at a later time succeeds and removes
    exactly that node (unless the 64-bit version is exhausted). *)
Theorem node_pool_removal_completes p ids at' p' g n t :
  reachable p -> request_member_removal ids at' p = (p', Ok g) -> n ∈ ids ->
  (canonical_timestamp at' <= canonical_timestamp t)%Z -> (p'.(aggregate_version) + 1 <= u64_max)%N ->
  p'.(member_node_ids) = p.(member_node_ids)
  /\ exists p'', complete_member_removal n g t p' = (p'', Ok tt) /\ validate p'' = Ok tt
       /\ member_removal p'' n = None
       /\ forall m, m ∈ p''.(member_node_ids) <-> m ∈ p.(member_node_ids) /\ m <> n.
Proof.
  intros [Hp _]%reachable_wf Hs Hn Ht Hv. apply request_removal_cases in Hs
    as [[? _]|(removed & d & [= ->] & -> & Hw & _ & _ & _ & _ & _ & Hids & _)]; [done| |done].
  split; [done|]. set (q := (removal_requested p removed at') <| spec_digest := d |>) in *.
  set (x := NodePoolMemberRemoval.Mk n (p.(member_removal_generation) + 1) (canonical_timestamp at')).
  assert (member_removal q n = Some x) as Hx.
  { apply member_removal_Some; [apply Hw|]. split; [|done]. apply removals_requested_elem. right.
    exists n. split; [by apply Hids|done]. }
  destruct (complete_pending q n x t Hw Hx Ht Hv) as (p'' & Hc & Hw'' & Hm & Hr).
  exists p''. split; [exact Hc|]. split; [by apply validate_Ok_wf|]. split; [|exact Hm].
  apply eq_None_not_Some. intros [y Hy]. apply member_removal_Some in Hy as [Hy <-]; [|apply Hw''].
  apply Hr in Hy as [_ Hne]. done.
Qed.

End laws.
End pool.
End PoolLifecycle.

(** ** A sample pool *)
Module PoolSamples.
Import PoolLifecycle NodePool Toy.

Definition day : Z := days 1.
Definition sample : NodePool.t :=
  match (name ← ResourceName.parse "gpu pool"; create 7 3 name [5; 2; 9; 2]%N 0) with
  | Ok p => p
  | Err _ => Mk 0 0 (ResourceName.Mk "" "") [] 0 [] None "" 0 0 0
  end.
Definition maintained : NodePool.t :=
  (step (ScheduleMaintenance [2]%N (2 * day) (3 * day) "kernel" day) sample).1.
Definition leaving : NodePool.t := (request_member_removal [9; 5]%N day sample).1.

Lemma sample_reachable : reachable sample.
Proof.
  eapply (reach_create 7%N 3%N (ResourceName.Mk "gpu pool" "gpu pool") [5; 2; 9; 2]%N 0%Z). vm_compute. reflexivity.
Qed.

Lemma maintained_reachable : reachable maintained.
Proof. unfold maintained. apply reach_change, sample_reachable. Qed.

Lemma node_pool_reachable_valid_witness :
  validate maintained = Ok tt /\ exists n, is_member maintained n = true /\ member_removal maintained n = None.
Proof. apply (node_pool_reachable_valid (H0 := toy_external_laws)), maintained_reachable. Defined.

Lemma node_pool_change_accepted_witness :
  (is_ok (step (AddMembers [1]%N day) sample).2 = false /\ (step (AddMembers [1]%N day) sample).1 = sample)
  \/ (is_ok (step (AddMembers [1]%N day) sample).2 = true
      /\ ((step (AddMembers [1]%N day) sample).1 = sample
          \/ validate_successor (step (AddMembers [1]%N day) sample).1 sample sample.(aggregate_version) = Ok tt)).
Proof.
  apply (node_pool_change_accepted (H0 := toy_external_laws) sample (AddMembers [1]%N day));
    [apply sample_reachable|apply surjective_pairing].
Defined.

Lemma node_pool_maintenance_excludes_removal_witness :
  node_is_in_active_maintenance maintained 2 (2 * day) = true
  /\ is_member maintained 2 = true /\ member_removal maintained 2 = None.
Proof.
  split; [vm_compute; reflexivity|].
  apply (node_pool_maintenance_excludes_removal (H0 := toy_external_laws) maintained 2 (2 * day));
    [apply maintained_reachable|vm_compute; reflexivity].
Defined.

Lemma node_pool_removal_completes_witness :
  leaving.(member_node_ids) = sample.(member_node_ids)
  /\ exists p'', complete_member_removal 9 1 day leaving = (p'', Ok tt) /\ validate p'' = Ok tt
       /\ member_removal p'' 9 = None
       /\ forall m, m ∈ p''.(member_node_ids) <-> m ∈ sample.(member_node_ids) /\ m <> 9%N.
Proof.
  apply (node_pool_removal_completes (H0 := toy_external_laws) sample [9; 5]%N day leaving 1 9 day).
  - apply sample_reachable.
  - vm_compute. reflexivity.
  - by left.
  - lia.
  - vm_compute. discriminate.
Defined.

(** The removed node has left, and the other one is still leaving. *)
Example sample_removal :
  let p := (complete_member_removal 9 1 day leaving).1 in
  p.(member_node_ids) = [2; 5]%N /\ is_some (member_removal p 5) = true /\ member_removal p 9 = None.
Proof. vm_compute. auto. Qed.

End PoolSamples.
