(* ===== verification/ClaimRepository.v ===== *)
(** * The repository of resource claims

    [workloads/infrastructure/persistence/in_memory_resource_claims.rs]: the claims of every
    organization and the lease of every slot they hold.  A reservation takes leases, the release of
    a claim gives back the ones it holds exclusively.  [Uuid::new_v4] is the argument [new_v4]: the
    token generated for a slot of a reservation. *)

From Stdlib Require Import ZArith NArith Lia String.
From stdpp Require Import gmap.
From S2P Require Import Prelude RustStd BTreeMap External Text SharedKernel Repositories.
From S2P Require Import Resources NodeInventory NodeClaims Workloads Deployments Replicas ResourceClaims.
Import RepositoryError.

(** ** Errors of a reservation, [workloads/domain/repositories/resource_claim_repository.rs] *)
Definition CAPACITY_UNAVAILABLE_PREFIX : string := "resource capacity unavailable: ".
Definition PLACEMENT_UNAVAILABLE_PREFIX : string := "replica placement unavailable: ".

Definition capacity_unavailable (message : error) : error :=
  Conflict (Error (CAPACITY_UNAVAILABLE_PREFIX ++ message.(template)) message.(args)).
Definition placement_unavailable (message : error) : error :=
  Conflict (Error (PLACEMENT_UNAVAILABLE_PREFIX ++ message.(template)) message.(args)).

(** ** The state *)
Module SlotKey.
Record t := Mk {
  organization_id : OrganizationId;
  node_id : NodeId;
  kind : ResourceKind.t;
  stable_resource_id : string;
}.
#[global] Instance t_eq_dec : EqDecision t.
Proof. solve_decision. Defined.
#[global] Instance kind_countable : Countable ResourceKind.t.
Proof.
  refine (inj_countable ResourceKind.discriminant
    (fun n => List.find (fun k => (ResourceKind.discriminant k =? n)%N)
       [ResourceKind.Cpu; ResourceKind.Memory; ResourceKind.EphemeralStorage; ResourceKind.HostPort;
        ResourceKind.Accelerator; ResourceKind.Volume]) _).
  by intros [].
Defined.
#[global] Instance t_countable : Countable t.
Proof.
  refine (inj_countable' (fun k => (k.(organization_id), k.(node_id), k.(kind), k.(stable_resource_id)))
    (fun '(o, n, k, i) => Mk o n k i) _). by intros [].
Defined.
End SlotKey.

Module SlotLease.
Record t := Mk {
  generation : N;
  fence_token : Uuid;
  active_claim_id : option ResourceClaimId;
}.
#[global] Instance t_eta : Eta t := fun r => Mk r.(generation) r.(fence_token) r.(active_claim_id).
End SlotLease.

Module ClaimState.
Record t := Mk {
  claims : gmap ResourceClaimId ResourceClaim.t;
  slots : gmap SlotKey.t SlotLease.t;
}.
#[global] Instance t_eta : Eta t := fun r => Mk r.(claims) r.(slots).
Definition empty : t := Mk ∅ ∅.
End ClaimState.

#[global] Instance resource_claim_eq_dec : EqDecision ResourceClaim.t.
Proof. solve_decision. Defined.

Module InMemoryResourceClaimRepository.
Import ClaimState.

Section repository.
Context `{External}.

Definition active (claim : ResourceClaim.t) : bool :=
  claim.(ResourceClaim.state) != ResourceClaimState.Released.

(** The key of a slot of a claim. *)
Definition claim_slot_key (claim : ResourceClaim.t) (slot : ResourceSlotBinding.t) : SlotKey.t :=
  {| SlotKey.organization_id := claim.(ResourceClaim.organization_id);
     SlotKey.node_id := claim.(ResourceClaim.node_id);
     SlotKey.kind := slot.(ResourceSlotBinding.kind);
     SlotKey.stable_resource_id := slot.(ResourceSlotBinding.stable_resource_id) |}.

(** ** Capacity shared by several claims *)

(** The fold over the stored allocations of the slot. *)
Fixpoint allocated_total (total : N) (slots : list ResourceSlotBinding.t) : result N :=
  match slots with
  | [] => Ok total
  | slot :: rest =>
    amount ← some_or (ResourceAllocation.scalar_amount slot.(ResourceSlotBinding.allocation))
      (storage_error "stored shared resource claim has a non-scalar allocation");
    total ← some_or (checked_add total amount)
      (storage_error "shared resource allocation total overflowed");
    allocated_total total rest
  end.

(** The slots of the active claims of a node that hold one shared resource. *)
Definition holders (organization_id : OrganizationId) (node_id : NodeId) (kind : ResourceKind.t)
    (stable_resource_id : string) (claims : list ResourceClaim.t) : list ResourceSlotBinding.t :=
  List.filter (fun slot =>
      (slot.(ResourceSlotBinding.kind) == kind)
      && (slot.(ResourceSlotBinding.stable_resource_id) == stable_resource_id))
    (concat (map ResourceClaim.slots
      (List.filter (fun claim =>
          (claim.(ResourceClaim.organization_id) == organization_id)
          && (claim.(ResourceClaim.node_id) == node_id)
          && active claim) claims))).

Definition validate_shared_capacity (state : ClaimState.t) (reservation : ResourceClaimReservation.t)
    (request : ResourceSlotRequest.t) : result unit :=
  let slot_id := FStr request.(ResourceSlotRequest.stable_resource_id) in
  capacity ← some_or
    (slot ← ResourceClaimReservation.inventory_slot reservation.(ResourceClaimReservation.inventory) request;
     ResourceAllocation.scalar_amount slot.(NodeResourceSlot.allocation))
    (Conflict (Error "shared resource slot {} has no scalar inventory capacity" [slot_id]));
  requested ← some_or (ResourceAllocation.scalar_amount request.(ResourceSlotRequest.allocation))
    (Conflict (Error "shared resource slot {} has a non-scalar request" [slot_id]));
  allocated ← allocated_total 0
    (holders reservation.(ResourceClaimReservation.binding).(DeploymentReplicaBinding.organization_id)
       reservation.(ResourceClaimReservation.node_id) request.(ResourceSlotRequest.kind)
       request.(ResourceSlotRequest.stable_resource_id) (values state.(claims)));
  if is_none_or (fun required => (capacity <? required)%N) (checked_add allocated requested)
  then Err (capacity_unavailable
              (Error "shared resource slot {} has insufficient remaining capacity" [slot_id]))
  else Ok tt.

(** ** Reservation *)
Definition request_slot_key (reservation : ResourceClaimReservation.t) (request : ResourceSlotRequest.t) :
    SlotKey.t :=
  {| SlotKey.organization_id :=
       reservation.(ResourceClaimReservation.binding).(DeploymentReplicaBinding.organization_id);
     SlotKey.node_id := reservation.(ResourceClaimReservation.node_id);
     SlotKey.kind := request.(ResourceSlotRequest.kind);
     SlotKey.stable_resource_id := request.(ResourceSlotRequest.stable_resource_id) |}.

(** The body of the loop over the requests. *)
Definition reserve_slot (state : ClaimState.t) (reservation : ResourceClaimReservation.t) (token : Uuid)
    (request : ResourceSlotRequest.t) : result (SlotKey.t * ResourceSlotBinding.t) :=
  let key := request_slot_key reservation request in
  (if ResourceKind.is_shared_capacity request.(ResourceSlotRequest.kind)
   then validate_shared_capacity state reservation request
   else if is_some_and (fun lease => is_some lease.(SlotLease.active_claim_id)) (state.(slots) !! key)
   then Err (capacity_unavailable (Error "hard resource slot {} is already claimed"
               [FStr request.(ResourceSlotRequest.stable_resource_id)]))
   else Ok tt) ;;
  generation ← match state.(slots) !! key with
               | None => Ok 1%N
               | Some lease => some_or (checked_add lease.(SlotLease.generation) 1)
                                 (storage_error "hard resource slot generation overflowed")
               end;
  Ok (key, {| ResourceSlotBinding.kind := request.(ResourceSlotRequest.kind);
              ResourceSlotBinding.stable_resource_id := request.(ResourceSlotRequest.stable_resource_id);
              ResourceSlotBinding.allocation := request.(ResourceSlotRequest.allocation);
              ResourceSlotBinding.slot_generation := generation;
              ResourceSlotBinding.fence_token := token |}).

Fixpoint reserve_slots (state : ClaimState.t) (reservation : ResourceClaimReservation.t)
    (new_v4 : ResourceSlotRequest.t -> Uuid) (requests : list ResourceSlotRequest.t) :
    result (list (SlotKey.t * ResourceSlotBinding.t)) :=
  match requests with
  | [] => Ok []
  | request :: rest =>
    reserved ← reserve_slot state reservation (new_v4 request) request;
    others ← reserve_slots state reservation new_v4 rest;
    Ok (reserved :: others)
  end.

(** Another replica of the workload already holds resources of the node. *)
Definition excluded (state : ClaimState.t) (reservation : ResourceClaimReservation.t) : bool :=
  let binding := reservation.(ResourceClaimReservation.binding) in
  any (fun claim =>
    (claim.(ResourceClaim.organization_id) == binding.(DeploymentReplicaBinding.organization_id))
    && (claim.(ResourceClaim.workload_id) == binding.(DeploymentReplicaBinding.workload_id))
    && (claim.(ResourceClaim.node_id) == reservation.(ResourceClaimReservation.node_id))
    && (claim.(ResourceClaim.replica_id) != binding.(DeploymentReplicaBinding.replica_id))
    && active claim) (values state.(claims)).

(** The lease a reserved slot leaves. *)
Definition new_lease (claim_id : ResourceClaimId) (slot : ResourceSlotBinding.t) : SlotLease.t :=
  {| SlotLease.generation := slot.(ResourceSlotBinding.slot_generation);
     SlotLease.fence_token := slot.(ResourceSlotBinding.fence_token);
     SlotLease.active_claim_id :=
       if ResourceKind.is_shared_capacity slot.(ResourceSlotBinding.kind) then None else Some claim_id |}.

Definition insert_leases (claim_id : ResourceClaimId) (reserved : list (SlotKey.t * ResourceSlotBinding.t))
    (slots : gmap SlotKey.t SlotLease.t) : gmap SlotKey.t SlotLease.t :=
  fold_left (fun slots ks => <[ks.1 := new_lease claim_id ks.2]> slots) reserved slots.

Definition reserve_new_claim (reservation : ResourceClaimReservation.t)
    (new_v4 : ResourceSlotRequest.t -> Uuid) : method ClaimState.t ResourceClaim.t :=
  state ← get;
  if is_some (state.(claims) !! reservation.(ResourceClaimReservation.id))
  then throw IdempotencyConflict
  else if excluded state reservation
  then throw (placement_unavailable
    (Error "required anti-affinity excludes a node with another active Workload replica" []))
  else
    reserved_slots ← lift (reserve_slots state reservation new_v4 reservation.(ResourceClaimReservation.slots));
    claim ← lift (map_err Conflict (ResourceClaim.reserve reservation (map snd reserved_slots)));
    modify (fun state => state <| slots := insert_leases claim.(ResourceClaim.id) reserved_slots state.(slots) |>) ;;
    modify (fun state => state <| claims := <[claim.(ResourceClaim.id) := claim]> state.(claims) |>) ;;
    mret claim.

Fixpoint reserve_members (reservations : list ResourceClaimReservation.t)
    (new_v4 : ResourceClaimReservation.t -> ResourceSlotRequest.t -> Uuid) :
    method ClaimState.t (list ResourceClaim.t) :=
  match reservations with
  | [] => mret []
  | member :: rest =>
    claim ← reserve_new_claim member (new_v4 member);
    claims ← reserve_members rest new_v4;
    mret (claim :: claims)
  end.

(** The members whose claim is already stored, each with it. *)
Definition existing_claims (state : ClaimState.t) (reservations : list ResourceClaimReservation.t) :
    list (ResourceClaimReservation.t * ResourceClaim.t) :=
  omap (fun member => pair member <$> state.(claims) !! member.(ResourceClaimReservation.id)) reservations.

Definition reserve_atomically (reservation : AtomicResourceClaimReservation.t)
    (new_v4 : ResourceClaimReservation.t -> ResourceSlotRequest.t -> Uuid) :
    method ClaimState.t (IdempotentWrite.t (list ResourceClaim.t)) :=
  state ← get;
  let reservations := reservation.(AtomicResourceClaimReservation.reservations) in
  let existing := existing_claims state reservations in
  if negb (is_empty existing) then
    if negb (len existing =? len reservations)%N
       || any (fun mc => negb (reservation_matches mc.1 mc.2)) existing
    then throw IdempotencyConflict
    else mret (IdempotentWrite.Mk (map snd existing) true)
  else
    (* the members are reserved in a copy of the state *)
    match reserve_members reservations new_v4 state with
    | (_, Err e) => throw e
    | (next, Ok claims) => modify (fun _ => next) ;; mret (IdempotentWrite.Mk claims false)
    end.

Definition reserve (reservation : ResourceClaimReservation.t)
    (new_v4 : ResourceClaimReservation.t -> ResourceSlotRequest.t -> Uuid) :
    method ClaimState.t (IdempotentWrite.t ResourceClaim.t) :=
  batch ← lift (map_err Conflict (AtomicResourceClaimReservation.single reservation));
  result ← reserve_atomically batch new_v4;
  match result.(IdempotentWrite.value) with
  | [claim] => mret (IdempotentWrite.Mk claim result.(IdempotentWrite.replayed))
  | _ => throw (storage_error "single resource reservation returned an invalid Claim count")
  end.

(** ** Transitions of a stored claim *)

(** The slot is still leased the way the claim holds it. *)
Definition identity_matches (claim : ResourceClaim.t) (slot : ResourceSlotBinding.t) (lease : SlotLease.t) : bool :=
  if ResourceKind.is_shared_capacity slot.(ResourceSlotBinding.kind) then
    (slot.(ResourceSlotBinding.slot_generation) <=? lease.(SlotLease.generation))%N
    && ((lease.(SlotLease.generation) != slot.(ResourceSlotBinding.slot_generation))
        || (lease.(SlotLease.fence_token) == slot.(ResourceSlotBinding.fence_token)))
    && is_none lease.(SlotLease.active_claim_id)
  else
    (lease.(SlotLease.active_claim_id) == Some claim.(ResourceClaim.id))
    && (lease.(SlotLease.generation) == slot.(ResourceSlotBinding.slot_generation))
    && (lease.(SlotLease.fence_token) == slot.(ResourceSlotBinding.fence_token)).

Definition check_lease (state : ClaimState.t) (claim : ResourceClaim.t) (slot : ResourceSlotBinding.t) : result unit :=
  lease ← some_or (state.(slots) !! claim_slot_key claim slot)
    (storage_error "resource claim references a missing slot lease");
  if negb (identity_matches claim slot lease)
  then Err (storage_error "resource claim slot lease fencing identity is inconsistent")
  else Ok tt.

(** The second loop: the exclusive leases are given back, the shared ones are skipped. *)
Fixpoint free_slots (claim : ResourceClaim.t) (claim_slots : list ResourceSlotBinding.t) : method ClaimState.t unit :=
  match claim_slots with
  | [] => mret tt
  | slot :: rest =>
    (if ResourceKind.is_shared_capacity slot.(ResourceSlotBinding.kind) then mret tt
     else
       let key := claim_slot_key claim slot in
       state ← get;
       lease ← lift (some_or (state.(slots) !! key)
         (storage_error "verified resource claim slot lease disappeared before release"));
       modify (fun state => state <| slots :=
         <[key := lease <| SlotLease.active_claim_id := None |>]> state.(slots) |>)) ;;
    free_slots claim rest
  end.

Definition release_slots (claim : ResourceClaim.t) : method ClaimState.t unit :=
  state ← get;
  lift (for_each (check_lease state claim) claim.(ResourceClaim.slots)) ;;
  free_slots claim claim.(ResourceClaim.slots).

Definition version_conflict (expected actual : N) : error :=
  Conflict (Error "resource claim changed from expected version {expected} to {actual}" [FNum expected; FNum actual]).

Definition stored (state : ClaimState.t) (organization_id : OrganizationId) (claim_id : ResourceClaimId) :
    option ResourceClaim.t :=
  claim ← state.(claims) !! claim_id;
  if claim.(ResourceClaim.organization_id) == organization_id then Some claim else None.

Definition mutate (organization_id : OrganizationId) (claim_id : ResourceClaimId) (expected_version : N)
    (transition : method ResourceClaim.t unit) : method ClaimState.t ResourceClaim.t :=
  state ← get;
  current ← lift (some_or (stored state organization_id claim_id) NotFound);
  let next := run_state transition current in
  lift (map_err Conflict (run_result transition current)) ;;
  if next == current then mret current
  else if current.(ResourceClaim.aggregate_version) != expected_version
  then throw (version_conflict expected_version current.(ResourceClaim.aggregate_version))
  else
    (if next.(ResourceClaim.state) == ResourceClaimState.Released then release_slots next else mret tt) ;;
    modify (fun state => state <| claims := <[claim_id := next]> state.(claims) |>) ;;
    mret next.

Definition has_active_claims (organization_id : OrganizationId) (node_id : NodeId) (state : ClaimState.t) :
    result bool :=
  if is_nil node_id then Err (conflict_error "resource claim node is invalid")
  else Ok (any (fun claim =>
         (claim.(ResourceClaim.organization_id) == organization_id)
         && (claim.(ResourceClaim.node_id) == node_id)
         && active claim) (values state.(claims))).

Definition find (organization_id : OrganizationId) (claim_id : ResourceClaimId) (state : ClaimState.t) :
    result ResourceClaim.t :=
  some_or (stored state organization_id claim_id) NotFound.

Definition begin_preparation organization_id claim_id expected_version (command_id : NodeCommandId) (at' : Time) :=
  mutate organization_id claim_id expected_version (ResourceClaim.begin_preparation command_id at').
Definition record_prepared organization_id claim_id expected_version (command_id : NodeCommandId)
    (binding_digest : string) (at' : Time) :=
  mutate organization_id claim_id expected_version (ResourceClaim.record_prepared command_id binding_digest at').
Definition bind organization_id claim_id expected_version (evidence : ResourceClaimBindingEvidence.t) (at' : Time) :=
  mutate organization_id claim_id expected_version (ResourceClaim.bind evidence at').
Definition begin_release organization_id claim_id expected_version (command_id : NodeCommandId) (at' : Time) :=
  mutate organization_id claim_id expected_version (ResourceClaim.begin_release command_id at').
Definition record_released organization_id claim_id expected_version (evidence : ResourceClaimReleaseEvidence.t)
    (at' : Time) :=
  mutate organization_id claim_id expected_version (ResourceClaim.record_released evidence at').
Definition cancel_database_reservation organization_id claim_id expected_version (at' : Time) :=
  mutate organization_id claim_id expected_version (ResourceClaim.cancel_database_reservation at').
Definition orphan organization_id claim_id expected_version (failure : string) (at' : Time) :=
  mutate organization_id claim_id expected_version (ResourceClaim.orphan failure at').

End repository.
End InMemoryResourceClaimRepository.
