(* ===== verification/ClaimAllocation.v ===== *)
(** * What the claim repository guarantees

    Every history of [ClaimRepository]: the leases agree with the claims that hold them, so that a
    slot that cannot be shared has one holder, shared capacity is never oversubscribed, a release is
    never refused for a storage reason, and a batch is reserved as a whole.  The abstract view is a
    table of locks, taken all at once and released by their holder only. *)

From Stdlib Require Import ZArith NArith Lia String.
From stdpp Require Import gmap.
From S2P Require Import Prelude RustStd BTreeMap External Text SharedKernel Repositories.
From S2P Require Import Resources NodeInventory NodeClaims Workloads Deployments Replicas ResourceClaims.
From S2P Require Import ResourceClaimLifecycle ClaimRepository.
Import ClaimState InMemoryResourceClaimRepository.

(** ** Histories *)
Section calls.
Context `{External}.

Inductive claim_call :=
| Reserve (reservation : ResourceClaimReservation.t)
    (new_v4 : ResourceClaimReservation.t -> ResourceSlotRequest.t -> Uuid)
| ReserveAtomically (reservation : AtomicResourceClaimReservation.t)
    (new_v4 : ResourceClaimReservation.t -> ResourceSlotRequest.t -> Uuid)
| Transition (organization_id : OrganizationId) (claim_id : ResourceClaimId) (expected_version : N)
    (o : ClaimLifecycle.op).

Definition transition (organization_id : OrganizationId) (claim_id : ResourceClaimId) (expected_version : N)
    (o : ClaimLifecycle.op) : method ClaimState.t ResourceClaim.t :=
  match o with
  | ClaimLifecycle.BeginPreparation command at' => begin_preparation organization_id claim_id expected_version command at'
  | ClaimLifecycle.RecordPrepared command digest at' =>
    record_prepared organization_id claim_id expected_version command digest at'
  | ClaimLifecycle.Bind evidence at' => bind organization_id claim_id expected_version evidence at'
  | ClaimLifecycle.BeginRelease command at' => begin_release organization_id claim_id expected_version command at'
  | ClaimLifecycle.RecordReleased evidence at' => record_released organization_id claim_id expected_version evidence at'
  | ClaimLifecycle.CancelDatabaseReservation at' =>
    cancel_database_reservation organization_id claim_id expected_version at'
  | ClaimLifecycle.Orphan failure at' => orphan organization_id claim_id expected_version failure at'
  end.

Definition perform (c : claim_call) (s : ClaimState.t) : ClaimState.t :=
  match c with
  | Reserve reservation new_v4 => run_state (reserve reservation new_v4) s
  | ReserveAtomically reservation new_v4 => run_state (reserve_atomically reservation new_v4) s
  | Transition organization_id claim_id expected_version o =>
    run_state (transition organization_id claim_id expected_version o) s
  end.

(** A batch can only be built by [AtomicResourceClaimReservation::new].  [P] restricts the
    reservations that are asked for. *)
Definition admitted (P : ResourceClaimReservation.t -> Prop) (c : claim_call) : Prop :=
  match c with
  | Reserve reservation _ => P reservation
  | ReserveAtomically reservation _ =>
    exists members, AtomicResourceClaimReservation.new members = Ok reservation /\ Forall P members
  | Transition _ _ _ _ => True
  end.

Inductive history_under (P : ResourceClaimReservation.t -> Prop) : ClaimState.t -> ClaimState.t -> Prop :=
| history_refl s : history_under P s s
| history_step s s' c : history_under P s s' -> admitted P c -> history_under P s (perform c s').

Definition history : ClaimState.t -> ClaimState.t -> Prop := history_under (fun _ => True).
Definition reachable (s : ClaimState.t) : Prop := history ClaimState.empty s.

Lemma history_weaken (P Q : ResourceClaimReservation.t -> Prop) s s' :
  (forall r, P r -> Q r) -> history_under P s s' -> history_under Q s s'.
Proof.
  intros HPQ. induction 1 as [|s s' c _ IH Hc]; [constructor|]. constructor; [done|].
  destruct c; simpl in *; [auto| |done]. destruct Hc as (l & ? & ?). exists l. split; [done|].
  by eapply Forall_impl.
Qed.

Lemma transition_eq organization_id claim_id expected_version o :
  transition organization_id claim_id expected_version o
  = mutate organization_id claim_id expected_version (ClaimLifecycle.step o).
Proof. by destruct o. Qed.

End calls.

(** ** One reservation *)
Section reservation.
Context `{External}.
Implicit Types (s : ClaimState.t) (r : ResourceClaimReservation.t) (c : ResourceClaim.t).

Definition hard (kind : ResourceKind.t) : Prop := ResourceKind.is_shared_capacity kind = false.

(** What a reserved slot is: the request under a generation the slot never had, and free if it
    cannot be shared. *)
Record slot_reserved s r (new_v4 : ResourceSlotRequest.t -> Uuid) (request : ResourceSlotRequest.t)
    (kb : SlotKey.t * ResourceSlotBinding.t) : Prop := {
  reserved_key : kb.1 = request_slot_key r request;
  reserved_kind : kb.2.(ResourceSlotBinding.kind) = request.(ResourceSlotRequest.kind);
  reserved_id : kb.2.(ResourceSlotBinding.stable_resource_id) = request.(ResourceSlotRequest.stable_resource_id);
  reserved_allocation : kb.2.(ResourceSlotBinding.allocation) = request.(ResourceSlotRequest.allocation);
  reserved_generation : kb.2.(ResourceSlotBinding.slot_generation)
    = match s.(slots) !! kb.1 with Some lease => (lease.(SlotLease.generation) + 1)%N | None => 1%N end;
  reserved_shared : ResourceKind.is_shared_capacity request.(ResourceSlotRequest.kind) = true ->
    validate_shared_capacity s r request = Ok tt;
  reserved_hard : hard request.(ResourceSlotRequest.kind) ->
    forall lease, s.(slots) !! kb.1 = Some lease -> lease.(SlotLease.active_claim_id) = None;
}.

Lemma reserve_slot_Ok s r new_v4 request kb :
  reserve_slot s r (new_v4 request) request = Ok kb -> slot_reserved s r new_v4 request kb.
Proof.
  unfold reserve_slot. rewrite then_Ok. intros [Hcheck Hb].
  rewrite result_bind_Ok in Hb. destruct Hb as (g & Hg & [= <-]). split; simpl; try done.
  - destruct (s.(slots) !! _) as [lease|]; [|by injection Hg as <-].
    apply some_or_Ok, checked_add_Some in Hg as [-> _]. done.
  - intros Hs. by rewrite Hs in Hcheck.
  - intros Hh lease Hl. rewrite Hh, Hl in Hcheck. simpl in Hcheck.
    by destruct (lease.(SlotLease.active_claim_id)).
Qed.

Lemma reserve_slots_Ok s r new_v4 requests reserved :
  reserve_slots s r new_v4 requests = Ok reserved -> Forall2 (slot_reserved s r new_v4) requests reserved.
Proof.
  revert reserved. induction requests as [|q requests IH]; intros reserved; simpl; [intros [= <-]; constructor|].
  intros (kb & Hkb & Hr)%result_bind_Ok. apply result_bind_Ok in Hr as (others & Ho & [= <-]).
  constructor; [by apply reserve_slot_Ok|by apply IH].
Qed.

(** The leases after the loop of inserts. *)
Lemma insert_leases_other claim_id reserved m k :
  k ∉ reserved.*1 -> insert_leases claim_id reserved m !! k = m !! k.
Proof.
  revert m. induction reserved as [|kb reserved IH]; intros m; cbn; [done|].
  rewrite not_elem_of_cons. intros [Hk Hr]. unfold insert_leases in IH. rewrite IH by done.
  by rewrite lookup_insert_ne.
Qed.

Lemma insert_leases_in claim_id reserved m k b :
  NoDup reserved.*1 -> (k, b) ∈ reserved -> insert_leases claim_id reserved m !! k = Some (new_lease claim_id b).
Proof.
  revert m. induction reserved as [|[k' b'] reserved IH]; intros m; cbn; [by intros _ ?%not_elem_of_nil|].
  rewrite NoDup_cons. intros [Hk' Hnd] [[= <- <-]|Hin]%elem_of_cons; [|by apply IH].
  change (insert_leases claim_id reserved (<[k := new_lease claim_id b]> m) !! k = Some (new_lease claim_id b)).
  rewrite insert_leases_other by done. by rewrite lookup_insert_eq.
Qed.

(** The claim of a reservation is new and holds the bindings. *)
Record claim_of r (bindings : list ResourceSlotBinding.t) c : Prop := {
  claim_of_id : c.(ResourceClaim.id) = r.(ResourceClaimReservation.id);
  claim_of_slots : c.(ResourceClaim.slots) = bindings;
  claim_of_active : active c = true;
  claim_of_matches : reservation_matches r c = true;
  claim_of_reachable : ClaimLifecycle.reachable c;
}.

(** A reservation that is granted: the state it leaves. *)
Record reserved_in s r c s' : Prop := {
  granted_fresh : s.(claims) !! c.(ResourceClaim.id) = None;
  granted_claims : s'.(claims) = <[c.(ResourceClaim.id) := c]> s.(claims);
  granted_affinity : excluded s r = false;
  granted_slots : exists new_v4 reserved,
    Forall2 (slot_reserved s r new_v4) r.(ResourceClaimReservation.slots) reserved
    /\ claim_of r (map snd reserved) c
    /\ s'.(slots) = insert_leases c.(ResourceClaim.id) reserved s.(slots);
}.

Lemma reserve_Ok_id r bindings c :
  ResourceClaim.reserve r bindings = Ok c -> c.(ResourceClaim.id) = r.(ResourceClaimReservation.id).
Proof.
  unfold ResourceClaim.reserve. rewrite !then_Ok. intros (_ & _ & _ & Hc).
  rewrite result_bind_Ok in Hc. destruct Hc as (rd & _ & Hc).
  rewrite result_bind_Ok in Hc. destruct Hc as (cd & _ & Hc).
  rewrite then_Ok in Hc. by destruct Hc as [_ [= <-]].
Qed.

Lemma reserve_new_claim_Ok `{!ExternalLaws} r new_v4 s s' c :
  reserve_new_claim r new_v4 s = (s', Ok c) -> reserved_in s r c s'.
Proof.
  intros Hr. unfold reserve_new_claim in Hr. exec_call Hr; try discriminate Hr.
  injection Hr as <- <-.
  rename a into reserved, a0 into c.
  match goal with H : map_err _ _ = Ok _ |- _ => apply map_err_Ok in H as Hc end.
  pose proof (reserve_Ok_id _ _ _ Hc) as Hid.
  destruct (s.(claims) !! r.(ResourceClaimReservation.id)) eqn:Hfresh; [done|].
  split; [by rewrite Hid|done|done|]. exists new_v4, reserved.
  split; [by apply reserve_slots_Ok|]. split; [|done].
  destruct (proj2 (ClaimLifecycle.reserve_spec r (map snd reserved)) c Hc) as (Hm & Hs & Hst & _).
  split; try done.
  - unfold active. by rewrite Hst.
  - by eapply ClaimLifecycle.reach_reserve.
Qed.

Lemma reserve_new_claim_Err r new_v4 s s' e : reserve_new_claim r new_v4 s = (s', Err e) -> s' = s.
Proof. intros Hr. unfold reserve_new_claim in Hr. exec_call Hr; first [discriminate Hr|by injection Hr as <- _]. Qed.

End reservation.

(** ** The claims and the leases agree *)
Section agreement.
Context `{ExternalLaws}.
Implicit Types (s : ClaimState.t) (r : ResourceClaimReservation.t) (c : ResourceClaim.t)
  (b : ResourceSlotBinding.t).

Record leases_ok s : Prop := {
  ok_id : forall id c, s.(claims) !! id = Some c -> c.(ResourceClaim.id) = id;
  ok_claim : forall id c, s.(claims) !! id = Some c -> ClaimLifecycle.reachable c;
  (** a lease remembers the last generation of its slot *)
  ok_leased : forall id c b, s.(claims) !! id = Some c -> b ∈ c.(ResourceClaim.slots) ->
    exists lease, s.(slots) !! claim_slot_key c b = Some lease
      /\ (b.(ResourceSlotBinding.slot_generation) <= lease.(SlotLease.generation))%N
      /\ (lease.(SlotLease.generation) = b.(ResourceSlotBinding.slot_generation) ->
          lease.(SlotLease.fence_token) = b.(ResourceSlotBinding.fence_token))
      /\ (active c = true -> hard b.(ResourceSlotBinding.kind) ->
          lease.(SlotLease.active_claim_id) = Some id
          /\ lease.(SlotLease.generation) = b.(ResourceSlotBinding.slot_generation));
  (** a holder that is recorded does hold the slot *)
  ok_holder : forall k lease id, s.(slots) !! k = Some lease -> lease.(SlotLease.active_claim_id) = Some id ->
    hard k.(SlotKey.kind)
    /\ exists c b, s.(claims) !! id = Some c /\ active c = true /\ b ∈ c.(ResourceClaim.slots)
         /\ claim_slot_key c b = k;
  (** no generation of a slot is given twice *)
  ok_generations : forall id id' c c' b b', s.(claims) !! id = Some c -> s.(claims) !! id' = Some c' ->
    b ∈ c.(ResourceClaim.slots) -> b' ∈ c'.(ResourceClaim.slots) -> claim_slot_key c b = claim_slot_key c' b' ->
    b.(ResourceSlotBinding.slot_generation) = b'.(ResourceSlotBinding.slot_generation) -> id = id';
  (** replicas of a workload are on different nodes *)
  ok_affinity : forall id id' c c', s.(claims) !! id = Some c -> s.(claims) !! id' = Some c' ->
    active c = true -> active c' = true ->
    c.(ResourceClaim.organization_id) = c'.(ResourceClaim.organization_id) ->
    c.(ResourceClaim.workload_id) = c'.(ResourceClaim.workload_id) ->
    c.(ResourceClaim.node_id) = c'.(ResourceClaim.node_id) ->
    c.(ResourceClaim.replica_id) = c'.(ResourceClaim.replica_id);
}.

Lemma leases_ok_empty : leases_ok ClaimState.empty.
Proof. by split; intros *; unfold ClaimState.empty; simpl; rewrite ?lookup_empty. Qed.

(** The slots of a claim have different keys. *)
Lemma claim_keys_NoDup c : ClaimLifecycle.reachable c -> NoDup (claim_slot_key c <$> c.(ResourceClaim.slots)).
Proof.
  intros [Hv _]%ClaimLifecycle.reachable_inv. apply ClaimLifecycle.validate_iff in Hv as ((_&_&_&_&_&Hsl&_)&_).
  apply validate_slot_bindings_Ok in Hsl as (_ & _ & Hs). apply key_lt_NoDup in Hs.
  apply (NoDup_fmap_1 (fun k => (k.(SlotKey.kind), k.(SlotKey.stable_resource_id)))).
  by rewrite <- list_fmap_compose.
Qed.

Lemma matches_claim r c :
  reservation_matches r c = true ->
  c.(ResourceClaim.organization_id) = r.(ResourceClaimReservation.binding).(DeploymentReplicaBinding.organization_id)
  /\ c.(ResourceClaim.workload_id) = r.(ResourceClaimReservation.binding).(DeploymentReplicaBinding.workload_id)
  /\ c.(ResourceClaim.replica_id) = r.(ResourceClaimReservation.binding).(DeploymentReplicaBinding.replica_id)
  /\ c.(ResourceClaim.node_id) = r.(ResourceClaimReservation.node_id).
Proof. unfold reservation_matches. intros Hm. reflect_bools. by destruct_and?. Qed.

(** Every reserved slot answers a request. *)
Lemma reserved_slot_facts s r new_v4 reserved k b :
  Forall2 (slot_reserved s r new_v4) r.(ResourceClaimReservation.slots) reserved -> (k, b) ∈ reserved ->
  exists q, q ∈ r.(ResourceClaimReservation.slots) /\ slot_reserved s r new_v4 q (k, b).
Proof.
  intros Hr Hin. apply list_elem_of_lookup in Hin as [i Hi].
  destruct (Forall2_lookup_r _ _ _ _ _ Hr Hi) as (q & Hq & Hs).
  exists q. split; [by eapply list_elem_of_lookup_2|done].
Qed.

(** The reserved keys are the keys of the new claim. *)
Lemma reserved_keys s r new_v4 reserved c :
  Forall2 (slot_reserved s r new_v4) r.(ResourceClaimReservation.slots) reserved ->
  claim_of r (map snd reserved) c ->
  (forall k b, (k, b) ∈ reserved -> k = claim_slot_key c b /\ b ∈ c.(ResourceClaim.slots))
  /\ (forall b, b ∈ c.(ResourceClaim.slots) -> (claim_slot_key c b, b) ∈ reserved)
  /\ NoDup reserved.*1.
Proof.
  intros Hr [Hid Hs Ha Hm Hc]. destruct (matches_claim _ _ Hm) as (Ho & _ & _ & Hn).
  assert (Hkey : forall k b, (k, b) ∈ reserved -> k = claim_slot_key c b).
  { intros k b Hin. destruct (reserved_slot_facts _ _ _ _ _ _ Hr Hin) as (q & _ & [Hk Hkd Hi' _ _ _ _]).
    simpl in *. unfold claim_slot_key. rewrite Hk, Ho, Hn, Hkd, Hi'. done. }
  split; [|split].
  - intros k b Hin. split; [by apply Hkey|]. rewrite Hs. apply list_elem_of_fmap. by exists (k, b).
  - intros b. rewrite Hs. intros ([k b'] & -> & Hin)%list_elem_of_fmap. simpl. by rewrite <- (Hkey k b').
  - replace (reserved.*1) with (claim_slot_key c <$> c.(ResourceClaim.slots)); [by apply claim_keys_NoDup|].
    rewrite Hs. clear -Hkey. induction reserved as [|[k b] l IH]; [done|]. cbn. f_equal.
    + symmetry. apply Hkey. by left.
    + apply IH. intros k' b' Hin. apply Hkey. by right.
Qed.

(** The leases after a reservation. *)
Lemma granted_new s r c s' b :
  reserved_in s r c s' -> b ∈ c.(ResourceClaim.slots) ->
  s'.(slots) !! claim_slot_key c b = Some (new_lease c.(ResourceClaim.id) b)
  /\ (forall lease, s.(slots) !! claim_slot_key c b = Some lease ->
        b.(ResourceSlotBinding.slot_generation) = (lease.(SlotLease.generation) + 1)%N
        /\ (hard b.(ResourceSlotBinding.kind) -> lease.(SlotLease.active_claim_id) = None)).
Proof.
  intros [_ _ _ (new_v4 & reserved & Hr & Hc & Es)] Hb.
  destruct (reserved_keys _ _ _ _ _ Hr Hc) as (_ & Hin & Hnd). specialize (Hin b Hb). split.
  - rewrite Es. by apply insert_leases_in.
  - intros lease Hl. destruct (reserved_slot_facts _ _ _ _ _ _ Hr Hin) as (q & _ & [_ Hk _ _ Hg _ Hh]).
    cbn [fst snd] in *. rewrite Hl in Hg. split; [done|]. rewrite Hk. intros Hhard. by apply (Hh Hhard).
Qed.

Lemma granted_old s r c s' k :
  reserved_in s r c s' -> k ∉ claim_slot_key c <$> c.(ResourceClaim.slots) -> s'.(slots) !! k = s.(slots) !! k.
Proof.
  intros [_ _ _ (new_v4 & reserved & Hr & Hc & Es)] Hk.
  destruct (reserved_keys _ _ _ _ _ Hr Hc) as (Hin & _ & _).
  rewrite Es. apply insert_leases_other. intros ([k' b] & -> & Hkb)%list_elem_of_fmap. simpl in Hk.
  destruct (Hin k' b Hkb) as [-> Hb]. apply Hk. by apply list_elem_of_fmap_2.
Qed.

Lemma granted_claim s r c s' id c' :
  reserved_in s r c s' -> s'.(claims) !! id = Some c' ->
  (id = c.(ResourceClaim.id) /\ c' = c) \/ (id <> c.(ResourceClaim.id) /\ s.(claims) !! id = Some c').
Proof.
  intros [_ -> _ _] [[<- <-]|[Hne Hl]]%lookup_insert_Some; [by left|]. right. split; [congruence|done].
Qed.

(** What the reservation of a claim finds under a slot of it that another claim holds or held. *)
Lemma granted_behind s r c s' id c' b b' :
  leases_ok s -> reserved_in s r c s' -> s.(claims) !! id = Some c' -> b ∈ c.(ResourceClaim.slots) ->
  b' ∈ c'.(ResourceClaim.slots) -> claim_slot_key c b = claim_slot_key c' b' ->
  (b'.(ResourceSlotBinding.slot_generation) < b.(ResourceSlotBinding.slot_generation))%N
  /\ (hard b.(ResourceSlotBinding.kind) -> active c' = false).
Proof.
  intros Hok Hr Hc' Hb Hb' Ek. destruct (ok_leased s Hok _ _ _ Hc' Hb') as (lease & Hl & Hge & _ & Hact).
  destruct (granted_new _ _ _ _ _ Hr Hb) as [_ Hold]. rewrite <- Ek in Hl. destruct (Hold _ Hl) as [Hg Hh].
  split; [lia|]. intros Hhard. apply not_true_is_false. intros Ha.
  pose proof (f_equal SlotKey.kind Ek) as Hk. cbn in Hk.
  destruct (Hact Ha) as [Hs _]; [by rewrite <- Hk|]. by rewrite (Hh Hhard) in Hs.
Qed.

(** A slot of a claim stays leased to it: what the field [ok_leased] says of one slot. *)
Definition slot_leased s id c b : Prop :=
  exists lease, s.(slots) !! claim_slot_key c b = Some lease
    /\ (b.(ResourceSlotBinding.slot_generation) <= lease.(SlotLease.generation))%N
    /\ (lease.(SlotLease.generation) = b.(ResourceSlotBinding.slot_generation) ->
        lease.(SlotLease.fence_token) = b.(ResourceSlotBinding.fence_token))
    /\ (active c = true -> hard b.(ResourceSlotBinding.kind) ->
        lease.(SlotLease.active_claim_id) = Some id
        /\ lease.(SlotLease.generation) = b.(ResourceSlotBinding.slot_generation)).

Definition slot_held s k id : Prop :=
  hard k.(SlotKey.kind)
  /\ exists c b, s.(claims) !! id = Some c /\ active c = true /\ b ∈ c.(ResourceClaim.slots) /\ claim_slot_key c b = k.

Lemma granted_leased s r c s' id c' b :
  leases_ok s -> reserved_in s r c s' -> s'.(claims) !! id = Some c' -> b ∈ c'.(ResourceClaim.slots) ->
  slot_leased s' id c' b.
Proof.
  intros Hok Hr Hc' Hb. destruct (granted_claim _ _ _ _ _ _ Hr Hc') as [[-> ->]|[_ Hold]].
  { destruct (granted_new _ _ _ _ _ Hr Hb) as [Hl _]. eexists. split; [exact Hl|]. simpl.
    split_and!; try done. intros _ Hh. unfold hard in Hh. by rewrite Hh. }
  destruct (ok_leased s Hok _ _ _ Hold Hb) as (lease & Hl & Hge & Ht & Hact).
  destruct (decide (claim_slot_key c' b ∈ claim_slot_key c <$> c.(ResourceClaim.slots))) as [Hin|Hnin].
  - apply list_elem_of_fmap in Hin as (b0 & Ek & Hb0).
    destruct (granted_new _ _ _ _ _ Hr Hb0) as [Hl' _].
    destruct (granted_behind _ _ _ _ _ _ _ _ Hok Hr Hold Hb0 Hb (eq_sym Ek)) as [Hlt Hna].
    exists (new_lease c.(ResourceClaim.id) b0). rewrite Ek. split; [exact Hl'|]. simpl. split_and!; [lia|lia|].
    intros Hac Hh. rewrite Hna in Hac; [done|]. pose proof (f_equal SlotKey.kind Ek) as Hk. cbn in Hk. by rewrite <- Hk.
  - exists lease. rewrite (granted_old _ _ _ _ _ Hr Hnin). done.
Qed.

Lemma granted_held s r c s' k lease id :
  leases_ok s -> reserved_in s r c s' -> active c = true ->
  s'.(slots) !! k = Some lease -> lease.(SlotLease.active_claim_id) = Some id -> slot_held s' k id.
Proof.
  intros Hok Hr Ha Hl Hid.
  destruct (decide (k ∈ claim_slot_key c <$> c.(ResourceClaim.slots))) as [Hin|Hnin].
  - apply list_elem_of_fmap in Hin as (b & -> & Hb). destruct (granted_new _ _ _ _ _ Hr Hb) as [Hl' _].
    rewrite Hl' in Hl. injection Hl as <-. simpl in Hid. unfold slot_held, hard. simpl.
    destruct (ResourceKind.is_shared_capacity _) eqn:Hs; [done|]. injection Hid as <-. split; [done|].
    exists c, b. split_and!; try done. rewrite (granted_claims _ _ _ _ Hr). by rewrite lookup_insert_eq.
  - rewrite (granted_old _ _ _ _ _ Hr Hnin) in Hl.
    destruct (ok_holder s Hok _ _ _ Hl Hid) as (Hh & c' & b & Hc' & Hac & Hb & Hk). split; [done|].
    exists c', b. split_and!; try done. rewrite (granted_claims _ _ _ _ Hr), lookup_insert_ne; [done|].
    intros E. pose proof (granted_fresh _ _ _ _ Hr) as Hf. rewrite E in Hf. congruence.
Qed.

(** The anti-affinity test has looked at every active claim. *)
Lemma granted_spread s r c s' id c' :
  reserved_in s r c s' -> s.(claims) !! id = Some c' -> active c' = true ->
  c'.(ResourceClaim.organization_id) = c.(ResourceClaim.organization_id) ->
  c'.(ResourceClaim.workload_id) = c.(ResourceClaim.workload_id) ->
  c'.(ResourceClaim.node_id) = c.(ResourceClaim.node_id) ->
  c'.(ResourceClaim.replica_id) = c.(ResourceClaim.replica_id).
Proof.
  intros [_ _ Hex (new_v4 & reserved & _ & [_ _ _ Hm _] & _)].
  destruct (matches_claim _ _ Hm) as (Eo & Ew & Er & En). intros Hc' Hac Ho Hw Hn.
  apply dec_stable. intros Hne. apply not_false_iff_true in Hex; [done|]. unfold excluded, any.
  apply existsb_exists. exists c'. split.
  { apply list_elem_of_In, elem_of_values. by exists id. }
  rewrite Hac, <- Eo, <- Ew, <- Er, <- En, Ho, Hw, Hn. reflect_bools. done.
Qed.

Lemma granted_leases_ok s r c s' : leases_ok s -> reserved_in s r c s' -> leases_ok s'.
Proof.
  intros Hok Hr.
  assert (ClaimLifecycle.reachable c /\ active c = true) as [Hreach Ha].
  { destruct Hr as [_ _ _ (? & ? & _ & [] & _)]. done. }
  split.
  - intros id c' Hc'. destruct (granted_claim _ _ _ _ _ _ Hr Hc') as [[-> ->]|[_ Hold]]; [done|by apply (ok_id s Hok)].
  - intros id c' Hc'. destruct (granted_claim _ _ _ _ _ _ Hr Hc') as [[-> ->]|[_ Hold]]; [done|by apply (ok_claim s Hok id)].
  - intros id c' b Hc' Hb. by eapply granted_leased.
  - intros k lease id Hl Hid. by eapply granted_held.
  - intros id id' c1 c2 b1 b2 H1 H2 Hb1 Hb2 Ek Eg.
    destruct (granted_claim _ _ _ _ _ _ Hr H1) as [[-> ->]|[_ Hold1]],
      (granted_claim _ _ _ _ _ _ Hr H2) as [[-> ->]|[_ Hold2]]; [done| | |].
    + destruct (granted_behind _ _ _ _ _ _ _ _ Hok Hr Hold2 Hb1 Hb2 Ek). lia.
    + destruct (granted_behind _ _ _ _ _ _ _ _ Hok Hr Hold1 Hb2 Hb1 (eq_sym Ek)). lia.
    + by eapply (ok_generations s Hok).
  - intros id id' c1 c2 H1 H2 Ha1 Ha2 Ho Hw Hn.
    destruct (granted_claim _ _ _ _ _ _ Hr H1) as [[-> ->]|[_ Hold1]],
      (granted_claim _ _ _ _ _ _ Hr H2) as [[-> ->]|[_ Hold2]]; [done| | |].
    + symmetry. by eapply granted_spread.
    + by eapply granted_spread.
    + by eapply (ok_affinity s Hok).
Qed.

End agreement.

(** ** Transitions of a stored claim *)
Section transitions.
Context `{ExternalLaws}.
Implicit Types (s : ClaimState.t) (c : ResourceClaim.t) (b : ResourceSlotBinding.t).

(** What a transition leaves alone. *)
Record same_holding c c' : Prop := {
  held_id : c'.(ResourceClaim.id) = c.(ResourceClaim.id);
  held_organization : c'.(ResourceClaim.organization_id) = c.(ResourceClaim.organization_id);
  held_workload : c'.(ResourceClaim.workload_id) = c.(ResourceClaim.workload_id);
  held_node : c'.(ResourceClaim.node_id) = c.(ResourceClaim.node_id);
  held_replica : c'.(ResourceClaim.replica_id) = c.(ResourceClaim.replica_id);
  held_slots : c'.(ResourceClaim.slots) = c.(ResourceClaim.slots);
  held_match : forall r, reservation_matches r c' = reservation_matches r c;
}.

Lemma effect_holding c c' : ClaimLifecycle.effect c c' -> same_holding c c' /\ active c = true.
Proof.
  intros He. split; [by destruct He|]. unfold active. apply negb_true_iff, bool_decide_eq_false.
  destruct He; intros E; rewrite E in *; discriminate || done.
Qed.

Lemma same_holding_key c c' b : same_holding c c' -> claim_slot_key c' b = claim_slot_key c b.
Proof. intros []. unfold claim_slot_key. congruence. Qed.

(** The keys of the slots a claim does not share. *)
Definition hard_keys c : list SlotKey.t :=
  claim_slot_key c <$> List.filter (fun b => negb (ResourceKind.is_shared_capacity b.(ResourceSlotBinding.kind)))
    c.(ResourceClaim.slots).

Lemma elem_of_hard_keys c k :
  k ∈ hard_keys c <-> exists b, b ∈ c.(ResourceClaim.slots) /\ hard b.(ResourceSlotBinding.kind) /\ k = claim_slot_key c b.
Proof.
  unfold hard_keys, hard. rewrite list_elem_of_fmap. split.
  - intros (b & -> & Hb). apply list_elem_of_In, filter_In in Hb as [Hb Hh%negb_true_iff].
    exists b. split; [by apply list_elem_of_In|done].
  - intros (b & Hb & Hh & ->). exists b. split; [done|].
    apply list_elem_of_In, filter_In. split; [by apply list_elem_of_In|by apply negb_true_iff].
Qed.

Definition vacated (lease : SlotLease.t) : SlotLease.t := lease <| SlotLease.active_claim_id := None |>.

(** The loop of [release_slots] on leases that exist. *)
Lemma free_slots_run c l s :
  (forall b, b ∈ l -> is_Some (s.(slots) !! claim_slot_key c b)) ->
  exists s', free_slots c l s = (s', Ok tt) /\ s'.(claims) = s.(claims)
    /\ forall k, s'.(slots) !! k =
         (if decide (k ∈ claim_slot_key c <$>
               List.filter (fun b => negb (ResourceKind.is_shared_capacity b.(ResourceSlotBinding.kind))) l)
          then vacated <$> s.(slots) !! k else s.(slots) !! k).
Proof.
  revert s. induction l as [|b l IH]; intros s Hl; cbn [free_slots].
  { exists s. split_and!; try done. }
  assert (Hb : is_Some (s.(slots) !! claim_slot_key c b)) by (apply Hl; by left).
  destruct (ResourceKind.is_shared_capacity _) eqn:Hs; cbn [List.filter negb].
  - rewrite Hs. cbn [negb]. autorewrite with methods. apply IH. intros b' ?. apply Hl. by right.
  - rewrite Hs. cbn [negb]. destruct Hb as [lease Hlease]. autorewrite with methods. rewrite Hlease. cbn [some_or].
    autorewrite with methods. cbn beta.
    match goal with |- context [free_slots c l ?x] => set (s1 := x) end.
    assert (E1 : s1.(slots) = <[claim_slot_key c b := vacated lease]> s.(slots)) by done.
    destruct (IH s1) as (s' & -> & Hc & Hk).
    { intros b' Hb'. rewrite E1. destruct (decide (claim_slot_key c b = claim_slot_key c b')) as [<-|Hne].
      - rewrite lookup_insert_eq. by eexists.
      - rewrite lookup_insert_ne by done. apply Hl. by right. }
    exists s'. split; [done|]. split; [done|]. intros k. rewrite Hk, E1, fmap_cons.
    destruct (decide (k = claim_slot_key c b)) as [->|Hne].
    + rewrite lookup_insert_eq, Hlease. rewrite (decide_True (P := _ ∈ _ :: _)) by (by left). by case_decide.
    + rewrite lookup_insert_ne by done. case_decide as H1; case_decide as H2; try done.
      * destruct H2. by right.
      * apply elem_of_cons in H2 as [?|?]; done.
Qed.

(** A stored claim moved. *)
Record moved s id c c' s' : Prop := {
  moved_from : s.(claims) !! id = Some c;
  moved_effect : ClaimLifecycle.effect c c';
  moved_claims : s'.(claims) = <[id := c']> s.(claims);
  moved_slots : forall k, s'.(slots) !! k =
    if decide (active c' = false /\ k ∈ hard_keys c) then vacated <$> s.(slots) !! k else s.(slots) !! k;
}.

(** The identity checks of a release hold on the claims of the repository. *)
Lemma held_leases_match s id c c' :
  leases_ok s -> s.(claims) !! id = Some c -> active c = true -> same_holding c c' ->
  for_each (check_lease s c') c'.(ResourceClaim.slots) = Ok tt.
Proof.
  intros Hok Hc Ha Hh. apply for_each_Ok, Forall_forall. intros b Hb. rewrite (held_slots _ _ Hh) in Hb.
  destruct (ok_leased s Hok _ _ _ Hc Hb) as (lease & Hl & Hge & Ht & Hact).
  unfold check_lease. rewrite (same_holding_key _ _ _ Hh), Hl. cbn [some_or mbind result_bind].
  enough (identity_matches c' b lease = true) as -> by done. unfold identity_matches.
  destruct (ResourceKind.is_shared_capacity _) eqn:Hs.
  - assert (is_none lease.(SlotLease.active_claim_id) = true) as ->.
    { destruct (lease.(SlotLease.active_claim_id)) as [id'|] eqn:E; [|done]. exfalso.
      destruct (ok_holder s Hok _ _ _ Hl E) as [Hhard _]. unfold hard in Hhard. cbn in Hhard. congruence. }
    reflect_bools. split_and!; [done| |done].
    destruct (decide (lease.(SlotLease.generation) = b.(ResourceSlotBinding.slot_generation))); auto.
  - destruct (Hact Ha Hs) as [-> Hg]. reflect_bools. rewrite (held_id _ _ Hh), (ok_id s Hok _ _ Hc).
    split_and!; auto.
Qed.

(** The repository stores what the aggregate accepts. *)
Lemma mutate_stores s organization_id id c c' o :
  leases_ok s -> stored s organization_id id = Some c -> ClaimLifecycle.step o c = (c', Ok tt) -> c' <> c ->
  exists s', mutate organization_id id c.(ResourceClaim.aggregate_version) (ClaimLifecycle.step o) s = (s', Ok c')
    /\ moved s id c c' s'.
Proof.
  intros Hok Hst Hstep Hne. unfold mutate. autorewrite with methods. rewrite Hst. cbn [some_or].
  assert (Hc : s.(claims) !! id = Some c).
  { unfold stored in Hst. destruct (s.(claims) !! id) as [c0|]; [|done]. cbn in Hst. by case_match; simplify_eq. }
  destruct (ClaimLifecycle.step_effect _ _ _ Hstep) as [->|[He _]]; [done|].
  destruct (effect_holding _ _ He) as [Hh Ha].
  unfold run_state, run_result. rewrite Hstep. cbn [fst snd map_err]. autorewrite with methods.
  rewrite bool_decide_eq_false_2 by done. autorewrite with methods.
  rewrite bool_decide_eq_true_2 by done. cbn [negb]. autorewrite with methods.
  destruct (bool_decide_reflect (c'.(ResourceClaim.state) = ResourceClaimState.Released)) as [Hrel|Hnr].
  - unfold release_slots. autorewrite with methods. rewrite (held_leases_match s id c c' Hok Hc Ha Hh).
    destruct (free_slots_run c' c'.(ResourceClaim.slots) s) as (s' & Hf & Hcl & Hsl).
    { intros b Hb. rewrite (held_slots _ _ Hh) in Hb.
      destruct (ok_leased s Hok _ _ _ Hc Hb) as (lease & Hl & _). rewrite (same_holding_key _ _ _ Hh). by eexists. }
    unfold mbind at 1, method_bind at 1. cbn beta. rewrite Hf. autorewrite with methods. eexists. split; [done|].
    split; [done|done|cbn; by rewrite Hcl|]. intros k. change (s'.(slots) !! k = if decide (active c' = false /\ k ∈ hard_keys c) then vacated <$> s.(slots) !! k else s.(slots) !! k). rewrite Hsl.
    assert (Hiff : k ∈ hard_keys c' <-> active c' = false /\ k ∈ hard_keys c).
    { rewrite !elem_of_hard_keys, (held_slots _ _ Hh). setoid_rewrite (fun b => same_holding_key c c' b Hh).
      unfold active. rewrite Hrel. naive_solver. }
    by rewrite (decide_ext _ _ _ _ Hiff).
  - autorewrite with methods. eexists. split; [done|]. split; [done|done|done|]. intros k. cbn.
    rewrite decide_False; [done|]. unfold active. rewrite negb_false_iff, bool_decide_eq_true. tauto.
Qed.

End transitions.

(** ** Every call *)
Section histories.
Context `{ExternalLaws}.
Implicit Types (s : ClaimState.t) (c : ResourceClaim.t) (r : ResourceClaimReservation.t).

Lemma moved_claim s id c c' s' id0 c0 :
  moved s id c c' s' -> s'.(claims) !! id0 = Some c0 ->
  exists c1, s.(claims) !! id0 = Some c1 /\ same_holding c1 c0 /\ (active c0 = true -> active c1 = true)
    /\ (c0 = c1 \/ id0 = id /\ c0 = c' /\ ClaimLifecycle.effect c1 c0).
Proof.
  intros Hm. destruct (effect_holding _ _ (moved_effect _ _ _ _ _ Hm)) as [Hh Ha].
  rewrite (moved_claims _ _ _ _ _ Hm). intros [[<- <-]|[Hne Hl]]%lookup_insert_Some.
  - exists c. split; [apply Hm|]. split; [done|]. split; [done|]. right. split_and!; try done. apply Hm.
  - exists c0. split; [done|]. split; [done|]. split; [done|by left].
Qed.

Lemma effect_reachable o c c' : ClaimLifecycle.step o c = (c', Ok tt) -> ClaimLifecycle.reachable c ->
  ClaimLifecycle.reachable c'.
Proof.
  intros Hs Hc. replace c' with (ClaimLifecycle.commit o c) by (unfold ClaimLifecycle.commit; by rewrite Hs).
  by constructor.
Qed.

(** A lease is only vacated for the claim that holds it. *)
Lemma moved_leased s id c c' s' id0 c0 b :
  leases_ok s -> moved s id c c' s' -> s'.(claims) !! id0 = Some c0 -> b ∈ c0.(ResourceClaim.slots) ->
  slot_leased s' id0 c0 b.
Proof.
  intros Hok Hm Q0 Hb. pose proof (moved_from _ _ _ _ _ Hm) as Hc.
  destruct (effect_holding _ _ (moved_effect _ _ _ _ _ Hm)) as [Hh Ha].
  destruct (moved_claim _ _ _ _ _ _ _ Hm Q0) as (c1 & H1 & Hh1 & Hact1 & Hcase).
  rewrite (held_slots _ _ Hh1) in Hb. unfold slot_leased. rewrite (same_holding_key _ _ _ Hh1).
  destruct (ok_leased s Hok _ _ _ H1 Hb) as (lease & Hl & Hge & Ht & Hact).
  rewrite (moved_slots _ _ _ _ _ Hm), Hl. case_decide as Hd; cbn; [|eexists; split; [done|]; naive_solver].
  eexists. split; [done|]. split; [done|]. split; [done|]. intros Ha0 Hhard. exfalso.
  destruct Hd as [Hna (b' & Hb' & Hh' & Ek)%elem_of_hard_keys].
  destruct (Hact (Hact1 Ha0) Hhard) as [Hact0 _].
  destruct (ok_leased s Hok _ _ _ Hc Hb') as (lease' & Hl' & _ & _ & Hact').
  rewrite <- Ek, Hl in Hl'. injection Hl' as <-. destruct (Hact' Ha Hh') as [Hact0' _].
  rewrite Hact0 in Hact0'. injection Hact0' as ->. rewrite H1 in Hc. injection Hc as ->.
  destruct Hcase as [->|(_ & -> & _)]; [|congruence].
  rewrite (moved_claims _ _ _ _ _ Hm), lookup_insert_eq in Q0. injection Q0 as ->. congruence.
Qed.

Lemma moved_held s id c c' s' k lease id0 :
  leases_ok s -> moved s id c c' s' -> s'.(slots) !! k = Some lease ->
  lease.(SlotLease.active_claim_id) = Some id0 -> slot_held s' k id0.
Proof.
  intros Hok Hm Hl Hid. destruct (effect_holding _ _ (moved_effect _ _ _ _ _ Hm)) as [Hh Ha].
  rewrite (moved_slots _ _ _ _ _ Hm) in Hl. case_decide as Hd.
  { destruct (s.(slots) !! k); [|done]. cbn in Hl. injection Hl as <-. done. }
  destruct (ok_holder s Hok _ _ _ Hl Hid) as (Hhard & c0 & b & Q0 & Ha0 & Hb & <-). split; [done|].
  destruct (decide (id0 = id)) as [->|Hne].
  - rewrite (moved_from _ _ _ _ _ Hm) in Q0. injection Q0 as <-. exists c', b.
    rewrite (moved_claims _ _ _ _ _ Hm), lookup_insert_eq.
    split; [done|]. rewrite (held_slots _ _ Hh). split; [|split; [done|by apply same_holding_key]].
    apply not_false_is_true. intros Hna. apply Hd. split; [done|]. apply elem_of_hard_keys. by exists b.
  - exists c0, b. rewrite (moved_claims _ _ _ _ _ Hm), lookup_insert_ne by done. done.
Qed.

Lemma moved_leases_ok s id c c' s' :
  leases_ok s -> moved s id c c' s' -> ClaimLifecycle.reachable c' -> leases_ok s'.
Proof.
  intros Hok Hm Hreach. split.
  - intros id0 c0 Q0. destruct (moved_claim _ _ _ _ _ _ _ Hm Q0) as (c1 & H1 & Hh1 & _).
    rewrite (held_id _ _ Hh1). by apply (ok_id s Hok).
  - intros id0 c0 Q0. destruct (moved_claim _ _ _ _ _ _ _ Hm Q0) as (c1 & H1 & _ & _ & [->|(_ & -> & _)]); [|done].
    by apply (ok_claim s Hok id0).
  - intros id0 c0 b Q0 Hb. by eapply moved_leased.
  - intros k lease id0 Hl Hid. by eapply moved_held.
  - intros id1 id2 c1 c2 b1 b2 H1 H2 Hb1 Hb2 Ek Eg.
    destruct (moved_claim _ _ _ _ _ _ _ Hm H1) as (d1 & G1 & Hh1 & _).
    destruct (moved_claim _ _ _ _ _ _ _ Hm H2) as (d2 & G2 & Hh2 & _).
    rewrite (same_holding_key _ _ _ Hh1), (same_holding_key _ _ _ Hh2) in Ek.
    rewrite (held_slots _ _ Hh1) in Hb1. rewrite (held_slots _ _ Hh2) in Hb2.
    by eapply (ok_generations s Hok _ _ _ _ _ _ G1 G2).
  - intros id1 id2 c1 c2 H1 H2 Ha1 Ha2 Ho Hw Hn.
    destruct (moved_claim _ _ _ _ _ _ _ Hm H1) as (d1 & G1 & Hh1 & Hd1 & _).
    destruct (moved_claim _ _ _ _ _ _ _ Hm H2) as (d2 & G2 & Hh2 & Hd2 & _).
    rewrite (held_organization _ _ Hh1), (held_organization _ _ Hh2) in Ho.
    rewrite (held_workload _ _ Hh1), (held_workload _ _ Hh2) in Hw.
    rewrite (held_node _ _ Hh1), (held_node _ _ Hh2) in Hn. rewrite (held_replica _ _ Hh1), (held_replica _ _ Hh2).
    exact (ok_affinity s Hok _ _ _ _ G1 G2 (Hd1 Ha1) (Hd2 Ha2) Ho Hw Hn).
Qed.

(** A transition either leaves the repository, and answers with the stored claim if it succeeds, or moves one
    claim and answers with it. *)
Lemma mutate_effect s organization_id id v o s' res :
  leases_ok s -> mutate organization_id id v (ClaimLifecycle.step o) s = (s', res) ->
  (s' = s /\ forall c, res = Ok c -> s.(claims) !! id = Some c)
  \/ exists c c', moved s id c c' s' /\ ClaimLifecycle.step o c = (c', Ok tt) /\ res = Ok c'.
Proof.
  intros Hok Hm. destruct (stored s organization_id id) as [c|] eqn:Hst.
  2: { left. unfold mutate in Hm. autorewrite with methods in Hm. rewrite Hst in Hm. by injection Hm as <- <-. }
  assert (Hc : s.(claims) !! id = Some c).
  { unfold stored in Hst. destruct (s.(claims) !! id) as [c0|]; [|done]. cbn in Hst. by case_match; simplify_eq. }
  destruct (ClaimLifecycle.step o c) as [c' res'] eqn:Hs.
  destruct (decide (res' = Ok tt /\ c' <> c /\ c.(ResourceClaim.aggregate_version) = v)) as [(-> & Hne & <-)|Hn].
  - destruct (mutate_stores s organization_id id c c' o Hok Hst Hs Hne) as (s2 & E & Hmv).
    rewrite E in Hm. injection Hm as <- <-. right. by exists c, c'.
  - left. unfold mutate in Hm. autorewrite with methods in Hm. rewrite Hst in Hm. cbn [some_or] in Hm.
    unfold run_state, run_result in Hm. rewrite Hs in Hm. cbn [fst snd] in Hm. autorewrite with methods in Hm.
    destruct res' as [[]|]; cbn [map_err] in Hm; [|by injection Hm as <- <-].
    destruct (bool_decide_reflect (c' = c)); [injection Hm as <- <-; split; [done|]; by intros ? [= <-]|].
    destruct (bool_decide_reflect (c.(ResourceClaim.aggregate_version) = v)); [naive_solver|].
    by injection Hm as <- <-.
Qed.

Lemma mutate_cases s organization_id id v o s' res :
  leases_ok s -> mutate organization_id id v (ClaimLifecycle.step o) s = (s', res) ->
  s' = s \/ exists c c', moved s id c c' s' /\ ClaimLifecycle.step o c = (c', Ok tt).
Proof.
  intros Hok Hm. destruct (mutate_effect _ _ _ _ _ _ _ Hok Hm) as [[-> _]|(c & c' & Hmv & Hs & _)]; [by left|].
  right. by exists c, c'.
Qed.

(** The members of a batch, one after the other. *)
Inductive granted_all : ClaimState.t -> list ResourceClaimReservation.t -> list ResourceClaim.t -> ClaimState.t -> Prop :=
| granted_nil s : granted_all s [] [] s
| granted_cons s r c s1 rs cs s' :
    reserved_in s r c s1 -> granted_all s1 rs cs s' -> granted_all s (r :: rs) (c :: cs) s'.

Lemma reserve_members_Ok rs new_v4 s s' cs :
  reserve_members rs new_v4 s = (s', Ok cs) -> granted_all s rs cs s'.
Proof.
  revert s s' cs. induction rs as [|r rs IH]; intros s s' cs; cbn [reserve_members].
  { intros [= <- <-]. constructor. }
  unfold mbind, method_bind. destruct (reserve_new_claim r (new_v4 r) s) as [s1 [c|]] eqn:E1; [|done].
  destruct (reserve_members rs new_v4 s1) as [s2 [cs'|]] eqn:E2; [|done]. intros [= <- <-].
  econstructor; [by eapply reserve_new_claim_Ok|by apply IH].
Qed.

Lemma granted_all_ok s rs cs s' : leases_ok s -> granted_all s rs cs s' -> leases_ok s'.
Proof. intros Hok. induction 1; [done|]. apply IHgranted_all. by eapply granted_leases_ok. Qed.

Lemma reserve_atomically_cases a new_v4 s s' res :
  reserve_atomically a new_v4 s = (s', res) ->
  s' = s /\ (forall w, res = Ok w -> w.(IdempotentWrite.replayed) = true)
  \/ existing_claims s a.(AtomicResourceClaimReservation.reservations) = []
     /\ exists cs, res = Ok (IdempotentWrite.Mk cs false)
                   /\ granted_all s a.(AtomicResourceClaimReservation.reservations) cs s'.
Proof.
  intros Hr. unfold reserve_atomically in Hr. autorewrite with methods in Hr. cbn zeta in Hr.
  destruct (existing_claims s _) eqn:Hex; cbn [is_empty negb] in Hr.
  - destruct (reserve_members _ _ s) as [next [cs|e]] eqn:E.
    + injection Hr as <- <-. right. split; [done|]. exists cs. split; [done|by eapply reserve_members_Ok].
    + injection Hr as <- <-. left. split; [done|]. by intros ? [=].
  - left. destruct (_ || _) in Hr; injection Hr as <- <-; split; try done. by intros ? [= <-].
Qed.

(** A call leaves the repository, moves a claim or grants the members of a batch. *)
Inductive claims_step (P : ResourceClaimReservation.t -> Prop) s : ClaimState.t -> Prop :=
| step_same : claims_step P s s
| step_moved id c c' s' o : ClaimLifecycle.step o c = (c', Ok tt) -> moved s id c c' s' -> claims_step P s s'
| step_granted rs cs s' : Forall P rs -> granted_all s rs cs s' -> claims_step P s s'.

Lemma new_members members a (P : ResourceClaimReservation.t -> Prop) :
  AtomicResourceClaimReservation.new members = Ok a -> Forall P members ->
  Forall P a.(AtomicResourceClaimReservation.reservations).
Proof. intros [_ ->]%AtomicResourceClaimReservation.new_reservable HP. cbn. by rewrite sort_by_key_perm. Qed.

Lemma perform_step (P : ResourceClaimReservation.t -> Prop) call s :
  leases_ok s -> admitted P call -> claims_step P s (perform call s).
Proof.
  intros Hok Hc. destruct call as [r v|a v|org id ver o]; cbn [perform admitted] in *; unfold run_state.
  - unfold reserve. autorewrite with methods.
    destruct (AtomicResourceClaimReservation.single r) as [a|] eqn:Ea; cbn [map_err]; [|constructor].
    assert (HP : Forall P a.(AtomicResourceClaimReservation.reservations)).
    { apply (new_members [r]); [done|]. by repeat constructor. }
    unfold mbind, method_bind.
    destruct (reserve_atomically a v s) as [s1 res] eqn:E.
    assert (claims_step P s s1) as Hs1.
    { destruct (reserve_atomically_cases _ _ _ _ _ E) as [[-> _]|(_ & cs & _ & Hg)]; [constructor|].
      by eapply step_granted. }
    destruct res as [w|]; [|done]. destruct (w.(IdempotentWrite.value)) as [|? [|]]; done.
  - destruct Hc as (members & Ha & HP). destruct (reserve_atomically a v s) as [s1 res] eqn:E.
    destruct (reserve_atomically_cases _ _ _ _ _ E) as [[-> _]|(_ & cs & _ & Hg)]; [constructor|].
    eapply step_granted; [|exact Hg]. by eapply new_members.
  - rewrite transition_eq. destruct (mutate org id ver (ClaimLifecycle.step o) s) as [s1 res] eqn:E.
    destruct (mutate_cases _ _ _ _ _ _ _ Hok E) as [->|(c & c' & Hm & Hs)]; [constructor|by eapply step_moved].
Qed.

Lemma claims_step_ok P s s' : leases_ok s -> claims_step P s s' -> leases_ok s'.
Proof.
  intros Hok. destruct 1 as [|id c c' s' o Hs Hm|rs cs s' _ Hg]; [done| |by eapply granted_all_ok].
  eapply moved_leases_ok; [done..|]. eapply effect_reachable; [done|].
  eapply (ok_claim s Hok), (moved_from _ _ _ _ _ Hm).
Qed.

Lemma history_ok P s s' : leases_ok s -> history_under P s s' -> leases_ok s'.
Proof.
  intros Hok. induction 1 as [|s s' call _ IH Hc]; [done|]. eapply claims_step_ok; [by apply IH|].
  by eapply perform_step; [apply IH|].
Qed.

Lemma claims_reachable_ok s : reachable s -> leases_ok s.
Proof. apply history_ok, leases_ok_empty. Qed.

End histories.
