(* ===== verification/ClaimGuarantees.v ===== *)
(** * Exclusive slots, shared capacity and replays of the claim repository

    The theorems about the histories of [ClaimAllocation], and a concrete history. *)

From Stdlib Require Import ZArith NArith Lia String.
From stdpp Require Import gmap relations.
From S2P Require Import Prelude RustStd BTreeMap External Text SharedKernel Repositories.
From S2P Require Import Resources NodeInventory NodeClaims Workloads Deployments Replicas ResourceClaims.
From S2P Require Import ResourceClaimLifecycle ClaimRepository ClaimAllocation.
Import ClaimState InMemoryResourceClaimRepository.

(** ** The capacity of a shared slot *)
Section capacity.
Context `{ExternalLaws}.
Implicit Types (s : ClaimState.t) (c : ResourceClaim.t) (r : ResourceClaimReservation.t) (b : ResourceSlotBinding.t).

Definition amount b : N := default 0%N (ResourceAllocation.scalar_amount b.(ResourceSlotBinding.allocation)).
Definition total (l : list ResourceSlotBinding.t) : N := foldr (fun b t => (amount b + t)%N) 0%N l.

(** The slot of a node whose capacity is shared. *)
Variable k : SlotKey.t.

Definition of_slot (b : ResourceSlotBinding.t) : bool :=
  (b.(ResourceSlotBinding.kind) == k.(SlotKey.kind))
  && (b.(ResourceSlotBinding.stable_resource_id) == k.(SlotKey.stable_resource_id)).

(** What the active claims hold of it. *)
Definition allocated s : N :=
  total (holders k.(SlotKey.organization_id) k.(SlotKey.node_id) k.(SlotKey.kind) k.(SlotKey.stable_resource_id)
           (values s.(claims))).

Definition contribution c : N :=
  if (c.(ResourceClaim.organization_id) == k.(SlotKey.organization_id))
     && (c.(ResourceClaim.node_id) == k.(SlotKey.node_id)) && active c
  then total (List.filter of_slot c.(ResourceClaim.slots)) else 0%N.

Definition contributions (l : list ResourceClaim.t) : N := foldr (fun c t => (contribution c + t)%N) 0%N l.

Lemma total_app l l' : total (l ++ l') = (total l + total l')%N.
Proof. induction l as [|b l IH]; simpl; [done|]. rewrite IH. lia. Qed.

Lemma allocated_contributions s : allocated s = contributions (values s.(claims)).
Proof.
  unfold allocated, holders. generalize (values s.(claims)) as l.
  induction l as [|c l IH]; [done|]. cbn [List.filter contributions foldr]. fold (contributions l).
  rewrite <- IH. unfold contribution. destruct (_ && _); [|done]. cbn [map concat].
  by rewrite List.filter_app, total_app.
Qed.

Lemma contributions_perm l l' : l ≡ₚ l' -> contributions l = contributions l'.
Proof. induction 1; simpl; lia. Qed.

Lemma contributions_mono l l' :
  Forall2 (fun c c' => contribution c' <= contribution c)%N l l' -> (contributions l' <= contributions l)%N.
Proof. induction 1; simpl; lia. Qed.

(** The fold of the source computes the sum. *)
Lemma allocated_total_Ok t l t' : allocated_total t l = Ok t' -> t' = (t + total l)%N.
Proof.
  revert t. induction l as [|b l IH]; intros t; simpl; [intros [= <-]; lia|].
  rewrite result_bind_Ok. intros (a & Ha & Ht). apply some_or_Ok in Ha.
  rewrite result_bind_Ok in Ht. destruct Ht as (t1 & Ht1 & Ht). apply some_or_Ok, checked_add_Some in Ht1 as [-> _].
  apply IH in Ht. unfold amount. rewrite Ha. simpl. lia.
Qed.

(** A slot occurs at most once in a claim. *)
Lemma filter_of_slot c :
  ClaimLifecycle.reachable c -> c.(ResourceClaim.organization_id) = k.(SlotKey.organization_id) ->
  c.(ResourceClaim.node_id) = k.(SlotKey.node_id) ->
  List.filter of_slot c.(ResourceClaim.slots) = []
  \/ exists b, b ∈ c.(ResourceClaim.slots) /\ claim_slot_key c b = k
       /\ List.filter of_slot c.(ResourceClaim.slots) = [b].
Proof.
  intros Hc Ho Hn. pose proof (claim_keys_NoDup c Hc) as Hnd. revert Hnd.
  assert (Hkey : forall b, of_slot b = true <-> claim_slot_key c b = k).
  { intros b. unfold of_slot, claim_slot_key. rewrite Ho, Hn. destruct k; simpl. reflect_bools. naive_solver. }
  induction (c.(ResourceClaim.slots)) as [|b l IH]; [by left|]. rewrite fmap_cons, NoDup_cons. intros [Hb Hnd].
  simpl. destruct (of_slot b) eqn:E.
  - right. exists b. split; [by left|]. split; [by apply Hkey|]. f_equal.
    destruct (List.filter of_slot l) as [|b' l'] eqn:Ef; [done|]. exfalso. apply Hb.
    assert (In b' (List.filter of_slot l)) as Hin by (rewrite Ef; by left). apply filter_In in Hin as [Hin Hb'].
    apply Hkey in E, Hb'. rewrite E, <- Hb'. by apply list_elem_of_fmap_2, list_elem_of_In.
  - destruct (IH Hnd) as [->|(b' & Hb' & Hk & ->)]; [by left|]. right. exists b'. split; [by right|done].
Qed.

(** The reservations against an inventory that offers at most [cap] of the slot. *)
Definition offers_at_most (cap : N) r : Prop :=
  r.(ResourceClaimReservation.binding).(DeploymentReplicaBinding.organization_id) = k.(SlotKey.organization_id) ->
  r.(ResourceClaimReservation.node_id) = k.(SlotKey.node_id) ->
  forall slot amount, slot ∈ r.(ResourceClaimReservation.inventory).(NodeResourceInventory.slots) ->
    slot.(NodeResourceSlot.kind) = k.(SlotKey.kind) ->
    slot.(NodeResourceSlot.stable_resource_id) = k.(SlotKey.stable_resource_id) ->
    ResourceAllocation.scalar_amount slot.(NodeResourceSlot.allocation) = Some amount -> (amount <= cap)%N.

Hypothesis shared : ResourceKind.is_shared_capacity k.(SlotKey.kind) = true.

(** The capacity check of one request. *)
Lemma validate_shared_capacity_Ok cap s r q :
  offers_at_most cap r -> request_slot_key r q = k -> validate_shared_capacity s r q = Ok tt ->
  exists requested, ResourceAllocation.scalar_amount q.(ResourceSlotRequest.allocation) = Some requested
    /\ (allocated s + requested <= cap)%N.
Proof.
  intros Hoff Hkey Hv. unfold offers_at_most in Hoff. rewrite <- Hkey in Hoff. unfold validate_shared_capacity in Hv. cbn zeta in Hv.
  rewrite result_bind_Ok in Hv. destruct Hv as (capacity & Hcap & Hv). apply some_or_Ok in Hcap.
  destruct (ResourceClaimReservation.inventory_slot _ q) as [slot|] eqn:Hslot; [|done]. cbn in Hcap.
  apply find_some in Hslot as [Hin Hslot]. apply andb_true_iff in Hslot as [Hk Hi].
  apply bool_decide_eq_true in Hk, Hi.
  rewrite result_bind_Ok in Hv. destruct Hv as (requested & Hreq & Hv). apply some_or_Ok in Hreq.
  rewrite result_bind_Ok in Hv. destruct Hv as (t & Ht & Hv). apply allocated_total_Ok in Ht.
  exists requested. split; [done|].
  specialize (Hoff eq_refl eq_refl slot capacity (proj2 (list_elem_of_In _ _) Hin) Hk Hi Hcap).
  unfold allocated. rewrite <- Hkey. cbn. destruct (checked_add t requested) as [required|] eqn:E; cbn in Hv; [|done].
  apply checked_add_Some in E as [-> _]. destruct (N.ltb_spec capacity (t + requested)); [done|]. lia.
Qed.

Lemma allocated_granted cap s r c s' :
  (allocated s <= cap)%N -> offers_at_most cap r -> reserved_in s r c s' -> (allocated s' <= cap)%N.
Proof.
  intros Hle Hoff Hr. pose proof Hr as [Hfresh Hcl _ (new_v4 & reserved & Hres & Hof & _)].
  rewrite allocated_contributions, Hcl. rewrite (contributions_perm _ _ (values_insert _ _ _ Hfresh)).
  cbn [contributions foldr]. fold (contributions (values s.(claims))). rewrite <- allocated_contributions.
  unfold contribution. destruct (_ && _) eqn:Ek; [|lia].
  rewrite !andb_true_iff, !bool_decide_eq_true in Ek. destruct Ek as [[Ho Hn] _].
  destruct (filter_of_slot c) as [->|(b & Hb & Hkey & ->)]; [apply Hof|done|done|simpl; lia|]. cbn [total foldr].
  destruct (reserved_keys _ _ _ _ _ Hres Hof) as (_ & Hin & _). specialize (Hin b Hb).
  destruct (reserved_slot_facts _ _ _ _ _ _ Hres Hin) as (q & _ & [Hkq Hkind _ Hal _ Hsh _]). cbn [fst snd] in *.
  rewrite Hkey in Hkq.
  destruct (validate_shared_capacity_Ok cap s r q Hoff (eq_sym Hkq)) as (requested & Hreq & Hfit).
  { apply Hsh. rewrite <- Hkind. by rewrite <- shared, <- Hkey. }
  unfold amount. rewrite Hal, Hreq. simpl. lia.
Qed.

Lemma allocated_granted_all cap s rs cs s' :
  (allocated s <= cap)%N -> Forall (offers_at_most cap) rs -> granted_all s rs cs s' -> (allocated s' <= cap)%N.
Proof.
  intros Hle HP Hg. revert Hle HP. induction Hg as [|s r c s1 rs cs s' Hr _ IH]; [done|].
  intros Hle [Hr' HP]%Forall_cons. apply IH; [by eapply allocated_granted|done].
Qed.

Lemma allocated_moved s id c c' s' : moved s id c c' s' -> (allocated s' <= allocated s)%N.
Proof.
  intros Hm. rewrite !allocated_contributions, (moved_claims _ _ _ _ _ Hm). apply contributions_mono.
  assert (Reflexive (fun c c' => contribution c' <= contribution c)%N) by (intros x; lia).
  apply (values_update (fun c c' => contribution c' <= contribution c)%N _ _ c); [apply Hm|].
  destruct (effect_holding _ _ (moved_effect _ _ _ _ _ Hm)) as [Hh Ha]. unfold contribution.
  rewrite (held_organization _ _ Hh), (held_node _ _ Hh), (held_slots _ _ Hh), Ha.
  destruct (active c'); rewrite ?andb_true_r, ?andb_false_r; lia.
Qed.

Lemma allocated_step cap s s' :
  (allocated s <= cap)%N -> claims_step (offers_at_most cap) s s' -> (allocated s' <= cap)%N.
Proof.
  intros Hle. destruct 1 as [|id c c' s' o _ Hm|rs cs s' HP Hg]; [done| |by eapply allocated_granted_all].
  pose proof (allocated_moved _ _ _ _ _ Hm). lia.
Qed.

End capacity.

(** ** The lock table *)
Section locks.
Context `{ExternalLaws}.
Implicit Types (s : ClaimState.t) (c : ResourceClaim.t) (m : gmap SlotKey.t ResourceClaimId).

(** The abstract state: who holds each slot that cannot be shared. *)
Definition locks s : gmap SlotKey.t ResourceClaimId := omap SlotLease.active_claim_id s.(slots).

(** The operations of the table: a holder that holds nothing takes a set of free slots at once, and a holder
    gives back all of its slots.  Taking a slot that is not free, or as a holder, is not an operation. *)
Inductive lock_event :=
| Acquire (holder : ResourceClaimId) (keys : list SlotKey.t)
| Release (holder : ResourceClaimId).

Definition lock_exec (e : lock_event) m : option (gmap SlotKey.t ResourceClaimId) :=
  match e with
  | Acquire id keys =>
    if bool_decide (Forall (fun k => m !! k = None) keys) && bool_decide (map_Forall (fun _ holder => holder <> id) m)
    then Some (foldr (fun k m => <[k := id]> m) m keys) else None
  | Release id => Some (filter (fun kh => kh.2 <> id) m)
  end.

Fixpoint lock_run (es : list lock_event) m : option (gmap SlotKey.t ResourceClaimId) :=
  match es with
  | [] => Some m
  | e :: es => m' ← lock_exec e m; lock_run es m'
  end.

(** What the client of the repository is told. *)
Inductive claim_answer :=
| Refused (e : error)
| Reserved (replayed : bool)
| Moved (claim : ResourceClaim.t).

Definition answer (call : claim_call) s : claim_answer :=
  match call with
  | Reserve r new_v4 =>
    match run_result (reserve r new_v4) s with Ok w => Reserved w.(IdempotentWrite.replayed) | Err e => Refused e end
  | ReserveAtomically a new_v4 =>
    match run_result (reserve_atomically a new_v4) s with Ok w => Reserved w.(IdempotentWrite.replayed) | Err e => Refused e end
  | Transition organization_id id version o =>
    match run_result (transition organization_id id version o) s with Ok c => Moved c | Err e => Refused e end
  end.

(** The slots a reservation asks for alone. *)
Definition hard_requests (r : ResourceClaimReservation.t) : list SlotKey.t :=
  map (request_slot_key r)
    (List.filter (fun q => negb (ResourceKind.is_shared_capacity q.(ResourceSlotRequest.kind))) r.(ResourceClaimReservation.slots)).
Definition acquires (r : ResourceClaimReservation.t) : lock_event :=
  Acquire r.(ResourceClaimReservation.id) (hard_requests r).

(** The operations a call stands for: fixed by its arguments and its answer. *)
Definition lock_events (call : claim_call) (a : claim_answer) : list lock_event :=
  match call, a with
  | Reserve r _, Reserved false => [acquires r]
  | ReserveAtomically batch _, Reserved false => map acquires batch.(AtomicResourceClaimReservation.reservations)
  | Transition _ id _ _, Moved c => if active c then [] else [Release id]
  | _, _ => []
  end.

Lemma lookup_locks s k : locks s !! k = s.(slots) !! k ≫= SlotLease.active_claim_id.
Proof. apply lookup_omap. Qed.

Lemma lookup_acquired id keys m k :
  foldr (fun k m => <[k := id]> m) m keys !! k = if decide (k ∈ keys) then Some id else m !! k.
Proof.
  induction keys as [|x keys IH]; cbn; [by rewrite decide_False by apply not_elem_of_nil|].
  destruct (decide (x = k)) as [->|Hne].
  - rewrite lookup_insert_eq, decide_True; [done|by left].
  - rewrite lookup_insert_ne, IH by done. apply decide_ext. rewrite elem_of_cons. naive_solver.
Qed.

Lemma elem_of_hard_requests s r c s' k : reserved_in s r c s' -> k ∈ hard_requests r <-> k ∈ hard_keys c.
Proof.
  intros [_ _ _ (new_v4 & reserved & Hres & Hof & _)]. destruct (reserved_keys _ _ _ _ _ Hres Hof) as (Hk & Hb & _).
  unfold hard_requests. rewrite elem_of_hard_keys, list_elem_of_In, in_map_iff. split.
  - intros (q & <- & [Hq Hh]%filter_In). apply list_elem_of_In, list_elem_of_lookup in Hq as [i Hi].
    destruct (Forall2_lookup_l _ _ _ _ _ Hres Hi) as ([k b] & Hkb%list_elem_of_lookup_2 & [Ek Ekind _ _ _ _ _]).
    cbn in Ek, Ekind. destruct (Hk _ _ Hkb) as [Ekey Hin]. exists b. unfold hard. rewrite Ekind, <- Ek.
    split_and!; [done|by apply negb_true_iff in Hh|done].
  - intros (b & Hin & Hh & ->). destruct (reserved_slot_facts _ _ _ _ _ _ Hres (Hb b Hin)) as (q & Hq & [Ek Ekind _ _ _ _ _]).
    cbn in Ek, Ekind. exists q. split; [done|]. apply filter_In. split; [by apply list_elem_of_In|].
    apply negb_true_iff. rewrite <- Ekind. exact Hh.
Qed.

(** A granted reservation takes the slots it asked for, all free, for a claim that held nothing. *)
Lemma granted_locks s r c s' : leases_ok s -> reserved_in s r c s' -> lock_exec (acquires r) (locks s) = Some (locks s').
Proof.
  intros Hok Hr. pose proof (fun k => elem_of_hard_requests _ _ _ _ k Hr) as Hkeys.
  assert (r.(ResourceClaimReservation.id) = c.(ResourceClaim.id)) as Eid.
  { by destruct Hr as [_ _ _ (? & ? & _ & [? _ _ _ _] & _)]. }
  cbn. rewrite Eid, !bool_decide_eq_true_2.
  - cbn. f_equal. apply map_eq. intros k. rewrite lookup_acquired, (decide_ext _ _ _ _ (Hkeys k)), !lookup_locks.
    case_decide as Hk.
    + apply elem_of_hard_keys in Hk as (b & Hb & Hh & ->). rewrite (proj1 (granted_new _ _ _ _ _ Hr Hb)).
      simpl. unfold hard in Hh. by rewrite Hh.
    + destruct (decide (k ∈ claim_slot_key c <$> c.(ResourceClaim.slots))) as [Hin|Hnin];
        [|by rewrite (granted_old _ _ _ _ _ Hr Hnin)].
      apply list_elem_of_fmap in Hin as (b & -> & Hb). rewrite (proj1 (granted_new _ _ _ _ _ Hr Hb)). simpl.
      destruct (ResourceKind.is_shared_capacity _) eqn:Hs.
      * destruct (s.(slots) !! _) as [lease|] eqn:E; [|done]. simpl.
        destruct (lease.(SlotLease.active_claim_id)) as [id|] eqn:Ea; [|done].
        destruct (ok_holder s Hok _ _ _ E Ea) as [Hh _]. unfold hard in Hh. cbn in Hh. congruence.
      * destruct Hk. apply elem_of_hard_keys. by exists b.
  - intros k id. rewrite lookup_locks. destruct (s.(slots) !! k) as [lease|] eqn:E; [|done]. simpl. intros Hid ->.
    destruct (ok_holder s Hok _ _ _ E Hid) as (_ & c' & _ & Hc' & _). by rewrite (granted_fresh _ _ _ _ Hr) in Hc'.
  - apply Forall_forall. intros k Hk%Hkeys. apply elem_of_hard_keys in Hk as (b & Hb & Hh & ->). rewrite lookup_locks.
    destruct (s.(slots) !! _) as [lease|] eqn:E; [|done]. simpl.
    by apply (proj2 (granted_new _ _ _ _ _ Hr Hb) lease E).
Qed.

Lemma held_locks s id c k :
  leases_ok s -> s.(claims) !! id = Some c -> active c = true -> locks s !! k = Some id <-> k ∈ hard_keys c.
Proof.
  intros Hok Hc Ha. rewrite lookup_locks, elem_of_hard_keys. split.
  - destruct (s.(slots) !! k) as [lease|] eqn:E; [|done]. simpl. intros Hid.
    destruct (ok_holder s Hok _ _ _ E Hid) as (Hh & c' & b & Hc' & _ & Hb & <-).
    rewrite Hc in Hc'. injection Hc' as <-. by exists b.
  - intros (b & Hb & Hh & ->). destruct (ok_leased s Hok _ _ _ Hc Hb) as (lease & -> & _ & _ & Hact).
    simpl. by apply Hact.
Qed.

Lemma lookup_released id m k :
  filter (fun kh : SlotKey.t * ResourceClaimId => kh.2 <> id) m !! k = if decide (m !! k = Some id) then None else m !! k.
Proof.
  destruct (m !! k) as [h|] eqn:E.
  - destruct (decide (Some h = Some id)) as [[= ->]|Hne].
    + apply map_lookup_filter_None. right. intros x Hx Hn. apply Hn. cbn. congruence.
    + apply map_lookup_filter_Some. split; [done|]. cbn. congruence.
  - rewrite decide_False by done. apply map_lookup_filter_None. by left.
Qed.

Lemma moved_locks s id c c' s' :
  leases_ok s -> moved s id c c' s' -> lock_run (if active c' then [] else [Release id]) (locks s) = Some (locks s').
Proof.
  intros Hok Hm. destruct (effect_holding _ _ (moved_effect _ _ _ _ _ Hm)) as [_ Ha].
  destruct (active c') eqn:Ha'; cbn; f_equal; apply map_eq; intros k.
  - rewrite !lookup_locks, (moved_slots _ _ _ _ _ Hm), decide_False; [done|]. intros [? _]. congruence.
  - rewrite lookup_released, (decide_ext _ _ _ _ (held_locks s id c k Hok (moved_from _ _ _ _ _ Hm) Ha)).
    rewrite !lookup_locks, (moved_slots _ _ _ _ _ Hm).
    destruct (decide (k ∈ hard_keys c)); [rewrite decide_True by done|rewrite decide_False by tauto; done].
    by destruct (s.(slots) !! k).
Qed.

(** A claim that is released holds nothing. *)
Lemma released_locks s id c :
  leases_ok s -> s.(claims) !! id = Some c -> lock_run (if active c then [] else [Release id]) (locks s) = Some (locks s).
Proof.
  intros Hok Hc. destruct (active c) eqn:Ha; [done|]. cbn. f_equal. apply map_eq. intros k. rewrite lookup_released.
  case_decide as Hk; [|done]. rewrite lookup_locks in Hk. destruct (s.(slots) !! k) as [lease|] eqn:E; [|done].
  destruct (ok_holder s Hok _ _ _ E Hk) as (_ & c' & _ & Hc' & Ha' & _). congruence.
Qed.

Lemma granted_all_locks s rs cs s' :
  leases_ok s -> granted_all s rs cs s' -> lock_run (map acquires rs) (locks s) = Some (locks s').
Proof.
  intros Hok Hg. induction Hg as [|s r c s1 rs cs s' Hr _ IH]; [done|]. cbn [map lock_run].
  rewrite (granted_locks _ _ _ _ Hok Hr). cbn. apply IH. by eapply granted_leases_ok.
Qed.

Lemma reserve_atomically_locks a new_v4 s :
  leases_ok s ->
  lock_run (lock_events (ReserveAtomically a new_v4) (answer (ReserveAtomically a new_v4) s)) (locks s)
  = Some (locks (perform (ReserveAtomically a new_v4) s)).
Proof.
  intros Hok. cbn [answer perform]. unfold run_result, run_state. destruct (reserve_atomically a new_v4 s) as [s' res] eqn:E.
  destruct (reserve_atomically_cases _ _ _ _ _ E) as [[-> Hw]|(_ & cs & -> & Hg)]; cbn [fst snd].
  - destruct res as [w|]; [|done]. by rewrite (Hw w eq_refl).
  - by eapply granted_all_locks.
Qed.

Lemma single_reservation r a :
  AtomicResourceClaimReservation.single r = Ok a -> a.(AtomicResourceClaimReservation.reservations) = [r].
Proof.
  intros [_ ->]%AtomicResourceClaimReservation.new_reservable.
  cbn [AtomicResourceClaimReservation.reservations]. apply Permutation_singleton_r, sort_by_key_perm.
Qed.

Lemma reserve_locks r new_v4 s :
  leases_ok s ->
  lock_run (lock_events (Reserve r new_v4) (answer (Reserve r new_v4) s)) (locks s) = Some (locks (perform (Reserve r new_v4) s)).
Proof.
  intros Hok. cbn [answer perform]. unfold run_result, run_state, reserve. autorewrite with methods.
  destruct (AtomicResourceClaimReservation.single r) as [a|] eqn:Ea; cbn [map_err]; [|done].
  unfold mbind, method_bind. destruct (reserve_atomically a new_v4 s) as [s' res] eqn:E.
  destruct (reserve_atomically_cases _ _ _ _ _ E) as [[-> Hw]|(_ & cs & -> & Hg)].
  - destruct res as [w|]; [|done]. destruct (w.(IdempotentWrite.value)) as [|? [|]]; cbn; try done. by rewrite (Hw w eq_refl).
  - rewrite (single_reservation _ _ Ea) in Hg. inversion Hg as [|? ? c s1 ? ? ? Hr Hnil]; subst. inversion Hnil; subst.
    cbn [IdempotentWrite.value IdempotentWrite.replayed fst snd mret method_ret lock_events lock_run].
    by rewrite (granted_locks _ _ _ _ Hok Hr).
Qed.
End locks.

(** ** Stored claims stay *)
Section replays.
Context `{ExternalLaws}.
Implicit Types (s : ClaimState.t) (c : ResourceClaim.t) (r : ResourceClaimReservation.t).

#[export] Instance same_holding_preorder : PreOrder same_holding.
Proof. split; [done|]. intros x y z [] []. split; try congruence. Qed.

Definition kept s s' : Prop :=
  forall id c, s.(claims) !! id = Some c -> exists c', s'.(claims) !! id = Some c' /\ same_holding c c'.

#[local] Instance claims_kept_preorder : PreOrder kept.
Proof.
  split; [intros s id c Hc; by exists c|]. intros x y z Hxy Hyz id c Hc.
  destruct (Hxy id c Hc) as (c1 & H1 & Hh1). destruct (Hyz id c1 H1) as (c2 & H2 & Hh2).
  exists c2. split; [done|by etrans].
Qed.

Lemma granted_kept s r c s' : reserved_in s r c s' -> kept s s'.
Proof.
  intros Hr id c' Hc'. exists c'. split; [|done]. rewrite (granted_claims _ _ _ _ Hr), lookup_insert_ne; [done|].
  intros E. pose proof (granted_fresh _ _ _ _ Hr) as Hf. congruence.
Qed.

Lemma step_kept P s s' : claims_step P s s' -> kept s s'.
Proof.
  destruct 1 as [|id c c' s' o _ Hm|rs cs s' _ Hg]; [done| |].
  - intros id0 c0 Hc0. rewrite (moved_claims _ _ _ _ _ Hm). destruct (decide (id0 = id)) as [->|Hne].
    + rewrite lookup_insert_eq. rewrite (moved_from _ _ _ _ _ Hm) in Hc0. injection Hc0 as <-.
      eexists. split; [done|]. apply effect_holding, Hm.
    + rewrite lookup_insert_ne by done. by exists c0.
  - induction Hg as [|s r c s1 rs cs s' Hr _ IH]; [done|]. etrans; [by eapply granted_kept|done].
Qed.

Lemma history_kept P s s' : leases_ok s -> history_under P s s' -> kept s s'.
Proof.
  intros Hok. induction 1 as [|s s' call Hh IH Hc]; [done|]. etrans; [by apply IH|].
  eapply step_kept, perform_step; [by eapply history_ok|exact Hc].
Qed.

(** The claims of a batch, member by member. *)
Definition batch_stored s (rs : list ResourceClaimReservation.t) (cs : list ResourceClaim.t) : Prop :=
  Forall2 (fun r c => s.(claims) !! r.(ResourceClaimReservation.id) = Some c /\ reservation_matches r c = true) rs cs.

Lemma granted_all_stored s rs cs s' : granted_all s rs cs s' -> exists cs', batch_stored s' rs cs' /\ Forall2 same_holding cs cs'.
Proof.
  intros Hg. induction Hg as [|s r c s1 rs cs s' Hr Hg IH]; [exists []; by split; constructor|].
  destruct IH as (cs' & Hst & Hsame).
  assert (kept s1 s') as Hk by (eapply (step_kept (fun _ => True)), step_granted; [by apply Forall_true|done]).
  assert (s1.(claims) !! r.(ResourceClaimReservation.id) = Some c /\ reservation_matches r c = true) as [Hc Hm].
  { destruct Hr as [_ Hcl _ (? & ? & _ & [Hid _ _ Hm _] & _)]. rewrite Hcl, <- Hid. split; [apply lookup_insert_eq|done]. }
  destruct (Hk _ _ Hc) as (c' & Hc' & Hh). exists (c' :: cs'). split; constructor; try done.
  split; [done|]. by rewrite (held_match _ _ Hh).
Qed.

Lemma batch_stored_kept s s' rs cs :
  kept s s' -> batch_stored s rs cs -> exists cs', batch_stored s' rs cs' /\ Forall2 same_holding cs cs'.
Proof.
  intros Hk. induction 1 as [|r c rs cs [Hc Hm] _ IH]; [exists []; by split; constructor|].
  destruct IH as (cs' & Hst & Hsame). destruct (Hk _ _ Hc) as (c' & Hc' & Hh).
  exists (c' :: cs'). split; constructor; try done. split; [done|]. by rewrite (held_match _ _ Hh).
Qed.

Lemma existing_cons s r rs :
  existing_claims s (r :: rs) = match s.(claims) !! r.(ResourceClaimReservation.id) with
                                | Some c => (r, c) :: existing_claims s rs
                                | None => existing_claims s rs
                                end.
Proof. unfold existing_claims. cbn. by destruct (s.(claims) !! _). Qed.

(** A stored batch answers the request again, whatever tokens would be generated. *)
Lemma batch_replayed a new_v4 s cs :
  batch_stored s a.(AtomicResourceClaimReservation.reservations) cs ->
  a.(AtomicResourceClaimReservation.reservations) <> [] ->
  reserve_atomically a new_v4 s = (s, Ok (IdempotentWrite.Mk cs true)).
Proof.
  intros Hst Hne. unfold reserve_atomically. autorewrite with methods. cbn zeta.
  revert Hst Hne. generalize (a.(AtomicResourceClaimReservation.reservations)). intros rs Hst Hne.
  assert (existing_claims s rs = zip rs cs /\ length (zip rs cs) = length rs) as [-> Hlen].
  { clear Hne. induction Hst as [|r c rs cs [Hc _] _ [IH1 IH2]]; [done|]. rewrite existing_cons, Hc, IH1. simpl. by rewrite IH2. }
  destruct (zip rs cs) as [|rc l] eqn:Ez; [by destruct rs|]. cbn [is_empty negb]. unfold len. rewrite <- Ez in *.
  rewrite Hlen, N.eqb_refl. cbn [negb orb].
  assert (any (fun mc => negb (reservation_matches mc.1 mc.2)) (zip rs cs) = false) as ->.
  { clear Ez Hne Hlen. induction Hst as [|r c rs cs [_ Hm] _ IH]; [done|]. cbn. by rewrite Hm. }
  do 3 f_equal. clear Ez Hne Hlen. induction Hst as [|r c rs cs _ _ IH]; [done|]. simpl. by rewrite IH.
Qed.

Lemma existing_batch_stored s rs :
  length (existing_claims s rs) = length rs ->
  any (fun mc => negb (reservation_matches mc.1 mc.2)) (existing_claims s rs) = false ->
  batch_stored s rs (map snd (existing_claims s rs)).
Proof.
  assert (Hle : forall l, (length (existing_claims s l) <= length l)%nat).
  { induction l as [|x l IHl]; [done|]. rewrite existing_cons. destruct (_ !! _); simpl; lia. }
  unfold batch_stored. induction rs as [|r rs IH]; [constructor|]. specialize (Hle rs). rewrite existing_cons.
  destruct (s.(claims) !! r.(ResourceClaimReservation.id)) as [c|] eqn:Hc; cbn [length map snd]; [|lia].
  intros Hl [Hm Ha]%orb_false_iff. apply negb_false_iff in Hm. constructor; [done|]. apply IH; [lia|done].
Qed.

(** The answer of a batch is stored. *)
Lemma reserve_atomically_stored a new_v4 s s' w :
  reserve_atomically a new_v4 s = (s', Ok w) ->
  exists cs, batch_stored s' a.(AtomicResourceClaimReservation.reservations) cs
             /\ Forall2 same_holding w.(IdempotentWrite.value) cs.
Proof.
  intros Hr. destruct (reserve_atomically_cases _ _ _ _ _ Hr) as [[-> _]|(_ & cs & [= ->] & Hg)];
    [|by eapply granted_all_stored].
  unfold reserve_atomically in Hr. autorewrite with methods in Hr. cbn zeta in Hr.
  destruct (existing_claims s _) eqn:Hex; cbn [is_empty negb] in Hr.
  { destruct (reserve_members _ _ s) as [next [cs|e]] eqn:E; [|done]. injection Hr as -> <-.
    apply reserve_members_Ok in E. by eapply granted_all_stored. }
  rewrite <- Hex in Hr. destruct (_ || _) eqn:Hc in Hr; [done|]. apply orb_false_iff in Hc as [Hl Hm].
  injection Hr as <-. cbn. eexists. split; [apply existing_batch_stored; [|done]|reflexivity].
  apply negb_false_iff, N.eqb_eq in Hl. unfold len in Hl. lia.
Qed.
End replays.

(** ** Theorems *)
Section guarantees.
Context `{ExternalLaws}.
Implicit Types (s : ClaimState.t) (c : ResourceClaim.t) (r : ResourceClaimReservation.t) (b : ResourceSlotBinding.t).

(** C27: Slots that cannot be shared are exclusive and fenced: when two claims of the repository name
    the same slot of the same node, their slot generations differ; and if the slot cannot be shared
    and one of the claims is active, the other is released and has a smaller generation, so the
    generation the holder shows is the newest one ever given for the slot. *)
Theorem hard_slots_fenced s id id' c c' b b' :
  reachable s -> s.(claims) !! id = Some c -> s.(claims) !! id' = Some c' -> id <> id' ->
  b ∈ c.(ResourceClaim.slots) -> b' ∈ c'.(ResourceClaim.slots) -> claim_slot_key c b = claim_slot_key c' b' ->
  b.(ResourceSlotBinding.slot_generation) <> b'.(ResourceSlotBinding.slot_generation)
  /\ (hard b.(ResourceSlotBinding.kind) -> active c = true ->
      active c' = false
      /\ (b'.(ResourceSlotBinding.slot_generation) < b.(ResourceSlotBinding.slot_generation))%N).
Proof.
  intros Hok%claims_reachable_ok Hc Hc' Hne Hb Hb' Ek.
  assert (Hg : b.(ResourceSlotBinding.slot_generation) <> b'.(ResourceSlotBinding.slot_generation)).
  { intros Eg. apply Hne. by eapply (ok_generations s Hok). }
  split; [done|]. intros Hh Ha.
  destruct (ok_leased s Hok _ _ _ Hc Hb) as (lease & Hl & _ & _ & Hact). destruct (Hact Ha Hh) as [Hid Egen].
  destruct (ok_leased s Hok _ _ _ Hc' Hb') as (lease' & Hl' & Hge & _ & Hact').
  rewrite <- Ek, Hl in Hl'. injection Hl' as <-. split; [|lia].
  apply not_true_is_false. intros Ha'. pose proof (f_equal SlotKey.kind Ek) as Hk. cbn in Hk.
  destruct Hact' as [Hid' _]; [done|by rewrite <- Hk|]. congruence.
Qed.

(** C28: Shared capacity is never oversubscribed: as long as every reservation on a node is made against an
    inventory that offers at most [cap] of a shared slot, what the active claims hold of the slot
    together never exceeds [cap], through any sequence of reservations, batches and releases. *)
Theorem shared_capacity_respected k cap s :
  history_under (offers_at_most k cap) ClaimState.empty s ->
  ResourceKind.is_shared_capacity k.(SlotKey.kind) = true -> (allocated k s <= cap)%N.
Proof.
  intros Hh Hk. assert (Hok : leases_ok s) by (eapply history_ok; [apply leases_ok_empty|done]).
  remember ClaimState.empty as s0 eqn:E0. induction Hh as [|s0 s call Hh IH Hc]; subst.
  - rewrite allocated_contributions. unfold values, entries_of, ClaimState.empty. cbn [claims].
    rewrite map_to_list_empty. cbn. lia.
  - assert (leases_ok s) as Hok' by (eapply history_ok; [apply leases_ok_empty|done]).
    eapply (allocated_step k); [done|by apply IH|by apply perform_step].
Qed.

(** Replicas of a workload are spread: two active claims of the same workload on the same node belong
    to the same replica. *)
Theorem replicas_spread s id id' c c' :
  reachable s -> s.(claims) !! id = Some c -> s.(claims) !! id' = Some c' ->
  active c = true -> active c' = true ->
  c.(ResourceClaim.organization_id) = c'.(ResourceClaim.organization_id) ->
  c.(ResourceClaim.workload_id) = c'.(ResourceClaim.workload_id) ->
  c.(ResourceClaim.node_id) = c'.(ResourceClaim.node_id) ->
  c.(ResourceClaim.replica_id) = c'.(ResourceClaim.replica_id).
Proof. intros Hok%claims_reachable_ok. by apply (ok_affinity s Hok). Qed.

(** C30: A transition that the claim accepts is stored: the repository's own checks of the slot leases
    never refuse it, so a claim with release evidence is always released.  Every lease stays as it was, with its
    generation, token and holder, but those of the slots a released claim did not share: these were held by
    the claim and have no holder afterwards, under the same generation and token. *)
Theorem accepted_transition_stored s organization_id id c c' o :
  reachable s -> find organization_id id s = Ok c -> ClaimLifecycle.step o c = (c', Ok tt) -> c' <> c ->
  exists s', transition organization_id id c.(ResourceClaim.aggregate_version) o s = (s', Ok c')
    /\ s'.(claims) = <[id := c']> s.(claims)
    /\ (forall k, (active c' = false /\ exists b, b ∈ c.(ResourceClaim.slots) /\ hard b.(ResourceSlotBinding.kind)
                                               /\ k = claim_slot_key c b) ->
          exists lease, s.(slots) !! k = Some lease /\ lease.(SlotLease.active_claim_id) = Some id
            /\ s'.(slots) !! k = Some (SlotLease.Mk lease.(SlotLease.generation) lease.(SlotLease.fence_token) None))
    /\ (forall k, ~ (active c' = false /\ exists b, b ∈ c.(ResourceClaim.slots) /\ hard b.(ResourceSlotBinding.kind)
                                               /\ k = claim_slot_key c b) ->
          s'.(slots) !! k = s.(slots) !! k).
Proof.
  intros Hok%claims_reachable_ok Hf%some_or_Ok Hs Hne. rewrite transition_eq.
  destruct (mutate_stores s organization_id id c c' o Hok Hf Hs Hne) as (s' & -> & Hm).
  exists s'. split; [done|]. split; [apply Hm|]. destruct (effect_holding _ _ (moved_effect _ _ _ _ _ Hm)) as [_ Ha].
  split; intros k Hk; rewrite <- elem_of_hard_keys in Hk; rewrite (moved_slots _ _ _ _ _ Hm).
  - rewrite decide_True by exact Hk. rewrite elem_of_hard_keys in Hk. destruct Hk as (_ & b & Hb & Hh & ->).
    destruct (ok_leased s Hok _ _ _ (moved_from _ _ _ _ _ Hm) Hb) as (lease & Hl & _ & _ & Hact).
    destruct (Hact Ha Hh) as [Hid _]. exists lease. by rewrite Hl.
  - by rewrite decide_False.
Qed.

(** A reservation is answered once: after a batch was granted, repeating the request, with whatever
    tokens and after whatever else happened, returns the same claims in their current state, marked
    as a replay, and changes nothing. *)
Theorem reservation_replayed a new_v4 new_v4' members s s1 s2 w :
  reachable s -> AtomicResourceClaimReservation.new members = Ok a ->
  reserve_atomically a new_v4 s = (s1, Ok w) -> history s1 s2 ->
  exists cs, reserve_atomically a new_v4' s2 = (s2, Ok (IdempotentWrite.Mk cs true))
    /\ Forall2 same_holding w.(IdempotentWrite.value) cs
    /\ Forall2 (fun r c => reservation_matches r c = true) a.(AtomicResourceClaimReservation.reservations) cs.
Proof.
  intros Hok%claims_reachable_ok Ha Hr Hh.
  assert (Hok1 : leases_ok s1).
  { change s1 with (s1, Ok w).1. rewrite <- Hr. change (leases_ok (perform (ReserveAtomically a new_v4) s)).
    eapply claims_step_ok; [exact Hok|]. apply (perform_step (fun _ => True)); [done|].
    exists members. split; [done|by apply Forall_true]. }
  destruct (reserve_atomically_stored _ _ _ _ _ Hr) as (cs1 & Hst1 & Hs1).
  destruct (batch_stored_kept s1 s2 _ cs1 (history_kept _ _ _ Hok1 Hh) Hst1) as (cs & Hst & Hs).
  exists cs. split; [|split].
  - apply batch_replayed; [done|]. apply AtomicResourceClaimReservation.new_reservable in Ha as [(Hl & _) ->].
    cbn. intros E. apply (f_equal length) in E. rewrite sort_by_key_perm in E. unfold len in Hl.
    destruct members; simpl in *; lia.
  - clear -Hs1 Hs. revert cs Hs. induction Hs1 as [|x y l l' Hxy _ IH]; intros cs Hs; inversion_clear Hs; constructor; auto.
    by transitivity y.
  - eapply Forall2_impl; [exact Hst|]. by intros ? ? [].
Qed.

(** C29: The repository implements a lock table.  Every call, in every reachable state, changes the holders of
    the slots that cannot be shared by exactly the operations its arguments and its answer stand for: a
    reservation that is answered as new takes the unshared slots it asks for, member by member, all of them
    free and for a claim that held nothing; a transition answered with a released claim gives back exactly
    the slots that claim held; any other answer, a refusal or a replay included, changes no holder. *)
Theorem claims_refine_lock_table call s :
  reachable s -> lock_run (lock_events call (answer call s)) (locks s) = Some (locks (perform call s)).
Proof.
  intros Hok%claims_reachable_ok. destruct call as [r v|a v|organization_id id version o];
    [by apply reserve_locks|by apply reserve_atomically_locks|].
  cbn [answer perform]. rewrite transition_eq. unfold run_result, run_state.
  destruct (mutate _ _ _ _ s) as [s' res] eqn:E.
  destruct (mutate_effect _ _ _ _ _ _ _ Hok E) as [[-> Hc]|(c & c' & Hm & _ & ->)]; cbn [fst snd lock_events].
  - destruct res as [c|]; [|done]. by apply released_locks, Hc.
  - by eapply moved_locks.
Qed.

End guarantees.

(** ** A concrete history: two claims on one accelerator, one after the other *)
Module ClaimHistory.
Import Toy.

Definition inventory : NodeResourceInventory.t :=
  ReplicaSamples.or_default
    (NodeResourceInventory.new 7 3 4 5000000000
       [NodeResourceSlot.Mk ResourceKind.Accelerator "gpu0" (ResourceAllocation.Scalar 1 ResourceUnit.Count);
        NodeResourceSlot.Mk ResourceKind.Cpu "cpu0" (ResourceAllocation.Scalar 4000 ResourceUnit.MilliCpu)])
    Sample.inventory.

Definition reservation (claim : ResourceClaimId) : ResourceClaimReservation.t :=
  {| ResourceClaimReservation.id := claim;
     ResourceClaimReservation.binding := ReplicaSamples.binding;
     ResourceClaimReservation.node_id := 7;
     ResourceClaimReservation.inventory := inventory;
     ResourceClaimReservation.topology_digest := Sample.digest_a;
     ResourceClaimReservation.slots :=
       [ResourceSlotRequest.Mk ResourceKind.Cpu "cpu0" (ResourceAllocation.Scalar 500 ResourceUnit.MilliCpu);
        ResourceSlotRequest.Mk ResourceKind.Accelerator "gpu0" (ResourceAllocation.Scalar 1 ResourceUnit.Count)];
     ResourceClaimReservation.reserved_at := 10000000000 |}.

Definition tokens (r : ResourceClaimReservation.t) (_ : ResourceSlotRequest.t) : Uuid :=
  (100 + r.(ResourceClaimReservation.id))%N.

Definition organization : OrganizationId := ReplicaSamples.binding.(DeploymentReplicaBinding.organization_id).

Definition batch (claim : ResourceClaimId) : AtomicResourceClaimReservation.t :=
  AtomicResourceClaimReservation.Mk [reservation claim].
Definition first : ClaimState.t := perform (ReserveAtomically (batch 20) tokens) ClaimState.empty.
Definition cancel : ClaimLifecycle.op := ClaimLifecycle.CancelDatabaseReservation 11000000000.
Definition cancelled : ClaimState.t := perform (Transition organization 20 1 cancel) first.
Definition second : ClaimState.t := perform (Reserve (reservation 21) tokens) cancelled.

Lemma batch_new claim :
  is_ok (AtomicResourceClaimReservation.new [reservation claim]) = true ->
  AtomicResourceClaimReservation.new [reservation claim] = Ok (batch claim).
Proof.
  destruct (AtomicResourceClaimReservation.new _) as [a|] eqn:E; [|done]. intros _.
  apply AtomicResourceClaimReservation.new_reservable in E as [_ ->]. done.
Qed.

Definition cpu_key : SlotKey.t := SlotKey.Mk organization 7 ResourceKind.Cpu "cpu0".

Lemma reservation_offers claim : offers_at_most cpu_key 4000 (reservation claim).
Proof.
  intros _ _ slot amount Hin Hk _ Ha.
  change (slot ∈ inventory.(NodeResourceInventory.slots)) in Hin.
  assert (inventory.(NodeResourceInventory.slots)
    = [NodeResourceSlot.Mk ResourceKind.Cpu "cpu0" (ResourceAllocation.Scalar 4000 ResourceUnit.MilliCpu);
       NodeResourceSlot.Mk ResourceKind.Accelerator "gpu0" (ResourceAllocation.Scalar 1 ResourceUnit.Count)]) as Es
    by (vm_compute; reflexivity).
  rewrite Es, !elem_of_cons, elem_of_nil in Hin. destruct Hin as [->|[->|[]]]; [|discriminate Hk].
  cbn in Ha. injection Ha as <-. lia.
Qed.

Lemma history_second : history_under (offers_at_most cpu_key 4000) ClaimState.empty second.
Proof.
  apply history_step; [apply history_step; [apply history_step; [apply history_refl|]|]|].
  - exists [reservation 20]. split; [apply batch_new; vm_compute; reflexivity|].
    repeat constructor. apply reservation_offers.
  - exact I.
  - apply reservation_offers.
Qed.

Lemma second_reachable : reachable second.
Proof. eapply history_weaken; [|apply history_second]. done. Qed.

Lemma first_history : reachable first /\ history first second.
Proof.
  split.
  - apply history_step; [apply history_refl|]. exists [reservation 20].
    split; [apply batch_new; vm_compute; reflexivity|by repeat constructor].
  - apply history_step; [apply history_step; [apply history_refl|exact I]|exact I].
Qed.

Lemma found {A} (o : option A) : is_some o = true -> exists a, o = Some a.
Proof. destruct o; [eauto|done]. Qed.

Definition nth_slot (o : option ResourceClaim.t) (i : nat) : option ResourceSlotBinding.t :=
  o ≫= fun c => c.(ResourceClaim.slots) !! i.

Definition nth_key (o : option ResourceClaim.t) (i : nat) : option SlotKey.t :=
  o ≫= fun c => claim_slot_key c <$> c.(ResourceClaim.slots) !! i.

Lemma hard_slots_fenced_witness :
  exists c c', second.(claims) !! 21%N = Some c /\ second.(claims) !! 20%N = Some c'
    /\ active c = true /\ active c' = false.
Proof.
  destruct (found (second.(claims) !! 21%N)) as [c Hc]; [vm_compute; reflexivity|].
  destruct (found (second.(claims) !! 20%N)) as [c' Hc']; [vm_compute; reflexivity|].
  destruct (found (nth_slot (second.(claims) !! 21%N) 1)) as [b Hb]; [vm_compute; reflexivity|].
  destruct (found (nth_slot (second.(claims) !! 20%N) 1)) as [b' Hb']; [vm_compute; reflexivity|].
  assert (Hk : nth_key (second.(claims) !! 21%N) 1 = nth_key (second.(claims) !! 20%N) 1) by (vm_compute; reflexivity).
  assert (Hh : (fun x => ResourceKind.is_shared_capacity x.(ResourceSlotBinding.kind)) <$> nth_slot (second.(claims) !! 21%N) 1
             = Some false) by (vm_compute; reflexivity).
  assert (Ha : active <$> second.(claims) !! 21%N = Some true) by (vm_compute; reflexivity).
  rewrite Hc in Hb. rewrite Hc' in Hb'. unfold nth_slot in Hb, Hb'. cbn in Hb, Hb'.
  rewrite Hc, Hc' in Hk. unfold nth_key in Hk. cbn in Hk. rewrite Hb, Hb' in Hk. rewrite Hc in Hh. unfold nth_slot in Hh.
  cbn in Hh. rewrite Hb in Hh. rewrite Hc in Ha.
  apply (list_elem_of_lookup_2 _ 1) in Hb, Hb'. apply Some_inj in Hk, Hh, Ha.
  exists c, c'. split; [exact Hc|]. split; [exact Hc'|]. split; [exact Ha|].
  apply (hard_slots_fenced (H0 := toy_external_laws) second 21 20 c c' b b' second_reachable Hc Hc');
    [discriminate|exact Hb|exact Hb'|exact Hk|exact Hh|exact Ha].
Defined.

Lemma shared_capacity_respected_witness :
  allocated cpu_key second = 500%N /\ (allocated cpu_key second <= 4000)%N.
Proof.
  split; [vm_compute; reflexivity|].
  apply (shared_capacity_respected (H0 := toy_external_laws) cpu_key 4000 second history_second). reflexivity.
Defined.

(** Another claim of the same replica, on the processor only. *)
Definition third : ClaimState.t :=
  perform (Reserve
    {| ResourceClaimReservation.id := 22;
       ResourceClaimReservation.binding := ReplicaSamples.binding;
       ResourceClaimReservation.node_id := 7;
       ResourceClaimReservation.inventory := inventory;
       ResourceClaimReservation.topology_digest := Sample.digest_a;
       ResourceClaimReservation.slots :=
         [ResourceSlotRequest.Mk ResourceKind.Cpu "cpu0" (ResourceAllocation.Scalar 500 ResourceUnit.MilliCpu)];
       ResourceClaimReservation.reserved_at := 10000000000 |} tokens) second.

Lemma third_reachable : reachable third.
Proof. apply history_step; [apply second_reachable|exact I]. Qed.

Lemma replicas_spread_witness :
  exists c c', third.(claims) !! 21%N = Some c /\ third.(claims) !! 22%N = Some c' /\ c <> c'
    /\ c.(ResourceClaim.replica_id) = c'.(ResourceClaim.replica_id).
Proof.
  destruct (found (third.(claims) !! 21%N)) as [c Hc]; [vm_compute; reflexivity|].
  destruct (found (third.(claims) !! 22%N)) as [c' Hc']; [vm_compute; reflexivity|].
  set (view c := (c.(ResourceClaim.organization_id), c.(ResourceClaim.workload_id), c.(ResourceClaim.node_id), active c)).
  assert (Ev : view <$> third.(claims) !! 21%N = view <$> third.(claims) !! 22%N) by (vm_compute; reflexivity).
  assert (Ha : active <$> third.(claims) !! 21%N = Some true) by (vm_compute; reflexivity).
  assert (Hid : ResourceClaim.id <$> third.(claims) !! 21%N <> ResourceClaim.id <$> third.(claims) !! 22%N)
    by (vm_compute; discriminate).
  rewrite Hc, Hc' in Ev, Hid. rewrite Hc in Ha. apply Some_inj in Ha. apply Some_inj in Ev.
  injection Ev as Eo Ew En Ea. exists c, c'. split; [exact Hc|]. split; [exact Hc'|].
  split; [intros E; apply Hid; rewrite E; reflexivity|].
  apply (replicas_spread (H0 := toy_external_laws) third 21 22 c c' third_reachable Hc Hc' Ha);
    [rewrite <- Ea; exact Ha|exact Eo|exact Ew|exact En].
Defined.

Lemma accepted_transition_stored_witness :
  exists c c' s', find organization 20 first = Ok c
    /\ transition organization 20 c.(ResourceClaim.aggregate_version) cancel first = (s', Ok c')
    /\ active c' = false.
Proof.
  assert (Hf : is_ok (find organization 20 first) = true) by (vm_compute; reflexivity).
  destruct (find organization 20 first) as [c|] eqn:Hc; [|discriminate Hf].
  assert (Hr : match find organization 20 first with
               | Ok c => (is_ok (run_result (ClaimLifecycle.step cancel) c), active (run_state (ClaimLifecycle.step cancel) c))
               | Err _ => (false, true) end = (true, false)) by (vm_compute; reflexivity).
  assert (Ha : match find organization 20 first with Ok c => active c | Err _ => false end = true) by (vm_compute; reflexivity).
  rewrite Hc in Hr, Ha. apply pair_equal_spec in Hr as [Hok Hna].
  destruct (run_result (ClaimLifecycle.step cancel) c) as [[]|] eqn:Er; [|discriminate Hok].
  destruct (accepted_transition_stored (H0 := toy_external_laws) first organization 20 c
    (run_state (ClaimLifecycle.step cancel) c) cancel (proj1 first_history) Hc) as (s' & Hs & _).
  - rewrite <- Er. apply run_eq.
  - intros E. rewrite E, Ha in Hna. discriminate Hna.
  - exists c, (run_state (ClaimLifecycle.step cancel) c), s'. split; [reflexivity|]. split; [exact Hs|exact Hna].
Defined.

Lemma reservation_replayed_witness :
  exists cs, reserve_atomically (batch 20) (fun _ _ => 1%N) second = (second, Ok (IdempotentWrite.Mk cs true))
    /\ length cs = 1%nat.
Proof.
  destruct (reserve_atomically (batch 20) tokens ClaimState.empty) as [s1 res] eqn:Hr.
  assert (Ok1 : is_ok (run_result (reserve_atomically (batch 20) tokens) ClaimState.empty) = true) by (vm_compute; reflexivity).
  unfold run_result in Ok1. rewrite Hr in Ok1. cbn in Ok1. destruct res as [w|]; [|discriminate Ok1].
  assert (E1 : s1 = first) by (unfold first, perform, run_state; rewrite Hr; reflexivity).
  destruct (reservation_replayed (H0 := toy_external_laws) (batch 20) tokens (fun _ _ => 1%N) [reservation 20]
    ClaimState.empty s1 second w) as (cs & Hcs & _ & Hm).
  - apply history_refl.
  - apply batch_new. vm_compute. reflexivity.
  - exact Hr.
  - rewrite E1. apply first_history.
  - exists cs. split; [exact Hcs|]. apply Forall2_length in Hm. rewrite <- Hm. reflexivity.
Defined.

Definition gpu : SlotKey.t := SlotKey.Mk organization 7 ResourceKind.Accelerator "gpu0".

Lemma claims_refine_lock_table_witness :
  locks second !! gpu = Some 21%N
  /\ lock_events (Transition organization 21 1 cancel) (answer (Transition organization 21 1 cancel) second) = [Release 21]
  /\ lock_events (Reserve (reservation 21) tokens) (answer (Reserve (reservation 21) tokens) cancelled) = [Acquire 21 [gpu]]
  /\ lock_run (lock_events (Transition organization 21 1 cancel) (answer (Transition organization 21 1 cancel) second))
       (locks second) = Some (locks (perform (Transition organization 21 1 cancel) second)).
Proof.
  split; [vm_compute; reflexivity|]. split; [vm_compute; reflexivity|]. split; [vm_compute; reflexivity|].
  exact (claims_refine_lock_table (H0 := toy_external_laws) (Transition organization 21 1 cancel) second second_reachable).
Defined.

End ClaimHistory.
