(* ===== verification/NodeGateway.v ===== *)
(** * Gateway snapshots on a node

    [contracts/src/node/gateway.rs] and the Gateway acknowledgements of
    [contracts/src/node/observation.rs]: the configuration snapshot a node installs, how it is
    observed, and the certificate requests that travel with it. *)

From Stdlib Require Import ZArith NArith Lia String.
From S2P Require Import Prelude RustStd External Text SharedKernel Resources.

Definition MAX_GATEWAY_ACL_BYTES : N := 1048576.
Definition MAX_GATEWAY_CERTIFICATE_DNS_NAMES : N := 100.
Definition MAX_GATEWAY_SNAPSHOT_VALIDITY_HOURS : Z := 24.

(** ** The management protocol *)
Module GatewayManagementProtocolDiscovery.

Inductive t := Advertised | LegacyVersionV1.

#[global] Instance t_eq_dec : EqDecision t.
Proof. solve_decision. Defined.

Definition to_json (self : t) : json :=
  JStr match self with Advertised => "advertised" | LegacyVersionV1 => "legacy_version_v1" end.

End GatewayManagementProtocolDiscovery.

Module GatewayManagementProtocol.

Record t := Mk {
  protocol : string;
  snapshot_request_schema : string;
  snapshot_status_schema : string;
  discovery : GatewayManagementProtocolDiscovery.t;
}.

#[global] Instance t_eq_dec : EqDecision t.
Proof. solve_decision. Defined.

Definition V1 : string := "a3s.gateway.management-protocol.v1".
Definition SNAPSHOT_REQUEST_V1 : string := "a3s.gateway.managed-snapshot.v1".
Definition SNAPSHOT_STATUS_V1 : string := "a3s.gateway.managed-snapshot-status.v1".

Definition v1 (discovery : GatewayManagementProtocolDiscovery.t) : t :=
  Mk V1 SNAPSHOT_REQUEST_V1 SNAPSHOT_STATUS_V1 discovery.

Definition validate (self : t) : result unit :=
  if (self.(protocol) != V1)
     || (self.(snapshot_request_schema) != SNAPSHOT_REQUEST_V1)
     || (self.(snapshot_status_schema) != SNAPSHOT_STATUS_V1)
  then errf "unsupported Gateway management protocol {:?}" [FStr self.(protocol)]
  else Ok tt.

Definition to_json (self : t) : json :=
  JObj [("protocol", JStr self.(protocol));
        ("snapshot_request_schema", JStr self.(snapshot_request_schema));
        ("snapshot_status_schema", JStr self.(snapshot_status_schema));
        ("discovery", GatewayManagementProtocolDiscovery.to_json self.(discovery))]%string.

End GatewayManagementProtocol.

(** ** Observing a snapshot *)
Module GatewaySnapshotObservationRequest.

Record t := Mk { schema : string; gateway_id : Uuid; revision : N; snapshot_digest : string }.

#[global] Instance t_eq_dec : EqDecision t.
Proof. solve_decision. Defined.

Definition SCHEMA : string := "a3s.cloud.gateway-snapshot-observation-request.v1".

Definition validate (self : t) : result unit :=
  check_schema self.(schema) SCHEMA "unsupported Gateway snapshot observation request schema {:?}" ;;
  validate_uuid "Gateway snapshot observation Gateway ID" self.(gateway_id) ;;
  fail_if (self.(revision) =? 0)%N "Gateway snapshot observation revision must be positive" ;;
  validate_sha256 "Gateway snapshot observation digest" self.(snapshot_digest).

Definition new (gateway_id : Uuid) (revision : N) (snapshot_digest : string) : result t :=
  let request := Mk SCHEMA gateway_id revision snapshot_digest in
  validate request ;; Ok request.

Definition to_json `{External} (self : t) : json :=
  JObj [("schema", JStr self.(schema));
        ("gateway_id", JStr (uuid_display self.(gateway_id)));
        ("revision", JNum self.(revision));
        ("snapshot_digest", JStr self.(snapshot_digest))]%string.

End GatewaySnapshotObservationRequest.

Module GatewaySnapshotObservationState.

Inductive t := Applying | Applied | Rejected | Expired | NotApplied | Uninitialized.

#[global] Instance t_eq_dec : EqDecision t.
Proof. solve_decision. Defined.

End GatewaySnapshotObservationState.

Module AppliedGatewaySnapshot.

Record t := Mk {
  gateway_id : Uuid;
  revision : N;
  expected_revision : option N;
  snapshot_digest : string;
  issued_at : Time;
  expires_at : Time;
  applied_at : Time;
}.

#[global] Instance t_eq_dec : EqDecision t.
Proof. solve_decision. Defined.
#[global] Instance t_eta : Eta t := fun r =>
  Mk r.(gateway_id) r.(revision) r.(expected_revision) r.(snapshot_digest) r.(issued_at)
     r.(expires_at) r.(applied_at).

Definition validate (self : t) : result unit :=
  validate_uuid "applied Gateway snapshot Gateway ID" self.(gateway_id) ;;
  fail_if ((self.(revision) =? 0)%N
           || is_some_and (fun revision => (revision =? 0)%N || (self.(AppliedGatewaySnapshot.revision) <=? revision)%N)
                self.(expected_revision))
    "applied Gateway snapshot revision chain is invalid" ;;
  validate_sha256 "applied Gateway snapshot digest" self.(snapshot_digest) ;;
  fail_if ((self.(expires_at) <=? self.(issued_at))%Z
           || (self.(applied_at) <? self.(issued_at))%Z
           || (self.(expires_at) <=? self.(applied_at))%Z)
    "applied Gateway snapshot timestamps are invalid".

Definition matches (self : t) (request : GatewaySnapshotObservationRequest.t) : bool :=
  (self.(gateway_id) == request.(GatewaySnapshotObservationRequest.gateway_id))
  && (self.(revision) == request.(GatewaySnapshotObservationRequest.revision))
  && (self.(snapshot_digest) == request.(GatewaySnapshotObservationRequest.snapshot_digest)).

End AppliedGatewaySnapshot.

Module NodeGatewaySnapshotObservation.
Import GatewaySnapshotObservationState.

Record t := Mk {
  schema : string;
  observation_id : Uuid;
  command_id : Uuid;
  node_id : Uuid;
  gateway_id : Uuid;
  revision : N;
  snapshot_digest : string;
  state : GatewaySnapshotObservationState.t;
  ready : bool;
  applied : option AppliedGatewaySnapshot.t;
  observed_at : Time;
  management_protocol : GatewayManagementProtocol.t;
}.

#[global] Instance t_eq_dec : EqDecision t.
Proof. solve_decision. Defined.
#[global] Instance t_eta : Eta t := fun r =>
  Mk r.(schema) r.(observation_id) r.(command_id) r.(node_id) r.(gateway_id) r.(revision)
     r.(snapshot_digest) r.(state) r.(ready) r.(applied) r.(observed_at) r.(management_protocol).

Definition SCHEMA : string := "a3s.cloud.node-gateway-snapshot-observation.v1".

Definition requested_is_applied (self : t) : bool :=
  is_some_and (fun applied =>
      (applied.(AppliedGatewaySnapshot.gateway_id) == self.(gateway_id))
      && (applied.(AppliedGatewaySnapshot.revision) == self.(revision))
      && (applied.(AppliedGatewaySnapshot.snapshot_digest) == self.(snapshot_digest)))
    self.(applied).

(** The consistency of the reported state with what is applied. *)
Definition validate_state (self : t) : result unit :=
  match self.(state) with
  | Applied =>
    fail_if (negb self.(ready)
             || negb (requested_is_applied self)
             || is_some_and (fun applied => (applied.(AppliedGatewaySnapshot.expires_at) <=? self.(observed_at))%Z)
                  self.(applied))
      "applied Gateway snapshot observation is not exact and ready"
  | Expired =>
    fail_if (self.(ready)
             || negb (requested_is_applied self)
             || is_none_or (fun applied => (self.(observed_at) <? applied.(AppliedGatewaySnapshot.expires_at))%Z)
                  self.(applied))
      "expired Gateway snapshot observation is inconsistent"
  | Rejected | NotApplied =>
    fail_if (self.(ready) || requested_is_applied self)
      "unapplied Gateway snapshot observation retained the requested state"
  | Uninitialized =>
    fail_if (self.(ready) || is_some self.(applied)) "uninitialized Gateway snapshot observation is inconsistent"
  | Applying =>
    fail_if self.(ready) "applying Gateway snapshot observation cannot be ready"
  end.

Definition validate (self : t) : result unit :=
  check_schema self.(schema) SCHEMA "unsupported node Gateway snapshot observation schema {:?}" ;;
  validate_uuid "Gateway snapshot observation ID" self.(observation_id) ;;
  validate_uuid "Gateway snapshot observation command ID" self.(command_id) ;;
  validate_uuid "Gateway snapshot observation node ID" self.(node_id) ;;
  validate_uuid "Gateway snapshot observation Gateway ID" self.(gateway_id) ;;
  fail_if ((self.(node_id) != self.(gateway_id)) || (self.(revision) =? 0)%N)
    "Gateway snapshot observation identity is inconsistent" ;;
  validate_sha256 "Gateway snapshot observation digest" self.(snapshot_digest) ;;
  GatewayManagementProtocol.validate self.(management_protocol) ;;
  match self.(applied) with
  | Some applied =>
    AppliedGatewaySnapshot.validate applied ;;
    fail_if ((applied.(AppliedGatewaySnapshot.gateway_id) != self.(gateway_id))
             || (self.(observed_at) <? applied.(AppliedGatewaySnapshot.applied_at))%Z)
      "Gateway snapshot observation applied state identity or time is inconsistent"
  | None => Ok tt
  end ;;
  validate_state self.

Definition validate_for (self : t) (command_id node_id : Uuid) (request : GatewaySnapshotObservationRequest.t) :
    result unit :=
  validate self ;;
  GatewaySnapshotObservationRequest.validate request ;;
  fail_if ((self.(NodeGatewaySnapshotObservation.command_id) != command_id)
           || (self.(NodeGatewaySnapshotObservation.node_id) != node_id)
           || (self.(gateway_id) != request.(GatewaySnapshotObservationRequest.gateway_id))
           || (self.(revision) != request.(GatewaySnapshotObservationRequest.revision))
           || (self.(snapshot_digest) != request.(GatewaySnapshotObservationRequest.snapshot_digest)))
    "Gateway snapshot observation does not match its exact node command".

End NodeGatewaySnapshotObservation.

(** ** Certificates *)

(** An IPv6 literal contains a colon, which no label of the name may contain, and is refused with
    the same message. *)
Definition validate_dns_name (value : string) : result unit :=
  validate_single_line "Gateway certificate DNS name" value 253 ;;
  let suffix := bytes_of match strip_prefix "*." value with Some s => s | None => value end in
  let labels := split_bytes DOT suffix in
  fail_if (is_ipv4 suffix
           || last_is DOT suffix
           || (len labels <? 2)%N
           || any (fun label =>
                is_empty label
                || (63 <? len label)%N
                || first_is HYPHEN label
                || last_is HYPHEN label
                || negb (all is_dns_byte label)) labels
           || (contains_any [STAR] value && negb (starts_with "*." value)))
    "Gateway certificate DNS name must be canonical exact or wildcard DNS".

Fixpoint validate_dns_order (previous : option string) (values : list string) : result unit :=
  match values with
  | [] => Ok tt
  | dns_name :: rest =>
    validate_dns_name dns_name ;;
    fail_if (is_some_and (fun value => leb dns_name value) previous)
      "Gateway certificate DNS names must be sorted and contain no duplicates" ;;
    validate_dns_order (Some dns_name) rest
  end.

Definition validate_dns_names (values : list string) : result unit :=
  fail_if (is_empty values || (MAX_GATEWAY_CERTIFICATE_DNS_NAMES <? len values)%N)
    "Gateway certificate must contain 1 to 100 DNS names" ;;
  validate_dns_order None values.

Definition is_ascii_alphabetic (b : N) : bool := is_ascii_lowercase b || is_ascii_uppercase b.

Definition validate_file_reference (label value : string) : result unit :=
  validate_single_line label value 4096 ;;
  let bytes := bytes_of value in
  let posix_absolute := first_is SLASH bytes in
  let windows_drive_absolute :=
    match bytes with
    | b0 :: b1 :: b2 :: _ => is_ascii_alphabetic b0 && (b1 =? COLON)%N && ((b2 =? SLASH) || (b2 =? BACKSLASH))%N
    | _ => false
    end in
  if negb (posix_absolute || windows_drive_absolute)
     || any (fun component => component == [DOT; DOT])
          (split_on (fun b => (b =? SLASH) || (b =? BACKSLASH))%N bytes)
  then errf "{label} must be an absolute normalized path" [FStr label]
  else Ok tt.

Definition line (b : bool) : string := str_of (if b then [CR; LF] else [LF]).

Definition validate_pem (label value kind : string) (maximum : N) : result unit :=
  let header (crlf : bool) := ("-----BEGIN " ++ kind ++ "-----" ++ line crlf)%string in
  let footer (crlf : bool) := ("-----END " ++ kind ++ "-----" ++ line crlf)%string in
  if (maximum <? str_len value)%N
     || negb (starts_with (header false) value || starts_with (header true) value)
     || negb (ends_with (footer false) value || ends_with (footer true) value)
     || contains_any [NUL] value
  then errf "{label} must be a bounded PEM value" [FStr label]
  else Ok tt.

Module GatewayCertificateRequest.

Record t := Mk {
  schema : string;
  certificate_id : Uuid;
  dns_names : list string;
  certificate_file : string;
  private_key_file : string;
}.

#[global] Instance t_eq_dec : EqDecision t.
Proof. solve_decision. Defined.

Definition SCHEMA : string := "a3s.cloud.gateway-certificate-request.v1".

Definition validate (self : t) : result unit :=
  check_schema self.(schema) SCHEMA "unsupported Gateway certificate request schema {:?}" ;;
  validate_uuid "Gateway certificate ID" self.(certificate_id) ;;
  validate_dns_names self.(dns_names) ;;
  validate_file_reference "Gateway certificate file" self.(certificate_file) ;;
  validate_file_reference "Gateway private key file" self.(private_key_file) ;;
  fail_if (self.(certificate_file) == self.(private_key_file))
    "Gateway certificate and private key files must differ".

Definition new (certificate_id : Uuid) (dns_names : list string) (certificate_file private_key_file : string) :
    result t :=
  let request := Mk SCHEMA certificate_id dns_names certificate_file private_key_file in
  validate request ;; Ok request.

Definition to_json `{External} (self : t) : json :=
  JObj [("schema", JStr self.(schema));
        ("certificate_id", JStr (uuid_display self.(certificate_id)));
        ("dns_names", JArr (map JStr self.(dns_names)));
        ("certificate_file", JStr self.(certificate_file));
        ("private_key_file", JStr self.(private_key_file))]%string.

End GatewayCertificateRequest.

Module GatewayCertificateSigningRequest.

Record t := Mk { schema : string; certificate_id : Uuid; node_id : Uuid; csr_pem : string; requested_at : Time }.

Definition SCHEMA : string := "a3s.cloud.gateway-certificate-signing-request.v1".

Definition validate (self : t) : result unit :=
  check_schema self.(schema) SCHEMA "unsupported Gateway certificate signing request schema {:?}" ;;
  validate_uuid "Gateway certificate ID" self.(certificate_id) ;;
  validate_uuid "Gateway certificate node ID" self.(node_id) ;;
  validate_pem "Gateway certificate signing request" self.(csr_pem) "CERTIFICATE REQUEST" (64 * 1024) ;;
  fail_if (str_contains "PRIVATE KEY" self.(csr_pem))
    "Gateway certificate signing request must not contain a private key".

End GatewayCertificateSigningRequest.

Module GatewayCertificateSigningResponse.

Record t := Mk {
  schema : string;
  certificate_id : Uuid;
  node_id : Uuid;
  dns_names : list string;
  serial_number : string;
  fingerprint : string;
  certificate_pem : string;
  ca_bundle_pem : string;
  issued_at : Time;
  expires_at : Time;
}.

Definition SCHEMA : string := "a3s.cloud.gateway-certificate-signing-response.v1".

Definition validate (self : t) : result unit :=
  check_schema self.(schema) SCHEMA "unsupported Gateway certificate signing response schema {:?}" ;;
  validate_uuid "Gateway certificate ID" self.(certificate_id) ;;
  validate_uuid "Gateway certificate node ID" self.(node_id) ;;
  validate_dns_names self.(dns_names) ;;
  validate_single_line "Gateway certificate serial number" self.(serial_number) 512 ;;
  validate_sha256 "Gateway certificate fingerprint" self.(fingerprint) ;;
  validate_pem "Gateway certificate" self.(certificate_pem) "CERTIFICATE" (256 * 1024) ;;
  validate_pem "Gateway certificate CA bundle" self.(ca_bundle_pem) "CERTIFICATE" (256 * 1024) ;;
  fail_if (self.(expires_at) <=? self.(issued_at))%Z "Gateway certificate expiry must follow its issue time".

End GatewayCertificateSigningResponse.

(** ** Snapshots *)
Definition digest_acl `{External} (acl : string) : string := sha256_digest (bytes_of acl).

Module GatewaySnapshot.

Record t := Mk {
  schema : string;
  gateway_id : Uuid;
  revision : N;
  expected_revision : option N;
  snapshot_digest : string;
  issued_at : Time;
  expires_at : Time;
  acl : string;
  certificate_request : option GatewayCertificateRequest.t;
}.

#[global] Instance t_eq_dec : EqDecision t.
Proof. solve_decision. Defined.
#[global] Instance t_eta : Eta t := fun r =>
  Mk r.(schema) r.(gateway_id) r.(revision) r.(expected_revision) r.(snapshot_digest) r.(issued_at)
     r.(expires_at) r.(acl) r.(certificate_request).

Definition SCHEMA : string := "a3s.cloud.gateway-snapshot.v3".

Definition validate `{External} (self : t) : result unit :=
  check_schema self.(schema) SCHEMA "unsupported Gateway snapshot schema {:?}" ;;
  validate_uuid "Gateway snapshot Gateway ID" self.(gateway_id) ;;
  fail_if (self.(revision) =? 0)%N "Gateway snapshot revision must be positive" ;;
  fail_if (is_some_and (fun expected => (expected =? 0)%N || (self.(revision) <=? expected)%N)
             self.(expected_revision))
    "Gateway snapshot expected revision must be positive and precede its revision" ;;
  fail_if (str_is_empty (trim self.(acl))
           || (MAX_GATEWAY_ACL_BYTES <? str_len self.(acl))%N
           || contains_any [NUL] self.(acl))
    "Gateway snapshot ACL must contain 1 byte to 1 MiB without NUL" ;;
  match self.(certificate_request) with
  | Some certificate =>
    GatewayCertificateRequest.validate certificate ;;
    fail_if (negb (str_contains certificate.(GatewayCertificateRequest.certificate_file) self.(acl))
             || negb (str_contains certificate.(GatewayCertificateRequest.private_key_file) self.(acl)))
      "Gateway snapshot ACL does not reference its certificate and private key files"
  | None => Ok tt
  end ;;
  fail_if (self.(expires_at) <=? self.(issued_at))%Z "Gateway snapshot expiry must follow its issue time" ;;
  fail_if (hours MAX_GATEWAY_SNAPSHOT_VALIDITY_HOURS <? self.(expires_at) - self.(issued_at))%Z
    "Gateway snapshot validity must not exceed {MAX_GATEWAY_SNAPSHOT_VALIDITY_HOURS} hours" ;;
  validate_sha256 "Gateway snapshot digest" self.(snapshot_digest) ;;
  let expected_digest := digest_acl self.(acl) in
  fail_if (self.(snapshot_digest) != expected_digest)
    "Gateway snapshot digest does not match its exact ACL bytes".

Definition new_with_certificate `{External} (gateway_id : Uuid) (revision : N) (expected_revision : option N)
    (issued_at expires_at : Time) (acl : string) (certificate_request : option GatewayCertificateRequest.t) :
    result t :=
  let snapshot_digest := digest_acl acl in
  let snapshot := Mk SCHEMA gateway_id revision expected_revision snapshot_digest issued_at expires_at acl
                     certificate_request in
  validate snapshot ;; Ok snapshot.

Definition new `{External} (gateway_id : Uuid) (revision : N) (expected_revision : option N)
    (issued_at expires_at : Time) (acl : string) : result t :=
  new_with_certificate gateway_id revision expected_revision issued_at expires_at acl None.

Definition to_json `{External} (self : t) : json :=
  JObj ([("schema", JStr self.(schema));
         ("gateway_id", JStr (uuid_display self.(gateway_id)));
         ("revision", JNum self.(revision));
         ("expected_revision", json_option JNum self.(expected_revision));
         ("snapshot_digest", JStr self.(snapshot_digest));
         ("issued_at", JStr (time_display self.(issued_at)));
         ("expires_at", JStr (time_display self.(expires_at)));
         ("acl", JStr self.(acl))]%string
        ++ optional_member "certificate_request" GatewayCertificateRequest.to_json self.(certificate_request)).

End GatewaySnapshot.

(** ** Acknowledging a snapshot *)
Module GatewayAckState.

Inductive t := Applied | Rejected.

#[global] Instance t_eq_dec : EqDecision t.
Proof. solve_decision. Defined.

End GatewayAckState.

Module NodeGatewayAck.
Import GatewayAckState.

Record t := Mk {
  schema : string;
  acknowledgement_id : Uuid;
  command_id : Uuid;
  node_id : Uuid;
  gateway_id : Uuid;
  revision : N;
  snapshot_digest : string;
  expires_at : Time;
  state : GatewayAckState.t;
  ready : bool;
  message : option string;
  acknowledged_at : Time;
  management_protocol : option GatewayManagementProtocol.t;
}.

#[global] Instance t_eq_dec : EqDecision t.
Proof. solve_decision. Defined.
#[global] Instance t_eta : Eta t := fun r =>
  Mk r.(schema) r.(acknowledgement_id) r.(command_id) r.(node_id) r.(gateway_id) r.(revision)
     r.(snapshot_digest) r.(expires_at) r.(state) r.(ready) r.(message) r.(acknowledged_at)
     r.(management_protocol).

Definition SCHEMA : string := "a3s.cloud.node-gateway-ack.v4".
Definition LEGACY_SCHEMA : string := "a3s.cloud.node-gateway-ack.v3".

Definition validate_protocol (self : t) : result unit :=
  if self.(schema) == SCHEMA then
    fail_if ((self.(state) == Applied) && is_none self.(management_protocol))
      "applied Gateway acknowledgement must identify its management protocol" ;;
    match self.(management_protocol) with
    | Some protocol => GatewayManagementProtocol.validate protocol
    | None => Ok tt
    end
  else if self.(schema) == LEGACY_SCHEMA then
    fail_if (is_some self.(management_protocol))
      "legacy Gateway acknowledgement must omit management protocol evidence"
  else errf "unsupported Gateway ack schema {:?}" [FStr self.(schema)].

Definition validate (self : t) : result unit :=
  validate_protocol self ;;
  validate_uuid "acknowledgement_id" self.(acknowledgement_id) ;;
  validate_uuid "command_id" self.(command_id) ;;
  validate_uuid "node_id" self.(node_id) ;;
  validate_uuid "gateway_id" self.(gateway_id) ;;
  fail_if (self.(revision) =? 0)%N "Gateway acknowledgement revision must be positive" ;;
  validate_sha256 "Gateway snapshot digest" self.(snapshot_digest) ;;
  match self.(state), self.(ready), self.(message) with
  | Applied, true, None =>
    fail_if (self.(expires_at) <=? self.(acknowledged_at))%Z
      "applied Gateway acknowledgement must precede snapshot expiry"
  | Rejected, false, Some message => validate_single_line "Gateway acknowledgement message" message (16 * 1024)
  | Applied, _, _ => err "applied Gateway acknowledgement must be ready and omit a message"
  | Rejected, _, _ => err "rejected Gateway acknowledgement must not be ready and must contain a message"
  end.

Definition validate_for `{External} (self : t) (command_id node_id : Uuid) (snapshot : GatewaySnapshot.t) :
    result unit :=
  validate self ;;
  GatewaySnapshot.validate snapshot ;;
  fail_if ((self.(NodeGatewayAck.command_id) != command_id)
           || (self.(NodeGatewayAck.node_id) != node_id)
           || (self.(gateway_id) != snapshot.(GatewaySnapshot.gateway_id))
           || (self.(revision) != snapshot.(GatewaySnapshot.revision))
           || (self.(snapshot_digest) != snapshot.(GatewaySnapshot.snapshot_digest))
           || (self.(expires_at) != snapshot.(GatewaySnapshot.expires_at)))
    "Gateway acknowledgement does not match its command and exact snapshot identity".

End NodeGatewayAck.

Module NodeGatewayAckReceipt.

Record t := Mk { schema : string; acknowledgement_id : Uuid; command_id : Uuid; node_id : Uuid; replayed : bool }.

Definition SCHEMA : string := "a3s.cloud.node-gateway-ack-receipt.v2".

Definition validate (self : t) : result unit :=
  check_schema self.(schema) SCHEMA "unsupported Gateway acknowledgement receipt schema {:?}" ;;
  validate_uuid "acknowledgement_id" self.(acknowledgement_id) ;;
  validate_uuid "command_id" self.(command_id) ;;
  validate_uuid "node_id" self.(node_id).

End NodeGatewayAckReceipt.
