(* ===== verification/NodePluginHost.v ===== *)
(** * Plugin host requests

    [contracts/src/node/plugin_host.rs]: reading the capabilities of a node's plugin host, and
    authorizing one trust root together with one policy.  The plugin host protocol itself belongs
    to [a3s_use_core]; what the node commands use of it is the class [UseContract]. *)

From Stdlib Require Import ZArith NArith Lia String.
From S2P Require Import Prelude RustStd External Text SharedKernel Resources NodeArtifacts.

(** The error of an [a3s_use_core] or [a3s_code_core] validation, of which the source uses the code. *)
Definition coded : Type := string + unit.

(** [.map_err(|error| format!(message, error.code))] *)
Definition map_code (message : string) (r : coded) : result unit :=
  match r with inl code => errf message [FStr code] | inr _ => Ok tt end.

Class UseContract := {
  PluginHostPlanRequest : Type;
  PluginHostApplyRequest : Type;
  PluginHostEnablementPlanRequest : Type;
  PluginHostObservationRequest : Type;
  PluginHostCapabilities : Type;
  PluginHostPlanResult : Type;
  PluginHostApplyResult : Type;
  PluginHostEnablementPlanResult : Type;
  PluginHostObservationResult : Type;
  plan_request_eq_dec :: EqDecision PluginHostPlanRequest;
  apply_request_eq_dec :: EqDecision PluginHostApplyRequest;
  enablement_request_eq_dec :: EqDecision PluginHostEnablementPlanRequest;
  observation_request_eq_dec :: EqDecision PluginHostObservationRequest;
  capabilities_eq_dec :: EqDecision PluginHostCapabilities;
  plan_result_eq_dec :: EqDecision PluginHostPlanResult;
  apply_result_eq_dec :: EqDecision PluginHostApplyResult;
  enablement_result_eq_dec :: EqDecision PluginHostEnablementPlanResult;
  observation_result_eq_dec :: EqDecision PluginHostObservationResult;
  PLUGIN_HOST_PLAN_REQUEST_SCHEMA : string;
  PLUGIN_HOST_APPLY_REQUEST_SCHEMA : string;
  PLUGIN_HOST_ENABLEMENT_PLAN_REQUEST_SCHEMA : string;
  PLUGIN_HOST_OBSERVATION_REQUEST_SCHEMA : string;
  plan_request_validate : PluginHostPlanRequest -> coded;
  apply_request_validate : PluginHostApplyRequest -> coded;
  enablement_request_validate : PluginHostEnablementPlanRequest -> coded;
  observation_request_validate : PluginHostObservationRequest -> coded;
  (** [assignment_generation] *)
  plan_request_generation : PluginHostPlanRequest -> N;
  apply_request_generation : PluginHostApplyRequest -> N;
  enablement_request_generation : PluginHostEnablementPlanRequest -> N;
  observation_request_generation : PluginHostObservationRequest -> N;
  plan_request_to_json : PluginHostPlanRequest -> json;
  apply_request_to_json : PluginHostApplyRequest -> json;
  enablement_request_to_json : PluginHostEnablementPlanRequest -> json;
  observation_request_to_json : PluginHostObservationRequest -> json;
  capabilities_validate : PluginHostCapabilities -> coded;
  plan_result_validate : PluginHostPlanResult -> coded;
  apply_result_validate : PluginHostApplyResult -> coded;
  enablement_result_validate : PluginHostEnablementPlanResult -> coded;
  observation_result_validate : PluginHostObservationResult -> coded;
  plan_result_validate_for : PluginHostPlanResult -> PluginHostPlanRequest -> PluginHostCapabilities -> coded;
  apply_result_validate_for : PluginHostApplyResult -> PluginHostApplyRequest -> PluginHostCapabilities -> coded;
  enablement_result_validate_for :
    PluginHostEnablementPlanResult -> PluginHostEnablementPlanRequest -> PluginHostCapabilities -> coded;
  observation_result_validate_for :
    PluginHostObservationResult -> PluginHostObservationRequest -> PluginHostCapabilities -> coded;
  (** [plan.plan.plan.created_at_ms], [applied.completed_at_ms], [planned_at_ms], [observed_at_ms] *)
  plan_result_created_at_ms : PluginHostPlanResult -> N;
  apply_result_completed_at_ms : PluginHostApplyResult -> N;
  enablement_result_planned_at_ms : PluginHostEnablementPlanResult -> N;
  observation_result_observed_at_ms : PluginHostObservationResult -> N;
  plan_result_replayed : PluginHostPlanResult -> bool;
  apply_result_replayed : PluginHostApplyResult -> bool;
  enablement_result_replayed : PluginHostEnablementPlanResult -> bool;
}.

Module NodePluginHostCapabilitiesRequest.

Record t := Mk { schema : string; generation : N }.

#[global] Instance t_eq_dec : EqDecision t.
Proof. solve_decision. Defined.

Definition SCHEMA : string := "a3s.cloud.plugin-host-capabilities-request.v1".

Definition validate (self : t) : result unit :=
  check_schema self.(schema) SCHEMA "unsupported Plugin Host capabilities request schema {:?}" ;;
  fail_if (self.(generation) =? 0)%N "Plugin Host capabilities request generation must be positive".

Definition new (generation : N) : result t :=
  let request := Mk SCHEMA generation in
  validate request ;; Ok request.

Definition to_json (self : t) : json :=
  JObj [("schema", JStr self.(schema)); ("generation", JNum self.(generation))]%string.

End NodePluginHostCapabilitiesRequest.

Module NodePluginHostAuthorizeTrustRequest.

Record t := Mk { schema : string; generation : N; trust_root : ArtifactRef.t; policy_acl : ArtifactRef.t }.

#[global] Instance t_eq_dec : EqDecision t.
Proof. solve_decision. Defined.

Definition SCHEMA : string := "a3s.cloud.plugin-host-authorize-trust-request.v1".
Definition TRUST_ROOT_MOUNT : string := "plugin-trust-root".
Definition POLICY_ACL_MOUNT : string := "plugin-policy-acl".

Definition artifact_for_mount (self : t) (mount_name : string) : option ArtifactRef.t :=
  if mount_name == TRUST_ROOT_MOUNT then Some self.(trust_root)
  else if mount_name == POLICY_ACL_MOUNT then Some self.(policy_acl)
  else None.

Section requests.
Context `{ArtifactContract} `{External}.

Definition validate (self : t) : result unit :=
  check_schema self.(schema) SCHEMA "unsupported Plugin Host authorize-trust request schema {:?}" ;;
  fail_if (self.(generation) =? 0)%N "Plugin Host authorize-trust request generation must be positive" ;;
  validate_cloud_artifact self.(trust_root) ;;
  validate_cloud_artifact self.(policy_acl) ;;
  fail_if (self.(trust_root).(ArtifactRef.media_type) != PLUGIN_TRUST_ROOT_MEDIA_TYPE)
    "Plugin Host trust-root Artifact media type is unsupported" ;;
  fail_if (self.(policy_acl).(ArtifactRef.media_type) != PLUGIN_POLICY_ACL_MEDIA_TYPE)
    "Plugin Host policy ACL Artifact media type is unsupported" ;;
  fail_if (self.(trust_root).(ArtifactRef.digest) == self.(policy_acl).(ArtifactRef.digest))
    "Plugin Host trust-root and policy ACL digests must differ".

Definition new (generation : N) (trust_root policy_acl : ArtifactRef.t) : result t :=
  let request := Mk SCHEMA generation trust_root policy_acl in
  validate request ;; Ok request.

Definition from_digests (generation : N) (trust_root_digest policy_digest : string) : result t :=
  trust_root_uri ← artifact_uri trust_root_digest;
  policy_uri ← artifact_uri policy_digest;
  new generation (ArtifactRef.Mk trust_root_uri trust_root_digest PLUGIN_TRUST_ROOT_MEDIA_TYPE)
    (ArtifactRef.Mk policy_uri policy_digest PLUGIN_POLICY_ACL_MEDIA_TYPE).

Definition to_json (self : t) : json :=
  JObj [("schema", JStr self.(schema));
        ("generation", JNum self.(generation));
        ("trust_root", artifact_to_json self.(trust_root));
        ("policy_acl", artifact_to_json self.(policy_acl))]%string.

Definition binding_digest (self : t) : result string :=
  validate self ;;
  digest_json (to_json self) "could not encode Plugin Host authorize-trust request: {error}".

End requests.
End NodePluginHostAuthorizeTrustRequest.

Module NodePluginHostTrustAuthorized.

Record t := Mk {
  schema : string;
  generation : N;
  trust_root_digest : string;
  policy_digest : string;
  authorized_at : Time;
}.

#[global] Instance t_eq_dec : EqDecision t.
Proof. solve_decision. Defined.
#[global] Instance t_eta : Eta t := fun r =>
  Mk r.(schema) r.(generation) r.(trust_root_digest) r.(policy_digest) r.(authorized_at).

Definition SCHEMA : string := "a3s.cloud.plugin-host-trust-authorized.v1".

Definition validate (self : t) : result unit :=
  check_schema self.(schema) SCHEMA "unsupported Plugin Host trust-authorized schema {:?}" ;;
  fail_if (self.(generation) =? 0)%N "Plugin Host trust-authorized generation must be positive" ;;
  validate_lower_sha256 "trust-root digest" self.(trust_root_digest) ;;
  validate_lower_sha256 "policy digest" self.(policy_digest) ;;
  fail_if (self.(trust_root_digest) == self.(policy_digest))
    "Plugin Host trust-root and policy digests must differ".

Definition new (generation : N) (trust_root_digest policy_digest : string) (authorized_at : Time) : result t :=
  let authorized := Mk SCHEMA generation trust_root_digest policy_digest authorized_at in
  validate authorized ;; Ok authorized.

Definition validate_for `{ArtifactContract} (self : t) (request : NodePluginHostAuthorizeTrustRequest.t) :
    result unit :=
  validate self ;;
  NodePluginHostAuthorizeTrustRequest.validate request ;;
  fail_if ((self.(generation) != request.(NodePluginHostAuthorizeTrustRequest.generation))
           || (self.(trust_root_digest)
                 != request.(NodePluginHostAuthorizeTrustRequest.trust_root).(ArtifactRef.digest))
           || (self.(policy_digest)
                 != request.(NodePluginHostAuthorizeTrustRequest.policy_acl).(ArtifactRef.digest)))
    "Plugin Host trust-authorized result does not match its authorize-trust request".

End NodePluginHostTrustAuthorized.
