(* ===== verification/NodeBoxBuild.v ===== *)
(** * Box builds on a node

    [contracts/src/node/box_build.rs]: a build request binds a source artifact to one plan per
    platform; every answer of the node carries the digest of the exact request. *)

From Stdlib Require Import ZArith NArith Lia String.
From S2P Require Import Prelude RustStd External Text Resources NodeArtifacts.

Definition BOX_BUILD_OUTPUT_NAME : string := "oci-layout".
Definition BOX_BUILD_CACHE_OUTPUT_PREFIX : string := "build-cache-".
Definition OCI_IMAGE_INDEX_MEDIA_TYPE : string := "application/vnd.oci.image.index.v1+json".
Definition OCI_IMAGE_MANIFEST_MEDIA_TYPE : string := "application/vnd.oci.image.manifest.v1+json".
Definition MAX_BUILD_PLANS : N := 8.
Definition MAX_BUILD_PLAN_BYTES : N := 16384.
Definition MAX_BUILD_CACHE_ENTRIES : N := 16384.
Definition MAX_BOX_ARTIFACT_BYTES : N := 10737418240.

(** [(low..=high).contains(&n)] *)
Definition in_range (low high n : N) : bool := ((low <=? n) && (n <=? high))%N.

Module NodeBoxBuildPlatform.

Record t := Mk { os : string; architecture : string; variant : option string }.

#[global] Instance t_eq_dec : EqDecision t.
Proof. solve_decision. Defined.

Definition validate (self : t) : result unit :=
  fail_if ((self.(os) != "linux"%string)
           || negb (matches self.(architecture) ["amd64"; "arm64"]%string))
    "Box build platform must be linux/amd64 or linux/arm64" ;;
  fail_if (is_some_and (fun variant => negb (is_ok (validate_single_line "Box build platform variant" variant 64)))
             self.(variant))
    "Box build platform variant is invalid".

Definition identity (self : t) : string :=
  (self.(os) ++ "/" ++ self.(architecture) ++ "/" ++ default EmptyString self.(variant))%string.

Definition to_json (self : t) : json :=
  JObj ([("os", JStr self.(os)); ("architecture", JStr self.(architecture))]%string
        ++ optional_member "variant" JStr self.(variant)).

End NodeBoxBuildPlatform.

Module NodeBoxBuildDescriptor.

Record t := Mk { media_type : string; digest : string; size : N }.

#[global] Instance t_eq_dec : EqDecision t.
Proof. solve_decision. Defined.

Definition validate (self : t) (expected_media_type : string) : result unit :=
  fail_if ((self.(media_type) != expected_media_type) || (self.(size) =? 0)%N)
    "Box build descriptor media type or size is invalid" ;;
  validate_lower_sha256 "Box build descriptor digest" self.(digest).

Definition to_json (self : t) : json :=
  JObj [("mediaType", JStr self.(media_type)); ("digest", JStr self.(digest)); ("size", JNum self.(size))]%string.

End NodeBoxBuildDescriptor.

Module NodeBoxBuildCacheReceipt.

Record t := Mk {
  schema : string;
  key : string;
  source_digest : string;
  plan_digest : string;
  descriptor : NodeBoxBuildDescriptor.t;
  platform : NodeBoxBuildPlatform.t;
  content_bytes : N;
  entry_count : N;
  blob_count : N;
  blob_inventory_digest : string;
}.

#[global] Instance t_eq_dec : EqDecision t.
Proof. solve_decision. Defined.

Definition SCHEMA : string := "a3s.box.build-cache-receipt.v1".

Definition validate (self : t) : result unit :=
  fail_if (self.(schema) != SCHEMA) "Box build cache receipt schema is unsupported" ;;
  validate_lower_sha256 "Box build cache key" self.(key) ;;
  validate_lower_sha256 "Box build cache source digest" self.(source_digest) ;;
  validate_lower_sha256 "Box build cache plan digest" self.(plan_digest) ;;
  validate_lower_sha256 "Box build cache blob inventory digest" self.(blob_inventory_digest) ;;
  NodeBoxBuildDescriptor.validate self.(descriptor) OCI_IMAGE_MANIFEST_MEDIA_TYPE ;;
  NodeBoxBuildPlatform.validate self.(platform) ;;
  fail_if ((self.(content_bytes) <? self.(descriptor).(NodeBoxBuildDescriptor.size))%N
           || (MAX_BUILD_CACHE_ENTRIES <? self.(entry_count))%N
           || (self.(blob_count) <? 2)%N)
    "Box build cache receipt bounds are invalid".

Definition to_json (self : t) : json :=
  JObj [("schema", JStr self.(schema));
        ("key", JStr self.(key));
        ("sourceDigest", JStr self.(source_digest));
        ("planDigest", JStr self.(plan_digest));
        ("descriptor", NodeBoxBuildDescriptor.to_json self.(descriptor));
        ("platform", NodeBoxBuildPlatform.to_json self.(platform));
        ("contentBytes", JNum self.(content_bytes));
        ("entryCount", JNum self.(entry_count));
        ("blobCount", JNum self.(blob_count));
        ("blobInventoryDigest", JStr self.(blob_inventory_digest))]%string.

End NodeBoxBuildCacheReceipt.

Module NodeBoxBuildCacheInput.

Record t := Mk { artifact : ArtifactRef.t; receipt : NodeBoxBuildCacheReceipt.t }.

#[global] Instance t_eq_dec : EqDecision t.
Proof. solve_decision. Defined.

Definition validate `{ArtifactContract} (self : t) (source_digest plan_digest : string) : result unit :=
  validate_cloud_artifact self.(artifact) ;;
  NodeBoxBuildCacheReceipt.validate self.(receipt) ;;
  fail_if (self.(receipt).(NodeBoxBuildCacheReceipt.source_digest) != source_digest)
    "Box build cache source does not match the build input Artifact" ;;
  fail_if (self.(receipt).(NodeBoxBuildCacheReceipt.plan_digest) != plan_digest)
    "Box build cache does not match the canonical build plan".

Definition to_json `{ArtifactContract} (self : t) : json :=
  JObj [("artifact", artifact_to_json self.(artifact));
        ("receipt", NodeBoxBuildCacheReceipt.to_json self.(receipt))]%string.

End NodeBoxBuildCacheInput.

Module NodeBoxBuildPlan.

Record t := Mk { operation_id : string; plan_acl : string; cache : option NodeBoxBuildCacheInput.t }.

#[global] Instance t_eq_dec : EqDecision t.
Proof. solve_decision. Defined.

Section plans.
Context `{ArtifactContract} `{External}.

Definition plan_digest (self : t) : string := sha256_digest (bytes_of self.(plan_acl)).

Definition cache_output_name (self : t) : string :=
  (BOX_BUILD_CACHE_OUTPUT_PREFIX ++ sha256_hex (bytes_of self.(operation_id)))%string.

Definition validate (self : t) (source_digest : string) : result unit :=
  validate_single_line "Box build operation ID" self.(operation_id) 255 ;;
  fail_if (str_is_empty self.(plan_acl)
           || (MAX_BUILD_PLAN_BYTES <? str_len self.(plan_acl))%N
           || contains_any [NUL] self.(plan_acl)
           || negb (last_is LF (bytes_of self.(plan_acl))))
    "Box build plan must be bounded canonical A3S ACL" ;;
  match self.(cache) with
  | Some cache => NodeBoxBuildCacheInput.validate cache source_digest (plan_digest self)
  | None => Ok tt
  end.

Definition to_json (self : t) : json :=
  JObj ([("operationId", JStr self.(operation_id)); ("planAcl", JStr self.(plan_acl))]%string
        ++ optional_member "cache" NodeBoxBuildCacheInput.to_json self.(cache)).

End plans.
End NodeBoxBuildPlan.

Module NodeBoxBuildRequest.

Record t := Mk {
  schema : string;
  generation : N;
  source : ArtifactRef.t;
  plans : list NodeBoxBuildPlan.t;
  assembly_reference : option string;
  output_max_bytes : N;
  cache_max_bytes : N;
}.

#[global] Instance t_eq_dec : EqDecision t.
Proof. solve_decision. Defined.

Definition SCHEMA : string := "a3s.cloud.box-build-request.v1".

Section requests.
Context `{ArtifactContract} `{External}.

(** The loop over the plans, with the identities inserted so far. *)
Fixpoint validate_plans (source_digest : string) (operation_ids output_names : list string)
    (plans : list NodeBoxBuildPlan.t) : result unit :=
  match plans with
  | [] => Ok tt
  | plan :: rest =>
    let name := NodeBoxBuildPlan.cache_output_name plan in
    NodeBoxBuildPlan.validate plan source_digest ;;
    fail_if (bool_decide (plan.(NodeBoxBuildPlan.operation_id) ∈ operation_ids) || bool_decide (name ∈ output_names))
      "Box build plan identities must be unique" ;;
    validate_plans source_digest (plan.(NodeBoxBuildPlan.operation_id) :: operation_ids) (name :: output_names) rest
  end.

Definition validate (self : t) : result unit :=
  fail_if ((self.(schema) != SCHEMA) || (self.(generation) =? 0)%N)
    "Box build request schema or generation is invalid" ;;
  validate_cloud_artifact self.(source) ;;
  fail_if (negb (in_range 1 MAX_BUILD_PLANS (len self.(plans))))
    "Box build request must contain between one and eight plans" ;;
  validate_plans self.(source).(ArtifactRef.digest) [] [] self.(plans) ;;
  fail_if (any_pair (fun x y => leb y.(NodeBoxBuildPlan.operation_id) x.(NodeBoxBuildPlan.operation_id)) self.(plans))
    "Box build plans must be sorted by operation ID" ;;
  match self.(assembly_reference), self.(plans) with
  | None, [_] => Ok tt
  | Some reference, _ :: _ :: _ => validate_single_line "Box build assembly reference" reference 4096
  | _, _ => err "Box build assembly reference must exist only for multi-platform output"
  end ;;
  fail_if (negb (in_range 1 MAX_BOX_ARTIFACT_BYTES self.(output_max_bytes))
           || negb (in_range 1 MAX_BOX_ARTIFACT_BYTES self.(cache_max_bytes)))
    "Box build Artifact bounds are invalid".

Definition to_json (self : t) : json :=
  JObj ([("schema", JStr self.(schema));
         ("generation", JNum self.(generation));
         ("source", artifact_to_json self.(source));
         ("plans", JArr (map NodeBoxBuildPlan.to_json self.(plans)))]%string
        ++ optional_member "assemblyReference" JStr self.(assembly_reference)
        ++ [("outputMaxBytes", JNum self.(output_max_bytes));
            ("cacheMaxBytes", JNum self.(cache_max_bytes))]%string).

Definition binding_digest (self : t) : result string :=
  validate self ;;
  digest_json (to_json self) "could not encode Box build request: {error}".

End requests.
End NodeBoxBuildRequest.

(** ** Answers of the node *)
Module NodeBoxBuildPhase.

Inductive t :=
| Running
| Cancelling
| Succeeded
| Cancelled (message : string)
| Failed (message : string).

#[global] Instance t_eq_dec : EqDecision t.
Proof. solve_decision. Defined.

Definition validate (self : t) : result unit :=
  match self with
  | Cancelled message | Failed message => validate_single_line "Box build terminal message" message (4 * 1024)
  | Running | Cancelling | Succeeded => Ok tt
  end.

End NodeBoxBuildPhase.

Module NodeBoxBuildStartResult.

Record t := Mk { binding_digest : string; phase : NodeBoxBuildPhase.t }.

#[global] Instance t_eq_dec : EqDecision t.
Proof. solve_decision. Defined.

Definition validate_for `{ArtifactContract} `{External} (self : t) (request : NodeBoxBuildRequest.t) : result unit :=
  NodeBoxBuildRequest.validate request ;;
  NodeBoxBuildPhase.validate self.(phase) ;;
  expected ← NodeBoxBuildRequest.binding_digest request;
  fail_if (self.(binding_digest) != expected) "Box build start result changed the request identity".

End NodeBoxBuildStartResult.

Module NodeBoxBuildCacheOutput.

Record t := Mk { operation_id : string; artifact : RuntimeOutputArtifact.t; receipt : NodeBoxBuildCacheReceipt.t }.

#[global] Instance t_eq_dec : EqDecision t.
Proof. solve_decision. Defined.

Definition validate `{ArtifactContract} (self : t) : result unit :=
  let output := self.(artifact) in
  NodeBoxBuildCacheReceipt.validate self.(receipt) ;;
  validate_single_line "Box build cache operation ID" self.(operation_id) 255 ;;
  validate_single_line "Box build cache output name" output.(RuntimeOutputArtifact.name) 255 ;;
  fail_if ((output.(RuntimeOutputArtifact.artifact).(ArtifactRef.media_type) != NODE_DIRECTORY_ARTIFACT_MEDIA_TYPE)
           || (output.(RuntimeOutputArtifact.size_bytes) =? 0)%N
           || (MAX_BOX_ARTIFACT_BYTES <? output.(RuntimeOutputArtifact.size_bytes))%N)
    "Box build cache output identity or bounds are invalid" ;;
  validate_cloud_artifact output.(RuntimeOutputArtifact.artifact).

Definition validate_for `{ArtifactContract} `{External} (self : t) (plan : NodeBoxBuildPlan.t)
    (request : NodeBoxBuildRequest.t) : result unit :=
  validate self ;;
  fail_if ((self.(operation_id) != plan.(NodeBoxBuildPlan.operation_id))
           || (self.(artifact).(RuntimeOutputArtifact.name) != NodeBoxBuildPlan.cache_output_name plan)
           || (request.(NodeBoxBuildRequest.cache_max_bytes) <? self.(artifact).(RuntimeOutputArtifact.size_bytes))%N
           || (self.(receipt).(NodeBoxBuildCacheReceipt.source_digest)
                 != request.(NodeBoxBuildRequest.source).(ArtifactRef.digest))
           || (self.(receipt).(NodeBoxBuildCacheReceipt.plan_digest) != NodeBoxBuildPlan.plan_digest plan))
    "Box build cache output changed its admitted identity or bound".

(** [cache.receipt.platform.identity()] *)
Definition platform_identity (self : t) : string :=
  NodeBoxBuildPlatform.identity self.(receipt).(NodeBoxBuildCacheReceipt.platform).

End NodeBoxBuildCacheOutput.

Module NodeBoxBuildOutput.

Record t := Mk {
  artifact : RuntimeOutputArtifact.t;
  descriptor : NodeBoxBuildDescriptor.t;
  platforms : list NodeBoxBuildPlatform.t;
  manifest_count : N;
  content_bytes : N;
  blob_count : N;
  blob_inventory_digest : string;
  caches : list NodeBoxBuildCacheOutput.t;
}.

#[global] Instance t_eq_dec : EqDecision t.
Proof. solve_decision. Defined.

(** The loop over the platforms. *)
Fixpoint validate_platforms (platform_ids : list string) (platforms : list NodeBoxBuildPlatform.t) : result unit :=
  match platforms with
  | [] => Ok tt
  | platform :: rest =>
    NodeBoxBuildPlatform.validate platform ;;
    fail_if (bool_decide (NodeBoxBuildPlatform.identity platform ∈ platform_ids))
      "Box build output platforms must be unique" ;;
    validate_platforms (NodeBoxBuildPlatform.identity platform :: platform_ids) rest
  end.

Section outputs.
Context `{ArtifactContract} `{External}.

(** The loop over the caches; [source_digest] is the digest of the cache before. *)
Fixpoint validate_caches (operation_ids cache_platforms : list string) (source_digest : option string)
    (caches : list NodeBoxBuildCacheOutput.t) : result unit :=
  match caches with
  | [] => Ok tt
  | cache :: rest =>
    let digest := cache.(NodeBoxBuildCacheOutput.receipt).(NodeBoxBuildCacheReceipt.source_digest) in
    NodeBoxBuildCacheOutput.validate cache ;;
    fail_if (bool_decide (cache.(NodeBoxBuildCacheOutput.operation_id) ∈ operation_ids)
             || bool_decide (NodeBoxBuildCacheOutput.platform_identity cache ∈ cache_platforms)
             || is_some_and (fun expected => expected != digest) source_digest)
      "Box build cache outputs must have unique consistent identities" ;;
    validate_caches (cache.(NodeBoxBuildCacheOutput.operation_id) :: operation_ids)
      (NodeBoxBuildCacheOutput.platform_identity cache :: cache_platforms) (Some digest) rest
  end.

(** Equality of two sets given by their elements. *)
Definition same_set (a b : list string) : bool :=
  all (fun x => bool_decide (x ∈ b)) a && all (fun x => bool_decide (x ∈ a)) b.

Definition validate (self : t) : result unit :=
  let output := self.(artifact) in
  validate_single_line "Box build output name" output.(RuntimeOutputArtifact.name) 255 ;;
  validate_cloud_artifact output.(RuntimeOutputArtifact.artifact) ;;
  fail_if (negb (matches self.(descriptor).(NodeBoxBuildDescriptor.media_type)
                   [OCI_IMAGE_MANIFEST_MEDIA_TYPE; OCI_IMAGE_INDEX_MEDIA_TYPE]))
    "Box build output descriptor media type is invalid" ;;
  NodeBoxBuildDescriptor.validate self.(descriptor) self.(descriptor).(NodeBoxBuildDescriptor.media_type) ;;
  validate_lower_sha256 "Box build output blob inventory digest" self.(blob_inventory_digest) ;;
  fail_if ((output.(RuntimeOutputArtifact.name) != BOX_BUILD_OUTPUT_NAME)
           || (output.(RuntimeOutputArtifact.artifact).(ArtifactRef.media_type) != NODE_DIRECTORY_ARTIFACT_MEDIA_TYPE)
           || (output.(RuntimeOutputArtifact.size_bytes) =? 0)%N
           || (MAX_BOX_ARTIFACT_BYTES <? output.(RuntimeOutputArtifact.size_bytes))%N
           || negb (in_range 1 MAX_BUILD_PLANS (len self.(platforms)))
           || negb (self.(manifest_count) =? len self.(platforms))%N
           || (self.(content_bytes) <? self.(descriptor).(NodeBoxBuildDescriptor.size))%N
           || (self.(blob_count) <? 2)%N
           || negb (len self.(caches) =? len self.(platforms))%N)
    "Box build output identity or bounds are invalid" ;;
  validate_platforms [] self.(platforms) ;;
  fail_if (any_pair (fun x y => leb (NodeBoxBuildPlatform.identity y) (NodeBoxBuildPlatform.identity x)) self.(platforms))
    "Box build output platforms must be sorted" ;;
  validate_caches [] [] None self.(caches) ;;
  fail_if (negb (same_set (map NodeBoxBuildCacheOutput.platform_identity self.(caches))
                   (map NodeBoxBuildPlatform.identity self.(platforms))))
    "Box build cache platforms must match the output platforms".

Definition validate_for (self : t) (request : NodeBoxBuildRequest.t) : result unit :=
  validate self ;;
  let expected_media_type :=
    if (len request.(NodeBoxBuildRequest.plans) =? 1)%N then OCI_IMAGE_MANIFEST_MEDIA_TYPE
    else OCI_IMAGE_INDEX_MEDIA_TYPE in
  NodeBoxBuildDescriptor.validate self.(descriptor) expected_media_type ;;
  fail_if ((request.(NodeBoxBuildRequest.output_max_bytes) <? self.(artifact).(RuntimeOutputArtifact.size_bytes))%N
           || negb (len self.(platforms) =? len request.(NodeBoxBuildRequest.plans))%N)
    "Box build output changed its admitted identity or bounds" ;;
  for_each (fun cp => NodeBoxBuildCacheOutput.validate_for cp.1 cp.2 request)
    (combine self.(caches) request.(NodeBoxBuildRequest.plans)).

End outputs.
End NodeBoxBuildOutput.

Module NodeBoxBuildInspection.

Inductive t :=
| Running (binding_digest : string)
| Cancelling (binding_digest : string)
| Cancelled (binding_digest message : string)
| Failed (binding_digest message : string)
| Succeeded (binding_digest : string) (output : NodeBoxBuildOutput.t).

#[global] Instance t_eq_dec : EqDecision t.
Proof. solve_decision. Defined.

Definition binding_digest (self : t) : string :=
  match self with
  | Running d | Cancelling d | Cancelled d _ | Failed d _ | Succeeded d _ => d
  end.

Definition validate_for `{ArtifactContract} `{External} (self : t) (request : NodeBoxBuildRequest.t) : result unit :=
  NodeBoxBuildRequest.validate request ;;
  expected ← NodeBoxBuildRequest.binding_digest request;
  fail_if (binding_digest self != expected) "Box build inspection changed the request identity" ;;
  match self with
  | Cancelled _ message | Failed _ message => validate_single_line "Box build terminal message" message (4 * 1024)
  | Succeeded _ output => NodeBoxBuildOutput.validate_for output request
  | Running _ | Cancelling _ => Ok tt
  end.

End NodeBoxBuildInspection.

Module NodeBoxBuildCancellation.

Inductive t := NotFound | Requested | AlreadyRequested | AlreadyCancelled | AlreadyTerminal.

#[global] Instance t_eq_dec : EqDecision t.
Proof. solve_decision. Defined.

End NodeBoxBuildCancellation.

Module NodeBoxBuildOperationCancellation.
Record t := Mk { operation_id : string; outcome : NodeBoxBuildCancellation.t }.
#[global] Instance t_eq_dec : EqDecision t.
Proof. solve_decision. Defined.
End NodeBoxBuildOperationCancellation.

Module NodeBoxBuildCancelResult.

Record t := Mk { binding_digest : string; operations : list NodeBoxBuildOperationCancellation.t }.

#[global] Instance t_eq_dec : EqDecision t.
Proof. solve_decision. Defined.

Definition validate_for `{ArtifactContract} `{External} (self : t) (request : NodeBoxBuildRequest.t) : result unit :=
  NodeBoxBuildRequest.validate request ;;
  expected ← NodeBoxBuildRequest.binding_digest request;
  fail_if ((self.(binding_digest) != expected)
           || negb (len self.(operations) =? len request.(NodeBoxBuildRequest.plans))%N
           || any (fun op => op.1.(NodeBoxBuildOperationCancellation.operation_id)
                               != op.2.(NodeBoxBuildPlan.operation_id))
                (combine self.(operations) request.(NodeBoxBuildRequest.plans)))
    "Box build cancellation changed the request operations".

End NodeBoxBuildCancelResult.

Module NodeBoxBuildOperationRemoval.
Record t := Mk { operation_id : string; removed : bool }.
#[global] Instance t_eq_dec : EqDecision t.
Proof. solve_decision. Defined.
End NodeBoxBuildOperationRemoval.

Module NodeBoxBuildRemoveResult.

Record t := Mk { binding_digest : string; operations : list NodeBoxBuildOperationRemoval.t; assembly_removed : bool }.

#[global] Instance t_eq_dec : EqDecision t.
Proof. solve_decision. Defined.

Definition validate_for `{ArtifactContract} `{External} (self : t) (request : NodeBoxBuildRequest.t) : result unit :=
  NodeBoxBuildRequest.validate request ;;
  expected ← NodeBoxBuildRequest.binding_digest request;
  fail_if ((self.(binding_digest) != expected)
           || negb (len self.(operations) =? len request.(NodeBoxBuildRequest.plans))%N
           || any (fun op => op.1.(NodeBoxBuildOperationRemoval.operation_id)
                               != op.2.(NodeBoxBuildPlan.operation_id))
                (combine self.(operations) request.(NodeBoxBuildRequest.plans))
           || (is_none request.(NodeBoxBuildRequest.assembly_reference) && self.(assembly_removed)))
    "Box build removal changed the request operations".

End NodeBoxBuildRemoveResult.
