(* ===== verification/AgentProvider.v ===== *)
(** * Agent providers

    [contracts/src/agent_provider]: the immutable profile of a provider, parsed from canonical ACL
    text ([profile.rs]); the invocation a run is bound to ([invocation.rs]); and the commands and
    receipts of a run ([protocol.rs]).  The ACL syntax belongs to the crate [a3s_acl] and is the
    class [AclContract]. *)

From Stdlib Require Import ZArith NArith Lia String Ascii.
From S2P Require Import Prelude RustStd External Text.

(** [Result<_, String>] collected over a list: the first error wins. *)
Fixpoint collect {A B} (f : A -> result B) (l : list A) : result (list B) :=
  match l with
  | [] => Ok []
  | x :: r => y ← f x; ys ← collect f r; Ok (y :: ys)
  end.

Class AclContract := {
  Document : Type;
  Block : Type;
  Value : Type;
  (** [Err] holds the [Display] of the crate's error *)
  acl_parse : string -> string + Document;
  canonical_bytes : Document -> string + list N;
  acl_canonical_digest : Document -> string + string;
  document_blocks : Document -> list Block;
  block_name : Block -> string;
  block_labels : Block -> list string;
  block_blocks : Block -> list Block;
  (** [attributes.get(name)] and [attributes.len()] *)
  block_attribute : Block -> string -> option Value;
  block_attributes : Block -> N;
  value_as_str : Value -> option string;
  value_as_list : Value -> option (list Value);
}.

(** [.map_err(|error| format!(message, error))] *)
Definition map_acl {A} (message : string) (r : string + A) : result A :=
  match r with inl error => errf message [FStr error] | inr a => Ok a end.

Definition AGENT_PROVIDER_PROFILE_SCHEMA_V1 : string := "a3s.cloud.agent-provider-profile.v1".
Definition AGENT_PROVIDER_PROTOCOL_V1 : string := "a3s.cloud.agent-provider.v1".
Definition NATIVE_CODE_AGENT_PROVIDER_KIND : string := "a3s.code".
Definition AGENT_PROVIDER_BLOCK : string := "agent_provider".
Definition AGENT_PROVIDER_PROFILE_MAX_ACL_BYTES : N := 16384.
Definition AGENT_PROVIDER_MAX_PROMPT_BYTES : N := 1048576.
Definition PROFILE_ATTRIBUTES : list string :=
  ["capabilities"; "native_protocol"; "protocol"; "revision"; "schema"]%string.

(** ** Capabilities *)
Module AgentProviderCapabilityV1.

Inductive t :=
| Cancellation
| ChangeSet
| Checkpoints
| Cleanup
| EventPages
| PauseResume
| Recovery
| StreamingOutput
| ToolCalls.

#[global] Instance t_eq_dec : EqDecision t.
Proof. solve_decision. Defined.

Definition as_str (self : t) : string :=
  match self with
  | Cancellation => "cancellation"
  | ChangeSet => "change_set"
  | Checkpoints => "checkpoints"
  | Cleanup => "cleanup"
  | EventPages => "event_pages"
  | PauseResume => "pause_resume"
  | Recovery => "recovery"
  | StreamingOutput => "streaming_output"
  | ToolCalls => "tool_calls"
  end.

Definition parse (value : string) : result t :=
  if value == "cancellation"%string then Ok Cancellation
  else if value == "change_set"%string then Ok ChangeSet
  else if value == "checkpoints"%string then Ok Checkpoints
  else if value == "cleanup"%string then Ok Cleanup
  else if value == "event_pages"%string then Ok EventPages
  else if value == "pause_resume"%string then Ok PauseResume
  else if value == "recovery"%string then Ok Recovery
  else if value == "streaming_output"%string then Ok StreamingOutput
  else if value == "tool_calls"%string then Ok ToolCalls
  else errf "unknown Agent provider capability {value:?}" [FStr value].

#[global] Instance names : StrEnum t := {| Prelude.as_str := as_str; Prelude.parse := parse |}.
#[global] Instance names_laws : StrEnumLaws t.
Proof. solve_str_enum. Qed.

Definition to_json (self : t) : json := JStr (as_str self).

End AgentProviderCapabilityV1.

(** [windows(2).all(|pair| pair[0].as_str() < pair[1].as_str())] *)
Definition capabilities_sorted (l : list AgentProviderCapabilityV1.t) : bool :=
  negb (any_pair (fun x y => leb (AgentProviderCapabilityV1.as_str y) (AgentProviderCapabilityV1.as_str x)) l).

Definition BASELINE : list AgentProviderCapabilityV1.t :=
  [AgentProviderCapabilityV1.Cancellation; AgentProviderCapabilityV1.Cleanup; AgentProviderCapabilityV1.EventPages].

Definition validate_capability_order (capabilities : list AgentProviderCapabilityV1.t) (allow_empty : bool) :
    result unit :=
  fail_if ((negb allow_empty && is_empty capabilities)
           || (32 <? len capabilities)%N
           || negb (capabilities_sorted capabilities))
    "Agent provider capabilities must be a sorted unique bounded list".

(** ** Syntax shared by the contracts of this module *)
Definition validate_digest (label value : string) : result unit :=
  if is_sha256_digest value then Ok tt
  else errf "{label} must use canonical lowercase SHA-256 syntax" [FStr label].

Definition validate_line (label value : string) (max : N) : result unit :=
  if str_is_empty (trim value)
     || (max <? str_len value)%N
     || contains_any [NUL] value
     || contains_any [CR; LF] value
  then errf "{label} must be a bounded nonempty single-line value" [FStr label]
  else Ok tt.

Definition validate_dotted_identifier (label value : string) (max : N) : result unit :=
  if str_is_empty value
     || (max <? str_len value)%N
     || any (fun segment =>
          is_empty segment || first_is HYPHEN segment || last_is HYPHEN segment || negb (all is_dns_byte segment))
          (split_bytes DOT (bytes_of value))
  then errf "{label} must use portable dotted lowercase syntax" [FStr label]
  else Ok tt.

Definition validate_revision (value : string) : result unit :=
  let bytes := bytes_of value in
  let punctuation (b : N) := ((b =? DOT) || (b =? HYPHEN) || (b =? PLUS))%N in
  fail_if (str_is_empty value
           || (128 <? str_len value)%N
           || is_some_and punctuation (head bytes)
           || is_some_and punctuation (last bytes)
           || negb (all (fun b => is_ascii_alphanumeric b || punctuation b) bytes))
    "Agent provider revision is invalid".

(** ** Profiles *)
Module AgentProviderProfile.
Import AgentProviderCapabilityV1.

Record t := Mk {
  kind : string;
  revision : string;
  protocol : string;
  native_protocol : string;
  capabilities : list AgentProviderCapabilityV1.t;
  canonical_acl : string;
  digest : string;
  capability_digest : string;
}.

#[global] Instance t_eq_dec : EqDecision t.
Proof. solve_decision. Defined.

Definition supports (self : t) (capability : AgentProviderCapabilityV1.t) : bool :=
  bool_decide (capability ∈ self.(capabilities)).

(** [source.replace("\r\n", "\n")] *)
Fixpoint replace_crlf (l : list N) : list N :=
  match l with
  | a :: ((b :: r) as r') => if ((a =? CR) && (b =? LF))%N then LF :: replace_crlf r else a :: replace_crlf r'
  | l => l
  end.

Section profiles.
Context `{AclContract} `{External}.

Definition exact_root_block (document : Document) : result Block :=
  match document_blocks document with
  | [root] =>
    match block_labels root with
    | [_] =>
      if (block_name root != AGENT_PROVIDER_BLOCK)
         || negb (is_empty (block_blocks root))
         || negb (block_attributes root =? len PROFILE_ATTRIBUTES)%N
         || any (fun name => is_none (block_attribute root name)) PROFILE_ATTRIBUTES
      then err "Agent provider profile root shape is invalid"
      else Ok root
    | _ => err "Agent provider profile root shape is invalid"
    end
  | _ => err "Agent provider profile requires exactly one root block"
  end.

(** [root.labels[0]], after [exact_root_block] *)
Definition root_label (root : Block) : string := default EmptyString (head (block_labels root)).

Definition required_value (block : Block) (name : string) : result Value :=
  match block_attribute block name with
  | Some value => Ok value
  | None => errf "Agent provider profile field {name:?} is required" [FStr name]
  end.

Definition required_string (block : Block) (name : string) : result string :=
  value ← required_value block name;
  match value_as_str value with
  | Some s => Ok s
  | None => errf "Agent provider profile field {name:?} must be a string" [FStr name]
  end.

Definition required_string_list (block : Block) (name : string) : result (list string) :=
  value ← required_value block name;
  match value_as_list value with
  | Some values =>
    collect (fun value => match value_as_str value with
                          | Some s => Ok s
                          | None => errf "Agent provider profile field {name:?} must be a string list" [FStr name]
                          end) values
  | None => errf "Agent provider profile field {name:?} must be a string list" [FStr name]
  end.

Definition digest_capabilities (capabilities : list AgentProviderCapabilityV1.t) : result string :=
  validate_capability_order capabilities false ;;
  digest_json (JArr (map AgentProviderCapabilityV1.to_json capabilities))
    "could not encode Agent provider capabilities: {error}".

(** [String::from_utf8(canonical)]: the bytes are those of the source text. *)
Definition parse_acl_inner (source : string) : result t :=
  fail_if (str_is_empty source || (AGENT_PROVIDER_PROFILE_MAX_ACL_BYTES <? str_len source)%N)
    "Agent provider profile ACL size is invalid" ;;
  document ← map_acl "Agent provider profile ACL is invalid: {error}" (acl_parse source);
  canonical ← map_acl "Agent provider profile is not canonicalizable: {error}" (canonical_bytes document);
  fail_if (bytes_of source != canonical) "Agent provider profile ACL is not canonical" ;;
  root ← exact_root_block document;
  revision ← required_string root "revision";
  protocol ← required_string root "protocol";
  native_protocol ← required_string root "native_protocol";
  names ← required_string_list root "capabilities";
  capabilities ← collect AgentProviderCapabilityV1.parse names;
  capability_digest ← digest_capabilities capabilities;
  digest ← map_acl "Agent provider profile digest failed: {error}" (acl_canonical_digest document);
  Ok (Mk (root_label root) revision protocol native_protocol capabilities (str_of canonical) digest capability_digest).

Definition validate (self : t) : result unit :=
  restored ← parse_acl_inner self.(canonical_acl);
  fail_if ((self.(kind) != restored.(kind))
           || (self.(revision) != restored.(revision))
           || (self.(protocol) != restored.(protocol))
           || (self.(native_protocol) != restored.(native_protocol))
           || (self.(capabilities) != restored.(capabilities))
           || (self.(digest) != restored.(digest))
           || (self.(capability_digest) != restored.(capability_digest)))
    "Agent provider profile changed its canonical identity".

Definition parse_acl (source : string) : result t :=
  fail_if (str_is_empty source || (AGENT_PROVIDER_PROFILE_MAX_ACL_BYTES <? str_len source)%N)
    "Agent provider profile ACL size is invalid" ;;
  fail_if (contains_any [CR] source && negb (str_contains (str_of [CR; LF]) source))
    "Agent provider profile contains a bare carriage return" ;;
  let normalized := str_of (replace_crlf (bytes_of source)) in
  document ← map_acl "Agent provider profile ACL is invalid: {error}" (acl_parse normalized);
  canonical ← map_acl "Agent provider profile is not canonicalizable: {error}" (canonical_bytes document);
  fail_if (bytes_of normalized != canonical) "Agent provider profile ACL is not canonical" ;;
  root ← exact_root_block document;
  let kind := root_label root in
  validate_dotted_identifier "Agent provider kind" kind 64 ;;
  schema ← required_string root "schema";
  check_schema schema AGENT_PROVIDER_PROFILE_SCHEMA_V1 "unsupported Agent provider profile schema {schema:?}" ;;
  protocol ← required_string root "protocol";
  check_schema protocol AGENT_PROVIDER_PROTOCOL_V1 "unsupported Agent provider protocol {protocol:?}" ;;
  revision ← required_string root "revision";
  validate_revision revision ;;
  native_protocol ← required_string root "native_protocol";
  validate_dotted_identifier "Agent provider native protocol" native_protocol 128 ;;
  names ← required_string_list root "capabilities";
  capabilities ← collect AgentProviderCapabilityV1.parse names;
  validate_capability_order capabilities false ;;
  for_each (fun required =>
      if bool_decide (required ∈ capabilities) then Ok tt
      else errf "Agent provider profile omits required baseline capability {:?}"
             [FStr (AgentProviderCapabilityV1.as_str required)]) BASELINE ;;
  capability_digest ← digest_capabilities capabilities;
  digest ← map_acl "Agent provider profile digest failed: {error}" (acl_canonical_digest document);
  let profile := Mk kind revision protocol native_protocol capabilities (str_of canonical) digest capability_digest in
  validate profile ;;
  Ok profile.

Definition restore (source stored_digest : string) : result t :=
  profile ← parse_acl source;
  fail_if (profile.(digest) != stored_digest) "stored Agent provider profile ACL and digest do not match" ;;
  Ok profile.

End profiles.
End AgentProviderProfile.

Module AgentProviderCapabilityRequirementsV1.

Record t := Mk { schema : string; required : list AgentProviderCapabilityV1.t }.

Definition SCHEMA : string := "a3s.cloud.agent-provider-capability-requirements.v1".

Definition validate (self : t) : result unit :=
  check_schema self.(schema) SCHEMA "unsupported Agent provider capability-requirements schema {:?}" ;;
  validate_capability_order self.(required) true.

Definition new (required : list AgentProviderCapabilityV1.t) : result t :=
  let requirements := Mk SCHEMA required in
  validate requirements ;; Ok requirements.

Definition digest `{External} (self : t) : result string :=
  validate self ;;
  digest_json (JObj [("schema", JStr self.(schema));
                     ("required", JArr (map AgentProviderCapabilityV1.to_json self.(required)))]%string)
    "could not encode Agent provider capability requirements: {error}".

End AgentProviderCapabilityRequirementsV1.

Module AgentProviderCapabilityNegotiationV1.

Record t := Mk {
  schema : string;
  provider_profile_digest : string;
  provider_capability_digest : string;
  requirements_digest : string;
  negotiated : list AgentProviderCapabilityV1.t;
}.

Definition SCHEMA : string := "a3s.cloud.agent-provider-capability-negotiation.v1".

Section negotiation.
Context `{AclContract} `{External}.

Definition validate_for (self : t) (profile : AgentProviderProfile.t)
    (requirements : AgentProviderCapabilityRequirementsV1.t) : result unit :=
  AgentProviderProfile.validate profile ;;
  AgentProviderCapabilityRequirementsV1.validate requirements ;;
  validate_capability_order self.(negotiated) true ;;
  let changed := "Agent provider capability negotiation changed its immutable evidence"%string in
  fail_if ((self.(schema) != SCHEMA)
           || (self.(provider_profile_digest) != profile.(AgentProviderProfile.digest))
           || (self.(provider_capability_digest) != profile.(AgentProviderProfile.capability_digest))) changed ;;
  expected ← AgentProviderCapabilityRequirementsV1.digest requirements;
  fail_if ((self.(requirements_digest) != expected)
           || (self.(negotiated) != requirements.(AgentProviderCapabilityRequirementsV1.required))
           || negb (all (AgentProviderProfile.supports profile) self.(negotiated))) changed.

(** [AgentProviderProfile::negotiate] *)
Definition negotiate (self : AgentProviderProfile.t) (requirements : AgentProviderCapabilityRequirementsV1.t) :
    result t :=
  AgentProviderProfile.validate self ;;
  AgentProviderCapabilityRequirementsV1.validate requirements ;;
  let unsupported :=
    map AgentProviderCapabilityV1.as_str
      (List.filter (fun capability => negb (AgentProviderProfile.supports self capability))
         requirements.(AgentProviderCapabilityRequirementsV1.required)) in
  (if negb (is_empty unsupported)
   then errf "Agent provider {:?} does not support required capabilities: {}"
          (FStr self.(AgentProviderProfile.kind) :: map FStr unsupported)
   else Ok tt) ;;
  requirements_digest ← AgentProviderCapabilityRequirementsV1.digest requirements;
  let negotiation :=
    Mk SCHEMA self.(AgentProviderProfile.digest) self.(AgentProviderProfile.capability_digest) requirements_digest
       requirements.(AgentProviderCapabilityRequirementsV1.required) in
  validate_for negotiation self requirements ;;
  Ok negotiation.

End negotiation.
End AgentProviderCapabilityNegotiationV1.
