(* ===== verification/AgentProviderRuns.v ===== *)
(** * Runs of an agent provider

    [contracts/src/agent_provider/invocation.rs]: the closed snapshot of everything a run may use;
    [contracts/src/agent_provider/protocol.rs]: the identity, commands and receipts of a run. *)

From Stdlib Require Import ZArith NArith Lia String.
From S2P Require Import Prelude RustStd External Text Resources AgentProvider.

Definition HARNESS_INVOCATION_PROFILE_MAX_BYTES : N := 262144.
Definition MAX_BINDINGS : N := 128.
Definition MAX_SAFE_JSON_INTEGER : N := 9007199254740991.

(** [sort_json]: the members of every object in the order of their names. *)
Fixpoint sort_json (value : json) : json :=
  match value with
  | JArr values => JArr (map sort_json values)
  | JObj values => JObj (sort_by_key fst (map (fun kv => (kv.1, sort_json kv.2)) values))
  | value => value
  end.

Definition canonical_json `{External} (value : json) : result (list N) :=
  encoded ← match json_to_vec (sort_json value) with
            | Ok bytes => Ok bytes
            | Err e => errf "could not encode Harness invocation profile: {error}" [FStr (template e)]
            end;
  fail_if (HARNESS_INVOCATION_PROFILE_MAX_BYTES <? len encoded)%N
    "Harness invocation profile exceeds {HARNESS_INVOCATION_PROFILE_MAX_BYTES} bytes" ;;
  Ok encoded.

(** ** The parts of an invocation *)
Definition validate_count (label : string) (count : N) : result unit :=
  if (MAX_BINDINGS <? count)%N then errf "Harness {label} binding count exceeds {MAX_BINDINGS}" [FStr label]
  else Ok tt.

Definition validate_portable_name (label value : string) (max : N) : result unit :=
  if str_is_empty value
     || (max <? str_len value)%N
     || negb (all (fun b => is_ascii_alphanumeric b || ((b =? HYPHEN) || (b =? UNDERSCORE) || (b =? DOT))%N)
                (bytes_of value))
  then errf "{label} is invalid" [FStr label]
  else Ok tt.

Definition validate_environment_key (value : string) : result unit :=
  let head_byte (b : N) := (b =? UNDERSCORE)%N || is_ascii_uppercase b in
  fail_if (str_is_empty value
           || (255 <? str_len value)%N
           || negb match bytes_of value with
                   | [] => true
                   | b :: rest => head_byte b && all (fun b => head_byte b || is_ascii_digit b) rest
                   end)
    "Harness Secret environment target is invalid".

Definition validate_absolute_path (value : string) : result unit :=
  let bytes := bytes_of value in
  fail_if (negb (first_is SLASH bytes)
           || (4096 <? str_len value)%N
           || contains_any [NUL; CR; LF] value
           || str_contains "//" value
           || negb (all (fun segment => negb (is_empty segment) && (segment != [DOT]) && (segment != [DOT; DOT]))
                      (drop 1 (split_bytes SLASH bytes))))
    "Harness Secret file target is invalid".

Module HarnessAgentReleaseBindingV1.

Record t := Mk {
  organization_id : Uuid;
  asset_id : Uuid;
  asset_release_id : Uuid;
  build_run_id : Uuid;
  artifact_digest : string;
}.

#[global] Instance t_eq_dec : EqDecision t.
Proof. solve_decision. Defined.

Definition validate (self : t) : result unit :=
  for_each (fun lv => validate_uuid lv.1 lv.2)
    [("organization ID"%string, self.(organization_id)); ("Agent Asset ID"%string, self.(asset_id));
     ("Agent Asset release ID"%string, self.(asset_release_id)); ("Agent BuildRun ID"%string, self.(build_run_id))] ;;
  validate_digest "Harness Agent artifact digest" self.(artifact_digest).

Definition to_json `{External} (self : t) : json :=
  JObj [("organizationId", JStr (uuid_display self.(organization_id)));
        ("assetId", JStr (uuid_display self.(asset_id)));
        ("assetReleaseId", JStr (uuid_display self.(asset_release_id)));
        ("buildRunId", JStr (uuid_display self.(build_run_id)));
        ("artifactDigest", JStr self.(artifact_digest))]%string.

End HarnessAgentReleaseBindingV1.

Module HarnessProviderBindingV1.

Record t := Mk { kind : string; revision : string; profile_digest : string; capability_digest : string }.

#[global] Instance t_eq_dec : EqDecision t.
Proof. solve_decision. Defined.

Definition validate (self : t) : result unit :=
  validate_dotted_identifier "Harness provider kind" self.(kind) 64 ;;
  validate_line "Harness provider revision" self.(revision) 128 ;;
  validate_digest "Harness provider profile digest" self.(profile_digest) ;;
  validate_digest "Harness provider capability digest" self.(capability_digest).

Definition to_json (self : t) : json :=
  JObj [("kind", JStr self.(kind)); ("revision", JStr self.(revision));
        ("profileDigest", JStr self.(profile_digest)); ("capabilityDigest", JStr self.(capability_digest))]%string.

End HarnessProviderBindingV1.

Module HarnessWorkspaceBindingV1.

Record t := Mk {
  workload_id : Uuid;
  workload_revision_id : Uuid;
  runtime_unit_id : string;
  runtime_generation : N;
  runtime_spec_digest : string;
  working_directory : option string;
}.

#[global] Instance t_eq_dec : EqDecision t.
Proof. solve_decision. Defined.

Definition validate (self : t) : result unit :=
  validate_uuid "Harness workspace Workload ID" self.(workload_id) ;;
  validate_uuid "Harness workspace Workload revision ID" self.(workload_revision_id) ;;
  validate_line "Harness Runtime unit ID" self.(runtime_unit_id) 512 ;;
  fail_if ((self.(runtime_generation) =? 0)%N || (MAX_SAFE_JSON_INTEGER <? self.(runtime_generation))%N)
    "Harness Runtime generation must be a positive JSON-safe integer" ;;
  validate_digest "Harness Runtime spec digest" self.(runtime_spec_digest) ;;
  match self.(working_directory) with
  | Some value => validate_line "Harness working directory" value 4096
  | None => Ok tt
  end.

Definition to_json `{External} (self : t) : json :=
  JObj [("workloadId", JStr (uuid_display self.(workload_id)));
        ("workloadRevisionId", JStr (uuid_display self.(workload_revision_id)));
        ("runtimeUnitId", JStr self.(runtime_unit_id));
        ("runtimeGeneration", JNum self.(runtime_generation));
        ("runtimeSpecDigest", JStr self.(runtime_spec_digest));
        ("workingDirectory", json_option JStr self.(working_directory))]%string.

End HarnessWorkspaceBindingV1.

(** Skills, MCP servers and models: two identifiers and the digest of their content.  The source
    has one struct per kind; they differ in the names of their fields. *)
Module HarnessSkillBindingV1.

Record t := Mk { asset_id : Uuid; asset_release_id : Uuid; artifact_digest : string }.

#[global] Instance t_eq_dec : EqDecision t.
Proof. solve_decision. Defined.

Definition validate (self : t) : result unit :=
  validate_uuid "Harness Skill Asset ID" self.(asset_id) ;;
  validate_uuid "Harness Skill release ID" self.(asset_release_id) ;;
  validate_digest "Harness Skill artifact digest" self.(artifact_digest).

Definition key (self : t) : Uuid * Uuid := (self.(asset_id), self.(asset_release_id)).

Definition to_json `{External} (self : t) : json :=
  JObj [("assetId", JStr (uuid_display self.(asset_id)));
        ("assetReleaseId", JStr (uuid_display self.(asset_release_id)));
        ("artifactDigest", JStr self.(artifact_digest))]%string.

End HarnessSkillBindingV1.

Module HarnessMcpBindingV1.

Record t := Mk { asset_id : Uuid; asset_release_id : Uuid; profile_digest : string }.

#[global] Instance t_eq_dec : EqDecision t.
Proof. solve_decision. Defined.

Definition validate (self : t) : result unit :=
  validate_uuid "Harness MCP Asset ID" self.(asset_id) ;;
  validate_uuid "Harness MCP release ID" self.(asset_release_id) ;;
  validate_digest "Harness MCP profile digest" self.(profile_digest).

Definition key (self : t) : Uuid * Uuid := (self.(asset_id), self.(asset_release_id)).

Definition to_json `{External} (self : t) : json :=
  JObj [("assetId", JStr (uuid_display self.(asset_id)));
        ("assetReleaseId", JStr (uuid_display self.(asset_release_id)));
        ("profileDigest", JStr self.(profile_digest))]%string.

End HarnessMcpBindingV1.

Module HarnessModelBindingV1.

Record t := Mk { model_id : Uuid; model_revision_id : Uuid; profile_digest : string }.

#[global] Instance t_eq_dec : EqDecision t.
Proof. solve_decision. Defined.

Definition validate (self : t) : result unit :=
  validate_uuid "Harness model ID" self.(model_id) ;;
  validate_uuid "Harness model revision ID" self.(model_revision_id) ;;
  validate_digest "Harness model profile digest" self.(profile_digest).

Definition key (self : t) : Uuid * Uuid := (self.(model_id), self.(model_revision_id)).

Definition to_json `{External} (self : t) : json :=
  JObj [("modelId", JStr (uuid_display self.(model_id)));
        ("modelRevisionId", JStr (uuid_display self.(model_revision_id)));
        ("profileDigest", JStr self.(profile_digest))]%string.

End HarnessModelBindingV1.

Module HarnessSecretTargetV1.

Inductive t :=
| Environment (variable : string)
| File (path : string) (mode : N)
| RegistryCredential.

#[global] Instance t_eq_dec : EqDecision t.
Proof. solve_decision. Defined.

Definition validate (self : t) : result unit :=
  match self with
  | Environment variable => validate_environment_key variable
  | File path mode =>
    validate_absolute_path path ;;
    fail_if ((mode =? 0)%N || (511 <? mode)%N) "Harness Secret file mode is invalid"
  | RegistryCredential => Ok tt
  end.

Definition identity (self : t) : string :=
  match self with
  | Environment variable => ("environment:" ++ variable)%string
  | File path _ => ("file:" ++ path)%string
  | RegistryCredential => "registry_credential"
  end.

Definition to_json (self : t) : json :=
  match self with
  | Environment variable => JObj [("kind", JStr "environment"); ("variable", JStr variable)]%string
  | File path mode => JObj [("kind", JStr "file"); ("path", JStr path); ("mode", JNum mode)]%string
  | RegistryCredential => JObj [("kind", JStr "registry_credential")]%string
  end.

End HarnessSecretTargetV1.

Module HarnessSecretReferenceV1.

Record t := Mk { name : string; secret_id : Uuid; version : N; target : HarnessSecretTargetV1.t }.

#[global] Instance t_eq_dec : EqDecision t.
Proof. solve_decision. Defined.

Definition validate (self : t) : result unit :=
  validate_portable_name "Harness Secret reference name" self.(name) 63 ;;
  validate_uuid "Harness Secret ID" self.(secret_id) ;;
  fail_if ((self.(version) =? 0)%N || (MAX_SAFE_JSON_INTEGER <? self.(version))%N)
    "Harness Secret version must be a positive JSON-safe integer" ;;
  HarnessSecretTargetV1.validate self.(target).

Definition to_json `{External} (self : t) : json :=
  JObj [("name", JStr self.(name)); ("secretId", JStr (uuid_display self.(secret_id)));
        ("version", JNum self.(version)); ("target", HarnessSecretTargetV1.to_json self.(target))]%string.

End HarnessSecretReferenceV1.

Module HarnessToolBindingV1.

Record t := Mk { name : string; revision : string; contract_digest : string; approval_required : bool }.

#[global] Instance t_eq_dec : EqDecision t.
Proof. solve_decision. Defined.

Definition validate (self : t) : result unit :=
  validate_dotted_identifier "Harness Tool name" self.(name) 128 ;;
  validate_line "Harness Tool revision" self.(revision) 128 ;;
  validate_digest "Harness Tool contract digest" self.(contract_digest).

Definition key (self : t) : string * string := (self.(name), self.(revision)).

Definition to_json (self : t) : json :=
  JObj [("name", JStr self.(name)); ("revision", JStr self.(revision));
        ("contractDigest", JStr self.(contract_digest)); ("approvalRequired", JBool self.(approval_required))]%string.

End HarnessToolBindingV1.

(** [values.windows(2).all(|pair| key(pair[0]) < key(pair[1]))] *)
Definition increasing {A K} `{Ord K} (key : A -> K) (l : list A) : bool :=
  negb (any_pair (fun x y => negb (ltb (key x) (key y))) l).

Definition validate_skills (values : list HarnessSkillBindingV1.t) : result unit :=
  validate_count "Skill" (len values) ;;
  for_each HarnessSkillBindingV1.validate values ;;
  fail_if (negb (increasing HarnessSkillBindingV1.key values)) "Harness Skill bindings must be sorted and unique".

Definition validate_mcp_servers (values : list HarnessMcpBindingV1.t) : result unit :=
  validate_count "MCP" (len values) ;;
  for_each HarnessMcpBindingV1.validate values ;;
  fail_if (negb (increasing HarnessMcpBindingV1.key values)) "Harness MCP bindings must be sorted and unique".

Definition validate_models (values : list HarnessModelBindingV1.t) : result unit :=
  validate_count "model" (len values) ;;
  for_each HarnessModelBindingV1.validate values ;;
  fail_if (negb (increasing HarnessModelBindingV1.key values)) "Harness model bindings must be sorted and unique".

Fixpoint validate_secret_targets (targets : list string) (values : list HarnessSecretReferenceV1.t) : result unit :=
  match values with
  | [] => Ok tt
  | value :: rest =>
    let identity := HarnessSecretTargetV1.identity value.(HarnessSecretReferenceV1.target) in
    HarnessSecretReferenceV1.validate value ;;
    fail_if (bool_decide (identity ∈ targets)) "Harness Secret reference targets must be unique" ;;
    validate_secret_targets (identity :: targets) rest
  end.

Definition validate_secrets (values : list HarnessSecretReferenceV1.t) : result unit :=
  validate_count "Secret" (len values) ;;
  validate_secret_targets [] values ;;
  fail_if (negb (increasing HarnessSecretReferenceV1.name values)) "Harness Secret references must be sorted and unique".

Definition validate_tools (values : list HarnessToolBindingV1.t) : result unit :=
  validate_count "Tool" (len values) ;;
  for_each HarnessToolBindingV1.validate values ;;
  fail_if (negb (increasing HarnessToolBindingV1.key values)) "Harness Tool bindings must be sorted and unique".

Definition validate_capabilities (values : list AgentProviderCapabilityV1.t) : result unit :=
  fail_if (is_empty values || (32 <? len values)%N || negb (capabilities_sorted values))
    "Harness capability expectations must be sorted, unique, and bounded" ;;
  for_each (fun required =>
      if bool_decide (required ∈ values) then Ok tt
      else errf "Harness capability expectations omit {:?}" [FStr (AgentProviderCapabilityV1.as_str required)])
    BASELINE.

Module HarnessInvocationProfileV1.

Record t := Mk {
  schema : string;
  agent : HarnessAgentReleaseBindingV1.t;
  provider : HarnessProviderBindingV1.t;
  instructions_digest : string;
  environment_policy_digest : string;
  security_policy_digest : string;
  workspace : HarnessWorkspaceBindingV1.t;
  skills : list HarnessSkillBindingV1.t;
  mcp_servers : list HarnessMcpBindingV1.t;
  models : list HarnessModelBindingV1.t;
  secrets : list HarnessSecretReferenceV1.t;
  tools : list HarnessToolBindingV1.t;
  required_capabilities : list AgentProviderCapabilityV1.t;
}.

#[global] Instance t_eq_dec : EqDecision t.
Proof. solve_decision. Defined.

Definition SCHEMA : string := "a3s.cloud.harness-invocation-profile.v1".

Section invocation.
Context `{AclContract} `{External}.

Definition to_json (self : t) : json :=
  JObj [("schema", JStr self.(schema));
        ("agent", HarnessAgentReleaseBindingV1.to_json self.(agent));
        ("provider", HarnessProviderBindingV1.to_json self.(provider));
        ("instructionsDigest", JStr self.(instructions_digest));
        ("environmentPolicyDigest", JStr self.(environment_policy_digest));
        ("securityPolicyDigest", JStr self.(security_policy_digest));
        ("workspace", HarnessWorkspaceBindingV1.to_json self.(workspace));
        ("skills", JArr (map HarnessSkillBindingV1.to_json self.(skills)));
        ("mcpServers", JArr (map HarnessMcpBindingV1.to_json self.(mcp_servers)));
        ("models", JArr (map HarnessModelBindingV1.to_json self.(models)));
        ("secrets", JArr (map HarnessSecretReferenceV1.to_json self.(secrets)));
        ("tools", JArr (map HarnessToolBindingV1.to_json self.(tools)));
        ("requiredCapabilities", JArr (map AgentProviderCapabilityV1.to_json self.(required_capabilities)))]%string.

Definition requires (self : t) (capability : AgentProviderCapabilityV1.t) : bool :=
  bool_decide (capability ∈ self.(required_capabilities)).

Definition validate (self : t) : result unit :=
  check_schema self.(schema) SCHEMA "unsupported Harness invocation profile schema {:?}" ;;
  HarnessAgentReleaseBindingV1.validate self.(agent) ;;
  HarnessProviderBindingV1.validate self.(provider) ;;
  validate_digest "Harness instructions digest" self.(instructions_digest) ;;
  validate_digest "Harness environment policy digest" self.(environment_policy_digest) ;;
  validate_digest "Harness security policy digest" self.(security_policy_digest) ;;
  HarnessWorkspaceBindingV1.validate self.(workspace) ;;
  validate_skills self.(skills) ;;
  validate_mcp_servers self.(mcp_servers) ;;
  validate_models self.(models) ;;
  validate_secrets self.(secrets) ;;
  validate_tools self.(tools) ;;
  validate_capabilities self.(required_capabilities) ;;
  fail_if (negb (is_empty self.(tools)) && negb (requires self AgentProviderCapabilityV1.ToolCalls))
    "Harness Tool bindings require the tool_calls capability" ;;
  fail_if (any HarnessToolBindingV1.approval_required self.(tools)
           && negb (requires self AgentProviderCapabilityV1.PauseResume))
    "approval-required Harness Tool bindings require the pause_resume capability" ;;
  canonical_json (to_json self) ;;
  Ok tt.

Definition validate_for (self : t) (provider : AgentProviderProfile.t) : result unit :=
  let bound := self.(HarnessInvocationProfileV1.provider) in
  validate self ;;
  AgentProviderProfile.validate provider ;;
  fail_if ((bound.(HarnessProviderBindingV1.kind) != provider.(AgentProviderProfile.kind))
           || (bound.(HarnessProviderBindingV1.revision) != provider.(AgentProviderProfile.revision))
           || (bound.(HarnessProviderBindingV1.profile_digest) != provider.(AgentProviderProfile.digest))
           || (bound.(HarnessProviderBindingV1.capability_digest) != provider.(AgentProviderProfile.capability_digest))
           || negb (all (AgentProviderProfile.supports provider) self.(required_capabilities)))
    "Harness invocation profile does not match its immutable provider profile".

Definition digest (self : t) : result string :=
  validate self ;;
  encoded ← canonical_json (to_json self);
  Ok (sha256_digest encoded).

End invocation.
End HarnessInvocationProfileV1.

(** ** The protocol of a run *)
Module AgentProviderRunStateV1.

Inductive t :=
| Created
| Planning
| Executing
| AwaitingApproval
| Verifying
| Completed
| Failed
| Cancelled.

#[global] Instance t_eq_dec : EqDecision t.
Proof. solve_decision. Defined.

Definition as_str (self : t) : string :=
  match self with
  | Created => "created"
  | Planning => "planning"
  | Executing => "executing"
  | AwaitingApproval => "awaiting_approval"
  | Verifying => "verifying"
  | Completed => "completed"
  | Failed => "failed"
  | Cancelled => "cancelled"
  end.

Definition parse (value : string) : result t :=
  if value == "created"%string then Ok Created
  else if value == "planning"%string then Ok Planning
  else if value == "executing"%string then Ok Executing
  else if value == "awaiting_approval"%string then Ok AwaitingApproval
  else if value == "verifying"%string then Ok Verifying
  else if value == "completed"%string then Ok Completed
  else if value == "failed"%string then Ok Failed
  else if value == "cancelled"%string then Ok Cancelled
  else errf "unsupported Agent provider run state {value:?}" [FStr value].

#[global] Instance names : StrEnum t := {| Prelude.as_str := as_str; Prelude.parse := parse |}.
#[global] Instance names_laws : StrEnumLaws t.
Proof. solve_str_enum. Qed.

Definition is_terminal (self : t) : bool := matches self [Completed; Failed; Cancelled].

End AgentProviderRunStateV1.

Module AgentProviderApprovalOutcomeV1.

Inductive t := Approved | Denied | Expired.

#[global] Instance t_eq_dec : EqDecision t.
Proof. solve_decision. Defined.

Definition as_str (self : t) : string :=
  match self with Approved => "approved" | Denied => "denied" | Expired => "expired" end.

Definition parse (value : string) : result t :=
  if value == "approved"%string then Ok Approved
  else if value == "denied"%string then Ok Denied
  else if value == "expired"%string then Ok Expired
  else errf "unsupported Agent provider approval outcome {value:?}" [FStr value].

#[global] Instance names : StrEnum t := {| Prelude.as_str := as_str; Prelude.parse := parse |}.
#[global] Instance names_laws : StrEnumLaws t.
Proof. solve_str_enum. Qed.

End AgentProviderApprovalOutcomeV1.

Module AgentProviderRunIdentityV1.

Record t := Mk {
  schema : string;
  provider_profile_digest : string;
  provider_capability_digest : string;
  invocation_profile_digest : option string;
  agent_release_identity : string;
  session_id : string;
  run_id : string;
}.

#[global] Instance t_eq_dec : EqDecision t.
Proof. solve_decision. Defined.
#[global] Instance t_eta : Eta t := fun r =>
  Mk r.(schema) r.(provider_profile_digest) r.(provider_capability_digest) r.(invocation_profile_digest)
     r.(agent_release_identity) r.(session_id) r.(run_id).

Definition SCHEMA : string := "a3s.cloud.agent-provider-run-identity.v1".

Definition validate (self : t) : result unit :=
  check_schema self.(schema) SCHEMA "unsupported Agent provider run identity schema {:?}" ;;
  validate_digest "provider profile digest" self.(provider_profile_digest) ;;
  validate_digest "provider capability digest" self.(provider_capability_digest) ;;
  match self.(invocation_profile_digest) with
  | Some digest => validate_digest "Harness invocation profile digest" digest
  | None => Ok tt
  end ;;
  validate_digest "Agent release identity" self.(agent_release_identity) ;;
  validate_line "Agent provider session ID" self.(session_id) 256 ;;
  validate_line "Agent provider run ID" self.(run_id) 256.

Definition new (provider_profile_digest provider_capability_digest agent_release_identity session_id run_id : string) :
    result t :=
  let identity := Mk SCHEMA provider_profile_digest provider_capability_digest None agent_release_identity
                     session_id run_id in
  validate identity ;; Ok identity.

Definition to_json (self : t) : json :=
  JObj ([("schema", JStr self.(schema));
         ("provider_profile_digest", JStr self.(provider_profile_digest));
         ("provider_capability_digest", JStr self.(provider_capability_digest))]%string
        ++ optional_member "invocation_profile_digest" JStr self.(invocation_profile_digest)
        ++ [("agent_release_identity", JStr self.(agent_release_identity));
            ("session_id", JStr self.(session_id));
            ("run_id", JStr self.(run_id))]%string).

Definition digest `{External} (self : t) : result string :=
  validate self ;; digest_json (to_json self) "could not encode Agent provider run identity: {error}".

Definition validate_for `{AclContract} `{External} (self : t) (profile : AgentProviderProfile.t) : result unit :=
  validate self ;;
  AgentProviderProfile.validate profile ;;
  fail_if ((self.(provider_profile_digest) != profile.(AgentProviderProfile.digest))
           || (self.(provider_capability_digest) != profile.(AgentProviderProfile.capability_digest)))
    "Agent provider run identity does not match its immutable profile".

End AgentProviderRunIdentityV1.

Module AgentProviderApprovalDecisionV1.

Record t := Mk {
  schema : string;
  decision_id : string;
  checkpoint_id : string;
  run_identity_digest : string;
  call_id : string;
  tool : HarnessToolBindingV1.t;
  request_digest : string;
  outcome : AgentProviderApprovalOutcomeV1.t;
  decided_at_ms : N;
}.

#[global] Instance t_eq_dec : EqDecision t.
Proof. solve_decision. Defined.

Definition SCHEMA : string := "a3s.cloud.agent-provider-approval-decision.v1".

Definition validate (self : t) : result unit :=
  check_schema self.(schema) SCHEMA "unsupported Agent provider approval decision schema {:?}" ;;
  validate_line "Agent provider approval decision ID" self.(decision_id) 256 ;;
  validate_line "Agent provider approval checkpoint ID" self.(checkpoint_id) 256 ;;
  validate_digest "Agent provider approval run identity digest" self.(run_identity_digest) ;;
  validate_line "Agent provider approval Tool call ID" self.(call_id) 256 ;;
  HarnessToolBindingV1.validate self.(tool) ;;
  fail_if (negb self.(tool).(HarnessToolBindingV1.approval_required))
    "Agent provider approval decision targets a Tool without approval" ;;
  validate_digest "Agent provider approval Tool request digest" self.(request_digest) ;;
  fail_if (self.(decided_at_ms) =? 0)%N "Agent provider approval decision time must be positive".

Definition to_json (self : t) : json :=
  JObj [("schema", JStr self.(schema));
        ("decision_id", JStr self.(decision_id));
        ("checkpoint_id", JStr self.(checkpoint_id));
        ("run_identity_digest", JStr self.(run_identity_digest));
        ("call_id", JStr self.(call_id));
        ("tool", HarnessToolBindingV1.to_json self.(tool));
        ("request_digest", JStr self.(request_digest));
        ("outcome", JStr (AgentProviderApprovalOutcomeV1.as_str self.(outcome)));
        ("decided_at_ms", JNum self.(decided_at_ms))]%string.

Definition digest `{External} (self : t) : result string :=
  validate self ;; digest_json (to_json self) "could not encode Agent provider approval decision: {error}".

Definition new `{External} (decision_id checkpoint_id : string) (identity : AgentProviderRunIdentityV1.t)
    (call_id : string) (tool : HarnessToolBindingV1.t) (request_digest : string)
    (outcome : AgentProviderApprovalOutcomeV1.t) (decided_at_ms : N) : result t :=
  run_identity_digest ← AgentProviderRunIdentityV1.digest identity;
  let decision := Mk SCHEMA decision_id checkpoint_id run_identity_digest call_id tool request_digest outcome
                     decided_at_ms in
  validate decision ;; Ok decision.

End AgentProviderApprovalDecisionV1.

Module AgentProviderRunStartV1.

Record t := Mk {
  schema : string;
  request_id : string;
  identity : AgentProviderRunIdentityV1.t;
  invocation_profile : option HarnessInvocationProfileV1.t;
  prompt : string;
}.

#[global] Instance t_eq_dec : EqDecision t.
Proof. solve_decision. Defined.

Definition SCHEMA : string := "a3s.cloud.agent-provider-run-start.v1".

Section start.
Context `{External}.

Definition validate_profile (self : t) : result unit :=
  let mismatch := "Agent provider start does not match its Harness invocation profile"%string in
  match self.(identity).(AgentProviderRunIdentityV1.invocation_profile_digest), self.(invocation_profile) with
  | None, None => Ok tt
  | Some expected, Some profile =>
    digest ← HarnessInvocationProfileV1.digest profile;
    fail_if (negb ((digest == expected)
                   && (profile.(HarnessInvocationProfileV1.provider).(HarnessProviderBindingV1.profile_digest)
                         == self.(identity).(AgentProviderRunIdentityV1.provider_profile_digest))
                   && (profile.(HarnessInvocationProfileV1.provider).(HarnessProviderBindingV1.capability_digest)
                         == self.(identity).(AgentProviderRunIdentityV1.provider_capability_digest))
                   && (profile.(HarnessInvocationProfileV1.agent).(HarnessAgentReleaseBindingV1.artifact_digest)
                         == self.(identity).(AgentProviderRunIdentityV1.agent_release_identity)))) mismatch
  | _, _ => err mismatch
  end.

Definition validate (self : t) : result unit :=
  check_schema self.(schema) SCHEMA "unsupported Agent provider start schema {:?}" ;;
  validate_line "Agent provider request ID" self.(request_id) 256 ;;
  AgentProviderRunIdentityV1.validate self.(identity) ;;
  validate_profile self ;;
  fail_if (str_is_empty (trim self.(prompt))
           || (AGENT_PROVIDER_MAX_PROMPT_BYTES <? str_len self.(prompt))%N
           || contains_any [NUL] self.(prompt))
    "Agent provider prompt bounds are invalid".

Definition new (request_id : string) (identity : AgentProviderRunIdentityV1.t) (prompt : string) : result t :=
  let request := Mk SCHEMA request_id identity None prompt in
  validate request ;; Ok request.

Definition new_with_invocation_profile (request_id : string) (identity : AgentProviderRunIdentityV1.t)
    (invocation_profile : HarnessInvocationProfileV1.t) (prompt : string) : result t :=
  digest ← HarnessInvocationProfileV1.digest invocation_profile;
  identity ← match identity.(AgentProviderRunIdentityV1.invocation_profile_digest) with
             | Some existing =>
               if existing != digest
               then err "Agent provider run identity changed its Harness invocation profile"
               else Ok identity
             | None => Ok (identity <| AgentProviderRunIdentityV1.invocation_profile_digest := Some digest |>)
             end;
  let request := Mk SCHEMA request_id identity (Some invocation_profile) prompt in
  validate request ;; Ok request.

Definition to_json (self : t) : json :=
  JObj ([("schema", JStr self.(schema));
         ("request_id", JStr self.(request_id));
         ("identity", AgentProviderRunIdentityV1.to_json self.(identity))]%string
        ++ optional_member "invocation_profile" HarnessInvocationProfileV1.to_json self.(invocation_profile)
        ++ [("prompt", JStr self.(prompt))]%string).

End start.
End AgentProviderRunStartV1.

Module AgentProviderRunCancelV1.

Record t := Mk { schema : string; request_id : string; identity : AgentProviderRunIdentityV1.t; reason : string }.

#[global] Instance t_eq_dec : EqDecision t.
Proof. solve_decision. Defined.

Definition SCHEMA : string := "a3s.cloud.agent-provider-run-cancel.v1".

Definition validate (self : t) : result unit :=
  check_schema self.(schema) SCHEMA "unsupported Agent provider cancellation schema {:?}" ;;
  validate_line "Agent provider request ID" self.(request_id) 256 ;;
  AgentProviderRunIdentityV1.validate self.(identity) ;;
  validate_line "Agent provider cancellation reason" self.(reason) 1024.

Definition new (request_id : string) (identity : AgentProviderRunIdentityV1.t) (reason : string) : result t :=
  let request := Mk SCHEMA request_id identity reason in
  validate request ;; Ok request.

Definition to_json (self : t) : json :=
  JObj [("schema", JStr self.(schema)); ("request_id", JStr self.(request_id));
        ("identity", AgentProviderRunIdentityV1.to_json self.(identity)); ("reason", JStr self.(reason))]%string.

End AgentProviderRunCancelV1.

Module AgentProviderRunRecoverV1.

Record t := Mk {
  schema : string;
  request_id : string;
  identity : AgentProviderRunIdentityV1.t;
  checkpoint_run_id : string;
}.

#[global] Instance t_eq_dec : EqDecision t.
Proof. solve_decision. Defined.

Definition SCHEMA : string := "a3s.cloud.agent-provider-run-recover.v1".

Definition validate (self : t) : result unit :=
  check_schema self.(schema) SCHEMA "unsupported Agent provider recovery schema {:?}" ;;
  validate_line "Agent provider request ID" self.(request_id) 256 ;;
  AgentProviderRunIdentityV1.validate self.(identity) ;;
  validate_line "Agent provider recovery checkpoint run ID" self.(checkpoint_run_id) 256 ;;
  fail_if (self.(checkpoint_run_id) == self.(identity).(AgentProviderRunIdentityV1.run_id))
    "Agent provider recovery checkpoint cannot be the successor run".

Definition new (request_id : string) (identity : AgentProviderRunIdentityV1.t) (checkpoint_run_id : string) :
    result t :=
  let request := Mk SCHEMA request_id identity checkpoint_run_id in
  validate request ;; Ok request.

Definition to_json (self : t) : json :=
  JObj [("schema", JStr self.(schema)); ("request_id", JStr self.(request_id));
        ("identity", AgentProviderRunIdentityV1.to_json self.(identity));
        ("checkpoint_run_id", JStr self.(checkpoint_run_id))]%string.

End AgentProviderRunRecoverV1.

Module AgentProviderRunResumeV1.

Record t := Mk {
  schema : string;
  request_id : string;
  identity : AgentProviderRunIdentityV1.t;
  decision : AgentProviderApprovalDecisionV1.t;
}.

#[global] Instance t_eq_dec : EqDecision t.
Proof. solve_decision. Defined.

Definition SCHEMA : string := "a3s.cloud.agent-provider-run-resume.v1".

Definition validate `{External} (self : t) : result unit :=
  check_schema self.(schema) SCHEMA "unsupported Agent provider resume schema {:?}" ;;
  validate_line "Agent provider request ID" self.(request_id) 256 ;;
  AgentProviderRunIdentityV1.validate self.(identity) ;;
  AgentProviderApprovalDecisionV1.validate self.(decision) ;;
  digest ← AgentProviderRunIdentityV1.digest self.(identity);
  fail_if (self.(decision).(AgentProviderApprovalDecisionV1.run_identity_digest) != digest)
    "Agent provider approval decision targets another run identity".

Definition new `{External} (request_id : string) (identity : AgentProviderRunIdentityV1.t)
    (decision : AgentProviderApprovalDecisionV1.t) : result t :=
  let request := Mk SCHEMA request_id identity decision in
  validate request ;; Ok request.

Definition to_json (self : t) : json :=
  JObj [("schema", JStr self.(schema)); ("request_id", JStr self.(request_id));
        ("identity", AgentProviderRunIdentityV1.to_json self.(identity));
        ("decision", AgentProviderApprovalDecisionV1.to_json self.(decision))]%string.

End AgentProviderRunResumeV1.

Module AgentProviderCommandActionV1.

Inductive t := Start | Cancel | Recover | Resume.

#[global] Instance t_eq_dec : EqDecision t.
Proof. solve_decision. Defined.

End AgentProviderCommandActionV1.

Module AgentProviderCommandV1.

Inductive t :=
| Start (request : AgentProviderRunStartV1.t)
| Cancel (request : AgentProviderRunCancelV1.t)
| Recover (request : AgentProviderRunRecoverV1.t)
| Resume (request : AgentProviderRunResumeV1.t).

#[global] Instance t_eq_dec : EqDecision t.
Proof. solve_decision. Defined.

Definition action (self : t) : AgentProviderCommandActionV1.t :=
  match self with
  | Start _ => AgentProviderCommandActionV1.Start
  | Cancel _ => AgentProviderCommandActionV1.Cancel
  | Recover _ => AgentProviderCommandActionV1.Recover
  | Resume _ => AgentProviderCommandActionV1.Resume
  end.

Definition identity (self : t) : AgentProviderRunIdentityV1.t :=
  match self with
  | Start request => request.(AgentProviderRunStartV1.identity)
  | Cancel request => request.(AgentProviderRunCancelV1.identity)
  | Recover request => request.(AgentProviderRunRecoverV1.identity)
  | Resume request => request.(AgentProviderRunResumeV1.identity)
  end.

Definition request_id (self : t) : string :=
  match self with
  | Start request => request.(AgentProviderRunStartV1.request_id)
  | Cancel request => request.(AgentProviderRunCancelV1.request_id)
  | Recover request => request.(AgentProviderRunRecoverV1.request_id)
  | Resume request => request.(AgentProviderRunResumeV1.request_id)
  end.

(** The capability a command needs. *)
Definition required (self : t) : AgentProviderCapabilityV1.t :=
  match self with
  | Start _ => AgentProviderCapabilityV1.EventPages
  | Cancel _ => AgentProviderCapabilityV1.Cancellation
  | Recover _ => AgentProviderCapabilityV1.Recovery
  | Resume _ => AgentProviderCapabilityV1.PauseResume
  end.

Section commands.
Context `{AclContract} `{External}.

Definition validate (self : t) : result unit :=
  match self with
  | Start request => AgentProviderRunStartV1.validate request
  | Cancel request => AgentProviderRunCancelV1.validate request
  | Recover request => AgentProviderRunRecoverV1.validate request
  | Resume request => AgentProviderRunResumeV1.validate request
  end.

Definition validate_for (self : t) (profile : AgentProviderProfile.t) : result unit :=
  validate self ;;
  AgentProviderRunIdentityV1.validate_for (identity self) profile ;;
  match self with
  | Start request =>
    match request.(AgentProviderRunStartV1.invocation_profile) with
    | Some invocation =>
      HarnessInvocationProfileV1.validate_for invocation profile ;;
      fail_if (invocation.(HarnessInvocationProfileV1.agent).(HarnessAgentReleaseBindingV1.artifact_digest)
                 != request.(AgentProviderRunStartV1.identity).(AgentProviderRunIdentityV1.agent_release_identity))
        "Harness invocation Agent release does not match its provider run"
    | None => Ok tt
    end
  | _ => Ok tt
  end ;;
  if AgentProviderProfile.supports profile (required self) then Ok tt
  else errf "Agent provider command requires unsupported capability {:?}"
         [FStr (AgentProviderCapabilityV1.as_str (required self))].

Definition to_json (self : t) : json :=
  match self with
  | Start request =>
    JObj [("action", JStr "start"); ("request", AgentProviderRunStartV1.to_json request)]%string
  | Cancel request =>
    JObj [("action", JStr "cancel"); ("request", AgentProviderRunCancelV1.to_json request)]%string
  | Recover request =>
    JObj [("action", JStr "recover"); ("request", AgentProviderRunRecoverV1.to_json request)]%string
  | Resume request =>
    JObj [("action", JStr "resume"); ("request", AgentProviderRunResumeV1.to_json request)]%string
  end.

Definition digest (self : t) : result string :=
  validate self ;; digest_json (to_json self) "could not encode Agent provider command: {error}".

End commands.
End AgentProviderCommandV1.

Module AgentProviderCommandReceiptV1.
Import AgentProviderRunStateV1.

Record t := Mk {
  schema : string;
  request_id : string;
  command_digest : string;
  identity : AgentProviderRunIdentityV1.t;
  action : AgentProviderCommandActionV1.t;
  state : AgentProviderRunStateV1.t;
  observed_at_ms : N;
  replayed : bool;
}.

#[global] Instance t_eq_dec : EqDecision t.
Proof. solve_decision. Defined.

Definition SCHEMA : string := "a3s.cloud.agent-provider-command-receipt.v1".

Section receipts.
Context `{AclContract} `{External}.

Definition validate (self : t) : result unit :=
  check_schema self.(schema) SCHEMA "unsupported Agent provider command receipt schema {:?}" ;;
  validate_line "Agent provider receipt request ID" self.(request_id) 256 ;;
  validate_digest "Agent provider command digest" self.(command_digest) ;;
  AgentProviderRunIdentityV1.validate self.(identity) ;;
  fail_if (self.(observed_at_ms) =? 0)%N "Agent provider receipt observation time must be positive".

Definition validate_for (self : t) (profile : AgentProviderProfile.t) (command : AgentProviderCommandV1.t) :
    result unit :=
  let changed := "Agent provider receipt changed its accepted command identity"%string in
  validate self ;;
  AgentProviderCommandV1.validate_for command profile ;;
  fail_if (self.(request_id) != AgentProviderCommandV1.request_id command) changed ;;
  digest ← AgentProviderCommandV1.digest command;
  fail_if ((self.(command_digest) != digest)
           || (self.(identity) != AgentProviderCommandV1.identity command)
           || (self.(action) != AgentProviderCommandV1.action command)) changed ;;
  fail_if ((AgentProviderCommandV1.action command == AgentProviderCommandActionV1.Resume)
           && matches self.(state) [Created; Planning; AwaitingApproval])
    "Agent provider resume receipt did not leave the approval checkpoint".

Definition accepted (profile : AgentProviderProfile.t) (command : AgentProviderCommandV1.t)
    (state : AgentProviderRunStateV1.t) (observed_at_ms : N) (replayed : bool) : result t :=
  AgentProviderCommandV1.validate_for command profile ;;
  digest ← AgentProviderCommandV1.digest command;
  let receipt := Mk SCHEMA (AgentProviderCommandV1.request_id command) digest (AgentProviderCommandV1.identity command)
                    (AgentProviderCommandV1.action command) state observed_at_ms replayed in
  validate_for receipt profile command ;;
  Ok receipt.

End receipts.
End AgentProviderCommandReceiptV1.
