(* ===== verification/NodeRunBindings.v ===== *)
(** * Runtime bindings of agent runs and durable cells

    [contracts/src/node/code_agent.rs], [agent_provider.rs] and [durable_cell.rs]: which Runtime
    generation a run or an operator endpoint lives on.  The A3S Code protocol belongs to
    [a3s_code_core] and is the class [CodeContract]. *)

From Stdlib Require Import ZArith NArith Lia String.
From S2P Require Import Prelude RustStd External Text Resources NodeArtifacts NodePluginHost AgentProvider.
From S2P Require Import AgentProviderRuns.

Definition NODE_AGENT_PROVIDER_COMMAND_SCHEMA_V1 : string := "a3s.cloud.node-agent-provider-command.v1".
Definition NODE_CODE_AGENT_COMMAND_SCHEMA_V1 : string := "a3s.cloud.code-agent-command.v1".
Definition NODE_DURABLE_CELL_OPERATOR_OBSERVE_SCHEMA_V1 : string := "a3s.cloud.durable-cell-operator-observe.v1".

(** The source builds run identities field by field. *)
Module AgentProtocolRunIdentityV1.
Record t := Mk {
  schema : string;
  protocol : string;
  agent_release_identity : string;
  session_id : string;
  run_id : string;
}.
#[global] Instance t_eq_dec : EqDecision t.
Proof. solve_decision. Defined.
End AgentProtocolRunIdentityV1.

Class CodeContract := {
  AGENT_PROTOCOL_V1 : string;
  RUN_IDENTITY_SCHEMA : string;
  AgentProtocolCommandV1 : Type;
  AgentProtocolCommandReceiptV1 : Type;
  code_command_eq_dec :: EqDecision AgentProtocolCommandV1;
  code_receipt_eq_dec :: EqDecision AgentProtocolCommandReceiptV1;
  run_identity_validate : AgentProtocolRunIdentityV1.t -> coded;
  run_identity_to_json : AgentProtocolRunIdentityV1.t -> json;
  code_command_validate : AgentProtocolCommandV1 -> coded;
  code_command_identity : AgentProtocolCommandV1 -> AgentProtocolRunIdentityV1.t;
  code_command_to_json : AgentProtocolCommandV1 -> json;
  code_receipt_validate : AgentProtocolCommandReceiptV1 -> coded;
  code_receipt_validate_for : AgentProtocolCommandReceiptV1 -> AgentProtocolCommandV1 -> coded;
  code_receipt_observed_at_ms : AgentProtocolCommandReceiptV1 -> N;
  code_receipt_replayed : AgentProtocolCommandReceiptV1 -> bool;
}.

Module NodeCodeAgentRuntimeBindingV1.

Record t := Mk {
  schema : string;
  execution_id : Uuid;
  workload_id : Uuid;
  workload_revision_id : Uuid;
  deployment_id : Uuid;
  replica_id : Uuid;
  runtime_unit_id : string;
  runtime_generation : N;
  runtime_spec_digest : string;
  service_port_name : string;
  code_run_identity : AgentProtocolRunIdentityV1.t;
}.

#[global] Instance t_eq_dec : EqDecision t.
Proof. solve_decision. Defined.

Definition SCHEMA : string := "a3s.cloud.code-agent-runtime-binding.v1".

Section binding.
Context `{CodeContract}.

Definition validate (self : t) : result unit :=
  check_schema self.(schema) SCHEMA "unsupported Code Agent Runtime binding schema {:?}" ;;
  validate_uuid "execution_id" self.(execution_id) ;;
  validate_uuid "workload_id" self.(workload_id) ;;
  validate_uuid "workload_revision_id" self.(workload_revision_id) ;;
  validate_uuid "deployment_id" self.(deployment_id) ;;
  validate_uuid "replica_id" self.(replica_id) ;;
  validate_single_line "Runtime unit ID" self.(runtime_unit_id) 512 ;;
  fail_if (self.(runtime_generation) =? 0)%N "Code Agent Runtime generation must be positive" ;;
  validate_lower_sha256 "Runtime spec digest" self.(runtime_spec_digest) ;;
  validate_single_line "Code Harness service port name" self.(service_port_name) 128 ;;
  map_code "invalid A3S Code run identity ({})" (run_identity_validate self.(code_run_identity)).

Definition validate_command (self : t) (command : AgentProtocolCommandV1) : result unit :=
  validate self ;;
  map_code "invalid A3S Code command ({})" (code_command_validate command) ;;
  fail_if (code_command_identity command != self.(code_run_identity))
    "A3S Code command does not match its Runtime binding".

Definition to_json `{External} (self : t) : json :=
  JObj [("schema", JStr self.(schema));
        ("execution_id", JStr (uuid_display self.(execution_id)));
        ("workload_id", JStr (uuid_display self.(workload_id)));
        ("workload_revision_id", JStr (uuid_display self.(workload_revision_id)));
        ("deployment_id", JStr (uuid_display self.(deployment_id)));
        ("replica_id", JStr (uuid_display self.(replica_id)));
        ("runtime_unit_id", JStr self.(runtime_unit_id));
        ("runtime_generation", JNum self.(runtime_generation));
        ("runtime_spec_digest", JStr self.(runtime_spec_digest));
        ("service_port_name", JStr self.(service_port_name));
        ("code_run_identity", run_identity_to_json self.(code_run_identity))]%string.

End binding.
End NodeCodeAgentRuntimeBindingV1.

Module NodeAgentProviderRuntimeBindingV1.

Record t := Mk {
  schema : string;
  execution_id : Uuid;
  workload_id : Uuid;
  workload_revision_id : Uuid;
  deployment_id : Uuid;
  replica_id : Uuid;
  runtime_unit_id : string;
  runtime_generation : N;
  runtime_spec_digest : string;
  service_port_name : string;
  provider_profile_acl : string;
  provider_profile_digest : string;
  provider_run_identity : AgentProviderRunIdentityV1.t;
}.

#[global] Instance t_eq_dec : EqDecision t.
Proof. solve_decision. Defined.

Definition SCHEMA : string := "a3s.cloud.node-agent-provider-runtime-binding.v1".

Section binding.
Context `{AclContract} `{External}.

Definition profile (self : t) : result AgentProviderProfile.t :=
  AgentProviderProfile.restore self.(provider_profile_acl) self.(provider_profile_digest).

Definition validate (self : t) : result unit :=
  check_schema self.(schema) SCHEMA "unsupported Node Agent provider Runtime binding schema {:?}" ;;
  validate_uuid "execution_id" self.(execution_id) ;;
  validate_uuid "workload_id" self.(workload_id) ;;
  validate_uuid "workload_revision_id" self.(workload_revision_id) ;;
  validate_uuid "deployment_id" self.(deployment_id) ;;
  validate_uuid "replica_id" self.(replica_id) ;;
  validate_single_line "Runtime unit ID" self.(runtime_unit_id) 512 ;;
  fail_if (self.(runtime_generation) =? 0)%N "Agent provider Runtime generation must be positive" ;;
  validate_lower_sha256 "Runtime spec digest" self.(runtime_spec_digest) ;;
  validate_single_line "Agent provider service port name" self.(service_port_name) 128 ;;
  profile ← profile self;
  AgentProviderRunIdentityV1.validate_for self.(provider_run_identity) profile.

Definition validate_command (self : t) (command : AgentProviderCommandV1.t) : result unit :=
  validate self ;;
  profile ← profile self;
  AgentProviderCommandV1.validate_for command profile ;;
  fail_if (AgentProviderCommandV1.identity command != self.(provider_run_identity))
    "Agent provider command does not match its Runtime binding".

(** The same binding under the native A3S Code protocol. *)
Definition code_binding `{CodeContract} (self : t) : result NodeCodeAgentRuntimeBindingV1.t :=
  profile ← profile self;
  fail_if ((profile.(AgentProviderProfile.kind) != NATIVE_CODE_AGENT_PROVIDER_KIND)
           || (profile.(AgentProviderProfile.native_protocol) != AGENT_PROTOCOL_V1))
    "Agent provider Runtime binding is not the native Code adapter" ;;
  Ok {| NodeCodeAgentRuntimeBindingV1.schema := NodeCodeAgentRuntimeBindingV1.SCHEMA;
        NodeCodeAgentRuntimeBindingV1.execution_id := self.(execution_id);
        NodeCodeAgentRuntimeBindingV1.workload_id := self.(workload_id);
        NodeCodeAgentRuntimeBindingV1.workload_revision_id := self.(workload_revision_id);
        NodeCodeAgentRuntimeBindingV1.deployment_id := self.(deployment_id);
        NodeCodeAgentRuntimeBindingV1.replica_id := self.(replica_id);
        NodeCodeAgentRuntimeBindingV1.runtime_unit_id := self.(runtime_unit_id);
        NodeCodeAgentRuntimeBindingV1.runtime_generation := self.(runtime_generation);
        NodeCodeAgentRuntimeBindingV1.runtime_spec_digest := self.(runtime_spec_digest);
        NodeCodeAgentRuntimeBindingV1.service_port_name := self.(service_port_name);
        NodeCodeAgentRuntimeBindingV1.code_run_identity :=
          AgentProtocolRunIdentityV1.Mk RUN_IDENTITY_SCHEMA AGENT_PROTOCOL_V1
            self.(provider_run_identity).(AgentProviderRunIdentityV1.agent_release_identity)
            self.(provider_run_identity).(AgentProviderRunIdentityV1.session_id)
            self.(provider_run_identity).(AgentProviderRunIdentityV1.run_id) |}.

Definition to_json (self : t) : json :=
  JObj [("schema", JStr self.(schema));
        ("execution_id", JStr (uuid_display self.(execution_id)));
        ("workload_id", JStr (uuid_display self.(workload_id)));
        ("workload_revision_id", JStr (uuid_display self.(workload_revision_id)));
        ("deployment_id", JStr (uuid_display self.(deployment_id)));
        ("replica_id", JStr (uuid_display self.(replica_id)));
        ("runtime_unit_id", JStr self.(runtime_unit_id));
        ("runtime_generation", JNum self.(runtime_generation));
        ("runtime_spec_digest", JStr self.(runtime_spec_digest));
        ("service_port_name", JStr self.(service_port_name));
        ("provider_profile_acl", JStr self.(provider_profile_acl));
        ("provider_profile_digest", JStr self.(provider_profile_digest));
        ("provider_run_identity", AgentProviderRunIdentityV1.to_json self.(provider_run_identity))]%string.

End binding.
End NodeAgentProviderRuntimeBindingV1.

Module NodeDurableCellOperatorBindingV1.

Record t := Mk {
  schema : string;
  application_id : Uuid;
  application_revision_id : Uuid;
  application_revision_number : N;
  workload_id : Uuid;
  workload_revision_id : Uuid;
  runtime_unit_id : string;
  runtime_generation : N;
  runtime_spec_digest : string;
  service_profile_digest : string;
  service_template_digest : string;
  provider_artifact_digest : string;
  internal_service_port_name : string;
}.

#[global] Instance t_eq_dec : EqDecision t.
Proof. solve_decision. Defined.

Definition SCHEMA : string := "a3s.cloud.durable-cell-operator-binding.v1".

Definition validate (self : t) : result unit :=
  check_schema self.(schema) SCHEMA "unsupported Durable Cell operator binding schema {:?}" ;;
  validate_uuid "application_id" self.(application_id) ;;
  validate_uuid "application_revision_id" self.(application_revision_id) ;;
  validate_uuid "workload_id" self.(workload_id) ;;
  validate_uuid "workload_revision_id" self.(workload_revision_id) ;;
  fail_if ((self.(application_revision_number) =? 0)%N || (self.(runtime_generation) =? 0)%N)
    "Durable Cell revision and Runtime generation must be positive" ;;
  validate_single_line "Runtime unit ID" self.(runtime_unit_id) 512 ;;
  validate_lower_sha256 "Runtime spec digest" self.(runtime_spec_digest) ;;
  validate_lower_sha256 "Service profile digest" self.(service_profile_digest) ;;
  validate_lower_sha256 "Service template digest" self.(service_template_digest) ;;
  validate_lower_sha256 "provider artifact digest" self.(provider_artifact_digest) ;;
  validate_single_line "Durable Cell internal service port name" self.(internal_service_port_name) 128.

Definition to_json `{External} (self : t) : json :=
  JObj [("schema", JStr self.(schema));
        ("application_id", JStr (uuid_display self.(application_id)));
        ("application_revision_id", JStr (uuid_display self.(application_revision_id)));
        ("application_revision_number", JNum self.(application_revision_number));
        ("workload_id", JStr (uuid_display self.(workload_id)));
        ("workload_revision_id", JStr (uuid_display self.(workload_revision_id)));
        ("runtime_unit_id", JStr self.(runtime_unit_id));
        ("runtime_generation", JNum self.(runtime_generation));
        ("runtime_spec_digest", JStr self.(runtime_spec_digest));
        ("service_profile_digest", JStr self.(service_profile_digest));
        ("service_template_digest", JStr self.(service_template_digest));
        ("provider_artifact_digest", JStr self.(provider_artifact_digest));
        ("internal_service_port_name", JStr self.(internal_service_port_name))]%string.

Definition digest `{External} (self : t) : result string :=
  validate self ;; digest_json (to_json self) "could not encode Durable Cell operator binding: {error}".

End NodeDurableCellOperatorBindingV1.

Module NodeDurableCellOperatorObservationV1.

Record t := Mk {
  schema : string;
  binding_digest : string;
  runtime_unit_id : string;
  runtime_generation : N;
  runtime_spec_digest : string;
  occupied : N;
  evicting : N;
  restoring : N;
  activating : N;
  activation_waiting : N;
  capacity_waiting : N;
  observed_at_ms : N;
}.

#[global] Instance t_eq_dec : EqDecision t.
Proof. solve_decision. Defined.

Definition SCHEMA : string := "a3s.cloud.durable-cell-operator-observation.v1".

Definition validate (self : t) : result unit :=
  check_schema self.(schema) SCHEMA "unsupported Durable Cell operator observation schema {:?}" ;;
  validate_lower_sha256 "Durable Cell operator binding digest" self.(binding_digest) ;;
  validate_single_line "Runtime unit ID" self.(runtime_unit_id) 512 ;;
  fail_if ((self.(runtime_generation) =? 0)%N || (self.(observed_at_ms) =? 0)%N)
    "Durable Cell operator Runtime generation and observation time must be positive" ;;
  validate_lower_sha256 "Runtime spec digest" self.(runtime_spec_digest).

Definition validate_for `{External} (self : t) (binding : NodeDurableCellOperatorBindingV1.t) : result unit :=
  NodeDurableCellOperatorBindingV1.validate binding ;;
  validate self ;;
  digest ← NodeDurableCellOperatorBindingV1.digest binding;
  fail_if ((self.(binding_digest) != digest)
           || (self.(runtime_unit_id) != binding.(NodeDurableCellOperatorBindingV1.runtime_unit_id))
           || (self.(runtime_generation) != binding.(NodeDurableCellOperatorBindingV1.runtime_generation))
           || (self.(runtime_spec_digest) != binding.(NodeDurableCellOperatorBindingV1.runtime_spec_digest)))
    "Durable Cell operator observation changed its exact Runtime binding".

End NodeDurableCellOperatorObservationV1.
