(* ===== verification/AgentProviderEvents.v ===== *)
(** * Events of an agent provider

    [contracts/src/agent_provider/events.rs]: the pages in which a provider hands out the events of a
    run, and the receipts that answer them; and the batches of [contracts/src/node/agent_provider.rs]
    that carry a page from a node.  A page covers a segment of the provider's event sequence; the theorems
    say what a consumer that follows the cursor has seen. *)

From Stdlib Require Import ZArith NArith Lia String.
From stdpp Require Import sorting.
From S2P Require Import Prelude RustStd External Text Resources NodeArtifacts AgentProvider AgentProviderRuns NodeRunBindings.

Definition AGENT_PROVIDER_MAX_EVENTS_PER_PAGE : N := 64.
Definition AGENT_PROVIDER_MAX_EVENT_TEXT_BYTES : N := 65536.
Definition AGENT_PROVIDER_MAX_FAILURE_BYTES : N := 16384.
Definition AGENT_PROVIDER_MAX_TOOL_PAYLOAD_BYTES : N := 9007199254740991.

Module EventSyntax.
Definition next_sequence (after : option N) : result N :=
  match after with
  | Some value => ok_or (checked_add value 1) "Agent provider event cursor overflowed"
  | None => Ok 0%N
  end.

Definition validate_bounded_content (label value : string) (max : N) : result unit :=
  if str_is_empty value || (max <? str_len value)%N || contains_any [NUL] value
  then errf "{label} bounds are invalid" [FStr label]
  else Ok tt.

Definition validate_single_line (label value : string) (max : N) : result unit :=
  if str_is_empty (trim value) || (max <? str_len value)%N || contains_any [NUL; CR; LF] value
  then errf "{label} must be a bounded nonempty single-line value" [FStr label]
  else Ok tt.

Definition validate_digest (label value : string) : result unit :=
  if is_sha256_digest value then Ok tt
  else errf "{label} must use canonical lowercase SHA-256 syntax" [FStr label].
End EventSyntax.
Import EventSyntax.

Module AgentProviderEventPageRequestV1.
Record t := Mk {
  schema : string;
  identity : AgentProviderRunIdentityV1.t;
  after_event_sequence : option N;
  limit : N;
}.

Definition SCHEMA : string := "a3s.cloud.agent-provider-event-page-request.v1".

Definition validate (self : t) : result unit :=
  check_schema self.(schema) SCHEMA "unsupported Agent provider event-page request schema {:?}" ;;
  AgentProviderRunIdentityV1.validate self.(identity) ;;
  fail_if ((self.(limit) =? 0)%N || (AGENT_PROVIDER_MAX_EVENTS_PER_PAGE <? self.(limit))%N)
    "Agent provider event-page request limit is invalid".

Definition validate_for `{AclContract} `{External} (self : t) (profile : AgentProviderProfile.t) : result unit :=
  validate self ;;
  AgentProviderRunIdentityV1.validate_for self.(identity) profile.
End AgentProviderEventPageRequestV1.

Module AgentProviderToolResultOutcomeV1.
Inductive t := Succeeded | Failed.

#[global] Instance t_eq_dec : EqDecision t.
Proof. solve_decision. Defined.

Definition to_json (self : t) : json :=
  JStr match self with Succeeded => "succeeded" | Failed => "failed" end.
End AgentProviderToolResultOutcomeV1.

Module AgentProviderToolPayloadIdentityV1.
Record t := Mk { digest : string; size_bytes : N; media_type : string }.

#[global] Instance t_eq_dec : EqDecision t.
Proof. solve_decision. Defined.

Definition validate (self : t) : result unit :=
  validate_digest "Agent provider Tool payload digest" self.(digest) ;;
  fail_if (AGENT_PROVIDER_MAX_TOOL_PAYLOAD_BYTES <? self.(size_bytes))%N
    "Agent provider Tool payload size is invalid" ;;
  validate_single_line "Agent provider Tool payload media type" self.(media_type) 255.

Definition to_json (self : t) : json :=
  JObj [("digest", JStr self.(digest)); ("sizeBytes", JNum self.(size_bytes)); ("mediaType", JStr self.(media_type))]%string.
End AgentProviderToolPayloadIdentityV1.

Module AgentProviderSemanticEventV1.
Inductive t :=
| ModelOutput (text : string)
| ToolRequest (call_id : string) (tool : HarnessToolBindingV1.t) (request : AgentProviderToolPayloadIdentityV1.t)
| ToolResult (call_id : string) (tool : HarnessToolBindingV1.t) (request_digest : string)
    (outcome : AgentProviderToolResultOutcomeV1.t) (result : AgentProviderToolPayloadIdentityV1.t).

#[global] Instance t_eq_dec : EqDecision t.
Proof. solve_decision. Defined.

Definition validate (self : t) : result unit :=
  match self with
  | ModelOutput text => validate_bounded_content "Agent provider model output" text AGENT_PROVIDER_MAX_EVENT_TEXT_BYTES
  | ToolRequest call_id tool request =>
    validate_single_line "Agent provider Tool call ID" call_id 256 ;;
    HarnessToolBindingV1.validate tool ;;
    AgentProviderToolPayloadIdentityV1.validate request
  | ToolResult call_id tool request_digest _ result =>
    validate_single_line "Agent provider Tool call ID" call_id 256 ;;
    HarnessToolBindingV1.validate tool ;;
    validate_digest "Agent provider Tool request digest" request_digest ;;
    AgentProviderToolPayloadIdentityV1.validate result
  end.

Definition is_tool_event (self : t) : bool :=
  match self with ToolRequest _ _ _ | ToolResult _ _ _ _ _ => true | ModelOutput _ => false end.

(** [matches!(event, ToolRequest { tool, .. } if tool.approval_required)] *)
Definition needs_approval (self : t) : bool :=
  match self with ToolRequest _ tool _ => tool.(HarnessToolBindingV1.approval_required) | _ => false end.

Definition to_json (self : t) : json :=
  match self with
  | ModelOutput text => JObj [("kind", JStr "model_output"); ("text", JStr text)]%string
  | ToolRequest call_id tool request =>
    JObj [("kind", JStr "tool_request"); ("call_id", JStr call_id); ("tool", HarnessToolBindingV1.to_json tool);
          ("request", AgentProviderToolPayloadIdentityV1.to_json request)]%string
  | ToolResult call_id tool request_digest outcome result =>
    JObj [("kind", JStr "tool_result"); ("call_id", JStr call_id); ("tool", HarnessToolBindingV1.to_json tool);
          ("request_digest", JStr request_digest); ("outcome", AgentProviderToolResultOutcomeV1.to_json outcome);
          ("result", AgentProviderToolPayloadIdentityV1.to_json result)]%string
  end.
End AgentProviderSemanticEventV1.

Module AgentProviderEventRecordV1.
Record t := Mk { sequence : N; occurred_at_ms : N; event : AgentProviderSemanticEventV1.t }.

#[global] Instance t_eq_dec : EqDecision t.
Proof. solve_decision. Defined.

Definition validate (self : t) : result unit :=
  fail_if (self.(occurred_at_ms) =? 0)%N "Agent provider event time must be positive" ;;
  AgentProviderSemanticEventV1.validate self.(event).

Definition to_json (self : t) : json :=
  JObj [("sequence", JNum self.(sequence)); ("occurred_at_ms", JNum self.(occurred_at_ms));
        ("event", AgentProviderSemanticEventV1.to_json self.(event))]%string.
End AgentProviderEventRecordV1.

Module AgentProviderEventPageV1.
Record t := Mk {
  schema : string;
  identity : AgentProviderRunIdentityV1.t;
  after_event_sequence : option N;
  first_available_sequence : option N;
  source_first_sequence : option N;
  source_last_sequence : option N;
  source_event_count : N;
  latest_sequence_exclusive : N;
  next_after_event_sequence : option N;
  state : AgentProviderRunStateV1.t;
  observed_at_ms : N;
  retention_gap : bool;
  has_more : bool;
  terminal_failure : option string;
  events : list AgentProviderEventRecordV1.t;
}.

#[global] Instance t_eq_dec : EqDecision t.
Proof. solve_decision. Defined.

Definition SCHEMA : string := "a3s.cloud.agent-provider-event-page.v1".

Definition validate_retention_gap (self : t) : result unit :=
  expected ← next_sequence self.(after_event_sequence);
  fail_if (negb (is_empty self.(events))
           || is_some self.(terminal_failure)
           || is_some self.(source_first_sequence)
           || is_some self.(source_last_sequence)
           || negb (self.(source_event_count) =? 0)%N
           || self.(has_more)
           || (self.(next_after_event_sequence) != self.(after_event_sequence))
           || is_none_or (fun first => (first <=? expected)%N || (self.(latest_sequence_exclusive) <? first)%N)
                self.(first_available_sequence))
    "Agent provider retention-gap evidence is invalid".

Definition validate_terminal_failure (self : t) : result unit :=
  match self.(terminal_failure), self.(state), self.(has_more), self.(retention_gap) with
  | Some reason, AgentProviderRunStateV1.Failed, false, false =>
    validate_bounded_content "Agent provider terminal failure" reason AGENT_PROVIDER_MAX_FAILURE_BYTES ;;
    fail_if (contains_any [CR; LF] reason) "Agent provider terminal failure must be single-line"
  | None, AgentProviderRunStateV1.Failed, false, false =>
    err "failed Agent provider terminal page omitted its bounded reason"
  | None, _, _, _ => Ok tt
  | Some _, _, _, _ => err "Agent provider failure reason is not bound to a terminal failed page"
  end.

(** The cursor after the page. *)
Definition expected_cursor (self : t) (expected_first : N) : result (option N) :=
  if (self.(source_event_count) =? 0)%N then
    fail_if (is_some self.(source_first_sequence) || is_some self.(source_last_sequence))
      "empty Agent provider page carries source sequence evidence" ;;
    Ok self.(after_event_sequence)
  else
    source_first ← ok_or self.(source_first_sequence) "Agent provider page omitted its first source sequence";
    source_last ← ok_or self.(source_last_sequence) "Agent provider page omitted its last source sequence";
    source_span ← ok_or (if (source_last <? source_first)%N then None else checked_add (source_last - source_first) 1)
                    "Agent provider source event sequence regressed";
    fail_if (negb (source_first =? expected_first)%N || negb (source_span =? self.(source_event_count))%N)
      "Agent provider source page is not a contiguous bounded sequence" ;;
    Ok (Some source_last).

(** The loop over the events of the page. *)
Fixpoint validate_events (self : t) (previous : option N) (events : list AgentProviderEventRecordV1.t) : result unit :=
  match events with
  | [] => Ok tt
  | record :: rest =>
    let sequence := record.(AgentProviderEventRecordV1.sequence) in
    AgentProviderEventRecordV1.validate record ;;
    fail_if (is_some_and (fun previous => (sequence <=? previous)%N) previous
             || is_none_or (fun first => (sequence <? first)%N) self.(source_first_sequence)
             || is_none_or (fun last => (last <? sequence)%N) self.(source_last_sequence)
             || (self.(observed_at_ms) <? record.(AgentProviderEventRecordV1.occurred_at_ms))%N)
      "Agent provider semantic events are not an ordered source subset" ;;
    validate_events self (Some sequence) rest
  end.

Definition validate_contiguous_page (self : t) : result unit :=
  expected_first ← next_sequence self.(after_event_sequence);
  fail_if (is_some_and (fun first => (expected_first <? first)%N) self.(first_available_sequence))
    "Agent provider event page omitted required retention-gap evidence" ;;
  expected_cursor ← expected_cursor self expected_first;
  validate_events self self.(after_event_sequence) self.(events) ;;
  fail_if ((self.(next_after_event_sequence) != expected_cursor)
           || is_some_and (fun cursor => (self.(latest_sequence_exclusive) <=? cursor)%N) expected_cursor
           || self.(has_more)
              && is_none_or (fun cursor =>
                   is_none_or (fun next => (self.(latest_sequence_exclusive) <=? next)%N) (checked_add cursor 1))
                   expected_cursor
           || negb self.(has_more)
              && match expected_cursor with
                 | Some cursor => checked_add cursor 1 != Some self.(latest_sequence_exclusive)
                 | None => negb (self.(latest_sequence_exclusive) =? 0)%N
                 end)
    "Agent provider event-page cursor evidence is invalid".

Definition validate (self : t) : result unit :=
  check_schema self.(schema) SCHEMA "unsupported Agent provider event-page schema {:?}" ;;
  AgentProviderRunIdentityV1.validate self.(identity) ;;
  fail_if ((self.(observed_at_ms) =? 0)%N
           || (AGENT_PROVIDER_MAX_EVENTS_PER_PAGE <? self.(source_event_count))%N
           || (self.(source_event_count) <? len self.(events))%N)
    "Agent provider event-page bounds are invalid" ;;
  if self.(retention_gap) then validate_retention_gap self
  else
    validate_terminal_failure self ;;
    validate_contiguous_page self.

Definition to_json (self : t) : json :=
  JObj ([("schema", JStr self.(schema));
         ("identity", AgentProviderRunIdentityV1.to_json self.(identity));
         ("after_event_sequence", json_option JNum self.(after_event_sequence));
         ("first_available_sequence", json_option JNum self.(first_available_sequence));
         ("source_first_sequence", json_option JNum self.(source_first_sequence));
         ("source_last_sequence", json_option JNum self.(source_last_sequence));
         ("source_event_count", JNum self.(source_event_count));
         ("latest_sequence_exclusive", JNum self.(latest_sequence_exclusive));
         ("next_after_event_sequence", json_option JNum self.(next_after_event_sequence));
         ("state", JStr (AgentProviderRunStateV1.as_str self.(state)));
         ("observed_at_ms", JNum self.(observed_at_ms));
         ("retention_gap", JBool self.(retention_gap));
         ("has_more", JBool self.(has_more))]%string
        ++ optional_member "terminal_failure" JStr self.(terminal_failure)
        ++ [("events", JArr (map AgentProviderEventRecordV1.to_json self.(events)))]%string).

Definition digest `{External} (self : t) : result string :=
  validate self ;; digest_json (to_json self) "could not encode Agent provider event page: {error}".

Definition validate_for `{AclContract} `{External} (self : t) (profile : AgentProviderProfile.t) : result unit :=
  let pauses := AgentProviderProfile.supports profile AgentProviderCapabilityV1.PauseResume in
  let awaiting := self.(state) == AgentProviderRunStateV1.AwaitingApproval in
  let approval_requests :=
    List.filter (fun record => AgentProviderSemanticEventV1.needs_approval record.(AgentProviderEventRecordV1.event))
      self.(events) in
  validate self ;;
  AgentProviderRunIdentityV1.validate_for self.(identity) profile ;;
  fail_if (any (fun record => AgentProviderSemanticEventV1.is_tool_event record.(AgentProviderEventRecordV1.event))
             self.(events)
           && negb (AgentProviderProfile.supports profile AgentProviderCapabilityV1.ToolCalls))
    "Agent provider emitted Tool events without the tool_calls capability" ;;
  fail_if (awaiting && negb pauses)
    "Agent provider paused for approval without the pause_resume capability" ;;
  match approval_requests with
  | [request] =>
    fail_if (negb pauses || negb awaiting || self.(has_more) || self.(retention_gap)
             || (self.(source_last_sequence) != Some request.(AgentProviderEventRecordV1.sequence)))
      "approval-required Tool request did not close one paused provider page"
  | [] =>
    fail_if (awaiting && (negb (self.(source_event_count) =? 0)%N || negb (is_empty self.(events))))
      "paused Agent provider emitted events without its approval checkpoint"
  | _ => err "Agent provider page opened multiple approval checkpoints"
  end.
End AgentProviderEventPageV1.

Module AgentProviderEventReceiptV1.
Record t := Mk {
  schema : string;
  batch_id : Uuid;
  identity : AgentProviderRunIdentityV1.t;
  page_digest : string;
  accepted_after_event_sequence : option N;
  accepted_state : AgentProviderRunStateV1.t;
  accepted_events : N;
  accepted_source_events : N;
  accepted_at_ms : N;
  replayed : bool;
}.

#[global] Instance t_eq_dec : EqDecision t.
Proof. solve_decision. Defined.

Definition SCHEMA : string := "a3s.cloud.agent-provider-event-receipt.v1".

Section receipts.
Context `{AclContract} `{External}.

Definition validate_for (self : t) (profile : AgentProviderProfile.t) (batch : Uuid) (page : AgentProviderEventPageV1.t) :
    result unit :=
  let changed := "Agent provider event receipt changed its pending page identity"%string in
  AgentProviderEventPageV1.validate_for page profile ;;
  fail_if ((self.(schema) != SCHEMA) || is_nil self.(batch_id) || (self.(batch_id) != batch)
           || (self.(identity) != page.(AgentProviderEventPageV1.identity))) changed ;;
  digest ← AgentProviderEventPageV1.digest page;
  fail_if ((self.(page_digest) != digest)
           || (self.(accepted_after_event_sequence) != page.(AgentProviderEventPageV1.next_after_event_sequence))
           || (self.(accepted_state) != page.(AgentProviderEventPageV1.state))
           || negb (self.(accepted_events) =? len page.(AgentProviderEventPageV1.events))%N
           || negb (self.(accepted_source_events) =? page.(AgentProviderEventPageV1.source_event_count))%N
           || (self.(accepted_at_ms) =? 0)%N) changed.

Definition accepted (profile : AgentProviderProfile.t) (batch_id : Uuid) (page : AgentProviderEventPageV1.t)
    (accepted_at_ms : N) (replayed : bool) : result t :=
  AgentProviderEventPageV1.validate_for page profile ;;
  digest ← AgentProviderEventPageV1.digest page;
  fail_if (65535 <? len page.(AgentProviderEventPageV1.events))%N "Agent provider event count exceeds receipt bounds" ;;
  let receipt :=
    Mk SCHEMA batch_id page.(AgentProviderEventPageV1.identity) digest page.(AgentProviderEventPageV1.next_after_event_sequence) page.(AgentProviderEventPageV1.state)
      (len page.(AgentProviderEventPageV1.events)) page.(AgentProviderEventPageV1.source_event_count) accepted_at_ms replayed in
  validate_for receipt profile batch_id page ;;
  Ok receipt.
End receipts.
End AgentProviderEventReceiptV1.

Module NodeAgentProviderEventBatchV1.
Record t := Mk {
  schema : string;
  batch_id : Uuid;
  node_id : Uuid;
  binding : NodeAgentProviderRuntimeBindingV1.t;
  page : AgentProviderEventPageV1.t;
  sent_at_ms : N;
}.

#[global] Instance t_eq_dec : EqDecision t.
Proof. solve_decision. Defined.

Definition SCHEMA : string := "a3s.cloud.node-agent-provider-event-batch.v1".

Section batches.
Context `{AclContract} `{External}.

Definition validate (self : t) : result unit :=
  check_schema self.(schema) SCHEMA "unsupported Node Agent provider event-batch schema {:?}" ;;
  validate_uuid "batch_id" self.(batch_id) ;;
  validate_uuid "node_id" self.(node_id) ;;
  NodeAgentProviderRuntimeBindingV1.validate self.(binding) ;;
  profile ← NodeAgentProviderRuntimeBindingV1.profile self.(binding);
  AgentProviderEventPageV1.validate_for self.(page) profile ;;
  fail_if ((self.(page).(AgentProviderEventPageV1.identity)
              != self.(binding).(NodeAgentProviderRuntimeBindingV1.provider_run_identity))
           || (self.(sent_at_ms) <? self.(page).(AgentProviderEventPageV1.observed_at_ms))%N)
    "Agent provider event page does not match its Node binding".

Definition to_json (self : t) : json :=
  JObj [("schema", JStr self.(schema));
        ("batch_id", JStr (uuid_display self.(batch_id)));
        ("node_id", JStr (uuid_display self.(node_id)));
        ("binding", NodeAgentProviderRuntimeBindingV1.to_json self.(binding));
        ("page", AgentProviderEventPageV1.to_json self.(page));
        ("sent_at_ms", JNum self.(sent_at_ms))]%string.

Definition digest (self : t) : result string :=
  validate self ;; digest_json (to_json self) "could not encode Agent provider event batch: {error}".
End batches.
End NodeAgentProviderEventBatchV1.

Module NodeAgentProviderEventReceiptV1.
Record t := Mk {
  schema : string;
  batch_id : Uuid;
  node_id : Uuid;
  execution_id : Uuid;
  receipt : AgentProviderEventReceiptV1.t;
}.

#[global] Instance t_eq_dec : EqDecision t.
Proof. solve_decision. Defined.

Definition SCHEMA : string := "a3s.cloud.node-agent-provider-event-receipt.v1".

Definition validate_for `{AclContract} `{External} (self : t) (batch : NodeAgentProviderEventBatchV1.t) : result unit :=
  NodeAgentProviderEventBatchV1.validate batch ;;
  fail_if ((self.(schema) != SCHEMA)
           || (self.(batch_id) != batch.(NodeAgentProviderEventBatchV1.batch_id))
           || (self.(node_id) != batch.(NodeAgentProviderEventBatchV1.node_id))
           || (self.(execution_id)
                 != batch.(NodeAgentProviderEventBatchV1.binding).(NodeAgentProviderRuntimeBindingV1.execution_id)))
    "Node Agent provider event receipt changed its batch identity" ;;
  profile ← NodeAgentProviderRuntimeBindingV1.profile batch.(NodeAgentProviderEventBatchV1.binding);
  AgentProviderEventReceiptV1.validate_for self.(receipt) profile batch.(NodeAgentProviderEventBatchV1.batch_id)
    batch.(NodeAgentProviderEventBatchV1.page) ;;
  fail_if (self.(receipt).(AgentProviderEventReceiptV1.accepted_at_ms) <? batch.(NodeAgentProviderEventBatchV1.sent_at_ms))%N
    "Node Agent provider event receipt predates its delivery".
End NodeAgentProviderEventReceiptV1.

(** ** What a consumer has seen *)
Section pages.
Import AgentProviderEventPageV1.
Implicit Types (p : t) (c : option N).

(** The position after a cursor. *)
Definition position c : N := match c with Some n => n + 1 | None => 0 end.

Definition sequences (l : list AgentProviderEventRecordV1.t) : list N := map AgentProviderEventRecordV1.sequence l.

Lemma next_sequence_Ok c n : next_sequence c = Ok n -> n = position c.
Proof.
  destruct c as [c|]; cbn; [|by intros [= <-]].
  destruct (checked_add c 1) eqn:E; [|done]. intros [= <-]. by apply checked_add_Some in E as [-> _].
Qed.

Lemma validate_events_Ok p previous l :
  validate_events p previous l = Ok tt ->
  StronglySorted N.lt (sequences l)
  /\ Forall (fun s => (position previous <= s)%N
       /\ exists first last, p.(source_first_sequence) = Some first /\ p.(source_last_sequence) = Some last
            /\ (first <= s <= last)%N) (sequences l).
Proof.
  revert previous. induction l as [|r l IH]; intros previous; cbn [validate_events sequences map].
  { intros _. split; constructor. }
  rewrite !then_Ok, fail_if_Ok. intros (_ & Hr & Hl). destruct (IH _ Hl) as [Hs Hb]. clear IH.
  rewrite !orb_false_iff in Hr. destruct Hr as [[[Hp Hf] Hla] _].
  destruct p.(source_first_sequence) as [first|], p.(source_last_sequence) as [last|]; try done.
  cbn in Hf, Hla. apply N.ltb_ge in Hf, Hla.
  assert (position previous <= AgentProviderEventRecordV1.sequence r)%N as Hprev.
  { destruct previous; cbn in *; [apply N.leb_gt in Hp|]; lia. }
  split; constructor.
  - done.
  - eapply Forall_impl; [exact Hb|]. cbn. lia.
  - split; [done|]. by eexists _, _.
  - eapply Forall_impl; [exact Hb|]. intros s (H1 & H2). split; [cbn in H1; lia|done].
Qed.

(** What a valid page says: the segment it covers, its events in that segment, and what is left. *)
Record page_exact p : Prop := {
  page_advances : position p.(next_after_event_sequence) = (position p.(after_event_sequence) + p.(source_event_count))%N;
  page_sorted : StronglySorted N.lt (sequences p.(events));
  page_covers : Forall (fun s => (position p.(after_event_sequence) <= s < position p.(next_after_event_sequence))%N)
                  (sequences p.(events));
  page_rest : if p.(retention_gap)
              then exists first, p.(first_available_sequence) = Some first
                   /\ (position p.(next_after_event_sequence) < first <= p.(latest_sequence_exclusive))%N
              else if p.(has_more) then (position p.(next_after_event_sequence) < p.(latest_sequence_exclusive))%N
              else p.(latest_sequence_exclusive) = position p.(next_after_event_sequence);
}.

Lemma expected_cursor_Ok p first cursor :
  expected_cursor p first = Ok cursor -> first = position p.(after_event_sequence) ->
  position cursor = (first + p.(source_event_count))%N
  /\ ((p.(source_event_count) = 0%N /\ p.(source_first_sequence) = None)
      \/ exists last, p.(source_first_sequence) = Some first /\ p.(source_last_sequence) = Some last /\ cursor = Some last).
Proof.
  unfold expected_cursor. intros E Hf. destruct (N.eqb_spec p.(source_event_count) 0) as [Hz|Hz].
  - apply then_Ok in E as [E [= <-]]. apply fail_if_Ok, orb_false_iff in E as [E _].
    rewrite Hz. split; [lia|]. left. by destruct p.(source_first_sequence).
  - destruct p.(source_first_sequence) as [f|]; [|done]. destruct p.(source_last_sequence) as [l|]; [|done]. cbn in E.
    destruct (N.ltb_spec l f) as [?|Hle]; [done|]. destruct (checked_add (l - f) 1) as [span|] eqn:Es; [|done].
    apply checked_add_Some in Es as [-> _]. cbn in E. apply then_Ok in E as [E [= <-]].
    apply fail_if_Ok, orb_false_iff in E as [E1%negb_false_iff%N.eqb_eq E2%negb_false_iff%N.eqb_eq]. subst f. cbn.
    split; [lia|]. right. by exists l.
Qed.

Lemma retention_gap_exact p : p.(retention_gap) = true -> validate_retention_gap p = Ok tt -> page_exact p.
Proof.
  unfold validate_retention_gap. intros Hg E. destruct (next_sequence _) as [n|] eqn:En; [|done]. cbn in E.
  apply next_sequence_Ok in En. apply fail_if_Ok in E. rewrite !orb_false_iff in E.
  destruct E as (((((((He & _) & _) & _) & Hc) & _) & Hn) & Hf).
  apply negb_false_iff, bool_decide_eq_true in Hn. apply negb_false_iff, N.eqb_eq in Hc.
  assert (p.(events) = []) as Hev by by destruct p.(events).
  split; rewrite ?Hn, ?Hc, ?Hev, ?Hg; cbn; [lia|constructor..|].
  destruct p.(first_available_sequence) as [first|]; [|done]. cbn in Hf. apply orb_false_iff in Hf as [H1 H2].
  apply N.leb_gt in H1. apply N.ltb_ge in H2. exists first. split; [done|]. lia.
Qed.

Lemma contiguous_page_exact p : p.(retention_gap) = false -> validate_contiguous_page p = Ok tt -> page_exact p.
Proof.
  unfold validate_contiguous_page. intros Hg E. destruct (next_sequence _) as [n|] eqn:En; [|done]. cbn [mbind result_bind] in E.
  apply next_sequence_Ok in En. apply then_Ok in E as [_ E].
  destruct (expected_cursor p n) as [cursor|] eqn:Ec; [|done]. cbn [mbind result_bind] in E.
  destruct (expected_cursor_Ok _ _ _ Ec En) as [Hpos Hseg]. apply then_Ok in E as [Hev E].
  destruct (validate_events_Ok _ _ _ Hev) as [Hs Hb]. apply fail_if_Ok in E. rewrite !orb_false_iff in E.
  destruct E as [[[Hn Hl] Hm] Hr]. apply negb_false_iff, bool_decide_eq_true in Hn.
  split; rewrite ?Hn, ?Hg.
  - lia.
  - done.
  - eapply Forall_impl; [exact Hb|]. cbn beta. intros s (H1 & f & l & Hf & Hla & H2).
    destruct Hseg as [[_ Hnone]|(l' & Hf' & Hl' & ->)]; [congruence|]. cbn [position] in *.
    assert (l' = l) as -> by congruence. lia.
  - destruct p.(has_more); cbn in Hm, Hr.
    + destruct cursor as [cursor|]; [|done]. cbn in Hm. destruct (checked_add cursor 1) as [next|] eqn:Ea; [|done].
      apply checked_add_Some in Ea as [-> _]. cbn in Hm. by apply N.leb_gt in Hm.
    + destruct cursor as [cursor|]; cbn.
      * apply negb_false_iff, bool_decide_eq_true, checked_add_Some in Hr as [-> _]. done.
      * by apply negb_false_iff, N.eqb_eq in Hr.
Qed.

Lemma valid_page_exact p : validate p = Ok tt -> page_exact p.
Proof.
  unfold validate. rewrite !then_Ok. intros (_ & _ & _ & E). destruct p.(retention_gap) eqn:Hg.
  - by apply retention_gap_exact.
  - apply then_Ok in E as [_ E]. by apply contiguous_page_exact.
Qed.

(** The pages a consumer received, each asked for with the cursor of the one before. *)
Inductive feed : option N -> list t -> option N -> Prop :=
| feed_nil c : feed c [] c
| feed_cons p ps c : validate p = Ok tt -> feed p.(next_after_event_sequence) ps c -> feed p.(after_event_sequence) (p :: ps) c.

Definition received (ps : list t) : list N := concat (map (fun p => sequences p.(events)) ps).
Definition source_events (ps : list t) : N := foldr N.add 0%N (map source_event_count ps).

Lemma feed_covers c ps c' :
  feed c ps c' ->
  position c' = (position c + source_events ps)%N
  /\ StronglySorted N.lt (received ps) /\ Forall (fun s => (position c <= s < position c')%N) (received ps).
Proof.
  induction 1 as [c|p ps c Hp Hf (Hpos & Hs & Hb)]; [split_and!; [cbn; lia|constructor..]|].
  destruct (valid_page_exact _ Hp) as [Ha Hsp Hc _]. unfold source_events, received in *. cbn [map foldr concat].
  split_and!; [lia| |].
  - apply StronglySorted_app. split_and!; [|done..]. intros x y Hx Hy. rewrite Forall_forall in Hc, Hb.
    specialize (Hc x Hx). specialize (Hb y Hy). lia.
  - apply Forall_app. split; eapply Forall_impl; [exact Hc| |exact Hb|]; cbn; lia.
Qed.

Lemma feed_last c ps c' p : feed c ps c' -> last ps = Some p -> validate p = Ok tt /\ p.(next_after_event_sequence) = c'.
Proof.
  induction 1 as [c|q ps c Hq Hf IH]; [done|]. destruct ps as [|q' ps]; [|exact IH].
  intros [= ->]. by inversion Hf.
Qed.
Lemma source_last_position p n :
  validate p = Ok tt -> p.(source_last_sequence) = Some n -> position p.(next_after_event_sequence) = (n + 1)%N.
Proof.
  unfold validate. rewrite !then_Ok. intros (_ & _ & _ & E) Hn. destruct p.(retention_gap) eqn:Hg.
  { unfold validate_retention_gap in E. destruct (next_sequence _); [|done]. apply fail_if_Ok in E.
    rewrite Hn in E. cbn in E. by rewrite !orb_true_r in E. }
  apply then_Ok in E as [_ E]. unfold validate_contiguous_page in E.
  destruct (next_sequence _) as [f|] eqn:En; [|done]. cbn [mbind result_bind] in E. apply then_Ok in E as [_ E].
  apply next_sequence_Ok in En. destruct (expected_cursor p f) as [cursor|] eqn:Ec; [|done]. cbn [mbind result_bind] in E.
  apply then_Ok in E as [_ E]. apply fail_if_Ok in E. rewrite !orb_false_iff in E. destruct E as [[[E _] _] _].
  apply negb_false_iff, bool_decide_eq_true in E. rewrite E.
  destruct (expected_cursor_Ok _ _ _ Ec En) as [_ [[Hz _]|(l & _ & Hl & ->)]]; [|cbn; congruence].
  unfold expected_cursor in Ec. rewrite Hz, Hn in Ec. cbn in Ec. by rewrite orb_true_r in Ec.
Qed.
End pages.

(** A consumer that asks for each page with the cursor of the one before misses and repeats nothing: its
    cursor advances by exactly the source events of the pages, every event it received lies between its two
    cursors, in strictly increasing order across pages, and after the last page it is at the end of the run's
    events, or the page says that more follow or that retention dropped them. *)
Theorem event_feed_exact c ps c' :
  feed c ps c' ->
  position c' = (position c + source_events ps)%N
  /\ StronglySorted N.lt (received ps) /\ Forall (fun s => (position c <= s < position c')%N) (received ps)
  /\ forall p, last ps = Some p ->
       if p.(AgentProviderEventPageV1.retention_gap)
       then exists first, p.(AgentProviderEventPageV1.first_available_sequence) = Some first
            /\ (position c' < first <= p.(AgentProviderEventPageV1.latest_sequence_exclusive))%N
       else if p.(AgentProviderEventPageV1.has_more) then (position c' < p.(AgentProviderEventPageV1.latest_sequence_exclusive))%N
       else p.(AgentProviderEventPageV1.latest_sequence_exclusive) = position c'.
Proof.
  intros H. destruct (feed_covers _ _ _ H) as (H1 & H2 & H3). split_and!; [done..|].
  intros p Hp. destruct (feed_last _ _ _ _ H Hp) as [Hv <-]. by apply page_rest, valid_page_exact.
Qed.

(** A Tool request that needs an approval is the last event of its page, the only one of its kind, and
    the run waits for the decision with nothing left to read. *)
Theorem approval_closes_page `{AclContract} `{External} page profile r :
  AgentProviderEventPageV1.validate_for page profile = Ok tt -> r ∈ page.(AgentProviderEventPageV1.events) ->
  AgentProviderSemanticEventV1.needs_approval r.(AgentProviderEventRecordV1.event) = true ->
  page.(AgentProviderEventPageV1.state) = AgentProviderRunStateV1.AwaitingApproval
  /\ page.(AgentProviderEventPageV1.latest_sequence_exclusive) = (r.(AgentProviderEventRecordV1.sequence) + 1)%N
  /\ position page.(AgentProviderEventPageV1.next_after_event_sequence) = (r.(AgentProviderEventRecordV1.sequence) + 1)%N
  /\ forall r', r' ∈ page.(AgentProviderEventPageV1.events) ->
       (r'.(AgentProviderEventRecordV1.sequence) <= r.(AgentProviderEventRecordV1.sequence))%N
       /\ (AgentProviderSemanticEventV1.needs_approval r'.(AgentProviderEventRecordV1.event) = true -> r' = r).
Proof.
  unfold AgentProviderEventPageV1.validate_for. rewrite !then_Ok. intros (Hv & _ & _ & _ & E) Hr Ha.
  pose proof (valid_page_exact _ Hv) as Hx.
  set (l := List.filter _ _) in E.
  assert (r ∈ l) as Hl by (subst l; rewrite !list_elem_of_In in *; by apply filter_In).
  destruct l as [|r0 [|]] eqn:El; [by apply not_elem_of_nil in Hl| |done].
  apply list_elem_of_singleton in Hl as <-. apply fail_if_Ok in E. rewrite !orb_false_iff in E.
  destruct E as ((((_ & Hw) & Hm) & Hg) & Hlast). apply negb_false_iff in Hw, Hlast.
  apply bool_decide_eq_true in Hw. apply bool_decide_eq_true in Hlast.
  assert (position page.(AgentProviderEventPageV1.next_after_event_sequence)
          = AgentProviderEventRecordV1.sequence r + 1)%N as Hpos.
  { by apply source_last_position. }
  split_and!; [done| |done|].
  - destruct Hx as [_ _ _ Hrest]. rewrite Hg, Hm in Hrest. lia.
  - intros r' Hr'. destruct Hx as [_ _ Hc _]. rewrite Forall_forall in Hc. split.
    + specialize (Hc (AgentProviderEventRecordV1.sequence r')). rewrite Hpos in Hc.
      assert (AgentProviderEventRecordV1.sequence r' ∈ sequences page.(AgentProviderEventPageV1.events)) as Hin
        by by apply list_elem_of_fmap_2. specialize (Hc Hin). lia.
    + intros Ha'. assert (r' ∈ [r]) as Hin%list_elem_of_singleton; [|done].
      rewrite <- El. rewrite !list_elem_of_In in *. by apply filter_In.
Qed.

(** ** Two pages of a run *)
Module EventSamples.
Definition digest : string := "sha256:00000000000000000000000000000000000000000000000000000000000000a5".
Definition identity : AgentProviderRunIdentityV1.t :=
  AgentProviderRunIdentityV1.Mk AgentProviderRunIdentityV1.SCHEMA digest digest None digest "session" "run".

Definition output (sequence : N) : AgentProviderEventRecordV1.t :=
  AgentProviderEventRecordV1.Mk sequence 10 (AgentProviderSemanticEventV1.ModelOutput "text").

(** Positions 0 to 2, of which 0 and 2 are events a consumer sees. *)
Definition first : AgentProviderEventPageV1.t :=
  {| AgentProviderEventPageV1.schema := AgentProviderEventPageV1.SCHEMA;
     AgentProviderEventPageV1.identity := identity;
     AgentProviderEventPageV1.after_event_sequence := None;
     AgentProviderEventPageV1.first_available_sequence := Some 0%N;
     AgentProviderEventPageV1.source_first_sequence := Some 0%N;
     AgentProviderEventPageV1.source_last_sequence := Some 2%N;
     AgentProviderEventPageV1.source_event_count := 3;
     AgentProviderEventPageV1.latest_sequence_exclusive := 4;
     AgentProviderEventPageV1.next_after_event_sequence := Some 2%N;
     AgentProviderEventPageV1.state := AgentProviderRunStateV1.Executing;
     AgentProviderEventPageV1.observed_at_ms := 20;
     AgentProviderEventPageV1.retention_gap := false;
     AgentProviderEventPageV1.has_more := true;
     AgentProviderEventPageV1.terminal_failure := None;
     AgentProviderEventPageV1.events := [output 0; output 2] |}.

(** Position 3, the last of the run. *)
Definition second : AgentProviderEventPageV1.t :=
  {| AgentProviderEventPageV1.schema := AgentProviderEventPageV1.SCHEMA;
     AgentProviderEventPageV1.identity := identity;
     AgentProviderEventPageV1.after_event_sequence := Some 2%N;
     AgentProviderEventPageV1.first_available_sequence := Some 0%N;
     AgentProviderEventPageV1.source_first_sequence := Some 3%N;
     AgentProviderEventPageV1.source_last_sequence := Some 3%N;
     AgentProviderEventPageV1.source_event_count := 1;
     AgentProviderEventPageV1.latest_sequence_exclusive := 4;
     AgentProviderEventPageV1.next_after_event_sequence := Some 3%N;
     AgentProviderEventPageV1.state := AgentProviderRunStateV1.Failed;
     AgentProviderEventPageV1.observed_at_ms := 30;
     AgentProviderEventPageV1.retention_gap := false;
     AgentProviderEventPageV1.has_more := false;
     AgentProviderEventPageV1.terminal_failure := Some "out of memory"%string;
     AgentProviderEventPageV1.events := [output 3] |}.

Lemma event_feed_exact_witness :
  feed None [first; second] (Some 3%N) /\ received [first; second] = [0%N; 2%N; 3%N]
  /\ position (Some 3%N) = (position None + source_events [first; second])%N
  /\ StronglySorted N.lt (received [first; second]).
Proof.
  assert (feed None [first; second] (Some 3%N)) as Hf.
  { apply (feed_cons first); [vm_compute; reflexivity|]. apply (feed_cons second); [vm_compute; reflexivity|]. constructor. }
  destruct (event_feed_exact None [first; second] (Some 3%N) Hf) as (H1 & H2 & _ & _).
  split_and!; [exact Hf|vm_compute; reflexivity|exact H1|exact H2].
Defined.
End EventSamples.
