(* ===== verification/NodeCommands.v ===== *)
(** * The node command protocol

    [contracts/src/node/command.rs] and [command_lease.rs]: the commands the control plane sends to
    a node, the envelope that identifies one delivery, the results a node may report for each of
    them, and the acknowledgement that is checked against the exact command it answers. *)

From Stdlib Require Import ZArith NArith Lia String.
From S2P Require Import Prelude RustStd External Text SharedKernel Resources NodeClaims NodeGateway NodeArtifacts.
From S2P Require Import NodePluginHost NodeBoxBuild AgentProvider AgentProviderRuns NodeRunBindings.

(** ** What the commands use of the Runtime contract *)
Class RuntimeCommands `{RuntimeContract} := {
  runtime_spec_eq_dec :: EqDecision RuntimeUnitSpec;
  runtime_observation_eq_dec :: EqDecision RuntimeObservation;
  (** [RuntimeUnitSpec::digest] *)
  spec_digest : RuntimeUnitSpec -> result string;
  observation_validate_against : RuntimeObservation -> RuntimeUnitSpec -> result unit;
  (** [observation.state.is_terminal()] *)
  observation_is_terminal : RuntimeObservation -> bool;
  RuntimeApplyRequest : Type;
  runtime_apply_eq_dec :: EqDecision RuntimeApplyRequest;
  RUNTIME_APPLY_SCHEMA : string;
  apply_spec : RuntimeApplyRequest -> RuntimeUnitSpec;
  apply_validate : RuntimeApplyRequest -> result unit;
  apply_to_json : RuntimeApplyRequest -> json;
  RuntimeActionRequest : Type;
  runtime_action_eq_dec :: EqDecision RuntimeActionRequest;
  action_request_id : RuntimeActionRequest -> string;
  action_unit_id : RuntimeActionRequest -> string;
  action_generation : RuntimeActionRequest -> N;
  action_validate : RuntimeActionRequest -> result unit;
  action_to_json : RuntimeActionRequest -> json;
  (** [RuntimeInspection] is [Found { observation, .. }] or [NotFound { unit_id, .. }]: the
      fields the source does not name are in the tail type. *)
  InspectionTail : Type;
  inspection_tail_eq_dec :: EqDecision InspectionTail;
  found_validate : RuntimeObservation -> InspectionTail -> result unit;
  not_found_validate : string -> InspectionTail -> result unit;
  RuntimeRemoval : Type;
  runtime_removal_eq_dec :: EqDecision RuntimeRemoval;
  removal_request_id : RuntimeRemoval -> string;
  removal_unit_id : RuntimeRemoval -> string;
  removal_generation : RuntimeRemoval -> N;
  removal_validate : RuntimeRemoval -> result unit;
}.

Module RuntimeInspection.
Section inspection.
Context `{RuntimeCommands}.

Inductive t :=
| Found (observation : RuntimeObservation) (tail : InspectionTail)
| NotFound (unit_id : string) (tail : InspectionTail).

#[global] Instance t_eq_dec : EqDecision t.
Proof. solve_decision. Defined.

Definition validate (self : t) : result unit :=
  match self with
  | Found observation tail => found_validate observation tail
  | NotFound unit_id tail => not_found_validate unit_id tail
  end.

End inspection.
End RuntimeInspection.

Definition validate_inspection_identity `{RuntimeCommands} (inspection : RuntimeInspection.t)
    (expected_unit_id : string) (expected_generation : N) : result unit :=
  let mismatch := "Runtime inspection identity does not match its command"%string in
  match inspection with
  | RuntimeInspection.Found observation _ =>
    fail_if (negb ((observation_unit_id observation == expected_unit_id)
                   && (observation_generation observation == expected_generation))) mismatch
  | RuntimeInspection.NotFound unit_id _ => fail_if (unit_id != expected_unit_id) mismatch
  end.

(** ** Payloads *)
Module NodeCommandPayload.
Section payload.
Context `{RuntimeCommands} `{CodeContract} `{UseContract}.

Inductive t :=
| ResourceClaimPrepare (request : NodeResourceClaimPrepare.t)
| RuntimeApply (request : RuntimeApplyRequest) (resource_claim : option NodeResourceClaimBinding.t)
| RuntimeInspect (unit_id : string) (generation : N)
| RuntimeStop (request : RuntimeActionRequest)
| RuntimeRemove (request : RuntimeActionRequest)
| DurableCellOperatorObserve (binding : NodeDurableCellOperatorBindingV1.t)
| AgentProviderCommand (binding : NodeAgentProviderRuntimeBindingV1.t) (command : AgentProviderCommandV1.t)
| CodeAgentCommand (binding : NodeCodeAgentRuntimeBindingV1.t) (command : AgentProtocolCommandV1)
| BoxBuildStart (request : NodeBoxBuildRequest.t)
| BoxBuildInspect (request : NodeBoxBuildRequest.t)
| BoxBuildCancel (request : NodeBoxBuildRequest.t)
| BoxBuildRemove (request : NodeBoxBuildRequest.t)
| ResourceClaimRelease (request : NodeResourceClaimRelease.t)
| GatewaySnapshotInstall (snapshot : GatewaySnapshot.t)
| GatewaySnapshotObserve (request : GatewaySnapshotObservationRequest.t)
| PluginHostCapabilitiesInspect (request : NodePluginHostCapabilitiesRequest.t)
| PluginHostAuthorizeTrust (request : NodePluginHostAuthorizeTrustRequest.t)
| PluginHostPlan (request : PluginHostPlanRequest)
| PluginHostApply (request : PluginHostApplyRequest)
| PluginHostPlanEnablement (request : PluginHostEnablementPlanRequest)
| PluginHostObserve (request : PluginHostObservationRequest).

#[global] Instance t_eq_dec : EqDecision t.
Proof. solve_decision. Defined.

Definition kind (self : t) : string :=
  match self with
  | ResourceClaimPrepare _ => "resource_claim_prepare"
  | RuntimeApply _ _ => "runtime_apply"
  | RuntimeInspect _ _ => "runtime_inspect"
  | RuntimeStop _ => "runtime_stop"
  | RuntimeRemove _ => "runtime_remove"
  | DurableCellOperatorObserve _ => "durable_cell_operator_observe"
  | AgentProviderCommand _ _ => "agent_provider_command"
  | CodeAgentCommand _ _ => "code_agent_command"
  | BoxBuildStart _ => "box_build_start"
  | BoxBuildInspect _ => "box_build_inspect"
  | BoxBuildCancel _ => "box_build_cancel"
  | BoxBuildRemove _ => "box_build_remove"
  | ResourceClaimRelease _ => "resource_claim_release"
  | GatewaySnapshotInstall _ => "gateway_snapshot_install"
  | GatewaySnapshotObserve _ => "gateway_snapshot_observe"
  | PluginHostCapabilitiesInspect _ => "plugin_host_capabilities_inspect"
  | PluginHostAuthorizeTrust _ => "plugin_host_authorize_trust"
  | PluginHostPlan _ => "plugin_host_plan"
  | PluginHostApply _ => "plugin_host_apply"
  | PluginHostPlanEnablement _ => "plugin_host_plan_enablement"
  | PluginHostObserve _ => "plugin_host_observe"
  end.

Definition schema (self : t) : string :=
  match self with
  | ResourceClaimPrepare _ => NodeResourceClaimPrepare.SCHEMA
  | RuntimeApply _ (Some _) => "a3s.cloud.runtime-resource-bound-apply.v1"
  | RuntimeApply _ None => RUNTIME_APPLY_SCHEMA
  | RuntimeInspect _ _ => "a3s.runtime.inspect-request.v1"
  | RuntimeStop _ => "a3s.runtime.stop-request.v1"
  | RuntimeRemove _ => "a3s.runtime.remove-request.v1"
  | DurableCellOperatorObserve _ => NODE_DURABLE_CELL_OPERATOR_OBSERVE_SCHEMA_V1
  | AgentProviderCommand _ _ => NODE_AGENT_PROVIDER_COMMAND_SCHEMA_V1
  | CodeAgentCommand _ _ => NODE_CODE_AGENT_COMMAND_SCHEMA_V1
  | BoxBuildStart _ => "a3s.cloud.box-build-start.v1"
  | BoxBuildInspect _ => "a3s.cloud.box-build-inspect.v1"
  | BoxBuildCancel _ => "a3s.cloud.box-build-cancel.v1"
  | BoxBuildRemove _ => "a3s.cloud.box-build-remove.v1"
  | ResourceClaimRelease _ => NodeResourceClaimRelease.SCHEMA
  | GatewaySnapshotInstall _ => GatewaySnapshot.SCHEMA
  | GatewaySnapshotObserve _ => GatewaySnapshotObservationRequest.SCHEMA
  | PluginHostCapabilitiesInspect _ => NodePluginHostCapabilitiesRequest.SCHEMA
  | PluginHostAuthorizeTrust _ => NodePluginHostAuthorizeTrustRequest.SCHEMA
  | PluginHostPlan _ => PLUGIN_HOST_PLAN_REQUEST_SCHEMA
  | PluginHostApply _ => PLUGIN_HOST_APPLY_REQUEST_SCHEMA
  | PluginHostPlanEnablement _ => PLUGIN_HOST_ENABLEMENT_PLAN_REQUEST_SCHEMA
  | PluginHostObserve _ => PLUGIN_HOST_OBSERVATION_REQUEST_SCHEMA
  end.

Definition generation (self : t) : N :=
  match self with
  | ResourceClaimPrepare request => request.(NodeResourceClaimPrepare.claim_generation)
  | RuntimeApply request _ => spec_generation (apply_spec request)
  | RuntimeInspect _ generation => generation
  | RuntimeStop request | RuntimeRemove request => action_generation request
  | DurableCellOperatorObserve binding => binding.(NodeDurableCellOperatorBindingV1.runtime_generation)
  | AgentProviderCommand binding _ => binding.(NodeAgentProviderRuntimeBindingV1.runtime_generation)
  | CodeAgentCommand binding _ => binding.(NodeCodeAgentRuntimeBindingV1.runtime_generation)
  | BoxBuildStart request | BoxBuildInspect request | BoxBuildCancel request | BoxBuildRemove request =>
    request.(NodeBoxBuildRequest.generation)
  | ResourceClaimRelease request => request.(NodeResourceClaimRelease.claim_generation)
  | GatewaySnapshotInstall snapshot => snapshot.(GatewaySnapshot.revision)
  | GatewaySnapshotObserve request => request.(GatewaySnapshotObservationRequest.revision)
  | PluginHostCapabilitiesInspect request => request.(NodePluginHostCapabilitiesRequest.generation)
  | PluginHostAuthorizeTrust request => request.(NodePluginHostAuthorizeTrustRequest.generation)
  | PluginHostPlan request => plan_request_generation request
  | PluginHostApply request => apply_request_generation request
  | PluginHostPlanEnablement request => enablement_request_generation request
  | PluginHostObserve request => observation_request_generation request
  end.

Context `{ArtifactContract} `{AclContract} `{External}.

Definition validate (self : t) : result unit :=
  match self with
  | ResourceClaimPrepare request => NodeResourceClaimPrepare.validate request
  | RuntimeApply request resource_claim =>
    apply_validate request ;;
    match resource_claim with
    | Some binding => NodeResourceClaimBinding.validate_runtime_spec binding (apply_spec request)
    | None => Ok tt
    end
  | RuntimeInspect unit_id generation =>
    validate_single_line "Runtime unit ID" unit_id 512 ;;
    fail_if (generation =? 0)%N "Runtime inspection generation must be positive"
  | RuntimeStop request | RuntimeRemove request => action_validate request
  | DurableCellOperatorObserve binding => NodeDurableCellOperatorBindingV1.validate binding
  | AgentProviderCommand binding command => NodeAgentProviderRuntimeBindingV1.validate_command binding command
  | CodeAgentCommand binding command => NodeCodeAgentRuntimeBindingV1.validate_command binding command
  | BoxBuildStart request | BoxBuildInspect request | BoxBuildCancel request | BoxBuildRemove request =>
    NodeBoxBuildRequest.validate request
  | ResourceClaimRelease request => NodeResourceClaimRelease.validate request
  | GatewaySnapshotInstall snapshot => GatewaySnapshot.validate snapshot
  | GatewaySnapshotObserve request => GatewaySnapshotObservationRequest.validate request
  | PluginHostCapabilitiesInspect request => NodePluginHostCapabilitiesRequest.validate request
  | PluginHostAuthorizeTrust request => NodePluginHostAuthorizeTrustRequest.validate request
  | PluginHostPlan request =>
    map_code "invalid A3S Use Plugin Host plan request ({})" (plan_request_validate request)
  | PluginHostApply request =>
    map_code "invalid A3S Use Plugin Host apply request ({})" (apply_request_validate request)
  | PluginHostPlanEnablement request =>
    map_code "invalid A3S Use Plugin Host enablement plan request ({})" (enablement_request_validate request)
  | PluginHostObserve request =>
    map_code "invalid A3S Use Plugin Host observation request ({})" (observation_request_validate request)
  end.

(** [#[serde(tag = "kind", rename_all = "snake_case")]]: the tag first, then the fields. *)
Definition fields (self : t) : list (string * json) :=
  match self with
  | ResourceClaimPrepare request => [("request", NodeResourceClaimPrepare.to_json request)]
  | RuntimeApply request resource_claim =>
    ("request", apply_to_json request)
    :: optional_member "resource_claim" NodeResourceClaimBinding.to_json resource_claim
  | RuntimeInspect unit_id generation => [("unit_id", JStr unit_id); ("generation", JNum generation)]
  | RuntimeStop request | RuntimeRemove request => [("request", action_to_json request)]
  | DurableCellOperatorObserve binding => [("binding", NodeDurableCellOperatorBindingV1.to_json binding)]
  | AgentProviderCommand binding command =>
    [("binding", NodeAgentProviderRuntimeBindingV1.to_json binding);
     ("command", AgentProviderCommandV1.to_json command)]
  | CodeAgentCommand binding command =>
    [("binding", NodeCodeAgentRuntimeBindingV1.to_json binding); ("command", code_command_to_json command)]
  | BoxBuildStart request | BoxBuildInspect request | BoxBuildCancel request | BoxBuildRemove request =>
    [("request", NodeBoxBuildRequest.to_json request)]
  | ResourceClaimRelease request => [("request", NodeResourceClaimRelease.to_json request)]
  | GatewaySnapshotInstall snapshot => [("snapshot", GatewaySnapshot.to_json snapshot)]
  | GatewaySnapshotObserve request => [("request", GatewaySnapshotObservationRequest.to_json request)]
  | PluginHostCapabilitiesInspect request => [("request", NodePluginHostCapabilitiesRequest.to_json request)]
  | PluginHostAuthorizeTrust request => [("request", NodePluginHostAuthorizeTrustRequest.to_json request)]
  | PluginHostPlan request => [("request", plan_request_to_json request)]
  | PluginHostApply request => [("request", apply_request_to_json request)]
  | PluginHostPlanEnablement request => [("request", enablement_request_to_json request)]
  | PluginHostObserve request => [("request", observation_request_to_json request)]
  end%string.

Definition to_json (self : t) : json := JObj (("kind"%string, JStr (kind self)) :: fields self).

Definition digest (self : t) : result string :=
  validate self ;;
  digest_json (to_json self) "could not encode node command payload: {error}".

End payload.
Arguments t {_ _ _ _}.
End NodeCommandPayload.

(** Everything outside the repository that the command protocol reaches. *)
Class Platform := {
  platform_external :: External;
  platform_runtime :: RuntimeContract;
  platform_commands :: RuntimeCommands;
  platform_code :: CodeContract;
  platform_use :: UseContract;
  platform_artifacts :: ArtifactContract;
  platform_acl :: AclContract;
}.

(** ** Envelopes *)
Module NodeCommandMetadata.

Record t := Mk {
  command_id : Uuid;
  lease_id : Uuid;
  node_id : Uuid;
  sequence : N;
  aggregate_id : Uuid;
  issued_at : Time;
  not_after : Time;
  correlation_id : Uuid;
}.

End NodeCommandMetadata.

Module NodeCommandEnvelope.
Import NodeCommandPayload.
Section envelope.
Context `{Platform}.

Record t := Mk {
  schema : string;
  command_id : Uuid;
  lease_id : Uuid;
  node_id : Uuid;
  sequence : N;
  aggregate_id : Uuid;
  generation : N;
  payload_schema : string;
  payload_digest : string;
  issued_at : Time;
  not_after : Time;
  correlation_id : Uuid;
  payload : NodeCommandPayload.t;
}.

#[global] Instance t_eq_dec : EqDecision t.
Proof. solve_decision. Defined.
#[global] Instance t_eta : Eta t := fun r =>
  Mk r.(schema) r.(command_id) r.(lease_id) r.(node_id) r.(sequence) r.(aggregate_id) r.(generation)
     r.(payload_schema) r.(payload_digest) r.(issued_at) r.(not_after) r.(correlation_id) r.(payload).

Definition SCHEMA : string := "a3s.cloud.node-command.v1".

(** A snapshot travels inside the identity and the validity of its command. *)
Definition validate_gateway (self : t) : result unit :=
  match self.(payload) with
  | GatewaySnapshotInstall snapshot =>
    fail_if ((snapshot.(GatewaySnapshot.gateway_id) != self.(node_id))
             || (snapshot.(GatewaySnapshot.issued_at) != self.(issued_at))
             || (snapshot.(GatewaySnapshot.expires_at) <? self.(not_after))%Z)
      "Gateway snapshot identity and validity must contain its node command"
  | GatewaySnapshotObserve request =>
    fail_if (request.(GatewaySnapshotObservationRequest.gateway_id) != self.(node_id))
      "Gateway snapshot observation targets another command node"
  | _ => Ok tt
  end.

(** The aggregate and the node of a command are those its payload names. *)
Definition validate_identity (self : t) : result unit :=
  match self.(payload) with
  | ResourceClaimPrepare request =>
    let binding := request.(NodeResourceClaimPrepare.binding) in
    fail_if ((self.(node_id) != binding.(NodeResourceClaimBinding.node_id))
             || (self.(aggregate_id) != binding.(NodeResourceClaimBinding.claim_id)))
      "resource claim prepare command identity does not match its binding"
  | RuntimeApply _ (Some binding) =>
    fail_if (self.(node_id) != binding.(NodeResourceClaimBinding.node_id))
      "Runtime resource binding belongs to a different command node"
  | ResourceClaimRelease request =>
    let binding := request.(NodeResourceClaimRelease.binding) in
    fail_if ((self.(node_id) != binding.(NodeResourceClaimBinding.node_id))
             || (self.(aggregate_id) != binding.(NodeResourceClaimBinding.claim_id)))
      "resource claim release command identity does not match its binding"
  | CodeAgentCommand binding _ =>
    fail_if (self.(aggregate_id) != binding.(NodeCodeAgentRuntimeBindingV1.execution_id))
      "Code Agent command aggregate does not match its execution"
  | AgentProviderCommand binding _ =>
    fail_if (self.(aggregate_id) != binding.(NodeAgentProviderRuntimeBindingV1.execution_id))
      "Agent provider command aggregate does not match its execution"
  | DurableCellOperatorObserve binding =>
    fail_if (self.(aggregate_id) != binding.(NodeDurableCellOperatorBindingV1.application_id))
      "Durable Cell operator command aggregate does not match its application"
  | _ => Ok tt
  end.

Definition validate (self : t) : result unit :=
  check_schema self.(schema) SCHEMA "unsupported node command schema {:?}" ;;
  validate_uuid "command_id" self.(command_id) ;;
  validate_uuid "lease_id" self.(lease_id) ;;
  validate_uuid "node_id" self.(node_id) ;;
  validate_uuid "aggregate_id" self.(aggregate_id) ;;
  validate_uuid "correlation_id" self.(correlation_id) ;;
  fail_if ((self.(sequence) =? 0)%N || (self.(generation) =? 0)%N)
    "command sequence and generation must be positive" ;;
  fail_if (self.(not_after) <=? self.(issued_at))%Z "command expiry must follow issue time" ;;
  NodeCommandPayload.validate self.(payload) ;;
  validate_gateway self ;;
  validate_identity self ;;
  fail_if (self.(generation) != NodeCommandPayload.generation self.(payload))
    "command generation does not match its payload" ;;
  fail_if (self.(payload_schema) != NodeCommandPayload.schema self.(payload))
    "command payload schema does not match its payload" ;;
  validate_sha256 "command payload digest" self.(payload_digest) ;;
  digest ← NodeCommandPayload.digest self.(payload);
  fail_if (self.(payload_digest) != digest) "command payload digest does not match its payload".

Definition new (metadata : NodeCommandMetadata.t) (payload : NodeCommandPayload.t) : result t :=
  payload_digest ← NodeCommandPayload.digest payload;
  let envelope :=
    {| schema := SCHEMA;
       command_id := metadata.(NodeCommandMetadata.command_id);
       lease_id := metadata.(NodeCommandMetadata.lease_id);
       node_id := metadata.(NodeCommandMetadata.node_id);
       sequence := metadata.(NodeCommandMetadata.sequence);
       aggregate_id := metadata.(NodeCommandMetadata.aggregate_id);
       generation := NodeCommandPayload.generation payload;
       payload_schema := NodeCommandPayload.schema payload;
       payload_digest := payload_digest;
       issued_at := metadata.(NodeCommandMetadata.issued_at);
       not_after := metadata.(NodeCommandMetadata.not_after);
       correlation_id := metadata.(NodeCommandMetadata.correlation_id);
       payload := payload |} in
  validate envelope ;;
  Ok envelope.

Definition is_expired_at (self : t) (now : Time) : bool := (self.(not_after) <=? now)%Z.

End envelope.
End NodeCommandEnvelope.

(** ** Results *)
Module NodeCommandResult.
Section result.
Context `{Platform}.

Inductive t :=
| ResourceClaimPrepared (prepared : NodeResourceClaimPrepared.t)
| RuntimeApplied (observation : RuntimeObservation)
| RuntimeInspected (inspection : RuntimeInspection.t)
| RuntimeStopped (inspection : RuntimeInspection.t)
| RuntimeRemoved (removal : RuntimeRemoval)
| DurableCellOperatorObserved (observation : NodeDurableCellOperatorObservationV1.t)
| AgentProviderCommandAccepted (receipt : AgentProviderCommandReceiptV1.t)
| CodeAgentCommandAccepted (receipt : AgentProtocolCommandReceiptV1)
| BoxBuildStarted (started : NodeBoxBuildStartResult.t)
| BoxBuildInspected (inspection : NodeBoxBuildInspection.t)
| BoxBuildCancelled (cancelled : NodeBoxBuildCancelResult.t)
| BoxBuildRemoved (removed : NodeBoxBuildRemoveResult.t)
| ResourceClaimReleased (released : NodeResourceClaimReleased.t)
| GatewaySnapshotInstalled (acknowledgement : NodeGatewayAck.t)
| GatewaySnapshotObserved (observation : NodeGatewaySnapshotObservation.t)
| PluginHostCapabilitiesInspected (capabilities : PluginHostCapabilities)
| PluginHostTrustAuthorized (authorized : NodePluginHostTrustAuthorized.t)
| PluginHostPlanned (capabilities : PluginHostCapabilities) (plan : PluginHostPlanResult)
| PluginHostApplied (capabilities : PluginHostCapabilities) (applied : PluginHostApplyResult)
| PluginHostEnablementPlanned (capabilities : PluginHostCapabilities)
    (enablement_plan : PluginHostEnablementPlanResult)
| PluginHostObserved (capabilities : PluginHostCapabilities) (observation : PluginHostObservationResult).

#[global] Instance t_eq_dec : EqDecision t.
Proof. solve_decision. Defined.

Definition validate_capabilities (capabilities : PluginHostCapabilities) : result unit :=
  map_code "invalid Plugin Host capabilities ({})" (capabilities_validate capabilities).

Definition validate (self : t) : result unit :=
  match self with
  | ResourceClaimPrepared prepared => NodeResourceClaimPrepared.validate prepared
  | RuntimeApplied observation => observation_validate observation
  | RuntimeInspected inspection | RuntimeStopped inspection => RuntimeInspection.validate inspection
  | RuntimeRemoved removal => removal_validate removal
  | DurableCellOperatorObserved observation => NodeDurableCellOperatorObservationV1.validate observation
  | AgentProviderCommandAccepted receipt => AgentProviderCommandReceiptV1.validate receipt
  | CodeAgentCommandAccepted receipt =>
    map_code "invalid A3S Code command receipt ({})" (code_receipt_validate receipt)
  | BoxBuildStarted started => NodeBoxBuildPhase.validate started.(NodeBoxBuildStartResult.phase)
  | BoxBuildInspected _ | BoxBuildCancelled _ | BoxBuildRemoved _ => Ok tt
  | ResourceClaimReleased released => NodeResourceClaimReleased.validate released
  | GatewaySnapshotInstalled acknowledgement => NodeGatewayAck.validate acknowledgement
  | GatewaySnapshotObserved observation => NodeGatewaySnapshotObservation.validate observation
  | PluginHostCapabilitiesInspected capabilities => validate_capabilities capabilities
  | PluginHostTrustAuthorized authorized => NodePluginHostTrustAuthorized.validate authorized
  | PluginHostPlanned capabilities plan =>
    validate_capabilities capabilities ;;
    map_code "invalid Plugin Host plan result ({})" (plan_result_validate plan)
  | PluginHostApplied capabilities applied =>
    validate_capabilities capabilities ;;
    map_code "invalid Plugin Host apply result ({})" (apply_result_validate applied)
  | PluginHostEnablementPlanned capabilities enablement_plan =>
    validate_capabilities capabilities ;;
    map_code "invalid Plugin Host enablement plan result ({})" (enablement_result_validate enablement_plan)
  | PluginHostObserved capabilities observation =>
    validate_capabilities capabilities ;;
    map_code "invalid Plugin Host observation result ({})" (observation_result_validate observation)
  end.

(** The result must be of the kind of the command, and match it exactly. *)
Definition validate_against (self : t) (command : NodeCommandEnvelope.t) : result unit :=
  let command_id := command.(NodeCommandEnvelope.command_id) in
  let node_id := command.(NodeCommandEnvelope.node_id) in
  validate self ;;
  match command.(NodeCommandEnvelope.payload), self with
  | NodeCommandPayload.ResourceClaimPrepare request, ResourceClaimPrepared prepared =>
    NodeResourceClaimPrepared.validate_for prepared request
  | NodeCommandPayload.RuntimeApply request resource_claim, RuntimeApplied observation =>
    observation_validate_against observation (apply_spec request) ;;
    match resource_claim with
    | Some binding => NodeResourceClaimBinding.validate_runtime_observation binding observation
    | None => Ok tt
    end
  | NodeCommandPayload.RuntimeInspect unit_id generation, RuntimeInspected inspection =>
    validate_inspection_identity inspection unit_id generation
  | NodeCommandPayload.RuntimeStop request, RuntimeStopped inspection =>
    validate_inspection_identity inspection (action_unit_id request) (action_generation request)
  | NodeCommandPayload.RuntimeRemove request, RuntimeRemoved removal =>
    fail_if (negb ((removal_request_id removal == action_request_id request)
                   && (removal_unit_id removal == action_unit_id request)
                   && (removal_generation removal == action_generation request)))
      "node command result identity does not match its payload"
  | NodeCommandPayload.DurableCellOperatorObserve binding, DurableCellOperatorObserved observation =>
    NodeDurableCellOperatorObservationV1.validate_for observation binding
  | NodeCommandPayload.CodeAgentCommand binding command, CodeAgentCommandAccepted receipt =>
    NodeCodeAgentRuntimeBindingV1.validate_command binding command ;;
    map_code "A3S Code command receipt does not match ({})" (code_receipt_validate_for receipt command)
  | NodeCommandPayload.AgentProviderCommand binding command, AgentProviderCommandAccepted receipt =>
    NodeAgentProviderRuntimeBindingV1.validate_command binding command ;;
    profile ← NodeAgentProviderRuntimeBindingV1.profile binding;
    AgentProviderCommandReceiptV1.validate_for receipt profile command
  | NodeCommandPayload.BoxBuildStart request, BoxBuildStarted started =>
    NodeBoxBuildStartResult.validate_for started request
  | NodeCommandPayload.BoxBuildInspect request, BoxBuildInspected inspection =>
    NodeBoxBuildInspection.validate_for inspection request
  | NodeCommandPayload.BoxBuildCancel request, BoxBuildCancelled cancelled =>
    NodeBoxBuildCancelResult.validate_for cancelled request
  | NodeCommandPayload.BoxBuildRemove request, BoxBuildRemoved removed =>
    NodeBoxBuildRemoveResult.validate_for removed request
  | NodeCommandPayload.ResourceClaimRelease request, ResourceClaimReleased released =>
    NodeResourceClaimReleased.validate_for released request
  | NodeCommandPayload.GatewaySnapshotInstall snapshot, GatewaySnapshotInstalled acknowledgement =>
    NodeGatewayAck.validate_for acknowledgement command_id node_id snapshot
  | NodeCommandPayload.GatewaySnapshotObserve request, GatewaySnapshotObserved observation =>
    NodeGatewaySnapshotObservation.validate_for observation command_id node_id request
  | NodeCommandPayload.PluginHostCapabilitiesInspect _, PluginHostCapabilitiesInspected capabilities =>
    validate_capabilities capabilities
  | NodeCommandPayload.PluginHostAuthorizeTrust request, PluginHostTrustAuthorized authorized =>
    NodePluginHostTrustAuthorized.validate_for authorized request
  | NodeCommandPayload.PluginHostPlan request, PluginHostPlanned capabilities plan =>
    map_code "Plugin Host plan result does not match its request ({})"
      (plan_result_validate_for plan request capabilities)
  | NodeCommandPayload.PluginHostApply request, PluginHostApplied capabilities applied =>
    map_code "Plugin Host apply result does not match its request ({})"
      (apply_result_validate_for applied request capabilities)
  | NodeCommandPayload.PluginHostPlanEnablement request, PluginHostEnablementPlanned capabilities enablement_plan =>
    map_code "Plugin Host enablement plan result does not match its request ({})"
      (enablement_result_validate_for enablement_plan request capabilities)
  | NodeCommandPayload.PluginHostObserve request, PluginHostObserved capabilities observation =>
    map_code "Plugin Host observation result does not match its request ({})"
      (observation_result_validate_for observation request capabilities)
  | _, _ => err "node command result kind does not match its payload"
  end.

End result.
End NodeCommandResult.

Module NodeCommandFailure.

Record t := Mk { code : string; message : string; retryable : bool }.

#[global] Instance t_eq_dec : EqDecision t.
Proof. solve_decision. Defined.

Definition validate (self : t) : result unit :=
  validate_single_line "command failure code" self.(code) 127 ;;
  validate_single_line "command failure message" self.(message) (16 * 1024).

End NodeCommandFailure.

Module NodeCommandOutcome.
Section outcome.
Context `{Platform}.

Inductive t :=
| Succeeded (result : NodeCommandResult.t)
| Rejected (failure : NodeCommandFailure.t)
| Failed (failure : NodeCommandFailure.t).

#[global] Instance t_eq_dec : EqDecision t.
Proof. solve_decision. Defined.

Definition validate (self : t) : result unit :=
  match self with
  | Succeeded result => NodeCommandResult.validate result
  | Rejected failure | Failed failure => NodeCommandFailure.validate failure
  end.

End outcome.
End NodeCommandOutcome.

(** ** Acknowledgements *)

(** The largest instant of [chrono::DateTime<Utc>], in milliseconds. *)
Definition MAX_TIMESTAMP_MILLIS : N := 8210266876799999.

(** [i64::try_from(ms)] and [DateTime::from_timestamp_millis]: both fail with the same message. *)
Definition timestamp_from_millis (message : string) (args : list fmt_arg) (milliseconds : N) : result Time :=
  if (milliseconds <=? MAX_TIMESTAMP_MILLIS)%N then Ok (Z.of_N milliseconds * 1000000)%Z else errf message args.

Definition plugin_host_timestamp (label : string) : N -> result Time :=
  timestamp_from_millis "Plugin Host {label} time exceeds supported bounds" [FStr label].
Definition agent_provider_timestamp : N -> result Time :=
  timestamp_from_millis "Agent provider receipt time exceeds supported bounds" [].
Definition durable_cell_operator_timestamp : N -> result Time :=
  timestamp_from_millis "Durable Cell operator observation time exceeds supported bounds" [].

Module NodeCommandAckReceipt.

Record t := Mk { schema : string; command_id : Uuid; node_id : Uuid; replayed : bool }.

Definition SCHEMA : string := "a3s.cloud.node-command-ack-receipt.v1".

Definition validate (self : t) : result unit :=
  check_schema self.(schema) SCHEMA "unsupported node command acknowledgement receipt schema {:?}" ;;
  validate_uuid "command_id" self.(command_id) ;;
  validate_uuid "node_id" self.(node_id).

End NodeCommandAckReceipt.

Module NodeCommandAck.
Import NodeCommandPayload.
Section ack.
Context `{Platform}.

Record t := Mk {
  schema : string;
  command_id : Uuid;
  lease_id : Uuid;
  node_id : Uuid;
  sequence : N;
  payload_digest : string;
  completed_at : Time;
  outcome : NodeCommandOutcome.t;
}.

#[global] Instance t_eq_dec : EqDecision t.
Proof. solve_decision. Defined.
#[global] Instance t_eta : Eta t := fun r =>
  Mk r.(schema) r.(command_id) r.(lease_id) r.(node_id) r.(sequence) r.(payload_digest) r.(completed_at)
     r.(outcome).

Definition SCHEMA : string := "a3s.cloud.node-command-ack.v2".
Definition LEGACY_SCHEMA : string := "a3s.cloud.node-command-ack.v1".

(** When the evidence of a result was taken, and whether it repeats an earlier execution. *)
Definition result_evidence (result : NodeCommandResult.t) : Prelude.result (option (Time * bool)) :=
  match result with
  | NodeCommandResult.ResourceClaimPrepared prepared =>
    Ok (Some (prepared.(NodeResourceClaimPrepared.prepared_at), false))
  | NodeCommandResult.ResourceClaimReleased released =>
    Ok (Some (released.(NodeResourceClaimReleased.released_at), false))
  | NodeCommandResult.PluginHostPlanned _ plan =>
    at' ← plugin_host_timestamp "plan creation" (plan_result_created_at_ms plan);
    Ok (Some (at', plan_result_replayed plan))
  | NodeCommandResult.PluginHostApplied _ applied =>
    at' ← plugin_host_timestamp "apply completion" (apply_result_completed_at_ms applied);
    Ok (Some (at', apply_result_replayed applied))
  | NodeCommandResult.PluginHostEnablementPlanned _ enablement_plan =>
    at' ← plugin_host_timestamp "enablement plan creation" (enablement_result_planned_at_ms enablement_plan);
    Ok (Some (at', enablement_result_replayed enablement_plan))
  | NodeCommandResult.PluginHostObserved _ observation =>
    at' ← plugin_host_timestamp "observation" (observation_result_observed_at_ms observation);
    Ok (Some (at', false))
  | NodeCommandResult.AgentProviderCommandAccepted receipt =>
    at' ← agent_provider_timestamp receipt.(AgentProviderCommandReceiptV1.observed_at_ms);
    Ok (Some (at', receipt.(AgentProviderCommandReceiptV1.replayed)))
  | NodeCommandResult.CodeAgentCommandAccepted receipt =>
    at' ← agent_provider_timestamp (code_receipt_observed_at_ms receipt);
    Ok (Some (at', code_receipt_replayed receipt))
  | NodeCommandResult.DurableCellOperatorObserved observation =>
    at' ← durable_cell_operator_timestamp observation.(NodeDurableCellOperatorObservationV1.observed_at_ms);
    Ok (Some (at', false))
  | NodeCommandResult.RuntimeApplied _
  | NodeCommandResult.RuntimeInspected _
  | NodeCommandResult.RuntimeStopped _
  | NodeCommandResult.RuntimeRemoved _
  | NodeCommandResult.BoxBuildStarted _
  | NodeCommandResult.BoxBuildInspected _
  | NodeCommandResult.BoxBuildCancelled _
  | NodeCommandResult.BoxBuildRemoved _
  | NodeCommandResult.GatewaySnapshotInstalled _
  | NodeCommandResult.GatewaySnapshotObserved _
  | NodeCommandResult.PluginHostCapabilitiesInspected _
  | NodeCommandResult.PluginHostTrustAuthorized _ => Ok None
  end.

(** The commands that did not exist when the legacy acknowledgement schema was current. *)
Definition requires_current_schema (payload : NodeCommandPayload.t) : bool :=
  match payload with
  | ResourceClaimPrepare _ | ResourceClaimRelease _ | RuntimeApply _ (Some _)
  | DurableCellOperatorObserve _ | AgentProviderCommand _ _ | CodeAgentCommand _ _
  | BoxBuildStart _ | BoxBuildInspect _ | BoxBuildCancel _ | BoxBuildRemove _
  | PluginHostCapabilitiesInspect _ | PluginHostAuthorizeTrust _ | PluginHostPlan _ | PluginHostApply _
  | PluginHostPlanEnablement _ | PluginHostObserve _ => true
  | _ => false
  end.

(** The Gateway results carry their own acknowledgement and time. *)
Definition validate_gateway_result (self : t) (command : NodeCommandEnvelope.t) (result : NodeCommandResult.t) :
    Prelude.result unit :=
  match result with
  | NodeCommandResult.GatewaySnapshotInstalled acknowledgement =>
    let expected_gateway_schema :=
      if self.(schema) == SCHEMA then NodeGatewayAck.SCHEMA else NodeGatewayAck.LEGACY_SCHEMA in
    fail_if (acknowledgement.(NodeGatewayAck.schema) != expected_gateway_schema)
      "Gateway acknowledgement schema does not match its command acknowledgement" ;;
    fail_if ((acknowledgement.(NodeGatewayAck.acknowledged_at) <? command.(NodeCommandEnvelope.issued_at))%Z
             || (self.(completed_at) <? acknowledgement.(NodeGatewayAck.acknowledged_at))%Z)
      "Gateway acknowledgement time falls outside command execution"
  | NodeCommandResult.GatewaySnapshotObserved observation =>
    fail_if (self.(schema) != SCHEMA)
      "Gateway snapshot observations require the current acknowledgement schema" ;;
    fail_if ((observation.(NodeGatewaySnapshotObservation.observed_at) <? command.(NodeCommandEnvelope.issued_at))%Z
             || (self.(completed_at) <? observation.(NodeGatewaySnapshotObservation.observed_at))%Z)
      "Gateway snapshot observation time falls outside command execution"
  | _ => Ok tt
  end.

Definition validate_against (self : t) (command : NodeCommandEnvelope.t) : Prelude.result unit :=
  NodeCommandEnvelope.validate command ;;
  (if (self.(schema) != SCHEMA) && (self.(schema) != LEGACY_SCHEMA)
   then errf "unsupported node command acknowledgement schema {:?}" [FStr self.(schema)] else Ok tt) ;;
  fail_if ((self.(command_id) != command.(NodeCommandEnvelope.command_id))
           || (self.(lease_id) != command.(NodeCommandEnvelope.lease_id))
           || (self.(node_id) != command.(NodeCommandEnvelope.node_id))
           || (self.(sequence) != command.(NodeCommandEnvelope.sequence))
           || (self.(payload_digest) != command.(NodeCommandEnvelope.payload_digest)))
    "command acknowledgement identity does not match the command" ;;
  fail_if (self.(completed_at) <? command.(NodeCommandEnvelope.issued_at))%Z
    "command acknowledgement predates the command" ;;
  NodeCommandOutcome.validate self.(outcome) ;;
  match self.(outcome) with
  | NodeCommandOutcome.Succeeded result =>
    NodeCommandResult.validate_against result command ;;
    evidence ← result_evidence result;
    fail_if (is_some_and (fun (ar : Time * bool) =>
                 (negb ar.2 && (ar.1 <? command.(NodeCommandEnvelope.issued_at))%Z)
                 || (self.(completed_at) <? ar.1)%Z) evidence)
      "node command result evidence time falls outside execution" ;;
    fail_if (requires_current_schema command.(NodeCommandEnvelope.payload) && (self.(schema) != SCHEMA))
      "this command requires the current acknowledgement schema" ;;
    validate_gateway_result self command result
  | _ => Ok tt
  end.

End ack.
End NodeCommandAck.

(** ** Leases *)
Module NodeCommandLeaseRequest.

Record t := Mk {
  schema : string;
  node_id : Uuid;
  agent_instance_id : Uuid;
  after_sequence : N;
  max_commands : N;
  wait_ms : N;
}.

Definition SCHEMA : string := "a3s.cloud.node-command-lease-request.v1".

Definition validate (self : t) : result unit :=
  check_schema self.(schema) SCHEMA "unsupported command lease request schema {:?}" ;;
  validate_uuid "node_id" self.(node_id) ;;
  validate_uuid "agent_instance_id" self.(agent_instance_id) ;;
  fail_if ((self.(max_commands) =? 0)%N || (64 <? self.(max_commands))%N || (60000 <? self.(wait_ms))%N)
    "command lease bounds are invalid".

End NodeCommandLeaseRequest.

Module NodeCommandLeaseResponse.
Section lease.
Context `{Platform}.

Record t := Mk {
  schema : string;
  lease_id : Uuid;
  node_id : Uuid;
  agent_instance_id : Uuid;
  leased_until : Time;
  commands : list NodeCommandEnvelope.t;
}.

Definition SCHEMA : string := "a3s.cloud.node-command-lease-response.v1".

Fixpoint validate_commands (lease_id node_id : Uuid) (previous : option N) (commands : list NodeCommandEnvelope.t) :
    result unit :=
  match commands with
  | [] => Ok tt
  | command :: rest =>
    NodeCommandEnvelope.validate command ;;
    fail_if ((command.(NodeCommandEnvelope.lease_id) != lease_id)
             || (command.(NodeCommandEnvelope.node_id) != node_id))
      "leased command identity does not match its lease" ;;
    fail_if (is_some_and (fun sequence => (command.(NodeCommandEnvelope.sequence) <=? sequence)%N) previous)
      "leased commands are not ordered by sequence" ;;
    validate_commands lease_id node_id (Some command.(NodeCommandEnvelope.sequence)) rest
  end.

Definition validate (self : t) (now : Time) : result unit :=
  check_schema self.(schema) SCHEMA "unsupported command lease response schema {:?}" ;;
  validate_uuid "lease_id" self.(lease_id) ;;
  validate_uuid "node_id" self.(node_id) ;;
  validate_uuid "agent_instance_id" self.(agent_instance_id) ;;
  fail_if ((self.(leased_until) <=? now)%Z || (64 <? len self.(commands))%N)
    "command lease expiry or batch size is invalid" ;;
  validate_commands self.(lease_id) self.(node_id) None self.(commands).

End lease.
End NodeCommandLeaseResponse.
