(* ===== verification/NodeObservations.v ===== *)
(** * What a node agent reports

    [contracts/src/node/observation.rs]: heartbeats, batches of Runtime observations, batches of
    log chunks and gaps, and the receipts that answer them. *)

From Stdlib Require Import ZArith NArith Lia String.
From stdpp Require Import gmap.
From S2P Require Import Prelude RustStd External Text Resources NodeInventory NodeClaims NodeCommands.

(** ** What the reports use of the Runtime contract *)
Class RuntimeReports `{Platform} := {
  RuntimeCapabilities : Type;
  runtime_capabilities_validate : RuntimeCapabilities -> result unit;
  (** [provider_id.to_string()] *)
  runtime_provider_id : RuntimeCapabilities -> string;
  runtime_provider_build : RuntimeCapabilities -> string;
  (** [serde_json::to_value] *)
  runtime_capabilities_to_value : RuntimeCapabilities -> result json;
  RuntimeLogChunk : Type;
  log_chunk_validate : RuntimeLogChunk -> result unit;
  log_chunk_sequence : RuntimeLogChunk -> N;
  log_chunk_cursor : RuntimeLogChunk -> string;
  log_chunk_data : RuntimeLogChunk -> string;
  log_chunk_to_json : RuntimeLogChunk -> json;
}.

(** The source matches on all the variants of these two enums. *)
Module RuntimeLogStream.
Inductive t := Stdout | Stderr.
#[global] Instance t_eq_dec : EqDecision t.
Proof. solve_decision. Defined.
End RuntimeLogStream.

Module RuntimeLogDiscontinuityReason.
Inductive t := CursorLost | SourceDisconnected.
#[global] Instance t_eq_dec : EqDecision t.
Proof. solve_decision. Defined.

(** [gap_reason_name], and the name in [NodeLogChunkBatch::validate] *)
Definition name (reason : t) : string :=
  match reason with
  | CursorLost => "cursor_lost"
  | SourceDisconnected => "source_disconnected"
  end.
End RuntimeLogDiscontinuityReason.

(** ** Heartbeats *)
Module NodeHeartbeat.
Section heartbeat.
Context `{RuntimeReports}.

Record t := Mk {
  schema : string;
  node_id : Uuid;
  agent_instance_id : Uuid;
  observed_at : Time;
  agent_version : string;
  runtime_capabilities : RuntimeCapabilities;
}.

Definition SCHEMA : string := "a3s.cloud.node-heartbeat.v1".

Definition validate (self : t) : result unit :=
  check_schema self.(schema) SCHEMA "unsupported node heartbeat schema {:?}" ;;
  validate_uuid "node_id" self.(node_id) ;;
  validate_uuid "agent_instance_id" self.(agent_instance_id) ;;
  validate_single_line "agent version" self.(agent_version) 255 ;;
  runtime_capabilities_validate self.(runtime_capabilities).

End heartbeat.
End NodeHeartbeat.

Module NodeHeartbeatV2.
Section heartbeat.
Context `{RuntimeReports}.

Record t := Mk {
  schema : string;
  node_id : Uuid;
  agent_instance_id : Uuid;
  observed_at : Time;
  agent_version : string;
  runtime_capabilities : RuntimeCapabilities;
  inventory : NodeInventoryReference.t;
}.

Definition SCHEMA : string := "a3s.cloud.node-heartbeat.v2".

Definition validate (self : t) : result unit :=
  check_schema self.(schema) SCHEMA "unsupported node heartbeat schema {:?}" ;;
  validate_uuid "node_id" self.(node_id) ;;
  validate_uuid "agent_instance_id" self.(agent_instance_id) ;;
  validate_single_line "agent version" self.(agent_version) 255 ;;
  runtime_capabilities_validate self.(runtime_capabilities) ;;
  NodeInventoryReference.validate self.(inventory).

End heartbeat.
End NodeHeartbeatV2.

(** ** Runtime observations *)
Module RuntimeObservationReport.
Section report.
Context `{Platform}.

Record t := Mk {
  report_id : Uuid;
  command_id : option Uuid;
  observed_at : Time;
  observation : RuntimeObservation;
}.

#[global] Instance t_eq_dec : EqDecision t.
Proof. solve_decision. Defined.
#[global] Instance t_eta : Eta t := fun r => Mk r.(report_id) r.(command_id) r.(observed_at) r.(observation).

Definition validate (self : t) : result unit :=
  validate_uuid "report_id" self.(report_id) ;;
  (match self.(command_id) with
   | Some command_id => validate_uuid "command_id" command_id
   | None => Ok tt
   end) ;;
  observation_validate self.(observation).

End report.
End RuntimeObservationReport.

Definition validate_observations `{Platform} (observations : list RuntimeObservationReport.t) (sent_at : Time) :
    result unit :=
  fail_if (256 <? len observations)%N "node observation batch exceeds 256 entries" ;;
  for_each (fun observation =>
    RuntimeObservationReport.validate observation ;;
    fail_if (sent_at <? observation.(RuntimeObservationReport.observed_at))%Z
      "Runtime observation is newer than its enclosing batch") observations.

Module NodeObservationBatch.
Section batch.
Context `{RuntimeReports}.

Record t := Mk {
  schema : string;
  node_id : Uuid;
  agent_instance_id : Uuid;
  sent_at : Time;
  heartbeat : NodeHeartbeat.t;
  observations : list RuntimeObservationReport.t;
}.

Definition SCHEMA : string := "a3s.cloud.node-observation-batch.v1".

Definition validate (self : t) : result unit :=
  check_schema self.(schema) SCHEMA "unsupported node observation batch schema {:?}" ;;
  validate_uuid "node_id" self.(node_id) ;;
  validate_uuid "agent_instance_id" self.(agent_instance_id) ;;
  NodeHeartbeat.validate self.(heartbeat) ;;
  fail_if ((self.(heartbeat).(NodeHeartbeat.node_id) != self.(node_id))
           || (self.(heartbeat).(NodeHeartbeat.agent_instance_id) != self.(agent_instance_id)))
    "node observation batch identity does not match its heartbeat" ;;
  validate_observations self.(observations) self.(sent_at).

End batch.
End NodeObservationBatch.

Module NodeObservationBatchV2.
Section batch.
Context `{RuntimeReports}.

Record t := Mk {
  schema : string;
  node_id : Uuid;
  agent_instance_id : Uuid;
  sent_at : Time;
  heartbeat : NodeHeartbeatV2.t;
  observations : list RuntimeObservationReport.t;
}.

Definition SCHEMA : string := "a3s.cloud.node-observation-batch.v2".

Definition validate (self : t) : result unit :=
  check_schema self.(schema) SCHEMA "unsupported node observation batch schema {:?}" ;;
  validate_uuid "node_id" self.(node_id) ;;
  validate_uuid "agent_instance_id" self.(agent_instance_id) ;;
  NodeHeartbeatV2.validate self.(heartbeat) ;;
  fail_if ((self.(heartbeat).(NodeHeartbeatV2.node_id) != self.(node_id))
           || (self.(heartbeat).(NodeHeartbeatV2.agent_instance_id) != self.(agent_instance_id)))
    "node observation batch identity does not match its heartbeat" ;;
  validate_observations self.(observations) self.(sent_at).

End batch.
End NodeObservationBatchV2.

Module NodeObservationBatchEnvelope.
Section envelope.
Context `{RuntimeReports}.

Inductive t :=
| V2 (batch : NodeObservationBatchV2.t)
| V1 (batch : NodeObservationBatch.t).

Definition validate (self : t) : result unit :=
  match self with
  | V1 batch => NodeObservationBatch.validate batch
  | V2 batch => NodeObservationBatchV2.validate batch
  end.

Definition node_id (self : t) : Uuid :=
  match self with
  | V1 batch => batch.(NodeObservationBatch.node_id)
  | V2 batch => batch.(NodeObservationBatchV2.node_id)
  end.

End envelope.
End NodeObservationBatchEnvelope.

Module NodeObservationReceipt.

Record t := Mk {
  schema : string;
  node_id : Uuid;
  heartbeat_observed_at : Time;
  accepted_reports : N;
  replayed_reports : N;
}.

Definition SCHEMA : string := "a3s.cloud.node-observation-receipt.v1".

Definition validate (self : t) : result unit :=
  check_schema self.(schema) SCHEMA "unsupported node observation receipt schema {:?}" ;;
  validate_uuid "node_id" self.(node_id) ;;
  fail_if (256 <? self.(accepted_reports) + self.(replayed_reports))%N
    "node observation receipt exceeds the batch bound".

End NodeObservationReceipt.

(** ** Log batches *)
Module NodeLogChunkReport.
Section report.
Context `{RuntimeReports}.

Record t := Mk {
  unit_id : string;
  generation : N;
  chunk : RuntimeLogChunk;
  checksum : string;
}.

Definition validate (self : t) : result unit :=
  validate_single_line "Runtime unit ID" self.(unit_id) 512 ;;
  fail_if (self.(generation) =? 0)%N "log chunk generation must be positive" ;;
  log_chunk_validate self.(chunk) ;;
  validate_sha256 "log chunk checksum" self.(checksum) ;;
  let expected := sha256_digest (bytes_of (log_chunk_data self.(chunk))) in
  fail_if (self.(checksum) != expected) "log chunk checksum does not match its data".

Definition to_json (self : t) : json :=
  JObj [("unit_id", JStr self.(unit_id));
        ("generation", JNum self.(generation));
        ("chunk", log_chunk_to_json self.(chunk));
        ("checksum", JStr self.(checksum))]%string.

End report.
End NodeLogChunkReport.

(** [cursor.is_empty() || cursor.len() > 1024 || cursor.contains('\0')] *)
Definition log_cursor_invalid (cursor : string) : bool :=
  str_is_empty cursor || (1024 <? str_len cursor)%N || contains_any [NUL] cursor.

Module NodeLogGapReport.
Import RuntimeLogDiscontinuityReason.

Record t := Mk {
  unit_id : string;
  generation : N;
  cursor : option string;
  sequence : N;
  observed_at_ms : N;
  reason : RuntimeLogDiscontinuityReason.t;
}.

Definition validate (self : t) : result unit :=
  validate_single_line "Runtime unit ID" self.(unit_id) 512 ;;
  fail_if (self.(generation) =? 0)%N "log gap generation must be positive" ;;
  fail_if (is_some_and log_cursor_invalid self.(cursor)) "log gap cursor is invalid" ;;
  fail_if ((self.(reason) == CursorLost) && is_none self.(cursor))
    "cursor-loss log gap must bind the lost cursor".

Definition to_json (self : t) : json :=
  JObj [("unit_id", JStr self.(unit_id));
        ("generation", JNum self.(generation));
        ("cursor", json_option JStr self.(cursor));
        ("sequence", JNum self.(sequence));
        ("observed_at_ms", JNum self.(observed_at_ms));
        ("reason", JStr (name self.(reason)))]%string.

End NodeLogGapReport.

(** The identities a batch has used so far: the [BTreeSet]s and [BTreeMap]s of the two
    validations of a log batch.  A target is a unit and its generation. *)
Module LogIdentities.

Abbreviation target := (string * N)%type (only parsing).

Record t := Mk {
  identities : gset (target * N);
  cursors : gset (target * string);
  last_sequences : gmap target N;
  chunk_targets : gset target;
  gap_identities : gset (target * option string * string);
  last_gap_sequences : gmap target N;
}.

#[global] Instance t_eta : Eta t := fun r =>
  Mk r.(identities) r.(cursors) r.(last_sequences) r.(chunk_targets) r.(gap_identities) r.(last_gap_sequences).

Definition empty : t := Mk ∅ ∅ ∅ ∅ ∅ ∅.

Definition chunk_is_duplicate (self : t) (target : target) (sequence : N) (cursor : string) : bool :=
  bool_decide ((target, sequence) ∈ self.(identities)) || bool_decide ((target, cursor) ∈ self.(cursors)).
Definition chunk_is_unordered (self : t) (target : target) (sequence : N) : bool :=
  is_some_and (fun last => (sequence <=? last)%N) (self.(last_sequences) !! target).
Definition add_chunk (self : t) (target : target) (sequence : N) (cursor : string) : t :=
  self <| identities := {[(target, sequence)]} ∪ self.(identities) |>
       <| cursors := {[(target, cursor)]} ∪ self.(cursors) |>
       <| last_sequences := <[target := sequence]> self.(last_sequences) |>
       <| chunk_targets := {[target]} ∪ self.(chunk_targets) |>.

Definition has_chunks (self : t) (target : target) : bool := bool_decide (target ∈ self.(chunk_targets)).
Definition gap_conflicts (self : t) (target : target) (sequence : N) (cursor : option string) (reason : string) : bool :=
  bool_decide ((target, sequence) ∈ self.(identities))
  || bool_decide ((target, cursor, reason) ∈ self.(gap_identities))
  || is_some_and (fun last => (sequence <=? last)%N) (self.(last_gap_sequences) !! target).
Definition add_gap (self : t) (target : target) (sequence : N) (cursor : option string) (reason : string) : t :=
  self <| identities := {[(target, sequence)]} ∪ self.(identities) |>
       <| gap_identities := {[(target, cursor, reason)]} ∪ self.(gap_identities) |>
       <| last_gap_sequences := <[target := sequence]> self.(last_gap_sequences) |>.

End LogIdentities.

Module NodeLogChunkBatch.
Section batch.
Context `{RuntimeReports}.

Record t := Mk {
  schema : string;
  batch_id : Uuid;
  node_id : Uuid;
  sent_at : Time;
  chunks : list NodeLogChunkReport.t;
  gaps : list NodeLogGapReport.t;
}.

Definition SCHEMA : string := "a3s.cloud.node-log-chunk-batch.v1".

Fixpoint validate_chunks (seen : LogIdentities.t) (total : N) (chunks : list NodeLogChunkReport.t) :
    result (LogIdentities.t * N) :=
  match chunks with
  | [] => Ok (seen, total)
  | chunk :: rest =>
    NodeLogChunkReport.validate chunk ;;
    let target := (chunk.(NodeLogChunkReport.unit_id), chunk.(NodeLogChunkReport.generation)) in
    let sequence := log_chunk_sequence chunk.(NodeLogChunkReport.chunk) in
    let cursor := log_chunk_cursor chunk.(NodeLogChunkReport.chunk) in
    fail_if (LogIdentities.chunk_is_duplicate seen target sequence cursor
             || LogIdentities.chunk_is_unordered seen target sequence)
      "node log batch contains conflicting or unordered chunk identities" ;;
    total ← ok_or (checked_add total (str_len (log_chunk_data chunk.(NodeLogChunkReport.chunk))))
              "node log batch size overflowed";
    validate_chunks (LogIdentities.add_chunk seen target sequence cursor) total rest
  end.

Fixpoint validate_gaps (seen : LogIdentities.t) (gaps : list NodeLogGapReport.t) : result unit :=
  match gaps with
  | [] => Ok tt
  | gap :: rest =>
    NodeLogGapReport.validate gap ;;
    let target := (gap.(NodeLogGapReport.unit_id), gap.(NodeLogGapReport.generation)) in
    let reason := RuntimeLogDiscontinuityReason.name gap.(NodeLogGapReport.reason) in
    fail_if (LogIdentities.has_chunks seen target) "node log batch mixes chunks and gaps for one target" ;;
    fail_if (LogIdentities.gap_conflicts seen target gap.(NodeLogGapReport.sequence) gap.(NodeLogGapReport.cursor) reason)
      "node log batch contains conflicting or unordered gap identities" ;;
    validate_gaps
      (LogIdentities.add_gap seen target gap.(NodeLogGapReport.sequence) gap.(NodeLogGapReport.cursor) reason) rest
  end.

Definition validate (self : t) : result unit :=
  check_schema self.(schema) SCHEMA "unsupported node log batch schema {:?}" ;;
  validate_uuid "batch_id" self.(batch_id) ;;
  validate_uuid "node_id" self.(node_id) ;;
  record_count ← ok_or (checked_add (len self.(chunks)) (len self.(gaps))) "node log batch record count overflowed";
  fail_if ((record_count =? 0)%N || (256 <? record_count)%N) "node log batch must contain 1 to 256 records" ;;
  '(seen, total_data_bytes) ← validate_chunks LogIdentities.empty 0 self.(chunks);
  validate_gaps seen self.(gaps) ;;
  fail_if (16 * 1024 * 1024 <? total_data_bytes)%N "node log batch exceeds 16 MiB".

(** [gaps] is skipped when it is empty. *)
Definition to_json (self : t) : json :=
  JObj ([("schema", JStr self.(schema));
         ("batch_id", JStr (uuid_display self.(batch_id)));
         ("node_id", JStr (uuid_display self.(node_id)));
         ("sent_at", JStr (time_display self.(sent_at)));
         ("chunks", JArr (map NodeLogChunkReport.to_json self.(chunks)))]%string
        ++ if is_empty self.(gaps) then []
           else [("gaps"%string, JArr (map NodeLogGapReport.to_json self.(gaps)))]).

Definition digest (self : t) : result string :=
  validate self ;;
  digest_json (to_json self) "could not encode node log batch: {error}".

End batch.
End NodeLogChunkBatch.

Module NodeLogChunkReceipt.

Record t := Mk {
  schema : string;
  batch_id : Uuid;
  node_id : Uuid;
  accepted_chunks : N;
  accepted_gaps : N;
  replayed : bool;
}.

Definition SCHEMA : string := "a3s.cloud.node-log-chunk-receipt.v1".

Definition validate (self : t) : result unit :=
  check_schema self.(schema) SCHEMA "unsupported node log chunk receipt schema {:?}" ;;
  validate_uuid "batch_id" self.(batch_id) ;;
  validate_uuid "node_id" self.(node_id) ;;
  let accepted_records := (self.(accepted_chunks) + self.(accepted_gaps))%N in
  fail_if ((accepted_records =? 0)%N || (256 <? accepted_records)%N) "node log receipt record count is invalid".

End NodeLogChunkReceipt.
