(* ===== verification/NodeSessions.v ===== *)
(** * Protocol negotiation with a node agent

    [contracts/src/node/session.rs] and [fleet/domain/value_objects/node_protocol_session.rs]: the
    contract sets an agent offers, the selection the control plane answers with, and the chain of
    selections that keeps a reconnecting agent from being moved to an older protocol. *)

From Stdlib Require Import ZArith NArith Lia String.
From S2P Require Import Prelude RustStd External Text SharedKernel Resources.

Definition MAX_CONTRACTS_PER_DIRECTION : N := 128.
Definition MAX_CONTRACT_ID_BYTES : N := 255.
Definition MAX_SAFE_PROTOCOL_GENERATION : N := 9007199254740991.
Definition MAX_HELLO_AGE_SECONDS : Z := 300.
Definition MAX_SELECTION_CLOCK_SKEW_SECONDS : Z := 30.

Definition valid_contract_id (value : string) : bool :=
  (str_len value <=? MAX_CONTRACT_ID_BYTES)%N
  && starts_with "a3s." value
  && match rev (bytes_of value) with b :: _ => is_ascii_digit b | [] => false end
  && all (fun byte => is_ascii_lowercase byte || is_ascii_digit byte || (byte =? DOT)%N || (byte =? HYPHEN)%N)
       (bytes_of value).

(** [windows(2).all(|pair| pair[0] < pair[1])] *)
Definition strictly_ascending (l : list string) : bool := negb (any_pair (fun x y => leb y x) l).

Definition validate_contracts (label : string) (contracts : list string) : result unit :=
  if is_empty contracts
     || (MAX_CONTRACTS_PER_DIRECTION <? len contracts)%N
     || negb (strictly_ascending contracts)
     || any (fun schema => negb (valid_contract_id schema)) contracts
  then errf "{label} node contracts must be a sorted unique bounded schema list" [FStr label]
  else Ok tt.

(** [Vec::contains] *)
Definition vec_contains (l : list string) (x : string) : bool := any (fun y => y == x) l.

Module NodeProtocolContractSet.

Record t := Mk { agent_readable : list string; agent_writable : list string }.

#[global] Instance t_eq_dec : EqDecision t.
Proof. solve_decision. Defined.

Definition validate (self : t) : result unit :=
  validate_contracts "Agent-readable" self.(agent_readable) ;;
  validate_contracts "Agent-writable" self.(agent_writable).

Definition to_json (self : t) : json :=
  JObj [("agent_readable", JArr (map JStr self.(agent_readable)));
        ("agent_writable", JArr (map JStr self.(agent_writable)))]%string.

Definition digest `{External} (self : t) : result string :=
  validate self ;;
  digest_json (to_json self) "could not encode node protocol contracts: {error}".

Definition is_subset_of (self offered : t) : bool :=
  all (vec_contains offered.(agent_readable)) self.(agent_readable)
  && all (vec_contains offered.(agent_writable)) self.(agent_writable).

End NodeProtocolContractSet.

Module NodeSessionSelectionReference.

Record t := Mk { session_id : Uuid; generation : N; contracts_digest : string }.

#[global] Instance t_eq_dec : EqDecision t.
Proof. solve_decision. Defined.

Definition validate (self : t) : result unit :=
  validate_uuid "node session ID" self.(session_id) ;;
  fail_if ((self.(generation) =? 0)%N || (MAX_SAFE_PROTOCOL_GENERATION <? self.(generation))%N)
    "node session selection generation is invalid" ;;
  validate_lower_sha256 "node session contract-set digest" self.(contracts_digest).

End NodeSessionSelectionReference.

Definition validate_previous (previous : option NodeSessionSelectionReference.t) : result unit :=
  match previous with
  | Some previous => NodeSessionSelectionReference.validate previous
  | None => Ok tt
  end.

Module NodeSessionHello.

Record t := Mk {
  schema : string;
  node_id : Uuid;
  agent_instance_id : Uuid;
  session_epoch : Uuid;
  hello_sequence : N;
  offered_at : Time;
  agent_version : string;
  contracts : NodeProtocolContractSet.t;
  previous_selection : option NodeSessionSelectionReference.t;
}.

#[global] Instance t_eq_dec : EqDecision t.
Proof. solve_decision. Defined.

Definition SCHEMA : string := "a3s.cloud.node-session-hello.v1".

Definition validate (self : t) : result unit :=
  check_schema self.(schema) SCHEMA "unsupported node session hello schema {:?}" ;;
  validate_uuid "node session node ID" self.(node_id) ;;
  validate_uuid "node session Agent instance ID" self.(agent_instance_id) ;;
  validate_uuid "node session epoch" self.(session_epoch) ;;
  fail_if ((self.(hello_sequence) =? 0)%N || (MAX_SAFE_PROTOCOL_GENERATION <? self.(hello_sequence))%N)
    "node session hello sequence is invalid" ;;
  validate_single_line "node session Agent version" self.(agent_version) 255 ;;
  NodeProtocolContractSet.validate self.(contracts) ;;
  validate_previous self.(previous_selection).

Definition validate_at (self : t) (received_at : Time) : result unit :=
  validate self ;;
  fail_if ((received_at + seconds MAX_SELECTION_CLOCK_SKEW_SECONDS <? self.(offered_at))%Z
           || (self.(offered_at) <? received_at - seconds MAX_HELLO_AGE_SECONDS)%Z)
    "node session hello freshness is invalid".

End NodeSessionHello.

Module NodeSessionSelection.

Record t := Mk {
  schema : string;
  node_id : Uuid;
  agent_instance_id : Uuid;
  session_epoch : Uuid;
  hello_sequence : N;
  session_id : Uuid;
  generation : N;
  selected_at : Time;
  expires_at : Time;
  contracts : NodeProtocolContractSet.t;
  previous_selection : option NodeSessionSelectionReference.t;
}.

#[global] Instance t_eq_dec : EqDecision t.
Proof. solve_decision. Defined.

Definition SCHEMA : string := "a3s.cloud.node-session-selection.v1".
Definition MAX_LIFETIME_HOURS : Z := 24.

Definition validate_structure (self : t) : result unit :=
  check_schema self.(schema) SCHEMA "unsupported node session selection schema {:?}" ;;
  validate_uuid "selected node ID" self.(node_id) ;;
  validate_uuid "selected Agent instance ID" self.(agent_instance_id) ;;
  validate_uuid "selected node session epoch" self.(session_epoch) ;;
  validate_uuid "selected node session ID" self.(session_id) ;;
  fail_if ((self.(hello_sequence) =? 0)%N
           || (MAX_SAFE_PROTOCOL_GENERATION <? self.(hello_sequence))%N
           || (self.(generation) =? 0)%N
           || (MAX_SAFE_PROTOCOL_GENERATION <? self.(generation))%N)
    "node session selection sequence or generation is invalid" ;;
  let lifetime := (self.(expires_at) - self.(selected_at))%Z in
  fail_if ((lifetime <=? 0)%Z || (hours MAX_LIFETIME_HOURS <? lifetime)%Z)
    "node session selection lifetime is invalid" ;;
  NodeProtocolContractSet.validate self.(contracts) ;;
  validate_previous self.(previous_selection).

Definition validate_for (self : t) (hello : NodeSessionHello.t) (now : Time) : result unit :=
  NodeSessionHello.validate hello ;;
  validate_structure self ;;
  expected_generation ← ok_or
    (match hello.(NodeSessionHello.previous_selection) with
     | None => Some 1%N
     | Some previous => checked_add previous.(NodeSessionSelectionReference.generation) 1
     end) "node session selection generation is exhausted";
  fail_if ((self.(node_id) != hello.(NodeSessionHello.node_id))
           || (self.(agent_instance_id) != hello.(NodeSessionHello.agent_instance_id))
           || (self.(session_epoch) != hello.(NodeSessionHello.session_epoch))
           || (self.(hello_sequence) != hello.(NodeSessionHello.hello_sequence))
           || (self.(generation) != expected_generation)
           || (self.(previous_selection) != hello.(NodeSessionHello.previous_selection)))
    "node session selection changed its hello or downgrade chain" ;;
  fail_if ((self.(expires_at) <=? now)%Z
           || (now + seconds MAX_SELECTION_CLOCK_SKEW_SECONDS <? self.(selected_at))%Z)
    "node session selection freshness is invalid" ;;
  NodeProtocolContractSet.validate self.(contracts) ;;
  fail_if (negb (NodeProtocolContractSet.is_subset_of self.(contracts) hello.(NodeSessionHello.contracts)))
    "node session selected a contract the Agent did not offer".

Definition reference `{External} (self : t) : result NodeSessionSelectionReference.t :=
  validate_structure self ;;
  contracts_digest ← NodeProtocolContractSet.digest self.(contracts);
  let reference := NodeSessionSelectionReference.Mk self.(session_id) self.(generation) contracts_digest in
  NodeSessionSelectionReference.validate reference ;;
  Ok reference.

End NodeSessionSelection.

(** ** The control plane's side *)

(** The largest instant of [chrono::DateTime<Utc>], in nanoseconds: [checked_add_signed] fails
    beyond it. *)
Definition MAX_UTC : Time := (8210266876799 * 1000000000 + 999999999)%Z.

(** The [Display] of [NodeProtocolSessionError]. *)
Module NodeProtocolSessionError.
Definition InvalidContract (e : error) : error :=
  Error "node protocol contract is invalid: {0}" (FStr e.(template) :: e.(args)).
Definition InvalidPolicy : error := Error "node protocol policy is invalid" [].
Definition InvalidSelectionDraft : error := Error "node protocol selection draft is invalid" [].
Definition RequiredContractUnavailable : error := Error "required node protocol contract is unavailable" [].
Definition MissingSelectionPredecessor : error := Error "node protocol selection predecessor is missing" [].
Definition IdentityConflict : error := Error "node protocol session identity conflicts with its head" [].
Definition SelectionChainConflict : error := Error "node protocol selection chain conflicts with its head" [].
Definition HelloSequenceConflict : error := Error "node protocol hello sequence conflicts with its head" [].
Definition SequenceExhausted : error := Error "node protocol hello sequence is exhausted" [].
Definition ProtocolDowngrade : error := Error "node protocol selection would downgrade the active contract set" [].
End NodeProtocolSessionError.

(** [if c { return Err(e) }] *)
Definition refuse_if (c : bool) (e : error) : result unit := if c then Err e else Ok tt.

Module NodeProtocolPolicy.
Import NodeProtocolSessionError.

Record t := Mk { supported : NodeProtocolContractSet.t; required : NodeProtocolContractSet.t }.

Definition new (supported required : NodeProtocolContractSet.t) : result t :=
  map_err InvalidContract (NodeProtocolContractSet.validate supported) ;;
  map_err InvalidContract (NodeProtocolContractSet.validate required) ;;
  refuse_if (negb (NodeProtocolContractSet.is_subset_of required supported)) InvalidPolicy ;;
  Ok (Mk supported required).

Definition select (self : t) (offered : NodeProtocolContractSet.t) : result NodeProtocolContractSet.t :=
  let selected :=
    {| NodeProtocolContractSet.agent_readable :=
         List.filter (vec_contains self.(supported).(NodeProtocolContractSet.agent_readable))
           offered.(NodeProtocolContractSet.agent_readable);
       NodeProtocolContractSet.agent_writable :=
         List.filter (vec_contains self.(supported).(NodeProtocolContractSet.agent_writable))
           offered.(NodeProtocolContractSet.agent_writable) |} in
  map_err (fun _ => RequiredContractUnavailable) (NodeProtocolContractSet.validate selected) ;;
  refuse_if (negb (NodeProtocolContractSet.is_subset_of self.(required) selected)) RequiredContractUnavailable ;;
  Ok selected.

End NodeProtocolPolicy.

Module NodeProtocolSessionRecord.
Import NodeProtocolSessionError.

Record t := Mk { hello : NodeSessionHello.t; selection : NodeSessionSelection.t }.

#[global] Instance t_eq_dec : EqDecision t.
Proof. solve_decision. Defined.

Definition restore (hello : NodeSessionHello.t) (selection : NodeSessionSelection.t) : result t :=
  map_err InvalidContract (NodeSessionHello.validate hello) ;;
  map_err InvalidContract
    (NodeSessionSelection.validate_for selection hello selection.(NodeSessionSelection.selected_at)) ;;
  Ok (Mk hello selection).

Definition reference `{External} (self : t) : result NodeSessionSelectionReference.t :=
  map_err InvalidContract (NodeSessionSelection.reference self.(selection)).

End NodeProtocolSessionRecord.

Module NodeProtocolNegotiationOutcome.
Record t := Mk { record : NodeProtocolSessionRecord.t; replayed : bool }.
End NodeProtocolNegotiationOutcome.

Module NodeProtocolNegotiation.
Import NodeProtocolSessionError.

Record t := Mk {
  hello : NodeSessionHello.t;
  policy : NodeProtocolPolicy.t;
  received_at : Time;
  selection_lifetime : Z;
  proposed_session_id : Uuid;
}.

Definition new (hello : NodeSessionHello.t) (policy : NodeProtocolPolicy.t) (received_at : Time)
    (selection_lifetime : Z) (proposed_session_id : Uuid) : result t :=
  let received_at := canonical_timestamp received_at in
  map_err InvalidContract (NodeSessionHello.validate_at hello received_at) ;;
  refuse_if ((selection_lifetime <=? 0)%Z
             || (hours NodeSessionSelection.MAX_LIFETIME_HOURS <? selection_lifetime)%Z
             || is_nil proposed_session_id) InvalidSelectionDraft ;;
  Ok (Mk hello policy received_at selection_lifetime proposed_session_id).

Section negotiation.
Context `{External}.

Definition validate_successor (self : t) (current : NodeProtocolSessionRecord.t) : result unit :=
  let previous := current.(NodeProtocolSessionRecord.hello) in
  refuse_if ((self.(hello).(NodeSessionHello.node_id) != previous.(NodeSessionHello.node_id))
             || (self.(hello).(NodeSessionHello.agent_instance_id) != previous.(NodeSessionHello.agent_instance_id)))
    IdentityConflict ;;
  reference ← NodeProtocolSessionRecord.reference current;
  refuse_if (self.(hello).(NodeSessionHello.previous_selection) != Some reference) SelectionChainConflict ;;
  if self.(hello).(NodeSessionHello.session_epoch) == previous.(NodeSessionHello.session_epoch) then
    match checked_add previous.(NodeSessionHello.hello_sequence) 1 with
    | None => Err SequenceExhausted
    | Some expected_sequence =>
      refuse_if (self.(hello).(NodeSessionHello.hello_sequence) != expected_sequence) HelloSequenceConflict
    end
  else refuse_if (self.(hello).(NodeSessionHello.hello_sequence) != 1%N) HelloSequenceConflict.

(** What a new selection is made of, once its place in the chain is settled. *)
Definition draft_selection (self : t) (current : option NodeProtocolSessionRecord.t) : result NodeSessionSelection.t :=
  contracts ← NodeProtocolPolicy.select self.(policy) self.(hello).(NodeSessionHello.contracts);
  refuse_if (is_some_and (fun record =>
      negb (NodeProtocolContractSet.is_subset_of
              record.(NodeProtocolSessionRecord.selection).(NodeSessionSelection.contracts) contracts)) current)
    ProtocolDowngrade ;;
  let generation :=
    match current with
    | None => Some 1%N
    | Some record => checked_add record.(NodeProtocolSessionRecord.selection).(NodeSessionSelection.generation) 1
    end in
  match generation with
  | None => Err SequenceExhausted
  | Some generation =>
    let expires_at := (self.(received_at) + self.(selection_lifetime))%Z in
    refuse_if (MAX_UTC <? expires_at)%Z InvalidSelectionDraft ;;
    let selection :=
      {| NodeSessionSelection.schema := NodeSessionSelection.SCHEMA;
         NodeSessionSelection.node_id := self.(hello).(NodeSessionHello.node_id);
         NodeSessionSelection.agent_instance_id := self.(hello).(NodeSessionHello.agent_instance_id);
         NodeSessionSelection.session_epoch := self.(hello).(NodeSessionHello.session_epoch);
         NodeSessionSelection.hello_sequence := self.(hello).(NodeSessionHello.hello_sequence);
         NodeSessionSelection.session_id := self.(proposed_session_id);
         NodeSessionSelection.generation := generation;
         NodeSessionSelection.selected_at := self.(received_at);
         NodeSessionSelection.expires_at := expires_at;
         NodeSessionSelection.contracts := contracts;
         NodeSessionSelection.previous_selection := self.(hello).(NodeSessionHello.previous_selection) |} in
    map_err InvalidContract (NodeSessionSelection.validate_for selection self.(hello) self.(received_at)) ;;
    Ok selection
  end.

Definition apply (self : t) (current : option NodeProtocolSessionRecord.t) :
    result NodeProtocolNegotiationOutcome.t :=
  let fresh :=
    selection ← draft_selection self current;
    Ok (NodeProtocolNegotiationOutcome.Mk (NodeProtocolSessionRecord.Mk self.(hello) selection) false) in
  match current with
  | Some record =>
    if record.(NodeProtocolSessionRecord.hello) == self.(hello)
    then Ok (NodeProtocolNegotiationOutcome.Mk record true)
    else validate_successor self record ;; fresh
  | None =>
    refuse_if (is_some self.(hello).(NodeSessionHello.previous_selection)
               || (self.(hello).(NodeSessionHello.hello_sequence) != 1%N)) MissingSelectionPredecessor ;;
    fresh
  end.

End negotiation.
End NodeProtocolNegotiation.
