(* ===== verification/LogRetention.v ===== *)
(** * Log receipts, retention and compaction

    [fleet/domain/repositories/node_control_repository.rs] (the receipts a log batch leaves) and
    [log_retention_repository.rs] (ranges of compacted positions). *)

From Stdlib Require Import ZArith NArith Lia String.
From stdpp Require Import gmap.
From S2P Require Import Prelude RustStd External Text SharedKernel Resources NodeObservations.

Definition is_sha256_receipt (value : string) : bool :=
  is_some_and (fun hex => (str_len hex =? 64)%N && all is_ascii_hexdigit (bytes_of hex)) (strip_prefix "sha256:" value).

(** [unit_id.is_empty() || unit_id.len() > 512 || unit_id.contains('\0') || generation == 0] *)
Definition log_target_invalid (unit_id : string) (generation : N) : bool :=
  str_is_empty unit_id || (512 <? str_len unit_id)%N || contains_any [NUL] unit_id || (generation =? 0)%N.

(** ** Receipts *)
Module NodeLogChunkMetadata.
Record t := Mk {
  node_id : NodeId;
  unit_id : string;
  generation : N;
  cursor : string;
  sequence : N;
  observed_at_ms : N;
  stream : RuntimeLogStream.t;
  checksum : string;
  object_key : string;
  retained_at : option Time;
}.
End NodeLogChunkMetadata.

Module NodeLogGapMetadata.
Record t := Mk {
  node_id : NodeId;
  unit_id : string;
  generation : N;
  cursor : option string;
  sequence : N;
  observed_at_ms : N;
  reason : RuntimeLogDiscontinuityReason.t;
}.
End NodeLogGapMetadata.

Module NodeLogChunkReceiptDraft.

Record t := Mk {
  unit_id : string;
  generation : N;
  cursor : string;
  sequence : N;
  observed_at_ms : N;
  stream : string;
  checksum : string;
  object_key : string;
}.

#[global] Instance t_eq_dec : EqDecision t.
Proof. solve_decision. Defined.

Definition validate (self : t) : result unit :=
  fail_if (log_target_invalid self.(unit_id) self.(generation)
           || log_cursor_invalid self.(cursor)
           || negb (matches self.(stream) ["stdout"; "stderr"]%string)
           || negb (is_sha256_receipt self.(checksum))
           || str_is_empty self.(object_key)
           || (4096 <? str_len self.(object_key))%N)
    "log chunk receipt is invalid".

Definition metadata (self : t) (node_id : NodeId) (retained_at : option Time) : result NodeLogChunkMetadata.t :=
  validate self ;;
  stream ← (if self.(stream) == "stdout"%string then Ok RuntimeLogStream.Stdout
            else if self.(stream) == "stderr"%string then Ok RuntimeLogStream.Stderr
            else err "log chunk receipt stream is invalid");
  Ok {| NodeLogChunkMetadata.node_id := node_id;
        NodeLogChunkMetadata.unit_id := self.(unit_id);
        NodeLogChunkMetadata.generation := self.(generation);
        NodeLogChunkMetadata.cursor := self.(cursor);
        NodeLogChunkMetadata.sequence := self.(sequence);
        NodeLogChunkMetadata.observed_at_ms := self.(observed_at_ms);
        NodeLogChunkMetadata.stream := stream;
        NodeLogChunkMetadata.checksum := self.(checksum);
        NodeLogChunkMetadata.object_key := self.(object_key);
        NodeLogChunkMetadata.retained_at := retained_at |}.

End NodeLogChunkReceiptDraft.

Module NodeLogGapReceiptDraft.
Import RuntimeLogDiscontinuityReason.

Record t := Mk {
  unit_id : string;
  generation : N;
  cursor : option string;
  sequence : N;
  observed_at_ms : N;
  reason : RuntimeLogDiscontinuityReason.t;
}.

#[global] Instance t_eq_dec : EqDecision t.
Proof. solve_decision. Defined.

Definition validate (self : t) : result unit :=
  fail_if (log_target_invalid self.(unit_id) self.(generation) || is_some_and log_cursor_invalid self.(cursor))
    "log gap receipt is invalid" ;;
  fail_if ((self.(reason) == CursorLost) && is_none self.(cursor))
    "cursor-loss log gap must bind the lost cursor".

Definition metadata (self : t) (node_id : NodeId) : result NodeLogGapMetadata.t :=
  validate self ;;
  Ok {| NodeLogGapMetadata.node_id := node_id;
        NodeLogGapMetadata.unit_id := self.(unit_id);
        NodeLogGapMetadata.generation := self.(generation);
        NodeLogGapMetadata.cursor := self.(cursor);
        NodeLogGapMetadata.sequence := self.(sequence);
        NodeLogGapMetadata.observed_at_ms := self.(observed_at_ms);
        NodeLogGapMetadata.reason := self.(reason) |}.

End NodeLogGapReceiptDraft.

Module NodeLogBatchReceiptDraft.

Record t := Mk {
  batch_id : Uuid;
  node_id : NodeId;
  payload_digest : string;
  sent_at : Time;
  chunks : list NodeLogChunkReceiptDraft.t;
  gaps : list NodeLogGapReceiptDraft.t;
}.

#[global] Instance t_eq_dec : EqDecision t.
Proof. solve_decision. Defined.
#[global] Instance t_eta : Eta t := fun r =>
  Mk r.(batch_id) r.(node_id) r.(payload_digest) r.(sent_at) r.(chunks) r.(gaps).

Fixpoint validate_chunks (seen : LogIdentities.t) (chunks : list NodeLogChunkReceiptDraft.t) :
    result LogIdentities.t :=
  match chunks with
  | [] => Ok seen
  | chunk :: rest =>
    NodeLogChunkReceiptDraft.validate chunk ;;
    let target := (chunk.(NodeLogChunkReceiptDraft.unit_id), chunk.(NodeLogChunkReceiptDraft.generation)) in
    let sequence := chunk.(NodeLogChunkReceiptDraft.sequence) in
    let cursor := chunk.(NodeLogChunkReceiptDraft.cursor) in
    fail_if (LogIdentities.chunk_is_duplicate seen target sequence cursor)
      "log receipt batch contains duplicate sequence or cursor" ;;
    fail_if (LogIdentities.chunk_is_unordered seen target sequence)
      "log receipt batch sequences must strictly advance" ;;
    validate_chunks (LogIdentities.add_chunk seen target sequence cursor) rest
  end.

Fixpoint validate_gaps (seen : LogIdentities.t) (gaps : list NodeLogGapReceiptDraft.t) : result unit :=
  match gaps with
  | [] => Ok tt
  | gap :: rest =>
    NodeLogGapReceiptDraft.validate gap ;;
    let target := (gap.(NodeLogGapReceiptDraft.unit_id), gap.(NodeLogGapReceiptDraft.generation)) in
    let sequence := gap.(NodeLogGapReceiptDraft.sequence) in
    let cursor := gap.(NodeLogGapReceiptDraft.cursor) in
    let reason := RuntimeLogDiscontinuityReason.name gap.(NodeLogGapReceiptDraft.reason) in
    fail_if (LogIdentities.has_chunks seen target || LogIdentities.gap_conflicts seen target sequence cursor reason)
      "log receipt batch contains conflicting gap identities" ;;
    validate_gaps (LogIdentities.add_gap seen target sequence cursor reason) rest
  end.

Definition validate (self : t) : result unit :=
  record_count ← ok_or (checked_add (len self.(chunks)) (len self.(gaps)))
                   "log receipt batch record count overflowed";
  fail_if (is_nil self.(batch_id)
           || is_nil self.(node_id)
           || (record_count =? 0)%N
           || (256 <? record_count)%N
           || negb (is_sha256_receipt self.(payload_digest)))
    "log receipt batch is invalid" ;;
  seen ← validate_chunks LogIdentities.empty self.(chunks);
  validate_gaps seen self.(gaps).

End NodeLogBatchReceiptDraft.

Module NodeLogBatchReplay.

Record t := Mk {
  batch_id : Uuid;
  node_id : NodeId;
  payload_digest : string;
  sent_at : Time;
  chunk_count : N;
  gap_count : N;
}.

#[global] Instance t_eta : Eta t := fun r =>
  Mk r.(batch_id) r.(node_id) r.(payload_digest) r.(sent_at) r.(chunk_count) r.(gap_count).

Definition validate (self : t) : result unit :=
  fail_if (is_nil self.(batch_id)
           || is_nil self.(node_id)
           || negb (is_sha256_receipt self.(payload_digest))
           || (self.(chunk_count) + self.(gap_count) =? 0)%N
           || (256 <? self.(chunk_count) + self.(gap_count))%N)
    "log batch replay identity is invalid".

Definition receipt (self : t) : NodeLogChunkReceipt.t :=
  {| NodeLogChunkReceipt.schema := NodeLogChunkReceipt.SCHEMA;
     NodeLogChunkReceipt.batch_id := self.(batch_id);
     NodeLogChunkReceipt.node_id := self.(node_id);
     NodeLogChunkReceipt.accepted_chunks := self.(chunk_count);
     NodeLogChunkReceipt.accepted_gaps := self.(gap_count);
     NodeLogChunkReceipt.replayed := true |}.

End NodeLogBatchReplay.

Module NodeLogChunkQuery.

Record t := Mk {
  node_id : NodeId;
  unit_id : string;
  generation : N;
  after_sequence : option N;
  limit : N;
  stream : option RuntimeLogStream.t;
}.

Definition validate (self : t) : result unit :=
  fail_if (is_nil self.(node_id)
           || log_target_invalid self.(unit_id) self.(generation)
           || (self.(limit) =? 0)%N
           || (1000 <? self.(limit))%N)
    "log chunk query is invalid".

End NodeLogChunkQuery.

(** ** Retention *)
Module NodeLogRetentionTarget.

Record t := Mk {
  node_id : NodeId;
  unit_id : string;
  generation : N;
  sequence : N;
  object_key : string;
  received_at : Time;
}.

Definition validate (self : t) : result unit :=
  fail_if (is_nil self.(node_id)
           || log_target_invalid self.(unit_id) self.(generation)
           || str_is_empty self.(object_key)
           || (4096 <? str_len self.(object_key))%N
           || contains_any [NUL] self.(object_key))
    "log retention target is invalid".

End NodeLogRetentionTarget.

Module NodeLogCompactionResult.
Record t := Mk { compacted_tombstones : N; created_ranges : N }.
End NodeLogCompactionResult.

(** ** Ranges of compacted positions *)
Module NodeLogCompactionRange.

Record t := Mk {
  node_id : NodeId;
  unit_id : string;
  generation : N;
  first_sequence : N;
  through_sequence : N;
  compacted_at : Time;
}.

#[global] Instance t_eq_dec : EqDecision t.
Proof. solve_decision. Defined.
#[global] Instance t_eta : Eta t := fun r =>
  Mk r.(node_id) r.(unit_id) r.(generation) r.(first_sequence) r.(through_sequence) r.(compacted_at).

Definition validate (self : t) : result unit :=
  fail_if (is_nil self.(node_id)
           || log_target_invalid self.(unit_id) self.(generation)
           || (self.(through_sequence) <? self.(first_sequence))%N)
    "log compaction range is invalid".

Definition clipped_after (self : t) (after_sequence : option N) : option t :=
  match after_sequence with
  | None => Some self
  | Some after_sequence =>
    if (self.(through_sequence) <=? after_sequence)%N then None
    else
      let first := match checked_add after_sequence 1 with
                   | None => self.(first_sequence)
                   | Some sequence => N.max self.(first_sequence) sequence
                   end in
      Some (self <| first_sequence := first |>)
  end.

Definition compacted_chunks (self : t) : N :=
  saturating_add (self.(through_sequence) - self.(first_sequence)) 1.

(** The stream of positions a range belongs to, and the key [coalesce] sorts by. *)
Definition stream (self : t) : NodeId * string * N := (self.(node_id), self.(unit_id), self.(generation)).
Definition key (self : t) : NodeId * string * N * N := (stream self, self.(first_sequence)).

(** [range] continues [previous]. *)
Definition adjoins (previous range : t) : bool :=
  (previous.(node_id) == range.(node_id))
  && (previous.(unit_id) == range.(unit_id))
  && (previous.(generation) == range.(generation))
  && (range.(first_sequence) <=? saturating_add previous.(through_sequence) 1)%N.

Definition extend (previous range : t) : t :=
  previous <| through_sequence := N.max previous.(through_sequence) range.(through_sequence) |>
           <| compacted_at := Z.max previous.(compacted_at) range.(compacted_at) |>.

(** The loop of [coalesce]: [compacted] is the vector under construction, last element first. *)
Fixpoint coalesce_loop (compacted ranges : list t) : list t :=
  match ranges with
  | [] => rev compacted
  | range :: rest =>
    match compacted with
    | previous :: before =>
      if adjoins previous range then coalesce_loop (extend previous range :: before) rest
      else coalesce_loop (range :: compacted) rest
    | [] => coalesce_loop [range] rest
    end
  end.

Definition coalesce (ranges : list t) : result (list t) :=
  for_each validate ranges ;;
  Ok (coalesce_loop [] (sort_by_key key ranges)).

End NodeLogCompactionRange.

(** A list sorted backwards, then one sorted forwards. *)
Lemma StronglySorted_rev_append {A} (R : A -> A -> Prop) l l' :
  StronglySorted (flip R) l -> StronglySorted R l' -> (forall x y, x ∈ l -> y ∈ l' -> R x y) ->
  StronglySorted R (rev l ++ l').
Proof.
  revert l'. induction l as [|x l IH]; intros l' Hl Hl' Hx; simpl; [done|].
  inversion_clear Hl as [|? ? Hs Hf]. rewrite <- app_assoc. apply IH; [done|..].
  - simpl. constructor; [done|]. apply Forall_forall. intros y Hy. apply Hx; [left|done].
  - intros y z Hy [->|Hz]%elem_of_cons; [|apply Hx; [by right|done]].
    rewrite Forall_forall in Hf. by apply Hf.
Qed.

(** ** Coalescing keeps exactly the compacted positions *)
Section coalesce_lemmas.
Import NodeLogCompactionRange.
Implicit Types (r : NodeLogCompactionRange.t) (l : list NodeLogCompactionRange.t).

(** [position] of [stream] lies in one of the ranges. *)
Definition covers (l : list NodeLogCompactionRange.t) (s : NodeId * string * N) (position : N) : Prop :=
  exists r, r ∈ l /\ stream r = s /\ (r.(first_sequence) <= position <= r.(through_sequence))%N.

(** The positions are those of a [u64]. *)
Definition range_ok (r : NodeLogCompactionRange.t) : Prop :=
  validate r = Ok tt /\ in_u64 r.(through_sequence).

(** [r'] lies behind [r], in a later stream or with a position between them. *)
Definition behind (r r' : NodeLogCompactionRange.t) : Prop :=
  ltb (stream r) (stream r') = true
  \/ (stream r = stream r' /\ (r.(through_sequence) + 1 < r'.(first_sequence))%N).

Lemma range_ok_le r : range_ok r -> (r.(first_sequence) <= r.(through_sequence))%N.
Proof. intros [Hv _]. unfold validate in Hv. rewrite fail_if_Ok in Hv. reflect_bools. lia. Qed.

Lemma behind_trans r1 r2 r3 : range_ok r2 -> behind r1 r2 -> behind r2 r3 -> behind r1 r3.
Proof.
  intros Hok%range_ok_le. unfold behind. intros [H1|[E1 H1]] [H2|[E2 H2]].
  - left. by eapply ltb_trans.
  - left. by rewrite <- E2.
  - left. by rewrite E1.
  - right. split; [congruence|lia].
Qed.

Lemma adjoins_stream r r' : adjoins r r' = true -> stream r = stream r'.
Proof. unfold adjoins, stream. intros. reflect_bools. intuition congruence. Qed.

Lemma key_le_first r r' : key_le key r r' ->
  ltb (stream r) (stream r') = true \/ (stream r = stream r' /\ (r.(first_sequence) <= r'.(first_sequence))%N).
Proof.
  unfold key_le, key, leb, ltb.
  change (cmp (stream r, first_sequence r) (stream r', first_sequence r')) with
    (match cmp (stream r) (stream r') with Eq => cmp (first_sequence r) (first_sequence r') | c => c end).
  destruct (cmp (stream r) (stream r')) eqn:E; [|auto|done]. apply cmp_eq in E. intros Hc. right. split; [done|].
  unfold cmp, N_ord in Hc. by destruct (N.compare_spec (first_sequence r) (first_sequence r')); [lia..|].
Qed.

Lemma not_adjoins_behind r r' : range_ok r' -> key_le key r r' -> adjoins r r' = false -> behind r r'.
Proof.
  intros Hok [Hlt|[E Hle]]%key_le_first Ha; [by left|]. right. split; [done|].
  pose proof (range_ok_le _ Hok) as Hr. destruct Hok as [_ Hu]. unfold in_u64 in Hu. unfold adjoins in Ha. unfold stream in E. simplify_eq. rewrite !bool_decide_eq_true_2 in Ha by congruence.
  simpl in Ha. reflect_bools. unfold saturating_add in Ha. lia.
Qed.

Lemma extend_ok r r' : range_ok r -> range_ok r' -> range_ok (extend r r').
Proof.
  intros [Hv Hu] [_ Hu']. split; [|unfold in_u64 in *; simpl; lia].
  unfold validate in *. rewrite fail_if_Ok in *. reflect_bools. simpl. split_and!; intuition lia.
Qed.

(** A range holds at least one position. *)
Definition proper r : Prop := (r.(first_sequence) <= r.(through_sequence))%N.

Lemma covers_extend r r' l s n :
  proper r -> proper r' -> (r.(first_sequence) <= r'.(first_sequence))%N -> adjoins r r' = true ->
  covers (extend r r' :: l) s n <-> covers (r :: r' :: l) s n.
Proof.
  unfold proper. intros Hr Hr' Hf Ha. pose proof (adjoins_stream _ _ Ha) as E.
  assert (Hadj : (r'.(first_sequence) <= r.(through_sequence) + 1)%N).
  { unfold adjoins in Ha. reflect_bools. unfold saturating_add in Ha. lia. }
  unfold covers. setoid_rewrite elem_of_cons. setoid_rewrite elem_of_cons. split.
  - intros (x & [->|Hx] & Hs & Hn); [|by exists x; auto]. simpl in Hs, Hn.
    destruct (N.leb_spec n r.(through_sequence)).
    + exists r. split_and!; [by left|done|lia|lia].
    + exists r'. rewrite <- E. split_and!; [by right; left|done|lia|lia].
  - intros (x & [->|[->|Hx]] & Hs & Hn); [exists (extend r r')..|by exists x; auto]; simpl.
    + split_and!; [by left|done|lia|lia].
    + split_and!; [by left|by rewrite <- Hs, <- E|lia|lia].
Qed.

Lemma covers_perm l l' s n : l ≡ₚ l' -> covers l s n <-> covers l' s n.
Proof. intros Hp. unfold covers. by setoid_rewrite Hp. Qed.

Lemma covers_cons_iff r l l' s n :
  (covers l s n <-> covers l' s n) -> (covers (r :: l) s n <-> covers (r :: l') s n).
Proof.
  unfold covers. setoid_rewrite elem_of_cons. intros Hl.
  split; intros (x & [->|Hx] & Hn); try (by exists r; auto);
    [destruct (proj1 Hl) as (y & ? & ?)|destruct (proj2 Hl) as (y & ? & ?)]; eauto.
Qed.

Lemma adjoins_first r r' : key_le key r r' -> adjoins r r' = true -> (r.(first_sequence) <= r'.(first_sequence))%N.
Proof.
  intros [Hlt|[_ ?]]%key_le_first Ha; [|done]. by rewrite (adjoins_stream _ _ Ha), ltb_irrefl in Hlt.
Qed.

Lemma coalesce_loop_covers compacted l s n :
  Forall proper compacted -> Forall proper l -> StronglySorted (key_le key) l ->
  (forall r r', head compacted = Some r -> r' ∈ l -> key_le key r r') ->
  Forall proper (coalesce_loop compacted l)
  /\ (covers (coalesce_loop compacted l) s n <-> covers (compacted ++ l) s n).
Proof.
  revert compacted. induction l as [|r l IH]; intros compacted Hc Hl Hk Hle; cbn [coalesce_loop].
  { split; [by rewrite <- Permutation_rev|]. apply covers_perm. by rewrite <- Permutation_rev, app_nil_r. }
  inversion_clear Hl as [|? ? Hr Hl']. inversion_clear Hk as [|? ? Hk' Hrl]. rewrite Forall_forall in Hrl.
  destruct compacted as [|p before].
  { apply (IH [r]); [by apply Forall_singleton|done..|]. intros ? ? [= <-]. apply Hrl. }
  inversion_clear Hc as [|? ? Hp Hb].
  assert (Hpr : key_le key p r) by (by apply Hle; [|left]).
  destruct (adjoins p r) eqn:Ha.
  - destruct (IH (extend p r :: before)) as [H1 H2]; [| |done| |].
    + constructor; [|done]. unfold proper in *. simpl. lia.
    + done.
    + intros ? r' [= <-] Hr'. change (key_le key p r'). by apply Hle; [|right].
    + split; [done|]. rewrite H2. simpl. rewrite covers_extend by (first [done|by apply adjoins_first]).
      apply covers_cons_iff, covers_perm. apply Permutation_middle.
  - destruct (IH (r :: p :: before)) as [H1 H2]; [by constructor; [|constructor]|done|done| |].
    + intros ? r' [= <-]. apply Hrl.
    + split; [done|]. rewrite H2. apply covers_perm. apply (Permutation_middle (p :: before) l r).
Qed.

Lemma coalesce_loop_spec compacted l :
  Forall range_ok compacted -> Forall range_ok l ->
  StronglySorted (flip behind) compacted -> StronglySorted (key_le key) l ->
  (forall r r', head compacted = Some r -> r' ∈ l -> key_le key r r') ->
  Forall range_ok (coalesce_loop compacted l) /\ StronglySorted behind (coalesce_loop compacted l).
Proof.
  revert compacted. induction l as [|r l IH]; intros compacted Hc Hl Hs Hk Hle; cbn [coalesce_loop].
  { split; [by rewrite <- Permutation_rev|].
    rewrite <- (app_nil_r (rev compacted)). apply StronglySorted_rev_append; [done|constructor|].
    intros x y _ Hy. by apply not_elem_of_nil in Hy. }
  inversion_clear Hl as [|? ? Hr Hl']. inversion_clear Hk as [|? ? Hk' Hrl]. rewrite Forall_forall in Hrl.
  destruct compacted as [|p before].
  { apply (IH [r]); [by apply Forall_singleton|done|by repeat constructor|done|]. intros ? ? [= <-]. apply Hrl. }
  inversion_clear Hc as [|? ? Hp Hb]. inversion_clear Hs as [|? ? Hsb Hpb].
  assert (Hpr : key_le key p r) by (by apply Hle; [|left]).
  destruct (adjoins p r) eqn:Ha.
  - apply (IH (extend p r :: before)); [by constructor; [apply extend_ok|]|done|by constructor|done|].
    intros ? r' [= <-] Hr'. change (key_le key p r'). by apply Hle; [|right].
  - apply (IH (r :: p :: before)); [by constructor; [|constructor]|done| |done|].
    + constructor; [by constructor|]. pose proof (not_adjoins_behind _ _ Hr Hpr Ha) as Hbe. constructor; [done|].
      eapply Forall_impl; [exact Hpb|]. intros x Hx. by eapply behind_trans.
    + intros ? r' [= <-]. apply Hrl.
Qed.

(** Whatever the positions, what [coalesce] returns covers what it was given. *)
Lemma coalesce_covers l l' :
  coalesce l = Ok l' -> Forall proper l' /\ forall s n, covers l' s n <-> covers l s n.
Proof.
  unfold coalesce. rewrite then_Ok. intros [Hv [= <-]]. rewrite for_each_Ok in Hv.
  assert (Hp : Forall proper (sort_by_key key l)).
  { rewrite sort_by_key_perm. eapply Forall_impl; [exact Hv|]. intros r Hr. unfold validate in Hr. unfold proper.
    rewrite fail_if_Ok in Hr. reflect_bools. lia. }
  assert (H : forall s n, Forall proper (coalesce_loop [] (sort_by_key key l))
    /\ (covers (coalesce_loop [] (sort_by_key key l)) s n <-> covers ([] ++ sort_by_key key l) s n)).
  { intros s n. apply coalesce_loop_covers; [constructor|done|apply sort_by_key_sorted|done]. }
  split; [apply (H (0, EmptyString, 0)%N 0%N)|]. intros s n. rewrite (proj2 (H s n)). apply covers_perm. apply sort_by_key_perm.
Qed.

(** C23: Compaction loses no position and invents none: [coalesce] of valid ranges succeeds, covers
    exactly the positions its input covers, and returns the one canonical form - ranges in order,
    each separated from the next of its stream by at least one position. *)
Theorem coalesce_canonical l :
  Forall range_ok l ->
  exists l', coalesce l = Ok l'
    /\ Forall range_ok l'
    /\ StronglySorted behind l'
    /\ (forall s n, covers l' s n <-> covers l s n).
Proof.
  intros Hl. assert (Hc : coalesce l = Ok (coalesce_loop [] (sort_by_key key l))).
  { unfold coalesce. assert (for_each validate l = Ok tt) as ->; [|done]. apply for_each_Ok.
    eapply Forall_impl; [exact Hl|]. by intros r [? _]. }
  eexists. split; [exact Hc|]. destruct (coalesce_covers _ _ Hc) as [_ Hcov].
  destruct (coalesce_loop_spec [] (sort_by_key key l)) as [H1 H2];
    [constructor|by rewrite sort_by_key_perm|constructor|apply sort_by_key_sorted|done|]. by split_and!.
Qed.

End coalesce_lemmas.

Module RetentionSamples.
Import NodeLogCompactionRange.

Definition ranges : list NodeLogCompactionRange.t :=
  [Mk 1 "service" 1 2 2 20; Mk 1 "service" 1 0 0 10; Mk 1 "service" 1 1 1 20; Mk 1 "service" 1 4 4 20;
   Mk 1 "service" 2 5 5 20]%string.

Lemma coalesce_canonical_witness :
  coalesce ranges = Ok [Mk 1 "service" 1 0 2 20; Mk 1 "service" 1 4 4 20; Mk 1 "service" 2 5 5 20]%string
  /\ exists l', coalesce ranges = Ok l' /\ Forall range_ok l' /\ StronglySorted behind l'
       /\ (forall s n, covers l' s n <-> covers ranges s n).
Proof.
  split; [vm_compute; reflexivity|]. apply coalesce_canonical.
  repeat constructor; vm_compute; congruence.
Defined.

End RetentionSamples.
