(* ===== verification/Fleet.v ===== *)
(** * Fleet entities

    [fleet/domain/entities] and [fleet/domain/value_objects]: nodes, enrollment tokens, node
    certificates and node commands, and the types [fleet/domain/repositories] passes between them
    and the repository. *)

From Stdlib Require Import ZArith NArith Lia String.
From stdpp Require Import gmap.
From S2P Require Import Prelude RustStd External Text SharedKernel Resources NodeInventory NodeClaims NodeGateway.
From S2P Require Import NodePluginHost NodeCommands NodeObservations.

Abbreviation EnrollmentTokenId := Uuid (only parsing).
Abbreviation NodeCertificateId := Uuid (only parsing).

(** ** Value objects *)
Module NodeState.

Inductive t := Pending | Ready | Draining | Revoked.

#[global] Instance t_eq_dec : EqDecision t.
Proof. solve_decision. Defined.

Definition as_str (self : t) : string :=
  match self with
  | Pending => "pending"
  | Ready => "ready"
  | Draining => "draining"
  | Revoked => "revoked"
  end.

Definition parse (value : string) : result t :=
  if value == "pending"%string then Ok Pending
  else if value == "ready"%string then Ok Ready
  else if value == "draining"%string then Ok Draining
  else if value == "revoked"%string then Ok Revoked
  else errf "unsupported node state {value:?}" [FStr value].

#[global] Instance t_str_enum : StrEnum t := {| Prelude.as_str := as_str; Prelude.parse := parse |}.
#[global] Instance t_str_enum_laws : StrEnumLaws t.
Proof. solve_str_enum. Qed.

End NodeState.

Module NodeAvailability.

Inductive t := Online | Offline.

#[global] Instance t_eq_dec : EqDecision t.
Proof. solve_decision. Defined.

Definition as_str (self : t) : string :=
  match self with Online => "online" | Offline => "offline" end.

End NodeAvailability.

Module NodeName.

Record t := Mk { resource_name : ResourceName.t }.

#[global] Instance t_eq_dec : EqDecision t.
Proof. solve_decision. Defined.

Definition new `{External} (value : string) : result t :=
  name ← ResourceName.parse value;
  Ok (Mk name).

Definition value (self : t) : string := self.(resource_name).(ResourceName.display).
Definition uniqueness_key (self : t) : string := self.(resource_name).(ResourceName.key).

End NodeName.

Module NodeCapabilities.

#[global] Instance json_eq_dec : EqDecision json.
Proof.
  unfold EqDecision. fix go 1. intros x y. unfold Decision. decide equality.
  - apply bool_eq_dec.
  - apply N.eq_dec.
  - apply String.string_dec.
  - apply (list_eq_dec (dec := go)).
  - apply (list_eq_dec (dec := prod_eq_dec (EqDecision0 := String.string_dec) (EqDecision1 := go))).
Defined.

Record t := Mk {
  provider_id : string;
  provider_build : string;
  digest : string;
  document : json;
}.

#[global] Instance t_eq_dec : EqDecision t.
Proof. solve_decision. Defined.

Definition validate_single_line (label value : string) (max : N) : result unit :=
  if str_is_empty value || (max <? str_len value)%N || contains_any [NUL] value || contains_any [CR; LF] value
  then errf "{label} is invalid" [FStr label]
  else Ok tt.

Definition validate_identifier (label value : string) (max : N) : result unit :=
  validate_single_line label value max ;;
  if any (fun byte => negb (is_ascii_alphanumeric byte || (byte =? HYPHEN)%N || (byte =? UNDERSCORE)%N || (byte =? DOT)%N))
       (bytes_of value)
  then errf "{label} contains unsupported characters" [FStr label]
  else Ok tt.

Definition is_object (value : json) : bool := match value with JObj _ => true | _ => false end.

Definition new `{External} (provider_id provider_build : string) (document : json) : result t :=
  validate_identifier "provider ID" provider_id 64 ;;
  validate_single_line "provider build" provider_build 255 ;;
  fail_if (negb (is_object document)) "node capabilities must be a JSON object" ;;
  match json_to_vec document with
  | Err e => errf "could not encode node capabilities: {error}" (FStr e.(template) :: e.(args))
  | Ok encoded =>
    fail_if (1024 * 1024 <? len encoded)%N "node capabilities exceed one MiB" ;;
    Ok (Mk provider_id provider_build (sha256_digest encoded) document)
  end.

End NodeCapabilities.

Module EnrollmentTokenCredential.

Record t := Mk { digest : string }.

#[global] Instance t_eq_dec : EqDecision t.
Proof. solve_decision. Defined.

(** [fn digest(secret)] *)
Definition digest_of `{External} (secret : string) : string := sha256_digest (bytes_of secret).

Definition from_secret `{External} (secret : string) : result t :=
  match strip_prefix "a3sn_" secret with
  | None => err "enrollment token must use the a3sn_ prefix"
  | Some value =>
    if negb (str_len value =? 64)%N
       || negb (all (fun byte => is_ascii_hexdigit byte && negb (is_ascii_uppercase byte)) (bytes_of value))
    then err "enrollment token must contain 64 lowercase hexadecimal characters"
    else Ok (Mk (digest_of secret))
  end.

Definition from_digest (digest : string) : result t :=
  match strip_prefix "sha256:" digest with
  | None => err "enrollment token digest must use sha256"
  | Some value =>
    if negb (str_len value =? 64)%N || negb (all is_ascii_hexdigit (bytes_of value))
    then err "enrollment token digest must contain 64 hexadecimal characters"
    else Ok (Mk digest)
  end.

(** [ct_eq] compares in constant time; its answer is equality. *)
Definition verify `{External} (self : t) (secret : string) : bool := self.(digest) == digest_of secret.

End EnrollmentTokenCredential.

(** ** Nodes *)
Module Node.
Import NodeState NodeAvailability.

Record t := Mk {
  id : NodeId;
  organization_id : OrganizationId;
  name : NodeName.t;
  state : NodeState.t;
  agent_instance_id : Uuid;
  agent_version : string;
  capabilities : NodeCapabilities.t;
  enrolled_at : Time;
  last_observed_at : Time;
  last_sequence : N;
  aggregate_version : N;
}.

#[global] Instance t_eq_dec : EqDecision t.
Proof. solve_decision. Defined.
#[global] Instance t_eta : Eta t := fun r =>
  Mk r.(id) r.(organization_id) r.(name) r.(state) r.(agent_instance_id) r.(agent_version) r.(capabilities)
     r.(enrolled_at) r.(last_observed_at) r.(last_sequence) r.(aggregate_version).

Definition enroll (id : NodeId) (organization_id : OrganizationId) (name : NodeName.t) (agent_instance_id : Uuid)
    (agent_version : string) (capabilities : NodeCapabilities.t) (enrolled_at : Time) : result t :=
  fail_if (is_nil agent_instance_id) "agent instance ID must not be nil" ;;
  fail_if (str_is_empty agent_version || (255 <? str_len agent_version)%N || contains_any [NUL; CR; LF] agent_version)
    "agent version is invalid" ;;
  let enrolled_at := canonical_timestamp enrolled_at in
  Ok {| id := id; organization_id := organization_id; name := name; state := Pending;
        agent_instance_id := agent_instance_id; agent_version := agent_version; capabilities := capabilities;
        enrolled_at := enrolled_at; last_observed_at := enrolled_at; last_sequence := 0; aggregate_version := 1 |}.

(** [self.state = state; self.aggregate_version += 1] *)
Definition enter (self : t) (state : NodeState.t) : t :=
  self <| Node.state := state |> <| aggregate_version := wrapping_add self.(aggregate_version) 1 |>.

(** The state transitions write nothing when they fail: they return the new node. *)
Definition mark_ready (self : t) : result t :=
  match self.(state) with
  | Pending | Draining => Ok (enter self Ready)
  | Ready => Ok self
  | Revoked => err "revoked node cannot become ready"
  end.

Definition drain (self : t) : result t :=
  match self.(state) with
  | Pending | Ready => Ok (enter self Draining)
  | Draining => Ok self
  | Revoked => err "revoked node cannot drain"
  end.

Definition revoke (self : t) : t :=
  if self.(state) != Revoked then enter self Revoked else self.

Definition availability_at (self : t) (now : Time) (heartbeat_timeout : Z) : NodeAvailability.t :=
  if (heartbeat_timeout <? now - self.(last_observed_at))%Z then Offline else Online.

Definition accepts_new_work_at (self : t) (now : Time) (heartbeat_timeout : Z) : bool :=
  (self.(state) == Ready) && (availability_at self now heartbeat_timeout == Online).

End Node.

(** ** Enrollment tokens *)
Module EnrollmentToken.

Record t := Mk {
  id : EnrollmentTokenId;
  organization_id : OrganizationId;
  name : string;
  name_key : string;
  credential : EnrollmentTokenCredential.t;
  created_at : Time;
  expires_at : Time;
  used_at : option Time;
  revoked_at : option Time;
  aggregate_version : N;
}.

#[global] Instance t_eq_dec : EqDecision t.
Proof. solve_decision. Defined.
#[global] Instance t_eta : Eta t := fun r =>
  Mk r.(id) r.(organization_id) r.(name) r.(name_key) r.(credential) r.(created_at) r.(expires_at) r.(used_at)
     r.(revoked_at) r.(aggregate_version).

Definition normalize_name `{External} (value : string) : result string :=
  let trimmed := trim value in
  if str_is_empty trimmed || (255 <? str_len trimmed)%N || contains_any [NUL] trimmed || contains_any [CR; LF] trimmed
  then err "enrollment token name is invalid"
  else Ok (to_lowercase trimmed).

Definition new `{External} (id : EnrollmentTokenId) (organization_id : OrganizationId) (name : string)
    (credential : EnrollmentTokenCredential.t) (created_at expires_at : Time) : result t :=
  let name := trim name in
  name_key ← normalize_name name;
  let created_at := canonical_timestamp created_at in
  let expires_at := canonical_timestamp expires_at in
  fail_if ((expires_at <=? created_at)%Z || (created_at + hours 24 <? expires_at)%Z)
    "enrollment token lifetime must be positive and at most 24 hours" ;;
  Ok {| id := id; organization_id := organization_id; name := name; name_key := name_key; credential := credential;
        created_at := created_at; expires_at := expires_at; used_at := None; revoked_at := None;
        aggregate_version := 1 |}.

Definition is_usable_at (self : t) (now : Time) : bool :=
  is_none self.(used_at) && is_none self.(revoked_at) && (self.(created_at) <=? now)%Z && (now <? self.(expires_at))%Z.

End EnrollmentToken.

(** ** Certificates *)
Module NodeCertificateMaterial.
Record t := Mk {
  serial_number : string;
  fingerprint : string;
  certificate_pem : string;
  ca_bundle_pem : string;
  issued_at : Time;
  expires_at : Time;
}.
End NodeCertificateMaterial.

Module NodeCertificate.

Record t := Mk {
  id : NodeCertificateId;
  node_id : NodeId;
  serial_number : string;
  fingerprint : string;
  certificate_pem : string;
  ca_bundle_pem : string;
  issued_at : Time;
  expires_at : Time;
  revoked_at : option Time;
}.

#[global] Instance t_eq_dec : EqDecision t.
Proof. solve_decision. Defined.
#[global] Instance t_eta : Eta t := fun r =>
  Mk r.(id) r.(node_id) r.(serial_number) r.(fingerprint) r.(certificate_pem) r.(ca_bundle_pem) r.(issued_at)
     r.(expires_at) r.(revoked_at).

Definition validate_digest (value : string) : result unit :=
  match strip_prefix "sha256:" value with
  | None => err "certificate fingerprint must use sha256"
  | Some hex =>
    fail_if (negb (str_len hex =? 64)%N || negb (all is_ascii_hexdigit (bytes_of hex)))
      "certificate fingerprint must contain 64 hexadecimal characters"
  end.

Definition new (id : NodeCertificateId) (node_id : NodeId) (material : NodeCertificateMaterial.t) : result t :=
  let serial_number := material.(NodeCertificateMaterial.serial_number) in
  fail_if (str_is_empty serial_number || (255 <? str_len serial_number)%N) "certificate serial number is invalid" ;;
  validate_digest material.(NodeCertificateMaterial.fingerprint) ;;
  fail_if ((128 * 1024 <? str_len material.(NodeCertificateMaterial.certificate_pem))%N
           || (512 * 1024 <? str_len material.(NodeCertificateMaterial.ca_bundle_pem))%N)
    "node certificate material exceeds size limits" ;;
  let issued_at := canonical_timestamp material.(NodeCertificateMaterial.issued_at) in
  let expires_at := canonical_timestamp material.(NodeCertificateMaterial.expires_at) in
  fail_if (expires_at <=? issued_at)%Z "node certificate must expire after issue time" ;;
  Ok {| id := id; node_id := node_id; serial_number := serial_number;
        fingerprint := material.(NodeCertificateMaterial.fingerprint);
        certificate_pem := material.(NodeCertificateMaterial.certificate_pem);
        ca_bundle_pem := material.(NodeCertificateMaterial.ca_bundle_pem);
        issued_at := issued_at; expires_at := expires_at; revoked_at := None |}.

Definition is_valid_at (self : t) (now : Time) : bool :=
  is_none self.(revoked_at) && (self.(issued_at) <=? now)%Z && (now <? self.(expires_at))%Z.

End NodeCertificate.

(** ** Commands *)
Module NodeCommandDraft.
Section draft.
Context `{Platform}.
Record t := Mk {
  proposed_command_id : NodeCommandId;
  node_id : NodeId;
  aggregate_id : Uuid;
  payload : NodeCommandPayload.t;
  issued_at : Time;
  not_after : Time;
  correlation_id : Uuid;
}.
End draft.
End NodeCommandDraft.

Module NodeCommand.
Section command.
Context `{Platform}.

Record t := Mk {
  id : NodeCommandId;
  node_id : NodeId;
  sequence : N;
  aggregate_id : Uuid;
  payload : NodeCommandPayload.t;
  issued_at : Time;
  not_after : Time;
  correlation_id : Uuid;
}.

#[global] Instance t_eq_dec : EqDecision t.
Proof. solve_decision. Defined.

(** A Gateway snapshot carries its own times: they are stored at database precision too. *)
Definition canonical_payload (payload : NodeCommandPayload.t) : NodeCommandPayload.t :=
  match payload with
  | NodeCommandPayload.GatewaySnapshotInstall snapshot =>
    NodeCommandPayload.GatewaySnapshotInstall
      (snapshot <| GatewaySnapshot.issued_at := canonical_timestamp snapshot.(GatewaySnapshot.issued_at) |>
                <| GatewaySnapshot.expires_at := canonical_timestamp snapshot.(GatewaySnapshot.expires_at) |>)
  | payload => payload
  end.

Definition issue (draft : NodeCommandDraft.t) (sequence : N) : result t :=
  fail_if (is_nil draft.(NodeCommandDraft.proposed_command_id)
           || is_nil draft.(NodeCommandDraft.node_id)
           || is_nil draft.(NodeCommandDraft.aggregate_id)
           || is_nil draft.(NodeCommandDraft.correlation_id))
    "node command identity must not contain nil UUIDs" ;;
  fail_if (sequence =? 0)%N "node command sequence must be positive" ;;
  let issued_at := canonical_timestamp draft.(NodeCommandDraft.issued_at) in
  let not_after := canonical_timestamp draft.(NodeCommandDraft.not_after) in
  fail_if (not_after <=? issued_at)%Z "node command expiry must follow issue time" ;;
  let payload := canonical_payload draft.(NodeCommandDraft.payload) in
  NodeCommandPayload.validate payload ;;
  Ok {| id := draft.(NodeCommandDraft.proposed_command_id);
        node_id := draft.(NodeCommandDraft.node_id);
        sequence := sequence;
        aggregate_id := draft.(NodeCommandDraft.aggregate_id);
        payload := payload;
        issued_at := issued_at;
        not_after := not_after;
        correlation_id := draft.(NodeCommandDraft.correlation_id) |}.

Definition kind (self : t) : string := NodeCommandPayload.kind self.(payload).
Definition generation (self : t) : N := NodeCommandPayload.generation self.(payload).
Definition payload_schema (self : t) : string := NodeCommandPayload.schema self.(payload).
Definition payload_digest (self : t) : result string := NodeCommandPayload.digest self.(payload).

Definition envelope (self : t) (lease_id : Uuid) : result NodeCommandEnvelope.t :=
  NodeCommandEnvelope.new
    {| NodeCommandMetadata.command_id := self.(id);
       NodeCommandMetadata.lease_id := lease_id;
       NodeCommandMetadata.node_id := self.(node_id);
       NodeCommandMetadata.sequence := self.(sequence);
       NodeCommandMetadata.aggregate_id := self.(aggregate_id);
       NodeCommandMetadata.issued_at := self.(issued_at);
       NodeCommandMetadata.not_after := self.(not_after);
       NodeCommandMetadata.correlation_id := self.(correlation_id) |}
    self.(payload).

(** The evidence of a result is stored at database precision, like its completion. *)
Definition canonicalize_result (result : NodeCommandResult.t) : NodeCommandResult.t :=
  match result with
  | NodeCommandResult.ResourceClaimPrepared prepared =>
    NodeCommandResult.ResourceClaimPrepared
      (prepared <| NodeResourceClaimPrepared.prepared_at :=
                     canonical_timestamp prepared.(NodeResourceClaimPrepared.prepared_at) |>)
  | NodeCommandResult.ResourceClaimReleased released =>
    NodeCommandResult.ResourceClaimReleased
      (released <| NodeResourceClaimReleased.released_at :=
                     canonical_timestamp released.(NodeResourceClaimReleased.released_at) |>)
  | NodeCommandResult.GatewaySnapshotInstalled acknowledgement =>
    NodeCommandResult.GatewaySnapshotInstalled
      (acknowledgement <| NodeGatewayAck.acknowledged_at :=
                            canonical_timestamp acknowledgement.(NodeGatewayAck.acknowledged_at) |>)
  | NodeCommandResult.GatewaySnapshotObserved observation =>
    let canonical_applied applied :=
      applied <| AppliedGatewaySnapshot.issued_at := canonical_timestamp applied.(AppliedGatewaySnapshot.issued_at) |>
              <| AppliedGatewaySnapshot.expires_at := canonical_timestamp applied.(AppliedGatewaySnapshot.expires_at) |>
              <| AppliedGatewaySnapshot.applied_at := canonical_timestamp applied.(AppliedGatewaySnapshot.applied_at) |> in
    NodeCommandResult.GatewaySnapshotObserved
      (observation <| NodeGatewaySnapshotObservation.observed_at :=
                        canonical_timestamp observation.(NodeGatewaySnapshotObservation.observed_at) |>
                   <| NodeGatewaySnapshotObservation.applied :=
                        canonical_applied <$> observation.(NodeGatewaySnapshotObservation.applied) |>)
  | NodeCommandResult.PluginHostTrustAuthorized authorized =>
    NodeCommandResult.PluginHostTrustAuthorized
      (authorized <| NodePluginHostTrustAuthorized.authorized_at :=
                       canonical_timestamp authorized.(NodePluginHostTrustAuthorized.authorized_at) |>)
  | result => result
  end.

Definition canonicalize_acknowledgement (acknowledgement : NodeCommandAck.t) : NodeCommandAck.t :=
  let acknowledgement :=
    acknowledgement <| NodeCommandAck.completed_at :=
                         canonical_timestamp acknowledgement.(NodeCommandAck.completed_at) |> in
  match acknowledgement.(NodeCommandAck.outcome) with
  | NodeCommandOutcome.Succeeded result =>
    acknowledgement <| NodeCommandAck.outcome := NodeCommandOutcome.Succeeded (canonicalize_result result) |>
  | _ => acknowledgement
  end.

End command.
End NodeCommand.
