(* ===== verification/FleetRepository.v ===== *)
(** * The node repository: enrollment, certificates, node state, pools and sessions

    [fleet/infrastructure/persistence/in_memory.rs] and [in_memory_session.rs].  The repository is
    one [State] behind a lock that every call holds from its first read to its last write, so a
    call is a [method] on that state: what it wrote before it returned an error stays written. *)

From Stdlib Require Import ZArith NArith Lia String.
From stdpp Require Import gmap.
From S2P Require Import Prelude RustStd BTreeMap External Text SharedKernel Repositories Resources NodeInventory NodeClaims.
From S2P Require Import NodeGateway NodeCommands NodeObservations NodeSessions LogRetention NodePools Fleet.
Import RepositoryError.

(** ** What the calls take and return *)
Module NodeEnrollmentDraft.
Record t := Mk {
  proposed_node_id : NodeId;
  name : NodeName.t;
  agent_instance_id : Uuid;
  agent_version : string;
  capabilities : NodeCapabilities.t;
  request_digest : string;
  requested_at : Time;
}.
#[global] Instance t_eta : Eta t := fun r =>
  Mk r.(proposed_node_id) r.(name) r.(agent_instance_id) r.(agent_version) r.(capabilities) r.(request_digest)
     r.(requested_at).
End NodeEnrollmentDraft.

Module NodeEnrollmentReservation.
Record t := Mk {
  enrollment_token : EnrollmentToken.t;
  node : Node.t;
  certificate : option NodeCertificate.t;
  replayed : bool;
}.
End NodeEnrollmentReservation.

Module NodeHeartbeatUpdate.
Record t := Mk {
  node_id : NodeId;
  agent_instance_id : Uuid;
  agent_version : string;
  capabilities : NodeCapabilities.t;
  observed_at : Time;
}.
#[global] Instance t_eta : Eta t := fun r =>
  Mk r.(node_id) r.(agent_instance_id) r.(agent_version) r.(capabilities) r.(observed_at).
End NodeHeartbeatUpdate.

Module NodeCertificateRotationDraft.
Record t := Mk { replacement_certificate_id : NodeCertificateId; requested_at : Time }.
End NodeCertificateRotationDraft.

(** The events these calls publish are not read by the repository, except the one of a pool. *)
Module NodeCertificateRotationCompletion.
Record t := Mk {
  organization_id : OrganizationId;
  node_id : NodeId;
  current_certificate_id : NodeCertificateId;
  replacement : NodeCertificate.t;
  rotated_at : Time;
  idempotency : IdempotencyRequest.t;
}.
End NodeCertificateRotationCompletion.

Module NodeStateChange.
Record t := Mk {
  organization_id : OrganizationId;
  node_id : NodeId;
  state : NodeState.t;
  expected_version : N;
  changed_at : Time;
  idempotency : IdempotencyRequest.t;
}.
End NodeStateChange.

Module NodeCertificateRotationReservation.
Record t := Mk {
  node : Node.t;
  current_certificate : NodeCertificate.t;
  replacement_certificate_id : NodeCertificateId;
  requested_at : Time;
  replacement : option NodeCertificate.t;
  replayed : bool;
}.
End NodeCertificateRotationReservation.

Module NodeEvacuationCause.
Inductive t :=
| ManualDrain
| PoolMaintenance (pool_id : NodePoolId) (generation : N) (ends_at : Time)
| PoolMemberRemoval (pool_id : NodePoolId) (generation : N).
End NodeEvacuationCause.

Module NodeEvacuationSource.
Record t := Mk { node : Node.t; cause : NodeEvacuationCause.t }.
End NodeEvacuationSource.

(** What [save] reads of the event of a pool change. *)
Module PoolEvent.
Record t := Mk { organization_id : option Uuid; aggregate_id : Uuid; aggregate_version : N }.
End PoolEvent.

Module NodePoolWrite.
Record t := Mk {
  pool : NodePool.t;
  expected_version : option N;
  event : PoolEvent.t;
  idempotency : IdempotencyRequest.t;
}.
End NodePoolWrite.

Module NodeResourceInventoryRecord.
Record t := Mk { inventory : NodeResourceInventory.t; received_at : Time }.
Definition validate `{External} (self : t) : result unit := NodeResourceInventory.validate self.(inventory).
End NodeResourceInventoryRecord.

(** ** Stored values *)
Module CommandLease.
Record t := Mk { lease_id : Uuid; agent_instance_id : Uuid; leased_until : Time }.
End CommandLease.

Module StoredNodeCommand.
Section stored.
Context `{Platform}.
Record t := Mk {
  command : NodeCommand.t;
  lease : option CommandLease.t;
  acknowledgement : option NodeCommandAck.t;
}.
#[global] Instance t_eta : Eta t := fun r => Mk r.(command) r.(lease) r.(acknowledgement).
End stored.
End StoredNodeCommand.

Module StoredObservation.
Section stored.
Context `{Platform}.
Record t := Mk {
  node_id : NodeId;
  agent_instance_id : Uuid;
  received_at : Time;
  report : RuntimeObservationReport.t;
}.
End stored.
End StoredObservation.

Module StoredLogChunkReceipt.
Record t := Mk { draft : NodeLogChunkReceiptDraft.t; received_at : Time; retained_at : option Time }.
#[global] Instance t_eta : Eta t := fun r => Mk r.(draft) r.(received_at) r.(retained_at).
End StoredLogChunkReceipt.

Module CertificateRotationRecord.
Record t := Mk {
  request_digest : string;
  organization_id : OrganizationId;
  node_id : NodeId;
  current_certificate_id : NodeCertificateId;
  replacement_certificate_id : NodeCertificateId;
  requested_at : Time;
  completed_at : option Time;
  replacement : option NodeCertificate.t;
}.
#[global] Instance t_eta : Eta t := fun r =>
  Mk r.(request_digest) r.(organization_id) r.(node_id) r.(current_certificate_id) r.(replacement_certificate_id)
     r.(requested_at) r.(completed_at) r.(replacement).
End CertificateRotationRecord.

(** ** The state

    [StoredGatewayAcknowledgement], [StoredLogBatch] and [StoredLogGapReceipt] have one field each:
    the maps hold that field. *)
Module State.
Section state.
Context `{Platform}.

#[local] Abbreviation key := (string * string)%type.
(** A position of a log: node, unit, generation and sequence. *)
#[local] Abbreviation position := (NodeId * string * N * N)%type.

Record t := Mk {
  tokens : gmap EnrollmentTokenId EnrollmentToken.t;
  token_by_digest : gmap string EnrollmentTokenId;
  token_idempotency : gmap key (string * EnrollmentTokenId);
  enrollment_request_digest : gmap EnrollmentTokenId string;
  enrollment_node : gmap EnrollmentTokenId NodeId;
  nodes : gmap (OrganizationId * NodeId) Node.t;
  certificates : gmap NodeCertificateId NodeCertificate.t;
  active_certificate_by_node : gmap NodeId NodeCertificateId;
  certificate_by_fingerprint : gmap string NodeCertificateId;
  rotation_idempotency : gmap key CertificateRotationRecord.t;
  active_rotation_by_node : gmap NodeId key;
  state_idempotency : gmap key (string * Node.t);
  node_pools : gmap (OrganizationId * NodePoolId) NodePool.t;
  node_pool_by_name : gmap (OrganizationId * string) NodePoolId;
  node_pool_by_node : gmap (OrganizationId * NodeId) NodePoolId;
  node_pool_idempotency : gmap key (string * NodePool.t);
  commands : gmap NodeCommandId StoredNodeCommand.t;
  observations : gmap Uuid StoredObservation.t;
  resource_inventories : gmap (NodeId * N) NodeResourceInventoryRecord.t;
  inventory_heads : gmap NodeId N;
  protocol_sessions : gmap NodeId NodeProtocolSessionRecord.t;
  gateway_acknowledgements : gmap Uuid NodeGatewayAck.t;
  log_batches : gmap Uuid NodeLogBatchReceiptDraft.t;
  log_chunks : gmap position StoredLogChunkReceipt.t;
  log_gaps : gmap position NodeLogGapReceiptDraft.t;
  log_compaction_ranges : list NodeLogCompactionRange.t;
}.

#[global] Instance t_eta : Eta t := fun r =>
  Mk r.(tokens) r.(token_by_digest) r.(token_idempotency) r.(enrollment_request_digest) r.(enrollment_node)
     r.(nodes) r.(certificates) r.(active_certificate_by_node) r.(certificate_by_fingerprint)
     r.(rotation_idempotency) r.(active_rotation_by_node) r.(state_idempotency) r.(node_pools)
     r.(node_pool_by_name) r.(node_pool_by_node) r.(node_pool_idempotency) r.(commands) r.(observations)
     r.(resource_inventories) r.(inventory_heads) r.(protocol_sessions) r.(gateway_acknowledgements)
     r.(log_batches) r.(log_chunks) r.(log_gaps) r.(log_compaction_ranges).

(** [State::default()] *)
Definition empty : t :=
  Mk ∅ ∅ ∅ ∅ ∅ ∅ ∅ ∅ ∅ ∅ ∅ ∅ ∅ ∅ ∅ ∅ ∅ ∅ ∅ ∅ ∅ ∅ ∅ ∅ ∅ [].

End state.
End State.

Module InMemoryNodeRepository.
Import State.
Section repository.
Context `{Platform}.

(** [.values().find(|node| node.id == node_id)] *)
Definition find_node (state : State.t) (node_id : NodeId) : option Node.t :=
  List.find (fun node => node.(Node.id) == node_id) (values state.(nodes)).

(** ** Enrollment *)
Definition reservation (state : State.t) (token_id : EnrollmentTokenId) (replayed : bool) :
    result NodeEnrollmentReservation.t :=
  enrollment_token ← some_or (state.(tokens) !! token_id) (storage_error "enrollment token is missing");
  node_id ← some_or (state.(enrollment_node) !! token_id) (storage_error "enrollment node binding is missing");
  node ← some_or (find_node state node_id) (storage_error "enrollment node is missing");
  let certificate :=
    certificate_id ← state.(active_certificate_by_node) !! node_id;
    state.(certificates) !! certificate_id in
  Ok (NodeEnrollmentReservation.Mk enrollment_token node certificate replayed).

Definition issue_enrollment_token (token : EnrollmentToken.t) (idempotency : IdempotencyRequest.t) :
    method State.t (IdempotentWrite.t EnrollmentToken.t) :=
  state ← get;
  let key := IdempotencyRequest.storage_key idempotency in
  let digest := token.(EnrollmentToken.credential).(EnrollmentTokenCredential.digest) in
  match state.(token_idempotency) !! key with
  | Some (existing_digest, token_id) =>
    if existing_digest != idempotency.(IdempotencyRequest.request_digest) then throw IdempotencyConflict
    else
      existing ← lift (some_or (state.(tokens) !! token_id) (storage_error "token idempotency record is orphaned"));
      mret (IdempotentWrite.Mk existing true)
  | None =>
    if is_some (state.(token_by_digest) !! digest)
    then throw (conflict_error "enrollment token secret already exists")
    else if any (fun existing =>
                   (existing.(EnrollmentToken.organization_id) == token.(EnrollmentToken.organization_id))
                   && (existing.(EnrollmentToken.name_key) == token.(EnrollmentToken.name_key)))
              (values state.(tokens))
    then throw (conflict_error "enrollment token name already exists")
    else
      modify (fun state => state <| token_by_digest := <[digest := token.(EnrollmentToken.id)]> state.(token_by_digest) |>) ;;
      modify (fun state => state <| token_idempotency :=
        <[key := (idempotency.(IdempotencyRequest.request_digest), token.(EnrollmentToken.id))]> state.(token_idempotency) |>) ;;
      modify (fun state => state <| tokens := <[token.(EnrollmentToken.id) := token]> state.(tokens) |>) ;;
      mret (IdempotentWrite.Mk token false)
  end.

(** The node a usable token enrolls: the token is consumed and the node stored. *)
Definition enroll_node (state : State.t) (token_id : EnrollmentTokenId) (draft : NodeEnrollmentDraft.t) :
    method State.t NodeEnrollmentReservation.t :=
  token ← lift (some_or (state.(tokens) !! token_id) (storage_error "token digest index is orphaned"));
  if negb (EnrollmentToken.is_usable_at token draft.(NodeEnrollmentDraft.requested_at))
  then throw (conflict_error "enrollment token is expired, revoked, or already used")
  else if any (fun node =>
                 (node.(Node.organization_id) == token.(EnrollmentToken.organization_id))
                 && (NodeName.uniqueness_key node.(Node.name)
                       == NodeName.uniqueness_key draft.(NodeEnrollmentDraft.name)))
            (values state.(nodes))
  then throw (conflict_error "node name already exists")
  else
    node ← lift (map_err Conflict
      (Node.enroll draft.(NodeEnrollmentDraft.proposed_node_id) token.(EnrollmentToken.organization_id)
         draft.(NodeEnrollmentDraft.name) draft.(NodeEnrollmentDraft.agent_instance_id)
         draft.(NodeEnrollmentDraft.agent_version) draft.(NodeEnrollmentDraft.capabilities)
         draft.(NodeEnrollmentDraft.requested_at)));
    let used :=
      token <| EnrollmentToken.used_at := Some draft.(NodeEnrollmentDraft.requested_at) |>
            <| EnrollmentToken.aggregate_version := wrapping_add token.(EnrollmentToken.aggregate_version) 1 |> in
    modify (fun state => state <| tokens := <[token_id := used]> state.(tokens) |>) ;;
    modify (fun state => state <| enrollment_request_digest :=
      <[token_id := draft.(NodeEnrollmentDraft.request_digest)]> state.(enrollment_request_digest) |>) ;;
    modify (fun state => state <| enrollment_node := <[token_id := node.(Node.id)]> state.(enrollment_node) |>) ;;
    modify (fun state => state <| nodes :=
      <[(node.(Node.organization_id), node.(Node.id)) := node]> state.(nodes) |>) ;;
    state ← get;
    lift (reservation state token_id false).

Definition reserve_enrollment (credential : EnrollmentTokenCredential.t) (draft : NodeEnrollmentDraft.t) :
    method State.t NodeEnrollmentReservation.t :=
  let draft := draft <| NodeEnrollmentDraft.requested_at :=
                          canonical_timestamp draft.(NodeEnrollmentDraft.requested_at) |> in
  state ← get;
  token_id ← lift (some_or (state.(token_by_digest) !! credential.(EnrollmentTokenCredential.digest)) NotFound);
  match state.(enrollment_request_digest) !! token_id with
  | Some existing_digest =>
    if existing_digest != draft.(NodeEnrollmentDraft.request_digest) then throw IdempotencyConflict
    else lift (reservation state token_id true)
  | None => enroll_node state token_id draft
  end.

Definition complete_enrollment (token_id : EnrollmentTokenId) (node_id : NodeId) (request_digest : string)
    (certificate : NodeCertificate.t) : method State.t NodeEnrollmentReservation.t :=
  state ← get;
  let fingerprint := certificate.(NodeCertificate.fingerprint) in
  let certificate_id := certificate.(NodeCertificate.id) in
  if (state.(enrollment_request_digest) !! token_id != Some request_digest)
     || (state.(enrollment_node) !! token_id != Some node_id)
     || (certificate.(NodeCertificate.node_id) != node_id)
  then throw IdempotencyConflict
  else if is_some (state.(active_certificate_by_node) !! node_id)
  then lift (reservation state token_id true)
  else if is_some (state.(certificate_by_fingerprint) !! fingerprint)
  then throw (conflict_error "certificate fingerprint already exists")
  else
    modify (fun state => state <| certificate_by_fingerprint :=
      <[fingerprint := certificate_id]> state.(certificate_by_fingerprint) |>) ;;
    modify (fun state => state <| active_certificate_by_node :=
      <[node_id := certificate_id]> state.(active_certificate_by_node) |>) ;;
    modify (fun state => state <| certificates := <[certificate_id := certificate]> state.(certificates) |>) ;;
    state ← get;
    lift (reservation state token_id false).

(** ** Certificate rotation *)
Definition rotation_reservation (state : State.t) (record : CertificateRotationRecord.t) (replayed : bool) :
    result NodeCertificateRotationReservation.t :=
  node ← some_or
    (state.(nodes) !! (record.(CertificateRotationRecord.organization_id), record.(CertificateRotationRecord.node_id)))
    (storage_error "rotation node is missing");
  current_certificate ← some_or (state.(certificates) !! record.(CertificateRotationRecord.current_certificate_id))
    (storage_error "rotation certificate is missing");
  Ok {| NodeCertificateRotationReservation.node := node;
        NodeCertificateRotationReservation.current_certificate := current_certificate;
        NodeCertificateRotationReservation.replacement_certificate_id :=
          record.(CertificateRotationRecord.replacement_certificate_id);
        NodeCertificateRotationReservation.requested_at := record.(CertificateRotationRecord.requested_at);
        NodeCertificateRotationReservation.replacement := record.(CertificateRotationRecord.replacement);
        NodeCertificateRotationReservation.replayed := replayed |}.

Definition reserve_certificate_rotation (organization_id : OrganizationId) (node_id : NodeId)
    (current_certificate_id : NodeCertificateId) (draft : NodeCertificateRotationDraft.t)
    (idempotency : IdempotencyRequest.t) : method State.t NodeCertificateRotationReservation.t :=
  let requested_at := canonical_timestamp draft.(NodeCertificateRotationDraft.requested_at) in
  state ← get;
  let idempotency_key := IdempotencyRequest.storage_key idempotency in
  match state.(rotation_idempotency) !! idempotency_key with
  | Some record =>
    if record.(CertificateRotationRecord.request_digest) != idempotency.(IdempotencyRequest.request_digest)
    then throw IdempotencyConflict
    else lift (rotation_reservation state record true)
  | None =>
    node ← lift (some_or (state.(nodes) !! (organization_id, node_id)) NotFound);
    if (node.(Node.state) == NodeState.Revoked)
       || (state.(active_certificate_by_node) !! node_id != Some current_certificate_id)
    then throw (conflict_error "certificate rotation identity is invalid")
    else if is_some (state.(active_rotation_by_node) !! node_id)
    then throw (conflict_error "another certificate rotation is already pending")
    else if is_none (state.(certificates) !! current_certificate_id)
    then throw (storage_error "active certificate is missing")
    else
      let record :=
        {| CertificateRotationRecord.request_digest := idempotency.(IdempotencyRequest.request_digest);
           CertificateRotationRecord.organization_id := organization_id;
           CertificateRotationRecord.node_id := node_id;
           CertificateRotationRecord.current_certificate_id := current_certificate_id;
           CertificateRotationRecord.replacement_certificate_id :=
             draft.(NodeCertificateRotationDraft.replacement_certificate_id);
           CertificateRotationRecord.requested_at := requested_at;
           CertificateRotationRecord.completed_at := None;
           CertificateRotationRecord.replacement := None |} in
      modify (fun state => state <| active_rotation_by_node :=
        <[node_id := idempotency_key]> state.(active_rotation_by_node) |>) ;;
      modify (fun state => state <| rotation_idempotency :=
        <[idempotency_key := record]> state.(rotation_idempotency) |>) ;;
      state ← get;
      lift (rotation_reservation state record false)
  end.

(** The writes of a completed rotation, in order: each [get_mut] may fail after the ones before it. *)
Definition install_replacement (completion : NodeCertificateRotationCompletion.t) (rotated_at : Time) :
    method State.t NodeCertificateRotationReservation.t :=
  let node_id := completion.(NodeCertificateRotationCompletion.node_id) in
  let replacement := completion.(NodeCertificateRotationCompletion.replacement) in
  let current_certificate_id := completion.(NodeCertificateRotationCompletion.current_certificate_id) in
  let node_key := (completion.(NodeCertificateRotationCompletion.organization_id), node_id) in
  let idempotency_key := IdempotencyRequest.storage_key completion.(NodeCertificateRotationCompletion.idempotency) in
  state ← get;
  current ← lift (some_or (state.(certificates) !! current_certificate_id) (storage_error "active certificate is missing"));
  modify (fun state => state <| certificates :=
    <[current_certificate_id := current <| NodeCertificate.revoked_at := Some rotated_at |>]> state.(certificates) |>) ;;
  modify (fun state => state <| certificate_by_fingerprint :=
    <[replacement.(NodeCertificate.fingerprint) := replacement.(NodeCertificate.id)]>
      state.(certificate_by_fingerprint) |>) ;;
  modify (fun state => state <| active_certificate_by_node :=
    <[node_id := replacement.(NodeCertificate.id)]> state.(active_certificate_by_node) |>) ;;
  modify (fun state => state <| certificates :=
    <[replacement.(NodeCertificate.id) := replacement]> state.(certificates) |>) ;;
  state ← get;
  node ← lift (some_or (state.(nodes) !! node_key) (storage_error "rotation node disappeared"));
  modify (fun state => state <| nodes :=
    <[node_key := node <| Node.aggregate_version := wrapping_add node.(Node.aggregate_version) 1 |>]> state.(nodes) |>) ;;
  modify (fun state => state <| active_rotation_by_node := delete node_id state.(active_rotation_by_node) |>) ;;
  state ← get;
  record ← lift (some_or (state.(rotation_idempotency) !! idempotency_key)
                   (storage_error "rotation reservation disappeared"));
  let completed :=
    record <| CertificateRotationRecord.replacement := Some replacement |>
           <| CertificateRotationRecord.completed_at := Some rotated_at |> in
  modify (fun state => state <| rotation_idempotency := <[idempotency_key := completed]> state.(rotation_idempotency) |>) ;;
  state ← get;
  lift (rotation_reservation state completed false).

Definition complete_certificate_rotation (completion : NodeCertificateRotationCompletion.t) :
    method State.t NodeCertificateRotationReservation.t :=
  let organization_id := completion.(NodeCertificateRotationCompletion.organization_id) in
  let node_id := completion.(NodeCertificateRotationCompletion.node_id) in
  let current_certificate_id := completion.(NodeCertificateRotationCompletion.current_certificate_id) in
  let replacement := completion.(NodeCertificateRotationCompletion.replacement) in
  let idempotency := completion.(NodeCertificateRotationCompletion.idempotency) in
  let rotated_at := canonical_timestamp completion.(NodeCertificateRotationCompletion.rotated_at) in
  state ← get;
  let idempotency_key := IdempotencyRequest.storage_key idempotency in
  record ← lift (some_or (state.(rotation_idempotency) !! idempotency_key) NotFound);
  if (record.(CertificateRotationRecord.request_digest) != idempotency.(IdempotencyRequest.request_digest))
     || (record.(CertificateRotationRecord.organization_id) != organization_id)
     || (record.(CertificateRotationRecord.node_id) != node_id)
     || (record.(CertificateRotationRecord.current_certificate_id) != current_certificate_id)
     || (record.(CertificateRotationRecord.replacement_certificate_id) != replacement.(NodeCertificate.id))
     || (replacement.(NodeCertificate.node_id) != node_id)
  then throw IdempotencyConflict
  else if is_some record.(CertificateRotationRecord.replacement)
  then lift (rotation_reservation state record true)
  else if (state.(active_certificate_by_node) !! node_id != Some current_certificate_id)
          || (state.(active_rotation_by_node) !! node_id != Some idempotency_key)
  then throw (conflict_error "certificate rotation reservation is no longer active")
  else if is_some (state.(certificate_by_fingerprint) !! replacement.(NodeCertificate.fingerprint))
  then throw (conflict_error "certificate fingerprint already exists")
  else install_replacement completion rotated_at.

(** ** Authentication *)
Definition authenticated_node (state : State.t) (certificate : NodeCertificate.t) : result Node.t :=
  node ← some_or (find_node state certificate.(NodeCertificate.node_id)) (storage_error "certificate node is missing");
  if node.(Node.state) == NodeState.Revoked then Err NotFound else Ok node.

Definition authenticate_certificate (fingerprint : string) (now : Time) (state : State.t) : result Node.t :=
  certificate_id ← some_or (state.(certificate_by_fingerprint) !! fingerprint) NotFound;
  certificate ← some_or (state.(certificates) !! certificate_id) (storage_error "certificate index is orphaned");
  if negb (NodeCertificate.is_valid_at certificate now)
     || (state.(active_certificate_by_node) !! certificate.(NodeCertificate.node_id) != Some certificate_id)
  then Err NotFound
  else authenticated_node state certificate.

(** A replaced certificate may repeat its rotation request for a while. *)
Definition replayable (state : State.t) (certificate_id : NodeCertificateId) (certificate : NodeCertificate.t)
    (now replay_not_before : Time) : bool :=
  (certificate.(NodeCertificate.issued_at) <=? now)%Z
  && (now <? certificate.(NodeCertificate.expires_at))%Z
  && any (fun rotation =>
       (rotation.(CertificateRotationRecord.current_certificate_id) == certificate_id)
       && is_some_and (fun completed_at => (replay_not_before <=? completed_at)%Z && (completed_at <=? now)%Z)
            rotation.(CertificateRotationRecord.completed_at)
       && is_some_and (fun replacement =>
            (state.(active_certificate_by_node) !! certificate.(NodeCertificate.node_id)
               == Some replacement.(NodeCertificate.id))
            && NodeCertificate.is_valid_at replacement now)
            rotation.(CertificateRotationRecord.replacement))
     (values state.(rotation_idempotency)).

Definition authenticate_rotation_certificate (fingerprint : string) (now replay_not_before : Time)
    (state : State.t) : result Node.t :=
  if (now <? replay_not_before)%Z then Err (conflict_error "certificate rotation replay window is invalid")
  else
    certificate_id ← some_or (state.(certificate_by_fingerprint) !! fingerprint) NotFound;
    certificate ← some_or (state.(certificates) !! certificate_id) (storage_error "certificate index is orphaned");
    let active := NodeCertificate.is_valid_at certificate now
                  && (state.(active_certificate_by_node) !! certificate.(NodeCertificate.node_id) == Some certificate_id) in
    if negb active && negb (replayable state certificate_id certificate now replay_not_before)
    then Err NotFound
    else authenticated_node state certificate.

Definition find_active_certificate (organization_id : OrganizationId) (node_id : NodeId) (state : State.t) :
    result NodeCertificate.t :=
  if is_none (state.(nodes) !! (organization_id, node_id)) then Err NotFound
  else
    certificate_id ← some_or (state.(active_certificate_by_node) !! node_id) NotFound;
    some_or (state.(certificates) !! certificate_id) (storage_error "active certificate is missing").

Definition find_certificate (organization_id : OrganizationId) (node_id : NodeId) (certificate_id : NodeCertificateId)
    (state : State.t) : result NodeCertificate.t :=
  if is_none (state.(nodes) !! (organization_id, node_id)) then Err NotFound
  else
    some_or (certificate ← state.(certificates) !! certificate_id;
             if certificate.(NodeCertificate.node_id) == node_id then Some certificate else None) NotFound.

(** ** Heartbeats and node state *)
Definition project_heartbeat (current : Node.t) (update : NodeHeartbeatUpdate.t) : result Node.t :=
  let observed_at := update.(NodeHeartbeatUpdate.observed_at) in
  if current.(Node.state) == NodeState.Revoked then Err NotFound
  else if (observed_at <? current.(Node.last_observed_at))%Z
  then Err (conflict_error "node heartbeat moved backwards")
  else if (observed_at =? current.(Node.last_observed_at))%Z
          && ((current.(Node.agent_instance_id) != update.(NodeHeartbeatUpdate.agent_instance_id))
              || (current.(Node.agent_version) != update.(NodeHeartbeatUpdate.agent_version))
              || (current.(Node.capabilities) != update.(NodeHeartbeatUpdate.capabilities)))
  then Err (conflict_error "node heartbeat timestamp was reused with different content")
  else if (observed_at =? current.(Node.last_observed_at))%Z && (current.(Node.state) != NodeState.Pending)
  then Ok current
  else
    let node :=
      current <| Node.agent_instance_id := update.(NodeHeartbeatUpdate.agent_instance_id) |>
              <| Node.agent_version := update.(NodeHeartbeatUpdate.agent_version) |>
              <| Node.capabilities := update.(NodeHeartbeatUpdate.capabilities) |>
              <| Node.last_observed_at := observed_at |> in
    if node.(Node.state) == NodeState.Pending
    then map_err Conflict (Node.mark_ready node)
    else Ok (node <| Node.aggregate_version := wrapping_add node.(Node.aggregate_version) 1 |>).

Definition record_heartbeat (update : NodeHeartbeatUpdate.t) : method State.t Node.t :=
  let update := update <| NodeHeartbeatUpdate.observed_at :=
                            canonical_timestamp update.(NodeHeartbeatUpdate.observed_at) |> in
  state ← get;
  node_key ← lift (some_or
    (fst <$> List.find (fun kv => kv.2.(Node.id) == update.(NodeHeartbeatUpdate.node_id)) (entries_of state.(nodes)))
    NotFound);
  current ← lift (some_or (state.(nodes) !! node_key) (storage_error "heartbeat node disappeared"));
  projected ← lift (project_heartbeat current update);
  modify (fun state => state <| nodes := <[node_key := projected]> state.(nodes) |>) ;;
  mret projected.

(** Revoking a node revokes its active certificate. *)
Definition revoke_certificate (node_id : NodeId) (changed_at : Time) (state : State.t) : State.t :=
  match state.(active_certificate_by_node) !! node_id with
  | None => state
  | Some certificate_id =>
    let state := state <| active_certificate_by_node := delete node_id state.(active_certificate_by_node) |> in
    match state.(certificates) !! certificate_id with
    | None => state
    | Some certificate =>
      state <| certificates :=
        <[certificate_id := certificate <| NodeCertificate.revoked_at := Some changed_at |>]> state.(certificates) |>
    end
  end.

Definition change_state (node : Node.t) (requested_state : NodeState.t) : result Node.t :=
  match requested_state with
  | NodeState.Ready => Node.mark_ready node
  | NodeState.Draining => Node.drain node
  | NodeState.Revoked => Ok (Node.revoke node)
  | NodeState.Pending => err "node cannot transition back to pending"
  end.

Definition set_state (change : NodeStateChange.t) : method State.t (IdempotentWrite.t Node.t) :=
  let node_id := change.(NodeStateChange.node_id) in
  let node_key := (change.(NodeStateChange.organization_id), node_id) in
  let requested_state := change.(NodeStateChange.state) in
  let idempotency := change.(NodeStateChange.idempotency) in
  let changed_at := canonical_timestamp change.(NodeStateChange.changed_at) in
  state ← get;
  let idempotency_key := IdempotencyRequest.storage_key idempotency in
  match state.(state_idempotency) !! idempotency_key with
  | Some (request_digest, node) =>
    if request_digest != idempotency.(IdempotencyRequest.request_digest) then throw IdempotencyConflict
    else mret (IdempotentWrite.Mk node true)
  | None =>
    node ← lift (some_or (state.(nodes) !! node_key) NotFound);
    if node.(Node.aggregate_version) != change.(NodeStateChange.expected_version)
    then throw (conflict_error "node aggregate version changed")
    else
      result ← lift (map_err Conflict (change_state node requested_state));
      modify (fun state => state <| nodes := <[node_key := result]> state.(nodes) |>) ;;
      (if requested_state == NodeState.Revoked then modify (revoke_certificate node_id changed_at) else mret tt) ;;
      modify (fun state => state <| state_idempotency :=
        <[idempotency_key := (idempotency.(IdempotencyRequest.request_digest), result)]> state.(state_idempotency) |>) ;;
      mret (IdempotentWrite.Mk result false)
  end.

Definition find (organization_id : OrganizationId) (node_id : NodeId) (state : State.t) : result Node.t :=
  some_or (state.(nodes) !! (organization_id, node_id)) NotFound.

Definition list_key (node : Node.t) : string * NodeId := (NodeName.uniqueness_key node.(Node.name), node.(Node.id)).

Definition list (organization_id : OrganizationId) (state : State.t) : Datatypes.list Node.t :=
  sort_by_key list_key
    (List.filter (fun node => node.(Node.organization_id) == organization_id) (values state.(nodes))).

(** ** Scheduling and evacuation *)
Definition pool_of (state : State.t) (node : Node.t) : option (NodePoolId * NodePool.t) :=
  pool_id ← state.(node_pool_by_node) !! (node.(Node.organization_id), node.(Node.id));
  pool ← state.(node_pools) !! (node.(Node.organization_id), pool_id);
  Some (pool_id, pool).

Definition node_is_in_active_maintenance (state : State.t) (node : Node.t) (evaluated_at : Time) : bool :=
  is_some_and (fun p => NodePool.node_is_in_active_maintenance p.2 node.(Node.id) evaluated_at) (pool_of state node).

Definition node_has_pending_pool_removal (state : State.t) (node : Node.t) : bool :=
  is_some_and (fun p => is_some (NodePool.member_removal p.2 node.(Node.id))) (pool_of state node).

Definition list_scheduling_candidates (organization_id : OrganizationId) (node_pool_id : option NodePoolId)
    (evaluated_at : Time) (state : State.t) : Datatypes.list Node.t :=
  sort_by_key list_key
    (List.filter (fun node =>
       (node.(Node.organization_id) == organization_id)
       && is_none_or (fun node_pool_id =>
            state.(node_pool_by_node) !! (organization_id, node.(Node.id)) == Some node_pool_id) node_pool_id
       && negb (node_has_pending_pool_removal state node)
       && negb (node_is_in_active_maintenance state node evaluated_at)) (values state.(nodes))).

Definition evacuation_cause (state : State.t) (node : Node.t) (evaluated_at : Time) : option NodeEvacuationCause.t :=
  let pool := pool_of state node in
  let removal_cause :=
    '(pool_id, pool) ← pool;
    removal ← NodePool.member_removal pool node.(Node.id);
    Some (NodeEvacuationCause.PoolMemberRemoval pool_id removal.(NodePoolMemberRemoval.generation)) in
  match removal_cause with
  | Some cause => Some cause
  | None =>
    if node.(Node.state) == NodeState.Draining then Some NodeEvacuationCause.ManualDrain
    else
      '(pool_id, pool) ← pool;
      window ← pool.(NodePool.maintenance);
      if negb (NodePoolMaintenanceWindow.is_active_for window node.(Node.id) evaluated_at) then None
      else Some (NodeEvacuationCause.PoolMaintenance pool_id window.(NodePoolMaintenanceWindow.generation)
                   window.(NodePoolMaintenanceWindow.ends_at))
  end.

Definition evacuation_source (state : State.t) (node : Node.t) (evaluated_at : Time) :
    option NodeEvacuationSource.t :=
  cause ← evacuation_cause state node evaluated_at;
  Some (NodeEvacuationSource.Mk node cause).

(** [filter_map] *)
Definition filter_map {A B} (f : A -> option B) (l : Datatypes.list A) : Datatypes.list B := omap f l.

Definition list_evacuation_sources (evaluated_at : Time) (limit : N) (state : State.t) :
    result (Datatypes.list NodeEvacuationSource.t) :=
  if (limit =? 0)%N || (10000 <? limit)%N
  then Err (conflict_error "node evacuation source query limit must be between 1 and 10000")
  else
    let sources := filter_map (fun node => evacuation_source state node evaluated_at) (values state.(nodes)) in
    Ok (take (N.to_nat limit)
         (sort_by_key (fun source : NodeEvacuationSource.t =>
            (source.(NodeEvacuationSource.node).(Node.organization_id),
             source.(NodeEvacuationSource.node).(Node.id))) sources)).

Definition find_evacuation_source (organization_id : OrganizationId) (node_id : NodeId) (evaluated_at : Time)
    (state : State.t) : result NodeEvacuationSource.t :=
  node ← some_or (state.(nodes) !! (organization_id, node_id)) NotFound;
  some_or (evacuation_source state node evaluated_at) NotFound.

End repository.
End InMemoryNodeRepository.

(** ** [INodePoolRepository] *)
Module PoolRepository.
Import State.
Section pools.
Context `{Platform}.

Definition replay (idempotency : IdempotencyRequest.t) (state : State.t) : result (option NodePool.t) :=
  match state.(node_pool_idempotency) !! IdempotencyRequest.storage_key idempotency with
  | None => Ok None
  | Some (digest, pool) =>
    if digest != idempotency.(IdempotencyRequest.request_digest) then Err IdempotencyConflict else Ok (Some pool)
  end.

(** The version a write replaces: none for a new pool, the stored pool otherwise. *)
Definition previous_pool (write : NodePoolWrite.t) (state : State.t) : result (option NodePool.t) :=
  let pool := write.(NodePoolWrite.pool) in
  let key := (pool.(NodePool.organization_id), pool.(NodePool.id)) in
  match write.(NodePoolWrite.expected_version) with
  | None =>
    if (pool.(NodePool.aggregate_version) != 1%N)
       || (pool.(NodePool.member_removal_generation) != 0%N)
       || negb (is_empty pool.(NodePool.member_removals))
       || is_some pool.(NodePool.maintenance)
       || is_some (state.(node_pools) !! key)
    then Err (conflict_error "node pool already exists or has an invalid initial version")
    else if is_some (state.(node_pool_by_name)
                       !! (pool.(NodePool.organization_id), pool.(NodePool.name).(ResourceName.key)))
    then Err (conflict_error "node pool name already exists")
    else Ok None
  | Some expected_version =>
    current ← some_or (state.(node_pools) !! key) NotFound;
    map_err Conflict (NodePool.validate_successor pool current expected_version) ;;
    Ok (Some current)
  end.

(** Every member is a node of the organization that no other pool has. *)
Definition validate_members (pool : NodePool.t) (state : State.t) : result unit :=
  for_each (fun node_id =>
    let node_key := (pool.(NodePool.organization_id), node_id) in
    if is_none (state.(nodes) !! node_key) then Err NotFound
    else if is_some_and (fun pool_id => pool_id != pool.(NodePool.id)) (state.(node_pool_by_node) !! node_key)
    then Err (conflict_error "node already belongs to another node pool")
    else Ok tt) pool.(NodePool.member_node_ids).

(** The members [previous] had and [pool] has no longer leave the index, then the members of
    [pool] enter it. *)
Definition index_members (pool : NodePool.t) (previous : option NodePool.t)
    (index : gmap (OrganizationId * NodeId) NodePoolId) : gmap (OrganizationId * NodeId) NodePoolId :=
  let left :=
    match previous with
    | None => []
    | Some previous =>
      List.filter (fun node_id => is_none (binary_search node_id pool.(NodePool.member_node_ids)))
        previous.(NodePool.member_node_ids)
    end in
  let index := foldl (fun index node_id => delete (pool.(NodePool.organization_id), node_id) index) index left in
  foldl (fun index node_id => <[(pool.(NodePool.organization_id), node_id) := pool.(NodePool.id)]> index) index
    pool.(NodePool.member_node_ids).

Definition save (write : NodePoolWrite.t) : method State.t (IdempotentWrite.t NodePool.t) :=
  let pool := write.(NodePoolWrite.pool) in
  let event := write.(NodePoolWrite.event) in
  let idempotency := write.(NodePoolWrite.idempotency) in
  let idempotency_key := IdempotencyRequest.storage_key idempotency in
  let organization_id := pool.(NodePool.organization_id) in
  state ← get;
  match state.(node_pool_idempotency) !! idempotency_key with
  | Some (digest, existing) =>
    if digest != idempotency.(IdempotencyRequest.request_digest) then throw IdempotencyConflict
    else mret (IdempotentWrite.Mk existing true)
  | None =>
    lift (map_err Conflict (NodePool.validate pool)) ;;
    if (event.(PoolEvent.organization_id) != Some organization_id)
       || (event.(PoolEvent.aggregate_id) != pool.(NodePool.id))
       || (event.(PoolEvent.aggregate_version) != pool.(NodePool.aggregate_version))
    then throw (storage_error "node pool event identity does not match the aggregate")
    else
      previous ← lift (previous_pool write state);
      lift (validate_members pool state) ;;
      modify (fun state => state <| node_pool_by_node := index_members pool previous state.(node_pool_by_node) |>) ;;
      modify (fun state => state <| node_pool_by_name :=
        <[(organization_id, pool.(NodePool.name).(ResourceName.key)) := pool.(NodePool.id)]> state.(node_pool_by_name) |>) ;;
      modify (fun state => state <| node_pools :=
        <[(organization_id, pool.(NodePool.id)) := pool]> state.(node_pools) |>) ;;
      modify (fun state => state <| node_pool_idempotency :=
        <[idempotency_key := (idempotency.(IdempotencyRequest.request_digest), pool)]> state.(node_pool_idempotency) |>) ;;
      mret (IdempotentWrite.Mk pool false)
  end.

Definition find (organization_id : OrganizationId) (pool_id : NodePoolId) (state : State.t) : result NodePool.t :=
  some_or (state.(node_pools) !! (organization_id, pool_id)) NotFound.

Definition list (organization_id : OrganizationId) (state : State.t) : Datatypes.list NodePool.t :=
  sort_by_key (fun pool => (pool.(NodePool.name).(ResourceName.key), pool.(NodePool.id)))
    (List.filter (fun pool => pool.(NodePool.organization_id) == organization_id) (values state.(node_pools))).

End pools.
End PoolRepository.

(** ** [INodeProtocolSessionRepository] *)
Module SessionRepository.
Import State InMemoryNodeRepository.
Section sessions.
Context `{Platform}.

Definition negotiate (negotiation : NodeProtocolNegotiation.t) :
    method State.t NodeProtocolNegotiationOutcome.t :=
  let hello := negotiation.(NodeProtocolNegotiation.hello) in
  let node_id := hello.(NodeSessionHello.node_id) in
  state ← get;
  node ← lift (some_or (find_node state node_id) NotFound);
  if node.(Node.state) == NodeState.Revoked then throw NotFound
  else if node.(Node.agent_instance_id) != hello.(NodeSessionHello.agent_instance_id)
  then throw (Forbidden (Error "node session Agent instance does not match the enrolled node" []))
  else
    outcome ← lift (map_err Conflict (NodeProtocolNegotiation.apply negotiation (state.(protocol_sessions) !! node_id)));
    (if negb outcome.(NodeProtocolNegotiationOutcome.replayed)
     then modify (fun state => state <| protocol_sessions :=
            <[node_id := outcome.(NodeProtocolNegotiationOutcome.record)]> state.(protocol_sessions) |>)
     else mret tt) ;;
    mret outcome.

End sessions.
End SessionRepository.
