(* ===== verification/FleetControl.v ===== *)
(** * The node repository: commands, observations, inventories and logs

    [fleet/infrastructure/persistence/in_memory_control.rs]: the queue of commands of each node,
    their leases and acknowledgements, the reports of the agents, and the retention of their logs. *)

From Stdlib Require Import ZArith NArith Lia String.
From stdpp Require Import gmap.
From S2P Require Import Prelude RustStd BTreeMap External Text SharedKernel Repositories Resources NodeInventory NodeClaims.
From S2P Require Import NodeGateway NodeCommands NodeObservations NodeSessions LogRetention NodePools Fleet.
From S2P Require Import FleetRepository.
Import RepositoryError.

Module CommandQueue.
Import State.
Section commands.
Context `{Platform}.

(** ** Enqueueing *)

(** [.keys().find(|(_, node_id)| *node_id == ..)] *)
Definition find_node_key (state : State.t) (node_id : NodeId) : option (OrganizationId * NodeId) :=
  List.find (fun key => key.2 == node_id) (entries_of state.(nodes)).*1.

Definition same_target (draft : NodeCommandDraft.t) (stored : StoredNodeCommand.t) : bool :=
  (stored.(StoredNodeCommand.command).(NodeCommand.node_id) == draft.(NodeCommandDraft.node_id))
  && (stored.(StoredNodeCommand.command).(NodeCommand.aggregate_id) == draft.(NodeCommandDraft.aggregate_id)).

(** A Runtime apply does not go behind a removal, nor behind an earlier apply. *)
Definition fence_runtime_apply (state : State.t) (draft : NodeCommandDraft.t) (request : RuntimeApplyRequest) :
    result unit :=
  let requested_generation := NodeCommandPayload.generation draft.(NodeCommandDraft.payload) in
  let generation stored := NodeCommand.generation stored.(StoredNodeCommand.command) in
  let kind stored := NodeCommand.kind stored.(StoredNodeCommand.command) in
  if any (fun stored => same_target draft stored && (kind stored == "runtime_remove"%string)
                        && (generation stored == requested_generation)) (values state.(commands))
  then Err (conflict_error "Runtime apply generation is fenced by a removal command")
  else
    requested_digest ← map_err Conflict (spec_digest (apply_spec request));
    let prior_applies :=
      sort_by_key generation
        (List.filter (fun stored => same_target draft stored && (kind stored == "runtime_apply"%string))
           (values state.(commands))) in
    (match List.find (fun stored => generation stored == requested_generation) prior_applies with
     | None => Ok tt
     | Some existing =>
       match existing.(StoredNodeCommand.command).(NodeCommand.payload) with
       | NodeCommandPayload.RuntimeApply existing_request _ =>
         existing_digest ← map_err Storage (spec_digest (apply_spec existing_request));
         if existing_digest != requested_digest
         then Err (conflict_error "Runtime apply generation was reused with a different specification")
         else Ok tt
       | _ => Err (storage_error "stored Runtime apply command has the wrong payload kind")
       end
     end) ;;
    if is_some_and (fun stored => (requested_generation <? generation stored)%N) (last prior_applies)
    then Err (conflict_error "Runtime apply generation regressed")
    else Ok tt.

Definition enqueue_command (draft : NodeCommandDraft.t) : method State.t (IdempotentWrite.t NodeCommand.t) :=
  state ← get;
  match state.(commands) !! draft.(NodeCommandDraft.proposed_command_id) with
  | Some existing =>
    let command := existing.(StoredNodeCommand.command) in
    retry ← lift (map_err Conflict (NodeCommand.issue draft command.(NodeCommand.sequence)));
    if retry != command then throw (conflict_error "node command ID was reused with different input")
    else mret (IdempotentWrite.Mk command true)
  | None =>
    node_key ← lift (some_or (find_node_key state draft.(NodeCommandDraft.node_id)) NotFound);
    if is_some_and (fun node => node.(Node.state) == NodeState.Revoked) (state.(nodes) !! node_key)
    then throw NotFound
    else
      lift (match draft.(NodeCommandDraft.payload) with
            | NodeCommandPayload.RuntimeApply request _ => fence_runtime_apply state draft request
            | _ => Ok tt
            end) ;;
      node ← lift (some_or (state.(nodes) !! node_key) (storage_error "node disappeared while enqueueing"));
      sequence ← lift (some_or (checked_add node.(Node.last_sequence) 1)
                         (conflict_error "node command sequence exhausted"));
      command ← lift (map_err Conflict (NodeCommand.issue draft sequence));
      modify (fun state => state <| nodes := <[node_key := node <| Node.last_sequence := sequence |>]> state.(nodes) |>) ;;
      modify (fun state => state <| commands :=
        <[command.(NodeCommand.id) := StoredNodeCommand.Mk command None None]> state.(commands) |>) ;;
      mret (IdempotentWrite.Mk command false)
  end.

Definition find_stored (node_id : NodeId) (command_id : NodeCommandId) (state : State.t) : option StoredNodeCommand.t :=
  stored ← state.(commands) !! command_id;
  if stored.(StoredNodeCommand.command).(NodeCommand.node_id) == node_id then Some stored else None.

Definition find_command (node_id : NodeId) (command_id : NodeCommandId) (state : State.t) : option NodeCommand.t :=
  StoredNodeCommand.command <$> find_stored node_id command_id state.

(** ** Leasing *)

(** The commands the agent has not acknowledged, in the order of their sequences. *)
Definition unacknowledged (state : State.t) (request : NodeCommandLeaseRequest.t) : list (NodeCommandId * N) :=
  sort_by_key snd
    ((fun kv => (kv.1, kv.2.(StoredNodeCommand.command).(NodeCommand.sequence)))
       <$> List.filter (fun kv =>
             let command := kv.2.(StoredNodeCommand.command) in
             (command.(NodeCommand.node_id) == request.(NodeCommandLeaseRequest.node_id))
             && (request.(NodeCommandLeaseRequest.after_sequence) <? command.(NodeCommand.sequence))%N
             && is_none kv.2.(StoredNodeCommand.acknowledgement)) (entries_of state.(commands))).

(** The commands to lease: up to the first that is leased already, at most [room] of them. *)
Fixpoint select (state : State.t) (now : Time) (room : nat) (ordered : list (NodeCommandId * N)) :
    result (list NodeCommandId) :=
  match ordered with
  | [] => Ok []
  | (command_id, _) :: rest =>
    stored ← some_or (state.(commands) !! command_id) (storage_error "command disappeared while leasing");
    if is_some_and (fun lease => (now <? lease.(CommandLease.leased_until))%Z) stored.(StoredNodeCommand.lease)
    then Ok []
    else
      match room with
      | 1%nat => Ok [command_id]
      | _ => selected ← select state now (pred room) rest; Ok (command_id :: selected)
      end
  end.

(** The loop that leases the selected commands and builds their envelopes: a command is leased
    before its envelope is built. *)
Fixpoint assign_leases (lease : CommandLease.t) (selected : list NodeCommandId) :
    method State.t (list NodeCommandEnvelope.t) :=
  match selected with
  | [] => mret []
  | command_id :: rest =>
    state ← get;
    stored ← lift (some_or (state.(commands) !! command_id) (storage_error "command disappeared while assigning lease"));
    modify (fun state => state <| commands :=
      <[command_id := stored <| StoredNodeCommand.lease := Some lease |>]> state.(commands) |>) ;;
    envelope ← lift (map_err Storage
      (NodeCommand.envelope stored.(StoredNodeCommand.command) lease.(CommandLease.lease_id)));
    envelopes ← assign_leases lease rest;
    mret (envelope :: envelopes)
  end.

Definition lease_commands (request : NodeCommandLeaseRequest.t) (lease_id : Uuid) (now leased_until : Time) :
    method State.t NodeCommandLeaseResponse.t :=
  let now := canonical_timestamp now in
  let leased_until := canonical_timestamp leased_until in
  lift (map_err Conflict (NodeCommandLeaseRequest.validate request)) ;;
  if is_nil lease_id || (leased_until <=? now)%Z
  then throw (conflict_error "command lease identity or expiry is invalid")
  else
    let node_id := request.(NodeCommandLeaseRequest.node_id) in
    let agent_instance_id := request.(NodeCommandLeaseRequest.agent_instance_id) in
    state ← get;
    state_node ← lift (some_or (InMemoryNodeRepository.find_node state node_id) NotFound);
    if (state_node.(Node.state) == NodeState.Revoked) || (state_node.(Node.agent_instance_id) != agent_instance_id)
    then throw NotFound
    else
      selected ← lift (select state now (N.to_nat request.(NodeCommandLeaseRequest.max_commands))
                         (unacknowledged state request));
      commands ← assign_leases (CommandLease.Mk lease_id agent_instance_id leased_until) selected;
      let response :=
        {| NodeCommandLeaseResponse.schema := NodeCommandLeaseResponse.SCHEMA;
           NodeCommandLeaseResponse.lease_id := lease_id;
           NodeCommandLeaseResponse.node_id := node_id;
           NodeCommandLeaseResponse.agent_instance_id := agent_instance_id;
           NodeCommandLeaseResponse.leased_until := leased_until;
           NodeCommandLeaseResponse.commands := commands |} in
      lift (map_err Storage (NodeCommandLeaseResponse.validate response now)) ;;
      mret response.

(** ** Acknowledging *)
Definition is_succeeded (outcome : NodeCommandOutcome.t) : bool :=
  match outcome with NodeCommandOutcome.Succeeded _ => true | _ => false end.

(** What a first acknowledgement is checked against: the lease, the exact command, its expiry. *)
Definition check_acknowledgement (stored : StoredNodeCommand.t) (acknowledgement : NodeCommandAck.t) : result unit :=
  let completed_at := acknowledgement.(NodeCommandAck.completed_at) in
  lease ← some_or stored.(StoredNodeCommand.lease) (conflict_error "command has not been leased");
  (if is_nil lease.(CommandLease.agent_instance_id)
   then Err (storage_error "stored command lease has no agent identity") else Ok tt) ;;
  envelope ← map_err Storage (NodeCommand.envelope stored.(StoredNodeCommand.command) lease.(CommandLease.lease_id));
  map_err Conflict (NodeCommandAck.validate_against acknowledgement envelope) ;;
  (if (lease.(CommandLease.leased_until) <? completed_at)%Z
   then Err (conflict_error "command acknowledgement completed after its lease expired") else Ok tt) ;;
  if is_succeeded acknowledgement.(NodeCommandAck.outcome)
     && (stored.(StoredNodeCommand.command).(NodeCommand.not_after) <? completed_at)%Z
  then Err (conflict_error "successful command acknowledgement completed after command expiry")
  else Ok tt.

Definition acknowledge_command (acknowledgement : NodeCommandAck.t) :
    method State.t (IdempotentWrite.t NodeCommandAck.t) :=
  let acknowledgement := NodeCommand.canonicalize_acknowledgement acknowledgement in
  let command_id := acknowledgement.(NodeCommandAck.command_id) in
  state ← get;
  stored ← lift (some_or (state.(commands) !! command_id) NotFound);
  match stored.(StoredNodeCommand.acknowledgement) with
  | Some existing =>
    if existing != acknowledgement
    then throw (conflict_error "command acknowledgement was replayed with different content")
    else mret (IdempotentWrite.Mk existing true)
  | None =>
    lift (check_acknowledgement stored acknowledgement) ;;
    modify (fun state => state <| commands :=
      <[command_id := stored <| StoredNodeCommand.acknowledgement := Some acknowledgement |>]> state.(commands) |>) ;;
    mret (IdempotentWrite.Mk acknowledgement false)
  end.

Definition command_acknowledgement (node_id : NodeId) (command_id : NodeCommandId) (state : State.t) :
    option NodeCommandAck.t :=
  stored ← find_stored node_id command_id state;
  stored.(StoredNodeCommand.acknowledgement).

End commands.
End CommandQueue.

Module NodeObservationSubmission.
Section submission.
Context `{RuntimeReports}.

Record t := Mk {
  node_id : Uuid;
  agent_instance_id : Uuid;
  sent_at : Time;
  heartbeat_observed_at : Time;
  agent_version : string;
  runtime_capabilities : RuntimeCapabilities;
  inventory : option NodeInventoryReference.t;
  observations : list RuntimeObservationReport.t;
}.

Definition canonical_report (report : RuntimeObservationReport.t) : RuntimeObservationReport.t :=
  report <| RuntimeObservationReport.observed_at :=
              canonical_timestamp report.(RuntimeObservationReport.observed_at) |>.

Definition try_from (batch : NodeObservationBatchEnvelope.t) : result t :=
  NodeObservationBatchEnvelope.validate batch ;;
  match batch with
  | NodeObservationBatchEnvelope.V1 batch =>
    let heartbeat := batch.(NodeObservationBatch.heartbeat) in
    Ok {| node_id := batch.(NodeObservationBatch.node_id);
          agent_instance_id := batch.(NodeObservationBatch.agent_instance_id);
          sent_at := canonical_timestamp batch.(NodeObservationBatch.sent_at);
          heartbeat_observed_at := canonical_timestamp heartbeat.(NodeHeartbeat.observed_at);
          agent_version := heartbeat.(NodeHeartbeat.agent_version);
          runtime_capabilities := heartbeat.(NodeHeartbeat.runtime_capabilities);
          inventory := None;
          observations := canonical_report <$> batch.(NodeObservationBatch.observations) |}
  | NodeObservationBatchEnvelope.V2 batch =>
    let heartbeat := batch.(NodeObservationBatchV2.heartbeat) in
    Ok {| node_id := batch.(NodeObservationBatchV2.node_id);
          agent_instance_id := batch.(NodeObservationBatchV2.agent_instance_id);
          sent_at := canonical_timestamp batch.(NodeObservationBatchV2.sent_at);
          heartbeat_observed_at := canonical_timestamp heartbeat.(NodeHeartbeatV2.observed_at);
          agent_version := heartbeat.(NodeHeartbeatV2.agent_version);
          runtime_capabilities := heartbeat.(NodeHeartbeatV2.runtime_capabilities);
          inventory := Some heartbeat.(NodeHeartbeatV2.inventory);
          observations := canonical_report <$> batch.(NodeObservationBatchV2.observations) |}
  end.

End submission.
End NodeObservationSubmission.

Module RuntimeObservationRecord.
Section record.
Context `{Platform}.
Record t := Mk {
  report_id : Uuid;
  node_id : NodeId;
  agent_instance_id : Uuid;
  command_id : option NodeCommandId;
  observed_at : Time;
  received_at : Time;
  observation : RuntimeObservation;
}.
End record.
End RuntimeObservationRecord.

(** [u16::try_from(n)] *)
Definition u16_try_from (n : N) : option N := if (n <=? u16_max)%N then Some n else None.

(** [iter.max_by_key(key)]: the last of the greatest. *)
Definition max_by_key {A K} `{Ord K} (key : A -> K) (l : list A) : option A :=
  foldl (fun best x => match best with
                       | None => Some x
                       | Some y => if leb (key y) (key x) then Some x else Some y
                       end) None l.

(** ** Reports of the agents *)
Module ReportRepository.
Import State.
Section reports.
Context `{RuntimeReports}.

(** The inventory a heartbeat refers to is the current one of the same agent. *)
Definition check_inventory (state : State.t) (batch : NodeObservationSubmission.t) : result unit :=
  match batch.(NodeObservationSubmission.inventory) with
  | None => Ok tt
  | Some reference =>
    let node_id := batch.(NodeObservationSubmission.node_id) in
    current ← some_or (generation ← state.(inventory_heads) !! node_id;
                       state.(resource_inventories) !! (node_id, generation))
      (conflict_error "node heartbeat references an unknown resource inventory");
    let inventory := current.(NodeResourceInventoryRecord.inventory) in
    if (NodeResourceInventory.reference inventory != reference)
       || (inventory.(NodeResourceInventory.agent_instance_id) != batch.(NodeObservationSubmission.agent_instance_id))
    then Err (conflict_error "node heartbeat does not reference the current resource inventory")
    else Ok tt
  end.

(** The loop over the reports: the new ones, and how many were replayed. *)
Fixpoint classify_reports (state : State.t) (batch : NodeObservationSubmission.t) (received_at : Time)
    (reports : list RuntimeObservationReport.t) : result (list StoredObservation.t * N) :=
  match reports with
  | [] => Ok ([], 0%N)
  | report :: rest =>
    (match report.(RuntimeObservationReport.command_id) with
     | None => Ok tt
     | Some command_id =>
       stored ← some_or (state.(commands) !! command_id)
         (conflict_error "Runtime observation references an unknown command");
       if stored.(StoredNodeCommand.command).(NodeCommand.node_id) != batch.(NodeObservationSubmission.node_id)
       then Err (conflict_error "Runtime observation command belongs to another node")
       else Ok tt
     end) ;;
    match state.(observations) !! report.(RuntimeObservationReport.report_id) with
    | Some existing =>
      if (existing.(StoredObservation.node_id) != batch.(NodeObservationSubmission.node_id))
         || (existing.(StoredObservation.agent_instance_id) != batch.(NodeObservationSubmission.agent_instance_id))
         || (existing.(StoredObservation.report) != report)
      then Err (conflict_error "Runtime observation report ID was reused with different content")
      else '(new_reports, replayed) ← classify_reports state batch received_at rest; Ok (new_reports, replayed + 1)%N
    | None =>
      '(new_reports, replayed) ← classify_reports state batch received_at rest;
      Ok (StoredObservation.Mk batch.(NodeObservationSubmission.node_id)
            batch.(NodeObservationSubmission.agent_instance_id) received_at report :: new_reports, replayed)
    end
  end.

Definition store_reports (reports : list StoredObservation.t) (stored : gmap Uuid StoredObservation.t) :
    gmap Uuid StoredObservation.t :=
  foldl (fun stored report =>
    <[report.(StoredObservation.report).(RuntimeObservationReport.report_id) := report]> stored) stored reports.

Definition record_observations (batch : NodeObservationBatchEnvelope.t) (received_at : Time) :
    method State.t NodeObservationReceipt.t :=
  batch ← lift (map_err Conflict (NodeObservationSubmission.try_from batch));
  let received_at := canonical_timestamp received_at in
  let capabilities := batch.(NodeObservationSubmission.runtime_capabilities) in
  document ← lift (map_err Storage (runtime_capabilities_to_value capabilities));
  capabilities ← lift (map_err Conflict
    (NodeCapabilities.new (runtime_provider_id capabilities) (runtime_provider_build capabilities) document));
  let update :=
    {| NodeHeartbeatUpdate.node_id := batch.(NodeObservationSubmission.node_id);
       NodeHeartbeatUpdate.agent_instance_id := batch.(NodeObservationSubmission.agent_instance_id);
       NodeHeartbeatUpdate.agent_version := batch.(NodeObservationSubmission.agent_version);
       NodeHeartbeatUpdate.capabilities := capabilities;
       NodeHeartbeatUpdate.observed_at := batch.(NodeObservationSubmission.heartbeat_observed_at) |} in
  state ← get;
  node_key ← lift (some_or (CommandQueue.find_node_key state batch.(NodeObservationSubmission.node_id)) NotFound);
  current ← lift (some_or (state.(nodes) !! node_key) (storage_error "observation node disappeared"));
  projected ← lift (InMemoryNodeRepository.project_heartbeat current update);
  lift (check_inventory state batch) ;;
  '(new_reports, replayed_reports) ←
    lift (classify_reports state batch received_at batch.(NodeObservationSubmission.observations));
  modify (fun state => state <| nodes := <[node_key := projected]> state.(nodes) |>) ;;
  modify (fun state => state <| observations := store_reports new_reports state.(observations) |>) ;;
  accepted ← lift (some_or (u16_try_from (len new_reports)) (storage_error "observation acceptance count overflowed"));
  replayed ← lift (some_or (u16_try_from replayed_reports) (storage_error "observation replay count overflowed"));
  let receipt :=
    {| NodeObservationReceipt.schema := NodeObservationReceipt.SCHEMA;
       NodeObservationReceipt.node_id := batch.(NodeObservationSubmission.node_id);
       NodeObservationReceipt.heartbeat_observed_at := batch.(NodeObservationSubmission.heartbeat_observed_at);
       NodeObservationReceipt.accepted_reports := accepted;
       NodeObservationReceipt.replayed_reports := replayed |} in
  lift (map_err Storage (NodeObservationReceipt.validate receipt)) ;;
  mret receipt.

Definition latest_runtime_observation (node_id : NodeId) (unit_id : string) (generation : N) (state : State.t) :
    result (option RuntimeObservationRecord.t) :=
  if log_target_invalid unit_id generation
  then Err (conflict_error "Runtime observation lookup identity is invalid")
  else
    let observation stored := stored.(StoredObservation.report).(RuntimeObservationReport.observation) in
    let stored :=
      max_by_key (fun stored => (stored.(StoredObservation.report).(RuntimeObservationReport.observed_at),
                                 stored.(StoredObservation.report).(RuntimeObservationReport.report_id)))
        (List.filter (fun stored =>
           (stored.(StoredObservation.node_id) == node_id)
           && (observation_unit_id (observation stored) == unit_id)
           && (observation_generation (observation stored) == generation)) (values state.(observations))) in
    Ok ((fun stored =>
           {| RuntimeObservationRecord.report_id := stored.(StoredObservation.report).(RuntimeObservationReport.report_id);
              RuntimeObservationRecord.node_id := stored.(StoredObservation.node_id);
              RuntimeObservationRecord.agent_instance_id := stored.(StoredObservation.agent_instance_id);
              RuntimeObservationRecord.command_id :=
                stored.(StoredObservation.report).(RuntimeObservationReport.command_id);
              RuntimeObservationRecord.observed_at :=
                stored.(StoredObservation.report).(RuntimeObservationReport.observed_at);
              RuntimeObservationRecord.received_at := stored.(StoredObservation.received_at);
              RuntimeObservationRecord.observation := observation stored |}) <$> stored).

(** ** Inventories *)
Definition resource_inventory_receipt (inventory : NodeResourceInventory.t) (replayed : bool) :
    NodeResourceInventoryReceipt.t :=
  {| NodeResourceInventoryReceipt.schema := NodeResourceInventoryReceipt.SCHEMA;
     NodeResourceInventoryReceipt.node_id := inventory.(NodeResourceInventory.node_id);
     NodeResourceInventoryReceipt.generation := inventory.(NodeResourceInventory.generation);
     NodeResourceInventoryReceipt.digest := inventory.(NodeResourceInventory.digest);
     NodeResourceInventoryReceipt.replayed := replayed |}.

(** A new inventory follows the current one: next generation, later time, other content. *)
Definition check_successor (state : State.t) (inventory : NodeResourceInventory.t) : result unit :=
  let node_id := inventory.(NodeResourceInventory.node_id) in
  let generation := inventory.(NodeResourceInventory.generation) in
  match (head ← state.(inventory_heads) !! node_id; state.(resource_inventories) !! (node_id, head)) with
  | Some current =>
    let current := current.(NodeResourceInventoryRecord.inventory) in
    next_generation ← some_or (checked_add current.(NodeResourceInventory.generation) 1)
      (conflict_error "resource inventory generation is exhausted");
    if generation != next_generation
    then Err (conflict_error "resource inventory generation did not advance exactly once")
    else if (inventory.(NodeResourceInventory.observed_at) <=? current.(NodeResourceInventory.observed_at))%Z
    then Err (conflict_error "resource inventory observation time did not advance")
    else if inventory.(NodeResourceInventory.digest) == current.(NodeResourceInventory.digest)
    then Err (conflict_error "resource inventory generation advanced without a content change")
    else Ok tt
  | None =>
    if generation != 1%N then Err (conflict_error "first resource inventory generation must be one") else Ok tt
  end.

Definition record_resource_inventory (inventory : NodeResourceInventory.t) (received_at : Time) :
    method State.t NodeResourceInventoryReceipt.t :=
  lift (map_err Conflict (NodeResourceInventory.validate inventory)) ;;
  let inventory := inventory <| NodeResourceInventory.observed_at :=
                                  canonical_timestamp inventory.(NodeResourceInventory.observed_at) |> in
  let received_at := canonical_timestamp received_at in
  lift (map_err Conflict (NodeResourceInventory.validate inventory)) ;;
  let node_id := inventory.(NodeResourceInventory.node_id) in
  let generation := inventory.(NodeResourceInventory.generation) in
  state ← get;
  node ← lift (some_or (InMemoryNodeRepository.find_node state node_id) NotFound);
  if node.(Node.state) == NodeState.Revoked then throw NotFound
  else if node.(Node.agent_instance_id) != inventory.(NodeResourceInventory.agent_instance_id)
  then throw (conflict_error "resource inventory agent identity does not match the enrolled node")
  else
    match state.(resource_inventories) !! (node_id, generation) with
    | Some existing =>
      if existing.(NodeResourceInventoryRecord.inventory) != inventory
      then throw (conflict_error "resource inventory generation was reused with different content")
      else mret (resource_inventory_receipt inventory true)
    | None =>
      lift (check_successor state inventory) ;;
      let record := NodeResourceInventoryRecord.Mk inventory received_at in
      lift (map_err Storage (NodeResourceInventoryRecord.validate record)) ;;
      modify (fun state => state <| resource_inventories :=
        <[(node_id, generation) := record]> state.(resource_inventories) |>) ;;
      modify (fun state => state <| inventory_heads := <[node_id := generation]> state.(inventory_heads) |>) ;;
      mret (resource_inventory_receipt inventory false)
    end.

Definition current_resource_inventory (node_id : NodeId) (state : State.t) :
    result (option NodeResourceInventoryRecord.t) :=
  match state.(inventory_heads) !! node_id with
  | None => Ok None
  | Some generation =>
    record ← some_or (state.(resource_inventories) !! (node_id, generation))
      (storage_error "resource inventory head is orphaned");
    map_err Storage (NodeResourceInventoryRecord.validate record) ;;
    Ok (Some record)
  end.

(** ** Gateway acknowledgements *)
Definition gateway_receipt (acknowledgement : NodeGatewayAck.t) (replayed : bool) : NodeGatewayAckReceipt.t :=
  {| NodeGatewayAckReceipt.schema := NodeGatewayAckReceipt.SCHEMA;
     NodeGatewayAckReceipt.acknowledgement_id := acknowledgement.(NodeGatewayAck.acknowledgement_id);
     NodeGatewayAckReceipt.command_id := acknowledgement.(NodeGatewayAck.command_id);
     NodeGatewayAckReceipt.node_id := acknowledgement.(NodeGatewayAck.node_id);
     NodeGatewayAckReceipt.replayed := replayed |}.

Definition record_gateway_acknowledgement (acknowledgement : NodeGatewayAck.t) :
    method State.t NodeGatewayAckReceipt.t :=
  let acknowledgement :=
    acknowledgement <| NodeGatewayAck.acknowledged_at := canonical_timestamp acknowledgement.(NodeGatewayAck.acknowledged_at) |>
                    <| NodeGatewayAck.expires_at := canonical_timestamp acknowledgement.(NodeGatewayAck.expires_at) |> in
  lift (map_err Conflict (NodeGatewayAck.validate acknowledgement)) ;;
  state ← get;
  node ← lift (some_or (InMemoryNodeRepository.find_node state acknowledgement.(NodeGatewayAck.node_id)) NotFound);
  if node.(Node.state) == NodeState.Revoked then throw NotFound
  else
    match state.(gateway_acknowledgements) !! acknowledgement.(NodeGatewayAck.acknowledgement_id) with
    | Some existing =>
      if existing != acknowledgement
      then throw (conflict_error "Gateway acknowledgement ID was reused with different content")
      else mret (gateway_receipt acknowledgement true)
    | None =>
      if any (fun existing =>
                (existing.(NodeGatewayAck.node_id) == acknowledgement.(NodeGatewayAck.node_id))
                && ((existing.(NodeGatewayAck.command_id) == acknowledgement.(NodeGatewayAck.command_id))
                    || (existing.(NodeGatewayAck.revision) == acknowledgement.(NodeGatewayAck.revision))
                       && (existing.(NodeGatewayAck.snapshot_digest) == acknowledgement.(NodeGatewayAck.snapshot_digest))))
           (values state.(gateway_acknowledgements))
      then throw (conflict_error "Gateway command already has an acknowledgement")
      else
        modify (fun state => state <| gateway_acknowledgements :=
          <[acknowledgement.(NodeGatewayAck.acknowledgement_id) := acknowledgement]> state.(gateway_acknowledgements) |>) ;;
        mret (gateway_receipt acknowledgement false)
    end.

End reports.
End ReportRepository.

(** ** Logs *)
Module LogRepository.
Import State.
Section logs.
Context `{Platform}.

(** A node, a unit, a generation and a sequence; without the sequence it is a stream. *)
#[local] Abbreviation position := (NodeId * string * N * N)%type.

Definition chunk_stream (node_id : NodeId) (chunk : NodeLogChunkReceiptDraft.t) : NodeId * string * N :=
  (node_id, chunk.(NodeLogChunkReceiptDraft.unit_id), chunk.(NodeLogChunkReceiptDraft.generation)).
Definition gap_stream (node_id : NodeId) (gap : NodeLogGapReceiptDraft.t) : NodeId * string * N :=
  (node_id, gap.(NodeLogGapReceiptDraft.unit_id), gap.(NodeLogGapReceiptDraft.generation)).

Definition log_receipt (batch : NodeLogBatchReceiptDraft.t) (replayed : bool) : result NodeLogChunkReceipt.t :=
  accepted_chunks ← some_or (u16_try_from (len batch.(NodeLogBatchReceiptDraft.chunks)))
    (storage_error "log chunk count overflowed");
  accepted_gaps ← some_or (u16_try_from (len batch.(NodeLogBatchReceiptDraft.gaps)))
    (storage_error "log gap count overflowed");
  let receipt :=
    {| NodeLogChunkReceipt.schema := NodeLogChunkReceipt.SCHEMA;
       NodeLogChunkReceipt.batch_id := batch.(NodeLogBatchReceiptDraft.batch_id);
       NodeLogChunkReceipt.node_id := batch.(NodeLogBatchReceiptDraft.node_id);
       NodeLogChunkReceipt.accepted_chunks := accepted_chunks;
       NodeLogChunkReceipt.accepted_gaps := accepted_gaps;
       NodeLogChunkReceipt.replayed := replayed |} in
  map_err Storage (NodeLogChunkReceipt.validate receipt) ;;
  Ok receipt.

Definition replay_log_batch (batch : NodeLogBatchReplay.t) (state : State.t) : result (option NodeLogChunkReceipt.t) :=
  let batch := batch <| NodeLogBatchReplay.sent_at := canonical_timestamp batch.(NodeLogBatchReplay.sent_at) |> in
  map_err Conflict (NodeLogBatchReplay.validate batch) ;;
  match state.(log_batches) !! batch.(NodeLogBatchReplay.batch_id) with
  | None => Ok None
  | Some existing =>
    if (existing.(NodeLogBatchReceiptDraft.node_id) != batch.(NodeLogBatchReplay.node_id))
       || (existing.(NodeLogBatchReceiptDraft.payload_digest) != batch.(NodeLogBatchReplay.payload_digest))
       || (existing.(NodeLogBatchReceiptDraft.sent_at) != batch.(NodeLogBatchReplay.sent_at))
       || (len existing.(NodeLogBatchReceiptDraft.chunks) != batch.(NodeLogBatchReplay.chunk_count))
       || (len existing.(NodeLogBatchReceiptDraft.gaps) != batch.(NodeLogBatchReplay.gap_count))
    then Err (conflict_error "log batch ID was reused with different content")
    else Ok (Some (NodeLogBatchReplay.receipt batch))
  end.

(** The greatest sequence a stream has used: of its chunks, its gaps and its compacted ranges. *)
Definition durable_maximum (state : State.t) (s : NodeId * string * N) : option N :=
  let in_stream (position : NodeId * string * N * N) := position.1 == s in
  let chunks := snd <$> List.filter in_stream (entries_of state.(log_chunks)).*1 in
  let gaps := snd <$> List.filter in_stream (entries_of state.(log_gaps)).*1 in
  let compacted :=
    NodeLogCompactionRange.through_sequence
      <$> List.filter (fun range => NodeLogCompactionRange.stream range == s) state.(log_compaction_ranges) in
  set_last (chunks ++ gaps ++ compacted).

Definition check_chunk (state : State.t) (node_id : NodeId) (chunk : NodeLogChunkReceiptDraft.t) : result unit :=
  let s := chunk_stream node_id chunk in
  let sequence := chunk.(NodeLogChunkReceiptDraft.sequence) in
  (match state.(log_chunks) !! (s, sequence) with
   | Some existing =>
     if existing.(StoredLogChunkReceipt.draft) != chunk
     then Err (conflict_error "log sequence was reused with different content") else Ok tt
   | None =>
     if is_some_and (fun maximum => (sequence <=? maximum)%N) (durable_maximum state s)
     then Err (conflict_error "log sequence did not advance beyond durable history") else Ok tt
   end) ;;
  if any (fun kv : NodeId * string * N * N * StoredLogChunkReceipt.t =>
            (kv.1.1 == s)
            && (kv.2.(StoredLogChunkReceipt.draft).(NodeLogChunkReceiptDraft.cursor)
                  == chunk.(NodeLogChunkReceiptDraft.cursor))
            && (kv.2.(StoredLogChunkReceipt.draft).(NodeLogChunkReceiptDraft.sequence) != sequence))
       (entries_of state.(log_chunks))
  then Err (conflict_error "log cursor was reused for another sequence") else Ok tt.

Definition check_gap (state : State.t) (node_id : NodeId) (gap : NodeLogGapReceiptDraft.t) : result unit :=
  let s := gap_stream node_id gap in
  let sequence := gap.(NodeLogGapReceiptDraft.sequence) in
  match state.(log_gaps) !! (s, sequence) with
  | Some existing =>
    if existing != gap then Err (conflict_error "log gap sequence was reused with different content") else Ok tt
  | None =>
    if is_some (state.(log_chunks) !! (s, sequence))
    then Err (conflict_error "log sequence was reused across a chunk and gap")
    else if is_some_and (fun maximum => (sequence <=? maximum)%N) (durable_maximum state s)
    then Err (conflict_error "log gap sequence did not advance beyond durable history")
    else Ok tt
  end.

(** [entry(key).or_insert_with(..)] for every record of the batch *)
Definition store_chunks (node_id : NodeId) (received_at : Time) (chunks : list NodeLogChunkReceiptDraft.t)
    (stored : gmap position StoredLogChunkReceipt.t) : gmap position StoredLogChunkReceipt.t :=
  foldl (fun stored chunk =>
    let key := (chunk_stream node_id chunk, chunk.(NodeLogChunkReceiptDraft.sequence)) in
    if is_some (stored !! key) then stored else <[key := StoredLogChunkReceipt.Mk chunk received_at None]> stored)
    stored chunks.
Definition store_gaps (node_id : NodeId) (gaps : list NodeLogGapReceiptDraft.t)
    (stored : gmap position NodeLogGapReceiptDraft.t) : gmap position NodeLogGapReceiptDraft.t :=
  foldl (fun stored gap =>
    let key := (gap_stream node_id gap, gap.(NodeLogGapReceiptDraft.sequence)) in
    if is_some (stored !! key) then stored else <[key := gap]> stored) stored gaps.

Definition record_log_chunks (batch : NodeLogBatchReceiptDraft.t) (received_at : Time) :
    method State.t NodeLogChunkReceipt.t :=
  let batch := batch <| NodeLogBatchReceiptDraft.sent_at :=
                          canonical_timestamp batch.(NodeLogBatchReceiptDraft.sent_at) |> in
  let received_at := canonical_timestamp received_at in
  let node_id := batch.(NodeLogBatchReceiptDraft.node_id) in
  lift (map_err Conflict (NodeLogBatchReceiptDraft.validate batch)) ;;
  state ← get;
  node ← lift (some_or (InMemoryNodeRepository.find_node state node_id) NotFound);
  if node.(Node.state) == NodeState.Revoked then throw NotFound
  else
    match state.(log_batches) !! batch.(NodeLogBatchReceiptDraft.batch_id) with
    | Some existing =>
      if existing != batch then throw (conflict_error "log batch ID was reused with different content")
      else lift (log_receipt batch true)
    | None =>
      lift (for_each (check_chunk state node_id) batch.(NodeLogBatchReceiptDraft.chunks)) ;;
      lift (for_each (check_gap state node_id) batch.(NodeLogBatchReceiptDraft.gaps)) ;;
      modify (fun state => state <| log_chunks :=
        store_chunks node_id received_at batch.(NodeLogBatchReceiptDraft.chunks) state.(log_chunks) |>) ;;
      modify (fun state => state <| log_gaps :=
        store_gaps node_id batch.(NodeLogBatchReceiptDraft.gaps) state.(log_gaps) |>) ;;
      modify (fun state => state <| log_batches :=
        <[batch.(NodeLogBatchReceiptDraft.batch_id) := batch]> state.(log_batches) |>) ;;
      lift (log_receipt batch false)
    end.

(** *** Queries *)

(** [.map(f).collect::<Result<Vec<_>, _>>()] *)
Fixpoint collect {A B} (f : A -> result B) (l : list A) : result (list B) :=
  match l with
  | [] => Ok []
  | x :: r => y ← f x; ys ← collect f r; Ok (y :: ys)
  end.

Definition query_stream (query : NodeLogChunkQuery.t) : NodeId * string * N :=
  (query.(NodeLogChunkQuery.node_id), query.(NodeLogChunkQuery.unit_id), query.(NodeLogChunkQuery.generation)).
Definition in_query (query : NodeLogChunkQuery.t) (key : NodeId * string * N * N) : bool :=
  (key.1 == query_stream query)
  && is_none_or (fun after_sequence => (after_sequence <? key.2)%N) query.(NodeLogChunkQuery.after_sequence).
Definition stream_name (stream : RuntimeLogStream.t) : string :=
  match stream with RuntimeLogStream.Stdout => "stdout" | RuntimeLogStream.Stderr => "stderr" end.

Definition list_log_chunks (query : NodeLogChunkQuery.t) (state : State.t) : result (list NodeLogChunkMetadata.t) :=
  map_err Conflict (NodeLogChunkQuery.validate query) ;;
  collect (fun kv : NodeId * string * N * N * StoredLogChunkReceipt.t =>
      map_err Storage (NodeLogChunkReceiptDraft.metadata kv.2.(StoredLogChunkReceipt.draft)
        query.(NodeLogChunkQuery.node_id) kv.2.(StoredLogChunkReceipt.retained_at)))
    (take (N.to_nat query.(NodeLogChunkQuery.limit))
      (List.filter (fun kv : NodeId * string * N * N * StoredLogChunkReceipt.t =>
         in_query query kv.1
         && is_none_or (fun stream =>
              kv.2.(StoredLogChunkReceipt.draft).(NodeLogChunkReceiptDraft.stream) == stream_name stream)
            query.(NodeLogChunkQuery.stream)) (entries_of state.(log_chunks)))).

Definition list_log_gaps (query : NodeLogChunkQuery.t) (state : State.t) : result (list NodeLogGapMetadata.t) :=
  map_err Conflict (NodeLogChunkQuery.validate query) ;;
  collect (fun kv : NodeId * string * N * N * NodeLogGapReceiptDraft.t =>
      map_err Storage (NodeLogGapReceiptDraft.metadata kv.2 query.(NodeLogChunkQuery.node_id)))
    (take (N.to_nat query.(NodeLogChunkQuery.limit))
      (List.filter (fun kv : NodeId * string * N * N * NodeLogGapReceiptDraft.t => in_query query kv.1)
         (entries_of state.(log_gaps)))).

Definition list_log_compaction_ranges (query : NodeLogChunkQuery.t) (state : State.t) :
    result (list NodeLogCompactionRange.t) :=
  map_err Conflict (NodeLogChunkQuery.validate query) ;;
  let ranges :=
    omap (fun range => NodeLogCompactionRange.clipped_after range query.(NodeLogChunkQuery.after_sequence))
      (List.filter (fun range => NodeLogCompactionRange.stream range == query_stream query)
         state.(log_compaction_ranges)) in
  Ok (take (N.to_nat query.(NodeLogChunkQuery.limit))
        (sort_by_key NodeLogCompactionRange.first_sequence ranges)).

(** *** Retention *)
Definition list_log_chunks_for_retention (received_before : Time) (limit : N) (state : State.t) :
    result (list NodeLogRetentionTarget.t) :=
  if (limit =? 0)%N || (10000 <? limit)%N
  then Err (conflict_error "log retention query limit must be between 1 and 10000")
  else
    let received_before := canonical_timestamp received_before in
    let targets :=
      (fun kv : NodeId * string * N * N * StoredLogChunkReceipt.t =>
         let '(node_id, unit_id, generation, sequence) := kv.1 in
         {| NodeLogRetentionTarget.node_id := node_id;
            NodeLogRetentionTarget.unit_id := unit_id;
            NodeLogRetentionTarget.generation := generation;
            NodeLogRetentionTarget.sequence := sequence;
            NodeLogRetentionTarget.object_key :=
              kv.2.(StoredLogChunkReceipt.draft).(NodeLogChunkReceiptDraft.object_key);
            NodeLogRetentionTarget.received_at := kv.2.(StoredLogChunkReceipt.received_at) |})
        <$> List.filter (fun kv : NodeId * string * N * N * StoredLogChunkReceipt.t =>
              is_none kv.2.(StoredLogChunkReceipt.retained_at)
              && (kv.2.(StoredLogChunkReceipt.received_at) <? received_before)%Z) (entries_of state.(log_chunks)) in
    Ok (take (N.to_nat limit)
         (sort_by_key (fun target =>
            (target.(NodeLogRetentionTarget.received_at), target.(NodeLogRetentionTarget.node_id),
             target.(NodeLogRetentionTarget.unit_id), target.(NodeLogRetentionTarget.generation),
             target.(NodeLogRetentionTarget.sequence))) targets)).

Definition mark_log_chunk_retained (target : NodeLogRetentionTarget.t) (retained_at : Time) : method State.t bool :=
  lift (map_err Conflict (NodeLogRetentionTarget.validate target)) ;;
  let retained_at := canonical_timestamp retained_at in
  if (retained_at <? target.(NodeLogRetentionTarget.received_at))%Z
  then throw (conflict_error "log retention timestamp precedes receipt")
  else
    let key := (target.(NodeLogRetentionTarget.node_id), target.(NodeLogRetentionTarget.unit_id),
                target.(NodeLogRetentionTarget.generation), target.(NodeLogRetentionTarget.sequence)) in
    state ← get;
    match state.(log_chunks) !! key with
    | None => mret false
    | Some stored =>
      if (stored.(StoredLogChunkReceipt.draft).(NodeLogChunkReceiptDraft.object_key)
            != target.(NodeLogRetentionTarget.object_key))
         || (stored.(StoredLogChunkReceipt.received_at) != canonical_timestamp target.(NodeLogRetentionTarget.received_at))
      then throw (conflict_error "log retention target changed before commit")
      else if is_some stored.(StoredLogChunkReceipt.retained_at) then mret false
      else
        modify (fun state => state <| log_chunks :=
          <[key := stored <| StoredLogChunkReceipt.retained_at := Some retained_at |>]> state.(log_chunks) |>) ;;
        mret true
    end.

(** The tombstones a compaction takes: retained before the cutoff, the oldest first. *)
Definition compaction_candidates (state : State.t) (retained_before : Time) (limit : N) :
    list (NodeId * string * N * N) :=
  let candidates :=
    omap (fun kv : NodeId * string * N * N * StoredLogChunkReceipt.t =>
      retained_at ← kv.2.(StoredLogChunkReceipt.retained_at);
      if (retained_at <? retained_before)%Z then Some (retained_at, kv.1) else None) (entries_of state.(log_chunks)) in
  snd <$> take (N.to_nat limit) (sort_by_key (fun c : Z * (NodeId * string * N * N) => c) candidates).

Fixpoint remove_tombstones (keys : list (NodeId * string * N * N)) : method State.t unit :=
  match keys with
  | [] => mret tt
  | key :: rest =>
    state ← get;
    lift (some_or (state.(log_chunks) !! key) (storage_error "log tombstone disappeared during compaction")) ;;
    modify (fun state => state <| log_chunks := delete key state.(log_chunks) |>) ;;
    remove_tombstones rest
  end.

Definition compact_log_tombstones (retained_before compacted_at : Time) (limit : N) :
    method State.t NodeLogCompactionResult.t :=
  if (limit =? 0)%N || (10000 <? limit)%N
  then throw (conflict_error "log compaction limit must be between 1 and 10000")
  else
    let retained_before := canonical_timestamp retained_before in
    let compacted_at := canonical_timestamp compacted_at in
    if (compacted_at <? retained_before)%Z
    then throw (conflict_error "log compaction timestamp precedes its cutoff")
    else
      state ← get;
      let candidates := compaction_candidates state retained_before limit in
      let single (key : NodeId * string * N * N) :=
        let '(node_id, unit_id, generation, sequence) := key in
        NodeLogCompactionRange.Mk node_id unit_id generation sequence sequence compacted_at in
      ranges ← lift (map_err Storage (NodeLogCompactionRange.coalesce (single <$> candidates)));
      durable_ranges ← lift (map_err Storage
        (NodeLogCompactionRange.coalesce (state.(log_compaction_ranges) ++ ranges)));
      remove_tombstones candidates ;;
      modify (fun state => state <| log_compaction_ranges := durable_ranges |>) ;;
      mret (NodeLogCompactionResult.Mk (len candidates) (len ranges)).

End logs.
End LogRepository.
