(* ===== verification/FleetLifecycle.v ===== *)
(** * Every history of the node repository

    A history is a sequence of calls on the repository; identifiers that the application generates
    for a call are new.  This file gives the calls, what each leaves unchanged, and the invariants
    of the nodes and of their command queues. *)

From Stdlib Require Import ZArith NArith Lia String.
From stdpp Require Import gmap.
From S2P Require Import Prelude RustStd BTreeMap External Text SharedKernel Repositories Resources NodeInventory NodeClaims.
From S2P Require Import NodeGateway NodeCommands NodeObservations NodeSessions LogRetention NodePools Fleet.
From S2P Require Import FleetRepository FleetControl.
Import State.

Section calls.
Context `{RuntimeReports}.

Inductive call :=
| IssueEnrollmentToken (token : EnrollmentToken.t) (idempotency : IdempotencyRequest.t)
| ReserveEnrollment (credential : EnrollmentTokenCredential.t) (draft : NodeEnrollmentDraft.t)
| CompleteEnrollment (token_id : EnrollmentTokenId) (node_id : NodeId) (request_digest : string)
    (certificate : NodeCertificate.t)
| ReserveCertificateRotation (organization_id : OrganizationId) (node_id : NodeId)
    (current_certificate_id : NodeCertificateId) (draft : NodeCertificateRotationDraft.t)
    (idempotency : IdempotencyRequest.t)
| CompleteCertificateRotation (completion : NodeCertificateRotationCompletion.t)
| RecordHeartbeat (update : NodeHeartbeatUpdate.t)
| SetState (change : NodeStateChange.t)
| SavePool (write : NodePoolWrite.t)
| Negotiate (negotiation : NodeProtocolNegotiation.t)
| EnqueueCommand (draft : NodeCommandDraft.t)
| LeaseCommands (request : NodeCommandLeaseRequest.t) (lease_id : Uuid) (now leased_until : Time)
| AcknowledgeCommand (acknowledgement : NodeCommandAck.t)
| RecordObservations (batch : NodeObservationBatchEnvelope.t) (received_at : Time)
| RecordResourceInventory (inventory : NodeResourceInventory.t) (received_at : Time)
| RecordGatewayAcknowledgement (acknowledgement : NodeGatewayAck.t)
| RecordLogChunks (batch : NodeLogBatchReceiptDraft.t) (received_at : Time)
| MarkLogChunkRetained (target : NodeLogRetentionTarget.t) (retained_at : Time)
| CompactLogTombstones (retained_before compacted_at : Time) (limit : N).

(** The state a call leaves, whether it succeeds or fails. *)
Definition perform (c : call) (s : State.t) : State.t :=
  match c with
  | IssueEnrollmentToken token idempotency =>
    run_state (InMemoryNodeRepository.issue_enrollment_token token idempotency) s
  | ReserveEnrollment credential draft => run_state (InMemoryNodeRepository.reserve_enrollment credential draft) s
  | CompleteEnrollment token_id node_id request_digest certificate =>
    run_state (InMemoryNodeRepository.complete_enrollment token_id node_id request_digest certificate) s
  | ReserveCertificateRotation organization_id node_id current draft idempotency =>
    run_state (InMemoryNodeRepository.reserve_certificate_rotation organization_id node_id current draft idempotency) s
  | CompleteCertificateRotation completion =>
    run_state (InMemoryNodeRepository.complete_certificate_rotation completion) s
  | RecordHeartbeat update => run_state (InMemoryNodeRepository.record_heartbeat update) s
  | SetState change => run_state (InMemoryNodeRepository.set_state change) s
  | SavePool write => run_state (PoolRepository.save write) s
  | Negotiate negotiation => run_state (SessionRepository.negotiate negotiation) s
  | EnqueueCommand draft => run_state (CommandQueue.enqueue_command draft) s
  | LeaseCommands request lease_id now leased_until =>
    run_state (CommandQueue.lease_commands request lease_id now leased_until) s
  | AcknowledgeCommand acknowledgement => run_state (CommandQueue.acknowledge_command acknowledgement) s
  | RecordObservations batch received_at => run_state (ReportRepository.record_observations batch received_at) s
  | RecordResourceInventory inventory received_at =>
    run_state (ReportRepository.record_resource_inventory inventory received_at) s
  | RecordGatewayAcknowledgement acknowledgement =>
    run_state (ReportRepository.record_gateway_acknowledgement acknowledgement) s
  | RecordLogChunks batch received_at => run_state (LogRepository.record_log_chunks batch received_at) s
  | MarkLogChunkRetained target retained_at => run_state (LogRepository.mark_log_chunk_retained target retained_at) s
  | CompactLogTombstones retained_before compacted_at limit =>
    run_state (LogRepository.compact_log_tombstones retained_before compacted_at limit) s
  end.

(** Nodes, tokens and certificates come with an identifier that was generated for them. *)
Definition generated (c : call) (s : State.t) : Prop :=
  match c with
  | IssueEnrollmentToken token _ => s.(tokens) !! token.(EnrollmentToken.id) = None
  | ReserveEnrollment _ draft =>
    forall k node, s.(nodes) !! k = Some node -> node.(Node.id) <> draft.(NodeEnrollmentDraft.proposed_node_id)
  | CompleteEnrollment _ _ _ certificate => s.(certificates) !! certificate.(NodeCertificate.id) = None
  | CompleteCertificateRotation completion =>
    s.(certificates) !! completion.(NodeCertificateRotationCompletion.replacement).(NodeCertificate.id) = None
  | _ => True
  end.

Inductive history : State.t -> State.t -> Prop :=
| history_refl s : history s s
| history_step s s' c : history s s' -> generated c s' -> history s (perform c s').

Definition reachable (s : State.t) : Prop := history State.empty s.

Lemma history_trans s1 s2 s3 : history s1 s2 -> history s2 s3 -> history s1 s3.
Proof. intros H1. induction 1; [done|]. by constructor; [apply IHhistory|]. Qed.

End calls.

(** ** What a call does to the nodes *)
Section nodes.
Context `{RuntimeReports}.

(** [n'] is [n] at some later time: identity and name stay, a sequence is never taken back, a
    revoked node stays revoked. *)
Record node_later (n n' : Node.t) : Prop := {
  later_id : n'.(Node.id) = n.(Node.id);
  later_organization : n'.(Node.organization_id) = n.(Node.organization_id);
  later_name : n'.(Node.name) = n.(Node.name);
  later_sequence : (n.(Node.last_sequence) <= n'.(Node.last_sequence))%N;
  later_revoked : n.(Node.state) = NodeState.Revoked -> n'.(Node.state) = NodeState.Revoked;
}.

#[export] Instance node_later_preorder : PreOrder node_later.
Proof.
  split; [by split|]. intros x y z [] []. split; try congruence; [lia|auto].
Qed.

(** The same with no command enqueued. *)
Definition node_kept (n n' : Node.t) : Prop := node_later n n' /\ n'.(Node.last_sequence) = n.(Node.last_sequence).

#[export] Instance node_kept_preorder : PreOrder node_kept.
Proof. split; [by split|]. intros x y z [? ?] [? ?]. split; [by etrans|congruence]. Qed.

Definition nodes_kept (m m' : gmap (OrganizationId * NodeId) Node.t) : Prop :=
  forall k, option_relation node_kept (fun _ => False) (fun _ => False) (m !! k) (m' !! k).

#[export] Instance nodes_kept_preorder : PreOrder nodes_kept.
Proof.
  split.
  - intros m k. destruct (m !! k); simpl; [reflexivity|done].
  - intros m1 m2 m3 H12 H23 k. specialize (H12 k). specialize (H23 k).
    destruct (m1 !! k), (m2 !! k), (m3 !! k); simpl in *; try done. by etrans.
Qed.

Lemma nodes_kept_insert m k n n' : m !! k = Some n -> node_kept n n' -> nodes_kept m (<[k := n']> m).
Proof.
  intros Hk Hn k'. destruct (decide (k = k')) as [<-|Hne].
  - by rewrite lookup_insert_eq, Hk.
  - rewrite lookup_insert_ne by done. exact (reflexivity (R := nodes_kept) m k').
Qed.

Lemma enter_kept n state : n.(Node.state) <> NodeState.Revoked \/ state = NodeState.Revoked ->
  node_kept n (Node.enter n state).
Proof. intros Hs. split; [|done]. split; try done; simpl. intros Hr. by destruct Hs. Qed.

Lemma mark_ready_kept n n' : Node.mark_ready n = Ok n' -> node_kept n n'.
Proof.
  unfold Node.mark_ready. destruct (Node.state n) eqn:E; intros [= <-]; try reflexivity; apply enter_kept; left; congruence.
Qed.

Lemma drain_kept n n' : Node.drain n = Ok n' -> node_kept n n'.
Proof.
  unfold Node.drain. destruct (Node.state n) eqn:E; intros [= <-]; try reflexivity; apply enter_kept; left; congruence.
Qed.

Lemma revoke_kept n : node_kept n (Node.revoke n).
Proof. unfold Node.revoke. destruct (_ != _); [apply enter_kept; by right|reflexivity]. Qed.

Lemma change_state_kept n state n' : InMemoryNodeRepository.change_state n state = Ok n' -> node_kept n n'.
Proof.
  destruct state; simpl; [done|apply mark_ready_kept|apply drain_kept|]. intros [= <-]. apply revoke_kept.
Qed.

Lemma project_heartbeat_kept n update n' : InMemoryNodeRepository.project_heartbeat n update = Ok n' -> node_kept n n'.
Proof.
  unfold InMemoryNodeRepository.project_heartbeat. destruct (_ == NodeState.Revoked) eqn:Er; [done|].
  destruct (_ <? _)%Z; [done|]. destruct (_ && (_ || _)); [done|].
  destruct (_ && _); [by intros [= <-]|]. reflect_bools. destruct (_ == NodeState.Pending).
  - rewrite map_err_Ok. intros Hm%mark_ready_kept. etrans; [|exact Hm]. split; [|done]. by split.
  - intros [= <-]. split; [|done]. by split.
Qed.

(** The calls that neither enroll a node nor touch the queue. *)
Definition queue_call (c : call) : bool :=
  match c with
  | ReserveEnrollment _ _ | EnqueueCommand _ | LeaseCommands _ _ _ _ | AcknowledgeCommand _ => true
  | _ => false
  end.

Definition kept (s s' : State.t) : Prop := s'.(commands) = s.(commands) /\ nodes_kept s.(nodes) s'.(nodes).

Lemma kept_same s s' : s'.(commands) = s.(commands) -> s'.(nodes) = s.(nodes) -> kept s s'.
Proof. intros Hc Hn. split; [done|]. rewrite Hn. reflexivity. Qed.

Lemma revoke_certificate_kept node_id at' s : kept s (InMemoryNodeRepository.revoke_certificate node_id at' s).
Proof. unfold InMemoryNodeRepository.revoke_certificate. repeat case_match; by apply kept_same. Qed.

End nodes.
Create HintDb fleet.
#[export] Hint Resolve mark_ready_kept drain_kept revoke_kept change_state_kept project_heartbeat_kept : fleet.

Section frame.
Context `{RuntimeReports}.

(** Closes the paths that write neither the nodes nor the queue. *)
Ltac untouched := first [ by apply kept_same | match goal with H : (_, _) = (_, _) |- _ => injection H as <- _; by apply kept_same end ].

Lemma kept_trans s1 s2 s3 : kept s1 s2 -> kept s2 s3 -> kept s1 s3.
Proof. intros [? ?] [? ?]. split; [congruence|by etrans]. Qed.

(** A path that replaced the node at one key by a later version of itself. *)
Lemma kept_node s s' k n n' :
  s'.(commands) = s.(commands) -> s.(nodes) !! k = Some n -> node_kept n n' -> s'.(nodes) = <[k := n']> s.(nodes) ->
  kept s s'.
Proof. intros Hc Hk Hn E. split; [done|]. rewrite E. by eapply nodes_kept_insert. Qed.

Lemma version_kept n v : node_kept n (n <| Node.aggregate_version := v |>).
Proof. split; [|done]. by split. Qed.

Lemma install_replacement_kept completion at' s :
  kept s (run_state (InMemoryNodeRepository.install_replacement completion at') s).
Proof.
  destruct (InMemoryNodeRepository.install_replacement completion at' s) as [s' r] eqn:E. unfold run_state; rewrite E; simpl.
  unfold InMemoryNodeRepository.install_replacement in E. exec_call E; simplify_eq/=; try by apply kept_same.
  all: reflect_results; eapply kept_node; [done|eassumption|apply version_kept|done].
Qed.

Lemma heartbeat_kept update s : kept s (run_state (InMemoryNodeRepository.record_heartbeat update) s).
Proof.
  destruct (InMemoryNodeRepository.record_heartbeat update s) as [s' r] eqn:E. unfold run_state; rewrite E; simpl.
  unfold InMemoryNodeRepository.record_heartbeat in E. exec_call E; simplify_eq/=; try by apply kept_same.
  reflect_results. eapply kept_node; [done|eassumption|by eapply project_heartbeat_kept|done].
Qed.

Lemma set_state_kept change s : kept s (run_state (InMemoryNodeRepository.set_state change) s).
Proof.
  destruct (InMemoryNodeRepository.set_state change s) as [s' r] eqn:E. unfold run_state; rewrite E; simpl.
  unfold InMemoryNodeRepository.set_state in E. exec_call E; simplify_eq/=; try by apply kept_same.
  all: reflect_results;
    match goal with Hn : nodes ?s !! ?k = Some _, Hc : InMemoryNodeRepository.change_state _ _ = Ok ?n |- _ =>
      apply (kept_trans _ (s <| nodes := <[k := n]> s.(nodes) |>));
        [eapply kept_node; [done|exact Hn|by eapply change_state_kept|done]|] end.
  - eapply kept_trans; [apply revoke_certificate_kept|]. by apply kept_same.
  - by apply kept_same.
Qed.

Lemma observations_kept batch at' s : kept s (run_state (ReportRepository.record_observations batch at') s).
Proof.
  destruct (ReportRepository.record_observations batch at' s) as [s' r] eqn:E. unfold run_state; rewrite E; simpl.
  unfold ReportRepository.record_observations in E. exec_call E; simplify_eq/=; try by apply kept_same.
  all: reflect_results; eapply kept_node; [done|eassumption|by eapply project_heartbeat_kept|done].
Qed.

Lemma remove_tombstones_kept keys s : kept s (run_state (LogRepository.remove_tombstones keys) s).
Proof.
  unfold run_state. revert s. induction keys as [|key keys IH]; intros s; simpl; [by apply kept_same|].
  autorewrite with methods. destruct (some_or _ _); simpl; [|by apply kept_same].
  autorewrite with methods. eapply kept_trans; [|apply IH]. by apply kept_same.
Qed.

Lemma perform_kept c s : queue_call c = false -> kept s (perform c s).
Proof.
  intros Hc. destruct c; try discriminate Hc; clear Hc; unfold perform;
    match goal with |- kept _ (run_state ?m _) => destruct (m s) as [s' r] eqn:E; unfold run_state; rewrite E; simpl end.
  - unfold InMemoryNodeRepository.issue_enrollment_token in E. exec_call E; untouched.
  - unfold InMemoryNodeRepository.complete_enrollment in E. exec_call E; untouched.
  - unfold InMemoryNodeRepository.reserve_certificate_rotation in E. exec_call E; untouched.
  - unfold InMemoryNodeRepository.complete_certificate_rotation in E. exec_call E; try untouched.
    pose proof (install_replacement_kept completion
      (canonical_timestamp completion.(NodeCertificateRotationCompletion.rotated_at)) s) as Hk.
    unfold run_state in Hk. by rewrite E in Hk.
  - pose proof (heartbeat_kept update s) as Hk. unfold run_state in Hk. by rewrite E in Hk.
  - pose proof (set_state_kept change s) as Hk. unfold run_state in Hk. by rewrite E in Hk.
  - unfold PoolRepository.save in E. exec_call E; untouched.
  - unfold SessionRepository.negotiate in E. exec_call E; untouched.
  - pose proof (observations_kept batch received_at s) as Hk. unfold run_state in Hk. by rewrite E in Hk.
  - unfold ReportRepository.record_resource_inventory in E. exec_call E; untouched.
  - unfold ReportRepository.record_gateway_acknowledgement in E. exec_call E; untouched.
  - unfold LogRepository.record_log_chunks in E. exec_call E; untouched.
  - unfold LogRepository.mark_log_chunk_retained in E. exec_call E; untouched.
  - unfold LogRepository.compact_log_tombstones in E. exec_call E; try untouched.
    pose proof (remove_tombstones_kept (LogRepository.compaction_candidates s (canonical_timestamp retained_before) limit) s) as Hk.
    unfold run_state in Hk. unfold mbind, method_bind in E.
    destruct (LogRepository.remove_tombstones _ s) as [s1 [[]|]]; simpl in E, Hk; injection E as <- _; [|done].
    eapply kept_trans; [exact Hk|]. by apply kept_same.
Qed.
End frame.

(** ** The command queues *)
Section queue.
Context `{RuntimeReports}.

(** The commands that were enqueued, without their leases and acknowledgements. *)
Definition queue (s : State.t) : gmap NodeCommandId NodeCommand.t := StoredNodeCommand.command <$> s.(commands).

Lemma queue_lookup s id c : queue s !! id = Some c <-> exists st, s.(commands) !! id = Some st /\ st.(StoredNodeCommand.command) = c.
Proof.
  unfold queue. rewrite lookup_fmap. destruct (commands s !! id) as [st|]; simpl; [|naive_solver].
  split; [intros [= <-]; eauto|]. by intros (? & [= <-] & <-).
Qed.

(** The nodes are stored under their identity, which no other node has; the commands of a node are
    numbered from 1 to its last sequence, without a gap and without a duplicate. *)
Record queues_ok (m : gmap (OrganizationId * NodeId) Node.t) (q : gmap NodeCommandId NodeCommand.t) : Prop := {
  node_key : forall k n, m !! k = Some n -> k = (n.(Node.organization_id), n.(Node.id));
  node_unique : forall k k' n n', m !! k = Some n -> m !! k' = Some n' -> n.(Node.id) = n'.(Node.id) -> k = k';
  command_key : forall id c, q !! id = Some c -> c.(NodeCommand.id) = id;
  command_issued : forall id c, q !! id = Some c ->
    exists draft, NodeCommand.issue draft c.(NodeCommand.sequence) = Ok c;
  command_node : forall id c, q !! id = Some c ->
    exists k n, m !! k = Some n /\ n.(Node.id) = c.(NodeCommand.node_id)
      /\ (1 <= c.(NodeCommand.sequence) <= n.(Node.last_sequence))%N;
  command_distinct : forall id id' c c', q !! id = Some c -> q !! id' = Some c' ->
    c.(NodeCommand.node_id) = c'.(NodeCommand.node_id) -> c.(NodeCommand.sequence) = c'.(NodeCommand.sequence) -> id = id';
  command_dense : forall k n i, m !! k = Some n -> (1 <= i <= n.(Node.last_sequence))%N ->
    exists id c, q !! id = Some c /\ c.(NodeCommand.node_id) = n.(Node.id) /\ c.(NodeCommand.sequence) = i;
}.

Lemma queues_kept m m' q : nodes_kept m m' -> queues_ok m q -> queues_ok m' q.
Proof.
  intros Hm [Hk Hu Hck Hi Hn Hd Ht].
  assert (Hback : forall k n', m' !! k = Some n' -> exists n, m !! k = Some n /\ node_kept n n').
  { intros k n' E. specialize (Hm k). rewrite E in Hm. destruct (m !! k) as [n|]; [|done]. by exists n. }
  assert (Hforth : forall k n, m !! k = Some n -> exists n', m' !! k = Some n' /\ node_kept n n').
  { intros k n E. specialize (Hm k). rewrite E in Hm. destruct (m' !! k) as [n'|]; [|done]. by exists n'. }
  split; [..|exact Hd|].
  - intros k n' (n & E & [[] _])%Hback. rewrite (Hk k n E). congruence.
  - intros k k' n n' (x & E & [[] _])%Hback (x' & E' & [[] _])%Hback Hid. eapply Hu; [exact E|exact E'|congruence].
  - exact Hck.
  - exact Hi.
  - intros id c (k & n & E & Hid & Hs)%Hn. destruct (Hforth k n E) as (n' & E' & [[] Hl]). exists k, n'.
    split_and!; [done|congruence|lia|lia].
  - intros k n' i (n & E & [[] Hl])%Hback Hr. rewrite Hl in Hr. destruct (Ht k n i E Hr) as (id & c & ? & ? & ?).
    exists id, c. split_and!; congruence.
Qed.

Lemma queues_enroll m q n :
  n.(Node.last_sequence) = 0%N -> (forall k x, m !! k = Some x -> x.(Node.id) <> n.(Node.id)) ->
  queues_ok m q -> queues_ok (<[(n.(Node.organization_id), n.(Node.id)) := n]> m) q.
Proof.
  intros Hzero Hfresh [Hk Hu Hck Hi Hn Hd Ht].
  assert (Hnone : m !! (n.(Node.organization_id), n.(Node.id)) = None).
  { destruct (m !! _) as [x|] eqn:E; [|done]. destruct (Hfresh _ _ E). by injection (Hk _ _ E). }
  split; [| |done|done| |done|].
  - intros k x [[<- <-]|[_ E]]%lookup_insert_Some; [done|by apply Hk].
  - intros k k' x x' [[<- <-]|[_ E]]%lookup_insert_Some [[<- <-]|[_ E']]%lookup_insert_Some Hid; [done| | |by eapply Hu].
    + by destruct (Hfresh _ _ E').
    + by destruct (Hfresh _ _ E).
  - intros id c (k & x & E & Hid & Hs)%Hn. exists k, x. split_and!; [|done|lia|lia].
    apply lookup_insert_Some. right. split; [|done]. intros <-. congruence.
  - intros k x i [[<- <-]|[_ E]]%lookup_insert_Some Hr; [lia|by eapply Ht].
Qed.

Lemma queues_enqueue m q k n c :
  m !! k = Some n -> c.(NodeCommand.node_id) = n.(Node.id) -> c.(NodeCommand.sequence) = (n.(Node.last_sequence) + 1)%N ->
  q !! c.(NodeCommand.id) = None -> (exists draft, NodeCommand.issue draft c.(NodeCommand.sequence) = Ok c) ->
  queues_ok m q ->
  queues_ok (<[k := n <| Node.last_sequence := c.(NodeCommand.sequence) |>]> m) (<[c.(NodeCommand.id) := c]> q).
Proof.
  intros Hkn Hid Hseq Hnew Hissue [Hk Hu Hck Hi Hn Hd Ht].
  assert (Hup : forall id x, q !! id = Some x -> x.(NodeCommand.node_id) = c.(NodeCommand.node_id) ->
            (x.(NodeCommand.sequence) <= n.(Node.last_sequence))%N).
  { intros id x E Hx. destruct (Hn id x E) as (k' & n' & E' & Hid' & Hs).
    assert (k' = k) as -> by (eapply Hu; [exact E'|exact Hkn|congruence]). simplify_eq. lia. }
  split.
  - intros k' x [[<- <-]|[_ E]]%lookup_insert_Some; [by apply Hk in Hkn|by apply Hk].
  - intros k1 k2 x y [[<- <-]|[_ E]]%lookup_insert_Some [[<- <-]|[_ E']]%lookup_insert_Some Hxy;
      [done|..]; eapply Hu; eauto.
  - intros id x [[<- <-]|[_ E]]%lookup_insert_Some; [done|by apply Hck].
  - intros id x [[<- <-]|[_ E]]%lookup_insert_Some; [done|by eapply Hi].
  - intros id x [[<- <-]|[_ E]]%lookup_insert_Some.
    + exists k, (n <| Node.last_sequence := c.(NodeCommand.sequence) |>). rewrite lookup_insert_eq. simpl.
      split_and!; [done..|lia|lia].
    + destruct (Hn id x E) as (k' & n' & E' & Hid' & Hs). destruct (decide (k = k')) as [<-|Hne].
      * exists k, (n <| Node.last_sequence := c.(NodeCommand.sequence) |>). rewrite lookup_insert_eq. simplify_eq/=.
        split_and!; [done..|lia|lia].
      * exists k', n'. rewrite lookup_insert_ne by done. split_and!; [done|done|lia|lia].
  - intros id id' x y [[<- <-]|[_ E]]%lookup_insert_Some [[<- <-]|[_ E']]%lookup_insert_Some Hxy Hs;
      [done| | |by eapply Hd].
    + pose proof (Hup _ _ E' (eq_sym Hxy)). lia.
    + pose proof (Hup _ _ E Hxy). lia.
  - intros k' x i [[<- <-]|[Hne E]]%lookup_insert_Some Hr; simpl in *.
    + destruct (N.eq_dec i (c.(NodeCommand.sequence))) as [->|Hi'].
      * exists (NodeCommand.id c), c. rewrite lookup_insert_eq. done.
      * destruct (Ht k n i Hkn ltac:(lia)) as (id & y & E & ? & ?). exists id, y.
        rewrite lookup_insert_ne by congruence. done.
    + destruct (Ht k' x i E Hr) as (id & y & Ey & ? & ?). exists id, y. rewrite lookup_insert_ne by congruence. done.
Qed.

End queue.

(** ** What the calls on the queue do *)
Section effects.
Context `{RuntimeReports}.
Implicit Types (s : State.t).

Lemma enroll_last_sequence id org name agent version capabilities at' n :
  Node.enroll id org name agent version capabilities at' = Ok n ->
  n.(Node.last_sequence) = 0%N /\ n.(Node.id) = id /\ n.(Node.organization_id) = org /\ n.(Node.state) = NodeState.Pending.
Proof. unfold Node.enroll. autorewrite with results. by intros (_ & _ & <-). Qed.

Lemma reserve_enrollment_effect credential draft s :
  let s' := perform (ReserveEnrollment credential draft) s in
  s'.(commands) = s.(commands)
  /\ (s'.(nodes) = s.(nodes)
      \/ exists n, n.(Node.last_sequence) = 0%N /\ n.(Node.state) = NodeState.Pending
         /\ n.(Node.id) = draft.(NodeEnrollmentDraft.proposed_node_id)
         /\ s'.(nodes) = <[(n.(Node.organization_id), n.(Node.id)) := n]> s.(nodes)).
Proof.
  simpl. unfold run_state. destruct (InMemoryNodeRepository.reserve_enrollment credential draft s) as [s' r] eqn:E; simpl.
  unfold InMemoryNodeRepository.reserve_enrollment, InMemoryNodeRepository.enroll_node in E.
  exec_call E; simplify_eq/=; auto.
  all: split; [done|]; right; reflect_results; eexists; split_and!; [..|done].
  all: by edestruct enroll_last_sequence as (? & ? & _ & ?); [eassumption|].
Qed.

Lemma find_some {A} (p : A -> bool) l x : List.find p l = Some x -> x ∈ l /\ p x = true.
Proof. intros [Hx Hp]%List.find_some. by rewrite list_elem_of_In. Qed.

Lemma find_node_key_Some s node_id k :
  CommandQueue.find_node_key s node_id = Some k -> k.2 = node_id /\ is_Some (s.(nodes) !! k).
Proof.
  unfold CommandQueue.find_node_key. intros [Hin Hp]%find_some. reflect_bools. split; [done|].
  apply list_elem_of_fmap in Hin as ([k' n] & -> & Hin%elem_of_entries). by exists n.
Qed.

Lemma issue_Ok draft sequence c :
  NodeCommand.issue draft sequence = Ok c ->
  c.(NodeCommand.sequence) = sequence /\ c.(NodeCommand.id) = draft.(NodeCommandDraft.proposed_command_id)
  /\ c.(NodeCommand.node_id) = draft.(NodeCommandDraft.node_id)
  /\ c.(NodeCommand.aggregate_id) = draft.(NodeCommandDraft.aggregate_id)
  /\ c.(NodeCommand.payload) = NodeCommand.canonical_payload draft.(NodeCommandDraft.payload).
Proof. unfold NodeCommand.issue. autorewrite with results. by intros (_ & _ & _ & _ & <-). Qed.

(** A command that is not a retry gets the next sequence of its node. *)
Lemma enqueue_effect draft s :
  let s' := perform (EnqueueCommand draft) s in
  s' = s
  \/ exists k n c, s.(nodes) !! k = Some n /\ k.2 = draft.(NodeCommandDraft.node_id)
     /\ s.(commands) !! draft.(NodeCommandDraft.proposed_command_id) = None
     /\ n.(Node.state) <> NodeState.Revoked
     /\ NodeCommand.issue draft (n.(Node.last_sequence) + 1)%N = Ok c
     /\ s'.(nodes) = <[k := n <| Node.last_sequence := c.(NodeCommand.sequence) |>]> s.(nodes)
     /\ s'.(commands) = <[c.(NodeCommand.id) := StoredNodeCommand.Mk c None None]> s.(commands).
Proof.
  simpl. unfold run_state. destruct (CommandQueue.enqueue_command draft s) as [s' r] eqn:E; simpl.
  unfold CommandQueue.enqueue_command in E. exec_call E; simplify_eq/=; auto.
  right. reflect_results.
  repeat match goal with
  | Hk : CommandQueue.find_node_key _ _ = Some _ |- _ => apply find_node_key_Some in Hk as [? [? ?]]
  | Ha : checked_add _ _ = Some _ |- _ => apply checked_add_Some in Ha as [-> _]
  end.
  match goal with Hn : nodes _ !! ?k = Some ?n, Hi : NodeCommand.issue _ _ = Ok ?c |- _ =>
    exists k, n, c; pose proof (issue_Ok _ _ _ Hi) as (Hs & _) end.
  split_and!; simplify_eq/=; try done; [|by rewrite Hs].
  match goal with Hf : is_some_and _ (nodes _ !! ?k) = false, Hn : nodes _ !! ?k = Some _ |- _ =>
    rewrite Hn in Hf; simpl in Hf; by reflect_bools end.
Qed.

Lemma queue_update s id st st' :
  s.(commands) !! id = Some st -> st'.(StoredNodeCommand.command) = st.(StoredNodeCommand.command) ->
  queue (s <| commands := <[id := st']> s.(commands) |>) = queue s.
Proof.
  intros Hs E. unfold queue; simpl. rewrite fmap_insert, E. apply insert_id. by rewrite lookup_fmap, Hs.
Qed.

Lemma acknowledge_effect ack s :
  let s' := perform (AcknowledgeCommand ack) s in
  s' = s
  \/ exists st (a := NodeCommand.canonicalize_acknowledgement ack),
       s.(commands) !! ack.(NodeCommandAck.command_id) = Some st
       /\ st.(StoredNodeCommand.acknowledgement) = None
       /\ CommandQueue.check_acknowledgement st a = Ok tt
       /\ s' = s <| commands := <[ack.(NodeCommandAck.command_id) :=
                     st <| StoredNodeCommand.acknowledgement := Some a |>]> s.(commands) |>.
Proof.
  simpl. unfold run_state. destruct (CommandQueue.acknowledge_command ack s) as [s' r] eqn:E; simpl.
  assert (Hid : (NodeCommand.canonicalize_acknowledgement ack).(NodeCommandAck.command_id) = ack.(NodeCommandAck.command_id)).
  { unfold NodeCommand.canonicalize_acknowledgement. simpl. by case_match. }
  unfold CommandQueue.acknowledge_command in E. rewrite Hid in E. exec_call E; simplify_eq/=; auto.
  right. reflect_results. destruct a0. eauto 10.
Qed.

End effects.
