(* ===== verification/FleetFrame.v ===== *)
(** * What each call of the repository leaves alone

    The state has parts that different calls write: enrollment, certificates, the answers of state
    changes, pools, sessions, inventories and logs.  A call changes only its own parts. *)

From Stdlib Require Import ZArith NArith Lia String.
From stdpp Require Import gmap.
From S2P Require Import Prelude RustStd BTreeMap External Text SharedKernel Repositories Resources NodeInventory NodeClaims.
From S2P Require Import NodeGateway NodeCommands NodeObservations NodeSessions LogRetention NodePools Fleet.
From S2P Require Import FleetRepository FleetControl FleetLifecycle.
Import State.

Inductive part := Enrollment | Certificates | Answers | Pools | Sessions | Inventories | Logs.

#[export] Instance part_eq_dec : EqDecision part.
Proof. solve_decision. Defined.

Section frame.
Context `{RuntimeReports}.
Implicit Types (s : State.t).

Definition same_part (p : part) (s s' : State.t) : Prop :=
  match p with
  | Enrollment =>
    s'.(tokens) = s.(tokens) /\ s'.(token_by_digest) = s.(token_by_digest)
    /\ s'.(token_idempotency) = s.(token_idempotency)
    /\ s'.(enrollment_request_digest) = s.(enrollment_request_digest) /\ s'.(enrollment_node) = s.(enrollment_node)
  | Certificates =>
    s'.(certificates) = s.(certificates) /\ s'.(active_certificate_by_node) = s.(active_certificate_by_node)
    /\ s'.(certificate_by_fingerprint) = s.(certificate_by_fingerprint)
    /\ s'.(rotation_idempotency) = s.(rotation_idempotency)
    /\ s'.(active_rotation_by_node) = s.(active_rotation_by_node)
  | Answers => s'.(state_idempotency) = s.(state_idempotency)
  | Pools =>
    s'.(node_pools) = s.(node_pools) /\ s'.(node_pool_by_name) = s.(node_pool_by_name)
    /\ s'.(node_pool_by_node) = s.(node_pool_by_node) /\ s'.(node_pool_idempotency) = s.(node_pool_idempotency)
  | Sessions => s'.(protocol_sessions) = s.(protocol_sessions)
  | Inventories =>
    s'.(resource_inventories) = s.(resource_inventories) /\ s'.(inventory_heads) = s.(inventory_heads)
  | Logs =>
    s'.(log_batches) = s.(log_batches) /\ s'.(log_chunks) = s.(log_chunks) /\ s'.(log_gaps) = s.(log_gaps)
    /\ s'.(log_compaction_ranges) = s.(log_compaction_ranges)
  end.

#[export] Instance same_part_preorder p : PreOrder (same_part p).
Proof.
  split; [by intros s; destruct p|]. intros x y z. destruct p; simpl; intuition congruence.
Qed.

(** The parts a call may write. *)
Definition writes (c : call) : list part :=
  match c with
  | IssueEnrollmentToken _ _ | ReserveEnrollment _ _ => [Enrollment]
  | CompleteEnrollment _ _ _ _ | ReserveCertificateRotation _ _ _ _ _ | CompleteCertificateRotation _ => [Certificates]
  | SetState _ => [Answers; Certificates]
  | SavePool _ => [Pools]
  | Negotiate _ => [Sessions]
  | RecordResourceInventory _ _ => [Inventories]
  | RecordLogChunks _ _ | MarkLogChunkRetained _ _ | CompactLogTombstones _ _ _ => [Logs]
  | RecordHeartbeat _ | EnqueueCommand _ | LeaseCommands _ _ _ _ | AcknowledgeCommand _ | RecordObservations _ _
  | RecordGatewayAcknowledgement _ => []
  end.

(** The two loops write one field. *)
Lemma assign_leases_frame p lease selected s :
  same_part p s (run_state (CommandQueue.assign_leases lease selected) s).
Proof.
  unfold run_state. revert s. induction selected as [|id selected IH]; intros s.
  { simpl. reflexivity. }
  cbn [CommandQueue.assign_leases]. autorewrite with methods.
  destruct (some_or _ _) as [st|]; [|reflexivity]. autorewrite with methods.
  assert (Hs : forall m, same_part p s (s <| commands := m |>)) by (intros; by destruct p).
  destruct (map_err _ _) as [e|]; [|apply Hs]. unfold mbind, method_bind.
  match goal with |- context [CommandQueue.assign_leases lease selected ?s1] =>
    assert (H1 : same_part p s s1) by apply Hs; specialize (IH s1) end.
  destruct (CommandQueue.assign_leases lease selected _) as [s2 [|]]; simpl in *; by etrans.
Qed.

Lemma remove_tombstones_frame p keys s :
  p <> Logs -> same_part p s (run_state (LogRepository.remove_tombstones keys) s).
Proof.
  intros Hp. unfold run_state. revert s. induction keys as [|key keys IH]; intros s; cbn [LogRepository.remove_tombstones].
  { simpl. reflexivity. }
  autorewrite with methods. destruct (some_or _ _) as [st|]; [|reflexivity]. autorewrite with methods.
  etrans; [|apply IH]. by destruct p.
Qed.

Lemma revoke_certificate_frame p node_id at' s :
  p <> Certificates -> same_part p s (InMemoryNodeRepository.revoke_certificate node_id at' s).
Proof. intros Hp. unfold InMemoryNodeRepository.revoke_certificate. repeat case_match; by destruct p. Qed.

(** One case per part; those the call writes are excluded. *)
Ltac by_part p Hp := destruct p; first [done | exfalso; clear -Hp; naive_solver].
Ltac same :=
  match goal with E : (_, _) = (_, _) |- _ => injection E as <- _ end;
  first [reflexivity | match goal with Hp : context [?p <> _] |- same_part ?p _ _ => by_part p Hp | |- same_part ?p _ _ => by destruct p end].

Lemma perform_frame c p s : p ∉ writes c -> same_part p s (perform c s).
Proof.
  intros Hp. unfold perform. destruct c; simpl in Hp;
    rewrite ?not_elem_of_cons in Hp;
    match goal with |- same_part _ _ (run_state ?m _) => destruct (m s) as [s' r] eqn:E; unfold run_state; rewrite E; simpl end.
  - unfold InMemoryNodeRepository.issue_enrollment_token in E. exec_call E; same.
  - unfold InMemoryNodeRepository.reserve_enrollment, InMemoryNodeRepository.enroll_node in E. exec_call E; same.
  - unfold InMemoryNodeRepository.complete_enrollment in E. exec_call E; same.
  - unfold InMemoryNodeRepository.reserve_certificate_rotation in E. exec_call E; same.
  - unfold InMemoryNodeRepository.complete_certificate_rotation, InMemoryNodeRepository.install_replacement in E.
    exec_call E; same.
  - unfold InMemoryNodeRepository.record_heartbeat in E. exec_call E; same.
  - unfold InMemoryNodeRepository.set_state in E. exec_call E; try same. injection E as <- _.
    match goal with |- same_part _ _ (?x <| _ := _ |>) => trans x; [|by_part p Hp] end.
    etrans; [|apply revoke_certificate_frame; tauto]. by_part p Hp.
  - unfold PoolRepository.save in E. exec_call E; same.
  - unfold SessionRepository.negotiate in E. exec_call E; same.
  - unfold CommandQueue.enqueue_command in E. exec_call E; same.
  - unfold CommandQueue.lease_commands in E. exec_call E; try same. unfold mbind, method_bind in E.
    match type of E with context [CommandQueue.assign_leases ?l ?x s] =>
      pose proof (assign_leases_frame p l x s) as Hf; unfold run_state in Hf;
      destruct (CommandQueue.assign_leases l x s) as [s1 [|]]; simpl in E, Hf end; [|by injection E as <- _].
    unfold lift, mret, method_ret in E. simpl in E.
    by destruct (map_err RepositoryError.Storage (NodeCommandLeaseResponse.validate _ _)); injection E as <- _.
  - unfold CommandQueue.acknowledge_command in E. exec_call E; same.
  - unfold ReportRepository.record_observations in E. exec_call E; same.
  - unfold ReportRepository.record_resource_inventory in E. exec_call E; same.
  - unfold ReportRepository.record_gateway_acknowledgement in E. exec_call E; same.
  - unfold LogRepository.record_log_chunks in E. exec_call E; same.
  - unfold LogRepository.mark_log_chunk_retained in E. exec_call E; same.
  - unfold LogRepository.compact_log_tombstones in E. exec_call E; try same. unfold mbind, method_bind in E.
    match type of E with context [LogRepository.remove_tombstones ?l s] =>
      pose proof (remove_tombstones_frame p l s) as Hf; unfold run_state in Hf;
      destruct (LogRepository.remove_tombstones l s) as [s1 [|]]; simpl in E, Hf end; injection E as <- _.
    + etrans; [apply Hf; tauto|]. by_part p Hp.
    + apply Hf. tauto.
Qed.

End frame.
