(* ===== verification/FleetQueue.v ===== *)
(** * Command queues of reachable repositories

    What a lease does, the invariant of the queues in every reachable state, and the order in which
    the commands of a node are numbered. *)

From Stdlib Require Import ZArith NArith Lia String.
From stdpp Require Import gmap.
From S2P Require Import Prelude RustStd BTreeMap External Text SharedKernel Repositories Resources NodeInventory NodeClaims.
From S2P Require Import NodeGateway NodeCommands NodeObservations NodeSessions LogRetention NodePools Fleet.
From S2P Require Import FleetRepository FleetControl FleetLifecycle.
Import State.

Section leases.
Context `{RuntimeReports}.
Implicit Types (s : State.t) (lease : CommandLease.t).

(** [s'] has the nodes, the commands and the acknowledgements of [s]; some commands may have got
    [lease]. *)
Definition stored_leased lease (st st' : StoredNodeCommand.t) : Prop :=
  st'.(StoredNodeCommand.command) = st.(StoredNodeCommand.command)
  /\ st'.(StoredNodeCommand.acknowledgement) = st.(StoredNodeCommand.acknowledgement)
  /\ (st'.(StoredNodeCommand.lease) = st.(StoredNodeCommand.lease) \/ st'.(StoredNodeCommand.lease) = Some lease).

Definition leased lease (s s' : State.t) : Prop :=
  s'.(nodes) = s.(nodes)
  /\ forall id, option_relation (stored_leased lease) (fun _ => False) (fun _ => False)
       (s.(commands) !! id) (s'.(commands) !! id).

#[export] Instance leased_preorder lease : PreOrder (leased lease).
Proof.
  split.
  - intros s. split; [done|]. intros id. destruct (commands s !! id); simpl; [|done]. split_and!; auto.
  - intros s1 s2 s3 [E1 H1] [E2 H2]. split; [congruence|]. intros id. specialize (H1 id). specialize (H2 id).
    destruct (commands s1 !! id), (commands s2 !! id), (commands s3 !! id); simpl in *; try done.
    destruct H1 as (? & ? & H1), H2 as (? & ? & H2). split; [congruence|]. split; [congruence|].
    destruct H2 as [E|E]; rewrite E; [exact H1|by right].
Qed.

Lemma leased_queue lease s s' : leased lease s s' -> queue s' = queue s.
Proof.
  intros [_ Hc]. apply map_eq. intros id. unfold queue. rewrite !lookup_fmap. specialize (Hc id).
  destruct (commands s !! id), (commands s' !! id); simpl in *; try done. f_equal. apply Hc.
Qed.

Lemma leased_set s id st lease :
  s.(commands) !! id = Some st ->
  leased lease s (s <| commands := <[id := st <| StoredNodeCommand.lease := Some lease |>]> s.(commands) |>).
Proof.
  intros Hs. split; [done|]. intros id'; simpl. destruct (decide (id = id')) as [<-|Hne].
  - rewrite lookup_insert_eq, Hs. simpl. by split_and!; [..|right].
  - rewrite lookup_insert_ne by done. destruct (commands s !! id'); simpl; [|done]. split_and!; auto.
Qed.

Lemma leased_lookup lease s s' id st :
  leased lease s s' -> s.(commands) !! id = Some st ->
  exists st', s'.(commands) !! id = Some st' /\ stored_leased lease st st'.
Proof.
  intros [_ Hc] Hs. specialize (Hc id). rewrite Hs in Hc. destruct (commands s' !! id) as [st'|]; [|done]. eauto.
Qed.

(** The envelopes of a lease are those of stored commands, which hold the lease from then on. *)
Definition envelope_leased lease (s : State.t) (id : NodeCommandId) (envelope : NodeCommandEnvelope.t) : Prop :=
  exists st, s.(commands) !! id = Some st /\ st.(StoredNodeCommand.lease) = Some lease
    /\ NodeCommand.envelope st.(StoredNodeCommand.command) lease.(CommandLease.lease_id) = Ok envelope.

Lemma assign_leases_spec lease selected s s' r :
  CommandQueue.assign_leases lease selected s = (s', r) ->
  leased lease s s'
  /\ forall envelopes, r = Ok envelopes -> Forall2 (envelope_leased lease s') selected envelopes.
Proof.
  revert s s' r. induction selected as [|id selected IH]; intros s s' r E.
  { simpl in E. autorewrite with methods in E. simplify_eq. split; [reflexivity|]. intros ? [= <-]. constructor. }
  cbn [CommandQueue.assign_leases] in E. autorewrite with methods in E.
  destruct (commands s !! id) as [st|] eqn:Hs; simpl in E; [|simplify_eq; by split].
  autorewrite with methods in E. pose proof (leased_set s id st lease Hs) as Hset.
  destruct (NodeCommand.envelope _ _) as [envelope|] eqn:He; simpl in E; [|simplify_eq; by split].
  unfold mbind, method_bind in E.
  destruct (CommandQueue.assign_leases lease selected _) as [s2 r2] eqn:Ea. apply IH in Ea as [Hr2 Hf].
  destruct r2 as [envelopes|]; unfold mret, method_ret in E; simplify_eq; (split; [by etrans|]); [|done].
  intros ? [= <-]. constructor; [|by apply Hf].
  destruct (leased_lookup lease _ _ id (st <| StoredNodeCommand.lease := Some lease |>) Hr2
    (lookup_insert_eq _ _ _)) as (st' & Hs' & Hc & _ & Hl).
  exists st'. rewrite Hc. split_and!; [done| |done]. by destruct Hl as [-> | ->].
Qed.

Lemma lease_commands_spec request lease_id now leased_until s :
  let lease := CommandLease.Mk lease_id request.(NodeCommandLeaseRequest.agent_instance_id)
                 (canonical_timestamp leased_until) in
  let s' := perform (LeaseCommands request lease_id now leased_until) s in
  leased lease s s'
  /\ forall response, run_result (CommandQueue.lease_commands request lease_id now leased_until) s = Ok response ->
     exists selected,
       CommandQueue.select s (canonical_timestamp now) (N.to_nat request.(NodeCommandLeaseRequest.max_commands))
         (CommandQueue.unacknowledged s request) = Ok selected
       /\ Forall2 (envelope_leased lease s') selected response.(NodeCommandLeaseResponse.commands)
       /\ NodeCommandLeaseResponse.validate response (canonical_timestamp now) = Ok tt.
Proof.
  intros lease s'. subst s'. simpl. unfold run_state, run_result.
  destruct (CommandQueue.lease_commands request lease_id now leased_until s) as [s' r] eqn:E; simpl.
  unfold CommandQueue.lease_commands in E. exec_call E; try (simplify_eq/=; by split).
  unfold mbind, method_bind in E. fold lease in E.
  destruct (CommandQueue.assign_leases lease _ s) as [s1 r1] eqn:Ea. apply assign_leases_spec in Ea as [Hl Hf].
  destruct r1 as [envelopes|]; simpl in E; [|by simplify_eq].
  unfold lift, mret, method_ret in E. simpl in E.
  destruct (map_err RepositoryError.Storage (NodeCommandLeaseResponse.validate _ _)) as [[]|] eqn:Hv;
    injection E as <- <-; [|by split].
  reflect_results. split; [done|]. intros ? [= <-]. eexists. split; [reflexivity|]. split; [by apply Hf|exact Hv].
Qed.

End leases.

Section invariant.
Context `{RuntimeReports}.
Implicit Types (s : State.t).

Lemma queues_ok_step c s : generated c s -> queues_ok s.(nodes) (queue s) ->
  queues_ok (perform c s).(nodes) (queue (perform c s)).
Proof.
  intros Hg Hq. destruct (queue_call c) eqn:Hc.
  2: { destruct (perform_kept c s Hc) as [Ec Hn]. unfold queue. rewrite Ec. by eapply queues_kept. }
  destruct c; try discriminate Hc; clear Hc.
  - destruct (reserve_enrollment_effect credential draft s) as [Ec [En|(n & Hz & _ & Hid & En)]];
      unfold queue; rewrite Ec, En; [done|]. apply queues_enroll; [done| |done]. rewrite Hid. exact Hg.
  - destruct (enqueue_effect draft s) as [->|(k & n & c & Hk & Hkid & Hnew & _ & Hi & En & Ec)]; [done|].
    unfold queue. rewrite En, Ec, fmap_insert; simpl. pose proof (issue_Ok _ _ _ Hi) as (Hs & Hid & Hnode & _).
    apply queues_enqueue; [done| |done| | |done].
    + rewrite Hnode, <- Hkid. by rewrite (node_key _ _ Hq _ _ Hk).
    + rewrite Hid, lookup_fmap. by rewrite Hnew.
    + exists draft. by rewrite Hs.
  - destruct (lease_commands_spec request lease_id now leased_until s) as [Hl _].
    rewrite (leased_queue _ _ _ Hl). destruct Hl as [-> _]. done.
  - destruct (acknowledge_effect acknowledgement s) as [->|(st & Hs & _ & _ & ->)]; [done|]. simpl.
    by rewrite (queue_update s _ st).
Qed.

Lemma reachable_queues s : reachable s -> queues_ok s.(nodes) (queue s).
Proof.
  unfold reachable. remember State.empty as s0 eqn:E. induction 1 as [|s0 s c _ IH Hg]; subst.
  - split; [intros ? ? Hk|intros ? ? ? ? Hk|intros ? ? Hk|intros ? ? Hk|intros ? ? Hk|intros ? ? ? ? Hk|intros ? ? ? Hk];
      cbv [State.empty State.nodes State.commands queue] in Hk; rewrite ?fmap_empty, ?lookup_empty in Hk; done.
  - by apply queues_ok_step; [|apply IH].
Qed.

(** The commands of a node, in the order of their sequences. *)
Definition commands_of (s : State.t) (node_id : NodeId) : list NodeCommand.t :=
  sort_by_key NodeCommand.sequence (List.filter (fun c => c.(NodeCommand.node_id) == node_id) (values (queue s))).

Lemma elem_of_commands_of s node_id c :
  c ∈ commands_of s node_id <-> c.(NodeCommand.node_id) = node_id /\ exists id, queue s !! id = Some c.
Proof.
  unfold commands_of. rewrite sort_by_key_perm, list_elem_of_In, filter_In, <- list_elem_of_In, elem_of_values.
  rewrite bool_decide_eq_true. tauto.
Qed.

Lemma commands_of_numbers s k n :
  queues_ok s.(nodes) (queue s) -> s.(nodes) !! k = Some n ->
  NodeCommand.sequence <$> commands_of s n.(Node.id) = numbers (N.to_nat n.(Node.last_sequence)).
Proof.
  intros Hq Hk. unfold commands_of. apply sorted_numbers.
  - apply NoDup_fmap_values. intros id id' c c' Hc Hc' Hp Hp' E. reflect_bools.
    eapply command_distinct; [exact Hq|done..|congruence|done].
  - intros i. rewrite N2Nat.id, list_elem_of_fmap. split.
    + intros (c & -> & Hc). apply list_elem_of_In, filter_In in Hc as [Hc Hp]. reflect_bools.
      apply list_elem_of_In, elem_of_values in Hc as [id Hid].
      destruct (command_node _ _ Hq _ _ Hid) as (k' & n' & Hk' & Hn' & Hs).
      assert (k' = k) as -> by (eapply node_unique; [exact Hq|done..|congruence]). by simplify_eq.
    + intros Hi. destruct (command_dense _ _ Hq k n i Hk Hi) as (id & c & Hid & Hc & Hs). exists c. split; [done|].
      apply list_elem_of_In, filter_In. split; [|by apply bool_decide_eq_true]. apply list_elem_of_In, elem_of_values; eauto.
Qed.

(** A command is at the place its sequence says. *)
Lemma commands_of_lookup s id c :
  queues_ok s.(nodes) (queue s) -> queue s !! id = Some c ->
  commands_of s c.(NodeCommand.node_id) !! pred (N.to_nat c.(NodeCommand.sequence)) = Some c.
Proof.
  intros Hq Hc. destruct (command_node _ _ Hq _ _ Hc) as (k & n & Hk & Hn & Hs).
  pose proof (commands_of_numbers s k n Hq Hk) as Hnum. rewrite Hn in Hnum.
  assert (Hin : c ∈ commands_of s c.(NodeCommand.node_id)) by (apply elem_of_commands_of; eauto).
  apply list_elem_of_lookup_1 in Hin as [i Hi].
  pose proof (f_equal (fun l => l !! i) Hnum) as Hi'. simpl in Hi'. rewrite list_lookup_fmap, Hi in Hi'. simpl in Hi'.
  assert (i < N.to_nat n.(Node.last_sequence))%nat.
  { apply lookup_lt_Some in Hi. apply (f_equal length) in Hnum. unfold numbers in Hnum. rewrite !length_fmap, length_seq in Hnum. lia. }
  rewrite lookup_numbers in Hi' by done. injection Hi' as Hi'. rewrite Hi'. by replace (pred _) with i by lia.
Qed.

(** In every history, whatever calls fail on the way, the commands of a node are numbered
    1, 2, 3, ... in their order, up to the last sequence the node records; each was issued from a
    valid draft for that node. *)
Theorem command_queue_dense s k n :
  reachable s -> s.(nodes) !! k = Some n ->
  NodeCommand.sequence <$> commands_of s n.(Node.id) = numbers (N.to_nat n.(Node.last_sequence))
  /\ Forall (fun c => c.(NodeCommand.node_id) = n.(Node.id)
                      /\ exists draft, NodeCommand.issue draft c.(NodeCommand.sequence) = Ok c)
       (commands_of s n.(Node.id)).
Proof.
  intros Hr Hk. pose proof (reachable_queues _ Hr) as Hq. split; [by eapply commands_of_numbers|].
  apply Forall_forall. intros c [Hc [id Hid]]%elem_of_commands_of. split; [done|]. by eapply command_issued.
Qed.

End invariant.
