(* ===== verification/FleetGuarantees.v ===== *)
(** * What the node repository guarantees

    Revocation is final, an idempotent request is answered by its first answer, the protocol of a
    session never goes back. *)

From Stdlib Require Import ZArith NArith Lia String.
From stdpp Require Import gmap.
From S2P Require Import Prelude RustStd BTreeMap External Text SharedKernel Repositories Resources NodeInventory NodeClaims.
From S2P Require Import NodeGateway NodeCommands NodeObservations NodeSessions LogRetention NodePools Fleet.
From S2P Require Import FleetRepository FleetControl FleetLifecycle FleetFrame FleetQueue.
Import State.

(** ** Nodes over time *)
Section revocation.
Context `{RuntimeReports}.
Implicit Types (s : State.t).

Lemma history_reachable s s' : reachable s -> history s s' -> reachable s'.
Proof. apply history_trans. Qed.

Lemma step_node c s k n :
  generated c s -> queues_ok s.(nodes) (queue s) -> s.(nodes) !! k = Some n ->
  exists n', (perform c s).(nodes) !! k = Some n' /\ node_later n n'.
Proof.
  intros Hg Hq Hk. destruct (queue_call c) eqn:Hc.
  2: { destruct (perform_kept c s Hc) as [_ Hn]. specialize (Hn k). rewrite Hk in Hn.
       destruct (nodes (perform c s) !! k) as [n'|]; [|done]. exists n'. by destruct Hn. }
  destruct c; try discriminate Hc; clear Hc.
  - destruct (reserve_enrollment_effect credential draft s) as [_ [->|(x & _ & _ & Hid & ->)]]; [by exists n|].
    exists n. split; [|reflexivity]. rewrite lookup_insert_ne; [done|]. intros <-.
    apply (Hg _ _ Hk). rewrite <- Hid. by injection (node_key _ _ Hq _ _ Hk).
  - destruct (enqueue_effect draft s) as [->|(k' & x & c & Hk' & _ & _ & _ & Hi & -> & _)]; [by exists n|].
    destruct (decide (k' = k)) as [->|Hne]; [|by exists n; rewrite lookup_insert_ne].
    simplify_eq. eexists. rewrite lookup_insert_eq. split; [done|]. pose proof (issue_Ok _ _ _ Hi) as (Hs & _).
    split; try done; simpl. lia.
  - destruct (lease_commands_spec request lease_id now leased_until s) as [[-> _] _]. by exists n.
  - destruct (acknowledge_effect acknowledgement s) as [->|(st & Hs & _ & _ & ->)]; by exists n.
Qed.

Lemma history_node s s' k n :
  reachable s -> history s s' -> s.(nodes) !! k = Some n -> exists n', s'.(nodes) !! k = Some n' /\ node_later n n'.
Proof.
  intros Hr Hh Hk. induction Hh as [|s s' c Hh IH Hg]; [by exists n|].
  destruct (IH Hr Hk) as (n1 & Hk1 & Hl1).
  destruct (step_node c s' k n1) as (n2 & Hk2 & Hl2); [done| |done|].
  - by apply reachable_queues, (history_reachable s).
  - exists n2. split; [done|]. by etrans.
Qed.

(** Looking a node up by its identity finds the one stored node. *)
Lemma find_node_unique s k n x :
  queues_ok s.(nodes) (queue s) -> s.(nodes) !! k = Some n ->
  InMemoryNodeRepository.find_node s n.(Node.id) = Some x -> x = n.
Proof.
  unfold InMemoryNodeRepository.find_node. intros Hq Hk [Hin Hp]%find_some. reflect_bools.
  apply elem_of_values in Hin as [k' Hk']. assert (k' = k) as -> by (by eapply node_unique). congruence.
Qed.

Lemma authenticated_node_Ok s cert x :
  InMemoryNodeRepository.authenticated_node s cert = Ok x ->
  InMemoryNodeRepository.find_node s x.(Node.id) = Some x /\ x.(Node.state) <> NodeState.Revoked.
Proof.
  unfold InMemoryNodeRepository.authenticated_node. rewrite result_bind_Ok. intros (n & Hn & E).
  rewrite some_or_Ok in Hn. case_bool_decide as Hr; [done|]. simplify_eq. split; [|done].
  pose proof Hn as [_ Hp]%find_some. reflect_bools. by rewrite Hp.
Qed.

Lemma authenticate_Ok fingerprint now s x :
  InMemoryNodeRepository.authenticate_certificate fingerprint now s = Ok x ->
  InMemoryNodeRepository.find_node s x.(Node.id) = Some x /\ x.(Node.state) <> NodeState.Revoked.
Proof.
  unfold InMemoryNodeRepository.authenticate_certificate. rewrite result_bind_Ok. intros (id & _ & E).
  rewrite result_bind_Ok in E. destruct E as (cert & _ & E). destruct (_ || _); [done|]. by eapply authenticated_node_Ok.
Qed.

Lemma authenticate_rotation_Ok fingerprint now since s x :
  InMemoryNodeRepository.authenticate_rotation_certificate fingerprint now since s = Ok x ->
  InMemoryNodeRepository.find_node s x.(Node.id) = Some x /\ x.(Node.state) <> NodeState.Revoked.
Proof.
  unfold InMemoryNodeRepository.authenticate_rotation_certificate. destruct (_ <? _)%Z; [done|].
  rewrite result_bind_Ok. intros (id & _ & E). rewrite result_bind_Ok in E. destruct E as (cert & _ & E).
  destruct (_ && _); [done|]. by eapply authenticated_node_Ok.
Qed.

Lemma lease_Ok request lease_id now leased_until s response :
  run_result (CommandQueue.lease_commands request lease_id now leased_until) s = Ok response ->
  exists x, InMemoryNodeRepository.find_node s request.(NodeCommandLeaseRequest.node_id) = Some x
    /\ x.(Node.state) <> NodeState.Revoked
    /\ x.(Node.agent_instance_id) = request.(NodeCommandLeaseRequest.agent_instance_id).
Proof.
  unfold run_result. destruct (CommandQueue.lease_commands _ _ _ _ s) as [s' r] eqn:E; simpl. intros ->.
  unfold CommandQueue.lease_commands in E. exec_call E; try done. clear E. reflect_results. reflect_bools.
  eexists. split; [eassumption|]. tauto.
Qed.

Lemma heartbeat_Ok update s x :
  run_result (InMemoryNodeRepository.record_heartbeat update) s = Ok x ->
  exists k n, s.(nodes) !! k = Some n /\ n.(Node.state) <> NodeState.Revoked /\ node_kept n x.
Proof.
  unfold run_result. destruct (InMemoryNodeRepository.record_heartbeat update s) as [s' r] eqn:E; simpl. intros ->.
  unfold InMemoryNodeRepository.record_heartbeat in E. exec_call E; try done. simplify_eq. reflect_results.
  do 2 eexists. split; [eassumption|]. match goal with Hp : InMemoryNodeRepository.project_heartbeat ?n _ = Ok _ |- _ =>
    split; [|by eapply project_heartbeat_kept]; intros Hr;
    unfold InMemoryNodeRepository.project_heartbeat in Hp; by rewrite Hr in Hp end.
Qed.

(** C19: Revoking a node is final.  In every later state the node cannot be authenticated, by its
    certificate or by one it replaced, cannot lease commands, gets no new command, and its
    heartbeats are refused. *)
Theorem revoked_node_final s s' k n :
  reachable s -> s.(nodes) !! k = Some n -> n.(Node.state) = NodeState.Revoked -> history s s' ->
  (forall fingerprint now x,
     InMemoryNodeRepository.authenticate_certificate fingerprint now s' = Ok x -> x.(Node.id) <> n.(Node.id))
  /\ (forall fingerprint now since x,
     InMemoryNodeRepository.authenticate_rotation_certificate fingerprint now since s' = Ok x ->
     x.(Node.id) <> n.(Node.id))
  /\ (forall request lease_id now leased_until response,
     run_result (CommandQueue.lease_commands request lease_id now leased_until) s' = Ok response ->
     request.(NodeCommandLeaseRequest.node_id) <> n.(Node.id))
  /\ (forall draft, draft.(NodeCommandDraft.node_id) = n.(Node.id) -> perform (EnqueueCommand draft) s' = s')
  /\ (forall update x,
     run_result (InMemoryNodeRepository.record_heartbeat update) s' = Ok x -> x.(Node.id) <> n.(Node.id)).
Proof.
  intros Hr Hk Hrev Hh. pose proof (reachable_queues _ (history_reachable _ _ Hr Hh)) as Hq.
  destruct (history_node _ _ _ _ Hr Hh Hk) as (n' & Hk' & Hl). pose proof (later_revoked _ _ Hl Hrev) as Hrev'.
  pose proof (later_id _ _ Hl) as Hid.
  assert (Hfind : forall x, InMemoryNodeRepository.find_node s' n.(Node.id) = Some x -> x = n').
  { intros x. rewrite <- Hid. by apply find_node_unique with (k := k). }
  split_and!.
  - intros fp now x [Hx Hs]%authenticate_Ok E. rewrite E in Hx. by rewrite (Hfind _ Hx) in Hs.
  - intros fp now since x [Hx Hs]%authenticate_rotation_Ok E. rewrite E in Hx. by rewrite (Hfind _ Hx) in Hs.
  - intros request lid now until response (x & Hx & Hs & _)%lease_Ok E. rewrite E in Hx. by rewrite (Hfind _ Hx) in Hs.
  - intros draft Hd. destruct (enqueue_effect draft s') as [->|(k1 & x & c & Hk1 & Hkid & _ & Hs & _)]; [done|].
    destruct Hs. assert (k1 = k) as ->; [|congruence].
    eapply node_unique; [exact Hq|exact Hk1|exact Hk'|]. rewrite Hid, <- Hd, <- Hkid.
    by rewrite (node_key _ _ Hq _ _ Hk1).
  - intros update x (k1 & n1 & Hk1 & Hs & [Hx _])%heartbeat_Ok E. destruct Hs.
    assert (k1 = k) as ->; [|congruence].
    eapply node_unique; [exact Hq|exact Hk1|exact Hk'|]. rewrite Hid, <- E. by destruct Hx.
Qed.

End revocation.

(** ** Idempotent requests *)
Section idempotency.
Context `{RuntimeReports}.
Implicit Types (s : State.t).

Lemma set_state_answer change s :
  let key := IdempotencyRequest.storage_key change.(NodeStateChange.idempotency) in
  let s' := run_state (InMemoryNodeRepository.set_state change) s in
  s'.(state_idempotency) = s.(state_idempotency)
  \/ (s.(state_idempotency) !! key = None /\ exists v, s'.(state_idempotency) = <[key := v]> s.(state_idempotency)).
Proof.
  intros key s'. subst s'. unfold run_state. destruct (InMemoryNodeRepository.set_state change s) as [s' r] eqn:E; simpl.
  unfold InMemoryNodeRepository.set_state in E. fold key in E. exec_call E; simplify_eq/=; auto; right; (split; [done|]); eauto.
  eexists. f_equal. unfold InMemoryNodeRepository.revoke_certificate. by repeat case_match.
Qed.

Lemma save_answer write s :
  let key := IdempotencyRequest.storage_key write.(NodePoolWrite.idempotency) in
  let s' := run_state (PoolRepository.save write) s in
  s'.(node_pool_idempotency) = s.(node_pool_idempotency)
  \/ (s.(node_pool_idempotency) !! key = None
      /\ exists v, s'.(node_pool_idempotency) = <[key := v]> s.(node_pool_idempotency)).
Proof.
  intros key s'. subst s'. unfold run_state. destruct (PoolRepository.save write s) as [s' r] eqn:E; simpl.
  unfold PoolRepository.save in E. fold key in E. exec_call E; simplify_eq/=; auto; right; (split; [done|]); eauto.
Qed.

(** An answer is recorded once and for all. *)
Lemma answers_kept s s' key v : history s s' -> s.(state_idempotency) !! key = Some v -> s'.(state_idempotency) !! key = Some v.
Proof.
  induction 1 as [|s s' c _ IH _]; [done|]. intros Hv. specialize (IH Hv).
  destruct (decide (Answers ∈ writes c)) as [Hw|Hw]; [|by rewrite (perform_frame c Answers s' Hw)].
  destruct c; simpl in Hw; try (exfalso; revert Hw; clear; set_solver). simpl.
  destruct (set_state_answer change s') as [->|[Hn [x ->]]]; [done|]. rewrite lookup_insert_ne; [done|]. congruence.
Qed.

Lemma pool_answers_kept s s' key v :
  history s s' -> s.(node_pool_idempotency) !! key = Some v -> s'.(node_pool_idempotency) !! key = Some v.
Proof.
  induction 1 as [|s s' c _ IH _]; [done|]. intros Hv. specialize (IH Hv).
  destruct (decide (Pools ∈ writes c)) as [Hw|Hw].
  2: { destruct (perform_frame c Pools s' Hw) as (_ & _ & _ & ->). done. }
  destruct c; simpl in Hw; try (exfalso; revert Hw; clear; set_solver). simpl.
  destruct (save_answer write s') as [->|[Hn [x ->]]]; [done|]. rewrite lookup_insert_ne; [done|]. congruence.
Qed.

Lemma set_state_recorded change s w :
  run_result (InMemoryNodeRepository.set_state change) s = Ok w ->
  (run_state (InMemoryNodeRepository.set_state change) s).(state_idempotency)
    !! IdempotencyRequest.storage_key change.(NodeStateChange.idempotency)
  = Some (change.(NodeStateChange.idempotency).(IdempotencyRequest.request_digest), w.(IdempotentWrite.value)).
Proof.
  unfold run_result, run_state. destruct (InMemoryNodeRepository.set_state change s) as [s' r] eqn:E; simpl. intros ->.
  unfold InMemoryNodeRepository.set_state in E. exec_call E; simplify_eq/=; rewrite ?lookup_insert_eq; try done.
  reflect_bools. by subst.
Qed.

Lemma save_recorded write s w :
  run_result (PoolRepository.save write) s = Ok w ->
  (run_state (PoolRepository.save write) s).(node_pool_idempotency)
    !! IdempotencyRequest.storage_key write.(NodePoolWrite.idempotency)
  = Some (write.(NodePoolWrite.idempotency).(IdempotencyRequest.request_digest), w.(IdempotentWrite.value)).
Proof.
  unfold run_result, run_state. destruct (PoolRepository.save write s) as [s' r] eqn:E; simpl. intros ->.
  unfold PoolRepository.save in E. exec_call E; simplify_eq/=; rewrite ?lookup_insert_eq; try done.
  reflect_bools. by subst.
Qed.

(** What a repeated request gets: the first answer when its content is the same, a conflict
    otherwise; the state does not change. *)
Definition replays {A} (m : method State.t (IdempotentWrite.t A)) (first again : IdempotencyRequest.t) (value : A)
    (s : State.t) : Prop :=
  m s = (s, if first.(IdempotencyRequest.request_digest) == again.(IdempotencyRequest.request_digest)
            then Ok (IdempotentWrite.Mk value true) else Err RepositoryError.IdempotencyConflict).

(** A state change of a node and a write of a pool take effect once.  When one of them was
    answered, every later request with its idempotency key - whatever happened in between - leaves
    the repository as it is, and gets the same answer again, or a conflict when it asks for
    something else. *)
Theorem idempotent_requests s s' :
  (forall change w change',
     run_result (InMemoryNodeRepository.set_state change) s = Ok w ->
     history (run_state (InMemoryNodeRepository.set_state change) s) s' ->
     IdempotencyRequest.storage_key change'.(NodeStateChange.idempotency)
       = IdempotencyRequest.storage_key change.(NodeStateChange.idempotency) ->
     replays (InMemoryNodeRepository.set_state change') change.(NodeStateChange.idempotency)
       change'.(NodeStateChange.idempotency) w.(IdempotentWrite.value) s')
  /\ (forall write w write',
     run_result (PoolRepository.save write) s = Ok w ->
     history (run_state (PoolRepository.save write) s) s' ->
     IdempotencyRequest.storage_key write'.(NodePoolWrite.idempotency)
       = IdempotencyRequest.storage_key write.(NodePoolWrite.idempotency) ->
     replays (PoolRepository.save write') write.(NodePoolWrite.idempotency)
       write'.(NodePoolWrite.idempotency) w.(IdempotentWrite.value) s').
Proof.
  split.
  - intros change w change' Hw%set_state_recorded Hh Hkey. apply (answers_kept _ _ _ _ Hh) in Hw.
    unfold replays, InMemoryNodeRepository.set_state. autorewrite with methods. cbv zeta. rewrite Hkey, Hw.
    by case_bool_decide.
  - intros write w write' Hw%save_recorded Hh Hkey. apply (pool_answers_kept _ _ _ _ Hh) in Hw.
    unfold replays, PoolRepository.save. autorewrite with methods. cbv zeta. rewrite Hkey, Hw.
    by case_bool_decide.
Qed.

End idempotency.

(** ** Protocol sessions *)
Section sessions.
Context `{RuntimeReports}.
Implicit Types (s : State.t).

(** [r'] is a later session of the agent of [r]: it speaks at least the contracts of [r], and its
    place in the chain is not before that of [r]. *)
Record session_later (r r' : NodeProtocolSessionRecord.t) : Prop := {
  session_contracts : NodeProtocolContractSet.is_subset_of
    r.(NodeProtocolSessionRecord.selection).(NodeSessionSelection.contracts)
    r'.(NodeProtocolSessionRecord.selection).(NodeSessionSelection.contracts) = true;
  session_generation :
    (r.(NodeProtocolSessionRecord.selection).(NodeSessionSelection.generation)
     <= r'.(NodeProtocolSessionRecord.selection).(NodeSessionSelection.generation))%N;
  session_agent :
    r'.(NodeProtocolSessionRecord.hello).(NodeSessionHello.agent_instance_id)
    = r.(NodeProtocolSessionRecord.hello).(NodeSessionHello.agent_instance_id);
}.

Lemma vec_contains_spec l x : vec_contains l x = true <-> x ∈ l.
Proof.
  unfold vec_contains, any. rewrite existsb_exists. setoid_rewrite bool_decide_eq_true. setoid_rewrite <- list_elem_of_In.
  split; [by intros (y & ? & ->)|eauto].
Qed.

Lemma is_subset_of_spec a b :
  NodeProtocolContractSet.is_subset_of a b = true <->
  (forall x, x ∈ a.(NodeProtocolContractSet.agent_readable) -> x ∈ b.(NodeProtocolContractSet.agent_readable))
  /\ (forall x, x ∈ a.(NodeProtocolContractSet.agent_writable) -> x ∈ b.(NodeProtocolContractSet.agent_writable)).
Proof.
  unfold NodeProtocolContractSet.is_subset_of, all. rewrite andb_true_iff, !forallb_forall.
  setoid_rewrite vec_contains_spec. by setoid_rewrite list_elem_of_In.
Qed.

#[export] Instance session_later_preorder : PreOrder session_later.
Proof.
  split.
  - intros r. split; [|lia|done]. by apply is_subset_of_spec.
  - intros x y z [H1 ? ?] [H2 ? ?]. split; [|lia|congruence].
    rewrite is_subset_of_spec in *. destruct H1, H2. auto.
Qed.

Lemma draft_selection_Ok negotiation current selection :
  NodeProtocolNegotiation.draft_selection negotiation current = Ok selection ->
  forall r, current = Some r ->
  NodeProtocolContractSet.is_subset_of r.(NodeProtocolSessionRecord.selection).(NodeSessionSelection.contracts)
    selection.(NodeSessionSelection.contracts) = true
  /\ (r.(NodeProtocolSessionRecord.selection).(NodeSessionSelection.generation)
      < selection.(NodeSessionSelection.generation))%N.
Proof.
  unfold NodeProtocolNegotiation.draft_selection. rewrite result_bind_Ok. intros (contracts & _ & E) r ->. simpl in E.
  rewrite then_Ok in E. destruct E as [Hd E]. unfold refuse_if in Hd.
  destruct (NodeProtocolContractSet.is_subset_of _ _) eqn:Hsub; [|done].
  destruct (checked_add _ 1) as [g|] eqn:Hg; [|done]. apply checked_add_Some in Hg as [-> _].
  rewrite then_Ok in E. destruct E as [_ E]. rewrite then_Ok in E. destruct E as [_ [= <-]]. simpl.
  split; [done|]. lia.
Qed.

Lemma apply_later negotiation r outcome :
  NodeProtocolNegotiation.apply negotiation (Some r) = Ok outcome ->
  session_later r outcome.(NodeProtocolNegotiationOutcome.record).
Proof.
  unfold NodeProtocolNegotiation.apply. case_bool_decide as Heq; [by intros [= <-]|].
  rewrite then_Ok, result_bind_Ok. intros [Hs (selection & Hsel & [= <-])]. simpl.
  destruct (draft_selection_Ok _ _ _ Hsel r eq_refl) as [Hsub Hg]. split; [done|simpl; lia|].
  unfold NodeProtocolNegotiation.validate_successor in Hs. rewrite then_Ok in Hs. destruct Hs as [Hi _].
  unfold refuse_if in Hi. destruct (_ || _) eqn:E; [done|]. reflect_bools. simpl. tauto.
Qed.

Lemma negotiate_effect negotiation s :
  let s' := perform (Negotiate negotiation) s in
  s'.(protocol_sessions) = s.(protocol_sessions)
  \/ exists outcome,
       let node_id := negotiation.(NodeProtocolNegotiation.hello).(NodeSessionHello.node_id) in
       NodeProtocolNegotiation.apply negotiation (s.(protocol_sessions) !! node_id) = Ok outcome
       /\ s'.(protocol_sessions)
          = <[node_id := outcome.(NodeProtocolNegotiationOutcome.record)]> s.(protocol_sessions).
Proof.
  simpl. unfold run_state. destruct (SessionRepository.negotiate negotiation s) as [s' r] eqn:E; simpl.
  unfold SessionRepository.negotiate in E. exec_call E; simplify_eq/=; auto. reflect_results. eauto 10.
Qed.

(** C22: The protocol of a node is never downgraded.  In every later state the node's session speaks
    at least the contracts of the earlier session, in both directions, for the same agent
    instance, and its selection generation has not gone back. *)
Theorem protocol_never_downgraded s s' node_id r :
  s.(protocol_sessions) !! node_id = Some r -> history s s' ->
  exists r', s'.(protocol_sessions) !! node_id = Some r' /\ session_later r r'.
Proof.
  intros Hr. induction 1 as [|s s' c _ IH _]; [by exists r|]. destruct (IH Hr) as (r1 & Hr1 & Hl1).
  destruct (decide (Sessions ∈ writes c)) as [Hw|Hw].
  2: { exists r1. by rewrite (perform_frame c Sessions s' Hw). }
  destruct c; simpl in Hw; try (exfalso; revert Hw; clear; set_solver).
  destruct (negotiate_effect negotiation s') as [->|(outcome & Ho & ->)]; [by exists r1|].
  destruct (decide (NodeSessionHello.node_id (NodeProtocolNegotiation.hello negotiation) = node_id)) as [<-|Hne].
  - rewrite Hr1 in Ho. apply apply_later in Ho. eexists. rewrite lookup_insert_eq. split; [done|]. by etrans.
  - exists r1. by rewrite lookup_insert_ne.
Qed.

End sessions.
