(* ===== verification/FleetPools.v ===== *)
(** * Pools in the node repository

    A node belongs to at most one pool of its organization, the index by node says which, and the
    scheduler and the evacuation read the pools through that index. *)

From Stdlib Require Import ZArith NArith Lia String.
From stdpp Require Import gmap.
From S2P Require Import Prelude RustStd BTreeMap External Text SharedKernel Repositories Resources NodeInventory NodeClaims.
From S2P Require Import NodeGateway NodeCommands NodeObservations NodeSessions LogRetention NodePools.
From S2P Require Import NodePoolLifecycle Fleet FleetRepository FleetControl FleetLifecycle FleetFrame FleetQueue.
From S2P Require Import FleetGuarantees.
Import State.

Section index.
Context `{RuntimeReports}.
Implicit Types (s : State.t) (pool : NodePool.t) (index : gmap (OrganizationId * NodeId) NodePoolId).

Lemma foldl_delete org (l : list NodeId) index k :
  foldl (fun index n => delete (org, n) index) index l !! k
  = if bool_decide (k.1 = org /\ k.2 ∈ l) then None else index !! k.
Proof.
  revert index. induction l as [|n l IH]; intros index; simpl.
  { rewrite bool_decide_eq_false_2; [done|]. intros [_ Hn]. by apply not_elem_of_nil in Hn. }
  rewrite IH. destruct k as [o m]; simpl. repeat case_bool_decide; try done; rewrite ?elem_of_cons in *.
  - tauto.
  - destruct (decide ((org, n) = (o, m))) as [E|Hne]; [by rewrite E, lookup_delete_eq|].
    exfalso. naive_solver.
  - rewrite lookup_delete_ne; [done|]. naive_solver.
Qed.

Lemma foldl_insert org pool_id (l : list NodeId) index k :
  foldl (fun index n => <[(org, n) := pool_id]> index) index l !! k
  = if bool_decide (k.1 = org /\ k.2 ∈ l) then Some pool_id else index !! k.
Proof.
  revert index. induction l as [|n l IH]; intros index; simpl.
  { rewrite bool_decide_eq_false_2; [done|]. intros [_ Hn]. by apply not_elem_of_nil in Hn. }
  rewrite IH. destruct k as [o m]; simpl. repeat case_bool_decide; try done; rewrite ?elem_of_cons in *.
  - tauto.
  - destruct (decide ((org, n) = (o, m))) as [E|Hne]; [by rewrite E, lookup_insert_eq|].
    exfalso. naive_solver.
  - rewrite lookup_insert_ne; [done|]. naive_solver.
Qed.

(** The index after a write: the members of the pool point to it, the ones that left point to
    nothing, the others are as before. *)
Lemma index_members_lookup pool previous index org n pool_id :
  sorted_ids pool.(NodePool.member_node_ids) ->
  PoolRepository.index_members pool previous index !! (org, n) = Some pool_id <->
  (org = pool.(NodePool.organization_id) /\ n ∈ pool.(NodePool.member_node_ids) /\ pool_id = pool.(NodePool.id))
  \/ (index !! (org, n) = Some pool_id
      /\ (org = pool.(NodePool.organization_id) ->
          n ∉ pool.(NodePool.member_node_ids)
          /\ forall p, previous = Some p -> n ∉ p.(NodePool.member_node_ids))).
Proof.
  intros Hs. unfold PoolRepository.index_members. rewrite foldl_insert, foldl_delete; simpl.
  set (left_ := match previous with Some p => _ | None => [] end).
  assert (Hleft : n ∈ left_ <-> n ∉ pool.(NodePool.member_node_ids)
            /\ exists p, previous = Some p /\ n ∈ p.(NodePool.member_node_ids)).
  { unfold left_. destruct previous as [p|].
    - rewrite list_elem_of_In, filter_In, <- list_elem_of_In. unfold is_none. rewrite negb_true_iff.
      rewrite <- (binary_search_iff n _ Hs), not_true_iff_false. naive_solver.
    - split; [by intros ?%not_elem_of_nil|naive_solver]. }
  repeat case_bool_decide; naive_solver.
Qed.

(** ** The invariant of the pools *)
Record pools_ok s : Prop := {
  pool_key : forall k p, s.(node_pools) !! k = Some p ->
    k = (p.(NodePool.organization_id), p.(NodePool.id)) /\ NodePool.validate p = Ok tt;
  pool_index : forall org n pool_id, s.(node_pool_by_node) !! (org, n) = Some pool_id <->
    exists p, s.(node_pools) !! (org, pool_id) = Some p /\ n ∈ p.(NodePool.member_node_ids);
  pool_members : forall k p n, s.(node_pools) !! k = Some p -> n ∈ p.(NodePool.member_node_ids) ->
    is_Some (s.(nodes) !! (k.1, n));
}.

Lemma save_effect write s (s' := perform (SavePool write) s) (pool := write.(NodePoolWrite.pool)) :
  s'.(nodes) = s.(nodes)
  /\ (same_part Pools s s'
      \/ exists previous,
           NodePool.validate pool = Ok tt
           /\ PoolRepository.validate_members pool s = Ok tt
           /\ s.(node_pools) !! (pool.(NodePool.organization_id), pool.(NodePool.id)) = previous
           /\ s'.(node_pool_by_node) = PoolRepository.index_members pool previous s.(node_pool_by_node)
           /\ s'.(node_pools)
              = <[(pool.(NodePool.organization_id), pool.(NodePool.id)) := pool]> s.(node_pools)).
Proof.
  subst s'. simpl. unfold run_state. destruct (PoolRepository.save write s) as [s' r] eqn:E; simpl.
  unfold PoolRepository.save in E. fold pool in E. exec_call E; injection E as <- _; simpl; (split; [done|]);
    try (left; by split_and!).
  right. reflect_results. match goal with Hp : PoolRepository.previous_pool _ _ = Ok ?p |- _ =>
    exists p; unfold PoolRepository.previous_pool in Hp; fold pool in Hp; rename Hp into Hprev end.
  repeat match goal with u : () |- _ => destruct u end.
  split_and!; [done..| |done|done].
  destruct (NodePoolWrite.expected_version write).
  - rewrite result_bind_Ok in Hprev. destruct Hprev as (current & Hc & Hv). rewrite some_or_Ok in Hc.
    rewrite then_Ok in Hv. destruct Hv as [_ [= <-]]. done.
  - destruct (_ || is_some (node_pools s !! _)) eqn:Eo; [done|]. destruct (is_some (node_pool_by_name s !! _)); [done|].
    injection Hprev as <-. reflect_bools. destruct Eo as [_ Eo]. by destruct (node_pools s !! _).
Qed.

Lemma validate_members_Ok pool s :
  PoolRepository.validate_members pool s = Ok tt <->
  forall n, n ∈ pool.(NodePool.member_node_ids) ->
    is_Some (s.(nodes) !! (pool.(NodePool.organization_id), n))
    /\ forall pool_id, s.(node_pool_by_node) !! (pool.(NodePool.organization_id), n) = Some pool_id ->
         pool_id = pool.(NodePool.id).
Proof.
  unfold PoolRepository.validate_members. rewrite for_each_Ok, Forall_forall. apply forall_proper. intros n.
  apply Morphisms_Prop.iff_iff_iff_impl_morphism; [done|]. unfold is_none.
  destruct (nodes s !! _); simpl; [|split; [done|by intros [[] _]]].
  destruct (node_pool_by_node s !! _) as [pid|]; simpl.
  - case_bool_decide; simpl; [naive_solver|]. split; [done|]. intros [_ Hp]. by specialize (Hp _ eq_refl).
  - naive_solver.
Qed.

Lemma pools_ok_save write s : pools_ok s -> pools_ok (perform (SavePool write) s).
Proof.
  intros [Hk Hi Hm]. destruct (save_effect write s) as [Hn [(Ep & _ & Ei & _)|(prev & Hv & Hmem & Hprev & Ei & Ep)]].
  { split; rewrite ?Hn, ?Ep, ?Ei; done. }
  set (pool := NodePoolWrite.pool write) in *. set (key := (NodePool.organization_id pool, NodePool.id pool)) in *.
  rewrite validate_members_Ok in Hmem.
  assert (Hsorted : sorted_ids pool.(NodePool.member_node_ids)).
  { apply PoolLifecycle.validate_Ok_wf, PoolLifecycle.wf_members in Hv. apply Hv. }
  split; rewrite ?Hn, ?Ep, ?Ei.
  - intros k p [[<- <-]|[_ E]]%lookup_insert_Some; [done|by apply Hk].
  - intros org n pool_id. rewrite index_members_lookup by done. rewrite Hi. split.
    + intros [(-> & Hin & ->)|[(p & Hp & Hin) Hout]].
      * exists pool. by rewrite lookup_insert_eq.
      * destruct (decide (key = (org, pool_id))) as [E|Hne].
        -- injection E as <- <-. destruct (Hout eq_refl) as [_ Hno]. destruct (Hno p); [|done].
           by rewrite <- Hprev.
        -- exists p. by rewrite lookup_insert_ne.
    + intros (p & Hp & Hin). apply lookup_insert_Some in Hp as [[E <-]|[Hne Hp]].
      * injection E as <- <-. left. done.
      * destruct (decide (org = NodePool.organization_id pool)) as [->|Ho].
        2: { right. split; [eauto|done]. }
        right. split; [eauto|]. intros _.
        assert (Hpid : s.(node_pool_by_node) !! (NodePool.organization_id pool, n) = Some pool_id) by (apply Hi; eauto).
        split.
        -- intros Hin'. destruct (Hmem n Hin') as [_ Hu]. specialize (Hu _ Hpid). subst. by destruct Hne.
        -- intros p' E Hin'.
           assert (s.(node_pool_by_node) !! (NodePool.organization_id pool, n) = Some (NodePool.id pool)) as Hx.
           { apply Hi. exists p'. split; [|done]. fold key. by rewrite Hprev. }
           rewrite Hpid in Hx. injection Hx as ->. by destruct Hne.
  - intros k p n [[<- <-]|[_ E]]%lookup_insert_Some Hin; [by apply Hmem|by eapply Hm].
Qed.

Lemma pools_ok_nodes s s' :
  same_part Pools s s' -> (forall k n, s.(nodes) !! k = Some n -> is_Some (s'.(nodes) !! k)) -> pools_ok s -> pools_ok s'.
Proof.
  intros (Ep & _ & Ei & _) Hn [Hk Hi Hm]. split; rewrite ?Ep, ?Ei; [done..|].
  intros k p n Hp Hin. destruct (Hm k p n Hp Hin) as [x Hx]. by eapply Hn.
Qed.

Lemma reachable_pools s : reachable s -> pools_ok s.
Proof.
  unfold reachable. remember State.empty as s0 eqn:E. induction 1 as [|s0 s c Hh IH Hg]; subst.
  { split; [intros ? ? Hk|intros ? ? ?|intros ? ? ? Hk].
    - unfold State.empty in Hk. simpl in Hk. by rewrite lookup_empty in Hk.
    - split; [intros Hk|intros (? & Hk & _)]; unfold State.empty in Hk; simpl in Hk; by rewrite lookup_empty in Hk.
    - unfold State.empty in Hk. simpl in Hk. by rewrite lookup_empty in Hk. }
  specialize (IH eq_refl). destruct (decide (Pools ∈ writes c)) as [Hw|Hw].
  - destruct c; simpl in Hw; try (exfalso; revert Hw; clear; set_solver). by apply pools_ok_save.
  - eapply pools_ok_nodes; [by apply perform_frame| |done]. intros k n Hk.
    destruct (step_node c s k n Hg (reachable_queues _ Hh) Hk) as (n' & -> & _). done.
Qed.

(** ** What the scheduler and the evacuation see *)

(** The pool of a node, read from the pools and not from the index. *)
Definition member_of (s : State.t) (n : Node.t) (p : NodePool.t) : Prop :=
  s.(node_pools) !! (n.(Node.organization_id), p.(NodePool.id)) = Some p
  /\ n.(Node.id) ∈ p.(NodePool.member_node_ids).

Lemma member_of_unique s n p p' : pools_ok s -> member_of s n p -> member_of s n p' -> p = p'.
Proof.
  intros [_ Hi _] [Hp Hin] [Hp' Hin'].
  assert (E : s.(node_pool_by_node) !! (n.(Node.organization_id), n.(Node.id)) = Some p.(NodePool.id)) by (apply Hi; eauto).
  assert (E' : s.(node_pool_by_node) !! (n.(Node.organization_id), n.(Node.id)) = Some p'.(NodePool.id)) by (apply Hi; eauto).
  rewrite E in E'. injection E' as E'. rewrite E' in Hp. congruence.
Qed.

Lemma pool_of_spec s n : pools_ok s ->
  forall x, InMemoryNodeRepository.pool_of s n = Some x <-> x.1 = x.2.(NodePool.id) /\ member_of s n x.2.
Proof.
  intros [Hk Hi _] [pid p]. unfold InMemoryNodeRepository.pool_of, member_of. simpl. split.
  - destruct (node_pool_by_node s !! _) as [q|] eqn:Eq; [|done]. simpl. destruct (node_pools s !! _) as [p'|] eqn:Ep; [|done].
    simpl. intros [= -> ->]. destruct (Hk _ _ Ep) as [[= Ho ->] _]. apply Hi in Eq as (p' & Ep' & Hin). simplify_eq. done.
  - intros (-> & Hp & Hin).
    assert (s.(node_pool_by_node) !! (n.(Node.organization_id), n.(Node.id)) = Some p.(NodePool.id)) as -> by (apply Hi; eauto).
    simpl. by rewrite Hp.
Qed.

Lemma pool_of_is_some_and (f : NodePool.t -> bool) s n : pools_ok s ->
  is_some_and (fun x => f x.2) (InMemoryNodeRepository.pool_of s n) = true <-> exists p, member_of s n p /\ f p = true.
Proof.
  intros Hs. pose proof (pool_of_spec s n Hs) as Hp.
  destruct (InMemoryNodeRepository.pool_of s n) as [[pid p]|]; simpl.
  - destruct (proj1 (Hp (pid, p)) eq_refl) as [Hid Hm]. simpl in *. split; [eauto|].
    intros (p' & Hm' & Hf). by rewrite (member_of_unique s n p p').
  - split; [done|]. intros (p & Hm & _). discriminate (proj2 (Hp (p.(NodePool.id), p)) (conj eq_refl Hm)).
Qed.

(** C21: A node is in at most one pool of its organization, and only nodes of the organization are
    members; so the scheduler sees exactly what the pools say.  Its candidates are the nodes of the
    organization - of the requested pool, if one is requested - that no pool is about to remove and
    that no pool has in active maintenance, each once, ordered by name. *)
Theorem scheduling_candidates_exact s org pool_id now :
  reachable s ->
  (forall k n p p', s.(nodes) !! k = Some n -> member_of s n p -> member_of s n p' -> p = p')
  /\ (forall k p i, s.(node_pools) !! k = Some p -> i ∈ p.(NodePool.member_node_ids) ->
        exists n, s.(nodes) !! (p.(NodePool.organization_id), i) = Some n
          /\ n.(Node.organization_id) = p.(NodePool.organization_id) /\ n.(Node.id) = i)
  /\ (forall n, n ∈ InMemoryNodeRepository.list_scheduling_candidates org pool_id now s <->
        s.(nodes) !! (org, n.(Node.id)) = Some n
        /\ (forall q, pool_id = Some q -> exists p, member_of s n p /\ p.(NodePool.id) = q)
        /\ (forall p, member_of s n p ->
              NodePool.member_removal p n.(Node.id) = None
              /\ NodePool.node_is_in_active_maintenance p n.(Node.id) now = false))
  /\ NoDup (Node.id <$> InMemoryNodeRepository.list_scheduling_candidates org pool_id now s)
  /\ StronglySorted (key_le InMemoryNodeRepository.list_key)
       (InMemoryNodeRepository.list_scheduling_candidates org pool_id now s).
Proof.
  intros Hr. pose proof (reachable_pools _ Hr) as Hp. pose proof (reachable_queues _ Hr) as Hq.
  unfold InMemoryNodeRepository.list_scheduling_candidates. split; [|split; [|split; [|split]]].
  - intros k n p p' _. by apply member_of_unique.
  - intros k p i Hk Hin. destruct (pool_members _ Hp _ _ _ Hk Hin) as [n Hn]. destruct (pool_key _ Hp _ _ Hk) as [-> _].
    exists n. split; [exact Hn|]. apply (node_key _ _ Hq) in Hn. by injection Hn.
  - intros n. rewrite sort_by_key_perm, list_elem_of_In, filter_In, <- list_elem_of_In, elem_of_values.
    rewrite !andb_true_iff, !negb_true_iff, bool_decide_eq_true, <- !not_true_iff_false.
    unfold InMemoryNodeRepository.node_has_pending_pool_removal, InMemoryNodeRepository.node_is_in_active_maintenance.
    rewrite (pool_of_is_some_and (fun p => is_some (NodePool.member_removal p n.(Node.id))) s n Hp).
    rewrite (pool_of_is_some_and (fun p => NodePool.node_is_in_active_maintenance p n.(Node.id) now) s n Hp).
    assert (Hpool : is_none_or (fun q => node_pool_by_node s !! (org, Node.id n) == Some q) pool_id = true <->
      forall q, pool_id = Some q -> exists p, s.(node_pools) !! (org, q) = Some p /\ n.(Node.id) ∈ p.(NodePool.member_node_ids)).
    { destruct pool_id as [q|]; simpl; [|naive_solver]. rewrite bool_decide_eq_true, (pool_index _ Hp). naive_solver. }
    rewrite Hpool. split.
    + intros [[k Hk] [[[Ho Hsel] Hrem] Hmaint]]. pose proof (node_key _ _ Hq _ _ Hk) as Ek. rewrite Ho in Ek. subst k.
      split_and!; [done| |].
      * intros q E. destruct (Hsel q E) as (p & Hp' & Hin). destruct (pool_key _ Hp _ _ Hp') as [[= Eo Eid] _].
        exists p. unfold member_of. rewrite Ho, <- Eid. done.
      * intros p Hm. split.
        -- destruct (NodePool.member_removal p _) eqn:E; [|done]. destruct Hrem. exists p. by rewrite E.
        -- apply not_true_iff_false. intros E. destruct Hmaint. eauto.
    + intros (Hk & Hsel & Hall). pose proof (node_key _ _ Hq _ _ Hk) as [= Eo]. split; [eauto|]. split_and!.
      * done.
      * intros q E. destruct (Hsel q E) as (p & [Hp' Hin] & <-). rewrite <- Eo in Hp'. eauto.
      * intros (p & Hm & E). destruct (Hall p Hm) as [Hnone _]. by rewrite Hnone in E.
      * intros (p & Hm & E). destruct (Hall p Hm) as [_ Hf]. congruence.
  - rewrite sort_by_key_perm. apply NoDup_fmap_values. intros k k' n n' Hk Hk' _ _ E.
    by eapply (node_unique _ _ Hq).
  - apply sort_by_key_sorted.
Qed.

End index.
