(* ===== verification/FleetCertificates.v ===== *)
(** * Certificates in the node repository

    The index by fingerprint and the stored certificates agree, a revoked certificate stays
    revoked, at most one certificate authenticates a node, and what the check of a repeated rotation
    accepts beyond it. *)

From Stdlib Require Import ZArith NArith Lia String.
From stdpp Require Import gmap.
From S2P Require Import Prelude RustStd BTreeMap External Text SharedKernel Repositories Resources NodeInventory NodeClaims.
From S2P Require Import NodeGateway NodeCommands NodeObservations NodeSessions LogRetention NodePools Fleet.
From S2P Require Import FleetRepository FleetControl FleetLifecycle FleetFrame FleetQueue FleetGuarantees.
Import State.

Section certificates.
Context `{RuntimeReports}.
Implicit Types (s : State.t) (c : NodeCertificate.t) (cl : call).

(** [c'] is [c] at some later time: only its revocation may be new. *)
Definition certificate_later c c' : Prop :=
  c'.(NodeCertificate.fingerprint) = c.(NodeCertificate.fingerprint)
  /\ c'.(NodeCertificate.node_id) = c.(NodeCertificate.node_id)
  /\ (is_some c.(NodeCertificate.revoked_at) = true -> is_some c'.(NodeCertificate.revoked_at) = true).

#[export] Instance certificate_later_preorder : PreOrder certificate_later.
Proof. split; [by intros c|]. unfold certificate_later. intros x y z (? & ? & ?) (? & ? & ?). split_and!; [congruence..|auto]. Qed.

(** The stored certificates and the index by fingerprint. *)
Definition index_ok (certificates : gmap NodeCertificateId NodeCertificate.t) (index : gmap string NodeCertificateId) : Prop :=
  forall fingerprint id, index !! fingerprint = Some id <->
    exists c, certificates !! id = Some c /\ c.(NodeCertificate.fingerprint) = fingerprint.

(** What a call does to them: a certificate is revoked, or a new one is added. *)
Inductive certificate_step :
    gmap NodeCertificateId NodeCertificate.t * gmap string NodeCertificateId ->
    gmap NodeCertificateId NodeCertificate.t * gmap string NodeCertificateId -> Prop :=
| revoke_step m index id c at' :
    m !! id = Some c ->
    certificate_step (m, index) (<[id := c <| NodeCertificate.revoked_at := Some at' |>]> m, index)
| add_step m index c :
    m !! c.(NodeCertificate.id) = None -> index !! c.(NodeCertificate.fingerprint) = None ->
    certificate_step (m, index)
      (<[c.(NodeCertificate.id) := c]> m, <[c.(NodeCertificate.fingerprint) := c.(NodeCertificate.id)]> index).

Definition certificate_state s := (s.(certificates), s.(certificate_by_fingerprint)).

Lemma same_certificates s s' : same_part Certificates s s' -> certificate_state s' = certificate_state s.
Proof. intros (E1 & _ & E2 & _). unfold certificate_state. by rewrite E1, E2. Qed.

Lemma step_certificates cl s : generated cl s -> rtc certificate_step (certificate_state s) (certificate_state (perform cl s)).
Proof.
  intros Hg. destruct (decide (Certificates ∈ writes cl)) as [Hw|Hw].
  2: { by rewrite (same_certificates _ _ (perform_frame cl Certificates s Hw)). }
  destruct cl; simpl in Hw; try (exfalso; revert Hw; clear; set_solver); clear Hw; simpl;
    match goal with |- context [run_state ?m _] => destruct (m s) as [s' r] eqn:E; unfold run_state; rewrite E; simpl end.
  - simpl in Hg. unfold InMemoryNodeRepository.complete_enrollment in E. exec_call E; injection E as <- _; try done.
    match goal with Hf : is_some (certificate_by_fingerprint _ !! ?f) = false |- _ =>
      destruct (certificate_by_fingerprint s !! f) eqn:Ef; [done|] end.
    apply rtc_once. by apply add_step.
  - unfold InMemoryNodeRepository.reserve_certificate_rotation in E. exec_call E; injection E as <- _; done.
  - simpl in Hg. unfold InMemoryNodeRepository.complete_certificate_rotation in E.
    exec_call E; try (injection E as <- _; done).
    match goal with Hf : is_some (certificate_by_fingerprint ?s !! ?f) = false |- _ =>
      destruct (certificate_by_fingerprint s !! f) eqn:Ef; [done|]; clear Hf end.
    unfold InMemoryNodeRepository.install_replacement in E. exec_call E; injection E as <- _; try done; reflect_results.
    all: match goal with Hc : certificates ?s !! ?id = Some ?x |- _ =>
      eapply rtc_l; [apply (revoke_step s.(certificates) _ id x); exact Hc|]; apply rtc_once;
      unfold certificate_state; simpl; apply add_step; [|done]; rewrite lookup_insert_ne; [done|congruence] end.
  - unfold InMemoryNodeRepository.set_state in E. exec_call E; injection E as <- _; try done.
    unfold certificate_state; simpl. unfold InMemoryNodeRepository.revoke_certificate. simpl.
    destruct (active_certificate_by_node s !! _) as [id|]; [|done]. simpl.
    destruct (certificates s !! id) as [x|] eqn:Ec; [|done]. simpl. apply rtc_once. by apply revoke_step.
Qed.

Lemma certificate_step_ok x y : certificate_step x y -> index_ok x.1 x.2 -> index_ok y.1 y.2.
Proof.
  intros [m index id c at' Hc|m index c Hm Hi] Hok fingerprint id'; simpl in *; rewrite ?(Hok fingerprint id').
  - split.
    + intros (w & Hx & Hf). destruct (decide (id = id')) as [<-|Hne].
      * eexists. rewrite lookup_insert_eq. split; [done|]. simplify_eq. done.
      * exists w. by rewrite lookup_insert_ne.
    + intros (w & [[<- <-]|[_ Hx]]%lookup_insert_Some & Hf); [|eauto]. exists c. done.
  - rewrite lookup_insert_Some, (Hok fingerprint id'). split.
    + intros [[<- <-]|[Hne (w & Hx & Hf)]].
      * exists c. by rewrite lookup_insert_eq.
      * exists w. split; [|done]. rewrite lookup_insert_ne; [done|]. congruence.
    + intros (w & [[<- <-]|[Hne Hx]]%lookup_insert_Some & Hf); [by left|]. right. split; [|eauto].
      intros E. assert (index !! c.(NodeCertificate.fingerprint) = Some id') as E'; [|congruence].
      apply Hok. exists w. split; [done|congruence].
Qed.

Lemma certificate_step_later x y id c :
  certificate_step x y -> x.1 !! id = Some c -> exists c', y.1 !! id = Some c' /\ certificate_later c c'.
Proof.
  intros [m index id' c0 at' Hc|m index c0 Hm Hi] Hid; simpl in *.
  - destruct (decide (id' = id)) as [->|Hne].
    + eexists. rewrite lookup_insert_eq. split; [done|]. simplify_eq. by split_and!.
    + exists c. by rewrite lookup_insert_ne.
  - exists c. split; [|done]. rewrite lookup_insert_ne; [done|]. congruence.
Qed.

Lemma reachable_index s : reachable s -> index_ok s.(certificates) s.(certificate_by_fingerprint).
Proof.
  unfold reachable. remember State.empty as s0 eqn:E. induction 1 as [|s0 s c _ IH Hg]; subst.
  { intros fingerprint id. unfold State.empty; simpl.
    split; [intros Hk|intros (? & Hk & _)]; by rewrite lookup_empty in Hk. }
  specialize (IH eq_refl). pose proof (step_certificates c s Hg) as Hs.
  change (index_ok (certificate_state s).1 (certificate_state s).2) in IH.
  change (index_ok (certificate_state (perform c s)).1 (certificate_state (perform c s)).2).
  induction Hs as [|x y z Hxy _ IH']; [done|]. by apply IH', (certificate_step_ok x).
Qed.

Lemma history_certificate s s' id c :
  history s s' -> s.(certificates) !! id = Some c ->
  exists c', s'.(certificates) !! id = Some c' /\ certificate_later c c'.
Proof.
  intros Hh Hc. induction Hh as [|s s' call _ IH Hg]; [by exists c|]. destruct (IH Hc) as (c1 & Hc1 & Hl1).
  pose proof (step_certificates call s' Hg) as Hs. change (certificates s') with (certificate_state s').1 in Hc1.
  change (certificates (perform call s')) with (certificate_state (perform call s')).1.
  clear IH Hg Hc. revert c1 Hc1 Hl1. induction Hs as [|x y z Hxy _ IH]; intros c1 Hc1 Hl1; [by exists c1|].
  destruct (certificate_step_later _ _ _ _ Hxy Hc1) as (c2 & Hc2 & Hl2). eapply IH; [exact Hc2|by etrans].
Qed.

Lemma authenticate_certificate_Ok fingerprint now s x :
  InMemoryNodeRepository.authenticate_certificate fingerprint now s = Ok x ->
  exists id c, s.(certificate_by_fingerprint) !! fingerprint = Some id /\ s.(certificates) !! id = Some c
    /\ NodeCertificate.is_valid_at c now = true
    /\ s.(active_certificate_by_node) !! x.(Node.id) = Some id /\ c.(NodeCertificate.node_id) = x.(Node.id).
Proof.
  unfold InMemoryNodeRepository.authenticate_certificate. rewrite result_bind_Ok. intros (id & Hid & E).
  rewrite result_bind_Ok in E. destruct E as (c & Hc & E). rewrite some_or_Ok in Hid. rewrite some_or_Ok in Hc.
  destruct (_ || _) eqn:Ea; [done|]. reflect_bools. destruct Ea as [Hv Ha].
  unfold InMemoryNodeRepository.authenticated_node in E. rewrite result_bind_Ok in E. destruct E as (n & Hn & E).
  rewrite some_or_Ok in Hn. case_bool_decide; [done|]. simplify_eq.
  apply find_some in Hn as [_ Hp]. reflect_bools. exists id, c. rewrite Hp. by split_and!.
Qed.

Lemma authenticated_owner s c x :
  InMemoryNodeRepository.authenticated_node s c = Ok x ->
  x.(Node.id) = c.(NodeCertificate.node_id) /\ x.(Node.state) <> NodeState.Revoked.
Proof.
  unfold InMemoryNodeRepository.authenticated_node. rewrite result_bind_Ok. intros (n & Hn & E). rewrite some_or_Ok in Hn.
  case_bool_decide; [done|]. simplify_eq. apply find_some in Hn as [_ Hp]. by apply bool_decide_eq_true in Hp.
Qed.

(** The certificate [id] may repeat its rotation: the rotation was completed in the window, and what replaced the
    certificate is the valid certificate of the node. *)
Definition rotated_in_window s (id : NodeCertificateId) (node : NodeId) (now from : Time) : Prop :=
  exists k rotation completed_at replacement,
    s.(rotation_idempotency) !! k = Some rotation
    /\ rotation.(CertificateRotationRecord.current_certificate_id) = id
    /\ rotation.(CertificateRotationRecord.completed_at) = Some completed_at /\ (from <= completed_at <= now)%Z
    /\ rotation.(CertificateRotationRecord.replacement) = Some replacement
    /\ s.(active_certificate_by_node) !! node = Some replacement.(NodeCertificate.id)
    /\ NodeCertificate.is_valid_at replacement now = true.

Lemma replayable_iff s id c now from :
  InMemoryNodeRepository.replayable s id c now from = true <->
  (c.(NodeCertificate.issued_at) <= now < c.(NodeCertificate.expires_at))%Z
  /\ rotated_in_window s id c.(NodeCertificate.node_id) now from.
Proof.
  unfold InMemoryNodeRepository.replayable, any. rewrite !andb_true_iff, existsb_exists, Z.leb_le, Z.ltb_lt. split.
  - intros [Ht (rotation & Hin & Hr)]. split; [done|]. apply list_elem_of_In, elem_of_values in Hin as [k Hk].
    rewrite !andb_true_iff, bool_decide_eq_true in Hr. destruct Hr as [[Hid Hat] Hrep].
    destruct (CertificateRotationRecord.completed_at rotation) as [t|] eqn:Et; [|done].
    destruct (CertificateRotationRecord.replacement rotation) as [r|] eqn:Er; [|done]. cbn in Hat, Hrep.
    apply andb_true_iff in Hat as [?%Z.leb_le ?%Z.leb_le], Hrep as [?%bool_decide_eq_true ?]. by exists k, rotation, t, r.
  - intros [Ht (k & rotation & t & r & Hk & Hid & Hc & Hw & Hr & Ha & Hv)]. split; [done|]. exists rotation.
    rewrite <- list_elem_of_In, elem_of_values. split; [by exists k|].
    rewrite Hc, Hr. cbn. rewrite !andb_true_iff, !bool_decide_eq_true, !Z.leb_le. done.
Qed.

Lemma authenticate_rotation_certificate_Ok fingerprint now from s x :
  InMemoryNodeRepository.authenticate_rotation_certificate fingerprint now from s = Ok x ->
  InMemoryNodeRepository.authenticate_certificate fingerprint now s = Ok x
  \/ exists id c, s.(certificate_by_fingerprint) !! fingerprint = Some id /\ s.(certificates) !! id = Some c
       /\ (c.(NodeCertificate.issued_at) <= now < c.(NodeCertificate.expires_at))%Z
       /\ rotated_in_window s id c.(NodeCertificate.node_id) now from
       /\ x.(Node.id) = c.(NodeCertificate.node_id) /\ x.(Node.state) <> NodeState.Revoked.
Proof.
  unfold InMemoryNodeRepository.authenticate_rotation_certificate, InMemoryNodeRepository.authenticate_certificate.
  destruct (now <? from)%Z; [done|]. rewrite result_bind_Ok. intros (id & Hid & E). rewrite Hid. cbn.
  rewrite result_bind_Ok in E. destruct E as (c & Hc & E). rewrite Hc. cbn.
  apply some_or_Ok in Hid, Hc. destruct (_ && bool_decide (_ = Some id)) eqn:Ha; cbn in E.
  - left. apply andb_true_iff in Ha as [-> ->]. done.
  - destruct (InMemoryNodeRepository.replayable _ _ _ _ _) eqn:Hr; [|done]. cbn in E.
    apply replayable_iff in Hr as [Ht Hw]. apply authenticated_owner in E as [? ?]. right. by exists id, c.
Qed.

(** C20: At any time at most one certificate authenticates a node for its calls, and a certificate that was
    revoked, by a rotation or with its node, never does so again.  The check made only for a repeated rotation
    request also accepts a revoked certificate, but only an unexpired one, of a node that is not revoked, whose
    own rotation was completed within the given window, and while the certificate that replaced it is the
    node's active and valid one. *)
Theorem certificate_exclusive s :
  reachable s ->
  (forall fingerprint fingerprint' now now' x x',
     InMemoryNodeRepository.authenticate_certificate fingerprint now s = Ok x ->
     InMemoryNodeRepository.authenticate_certificate fingerprint' now' s = Ok x' ->
     x.(Node.id) = x'.(Node.id) -> fingerprint = fingerprint')
  /\ (forall id c s' now x,
     s.(certificates) !! id = Some c -> is_some c.(NodeCertificate.revoked_at) = true -> history s s' ->
     InMemoryNodeRepository.authenticate_certificate c.(NodeCertificate.fingerprint) now s' <> Ok x
     /\ forall from,
          InMemoryNodeRepository.authenticate_rotation_certificate c.(NodeCertificate.fingerprint) now from s' = Ok x ->
          x.(Node.id) = c.(NodeCertificate.node_id) /\ x.(Node.state) <> NodeState.Revoked
          /\ rotated_in_window s' id c.(NodeCertificate.node_id) now from
          /\ exists c', s'.(certificates) !! id = Some c'
               /\ (c'.(NodeCertificate.issued_at) <= now < c'.(NodeCertificate.expires_at))%Z).
Proof.
  intros Hr. pose proof (reachable_index _ Hr) as Hi. split.
  - intros fp fp' now now' x x' (id & c & Hf & Hc & _ & Ha & _)%authenticate_certificate_Ok
      (id' & c' & Hf' & Hc' & _ & Ha' & _)%authenticate_certificate_Ok E. rewrite E in Ha.
    assert (id = id') as <- by congruence.
    apply Hi in Hf as (y & Hy & <-), Hf' as (y' & Hy' & <-). congruence.
  - intros id c s' now x Hc Hrev Hh.
    destruct (history_certificate _ _ _ _ Hh Hc) as (c1 & Hc1 & Hfp & Hnode & Hrev1).
    assert (s'.(certificate_by_fingerprint) !! c.(NodeCertificate.fingerprint) = Some id) as Hf1.
    { apply (reachable_index _ (history_reachable _ _ Hr Hh)). exists c1. by rewrite Hfp. }
    assert (Hno : InMemoryNodeRepository.authenticate_certificate c.(NodeCertificate.fingerprint) now s' <> Ok x).
    { intros (id' & c' & Hf & Hc' & Hv & _)%authenticate_certificate_Ok.
      assert (id = id') as <- by congruence. assert (c1 = c') as -> by congruence.
      unfold NodeCertificate.is_valid_at, is_none in Hv. rewrite (Hrev1 Hrev) in Hv. done. }
    split; [done|]. intros from [?|(id' & c' & Hf & Hc' & Ht & Hw & Hx & Hs)]%authenticate_rotation_certificate_Ok; [done|].
    assert (id' = id) as -> by congruence. assert (c' = c1) as -> by congruence. rewrite Hnode in Hw, Hx.
    split_and!; try done. by exists c1.
Qed.

End certificates.
