(* ===== verification/FleetDelivery.v ===== *)
(** * Delivery of commands

    A lease hands out the next commands of the node in their order, stops at the first that is
    still leased, and touches no other command.  An acknowledged command is closed: its lease and
    its acknowledgement stay as they are, whatever is asked afterwards. *)

From Stdlib Require Import ZArith NArith Lia String.
From stdpp Require Import gmap.
From S2P Require Import Prelude RustStd BTreeMap External Text SharedKernel Repositories Resources NodeInventory NodeClaims.
From S2P Require Import NodeGateway NodeCommands NodeObservations NodeSessions LogRetention NodePools Fleet.
From S2P Require Import FleetRepository FleetControl FleetLifecycle FleetFrame FleetQueue.
Import State.

Section leasing.
Context `{RuntimeReports}.
Implicit Types (s : State.t) (st : StoredNodeCommand.t) (request : NodeCommandLeaseRequest.t).

Definition sequence_of st : N := st.(StoredNodeCommand.command).(NodeCommand.sequence).
Definition id_of st : NodeCommandId := st.(StoredNodeCommand.command).(NodeCommand.id).

(** The commands of a node, in the order of their sequences. *)
Definition stored_of s (node_id : NodeId) : list StoredNodeCommand.t :=
  sort_by_key sequence_of
    (List.filter (fun st => st.(StoredNodeCommand.command).(NodeCommand.node_id) == node_id) (values s.(commands))).

Definition is_open (after : N) st : bool :=
  (after <? sequence_of st)%N && is_none st.(StoredNodeCommand.acknowledgement).

Definition lease_live (now : Time) st : bool :=
  is_some_and (fun lease => (now <? lease.(CommandLease.leased_until))%Z) st.(StoredNodeCommand.lease).

(** The commands a lease request is due: the first that are neither acknowledged nor known to the
    agent, up to the first whose lease has not expired, and no more than it asks for. *)
Definition due s request (now : Time) : list StoredNodeCommand.t :=
  take (N.to_nat request.(NodeCommandLeaseRequest.max_commands))
    (take_while (fun st => negb (lease_live now st))
       (List.filter (is_open request.(NodeCommandLeaseRequest.after_sequence))
          (stored_of s request.(NodeCommandLeaseRequest.node_id)))).

Lemma values_id s st : queues_ok s.(nodes) (queue s) -> st ∈ values s.(commands) -> s.(commands) !! id_of st = Some st.
Proof.
  intros Hq [id Hid]%elem_of_values. unfold id_of. rewrite (command_key _ _ Hq id); [done|].
  apply queue_lookup. eauto.
Qed.

Lemma elem_of_stored_of s node_id st :
  st ∈ stored_of s node_id <-> st.(StoredNodeCommand.command).(NodeCommand.node_id) = node_id /\ st ∈ values s.(commands).
Proof.
  unfold stored_of. rewrite sort_by_key_perm, list_elem_of_In, filter_In, <- list_elem_of_In, bool_decide_eq_true. tauto.
Qed.

Lemma stored_of_NoDup s node_id : queues_ok s.(nodes) (queue s) -> NoDup (sequence_of <$> stored_of s node_id).
Proof.
  intros Hq. unfold stored_of. rewrite sort_by_key_perm. apply NoDup_fmap_values.
  intros id id' st st' Hst Hst' Hp Hp' E. reflect_bools.
  eapply (command_distinct _ _ Hq); [apply queue_lookup; eauto..|congruence|exact E].
Qed.

(** The list the repository builds is the one of the specification. *)
Lemma unacknowledged_open s request : queues_ok s.(nodes) (queue s) ->
  CommandQueue.unacknowledged s request
  = (fun st => (id_of st, sequence_of st))
      <$> List.filter (is_open request.(NodeCommandLeaseRequest.after_sequence))
            (stored_of s request.(NodeCommandLeaseRequest.node_id)).
Proof.
  intros Hq. set (g := fun st => (id_of st, sequence_of st)). set (l := List.filter _ (stored_of _ _)).
  assert (Hs : StronglySorted (key_le (snd (A:=N) (B:=N))) (g <$> l)).
  { eapply (fmap_sorted (key_le sequence_of)); [done|]. apply filter_sorted, sort_by_key_sorted. }
  rewrite <- (sort_by_key_id _ _ Hs). unfold CommandQueue.unacknowledged. symmetry.
  assert (Hnd : NoDup (sequence_of <$> l)) by (by apply NoDup_fmap_filter, stored_of_NoDup).
  apply sort_by_key_unique; [by rewrite <- list_fmap_compose|].
  apply NoDup_Permutation.
  - apply (NoDup_fmap_1 snd). by rewrite <- list_fmap_compose.
  - apply (NoDup_fmap_1 fst). rewrite <- list_fmap_compose. apply NoDup_fmap_filter, entries_of_keys.
  - intros x. rewrite !list_elem_of_fmap. split.
    + intros (st & -> & [[Hn Hv]%elem_of_stored_of Ho]%elem_of_filter). exists (id_of st, st). split; [done|].
      apply elem_of_filter. unfold is_open in Ho. simpl. rewrite Hn, bool_decide_eq_true_2 by done.
      split; [|done]. by apply elem_of_entries, values_id.
    + intros ([id st] & -> & [Hin%elem_of_entries Hp]%elem_of_filter). simpl in *.
      assert (Hv : st ∈ values s.(commands)) by (apply elem_of_values; eauto).
      rewrite !andb_true_iff, bool_decide_eq_true in Hp. destruct Hp as [[Hn Ha] Hk]. exists st. split.
      * unfold g. f_equal. symmetry. apply (command_key _ _ Hq). apply queue_lookup. eauto.
      * apply elem_of_filter. unfold is_open, sequence_of. rewrite Ha, Hk. split; [|done]. by apply elem_of_stored_of.
Qed.

Lemma select_spec s now room l :
  room <> 0%nat -> (forall st, st ∈ l -> s.(commands) !! id_of st = Some st) ->
  CommandQueue.select s now room ((fun st => (id_of st, sequence_of st)) <$> l)
  = Ok (id_of <$> take room (take_while (fun st => negb (lease_live now st)) l)).
Proof.
  revert room. induction l as [|st l IH]; intros room Hr Hl; simpl; [by rewrite take_nil|].
  rewrite (Hl st) by left. simpl. fold (lease_live now st). destruct (lease_live now st); simpl; [by rewrite take_nil|].
  destruct room as [|[|room]]; [done| |]; [by rewrite firstn_cons, firstn_O|]. cbn [pred].
  rewrite IH; [done|done|]. intros st' Hst'. apply Hl. by right.
Qed.

(** What leasing some commands does to each of them. *)
Definition with_lease (lease : CommandLease.t) (ids : list NodeCommandId) (id : NodeCommandId) st : StoredNodeCommand.t :=
  if bool_decide (id ∈ ids) then st <| StoredNodeCommand.lease := Some lease |> else st.

Lemma assign_leases_exact lease ids s s' envelopes :
  CommandQueue.assign_leases lease ids s = (s', Ok envelopes) ->
  s' = s <| commands := s'.(commands) |>
  /\ (forall id, s'.(commands) !! id = with_lease lease ids id <$> s.(commands) !! id)
  /\ Forall2 (fun id envelope => exists st, s.(commands) !! id = Some st
       /\ NodeCommand.envelope st.(StoredNodeCommand.command) lease.(CommandLease.lease_id) = Ok envelope) ids envelopes.
Proof.
  revert s s' envelopes. induction ids as [|id ids IH]; intros s s' envelopes E.
  { simpl in E. autorewrite with methods in E. simplify_eq. split_and!; [by destruct s'| |constructor].
    intros id. destruct (commands s' !! id); simpl; [|done]. unfold with_lease.
    by rewrite bool_decide_eq_false_2 by apply not_elem_of_nil. }
  cbn [CommandQueue.assign_leases] in E. autorewrite with methods in E.
  destruct (commands s !! id) as [st|] eqn:Hs; simpl in E; [|done]. autorewrite with methods in E.
  destruct (NodeCommand.envelope _ _) as [envelope|] eqn:He; simpl in E; [|done].
  unfold mbind, method_bind in E.
  destruct (CommandQueue.assign_leases lease ids _) as [s2 [envelopes2|]] eqn:Ea; unfold mret, method_ret in E; [|done].
  injection E as <- <-. apply IH in Ea as (E2 & Hc & Hf). simpl in *. split_and!.
  - rewrite E2. by destruct s, s2.
  - intros id'. rewrite Hc. unfold with_lease. destruct (decide (id = id')) as [<-|Hne].
    + rewrite lookup_insert_eq, Hs; simpl. rewrite (bool_decide_eq_true_2 (id ∈ id :: ids)) by left. by case_bool_decide.
    + rewrite lookup_insert_ne by done. destruct (commands s !! id'); simpl; [|done]. f_equal.
      erewrite bool_decide_ext; [reflexivity|]. rewrite elem_of_cons. naive_solver.
  - constructor; [eauto|]. eapply Forall2_impl; [exact Hf|]. simpl. intros id' env' (st' & Hst' & He').
    apply lookup_insert_Some in Hst' as [[<- <-]|[_ Hst']]; eauto.
Qed.

Lemma due_stored s request now st :
  queues_ok s.(nodes) (queue s) -> st ∈ due s request now ->
  s.(commands) !! id_of st = Some st /\ st.(StoredNodeCommand.acknowledgement) = None.
Proof.
  intros Hq Hin. unfold due in Hin. apply elem_of_take in Hin as (i & Hi & _).
  apply list_elem_of_lookup_2, elem_of_take_while in Hi as [[[_ Hv]%elem_of_stored_of Ho]%elem_of_filter _].
  split; [by apply values_id|]. unfold is_open in Ho. apply andb_true_iff in Ho as [_ Ho].
  by destruct (StoredNodeCommand.acknowledgement st).
Qed.

(** The commands that are not leased stay as they are, even when leasing fails half way. *)
Lemma assign_leases_others lease ids s id :
  id ∉ ids -> (run_state (CommandQueue.assign_leases lease ids) s).(commands) !! id = s.(commands) !! id.
Proof.
  unfold run_state. revert s. induction ids as [|id' ids IH]; intros s Hid; [done|].
  rewrite not_elem_of_cons in Hid. destruct Hid as [Hne Hid]. cbn [CommandQueue.assign_leases].
  autorewrite with methods. destruct (commands s !! id') as [st|]; simpl; [|done]. autorewrite with methods.
  destruct (NodeCommand.envelope _ _); simpl; [|by rewrite lookup_insert_ne].
  specialize (IH (s <| commands := <[id' := st <| StoredNodeCommand.lease := Some lease |>]> s.(commands) |>) Hid).
  unfold mbind, method_bind. destruct (CommandQueue.assign_leases lease ids _) as [s2 [envelopes|]]; simpl in *;
    rewrite IH; by rewrite lookup_insert_ne.
Qed.

(** What [lease_commands] does: nothing, or it leases the commands that are due and answers with
    their envelopes. *)
Lemma lease_cases request lease_id now leased_until s :
  queues_ok s.(nodes) (queue s) ->
  let lease := CommandLease.Mk lease_id request.(NodeCommandLeaseRequest.agent_instance_id)
                 (canonical_timestamp leased_until) in
  let leasing := CommandQueue.assign_leases lease (id_of <$> due s request (canonical_timestamp now)) in
  (exists e, CommandQueue.lease_commands request lease_id now leased_until s = (s, Err e))
  \/ run_state (CommandQueue.lease_commands request lease_id now leased_until) s = run_state leasing s
     /\ (forall response, run_result (CommandQueue.lease_commands request lease_id now leased_until) s = Ok response ->
           run_result leasing s = Ok response.(NodeCommandLeaseResponse.commands)
           /\ response.(NodeCommandLeaseResponse.node_id) = request.(NodeCommandLeaseRequest.node_id)).
Proof.
  intros Hq. cbv zeta. set (lease := CommandLease.Mk _ _ _). unfold run_state, run_result.
  destruct (CommandQueue.lease_commands request lease_id now leased_until s) as [s' r] eqn:E.
  unfold CommandQueue.lease_commands in E. exec_call E; try (injection E as <- <-; left; eauto; fail). fold lease in E.
  match goal with Hs : CommandQueue.select _ _ _ _ = Ok _ |- _ => rename Hs into Hsel end.
  assert (Hroom : N.to_nat request.(NodeCommandLeaseRequest.max_commands) <> 0%nat).
  { match goal with Hv : map_err _ _ = Ok ?u |- _ => destruct u; apply map_err_Ok in Hv;
      unfold NodeCommandLeaseRequest.validate in Hv; autorewrite with results in Hv;
      destruct Hv as (_ & _ & _ & Hv); reflect_bools; lia end. }
  rewrite (unacknowledged_open s request Hq), select_spec in Hsel;
    [|done|intros st [[_ Hv]%elem_of_stored_of _]%elem_of_filter; by apply values_id].
  injection Hsel as <-. fold (due s request (canonical_timestamp now)) in E. right. unfold mbind, method_bind in E.
  destruct (CommandQueue.assign_leases lease _ s) as [s1 [envelopes|]]; [|by injection E as <- <-].
  unfold lift, mret, method_ret in E. simpl in E.
  destruct (map_err RepositoryError.Storage (NodeCommandLeaseResponse.validate _ _)) as [[]|];
    injection E as <- <-; (split; [done|]); intros ? [=]; by subst.
Qed.

Lemma due_node s request now st :
  st ∈ due s request now -> st.(StoredNodeCommand.command).(NodeCommand.node_id) = request.(NodeCommandLeaseRequest.node_id).
Proof.
  unfold due. intros (i & Hi & _)%elem_of_take.
  by apply list_elem_of_lookup_2, elem_of_take_while in Hi as [[[Hn _]%elem_of_stored_of _]%elem_of_filter _].
Qed.

Lemma lease_commands_exact request lease_id now leased_until s response :
  queues_ok s.(nodes) (queue s) ->
  run_result (CommandQueue.lease_commands request lease_id now leased_until) s = Ok response ->
  let lease := CommandLease.Mk lease_id request.(NodeCommandLeaseRequest.agent_instance_id)
                 (canonical_timestamp leased_until) in
  let s' := perform (LeaseCommands request lease_id now leased_until) s in
  let leased := due s request (canonical_timestamp now) in
  s' = s <| commands := s'.(commands) |>
  /\ (forall id, s'.(commands) !! id = with_lease lease (id_of <$> leased) id <$> s.(commands) !! id)
  /\ Forall2 (fun st envelope => NodeCommand.envelope st.(StoredNodeCommand.command) lease_id = Ok envelope)
       leased response.(NodeCommandLeaseResponse.commands)
  /\ response.(NodeCommandLeaseResponse.node_id) = request.(NodeCommandLeaseRequest.node_id).
Proof.
  intros Hq Hr. cbv zeta. set (lease := CommandLease.Mk _ _ _).
  destruct (lease_cases request lease_id now leased_until s Hq) as [[e E]|[E Ho]]; fold lease in E.
  { unfold run_result in Hr. by rewrite E in Hr. }
  fold lease in Ho. destruct (Ho _ Hr) as [Ha Hn]. clear Ho. simpl. rewrite E. unfold run_state, run_result in *.
  destruct (CommandQueue.assign_leases lease _ s) as [s1 r1] eqn:Ea. simpl in *. subst r1.
  apply assign_leases_exact in Ea as (E1 & Hc & Hf). split_and!; [done|done| |done].
  apply Forall2_fmap_l in Hf. eapply Forall2_impl_in; [|exact Hf]. intros st envelope Hst (st' & Hst' & He).
  destruct (due_stored _ _ _ _ Hq Hst) as [Hid _]. simplify_eq. exact He.
Qed.

Lemma envelope_Ok (c : NodeCommand.t) lease_id envelope :
  NodeCommand.envelope c lease_id = Ok envelope ->
  envelope.(NodeCommandEnvelope.command_id) = c.(NodeCommand.id)
  /\ envelope.(NodeCommandEnvelope.lease_id) = lease_id
  /\ envelope.(NodeCommandEnvelope.node_id) = c.(NodeCommand.node_id)
  /\ envelope.(NodeCommandEnvelope.sequence) = c.(NodeCommand.sequence).
Proof.
  unfold NodeCommand.envelope, NodeCommandEnvelope.new.
  rewrite result_bind_Ok. intros (digest & _ & E). rewrite then_Ok in E. by destruct E as [_ [= <-]].
Qed.

Lemma due_not_live s request now st : st ∈ due s request now -> lease_live now st = false.
Proof.
  unfold due. intros (i & Hi & _)%elem_of_take. apply list_elem_of_lookup_2, elem_of_take_while in Hi as [_ Hi].
  by destruct (lease_live now st).
Qed.

(** C17: A lease hands out exactly the commands that are due: the first, in the order of their
    sequences, that are not acknowledged and that the agent does not know, up to the first whose
    lease is still running.  They get the lease, and nothing else of the repository changes; a
    command whose lease is running is in no answer. *)
Theorem lease_exact s request lease_id now leased_until response :
  reachable s ->
  run_result (CommandQueue.lease_commands request lease_id now leased_until) s = Ok response ->
  let lease := CommandLease.Mk lease_id request.(NodeCommandLeaseRequest.agent_instance_id)
                 (canonical_timestamp leased_until) in
  let s' := perform (LeaseCommands request lease_id now leased_until) s in
  let leased := due s request (canonical_timestamp now) in
  Forall2 (fun st envelope => NodeCommand.envelope st.(StoredNodeCommand.command) lease_id = Ok envelope)
    leased response.(NodeCommandLeaseResponse.commands)
  /\ s' = s <| commands := s'.(commands) |>
  /\ (forall id, s'.(commands) !! id = with_lease lease (id_of <$> leased) id <$> s.(commands) !! id)
  /\ (forall id st envelope, s.(commands) !! id = Some st -> lease_live (canonical_timestamp now) st = true ->
        envelope ∈ response.(NodeCommandLeaseResponse.commands) -> envelope.(NodeCommandEnvelope.command_id) <> id).
Proof.
  intros Hr Hl. pose proof (reachable_queues _ Hr) as Hq.
  destruct (lease_commands_exact _ _ _ _ _ _ Hq Hl) as (Hs & Hc & Hf & _). cbv zeta. split_and!; [done..|].
  intros id st envelope Hst Hlive Hin Hid.
  destruct (list_elem_of_lookup_1 _ _ Hin) as [i Hi]. destruct (Forall2_lookup_r _ _ _ _ _ Hf Hi) as (st' & Hi' & He).
  apply list_elem_of_lookup_2 in Hi'. destruct (envelope_Ok _ _ _ He) as [Hcid _].
  destruct (due_stored _ _ _ _ Hq Hi') as [Hst' _]. unfold id_of in Hst'. rewrite <- Hcid, Hid in Hst'.
  simplify_eq. by rewrite (due_not_live _ _ _ _ Hi') in Hlive.
Qed.

End leasing.

Section acknowledging.
Context `{RuntimeReports}.
Implicit Types (s : State.t) (st : StoredNodeCommand.t) (a : NodeCommandAck.t).

(** What was checked before an acknowledgement was stored: it answers the exact command under the
    lease the command holds, and it was completed in time. *)
Definition acknowledged_under st a : Prop :=
  exists lease envelope,
    st.(StoredNodeCommand.lease) = Some lease
    /\ NodeCommand.envelope st.(StoredNodeCommand.command) lease.(CommandLease.lease_id) = Ok envelope
    /\ NodeCommandAck.validate_against a envelope = Ok tt
    /\ (a.(NodeCommandAck.completed_at) <= lease.(CommandLease.leased_until))%Z
    /\ (CommandQueue.is_succeeded a.(NodeCommandAck.outcome) = true ->
        (a.(NodeCommandAck.completed_at) <= st.(StoredNodeCommand.command).(NodeCommand.not_after))%Z).

Lemma check_acknowledgement_Ok st a :
  CommandQueue.check_acknowledgement st a = Ok tt -> acknowledged_under st a.
Proof.
  unfold CommandQueue.check_acknowledgement. rewrite result_bind_Ok. intros (lease & Hl & E).
  rewrite some_or_Ok in Hl. rewrite then_Ok, result_bind_Ok in E. destruct E as (_ & envelope & He & E).
  rewrite map_err_Ok in He. rewrite then_Ok, map_err_Ok, then_Ok in E. destruct E as (Hv & Hu & Hn).
  exists lease, envelope. split_and!; [done..| |].
  - destruct (_ <? _)%Z eqn:E; [done|]. by apply Z.ltb_ge.
  - intros Hs. rewrite Hs in Hn. destruct (true && _) eqn:E; [done|]. simpl in E. lia.
Qed.

(** A call leaves an acknowledged command as it is. *)
Lemma step_acknowledged cl s id st :
  queues_ok s.(nodes) (queue s) -> s.(commands) !! id = Some st -> is_some st.(StoredNodeCommand.acknowledgement) = true ->
  (perform cl s).(commands) !! id = Some st.
Proof.
  intros Hq Hst Ha. destruct (queue_call cl) eqn:Hc.
  2: { destruct (perform_kept cl s Hc) as [-> _]. done. }
  destruct cl; try discriminate Hc; clear Hc.
  - destruct (reserve_enrollment_effect credential draft s) as [-> _]. done.
  - destruct (enqueue_effect draft s) as [->|(k & n & c & _ & _ & Hnew & _ & Hi & _ & ->)]; [done|].
    apply issue_Ok in Hi as (_ & Hid & _). rewrite lookup_insert_ne; [done|]. rewrite Hid. congruence.
  - simpl. destruct (lease_cases request lease_id now leased_until s Hq) as [[e E]|[-> _]].
    { unfold run_state. by rewrite E. }
    rewrite assign_leases_others; [done|]. intros (st' & -> & Hin)%list_elem_of_fmap.
    destruct (due_stored _ _ _ _ Hq Hin) as [Hst' Hn]. simplify_eq. by rewrite Hn in Ha.
  - destruct (acknowledge_effect acknowledgement s) as [->|(st' & Hs & Hn & _ & ->)]; [done|]. simpl.
    rewrite lookup_insert_ne; [done|]. intros E. rewrite E in Hs. simplify_eq. by rewrite Hn in Ha.
Qed.

(** A command that was enqueued stays in the queue. *)
Lemma step_queue cl s id c : queue s !! id = Some c -> queue (perform cl s) !! id = Some c.
Proof.
  intros Hc. destruct (queue_call cl) eqn:Hq.
  2: { unfold queue in *. by destruct (perform_kept cl s Hq) as [-> _]. }
  destruct cl; try discriminate Hq; clear Hq.
  - unfold queue in *. by destruct (reserve_enrollment_effect credential draft s) as [-> _].
  - destruct (enqueue_effect draft s) as [->|(k & n & c' & _ & _ & Hnew & _ & Hi & _ & E)]; [done|].
    unfold queue in *. rewrite E, fmap_insert. apply issue_Ok in Hi as (_ & Hid & _).
    rewrite lookup_insert_ne; [done|]. intros E'. rewrite <- E', Hid, lookup_fmap, Hnew in Hc. done.
  - destruct (lease_commands_spec request lease_id now leased_until s) as [Hl _]. by rewrite (leased_queue _ _ _ Hl).
  - destruct (acknowledge_effect acknowledgement s) as [->|(st & Hs & _ & _ & ->)]; [done|].
    by rewrite (queue_update s _ st).
Qed.

Lemma history_queues s s' : reachable s -> history s s' -> queues_ok s'.(nodes) (queue s').
Proof. intros Hr Hh. apply reachable_queues. by eapply history_trans. Qed.

Lemma history_acknowledged s s' id st :
  reachable s -> history s s' -> s.(commands) !! id = Some st -> is_some st.(StoredNodeCommand.acknowledgement) = true ->
  s'.(commands) !! id = Some st.
Proof.
  intros Hr Hh Hst Ha. induction Hh as [|s s' cl Hh IH Hg]; [done|].
  apply step_acknowledged; [by eapply history_queues|by apply IH|done].
Qed.

Lemma canonicalize_command_id a :
  (NodeCommand.canonicalize_acknowledgement a).(NodeCommandAck.command_id) = a.(NodeCommandAck.command_id).
Proof. unfold NodeCommand.canonicalize_acknowledgement. simpl. by case_match. Qed.

(** Where a stored acknowledgement comes from. *)
Lemma acknowledgement_origin cl s id st a :
  queues_ok s.(nodes) (queue s) ->
  (perform cl s).(commands) !! id = Some st -> st.(StoredNodeCommand.acknowledgement) = Some a ->
  s.(commands) !! id = Some st
  \/ exists ack st0, cl = AcknowledgeCommand ack /\ ack.(NodeCommandAck.command_id) = id
       /\ a = NodeCommand.canonicalize_acknowledgement ack
       /\ s.(commands) !! id = Some st0 /\ CommandQueue.check_acknowledgement st0 a = Ok tt
       /\ st = st0 <| StoredNodeCommand.acknowledgement := Some a |>.
Proof.
  intros Hq Hst Ha. destruct (queue_call cl) eqn:Hc.
  2: { destruct (perform_kept cl s Hc) as [E _]. rewrite E in Hst. by left. }
  destruct cl; try discriminate Hc; clear Hc.
  - destruct (reserve_enrollment_effect credential draft s) as [E _]. rewrite E in Hst. by left.
  - destruct (enqueue_effect draft s) as [E|(k & n & c & _ & _ & _ & _ & _ & _ & E)]; rewrite E in Hst; [by left|].
    apply lookup_insert_Some in Hst as [[_ <-]|[_ Hst]]; [done|by left].
  - left. destruct (lease_commands_spec request lease_id now leased_until s) as [[_ Hl] _]. specialize (Hl id).
    rewrite Hst in Hl. destruct (s.(commands) !! id) as [st0|] eqn:E0; [|done]. destruct Hl as (_ & Hack & _).
    assert (Hk : (perform (LeaseCommands request lease_id now leased_until) s).(commands) !! id = Some st0).
    { apply step_acknowledged; [done..|]. by rewrite <- Hack, Ha. }
    congruence.
  - destruct (acknowledge_effect acknowledgement s) as [E|(st0 & Hs & Hn & Hcheck & E)]; rewrite E in Hst; [by left|].
    simpl in Hst. apply lookup_insert_Some in Hst as [[<- <-]|[_ Hst]]; [|by left]. right. simpl in Ha.
    injection Ha as <-. exists acknowledgement, st0. by split_and!.
Qed.

Lemma reachable_acknowledged s id st a :
  reachable s -> s.(commands) !! id = Some st -> st.(StoredNodeCommand.acknowledgement) = Some a -> acknowledged_under st a.
Proof.
  intros Hr. revert id st a. unfold reachable in Hr. remember State.empty as s0 eqn:E.
  induction Hr as [|s0 s cl Hh IH Hg]; subst; intros id st a Hst Ha.
  { unfold State.empty in Hst. simpl in Hst. by rewrite lookup_empty in Hst. }
  destruct (acknowledgement_origin cl s id st a (reachable_queues _ Hh) Hst Ha)
    as [Hst'|(ack & st0 & _ & _ & _ & _ & Hc & ->)]; [by eapply IH|].
  exact (check_acknowledgement_Ok _ _ Hc).
Qed.

(** C16: An acknowledgement is stored only when it answers the exact command under the lease the
    command holds and was completed in time, and it closes the command.  In every later state the
    command, its lease and its acknowledgement are the same, no lease hands the command out, and
    another acknowledgement of it changes nothing: the same one is answered as a repetition, any
    other is refused. *)
Theorem acknowledgement_final s s' id st a :
  reachable s -> history s s' ->
  s.(commands) !! id = Some st -> st.(StoredNodeCommand.acknowledgement) = Some a ->
  acknowledged_under st a
  /\ s'.(commands) !! id = Some st
  /\ (forall request lease_id now leased_until response envelope,
        run_result (CommandQueue.lease_commands request lease_id now leased_until) s' = Ok response ->
        envelope ∈ response.(NodeCommandLeaseResponse.commands) -> envelope.(NodeCommandEnvelope.command_id) <> id)
  /\ (forall ack, ack.(NodeCommandAck.command_id) = id ->
        CommandQueue.acknowledge_command ack s'
        = (s', if NodeCommand.canonicalize_acknowledgement ack == a then Ok (IdempotentWrite.Mk a true)
               else Err (conflict_error "command acknowledgement was replayed with different content"))).
Proof.
  intros Hr Hh Hst Ha. pose proof (history_queues _ _ Hr Hh) as Hq.
  assert (Hst' : s'.(commands) !! id = Some st) by (eapply history_acknowledged; eauto; by rewrite Ha).
  split_and!; [by eapply reachable_acknowledged|done| |].
  - intros request lid now until response envelope Hl Hin Hid.
    destruct (lease_commands_exact _ _ _ _ _ _ Hq Hl) as (_ & _ & Hf & _).
    destruct (list_elem_of_lookup_1 _ _ Hin) as [i Hi]. destruct (Forall2_lookup_r _ _ _ _ _ Hf Hi) as (x & Hx & He).
    apply list_elem_of_lookup_2 in Hx. destruct (due_stored _ _ _ _ Hq Hx) as [Hx' Hn].
    destruct (envelope_Ok _ _ _ He) as [Hcid _]. unfold id_of in Hx'. rewrite <- Hcid, Hid in Hx'. congruence.
  - intros ack Hid. unfold CommandQueue.acknowledge_command. autorewrite with methods. cbv zeta.
    rewrite canonicalize_command_id, Hid, Hst'. simpl. autorewrite with methods. rewrite Ha.
    destruct (decide (a = NodeCommand.canonicalize_acknowledgement ack)) as [E|E].
    + rewrite !bool_decide_eq_true_2 by done. done.
    + rewrite !bool_decide_eq_false_2 by done. done.
Qed.

End acknowledging.
