(* ===== verification/FleetLogs.v ===== *)
(** * Logs in the node repository

    A position of a log holds a chunk, a gap, or nothing; a chunk that was retained is compacted
    away and leaves its position in a range.  Whatever is received afterwards, a position that was
    used is not written again. *)

From Stdlib Require Import ZArith NArith Lia String.
From stdpp Require Import gmap.
From S2P Require Import Prelude RustStd BTreeMap External Text SharedKernel Repositories Resources NodeInventory NodeClaims.
From S2P Require Import NodeGateway NodeCommands NodeObservations NodeSessions LogRetention NodePools Fleet.
From S2P Require Import FleetRepository FleetControl FleetLifecycle FleetFrame FleetQueue.
Import State.

Section logs.
Context `{RuntimeReports}.
Implicit Types (s : State.t) (p : NodeId * string * N * N).

#[local] Abbreviation chunk_key node_id chunk :=
  (LogRepository.chunk_stream node_id chunk, NodeLogChunkReceiptDraft.sequence chunk).
#[local] Abbreviation gap_key node_id gap :=
  (LogRepository.gap_stream node_id gap, NodeLogGapReceiptDraft.sequence gap).

(** ** Storing a batch *)

(** [entry(key).or_insert_with(..)] for every element of a list. *)
Section or_insert.
Context {A V : Type} (key : A -> NodeId * string * N * N) (value : A -> V).
Let or_insert (l : list A) (m : gmap (NodeId * string * N * N) V) :=
  foldl (fun m x => if is_some (m !! key x) then m else <[key x := value x]> m) m l.

Lemma or_insert_lookup l m p v :
  or_insert l m !! p = Some v -> m !! p = Some v \/ (m !! p = None /\ exists x, x ∈ l /\ key x = p).
Proof.
  revert m. induction l as [|x l IH]; intros m; simpl; [by left|]. intros Hv%IH.
  destruct (m !! key x) as [y|] eqn:Ey; simpl in Hv.
  - destruct Hv as [?|(? & c & ? & ?)]; [by left|]. right. split; [done|]. exists c. split; [by right|done].
  - destruct Hv as [[[<- _]|[_ Hv]]%lookup_insert_Some|([Hn _]%lookup_insert_None & c & Hc & E)].
    + right. split; [done|]. exists x. split; [left|done].
    + by left.
    + right. split; [done|]. exists c. split; [by right|done].
Qed.

Lemma or_insert_kept l m p v : m !! p = Some v -> or_insert l m !! p = Some v.
Proof.
  revert m. induction l as [|x l IH]; intros m Hv; simpl; [done|]. apply IH.
  destruct (m !! key x) as [y|] eqn:Ey; simpl; [done|]. rewrite lookup_insert_ne; [done|congruence].
Qed.
End or_insert.

(** A batch has no chunk and gap of one stream. *)
Lemma validate_chunks_targets seen l seen' :
  NodeLogBatchReceiptDraft.validate_chunks seen l = Ok seen' ->
  seen.(LogIdentities.chunk_targets) ⊆ seen'.(LogIdentities.chunk_targets)
  /\ forall chunk, chunk ∈ l ->
     (chunk.(NodeLogChunkReceiptDraft.unit_id), chunk.(NodeLogChunkReceiptDraft.generation)) ∈ seen'.(LogIdentities.chunk_targets).
Proof.
  revert seen. induction l as [|chunk l IH]; intros seen; simpl.
  { intros [= <-]. split; [done|]. by intros ? ?%not_elem_of_nil. }
  rewrite !then_Ok. intros (_ & _ & _ & [Hs Hl]%IH). simpl in Hs. split; [set_solver|].
  intros c [->|Hc]%elem_of_cons; [set_solver|by apply Hl].
Qed.

Lemma validate_gaps_targets seen l gap :
  NodeLogBatchReceiptDraft.validate_gaps seen l = Ok tt -> gap ∈ l ->
  (gap.(NodeLogGapReceiptDraft.unit_id), gap.(NodeLogGapReceiptDraft.generation)) ∉ seen.(LogIdentities.chunk_targets).
Proof.
  revert seen. induction l as [|g l IH]; intros seen; simpl; [by intros _ ?%not_elem_of_nil|].
  rewrite !then_Ok, fail_if_Ok. intros (_ & Hg & Hl) [->|Hin]%elem_of_cons.
  - apply orb_false_iff in Hg as [Hg _]. unfold LogIdentities.has_chunks in Hg. by apply bool_decide_eq_false in Hg.
  - exact (IH _ Hl Hin).
Qed.

Lemma batch_exclusive batch chunk gap :
  NodeLogBatchReceiptDraft.validate batch = Ok tt ->
  chunk ∈ batch.(NodeLogBatchReceiptDraft.chunks) -> gap ∈ batch.(NodeLogBatchReceiptDraft.gaps) ->
  forall node_id, LogRepository.chunk_stream node_id chunk <> LogRepository.gap_stream node_id gap.
Proof.
  unfold NodeLogBatchReceiptDraft.validate. rewrite result_bind_Ok. intros (n & _ & E). rewrite then_Ok, result_bind_Ok in E.
  destruct E as (_ & seen & Hc & Hg). intros Hchunk Hgap node_id [= Eu Eg].
  destruct (validate_chunks_targets _ _ _ Hc) as [_ Ht]. apply (validate_gaps_targets _ _ _ Hg Hgap).
  rewrite <- Eu, <- Eg. by apply Ht.
Qed.

(** ** What a position is used for *)
Definition compacted s p : Prop := covers s.(log_compaction_ranges) p.1 p.2.

Record logs_ok s : Prop := {
  ranges_proper : Forall proper s.(log_compaction_ranges);
  chunk_not_gap : forall p, is_some (s.(log_chunks) !! p) = true -> s.(log_gaps) !! p = None;
  chunk_not_compacted : forall p, is_some (s.(log_chunks) !! p) = true -> ~ compacted s p;
  gap_not_compacted : forall p, is_some (s.(log_gaps) !! p) = true -> ~ compacted s p;
}.

(** Every used position of a stream is at or below its durable maximum. *)
Lemma durable_maximum_ge s p :
  Forall proper s.(log_compaction_ranges) ->
  is_some (s.(log_chunks) !! p) = true \/ is_some (s.(log_gaps) !! p) = true \/ compacted s p ->
  exists maximum, LogRepository.durable_maximum s p.1 = Some maximum /\ (p.2 <= maximum)%N.
Proof.
  intros Hr Hp. unfold LogRepository.durable_maximum.
  set (l := (_ ++ _)%list).
  assert (Hin : exists n, n ∈ l /\ (p.2 <= n)%N).
  { subst l. destruct Hp as [Hc|[Hg|(r & Hr' & Hs & Hn)]].
    - destruct (s.(log_chunks) !! p) as [c|] eqn:E; [|done]. exists p.2. split; [|lia].
      apply elem_of_app. left. apply list_elem_of_fmap_2, elem_of_filter. split; [|by apply bool_decide_eq_true].
      apply (list_elem_of_fmap_2 fst _ (p, c)). by apply elem_of_entries.
    - destruct (s.(log_gaps) !! p) as [g|] eqn:E; [|done]. exists p.2. split; [|lia].
      apply elem_of_app. right. apply elem_of_app. left. apply list_elem_of_fmap_2, elem_of_filter.
      split; [|by apply bool_decide_eq_true]. apply (list_elem_of_fmap_2 fst _ (p, g)). by apply elem_of_entries.
    - exists (NodeLogCompactionRange.through_sequence r). split; [|lia]. apply elem_of_app. right. apply elem_of_app. right.
      apply list_elem_of_fmap_2, elem_of_filter. split; [done|]. by apply bool_decide_eq_true. }
  destruct Hin as (n & Hin & Hle). destruct (set_last l) as [m|] eqn:Em.
  - exists m. split; [done|]. pose proof (set_last_ge _ _ _ Em Hin). lia.
  - destruct l; [|done]. by apply not_elem_of_nil in Hin.
Qed.

(** A call keeps what a position is used for, but for a chunk that may be compacted. *)
Record logs_later s s' : Prop := {
  later_chunk : forall p c, s.(log_chunks) !! p = Some c ->
    (exists c', s'.(log_chunks) !! p = Some c' /\ c'.(StoredLogChunkReceipt.draft) = c.(StoredLogChunkReceipt.draft))
    \/ compacted s' p;
  later_gap : forall p g, s.(log_gaps) !! p = Some g -> s'.(log_gaps) !! p = Some g;
  later_compacted : forall p, compacted s p -> compacted s' p;
}.

#[export] Instance logs_later_preorder : PreOrder logs_later.
Proof.
  split; [intros s; split; eauto|]. intros x y z [C1 G1 K1] [C2 G2 K2]. split; [|auto..].
  intros p c [(c' & Hc & E)|?]%C1; [|auto]. apply C2 in Hc as [(c2 & Hc2 & E2)|?]; [|auto]. left. exists c2. split; [done|congruence].
Qed.

Lemma same_logs s s' : same_part Logs s s' -> logs_ok s -> logs_ok s' /\ logs_later s s'.
Proof.
  intros (_ & Ec & Eg & Er) [H1 H2 H3 H4]. unfold compacted in *.
  split; split; unfold compacted; rewrite ?Ec, ?Eg, ?Er; eauto.
Qed.

Lemma check_chunk_new s node_id chunk (p := chunk_key node_id chunk) :
  logs_ok s -> LogRepository.check_chunk s node_id chunk = Ok tt -> s.(log_chunks) !! p = None ->
  s.(log_gaps) !! p = None /\ ~ compacted s p.
Proof.
  intros Hok Hc Hn. unfold LogRepository.check_chunk in Hc. rewrite then_Ok in Hc. destruct Hc as [Hc _].
  change (log_chunks s !! (LogRepository.chunk_stream node_id chunk, NodeLogChunkReceiptDraft.sequence chunk))
    with (log_chunks s !! p) in Hc. rewrite Hn in Hc.
  assert (Hfree : ~ (is_some (s.(log_gaps) !! p) = true \/ compacted s p)).
  { intros Hu. destruct (durable_maximum_ge s p (ranges_proper _ Hok)) as (m & Em & Hle); [tauto|].
    change p.1 with (LogRepository.chunk_stream node_id chunk) in Em. rewrite Em in Hc. cbn [is_some_and] in Hc.
    assert (E : (NodeLogChunkReceiptDraft.sequence chunk <=? m)%N = true) by (apply N.leb_le; exact Hle).
    by rewrite E in Hc. }
  split; [|tauto]. destruct (s.(log_gaps) !! p); [|done]. destruct Hfree. by left.
Qed.

Lemma check_gap_new s node_id gap (p := gap_key node_id gap) :
  logs_ok s -> LogRepository.check_gap s node_id gap = Ok tt -> s.(log_gaps) !! p = None ->
  s.(log_chunks) !! p = None /\ ~ compacted s p.
Proof.
  intros Hok Hc Hn. unfold LogRepository.check_gap in Hc. fold p in Hc. rewrite Hn in Hc.
  destruct (s.(log_chunks) !! p) eqn:Ec; simpl in Hc; [done|]. split; [done|]. intros Hu.
  destruct (durable_maximum_ge s p (ranges_proper _ Hok)) as (m & Em & Hle); [tauto|].
  change p.1 with (LogRepository.gap_stream node_id gap) in Em. rewrite Em in Hc. cbn [is_some_and] in Hc.
  assert (E : (NodeLogGapReceiptDraft.sequence gap <=? m)%N = true) by (apply N.leb_le; exact Hle).
  by rewrite E in Hc.
Qed.

(** ** The calls *)
Lemma record_effect batch0 at' s (s' := perform (RecordLogChunks batch0 at') s)
    (batch := batch0 <| NodeLogBatchReceiptDraft.sent_at := canonical_timestamp batch0.(NodeLogBatchReceiptDraft.sent_at) |>)
    (node_id := batch.(NodeLogBatchReceiptDraft.node_id)) :
  same_part Logs s s'
  \/ NodeLogBatchReceiptDraft.validate batch = Ok tt
     /\ Forall (fun chunk => LogRepository.check_chunk s node_id chunk = Ok tt) batch.(NodeLogBatchReceiptDraft.chunks)
     /\ Forall (fun gap => LogRepository.check_gap s node_id gap = Ok tt) batch.(NodeLogBatchReceiptDraft.gaps)
     /\ s'.(log_chunks) = LogRepository.store_chunks node_id (canonical_timestamp at')
                            batch.(NodeLogBatchReceiptDraft.chunks) s.(log_chunks)
     /\ s'.(log_gaps) = LogRepository.store_gaps node_id batch.(NodeLogBatchReceiptDraft.gaps) s.(log_gaps)
     /\ s'.(log_compaction_ranges) = s.(log_compaction_ranges).
Proof.
  subst s'. simpl. unfold run_state. destruct (LogRepository.record_log_chunks batch0 at' s) as [s' r] eqn:E; simpl.
  unfold LogRepository.record_log_chunks in E. fold batch node_id in E.
  exec_call E; injection E as <- _; try (left; by split_and!).
  all: right; reflect_results; repeat match goal with u : () |- _ => destruct u end;
    rewrite <- !for_each_Ok; split_and!; done.
Qed.

Lemma record_logs batch at' s (s' := perform (RecordLogChunks batch at') s) : logs_ok s -> logs_ok s' /\ logs_later s s'.
Proof.
  intros Hok. destruct (record_effect batch at' s) as [Hs|(Hv & Hc & Hg & Ec & Eg & Er)]; [by apply same_logs|].
  fold s' in Ec, Eg, Er. set (b := batch <| NodeLogBatchReceiptDraft.sent_at := _ |>) in *.
  set (node_id := NodeLogBatchReceiptDraft.node_id b) in *. rewrite Forall_forall in Hc. rewrite Forall_forall in Hg.
  assert (Hnc : forall p, is_some (s'.(log_chunks) !! p) = true -> is_some (s.(log_chunks) !! p) = true \/
    exists chunk, chunk ∈ b.(NodeLogBatchReceiptDraft.chunks) /\ chunk_key node_id chunk = p
      /\ s.(log_gaps) !! p = None /\ ~ compacted s p).
  { intros p Hp. rewrite Ec in Hp. destruct (LogRepository.store_chunks _ _ _ _ !! p) as [x|] eqn:Ex; [|done].
    apply or_insert_lookup in Ex as [E|(E & chunk & Hin & <-)]; [left; by rewrite E|]. right. exists chunk.
    split_and!; [done..| |]; by apply (check_chunk_new s node_id chunk Hok (Hc _ Hin) E). }
  assert (Hng : forall p, is_some (s'.(log_gaps) !! p) = true -> is_some (s.(log_gaps) !! p) = true \/
    exists gap, gap ∈ b.(NodeLogBatchReceiptDraft.gaps) /\ gap_key node_id gap = p
      /\ s.(log_chunks) !! p = None /\ ~ compacted s p).
  { intros p Hp. rewrite Eg in Hp. destruct (LogRepository.store_gaps _ _ _ !! p) as [x|] eqn:Ex; [|done].
    apply or_insert_lookup in Ex as [E|(E & gap & Hin & <-)]; [left; by rewrite E|]. right. exists gap.
    split_and!; [done..| |]; by apply (check_gap_new s node_id gap Hok (Hg _ Hin) E). }
  destruct Hok as [Hr H1 H2 H3]. split; split.
  - by rewrite Er.
  - intros p Hp. destruct (s'.(log_gaps) !! p) as [g|] eqn:Egp; [exfalso|done].
    destruct (Hng p) as [Hg'|(gap & Hin & <- & Hn & _)]; [by rewrite Egp| |].
    + destruct (Hnc p Hp) as [Hc'|(chunk & _ & _ & Hn & _)]; [by rewrite (H1 p Hc') in Hg'|by rewrite Hn in Hg'].
    + destruct (Hnc _ Hp) as [Hc'|(chunk & Hin' & E & _)]; [by rewrite Hn in Hc'|].
      apply (batch_exclusive _ _ _ Hv Hin' Hin node_id). exact (f_equal fst E).
  - intros p Hp. unfold compacted. rewrite Er. destruct (Hnc p Hp) as [Hc'|(_ & _ & _ & _ & ?)]; [by apply H2|done].
  - intros p Hp. unfold compacted. rewrite Er. destruct (Hng p Hp) as [Hc'|(_ & _ & _ & _ & ?)]; [by apply H3|done].
  - intros p c Hp. left. exists c. split; [|done]. rewrite Ec. by apply or_insert_kept.
  - intros p g Hp. rewrite Eg. by apply or_insert_kept.
  - intros p. unfold compacted. by rewrite Er.
Qed.

Lemma mark_logs target at' s (s' := perform (MarkLogChunkRetained target at') s) : logs_ok s -> logs_ok s' /\ logs_later s s'.
Proof.
  assert (Heff : same_part Logs s s' \/ exists p c at', s.(log_chunks) !! p = Some c
    /\ s' = s <| log_chunks := <[p := c <| StoredLogChunkReceipt.retained_at := Some at' |>]> s.(log_chunks) |>).
  { subst s'. simpl. unfold run_state. destruct (LogRepository.mark_log_chunk_retained target at' s) as [s' r] eqn:E; simpl.
    unfold LogRepository.mark_log_chunk_retained in E. exec_call E; injection E as <- _; try (left; by split_and!).
    right. eauto. }
  intros Hok. destruct Heff as [Hs|(p & c & t & Hp & ->)]; [by apply same_logs|].
  assert (Hdom : forall q, is_some (<[p := c <| StoredLogChunkReceipt.retained_at := Some t |>]> s.(log_chunks) !! q)
                           = is_some (s.(log_chunks) !! q)).
  { intros q. destruct (decide (p = q)) as [<-|Hne]; [by rewrite lookup_insert_eq, Hp|by rewrite lookup_insert_ne]. }
  destruct Hok as [Hr H1 H2 H3]. split; split; unfold compacted in *; simpl; try done.
  - intros q. rewrite Hdom. apply H1.
  - intros q. rewrite Hdom. apply H2.
  - intros q x Hx. left. destruct (decide (p = q)) as [<-|Hne].
    + eexists. rewrite lookup_insert_eq. split; [done|]. by simplify_eq.
    + exists x. by rewrite lookup_insert_ne.
Qed.

Lemma remove_tombstones_spec keys s :
  NoDup keys -> (forall p, p ∈ keys -> is_some (s.(log_chunks) !! p) = true) ->
  LogRepository.remove_tombstones keys s
  = (s <| log_chunks := foldl (fun m p => delete p m) s.(log_chunks) keys |>, Ok tt).
Proof.
  revert s. induction keys as [|p keys IH]; intros s Hnd Hin; simpl; [by destruct s|].
  apply NoDup_cons in Hnd as [Hp Hnd]. autorewrite with methods.
  destruct (s.(log_chunks) !! p) as [c|] eqn:Ec; [|by specialize (Hin p ltac:(left)); rewrite Ec in Hin].
  simpl. autorewrite with methods. rewrite IH; [done|done|]. intros q Hq. simpl.
  rewrite lookup_delete_ne; [apply Hin; by right|]. intros <-. done.
Qed.

Lemma foldl_delete_lookup {V} (keys : list (NodeId * string * N * N)) (m : gmap (NodeId * string * N * N) V) p :
  foldl (fun m p => delete p m) m keys !! p = if bool_decide (p ∈ keys) then None else m !! p.
Proof.
  revert m. induction keys as [|q keys IH]; intros m; cbn [foldl].
  { case_bool_decide as Hp; [by apply not_elem_of_nil in Hp|done]. }
  rewrite IH. repeat case_bool_decide; rewrite ?elem_of_cons in *; try done; try tauto.
  - destruct (decide (q = p)) as [->|Hne]; [by rewrite lookup_delete_eq|]. naive_solver.
  - rewrite lookup_delete_ne; [done|]. naive_solver.
Qed.

(** What a compaction removes: distinct chunks. *)
Lemma candidates_spec s before limit (keys := LogRepository.compaction_candidates s before limit) :
  NoDup keys /\ forall p, p ∈ keys -> is_some (s.(log_chunks) !! p) = true.
Proof.
  subst keys. unfold LogRepository.compaction_candidates. set (f := fun kv : _ * StoredLogChunkReceipt.t => _).
  assert (Hf : forall l, NoDup l.*1 -> NoDup (snd <$> omap f l)
                /\ forall p, p ∈ snd <$> omap f l -> p ∈ l.*1).
  { intros l. induction l as [|[q c] l IH]; simpl; [split; [constructor|by intros ? ?%not_elem_of_nil]|].
    intros [Hq Hl]%NoDup_cons. destruct (IH Hl) as [Hn Hi].
    assert (E : forall x, f (q, c) = Some x -> x.2 = q).
    { subst f. simpl. intros x. destruct (StoredLogChunkReceipt.retained_at c); simpl; [|done].
      destruct (_ <? _)%Z; [|done]. by intros [= <-]. }
    destruct (f (q, c)) as [x|]; simpl.
    - rewrite (E x eq_refl). split; [constructor; [|done]; auto|]. intros p [->|Hp]%elem_of_cons; [left|right; auto].
    - split; [done|]. intros p Hp. right. auto. }
  destruct (Hf _ (entries_of_keys s.(log_chunks))) as [Hn Hi].
  set (l := omap f _) in *. set (k := fun c : Z * _ => c).
  assert (Hp : snd <$> sort_by_key k l ≡ₚ snd <$> l) by (by rewrite sort_by_key_perm).
  rewrite fmap_take. split.
  - rewrite <- Hp, <- (take_drop (N.to_nat limit) (snd <$> sort_by_key k l)) in Hn. by apply NoDup_app in Hn as [Hn _].
  - intros p (i & Hi' & _)%elem_of_take. apply list_elem_of_lookup_2 in Hi'. rewrite Hp in Hi'.
    apply Hi, list_elem_of_fmap in Hi' as ([p' c] & -> & Hc%elem_of_entries). simpl. by rewrite Hc.
Qed.

Definition single (compacted_at : Time) p : NodeLogCompactionRange.t :=
  let '(node_id, unit_id, generation, sequence) := p in
  NodeLogCompactionRange.Mk node_id unit_id generation sequence sequence compacted_at.

Lemma covers_single at' keys p : covers (single at' <$> keys) p.1 p.2 <-> p ∈ keys.
Proof.
  unfold covers. split.
  - intros (r & (q & -> & Hq)%list_elem_of_fmap & Hs & Hn). destruct q as [[[a b] c] n], p as [[[a' b'] c'] n'].
    unfold single, NodeLogCompactionRange.stream in *. simpl in *. simplify_eq. assert (n = n') as -> by lia. done.
  - intros Hp. exists (single at' p). split; [by apply list_elem_of_fmap_2|]. destruct p as [[[a b] c] n]. simpl. split; [done|lia].
Qed.

Lemma covers_app l l' str n : covers (l ++ l') str n <-> covers l str n \/ covers l' str n.
Proof. unfold covers. setoid_rewrite elem_of_app. naive_solver. Qed.

Lemma compact_effect before at' limit s (s' := perform (CompactLogTombstones before at' limit) s)
    (keys := LogRepository.compaction_candidates s (canonical_timestamp before) limit) :
  same_part Logs s s'
  \/ (forall p, s'.(log_chunks) !! p = if bool_decide (p ∈ keys) then None else s.(log_chunks) !! p)
     /\ s'.(log_gaps) = s.(log_gaps)
     /\ Forall proper s'.(log_compaction_ranges)
     /\ forall p, compacted s' p <-> compacted s p \/ p ∈ keys.
Proof.
  subst s'. simpl. unfold run_state.
  destruct (LogRepository.compact_log_tombstones before at' limit s) as [s' r] eqn:E; simpl.
  unfold LogRepository.compact_log_tombstones in E. fold keys in E. exec_call E; try (injection E as <- _; left; by split_and!).
  destruct (candidates_spec s (canonical_timestamp before) limit) as [Hnd Hin]. fold keys in Hnd, Hin.
  fold keys in E. unfold mbind, method_bind in E. rewrite (remove_tombstones_spec keys s Hnd Hin) in E.
  injection E as <- _. right. simpl. reflect_results.
  match goal with Ha : NodeLogCompactionRange.coalesce (_ <$> _) = Ok ?a, Hb : NodeLogCompactionRange.coalesce (_ ++ _) = Ok _ |- _ =>
    apply coalesce_covers in Ha as [_ Ha], Hb as [Hproper Hb]; rename Ha into Hnew, Hb into Hall end.
  split_and!; [apply foldl_delete_lookup|done|exact Hproper|]. intros p. unfold compacted. simpl.
  rewrite Hall, covers_app, Hnew. fold keys. by rewrite (covers_single (canonical_timestamp at') keys p).
Qed.

Lemma compact_logs before at' limit s (s' := perform (CompactLogTombstones before at' limit) s) :
  logs_ok s -> logs_ok s' /\ logs_later s s'.
Proof.
  intros Hok. destruct (compact_effect before at' limit s) as [Hs|(Hc & Hg & Hp & Hk)]; [by apply same_logs|].
  fold s' in Hc, Hg, Hp, Hk. destruct (candidates_spec s (canonical_timestamp before) limit) as [_ Hin].
  set (keys := LogRepository.compaction_candidates _ _ _) in *. destruct Hok as [Hr H1 H2 H3]. split; split.
  - done.
  - intros p. rewrite Hg, Hc. case_bool_decide; [done|]. apply H1.
  - intros p. rewrite Hc, Hk. case_bool_decide; [done|]. intros Hp' [Hcomp|]; [|done]. by apply (H2 p).
  - intros p Hp'. rewrite Hg in Hp'. rewrite Hk. intros [Hcomp|Hkey]; [by apply (H3 p)|].
    by rewrite (H1 p (Hin p Hkey)) in Hp'.
  - intros p c Hp'. destruct (decide (p ∈ keys)) as [Hkey|Hkey].
    + right. apply Hk. by right.
    + left. exists c. rewrite Hc, bool_decide_eq_false_2 by done. done.
  - intros p g. by rewrite Hg.
  - intros p Hp'. apply Hk. by left.
Qed.

Lemma step_logs cl s : logs_ok s -> logs_ok (perform cl s) /\ logs_later s (perform cl s).
Proof.
  intros Hok. destruct (decide (Logs ∈ writes cl)) as [Hw|Hw].
  - destruct cl; simpl in Hw; try (exfalso; revert Hw; clear; set_solver);
      [by apply record_logs|by apply mark_logs|by apply compact_logs].
  - apply same_logs; [by apply perform_frame|done].
Qed.

Lemma history_logs s s' : history s s' -> logs_ok s -> logs_ok s' /\ logs_later s s'.
Proof.
  induction 1 as [|s s' cl _ IH _]; [by intros|]. intros Hok. destruct (IH Hok) as [Hok' Hl].
  destruct (step_logs cl s' Hok') as [Hok'' Hl']. split; [done|]. by etrans.
Qed.

Lemma reachable_logs s : reachable s -> logs_ok s.
Proof.
  intros Hr. apply (history_logs _ _ Hr). split; [constructor|intros p Hp..]; unfold State.empty in Hp; simpl in Hp;
    by rewrite lookup_empty in Hp.
Qed.

(** C18: A position of a log is written once.  In every state a position holds a chunk, a gap, or is
    compacted, and never two of these; in every later state a chunk has the same content or has
    been compacted, a gap is the same gap, and a compacted position stays compacted - so no batch
    can put other content where something was received. *)
Theorem log_positions_write_once s s' p :
  reachable s -> history s s' ->
  (forall c, s.(log_chunks) !! p = Some c ->
     (exists c', s'.(log_chunks) !! p = Some c' /\ c'.(StoredLogChunkReceipt.draft) = c.(StoredLogChunkReceipt.draft)
                 /\ ~ compacted s' p)
     \/ (s'.(log_chunks) !! p = None /\ compacted s' p))
  /\ (forall g, s.(log_gaps) !! p = Some g -> s'.(log_gaps) !! p = Some g)
  /\ (compacted s p -> compacted s' p /\ s'.(log_chunks) !! p = None /\ s'.(log_gaps) !! p = None)
  /\ ~ (is_some (s'.(log_chunks) !! p) = true /\ is_some (s'.(log_gaps) !! p) = true).
Proof.
  intros Hr Hh. destruct (history_logs _ _ Hh (reachable_logs _ Hr)) as [[_ H1 H2 H3] [C G K]].
  assert (Hnone : compacted s' p -> s'.(log_chunks) !! p = None).
  { intros Hp. specialize (H2 p). destruct (s'.(log_chunks) !! p); [|done]. by destruct H2. }
  split_and!.
  - intros c Hc. destruct (C p c Hc) as [(c' & Hc' & E)|Hp].
    + left. exists c'. split_and!; [done..|]. apply H2. by rewrite Hc'.
    + right. split; [|done]. by apply Hnone.
  - apply G.
  - intros Hp%K. split_and!; [done|by apply Hnone|]. specialize (H3 p). destruct (s'.(log_gaps) !! p); [|done]. by destruct H3.
  - intros [Hc Hg]. by rewrite (H1 p Hc) in Hg.
Qed.

End logs.
