(* ===== verification/CommandJournal.v ===== *)
(** * The command journal of a node agent

    [node-agent/src/journal.rs], [journal/code_run_journal.rs] and [journal/provider_run_journal.rs]:
    the durable record of every command a node received, what it answered, and what the control
    plane has acknowledged; and the projections the agent recovers from it after a restart.

    The journal is one JSON file that is replaced atomically under an exclusive lock
    ([state_file.rs]).  Its content is the state of the operations, [None] before the first write;
    an [io] value says how the file system behaves during one call. *)

From Stdlib Require Import ZArith NArith Lia String.
From stdpp Require Import gmap.
From S2P Require Import Prelude RustStd BTreeMap External Text Resources NodeClaims NodeGateway NodeArtifacts.
From S2P Require Import NodePluginHost NodeBoxBuild AgentProvider AgentProviderRuns NodeRunBindings NodeCommands.

(** ** Errors: the [Display] of the three variants of [CommandJournalError] *)
Module CommandJournalError.
Definition Invalid (e : error) : error :=
  Error "invalid command journal: {0}" (FStr e.(template) :: e.(args)).
Definition Conflict (e : error) : error :=
  Error "command journal conflict: {0}" (FStr e.(template) :: e.(args)).
Definition Storage (e : error) : error :=
  Error "command journal storage failed: {0}" (FStr e.(template) :: e.(args)).
End CommandJournalError.
Import CommandJournalError.

Definition invalid {A} (message : string) : result A := Err (Invalid (Error message [])).
Definition conflict {A} (message : string) (l : list fmt_arg) : result A := Err (Conflict (Error message l)).

Definition is_sha256 (value : string) : bool :=
  is_some_and (fun hex => (str_len hex =? 64)%N && all is_ascii_hexdigit (bytes_of hex)) (strip_prefix "sha256:" value).

(** ** Entries *)
Module JournalCompletion.
Section completion.
Context `{Platform}.
Record t := Mk { completed_at : Time; outcome : NodeCommandOutcome.t }.
#[global] Instance t_eq_dec : EqDecision t.
Proof. solve_decision. Defined.
End completion.
End JournalCompletion.

Module JournalEntry.
Section entry.
Context `{Platform}.

Record t := Mk {
  envelope : NodeCommandEnvelope.t;
  completion : option JournalCompletion.t;
  acknowledged : bool;
}.

#[global] Instance t_eq_dec : EqDecision t.
Proof. solve_decision. Defined.
#[global] Instance t_eta : Eta t := fun r => Mk r.(envelope) r.(completion) r.(acknowledged).

Definition sequence (self : t) : N := self.(envelope).(NodeCommandEnvelope.sequence).

Definition acknowledgement (self : t) : result (option NodeCommandAck.t) :=
  match self.(completion) with
  | None => Ok None
  | Some completion =>
    let acknowledgement :=
      {| NodeCommandAck.schema := NodeCommandAck.SCHEMA;
         NodeCommandAck.command_id := self.(envelope).(NodeCommandEnvelope.command_id);
         NodeCommandAck.lease_id := self.(envelope).(NodeCommandEnvelope.lease_id);
         NodeCommandAck.node_id := self.(envelope).(NodeCommandEnvelope.node_id);
         NodeCommandAck.sequence := self.(envelope).(NodeCommandEnvelope.sequence);
         NodeCommandAck.payload_digest := self.(envelope).(NodeCommandEnvelope.payload_digest);
         NodeCommandAck.completed_at := completion.(JournalCompletion.completed_at);
         NodeCommandAck.outcome := completion.(JournalCompletion.outcome) |} in
    map_err Invalid (NodeCommandAck.validate_against acknowledgement self.(envelope)) ;;
    Ok (Some acknowledgement)
  end.

(** The result of an entry that completed successfully. *)
Definition succeeded (self : t) : option NodeCommandResult.t :=
  match self.(completion) with
  | Some completion =>
    match completion.(JournalCompletion.outcome) with
    | NodeCommandOutcome.Succeeded result => Some result
    | _ => None
    end
  | None => None
  end.

End entry.
End JournalEntry.

Module AggregateGeneration.
Record t := Mk { generation : N; state_digest : string }.
#[global] Instance t_eq_dec : EqDecision t.
Proof. solve_decision. Defined.
End AggregateGeneration.

(** What a state-changing command fences its generation with. *)
Definition state_mutation_digest `{Platform} (payload : NodeCommandPayload.t) : result (option string) :=
  match payload with
  | NodeCommandPayload.ResourceClaimPrepare request =>
    map_err Invalid (NodeResourceClaimPrepare.validate request) ;;
    Ok (Some request.(NodeResourceClaimPrepare.claim_digest))
  | NodeCommandPayload.RuntimeApply request resource_claim =>
    match resource_claim with
    | Some _ => digest ← map_err Invalid (NodeCommandPayload.digest payload); Ok (Some digest)
    | None => digest ← map_err Invalid (spec_digest (apply_spec request)); Ok (Some digest)
    end
  | NodeCommandPayload.GatewaySnapshotInstall snapshot =>
    map_err Invalid (GatewaySnapshot.validate snapshot) ;;
    Ok (Some snapshot.(GatewaySnapshot.snapshot_digest))
  | NodeCommandPayload.GatewaySnapshotObserve request =>
    map_err Invalid (GatewaySnapshotObservationRequest.validate request) ;;
    Ok None
  | NodeCommandPayload.AgentProviderCommand _ _
  | NodeCommandPayload.CodeAgentCommand _ _
  | NodeCommandPayload.DurableCellOperatorObserve _ => Ok None
  | NodeCommandPayload.PluginHostCapabilitiesInspect _
  | NodeCommandPayload.PluginHostAuthorizeTrust _
  | NodeCommandPayload.PluginHostPlan _
  | NodeCommandPayload.PluginHostApply _
  | NodeCommandPayload.PluginHostPlanEnablement _
  | NodeCommandPayload.PluginHostObserve _ => Ok None
  | NodeCommandPayload.BoxBuildStart request =>
    digest ← map_err Invalid (NodeBoxBuildRequest.binding_digest request); Ok (Some digest)
  | NodeCommandPayload.BoxBuildInspect _
  | NodeCommandPayload.BoxBuildCancel _
  | NodeCommandPayload.BoxBuildRemove _
  | NodeCommandPayload.RuntimeInspect _ _
  | NodeCommandPayload.RuntimeStop _
  | NodeCommandPayload.RuntimeRemove _ => Ok None
  | NodeCommandPayload.ResourceClaimRelease request =>
    map_err Invalid (NodeResourceClaimRelease.validate request) ;;
    Ok (Some request.(NodeResourceClaimRelease.claim_digest))
  end.

Definition stopped_or_absent `{Platform} (inspection : RuntimeInspection.t) : bool :=
  match inspection with
  | RuntimeInspection.NotFound _ _ => true
  | RuntimeInspection.Found observation _ => observation_is_terminal observation
  end.

(** ** Resource claims, replayed from the journal *)
Module ProjectedResourceClaim.

Record t := Mk {
  binding : NodeResourceClaimBinding.t;
  prepare_generation : N;
  prepare_digest : string;
  latest_generation : N;
  prepare_terminal : bool;
  active : bool;
  bound : bool;
  runtime_fenced : bool;
  released : bool;
}.

#[global] Instance t_eq_dec : EqDecision t.
Proof. solve_decision. Defined.
#[global] Instance t_eta : Eta t := fun r =>
  Mk r.(binding) r.(prepare_generation) r.(prepare_digest) r.(latest_generation) r.(prepare_terminal)
     r.(active) r.(bound) r.(runtime_fenced) r.(released).

Definition new (request : NodeResourceClaimPrepare.t) : t :=
  {| binding := request.(NodeResourceClaimPrepare.binding);
     prepare_generation := request.(NodeResourceClaimPrepare.claim_generation);
     prepare_digest := request.(NodeResourceClaimPrepare.claim_digest);
     latest_generation := request.(NodeResourceClaimPrepare.claim_generation);
     prepare_terminal := false;
     active := false;
     bound := false;
     runtime_fenced := false;
     released := false |}.

Definition register_prepare (self : t) (request : NodeResourceClaimPrepare.t) : result unit :=
  map_err Invalid (NodeResourceClaimPrepare.validate request) ;;
  if (self.(binding) != request.(NodeResourceClaimPrepare.binding))
     || (self.(prepare_generation) != request.(NodeResourceClaimPrepare.claim_generation))
     || (self.(prepare_digest) != request.(NodeResourceClaimPrepare.claim_digest))
  then conflict "resource claim prepare binding changed across journal replay" []
  else Ok tt.

Definition register_release (self : t) (request : NodeResourceClaimRelease.t) : result t :=
  map_err Invalid (NodeResourceClaimRelease.validate request) ;;
  if (self.(binding) != request.(NodeResourceClaimRelease.binding))
     || (request.(NodeResourceClaimRelease.claim_generation) <=? self.(prepare_generation))%N
     || (request.(NodeResourceClaimRelease.claim_generation) <? self.(latest_generation))%N
  then conflict "resource claim release generation or binding regressed" []
  else Ok (self <| latest_generation := request.(NodeResourceClaimRelease.claim_generation) |>).

(** The claim of a Runtime generation that is active. *)
Definition serves (self : t) (unit_id : string) (generation : N) : bool :=
  self.(active)
  && (self.(binding).(NodeResourceClaimBinding.runtime_unit_id) == unit_id)
  && (self.(binding).(NodeResourceClaimBinding.runtime_generation) == generation).

End ProjectedResourceClaim.

Module ResourceClaimJournalProjection.
Import ProjectedResourceClaim.

Abbreviation t := (gmap Uuid ProjectedResourceClaim.t) (only parsing).

(** An exclusive slot of [requested] that [candidate] also holds. *)
Definition exclusive_conflict (candidate : ProjectedResourceClaim.t) (requested : ResourceSlotBinding.t) : bool :=
  negb (ResourceKind.is_shared_capacity requested.(ResourceSlotBinding.kind))
  && any (fun slot =>
       (slot.(ResourceSlotBinding.kind) == requested.(ResourceSlotBinding.kind))
       && (slot.(ResourceSlotBinding.stable_resource_id) == requested.(ResourceSlotBinding.stable_resource_id)))
       candidate.(binding).(NodeResourceClaimBinding.slots).

Definition activate_prepared (self : t) (request : NodeResourceClaimPrepare.t) : result t :=
  let new := request.(NodeResourceClaimPrepare.binding) in
  let id := new.(NodeResourceClaimBinding.claim_id) in
  (if any (fun candidate =>
        candidate.(active)
        && (candidate.(binding).(NodeResourceClaimBinding.claim_id) != id)
        && (candidate.(binding).(NodeResourceClaimBinding.runtime_unit_id)
              == new.(NodeResourceClaimBinding.runtime_unit_id))
        && (candidate.(binding).(NodeResourceClaimBinding.runtime_generation)
              == new.(NodeResourceClaimBinding.runtime_generation)))
        (values self)
   then invalid "two active resource claims bind one Runtime generation" else Ok tt) ;;
  for_each (fun candidate =>
      (if candidate.(binding).(NodeResourceClaimBinding.claim_id) == id
       then invalid "resource claim was prepared more than once" else Ok tt) ;;
      for_each (fun requested =>
          if exclusive_conflict candidate requested
          then Err (Invalid (Error "exclusive resource slot {} has two active Agent claims"
                               [FStr requested.(ResourceSlotBinding.stable_resource_id)]))
          else Ok tt) new.(NodeResourceClaimBinding.slots))
    (List.filter active (values self)) ;;
  match self !! id with
  | None => invalid "prepared resource claim disappeared"
  | Some projected => Ok (<[id := projected <| active := true |> <| released := false |>]> self)
  end.

Definition mark_runtime_fenced (self : t) (unit_id : string) (generation : N) : t :=
  (fun candidate => if serves candidate unit_id generation then candidate <| runtime_fenced := true |> else candidate)
    <$> self.

Definition active_bindings (self : t) : list NodeResourceClaimBinding.t :=
  map binding (List.filter active (values self)).

Section projection.
Context `{Platform}.

Definition validate_runtime_apply (self : t) (spec : RuntimeUnitSpec) (bound : option NodeResourceClaimBinding.t) :
    result unit :=
  map_err Invalid (spec_validate spec) ;;
  let matching := List.find (fun claim => serves claim (spec_unit_id spec) (spec_generation spec)) (values self) in
  match bound, matching with
  | Some new, Some projected =>
    if projected.(binding) == new
    then map_err Invalid (NodeResourceClaimBinding.validate_runtime_spec new spec)
    else conflict "Runtime apply changed its prepared resource claim binding" []
  | Some _, None => conflict "Runtime apply has no active prepared resource claim" []
  | None, Some _ => conflict "unbound Runtime apply targets an active prepared resource claim" []
  | None, None => Ok tt
  end.

Definition validate_release (self : t) (request : NodeResourceClaimRelease.t) : result unit :=
  map_err Invalid (NodeResourceClaimRelease.validate request) ;;
  match self !! request.(NodeResourceClaimRelease.binding).(NodeResourceClaimBinding.claim_id) with
  | None => conflict "resource claim release has no durable Agent preparation" []
  | Some projected =>
    if (projected.(binding) != request.(NodeResourceClaimRelease.binding))
       || negb projected.(prepare_terminal)
       || (request.(NodeResourceClaimRelease.claim_generation) <=? projected.(prepare_generation))%N
       || (request.(NodeResourceClaimRelease.claim_generation) != projected.(latest_generation))
       || (request.(NodeResourceClaimRelease.claim_digest) == projected.(prepare_digest))
    then conflict "resource claim release does not advance its exact prepared binding" []
    else if projected.(released) then conflict "resource claim binding is already released" []
    else if projected.(active) && projected.(bound) && negb projected.(runtime_fenced)
    then conflict "bound resource claim cannot release before Runtime stop or removal evidence" []
    else Ok tt
  end.

(** The first half of [apply]: a claim command is registered when it was received. *)
Definition register (self : t) (entry : JournalEntry.t) : result t :=
  match entry.(JournalEntry.envelope).(NodeCommandEnvelope.payload) with
  | NodeCommandPayload.ResourceClaimPrepare request =>
    let id := request.(NodeResourceClaimPrepare.binding).(NodeResourceClaimBinding.claim_id) in
    let projected := default (ProjectedResourceClaim.new request) (self !! id) in
    register_prepare projected request ;;
    let projected :=
      if is_some entry.(JournalEntry.completion) then projected <| prepare_terminal := true |> else projected in
    Ok (<[id := projected]> self)
  | NodeCommandPayload.ResourceClaimRelease request =>
    let id := request.(NodeResourceClaimRelease.binding).(NodeResourceClaimBinding.claim_id) in
    match self !! id with
    | None => invalid "resource claim release has no durable prepare command"
    | Some projected =>
      projected ← register_release projected request;
      Ok (<[id := projected]> self)
    end
  | _ => Ok self
  end.

(** The second half: the effect of a successful result. *)
Definition conclude (self : t) (payload : NodeCommandPayload.t) (result : NodeCommandResult.t) : Prelude.result t :=
  match payload, result with
  | NodeCommandPayload.ResourceClaimPrepare request, NodeCommandResult.ResourceClaimPrepared prepared =>
    map_err Invalid (NodeResourceClaimPrepared.validate_for prepared request) ;;
    activate_prepared self request
  | NodeCommandPayload.RuntimeApply request (Some new), NodeCommandResult.RuntimeApplied observation =>
    validate_runtime_apply self (apply_spec request) (Some new) ;;
    map_err Invalid (NodeResourceClaimBinding.validate_runtime_observation new observation) ;;
    match self !! new.(NodeResourceClaimBinding.claim_id) with
    | None => invalid "Runtime apply references an unknown resource claim"
    | Some projected =>
      Ok (<[new.(NodeResourceClaimBinding.claim_id) :=
              projected <| bound := true |> <| runtime_fenced := false |>]> self)
    end
  | NodeCommandPayload.RuntimeApply request None, NodeCommandResult.RuntimeApplied _ =>
    validate_runtime_apply self (apply_spec request) None ;;
    Ok self
  | NodeCommandPayload.RuntimeStop request, NodeCommandResult.RuntimeStopped inspection =>
    Ok (if stopped_or_absent inspection
        then mark_runtime_fenced self (action_unit_id request) (action_generation request) else self)
  | NodeCommandPayload.RuntimeRemove request, NodeCommandResult.RuntimeRemoved _ =>
    Ok (mark_runtime_fenced self (action_unit_id request) (action_generation request))
  | NodeCommandPayload.ResourceClaimRelease request, NodeCommandResult.ResourceClaimReleased evidence =>
    let id := request.(NodeResourceClaimRelease.binding).(NodeResourceClaimBinding.claim_id) in
    validate_release self request ;;
    map_err Invalid (NodeResourceClaimReleased.validate_for evidence request) ;;
    match self !! id with
    | None => invalid "released resource claim disappeared from the journal"
    | Some projected => Ok (<[id := projected <| active := false |> <| released := true |>]> self)
    end
  | _, _ => Ok self
  end.

Definition apply (self : t) (entry : JournalEntry.t) : result t :=
  self ← register self entry;
  match JournalEntry.succeeded entry with
  | Some result => conclude self entry.(JournalEntry.envelope).(NodeCommandEnvelope.payload) result
  | None => Ok self
  end.

End projection.
End ResourceClaimJournalProjection.

(** ** The journal *)
Module CommandJournal.
Section journal.
Context `{Platform}.

Record t := Mk {
  schema : string;
  node_id : Uuid;
  last_received_sequence : N;
  last_acknowledged_sequence : N;
  aggregate_generations : gmap Uuid AggregateGeneration.t;
  entries : gmap Uuid JournalEntry.t;
}.

#[global] Instance t_eta : Eta t := fun r =>
  Mk r.(schema) r.(node_id) r.(last_received_sequence) r.(last_acknowledged_sequence)
     r.(aggregate_generations) r.(entries).

Definition SCHEMA : string := "a3s.cloud.node-command-journal.v1".

Definition empty (node_id : Uuid) : t :=
  {| schema := SCHEMA;
     node_id := node_id;
     last_received_sequence := 0;
     last_acknowledged_sequence := 0;
     aggregate_generations := ∅;
     entries := ∅ |}.

(** The entries in the order the node received them. *)
Definition by_sequence (self : t) : list JournalEntry.t :=
  sort_by_key JournalEntry.sequence (values self.(entries)).

(** The loop of [contiguous_acknowledged_sequence]: every round reads another entry, so that the
    number of entries is fuel enough ([contiguous_loop_spec]) and the counter stays below it. *)
Fixpoint contiguous_loop (fuel : nat) (acknowledged : gmap N bool) (sequence : N) : N :=
  match fuel with
  | O => sequence
  | S fuel =>
    if (acknowledged !! (sequence + 1)%N) == Some true
    then contiguous_loop fuel acknowledged (sequence + 1)%N
    else sequence
  end.

Definition acknowledged_by_sequence (self : t) : gmap N bool :=
  list_to_map (rev (map (fun entry => (JournalEntry.sequence entry, entry.(JournalEntry.acknowledged)))
                        (values self.(entries)))).

Definition contiguous_acknowledged_sequence (self : t) : N :=
  contiguous_loop (size self.(entries)) (acknowledged_by_sequence self) 0.

Fixpoint project {P} (apply : P -> JournalEntry.t -> result P) (projection : P) (entries : list JournalEntry.t) :
    result P :=
  match entries with
  | [] => Ok projection
  | entry :: rest => projection ← apply projection entry; project apply projection rest
  end.

Definition resource_claim_projection (self : t) : result ResourceClaimJournalProjection.t :=
  project ResourceClaimJournalProjection.apply ∅ (by_sequence self).

(** [bindings.retain(..)] once a Runtime generation was removed. *)
Definition removes (request : RuntimeActionRequest) (removal : RuntimeRemoval) : bool :=
  (removal_unit_id removal == action_unit_id request) && (removal_generation removal == action_generation request).

Definition code_run_binding (bindings : gmap Uuid NodeCodeAgentRuntimeBindingV1.t) (entry : JournalEntry.t) :
    result (gmap Uuid NodeCodeAgentRuntimeBindingV1.t) :=
  match entry.(JournalEntry.envelope).(NodeCommandEnvelope.payload), JournalEntry.succeeded entry with
  | NodeCommandPayload.AgentProviderCommand binding command,
    Some (NodeCommandResult.AgentProviderCommandAccepted receipt) =>
    map_err Invalid (NodeAgentProviderRuntimeBindingV1.validate_command binding command) ;;
    profile ← map_err Invalid (NodeAgentProviderRuntimeBindingV1.profile binding);
    map_err Invalid (AgentProviderCommandReceiptV1.validate_for receipt profile command) ;;
    Ok (match NodeAgentProviderRuntimeBindingV1.code_binding binding with
        | Ok code_binding => <[binding.(NodeAgentProviderRuntimeBindingV1.execution_id) := code_binding]> bindings
        | Err _ => bindings
        end)
  | NodeCommandPayload.CodeAgentCommand binding command,
    Some (NodeCommandResult.CodeAgentCommandAccepted receipt) =>
    map_err Invalid (NodeCodeAgentRuntimeBindingV1.validate_command binding command) ;;
    map_err Invalid (map_code "A3S Code command receipt does not match its journaled command ({})"
                       (code_receipt_validate_for receipt command)) ;;
    Ok (<[binding.(NodeCodeAgentRuntimeBindingV1.execution_id) := binding]> bindings)
  | NodeCommandPayload.RuntimeRemove request, Some (NodeCommandResult.RuntimeRemoved removal) =>
    Ok (if removes request removal
        then filter (fun kb : Uuid * NodeCodeAgentRuntimeBindingV1.t =>
               (kb.2.(NodeCodeAgentRuntimeBindingV1.runtime_unit_id) != action_unit_id request)
               || (kb.2.(NodeCodeAgentRuntimeBindingV1.runtime_generation) != action_generation request)) bindings
        else bindings)
  | _, _ => Ok bindings
  end.

Definition code_run_bindings_projection (self : t) : result (gmap Uuid NodeCodeAgentRuntimeBindingV1.t) :=
  project code_run_binding ∅ (by_sequence self).

Definition provider_run_binding (bindings : gmap Uuid NodeAgentProviderRuntimeBindingV1.t) (entry : JournalEntry.t) :
    result (gmap Uuid NodeAgentProviderRuntimeBindingV1.t) :=
  match entry.(JournalEntry.envelope).(NodeCommandEnvelope.payload), JournalEntry.succeeded entry with
  | NodeCommandPayload.AgentProviderCommand binding command,
    Some (NodeCommandResult.AgentProviderCommandAccepted receipt) =>
    let id := binding.(NodeAgentProviderRuntimeBindingV1.execution_id) in
    map_err Invalid (NodeAgentProviderRuntimeBindingV1.validate_command binding command) ;;
    profile ← map_err Invalid (NodeAgentProviderRuntimeBindingV1.profile binding);
    map_err Invalid (AgentProviderCommandReceiptV1.validate_for receipt profile command) ;;
    if profile.(AgentProviderProfile.kind) != NATIVE_CODE_AGENT_PROVIDER_KIND
    then
      if is_some_and (fun existing => existing != binding) (bindings !! id)
      then conflict "one Agent execution changed its provider Runtime binding" []
      else Ok (<[id := binding]> bindings)
    else Ok bindings
  | NodeCommandPayload.RuntimeRemove request, Some (NodeCommandResult.RuntimeRemoved removal) =>
    Ok (if removes request removal
        then filter (fun kb : Uuid * NodeAgentProviderRuntimeBindingV1.t =>
               (kb.2.(NodeAgentProviderRuntimeBindingV1.runtime_unit_id) != action_unit_id request)
               || (kb.2.(NodeAgentProviderRuntimeBindingV1.runtime_generation) != action_generation request)) bindings
        else bindings)
  | _, _ => Ok bindings
  end.

Definition provider_run_bindings_projection (self : t) : result (gmap Uuid NodeAgentProviderRuntimeBindingV1.t) :=
  project provider_run_binding ∅ (by_sequence self).

(** The loop of [validate]: the sequences seen so far are distinct. *)
Fixpoint validate_entries (node_id : Uuid) (sequences : list N) (entries : list (Uuid * JournalEntry.t)) :
    result (list N) :=
  match entries with
  | [] => Ok sequences
  | (command_id, entry) :: rest =>
    let envelope := entry.(JournalEntry.envelope) in
    map_err Invalid (NodeCommandEnvelope.validate envelope) ;;
    (if (command_id != envelope.(NodeCommandEnvelope.command_id))
        || (envelope.(NodeCommandEnvelope.node_id) != node_id)
        || bool_decide (envelope.(NodeCommandEnvelope.sequence) ∈ sequences)
        || entry.(JournalEntry.acknowledged) && is_none entry.(JournalEntry.completion)
     then invalid "command journal entry identity is invalid" else Ok tt) ;;
    acknowledgement ← JournalEntry.acknowledgement entry;
    validate_entries node_id (envelope.(NodeCommandEnvelope.sequence) :: sequences) rest
  end.

(** The entries are numbered from 1 to the last sequence received, without a gap. *)
Definition validate_sequences (self : t) (sequences : list N) : result unit :=
  if (self.(last_received_sequence) =? 0)%N then
    if is_empty (values self.(entries)) then Ok tt
    else invalid "empty command sequence contains journal entries"
  else if (len sequences != self.(last_received_sequence))
          || (set_first sequences != Some 1%N)
          || (set_last sequences != Some self.(last_received_sequence))
  then invalid "command journal sequence contains a gap"
  else Ok tt.

Definition validate (self : t) : result unit :=
  (if (self.(schema) != SCHEMA) || is_nil self.(node_id)
   then invalid "command journal schema or node identity is invalid" else Ok tt) ;;
  (if (self.(last_received_sequence) <? self.(last_acknowledged_sequence))%N
   then invalid "acknowledged command sequence exceeds received sequence" else Ok tt) ;;
  sequences ← validate_entries self.(node_id) [] (entries_of self.(entries));
  validate_sequences self sequences ;;
  (if contiguous_acknowledged_sequence self != self.(last_acknowledged_sequence)
   then invalid "command journal acknowledgement projection is inconsistent" else Ok tt) ;;
  for_each (fun generation =>
      if (generation.(AggregateGeneration.generation) =? 0)%N
         || negb (is_sha256 generation.(AggregateGeneration.state_digest))
      then invalid "command journal aggregate generation is invalid" else Ok tt)
    (values self.(aggregate_generations)) ;;
  claims ← resource_claim_projection self;
  code_runs ← code_run_bindings_projection self;
  provider_runs ← provider_run_bindings_projection self;
  Ok tt.

End journal.
End CommandJournal.

(** ** The journal file *)

(** [SecureStateError] and its conversion. *)
Inductive SecureStateError := SecureInvalid (message : error) | SecureStorage (message : error).
Definition from_secure (e : SecureStateError) : error :=
  match e with SecureInvalid message => Invalid message | SecureStorage message => Storage message end.

(** What the file system does during one call.  [ensure_directory], the lock and [read_json] can
    fail; [atomic_write] publishes the staged file with one rename, and can fail before it or,
    when the directory is synchronised, after it. *)
Inductive written := Published | PublishedUnsynced (e : SecureStateError) | NotPublished (e : SecureStateError).
Record io := Io {
  io_directory : option SecureStateError;
  io_lock : option SecureStateError;
  io_read : option SecureStateError;
  io_write : written;
}.
Definition healthy : io := Io None None None Published.

Module JournalDecision.
Section decision.
Context `{Platform}.
Inductive t := Execute | Replay (acknowledgement : NodeCommandAck.t).
#[global] Instance t_eq_dec : EqDecision t.
Proof. solve_decision. Defined.
End decision.
End JournalDecision.

Module RuntimeLogTarget.
Record t := Mk { unit_id : string; generation : N }.
End RuntimeLogTarget.

Module FileCommandJournal.
Import CommandJournal.

(** [root] is the directory of the file: the state of the methods is the file itself. *)
Record t := Mk { node_id : Uuid }.

Definition new (node_id : Uuid) : result t :=
  if is_nil node_id then invalid "command journal node ID must not be nil" else Ok (Mk node_id).

Section file.
Context `{Platform}.

Definition disk : Type := option CommandJournal.t.

Definition io_step (failure : option SecureStateError) : method disk unit :=
  lift (match failure with Some e => Err (from_secure e) | None => Ok tt end).

Definition read_journal (self : t) (fs : io) : method disk CommandJournal.t :=
  io_step fs.(io_read) ;;
  stored ← get;
  let journal := default (empty self.(node_id)) stored in
  (if journal.(CommandJournal.node_id) != self.(node_id)
   then lift (conflict "command journal belongs to a different node" []) else mret tt) ;;
  lift (validate journal) ;;
  mret journal.

(** The first three lines of every method. *)
Definition open_journal (self : t) (fs : io) : method disk CommandJournal.t :=
  io_step fs.(io_directory) ;;
  io_step fs.(io_lock) ;;
  read_journal self fs.

Definition write_journal (journal : CommandJournal.t) (fs : io) : method disk unit :=
  match fs.(io_write) with
  | Published => modify (const (Some journal))
  | PublishedUnsynced e => modify (const (Some journal)) ;; lift (Err (from_secure e))
  | NotPublished e => lift (Err (from_secure e))
  end.

(** A command the journal already holds: it must be the same but for the lease. *)
Definition redeliver (journal : CommandJournal.t) (existing : JournalEntry.t) (envelope : NodeCommandEnvelope.t)
    (fs : io) : method disk JournalDecision.t :=
  let lease_id := envelope.(NodeCommandEnvelope.lease_id) in
  let rebound := existing.(JournalEntry.envelope) <| NodeCommandEnvelope.lease_id := lease_id |> in
  if rebound != envelope
  then lift (conflict "command ID was redelivered with different immutable content" [])
  else
    let lease_changed := existing.(JournalEntry.envelope).(NodeCommandEnvelope.lease_id) != lease_id in
    let existing := if lease_changed then existing <| JournalEntry.envelope := envelope |> else existing in
    acknowledgement ← lift (JournalEntry.acknowledgement existing);
    let decision := match acknowledgement with
                    | None => JournalDecision.Execute
                    | Some acknowledgement => JournalDecision.Replay acknowledgement
                    end in
    let journal := journal <| entries := <[envelope.(NodeCommandEnvelope.command_id) := existing]> journal.(entries) |> in
    (if lease_changed then lift (validate journal) ;; write_journal journal fs else mret tt) ;;
    mret decision.

(** The generations of an aggregate after a state-changing command. *)
Definition advance_generation (generations : gmap Uuid AggregateGeneration.t) (envelope : NodeCommandEnvelope.t) :
    result (gmap Uuid AggregateGeneration.t) :=
  let aggregate_id := envelope.(NodeCommandEnvelope.aggregate_id) in
  let generation := envelope.(NodeCommandEnvelope.generation) in
  mutation ← state_mutation_digest envelope.(NodeCommandEnvelope.payload);
  match mutation with
  | None => Ok generations
  | Some state_digest =>
    let current := generations !! aggregate_id in
    (match current with
     | Some current =>
       if (generation <? current.(AggregateGeneration.generation))%N
       then conflict "command generation {} regresses durable generation {}"
              [FNum generation; FNum current.(AggregateGeneration.generation)]
       else Ok tt
     | None => Ok tt
     end) ;;
    if is_some_and (fun current => (current.(AggregateGeneration.generation) == generation)
                                   && (current.(AggregateGeneration.state_digest) != state_digest)) current
    then conflict "state-changing command generation has conflicting content" []
    else Ok (<[aggregate_id := AggregateGeneration.Mk generation state_digest]> generations)
  end.

(** A command the journal does not hold yet. *)
Definition receive (journal : CommandJournal.t) (envelope : NodeCommandEnvelope.t) : result CommandJournal.t :=
  expected ← match checked_add journal.(last_received_sequence) 1 with
             | None => invalid "command sequence overflowed"
             | Some expected => Ok expected
             end;
  (if envelope.(NodeCommandEnvelope.sequence) != expected
   then conflict "command sequence {} does not follow durable sequence {}"
          [FNum envelope.(NodeCommandEnvelope.sequence); FNum journal.(last_received_sequence)]
   else Ok tt) ;;
  generations ← advance_generation journal.(aggregate_generations) envelope;
  Ok (journal <| aggregate_generations := generations |>
              <| last_received_sequence := envelope.(NodeCommandEnvelope.sequence) |>
              <| entries := <[envelope.(NodeCommandEnvelope.command_id) :=
                               JournalEntry.Mk envelope None false]> journal.(entries) |>).

Definition begin_sync (self : t) (envelope : NodeCommandEnvelope.t) (fs : io) : method disk JournalDecision.t :=
  lift (map_err Invalid (NodeCommandEnvelope.validate envelope)) ;;
  (if envelope.(NodeCommandEnvelope.node_id) != self.(node_id)
   then lift (conflict "command belongs to a different node" []) else mret tt) ;;
  journal ← open_journal self fs;
  match journal.(entries) !! envelope.(NodeCommandEnvelope.command_id) with
  | Some existing => redeliver journal existing envelope fs
  | None =>
    journal ← lift (receive journal envelope);
    lift (validate journal) ;;
    write_journal journal fs ;;
    mret JournalDecision.Execute
  end.

(** [entry.acknowledgement()?.ok_or_else(..)] *)
Definition expect_acknowledgement (entry : JournalEntry.t) (message : string) : result NodeCommandAck.t :=
  acknowledgement ← JournalEntry.acknowledgement entry;
  match acknowledgement with Some acknowledgement => Ok acknowledgement | None => invalid message end.

Definition complete_sync (self : t) (command_id : Uuid) (completed_at : Time) (outcome : NodeCommandOutcome.t)
    (fs : io) : method disk NodeCommandAck.t :=
  journal ← open_journal self fs;
  match journal.(entries) !! command_id with
  | None => lift (conflict "command was not journaled" [])
  | Some entry =>
    match entry.(JournalEntry.completion) with
    | Some existing =>
      if existing.(JournalCompletion.outcome) != outcome
      then lift (conflict "completed command outcome changed across replay" [])
      else lift (expect_acknowledgement entry "completed command has no acknowledgement")
    | None =>
      let entry := entry <| JournalEntry.completion := Some (JournalCompletion.Mk completed_at outcome) |> in
      acknowledgement ← lift (expect_acknowledgement entry "completed command has no acknowledgement");
      let journal := journal <| entries := <[command_id := entry]> journal.(entries) |> in
      lift (validate journal) ;;
      write_journal journal fs ;;
      mret acknowledgement
    end
  end.

(** [iter.map(f).collect::<Result<Vec<_>, _>>()] *)
Fixpoint collect_results {A B} (f : A -> result B) (l : list A) : result (list B) :=
  match l with
  | [] => Ok []
  | x :: r => y ← f x; ys ← collect_results f r; Ok (y :: ys)
  end.

Definition pending_acknowledgements_sync (self : t) (fs : io) : method disk (list NodeCommandAck.t) :=
  journal ← open_journal self fs;
  let pending entry := negb entry.(JournalEntry.acknowledged) && is_some entry.(JournalEntry.completion) in
  let entries := sort_by_key JournalEntry.sequence (List.filter pending (values journal.(entries))) in
  lift (collect_results (fun entry => expect_acknowledgement entry "pending acknowledgement has no completion") entries).

Definition mark_acknowledged_sync (self : t) (receipt : NodeCommandAckReceipt.t) (fs : io) : method disk N :=
  lift (map_err Invalid (NodeCommandAckReceipt.validate receipt)) ;;
  (if receipt.(NodeCommandAckReceipt.node_id) != self.(node_id)
   then lift (conflict "acknowledgement receipt belongs to a different node" []) else mret tt) ;;
  journal ← open_journal self fs;
  match journal.(entries) !! receipt.(NodeCommandAckReceipt.command_id) with
  | None => lift (conflict "acknowledgement receipt command is unknown" [])
  | Some entry =>
    if is_none entry.(JournalEntry.completion)
    then lift (conflict "command was acknowledged before durable completion" [])
    else
      let entry := entry <| JournalEntry.acknowledged := true |> in
      let journal :=
        journal <| entries := <[receipt.(NodeCommandAckReceipt.command_id) := entry]> journal.(entries) |> in
      let journal :=
        journal <| last_acknowledged_sequence := contiguous_acknowledged_sequence journal |> in
      lift (validate journal) ;;
      write_journal journal fs ;;
      mret journal.(last_acknowledged_sequence)
  end.

Definition after_sequence_sync (self : t) (fs : io) : method disk N :=
  journal ← open_journal self fs;
  mret journal.(last_acknowledged_sequence).

(** One entry of the loop of [log_targets_sync]. *)
Definition log_target (targets : gmap string RuntimeLogTarget.t) (entry : JournalEntry.t) :
    gmap string RuntimeLogTarget.t :=
  match entry.(JournalEntry.envelope).(NodeCommandEnvelope.payload), JournalEntry.succeeded entry with
  | NodeCommandPayload.RuntimeApply request _, Some (NodeCommandResult.RuntimeApplied _) =>
    let candidate := RuntimeLogTarget.Mk (spec_unit_id (apply_spec request)) (spec_generation (apply_spec request)) in
    if is_none_or (fun current => current.(RuntimeLogTarget.generation) <=? candidate.(RuntimeLogTarget.generation))%N
         (targets !! candidate.(RuntimeLogTarget.unit_id))
    then <[candidate.(RuntimeLogTarget.unit_id) := candidate]> targets
    else targets
  | NodeCommandPayload.RuntimeRemove request, Some (NodeCommandResult.RuntimeRemoved _) =>
    if is_some_and (fun target => target.(RuntimeLogTarget.generation) == action_generation request)
         (targets !! action_unit_id request)
    then delete (action_unit_id request) targets
    else targets
  | _, _ => targets
  end.

Definition log_targets_sync (self : t) (fs : io) : method disk (list RuntimeLogTarget.t) :=
  journal ← open_journal self fs;
  mret (values (fold_left log_target (by_sequence journal) ∅)).

Definition active_resource_claim_bindings_sync (self : t) (fs : io) :
    method disk (list NodeResourceClaimBinding.t) :=
  journal ← open_journal self fs;
  claims ← lift (resource_claim_projection journal);
  mret (ResourceClaimJournalProjection.active_bindings claims).

Definition validate_runtime_resource_binding_sync (self : t) (spec : RuntimeUnitSpec)
    (binding : option NodeResourceClaimBinding.t) (fs : io) : method disk unit :=
  journal ← open_journal self fs;
  claims ← lift (resource_claim_projection journal);
  lift (ResourceClaimJournalProjection.validate_runtime_apply claims spec binding).

Definition validate_resource_claim_release_sync (self : t) (request : NodeResourceClaimRelease.t) (fs : io) :
    method disk unit :=
  journal ← open_journal self fs;
  claims ← lift (resource_claim_projection journal);
  lift (ResourceClaimJournalProjection.validate_release claims request).

Definition code_run_bindings_sync (self : t) (fs : io) : method disk (list NodeCodeAgentRuntimeBindingV1.t) :=
  journal ← open_journal self fs;
  bindings ← lift (code_run_bindings_projection journal);
  mret (values bindings).

Definition provider_run_bindings_sync (self : t) (fs : io) : method disk (list NodeAgentProviderRuntimeBindingV1.t) :=
  journal ← open_journal self fs;
  bindings ← lift (provider_run_bindings_projection journal);
  mret (values bindings).

End file.
End FileCommandJournal.
