(* ===== verification/JournalLifecycle.v ===== *)
(** * The command journal is an append-only log of commands

    The abstract specification is [CommandLog]: the commands of a node in the order it received
    them, each with the outcome and the acknowledgement it got.  Every call on the journal file,
    however the file system behaves during it and wherever the process dies, leaves a valid
    journal whose content is the same log or the log after one step ([journal_refines_log]).  What
    the agent relies on after a restart follows: a recorded outcome is never replaced and never
    executed again, sequences have no gap, generations of an aggregate never regress, and the
    cursor sent to the control plane is the acknowledged prefix. *)

From Stdlib Require Import ZArith NArith Lia String.
From stdpp Require Import gmap relations.
From S2P Require Import Prelude RustStd BTreeMap External Text Resources NodeClaims NodeCommands CommandJournal.
Import CommandJournal FileCommandJournal.


Lemma invalid_if_Ok (c : bool) msg : (if c then invalid msg else Ok tt) = Ok tt <-> c = false.
Proof. apply unit_Err. Qed.

Section validity.
Context `{Platform}.
Implicit Types (e : JournalEntry.t) (j : CommandJournal.t).

(** What [validate] checks of one entry. *)
Record entry_ok (node_id : Uuid) (command_id : Uuid) (e : JournalEntry.t) : Prop := {
  entry_valid : NodeCommandEnvelope.validate e.(JournalEntry.envelope) = Ok tt;
  entry_key : command_id = e.(JournalEntry.envelope).(NodeCommandEnvelope.command_id);
  entry_node : e.(JournalEntry.envelope).(NodeCommandEnvelope.node_id) = node_id;
  entry_ack : e.(JournalEntry.acknowledged) = true -> is_Some e.(JournalEntry.completion);
  entry_acknowledgement : exists a, JournalEntry.acknowledgement e = Ok a;
}.

Lemma validate_entries_Ok node_id seen l seqs :
  NoDup seen ->
  validate_entries node_id seen l = Ok seqs <->
  seqs = rev (JournalEntry.sequence <$> l.*2) ++ seen
  /\ NoDup seqs /\ Forall (fun kv => entry_ok node_id kv.1 kv.2) l.
Proof.
  revert seen. induction l as [|[k e] l IH]; intros seen Hseen; simpl.
  { rewrite Ok_inj_iff. split; [intros ->|intros (-> & _)]; auto. }
  rewrite then_Ok, map_err_Ok, then_Ok, invalid_if_Ok, result_bind_Ok, Forall_cons; simpl.
  fold (JournalEntry.sequence e). rewrite <- app_assoc; simpl. reflect_bools. split.
  - intros (Hv & [[[Hk Hn] Hs] Ha] & a & Hack & Hl). apply IH in Hl as (-> & Hnd & Hall); [|by constructor].
    split_and!; [done..| |done]. split; eauto.
    destruct (JournalEntry.completion e); [by intros|]. unfold is_none in Ha; simpl in Ha. intuition congruence.
  - intros (-> & Hnd & [Hv Hk Hn Ha [a Hack]] & Hall). apply NoDup_app in Hnd as Hnd'.
    destruct Hnd' as (_ & _ & Hc). apply NoDup_cons in Hc as [Hs _].
    split_and!; [done..| |].
    + destruct (JournalEntry.acknowledged e); [|auto]. right. destruct Ha as [c ->]; done.
    + exists a. split; [done|]. apply IH; [by constructor|]. done.
Qed.

Definition generation_ok (g : AggregateGeneration.t) : Prop :=
  g.(AggregateGeneration.generation) <> 0%N /\ is_sha256 g.(AggregateGeneration.state_digest) = true.

Record valid (j : CommandJournal.t) : Prop := {
  valid_schema : j.(schema) = SCHEMA;
  valid_node : is_nil j.(CommandJournal.node_id) = false;
  valid_le : (j.(last_acknowledged_sequence) <= j.(last_received_sequence))%N;
  valid_entries : forall k e, j.(entries) !! k = Some e -> entry_ok j.(CommandJournal.node_id) k e;
  valid_distinct : NoDup (JournalEntry.sequence <$> values j.(entries));
  valid_sequences : validate_sequences j (rev (JournalEntry.sequence <$> values j.(entries))) = Ok tt;
  valid_contiguous : contiguous_acknowledged_sequence j = j.(last_acknowledged_sequence);
  valid_generations : forall k g, j.(aggregate_generations) !! k = Some g -> generation_ok g;
  valid_claims : exists p, resource_claim_projection j = Ok p;
  valid_code_runs : exists p, code_run_bindings_projection j = Ok p;
  valid_provider_runs : exists p, provider_run_bindings_projection j = Ok p;
}.

Lemma NoDup_rev {A} (l : list A) : NoDup (rev l) <-> NoDup l.
Proof. by rewrite <- Permutation_rev. Qed.

Lemma validate_valid j : validate j = Ok tt <-> valid j.
Proof.
  unfold validate. rewrite then_Ok, invalid_if_Ok, then_Ok, invalid_if_Ok, result_bind_Ok.
  setoid_rewrite validate_entries_Ok; [|constructor]. setoid_rewrite then_Ok. setoid_rewrite then_Ok.
  setoid_rewrite then_Ok. setoid_rewrite invalid_if_Ok. setoid_rewrite for_each_Ok.
  setoid_rewrite result_bind_Ok. setoid_rewrite result_bind_Ok. setoid_rewrite result_bind_Ok.
  reflect_bools. setoid_rewrite app_nil_r. fold (values j.(entries)).
  assert (Hgen : forall g, (if (AggregateGeneration.generation g =? 0)%N || negb (is_sha256 (AggregateGeneration.state_digest g))
      then invalid "command journal aggregate generation is invalid" else Ok tt) = Ok tt <-> generation_ok g).
  { intros g. rewrite invalid_if_Ok. unfold generation_ok. reflect_bools. done. }
  split.
  - intros ([Hs Hn] & Hle & seqs & (-> & Hnd & Hall) & Hseq & Hc & Hg & p & Hp & q & Hq & r & Hr & _).
    rewrite Forall_forall in Hall. rewrite Forall_forall in Hg. reflect_bools. split; eauto.
    + intros k e Hk. apply (Hall (k, e)). by apply elem_of_entries.
    + by apply NoDup_rev.
    + intros k g Hk. apply Hgen, Hg, elem_of_values; eauto.
  - intros [Hs Hn Hle Hent Hnd Hseq Hc Hg [p Hp] [q Hq] [r Hr]]. split_and!; [done..|].
    eexists. split; [split_and!; [reflexivity|by apply NoDup_rev|]|].
    + apply Forall_forall. intros [k e] Hin%elem_of_entries. by apply Hent.
    + split_and!; [done|by rewrite Hc, bool_decide_eq_true_2| |eauto 10].
      apply Forall_forall. intros g [k Hk]%elem_of_values. by apply Hgen, (Hg k).
Qed.

End validity.

(** ** Sequences without a gap *)
Section dense.
Context `{Platform}.
Implicit Types (e : JournalEntry.t) (j : CommandJournal.t).

Lemma valid_received j : valid j -> j.(last_received_sequence) = N.of_nat (size j.(entries)).
Proof.
  intros Hv. pose proof (valid_sequences _ Hv) as Hs. revert Hs. unfold validate_sequences.
  destruct (N.eqb_spec j.(last_received_sequence) 0) as [->|Hne].
  - unfold is_empty. destruct (values j.(entries)) eqn:E; [|done].
    rewrite <- length_values, E. done.
  - rewrite invalid_if_Ok. reflect_bools. intros [[Hlen _] _]. unfold len in Hlen.
    rewrite length_rev, length_fmap, length_values in Hlen. done.
Qed.

Lemma valid_bounds j k e :
  valid j -> j.(entries) !! k = Some e -> (1 <= JournalEntry.sequence e <= j.(last_received_sequence))%N.
Proof.
  intros Hv Hk. pose proof (valid_sequences _ Hv) as Hs. revert Hs. unfold validate_sequences.
  assert (Hin : JournalEntry.sequence e ∈ rev (JournalEntry.sequence <$> values j.(entries))).
  { rewrite <- Permutation_rev. apply list_elem_of_fmap_2, elem_of_values; eauto. }
  destruct (N.eqb_spec j.(last_received_sequence) 0) as [E0|Hne].
  - destruct (values j.(entries)) eqn:E; [|done]. simpl in Hin. by apply not_elem_of_nil in Hin.
  - rewrite invalid_if_Ok. reflect_bools. intros [[_ Hf] Hl].
    split; [by eapply set_first_le|by eapply set_last_ge].
Qed.

(** The sequences, in the order of receipt, are 1, 2, 3, ... *)
Lemma by_sequence_numbers j : valid j -> JournalEntry.sequence <$> by_sequence j = numbers (size j.(entries)).
Proof.
  intros Hv. set (l := JournalEntry.sequence <$> by_sequence j).
  assert (Hperm : l ≡ₚ JournalEntry.sequence <$> values j.(entries)).
  { unfold l, by_sequence. by rewrite sort_by_key_perm. }
  assert (Hlen : length l = size j.(entries)) by (by rewrite Hperm, length_fmap, length_values).
  assert (Hnd : NoDup l) by (rewrite Hperm; apply valid_distinct, Hv).
  assert (Hp : l ≡ₚ numbers (size j.(entries))).
  { rewrite <- Hlen. apply dense_numbers; [done|]. intros x Hx. rewrite Hperm in Hx.
    apply list_elem_of_fmap in Hx as (e & -> & [k Hk]%elem_of_values).
    pose proof (valid_bounds _ _ _ Hv Hk) as Hb. rewrite (valid_received _ Hv) in Hb.
    unfold len. rewrite Hlen. done. }
  assert (Hsl : StronglySorted (key_le (@id N)) l).
  { unfold l, by_sequence. pose proof (sort_by_key_sorted JournalEntry.sequence (values j.(entries))) as Hs.
    revert Hs. generalize (sort_by_key JournalEntry.sequence (values j.(entries))).
    induction 1 as [|x s _ IH Hx]; simpl; constructor; [done|]. by apply Forall_fmap. }
  rewrite <- (sort_by_key_id _ _ Hsl), <- (sort_by_key_id _ _ (key_lt_le _ _ (numbers_sorted _))).
  apply sort_by_key_unique; [|done]. rewrite list_fmap_id. done.
Qed.

Lemma elem_of_by_sequence j e : e ∈ by_sequence j <-> exists k, j.(entries) !! k = Some e.
Proof. unfold by_sequence. by rewrite sort_by_key_perm, elem_of_values. Qed.

Lemma length_by_sequence j : length (by_sequence j) = size j.(entries).
Proof. unfold by_sequence. by rewrite sort_by_key_perm, length_values. Qed.

Lemma by_sequence_lookup j i e :
  valid j ->
  by_sequence j !! i = Some e <-> JournalEntry.sequence e = N.of_nat (S i) /\ exists k, j.(entries) !! k = Some e.
Proof.
  intros Hv. pose proof (by_sequence_numbers _ Hv) as Hn. rewrite <- elem_of_by_sequence.
  assert (Hi : forall i e, by_sequence j !! i = Some e -> JournalEntry.sequence e = N.of_nat (S i)).
  { intros i' e' Hl. assert (Hlt : (i' < size j.(entries))%nat)
      by (rewrite <- length_by_sequence; by eapply lookup_lt_Some).
    pose proof (f_equal (fun l => l !! i') Hn) as Hn'; simpl in Hn'.
    rewrite list_lookup_fmap, Hl, lookup_numbers in Hn' by done. simpl in Hn'. congruence. }
  split.
  - intros Hl. split; [by apply Hi|by eapply list_elem_of_lookup_2].
  - intros [Hs [i' Hl]%list_elem_of_lookup]. apply Hi in Hl as Hs'. assert (i = i') as -> by lia. done.
Qed.

(** Two entries with one sequence are the same entry. *)
Lemma valid_sequence_inj j k k' e e' :
  valid j -> j.(entries) !! k = Some e -> j.(entries) !! k' = Some e' ->
  JournalEntry.sequence e = JournalEntry.sequence e' -> k = k' /\ e = e'.
Proof.
  intros Hv Hk Hk' E. assert (e = e') as <-.
  { pose proof (valid_bounds _ _ _ Hv Hk) as Hb.
    assert (Hl : by_sequence j !! (pred (N.to_nat (JournalEntry.sequence e))) = Some e)
      by (apply by_sequence_lookup; [done|]; split; [lia|eauto]).
    assert (Hl' : by_sequence j !! (pred (N.to_nat (JournalEntry.sequence e))) = Some e')
      by (apply by_sequence_lookup; [done|]; split; [lia|eauto]).
    congruence. }
  split; [|done]. destruct (valid_entries _ Hv _ _ Hk), (valid_entries _ Hv _ _ Hk'). congruence.
Qed.

End dense.

(** ** The specification: a log of commands *)
Module CommandLog.
Section log.
Context `{Platform}.

(** A command as it was received first: a later delivery may only change the lease. *)
Record record := Record_ {
  command : NodeCommandEnvelope.t;
  completion : option JournalCompletion.t;
  acknowledged : bool;
}.

#[local] Abbreviation log := (list record).

Inductive step : log -> log -> Prop :=
| append l command : step l (l ++ [Record_ command None false])
| complete l i command c :
    l !! i = Some (Record_ command None false) -> step l (<[i := Record_ command (Some c) false]> l)
| acknowledge l i command c a :
    l !! i = Some (Record_ command (Some c) a) -> step l (<[i := Record_ command (Some c) true]> l).

(** The number of commands before the first that is not acknowledged. *)
Fixpoint acknowledged_prefix (l : log) : nat :=
  match l with
  | r :: l => if r.(acknowledged) then S (acknowledged_prefix l) else 0
  | [] => 0
  end.

(** [r'] is [r] at some later time. *)
Definition later (r r' : record) : Prop :=
  r'.(command) = r.(command)
  /\ (forall c, r.(completion) = Some c -> r'.(completion) = Some c)
  /\ (r.(acknowledged) = true -> r'.(acknowledged) = true).

#[export] Instance later_preorder : PreOrder later.
Proof. split; [intros r; by split_and!|]. unfold later. intros x y z (-> & ? & ?) (-> & ? & ?). eauto 10. Qed.

Lemma step_later l l' i r : step l l' -> l !! i = Some r -> exists r', l' !! i = Some r' /\ later r r'.
Proof.
  intros Hs Hi. destruct Hs as [l cmd|l k cmd c Hk|l k cmd c a Hk].
  - exists r. split; [by apply lookup_app_l_Some|reflexivity].
  - destruct (decide (k = i)) as [->|Hne].
    + eexists. rewrite list_lookup_insert_eq by (by eapply lookup_lt_Some). split; [done|].
      simplify_eq. by split_and!.
    + exists r. rewrite list_lookup_insert_ne by done. by split.
  - destruct (decide (k = i)) as [->|Hne].
    + eexists. rewrite list_lookup_insert_eq by (by eapply lookup_lt_Some). split; [done|].
      simplify_eq. by split_and!.
    + exists r. rewrite list_lookup_insert_ne by done. by split.
Qed.

Lemma steps_later l l' i r : rtc step l l' -> l !! i = Some r -> exists r', l' !! i = Some r' /\ later r r'.
Proof.
  intros Hs. revert r. induction Hs as [l|l m l' Hs _ IH]; intros r Hi.
  - exists r. by split.
  - destruct (step_later _ _ _ _ Hs Hi) as (r1 & H1 & Hl1). destruct (IH _ H1) as (r2 & H2 & Hl2).
    exists r2. split; [done|]. by etrans.
Qed.

Lemma acknowledged_prefix_spec l n :
  acknowledged_prefix l = n <->
  (forall i, (i < n)%nat -> exists r, l !! i = Some r /\ r.(acknowledged) = true)
  /\ (forall r, l !! n = Some r -> r.(acknowledged) = false).
Proof.
  revert n. induction l as [|r l IH]; intros n; simpl.
  - split; [intros <-|]; [split; [lia|done]|]. intros [Hn _]. destruct n; [done|].
    destruct (Hn 0%nat) as (? & ? & _); [lia|done].
  - destruct (acknowledged r) eqn:E; split.
    + intros <-. destruct (IH (acknowledged_prefix l)) as [[H1 H2] _]; [done|]. split; [|done].
      intros [|i] Hi; simpl; [eauto|]. apply H1. lia.
    + intros [H1 H2]. destruct n as [|n]; [by rewrite (H2 r) in E|]. f_equal. apply IH. split; [|done].
      intros i Hi. by apply (H1 (S i)); lia.
    + intros <-. split; [lia|]. simpl. by intros ? [= <-].
    + intros [H1 _]. destruct n; [done|]. destruct (H1 0%nat) as (? & [= <-] & ?); [lia|congruence].
Qed.

Lemma acknowledged_prefix_le l l' : 
  (forall i r, l !! i = Some r -> exists r', l' !! i = Some r' /\ later r r') ->
  (acknowledged_prefix l <= acknowledged_prefix l')%nat.
Proof.
  revert l'. induction l as [|r l IH]; intros l' Hl; simpl; [lia|].
  destruct (acknowledged r) eqn:E; [|lia].
  destruct (Hl 0%nat r eq_refl) as (r' & Hr' & _ & _ & Ha). destruct l' as [|x l']; [done|].
  simpl in Hr'. simplify_eq. simpl. rewrite Ha by done. apply le_n_S, IH.
  intros i x Hi. apply (Hl (S i) x Hi).
Qed.

End log.
End CommandLog.

(** ** The log a journal stands for *)
Section history.
Context `{Platform}.
Implicit Types (e : JournalEntry.t) (j : CommandJournal.t).

(** The command without the lease of its last delivery. *)
Definition content (envelope : NodeCommandEnvelope.t) : NodeCommandEnvelope.t :=
  envelope <| NodeCommandEnvelope.lease_id := 0%N |>.

Definition record_of (e : JournalEntry.t) : CommandLog.record :=
  CommandLog.Record_ (content e.(JournalEntry.envelope)) e.(JournalEntry.completion) e.(JournalEntry.acknowledged).

Definition history (j : CommandJournal.t) : list CommandLog.record := record_of <$> by_sequence j.

Lemma sequence_pos j k e : valid j -> j.(entries) !! k = Some e ->
  JournalEntry.sequence e = N.of_nat (S (pred (N.to_nat (JournalEntry.sequence e)))).
Proof. intros Hv Hk. pose proof (valid_bounds _ _ _ Hv Hk). lia. Qed.

(** Where an entry is in the log. *)
Definition position (e : JournalEntry.t) : nat := pred (N.to_nat (JournalEntry.sequence e)).

Lemma history_lookup j k e : valid j -> j.(entries) !! k = Some e -> history j !! position e = Some (record_of e).
Proof.
  intros Hv Hk. unfold history. rewrite list_lookup_fmap.
  rewrite (proj2 (by_sequence_lookup j (position e) e Hv)); [done|]. split; [by eapply sequence_pos|eauto].
Qed.

Lemma history_lookup_inv j i r :
  valid j -> history j !! i = Some r -> exists k e, j.(entries) !! k = Some e /\ r = record_of e /\ position e = i.
Proof.
  intros Hv. unfold history. rewrite list_lookup_fmap. destruct (by_sequence j !! i) as [e|] eqn:E; [|done].
  intros [= <-]. apply by_sequence_lookup in E as [Hs [k Hk]]; [|done]. exists k, e. split_and!; [done..|].
  unfold position. lia.
Qed.

Lemma length_history j : length (history j) = size j.(entries).
Proof. unfold history. by rewrite length_fmap, length_by_sequence. Qed.

(** *** The loop over the acknowledged sequences ends at the first that is not *)
Lemma contiguous_loop_spec fuel m s (r := contiguous_loop fuel m s) :
  (s <= r)%N
  /\ (forall x, s < x <= r -> m !! x = Some true)%N
  /\ (m !! (r + 1)%N <> Some true \/ r = s + N.of_nat fuel)%N.
Proof.
  subst r. revert s. induction fuel as [|fuel IH]; intros s; cbn [contiguous_loop].
  { split_and!; [lia|lia|right; lia]. }
  case_bool_decide as E; [|split_and!; [lia|lia|by left]].
  destruct (IH (s + 1)%N) as (H1 & H2 & H3). split_and!; [lia| |].
  - intros x Hx. destruct (decide (x = s + 1)%N) as [->|]; [done|]. apply H2. lia.
  - destruct H3 as [|H3]; [by left|right; lia].
Qed.

Lemma acknowledged_by_sequence_lookup j s b :
  valid j ->
  acknowledged_by_sequence j !! s = Some b <->
  exists k e, j.(entries) !! k = Some e /\ JournalEntry.sequence e = s /\ e.(JournalEntry.acknowledged) = b.
Proof.
  intros Hv. unfold acknowledged_by_sequence.
  rewrite <- elem_of_list_to_map.
  - rewrite <- Permutation_rev, list_elem_of_In, in_map_iff. setoid_rewrite <- list_elem_of_In. split.
    + intros (e & [= <- <-] & [k Hk]%elem_of_values). eauto.
    + intros (k & e & Hk & <- & <-). exists e. split; [done|]. apply elem_of_values; eauto.
  - rewrite <- Permutation_rev. pose proof (valid_distinct _ Hv) as Hnd.
    change (map ?f ?l) with (f <$> l). rewrite <- list_fmap_compose. exact Hnd.
Qed.

(** The cursor of the journal is the acknowledged prefix of its log. *)
Lemma contiguous_prefix j :
  valid j -> contiguous_acknowledged_sequence j = N.of_nat (CommandLog.acknowledged_prefix (history j)).
Proof.
  intros Hv. unfold contiguous_acknowledged_sequence.
  destruct (contiguous_loop_spec (size j.(entries)) (acknowledged_by_sequence j) 0) as (_ & Hall & Hend).
  set (r := contiguous_loop _ _ _) in *.
  rewrite (proj2 (CommandLog.acknowledged_prefix_spec (history j) (N.to_nat r))); [lia|]. split.
  - intros i Hi. destruct (proj1 (acknowledged_by_sequence_lookup j (N.of_nat (S i)) true Hv)) as (k & e & Hk & Hs & Ha).
    { apply Hall. lia. }
    exists (record_of e). split; [|done]. replace i with (position e); [by eapply history_lookup|].
    unfold position. lia.
  - intros rec Hr. destruct (history_lookup_inv _ _ _ Hv Hr) as (k & e & Hk & -> & Hp). simpl.
    apply not_true_iff_false. intros Ha. pose proof (sequence_pos _ _ _ Hv Hk) as Hs. unfold position in Hp.
    assert (Hl : acknowledged_by_sequence j !! (r + 1)%N = Some true).
    { apply acknowledged_by_sequence_lookup; [done|]. exists k, e. split_and!; [done|lia|done]. }
    destruct Hend as [Hend|Hend]; [done|].
    pose proof (valid_bounds _ _ _ Hv Hk) as Hb. rewrite (valid_received _ Hv) in Hb. lia.
Qed.

End history.

(** ** What a call may do to the file *)
Module Journaling.
Section calls.
Context `{Platform}.
Implicit Types (e : JournalEntry.t) (j : CommandJournal.t) (d : disk).

(** The calls an agent makes on its journal. *)
Inductive call :=
| Begin (envelope : NodeCommandEnvelope.t)
| Complete (command_id : Uuid) (completed_at : Time) (outcome : NodeCommandOutcome.t)
| PendingAcknowledgements
| MarkAcknowledged (receipt : NodeCommandAckReceipt.t)
| AfterSequence
| LogTargets
| ActiveResourceClaimBindings
| ValidateRuntimeResourceBinding (spec : RuntimeUnitSpec) (binding : option NodeResourceClaimBinding.t)
| ValidateResourceClaimRelease (request : NodeResourceClaimRelease.t)
| CodeRunBindings
| ProviderRunBindings.

(** The file after a call.  A process that dies during the call leaves the file as it was or as
    the call would have left it, which are the outcomes of [NotPublished] and [Published]. *)
Definition after_call (self : FileCommandJournal.t) (fs : io) (c : call) : disk -> disk :=
  match c with
  | Begin envelope => run_state (begin_sync self envelope fs)
  | Complete command_id completed_at outcome => run_state (complete_sync self command_id completed_at outcome fs)
  | PendingAcknowledgements => run_state (pending_acknowledgements_sync self fs)
  | MarkAcknowledged receipt => run_state (mark_acknowledged_sync self receipt fs)
  | AfterSequence => run_state (after_sequence_sync self fs)
  | LogTargets => run_state (log_targets_sync self fs)
  | ActiveResourceClaimBindings => run_state (active_resource_claim_bindings_sync self fs)
  | ValidateRuntimeResourceBinding spec binding =>
    run_state (validate_runtime_resource_binding_sync self spec binding fs)
  | ValidateResourceClaimRelease request => run_state (validate_resource_claim_release_sync self request fs)
  | CodeRunBindings => run_state (code_run_bindings_sync self fs)
  | ProviderRunBindings => run_state (provider_run_bindings_sync self fs)
  end.

(** A run of the agent, through any number of failures and restarts. *)
Inductive run (self : FileCommandJournal.t) : disk -> disk -> Prop :=
| run_nil d : run self d d
| run_call d d' fs c : run self d d' -> run self d (after_call self fs c d').

Definition reachable (self : FileCommandJournal.t) : disk -> Prop := run self None.

(** The journal in the file, or the one that is used when there is none. *)
Definition stored (self : FileCommandJournal.t) (d : disk) : CommandJournal.t :=
  default (empty self.(FileCommandJournal.node_id)) d.

(** The changes of the journal, one constructor per kind of write. *)
Inductive transition : CommandJournal.t -> CommandJournal.t -> Prop :=
| rebind j e envelope :
    j.(entries) !! envelope.(NodeCommandEnvelope.command_id) = Some e ->
    e.(JournalEntry.envelope) <| NodeCommandEnvelope.lease_id := envelope.(NodeCommandEnvelope.lease_id) |> = envelope ->
    transition j (j <| entries := <[envelope.(NodeCommandEnvelope.command_id) :=
                                      e <| JournalEntry.envelope := envelope |>]> j.(entries) |>)
| received j j' envelope :
    j.(entries) !! envelope.(NodeCommandEnvelope.command_id) = None ->
    receive j envelope = Ok j' ->
    transition j j'
| completed j command_id e c :
    j.(entries) !! command_id = Some e ->
    e.(JournalEntry.completion) = None ->
    transition j (j <| entries := <[command_id := e <| JournalEntry.completion := Some c |>]> j.(entries) |>)
| acknowledged j j' command_id e c :
    j.(entries) !! command_id = Some e ->
    e.(JournalEntry.completion) = Some c ->
    j' = j <| entries := <[command_id := e <| JournalEntry.acknowledged := true |>]> j.(entries) |> ->
    transition j (j' <| last_acknowledged_sequence := contiguous_acknowledged_sequence j' |>).

Lemma open_journal_spec self fs d :
  exists r, open_journal self fs d = (d, r)
  /\ (forall j, r = Ok j ->
        j = stored self d /\ valid j /\ j.(CommandJournal.node_id) = self.(FileCommandJournal.node_id)).
Proof.
  unfold open_journal, read_journal, io_step.
  autorewrite with methods. destruct (io_directory fs); [by eexists|].
  autorewrite with methods. destruct (io_lock fs); [by eexists|].
  autorewrite with methods. destruct (io_read fs); [by eexists|].
  autorewrite with methods. fold (stored self d).
  destruct (_ != _) eqn:E; [by eexists|]. destruct (validate (stored self d)) as [[]|] eqn:Ev; [|by eexists].
  eexists. split; [done|]. intros j [= <-]. apply validate_valid in Ev. reflect_bools. done.
Qed.

Lemma open_journal_healthy self d :
  valid (stored self d) -> (stored self d).(CommandJournal.node_id) = self.(FileCommandJournal.node_id) ->
  open_journal self healthy d = (d, Ok (stored self d)).
Proof.
  intros Hv Hn. unfold open_journal, read_journal, io_step; simpl. autorewrite with methods.
  fold (stored self d). rewrite Hn, bool_decide_eq_true_2 by done. simpl.
  by rewrite (proj2 (validate_valid _) Hv).
Qed.

Lemma bind_open {B} self fs (f : CommandJournal.t -> method disk B) d d' r :
  (open_journal self fs ≫= f) d = (d', r) ->
  d' = d \/ (valid (stored self d) /\ (stored self d).(CommandJournal.node_id) = self.(FileCommandJournal.node_id)
             /\ f (stored self d) d = (d', r)).
Proof.
  destruct (open_journal_spec self fs d) as (ro & Eo & Ho). unfold mbind, method_bind. rewrite Eo.
  destruct ro as [j|e]; [|intros [= <- _]; by left]. destruct (Ho j eq_refl) as (-> & Hv & Hn).
  intros Hf. right. done.
Qed.

(** The last statements of a method that writes: the new journal was validated before. *)
Lemma validate_write {B} j fs (m : method disk B) d d' r :
  (forall x, (m x).1 = x) ->
  (lift (validate j) ≫= fun _ => write_journal j fs ≫= fun _ => m) d = (d', r) ->
  d' = d \/ (valid j /\ d' = Some j).
Proof.
  intros Hm. rewrite bind_lift. destruct (validate j) as [[]|] eqn:Ev; [|intros [= <- _]; by left].
  apply validate_valid in Ev. unfold write_journal. destruct (io_write fs); autorewrite with methods.
  - intros E. right. split; [done|]. change (m (Some j) = (d', r)) in E. specialize (Hm (Some j)). by rewrite E in Hm.
  - intros [= <- _]. right. done.
  - intros [= <- _]. by left.
Qed.

Definition changed (self : FileCommandJournal.t) (d d' : disk) : Prop :=
  d' = d
  \/ exists j', valid (stored self d)
       /\ (stored self d).(CommandJournal.node_id) = self.(FileCommandJournal.node_id)
       /\ transition (stored self d) j' /\ valid j' /\ d' = Some j'.

Ltac no_write E := autorewrite with methods in E; simplify_eq; by left.

Lemma begin_effect self envelope fs d d' r :
  begin_sync self envelope fs d = (d', r) -> changed self d d'.
Proof.
  unfold begin_sync. autorewrite with methods. destruct (map_err _ _); [|intros [= <- _]; by left].
  autorewrite with methods. destruct (_ != _); autorewrite with methods; [intros [= <- _]; by left|].
  intros [->|(Hv & Hn & E)]%bind_open; [by left|].
  destruct (entries (stored self d) !! _) as [e|] eqn:Hk.
  - unfold redeliver in E. destruct (_ != envelope) eqn:Er; autorewrite with methods in E; [no_write E|].
    reflect_bools. destruct (JournalEntry.acknowledgement _); [|no_write E].
    destruct (_ != NodeCommandEnvelope.lease_id envelope) eqn:El; cbv iota in E;
      [|no_write E].
    rewrite bind_assoc in E.
    apply validate_write in E as [->|[Hj ->]]; [by left| |done].
    right. eexists. split_and!; [done..|by eapply rebind|done|done].
  - autorewrite with methods in E. destruct (receive _ _) as [j'|] eqn:Hr; [|no_write E].
    apply validate_write in E as [->|[Hj ->]]; [by left| |done].
    right. eexists. split_and!; [done..|by eapply received|done|done].
Qed.

Lemma complete_effect self command_id completed_at outcome fs d d' r :
  complete_sync self command_id completed_at outcome fs d = (d', r) -> changed self d d'.
Proof.
  intros [->|(Hv & Hn & E)]%bind_open; [by left|].
  destruct (entries (stored self d) !! _) as [e|] eqn:Hk; [|no_write E].
  destruct (JournalEntry.completion e) as [c|] eqn:Ec.
  - destruct (_ != _); no_write E.
  - autorewrite with methods in E. destruct (expect_acknowledgement _ _); [|no_write E].
    apply validate_write in E as [->|[Hj ->]]; [by left| |done].
    right. eexists. split_and!; [done..|by eapply completed|done|done].
Qed.

Lemma mark_effect self receipt fs d d' r :
  mark_acknowledged_sync self receipt fs d = (d', r) -> changed self d d'.
Proof.
  unfold mark_acknowledged_sync. autorewrite with methods. destruct (map_err _ _); [|intros [= <- _]; by left].
  autorewrite with methods. destruct (_ != _); autorewrite with methods; [intros [= <- _]; by left|].
  intros [->|(Hv & Hn & E)]%bind_open; [by left|].
  destruct (entries (stored self d) !! _) as [e|] eqn:Hk; [|no_write E].
  destruct (JournalEntry.completion e) as [c|] eqn:Ec; cbn [is_none is_some negb] in E; [|no_write E].
  apply validate_write in E as [->|[Hj ->]]; [by left| |done].
  right. eexists. split_and!; [done..|by eapply acknowledged|done|done].
Qed.

(** The calls that read a projection of the journal. *)
Lemma read_projection_effect {A B} self fs (p : CommandJournal.t -> result A) (m : A -> method disk B) d d' r :
  (forall a x, (m a x).1 = x) ->
  (open_journal self fs ≫= fun journal => lift (p journal) ≫= m) d = (d', r) -> d' = d.
Proof.
  intros Hm [->|(_ & _ & E)]%bind_open; [done|]. rewrite bind_lift in E.
  destruct (p _) as [a|]; [|by simplify_eq]. specialize (Hm a d). by rewrite E in Hm.
Qed.

(** Every call leaves the file as it is, or replaces its journal by a valid one that is one
    transition away. *)
Lemma call_effect self fs c d :
  changed self d (after_call self fs c d).
Proof.
  destruct c; simpl; unfold run_state;
    match goal with |- context [?m d] => destruct (m d) as [d' r] eqn:E end; simpl.
  - by eapply begin_effect.
  - by eapply complete_effect.
  - left. apply bind_open in E as [|(_ & _ & [= <- _])]; done.
  - by eapply mark_effect.
  - left. apply bind_open in E as [|(_ & _ & [= <- _])]; done.
  - left. apply bind_open in E as [|(_ & _ & [= <- _])]; done.
  - left. by eapply read_projection_effect in E.
  - left. by eapply read_projection_effect in E.
  - left. by eapply read_projection_effect in E.
  - left. by eapply read_projection_effect in E.
  - left. by eapply read_projection_effect in E.
Qed.

(** ** A transition of the journal is a step of the log, or none *)

Lemma history_iff j i r :
  valid j ->
  history j !! i = Some r <-> exists k e, j.(entries) !! k = Some e /\ r = record_of e /\ position e = i.
Proof.
  intros Hv. split; [by apply history_lookup_inv|]. intros (k & e & Hk & -> & <-). by eapply history_lookup.
Qed.

Lemma history_update j j' k e e' :
  valid j -> valid j' -> j.(entries) !! k = Some e -> j'.(entries) = <[k := e']> j.(entries) ->
  JournalEntry.sequence e' = JournalEntry.sequence e ->
  history j' = <[position e := record_of e']> (history j).
Proof.
  intros Hv Hv' Hk Hent Hs. apply list_eq. intros i. apply option_eq. intros r.
  assert (Hp : position e' = position e) by (unfold position; by rewrite Hs).
  assert (Hlt : (position e < length (history j))%nat)
    by (eapply lookup_lt_Some; by eapply history_lookup).
  rewrite list_lookup_insert_Some, !history_iff, Hent by done. split.
  - intros (k' & x & Hx & -> & Hi). apply lookup_insert_Some in Hx as [[-> ->]|[Hne Hx]].
    + left. rewrite Hp in Hi. subst i. done.
    + right. split; [|eauto 10]. intros <-. apply Hne.
      apply (valid_sequence_inj j k k' e x Hv Hk Hx).
      pose proof (sequence_pos _ _ _ Hv Hk). pose proof (sequence_pos _ _ _ Hv Hx). unfold position in Hi. lia.
  - intros [(<- & <- & _)|(Hne & k' & x & Hx & -> & Hi)].
    + exists k, e'. split_and!; [apply lookup_insert_eq|done|done].
    + exists k', x. split_and!; [|done|done]. rewrite lookup_insert_ne; [done|]. intros <-. congruence.
Qed.

Lemma by_sequence_append j j' k e :
  valid j -> valid j' -> j.(entries) !! k = None -> j'.(entries) = <[k := e]> j.(entries) ->
  JournalEntry.sequence e = (j.(last_received_sequence) + 1)%N ->
  by_sequence j' = by_sequence j ++ [e].
Proof.
  intros Hv Hv' Hk Hent Hs. apply list_eq. intros i. apply option_eq. intros x.
  assert (Hlen : N.of_nat (S (length (by_sequence j))) = JournalEntry.sequence e).
  { rewrite length_by_sequence, Hs, (valid_received _ Hv). lia. }
  rewrite lookup_app_Some, !by_sequence_lookup, Hent by done. split.
  - intros (Hi & k' & Hx). apply lookup_insert_Some in Hx as [[-> ->]|[Hne Hx]]; [|by eauto].
    right. assert (i = length (by_sequence j)) as -> by lia. by rewrite Nat.sub_diag.
  - intros [(Hi & k' & Hx)|[Hge Hr]].
    + split; [done|]. exists k'. rewrite lookup_insert_ne; [done|]. intros <-. congruence.
    + apply list_lookup_singleton_Some in Hr as [Hi <-]. split; [lia|]. exists k. apply lookup_insert_eq.
Qed.

Lemma history_append j j' k e :
  valid j -> valid j' -> j.(entries) !! k = None -> j'.(entries) = <[k := e]> j.(entries) ->
  JournalEntry.sequence e = (j.(last_received_sequence) + 1)%N ->
  history j' = history j ++ [record_of e].
Proof. intros. unfold history. by erewrite by_sequence_append, fmap_app. Qed.

Lemma receive_Ok j j' envelope :
  receive j envelope = Ok j' ->
  envelope.(NodeCommandEnvelope.sequence) = (j.(last_received_sequence) + 1)%N
  /\ exists generations, advance_generation j.(aggregate_generations) envelope = Ok generations
  /\ j' = j <| aggregate_generations := generations |>
            <| last_received_sequence := envelope.(NodeCommandEnvelope.sequence) |>
            <| entries := <[envelope.(NodeCommandEnvelope.command_id) :=
                             JournalEntry.Mk envelope None false]> j.(entries) |>.
Proof.
  unfold receive, conflict. destruct (checked_add _ _) as [expected|] eqn:Ea; [|done]. apply checked_add_Some in Ea as [-> _].
  simpl. rewrite then_Ok, unit_Err, result_bind_Ok. reflect_bools. intros (-> & generations & Hg & [= <-]). eauto.
Qed.

Lemma transition_refines j j' :
  transition j j' -> valid j -> valid j' ->
  history j' = history j \/ CommandLog.step (history j) (history j').
Proof.
  intros Ht Hv Hv'. destruct Ht as [j e env Hk Hr|j j' env Hk Hr|j k e c Hk Hc|j j1 k e c Hk Hc ->].
  - left. rewrite (history_update j _ _ e _ Hv Hv' Hk eq_refl) by (by rewrite <- Hr).
    apply list_insert_id. rewrite (history_lookup _ _ _ Hv Hk). f_equal. unfold record_of; simpl. f_equal.
    by rewrite <- Hr.
  - right. apply receive_Ok in Hr as (Hs & g & _ & ->).
    rewrite (history_append j _ _ _ Hv Hv' Hk eq_refl Hs). apply CommandLog.append.
  - right. rewrite (history_update j _ k e _ Hv Hv' Hk eq_refl eq_refl).
    assert (Ha : e.(JournalEntry.acknowledged) = false).
    { apply not_true_iff_false. intros [x Hx]%(entry_ack _ _ _ (valid_entries _ Hv _ _ Hk)). congruence. }
    unfold record_of at 1; simpl. rewrite Ha. apply CommandLog.complete.
    rewrite (history_lookup _ _ _ Hv Hk). unfold record_of. by rewrite Hc, Ha.
  - right. rewrite (history_update j _ k e _ Hv Hv' Hk eq_refl eq_refl). unfold record_of; simpl. rewrite Hc.
    eapply CommandLog.acknowledge. rewrite (history_lookup _ _ _ Hv Hk). unfold record_of. by rewrite Hc.
Qed.

Lemma begin_redelivered self envelope fs d d' r e :
  redeliver (stored self d) e envelope fs d = (d', r) ->
  d' = d \/ exists e', d' = Some ((stored self d) <| entries :=
                       <[envelope.(NodeCommandEnvelope.command_id) := e']> (stored self d).(entries) |>).
Proof.
  unfold redeliver. destruct (_ != envelope); autorewrite with methods; [intros [= <- _]; by left|].
  destruct (JournalEntry.acknowledgement _); [|intros [= <- _]; by left].
  destruct (_ != NodeCommandEnvelope.lease_id envelope); cbv iota; [|autorewrite with methods; intros [= <- _]; by left].
  rewrite bind_assoc. intros [->|[Hj ->]]%validate_write; [by left| |done]. right. eauto.
Qed.

(** A command enters the journal only when it is delivered. *)
Lemma begin_received self envelope fs d d' r k e' :
  begin_sync self envelope fs d = (d', r) ->
  (stored self d).(entries) !! k = None -> (stored self d').(entries) !! k = Some e' ->
  e'.(JournalEntry.envelope) = envelope.
Proof.
  unfold begin_sync. autorewrite with methods. destruct (map_err _ _); [|intros [= <- _]; congruence].
  autorewrite with methods. destruct (_ != _); autorewrite with methods; [intros [= <- _]; congruence|].
  intros [->|(Hv & Hn & E)]%bind_open Hk Hk'; [congruence|].
  destruct (entries (stored self d) !! NodeCommandEnvelope.command_id envelope) as [e|] eqn:He.
  - destruct (begin_redelivered self envelope fs d d' r e E) as [->|(e1 & ->)]; [congruence|]. simpl in Hk'.
    rewrite lookup_insert_ne in Hk'; congruence.
  - autorewrite with methods in E. destruct (receive _ _) as [j'|] eqn:Hr; [|simplify_eq; congruence].
    apply validate_write in E as [->|[Hj ->]]; [congruence| |done]. simpl in Hk'.
    apply receive_Ok in Hr as (_ & g & _ & ->). simpl in Hk'.
    apply lookup_insert_Some in Hk' as [[_ <-]|[_ Hk']]; [done|congruence].
Qed.

Lemma complete_received self command_id completed_at outcome fs d d' r k e' :
  complete_sync self command_id completed_at outcome fs d = (d', r) ->
  (stored self d).(entries) !! k = None -> (stored self d').(entries) !! k = Some e' -> False.
Proof.
  intros [->|(Hv & Hn & E)]%bind_open Hk Hk'; [congruence|].
  destruct (entries (stored self d) !! command_id) as [e|] eqn:He; [|autorewrite with methods in E; simplify_eq; congruence].
  destruct (JournalEntry.completion e) as [c|].
  - destruct (_ != _); autorewrite with methods in E; simplify_eq; congruence.
  - autorewrite with methods in E. destruct (expect_acknowledgement _ _); [|simplify_eq; congruence].
    apply validate_write in E as [->|[Hj ->]]; [congruence| |done]. simpl in Hk'.
    rewrite lookup_insert_ne in Hk'; congruence.
Qed.

Lemma mark_received self receipt fs d d' r k e' :
  mark_acknowledged_sync self receipt fs d = (d', r) ->
  (stored self d).(entries) !! k = None -> (stored self d').(entries) !! k = Some e' -> False.
Proof.
  unfold mark_acknowledged_sync. autorewrite with methods. destruct (map_err _ _); [|intros [= <- _]; congruence].
  autorewrite with methods. destruct (_ != _); autorewrite with methods; [intros [= <- _]; congruence|].
  intros [->|(Hv & Hn & E)]%bind_open Hk Hk'; [congruence|].
  destruct (entries (stored self d) !! NodeCommandAckReceipt.command_id receipt) as [e|] eqn:He;
    [|autorewrite with methods in E; simplify_eq; congruence].
  destruct (is_none _); [autorewrite with methods in E; simplify_eq; congruence|].
  apply validate_write in E as [->|[Hj ->]]; [congruence| |done]. simpl in Hk'.
  rewrite lookup_insert_ne in Hk'; congruence.
Qed.

Lemma call_received self fs c d k e' :
  (stored self d).(entries) !! k = None -> (stored self (after_call self fs c d)).(entries) !! k = Some e' ->
  c = Begin e'.(JournalEntry.envelope).
Proof.
  intros Hk. destruct c; simpl; unfold run_state;
    match goal with |- context [(?m d).1] => destruct (m d) as [d' r] eqn:E end; simpl; intros Hk'.
  - by rewrite (begin_received _ _ _ _ _ _ _ _ E Hk Hk').
  - by destruct (complete_received _ _ _ _ _ _ _ _ _ _ E Hk Hk').
  - apply bind_open in E as [|(_ & _ & [= <- _])]; congruence.
  - by destruct (mark_received _ _ _ _ _ _ _ _ E Hk Hk').
  - apply bind_open in E as [|(_ & _ & [= <- _])]; congruence.
  - apply bind_open in E as [|(_ & _ & [= <- _])]; congruence.
  - eapply read_projection_effect in E; [congruence|done].
  - eapply read_projection_effect in E; [congruence|done].
  - eapply read_projection_effect in E; [congruence|done].
  - eapply read_projection_effect in E; [congruence|done].
  - eapply read_projection_effect in E; [congruence|done].
Qed.

(** ** Runs *)

(** The file is absent, or holds a journal of this node that [validate] accepts. *)
Definition journal_ok (self : FileCommandJournal.t) (d : disk) : Prop :=
  match d with
  | None => True
  | Some j => validate j = Ok tt /\ j.(CommandJournal.node_id) = self.(FileCommandJournal.node_id)
  end.

Lemma transition_node_id j j' : transition j j' -> j'.(CommandJournal.node_id) = j.(CommandJournal.node_id).
Proof. destruct 1 as [| ? ? ? ? Hr | |]; subst; try done. by apply receive_Ok in Hr as (_ & ? & _ & ->). Qed.

Lemma call_ok self fs c d : journal_ok self d -> journal_ok self (after_call self fs c d).
Proof.
  intros Hd. destruct (call_effect self fs c d) as [->|(j' & _ & Hn & Ht & Hv' & ->)]; [done|].
  split; [by apply validate_valid|]. by rewrite (transition_node_id _ _ Ht).
Qed.

Lemma run_ok self d d' : run self d d' -> journal_ok self d -> journal_ok self d'.
Proof. induction 1; auto using call_ok. Qed.

Lemma reachable_ok self d : reachable self d -> journal_ok self d.
Proof. intros Hd. by eapply run_ok. Qed.

Lemma reachable_valid self j : reachable self (Some j) -> valid j.
Proof. intros [Hv _]%reachable_ok. by apply validate_valid. Qed.

Lemma run_trans self d d' d'' : run self d d' -> run self d' d'' -> run self d d''.
Proof. intros H1 H2. revert H1. induction H2; auto using run_call. Qed.

Lemma call_refines self fs c d :
  rtc CommandLog.step (history (stored self d)) (history (stored self (after_call self fs c d))).
Proof.
  destruct (call_effect self fs c d) as [->|(j' & Hv & _ & Ht & Hv' & ->)]; [done|].
  destruct (transition_refines _ _ Ht Hv Hv') as [E|Hs]; simpl; [by rewrite E|by apply rtc_once].
Qed.

Lemma run_refines self d d' :
  run self d d' -> rtc CommandLog.step (history (stored self d)) (history (stored self d')).
Proof. induction 1 as [|d d' fs c _ IH]; [done|]. etrans; [exact IH|]. apply call_refines. Qed.

(** A journaled command stays where it is, with the outcome and the acknowledgement it got. *)
Lemma run_entry self j d' k e :
  reachable self (Some j) -> run self (Some j) d' -> j.(entries) !! k = Some e ->
  exists j' e', d' = Some j' /\ valid j' /\ j'.(entries) !! k = Some e'
    /\ CommandLog.later (record_of e) (record_of e').
Proof.
  intros Hr Hrun Hk. pose proof (reachable_valid _ _ Hr) as Hv.
  pose proof (run_refines _ _ _ Hrun) as Hlog; simpl in Hlog.
  pose proof (history_lookup _ _ _ Hv Hk) as Hl.
  destruct (CommandLog.steps_later _ _ _ _ Hlog Hl) as (r' & Hl' & Hlater).
  destruct d' as [j'|].
  - assert (Hv' : valid j') by (eapply reachable_valid, run_trans; [exact Hr|exact Hrun]).
    apply history_lookup_inv in Hl' as (k' & e' & Hk' & -> & _); [|done].
    exists j', e'. split_and!; [done..| |done].
    destruct Hlater as (E & _ & _). simpl in E.
    destruct (valid_entries _ Hv _ _ Hk), (valid_entries _ Hv' _ _ Hk'). subst k k'.
    pose proof (f_equal NodeCommandEnvelope.command_id E) as E'. simpl in E'. by rewrite <- E'.
  - done.
Qed.

(** ** A new lease changes nothing but the lease *)

(** The same command, outcome and acknowledgement, under another lease. *)
Definition same_record (e e' : JournalEntry.t) : Prop := record_of e = record_of e'.

#[local] Instance same_record_equivalence : Equivalence same_record.
Proof. unfold same_record. split; [intros ?; done|intros ?? ->; done|intros ??? -> ->; done]. Qed.

Lemma same_record_payload e e' :
  same_record e e' ->
  e.(JournalEntry.envelope).(NodeCommandEnvelope.payload) = e'.(JournalEntry.envelope).(NodeCommandEnvelope.payload)
  /\ JournalEntry.sequence e = JournalEntry.sequence e'
  /\ e.(JournalEntry.completion) = e'.(JournalEntry.completion)
  /\ e.(JournalEntry.acknowledged) = e'.(JournalEntry.acknowledged).
Proof.
  intros E. split_and!.
  - by apply (f_equal (fun r => r.(CommandLog.command).(NodeCommandEnvelope.payload))) in E.
  - by apply (f_equal (fun r => r.(CommandLog.command).(NodeCommandEnvelope.sequence))) in E.
  - by apply (f_equal CommandLog.completion) in E.
  - by apply (f_equal CommandLog.acknowledged) in E.
Qed.

Lemma project_same {P} (f : P -> JournalEntry.t -> result P) p l l' :
  (forall p e e', same_record e e' -> f p e = f p e') ->
  Forall2 same_record l l' -> project f p l = project f p l'.
Proof.
  intros Hf Hl. revert p. induction Hl as [|e e' l l' He _ IH]; intros p; simpl; [done|].
  rewrite (Hf _ _ _ He). destruct (f p e'); simpl; auto.
Qed.

Ltac same_projection :=
  intros p e e' (Hp & _ & Hc & _)%same_record_payload;
  unfold ResourceClaimJournalProjection.apply, ResourceClaimJournalProjection.register, code_run_binding,
    provider_run_binding, JournalEntry.succeeded;
  by rewrite Hp, Hc.

Lemma apply_same p e e' :
  same_record e e' -> ResourceClaimJournalProjection.apply p e = ResourceClaimJournalProjection.apply p e'.
Proof. revert p e e'. same_projection. Qed.
Lemma code_run_binding_same p e e' : same_record e e' -> code_run_binding p e = code_run_binding p e'.
Proof. revert p e e'. same_projection. Qed.
Lemma provider_run_binding_same p e e' : same_record e e' -> provider_run_binding p e = provider_run_binding p e'.
Proof. revert p e e'. same_projection. Qed.

Lemma validate_lease (command : NodeCommandEnvelope.t) lease :
  NodeCommandEnvelope.validate command = Ok tt -> lease <> 0%N ->
  NodeCommandEnvelope.validate (command <| NodeCommandEnvelope.lease_id := lease |>) = Ok tt.
Proof.
  intros Hv Hl. revert Hv. unfold NodeCommandEnvelope.validate. rewrite !then_Ok.
  intros (? & ? & _ & Hv). split; [done|]. split; [done|]. split; [|exact Hv].
  unfold validate_uuid, is_nil; simpl. by rewrite (proj2 (N.eqb_neq lease 0)).
Qed.

Lemma validate_against_lease (a : NodeCommandAck.t) (command : NodeCommandEnvelope.t) lease :
  NodeCommandEnvelope.validate (command <| NodeCommandEnvelope.lease_id := lease |>) = Ok tt ->
  NodeCommandAck.validate_against a command = Ok tt ->
  NodeCommandAck.validate_against (a <| NodeCommandAck.lease_id := lease |>)
    (command <| NodeCommandEnvelope.lease_id := lease |>) = Ok tt.
Proof.
  intros Hv. unfold NodeCommandAck.validate_against.
  set (command' := command <| NodeCommandEnvelope.lease_id := lease |>) in *. rewrite !then_Ok.
  intros (_ & Hs & Hi & Ht & Ho & Hr). split_and!; [done|exact Hs| |exact Ht|exact Ho|exact Hr].
  apply fail_if_Ok. apply fail_if_Ok in Hi. reflect_bools. simpl. intuition.
Qed.

(** The entry after a redelivery: the outcome is acknowledged under the new lease. *)
Lemma rebound_acknowledgement e envelope a :
  e.(JournalEntry.envelope) <| NodeCommandEnvelope.lease_id := envelope.(NodeCommandEnvelope.lease_id) |> = envelope ->
  NodeCommandEnvelope.validate envelope = Ok tt ->
  JournalEntry.acknowledgement e = Ok a ->
  JournalEntry.acknowledgement (e <| JournalEntry.envelope := envelope |>)
  = Ok (fmap (fun a => a <| NodeCommandAck.lease_id := envelope.(NodeCommandEnvelope.lease_id) |>) a).
Proof.
  intros Hr Hv. unfold JournalEntry.acknowledgement; simpl.
  destruct (JournalEntry.completion e) as [c|]; [|by intros [= <-]].
  rewrite then_Ok, map_err_Ok. intros [Ha [= <-]].
  rewrite then_Ok, map_err_Ok. rewrite <- Hr in Hv.
  pose proof (validate_against_lease _ _ _ Hv Ha) as Ha'. rewrite Hr in Ha'. split.
  - rewrite <- Ha'. f_equal. rewrite <- Hr. done.
  - do 2 f_equal. rewrite <- Hr. done.
Qed.

Lemma rebind_valid j e envelope :
  valid j ->
  j.(entries) !! envelope.(NodeCommandEnvelope.command_id) = Some e ->
  e.(JournalEntry.envelope) <| NodeCommandEnvelope.lease_id := envelope.(NodeCommandEnvelope.lease_id) |> = envelope ->
  NodeCommandEnvelope.validate envelope = Ok tt ->
  valid (j <| entries := <[envelope.(NodeCommandEnvelope.command_id) :=
                             e <| JournalEntry.envelope := envelope |>]> j.(entries) |>).
Proof.
  intros Hv Hk Hr Henv. set (e' := e <| JournalEntry.envelope := envelope |>).
  set (j' := j <| entries := _ |>).
  assert (He : same_record e e').
  { unfold same_record, record_of; simpl. f_equal. by rewrite <- Hr. }
  pose proof (values_update same_record _ _ _ _ Hk He) as Hvals. fold (entries j') in Hvals.
  assert (Hseq : JournalEntry.sequence <$> values j.(entries) = JournalEntry.sequence <$> values j'.(entries)).
  { apply (fmap_Forall2 same_record); [|done]. intros x y (_ & -> & _)%same_record_payload. done. }
  assert (Hby : Forall2 same_record (by_sequence j) (by_sequence j')).
  { apply sort_by_key_Forall2; [|done]. intros x y Hxy. by destruct (same_record_payload _ _ Hxy) as (_ & ? & _). }
  assert (Hack : acknowledged_by_sequence j = acknowledged_by_sequence j').
  { unfold acknowledged_by_sequence. do 2 f_equal. apply (fmap_Forall2 same_record); [|done].
    intros x y (_ & -> & _ & ->)%same_record_payload. done. }
  assert (Hsize : size j'.(entries) = size j.(entries)) by (apply map_size_insert_Some; eauto).
  destruct Hv as [H1 H2 H3 Hent Hnd Hs Hc Hg Hp Hcode Hprov]. split; try done.
  - intros k x Hx. simpl in Hx. apply lookup_insert_Some in Hx as [[<- <-]|[_ Hx]]; [|by apply Hent].
    destruct (Hent _ _ Hk) as [_ Hkey Hnode Hack' [a Ha]]. split; try done.
    + etrans; [|exact Hnode]. simpl. by rewrite <- Hr.
    + eexists. exact (rebound_acknowledgement _ _ _ Hr Henv Ha).
  - by rewrite <- Hseq.
  - rewrite <- Hseq. revert Hs. unfold validate_sequences. simpl.
    destruct (_ =? 0)%N; [|done]. unfold is_empty. by destruct Hvals.
  - revert Hc. unfold contiguous_acknowledged_sequence. by rewrite Hsize, Hack.
  - destruct Hp as [p Hp]. exists p. rewrite <- Hp. symmetry. by apply project_same; [exact apply_same|].
  - destruct Hcode as [p Hcode]. exists p. rewrite <- Hcode. symmetry. by apply project_same; [exact code_run_binding_same|].
  - destruct Hprov as [p Hprov]. exists p. rewrite <- Hprov. symmetry. by apply project_same; [exact provider_run_binding_same|].
Qed.

End calls.
End Journaling.
