(* ===== verification/JournalGuarantees.v ===== *)
(** * What the command journal guarantees

    The theorems an agent and its control plane rely on, for every journal file that any run of the
    agent can leave: replay instead of a second execution, sequences and generations, the
    acknowledgement cursor, and the resource claims recovered from the journal. *)

From Stdlib Require Import ZArith NArith Lia String.
From stdpp Require Import gmap relations.
From S2P Require Import Prelude RustStd BTreeMap External Text SharedKernel Resources NodeClaims NodePluginHost.
From S2P Require Import NodeArtifacts AgentProvider NodeRunBindings NodeCommands CommandJournal JournalLifecycle.
Import CommandJournal FileCommandJournal Journaling.

(** ** Replay *)
Section replay.
Context `{Platform}.
Implicit Types (e : JournalEntry.t) (j : CommandJournal.t) (d : disk).

Lemma acknowledgement_Some e c a :
  e.(JournalEntry.completion) = Some c -> JournalEntry.acknowledgement e = Ok a ->
  exists ack, a = Some ack
    /\ ack.(NodeCommandAck.outcome) = c.(JournalCompletion.outcome)
    /\ ack.(NodeCommandAck.completed_at) = c.(JournalCompletion.completed_at)
    /\ ack.(NodeCommandAck.command_id) = e.(JournalEntry.envelope).(NodeCommandEnvelope.command_id)
    /\ ack.(NodeCommandAck.lease_id) = e.(JournalEntry.envelope).(NodeCommandEnvelope.lease_id)
    /\ ack.(NodeCommandAck.sequence) = JournalEntry.sequence e
    /\ NodeCommandAck.validate_against ack e.(JournalEntry.envelope) = Ok tt.
Proof.
  unfold JournalEntry.acknowledgement. intros ->. rewrite then_Ok, map_err_Ok. intros [Hv [= <-]].
  eexists. split_and!; [done..|exact Hv].
Qed.

Definition answers (ack : NodeCommandAck.t) (envelope : NodeCommandEnvelope.t) (c : JournalCompletion.t) : Prop :=
  ack.(NodeCommandAck.outcome) = c.(JournalCompletion.outcome)
  /\ ack.(NodeCommandAck.completed_at) = c.(JournalCompletion.completed_at)
  /\ NodeCommandAck.validate_against ack envelope = Ok tt.

Lemma bind_mret_Ok {S A B} (m : method S A) (b b' : B) s s' : (m ≫= fun _ => mret b) s = (s', Ok b') -> b' = b.
Proof. unfold mbind, method_bind, mret, method_ret. destruct (m s) as [? []]; congruence. Qed.

(** The decision on a command that is already journaled. *)
Lemma begin_existing self envelope fs d d' decision e :
  begin_sync self envelope fs d = (d', Ok decision) ->
  (stored self d).(entries) !! envelope.(NodeCommandEnvelope.command_id) = Some e ->
  e.(JournalEntry.envelope) <| NodeCommandEnvelope.lease_id := envelope.(NodeCommandEnvelope.lease_id) |> = envelope
  /\ exists a, JournalEntry.acknowledgement (e <| JournalEntry.envelope := envelope |>) = Ok a
     /\ decision = match a with Some ack => JournalDecision.Replay ack | None => JournalDecision.Execute end.
Proof.
  unfold begin_sync. autorewrite with methods. destruct (map_err _ _) as [[]|]; [|done].
  autorewrite with methods. destruct (_ != _); autorewrite with methods; [done|].
  destruct (open_journal_spec self fs d) as (ro & Eo & Ho). unfold mbind at 1, method_bind at 1. rewrite Eo.
  destruct ro as [j|]; [|done]. destruct (Ho j eq_refl) as (-> & _ & _). intros E Hk. rewrite Hk in E.
  unfold redeliver in E. destruct (_ != envelope) eqn:Er; [done|]. autorewrite with methods in E.
  reflect_bools. split; [done|].
  assert (He : (if e.(JournalEntry.envelope).(NodeCommandEnvelope.lease_id)
                   != envelope.(NodeCommandEnvelope.lease_id)
                then e <| JournalEntry.envelope := envelope |> else e)
               = e <| JournalEntry.envelope := envelope |>).
  { destruct (_ != _) eqn:El; [done|]. reflect_bools. rewrite <- Er, <- El. by destruct e as [[] ? ?]. }
  rewrite He in E. destruct (JournalEntry.acknowledgement _) as [a|]; [|done]. exists a. split; [done|].
  by apply bind_mret_Ok in E.
Qed.

(** C11: A command whose outcome was recorded is never executed again.  Whatever happens in
    between - calls, failures, crashes and restarts - a later delivery of the command that the
    journal answers at all is answered by the recorded outcome and its time, in an acknowledgement
    that is valid for that delivery. *)
Theorem completed_command_replayed (self : FileCommandJournal.t) j d d' fs e c envelope decision :
  reachable self (Some j) ->
  j.(entries) !! envelope.(NodeCommandEnvelope.command_id) = Some e ->
  e.(JournalEntry.completion) = Some c ->
  run self (Some j) d ->
  begin_sync self envelope fs d = (d', Ok decision) ->
  exists ack, decision = JournalDecision.Replay ack /\ answers ack envelope c.
Proof.
  intros Hr Hk Hc Hrun Hb.
  destruct (run_entry _ _ _ _ _ Hr Hrun Hk) as (j' & e' & -> & Hv' & Hk' & _ & Hc' & _). specialize (Hc' c Hc).
  destruct (begin_existing _ _ _ _ _ _ _ Hb Hk') as (_ & a & Ha & ->).
  apply (acknowledgement_Some _ c) in Ha as (ack & -> & ? & ? & _ & _ & _ & ?); [by exists ack|exact Hc'].
Qed.

(** A redelivery under a new lease is always answered: when the file system works, [begin]
    replays the recorded outcome of a journaled command, and tells the agent to execute it exactly
    when no outcome was recorded. *)
Theorem redelivery_answered (self : FileCommandJournal.t) j e lease :
  reachable self (Some j) ->
  j.(entries) !! e.(JournalEntry.envelope).(NodeCommandEnvelope.command_id) = Some e ->
  lease <> 0%N ->
  let envelope := e.(JournalEntry.envelope) <| NodeCommandEnvelope.lease_id := lease |> in
  exists d' decision,
    begin_sync self envelope healthy (Some j) = (d', Ok decision)
    /\ match e.(JournalEntry.completion) with
       | Some c => exists ack, decision = JournalDecision.Replay ack /\ answers ack envelope c
       | None => decision = JournalDecision.Execute
       end.
Proof.
  intros Hr Hk Hl envelope. destruct (reachable_ok _ _ Hr) as [Hv Hn]. apply validate_valid in Hv as Hvalid.
  pose proof (valid_entries _ Hvalid _ _ Hk) as [Hev _ Hnode _ [a Ha]].
  assert (Henv : NodeCommandEnvelope.validate envelope = Ok tt) by (by apply validate_lease).
  assert (Hb : exists d' decision, begin_sync self envelope healthy (Some j) = (d', Ok decision)).
  { unfold begin_sync. autorewrite with methods. rewrite Henv; simpl. autorewrite with methods.
    rewrite bool_decide_eq_true_2 by (simpl; congruence). simpl negb. cbv iota. autorewrite with methods.
    unfold mbind at 1, method_bind at 1. rewrite open_journal_healthy by done. change (stored self (Some j)) with j.
    change (NodeCommandEnvelope.command_id envelope) with (NodeCommandEnvelope.command_id e.(JournalEntry.envelope)).
    rewrite Hk. unfold redeliver. rewrite bool_decide_eq_true_2 by done. simpl negb. cbv iota.
    destruct (_ != _).
    - autorewrite with methods. rewrite (rebound_acknowledgement e envelope a eq_refl Henv Ha).
      rewrite (proj2 (validate_valid _) (rebind_valid j e envelope Hvalid Hk eq_refl Henv)).
      unfold write_journal; simpl io_write. autorewrite with methods. eauto.
    - autorewrite with methods. rewrite Ha. eauto. }
  destruct Hb as (d' & decision & Hb). exists d', decision. split; [done|].
  destruct (begin_existing _ _ _ _ _ _ e Hb Hk) as (_ & a' & Ha' & ->).
  destruct (JournalEntry.completion e) as [c|] eqn:Hc.
  - pose proof (fun Hc' => acknowledgement_Some _ c a' Hc' Ha') as Hack.
    destruct (Hack Hc) as (ack & -> & Ho & Ht & _ & _ & _ & Hva). by exists ack.
  - unfold JournalEntry.acknowledgement in Ha'. simpl in Ha'. rewrite Hc in Ha'. by simplify_eq.
Qed.

End replay.

(** ** The journal is a log *)
Section log.
Context `{Platform}.
Implicit Types (e : JournalEntry.t) (j : CommandJournal.t) (d : disk).

(** C10: The journal file implements an append-only log.  From a file this node can have, every
    call - whatever the file system does during it, a crash included - leaves a file this node can
    have, and the log it stands for is unchanged or has made one step: a command appended, an
    outcome recorded for a command that had none, or an outcome marked as acknowledged. *)
Theorem journal_refines_log (self : FileCommandJournal.t) fs c d :
  journal_ok self d ->
  journal_ok self (after_call self fs c d)
  /\ (history (stored self (after_call self fs c d)) = history (stored self d)
      \/ CommandLog.step (history (stored self d)) (history (stored self (after_call self fs c d)))).
Proof.
  intros Hd. split; [by apply call_ok|].
  destruct (call_effect self fs c d) as [->|(j' & Hv & _ & Ht & Hv' & ->)]; [by left|].
  by apply transition_refines.
Qed.

(** The commands in a journal are numbered 1, 2, 3, ... in the order of receipt, up to the last
    sequence received, and only the next number is accepted: a command that [begin] journals has
    the sequence that follows. *)
Theorem journal_sequences (self : FileCommandJournal.t) j envelope fs d' :
  reachable self (Some j) ->
  begin_sync self envelope fs (Some j) = (d', Ok JournalDecision.Execute) ->
  JournalEntry.sequence <$> by_sequence j = numbers (N.to_nat j.(last_received_sequence))
  /\ (j.(entries) !! envelope.(NodeCommandEnvelope.command_id) = None ->
      envelope.(NodeCommandEnvelope.sequence) = (j.(last_received_sequence) + 1)%N
      /\ exists j', d' = Some j' /\ j'.(last_received_sequence) = envelope.(NodeCommandEnvelope.sequence)
         /\ by_sequence j' = by_sequence j ++ [JournalEntry.Mk envelope None false]).
Proof.
  intros Hr Hb. pose proof (reachable_valid _ _ Hr) as Hv. split.
  { by rewrite by_sequence_numbers, (valid_received _ Hv), Nat2N.id. }
  intros Hk. revert Hb. unfold begin_sync. autorewrite with methods. destruct (map_err _ _) as [[]|]; [|done].
  autorewrite with methods. destruct (_ != _); autorewrite with methods; [done|].
  destruct (open_journal_spec self fs (Some j)) as (ro & Eo & Ho). unfold mbind at 1, method_bind at 1. rewrite Eo.
  destruct ro as [j0|]; [|done]. destruct (Ho j0 eq_refl) as (-> & _ & _). change (stored self (Some j)) with j.
  rewrite Hk. autorewrite with methods. destruct (receive j envelope) as [j'|] eqn:Er; [|done].
  destruct (validate j') as [[]|] eqn:Ev; [|done]. apply validate_valid in Ev.
  apply receive_Ok in Er as (Hs & g & _ & Hj').
  assert (Hby : by_sequence j' = by_sequence j ++ [JournalEntry.Mk envelope None false]).
  { eapply by_sequence_append; [exact Hv|exact Ev|exact Hk|by rewrite Hj'|exact Hs]. }
  unfold write_journal. destruct (io_write fs); autorewrite with methods; [|done..].
  intros [= <-]. split; [done|]. exists j'. split_and!; [done|by rewrite Hj'|done].
Qed.

(** The cursor the agent leases commands after is the length of the acknowledged prefix of the
    log: every command up to it was completed and acknowledged, the next one was not.  It never
    goes back. *)
Theorem journal_cursor (self : FileCommandJournal.t) d d' fs fs' n n' :
  reachable self d -> run self d d' ->
  (after_sequence_sync self fs d).2 = Ok n -> (after_sequence_sync self fs' d').2 = Ok n' ->
  n = N.of_nat (CommandLog.acknowledged_prefix (history (stored self d))) /\ (n <= n')%N.
Proof.
  assert (Hcursor : forall fs d n, (after_sequence_sync self fs d).2 = Ok n ->
            n = N.of_nat (CommandLog.acknowledged_prefix (history (stored self d)))).
  { clear. intros fs d n. unfold after_sequence_sync. unfold mbind, method_bind.
    destruct (open_journal_spec self fs d) as (ro & -> & Ho). destruct ro as [j|]; [|done].
    destruct (Ho j eq_refl) as (-> & Hv & _). intros [= <-].
    by rewrite <- (contiguous_prefix _ Hv), (valid_contiguous _ Hv). }
  intros Hr Hrun Hn%Hcursor Hn'%Hcursor. split; [done|]. subst n n'.
  apply N2Z.inj_le. rewrite !nat_N_Z. apply inj_le, CommandLog.acknowledged_prefix_le.
  intros i r Hi. eapply CommandLog.steps_later; [by apply run_refines|done].
Qed.

End log.

(** ** Generations *)
Section generations.
Context `{Platform}.
Implicit Types (e : JournalEntry.t) (j : CommandJournal.t) (d : disk) (command : NodeCommandEnvelope.t).

(** The digest a state-changing command fences its generation with. *)
Definition mutation (command : NodeCommandEnvelope.t) : option string :=
  match state_mutation_digest command.(NodeCommandEnvelope.payload) with Ok digest => digest | Err _ => None end.

(** A later generation, or the same one with the same content. *)
Definition not_regressed (generation : N) (digest : string) (generation' : N) (digest' : string) : Prop :=
  (generation < generation')%N \/ (generation = generation' /\ digest = digest').

Lemma not_regressed_trans a x b y c z : not_regressed a x b y -> not_regressed b y c z -> not_regressed a x c z.
Proof. unfold not_regressed. intros [|[-> ->]] [|[-> ->]]; auto. left. lia. Qed.

Definition commands (j : CommandJournal.t) : list NodeCommandEnvelope.t := CommandLog.command <$> history j.

(** State-changing commands of one aggregate follow each other in the order of their generations,
    and the recorded generation of the aggregate is that of the last. *)
Record fenced (l : list NodeCommandEnvelope.t) (generations : gmap Uuid AggregateGeneration.t) : Prop := {
  fenced_order : forall i k c c' x x', (i < k)%nat -> l !! i = Some c -> l !! k = Some c' ->
    c.(NodeCommandEnvelope.aggregate_id) = c'.(NodeCommandEnvelope.aggregate_id) ->
    mutation c = Some x -> mutation c' = Some x' ->
    not_regressed c.(NodeCommandEnvelope.generation) x c'.(NodeCommandEnvelope.generation) x';
  fenced_current : forall i c x, l !! i = Some c -> mutation c = Some x ->
    exists current, generations !! c.(NodeCommandEnvelope.aggregate_id) = Some current
      /\ not_regressed c.(NodeCommandEnvelope.generation) x
           current.(AggregateGeneration.generation) current.(AggregateGeneration.state_digest);
}.

(** A command whose content cannot be fenced is refused; one that is not state-changing leaves the
    generations as they are. *)
Lemma advance_generation_Ok generations command generations' :
  advance_generation generations command = Ok generations' ->
  match mutation command with
  | None => generations' = generations
  | Some x =>
    generations' = <[command.(NodeCommandEnvelope.aggregate_id) :=
                       AggregateGeneration.Mk command.(NodeCommandEnvelope.generation) x]> generations
    /\ (forall current, generations !! command.(NodeCommandEnvelope.aggregate_id) = Some current ->
        not_regressed current.(AggregateGeneration.generation) current.(AggregateGeneration.state_digest)
          command.(NodeCommandEnvelope.generation) x)
  end.
Proof.
  unfold advance_generation, mutation. destruct (state_mutation_digest _) as [[x|]|]; simpl; [|congruence|done].
  destruct (generations !! _) as [current|] eqn:Hg; simpl.
  - destruct (N.ltb_spec command.(NodeCommandEnvelope.generation) current.(AggregateGeneration.generation)); [done|].
    simpl. destruct (_ && _) eqn:E; [done|]. intros [= <-]. split; [done|]. intros ? [= <-].
    reflect_bools. unfold not_regressed.
    destruct (N.eq_dec current.(AggregateGeneration.generation) command.(NodeCommandEnvelope.generation)) as [Eg|Ne].
    + right. split; [done|]. by destruct E.
    + left. lia.
  - intros [= <-]. done.
Qed.

Lemma fenced_append l generations command generations' :
  fenced l generations -> advance_generation generations command = Ok generations' ->
  fenced (l ++ [command]) generations'.
Proof.
  intros [Ho Hc] Ha%advance_generation_Ok. split.
  - intros i k c c' x x' Hik Hi Hk Hagg Hx Hx'.
    apply lookup_app_Some in Hk as [Hk|[Hge [Hk0 ->]%list_lookup_singleton_Some]].
    + eapply Ho; [exact Hik| |done..]. apply lookup_app_Some in Hi as [Hi|[Hge Hi]]; [done|].
      apply lookup_lt_Some in Hk. lia.
    + rewrite Hx' in Ha. destruct Ha as [_ Ha].
      apply lookup_app_Some in Hi as [Hi|[Hge' _]]; [|lia].
      destruct (Hc i c x Hi Hx) as (current & Hcur & Hn). rewrite Hagg in Hcur.
      eapply not_regressed_trans; [exact Hn|by apply Ha].
  - intros i c x Hi Hx. apply lookup_app_Some in Hi as [Hi|[Hge [_ ->]%list_lookup_singleton_Some]].
    + destruct (Hc i c x Hi Hx) as (current & Hcur & Hn).
      destruct (mutation command) as [y|]; [|by subst; eauto]. destruct Ha as [-> Ha].
      destruct (decide (NodeCommandEnvelope.aggregate_id command = NodeCommandEnvelope.aggregate_id c)) as [E|Ne].
      * rewrite <- E, lookup_insert_eq. eexists. split; [done|]. simpl. rewrite <- E in Hcur.
        eapply not_regressed_trans; [exact Hn|by apply Ha].
      * rewrite lookup_insert_ne by done. eauto.
    + rewrite Hx in Ha. destruct Ha as [-> _]. rewrite lookup_insert_eq. eexists. split; [done|]. by right.
Qed.

(** Only a receipt changes the commands of a journal, or its generations. *)
Lemma transition_commands j j' :
  transition j j' -> valid j -> valid j' ->
  (commands j' = commands j /\ j'.(aggregate_generations) = j.(aggregate_generations))
  \/ exists command, commands j' = commands j ++ [command]
     /\ advance_generation j.(aggregate_generations) command = Ok j'.(aggregate_generations).
Proof.
  assert (Hupd : forall j j' k e e', valid j -> valid j' -> j.(entries) !! k = Some e ->
    j'.(entries) = <[k := e']> j.(entries) -> content e'.(JournalEntry.envelope) = content e.(JournalEntry.envelope) ->
    commands j' = commands j).
  { clear. intros j j' k e e' Hv Hv' Hk He Hc. unfold commands.
    rewrite (history_update j j' k e e' Hv Hv' Hk He), list_fmap_insert.
    - apply list_insert_id. rewrite list_lookup_fmap, (history_lookup _ _ _ Hv Hk). simpl. by rewrite Hc.
    - by apply (f_equal NodeCommandEnvelope.sequence) in Hc. }
  intros Ht Hv Hv'. destruct Ht as [j e env Hk Hr|j j' env Hk Hr|j k e c Hk Hc|j j1 k e c Hk Hc ->].
  - left. split; [|done]. eapply Hupd; [exact Hv|exact Hv'|exact Hk|done|]. by rewrite <- Hr.
  - right. apply receive_Ok in Hr as (Hs & g & Hg & ->). exists (content env). split.
    + unfold commands. by rewrite (history_append j _ _ _ Hv Hv' Hk eq_refl Hs), fmap_app.
    + exact Hg.
  - left. split; [|done]. by eapply Hupd; [exact Hv|exact Hv'|exact Hk|done|].
  - left. split; [|done]. by eapply Hupd; [exact Hv|exact Hv'|exact Hk|done|].
Qed.

Lemma reachable_fenced self d :
  reachable self d -> fenced (commands (stored self d)) (stored self d).(aggregate_generations).
Proof.
  unfold reachable. remember None as d0 eqn:E0. induction 1 as [|d d' fs c _ IH]; subst.
  - split; intros ? ? *; by destruct i.
  - specialize (IH eq_refl).
    destruct (call_effect self fs c d') as [->|(j' & Hv & _ & Ht & Hv' & ->)]; [done|]. simpl.
    destruct (transition_commands _ _ Ht Hv Hv') as [[-> ->]|(command & -> & Ha)]; [done|].
    by eapply fenced_append.
Qed.

(** C13: The journal fences stale work: of two state-changing commands for one aggregate (a Runtime
    unit, a resource claim, a Gateway, a build) the later one never has a smaller generation, and
    when it repeats the generation it repeats the content, digest for digest. *)
Theorem journal_generation_fence (self : FileCommandJournal.t) j i k e e' x x' :
  reachable self (Some j) -> (i < k)%nat ->
  by_sequence j !! i = Some e -> by_sequence j !! k = Some e' ->
  e.(JournalEntry.envelope).(NodeCommandEnvelope.aggregate_id)
    = e'.(JournalEntry.envelope).(NodeCommandEnvelope.aggregate_id) ->
  state_mutation_digest e.(JournalEntry.envelope).(NodeCommandEnvelope.payload) = Ok (Some x) ->
  state_mutation_digest e'.(JournalEntry.envelope).(NodeCommandEnvelope.payload) = Ok (Some x') ->
  let generation := e.(JournalEntry.envelope).(NodeCommandEnvelope.generation) in
  let generation' := e'.(JournalEntry.envelope).(NodeCommandEnvelope.generation) in
  (generation <= generation')%N /\ (generation = generation' -> x = x').
Proof.
  intros Hr Hik Hi Hk Hagg Hx Hx' generation generation'.
  assert (Hcmd : forall i e, by_sequence j !! i = Some e -> commands j !! i = Some (content e.(JournalEntry.envelope))).
  { intros n x0 Hn. unfold commands, history. by rewrite !list_lookup_fmap, Hn. }
  pose proof (fenced_order _ _ (reachable_fenced _ _ Hr) i k _ _ x x' Hik (Hcmd _ _ Hi) (Hcmd _ _ Hk) Hagg) as Hf.
  unfold mutation in Hf; simpl in Hf. rewrite Hx, Hx' in Hf. specialize (Hf eq_refl eq_refl).
  subst generation generation'. destruct Hf as [Hlt|[-> ->]]; split; lia || done.
Qed.

End generations.

(** ** Acknowledgements to send *)
Section pending.
Context `{Platform}.
Implicit Types (e : JournalEntry.t) (j : CommandJournal.t).

Lemma collect_results_Ok {A B} (f : A -> result B) l l' :
  collect_results f l = Ok l' <-> Forall2 (fun x y => f x = Ok y) l l'.
Proof.
  revert l'. induction l as [|x l IH]; intros l'; simpl.
  - rewrite Ok_inj_iff. split; [intros <-; constructor|by inversion 1].
  - rewrite result_bind_Ok. setoid_rewrite result_bind_Ok. setoid_rewrite IH. split.
    + intros (y & Hy & ys & Hys & [= <-]). by constructor.
    + inversion 1; subst. eauto 10.
Qed.

Lemma collect_results_total {A B} (f : A -> result B) l :
  Forall (fun x => exists y, f x = Ok y) l -> exists l', collect_results f l = Ok l'.
Proof. induction 1 as [|x l [y Hy] _ [l' IH]]; simpl; [eauto|]. rewrite Hy; simpl. rewrite IH. simpl. eauto. Qed.

Lemma sorted_sequences l :
  NoDup (JournalEntry.sequence <$> l) ->
  StronglySorted N.lt (JournalEntry.sequence <$> sort_by_key JournalEntry.sequence l).
Proof.
  intros Hnd. assert (Hs : StronglySorted (key_lt JournalEntry.sequence) (sort_by_key JournalEntry.sequence l)).
  { apply strictly_sorted_of_NoDup; [by rewrite sort_by_key_perm|apply sort_by_key_sorted]. }
  induction Hs as [|e s _ IH Hx]; simpl; constructor; [done|]. apply Forall_fmap. eapply Forall_impl; [exact Hx|].
  intros y. unfold key_lt, ltb, cmp, N_ord; simpl. by destruct (N.compare_spec (JournalEntry.sequence e) (JournalEntry.sequence y)).
Qed.

(** The entries whose outcome the control plane has not acknowledged. *)
Definition is_pending (e : JournalEntry.t) : bool :=
  negb e.(JournalEntry.acknowledged) && is_some e.(JournalEntry.completion).

(** When the file system works, the agent can always list what it still has to report: the
    acknowledgements of exactly the commands that were completed and not yet acknowledged, in the
    order of their sequences. *)
Theorem pending_acknowledgements_complete (self : FileCommandJournal.t) j :
  reachable self (Some j) ->
  exists acks, pending_acknowledgements_sync self healthy (Some j) = (Some j, Ok acks)
  /\ StronglySorted N.lt (NodeCommandAck.sequence <$> acks)
  /\ (forall ack, ack ∈ acks <->
        exists e, e ∈ by_sequence j /\ e.(JournalEntry.acknowledged) = false
          /\ JournalEntry.acknowledgement e = Ok (Some ack)).
Proof.
  intros Hr. destruct (reachable_ok _ _ Hr) as [Hv0 Hn]. apply validate_valid in Hv0 as Hv.
  unfold pending_acknowledgements_sync. unfold mbind, method_bind. rewrite open_journal_healthy by done.
  change (stored self (Some j)) with j. fold is_pending.
  set (l := sort_by_key JournalEntry.sequence (List.filter is_pending (values j.(entries)))).
  assert (Hl : forall e, e ∈ l <-> e ∈ by_sequence j /\ is_pending e = true).
  { intros e. unfold l, by_sequence. rewrite !sort_by_key_perm, !list_elem_of_In, filter_In. done. }
  assert (Hack : forall e, e ∈ l -> exists ack, JournalEntry.acknowledgement e = Ok (Some ack)
            /\ NodeCommandAck.sequence ack = JournalEntry.sequence e).
  { intros e [[k Hk]%elem_of_by_sequence Hp]%Hl. unfold is_pending in Hp.
    destruct (JournalEntry.completion e) as [c|] eqn:Hc; [|by rewrite andb_false_r in Hp].
    destruct (entry_acknowledgement _ _ _ (valid_entries _ Hv _ _ Hk)) as [a Ha].
    destruct (acknowledgement_Some e c a Hc Ha) as (ack & -> & ?). exists ack. intuition. }
  destruct (collect_results_total (fun e => expect_acknowledgement e "pending acknowledgement has no completion") l)
    as [acks Hacks].
  { apply Forall_forall. intros e (ack & Ha & _)%Hack. exists ack. unfold expect_acknowledgement. by rewrite Ha. }
  exists acks. unfold lift. rewrite Hacks. split; [done|]. apply collect_results_Ok in Hacks.
  assert (Hacks' : Forall2 (fun e ack => JournalEntry.acknowledgement e = Ok (Some ack)
            /\ NodeCommandAck.sequence ack = JournalEntry.sequence e) l acks).
  { eapply Forall2_impl_in; [|exact Hacks]. intros e ack Hin He. destruct (Hack e Hin) as (ack' & Ha & Hs).
    unfold expect_acknowledgement in He. rewrite Ha in He. simpl in He. simplify_eq. done. }
  split.
  - rewrite <- (fmap_Forall2 _ JournalEntry.sequence NodeCommandAck.sequence _ _ (fun x y Hxy => eq_sym (proj2 Hxy)) Hacks').
    eapply sorted_sequences, NoDup_fmap_filter, valid_distinct, Hv.
  - intros ack. split.
    + intros [i Hi]%list_elem_of_lookup. destruct (Forall2_lookup_r _ _ _ _ _ Hacks' Hi) as (e & He & Ha & _).
      exists e. apply list_elem_of_lookup_2, Hl in He as [He Hp]. unfold is_pending in Hp. reflect_bools. intuition.
    + intros (e & He & Hna & Ha).
      assert (Hin : e ∈ l).
      { apply Hl. split; [done|]. unfold is_pending. rewrite Hna. simpl.
        destruct (JournalEntry.completion e) eqn:Hc; [done|]. unfold JournalEntry.acknowledgement in Ha.
        by rewrite Hc in Ha. }
      apply list_elem_of_lookup in Hin as [i Hi].
      destruct (Forall2_lookup_l _ _ _ _ _ Hacks' Hi) as (ack' & Hack' & Ha' & _).
      assert (ack' = ack) as -> by congruence.
      by eapply list_elem_of_lookup_2.
Qed.

End pending.
