(* ===== verification/JournalClaims.v ===== *)
(** * Resource claims recovered from the command journal

    The projection [ResourceClaimJournalProjection] is folded over the journal in the order of
    receipt whenever the journal is validated, so every journal on disk has one.  Its claims never
    compete for an exclusive slot or a Runtime generation, and a claim that a Runtime unit uses is
    released only after that unit was seen to have stopped. *)

From Stdlib Require Import ZArith NArith Lia String.
From stdpp Require Import gmap.
From S2P Require Import Prelude RustStd BTreeMap External Text Resources NodeClaims NodeCommands CommandJournal.
From S2P Require Import JournalLifecycle JournalGuarantees.
Import CommandJournal FileCommandJournal Journaling ProjectedResourceClaim ResourceClaimJournalProjection.

Lemma project_app `{Platform} {P} (f : P -> JournalEntry.t -> result P) p l l' :
  project f p (l ++ l') = (q ← project f p l; project f q l').
Proof. revert p. induction l as [|e l IH]; intros p; simpl; [done|]. destruct (f p e); simpl; auto. Qed.

(** ** Claims that do not compete *)

(** Two claims have no exclusive slot in common, and not the same Runtime generation. *)
Definition compatible (b b' : NodeResourceClaimBinding.t) : Prop :=
  ~ (b.(NodeResourceClaimBinding.runtime_unit_id) = b'.(NodeResourceClaimBinding.runtime_unit_id)
     /\ b.(NodeResourceClaimBinding.runtime_generation) = b'.(NodeResourceClaimBinding.runtime_generation))
  /\ forall s s', s ∈ b.(NodeResourceClaimBinding.slots) -> s' ∈ b'.(NodeResourceClaimBinding.slots) ->
     ResourceKind.is_shared_capacity s.(ResourceSlotBinding.kind) = false ->
     s.(ResourceSlotBinding.kind) = s'.(ResourceSlotBinding.kind) ->
     s.(ResourceSlotBinding.stable_resource_id) <> s'.(ResourceSlotBinding.stable_resource_id).

#[export] Instance compatible_sym : Symmetric compatible.
Proof.
  intros b b' [Hr Hs]. split; [intros [? ?]; apply Hr; done|]. intros s s' Hs1 Hs2 Hk E E'.
  rewrite E in Hk. by eapply (Hs s' s).
Qed.

Record claims_ok (p : ResourceClaimJournalProjection.t) : Prop := {
  claims_key : forall id c, p !! id = Some c -> c.(binding).(NodeResourceClaimBinding.claim_id) = id;
  claims_compatible : forall id id' c c', p !! id = Some c -> p !! id' = Some c' -> id <> id' ->
    c.(active) = true -> c'.(active) = true -> compatible c.(binding) c'.(binding);
}.

(** An update that keeps the binding and does not activate the claim. *)
Lemma claims_ok_update p id c c' :
  claims_ok p -> p !! id = Some c -> c'.(binding) = c.(binding) -> (c'.(active) = true -> c.(active) = true) ->
  claims_ok (<[id := c']> p).
Proof.
  intros [Hk Hc] Hid Hb Ha.
  assert (Hold : forall i x, <[id := c']> p !! i = Some x ->
            exists y, p !! i = Some y /\ x.(binding) = y.(binding) /\ (x.(active) = true -> y.(active) = true)).
  { intros i x [[<- <-]|[_ Hx]]%lookup_insert_Some; eauto. }
  split.
  - intros i x (y & Hy & -> & _)%Hold. by apply Hk.
  - intros i i' x x' (y & Hy & -> & Hay)%Hold (y' & Hy' & -> & Hay')%Hold Hne Hx Hx'. eauto.
Qed.

(** A claim that is new to the projection is not active. *)
Lemma claims_ok_insert p id c :
  claims_ok p -> p !! id = None -> c.(binding).(NodeResourceClaimBinding.claim_id) = id -> c.(active) = false ->
  claims_ok (<[id := c]> p).
Proof.
  intros [Hk Hc] Hid Hb Ha. split.
  - intros i x [[<- <-]|[_ Hx]]%lookup_insert_Some; auto.
  - intros i i' x x' [[<- <-]|[_ Hx]]%lookup_insert_Some [[<- <-]|[_ Hx']]%lookup_insert_Some; try congruence.
    apply (Hc i i' x x' Hx Hx').
Qed.

Lemma for_each_In {A} (f : A -> result unit) l x : for_each f l = Ok tt -> x ∈ l -> f x = Ok tt.
Proof. rewrite for_each_Ok, Forall_forall. auto. Qed.

Lemma elem_of_active (p : ResourceClaimJournalProjection.t) c :
  c ∈ List.filter active (values p) <-> c.(active) = true /\ exists id, p !! id = Some c.
Proof. rewrite list_elem_of_In, filter_In, <- list_elem_of_In, elem_of_values. tauto. Qed.

Lemma exclusive_conflict_false c b :
  (forall r, r ∈ b.(NodeResourceClaimBinding.slots) -> exclusive_conflict c r = false) ->
  forall s s', s ∈ b.(NodeResourceClaimBinding.slots) -> s' ∈ c.(binding).(NodeResourceClaimBinding.slots) ->
     ResourceKind.is_shared_capacity s.(ResourceSlotBinding.kind) = false ->
     s.(ResourceSlotBinding.kind) = s'.(ResourceSlotBinding.kind) ->
     s.(ResourceSlotBinding.stable_resource_id) <> s'.(ResourceSlotBinding.stable_resource_id).
Proof.
  intros Hall s s' Hs Hs' Hk E E'. specialize (Hall s Hs). unfold exclusive_conflict, any in Hall.
  rewrite Hk in Hall. simpl in Hall. apply not_true_iff_false in Hall. apply Hall, existsb_exists.
  exists s'. split; [by apply list_elem_of_In|]. by rewrite E, E', !bool_decide_eq_true_2.
Qed.

(** What a successful activation checked. *)
Lemma activate_prepared_Ok p request p' (new := request.(NodeResourceClaimPrepare.binding))
    (id := new.(NodeResourceClaimBinding.claim_id)) :
  claims_ok p -> activate_prepared p request = Ok p' ->
  (forall i c, p !! i = Some c -> c.(active) = true -> i <> id /\ compatible new c.(binding))
  /\ exists c, p !! id = Some c /\ p' = <[id := c <| active := true |> <| released := false |>]> p.
Proof.
  intros [Hk _]. unfold activate_prepared. fold new id. rewrite then_Ok, invalid_if_Ok, then_Ok. intros (Hr & Hs & Hp).
  split.
  - intros i c Hi Ha. pose proof (Hk _ _ Hi) as Hid.
    pose proof (for_each_In _ _ c Hs (proj2 (elem_of_active p c) (conj Ha (ex_intro _ i Hi)))) as Hc.
    rewrite then_Ok, invalid_if_Ok in Hc. destruct Hc as [Hne Hslots]. reflect_bools.
    split; [congruence|]. split.
    + intros [Eu Eg]. apply not_true_iff_false in Hr. apply Hr, existsb_exists. exists c.
      split; [apply list_elem_of_In, elem_of_values; eauto|].
      rewrite Ha, (bool_decide_eq_false_2 _ Hne), Eu, Eg. by rewrite !bool_decide_eq_true_2.
    + apply exclusive_conflict_false. intros r Hin. apply (for_each_In _ _ r Hslots) in Hin.
      by apply unit_Err in Hin.
  - destruct (p !! id) as [c|]; [|done]. exists c. split; [done|]. congruence.
Qed.

Lemma claims_ok_activate p request p' :
  claims_ok p -> activate_prepared p request = Ok p' ->
  (forall c, p !! request.(NodeResourceClaimPrepare.binding).(NodeResourceClaimBinding.claim_id) = Some c ->
     c.(binding) = request.(NodeResourceClaimPrepare.binding)) ->
  claims_ok p'.
Proof.
  intros Hok Ha Hb. destruct (activate_prepared_Ok p request p' Hok Ha) as (Hall & c & Hc & ->).
  specialize (Hb c Hc). destruct Hok as [Hk Hcomp]. split.
  - intros i x [[<- <-]|[_ Hx]]%lookup_insert_Some; [|auto]. simpl. by rewrite Hb.
  - intros i i' x x' [[<- <-]|[Hi Hx]]%lookup_insert_Some [[<- <-]|[Hi' Hx']]%lookup_insert_Some Hne Hax Hax';
      simpl; [done| | |by eapply (Hcomp i i')].
    + rewrite Hb. by apply (Hall i').
    + rewrite Hb. symmetry. by apply (Hall i).
Qed.

(** ** The projection preserves it *)
Section projection.
Context `{Platform}.
Implicit Types (p : ResourceClaimJournalProjection.t) (e : JournalEntry.t) (j : CommandJournal.t).

(** Registering a command keeps every flag of every claim but [prepare_terminal]. *)
Lemma register_Ok p e p' :
  claims_ok p -> register p e = Ok p' ->
  claims_ok p'
  /\ (forall id c, p !! id = Some c -> exists c', p' !! id = Some c' /\ c'.(binding) = c.(binding)
        /\ c'.(active) = c.(active) /\ c'.(bound) = c.(bound) /\ c'.(runtime_fenced) = c.(runtime_fenced))
  /\ (forall request, e.(JournalEntry.envelope).(NodeCommandEnvelope.payload)
                        = NodeCommandPayload.ResourceClaimPrepare request ->
      forall c, p' !! request.(NodeResourceClaimPrepare.binding).(NodeResourceClaimBinding.claim_id) = Some c ->
      c.(binding) = request.(NodeResourceClaimPrepare.binding)).
Proof.
  intros Hok. unfold register.
  destruct (NodeCommandEnvelope.payload _) as [request| | | | | | | | | | | |request| | | | | | | |] eqn:Hp;
    try (intros [= <-]; split_and!; [done|intros id c Hc; by exists c|congruence]).
  - rewrite then_Ok. intros [Hr [= <-]]. unfold register_prepare, conflict in Hr.
    rewrite then_Ok, unit_Err in Hr. destruct Hr as [_ Hr]. reflect_bools. destruct Hr as [[Hb _] _].
    set (id := NodeResourceClaimBinding.claim_id _) in *.
    set (c' := if is_some (JournalEntry.completion e) then _ else _).
    assert (Hc' : c'.(binding) = (default (new request) (p !! id)).(binding)
              /\ c'.(active) = (default (new request) (p !! id)).(active)
              /\ c'.(bound) = (default (new request) (p !! id)).(bound)
              /\ c'.(runtime_fenced) = (default (new request) (p !! id)).(runtime_fenced))
      by (unfold c'; by destruct (is_some _)).
    destruct Hc' as (Hb' & Ha' & Hbd' & Hf'). clearbody c'. split_and!.
    + destruct (p !! id) as [c|] eqn:Hid; simpl in *.
      * eapply claims_ok_update; [done..|]. by rewrite Ha'.
      * apply claims_ok_insert; [done|done|by rewrite Hb'|done].
    + intros i c Hc. destruct (decide (id = i)) as [<-|Hne].
      * exists c'. rewrite lookup_insert_eq. rewrite Hc in Hb', Ha', Hbd', Hf'. done.
      * exists c. by rewrite lookup_insert_ne.
    + intros request0 [= <-] c. rewrite lookup_insert_eq. intros [= <-]. congruence.
  - destruct (p !! _) as [c|] eqn:Hid; [|done]. rewrite result_bind_Ok. intros (c' & Hr & [= <-]).
    unfold register_release, conflict in Hr. rewrite then_Ok in Hr. destruct Hr as [_ Hr].
    destruct (_ || _); [done|]. simplify_eq. split_and!; [by eapply claims_ok_update| |done].
    intros i x Hx. destruct (decide (NodeResourceClaimBinding.claim_id (NodeResourceClaimRelease.binding request) = i)) as [<-|Hne].
    + rewrite lookup_insert_eq. simplify_eq. by eexists.
    + exists x. by rewrite lookup_insert_ne.
Qed.

Lemma fence_lookup p unit_id generation id c :
  mark_runtime_fenced p unit_id generation !! id = Some c ->
  exists c0, p !! id = Some c0
    /\ c = if serves c0 unit_id generation then c0 <| runtime_fenced := true |> else c0.
Proof.
  unfold mark_runtime_fenced. rewrite lookup_fmap. destruct (p !! id) as [c0|]; [|done].
  intros [= <-]. eauto.
Qed.

Lemma claims_ok_fence p unit_id generation : claims_ok p -> claims_ok (mark_runtime_fenced p unit_id generation).
Proof.
  intros [Hk Hc].
  assert (Hold : forall i x, mark_runtime_fenced p unit_id generation !! i = Some x ->
            exists y, p !! i = Some y /\ x.(binding) = y.(binding) /\ x.(active) = y.(active)).
  { intros i x (y & Hy & ->)%fence_lookup. exists y. by destruct (serves _ _ _). }
  split.
  - intros i x (y & Hy & -> & _)%Hold. by apply Hk.
  - intros i i' x x' (y & Hy & -> & ->)%Hold (y' & Hy' & -> & ->)%Hold. eauto.
Qed.

Lemma conclude_ok p payload result p' :
  claims_ok p ->
  (forall request, payload = NodeCommandPayload.ResourceClaimPrepare request ->
     forall c, p !! request.(NodeResourceClaimPrepare.binding).(NodeResourceClaimBinding.claim_id) = Some c ->
     c.(binding) = request.(NodeResourceClaimPrepare.binding)) ->
  conclude p payload result = Ok p' -> claims_ok p'.
Proof.
  intros Hok Hprep. unfold conclude.
  destruct payload as [request|request [new|]| |request|request| | | | | | | |request| | | | | | | |], result;
    try (intros [= <-]; done).
  - rewrite then_Ok. intros [_ Ha]. eapply claims_ok_activate; [done..|]. by apply Hprep.
  - rewrite !then_Ok. intros (_ & _ & Hp). destruct (p !! _) as [c|] eqn:Hid; [|done]. simplify_eq.
    by eapply claims_ok_update.
  - rewrite then_Ok. by intros [_ [= <-]].
  - destruct (stopped_or_absent _); intros [= <-]; [by apply claims_ok_fence|done].
  - intros [= <-]. by apply claims_ok_fence.
  - rewrite !then_Ok. intros (_ & _ & Hp). destruct (p !! _) as [c|] eqn:Hid; [|done]. simplify_eq.
    by eapply claims_ok_update.
Qed.

Lemma apply_ok p e p' : claims_ok p -> apply p e = Ok p' -> claims_ok p'.
Proof.
  intros Hok. unfold apply. rewrite result_bind_Ok. intros (q & Hq & Hc).
  destruct (register_Ok _ _ _ Hok Hq) as (Hokq & _ & Hprep).
  destruct (JournalEntry.succeeded e) as [result|]; [|by simplify_eq]. by eapply conclude_ok.
Qed.

Lemma project_ok l p p' : claims_ok p -> project apply p l = Ok p' -> claims_ok p'.
Proof.
  revert p. induction l as [|e l IH]; intros p Hok; simpl; [by intros [= <-]|].
  rewrite result_bind_Ok. intros (q & Hq & Hl). eapply IH; [|done]. by eapply apply_ok.
Qed.

Lemma claims_ok_empty : claims_ok ∅.
Proof. split; intros *; by rewrite lookup_empty. Qed.

(** The claims an agent reports as active after a restart never compete: two of them are
    distinct claims, bind different Runtime generations, and hold no exclusive slot in common. *)
Theorem active_claims_exclusive (self : FileCommandJournal.t) d fs d' bindings i k b b' :
  active_resource_claim_bindings_sync self fs d = (d', Ok bindings) ->
  i <> k -> bindings !! i = Some b -> bindings !! k = Some b' ->
  b.(NodeResourceClaimBinding.claim_id) <> b'.(NodeResourceClaimBinding.claim_id) /\ compatible b b'.
Proof.
  unfold active_resource_claim_bindings_sync. unfold mbind at 1, method_bind at 1.
  destruct (open_journal_spec self fs d) as (ro & -> & Ho). destruct ro as [j|]; [|done].
  rewrite bind_lift. destruct (resource_claim_projection j) as [p|] eqn:Hp; [|done]. intros [= <- <-].
  pose proof (project_ok _ _ _ claims_ok_empty Hp) as Hok. clear Hp.
  unfold active_bindings. set (l := List.filter active (values p)). change (map binding l) with (binding <$> l).
  assert (Hnd : NoDup ((fun c => c.(binding).(NodeResourceClaimBinding.claim_id)) <$> l)).
  { apply NoDup_fmap_filter. unfold values. rewrite <- list_fmap_compose.
    erewrite list_fmap_ext; [apply (entries_of_keys p)|]. intros n [id c] Hn%list_elem_of_lookup_2.
    apply elem_of_entries in Hn. by apply (claims_key _ Hok). }
  intros Hne Hb Hb'. rewrite list_lookup_fmap in Hb, Hb'.
  destruct (l !! i) as [c|] eqn:Hi; [|done]. destruct (l !! k) as [c'|] eqn:Hk; [|done].
  simpl in Hb, Hb'. simplify_eq.
  assert (Hids : c.(binding).(NodeResourceClaimBinding.claim_id) <> c'.(binding).(NodeResourceClaimBinding.claim_id)).
  { intros E. apply Hne. eapply NoDup_lookup; [exact Hnd| |]; rewrite list_lookup_fmap, ?Hi, ?Hk; simpl; by rewrite ?E. }
  split; [done|].
  apply list_elem_of_lookup_2, elem_of_active in Hi as [Ha [id Hid]], Hk as [Ha' [id' Hid']].
  eapply claims_compatible; [exact Hok|exact Hid|exact Hid'| |done..].
  rewrite <- (claims_key _ Hok _ _ Hid), <- (claims_key _ Hok _ _ Hid'). done.
Qed.

End projection.

(** ** A claim in use is released only after its Runtime unit stopped *)
Section release.
Context `{Platform}.
Implicit Types (p : ResourceClaimJournalProjection.t) (e : JournalEntry.t) (b : NodeResourceClaimBinding.t).

(** The unit of the claim was started: a Runtime apply under the claim succeeded. *)
Definition applies (b : NodeResourceClaimBinding.t) (e : JournalEntry.t) : bool :=
  match e.(JournalEntry.envelope).(NodeCommandEnvelope.payload), JournalEntry.succeeded e with
  | NodeCommandPayload.RuntimeApply _ (Some new), Some (NodeCommandResult.RuntimeApplied _) => new == b
  | _, _ => false
  end.

(** The unit of the claim was seen to have stopped, to be absent, or was removed. *)
Definition fences (b : NodeResourceClaimBinding.t) (e : JournalEntry.t) : bool :=
  let is_unit request := (b.(NodeResourceClaimBinding.runtime_unit_id) == action_unit_id request)
                         && (b.(NodeResourceClaimBinding.runtime_generation) == action_generation request) in
  match e.(JournalEntry.envelope).(NodeCommandEnvelope.payload), JournalEntry.succeeded e with
  | NodeCommandPayload.RuntimeStop request, Some (NodeCommandResult.RuntimeStopped inspection) =>
    stopped_or_absent inspection && is_unit request
  | NodeCommandPayload.RuntimeRemove request, Some (NodeCommandResult.RuntimeRemoved _) => is_unit request
  | _, _ => false
  end.

(** The claim was released. *)
Definition releases (b : NodeResourceClaimBinding.t) (e : JournalEntry.t) : bool :=
  match e.(JournalEntry.envelope).(NodeCommandEnvelope.payload), JournalEntry.succeeded e with
  | NodeCommandPayload.ResourceClaimRelease request, Some (NodeCommandResult.ResourceClaimReleased _) =>
    request.(NodeResourceClaimRelease.binding) == b
  | _, _ => false
  end.

(** The claim is in use: its unit may be running. *)
Definition in_use p b : Prop :=
  exists c, p !! b.(NodeResourceClaimBinding.claim_id) = Some c /\ c.(binding) = b
    /\ c.(active) = true /\ c.(bound) = true /\ c.(runtime_fenced) = false.

Lemma register_in_use p e p' b : claims_ok p -> register p e = Ok p' -> in_use p b -> in_use p' b.
Proof.
  intros Hok Hr (c & Hc & Hb & Ha & Hbd & Hf). destruct (register_Ok _ _ _ Hok Hr) as (_ & Hkeep & _).
  destruct (Hkeep _ _ Hc) as (c' & Hc' & E1 & E2 & E3 & E4). exists c'. rewrite E1, E2, E3, E4. done.
Qed.

Lemma validate_release_in_use p request c :
  p !! request.(NodeResourceClaimRelease.binding).(NodeResourceClaimBinding.claim_id) = Some c ->
  c.(active) = true -> c.(bound) = true -> c.(runtime_fenced) = false -> validate_release p request <> Ok tt.
Proof.
  intros Hc Ha Hbd Hf. unfold validate_release, conflict. rewrite then_Ok. intros [_ Hv].
  rewrite Hc, Ha, Hbd, Hf in Hv. simpl in Hv. by repeat case_match.
Qed.

(** Another command, unless it fences the unit, leaves the claim in use. *)
Lemma conclude_in_use p e result p' b :
  claims_ok p -> JournalEntry.succeeded e = Some result ->
  conclude p e.(JournalEntry.envelope).(NodeCommandEnvelope.payload) result = Ok p' ->
  fences b e = false -> in_use p b -> in_use p' b.
Proof.
  intros Hok Hsucc Hc Hf Huse. pose proof Huse as (c & Hid & Hb & Ha & Hbd & Hfen).
  unfold fences in Hf. rewrite Hsucc in Hf. unfold conclude in Hc.
  assert (Hkeep : forall c', c'.(binding) = b -> c'.(active) = true -> c'.(bound) = true ->
            c'.(runtime_fenced) = false -> in_use (<[b.(NodeResourceClaimBinding.claim_id) := c']> p) b).
  { intros c' ? ? ? ?. exists c'. by rewrite lookup_insert_eq. }
  assert (Hother : forall id c', id <> b.(NodeResourceClaimBinding.claim_id) -> in_use (<[id := c']> p) b).
  { intros id c' Hne. exists c. by rewrite lookup_insert_ne. }
  assert (Hfence : forall request, (b.(NodeResourceClaimBinding.runtime_unit_id) == action_unit_id request)
            && (b.(NodeResourceClaimBinding.runtime_generation) == action_generation request) = false ->
            in_use (mark_runtime_fenced p (action_unit_id request) (action_generation request)) b).
  { intros request Hu. exists c. unfold mark_runtime_fenced. rewrite lookup_fmap, Hid; simpl.
    unfold serves. rewrite Ha, Hb. simpl. by rewrite Hu. }
  destruct (NodeCommandEnvelope.payload _) as [request|request [new|]| |request|request| | | | | | | |request| | | | | | | |],
    result; try by simplify_eq.
  - rewrite then_Ok in Hc. destruct Hc as [_ Hact].
    destruct (activate_prepared_Ok _ _ _ Hok Hact) as (Hall & x & Hx & ->).
    apply Hother. intros E. by destruct (Hall _ _ Hid Ha).
  - rewrite !then_Ok in Hc. destruct Hc as (_ & _ & Hc).
    destruct (decide (NodeResourceClaimBinding.claim_id new = NodeResourceClaimBinding.claim_id b)) as [E|Hne].
    + rewrite E, Hid in Hc. simplify_eq. by apply Hkeep.
    + destruct (p !! NodeResourceClaimBinding.claim_id new) as [x|]; [|done]. simplify_eq. by apply Hother.
  - rewrite then_Ok in Hc. destruct Hc as [_ Hc]. by simplify_eq.
  - destruct (stopped_or_absent _); simplify_eq; [by apply Hfence|done].
  - simplify_eq. by apply Hfence.
  - rewrite !then_Ok in Hc. destruct Hc as (Hv & _ & Hc).
    destruct (decide (NodeResourceClaimBinding.claim_id (NodeResourceClaimRelease.binding request)
                      = NodeResourceClaimBinding.claim_id b)) as [E|Hne].
    + exfalso. revert Hv. apply (validate_release_in_use p request c); by rewrite ?E.
    + destruct (p !! NodeResourceClaimBinding.claim_id (NodeResourceClaimRelease.binding request)) as [x|]; [|done].
      simplify_eq. by apply Hother.
Qed.

(** A successful apply puts its claim in use. *)
Lemma conclude_applies p e result p' b :
  claims_ok p -> JournalEntry.succeeded e = Some result ->
  conclude p e.(JournalEntry.envelope).(NodeCommandEnvelope.payload) result = Ok p' ->
  applies b e = true -> in_use p' b.
Proof.
  intros Hok Hsucc Hc Happ. unfold applies in Happ. rewrite Hsucc in Happ. unfold conclude in Hc.
  destruct (NodeCommandEnvelope.payload _) as [|request [new|]| | | | | | | | | | | | | | | | | | |]; try done.
  destruct result; try done. reflect_bools. subst new. rewrite !then_Ok in Hc. destruct Hc as (Hv & _ & Hc).
  unfold validate_runtime_apply in Hv. rewrite then_Ok in Hv. destruct Hv as [_ Hv].
  destruct (List.find _ _) as [c|] eqn:Hfind; [|done]. destruct (_ == _) eqn:Hb; [|done]. reflect_bools.
  apply find_some in Hfind as [Hin Hserves]. apply list_elem_of_In, elem_of_values in Hin as [id Hid].
  pose proof (claims_key _ Hok _ _ Hid) as Hk. rewrite Hb in Hk. subst id. rewrite Hid in Hc. simplify_eq.
  unfold serves in Hserves. reflect_bools. eexists. rewrite lookup_insert_eq. split_and!; [done| |tauto|done..]. done.
Qed.

Lemma apply_in_use p e p' b :
  claims_ok p -> apply p e = Ok p' ->
  applies b e = true \/ (in_use p b /\ fences b e = false) -> in_use p' b.
Proof.
  intros Hok. unfold apply. rewrite result_bind_Ok. intros (q & Hq & Hc) Hor.
  destruct (register_Ok _ _ _ Hok Hq) as (Hokq & _ & _).
  destruct (JournalEntry.succeeded e) as [result|] eqn:Hs.
  - destruct Hor as [Happ|[Huse Hf]]; [by eapply conclude_applies|].
    eapply conclude_in_use; [exact Hokq|exact Hs|exact Hc|exact Hf|]. exact (register_in_use _ _ _ _ Hok Hq Huse).
  - simplify_eq. destruct Hor as [Happ|[Huse _]]; [|exact (register_in_use _ _ _ _ Hok Hq Huse)].
    unfold applies in Happ. rewrite Hs in Happ. by destruct (NodeCommandEnvelope.payload _) as [|? []| | | | | | | | | | | | | | | | | | |].
Qed.

Lemma project_in_use l p p' b :
  claims_ok p -> project apply p l = Ok p' -> in_use p b -> Forall (fun e => fences b e = false) l -> in_use p' b.
Proof.
  revert p. induction l as [|e l IH]; intros p Hok; simpl; [by intros [= <-]|].
  rewrite result_bind_Ok. intros (q & Hq & Hl) Huse [Hf Hall]%Forall_cons.
  eapply (IH q); [by eapply apply_ok|done| |done]. eapply apply_in_use; eauto.
Qed.

Lemma apply_releases p e p' b : claims_ok p -> apply p e = Ok p' -> releases b e = true -> ~ in_use p b.
Proof.
  intros Hok. unfold apply. rewrite result_bind_Ok. intros (q & Hq & Hc) Hrel Huse.
  apply (register_in_use _ _ _ _ Hok Hq) in Huse as (c & Hid & _ & Ha & Hbd & Hf).
  unfold releases in Hrel. destruct (JournalEntry.succeeded e) as [result|]; [|by destruct (NodeCommandEnvelope.payload _)].
  unfold conclude in Hc. destruct (NodeCommandEnvelope.payload _); try done. destruct result; try done.
  reflect_bools. subst b. rewrite !then_Ok in Hc. destruct Hc as (Hv & _ & _). revert Hv.
  by eapply validate_release_in_use.
Qed.

(** C12: In every journal a run can leave, a claim under which a Runtime unit was started is released
    only after that unit generation was seen to have stopped or was removed: between the apply and
    the release there is the command that fenced it. *)
Theorem claim_released_after_fence (self : FileCommandJournal.t) j i k e e' b :
  reachable self (Some j) ->
  by_sequence j !! i = Some e -> applies b e = true ->
  by_sequence j !! k = Some e' -> releases b e' = true -> (i < k)%nat ->
  exists f x, (i < f < k)%nat /\ by_sequence j !! f = Some x /\ fences b x = true.
Proof.
  intros Hr Hi Happ Hk Hrel Hik. destruct (valid_claims _ (reachable_valid _ _ Hr)) as [p Hp].
  unfold resource_claim_projection in Hp.
  set (mid := take (k - S i) (drop (S i) (by_sequence j))).
  assert (Hsplit : by_sequence j = take i (by_sequence j) ++ e :: mid ++ e' :: drop (S k) (by_sequence j)).
  { rewrite <- (take_drop_middle _ _ _ Hi) at 1. do 2 f_equal. unfold mid.
    rewrite <- (take_drop_middle (drop (S i) (by_sequence j)) (k - S i) e') at 1.
    - do 2 f_equal. rewrite drop_drop. f_equal. lia.
    - rewrite lookup_drop. rewrite <- Hk. f_equal. lia. }
  destruct (existsb (fences b) mid) eqn:Hex.
  { apply existsb_exists in Hex as (x & Hin%list_elem_of_In & Hf). apply list_elem_of_lookup in Hin as [n Hn].
    unfold mid in Hn. apply lookup_take_Some in Hn as [Hn Hlt]. rewrite lookup_drop in Hn.
    exists (S i + n)%nat, x. split_and!; [lia|lia|done|done]. }
  exfalso. rewrite Hsplit in Hp. rewrite project_app, result_bind_Ok in Hp. destruct Hp as (p1 & Hp1 & Hp).
  cbn [project] in Hp. rewrite result_bind_Ok in Hp. destruct Hp as (p2 & Hp2 & Hp).
  rewrite project_app, result_bind_Ok in Hp. destruct Hp as (p3 & Hp3 & Hp).
  cbn [project] in Hp. rewrite result_bind_Ok in Hp. destruct Hp as (p4 & Hp4 & _).
  pose proof (project_ok _ _ _ claims_ok_empty Hp1) as Hok1. pose proof (apply_ok _ _ _ Hok1 Hp2) as Hok2.
  pose proof (project_ok _ _ _ Hok2 Hp3) as Hok3.
  eapply (apply_releases _ _ _ _ Hok3 Hp4 Hrel), (project_in_use mid p2 p3); [done|done| |].
  - by eapply apply_in_use; [exact Hok1|exact Hp2|left].
  - apply Forall_forall. intros x Hx. apply not_true_iff_false. intros Hfx. apply not_true_iff_false in Hex.
    apply Hex, existsb_exists. exists x. split; [by apply list_elem_of_In|done].
Qed.

End release.
