(* ===== verification/FleetAgent.v ===== *)
(** * A node and its control plane

    The node repository and the command journal of one of its nodes, with the network between
    them.  The repository answers lease requests with envelopes; the agent journals envelopes it
    was sent and acknowledges outcomes its journal recorded; messages are lost, repeated and
    reordered, and both sides restart.  What the repository stores about a command is what the
    journal of the node holds. *)

From Stdlib Require Import ZArith NArith Lia String.
From stdpp Require Import gmap relations.
From S2P Require Import Prelude RustStd BTreeMap External Text SharedKernel Repositories Resources NodeInventory NodeClaims.
From S2P Require Import NodeGateway NodeCommands NodeObservations NodeSessions LogRetention NodePools.
From S2P Require Import CommandJournal JournalLifecycle JournalGuarantees.
From S2P Require Import Fleet FleetRepository FleetControl FleetLifecycle FleetFrame FleetQueue FleetDelivery.

Section system.
Context `{RuntimeReports}.
Variable self : FileCommandJournal.t.
#[local] Abbreviation node := (self.(FileCommandJournal.node_id)).

Record system := System {
  repository : State.t;
  journal : FileCommandJournal.disk;
  (** the envelopes the repository sent to the node, and the acknowledgements the node sent *)
  delivered : list NodeCommandEnvelope.t;
  sent : list NodeCommandAck.t;
}.

Definition initial : system := System State.empty None [] [].

(** The envelopes a call sends to the node. *)
Definition envelopes (c : call) (s : State.t) : list NodeCommandEnvelope.t :=
  match c with
  | LeaseCommands request lease_id now leased_until =>
    if request.(NodeCommandLeaseRequest.node_id) == node
    then match run_result (CommandQueue.lease_commands request lease_id now leased_until) s with
         | Ok response => response.(NodeCommandLeaseResponse.commands)
         | Err _ => []
         end
    else []
  | _ => []
  end.

(** The acknowledgements of the node come from the node: its certificate authenticates them. *)
Definition foreign (c : call) : Prop :=
  match c with AcknowledgeCommand ack => ack.(NodeCommandAck.node_id) <> node | _ => True end.

Inductive system_step : system -> system -> Prop :=
| repository_call s d delivered sent c :
    generated c s -> foreign c ->
    system_step (System s d delivered sent) (System (perform c s) d (envelopes c s ++ delivered) sent)
| journal_call s d delivered sent fs c :
    (forall envelope, c = Journaling.Begin envelope -> envelope ∈ delivered) ->
    system_step (System s d delivered sent) (System s (Journaling.after_call self fs c d) delivered sent)
| send s d delivered sent k e ack :
    (Journaling.stored self d).(CommandJournal.entries) !! k = Some e ->
    JournalEntry.acknowledgement e = Ok (Some ack) ->
    system_step (System s d delivered sent) (System s d delivered (ack :: sent))
| acknowledge s d delivered sent ack :
    ack ∈ sent ->
    system_step (System s d delivered sent) (System (perform (AcknowledgeCommand ack) s) d delivered sent).

Definition system_reachable : system -> Prop := rtc system_step initial.

(** An envelope is the command of the repository, under some lease. *)
Definition issued (s : State.t) (envelope : NodeCommandEnvelope.t) : Prop :=
  exists c, queue s !! envelope.(NodeCommandEnvelope.command_id) = Some c /\ c.(NodeCommand.node_id) = node
    /\ NodeCommand.envelope c envelope.(NodeCommandEnvelope.lease_id) = Ok envelope.

Definition canonical_outcome (outcome : NodeCommandOutcome.t) : NodeCommandOutcome.t :=
  match outcome with
  | NodeCommandOutcome.Succeeded result => NodeCommandOutcome.Succeeded (NodeCommand.canonicalize_result result)
  | outcome => outcome
  end.

(** The command [id] is journaled with the outcome [c]. *)
Definition recorded (d : FileCommandJournal.disk) (id : NodeCommandId) (c : JournalCompletion.t) : Prop :=
  exists e, (Journaling.stored self d).(CommandJournal.entries) !! id = Some e /\ e.(JournalEntry.completion) = Some c.

Record system_ok (x : system) : Prop := {
  ok_repository : reachable x.(repository);
  ok_journal : Journaling.reachable self x.(journal);
  ok_delivered : forall envelope, envelope ∈ x.(delivered) -> issued x.(repository) envelope;
  ok_entries : forall k e, (Journaling.stored self x.(journal)).(CommandJournal.entries) !! k = Some e ->
    issued x.(repository) e.(JournalEntry.envelope);
  ok_sent : forall ack, ack ∈ x.(sent) -> exists c, recorded x.(journal) ack.(NodeCommandAck.command_id) c
    /\ ack.(NodeCommandAck.outcome) = c.(JournalCompletion.outcome)
    /\ ack.(NodeCommandAck.completed_at) = c.(JournalCompletion.completed_at);
  ok_acknowledged : forall id st a, x.(repository).(State.commands) !! id = Some st ->
    st.(StoredNodeCommand.command).(NodeCommand.node_id) = node -> st.(StoredNodeCommand.acknowledgement) = Some a ->
    exists c, recorded x.(journal) id c
      /\ a.(NodeCommandAck.outcome) = canonical_outcome c.(JournalCompletion.outcome)
      /\ a.(NodeCommandAck.completed_at) = canonical_timestamp c.(JournalCompletion.completed_at);
}.

Lemma step_issued c s envelope : issued s envelope -> issued (perform c s) envelope.
Proof. intros (x & Hx & Hn & He). exists x. split; [by apply step_queue|done]. Qed.

(** The lease of a delivery is the only thing that changes between deliveries. *)
Lemma issued_content s envelope envelope' :
  issued s envelope' -> content envelope = content envelope' ->
  NodeCommandEnvelope.validate envelope = Ok tt -> issued s envelope.
Proof.
  intros (x & Hx & Hn & He) Hc Hv. exists x.
  pose proof (f_equal NodeCommandEnvelope.command_id Hc) as E. simpl in E. rewrite E. split_and!; [done..|].
  revert He. unfold NodeCommand.envelope, NodeCommandEnvelope.new. rewrite !result_bind_Ok.
  intros (digest & Hd & He). exists digest. split; [done|]. rewrite then_Ok in He |- *. destruct He as [_ [= He]].
  assert (E' : envelope = envelope' <| NodeCommandEnvelope.lease_id := envelope.(NodeCommandEnvelope.lease_id) |>).
  { destruct envelope, envelope'. injection Hc. intros. subst. reflexivity. }
  rewrite E' in Hv |- *. rewrite <- He in *. simpl in *. done.
Qed.

Lemma delivered_issued c s envelope :
  queues_ok s.(State.nodes) (queue s) -> envelope ∈ envelopes c s -> issued s envelope.
Proof.
  intros Hq. unfold envelopes. destruct c; try (by intros ?%not_elem_of_nil). case_bool_decide as Hn; [|by intros ?%not_elem_of_nil].
  destruct (run_result _ s) as [response|] eqn:E; [|by intros ?%not_elem_of_nil]. intros Hin.
  destruct (lease_commands_exact _ _ _ _ _ _ Hq E) as (_ & _ & Hf & _).
  destruct (list_elem_of_lookup_1 _ _ Hin) as [i Hi]. destruct (Forall2_lookup_r _ _ _ _ _ Hf Hi) as (st & Hst & He).
  apply list_elem_of_lookup_2 in Hst. destruct (envelope_Ok _ _ _ He) as (Hid & Hl & _).
  exists st.(StoredNodeCommand.command). rewrite Hid, Hl.
  destruct (due_stored _ _ _ _ Hq Hst) as [Hs _]. split_and!; [apply queue_lookup; eauto| |done].
  rewrite <- Hn. by eapply due_node.
Qed.

Lemma stored_some d k e :
  (Journaling.stored self d).(CommandJournal.entries) !! k = Some e -> d = Some (Journaling.stored self d).
Proof. destruct d as [j|]; [done|]. simpl. by rewrite lookup_empty. Qed.

Lemma call_recorded fs c d id x : Journaling.reachable self d -> recorded d id x ->
  recorded (Journaling.after_call self fs c d) id x.
Proof.
  intros Hr (e & He & Hx). pose proof (stored_some _ _ _ He) as Hd. rewrite Hd in Hr |- *.
  destruct (Journaling.run_entry self (Journaling.stored self d)
              (Journaling.after_call self fs c (Some (Journaling.stored self d))) id e Hr) as (j' & e' & E & _ & He' & _ & Hl & _).
  { apply Journaling.run_call, Journaling.run_nil. }
  { done. }
  exists e'. rewrite E. split; [done|]. by apply Hl.
Qed.

(** An entry after a call was there before, under some lease, or was just delivered. *)
Lemma call_entry fs c d k e : Journaling.reachable self d ->
  (Journaling.stored self (Journaling.after_call self fs c d)).(CommandJournal.entries) !! k = Some e ->
  c = Journaling.Begin e.(JournalEntry.envelope)
  \/ NodeCommandEnvelope.validate e.(JournalEntry.envelope) = Ok tt
     /\ exists e0, (Journaling.stored self d).(CommandJournal.entries) !! k = Some e0
        /\ content e.(JournalEntry.envelope) = content e0.(JournalEntry.envelope).
Proof.
  intros Hr Hk. destruct ((Journaling.stored self d).(CommandJournal.entries) !! k) as [e0|] eqn:E0.
  2: { left. by eapply Journaling.call_received. }
  right. pose proof (stored_some _ _ _ E0) as Hd. rewrite Hd in Hr, Hk.
  destruct (Journaling.run_entry self (Journaling.stored self d)
              (Journaling.after_call self fs c (Some (Journaling.stored self d))) k e0 Hr) as (j' & e' & E & Hv & He' & Hc & _).
  { apply Journaling.run_call, Journaling.run_nil. }
  { done. }
  rewrite E in Hk. simpl in Hk. assert (e' = e) as -> by congruence.
  split; [exact (entry_valid _ _ _ (valid_entries _ Hv _ _ He'))|]. exists e0. by split.
Qed.

Lemma canonicalize_parts ack (a := NodeCommand.canonicalize_acknowledgement ack) :
  a.(NodeCommandAck.outcome) = canonical_outcome ack.(NodeCommandAck.outcome)
  /\ a.(NodeCommandAck.completed_at) = canonical_timestamp ack.(NodeCommandAck.completed_at)
  /\ a.(NodeCommandAck.node_id) = ack.(NodeCommandAck.node_id).
Proof. subst a. unfold NodeCommand.canonicalize_acknowledgement. simpl. destruct (NodeCommandAck.outcome ack) eqn:E; simpl; by rewrite ?E. Qed.

Lemma validate_against_node a envelope :
  NodeCommandAck.validate_against a envelope = Ok tt ->
  a.(NodeCommandAck.node_id) = envelope.(NodeCommandEnvelope.node_id).
Proof.
  unfold NodeCommandAck.validate_against. rewrite then_Ok, then_Ok, then_Ok, fail_if_Ok.
  intros (_ & _ & Hid & _). reflect_bools. tauto.
Qed.

(** A new acknowledgement for the node is one of those it sent. *)
Lemma acknowledged_by cl s id st a :
  queues_ok s.(State.nodes) (queue s) ->
  (perform cl s).(State.commands) !! id = Some st -> st.(StoredNodeCommand.command).(NodeCommand.node_id) = node ->
  st.(StoredNodeCommand.acknowledgement) = Some a ->
  s.(State.commands) !! id = Some st
  \/ exists ack, cl = AcknowledgeCommand ack /\ ack.(NodeCommandAck.command_id) = id /\ ack.(NodeCommandAck.node_id) = node
       /\ a = NodeCommand.canonicalize_acknowledgement ack.
Proof.
  intros Hq Hst Hn Ha.
  destruct (acknowledgement_origin cl s id st a Hq Hst Ha) as [?|(ack & st0 & -> & Hid & -> & _ & Hc & ->)]; [by left|].
  right. exists ack. split_and!; [done..| |done]. apply check_acknowledgement_Ok in Hc as (lease & envelope & _ & He & Hv & _).
  apply validate_against_node in Hv. destruct (envelope_Ok _ _ _ He) as (_ & _ & En & _).
  destruct (canonicalize_parts ack) as (_ & _ & E). rewrite <- E, Hv, En. exact Hn.
Qed.

Lemma step_repository cl s d dl snt :
  generated cl s -> (forall ack, cl = AcknowledgeCommand ack -> ack.(NodeCommandAck.node_id) = node -> ack ∈ snt) ->
  system_ok (System s d dl snt) -> system_ok (System (perform cl s) d (envelopes cl s ++ dl) snt).
Proof.
  intros Hg Hack [Hr Hj Hd He Hs Ha]; simpl in *. pose proof (reachable_queues _ Hr) as Hq. split; simpl.
  - by apply history_step.
  - done.
  - intros envelope [Hin|Hin]%elem_of_app; apply step_issued; [by eapply delivered_issued|by apply Hd].
  - intros k e Hk. by eapply step_issued, He.
  - done.
  - intros id st a Hst Hn Hsa.
    destruct (acknowledged_by cl s id st a Hq Hst Hn Hsa) as [Hst'|(ack & -> & <- & Hnode & ->)]; [by eapply Ha|].
    destruct (Hs ack (Hack ack eq_refl Hnode)) as (c & Hc & Ho & Ht). exists c.
    destruct (canonicalize_parts ack) as (Eo & Et & _). rewrite Eo, Et, Ho, Ht. done.
Qed.

Lemma step_journal fs c s d dl snt :
  (forall envelope, c = Journaling.Begin envelope -> envelope ∈ dl) ->
  system_ok (System s d dl snt) -> system_ok (System s (Journaling.after_call self fs c d) dl snt).
Proof.
  intros Hb [Hr Hj Hd He Hs Ha]; simpl in *. split; simpl; [done| |done| | |].
  - by apply Journaling.run_call.
  - intros k e Hk. destruct (call_entry fs c d k e Hj Hk) as [E|(Hv & e0 & He0 & Hc)].
    + by apply Hd, Hb.
    + eapply issued_content; [by eapply He|exact Hc|exact Hv].
  - intros ack Hin. destruct (Hs ack Hin) as (x & Hx & ?). exists x. split; [by apply call_recorded|done].
  - intros id st a Hst Hn Hsa. destruct (Ha id st a Hst Hn Hsa) as (x & Hx & ?). exists x. split; [by apply call_recorded|done].
Qed.

Lemma step_ok x y : system_step x y -> system_ok x -> system_ok y.
Proof.
  intros [s d dl snt c Hg Hf|s d dl snt fs c Hb|s d dl snt k e ack He Hack|s d dl snt ack Hin] Hx.
  - apply step_repository; [done| |done]. intros ack -> Hn. by destruct (Hf Hn).
  - by apply step_journal.
  - destruct Hx as [Hr Hj Hd Hen Hs Ha]; simpl in *. split; simpl; try done.
    intros ack' [->|Hin]%elem_of_cons; [|by apply Hs].
    pose proof (stored_some _ _ _ He) as Ed. rewrite Ed in Hj. pose proof (Journaling.reachable_valid _ _ Hj) as Hv.
    destruct (JournalEntry.completion e) as [c|] eqn:Ec.
    + destruct (acknowledgement_Some _ _ _ Ec Hack) as (a & [= <-] & Ho & Ht & Hid & _). exists c. split_and!; [|done..].
      exists e. split; [|done]. rewrite Hid. by rewrite <- (entry_key _ _ _ (valid_entries _ Hv _ _ He)).
    + unfold JournalEntry.acknowledgement in Hack. by rewrite Ec in Hack.
  - apply (step_repository (AcknowledgeCommand ack) s d dl snt); [done| |done]. by intros ? [= <-] _.
Qed.

Lemma system_reachable_ok x : system_reachable x -> system_ok x.
Proof.
  unfold system_reachable. intros Hx. assert (Hi : system_ok initial).
  { split; simpl.
    - apply history_refl.
    - apply Journaling.run_nil.
    - by intros ? ?%not_elem_of_nil.
    - intros k e Hk. simpl in Hk. by rewrite lookup_empty in Hk.
    - by intros ? ?%not_elem_of_nil.
    - intros id st a Hk. simpl in Hk. by rewrite lookup_empty in Hk. }
  revert Hi. induction Hx as [|x y z Hxy _ IH]; [done|]. intros Hok. by apply IH, (step_ok x).
Qed.

(** C14: What the control plane believes was done is what the node recorded.  Whatever the network
    and the file system do, an acknowledgement the repository stores for a command of the node
    carries the outcome and the time its journal recorded for that exact command, at database
    precision. *)
Theorem acknowledged_outcome_journaled x id st a :
  system_reachable x ->
  x.(repository).(State.commands) !! id = Some st ->
  st.(StoredNodeCommand.command).(NodeCommand.node_id) = node -> st.(StoredNodeCommand.acknowledgement) = Some a ->
  exists e c,
    (Journaling.stored self x.(journal)).(CommandJournal.entries) !! id = Some e
    /\ e.(JournalEntry.completion) = Some c
    /\ a.(NodeCommandAck.outcome) = canonical_outcome c.(JournalCompletion.outcome)
    /\ a.(NodeCommandAck.completed_at) = canonical_timestamp c.(JournalCompletion.completed_at)
    /\ NodeCommand.envelope st.(StoredNodeCommand.command)
         e.(JournalEntry.envelope).(NodeCommandEnvelope.lease_id) = Ok e.(JournalEntry.envelope).
Proof.
  intros [Hr Hj _ He _ Ha]%system_reachable_ok Hst Hn Hsa.
  destruct (Ha id st a Hst Hn Hsa) as (c & (e & Hk & Hc) & Ho & Ht). exists e, c. split_and!; [done..|].
  destruct (He _ _ Hk) as (cmd & Hq & _ & Henv).
  pose proof (stored_some _ _ _ Hk) as Ed. rewrite Ed in Hj. pose proof (Journaling.reachable_valid _ _ Hj) as Hv.
  rewrite <- (entry_key _ _ _ (valid_entries _ Hv _ _ Hk)) in Hq.
  apply queue_lookup in Hq as (st' & Hst' & <-). by simplify_eq.
Qed.

(** C15: The journal of a node is a prefix of the queue of its commands: the command it received as
    the [i]th, under whatever leases, is the [i]th command the control plane enqueued for it, so
    nothing is skipped, reordered or invented between them. *)
Theorem journal_follows_queue x i r :
  system_reachable x ->
  JournalLifecycle.history (Journaling.stored self x.(journal)) !! i = Some r ->
  exists c lease_id envelope,
    commands_of x.(repository) node !! i = Some c
    /\ NodeCommand.envelope c lease_id = Ok envelope
    /\ r.(CommandLog.command) = content envelope.
Proof.
  intros [Hr Hj _ He _ _]%system_reachable_ok Hi.
  assert (Hv : valid (Journaling.stored self x.(journal))).
  { destruct (x.(journal)) as [j|]; [by eapply Journaling.reachable_valid|]. simpl in Hi.
    unfold JournalLifecycle.history, CommandJournal.by_sequence in Hi. simpl in Hi. done. }
  destruct (history_lookup_inv _ _ _ Hv Hi) as (k & e & Hk & -> & Hp). destruct (He _ _ Hk) as (c & Hc & Hn & Henv).
  exists c, e.(JournalEntry.envelope).(NodeCommandEnvelope.lease_id), e.(JournalEntry.envelope). split_and!; [|done|done].
  destruct (envelope_Ok _ _ _ Henv) as (_ & _ & _ & Hs). rewrite <- Hn, <- Hp. unfold position, JournalEntry.sequence.
  rewrite Hs. by eapply commands_of_lookup; [apply reachable_queues|].
Qed.

End system.
