(* ===== verification/OutboundBatches.v ===== *)
(** * Batches a node keeps until they are received

    [node-agent/src/outbound_batch.rs]: the one batch a shipper has staged, which only a matching
    receipt removes; and the state file of a shipper ([state_file.rs]), replaced atomically under a
    lock.  [OutboundBatchProtocol] is the trait a kind of batch implements: [LogShipping] and
    [EventShipping] are its two instances. *)

From Stdlib Require Import String.
From S2P Require Import Prelude RustStd CommandJournal.

Class OutboundBatchProtocol (B : Type) := {
  Receipt : Type;
  validate_batch : B -> result unit;
  validate_receipt : B -> Receipt -> result unit;
}.
Arguments Receipt B {_}.

(** [SecureStateError::to_string] *)
Definition secure_message (e : SecureStateError) : error :=
  match e with
  | SecureInvalid message => Error "invalid secure state: {0}" (FStr message.(template) :: message.(args))
  | SecureStorage message => Error "secure state storage failed: {0}" (FStr message.(template) :: message.(args))
  end.

(** [Invalid] and [Conflict] are the variants of the caller's error to which its [outbound_error]
    maps those of [OutboundBatchError]. *)
Module DurableOutboundBatch.
Section batch.
Context {B} `{OutboundBatchProtocol B} (Invalid Conflict : error -> error).

Definition is_pending (self : option B) : bool := is_some self.

Definition validate (self : option B) : result unit :=
  match self with
  | Some batch => map_err Invalid (validate_batch batch)
  | None => Ok tt
  end.

Definition stage (self : option B) (batch : B) : result (option B) :=
  map_err Invalid (validate_batch batch) ;;
  if is_pending self then Err (Conflict (Error "an outbound batch is already pending" []))
  else Ok (Some batch).

(** The batch and what stays pending. *)
Definition acknowledge (self : option B) (receipt : Receipt B) : result (B * option B) :=
  match self with
  | None => Err (Conflict (Error "outbound receipt has no pending batch" []))
  | Some pending =>
    map_err Invalid (validate_receipt pending receipt) ;;
    Ok (pending, None)
  end.

Lemma stage_Ok self batch next :
  stage self batch = Ok next -> self = None /\ next = Some batch /\ validate_batch batch = Ok tt.
Proof.
  unfold stage. rewrite then_Ok, map_err_Ok. intros [Hv E]. by destruct self; [|injection E as <-].
Qed.

Lemma acknowledge_Ok self receipt batch next :
  acknowledge self receipt = Ok (batch, next) ->
  self = Some batch /\ next = None /\ validate_receipt batch receipt = Ok tt.
Proof.
  unfold acknowledge. destruct self as [pending|]; [|done]. rewrite then_Ok, map_err_Ok. by intros [Hv [= -> <-]].
Qed.
End batch.
End DurableOutboundBatch.

(** The file of a shipper: [empty] before the first write, and [validate]d whenever it is read. *)
Module StateFile.
Section file.
Context {S : Type} (empty : S) (validate : S -> result unit) (state_error : error -> error).

Definition disk : Type := option S.

Definition stored (d : disk) : S := default empty d.

Definition io_step (failure : option SecureStateError) : method disk unit :=
  lift (match failure with Some e => Err (state_error (secure_message e)) | None => Ok tt end).

Definition read_state (fs : io) : method disk S :=
  io_step fs.(io_read) ;;
  d ← get;
  lift (validate (stored d)) ;;
  mret (stored d).

(** The first statements of every method: the directory, the lock, the content. *)
Definition open (fs : io) : method disk S :=
  io_step fs.(io_directory) ;;
  io_step fs.(io_lock) ;;
  read_state fs.

Definition write_state (state : S) (fs : io) : method disk unit :=
  match fs.(io_write) with
  | Published => modify (const (Some state))
  | PublishedUnsynced e => modify (const (Some state)) ;; lift (Err (state_error (secure_message e)))
  | NotPublished e => lift (Err (state_error (secure_message e)))
  end.

Lemma open_spec fs d :
  exists r, open fs d = (d, r) /\ forall s, r = Ok s -> s = stored d /\ validate (stored d) = Ok tt.
Proof.
  unfold open, read_state, io_step. autorewrite with methods. destruct (io_directory fs); [by eexists|].
  autorewrite with methods. destruct (io_lock fs); [by eexists|].
  autorewrite with methods. destruct (io_read fs); [by eexists|].
  autorewrite with methods. destruct (validate (stored d)) as [[]|] eqn:E; [|by eexists].
  eexists. split; [done|]. by intros s [= <-].
Qed.

Lemma open_healthy d : validate (stored d) = Ok tt -> open healthy d = (d, Ok (stored d)).
Proof. intros E. unfold open, read_state, io_step. cbn [healthy io_directory io_lock io_read]. autorewrite with methods. by rewrite E. Qed.

(** A method reads a valid state or leaves the file. *)
Lemma open_bind {A} fs (f : S -> method disk A) d d' r :
  (open fs ≫= f) d = (d', r) -> d' = d \/ (validate (stored d) = Ok tt /\ f (stored d) d = (d', r)).
Proof.
  destruct (open_spec fs d) as (ro & Eo & Ho). unfold mbind, method_bind. rewrite Eo.
  destruct ro as [s|e]; [|intros [= <- _]; by left]. destruct (Ho s eq_refl) as (-> & Hv). by right.
Qed.

(** What a write leaves, whatever the file system did. *)
Lemma write_bind {A} state fs (f : unit -> method disk A) d d' r :
  (forall u x, (f u x).1 = x) -> (write_state state fs ≫= f) d = (d', r) -> d' = d \/ d' = Some state.
Proof.
  intros Hf. unfold write_state. destruct (io_write fs); autorewrite with methods.
  - intros E. right. specialize (Hf tt (Some state)). change (f tt (Some state) = (d', r)) in E. by rewrite E in Hf.
  - intros [= <- _]. by right.
  - intros [= <- _]. by left.
Qed.

Lemma write_spec state fs d d' r : write_state state fs d = (d', r) -> d' = d \/ d' = Some state.
Proof.
  unfold write_state. destruct (io_write fs); autorewrite with methods; intros [= <- _]; first [by left | by right].
Qed.

Lemma write_healthy state d : write_state state healthy d = (Some state, Ok tt).
Proof. done. Qed.
End file.
End StateFile.

(** Histories of calls on a file, with the batches that were received during them. *)
Module History.
Section history.
Context {D call B : Type} (after_call : io -> call -> D -> D) (received : call -> D -> D -> list B).

(** Calls that satisfy [P], each with its own file system. *)
Inductive run (P : call -> Prop) : D -> list B -> D -> Prop :=
| run_nil d : run P d [] d
| run_call d bs d' fs c : run P d bs d' -> P c -> run P d (bs ++ received c d' (after_call fs c d')) (after_call fs c d').

Lemma history_trans_run P d bs d' bs' d'' : run P d bs d' -> run P d' bs' d'' -> run P d (bs ++ bs') d''.
Proof.
  intros Ha Hb. induction Hb as [d'|d' bs' d'' fs c Hr IH Hc]; [by rewrite app_nil_r|].
  rewrite app_assoc. by constructor; [apply IH|].
Qed.

Lemma run_invariant (I : list B -> D -> Prop) (P : call -> Prop) d bs d' :
  run P d bs d' -> I [] d ->
  (forall bs d fs c, P c -> I bs d -> I (bs ++ received c d (after_call fs c d)) (after_call fs c d)) -> I bs d'.
Proof. intros Hr H0 Hs. induction Hr as [d|d bs d' fs c Hr IH Hc]; [done|]. apply Hs; [done|]. by apply IH. Qed.

(** A list of calls on one file system. *)
Definition after_calls (fs : io) (l : list call) (d : D) : D := fold_left (fun d c => after_call fs c d) l d.
Fixpoint received_during (fs : io) (l : list call) (d : D) : list B :=
  match l with
  | [] => []
  | c :: l => received c d (after_call fs c d) ++ received_during fs l (after_call fs c d)
  end.

Lemma run_calls (P : call -> Prop) fs l d : Forall P l -> run P d (received_during fs l d) (after_calls fs l d).
Proof.
  revert d. induction l as [|c l IH]; intros d; cbn; [constructor|]. intros [Hc Hl]%Forall_cons.
  eapply history_trans_run; [|by apply IH]. apply (run_call _ d [] d fs c); [constructor|done].
Qed.

(** A method that does nothing to the file but such calls. *)
Definition runs (P : call -> Prop) {A} (m : method D A) : Prop := forall d, exists bs, run P d bs (run_state m d).

Context (P : call -> Prop).

Lemma runs_lift {A} (r : result A) : runs P (lift r).
Proof. intros d. exists []. constructor. Qed.

Lemma runs_ret {A} (a : A) : runs P (mret a).
Proof. apply (runs_lift (Ok a)). Qed.

Lemma runs_bind {A C} (m : method D A) (f : A -> method D C) : runs P m -> (forall a, runs P (f a)) -> runs P (m ≫= f).
Proof.
  intros Hm Hf d. destruct (Hm d) as [bs Hb]. unfold run_state, mbind, method_bind in *.
  destruct (m d) as [d' [a|e]]; cbn in *; [|by exists bs].
  destruct (Hf a d') as [bs' Hb']. exists (bs ++ bs'). by eapply history_trans_run.
Qed.

Lemma runs_call {A} (m : method D A) fs c : P c -> (forall d, run_state m d = after_call fs c d) -> runs P m.
Proof.
  intros Hc Hm d. rewrite Hm. exists ([] ++ received c d (after_call fs c d)). constructor; [constructor|done].
Qed.
End history.
End History.
