(* ===== verification/LogShipping.v ===== *)
(** * The log shipper of a node agent

    [node-agent/src/log_shipper.rs]: which position of every Runtime log the control plane has received,
    the batch that is on its way, and one pass of the shipper.  A unit's log is identified by the unit
    and its generation.  The Runtime and the transport are arguments of a pass; so are the clock and the
    identity of the batch. *)

From Stdlib Require Import ZArith NArith Lia String.
From stdpp Require Import gmap.
From S2P Require Import Prelude RustStd BTreeMap External Text Resources NodeCommands NodeObservations CommandJournal.
From S2P Require Import OutboundBatches.

Module LogShippingError.
Definition Invalid (e : error) : error := Error "invalid log shipping data: {0}" (FStr e.(template) :: e.(args)).
Definition Conflict (e : error) : error := Error "log shipping state conflict: {0}" (FStr e.(template) :: e.(args)).
Definition State (e : error) : error := Error "log shipping state failed: {0}" (FStr e.(template) :: e.(args)).

Definition invalid {A} (message : string) : result A := Err (Invalid (Error message [])).
Definition conflict {A} (message : string) : result A := Err (Conflict (Error message [])).
Definition invalid_if (c : bool) (message : string) : result unit := if c then invalid message else Ok tt.
End LogShippingError.
Import LogShippingError.

Module DurableLogDiscontinuity.
Record t := Mk { cursor : option string; reason : RuntimeLogDiscontinuityReason.t }.

#[global] Instance t_eq_dec : EqDecision t.
Proof. solve_decision. Defined.
End DurableLogDiscontinuity.

Module DurableLogCursor.
Record t := Mk {
  cursor : option string;
  sequence : N;
  discontinuity : option DurableLogDiscontinuity.t;
}.

#[global] Instance t_eq_dec : EqDecision t.
Proof. solve_decision. Defined.
#[global] Instance t_eta : Eta t := fun r => Mk r.(cursor) r.(sequence) r.(discontinuity).
End DurableLogCursor.

#[export] Instance log_batch_protocol `{RuntimeReports} : OutboundBatchProtocol NodeLogChunkBatch.t := {|
  Receipt := NodeLogChunkReceipt.t;
  validate_batch := NodeLogChunkBatch.validate;
  validate_receipt batch receipt :=
    NodeLogChunkReceipt.validate receipt ;;
    fail_if ((receipt.(NodeLogChunkReceipt.batch_id) != batch.(NodeLogChunkBatch.batch_id))
             || (receipt.(NodeLogChunkReceipt.node_id) != batch.(NodeLogChunkBatch.node_id))
             || negb (receipt.(NodeLogChunkReceipt.accepted_chunks) =? len batch.(NodeLogChunkBatch.chunks))%N
             || negb (receipt.(NodeLogChunkReceipt.accepted_gaps) =? len batch.(NodeLogChunkBatch.gaps))%N)
      "log receipt changed the pending batch identity or record counts";
|}.

(** A Runtime log: a unit and its generation. *)
Abbreviation log_key := (string * N)%type (only parsing).

Definition chunk_key `{RuntimeReports} (report : NodeLogChunkReport.t) : log_key :=
  (report.(NodeLogChunkReport.unit_id), report.(NodeLogChunkReport.generation)).
Definition gap_key (gap : NodeLogGapReport.t) : log_key :=
  (gap.(NodeLogGapReport.unit_id), gap.(NodeLogGapReport.generation)).
Definition chunk_sequence `{RuntimeReports} (report : NodeLogChunkReport.t) : N :=
  log_chunk_sequence report.(NodeLogChunkReport.chunk).

Definition validate_target (unit_id : string) (generation : N) : result unit :=
  invalid_if (str_is_empty unit_id || (512 <? str_len unit_id)%N || contains_any [NUL] unit_id || (generation =? 0)%N)
    "Runtime log target is invalid".

Fixpoint validate_targets_from (identities : gset log_key) (targets : list RuntimeLogTarget.t) : result unit :=
  match targets with
  | [] => Ok tt
  | target :: rest =>
    let key := (target.(RuntimeLogTarget.unit_id), target.(RuntimeLogTarget.generation)) in
    validate_target key.1 key.2 ;;
    invalid_if (bool_decide (key ∈ identities)) "log target list contains duplicates" ;;
    validate_targets_from ({[key]} ∪ identities) rest
  end.
Definition validate_targets (targets : list RuntimeLogTarget.t) : result unit := validate_targets_from ∅ targets.

Module LogShippingState.
Section state.
Context `{RuntimeReports}.

Record t := Mk {
  schema : string;
  node_id : Uuid;
  cursors : gmap string (gmap N DurableLogCursor.t);
  pending : option NodeLogChunkBatch.t;
}.

#[global] Instance t_eta : Eta t := fun r => Mk r.(schema) r.(node_id) r.(cursors) r.(pending).

Definition SCHEMA : string := "a3s.cloud.node-log-shipping-state.v1".

Definition empty (node_id : Uuid) : t := Mk SCHEMA node_id ∅ None.

Definition cursor (self : t) (unit_id : string) (generation : N) : option DurableLogCursor.t :=
  generations ← self.(cursors) !! unit_id;
  generations !! generation.

Definition cursor_invalid (generation : N) (cursor : DurableLogCursor.t) : bool :=
  (generation =? 0)%N
  || is_some_and log_cursor_invalid cursor.(DurableLogCursor.cursor)
  || is_some_and (fun gap => is_some_and log_cursor_invalid gap.(DurableLogDiscontinuity.cursor))
       cursor.(DurableLogCursor.discontinuity)
  || is_some cursor.(DurableLogCursor.cursor) && is_some cursor.(DurableLogCursor.discontinuity).

Definition validate_cursors (self : t) : result unit :=
  for_each (fun unit =>
      validate_target unit.1 1 ;;
      for_each (fun kc => invalid_if (cursor_invalid kc.1 kc.2) "durable log cursor is invalid") (entries_of unit.2))
    (entries_of self.(cursors)).

(** The loop over the chunks of the pending batch: the last sequence and the kind of record of every log. *)
Fixpoint validate_pending_chunks (self : t) (last_sequences : gmap log_key N) (record_kinds : gmap log_key bool)
    (chunks : list NodeLogChunkReport.t) : result (gmap log_key bool) :=
  match chunks with
  | [] => Ok record_kinds
  | report :: rest =>
    let key := chunk_key report in
    invalid_if (is_some_and (fun gap => gap) (record_kinds !! key))
      "pending log batch mixes chunks and gaps for one target" ;;
    let committed := DurableLogCursor.sequence <$> cursor self key.1 key.2 in
    let previous := match last_sequences !! key with Some sequence => Some sequence | None => committed end in
    invalid_if (is_some_and (fun sequence => (chunk_sequence report <=? sequence)%N) previous)
      "pending log batch does not advance its durable cursor" ;;
    validate_pending_chunks self (<[key := chunk_sequence report]> last_sequences) (<[key := false]> record_kinds) rest
  end.

Fixpoint validate_pending_gaps (self : t) (record_kinds : gmap log_key bool) (gap_targets : gset log_key)
    (gaps : list NodeLogGapReport.t) : result unit :=
  match gaps with
  | [] => Ok tt
  | gap :: rest =>
    let key := gap_key gap in
    invalid_if (is_some_and negb (record_kinds !! key) || bool_decide (key ∈ gap_targets))
      "pending log batch mixes record kinds or repeats a target gap" ;;
    let committed := cursor self key.1 key.2 in
    invalid_if ((gap.(NodeLogGapReport.cursor) != (committed ≫= DurableLogCursor.cursor))
                || is_some_and (fun cursor => (gap.(NodeLogGapReport.sequence) <=? cursor.(DurableLogCursor.sequence))%N)
                     committed)
      "pending log gap does not advance its exact durable cursor" ;;
    validate_pending_gaps self (<[key := true]> record_kinds) ({[key]} ∪ gap_targets) rest
  end.

Definition validate_pending (self : t) : result unit :=
  DurableOutboundBatch.validate Invalid self.(pending) ;;
  match self.(pending) with
  | None => Ok tt
  | Some pending =>
    invalid_if (pending.(NodeLogChunkBatch.node_id) != self.(node_id)) "pending log batch belongs to another node" ;;
    record_kinds ← validate_pending_chunks self ∅ ∅ pending.(NodeLogChunkBatch.chunks);
    validate_pending_gaps self record_kinds ∅ pending.(NodeLogChunkBatch.gaps)
  end.

Definition validate (self : t) (expected_node_id : Uuid) : result unit :=
  invalid_if ((self.(schema) != SCHEMA) || is_nil self.(node_id) || (self.(node_id) != expected_node_id))
    "log shipping state schema or node identity is invalid" ;;
  validate_cursors self ;;
  validate_pending self.

Definition target_keys (targets : list RuntimeLogTarget.t) : list log_key :=
  map (fun target => (target.(RuntimeLogTarget.unit_id), target.(RuntimeLogTarget.generation))) targets.

Definition retain_targets (self : t) (targets : list RuntimeLogTarget.t) : t :=
  let active := target_keys targets in
  self <| cursors :=
    map_imap (fun unit_id generations =>
        let generations := filter (fun gc : N * DurableLogCursor.t => (unit_id, gc.1) ∈ active) generations in
        if bool_decide (generations = ∅) then None else Some generations) self.(cursors) |>.
End state.
End LogShippingState.

Module FileLogShippingState.
Import LogShippingState.

(** [root] is the directory of the file: the state of the methods is the file itself. *)
Record t := Mk { node_id : Uuid }.

Definition new (node_id : Uuid) : result t :=
  if is_nil node_id then invalid "log shipping node ID must not be nil" else Ok (Mk node_id).

Section file.
Context `{RuntimeReports}.

Abbreviation disk := (StateFile.disk (S := LogShippingState.t)).

Definition open (self : t) (fs : io) : method disk LogShippingState.t :=
  StateFile.open (empty self.(node_id)) (fun state => validate state self.(node_id)) State fs.
Definition write_state (state : LogShippingState.t) (fs : io) : method disk unit := StateFile.write_state State state fs.

Definition snapshot_sync (self : t) (targets : list RuntimeLogTarget.t) (fs : io) : method disk LogShippingState.t :=
  state ← open self fs;
  if DurableOutboundBatch.is_pending state.(pending) then mret state
  else
    let next := retain_targets state targets in
    (if next.(cursors) != state.(cursors) then write_state next fs else mret tt) ;;
    mret next.

Definition set_pending_sync (self : t) (batch : NodeLogChunkBatch.t) (fs : io) : method disk unit :=
  lift (map_err Invalid (NodeLogChunkBatch.validate batch)) ;;
  lift (invalid_if (batch.(NodeLogChunkBatch.node_id) != self.(node_id)) "pending log batch belongs to another node") ;;
  state ← open self fs;
  next ← lift (DurableOutboundBatch.stage Invalid Conflict state.(pending) batch);
  let state := state <| pending := next |> in
  lift (validate state self.(node_id)) ;;
  write_state state fs.

(** The new cursor of every log of a batch: first the chunks, then the gaps. *)
Definition commit_chunk (committed : gmap log_key DurableLogCursor.t) (report : NodeLogChunkReport.t) :
    gmap log_key DurableLogCursor.t :=
  <[chunk_key report :=
      DurableLogCursor.Mk (Some (log_chunk_cursor report.(NodeLogChunkReport.chunk))) (chunk_sequence report) None]> committed.
Definition committed_chunks (chunks : list NodeLogChunkReport.t) : gmap log_key DurableLogCursor.t :=
  foldl commit_chunk ∅ chunks.

Fixpoint committed_gaps (committed : gmap log_key DurableLogCursor.t) (gaps : list NodeLogGapReport.t) :
    result (gmap log_key DurableLogCursor.t) :=
  match gaps with
  | [] => Ok committed
  | gap :: rest =>
    invalid_if (is_some (committed !! gap_key gap)) "pending log batch mixes chunks and gaps for one target" ;;
    committed_gaps
      (<[gap_key gap :=
           DurableLogCursor.Mk None gap.(NodeLogGapReport.sequence)
             (Some (DurableLogDiscontinuity.Mk gap.(NodeLogGapReport.cursor) gap.(NodeLogGapReport.reason)))]> committed)
      rest
  end.

Definition insert_cursor (cursors : gmap string (gmap N DurableLogCursor.t)) (kc : log_key * DurableLogCursor.t) :
    gmap string (gmap N DurableLogCursor.t) :=
  <[kc.1.1 := <[kc.1.2 := kc.2]> (default ∅ (cursors !! kc.1.1))]> cursors.

Definition commit_sync (self : t) (receipt : NodeLogChunkReceipt.t) (fs : io) : method disk unit :=
  state ← open self fs;
  '(batch, next) ← lift (DurableOutboundBatch.acknowledge Invalid Conflict state.(pending) receipt);
  committed ← lift (committed_gaps (committed_chunks batch.(NodeLogChunkBatch.chunks)) batch.(NodeLogChunkBatch.gaps));
  let state := state <| pending := next |>
                     <| cursors := foldl insert_cursor state.(cursors) (entries_of committed) |> in
  lift (validate state self.(node_id)) ;;
  write_state state fs.

Definition mark_connected_sync (self : t) (unit_id : string) (generation expected_sequence : N) (fs : io) :
    method disk unit :=
  lift (validate_target unit_id generation) ;;
  state ← open self fs;
  if DurableOutboundBatch.is_pending state.(pending)
  then lift (conflict "cannot mark a log source connected while a batch is pending")
  else
    match cursor state unit_id generation with
    | None => mret tt
    | Some durable =>
      if durable.(DurableLogCursor.sequence) != expected_sequence
      then lift (conflict "log cursor changed while marking its source connected")
      else if is_none durable.(DurableLogCursor.cursor) && is_some durable.(DurableLogCursor.discontinuity)
      then
        let state := state <| cursors :=
          insert_cursor state.(cursors) ((unit_id, generation), durable <| DurableLogCursor.discontinuity := None |>) |> in
        lift (validate state self.(node_id)) ;;
        write_state state fs
      else mret tt
    end.
End file.
End FileLogShippingState.

(** ** One pass of the shipper *)
Module RuntimeLogQuery.
Record t := Mk {
  schema : string;
  unit_id : string;
  generation : N;
  cursor : option string;
  limit : N;
  stream : option RuntimeLogStream.t;
}.
End RuntimeLogQuery.

(** What a pass uses of the Runtime: the query it sends, and the assignment of a chunk's sequence. *)
Class RuntimeLogs `{RuntimeReports} := {
  RUNTIME_LOG_QUERY_SCHEMA : string;
  log_query_validate : RuntimeLogQuery.t -> result unit;
  log_chunk_with_sequence : RuntimeLogChunk -> N -> RuntimeLogChunk;
}.

(** [RuntimeClient::logs]: the chunks, or the errors the source tells apart. *)
Inductive log_answer `{RuntimeReports} :=
| Chunks (chunks : list RuntimeLogChunk)
| NotFound
| LogDiscontinuity (unit_id : string) (generation : N) (cursor : option string) (reason : RuntimeLogDiscontinuityReason.t)
| RuntimeFailed (e : error).

Module LogShippingConfig.
Record t := Mk { poll_interval_ms : N; max_batch_chunks : N; max_batch_bytes : N }.
End LogShippingConfig.

Definition validate_config (config : LogShippingConfig.t) : result unit :=
  invalid_if ((config.(LogShippingConfig.poll_interval_ms) =? 0)%N
              || (60000 <? config.(LogShippingConfig.poll_interval_ms))%N
              || (config.(LogShippingConfig.max_batch_chunks) =? 0)%N
              || (256 <? config.(LogShippingConfig.max_batch_chunks))%N
              || negb ((1048576 <=? config.(LogShippingConfig.max_batch_bytes))%N
                       && (config.(LogShippingConfig.max_batch_bytes) <=? 16777216)%N))
    "log shipping configuration is invalid".

Definition next_delivery_sequence (previous : option N) : result N :=
  match previous with
  | None => Ok 0%N
  | Some sequence =>
    match checked_add sequence 1 with
    | Some next => Ok next
    | None => invalid "durable log delivery sequence is exhausted"
    end
  end.

Definition rebase_delivery_sequence (source_sequence : N) (previous : option N) : result N :=
  next ← next_delivery_sequence previous;
  Ok (N.max source_sequence next).

Module LogShipper.
Import LogShippingState FileLogShippingState.

Record t := Mk { node_id : Uuid; state : FileLogShippingState.t; config : LogShippingConfig.t }.

Definition new (node_id : Uuid) (config : LogShippingConfig.t) : result t :=
  validate_config config ;;
  state ← FileLogShippingState.new node_id;
  Ok (Mk node_id state config).

Section pass.
Context `{RuntimeLogs}.

(** What a pass has collected so far. *)
Record collected := Collected {
  reports : list NodeLogChunkReport.t;
  gaps : list NodeLogGapReport.t;
  data_bytes : N;
}.
#[local] Instance collected_eta : Eta collected := fun r => Collected r.(reports) r.(gaps) r.(data_bytes).

Definition record_count (c : collected) : N := (len c.(reports) + len c.(gaps))%N.

(** The loop over the chunks of one log; [true] is [break 'targets]. *)
Fixpoint collect_chunks (self : t) (target : RuntimeLogTarget.t) (previous_source_sequence previous_delivery_sequence : option N)
    (cursors : gset string) (chunks : list RuntimeLogChunk) (c : collected) : result (collected * bool) :=
  match chunks with
  | [] => Ok (c, false)
  | chunk :: rest =>
    map_err Invalid (log_chunk_validate chunk) ;;
    invalid_if (is_some_and (fun sequence => (log_chunk_sequence chunk <=? sequence)%N) previous_source_sequence
                || bool_decide (log_chunk_cursor chunk ∈ cursors))
      "Runtime log chunks do not strictly advance sequence and cursor" ;;
    let source_sequence := log_chunk_sequence chunk in
    match checked_add c.(data_bytes) (str_len (log_chunk_data chunk)) with
    | None => invalid "log batch byte count overflowed"
    | Some next_data_bytes =>
      if (self.(config).(LogShippingConfig.max_batch_bytes) <? next_data_bytes)%N then Ok (c, true)
      else
        sequence ← rebase_delivery_sequence source_sequence previous_delivery_sequence;
        let chunk := log_chunk_with_sequence chunk sequence in
        let checksum := sha256_digest (bytes_of (log_chunk_data chunk)) in
        let report := NodeLogChunkReport.Mk target.(RuntimeLogTarget.unit_id) target.(RuntimeLogTarget.generation) chunk checksum in
        let c := Collected (c.(reports) ++ [report]) c.(gaps) next_data_bytes in
        if (record_count c =? self.(config).(LogShippingConfig.max_batch_chunks))%N then Ok (c, true)
        else collect_chunks self target (Some source_sequence) (Some sequence)
               ({[log_chunk_cursor chunk]} ∪ cursors) rest c
    end
  end.

(** [position.discontinuity] already reports this interruption. *)
Definition already_reported (durable : option DurableLogCursor.t) (cursor : option string)
    (reason : RuntimeLogDiscontinuityReason.t) : bool :=
  is_some_and (fun position => is_some_and (fun reported =>
      (reported.(DurableLogDiscontinuity.reason) == reason)
      && ((reason == RuntimeLogDiscontinuityReason.SourceDisconnected)
          || (reported.(DurableLogDiscontinuity.cursor) == cursor)))
    position.(DurableLogCursor.discontinuity)) durable.

Abbreviation disk := (StateFile.disk (S := LogShippingState.t)).

(** The loop over the logs.  [fs] is the file system during the call for one log. *)
Fixpoint collect_targets (self : t) (logs : RuntimeLogQuery.t -> log_answer) (current_time_ms : result N)
    (fs : RuntimeLogTarget.t -> io) (snapshot : LogShippingState.t) (targets : list RuntimeLogTarget.t) (c : collected) :
    method disk collected :=
  match targets with
  | [] => mret c
  | target :: rest =>
    let continue := collect_targets self logs current_time_ms fs snapshot rest in
    let remaining := (self.(config).(LogShippingConfig.max_batch_chunks) - record_count c)%N in
    if (remaining =? 0)%N || (c.(data_bytes) =? self.(config).(LogShippingConfig.max_batch_bytes))%N then mret c
    else
      let unit_id := target.(RuntimeLogTarget.unit_id) in
      let generation := target.(RuntimeLogTarget.generation) in
      let durable := cursor snapshot unit_id generation in
      let query := RuntimeLogQuery.Mk RUNTIME_LOG_QUERY_SCHEMA unit_id generation (durable ≫= DurableLogCursor.cursor)
                     remaining None in
      lift (map_err Invalid (log_query_validate query)) ;;
      match logs query with
      | RuntimeFailed e => lift (Err e)
      | NotFound => continue c
      | LogDiscontinuity unit' generation' cursor reason =>
        if (unit' != unit_id) || (generation' != generation) || (cursor != query.(RuntimeLogQuery.cursor))
        then lift (invalid "Runtime log discontinuity changed the requested identity")
        else if already_reported durable cursor reason then continue c
        else
          sequence ← lift (next_delivery_sequence (DurableLogCursor.sequence <$> durable));
          observed_at_ms ← lift current_time_ms;
          continue (Collected c.(reports)
                      (c.(gaps) ++ [NodeLogGapReport.Mk unit_id generation cursor sequence observed_at_ms reason])
                      c.(data_bytes))
      | Chunks [] =>
        (match durable with
         | Some position =>
           if is_some position.(DurableLogCursor.discontinuity)
           then mark_connected_sync self.(state) unit_id generation position.(DurableLogCursor.sequence) (fs target)
           else mret tt
         | None => mret tt
         end) ;;
        continue c
      | Chunks chunks =>
        if (remaining <? len chunks)%N then lift (invalid "Runtime returned more log chunks than requested")
        else
          '(c, stop) ← lift (collect_chunks self target None (DurableLogCursor.sequence <$> durable)
                               match query.(RuntimeLogQuery.cursor) with Some cursor => {[cursor]} | None => ∅ end chunks c);
          if (stop : bool) then mret c else continue c
      end
  end.

Definition collect (self : t) (logs : RuntimeLogQuery.t -> log_answer) (current_time_ms : result N) (batch_id : Uuid)
    (sent_at : Time) (fs : RuntimeLogTarget.t -> io) (targets : list RuntimeLogTarget.t) (snapshot : LogShippingState.t) :
    method disk (option NodeLogChunkBatch.t) :=
  c ← collect_targets self logs current_time_ms fs snapshot targets (Collected [] [] 0);
  if is_empty c.(reports) && is_empty c.(gaps) then mret None
  else
    let batch := NodeLogChunkBatch.Mk NodeLogChunkBatch.SCHEMA batch_id self.(node_id) sent_at c.(reports) c.(gaps) in
    lift (map_err Invalid (NodeLogChunkBatch.validate batch)) ;;
    mret (Some batch).

(** [record_log_chunks] is the answer of the control plane, or the error of the transport. *)
Definition upload (self : t) (record_log_chunks : NodeLogChunkBatch.t -> result NodeLogChunkReceipt.t) (fs : io)
    (batch : NodeLogChunkBatch.t) : method disk unit :=
  receipt ← lift (record_log_chunks batch);
  commit_sync self.(state) receipt fs.

(** The file system during the calls of one pass. *)
Record pass_io := PassIo {
  io_snapshot : io;
  io_targets : RuntimeLogTarget.t -> io;
  io_stage : io;
  io_commit : io;
}.

Definition ship_once (self : t) (logs : RuntimeLogQuery.t -> log_answer) (current_time_ms : result N) (batch_id : Uuid)
    (sent_at : Time) (record_log_chunks : NodeLogChunkBatch.t -> result NodeLogChunkReceipt.t) (fs : pass_io)
    (targets : list RuntimeLogTarget.t) : method disk bool :=
  lift (validate_targets targets) ;;
  snapshot ← snapshot_sync self.(state) targets fs.(io_snapshot);
  match snapshot.(pending) with
  | Some pending => upload self record_log_chunks fs.(io_commit) pending ;; mret true
  | None =>
    batch ← collect self logs current_time_ms batch_id sent_at fs.(io_targets) targets snapshot;
    match batch with
    | None => mret false
    | Some batch =>
      set_pending_sync self.(state) batch fs.(io_stage) ;;
      upload self record_log_chunks fs.(io_commit) batch ;;
      mret true
    end
  end.
End pass.
End LogShipper.
