(* ===== verification/LogDelivery.v ===== *)
(** * What the log shipper delivers

    The theorems about [LogShipping]: for every history of calls on its state file, whatever the file
    system does and wherever the process dies, the records of a log that were received come in strictly
    increasing order, the pending batch continues them, and a matching receipt is committed or leaves the file as it was. *)

From Stdlib Require Import ZArith NArith Lia String.
From stdpp Require Import gmap sorting.
From S2P Require Import Prelude RustStd BTreeMap External Text Resources NodeCommands NodeObservations CommandJournal.
From S2P Require Import OutboundBatches LogShipping.
Import LogShippingError LogShippingState FileLogShippingState.

Lemma log_invalid_if_Ok c message : invalid_if c message = Ok tt <-> c = false.
Proof. by destruct c. Qed.
#[export] Hint Rewrite log_invalid_if_Ok : results.

(** ** Cursors *)
Definition cursor_in (cursors : gmap string (gmap N DurableLogCursor.t)) (k : string * N) : option DurableLogCursor.t :=
  generations ← cursors !! k.1;
  generations !! k.2.

Lemma cursor_in_insert cursors k c k' :
  cursor_in (insert_cursor cursors (k, c)) k' = if decide (k' = k) then Some c else cursor_in cursors k'.
Proof.
  destruct k as [u g], k' as [u' g']. unfold cursor_in, insert_cursor. cbn. destruct (decide (u' = u)) as [->|Hu].
  - rewrite lookup_insert_eq. cbn. destruct (decide (g' = g)) as [->|Hg].
    + rewrite decide_True by done. by rewrite lookup_insert_eq.
    + rewrite decide_False by congruence. rewrite lookup_insert_ne by done. by destruct (cursors !! u).
  - rewrite decide_False by congruence. by rewrite lookup_insert_ne.
Qed.

Lemma cursor_in_inserts cursors l k :
  NoDup l.*1 ->
  cursor_in (foldl insert_cursor cursors l) k
  = match (list_to_map l : gmap _ _) !! k with Some c => Some c | None => cursor_in cursors k end.
Proof.
  revert cursors. induction l as [|[k' c] l IH]; intros cursors Hl; [done|]. cbn [foldl].
  apply NoDup_cons in Hl as [Hk Hl]. rewrite IH by done. cbn. destruct (decide (k = k')) as [->|Hne].
  - rewrite lookup_insert_eq, not_elem_of_list_to_map_1 by done. rewrite cursor_in_insert. by rewrite decide_True.
  - rewrite lookup_insert_ne by done. rewrite cursor_in_insert. by rewrite decide_False.
Qed.

Lemma entries_to_map {V} (m : gmap (string * N) V) : list_to_map (entries_of m) = m.
Proof.
  rewrite <- (list_to_map_to_list m) at 2. apply list_to_map_proper; [apply entries_of_keys|apply entries_of_perm].
Qed.

Lemma cursor_in_retained `{RuntimeReports} (s : LogShippingState.t) targets k :
  cursor_in (retain_targets s targets).(cursors) k = if decide (k ∈ target_keys targets) then cursor_in s.(cursors) k else None.
Proof.
  destruct k as [u g]. unfold cursor_in, retain_targets. cbn. rewrite map_lookup_imap.
  destruct (s.(cursors) !! u) as [gs|] eqn:Eu; cbn; [|by case_decide]. case_bool_decide as He; cbn.
  - destruct (decide (_ ∈ _)) as [Hin|]; [|done]. symmetry. apply eq_None_not_Some. intros [c Hc].
    apply (f_equal (fun m => m !! g)) in He. rewrite lookup_empty in He. apply eq_None_not_Some in He. apply He.
    exists c. by apply map_lookup_filter_Some.
  - case_decide as Hd; [|by apply map_lookup_filter_None; right; intros ? _].
    destruct (gs !! g) as [c|] eqn:Eg; [by apply map_lookup_filter_Some|]. apply map_lookup_filter_None. by left.
Qed.

(** What [validate_cursors] checks. *)
Definition cursors_ok (cursors : gmap string (gmap N DurableLogCursor.t)) : Prop :=
  forall u gs, cursors !! u = Some gs ->
    validate_target u 1 = Ok tt /\ forall g c, gs !! g = Some c -> cursor_invalid g c = false.

Lemma validate_cursors_Ok `{RuntimeReports} (s : LogShippingState.t) : validate_cursors s = Ok tt <-> cursors_ok s.(cursors).
Proof.
  unfold validate_cursors, cursors_ok. rewrite for_each_Ok, Forall_forall. split.
  - intros Hs u gs Hu. specialize (Hs (u, gs)). rewrite elem_of_entries in Hs. specialize (Hs Hu).
    cbn in Hs. rewrite then_Ok, for_each_Ok, Forall_forall in Hs. destruct Hs as [Ht Hc]. split; [done|].
    intros g c Hg. specialize (Hc (g, c)). rewrite elem_of_entries in Hc. specialize (Hc Hg). by apply log_invalid_if_Ok in Hc.
  - intros Hs [u gs] Hu%elem_of_entries. destruct (Hs _ _ Hu) as [Ht Hc]. cbn. rewrite then_Ok, for_each_Ok, Forall_forall.
    split; [done|]. intros [g c] Hg%elem_of_entries. by apply log_invalid_if_Ok, Hc.
Qed.

Lemma insert_cursor_ok cursors k c :
  cursors_ok cursors -> validate_target k.1 1 = Ok tt -> cursor_invalid k.2 c = false -> cursors_ok (insert_cursor cursors (k, c)).
Proof.
  intros Hs Ht Hc u gs. unfold insert_cursor. cbn. intros [[<- <-]|[Hu Hgs]]%lookup_insert_Some; [|by apply Hs].
  split; [done|]. intros g c' [[<- <-]|[Hg Hc']]%lookup_insert_Some; [done|].
  destruct (cursors !! k.1) as [gs|] eqn:E; [|done]. by apply (Hs _ _ E).
Qed.

Lemma inserts_cursor_ok l cursors :
  cursors_ok cursors -> Forall (fun kc => validate_target kc.1.1 1 = Ok tt /\ cursor_invalid kc.1.2 kc.2 = false) l ->
  cursors_ok (foldl insert_cursor cursors l).
Proof.
  revert cursors. induction l as [|[k c] l IH]; intros cursors Hs Hl; [done|]. apply Forall_cons in Hl as [[Ht Hc] Hl].
  apply IH; [|done]. by apply insert_cursor_ok.
Qed.

Lemma retain_targets_ok `{RuntimeReports} (s : LogShippingState.t) targets :
  cursors_ok s.(cursors) -> cursors_ok (retain_targets s targets).(cursors).
Proof.
  intros Hs u gs. cbn. rewrite map_lookup_imap. destruct (s.(cursors) !! u) as [gs'|] eqn:E; [|done]. cbn.
  case_bool_decide; [done|]. intros [= <-]. destruct (Hs _ _ E) as [Ht Hc]. split; [done|].
  intros g c Hg%map_lookup_filter_Some_1_1. by apply Hc.
Qed.

(** ** The records of one log in a batch *)
Section records.
Context `{RuntimeReports}.
Implicit Types (s : LogShippingState.t) (b : NodeLogChunkBatch.t) (k : string * N).

Definition chunk_records k (chunks : list NodeLogChunkReport.t) : list N :=
  map chunk_sequence (List.filter (fun report => bool_decide (chunk_key report = k)) chunks).
Definition gap_records k (gaps : list NodeLogGapReport.t) : list N :=
  map NodeLogGapReport.sequence (List.filter (fun gap => bool_decide (gap_key gap = k)) gaps).
Definition records k b : list N := chunk_records k b.(NodeLogChunkBatch.chunks) ++ gap_records k b.(NodeLogChunkBatch.gaps).

(** The last position of a log that was received. *)
Definition position s k : option N := DurableLogCursor.sequence <$> cursor_in s.(cursors) k.
Definition above (o : option N) (n : N) : Prop := match o with Some m => (m < n)%N | None => True end.

Lemma pending_chunks_spec s last kinds chunks kinds' :
  validate_pending_chunks s last kinds chunks = Ok kinds' ->
  forall k, StronglySorted N.lt (chunk_records k chunks)
    /\ Forall (above (match last !! k with Some n => Some n | None => position s k end)) (chunk_records k chunks)
    /\ (chunk_records k chunks <> [] \/ kinds !! k = Some false -> kinds' !! k = Some false).
Proof.
  revert last kinds. induction chunks as [|r chunks IH]; intros last kinds; cbn [validate_pending_chunks].
  { intros [= <-] k. cbn. split_and!; [constructor..|]. by intros [?|]. }
  rewrite !then_Ok, !log_invalid_if_Ok. intros (Hk & Hp & E) k. destruct (IH _ _ E k) as (Hs & Hf & Hkinds).
  unfold chunk_records in *. cbn [List.filter]. case_bool_decide as Hr; cbn [map].
  - subst k. rewrite lookup_insert_eq in Hf. split_and!.
    + by constructor.
    + constructor.
      * unfold above, position. change (cursor s (chunk_key r).1 (chunk_key r).2) with (cursor_in s.(cursors) (chunk_key r)) in Hp.
        destruct (last !! chunk_key r); cbn in Hp; [by apply N.leb_gt in Hp|].
        destruct (cursor_in _ _); cbn in *; [by apply N.leb_gt in Hp|done].
      * eapply Forall_impl; [exact Hf|]. intros n Hn. cbn in Hn. unfold above, position.
        change (cursor s (chunk_key r).1 (chunk_key r).2) with (cursor_in s.(cursors) (chunk_key r)) in Hp.
        destruct (last !! chunk_key r); cbn in Hp; [apply N.leb_gt in Hp; lia|].
        destruct (cursor_in _ _); cbn in *; [apply N.leb_gt in Hp; lia|done].
    + intros _. apply Hkinds. right. by rewrite lookup_insert_eq.
  - rewrite lookup_insert_ne in Hf by done. split_and!; [done..|]. intros Ho. apply Hkinds.
    destruct Ho as [?|?]; [by left|right]. by rewrite lookup_insert_ne.
Qed.

Lemma pending_gaps_spec s kinds gap_targets gaps :
  validate_pending_gaps s kinds gap_targets gaps = Ok tt ->
  forall k, Forall (above (position s k)) (gap_records k gaps) /\ (length (gap_records k gaps) <= 1)%nat
    /\ (kinds !! k = Some false \/ k ∈ gap_targets -> gap_records k gaps = []).
Proof.
  revert kinds gap_targets. induction gaps as [|g gaps IH]; intros kinds gap_targets; cbn [validate_pending_gaps].
  { intros _ k. cbn. split_and!; [constructor|lia|done]. }
  rewrite !then_Ok, !log_invalid_if_Ok. intros (Hk & Hp & E) k. destruct (IH _ _ E k) as (Hf & Hl & He).
  apply orb_false_iff in Hk as [Hk Hg]. apply orb_false_iff in Hp as [_ Hp]. apply bool_decide_eq_false in Hg.
  unfold gap_records in *. cbn [List.filter]. case_bool_decide as Hr; cbn [map].
  - subst k. rewrite He by set_solver. split_and!; [|cbn; lia|].
    + constructor; [|constructor]. unfold above, position.
      change (cursor s (gap_key g).1 (gap_key g).2) with (cursor_in s.(cursors) (gap_key g)) in Hp.
      destruct (cursor_in _ _); cbn in *; [by apply N.leb_gt in Hp|done].
    + intros [Hx|Hx]; [by rewrite Hx in Hk|done].
  - split_and!; [done..|]. intros Ho. apply He. rewrite lookup_insert_ne by done. set_solver.
Qed.

(** The records of a pending batch continue every log. *)
Lemma pending_records s b node k :
  validate s node = Ok tt -> s.(pending) = Some b ->
  StronglySorted N.lt (records k b) /\ Forall (above (position s k)) (records k b).
Proof.
  unfold validate. rewrite !then_Ok. intros (_ & _ & Hp) Eb. unfold validate_pending in Hp. rewrite Eb, !then_Ok in Hp.
  destruct Hp as (_ & _ & Hp). apply result_bind_Ok in Hp as (kinds & Hc & Hg).
  destruct (pending_chunks_spec _ _ _ _ _ Hc k) as (Hs & Hf & Hk). rewrite lookup_empty in Hf.
  destruct (pending_gaps_spec _ _ _ _ Hg k) as (Hgf & Hgl & Hge). unfold records. split; [|by apply Forall_app].
  apply StronglySorted_app. split_and!; [|done|].
  - intros x y Hx Hy. rewrite Hge in Hy; [by apply not_elem_of_nil in Hy|]. left. apply Hk. left.
    intros E. rewrite E in Hx. by apply not_elem_of_nil in Hx.
  - destruct (gap_records k _) as [|g [|]]; [constructor|by repeat constructor|cbn in Hgl; lia].
Qed.

(** The cursors a commit writes. *)
Lemma committed_chunks_spec m chunks k :
  DurableLogCursor.sequence <$> foldl commit_chunk m chunks !! k
  = match last (chunk_records k chunks) with Some n => Some n | None => DurableLogCursor.sequence <$> m !! k end.
Proof.
  revert m. induction chunks as [|r chunks IH]; intros m; [done|]. cbn [foldl]. rewrite IH. unfold chunk_records, commit_chunk.
  cbn [List.filter]. case_bool_decide as Hr; cbn [map]; [|by rewrite lookup_insert_ne].
  subst k. rewrite lookup_insert_eq, last_cons. by destruct (last _).
Qed.

Lemma committed_gaps_spec m gaps m' k :
  committed_gaps m gaps = Ok m' ->
  DurableLogCursor.sequence <$> m' !! k
  = match last (gap_records k gaps) with Some n => Some n | None => DurableLogCursor.sequence <$> m !! k end.
Proof.
  revert m. induction gaps as [|g gaps IH]; intros m; cbn [committed_gaps]; [by intros [= <-]|].
  rewrite then_Ok. intros [_ E]. rewrite (IH _ E). unfold gap_records. cbn [List.filter].
  case_bool_decide as Hr; cbn [map]; [|by rewrite lookup_insert_ne].
  subst k. rewrite lookup_insert_eq, last_cons. by destruct (last _).
Qed.

Lemma committed_position s b m k :
  committed_gaps (committed_chunks b.(NodeLogChunkBatch.chunks)) b.(NodeLogChunkBatch.gaps) = Ok m ->
  position (s <| pending := None |> <| cursors := foldl insert_cursor s.(cursors) (entries_of m) |>) k
  = match last (records k b) with Some n => Some n | None => position s k end.
Proof.
  intros E. unfold position. cbn. rewrite cursor_in_inserts by apply entries_of_keys. rewrite entries_to_map.
  pose proof (committed_gaps_spec _ _ _ k E) as Hk. unfold committed_chunks in Hk. rewrite committed_chunks_spec, lookup_empty in Hk.
  unfold records. rewrite last_app. destruct (last (gap_records _ _)) as [n|].
  { by destruct (m !! k). }
  destruct (last (chunk_records _ _)) as [n|]; by destruct (m !! k).
Qed.
End records.

(** ** Histories *)
Module LogShippingHistory.
Section history.
Context `{RuntimeReports} (self : FileLogShippingState.t).
Abbreviation disk := (StateFile.disk (S := LogShippingState.t)).
Abbreviation node := (FileLogShippingState.node_id self).
Implicit Types (d : disk) (s : LogShippingState.t) (b : NodeLogChunkBatch.t) (k : string * N).

Definition stored d : LogShippingState.t := StateFile.stored (empty node) d.
Definition valid d : Prop := validate (stored d) node = Ok tt.

Inductive call :=
| Snapshot (targets : list RuntimeLogTarget.t)
| SetPending (batch : NodeLogChunkBatch.t)
| Commit (receipt : NodeLogChunkReceipt.t)
| MarkConnected (unit_id : string) (generation expected_sequence : N).

(** The file after a call.  A process that dies during the call leaves the file as it was or as the call
    would have left it, which are the outcomes of [NotPublished] and [Published]. *)
Definition after_call (fs : io) (c : call) : disk -> disk :=
  match c with
  | Snapshot targets => run_state (snapshot_sync self targets fs)
  | SetPending batch => run_state (set_pending_sync self batch fs)
  | Commit receipt => run_state (commit_sync self receipt fs)
  | MarkConnected unit_id generation sequence => run_state (mark_connected_sync self unit_id generation sequence fs)
  end.

(** The batch a call removed from the file. *)
Definition received (c : call) d d' : list NodeLogChunkBatch.t :=
  match c, (stored d).(pending), (stored d').(pending) with
  | Commit _, Some b, None => [b]
  | _, _, _ => []
  end.

Definition run : (call -> Prop) -> disk -> list NodeLogChunkBatch.t -> disk -> Prop := History.run after_call received.

(** The log [k] is among the targets of every snapshot. *)
Definition targeted k (c : call) : Prop := match c with Snapshot targets => k ∈ target_keys targets | _ => True end.

Lemma log_snapshot_effect targets fs d :
  after_call fs (Snapshot targets) d = d
  \/ (valid d /\ (stored d).(pending) = None /\ after_call fs (Snapshot targets) d = Some (retain_targets (stored d) targets)).
Proof.
  cbn. destruct (snapshot_sync self targets fs d) as [d' r] eqn:E. unfold run_state. rewrite E. cbn.
  unfold snapshot_sync, open in E. apply StateFile.open_bind in E as [->|[Hv E]]; [by left|].
  fold (stored d) in *. destruct (DurableOutboundBatch.is_pending _) eqn:Ep.
  { injection E as <- _. by left. }
  assert ((stored d).(pending) = None) as Hp by by destruct (stored d).(pending).
  destruct (_ != _); [|injection E as <- _; by left].
  apply StateFile.write_bind in E as [->| ->]; [by left|by right|done].
Qed.

Lemma log_set_pending_effect batch fs d :
  after_call fs (SetPending batch) d = d
  \/ ((stored d).(pending) = None /\ after_call fs (SetPending batch) d = Some ((stored d) <| pending := Some batch |>)
      /\ valid d /\ valid (after_call fs (SetPending batch) d)).
Proof.
  cbn. destruct (set_pending_sync self batch fs d) as [d' r] eqn:E. unfold run_state. rewrite E. cbn.
  unfold set_pending_sync in E. exec_method E; try (injection E as <- _; by left).
  unfold open in E. apply StateFile.open_bind in E as [->|[Hv E]]; [by left|]. fold (stored d) in *.
  exec_method E; try (injection E as <- _; by left). apply DurableOutboundBatch.stage_Ok in E2 as (Hp & -> & _).
  apply StateFile.write_spec in E as [->| ->]; [by left|]. right. split_and!; [done|done|done|]. match goal with Hx : validate _ _ = Ok ?u |- _ => by destruct u end.
Qed.

Lemma log_commit_effect receipt fs d :
  after_call fs (Commit receipt) d = d
  \/ exists b s, (stored d).(pending) = Some b /\ validate_receipt b receipt = Ok tt
       /\ after_call fs (Commit receipt) d = Some s /\ s.(pending) = None /\ valid d /\ valid (Some s)
       /\ forall k, position s k = match last (records k b) with Some n => Some n | None => position (stored d) k end.
Proof.
  cbn. destruct (commit_sync self receipt fs d) as [d' r] eqn:E. unfold run_state. rewrite E. cbn.
  unfold commit_sync, open in E. apply StateFile.open_bind in E as [->|[Hv E]]; [by left|]. fold (stored d) in *.
  autorewrite with methods in E. destruct (DurableOutboundBatch.acknowledge _ _ _ _) as [[b next]|] eqn:Ea; [|injection E as <- _; by left].
  apply DurableOutboundBatch.acknowledge_Ok in Ea as (Hp & -> & Hr). autorewrite with methods in E.
  destruct (committed_gaps _ _) as [m|] eqn:Em; [|injection E as <- _; by left]. autorewrite with methods in E.
  destruct (validate _ _) as [[]|] eqn:Es in E; [|injection E as <- _; by left].
  apply StateFile.write_spec in E as [->| ->]; [by left|]. right. eexists b, _. split_and!; [done|done|reflexivity|done|done|done|].
  intros k. by apply committed_position.
Qed.

Lemma mark_connected_effect u g n fs d :
  after_call fs (MarkConnected u g n) d = d
  \/ exists s, after_call fs (MarkConnected u g n) d = Some s /\ s.(pending) = None /\ (stored d).(pending) = None
       /\ valid d /\ valid (Some s) /\ forall k, position s k = position (stored d) k.
Proof.
  cbn. destruct (mark_connected_sync self u g n fs d) as [d' r] eqn:E. unfold run_state. rewrite E. cbn.
  unfold mark_connected_sync in E. exec_method E; try (injection E as <- _; by left).
  unfold open in E. apply StateFile.open_bind in E as [->|[Hv E]]; [by left|]. fold (stored d) in *.
  destruct (DurableOutboundBatch.is_pending _) eqn:Ep; [injection E as <- _; by left|].
  destruct (cursor (stored d) u g) as [durable|] eqn:Ec; [|injection E as <- _; by left].
  destruct (_ != _); [injection E as <- _; by left|].
  destruct (_ && _); [|injection E as <- _; by left]. autorewrite with methods in E.
  destruct (validate _ _) as [[]|] eqn:Es in E; [|injection E as <- _; by left].
  apply StateFile.write_spec in E as [->| ->]; [by left|]. right. eexists. split_and!; [reflexivity| | |done|done|].
  - cbn. by destruct (stored d).(pending).
  - by destruct (stored d).(pending).
  - intros k. unfold position. etrans; [exact (f_equal (fmap _) (cursor_in_insert _ (u, g) _ k))|]. case_decide as Hk; [|done]. subst k.
    change (cursor_in (stored d).(cursors) (u, g)) with (cursor (stored d) u g). by rewrite Ec.
Qed.

(** Only a matching receipt removes the pending batch. *)
Lemma log_pending_kept fs c d b :
  (stored d).(pending) = Some b ->
  (stored (after_call fs c d)).(pending) = Some b \/ exists receipt, c = Commit receipt /\ validate_receipt b receipt = Ok tt.
Proof.
  intros Hb. destruct c as [targets|batch|receipt|u g n].
  - destruct (log_snapshot_effect targets fs d) as [->|(_ & Hp & _)]; [by left|congruence].
  - destruct (log_set_pending_effect batch fs d) as [->|(Hp & _)]; [by left|congruence].
  - destruct (log_commit_effect receipt fs d) as [->|(b' & s & Hp & Hr & _)]; [by left|]. right. exists receipt. split; [done|]. congruence.
  - destruct (mark_connected_effect u g n fs d) as [->|(s & _ & _ & Hp & _)]; [by left|congruence].
Qed.

(** The snapshot writes without validating: what it keeps is valid. *)
Lemma retain_valid s targets : s.(pending) = None -> validate s node = Ok tt -> validate (retain_targets s targets) node = Ok tt.
Proof.
  intros Hp. unfold validate. rewrite !then_Ok, !validate_cursors_Ok. intros (Hi & Hc & _). split_and!; [done| |].
  - by apply retain_targets_ok.
  - unfold validate_pending. cbn. by rewrite Hp.
Qed.

Lemma log_call_valid fs c d : valid d -> valid (after_call fs c d).
Proof.
  intros Hv. destruct c as [targets|batch|receipt|u g n].
  - destruct (log_snapshot_effect targets fs d) as [->|(_ & Hp & ->)]; [done|]. by apply retain_valid.
  - by destruct (log_set_pending_effect batch fs d) as [->|(_ & _ & _ & ?)].
  - by destruct (log_commit_effect receipt fs d) as [->|(b & s & _ & _ & -> & _ & _ & ? & _)].
  - by destruct (mark_connected_effect u g n fs d) as [->|(s & -> & _ & _ & _ & ? & _)].
Qed.

(** The records of [k] in the batches, and how far the file has come. *)
Definition delivered k (bs : list NodeLogChunkBatch.t) : list N := concat (map (records k) bs).
Definition up_to (o : option N) (n : N) : Prop := match o with Some m => (n <= m)%N | None => False end.

Lemma above_up_to o x y : up_to o x -> above o y -> (x < y)%N.
Proof. destruct o; cbn; [lia|done]. Qed.

Lemma up_to_last o l : StronglySorted N.lt l -> Forall (above o) l ->
  Forall (up_to (match last l with Some n => Some n | None => o end)) l.
Proof.
  intros Hs _. induction l as [|x l IH]; [constructor|]. inversion_clear Hs as [|? ? Hl Hx]. specialize (IH Hl).
  rewrite last_cons. destruct (last l) as [n|] eqn:El; cbn in *.
  - constructor; [|done]. apply last_Some_elem_of in El. rewrite Forall_forall in Hx. apply N.lt_le_incl, Hx, El.
  - apply last_None in El as ->. constructor; [cbn; lia|constructor].
Qed.

Lemma up_to_trans o l n : Forall (above o) l -> up_to o n -> up_to (match last l with Some m => Some m | None => o end) n.
Proof.
  intros Hl Hn. destruct (last l) as [m|] eqn:E; [|done]. apply last_Some_elem_of in E. rewrite Forall_forall in Hl.
  apply N.lt_le_incl. by eapply above_up_to; [|apply Hl].
Qed.

Definition ordered k bs d : Prop :=
  StronglySorted N.lt (delivered k bs) /\ Forall (up_to (position (stored d) k)) (delivered k bs).

Lemma position_retained s targets k : k ∈ target_keys targets -> position (retain_targets s targets) k = position s k.
Proof. intros Hk. unfold position. rewrite cursor_in_retained. by rewrite decide_True. Qed.

Lemma call_ordered fs c d bs k :
  targeted k c -> valid d -> ordered k bs d ->
  ordered k (bs ++ received c d (after_call fs c d)) (after_call fs c d).
Proof.
  intros Hc Hv Ho.
  assert (forall d', (forall receipt, c = Commit receipt -> (stored d').(pending) <> None \/ (stored d).(pending) = None) ->
            position (stored d') k = position (stored d) k ->
            ordered k (bs ++ received c d d') d') as Hquiet.
  { intros d' Hn Hp. replace (received c d d') with (@nil NodeLogChunkBatch.t).
    - rewrite app_nil_r. destruct Ho as [Hs Hf]. split; [done|]. by rewrite Hp.
    - unfold received. destruct c; try done. destruct (Hn _ eq_refl) as [Hx|Hx].
      + by destruct (stored d).(pending), (stored d').(pending).
      + by rewrite Hx. }
  assert (ordered k (bs ++ received c d d) d) as Hsame.
  { apply Hquiet; [|done]. intros _ _. destruct (stored d).(pending); [by left|by right]. }
  destruct c as [targets|batch|receipt|u g n].
  - destruct (log_snapshot_effect targets fs d) as [->|(_ & Hp & ->)]; [done|]. apply Hquiet; [done|]. by apply position_retained.
  - destruct (log_set_pending_effect batch fs d) as [->|(_ & -> & _)]; [done|]. by apply Hquiet.
  - destruct (log_commit_effect receipt fs d) as [->|(b & s & Hp & _ & -> & Hn & _ & _ & Hpos)]; [done|].
    assert (received (Commit receipt) d (Some s) = [b]) as ->.
    { unfold received. rewrite Hp. change ((stored (Some s)).(pending)) with s.(pending). by rewrite Hn. }
    destruct Ho as [Hs Hf]. destruct (pending_records _ _ _ k Hv Hp) as [Hbs Hbf].
    unfold ordered, delivered. rewrite map_app, concat_app. cbn [map concat]. rewrite app_nil_r.
    change (position (stored (Some s)) k) with (position s k). rewrite Hpos. split.
    + apply StronglySorted_app. split_and!; [|done..]. intros x y Hx Hy. rewrite Forall_forall in Hf, Hbf.
      eapply above_up_to; [by apply Hf|by apply Hbf].
    + apply Forall_app. split; [|by apply up_to_last].
      eapply Forall_impl; [exact Hf|]. intros n Hx. by apply up_to_trans.
  - destruct (mark_connected_effect u g n fs d) as [->|(s & -> & _ & _ & _ & _ & Hpos)]; [done|].
    apply Hquiet; [done|]. apply Hpos.
Qed.

Lemma log_empty_valid : is_nil node = false -> valid None.
Proof.
  intros Hn. unfold valid, validate. rewrite !then_Ok, log_invalid_if_Ok, validate_cursors_Ok. split_and!; [|intros u gs Hu; by rewrite (lookup_empty u : (stored None).(cursors) !! u = None) in Hu|done].
  change (negb (bool_decide (SCHEMA = SCHEMA)) || is_nil node || negb (bool_decide (node = node)) = false).
  by rewrite !bool_decide_eq_true_2, Hn.
Qed.

Lemma log_run_valid P d bs d' : run P d bs d' -> valid d -> valid d'.
Proof. intros Hr Hv. apply (History.run_invariant _ _ (fun _ => valid) _ _ _ _ Hr Hv). intros. by apply log_call_valid. Qed.

Lemma run_ordered k bs d : is_nil node = false -> run (targeted k) None bs d -> ordered k bs d.
Proof.
  intros Hn Hr. apply (History.run_invariant _ _ (fun bs d => valid d /\ ordered k bs d) _ _ _ _ Hr).
  - split; [by apply log_empty_valid|]. split; constructor.
  - intros bs' d' fs c Hc [Hv Ho]. split; [by apply log_call_valid|]. by apply call_ordered.
Qed.
End history.
End LogShippingHistory.

(** ** A matching receipt is committed *)
Section commits.
Context `{RuntimeReports}.
Implicit Types (s : LogShippingState.t) (b : NodeLogChunkBatch.t) (k : string * N).

Lemma batch_reports_valid b :
  NodeLogChunkBatch.validate b = Ok tt ->
  Forall (fun r => NodeLogChunkReport.validate r = Ok tt) b.(NodeLogChunkBatch.chunks)
  /\ Forall (fun g => NodeLogGapReport.validate g = Ok tt) b.(NodeLogChunkBatch.gaps).
Proof.
  unfold NodeLogChunkBatch.validate. rewrite !then_Ok. intros (_ & _ & _ & E). apply result_bind_Ok in E as (n & _ & E).
  rewrite then_Ok in E. destruct E as [_ E]. apply result_bind_Ok in E as ([seen total] & Ec & E). apply then_Ok in E as [Eg _].
  split.
  - generalize dependent (0%N). generalize LogIdentities.empty. induction b.(NodeLogChunkBatch.chunks) as [|r rs IH]; [constructor|].
    intros seen0 n0. cbn [NodeLogChunkBatch.validate_chunks]. rewrite !then_Ok. intros (Hr & _ & E).
    apply result_bind_Ok in E as (n1 & _ & E). constructor; [done|]. by eapply IH.
  - generalize dependent seen. intros seen _. revert seen. induction b.(NodeLogChunkBatch.gaps) as [|g gs IH]; [constructor|].
    intros seen. cbn [NodeLogChunkBatch.validate_gaps]. rewrite !then_Ok. intros (Hg & _ & _ & E). constructor; [done|]. by eapply IH.
Qed.

Lemma single_line_target label u : validate_single_line label u 512 = Ok tt -> validate_target u 1 = Ok tt.
Proof.
  unfold validate_single_line, validate_target. destruct (_ || _) eqn:E; [done|]. intros _. apply log_invalid_if_Ok.
  rewrite !orb_false_iff in E. destruct E as (((He & Hl) & Hn) & _). rewrite Hl, Hn. by destruct u.
Qed.

Definition entry_ok (k : string * N) (c : DurableLogCursor.t) : Prop :=
  validate_target k.1 1 = Ok tt /\ cursor_invalid k.2 c = false.

Definition chunks_of k (chunks : list NodeLogChunkReport.t) : list NodeLogChunkReport.t :=
  List.filter (fun report => bool_decide (chunk_key report = k)) chunks.

(** The cursor a batch would leave for each of its logs, that of the log's last chunk, fits the state file.  Staging
    a batch does not look at them. *)
Definition cursors_storable b : Prop :=
  forall k r, last (chunks_of k b.(NodeLogChunkBatch.chunks)) = Some r ->
    log_cursor_invalid (log_chunk_cursor r.(NodeLogChunkReport.chunk)) = false.

Lemma commit_chunks_lookup m chunks k :
  foldl commit_chunk m chunks !! k
  = match last (chunks_of k chunks) with
    | Some r => Some (DurableLogCursor.Mk (Some (log_chunk_cursor r.(NodeLogChunkReport.chunk))) (chunk_sequence r) None)
    | None => m !! k
    end.
Proof.
  revert m. induction chunks as [|r chunks IH]; intros m; [done|]. cbn [foldl]. rewrite IH. unfold chunks_of, commit_chunk.
  cbn [List.filter]. case_bool_decide as Hr; [|by rewrite lookup_insert_ne].
  subst k. rewrite lookup_insert_eq, last_cons. by destruct (last _).
Qed.

Lemma last_chunk_of k chunks r : last (chunks_of k chunks) = Some r -> r ∈ chunks /\ chunk_key r = k.
Proof.
  intros Hl. apply last_Some_elem_of in Hl. apply list_elem_of_In, filter_In in Hl as [Hin Hk].
  apply list_elem_of_In in Hin. by apply bool_decide_eq_true in Hk.
Qed.

Lemma commit_chunks_ok b :
  Forall (fun r => NodeLogChunkReport.validate r = Ok tt) b.(NodeLogChunkBatch.chunks) -> cursors_storable b ->
  map_Forall entry_ok (committed_chunks b.(NodeLogChunkBatch.chunks)).
Proof.
  intros Hv Hc k c. unfold committed_chunks. rewrite commit_chunks_lookup, lookup_empty.
  destruct (last _) as [r|] eqn:El; [|done]. intros [= <-]. pose proof (Hc k r El) as Hrc.
  apply last_chunk_of in El as [Hin <-]. rewrite Forall_forall in Hv. specialize (Hv r Hin).
  unfold NodeLogChunkReport.validate in Hv. rewrite !then_Ok, fail_if_Ok in Hv. destruct Hv as (Hu & Hg & _).
  split; [by eapply single_line_target|]. unfold cursor_invalid. cbn. by rewrite Hg, Hrc.
Qed.

Lemma committed_gaps_kept m gaps m' k c : committed_gaps m gaps = Ok m' -> m !! k = Some c -> m' !! k = Some c.
Proof.
  revert m. induction gaps as [|g gaps IH]; intros m; cbn [committed_gaps]; [by intros [= <-]|].
  rewrite then_Ok, log_invalid_if_Ok. intros [Hn E] Hk. apply (IH _ E). rewrite lookup_insert_ne; [done|].
  intros <-. by rewrite Hk in Hn.
Qed.

Lemma commit_gaps_ok m gaps m' :
  committed_gaps m gaps = Ok m' -> map_Forall entry_ok m -> Forall (fun g => NodeLogGapReport.validate g = Ok tt) gaps ->
  map_Forall entry_ok m'.
Proof.
  revert m. induction gaps as [|g gaps IH]; intros m; cbn [committed_gaps]; [by intros [= <-]|].
  rewrite then_Ok. intros [_ E] Hm [Hg Hv]%Forall_cons. apply (IH _ E); [|done]. apply map_Forall_insert_2; [|done].
  unfold NodeLogGapReport.validate in Hg. rewrite !then_Ok, !fail_if_Ok in Hg. destruct Hg as (Hu & Hn & Hc & _).
  split; [by eapply single_line_target|]. unfold cursor_invalid. cbn. by rewrite Hn, Hc.
Qed.

Lemma committed_gaps_total m gaps :
  (forall k, is_Some (m !! k) -> gap_records k gaps = []) -> (forall k, length (gap_records k gaps) <= 1)%nat ->
  exists m', committed_gaps m gaps = Ok m'.
Proof.
  revert m. induction gaps as [|g gaps IH]; intros m Hm Hl; cbn [committed_gaps]; [by eexists|].
  assert (forall k, gap_records k (g :: gaps) = (if bool_decide (gap_key g = k) then [g.(NodeLogGapReport.sequence)] else []) ++ gap_records k gaps) as Hcons.
  { intros k. unfold gap_records. cbn [List.filter]. by case_bool_decide. }
  assert (m !! gap_key g = None) as Hn.
  { apply eq_None_not_Some. intros Hx. specialize (Hm _ Hx). rewrite Hcons, bool_decide_eq_true_2 in Hm by done. discriminate. }
  rewrite Hn. cbn. apply IH.
  - intros k [c [[<- _]|[_ Hk]]%lookup_insert_Some].
    + specialize (Hl (gap_key g)). rewrite Hcons, bool_decide_eq_true_2 in Hl by done. cbn in Hl.
      destruct (gap_records _ _); [done|cbn in Hl; lia].
    + specialize (Hm k (mk_is_Some _ _ Hk)). rewrite Hcons in Hm. by apply app_eq_nil in Hm as [_ ?].
  - intros k. specialize (Hl k). rewrite Hcons, length_app in Hl. lia.
Qed.

Lemma pending_commits s b node :
  validate s node = Ok tt -> s.(pending) = Some b ->
  exists m, committed_gaps (committed_chunks b.(NodeLogChunkBatch.chunks)) b.(NodeLogChunkBatch.gaps) = Ok m.
Proof.
  unfold validate. rewrite !then_Ok. intros (_ & _ & Hp) Eb. unfold validate_pending in Hp. rewrite Eb, !then_Ok in Hp.
  destruct Hp as (_ & _ & Hp). apply result_bind_Ok in Hp as (kinds & Hc & Hg). apply committed_gaps_total.
  - intros k [c Hk]. destruct (pending_chunks_spec _ _ _ _ _ Hc k) as (_ & _ & Hf).
    destruct (pending_gaps_spec _ _ _ _ Hg k) as (_ & _ & He). apply He. left. apply Hf. left. intros E.
    pose proof (committed_chunks_spec ∅ b.(NodeLogChunkBatch.chunks) k) as Hx. unfold committed_chunks in Hk.
    by rewrite Hk, E, lookup_empty in Hx.
  - intros k. by destruct (pending_gaps_spec _ _ _ _ Hg k) as (_ & ? & _).
Qed.

Lemma committed_valid s b m node :
  validate s node = Ok tt -> s.(pending) = Some b ->
  cursors_storable b ->
  committed_gaps (committed_chunks b.(NodeLogChunkBatch.chunks)) b.(NodeLogChunkBatch.gaps) = Ok m ->
  validate (s <| pending := None |> <| cursors := foldl insert_cursor s.(cursors) (entries_of m) |>) node = Ok tt.
Proof.
  unfold validate. rewrite !then_Ok, !validate_cursors_Ok. intros (Hi & Hs & Hp) Eb Hc Hm. split_and!; [done| |done].
  unfold validate_pending in Hp. rewrite Eb, !then_Ok in Hp. destruct Hp as (Hv & _). apply map_err_Ok in Hv.
  destruct (batch_reports_valid _ Hv) as [Hr Hg]. apply inserts_cursor_ok; [done|].
  assert (map_Forall entry_ok m) as Hok.
  { eapply commit_gaps_ok; [exact Hm| |done]. by apply commit_chunks_ok. }
  apply Forall_forall. intros [k c] Hk%elem_of_entries. by apply Hok.
Qed.

(** And only then can the new cursors be stored. *)
Lemma committed_storable s b m node :
  committed_gaps (committed_chunks b.(NodeLogChunkBatch.chunks)) b.(NodeLogChunkBatch.gaps) = Ok m ->
  validate (s <| pending := None |> <| cursors := foldl insert_cursor s.(cursors) (entries_of m) |>) node = Ok tt ->
  cursors_storable b.
Proof.
  unfold validate. rewrite !then_Ok, validate_cursors_Ok. intros Hm (_ & Hs & _) k r Hl. cbn in Hs.
  assert (m !! k = Some (DurableLogCursor.Mk (Some (log_chunk_cursor r.(NodeLogChunkReport.chunk))) (chunk_sequence r) None)) as Hk.
  { eapply committed_gaps_kept; [exact Hm|]. unfold committed_chunks. by rewrite commit_chunks_lookup, Hl. }
  pose proof (cursor_in_inserts s.(cursors) (entries_of m) k (entries_of_keys m)) as Hc. rewrite entries_to_map, Hk in Hc.
  unfold cursor_in in Hc. apply bind_Some in Hc as (gs & Hgs & Hg). destruct (Hs _ _ Hgs) as [_ Hok].
  specialize (Hok _ _ Hg). unfold cursor_invalid in Hok. rewrite !orb_false_iff in Hok. apply Hok.
Qed.

Lemma log_commit_refused (self : FileLogShippingState.t) d b receipt (s := LogShippingHistory.stored self d) :
  LogShippingHistory.valid self d -> s.(pending) = Some b -> validate_receipt b receipt = Ok tt -> ~ cursors_storable b ->
  exists e, commit_sync self receipt healthy d = (d, Err e).
Proof.
  intros Hv Hp Hr Hc. destruct (pending_commits _ _ _ Hv Hp) as [m Hm].
  destruct (validate (s <| pending := None |> <| cursors := foldl insert_cursor s.(cursors) (entries_of m) |>)
              self.(FileLogShippingState.node_id)) as [[]|e] eqn:E; [by destruct Hc; eapply committed_storable|].
  exists e. unfold commit_sync, open. unfold mbind at 1, method_bind at 1. rewrite StateFile.open_healthy by done.
  change (StateFile.stored _ d) with s. autorewrite with methods. unfold DurableOutboundBatch.acknowledge. rewrite Hp, Hr. cbn.
  autorewrite with methods. rewrite Hm. autorewrite with methods. rewrite E. reflexivity.
Qed.

Lemma log_commit_healthy (self : FileLogShippingState.t) d b receipt (s := LogShippingHistory.stored self d) :
  LogShippingHistory.valid self d -> s.(pending) = Some b -> validate_receipt b receipt = Ok tt ->
  cursors_storable b ->
  exists s', commit_sync self receipt healthy d = (Some s', Ok tt) /\ s'.(pending) = None
    /\ forall k, position s' k = match last (records k b) with Some n => Some n | None => position s k end.
Proof.
  intros Hv Hp Hr Hc. destruct (pending_commits _ _ _ Hv Hp) as [m Hm]. eexists. split_and!.
  - unfold commit_sync, open. unfold mbind at 1, method_bind at 1. rewrite StateFile.open_healthy by done.
    change (StateFile.stored _ d) with s. autorewrite with methods. unfold DurableOutboundBatch.acknowledge. rewrite Hp, Hr. cbn.
    autorewrite with methods. rewrite Hm. autorewrite with methods. rewrite (committed_valid s b m) by done. reflexivity.
  - done.
  - intros k. by apply committed_position.
Qed.
End commits.

(** ** A pass of the shipper is a history *)
Section passes.
Context `{RuntimeLogs} (self : LogShipper.t) (targets : list RuntimeLogTarget.t).
Import LogShippingHistory LogShipper.
Abbreviation disk := (StateFile.disk (S := LogShippingState.t)).

Definition of_pass (c : call) : Prop := match c with Snapshot ts => ts = targets | _ => True end.

Abbreviation runs := (History.runs (after_call self.(state)) (received self.(state)) of_pass).

Lemma collect_targets_runs logs now fs snapshot ts c : runs (collect_targets self logs now fs snapshot ts c).
Proof.
  revert c. induction ts as [|target ts IH]; intros c; cbn [collect_targets]; [apply History.runs_ret|].
  destruct (_ || _); [apply History.runs_ret|]. apply History.runs_bind; [apply History.runs_lift|]. intros _.
  destruct (logs _) as [[|chunk chunks]| |u g cursor reason|e]; [| |apply IH| |apply History.runs_lift].
  - apply History.runs_bind; [|intros _; apply IH]. destruct (LogShippingState.cursor _ _ _) as [position|]; [|apply History.runs_ret].
    destruct (is_some _); [|apply History.runs_ret]. by eapply (History.runs_call _ _ _ _ (fs target) (MarkConnected target.(RuntimeLogTarget.unit_id) target.(RuntimeLogTarget.generation) position.(DurableLogCursor.sequence))).
  - destruct (_ <? _)%N; [apply History.runs_lift|]. apply History.runs_bind; [apply History.runs_lift|]. intros [c' []]; [apply History.runs_ret|apply IH].
  - destruct (_ || _); [apply History.runs_lift|]. destruct (already_reported _ _ _); [apply IH|].
    apply History.runs_bind; [apply History.runs_lift|intros n]. apply History.runs_bind; [apply History.runs_lift|intros t]. apply IH.
Qed.

(** Whatever the Runtime, the control plane and the file system answer, a pass does nothing to the file but
    calls of the history, with its own targets in the snapshot. *)
Theorem ship_once_runs logs now batch_id sent_at record fs d :
  exists bs, run self.(state) of_pass d bs (run_state (ship_once self logs now batch_id sent_at record fs targets) d).
Proof.
  revert d. change (runs (ship_once self logs now batch_id sent_at record fs targets)).
  assert (forall b, runs (upload self record fs.(io_commit) b)) as Hu.
  { intros b. apply History.runs_bind; [apply History.runs_lift|]. intros receipt. by apply (History.runs_call _ _ _ _ fs.(io_commit) (Commit receipt)). }
  unfold ship_once. apply History.runs_bind; [apply History.runs_lift|intros _].
  apply History.runs_bind; [by apply (History.runs_call _ _ _ _ fs.(io_snapshot) (Snapshot targets))|intros snapshot].
  destruct snapshot.(pending) as [b|].
  { apply History.runs_bind; [apply Hu|intros _; apply History.runs_ret]. }
  apply History.runs_bind.
  { unfold collect. apply History.runs_bind; [apply collect_targets_runs|intros c]. destruct (_ && _); [apply History.runs_ret|].
    apply History.runs_bind; [apply History.runs_lift|intros _; apply History.runs_ret]. }
  intros [b|]; [|apply History.runs_ret]. apply History.runs_bind; [by apply (History.runs_call _ _ _ _ fs.(io_stage) (SetPending b))|intros _].
  apply History.runs_bind; [apply Hu|intros _; apply History.runs_ret].
Qed.
End passes.

Section guarantees.
Context `{RuntimeReports} (self : FileLogShippingState.t).
Import LogShippingHistory.

(** C24: In every history of calls that keep a log among their targets, through any failures and restarts, the
    records of that log that were received come in strictly increasing order, across batches too; the pending
    batch continues them, and stays as it is until a receipt that matches it is committed. *)
Theorem log_deliveries_increase k bs d :
  is_nil self.(FileLogShippingState.node_id) = false -> run self (targeted k) None bs d ->
  StronglySorted N.lt (delivered k bs)
  /\ forall b, (stored self d).(pending) = Some b ->
       StronglySorted N.lt (records k b)
       /\ (forall x y, x ∈ delivered k bs -> y ∈ records k b -> (x < y)%N)
       /\ forall fs c, (stored self (after_call self fs c d)).(pending) = Some b
            \/ exists receipt, c = Commit receipt /\ validate_receipt b receipt = Ok tt.
Proof.
  intros Hn Hr. destruct (run_ordered _ _ _ _ Hn Hr) as [Hs Hf]. split; [done|]. intros b Hb.
  pose proof (log_run_valid _ _ _ _ _ Hr (log_empty_valid _ Hn)) as Hv. destruct (pending_records _ _ _ k Hv Hb) as [Hbs Hbf]. split_and!; [done| |].
  - intros x y Hx Hy. rewrite Forall_forall in Hf, Hbf. eapply above_up_to; [by apply Hf|by apply Hbf].
  - intros fs c. by apply log_pending_kept.
Qed.

(** C26: In every reachable state, a receipt that matches the pending batch is committed when the file system
    works and the cursors of the batch can be stored: the batch leaves the file and every log it has records of is
    at the last of them.  The cursors come from the Runtime and are not checked when the batch is staged; if the
    file cannot store one of those the batch ends with, the commit is refused and the batch stays.  With any other
    file system the file is left as it was or with the receipt committed, nothing in between. *)
Theorem log_receipt_committed bs d b receipt :
  is_nil self.(FileLogShippingState.node_id) = false -> run self (fun _ => True) None bs d ->
  (stored self d).(pending) = Some b -> validate_receipt b receipt = Ok tt ->
  let committed s := s.(pending) = None
    /\ forall k, position s k = match last (records k b) with Some n => Some n | None => position (stored self d) k end in
  (cursors_storable b -> exists s, commit_sync self receipt healthy d = (Some s, Ok tt) /\ committed s)
  /\ (~ cursors_storable b -> exists e, commit_sync self receipt healthy d = (d, Err e))
  /\ forall fs, after_call self fs (Commit receipt) d = d
       \/ exists s, after_call self fs (Commit receipt) d = Some s /\ committed s.
Proof.
  intros Hn Hr Hb Hre. pose proof (log_run_valid _ _ _ _ _ Hr (log_empty_valid _ Hn)) as Hv. cbn zeta. split_and!.
  - intros Hc. by apply log_commit_healthy.
  - intros Hc. by eapply log_commit_refused.
  - intros fs. destruct (log_commit_effect self receipt fs d) as [->|(b' & s & Hb' & _ & Hs & Hp & _ & _ & Hk)]; [by left|].
    right. exists s. assert (b' = b) as -> by congruence. by split_and!.
Qed.
End guarantees.
