(* ===== verification/EventShipping.v ===== *)
(** * The event shipper of a node agent

    [node-agent/src/agent_provider_event_shipper.rs]: how far the events of every agent run were received,
    the batch that is on its way, and one pass of the shipper.  A run is identified by the digest of its
    identity.  The Runtime, the harness of the provider and the transport are arguments of a pass, and so are
    the clock and the identity of the batch. *)

From Stdlib Require Import ZArith NArith Lia String.
From stdpp Require Import gmap.
From S2P Require Import Prelude RustStd BTreeMap External Text Resources NodeCommands AgentProvider AgentProviderRuns NodeRunBindings.
From S2P Require Import AgentProviderEvents CommandJournal OutboundBatches.

Module AgentProviderEventShippingError.
Definition Invalid (e : error) : error :=
  Error "invalid Agent provider event shipping data: {0}" (FStr e.(template) :: e.(args)).
Definition Conflict (e : error) : error :=
  Error "Agent provider event shipping state conflict: {0}" (FStr e.(template) :: e.(args)).
Definition State (e : error) : error :=
  Error "Agent provider event shipping state failed: {0}" (FStr e.(template) :: e.(args)).
(** [harness_error]: the message of an [AgentProviderHarnessError] *)
Definition Harness (e : error) : error :=
  Error "Agent provider Harness event shipping failed: {message}" (FStr e.(template) :: e.(args)).

Definition invalid {A} (message : string) : result A := Err (Invalid (Error message [])).
Definition conflict {A} (message : string) : result A := Err (Conflict (Error message [])).
Definition invalid_if (c : bool) (message : string) : result unit := if c then invalid message else Ok tt.
End AgentProviderEventShippingError.
Import AgentProviderEventShippingError.

Abbreviation RuntimeBinding := NodeAgentProviderRuntimeBindingV1.t (only parsing).

(** The profile a node build admits is the file [contracts/a1.3/reference-echo-provider-profile.acl], which the
    build embeds. *)
Class ReferenceProfile := REFERENCE_ECHO_PROVIDER_PROFILE_ACL : string.

(** [AgentProviderHarnessError::Invalid] *)
Definition harness_invalid (e : error) : error :=
  Error "invalid Agent provider Harness binding or protocol: {0}" (FStr e.(template) :: e.(args)).

Definition validate_reference_echo_binding `{AclContract} `{External} `{ReferenceProfile} (binding : RuntimeBinding) : result unit :=
  map_err harness_invalid (NodeAgentProviderRuntimeBindingV1.validate binding) ;;
  profile ← map_err harness_invalid (NodeAgentProviderRuntimeBindingV1.profile binding);
  expected ← map_err harness_invalid (AgentProviderProfile.parse_acl REFERENCE_ECHO_PROVIDER_PROFILE_ACL);
  if profile != expected
  then Err (harness_invalid (Error "Agent provider profile {:?} is not admitted by this node build"
                               [FStr profile.(AgentProviderProfile.kind)]))
  else Ok tt.

Definition binding_key `{External} (binding : RuntimeBinding) : result string :=
  map_err Invalid (AgentProviderRunIdentityV1.digest binding.(NodeAgentProviderRuntimeBindingV1.provider_run_identity)).

Module DurableProviderEventCursor.
Record t := Mk {
  binding : RuntimeBinding;
  after_event_sequence : option N;
  observed_state : AgentProviderRunStateV1.t;
  observed_at_ms : N;
  drained : bool;
  recovery_required : bool;
}.

#[global] Instance t_eq_dec : EqDecision t.
Proof. solve_decision. Defined.
End DurableProviderEventCursor.

#[export] Instance event_batch_protocol `{AclContract} `{External} : OutboundBatchProtocol NodeAgentProviderEventBatchV1.t := {|
  Receipt := NodeAgentProviderEventReceiptV1.t;
  validate_batch := NodeAgentProviderEventBatchV1.validate;
  validate_receipt batch receipt := NodeAgentProviderEventReceiptV1.validate_for receipt batch;
|}.

Module ProviderEventShippingState.
Section state.
Context `{AclContract} `{External} `{ReferenceProfile}.
Import DurableProviderEventCursor.

Record t := Mk {
  schema : string;
  node_id : Uuid;
  cursors : gmap string DurableProviderEventCursor.t;
  pending : option NodeAgentProviderEventBatchV1.t;
}.

#[global] Instance t_eta : Eta t := fun r => Mk r.(schema) r.(node_id) r.(cursors) r.(pending).

Definition SCHEMA : string := "a3s.cloud.node-agent-provider-event-shipping-state.v1".

Definition empty (node_id : Uuid) : t := Mk SCHEMA node_id ∅ None.

Definition validate_cursor (identity_digest : string) (cursor : DurableProviderEventCursor.t) : result unit :=
  map_err Harness (validate_reference_echo_binding cursor.(binding)) ;;
  key ← binding_key cursor.(binding);
  invalid_if ((key != identity_digest)
              || (cursor.(observed_at_ms) =? 0)%N
              || cursor.(drained) && negb (AgentProviderRunStateV1.is_terminal cursor.(observed_state))
                 && negb cursor.(recovery_required)
              || cursor.(recovery_required) && negb cursor.(drained))
    "durable Agent provider event cursor is invalid".

(** The page continues what was received of its run. *)
Definition continues (cursor : option DurableProviderEventCursor.t) (batch : NodeAgentProviderEventBatchV1.t) : bool :=
  let page := batch.(NodeAgentProviderEventBatchV1.page) in
  match cursor with
  | Some cursor =>
    (cursor.(binding) == batch.(NodeAgentProviderEventBatchV1.binding))
    && negb cursor.(drained)
    && (cursor.(after_event_sequence) == page.(AgentProviderEventPageV1.after_event_sequence))
    && (cursor.(observed_at_ms) <=? page.(AgentProviderEventPageV1.observed_at_ms))%N
  | None => is_none page.(AgentProviderEventPageV1.after_event_sequence)
  end.

Definition validate_pending (self : t) : result unit :=
  DurableOutboundBatch.validate Invalid self.(pending) ;;
  match self.(pending) with
  | None => Ok tt
  | Some batch =>
    invalid_if (batch.(NodeAgentProviderEventBatchV1.node_id) != self.(node_id))
      "pending Agent provider event batch belongs to another node" ;;
    map_err Harness (validate_reference_echo_binding batch.(NodeAgentProviderEventBatchV1.binding)) ;;
    identity_digest ← binding_key batch.(NodeAgentProviderEventBatchV1.binding);
    invalid_if (negb (continues (self.(cursors) !! identity_digest) batch))
      "pending Agent provider event page does not continue its durable cursor"
  end.

Definition validate (self : t) (expected_node_id : Uuid) : result unit :=
  invalid_if ((self.(schema) != SCHEMA) || is_nil self.(node_id) || (self.(node_id) != expected_node_id))
    "Agent provider event shipping state schema or node identity is invalid" ;;
  for_each (fun kc => validate_cursor kc.1 kc.2) (entries_of self.(cursors)) ;;
  validate_pending self.

Definition cursor (self : t) (b : RuntimeBinding) : result (option DurableProviderEventCursor.t) :=
  key ← binding_key b;
  let cursor := self.(cursors) !! key in
  if is_some_and (fun cursor => cursor.(binding) != b) cursor
  then conflict "one Agent provider run identity changed its Runtime binding"
  else Ok cursor.

(** The runs of the bindings, which must be distinct, and so must be their executions. *)
Fixpoint active_bindings (executions : gset Uuid) (active : gmap string RuntimeBinding) (bindings : list RuntimeBinding) :
    result (gmap string RuntimeBinding) :=
  match bindings with
  | [] => Ok active
  | b :: rest =>
    map_err Harness (validate_reference_echo_binding b) ;;
    key ← binding_key b;
    let execution_id := b.(NodeAgentProviderRuntimeBindingV1.execution_id) in
    invalid_if (bool_decide (execution_id ∈ executions) || is_some (active !! key))
      "Agent provider event targets contain duplicate execution or run identities" ;;
    active_bindings ({[execution_id]} ∪ executions) (<[key := b]> active) rest
  end.

Definition retain_bindings (self : t) (bindings : list RuntimeBinding) : result t :=
  active ← active_bindings ∅ ∅ bindings;
  for_each (fun kb : string * RuntimeBinding =>
      if is_some_and (fun cursor => cursor.(binding) != kb.2) (self.(cursors) !! kb.1)
      then conflict "one Agent provider run identity changed its Runtime binding" else Ok tt) (entries_of active) ;;
  Ok (self <| cursors := filter (fun kc : string * DurableProviderEventCursor.t => is_Some (active !! kc.1)) self.(cursors) |>).
End state.
End ProviderEventShippingState.

Module FileProviderEventShippingState.
Import ProviderEventShippingState.

(** [root] is the directory of the file: the state of the methods is the file itself. *)
Record t := Mk { node_id : Uuid }.

Definition new (node_id : Uuid) : result t :=
  if is_nil node_id then invalid "Agent provider event shipping node ID must not be nil" else Ok (Mk node_id).

Section file.
Context `{AclContract} `{External} `{ReferenceProfile}.

Abbreviation disk := (StateFile.disk (S := ProviderEventShippingState.t)).

Definition open (self : t) (fs : io) : method disk ProviderEventShippingState.t :=
  StateFile.open (empty self.(node_id)) (fun state => validate state self.(node_id)) State fs.
Definition write_state (state : ProviderEventShippingState.t) (fs : io) : method disk unit :=
  StateFile.write_state State state fs.

Definition snapshot_sync (self : t) (bindings : list RuntimeBinding) (fs : io) : method disk ProviderEventShippingState.t :=
  state ← open self fs;
  if DurableOutboundBatch.is_pending state.(pending) then mret state
  else
    next ← lift (retain_bindings state bindings);
    (if next.(cursors) != state.(cursors)
     then lift (validate next self.(node_id)) ;; write_state next fs
     else mret tt) ;;
    mret next.

Definition set_pending_sync (self : t) (batch : NodeAgentProviderEventBatchV1.t) (fs : io) : method disk unit :=
  lift (map_err Invalid (NodeAgentProviderEventBatchV1.validate batch)) ;;
  lift (map_err Harness (validate_reference_echo_binding batch.(NodeAgentProviderEventBatchV1.binding))) ;;
  lift (invalid_if (batch.(NodeAgentProviderEventBatchV1.node_id) != self.(node_id))
          "pending Agent provider event batch belongs to another node") ;;
  state ← open self fs;
  next ← lift (DurableOutboundBatch.stage Invalid Conflict state.(pending) batch);
  let state := state <| pending := next |> in
  lift (validate state self.(node_id)) ;;
  write_state state fs.

(** The cursor of a run after a page. *)
Definition cursor_after (batch : NodeAgentProviderEventBatchV1.t) : DurableProviderEventCursor.t :=
  let page := batch.(NodeAgentProviderEventBatchV1.page) in
  {| DurableProviderEventCursor.binding := batch.(NodeAgentProviderEventBatchV1.binding);
     DurableProviderEventCursor.after_event_sequence := page.(AgentProviderEventPageV1.next_after_event_sequence);
     DurableProviderEventCursor.observed_state := page.(AgentProviderEventPageV1.state);
     DurableProviderEventCursor.observed_at_ms := page.(AgentProviderEventPageV1.observed_at_ms);
     DurableProviderEventCursor.drained :=
       page.(AgentProviderEventPageV1.retention_gap)
       || AgentProviderRunStateV1.is_terminal page.(AgentProviderEventPageV1.state)
          && negb page.(AgentProviderEventPageV1.has_more);
     DurableProviderEventCursor.recovery_required := page.(AgentProviderEventPageV1.retention_gap) |}.

Definition commit_sync (self : t) (receipt : NodeAgentProviderEventReceiptV1.t) (fs : io) : method disk unit :=
  state ← open self fs;
  '(batch, next) ← lift (DurableOutboundBatch.acknowledge Invalid Conflict state.(pending) receipt);
  identity_digest ← lift (binding_key batch.(NodeAgentProviderEventBatchV1.binding));
  if is_some_and (fun cursor => cursor.(DurableProviderEventCursor.binding) != batch.(NodeAgentProviderEventBatchV1.binding))
       (state.(cursors) !! identity_digest)
  then lift (conflict "one Agent provider run identity changed its Runtime binding")
  else
    let state := state <| pending := next |> <| cursors := <[identity_digest := cursor_after batch]> state.(cursors) |> in
    lift (validate state self.(node_id)) ;;
    write_state state fs.
End file.
End FileProviderEventShippingState.

(** ** One pass of the shipper *)

(** [resolve_runtime_endpoint]: a Runtime that is not available, which the pass skips, or another error. *)
Inductive endpoint_answer := Endpoint | Unavailable | EndpointFailed (e : error).

Definition PROVIDER_EVENT_PAGE_LIMIT : N := 8.

Section bindings.
Context `{AclContract} `{External} `{ReferenceProfile}.

Fixpoint validate_bindings_from (executions : gset Uuid) (identities : gset string) (bindings : list RuntimeBinding) : result unit :=
  match bindings with
  | [] => Ok tt
  | b :: rest =>
    let message := "Agent provider event targets contain duplicate execution or run identities"%string in
    let execution_id := b.(NodeAgentProviderRuntimeBindingV1.execution_id) in
    map_err Harness (validate_reference_echo_binding b) ;;
    invalid_if (bool_decide (execution_id ∈ executions)) message ;;
    key ← binding_key b;
    invalid_if (bool_decide (key ∈ identities)) message ;;
    validate_bindings_from ({[execution_id]} ∪ executions) ({[key]} ∪ identities) rest
  end.
Definition validate_bindings (bindings : list RuntimeBinding) : result unit := validate_bindings_from ∅ ∅ bindings.
End bindings.

Module AgentProviderEventShipper.
Import ProviderEventShippingState FileProviderEventShippingState.

Record t := Mk { node_id : Uuid; state : FileProviderEventShippingState.t }.

(** [request_timeout] in nanoseconds, which only the harness uses. *)
Definition new (node_id : Uuid) (request_timeout : N) : result t :=
  invalid_if (request_timeout =? 0)%N "Agent provider event request timeout must be positive" ;;
  state ← FileProviderEventShippingState.new node_id;
  Ok (Mk node_id state).

Section pass.
Context `{AclContract} `{External} `{ReferenceProfile}.
Abbreviation disk := (StateFile.disk (S := ProviderEventShippingState.t)).

Abbreviation candidate := (N * Uuid * RuntimeBinding * option DurableProviderEventCursor.t)%type (only parsing).

Fixpoint candidates (snapshot : ProviderEventShippingState.t) (bindings : list RuntimeBinding) : result (list candidate) :=
  match bindings with
  | [] => Ok []
  | b :: rest =>
    cursor ← cursor snapshot b;
    rest ← candidates snapshot rest;
    Ok ((match cursor with Some cursor => cursor.(DurableProviderEventCursor.observed_at_ms) | None => 0%N end,
         b.(NodeAgentProviderRuntimeBindingV1.execution_id), b, cursor) :: rest)
  end.

(** Whether a page without events says anything new. *)
Definition changed (cursor : option DurableProviderEventCursor.t) (page : AgentProviderEventPageV1.t) : bool :=
  page.(AgentProviderEventPageV1.retention_gap)
  || is_none_or (fun cursor =>
       (cursor.(DurableProviderEventCursor.after_event_sequence) != page.(AgentProviderEventPageV1.next_after_event_sequence))
       || (cursor.(DurableProviderEventCursor.observed_state) != page.(AgentProviderEventPageV1.state))
       || AgentProviderRunStateV1.is_terminal page.(AgentProviderEventPageV1.state)
          && negb cursor.(DurableProviderEventCursor.drained)) cursor.

Definition page_request (b : RuntimeBinding) (cursor : option DurableProviderEventCursor.t) : AgentProviderEventPageRequestV1.t :=
  {| AgentProviderEventPageRequestV1.schema := AgentProviderEventPageRequestV1.SCHEMA;
     AgentProviderEventPageRequestV1.identity := b.(NodeAgentProviderRuntimeBindingV1.provider_run_identity);
     AgentProviderEventPageRequestV1.after_event_sequence :=
       cursor ≫= DurableProviderEventCursor.after_event_sequence;
     AgentProviderEventPageRequestV1.limit := PROVIDER_EVENT_PAGE_LIMIT |}.

(** The loop over the candidates, which ends with the first page that has something to send. *)
Fixpoint collect_first (self : t) (resolve : RuntimeBinding -> endpoint_answer)
    (event_page : RuntimeBinding -> AgentProviderEventPageRequestV1.t -> result AgentProviderEventPageV1.t)
    (current_time_ms : result N) (batch_id : Uuid) (l : list candidate) : result (option NodeAgentProviderEventBatchV1.t) :=
  match l with
  | [] => Ok None
  | (_, _, b, cursor) :: rest =>
    let continue := collect_first self resolve event_page current_time_ms batch_id rest in
    if is_some_and DurableProviderEventCursor.drained cursor then continue
    else
      match resolve b with
      | Unavailable => continue
      | EndpointFailed e => Err (Harness e)
      | Endpoint =>
        profile ← map_err Invalid (NodeAgentProviderRuntimeBindingV1.profile b);
        let request := page_request b cursor in
        map_err Invalid (AgentProviderEventPageRequestV1.validate_for request profile) ;;
        page ← map_err Harness (event_page b request);
        if is_empty page.(AgentProviderEventPageV1.events) && negb (changed cursor page) then continue
        else
          now ← current_time_ms;
          let batch := NodeAgentProviderEventBatchV1.Mk NodeAgentProviderEventBatchV1.SCHEMA batch_id self.(node_id) b page
                         (N.max now page.(AgentProviderEventPageV1.observed_at_ms)) in
          map_err Invalid (NodeAgentProviderEventBatchV1.validate batch) ;;
          Ok (Some batch)
      end
  end.

Definition collect (self : t) (resolve : RuntimeBinding -> endpoint_answer)
    (event_page : RuntimeBinding -> AgentProviderEventPageRequestV1.t -> result AgentProviderEventPageV1.t)
    (current_time_ms : result N) (batch_id : Uuid) (bindings : list RuntimeBinding) (snapshot : ProviderEventShippingState.t) :
    result (option NodeAgentProviderEventBatchV1.t) :=
  l ← candidates snapshot bindings;
  collect_first self resolve event_page current_time_ms batch_id
    (sort_by_key (fun candidate : candidate => let '(observed_at_ms, execution_id, _, _) := candidate in
                                               (observed_at_ms, execution_id)) l).

(** [record] is the answer of the control plane, or the error of the transport. *)
Definition upload (self : t) (record : NodeAgentProviderEventBatchV1.t -> result NodeAgentProviderEventReceiptV1.t) (fs : io)
    (batch : NodeAgentProviderEventBatchV1.t) : method disk unit :=
  receipt ← lift (record batch);
  commit_sync self.(state) receipt fs.

(** The file system during the calls of one pass. *)
Record pass_io := PassIo { io_snapshot : io; io_stage : io; io_commit : io }.

Definition ship_once (self : t) (resolve : RuntimeBinding -> endpoint_answer)
    (event_page : RuntimeBinding -> AgentProviderEventPageRequestV1.t -> result AgentProviderEventPageV1.t)
    (current_time_ms : result N) (batch_id : Uuid)
    (record : NodeAgentProviderEventBatchV1.t -> result NodeAgentProviderEventReceiptV1.t) (fs : pass_io)
    (bindings : list RuntimeBinding) : method disk bool :=
  lift (validate_bindings bindings) ;;
  snapshot ← snapshot_sync self.(state) bindings fs.(io_snapshot);
  match snapshot.(pending) with
  | Some pending => upload self record fs.(io_commit) pending ;; mret true
  | None =>
    batch ← lift (collect self resolve event_page current_time_ms batch_id bindings snapshot);
    match batch with
    | None => mret false
    | Some batch =>
      set_pending_sync self.(state) batch fs.(io_stage) ;;
      upload self record fs.(io_commit) batch ;;
      mret true
    end
  end.
End pass.
End AgentProviderEventShipper.
