(* ===== verification/EventDelivery.v ===== *)
(** * What the event shipper delivers

    The theorems about [EventShipping]: for every history of calls on its state file, through any failures and
    restarts, the pages of a run that were received are a [feed] from its first event, so that the control
    plane misses and repeats nothing; and a matching receipt is always committed. *)

From Stdlib Require Import ZArith NArith Lia String.
From stdpp Require Import gmap sorting.
From S2P Require Import Prelude RustStd BTreeMap External Text Resources NodeCommands AgentProvider AgentProviderRuns NodeRunBindings.
From S2P Require Import AgentProviderEvents CommandJournal OutboundBatches EventShipping.
Import AgentProviderEventShippingError ProviderEventShippingState FileProviderEventShippingState.

Lemma event_invalid_if_Ok c message : invalid_if c message = Ok tt <-> c = false.
Proof. by destruct c. Qed.
#[export] Hint Rewrite event_invalid_if_Ok : results.

Lemma feed_snoc c ps c' p :
  feed c ps c' -> AgentProviderEventPageV1.validate p = Ok tt -> p.(AgentProviderEventPageV1.after_event_sequence) = c' ->
  feed c (ps ++ [p]) p.(AgentProviderEventPageV1.next_after_event_sequence).
Proof.
  intros Hf Hp <-. remember (AgentProviderEventPageV1.after_event_sequence p) as c' eqn:E.
  induction Hf as [c|q ps c Hq Hf IH]; cbn.
  - subst c. constructor; [done|]. constructor.
  - constructor; [done|]. by apply IH.
Qed.

Module EventShippingHistory.
Section history.
Context `{AclContract} `{External} `{ReferenceProfile} (self : FileProviderEventShippingState.t).
Abbreviation disk := (StateFile.disk (S := ProviderEventShippingState.t)).
Abbreviation node := (FileProviderEventShippingState.node_id self).
Implicit Types (d : disk) (s : ProviderEventShippingState.t) (b : NodeAgentProviderEventBatchV1.t) (k : string).

Definition stored d : ProviderEventShippingState.t := StateFile.stored (empty node) d.
Definition valid d : Prop := validate (stored d) node = Ok tt.

Inductive call :=
| Snapshot (bindings : list RuntimeBinding)
| SetPending (batch : NodeAgentProviderEventBatchV1.t)
| Commit (receipt : NodeAgentProviderEventReceiptV1.t).

(** The file after a call.  A process that dies during the call leaves the file as it was or as the call
    would have left it, which are the outcomes of [NotPublished] and [Published]. *)
Definition after_call (fs : io) (c : call) : disk -> disk :=
  match c with
  | Snapshot bindings => run_state (snapshot_sync self bindings fs)
  | SetPending batch => run_state (set_pending_sync self batch fs)
  | Commit receipt => run_state (commit_sync self receipt fs)
  end.

(** The batch a call removed from the file. *)
Definition received (c : call) d d' : list NodeAgentProviderEventBatchV1.t :=
  match c, (stored d).(pending), (stored d').(pending) with
  | Commit _, Some b, None => [b]
  | _, _, _ => []
  end.

Definition run : (call -> Prop) -> disk -> list NodeAgentProviderEventBatchV1.t -> disk -> Prop := History.run after_call received.

(** The run [k] is among the targets of every snapshot. *)
Definition targeted k (c : call) : Prop :=
  match c with Snapshot bindings => exists rb, rb ∈ bindings /\ binding_key rb = Ok k | _ => True end.

(** How far the events of a run were received, and the pages of it. *)
Definition after k s : option N := s.(cursors) !! k ≫= DurableProviderEventCursor.after_event_sequence.
Definition of_run k b : bool := bool_decide (binding_key b.(NodeAgentProviderEventBatchV1.binding) = Ok k).
Definition pages k (bs : list NodeAgentProviderEventBatchV1.t) : list AgentProviderEventPageV1.t :=
  map NodeAgentProviderEventBatchV1.page (List.filter (of_run k) bs).

Lemma active_bindings_keys executions active bindings active' k :
  active_bindings executions active bindings = Ok active' ->
  is_Some (active !! k) \/ (exists rb, rb ∈ bindings /\ binding_key rb = Ok k) -> is_Some (active' !! k).
Proof.
  revert executions active. induction bindings as [|b bindings IH]; intros executions active; cbn [active_bindings].
  { intros [= <-] [?|(b & Hb & _)]; [done|by apply not_elem_of_nil in Hb]. }
  rewrite then_Ok. intros (_ & E). apply result_bind_Ok in E as (key & Hk & E). apply then_Ok in E as [_ E].
  intros Ho. apply (IH _ _ E). destruct Ho as [Ho|(b' & [->|Hb]%elem_of_cons & Hk')].
  - left. destruct (decide (key = k)) as [->|Hne]; [by rewrite lookup_insert_eq; eexists|by rewrite lookup_insert_ne].
  - left. rewrite Hk in Hk'. injection Hk' as ->. rewrite lookup_insert_eq. by eexists.
  - right. by exists b'.
Qed.

Lemma retain_bindings_after s bindings s' k :
  retain_bindings s bindings = Ok s' ->
  s'.(pending) = s.(pending) /\ ((exists rb, rb ∈ bindings /\ binding_key rb = Ok k) -> after k s' = after k s).
Proof.
  unfold retain_bindings. intros (active & Ha & E)%result_bind_Ok. apply then_Ok in E as [_ [= <-]]. split; [done|].
  intros Hb. pose proof (active_bindings_keys _ _ _ _ k Ha (or_intror Hb)) as Hk. unfold after. cbn.
  destruct (s.(cursors) !! k) as [c|] eqn:E.
  - rewrite (proj2 (map_lookup_filter_Some (fun kc : string * DurableProviderEventCursor.t => is_Some (active !! kc.1)) _ k c)); [done|by split].
  - rewrite (proj2 (map_lookup_filter_None (fun kc : string * DurableProviderEventCursor.t => is_Some (active !! kc.1)) _ k)); [done|by left].
Qed.

Lemma event_snapshot_effect bindings fs d :
  after_call fs (Snapshot bindings) d = d
  \/ exists s, after_call fs (Snapshot bindings) d = Some s /\ retain_bindings (stored d) bindings = Ok s
       /\ (stored d).(pending) = None /\ valid (Some s).
Proof.
  cbn. destruct (snapshot_sync self bindings fs d) as [d' r] eqn:E. unfold run_state. rewrite E. cbn.
  unfold snapshot_sync, open in E. apply StateFile.open_bind in E as [->|[Hv E]]; [by left|]. fold (stored d) in *.
  destruct (DurableOutboundBatch.is_pending _) eqn:Ep; [injection E as <- _; by left|]. autorewrite with methods in E.
  destruct (retain_bindings _ _) as [s|] eqn:Er; [|injection E as <- _; by left].
  destruct (_ != _); [|injection E as <- _; by left]. autorewrite with methods in E.
  destruct (validate s _) as [[]|] eqn:Es; [|injection E as <- _; by left].
  apply StateFile.write_bind in E as [->| ->]; [by left| |done]. right. exists s. split_and!; [done..| |done].
  by destruct (stored d).(pending).
Qed.

Lemma event_set_pending_effect batch fs d :
  after_call fs (SetPending batch) d = d
  \/ ((stored d).(pending) = None /\ after_call fs (SetPending batch) d = Some ((stored d) <| pending := Some batch |>)
      /\ valid (after_call fs (SetPending batch) d)).
Proof.
  cbn. destruct (set_pending_sync self batch fs d) as [d' r] eqn:E. unfold run_state. rewrite E. cbn.
  unfold set_pending_sync in E. exec_method E; try (injection E as <- _; by left).
  unfold open in E. apply StateFile.open_bind in E as [->|[Hv E]]; [by left|]. fold (stored d) in *. autorewrite with methods in E.
  destruct (DurableOutboundBatch.stage _ _ _ _) as [next|] eqn:Es; [|injection E as <- _; by left]. autorewrite with methods in E.
  apply DurableOutboundBatch.stage_Ok in Es as (Hp & -> & _).
  destruct (validate _ _) as [[]|] eqn:Ev in E; [|injection E as <- _; by left].
  apply StateFile.write_spec in E as [->| ->]; [by left|]. by right.
Qed.

Lemma event_commit_effect receipt fs d :
  after_call fs (Commit receipt) d = d
  \/ exists b k, (stored d).(pending) = Some b /\ validate_receipt b receipt = Ok tt
       /\ binding_key b.(NodeAgentProviderEventBatchV1.binding) = Ok k
       /\ after_call fs (Commit receipt) d
          = Some ((stored d) <| pending := None |> <| cursors := <[k := cursor_after b]> (stored d).(cursors) |>)
       /\ valid (after_call fs (Commit receipt) d).
Proof.
  cbn. destruct (commit_sync self receipt fs d) as [d' r] eqn:E. unfold run_state. rewrite E. cbn.
  unfold commit_sync, open in E. apply StateFile.open_bind in E as [->|[Hv E]]; [by left|]. fold (stored d) in *.
  autorewrite with methods in E. destruct (DurableOutboundBatch.acknowledge _ _ _ _) as [[b next]|] eqn:Ea; [|injection E as <- _; by left].
  apply DurableOutboundBatch.acknowledge_Ok in Ea as (Hp & -> & Hr). autorewrite with methods in E.
  destruct (binding_key _) as [k|] eqn:Ek; [|injection E as <- _; by left].
  destruct (is_some_and _ _); [injection E as <- _; by left|]. autorewrite with methods in E.
  destruct (validate _ _) as [[]|] eqn:Es in E; [|injection E as <- _; by left].
  apply StateFile.write_spec in E as [->| ->]; [by left|]. right. by exists b, k.
Qed.

Lemma event_call_valid fs c d : valid d -> valid (after_call fs c d).
Proof.
  intros Hv. destruct c as [bindings|batch|receipt].
  - by destruct (event_snapshot_effect bindings fs d) as [->|(s & -> & _ & _ & ?)].
  - by destruct (event_set_pending_effect batch fs d) as [->|(_ & _ & ?)].
  - by destruct (event_commit_effect receipt fs d) as [->|(b & k & _ & _ & _ & _ & ?)].
Qed.

(** What the validation of the state says of the pending batch. *)
Lemma pending_page s b :
  validate s node = Ok tt -> s.(pending) = Some b ->
  NodeAgentProviderEventBatchV1.validate b = Ok tt
  /\ map_err Harness (validate_reference_echo_binding b.(NodeAgentProviderEventBatchV1.binding)) = Ok tt
  /\ exists k, binding_key b.(NodeAgentProviderEventBatchV1.binding) = Ok k /\ continues (s.(cursors) !! k) b = true.
Proof.
  unfold validate. rewrite !then_Ok. intros (_ & _ & Hp) Eb. unfold validate_pending in Hp. rewrite Eb, !then_Ok in Hp.
  destruct Hp as (Hv & _ & Hr & E). apply map_err_Ok in Hv. apply result_bind_Ok in E as (k & Hk & E).
  apply event_invalid_if_Ok, negb_false_iff in E. split_and!; [done..|]. by exists k.
Qed.

Lemma batch_page_valid b :
  NodeAgentProviderEventBatchV1.validate b = Ok tt ->
  AgentProviderEventPageV1.validate b.(NodeAgentProviderEventBatchV1.page) = Ok tt.
Proof.
  unfold NodeAgentProviderEventBatchV1.validate. rewrite !then_Ok. intros (_ & _ & _ & _ & E).
  apply result_bind_Ok in E as (profile & _ & E). apply then_Ok in E as [E _].
  unfold AgentProviderEventPageV1.validate_for in E. by apply then_Ok in E as [? _].
Qed.

Lemma continues_after s b k :
  continues (s.(cursors) !! k) b = true ->
  b.(NodeAgentProviderEventBatchV1.page).(AgentProviderEventPageV1.after_event_sequence) = after k s.
Proof.
  unfold continues, after. destruct (s.(cursors) !! k) as [c|]; cbn.
  - rewrite !andb_true_iff. intros [[_ E%bool_decide_eq_true] _]. done.
  - by destruct (AgentProviderEventPageV1.after_event_sequence _).
Qed.

Lemma call_feed fs c d bs k :
  targeted k c -> valid d -> feed None (pages k bs) (after k (stored d)) ->
  feed None (pages k (bs ++ received c d (after_call fs c d))) (after k (stored (after_call fs c d))).
Proof.
  intros Hc Hv Hf.
  assert (forall d', received c d d' = [] -> after k (stored d') = after k (stored d) ->
            feed None (pages k (bs ++ received c d d')) (after k (stored d'))) as Hquiet.
  { intros d' -> ->. by rewrite app_nil_r. }
  assert (received c d d = []) as Hsame.
  { unfold received. destruct c; try done. by destruct (stored d).(pending). }
  destruct c as [bindings|batch|receipt].
  - destruct (event_snapshot_effect bindings fs d) as [->|(s & -> & Hr & Hp & _)]; [by apply Hquiet|].
    destruct (retain_bindings_after _ _ _ k Hr) as [_ Ha]. apply Hquiet; [done|]. by apply Ha.
  - destruct (event_set_pending_effect batch fs d) as [->|(_ & -> & _)]; [by apply Hquiet|]. by apply Hquiet.
  - destruct (event_commit_effect receipt fs d) as [->|(b & kb & Hp & _ & Hkb & -> & _)]; [by apply Hquiet|].
    destruct (pending_page _ _ Hv Hp) as (Hb & _ & k' & Hk' & Hcont). rewrite Hkb in Hk'. injection Hk' as <-.
    assert (received (Commit receipt) d (Some ((stored d) <| pending := None |> <| cursors := <[kb := cursor_after b]> (stored d).(cursors) |>)) = [b]) as ->.
    { unfold received. by rewrite Hp. }
    unfold pages. rewrite List.filter_app, map_app. cbn [List.filter]. unfold of_run at 2. rewrite Hkb. case_bool_decide as Hk; cbn [map].
    + injection Hk as ->. replace (after k (stored (Some _)))
        with (AgentProviderEventPageV1.next_after_event_sequence (NodeAgentProviderEventBatchV1.page b)).
      * eapply feed_snoc; [exact Hf|by apply batch_page_valid|by apply continues_after].
      * unfold after. cbn. by rewrite lookup_insert_eq.
    + rewrite app_nil_r. replace (after k (stored (Some _))) with (after k (stored d)); [done|].
      unfold after. cbn. rewrite lookup_insert_ne; [done|]. congruence.
Qed.

Lemma event_empty_valid : is_nil node = false -> valid None.
Proof.
  intros Hn. unfold valid, validate. rewrite !then_Ok, event_invalid_if_Ok. split_and!; [|done|done].
  change (negb (bool_decide (SCHEMA = SCHEMA)) || is_nil node || negb (bool_decide (node = node)) = false).
  by rewrite !bool_decide_eq_true_2, Hn.
Qed.

Lemma event_run_valid P d bs d' : run P d bs d' -> valid d -> valid d'.
Proof. intros Hr Hv. apply (History.run_invariant _ _ (fun _ => valid) _ _ _ _ Hr Hv). intros. by apply event_call_valid. Qed.

Lemma run_feed k bs d : is_nil node = false -> run (targeted k) None bs d -> feed None (pages k bs) (after k (stored d)).
Proof.
  intros Hn Hr. apply (History.run_invariant _ _ (fun bs d => valid d /\ feed None (pages k bs) (after k (stored d))) _ _ _ _ Hr).
  - split; [by apply event_empty_valid|]. constructor.
  - intros bs' d' fs c Hc [Hv Hf]. split; [by apply event_call_valid|]. by apply call_feed.
Qed.

(** Only a matching receipt removes the pending batch. *)
Lemma event_pending_kept fs c d b :
  (stored d).(pending) = Some b ->
  (stored (after_call fs c d)).(pending) = Some b \/ exists receipt, c = Commit receipt /\ validate_receipt b receipt = Ok tt.
Proof.
  intros Hb. destruct c as [bindings|batch|receipt].
  - destruct (event_snapshot_effect bindings fs d) as [->|(s & _ & _ & Hp & _)]; [by left|congruence].
  - destruct (event_set_pending_effect batch fs d) as [->|(Hp & _)]; [by left|congruence].
  - destruct (event_commit_effect receipt fs d) as [->|(b' & k & Hp & Hr & _)]; [by left|]. right. exists receipt. split; [done|]. congruence.
Qed.

(** The cursor after a valid page is valid. *)
Lemma cursor_after_valid b k :
  NodeAgentProviderEventBatchV1.validate b = Ok tt ->
  map_err Harness (validate_reference_echo_binding b.(NodeAgentProviderEventBatchV1.binding)) = Ok tt ->
  binding_key b.(NodeAgentProviderEventBatchV1.binding) = Ok k -> validate_cursor k (cursor_after b) = Ok tt.
Proof.
  intros Hb Hr Hk. unfold validate_cursor. cbn. rewrite Hr, Hk. cbn. rewrite bool_decide_eq_true_2 by done. cbn.
  pose proof (batch_page_valid _ Hb) as Hv. unfold AgentProviderEventPageV1.validate in Hv. rewrite !then_Ok, fail_if_Ok in Hv.
  destruct Hv as (_ & _ & Hz & _). rewrite !orb_false_iff in Hz. destruct Hz as [[-> _] _]. cbn.
  by destruct (AgentProviderEventPageV1.retention_gap _), (AgentProviderRunStateV1.is_terminal _), (AgentProviderEventPageV1.has_more _).
Qed.

Lemma event_commit_healthy d b receipt :
  valid d -> (stored d).(pending) = Some b -> validate_receipt b receipt = Ok tt ->
  exists s k, commit_sync self receipt healthy d = (Some s, Ok tt) /\ s.(pending) = None
    /\ binding_key b.(NodeAgentProviderEventBatchV1.binding) = Ok k
    /\ after k s = b.(NodeAgentProviderEventBatchV1.page).(AgentProviderEventPageV1.next_after_event_sequence).
Proof.
  intros Hv Hp Hr. destruct (pending_page _ _ Hv Hp) as (Hb & Hre & k & Hk & Hcont). 
  exists ((stored d) <| pending := None |> <| cursors := <[k := cursor_after b]> (stored d).(cursors) |>), k. split_and!; [|done|done|].
  - unfold commit_sync, open. unfold mbind at 1, method_bind at 1. rewrite StateFile.open_healthy by done.
    change (StateFile.stored _ d) with (stored d). autorewrite with methods. unfold DurableOutboundBatch.acknowledge. rewrite Hp, Hr. cbn.
    autorewrite with methods. rewrite Hk. autorewrite with methods.
    assert (is_some_and (fun cursor => negb (bool_decide (DurableProviderEventCursor.binding cursor = NodeAgentProviderEventBatchV1.binding b)))
              ((stored d).(cursors) !! k) = false) as ->.
    { unfold continues in Hcont. destruct ((stored d).(cursors) !! k) as [c|]; [|done]. cbn. rewrite !andb_true_iff in Hcont.
      by destruct Hcont as [[[-> _] _] _]. }
    autorewrite with methods. assert (validate ((stored d) <| pending := None |> <| cursors := <[k := cursor_after b]> (stored d).(cursors) |>) node = Ok tt) as ->; [|reflexivity].
    unfold valid, validate in *. rewrite !then_Ok in *. destruct Hv as (Hi & Hc & _). split_and!; [done| |done].
    rewrite for_each_Ok, Forall_forall in *. intros [k' c] Hin%elem_of_entries.
    change (<[k := cursor_after b]> (stored d).(cursors) !! k' = Some c) in Hin. apply lookup_insert_Some in Hin as [[<- <-]|[_ Hk']].
    + by apply cursor_after_valid.
    + apply (Hc (k', c)). by apply elem_of_entries.
  - unfold after. cbn. by rewrite lookup_insert_eq.
Qed.
End history.
End EventShippingHistory.

(** ** A pass of the shipper is a history *)
Section passes.
Context `{AclContract} `{External} `{ReferenceProfile} (self : AgentProviderEventShipper.t) (bindings : list RuntimeBinding).
Import EventShippingHistory AgentProviderEventShipper.

Definition of_event_pass (c : call) : Prop := match c with Snapshot bs => bs = bindings | _ => True end.
Abbreviation runs := (History.runs (after_call self.(state)) (received self.(state)) of_event_pass).

(** Whatever the Runtime, the harness, the control plane and the file system answer, a pass does nothing to the
    file but calls of the history, with its own bindings in the snapshot. *)
Theorem event_ship_once_runs resolve event_page now batch_id record fs :
  runs (ship_once self resolve event_page now batch_id record fs bindings).
Proof.
  assert (forall b, runs (upload self record fs.(io_commit) b)) as Hu.
  { intros b. apply History.runs_bind; [apply History.runs_lift|]. intros receipt.
    by apply (History.runs_call _ _ _ _ fs.(io_commit) (Commit receipt)). }
  unfold ship_once. apply History.runs_bind; [apply History.runs_lift|intros _].
  apply History.runs_bind; [by apply (History.runs_call _ _ _ _ fs.(io_snapshot) (Snapshot bindings))|intros snapshot].
  destruct snapshot.(pending) as [b|].
  { apply History.runs_bind; [apply Hu|intros _; apply History.runs_ret]. }
  apply History.runs_bind; [apply History.runs_lift|].
  intros [b|]; [|apply History.runs_ret].
  apply History.runs_bind; [by apply (History.runs_call _ _ _ _ fs.(io_stage) (SetPending b))|intros _].
  apply History.runs_bind; [apply Hu|intros _; apply History.runs_ret].
Qed.
End passes.

Section guarantees.
Context `{AclContract} `{External} `{ReferenceProfile} (self : FileProviderEventShippingState.t).
Import EventShippingHistory.

(** C25: In every history of calls that keep a run among their targets, through any failures and restarts, the
    control plane receives the events of the run once and in order: the pages received are a feed from its first
    event to the stored cursor, so their source events are exactly the positions below the cursor, and the
    pending page is the next one and stays until a receipt that matches it is committed. *)
Theorem provider_events_received_once k bs d :
  is_nil self.(FileProviderEventShippingState.node_id) = false -> run self (targeted k) None bs d ->
  feed None (pages k bs) (after k (stored self d))
  /\ position (after k (stored self d)) = source_events (pages k bs)
  /\ StronglySorted N.lt (AgentProviderEvents.received (pages k bs))
  /\ forall b, (stored self d).(pending) = Some b ->
       (of_run k b = true ->
        b.(NodeAgentProviderEventBatchV1.page).(AgentProviderEventPageV1.after_event_sequence) = after k (stored self d))
       /\ forall fs c, (stored self (after_call self fs c d)).(pending) = Some b
            \/ exists receipt, c = Commit receipt /\ validate_receipt b receipt = Ok tt.
Proof.
  intros Hn Hr. pose proof (run_feed _ _ _ _ Hn Hr) as Hf. destruct (feed_covers _ _ _ Hf) as (Hp & Hs & _). split_and!; [done..|].
  intros b Hb. split; [|intros fs c; by apply event_pending_kept].
  pose proof (event_run_valid _ _ _ _ _ Hr (event_empty_valid _ Hn)) as Hv. destruct (pending_page _ _ _ Hv Hb) as (_ & _ & k' & Hk' & Hc).
  intros Ho%bool_decide_eq_true. rewrite Hk' in Ho. injection Ho as ->. by apply continues_after.
Qed.

(** In every reachable state a receipt that matches the pending batch is committed, and the run's cursor is
    the one of the page. *)
Theorem event_receipt_committed bs d b receipt :
  is_nil self.(FileProviderEventShippingState.node_id) = false -> run self (fun _ => True) None bs d ->
  (stored self d).(pending) = Some b -> validate_receipt b receipt = Ok tt ->
  exists s k, commit_sync self receipt healthy d = (Some s, Ok tt) /\ s.(pending) = None
    /\ binding_key b.(NodeAgentProviderEventBatchV1.binding) = Ok k
    /\ after k s = b.(NodeAgentProviderEventBatchV1.page).(AgentProviderEventPageV1.next_after_event_sequence).
Proof.
  intros Hn Hr. apply event_commit_healthy. eapply event_run_valid; [exact Hr|]. by apply event_empty_valid.
Qed.
End guarantees.
