(* ===== verification/JournalSamples.v ===== *)
(** * A concrete run of the journal

    A toy instance of everything outside the repository, a node that prepares a resource claim,
    starts, stops and removes the claim's Runtime unit and releases the claim, and the theorems of
    the journal at that run. *)

From Stdlib Require Import ZArith NArith Lia String.
From stdpp Require Import gmap relations.
From S2P Require Import Prelude RustStd BTreeMap External Text SharedKernel Resources NodeInventory NodeClaims.
From S2P Require Import NodeGateway NodePluginHost NodeArtifacts NodeBoxBuild AgentProvider AgentProviderRuns.
From S2P Require Import NodeRunBindings NodeCommands CommandJournal JournalLifecycle JournalGuarantees.
From S2P Require Import JournalClaims.
Import CommandJournal FileCommandJournal Journaling.

Module ToyPlatform.

#[export] Instance observation_eq_dec : EqDecision Sample.observation.
Proof. solve_decision. Defined.

(** Encodings that are cheap to evaluate: nothing in the journal depends on their being injective. *)
#[export] Instance external : External := {|
  json_to_vec j := Ok [];
  sha256_hex bytes := "aaaaaaaaaaaaaaaaaaaaaaaaaaaaaaaaaaaaaaaaaaaaaaaaaaaaaaaaaaaaaaaa";
  uuid_v5 ns name := 1%N;
  uuid_display u := str_of [(65 + u)%N];
  time_display t := "time";
  num_display n := "number";
  to_lowercase s := s;
|}.

(** Actions and removals are a request identity, a unit and a generation. *)
Definition action : Type := string * string * N.
Definition action_json (a : action) : json := JArr [JStr a.1.1; JStr a.1.2; JNum a.2].

Abbreviation spec := (@RuntimeUnitSpec Sample.contract) (only parsing).
#[export] Instance spec_eq_dec : EqDecision spec.
Proof. change (EqDecision (string * N * N * N * option N)). apply _. Defined.
#[export] Instance toy_observation_eq_dec : EqDecision (@RuntimeObservation Sample.contract) := observation_eq_dec.

Definition spec_to_json (s : string * N * N * N * option N) : json :=
  JArr [JStr s.1.1.1.1; JNum s.1.1.1.2; JNum s.1.1.2; JNum s.1.2].
Definition toy_digest (s : spec) : result string := Ok Sample.digest_a.
Definition toy_observes (o : @RuntimeObservation Sample.contract) (s : spec) : result unit :=
  fail_if (negb ((observation_unit_id o == spec_unit_id s) && (observation_generation o == spec_generation s))) "mismatch".
Definition toy_terminal (o : @RuntimeObservation Sample.contract) : bool :=
  is_none (observation_provider_resource_id o).

#[export] Instance commands : @RuntimeCommands Sample.contract := {|
  runtime_spec_eq_dec := spec_eq_dec;
  runtime_observation_eq_dec := toy_observation_eq_dec;
  spec_digest := toy_digest;
  observation_validate_against := toy_observes;
  observation_is_terminal := toy_terminal;
  RuntimeApplyRequest := spec;
  RUNTIME_APPLY_SCHEMA := "apply";
  apply_spec := fun s : spec => s;
  apply_validate := fun _ => Ok tt;
  apply_to_json := spec_to_json;
  RuntimeActionRequest := action;
  action_request_id := fun a => a.1.1;
  action_unit_id := fun a => a.1.2;
  action_generation := fun a => a.2;
  action_validate := fun _ => Ok tt;
  action_to_json := action_json;
  InspectionTail := unit;
  found_validate := fun _ _ => Ok tt;
  not_found_validate := fun _ _ => Ok tt;
  RuntimeRemoval := action;
  removal_request_id := fun a => a.1.1;
  removal_unit_id := fun a => a.1.2;
  removal_generation := fun a => a.2;
  removal_validate := fun _ => Ok tt;
|}.

#[export] Instance code : CodeContract := {|
  AGENT_PROTOCOL_V1 := "code";
  RUN_IDENTITY_SCHEMA := "run";
  AgentProtocolCommandV1 := AgentProtocolRunIdentityV1.t;
  AgentProtocolCommandReceiptV1 := unit;
  run_identity_validate := fun _ => inr tt;
  run_identity_to_json := fun _ => JNull;
  code_command_validate := fun _ => inr tt;
  code_command_identity := fun c => c;
  code_command_to_json := fun _ => JNull;
  code_receipt_validate := fun _ => inr tt;
  code_receipt_validate_for := fun _ _ => inr tt;
  code_receipt_observed_at_ms := fun _ => 1%N;
  code_receipt_replayed := fun _ => false;
|}.

(** The plugin host is not used by the samples. *)
#[export] Instance use : UseContract := {|
  PluginHostPlanRequest := unit;
  PluginHostApplyRequest := unit;
  PluginHostEnablementPlanRequest := unit;
  PluginHostObservationRequest := unit;
  PluginHostCapabilities := unit;
  PluginHostPlanResult := unit;
  PluginHostApplyResult := unit;
  PluginHostEnablementPlanResult := unit;
  PluginHostObservationResult := unit;
  PLUGIN_HOST_PLAN_REQUEST_SCHEMA := "plan";
  PLUGIN_HOST_APPLY_REQUEST_SCHEMA := "apply";
  PLUGIN_HOST_ENABLEMENT_PLAN_REQUEST_SCHEMA := "enablement";
  PLUGIN_HOST_OBSERVATION_REQUEST_SCHEMA := "observation";
  plan_request_validate := fun _ => inr tt;
  apply_request_validate := fun _ => inr tt;
  enablement_request_validate := fun _ => inr tt;
  observation_request_validate := fun _ => inr tt;
  plan_request_generation := fun _ => 1%N;
  apply_request_generation := fun _ => 1%N;
  enablement_request_generation := fun _ => 1%N;
  observation_request_generation := fun _ => 1%N;
  plan_request_to_json := fun _ => JNull;
  apply_request_to_json := fun _ => JNull;
  enablement_request_to_json := fun _ => JNull;
  observation_request_to_json := fun _ => JNull;
  capabilities_validate := fun _ => inr tt;
  plan_result_validate := fun _ => inr tt;
  apply_result_validate := fun _ => inr tt;
  enablement_result_validate := fun _ => inr tt;
  observation_result_validate := fun _ => inr tt;
  plan_result_validate_for := fun _ _ _ => inr tt;
  apply_result_validate_for := fun _ _ _ => inr tt;
  enablement_result_validate_for := fun _ _ _ => inr tt;
  observation_result_validate_for := fun _ _ _ => inr tt;
  plan_result_created_at_ms := fun _ => 1%N;
  apply_result_completed_at_ms := fun _ => 1%N;
  enablement_result_planned_at_ms := fun _ => 1%N;
  observation_result_observed_at_ms := fun _ => 1%N;
  plan_result_replayed := fun _ => false;
  apply_result_replayed := fun _ => false;
  enablement_result_replayed := fun _ => false;
|}.

#[export] Instance artifacts : ArtifactContract := {|
  artifact_validate := fun _ => Ok tt;
  artifact_to_json := fun _ => JNull;
  output_artifact_to_json := fun _ => JNull;
|}.

#[export] Instance acl : AclContract := {|
  Document := unit;
  Block := unit;
  Value := unit;
  acl_parse := fun _ => inr tt;
  canonical_bytes := fun _ => inr [];
  acl_canonical_digest := fun _ => inr EmptyString;
  document_blocks := fun _ => [];
  block_name := fun _ => EmptyString;
  block_labels := fun _ => [];
  block_blocks := fun _ => [];
  block_attribute := fun _ _ => None;
  block_attributes := fun _ => 0%N;
  value_as_str := fun _ => None;
  value_as_list := fun _ => None;
|}.

#[export] Instance platform : Platform := {|
  platform_external := external;
  platform_runtime := Sample.contract;
  platform_commands := commands;
  platform_code := code;
  platform_use := use;
  platform_artifacts := artifacts;
  platform_acl := acl;
|}.

End ToyPlatform.

(** ** The run *)
Module JournalRun.
Import ToyPlatform.

Definition self : FileCommandJournal.t := FileCommandJournal.Mk 2.

Definition command (id sequence aggregate : N) (payload : NodeCommandPayload.t) : NodeCommandEnvelope.t :=
  match NodeCommandEnvelope.new (NodeCommandMetadata.Mk id 100 2 sequence aggregate 1000000000 9000000000 7) payload with
  | Ok envelope => envelope
  | Err _ => NodeCommandEnvelope.Mk EmptyString 0 0 0 0 0 0 EmptyString EmptyString 0 0 0 payload
  end.

Definition digest_b : string :=
  "sha256:bbbbbbbbbbbbbbbbbbbbbbbbbbbbbbbbbbbbbbbbbbbbbbbbbbbbbbbbbbbbbbbb".
Definition binding : NodeResourceClaimBinding.t :=
  NodeResourceClaimBinding.Mk NodeResourceClaimBinding.SCHEMA 1 2 3 4 Sample.digest_a "unit" 1 Sample.digest_a
    [Sample.cpu; Sample.memory].
Definition prepare : NodeResourceClaimPrepare.t :=
  NodeResourceClaimPrepare.Mk NodeResourceClaimPrepare.SCHEMA 1 Sample.digest_a binding.
Definition release : NodeResourceClaimRelease.t :=
  NodeResourceClaimRelease.Mk NodeResourceClaimRelease.SCHEMA 3 digest_b binding.
Definition spec : RuntimeApplyRequest := ("unit", 1%N, 500%N, 4096%N, None)%string.
Definition stop : RuntimeActionRequest := ("stop", "unit", 1%N)%string.

Definition prepare_command := command 11 1 1 (NodeCommandPayload.ResourceClaimPrepare prepare).
Definition apply_command := command 12 2 50 (NodeCommandPayload.RuntimeApply spec (Some binding)).
Definition stop_command := command 13 3 50 (NodeCommandPayload.RuntimeStop stop).
Definition release_command := command 14 4 1 (NodeCommandPayload.ResourceClaimRelease release).

Definition succeeded (result : result NodeCommandResult.t) : NodeCommandOutcome.t :=
  match result with
  | Ok result => NodeCommandOutcome.Succeeded result
  | Err _ => NodeCommandOutcome.Failed (NodeCommandFailure.Mk "error" "error" false)
  end.

Definition observation : RuntimeObservation :=
  run_state (NodeResourceClaimBinding.bind_runtime_observation binding)
    (Sample.Observation "unit" 1 (Some "box")%string None).

Definition prepared := succeeded (p ← NodeResourceClaimPrepared.new prepare 5000000000; Ok (NodeCommandResult.ResourceClaimPrepared p)).
Definition applied := succeeded (Ok (NodeCommandResult.RuntimeApplied observation)).
Definition stopped := succeeded (Ok (NodeCommandResult.RuntimeStopped (RuntimeInspection.NotFound "unit" tt))).
Definition released := succeeded (p ← NodeResourceClaimReleased.new release 5000000000; Ok (NodeCommandResult.ResourceClaimReleased p)).

Definition receipt (id : N) : NodeCommandAckReceipt.t :=
  NodeCommandAckReceipt.Mk NodeCommandAckReceipt.SCHEMA id 2 false.

Definition calls : list call :=
  [Begin prepare_command; Complete 11 6000000000 prepared; MarkAcknowledged (receipt 11);
   Begin apply_command; Complete 12 6000000000 applied;
   Begin stop_command; Complete 13 6000000000 stopped;
   Begin release_command; Complete 14 6000000000 released].

Definition disk_after (calls : list call) : disk :=
  fold_left (fun d c => after_call self healthy c d) calls None.

Lemma calls_run d l : run self d (fold_left (fun d c => after_call self healthy c d) l d).
Proof.
  induction l as [|c l IH] using rev_ind; [constructor|]. rewrite fold_left_app. cbn [fold_left]. by constructor.
Qed.

Lemma disk_after_reachable l : reachable self (disk_after l).
Proof. apply calls_run. Qed.

Lemma disk_after_app l l' : run self (disk_after l) (disk_after (l ++ l')).
Proof. unfold disk_after. rewrite fold_left_app. apply calls_run. Qed.

(** The journal after the first calls. *)
Definition journal (n : nat) : CommandJournal.t := stored self (disk_after (take n calls)).

Lemma disk_after_journal n : is_some (disk_after (take n calls)) = true -> disk_after (take n calls) = Some (journal n).
Proof. unfold journal. by destruct (disk_after (take n calls)). Qed.

Lemma journal_reachable n : is_some (disk_after (take n calls)) = true -> reachable self (Some (journal n)).
Proof. intros Hn. rewrite <- (disk_after_journal n Hn). apply disk_after_reachable. Qed.

Lemma journal_run n m :
  is_some (disk_after (take n calls)) = true -> (n <= m)%nat ->
  run self (Some (journal n)) (disk_after (take m calls)).
Proof.
  intros Hn Hm. rewrite <- (disk_after_journal n Hn).
  replace (take m calls) with (take n calls ++ drop n (take m calls)); [apply disk_after_app|].
  rewrite <- (take_drop n (take m calls)) at 2. f_equal. rewrite take_take. f_equal. lia.
Qed.

(** Reads what a witness needs from a computed test. *)
Lemma found_if {A} (o : option A) (test : A -> bool) : is_some_and test o = true -> exists a, o = Some a /\ test a = true.
Proof. destruct o; [eauto|done]. Qed.

Definition completed_with (outcome : NodeCommandOutcome.t) (e : JournalEntry.t) : bool :=
  is_some_and (fun c => c.(JournalCompletion.outcome) == outcome) e.(JournalEntry.completion).

Definition redelivered : NodeCommandEnvelope.t := prepare_command <| NodeCommandEnvelope.lease_id := 200%N |>.

Lemma completed_command_replayed_witness :
  exists ack d', begin_sync self redelivered healthy (disk_after (take 4 calls)) = (d', Ok (JournalDecision.Replay ack))
    /\ ack.(NodeCommandAck.outcome) = prepared.
Proof.
  destruct (found_if ((journal 3).(entries) !! 11%N) (completed_with prepared)) as (e & He & Hc);
    [vm_compute; reflexivity|].
  destruct (found_if _ _ Hc) as (c & Hec & Ho). apply bool_decide_eq_true in Ho.
  destruct (begin_sync self redelivered healthy (disk_after (take 4 calls))) as [d' [decision|]] eqn:E;
    [|apply (f_equal (fun r => is_ok r.2)) in E; vm_compute in E; discriminate E].
  destruct (completed_command_replayed self (journal 3) (disk_after (take 4 calls)) d' healthy e c redelivered decision)
    as (ack & -> & Hack & _).
  - apply journal_reachable. vm_compute. reflexivity.
  - exact He.
  - exact Hec.
  - apply journal_run; [vm_compute; reflexivity|lia].
  - exact E.
  - exists ack, d'. split; [reflexivity|]. rewrite Hack. exact Ho.
Defined.

Lemma redelivery_answered_witness :
  exists e d' decision, (journal 5).(entries) !! 12%N = Some e
    /\ begin_sync self (e.(JournalEntry.envelope) <| NodeCommandEnvelope.lease_id := 200%N |>) healthy
         (Some (journal 5)) = (d', Ok decision).
Proof.
  destruct (found_if ((journal 5).(entries) !! 12%N)
              (fun e => e.(JournalEntry.envelope).(NodeCommandEnvelope.command_id) == 12%N)) as (e & He & Hid);
    [vm_compute; reflexivity|]. apply bool_decide_eq_true in Hid.
  destruct (redelivery_answered self (journal 5) e 200%N) as (d' & decision & Hb & _).
  - apply journal_reachable. vm_compute. reflexivity.
  - rewrite Hid. exact He.
  - discriminate.
  - exists e, d', decision. split; [exact He|exact Hb].
Defined.

Lemma journal_refines_log_witness :
  CommandLog.step (history (journal 1)) (history (journal 2)) \/ history (journal 2) = history (journal 1).
Proof.
  destruct (journal_refines_log self healthy (Complete 11 6000000000 prepared) (disk_after (take 1 calls)))
    as [_ [Hl|Hl]].
  - apply reachable_ok, disk_after_reachable.
  - right. exact Hl.
  - left. exact Hl.
Defined.

Lemma executes_if (r : disk * result JournalDecision.t) :
  bool_decide (r.2 = Ok JournalDecision.Execute) = true -> r = (r.1, Ok JournalDecision.Execute).
Proof. intros <-%bool_decide_eq_true. apply surjective_pairing. Qed.

Lemma journal_sequences_witness : JournalEntry.sequence <$> by_sequence (journal 3) = numbers 1.
Proof.
  destruct (journal_sequences self (journal 3) apply_command healthy
              (begin_sync self apply_command healthy (Some (journal 3))).1) as [Hs _].
  - apply journal_reachable. vm_compute. reflexivity.
  - apply executes_if. vm_compute. reflexivity.
  - rewrite Hs. vm_compute. reflexivity.
Defined.

Lemma journal_cursor_witness :
  (after_sequence_sync self healthy (disk_after (take 3 calls))).2 = Ok 1%N /\ (1 <= 1)%N.
Proof.
  destruct (journal_cursor self (disk_after (take 3 calls)) (disk_after calls) healthy healthy 1%N 1%N) as [_ Hle].
  - apply disk_after_reachable.
  - apply (disk_after_app (take 3 calls) (drop 3 calls)).
  - vm_compute. reflexivity.
  - vm_compute. reflexivity.
  - split; [vm_compute; reflexivity|exact Hle].
Defined.

Lemma journal_generation_fence_witness :
  exists e e', by_sequence (journal 9) !! 0%nat = Some e /\ by_sequence (journal 9) !! 3%nat = Some e'
    /\ (e.(JournalEntry.envelope).(NodeCommandEnvelope.generation)
         <= e'.(JournalEntry.envelope).(NodeCommandEnvelope.generation))%N.
Proof.
  destruct (found_if (by_sequence (journal 9) !! 0%nat) (fun e =>
      (e.(JournalEntry.envelope).(NodeCommandEnvelope.aggregate_id) == 1%N)
      && (state_mutation_digest e.(JournalEntry.envelope).(NodeCommandEnvelope.payload) == Ok (Some Sample.digest_a))))
    as (e & He & Ht); [vm_compute; reflexivity|].
  destruct (found_if (by_sequence (journal 9) !! 3%nat) (fun e =>
      (e.(JournalEntry.envelope).(NodeCommandEnvelope.aggregate_id) == 1%N)
      && (state_mutation_digest e.(JournalEntry.envelope).(NodeCommandEnvelope.payload) == Ok (Some digest_b))))
    as (e' & He' & Ht'); [vm_compute; reflexivity|].
  apply andb_true_iff in Ht as [Ha Hd], Ht' as [Ha' Hd']. apply bool_decide_eq_true in Ha, Hd, Ha', Hd'.
  destruct (journal_generation_fence self (journal 9) 0 3 e e' Sample.digest_a digest_b) as [Hle _].
  - apply journal_reachable. vm_compute. reflexivity.
  - lia.
  - exact He.
  - exact He'.
  - congruence.
  - exact Hd.
  - exact Hd'.
  - exists e, e'. split; [exact He|]. split; [exact He'|exact Hle].
Defined.

Lemma pending_acknowledgements_complete_witness :
  exists acks, pending_acknowledgements_sync self healthy (Some (journal 5)) = (Some (journal 5), Ok acks).
Proof.
  destruct (pending_acknowledgements_complete self (journal 5)) as (acks & Hacks & _).
  - apply journal_reachable. vm_compute. reflexivity.
  - exists acks. exact Hacks.
Defined.

Lemma claim_released_after_fence_witness :
  exists f x, (1 < f < 3)%nat /\ by_sequence (journal 9) !! f = Some x /\ fences binding x = true.
Proof.
  destruct (found_if (by_sequence (journal 9) !! 1%nat) (applies binding)) as (e & He & Happ); [vm_compute; reflexivity|].
  destruct (found_if (by_sequence (journal 9) !! 3%nat) (releases binding)) as (e' & He' & Hrel); [vm_compute; reflexivity|].
  apply (claim_released_after_fence self (journal 9) 1 3 e e' binding).
  - apply journal_reachable. vm_compute. reflexivity.
  - exact He.
  - exact Happ.
  - exact He'.
  - exact Hrel.
  - lia.
Defined.

(** *** Two claims that share capacity *)
Definition other_binding : NodeResourceClaimBinding.t :=
  NodeResourceClaimBinding.Mk NodeResourceClaimBinding.SCHEMA 5 2 3 4 Sample.digest_a "other" 1 Sample.digest_a
    [Sample.cpu; Sample.memory].
Definition other_prepare : NodeResourceClaimPrepare.t :=
  NodeResourceClaimPrepare.Mk NodeResourceClaimPrepare.SCHEMA 1 Sample.digest_a other_binding.
Definition other_prepared :=
  succeeded (p ← NodeResourceClaimPrepared.new other_prepare 5000000000; Ok (NodeCommandResult.ResourceClaimPrepared p)).

Definition two_claims : disk :=
  disk_after (take 2 calls ++ [Begin (command 15 2 5 (NodeCommandPayload.ResourceClaimPrepare other_prepare));
                               Complete 15 6000000000 other_prepared]).

Lemma active_claims_exclusive_witness : compatible binding other_binding.
Proof.
  destruct (active_resource_claim_bindings_sync self healthy two_claims) as [d' [bindings|]] eqn:E;
    [|apply (f_equal (fun r => is_ok r.2)) in E; vm_compute in E; discriminate E].
  assert (Hb : bindings = [binding; other_binding]).
  { assert (Ht : bool_decide ((active_resource_claim_bindings_sync self healthy two_claims).2
                              = Ok [binding; other_binding]) = true) by (vm_compute; reflexivity).
    apply bool_decide_eq_true in Ht. rewrite E in Ht. by injection Ht. }
  destruct (active_claims_exclusive self two_claims healthy d' bindings 0 1 binding other_binding) as [_ Hc].
  - exact E.
  - discriminate.
  - by rewrite Hb.
  - by rewrite Hb.
  - exact Hc.
Defined.

End JournalRun.
