(* ===== verification/FleetSamples.v ===== *)
(** * A concrete run of the node repository

    A node is enrolled, reports, negotiates, joins a pool, gets a command, leases it, acknowledges
    it and is revoked; the theorems of the repository at that run. *)

From Stdlib Require Import ZArith NArith Lia String.
From stdpp Require Import gmap relations.
From S2P Require Import Prelude RustStd BTreeMap External Text SharedKernel Repositories Resources NodeInventory NodeClaims.
From S2P Require Import NodeGateway NodeCommands NodeObservations NodeSessions LogRetention NodePools.
From S2P Require Import CommandJournal JournalLifecycle JournalGuarantees JournalSamples.
From S2P Require Import Fleet FleetRepository FleetControl FleetLifecycle FleetFrame FleetQueue FleetGuarantees.
From S2P Require Import FleetPools FleetCertificates FleetDelivery FleetLogs FleetAgent.
Import State.

Module FleetRun.
Import ToyPlatform.

#[export] Instance reports : RuntimeReports := {|
  RuntimeCapabilities := unit;
  runtime_capabilities_validate := fun _ => Ok tt;
  runtime_provider_id := fun _ => "box"%string;
  runtime_provider_build := fun _ => "1"%string;
  runtime_capabilities_to_value := fun _ => Ok (JObj []);
  RuntimeLogChunk := unit;
  log_chunk_validate := fun _ => Ok tt;
  log_chunk_sequence := fun _ => 1%N;
  log_chunk_cursor := fun _ => "cursor"%string;
  log_chunk_data := fun _ => EmptyString;
  log_chunk_to_json := fun _ => JNull;
|}.

(** ** Histories by evaluation *)
Definition is_generated (c : call) (s : State.t) : bool :=
  match c with
  | IssueEnrollmentToken token _ => is_none (s.(tokens) !! token.(EnrollmentToken.id))
  | ReserveEnrollment _ draft =>
    all (fun node => node.(Node.id) != draft.(NodeEnrollmentDraft.proposed_node_id)) (values s.(nodes))
  | CompleteEnrollment _ _ _ certificate => is_none (s.(certificates) !! certificate.(NodeCertificate.id))
  | CompleteCertificateRotation completion =>
    is_none (s.(certificates) !! completion.(NodeCertificateRotationCompletion.replacement).(NodeCertificate.id))
  | _ => true
  end.

Lemma is_generated_true c s : is_generated c s = true -> generated c s.
Proof.
  assert (Hnone : forall A (o : option A), is_none o = true -> o = None) by (by intros A []).
  destruct c; simpl; auto. intros Hall k node Hk E.
  unfold all in Hall. rewrite forallb_forall in Hall. specialize (Hall node).
  rewrite <- list_elem_of_In, elem_of_values in Hall. specialize (Hall (ex_intro _ k Hk)). by rewrite E, bool_decide_eq_true_2 in Hall.
Qed.

Fixpoint all_generated (l : list call) (s : State.t) : bool :=
  match l with [] => true | c :: l => is_generated c s && all_generated l (perform c s) end.

Definition performed (l : list call) (s : State.t) : State.t := fold_left (fun s c => perform c s) l s.

Lemma performed_history l s : all_generated l s = true -> history s (performed l s).
Proof.
  revert s. induction l as [|c l IH]; intros s; simpl; [constructor|]. intros [Hc Hl]%andb_true_iff.
  eapply history_trans; [|by apply IH]. apply history_step; [constructor|by apply is_generated_true].
Qed.

(** ** The run *)
Definition second : Z := 1000000000.
Definition credential : EnrollmentTokenCredential.t := EnrollmentTokenCredential.Mk "sha256:a".
Definition token : EnrollmentToken.t := EnrollmentToken.Mk 1 10 "edge" "edge" credential 0 (100 * second) None None 1.
Definition idempotency (key : string) : IdempotencyRequest.t := IdempotencyRequest.Request "fleet" key "digest".
Definition capabilities : NodeCapabilities.t := NodeCapabilities.Mk "box" "1" "digest" (JObj []).
Definition draft : NodeEnrollmentDraft.t :=
  NodeEnrollmentDraft.Mk 2 (NodeName.Mk (ResourceName.Mk "edge" "edge")) 9 "1.0" capabilities "request" second.
Definition certificate (id : N) (fingerprint : string) : NodeCertificate.t :=
  NodeCertificate.Mk id 2 "serial" fingerprint "pem" "ca" 0 (100 * second) None.
Definition heartbeat : NodeHeartbeatUpdate.t := NodeHeartbeatUpdate.Mk 2 9 "1.0" capabilities (2 * second).

Definition pool : NodePool.t :=
  match NodePool.create 7 10 (ResourceName.Mk "pool" "pool") [2]%N second with
  | Ok p => p
  | Err _ => NodePool.Mk 0 0 (ResourceName.Mk "" "") [] 0 [] None "" 0 0 0
  end.
Definition save : NodePoolWrite.t := NodePoolWrite.Mk pool None (PoolEvent.Mk (Some 10%N) 7 1) (idempotency "pool").

Definition contracts (l : list string) : NodeProtocolContractSet.t :=
  NodeProtocolContractSet.Mk ["a3s.command.v1"%string] l.
Definition hello (sequence : N) (offered : list string) previous : NodeSessionHello.t :=
  NodeSessionHello.Mk NodeSessionHello.SCHEMA 2 9 40 sequence (3 * second) "1.0" (contracts offered) previous.
Definition policy : NodeProtocolPolicy.t :=
  NodeProtocolPolicy.Mk (contracts ["a3s.report.v1"; "a3s.report.v2"]%string) (contracts ["a3s.report.v1"]%string).
Definition negotiation (session : N) (hello : NodeSessionHello.t) : call :=
  Negotiate (NodeProtocolNegotiation.Mk hello policy (3 * second) (hours 1) session).
Definition first_selection : NodeSessionSelectionReference.t :=
  NodeSessionSelectionReference.Mk 50 1 Sample.digest_a.

Definition command_draft (id aggregate : N) (payload : NodeCommandPayload.t) : NodeCommandDraft.t :=
  NodeCommandDraft.Mk id 2 aggregate payload second (9 * second) 7.
Definition lease_request (max : N) : NodeCommandLeaseRequest.t :=
  NodeCommandLeaseRequest.Mk NodeCommandLeaseRequest.SCHEMA 2 9 0 max 0.
Definition lease (max lease_id : N) : call := LeaseCommands (lease_request max) lease_id (2 * second) (8 * second).

Definition enrolled : list call :=
  [IssueEnrollmentToken token (idempotency "token"); ReserveEnrollment credential draft;
   CompleteEnrollment 1 2 "request" (certificate 30 "first"); RecordHeartbeat heartbeat; SavePool save;
   negotiation 50 (hello 1 ["a3s.report.v1"]%string None)].
Definition queued : list call :=
  [EnqueueCommand (command_draft 11 1 (NodeCommandPayload.ResourceClaimPrepare JournalRun.prepare));
   EnqueueCommand (command_draft 12 50 (NodeCommandPayload.RuntimeStop JournalRun.stop))].
Definition calls : list call := (enrolled ++ queued ++ [lease 1 100])%list.
Definition state : State.t := performed calls State.empty.

Example run_answers :
  is_some (state.(nodes) !! (10, 2)%N) && is_some (state.(protocol_sessions) !! 2%N)
  && is_some (state.(node_pools) !! (10, 7)%N) && is_some (state.(certificates) !! 30%N)
  && bool_decide (dom state.(State.commands) = {[11; 12]}%N)
  && is_some_and (fun st => is_some st.(StoredNodeCommand.lease)) (state.(State.commands) !! 11%N)
  && is_ok (InMemoryNodeRepository.authenticate_certificate "first" (2 * second) state) = true.
Proof. vm_compute. reflexivity. Qed.

Import JournalRun.

Lemma state_reachable : reachable state.
Proof. apply performed_history. vm_compute. reflexivity. Qed.

(** *** Commands *)
Definition before_lease : State.t := performed (enrolled ++ queued) State.empty.

Lemma before_lease_reachable : reachable before_lease.
Proof. apply performed_history. vm_compute. reflexivity. Qed.

Lemma command_queue_dense_witness : NodeCommand.sequence <$> commands_of state 2%N = numbers 2.
Proof.
  destruct (found_if (state.(nodes) !! (10, 2)%N)
              (fun n => (n.(Node.id) == 2%N) && (n.(Node.last_sequence) == 2%N))) as (n & Hn & Ht);
    [vm_compute; reflexivity|]. apply andb_true_iff in Ht as [Hid Hl]. apply bool_decide_eq_true in Hid, Hl.
  destruct (command_queue_dense state (10, 2)%N n) as [Hs _].
  - apply state_reachable.
  - exact Hn.
  - rewrite Hid, Hl in Hs. exact Hs.
Defined.

Lemma lease_exact_witness :
  exists response envelope,
    run_result (CommandQueue.lease_commands (lease_request 1) 100 (2 * second) (8 * second)) before_lease = Ok response
    /\ response.(NodeCommandLeaseResponse.commands) = [envelope].
Proof.
  destruct (run_result (CommandQueue.lease_commands (lease_request 1) 100 (2 * second) (8 * second)) before_lease)
    as [response|] eqn:E; [|apply (f_equal is_ok) in E; vm_compute in E; discriminate E].
  destruct (lease_exact before_lease (lease_request 1) 100 (2 * second) (8 * second) response) as [Hf _].
  - apply before_lease_reachable.
  - exact E.
  - apply Forall2_length in Hf.
    assert (Hl : length (due before_lease (lease_request 1) (canonical_timestamp (2 * second))) = 1%nat)
      by (vm_compute; reflexivity).
    rewrite Hl in Hf. destruct (NodeCommandLeaseResponse.commands response) as [|envelope [|]] eqn:Er; [discriminate Hf| |discriminate Hf].
    exists response, envelope. split; [reflexivity|exact Er].
Defined.

Definition ack : NodeCommandAck.t :=
  NodeCommandAck.Mk NodeCommandAck.SCHEMA 11 100 2 1 Sample.digest_a (6 * second) prepared.
Definition acknowledged_state : State.t := perform (AcknowledgeCommand ack) state.
Definition change (state : NodeState.t) : NodeStateChange.t :=
  NodeStateChange.Mk 10 2 state 2 (7 * second) (idempotency "state").
Definition revocation : NodeStateChange.t := change NodeState.Revoked.
Definition revoked_state : State.t := perform (SetState revocation) acknowledged_state.

Lemma acknowledged_reachable : reachable acknowledged_state.
Proof. apply history_step; [apply state_reachable|exact I]. Qed.

Lemma revoked_reachable : reachable revoked_state.
Proof. apply history_step; [apply acknowledged_reachable|exact I]. Qed.

Lemma acknowledgement_final_witness :
  exists st, acknowledged_state.(State.commands) !! 11%N = Some st /\ revoked_state.(State.commands) !! 11%N = Some st
    /\ is_some st.(StoredNodeCommand.acknowledgement) = true.
Proof.
  destruct (found_if (acknowledged_state.(State.commands) !! 11%N)
              (fun st => is_some st.(StoredNodeCommand.acknowledgement))) as (st & Hst & Ha); [vm_compute; reflexivity|].
  destruct (StoredNodeCommand.acknowledgement st) as [a|] eqn:E; [|discriminate Ha].
  destruct (acknowledgement_final acknowledged_state revoked_state 11 st a) as (_ & Hst' & _).
  - apply acknowledged_reachable.
  - apply history_step; [apply history_refl|exact I].
  - exact Hst.
  - exact E.
  - exists st. split; [exact Hst|]. split; [exact Hst'|]. rewrite E. reflexivity.
Defined.

(** *** Nodes, pools, sessions and certificates *)
Lemma revoked_node_final_witness :
  reachable revoked_state
  /\ ~ (exists x, InMemoryNodeRepository.authenticate_certificate "first" (8 * second)
                  (perform (RecordHeartbeat heartbeat) revoked_state) = Ok x /\ x.(Node.id) = 2%N).
Proof.
  split; [apply revoked_reachable|].
  destruct (found_if (revoked_state.(nodes) !! (10, 2)%N)
              (fun n => (n.(Node.id) == 2%N) && (n.(Node.state) == NodeState.Revoked))) as (n & Hn & Ht);
    [vm_compute; reflexivity|]. apply andb_true_iff in Ht as [Hid Hs]. apply bool_decide_eq_true in Hid, Hs.
  destruct (revoked_node_final revoked_state (perform (RecordHeartbeat heartbeat) revoked_state) (10, 2)%N n) as [Ha _].
  - apply revoked_reachable.
  - exact Hn.
  - exact Hs.
  - apply history_step; [apply history_refl|exact I].
  - intros (x & Hx & Hi). apply (Ha "first"%string (8 * second)%Z x Hx). by rewrite Hi, Hid.
Defined.

Lemma scheduling_candidates_exact_witness :
  NoDup (Node.id <$> InMemoryNodeRepository.list_scheduling_candidates 10 (Some 7%N) second state)
  /\ (Node.id <$> InMemoryNodeRepository.list_scheduling_candidates 10 (Some 7%N) second state) = [2]%N.
Proof.
  split; [|vm_compute; reflexivity].
  destruct (scheduling_candidates_exact state 10 (Some 7%N) second) as (_ & _ & _ & Hd & _); [apply state_reachable|exact Hd].
Defined.

Definition renegotiated : State.t :=
  perform (negotiation 51 (hello 2 ["a3s.report.v1"; "a3s.report.v2"]%string (Some first_selection))) state.

Lemma protocol_never_downgraded_witness :
  exists r r', state.(protocol_sessions) !! 2%N = Some r /\ renegotiated.(protocol_sessions) !! 2%N = Some r'
    /\ session_later r r'.
Proof.
  destruct (found_if (state.(protocol_sessions) !! 2%N) (fun _ => true)) as (r & Hr & _); [vm_compute; reflexivity|].
  destruct (protocol_never_downgraded state renegotiated 2%N r) as (r' & Hr' & Hl).
  - exact Hr.
  - apply history_step; [apply history_refl|exact I].
  - exists r, r'. split; [exact Hr|]. split; [exact Hr'|exact Hl].
Defined.

(** The second selection is accepted and speaks more. *)
Example renegotiation_extends :
  is_some_and (fun r => (r.(NodeProtocolSessionRecord.selection).(NodeSessionSelection.generation) == 2%N)
                        && (r.(NodeProtocolSessionRecord.selection).(NodeSessionSelection.contracts)
                              == contracts ["a3s.report.v1"; "a3s.report.v2"]%string))
    (renegotiated.(protocol_sessions) !! 2%N) = true.
Proof. vm_compute. reflexivity. Qed.

Lemma certificate_exclusive_witness :
  is_some (revoked_state.(certificates) !! 30%N) = true
  /\ ~ (exists x, InMemoryNodeRepository.authenticate_certificate "first" (8 * second) revoked_state = Ok x).
Proof.
  split; [vm_compute; reflexivity|].
  destruct (found_if (revoked_state.(certificates) !! 30%N)
              (fun c => (c.(NodeCertificate.fingerprint) == "first"%string) && is_some c.(NodeCertificate.revoked_at)))
    as (c & Hc & Ht); [vm_compute; reflexivity|].
  apply andb_true_iff in Ht as [Hf Hr]. apply bool_decide_eq_true in Hf.
  destruct (certificate_exclusive revoked_state) as [_ Hrev]; [apply revoked_reachable|].
  intros (x & Hx). rewrite <- Hf in Hx. refine (proj1 (Hrev 30%N c revoked_state _ x Hc Hr _) Hx). apply history_refl.
Defined.

(** *** Logs *)
Definition chunk : NodeLogChunkReceiptDraft.t :=
  NodeLogChunkReceiptDraft.Mk "unit" 1 "cursor" 5 1000 "stdout" Sample.digest_a "logs/5".
Definition position : NodeId * string * N * N := (2%N, "unit"%string, 1%N, 5%N).
Definition logged : State.t :=
  perform (RecordLogChunks (NodeLogBatchReceiptDraft.Mk 70 2 Sample.digest_a second [chunk] []) (3 * second)) state.
Definition compaction : list FleetLifecycle.call :=
  [MarkLogChunkRetained (NodeLogRetentionTarget.Mk 2 "unit" 1 5 "logs/5" (3 * second)) (4 * second);
   CompactLogTombstones (5 * second) (6 * second) 10].
Definition compacted_state : State.t := performed compaction logged.

Lemma log_positions_write_once_witness :
  is_some (logged.(log_chunks) !! position) = true /\ compacted_state.(log_chunks) !! position = None
  /\ compacted compacted_state position.
Proof.
  destruct (found_if (logged.(log_chunks) !! position) (fun _ => true)) as (c & Hc & _); [vm_compute; reflexivity|].
  split; [rewrite Hc; reflexivity|].
  destruct (log_positions_write_once logged compacted_state position) as [Hw _].
  - apply history_step; [apply state_reachable|exact I].
  - apply performed_history. vm_compute. reflexivity.
  - destruct (Hw c Hc) as [(c' & Hc' & _)|Hcomp]; [|exact Hcomp].
    apply (f_equal is_some) in Hc'. vm_compute in Hc'. discriminate Hc'.
Defined.

End FleetRun.

(** ** The node and its control plane *)
Module AgentRun.
Import ToyPlatform JournalRun FleetRun.

(** Repository calls other than acknowledgements, as steps of the system. *)
Fixpoint deliveries (l : list FleetLifecycle.call) (s : State.t) (sent : list NodeCommandEnvelope.t) : list NodeCommandEnvelope.t :=
  match l with [] => sent | c :: l => deliveries l (perform c s) (envelopes self c s ++ sent) end.

Definition is_foreign (c : FleetLifecycle.call) : bool :=
  match c with AcknowledgeCommand _ => false | _ => true end.

Lemma performed_steps l s d dl snt :
  all_generated l s = true -> forallb is_foreign l = true ->
  rtc (system_step self) (System s d dl snt) (System (performed l s) d (deliveries l s dl) snt).
Proof.
  revert s dl. induction l as [|c l IH]; intros s dl; simpl; [intros; apply rtc_refl|].
  intros [Hc Hl]%andb_true_iff [Hf Hfl]%andb_true_iff. eapply rtc_l; [|by apply IH].
  apply repository_call; [by apply is_generated_true|by destruct c].
Qed.

Definition delivered_envelopes : list NodeCommandEnvelope.t := deliveries FleetRun.calls State.empty [].
Definition envelope : NodeCommandEnvelope.t :=
  match delivered_envelopes with e :: _ => e | [] => prepare_command end.
Definition begun : FileCommandJournal.disk := Journaling.after_call self CommandJournal.healthy (Journaling.Begin envelope) None.
Definition completed_disk : FileCommandJournal.disk := Journaling.after_call self CommandJournal.healthy (Journaling.Complete 11 (6 * second) prepared) begun.
Definition final : system := System acknowledged_state completed_disk delivered_envelopes [FleetRun.ack].

Lemma begin_inj (x y : NodeCommandEnvelope.t) : Journaling.Begin x = Journaling.Begin y -> y = x.
Proof. congruence. Qed.

Lemma final_reachable : system_reachable self final.
Proof.
  unfold system_reachable. etrans.
  { apply (performed_steps FleetRun.calls); vm_compute; reflexivity. }
  eapply rtc_l.
  { apply (journal_call self _ _ _ _ CommandJournal.healthy (Journaling.Begin envelope)). intros x ->%begin_inj.
    assert (Hin : bool_decide (envelope ∈ delivered_envelopes) = true) by (vm_compute; reflexivity).
    exact (proj1 (bool_decide_eq_true _) Hin). }
  eapply rtc_l.
  { apply (journal_call self _ _ _ _ CommandJournal.healthy (Journaling.Complete 11 (6 * second) prepared)). intros x E. discriminate E. }
  eapply rtc_l.
  { destruct (found_if ((Journaling.stored self completed_disk).(CommandJournal.entries) !! 11%N)
      (fun e => bool_decide (JournalEntry.acknowledgement e = Ok (Some FleetRun.ack)))) as (e & He & Ha);
      [vm_compute; reflexivity|]. apply bool_decide_eq_true in Ha.
    exact (send self _ completed_disk _ _ 11%N e FleetRun.ack He Ha). }
  eapply rtc_l; [|apply rtc_refl]. apply (acknowledge self state completed_disk delivered_envelopes [FleetRun.ack] FleetRun.ack).
  left.
Qed.

Lemma acknowledged_outcome_journaled_witness :
  exists e, (Journaling.stored self completed_disk).(CommandJournal.entries) !! 11%N = Some e
    /\ is_some e.(JournalEntry.completion) = true.
Proof.
  destruct (found_if (acknowledged_state.(State.commands) !! 11%N) (fun st =>
      (st.(StoredNodeCommand.command).(NodeCommand.node_id) == 2%N) && is_some st.(StoredNodeCommand.acknowledgement)))
    as (st & Hst & Ht); [vm_compute; reflexivity|].
  apply andb_true_iff in Ht as [Hn Ha]. apply bool_decide_eq_true in Hn.
  destruct (StoredNodeCommand.acknowledgement st) as [a|] eqn:E; [|discriminate Ha].
  destruct (acknowledged_outcome_journaled self final 11 st a) as (e & c & He & Hc & _).
  - apply final_reachable.
  - exact Hst.
  - exact Hn.
  - exact E.
  - exists e. split; [exact He|]. rewrite Hc. reflexivity.
Defined.

Lemma journal_follows_queue_witness : exists c, commands_of acknowledged_state 2%N !! 0%nat = Some c.
Proof.
  destruct (found_if (JournalLifecycle.history (Journaling.stored self completed_disk) !! 0%nat) (fun _ => true))
    as (r & Hr & _); [vm_compute; reflexivity|].
  destruct (journal_follows_queue self final 0 r) as (c & lease_id & env & Hc & _).
  - apply final_reachable.
  - exact Hr.
  - exists c. exact Hc.
Defined.

End AgentRun.
