(* ===== verification/ShippingSamples.v ===== *)
(** * Concrete runs of the two shippers

    A node ships two batches of the log of one unit, and two pages of the events of one run; the theorems of
    [LogDelivery] and [EventDelivery] at these runs. *)

From Stdlib Require Import ZArith NArith Lia String.
From stdpp Require Import gmap sorting.
From S2P Require Import Prelude RustStd BTreeMap External Text Resources NodeClaims NodeCommands NodeObservations AgentProvider.
From S2P Require Import AgentProviderRuns NodeRunBindings AgentProviderEvents CommandJournal JournalSamples OutboundBatches.
From S2P Require Import LogShipping LogDelivery EventShipping EventDelivery.

(** ** Logs *)
Module LogRun.
Import ToyPlatform LogShippingHistory.

(** A chunk is its sequence. *)
#[export] Instance reports : RuntimeReports := {|
  RuntimeCapabilities := unit;
  runtime_capabilities_validate := fun _ => Ok tt;
  runtime_provider_id := fun _ => "box"%string;
  runtime_provider_build := fun _ => "1"%string;
  runtime_capabilities_to_value := fun _ => Ok (JObj []);
  RuntimeLogChunk := N;
  log_chunk_validate := fun _ => Ok tt;
  log_chunk_sequence := fun n => n;
  log_chunk_cursor := fun n => str_of [(65 + n)%N];
  log_chunk_data := fun _ => "data"%string;
  log_chunk_to_json := JNum;
|}.

Definition self : FileLogShippingState.t := FileLogShippingState.Mk 2.
Definition key : string * N := ("unit"%string, 1%N).

Definition report (n : N) : NodeLogChunkReport.t :=
  NodeLogChunkReport.Mk "unit" 1 n (sha256_digest (bytes_of "data"%string)).
Definition gap (n : N) : NodeLogGapReport.t :=
  NodeLogGapReport.Mk "unit" 1 (Some (str_of [67%N])) n 10 RuntimeLogDiscontinuityReason.CursorLost.
Definition batch (id : N) (chunks : list N) (gaps : list NodeLogGapReport.t) : NodeLogChunkBatch.t :=
  NodeLogChunkBatch.Mk NodeLogChunkBatch.SCHEMA id 2 10 (map report chunks) gaps.
Definition receipt (b : NodeLogChunkBatch.t) : NodeLogChunkReceipt.t :=
  NodeLogChunkReceipt.Mk NodeLogChunkReceipt.SCHEMA b.(NodeLogChunkBatch.batch_id) 2
    (len b.(NodeLogChunkBatch.chunks)) (len b.(NodeLogChunkBatch.gaps)) false.

Definition first : NodeLogChunkBatch.t := batch 7 [0; 2]%N [].
Definition second : NodeLogChunkBatch.t := batch 8 [] [gap 3].
Definition third : NodeLogChunkBatch.t := batch 9 [4]%N [].

Definition calls : list call :=
  [Snapshot [RuntimeLogTarget.Mk "unit" 1]; SetPending first; Commit (receipt first); SetPending second;
   Snapshot [RuntimeLogTarget.Mk "unit" 1]; Commit (receipt second); SetPending third].

Definition disk_after : StateFile.disk := History.after_calls (after_call self) healthy calls None.
Definition shipped := History.received_during (after_call self) (received self) healthy calls None.

Lemma calls_targeted : Forall (targeted key) calls.
Proof. repeat constructor. Qed.

Lemma log_deliveries_increase_witness :
  delivered key shipped = [0; 2; 3]%N /\ StronglySorted N.lt (delivered key shipped)
  /\ (forall x, x ∈ delivered key shipped -> (x < 4)%N).
Proof.
  destruct (log_deliveries_increase self key shipped disk_after eq_refl) as [Hs Hp];
    [exact (History.run_calls _ _ _ healthy calls None calls_targeted)|].
  destruct (Hp third) as (_ & Hlt & _); [vm_compute; reflexivity|]. split_and!; [vm_compute; reflexivity|exact Hs|].
  intros x Hx. apply (Hlt x 4%N Hx). vm_compute. constructor.
Defined.

Lemma log_receipt_committed_witness :
  exists s, FileLogShippingState.commit_sync self (receipt third) healthy disk_after = (Some s, Ok tt)
    /\ s.(LogShippingState.pending) = None /\ position s key = Some 4%N.
Proof.
  assert (Forall (fun _ : call => True) calls) as Ht by repeat constructor.
  destruct (log_receipt_committed self shipped disk_after third (receipt third) eq_refl) as (Hok & _ & _).
  - exact (History.run_calls _ _ _ healthy calls None Ht).
  - vm_compute; reflexivity.
  - vm_compute; reflexivity.
  - destruct Hok as (s & Es & Hp & Hk).
    + intros k r Hl. apply last_chunk_of in Hl as [Hin _].
      change (r ∈ [report 4]) in Hin. apply list_elem_of_singleton in Hin as ->. vm_compute. reflexivity.
    + exists s. split_and!; [exact Es|exact Hp|]. rewrite (Hk key). vm_compute. reflexivity.
Defined.
End LogRun.

(** ** Events *)
Module EventRun.
Import EventShippingHistory.

#[export] Instance external : External := ToyPlatform.external.

(** The profile [acl] is the only one that parses. *)
Definition attributes : list (string * (string + list string)) :=
  [("revision", inl "1.0.0"); ("protocol", inl AGENT_PROVIDER_PROTOCOL_V1); ("native_protocol", inl "echo");
   ("schema", inl AGENT_PROVIDER_PROFILE_SCHEMA_V1);
   ("capabilities", inr (map AgentProviderCapabilityV1.as_str BASELINE))]%string.

#[export] Instance acl : AclContract := {|
  Document := unit;
  Block := unit;
  Value := string + list string;
  acl_parse := fun _ => inr tt;
  canonical_bytes := fun _ => inr (bytes_of "acl"%string);
  acl_canonical_digest := fun _ => inr EventSamples.digest;
  document_blocks := fun _ => [tt];
  block_name := fun _ => AGENT_PROVIDER_BLOCK;
  block_labels := fun _ => ["echo"%string];
  block_blocks := fun _ => [];
  block_attribute := fun _ name => snd <$> List.find (fun kv : string * (string + list string) => bool_decide (kv.1 = name)) attributes;
  block_attributes := fun _ => 5%N;
  value_as_str := fun v => match v with inl s => Some s | inr _ => None end;
  value_as_list := fun v => match v with inl _ => None | inr l => Some (map inl l) end;
|}.

#[export] Instance reference : ReferenceProfile := "acl"%string.

Definition capability_digest : string :=
  match AgentProviderProfile.parse_acl "acl" with Ok profile => profile.(AgentProviderProfile.capability_digest) | Err _ => EmptyString end.

Definition identity : AgentProviderRunIdentityV1.t :=
  AgentProviderRunIdentityV1.Mk AgentProviderRunIdentityV1.SCHEMA EventSamples.digest capability_digest None EventSamples.digest "session" "run".
Definition binding : NodeAgentProviderRuntimeBindingV1.t :=
  NodeAgentProviderRuntimeBindingV1.Mk NodeAgentProviderRuntimeBindingV1.SCHEMA 11 12 13 14 15 "unit" 1 EventSamples.digest "http" "acl"
    EventSamples.digest identity.

Definition page (p : AgentProviderEventPageV1.t) : AgentProviderEventPageV1.t :=
  let '(AgentProviderEventPageV1.Mk schema _ after available first last count latest next state observed gap more failure events) := p in
  AgentProviderEventPageV1.Mk schema identity after available first last count latest next state observed gap more failure events.

Definition self : FileProviderEventShippingState.t := FileProviderEventShippingState.Mk 2.

Definition batch (id : N) (p : AgentProviderEventPageV1.t) : NodeAgentProviderEventBatchV1.t :=
  NodeAgentProviderEventBatchV1.Mk NodeAgentProviderEventBatchV1.SCHEMA id 2 binding (page p) 40.

Definition receipt (b : NodeAgentProviderEventBatchV1.t) : NodeAgentProviderEventReceiptV1.t :=
  let p := b.(NodeAgentProviderEventBatchV1.page) in
  NodeAgentProviderEventReceiptV1.Mk NodeAgentProviderEventReceiptV1.SCHEMA b.(NodeAgentProviderEventBatchV1.batch_id) 2 11
    (AgentProviderEventReceiptV1.Mk AgentProviderEventReceiptV1.SCHEMA b.(NodeAgentProviderEventBatchV1.batch_id) identity
       match AgentProviderEventPageV1.digest p with Ok digest => digest | Err _ => EmptyString end
       p.(AgentProviderEventPageV1.next_after_event_sequence) p.(AgentProviderEventPageV1.state)
       (len p.(AgentProviderEventPageV1.events)) p.(AgentProviderEventPageV1.source_event_count) 50 false).

Definition first : NodeAgentProviderEventBatchV1.t := batch 7 EventSamples.first.
Definition second : NodeAgentProviderEventBatchV1.t := batch 8 EventSamples.second.

Definition calls : list call :=
  [Snapshot [binding]; SetPending first; Commit (receipt first); Snapshot [binding]; SetPending second].

Definition disk_after : StateFile.disk := History.after_calls (after_call self) healthy calls None.
Definition shipped := History.received_during (after_call self) (received self) healthy calls None.

Definition key : string := match binding_key binding with Ok key => key | Err _ => EmptyString end.

Lemma event_calls_targeted : Forall (targeted key) calls.
Proof. repeat constructor; (exists binding; split; [constructor|vm_compute; reflexivity]). Qed.

Lemma provider_events_received_once_witness :
  AgentProviderEvents.received (pages key shipped) = [0; 2]%N
  /\ after key (stored self disk_after) = Some 2%N
  /\ StronglySorted N.lt (AgentProviderEvents.received (pages key shipped))
  /\ (page EventSamples.second).(AgentProviderEventPageV1.after_event_sequence) = after key (stored self disk_after).
Proof.
  destruct (provider_events_received_once self key shipped disk_after eq_refl) as (_ & _ & Hs & Hp);
    [exact (History.run_calls _ _ _ healthy calls None event_calls_targeted)|].
  destruct (Hp second) as [Hafter _]; [vm_compute; reflexivity|].
  split_and!; [vm_compute; reflexivity|vm_compute; reflexivity|exact Hs|]. apply Hafter. vm_compute. reflexivity.
Defined.
End EventRun.
